(* ===== verification/_CoqProject ===== *)
-Q . S2P
Prelude.v
CMem.v
CString.v
Crc32.v
Rsa.v
Sha.v
MmcDev.v
Sparse.v
SparseSpec.v
Eff.v
CBuf.v
Vsprintf.v
Ptable.v
Env.v
EnvSpec.v
Cli.v
CliSpec.v
CliRun.v
Complete.v
CompleteSpec.v
Help.v
HelpSpec.v
Readline.v
ReadlineSpec.v
Idme.v
IdmeSpec.v
IdmeBoot.v
Gpt.v
GptSpec.v
Fastboot.v
FastbootSafe.v
FastbootSpec.v
FastbootCases.v
Atags.v
AtagsSpec.v
Booti.v
BootiSpec.v
Bootmsg.v
BootmsgSpec.v
MainLoop.v
MainSpec.v
MainBoot.v
PartDos.v
Fat.v
FatName.v
FatTable.v
FatSpec.v
FatDir.v
FatRoot.v
FatLayout.v
FatPath.v
FatCmd.v
FatCmdSpec.v
Lists.v
ListsSpec.v
Console.v
ConsoleSpec.v
Bootm.v
BootmSpec.v
Flash.v
Memory.v
MemorySpec.v
Battery.v
BatterySpec.v
Hsmmc.v
HsmmcSpec.v
