(* ===== verification/Prelude.v ===== *)
(** * Verification of the Kindle Fire HD 7 boot loader

    The repository is a U-Boot for the Amazon "bowser"/"tate" tablets
    ([CustomUboot/], TI OMAP4) with the Android device files around it.  This
    library models the code the boot loader of this board is made of, from the
    driver of its memory cards up, in the configuration
    [include/configs/tate.h], and proves what makes it correct.  Source paths below are relative to
    [src/CustomUboot/].

    ** The program

    At power-on the board code directs the console to its devices
    ([common/console.c], [common/devices.c], over the lists of
    [common/lists.c]), sets up the memory card ([cpu/omap4/mmc.c]) and reads
    the partition table of the eMMC
    ([board/bowser/mmc.c]), the board variables ([common/cmd_idme.c]) and the
    environment ([common/cmd_nvedit.c]).  A command line ([common/main.c])
    runs the boot command of the environment.  A host can take over through
    USB: the fastboot protocol ([common/cmd_fastboot.c]) downloads images and
    flashes them, expanding sparse images on the way ([cpu/omap4/sparse.c]).
    The boot command loads an Android image from a partition
    ([common/cmd_bootm.c]), writes the list of tags for the kernel
    ([lib_arm/armlinux.c]) and enters it; images of mkimage are booted by
    another command ([common/cmd_bootm.c]).  Commands can also be typed, with
    line editing, completion and help, memory looked at and changed
    ([common/cmd_mem.c], [common/flash.c]), and files read from a FAT volume
    ([common/cmd_fat.c], [fs/fat/fat.c]) in a DOS partition
    ([disk/part_dos.c]).  The signature check of images (RSA
    over SHA-1: [common/rsa.c], [common/sha.c], [common/crypto.c]) is
    compiled in, but with [SIGNATURE_BYPASS] defined nothing calls it; nor
    does anything call the loop that charges an empty battery
    ([drivers/battery_loop.c], [drivers/bq27541.c], [drivers/twl6030.c]).  All
    of it stands on the C library in [lib_generic].

    ** How code becomes definitions

    - A C integer is a [Z] kept at its width by [u8], [u32], [u64] and the
      signed [s8], [s32] below; the wrap-around is written where the code can
      reach it.  Plain [char] is unsigned (ARM ABI), [long] has 32 bits.
    - Undefined behaviour (an access outside of an object, a null pointer) is
      [None] of the [option] monad; a theorem that a function returns
      [Some _] therefore says that it stays inside its objects.  The string
      library is modelled over a byte-addressed memory ([CMem]); above it a
      pointer is the list of the bytes up to the end of its object ([CBuf]),
      and the two views are proved to agree.
    - Global state is passed through the monad [ST] of [Eff], with a
      total-correctness weakest precondition [wp].
    - A C loop is [loop fuel step] (below): [step] is one evaluation of the
      condition and the body.  The fuel of each loop is computed from its
      input: the length of the object it scans plus one, the number of
      missing bytes, the table size.  Fuel that runs out gives [None], so
      every theorem that shows [Some _] also shows that the fuel is enough:
      the code terminates.  [loop_total] and [for_total] are the rules with
      an invariant and a measure.
    - Uninitialised arrays are arguments, and the theorems hold for all of
      their contents.
    - The eMMC ([MmcDev]), its controller's registers ([Hsmmc]), the USB
      side, the console and the board's buses ([Battery]) are type classes,
      with laws where a theorem needs them, instantiated by simulated devices
      for the concrete examples.

    ** The files

    - [Prelude]: integers, C arrays as lists ([idx], [upd], [slice], [blit]),
      loops, and the automation shared by all files.
    - [CMem], [CString]: [lib_generic/string.c] over memory.  [memmove] for
      every overlap, [strtok], [strcmp] and the other functions.
    - [Crc32]: [lib_generic/crc32.c]; equal to the bit-wise shift register,
      and incremental.
    - [Rsa], [Sha]: signatures.  Montgomery multiplication on 64 words,
      [modpow3] is the cube modulo n, [RSA_verify] accepts exactly the
      PKCS#1 encodings; streaming SHA-1 equals the block-wise definition.
    - [MmcDev]: the card behind [mmc_read], [mmc_write], [mmc_sw_part].
      [Hsmmc], [HsmmcSpec]: the driver below these calls, over registers;
      over a controller that behaves as documented it moves sectors, whatever
      the delays.
    - [Sparse], [SparseSpec]: the streaming expander refines the meaning of a
      sparse image, cut anywhere into sections of 512 bytes or more and a
      last one of any size; it is safe on any input.  A hole moves the
      position by its size in 32 bits.
    - [Eff]: the state monad.  [CBuf], [Vsprintf]: strings as lists, number
      parsing and printing with their round trip.
    - [Ptable]: the table of flash partitions.
    - [Env], [EnvSpec]: the environment is a list of variables; [getenv] is
      lookup and [_do_setenv] is removal and insertion at the end.
    - [Cli], [CliSpec], [CliRun]: a command line.  Splitting, replacing
      variables, looking a command up, and the refinement of [run_command]
      by the meaning of a line.
    - [Idme], [IdmeSpec], [IdmeBoot]: the board variables; round trip and
      frame of an update, transfer from the user area, the choice of the boot
      image, the partition that is left selected.
    - [Gpt], [GptSpec]: the GUID partition table: formatting and reading back
      is the static layout.
    - [Fastboot]: the protocol handler and the commands, with
      [common/cmd_mmc.c] behind them.  [FastbootSafe]: the invariant, kept by
      every packet that is accepted (below).  [FastbootSpec]: sessions as
      reachability, downloads, flashing.  [FastbootCases]: concrete boards, and
      the commands whose behaviour needs them, or is undefined.

    - [Atags], [AtagsSpec]: the tags.  What is written is what the kernel
      reads.  [Booti], [BootiSpec]: the image of the selected partition is in
      memory, with the tags, when the kernel is entered; without an image the
      board goes to fastboot.
    - [Complete], [CompleteSpec]: completion of commands ([common/command.c])
      inserts the longest common continuation of the names that match, and
      shows exactly the text inserted, the list of them, or the bell.
    - [Readline], [ReadlineSpec]: line editing with history ([common/main.c])
      refines an editor of a list of characters with a cursor.
    - [Bootmsg], [BootmsgSpec]: the boot message of the "misc" partition;
      what is written is read back.
    - [MainLoop], [MainSpec], [MainBoot]: the boot delay, the choice of the
      boot command and the prompt loop; a start without a key pressed enters
      the kernel of the partition the message and the variables choose.
    - [PartDos]: the DOS partition table and its chain of extended tables.
    - [Fat]: all of [fs/fat/fat.c].  [FatName]: short and long names;
      [FatTable]: the entries of the allocation table through its cache;
      [FatSpec]: the contents of a file along its chain of clusters;
      [FatDir], [FatRoot]: looking a name up in a directory and in the root;
      [FatLayout]: where the fields of the boot sector put the parts of a
      volume, and that the code finds them there; [FatPath]: reading a file
      by its path; [FatCmd], [FatCmdSpec]: the commands, which find the volume
      on a card and bring a file to memory and its size to the environment.
    - [Lists], [ListsSpec]: the growing lists of [common/lists.c] as lists of
      items; inserting, in every case, removing duplicates, binary search.
    - [Console], [ConsoleSpec]: the devices and the three files directed to
      them; what start-up sets up, and what an assignment does.
    - [Bootm], [BootmSpec]: images of mkimage: the header, its checksums, the
      gzip header, loading, the RAM disk, and the entry of the kernel.
    - [Help], [HelpSpec]: [help] prints the commands in the order of their
      names.
    - [Flash], [Memory], [MemorySpec]: the banks of flash memory, and the
      commands that show, change, copy and compare memory.
    - [Battery], [BatterySpec]: the gauge, the power chip, and the loop that
      charges an empty battery; it ends.

    ** Interaction

    [Fastboot] uses [Ptable] to find partitions, [Sparse] to expand, [Idme]
    for [oem idme], [Gpt] for [oem format], [Vsprintf] and [CBuf] for its
    texts, and [MmcDev] for the card; [flash_sparse] composes them: the bytes
    on the card are the meaning of the image downloaded.  [Idme] and [Gpt]
    stand on [MmcDev]; [Gpt] fills the table of [Ptable] and uses [Crc32].
    [Cli] reads the environment of [Env].  [Booti] selects the image with
    [Idme], finds its partition with [Ptable], falls back to [Fastboot], and
    lays out the memory of [CMem].  [Readline] completes with [Complete];
    [MainLoop] reads with [Readline], runs with [Cli], and asks [Bootmsg] and
    [Idme] what to boot.  [FatPath] composes the layers of [Fat]: the root
    directory, the directories below it, the table and the clusters, over the
    block device that [PartDos] partitions; [FatCmd] adds memory ([CMem]) and
    the environment.  [Console] keeps its devices in a list of [Lists], and is
    an instance of the interface [Env] has for it.  [Bootm] uses [Env],
    [Crc32] and [Atags], and has the inflater of zlib as a parameter.  [Help]
    prints the table of [Cli]; [Memory] stands on [CMem], [Crc32] and
    [Flash].

    ** Bounds that show in the statements

    A tag list has at most [TAGS_ROOM] bytes.  Names with a
    terminator, a card whose laws hold ([MmcLaws];
    [reliable] where a transfer must not fail), images that fit 32-bit sector
    numbers.  On a FAT volume clusters of at most 128 sectors, files below 2
    GiB, path names below 256 characters, and chains that end: their fuel is
    the number of bytes wanted, or of clusters; sectors of 512 bytes, and a
    layout that fits the 16 bits the code has for it, with the root directory
    of FAT32 in cluster 2 ([FatLayout.readable]; [data_begin_wraps] and
    [root_cluster_ignored] show what happens otherwise).  Fastboot commands
    with a terminator, other than those that are undefined
    ([FastbootCases]) and the two "oem" commands that have theorems of
    their own ([FastbootSafe.command_ok]).  Lines to complete
    whose last word begins the first candidate ([CompleteSpec.tab_fine]).
    Blocks of lists below 2 GiB.
    Copies of aligned objects below 2^32.  Sectors of a card whose arguments
    fit 32 bits, a controller with at most [N] empty readings of its status
    between two events, and loops that read it more often than [N], and more
    often than a command has blocks.  The battery loop counts five seconds in
    a round, and 18000 at most: 3602 rounds.  Where a command goes on until a
    key is pressed ([mtest], [loop], [mm]) the fuel is the number of rounds
    that are looked at.
    Each is a hypothesis with a witness.

    ** Not modelled

    The USB controller, the chips behind the buses, the flash chips'
    drivers, assembly, clocks and start-up code; code that the board's
    configuration leaves out (other boards and CPUs, the network, file systems
    other than FAT, the hush parser); most of what is printed, except where
    the text is the result ([printenv], [help], fastboot's answers, the echo
    of the line editor, the comparison of memory); the registration of a card
    with the file system at the end of [mmc_init], which [FatCmd] has as a
    call of its own; the listing of a partition table; vendored code (zlib,
    bzip2, dlmalloc); the Android files under [Device/] that configure or wrap
    hardware.

    ** State

    The components planned are modelled.  What could follow: the drivers of
    USB and of the charger over an interface of registers, as in [Hsmmc]; the
    disposal of lists, which needs a model of the heap; and running [Idme],
    [Gpt] and [Fastboot] over [Hsmmc] directly, where an error the driver
    takes for success would show in their results. *)
From stdpp Require Import base tactics option list gmap strings.
From Stdlib Require Import ZArith Lia.

(* ------------------------------------------------------------------ *)
(** * Machine integers *)

Declare Scope cint_scope.
Delimit Scope cint_scope with C.

Definition u8 (z : Z) : Z := (z mod 256)%Z.
Definition u16 (z : Z) : Z := (z mod 65536)%Z.
Definition u32 (z : Z) : Z := (z mod 4294967296)%Z.
Definition u64 (z : Z) : Z := (z mod 18446744073709551616)%Z.
Definition s8 (z : Z) : Z := ((z + 128) mod 256 - 128)%Z.
Definition s16 (z : Z) : Z := ((z + 32768) mod 65536 - 32768)%Z.
Definition s32 (z : Z) : Z := ((z + 2147483648) mod 4294967296 - 2147483648)%Z.
Definition s64 (z : Z) : Z :=
  ((z + 9223372036854775808) mod 18446744073709551616 - 9223372036854775808)%Z.

(** A byte value. *)
Definition is_byte (z : Z) : Prop := (0 <= z < 256)%Z.
Definition is_u32 (z : Z) : Prop := (0 <= z < 4294967296)%Z.

#[export] Instance is_byte_dec z : Decision (is_byte z).
Proof. unfold is_byte. apply _. Defined.
#[export] Instance is_u32_dec z : Decision (is_u32 z).
Proof. unfold is_u32. apply _. Defined.

Notation "a +% b" := (u32 (a + b)) (at level 50, left associativity) : cint_scope.
Notation "a -% b" := (u32 (a - b)) (at level 50, left associativity) : cint_scope.
Notation "a *% b" := (u32 (a * b)) (at level 40, left associativity) : cint_scope.

(** ASCII text as the byte list the compiler would emit (without the
    terminating NUL). *)
Fixpoint str (s : string) : list Z :=
  match s with
  | EmptyString => []
  | String c s' => Z.of_N (Ascii.N_of_ascii c) :: str s'
  end.
Arguments str s%_string_scope.

(* ------------------------------------------------------------------ *)
(** * Loops *)

(** [loop fuel step s] iterates [step]: [inl] continues, [inr] is the exit.
    [None] is either undefined behaviour met by [step] or the fuel running
    out; the lemmas below show when neither happens. *)
Fixpoint loop {S R : Type} (fuel : nat) (step : S → option (S + R)) (s : S) : option R :=
  match fuel with
  | O => None
  | Datatypes.S fuel' =>
      match step s with
      | None => None
      | Some (inl s') => loop fuel' step s'
      | Some (inr r) => Some r
      end
  end.

(** [for_ n i body s] is [for (; n iterations; i++) body]. *)
Fixpoint for_ {S : Type} (n : nat) (i : Z) (body : Z → S → option S) (s : S) : option S :=
  match n with
  | O => Some s
  | Datatypes.S n' =>
      match body i s with
      | None => None
      | Some s' => for_ n' (i + 1)%Z body s'
      end
  end.

Section loops.
Context {S R : Type}.
Implicit Types (step : S → option (S + R)) (s : S) (r : R).

Lemma loop_S step n s :
  loop (Datatypes.S n) step s =
    match step s with None => None | Some (inl s') => loop n step s' | Some (inr r) => Some r end.
Proof. done. Qed.

Lemma loop_mono step n m s r :
  n ≤ m → loop n step s = Some r → loop m step s = Some r.
Proof.
  revert m s. induction n as [|n IH]; intros m s Hle H; [done|].
  destruct m as [|m]; [lia|]. simpl in *.
  destruct (step s) as [[s'|r']|]; [|done..]. apply IH; [lia|done].
Qed.

(** Total correctness of a loop: an invariant with a decreasing measure. *)
Lemma loop_total step (I : S → Prop) (mu : S → nat) (Q : R → Prop) :
  (∀ s, I s → ∃ x, step s = Some x ∧
      match x with inl s' => I s' ∧ mu s' < mu s | inr r => Q r end) →
  ∀ n s, I s → mu s < n → ∃ r, loop n step s = Some r ∧ Q r.
Proof.
  intros Hstep. induction n as [|n IH]; intros s HI Hn; [lia|]. simpl.
  destruct (Hstep s HI) as ([s'|r] & -> & H).
  - destruct H as [HI' Hmu]. apply IH; [done|lia].
  - eauto.
Qed.

(** Partial correctness: what a result that is returned satisfies. *)
Lemma loop_partial step (I : S → Prop) (Q : R → Prop) :
  (∀ s x, I s → step s = Some x → match x with inl s' => I s' | inr r => Q r end) →
  ∀ n s r, I s → loop n step s = Some r → Q r.
Proof.
  intros Hstep. induction n as [|n IH]; intros s r HI H; [done|]. simpl in H.
  destruct (step s) as [[s'|r']|] eqn:E; [| |done].
  - eapply IH; [|done]. exact (Hstep _ _ HI E).
  - simplify_eq. exact (Hstep _ _ HI E).
Qed.

(** A deterministic run given as a sequence of states. *)
Lemma loop_run step (f : nat → S) (n : nat) r :
  (∀ k, k < n → step (f k) = Some (inl (f (Datatypes.S k)))) →
  step (f n) = Some (inr r) →
  ∀ fuel, n < fuel → loop fuel step (f 0) = Some r.
Proof.
  intros Hs Hr.
  assert (∀ k fuel, k ≤ n → n - k < fuel → loop fuel step (f k) = Some r) as H.
  { intros k fuel. revert k. induction fuel as [|fuel IH]; intros k Hk Hf; [lia|]. simpl.
    destruct (decide (k = n)) as [->|Hne]; [by rewrite Hr|].
    rewrite Hs by lia. apply IH; lia. }
  intros fuel Hf. apply H; lia.
Qed.

Lemma for_total (I : Z → S → Prop) body n i s :
  I i s →
  (∀ j s, (i <= j < i + Z.of_nat n)%Z → I j s →
     ∃ s', body j s = Some s' ∧ I (j + 1)%Z s') →
  ∃ s', for_ n i body s = Some s' ∧ I (i + Z.of_nat n)%Z s'.
Proof.
  revert i s. induction n as [|n IH]; intros i s HI Hb.
  - exists s. simpl. by rewrite Z.add_0_r.
  - destruct (Hb i s) as (s1 & E & H1); [lia|done|]. simpl. rewrite E.
    destruct (IH (i + 1)%Z s1 H1) as (s2 & E2 & H2).
    { intros j s' Hj. apply Hb. lia. }
    exists s2. split; [done|]. by replace (i + Z.of_nat (Datatypes.S n))%Z
      with (i + 1 + Z.of_nat n)%Z by lia.
Qed.

Lemma for_ext body body' n i s :
  (∀ j s, (i <= j < i + Z.of_nat n)%Z → body j s = body' j s) →
  for_ n i body s = for_ n i body' s.
Proof.
  revert i s. induction n as [|n IH]; intros i s H; simpl; [done|].
  rewrite <-H by lia. destruct (body i s) as [s'|]; [|done].
  apply IH. intros. apply H. lia.
Qed.

Lemma for_app body n m i s :
  for_ (n + m) i body s = s' ← for_ n i body s; for_ m (i + Z.of_nat n)%Z body s'.
Proof.
  revert i s. induction n as [|n IH]; intros i s.
  - simpl. by rewrite Z.add_0_r.
  - simpl. destruct (body i s) as [s'|]; simpl; [|done]. rewrite IH.
    by replace (i + 1 + Z.of_nat n)%Z with (i + Z.of_nat (Datatypes.S n))%Z by lia.
Qed.

Lemma for_snoc body n i s :
  for_ (Datatypes.S n) i body s =
    s' ← for_ n i body s; body (i + Z.of_nat n)%Z s'.
Proof.
  replace (Datatypes.S n) with (n + 1) by lia. rewrite for_app.
  destruct (for_ n i body s) as [s'|]; simpl; [|done].
  by destruct (body _ s').
Qed.
End loops.

(* ------------------------------------------------------------------ *)
(** * Arrays: lists indexed by Z, undefined out of range *)

Definition idx {A : Type} (l : list A) (i : Z) : option A :=
  if (i <? 0)%Z then None else l !! Z.to_nat i.

Definition upd {A : Type} (l : list A) (i : Z) (x : A) : option (list A) :=
  if ((0 <=? i) && (i <? Z.of_nat (length l)))%Z then Some (<[Z.to_nat i := x]> l) else None.

(** [blit dst off src] is [memcpy(dst + off, src, length src)] on an array:
    undefined when it does not fit. *)
Definition blit {A : Type} (dst : list A) (off : Z) (src : list A) : option (list A) :=
  if ((0 <=? off) && (off + Z.of_nat (length src) <=? Z.of_nat (length dst)))%Z
  then Some (take (Z.to_nat off) dst ++ src ++ drop (Z.to_nat off + length src) dst)
  else None.

(** [slice l off n] reads [n] elements at [off]. *)
Definition slice {A : Type} (l : list A) (off n : Z) : option (list A) :=
  if ((0 <=? off) && (0 <=? n) && (off + n <=? Z.of_nat (length l)))%Z
  then Some (take (Z.to_nat n) (drop (Z.to_nat off) l)) else None.

(* ------------------------------------------------------------------ *)
(** * Tactics *)

(** Arithmetic with division and remainder by constants. *)
Ltac dm_lia := Z.div_mod_to_equations; lia.

(** Unfold the wrap-around functions and decide. *)
Ltac int_lia :=
  unfold u8, u16, u32, u64, s8, s16, s32, s64, is_byte, is_u32 in *; dm_lia.

(** Turn boolean comparisons into propositions. *)
Ltac to_prop :=
  repeat match goal with
  | H : context [(?a <? ?b)%Z] |- _ => destruct (Z.ltb_spec a b); simpl in H
  | H : context [(?a <=? ?b)%Z] |- _ => destruct (Z.leb_spec a b); simpl in H
  | H : context [(?a =? ?b)%Z] |- _ => destruct (Z.eqb_spec a b); simpl in H
  | |- context [(?a <? ?b)%Z] => destruct (Z.ltb_spec a b); simpl
  | |- context [(?a <=? ?b)%Z] => destruct (Z.leb_spec a b); simpl
  | |- context [(?a =? ?b)%Z] => destruct (Z.eqb_spec a b); simpl
  end.

(** Equality of results up to arithmetic in the components. *)
Ltac res_lia :=
  repeat match goal with
  | |- @eq (option _) (Some _) (Some _) => f_equal
  | |- @eq (_ + _)%type (inl _) (inl _) => f_equal
  | |- @eq (_ + _)%type (inr _) (inr _) => f_equal
  | |- (_, _) = (_, _) => f_equal
  end; try done; try lia.

(** Decide a closed proposition by evaluation. *)
Ltac by_eval := apply (bool_decide_unpack _); vm_compute; exact I.

(** Run the [for_] loop of the goal with the invariant [I]. *)
Ltac for_inv I H :=
  lazymatch goal with
  | |- context [for_ ?n ?i ?b ?s] => pose proof (for_total I b n i s) as H
  end.

(** Evaluate [Z.to_nat] of numerals. *)
Ltac eval_to_nat :=
  repeat match goal with
  | |- context [Z.to_nat (Zpos ?p)] =>
      let n := eval compute in (Pos.to_nat p) in change (Z.to_nat (Zpos p)) with n
  | |- context [Z.to_nat Z0] => change (Z.to_nat Z0) with O
  end.

(** The total-correctness rule for the [loop] of the goal. *)
Ltac loop_inv I mu Q H :=
  lazymatch goal with
  | |- context [loop ?n ?b ?s] =>
      assert (∃ r, loop n b s = Some r ∧ Q r) as H;
      [apply (loop_total b I mu Q)|]
  end.

(** Inversion of a chain of [option] binds. *)
Ltac inv_bind H :=
  repeat (match type of H with
  | mbind _ ?o = Some _ =>
      let E := fresh "E" in destruct o eqn:E; simpl in H; [|discriminate H]
  | match ?o with Some _ => _ | None => None end = Some _ =>
      let E := fresh "E" in destruct o eqn:E; simpl in H; [|discriminate H]
  | (if ?b then _ else None) = Some _ =>
      let E := fresh "E" in destruct b eqn:E; simpl in H; [|discriminate H]
  | (if ?b then None else _) = Some _ =>
      let E := fresh "E" in destruct b eqn:E; simpl in H; [discriminate H|]
  end).

(* ------------------------------------------------------------------ *)
(** * Integer lemmas *)

Create HintDb cint.
Create Rewrite HintDb cint.

Lemma u8_byte z : is_byte (u8 z). Proof. int_lia. Qed.
Lemma u8_id z : is_byte z → u8 z = z. Proof. int_lia. Qed.
Lemma u32_range z : is_u32 (u32 z). Proof. int_lia. Qed.
Lemma u32_id z : is_u32 z → u32 z = z. Proof. int_lia. Qed.
Lemma u64_id z : (0 <= z < 18446744073709551616)%Z → u64 z = z. Proof. int_lia. Qed.
Lemma s32_id z : (-2147483648 <= z < 2147483648)%Z → s32 z = z. Proof. int_lia. Qed.
Lemma s8_id z : (-128 <= z < 128)%Z → s8 z = z. Proof. int_lia. Qed.
Lemma s8_zero z : (-256 < z < 256)%Z → s8 z = 0%Z ↔ z = 0%Z. Proof. int_lia. Qed.
Lemma byte_is_u32 z : is_byte z → is_u32 z. Proof. int_lia. Qed.
#[export] Hint Resolve u8_byte u32_range byte_is_u32 : cint.
#[export] Hint Rewrite u8_id u32_id using (auto with cint) : cint.

Lemma u32_add_l a b : u32 (u32 a + b) = u32 (a + b).
Proof. unfold u32. by rewrite Zplus_mod_idemp_l. Qed.
Lemma u32_add_r a b : u32 (a + u32 b) = u32 (a + b).
Proof. unfold u32. by rewrite Zplus_mod_idemp_r. Qed.
Lemma u32_mul_l a b : u32 (u32 a * b) = u32 (a * b).
Proof. unfold u32. by rewrite Zmult_mod_idemp_l. Qed.

(** Byte lists. *)
Definition bytes (l : list Z) : Prop := Forall is_byte l.

Lemma bytes_app l1 l2 : bytes (l1 ++ l2) ↔ bytes l1 ∧ bytes l2.
Proof. apply Forall_app. Qed.
Lemma bytes_take l n : bytes l → bytes (take n l). Proof. apply Forall_take. Qed.
Lemma bytes_drop l n : bytes l → bytes (drop n l). Proof. apply Forall_drop. Qed.
Lemma bytes_replicate n b : is_byte b → bytes (replicate n b).
Proof. intros. by apply Forall_replicate. Qed.
Lemma bytes_lookup l i x : bytes l → l !! i = Some x → is_byte x.
Proof. intros. by eapply Forall_lookup_1. Qed.
#[export] Hint Resolve bytes_take bytes_drop bytes_replicate : cint.

Lemma str_bytes s : bytes (str s).
Proof.
  induction s as [|c s IH]; simpl; constructor; [|done].
  pose proof (Ascii.N_ascii_bounded c). unfold is_byte. lia.
Qed.
#[export] Hint Resolve str_bytes : cint.

(* ------------------------------------------------------------------ *)
(** * Array lemmas *)

Section arrays.
Context {A : Type}.
Implicit Types (l src : list A) (i off n : Z) (x : A).

Lemma idx_lookup l i x : idx l i = Some x ↔ (0 <= i)%Z ∧ l !! Z.to_nat i = Some x.
Proof. unfold idx. to_prop; split; try done; [lia|]. by intros []. Qed.

Lemma idx_nat l (n : nat) : idx l (Z.of_nat n) = l !! n.
Proof. unfold idx. to_prop; [lia|]. by rewrite Nat2Z.id. Qed.

Lemma idx_0 l : idx l 0 = l !! 0.
Proof. done. Qed.

Lemma idx_Some l i : (0 <= i < Z.of_nat (length l))%Z → ∃ x, idx l i = Some x.
Proof.
  intros H. unfold idx. to_prop; [lia|]. apply lookup_lt_is_Some. lia.
Qed.

Lemma idx_range l i x : idx l i = Some x → (0 <= i < Z.of_nat (length l))%Z.
Proof. rewrite idx_lookup. intros [? ?%lookup_lt_Some]. lia. Qed.

Lemma upd_Some l i x :
  (0 <= i < Z.of_nat (length l))%Z → upd l i x = Some (<[Z.to_nat i := x]> l).
Proof. unfold upd. intros. to_prop; done || lia. Qed.

Lemma upd_inv l i x l' :
  upd l i x = Some l' → (0 <= i < Z.of_nat (length l))%Z ∧ l' = <[Z.to_nat i := x]> l.
Proof. unfold upd. to_prop; intros; simplify_eq; auto with lia. Qed.

Lemma upd_length l i x l' : upd l i x = Some l' → length l' = length l.
Proof. intros [_ ->]%upd_inv. apply length_insert. Qed.

Lemma blit_Some l off src :
  (0 <= off)%Z → (off + Z.of_nat (length src) <= Z.of_nat (length l))%Z →
  blit l off src = Some (take (Z.to_nat off) l ++ src ++ drop (Z.to_nat off + length src) l).
Proof. unfold blit. intros. to_prop; done || lia. Qed.

Lemma blit_inv l off src l' :
  blit l off src = Some l' →
  (0 <= off ∧ off + Z.of_nat (length src) <= Z.of_nat (length l))%Z ∧
  l' = take (Z.to_nat off) l ++ src ++ drop (Z.to_nat off + length src) l.
Proof. unfold blit. to_prop; intros; simplify_eq; auto with lia. Qed.

Lemma blit_length l off src l' : blit l off src = Some l' → length l' = length l.
Proof.
  intros [? ->]%blit_inv.
  rewrite !length_app, length_take, length_drop. lia.
Qed.

Lemma slice_Some l off n :
  (0 <= off)%Z → (0 <= n)%Z → (off + n <= Z.of_nat (length l))%Z →
  slice l off n = Some (take (Z.to_nat n) (drop (Z.to_nat off) l)).
Proof. unfold slice. intros. to_prop; done || lia. Qed.

Lemma slice_inv l off n l' :
  slice l off n = Some l' →
  (0 <= off ∧ 0 <= n ∧ off + n <= Z.of_nat (length l))%Z ∧
  l' = take (Z.to_nat n) (drop (Z.to_nat off) l).
Proof. unfold slice. to_prop; intros; simplify_eq; auto with lia. Qed.

Lemma slice_length l off n l' :
  slice l off n = Some l' → Z.of_nat (length l') = n.
Proof. intros [? ->]%slice_inv. rewrite length_take, length_drop. lia. Qed.

(** Reading back what was written. *)
Lemma slice_blit_same l off src l' :
  blit l off src = Some l' → slice l' off (Z.of_nat (length src)) = Some src.
Proof.
  intros H. pose proof (blit_length _ _ _ _ H) as HL.
  apply blit_inv in H as [? ->].
  rewrite slice_Some by (rewrite ?HL; lia). f_equal.
  rewrite drop_app_length' by (rewrite length_take; lia).
  rewrite take_app_length' by lia. done.
Qed.

(** Reading a disjoint range is unaffected by a write. *)
Lemma slice_blit_other l off src l' off' n :
  blit l off src = Some l' →
  (off' + n <= off ∨ off + Z.of_nat (length src) <= off')%Z →
  slice l' off' n = slice l off' n.
Proof.
  intros H Hd. pose proof (blit_length _ _ _ _ H) as HL.
  apply blit_inv in H as [? ->].
  destruct (decide (0 <= off' ∧ 0 <= n ∧ off' + n <= Z.of_nat (length l))%Z) as [Hr|Hr].
  2:{ unfold slice. rewrite HL. to_prop; done || lia. }
  rewrite !slice_Some by (rewrite ?HL; lia). f_equal.
  apply list_eq. intros i. destruct (decide (i < Z.to_nat n)%nat).
  - rewrite !lookup_take_lt, !lookup_drop by lia.
    destruct Hd as [Hd|Hd].
    + rewrite lookup_app_l by (rewrite length_take; lia). by rewrite lookup_take_lt by lia.
    + rewrite lookup_app_r by (rewrite length_take; lia).
      rewrite lookup_app_r by (rewrite length_take; lia).
      rewrite lookup_drop, length_take. f_equal. lia.
  - by rewrite !lookup_take_ge by lia.
Qed.
End arrays.

(** Reading and writing behind a prefix. *)

Lemma upd_behind {A} (pre rest : list A) c x i : i = Z.of_nat (length pre) → upd (pre ++ c :: rest) i x = Some (pre ++ x :: rest).
Proof.
  intros ->. rewrite upd_Some by (rewrite length_app; cbn [length]; lia). f_equal.
  rewrite Nat2Z.id. by rewrite insert_app_r_alt, Nat.sub_diag by lia.
Qed.

Lemma blit_behind {A} (pre old new rest : list A) i : i = Z.of_nat (length pre) → length old = length new →
  blit (pre ++ old ++ rest) i new = Some (pre ++ new ++ rest).
Proof.
  intros -> Hl. rewrite blit_Some by (rewrite ?length_app; lia). f_equal.
  rewrite Nat2Z.id, take_app_length, drop_app_ge by lia. replace (length pre + length new - length pre)%nat with (length old) by lia.
  by rewrite drop_app_length.
Qed.

Lemma slice_behind {A} (pre l rest : list A) i n : i = Z.of_nat (length pre) → n = Z.of_nat (length l) → slice (pre ++ l ++ rest) i n = Some l.
Proof.
  intros -> ->. rewrite slice_Some by (rewrite ?length_app; lia). f_equal. by rewrite !Nat2Z.id, drop_app_length, take_app_length.
Qed.

Lemma idx_behind {A} (pre rest : list A) c i : i = Z.of_nat (length pre) → idx (pre ++ c :: rest) i = Some c.
Proof. intros ->. by rewrite idx_nat, lookup_app_r, Nat.sub_diag. Qed.

(** Two writes side by side are one. *)
Lemma blit_app (t : list Z) off a b t1 t2 :
  blit t off a = Some t1 → blit t1 (off + Z.of_nat (length a))%Z b = Some t2 →
  blit t off (a ++ b) = Some t2.
Proof.
  intros E1 E2. pose proof (blit_length _ _ _ _ E1) as L1.
  apply blit_inv in E1 as [B1 ->]. apply blit_inv in E2 as [B2 ->]. rewrite L1 in B2.
  rewrite blit_Some by (rewrite ?length_app; lia). f_equal.
  assert (length (take (Z.to_nat off) t) = Z.to_nat off) as Lt by (rewrite length_take; lia).
  replace (Z.to_nat (off + Z.of_nat (length a))%Z) with (Z.to_nat off + length a)%nat by lia.
  rewrite (app_assoc (take _ t) a), take_app_length' by (rewrite length_app, Lt; lia).
  rewrite drop_app_ge by (rewrite length_app, Lt; lia).
  rewrite drop_drop, !length_app, Lt, <-!app_assoc. do 4 f_equal. lia.
Qed.

Lemma blit_app_inv (t : list Z) off a b t2 : blit t off (a ++ b) = Some t2 →
  ∃ t1, blit t off a = Some t1 ∧ blit t1 (off + Z.of_nat (length a)) b = Some t2.
Proof.
  intros E. pose proof E as [B _]%blit_inv. rewrite length_app in B.
  destruct (blit t off a) as [t1|] eqn:E1; [|by rewrite blit_Some in E1 by lia].
  pose proof (blit_length _ _ _ _ E1) as L1. exists t1. split; [done|].
  destruct (blit t1 (off + Z.of_nat (length a)) b) as [t3|] eqn:E2; [|by rewrite blit_Some in E2 by lia].
  by rewrite <-E, (blit_app _ _ _ _ _ _ E1 E2).
Qed.

Lemma blit_bytes l off src l' :
  blit l off src = Some l' → bytes l → bytes src → bytes l'.
Proof.
  intros [_ ->]%blit_inv ??. rewrite !bytes_app. auto with cint.
Qed.

Lemma slice_bytes l off n l' : slice l off n = Some l' → bytes l → bytes l'.
Proof. intros [_ ->]%slice_inv ?. auto with cint. Qed.

(** Little-endian byte encoding of a machine word. *)
Fixpoint le_bytes (n : nat) (z : Z) : list Z :=
  match n with O => [] | S n' => u8 z :: le_bytes n' (z / 256)%Z end.

Fixpoint le_val (l : list Z) : Z :=
  match l with [] => 0%Z | b :: l' => (b + 256 * le_val l')%Z end.

Lemma le_bytes_length n z : length (le_bytes n z) = n.
Proof. revert z. induction n; simpl; auto. Qed.
Lemma le_bytes_bytes n z : bytes (le_bytes n z).
Proof. revert z. induction n; intros z; simpl; constructor; [apply u8_byte|apply IHn]. Qed.

Lemma le_val_bytes n z : le_val (le_bytes n z) = (z mod 256 ^ Z.of_nat n)%Z.
Proof.
  revert z. induction n as [|n IH]; intros z.
  - simpl. by rewrite Z.mod_1_r.
  - cbn [le_bytes le_val]. rewrite IH.
    rewrite Nat2Z.inj_succ, Z.pow_succ_r by lia.
    rewrite Z.rem_mul_r by lia. unfold u8. lia.
Qed.

Lemma le_bytes_val l : bytes l → le_bytes (length l) (le_val l) = l.
Proof.
  induction l as [|b l IH]; intros H; [done|]. inversion H; subst.
  cbn [length le_val le_bytes]. unfold is_byte in *.
  replace ((b + 256 * le_val l) / 256)%Z with (le_val l) by dm_lia.
  rewrite IH by done. f_equal. unfold u8. dm_lia.
Qed.

Lemma le_val_range l : bytes l → (0 <= le_val l < 256 ^ Z.of_nat (length l))%Z.
Proof.
  induction 1 as [|b l Hb Hl IH]; [simpl; lia|]. cbn [le_val length].
  rewrite Nat2Z.inj_succ, Z.pow_succ_r by lia. unfold is_byte in *. lia.
Qed.

(* ------------------------------------------------------------------ *)
(** * Bit fields *)

Lemma land_shiftl_small a b k :
  (0 <= k)%Z → (0 <= b < 2 ^ k)%Z → Z.land (Z.shiftl a k) b = 0%Z.
Proof.
  intros Hk Hb. apply Z.bits_inj'. intros i Hi. rewrite Z.land_spec, Z.bits_0.
  destruct (Z.ltb_spec i k).
  - rewrite Z.shiftl_spec_low by lia. done.
  - rewrite <-(Z.mod_small b (2 ^ k)) by lia.
    rewrite Z.mod_pow2_bits_high by lia. by rewrite andb_false_r.
Qed.

(** Assembling a word from disjoint fields: [|] is [+]. *)
Lemma lor_shiftl_add a b k :
  (0 <= k)%Z → (0 <= b < 2 ^ k)%Z → Z.lor (Z.shiftl a k) b = (a * 2 ^ k + b)%Z.
Proof.
  intros Hk Hb. pose proof (land_shiftl_small a b k Hk Hb) as H.
  rewrite <-Z.lxor_lor, <-Z.add_nocarry_lxor by done. by rewrite Z.shiftl_mul_pow2.
Qed.

(** A big-endian 32-bit word built with shifts and [|]. *)
Definition be32 (b0 b1 b2 b3 : Z) : Z :=
  Z.lor (Z.lor (Z.lor (Z.shiftl b0 24) (Z.shiftl b1 16)) (Z.shiftl b2 8)) b3.

Lemma be32_val b0 b1 b2 b3 :
  is_byte b0 → is_byte b1 → is_byte b2 → is_byte b3 →
  be32 b0 b1 b2 b3 = (b0 * 16777216 + b1 * 65536 + b2 * 256 + b3)%Z.
Proof.
  unfold is_byte, be32. intros.
  replace (Z.shiftl b0 24) with (Z.shiftl (Z.shiftl b0 8) 16) by (by rewrite Z.shiftl_shiftl).
  rewrite <-Z.shiftl_lor.
  replace (Z.shiftl (Z.lor (Z.shiftl b0 8) b1) 16)
    with (Z.shiftl (Z.shiftl (Z.lor (Z.shiftl b0 8) b1) 8) 8) by (by rewrite Z.shiftl_shiftl).
  rewrite <-Z.shiftl_lor. rewrite !lor_shiftl_add by lia. lia.
Qed.

(* ------------------------------------------------------------------ *)
(** * Congruence modulo [N] *)

Definition congm (N a b : Z) : Prop := (N | a - b)%Z.

#[export] Instance congm_equiv N : Equivalence (congm N).
Proof.
  unfold congm. split.
  - intros x. rewrite Z.sub_diag. apply Z.divide_0_r.
  - intros x y H. apply Z.divide_opp_r in H. by replace (y - x)%Z with (- (x - y))%Z by lia.
  - intros x y z H1 H2. replace (x - z)%Z with ((x - y) + (y - z))%Z by lia.
    by apply Z.divide_add_r.
Qed.

#[export] Instance congm_add N : Proper (congm N ==> congm N ==> congm N) Z.add.
Proof.
  intros a a' H b b' H'. unfold congm in *.
  replace (a + b - (a' + b'))%Z with ((a - a') + (b - b'))%Z by lia. by apply Z.divide_add_r.
Qed.

#[export] Instance congm_mul N : Proper (congm N ==> congm N ==> congm N) Z.mul.
Proof.
  intros a a' H b b' H'. unfold congm in *.
  replace (a * b - a' * b')%Z with ((a - a') * b + a' * (b - b'))%Z by lia.
  apply Z.divide_add_r; [by apply Z.divide_mul_l|by apply Z.divide_mul_r].
Qed.

Lemma congm_intro N a b k : (a = b + k * N)%Z → congm N a b.
Proof. intros ->. exists k. lia. Qed.

Lemma congm_mod N a b : (N ≠ 0)%Z → congm N a b → (a mod N = b mod N)%Z.
Proof.
  intros HN [k Hk]. replace a with (b + k * N)%Z by lia. by rewrite Z.mod_add.
Qed.

(** Cancelling a factor that is a unit modulo [N]. *)
Lemma congm_cancel N R a b : Z.gcd R N = 1%Z → congm N (R * a) (R * b) → congm N a b.
Proof.
  unfold congm. intros Hg H. rewrite <-Z.mul_sub_distr_l in H.
  apply Z.gauss with R; [done|]. by rewrite Z.gcd_comm.
Qed.
