(* ===== verification/CMem.v ===== *)
(** Byte-addressed memory as the C code of [lib_generic] sees it: a finite
    map from mapped addresses to byte values.  A load or a store at an
    address that is not mapped is undefined behaviour ([None]).  Plain [char]
    is unsigned, as in the ARM ABI the board is compiled for, so a byte is
    its value 0..255.  Addresses are integers: no object of the program wraps
    around the top of the address space. *)
From stdpp Require Import base tactics option list gmap.
From Stdlib Require Import ZArith Lia.
From S2P Require Import Prelude.

Open Scope Z_scope.

Abbreviation mem := (gmap Z Z).

Definition load (m : mem) (a : Z) : option Z := m !! a.

Definition store (m : mem) (a v : Z) : option mem :=
  match m !! a with
  | Some _ => Some (<[a := u8 v]> m)
  | None => None
  end.

(** [at_ m a l]: the bytes [l] lie at [a], [a+1], ... *)
Fixpoint at_ (m : mem) (a : Z) (l : list Z) : Prop :=
  match l with
  | [] => True
  | x :: l' => m !! a = Some x ∧ at_ m (a + 1) l'
  end.

(** [cstr m a s]: a NUL-terminated string with the characters [s] at [a]. *)
Definition cstr (m : mem) (a : Z) (s : list Z) : Prop :=
  at_ m a (s ++ [0]) ∧ (0 ∉ s) ∧ bytes s.

(** [mapped m a n]: the [n] addresses from [a] on can be written. *)
Definition mapped (m : mem) (a n : Z) : Prop :=
  ∀ i, (0 <= i < n)%Z → is_Some (m !! (a + i)%Z).

(** Memory with [l] written at [a]. *)
Fixpoint put (m : mem) (a : Z) (l : list Z) : mem :=
  match l with
  | [] => m
  | x :: l' => put (<[a := x]> m) (a + 1) l'
  end.

(** Fuel for a loop that visits a new address in every round: one more than
    the number of mapped addresses, so the loop leaves the mapped part
    before the fuel runs out. *)
Definition fuel_of (m : mem) : nat := S (size m).

(** A memory image, for executing the definitions on concrete inputs. *)
Definition image (l : list (Z * list Z)) : mem :=
  foldr (λ p m, put m p.1 p.2) ∅ l.

Section lemmas.
Implicit Types (m : mem) (a b i : Z) (l : list Z).

Lemma at_lookup m a l :
  at_ m a l ↔ ∀ (i : nat) x, l !! i = Some x → m !! (a + Z.of_nat i) = Some x.
Proof.
  revert a. induction l as [|y l IH]; intros a; simpl; [done|]. rewrite IH. split.
  - intros [Hy Hl] [|i] x Hx; simpl in Hx; simplify_eq.
    + by rewrite Z.add_0_r.
    + rewrite <-(Hl i x Hx). f_equal. lia.
  - intros H. split.
    + rewrite <-(H 0%nat y eq_refl). f_equal. lia.
    + intros i x Hx. rewrite <-(H (S i) x Hx). f_equal. lia.
Qed.

Lemma at_app m a l1 l2 :
  at_ m a (l1 ++ l2) ↔ at_ m a l1 ∧ at_ m (a + Z.of_nat (length l1)) l2.
Proof.
  revert a. induction l1 as [|y l1 IH]; intros a; simpl.
  - rewrite Z.add_0_r. tauto.
  - rewrite IH.
    replace (a + 1 + Z.of_nat (length l1)) with (a + Z.of_nat (S (length l1))) by lia.
    tauto.
Qed.

Lemma at_mapped m a l : at_ m a l → mapped m a (Z.of_nat (length l)).
Proof.
  intros H i Hi. rewrite at_lookup in H.
  destruct (lookup_lt_is_Some_2 l (Z.to_nat i)) as [x Hx]; [lia|].
  exists x. rewrite <-(H _ _ Hx). f_equal. lia.
Qed.

Lemma mapped_le m a n n' : mapped m a n → n' <= n → mapped m a n'.
Proof. intros H ? i ?. apply H. lia. Qed.

Lemma mapped_shift m a n k : mapped m a n → 0 <= k → mapped m (a + k) (n - k).
Proof. intros H Hk i Hi. rewrite <-Z.add_assoc. apply H. lia. Qed.

(** The number of mapped addresses bounds every mapped range. *)
Lemma mapped_size m a (n : nat) : mapped m a (Z.of_nat n) → (n <= size m)%nat.
Proof.
  intros H. rewrite <-size_dom.
  set (X := list_to_set (map (λ k : nat, a + Z.of_nat k) (seq 0 n)) : gset Z).
  assert (size X = n) as HX.
  { unfold X. rewrite size_list_to_set.
    - by rewrite length_map, length_seq.
    - apply NoDup_fmap_2; [intros ?? ?; lia|]. apply NoDup_seq. }
  rewrite <-HX. apply subseteq_size. intros x Hx. unfold X in Hx.
  apply elem_of_list_to_set, list_elem_of_fmap in Hx as (i & -> & Hi%elem_of_seq).
  apply elem_of_dom, H. lia.
Qed.

Lemma at_size m a l : at_ m a l → (length l <= size m)%nat.
Proof. intros H%at_mapped. by eapply mapped_size. Qed.

Lemma at_insert_ne m a l b v :
  (b < a ∨ a + Z.of_nat (length l) <= b) → at_ (<[b:=v]> m) a l ↔ at_ m a l.
Proof.
  revert a. induction l as [|y l IH]; intros a H; simpl in *; [done|].
  rewrite lookup_insert_ne by lia. rewrite IH by lia. done.
Qed.

Lemma put_lookup_ne m a l b :
  (b < a ∨ a + Z.of_nat (length l) <= b) → put m a l !! b = m !! b.
Proof.
  revert m a. induction l as [|y l IH]; intros m a H; simpl in *; [done|].
  rewrite IH by lia. by rewrite lookup_insert_ne by lia.
Qed.

Lemma put_lookup m a l (i : nat) x :
  l !! i = Some x → put m a l !! (a + Z.of_nat i) = Some x.
Proof.
  revert m a i. induction l as [|y l IH]; intros m a [|i] H; simplify_eq/=.
  - rewrite put_lookup_ne by lia. rewrite Z.add_0_r. apply lookup_insert_eq.
  - replace (a + Z.of_nat (S i)) with (a + 1 + Z.of_nat i) by lia. by apply IH.
Qed.

Lemma at_put m a l : at_ (put m a l) a l.
Proof. apply at_lookup. intros. by apply put_lookup. Qed.

Lemma at_put_other m a l b l' :
  (b + Z.of_nat (length l') <= a ∨ a + Z.of_nat (length l) <= b) →
  at_ (put m a l) b l' ↔ at_ m b l'.
Proof.
  intros H. rewrite !at_lookup. split; intros Hl i x Hx;
    pose proof (lookup_lt_Some _ _ _ Hx);
    specialize (Hl i x Hx); rewrite put_lookup_ne in *; done || lia.
Qed.

Lemma put_app m a l1 l2 :
  put m a (l1 ++ l2) = put (put m a l1) (a + Z.of_nat (length l1)) l2.
Proof.
  revert m a. induction l1 as [|y l1 IH]; intros m a; simpl.
  - by rewrite Z.add_0_r.
  - rewrite IH. f_equal. lia.
Qed.

Lemma put_snoc m a l x :
  put m a (l ++ [x]) = <[a + Z.of_nat (length l) := x]> (put m a l).
Proof. apply put_app. Qed.

Lemma put_insert_comm m a l b x :
  (b < a ∨ a + Z.of_nat (length l) <= b) → put (<[b:=x]> m) a l = <[b:=x]> (put m a l).
Proof.
  revert m a. induction l as [|y l IH]; intros m a H; simpl in *; [done|].
  rewrite insert_insert_ne by lia. apply IH. lia.
Qed.

Lemma put_cons m a l x : put m a (x :: l) = <[a := x]> (put m (a + 1) l).
Proof. simpl. apply put_insert_comm. lia. Qed.

Lemma mapped_insert m a n b v : mapped m a n → mapped (<[b:=v]> m) a n.
Proof. intros H i Hi. apply lookup_insert_is_Some'. right. by apply H. Qed.

Lemma put_mapped m a l b n : mapped m b n → mapped (put m a l) b n.
Proof.
  revert m a. induction l as [|y l IH]; intros m a H; simpl; [done|].
  by apply IH, mapped_insert.
Qed.

Lemma store_mapped m a v n :
  0 < n → mapped m a n → store m a v = Some (<[a := u8 v]> m).
Proof.
  intros Hn H. unfold store. destruct (H 0) as [x Hx]; [lia|].
  rewrite Z.add_0_r in Hx. by rewrite Hx.
Qed.

Lemma mapped_tail m a n v :
  0 < n → mapped m a n → mapped (<[a := v]> m) (a + 1) (n - 1).
Proof. intros. apply mapped_insert, mapped_shift; [done|lia]. Qed.

Lemma size_insert_mapped m a v : is_Some (m !! a) → size (<[a:=v]> m) = size m.
Proof. intros [x Hx]. by eapply map_size_insert_Some. Qed.
End lemmas.

(** A closed [cstr] fact, by evaluation. *)
Ltac solve_cstr := split; [vm_compute; repeat split | split; by_eval].
