(* ===== verification/CString.v ===== *)
(** [lib_generic/string.c]: the C string and memory functions of the boot
    loader, over the memory of [CMem].  Every definition follows the C loop it
    models statement by statement; the order of the loads, the stores and the
    tests is the one of the C expression.  The result of a function that
    writes is the new memory and the returned pointer; [NULL] is 0. *)
From stdpp Require Import base tactics option list gmap strings.
From Stdlib Require Import ZArith Lia.
From S2P Require Import Prelude.
From S2P Require Import CMem.
Open Scope Z_scope.

(** ** Operations *)

(** [while (( *dest++ = *src++) != '\0');] *)
Definition copy_loop (m : mem) (dest src : Z) : option mem :=
  loop (fuel_of m) (λ '(m, dest, src),
    c ← load m src;
    m' ← store m dest c;
    Some (if c =? 0 then inr m' else inl (m', dest + 1, src + 1))) (m, dest, src).

(** [while ( *p) p++;] *)
Definition end_loop (m : mem) (p : Z) : option Z :=
  loop (fuel_of m) (λ p,
    c ← load m p;
    Some (if c =? 0 then inr p else inl (p + 1))) p.

Definition strcpy (m : mem) (dest src : Z) : option (mem * Z) :=
  m' ← copy_loop m dest src;
  Some (m', dest).

Definition strncpy (m : mem) (dest src count : Z) : option (mem * Z) :=
  m' ← loop (fuel_of m) (λ '(m, dest, src, count),
    if count =? 0 then Some (inr m) else
    c ← load m src;
    m' ← store m dest c;
    Some (if c =? 0 then inr m' else inl (m', dest + 1, src + 1, count - 1)))
    (m, dest, src, count);
  Some (m', dest).

Definition strcat (m : mem) (dest src : Z) : option (mem * Z) :=
  d ← end_loop m dest;
  m' ← copy_loop m d src;
  Some (m', dest).

Definition strncat (m : mem) (dest src count : Z) : option (mem * Z) :=
  if count =? 0 then Some (m, dest) else
  d ← end_loop m dest;
  m' ← loop (fuel_of m) (λ '(m, dest, src, count),
    c ← load m src;
    m1 ← store m dest c;
    if c =? 0 then Some (inr m1)
    else if count - 1 =? 0 then
      m2 ← store m1 (dest + 1) 0;
      Some (inr m2)
    else Some (inl (m1, dest + 1, src + 1, count - 1)))
    (m, d, src, count);
  Some (m', dest).

(** [__res] is a [signed char]: the difference is truncated to it. *)
Definition strcmp (m : mem) (cs ct : Z) : option Z :=
  loop (fuel_of m) (λ '(cs, ct),
    a ← load m cs;
    b ← load m ct;
    let res := s8 (a - b) in
    Some (if negb (res =? 0) then inr res
          else if a =? 0 then inr res
          else inl (cs + 1, ct + 1))) (cs, ct).

Definition strncmp (m : mem) (cs ct count : Z) : option Z :=
  loop (fuel_of m) (λ '(cs, ct, count, res),
    if count =? 0 then Some (inr res) else
    a ← load m cs;
    b ← load m ct;
    let res := s8 (a - b) in
    Some (if negb (res =? 0) then inr res
          else if a =? 0 then inr res
          else inl (cs + 1, ct + 1, count - 1, res))) (cs, ct, count, 0).

Definition strchr (m : mem) (s c : Z) : option Z :=
  loop (fuel_of m) (λ s,
    x ← load m s;
    Some (if x =? u8 c then inr s
          else if x =? 0 then inr 0
          else inl (s + 1))) s.

Definition strlen (m : mem) (s : Z) : option Z :=
  sc ← end_loop m s;
  Some (sc - s).

Definition strrchr (m : mem) (s c : Z) : option Z :=
  n ← strlen m s;
  loop (fuel_of m) (λ p,
    x ← load m p;
    Some (if x =? u8 c then inr p
          else if s <=? p - 1 then inl (p - 1)
          else inr 0)) (s + n).

Definition strnlen (m : mem) (s count : Z) : option Z :=
  sc ← loop (fuel_of m) (λ '(sc, count),
    if count =? 0 then Some (inr sc) else
    c ← load m sc;
    Some (if c =? 0 then inr sc else inl (sc + 1, count - 1))) (s, count);
  Some (sc - s).

(** The allocator is a parameter: it returns a new memory and an address,
    0 when there is no room. *)
Definition strdup (malloc : mem → Z → mem * Z) (m : mem) (s : Z) : option (mem * Z) :=
  if s =? 0 then Some (m, 0) else
  n ← strlen m s;
  let '(m1, new) := malloc m (n + 1) in
  if new =? 0 then Some (m1, 0) else
  r ← strcpy m1 new s;
  Some (r.1, new).

(** [for (a = set; *a != '\0'; ++a) if (x == *a) break;]: the value of [a]
    after the loop. *)
Definition scan_set (m : mem) (set x : Z) : option Z :=
  loop (fuel_of m) (λ a,
    y ← load m a;
    Some (if y =? 0 then inr a else if x =? y then inr a else inl (a + 1))) set.

Definition strspn (m : mem) (s accept : Z) : option Z :=
  loop (fuel_of m) (λ '(p, count),
    x ← load m p;
    if x =? 0 then Some (inr count) else
    a ← scan_set m accept x;
    y ← load m a;
    Some (if y =? 0 then inr count else inl (p + 1, count + 1))) (s, 0).

Definition strpbrk (m : mem) (cs ct : Z) : option Z :=
  loop (fuel_of m) (λ sc1,
    x ← load m sc1;
    if x =? 0 then Some (inr 0) else
    sc2 ← scan_set m ct x;
    y ← load m sc2;
    Some (if y =? 0 then inl (sc1 + 1) else inr sc1)) cs.

(** The static cursor [___strtok] is passed and returned:
    the result is the memory, the cursor and the token. *)
Definition strtok (m : mem) (cursor s ct : Z) : option (mem * Z * Z) :=
  let sbegin := if s =? 0 then cursor else s in
  if sbegin =? 0 then Some (m, cursor, 0) else
  k ← strspn m sbegin ct;
  let sbegin := sbegin + k in
  c ← load m sbegin;
  if c =? 0 then Some (m, 0, 0) else
  send ← strpbrk m sbegin ct;
  if send =? 0 then Some (m, send, sbegin) else
  e ← load m send;
  if e =? 0 then Some (m, send, sbegin) else
  m' ← store m send 0;
  Some (m', send + 1, sbegin).

(** [strsep(&p, ct)]: the memory, the new value of [p] and the token. *)
Definition strsep (m : mem) (p ct : Z) : option (mem * Z * Z) :=
  if p =? 0 then Some (m, p, 0) else
  e ← strpbrk m p ct;
  if e =? 0 then Some (m, 0, p) else
  m' ← store m e 0;
  Some (m', e + 1, p).

Definition strswab (m : mem) (s : Z) : option (mem * Z) :=
  if s =? 0 then Some (m, 0) else
  c ← load m s;
  if c =? 0 then Some (m, 0) else
  m' ← loop (fuel_of m) (λ '(m, p, q),
    x ← load m p;
    if x =? 0 then Some (inr m) else
    y ← load m q;
    if y =? 0 then Some (inr m) else
    m1 ← store m p y;
    m2 ← store m1 q x;
    Some (inl (m2, p + 2, q + 2))) (m, s, s + 1);
  Some (m', s).

Definition memset (m : mem) (s c count : Z) : option (mem * Z) :=
  m' ← loop (fuel_of m) (λ '(m, xs, count),
    if count =? 0 then Some (inr m) else
    m' ← store m xs c;
    Some (inl (m', xs + 1, count - 1))) (m, s, count);
  Some (m', s).

(** [while (count--) *tmp++ = *s++;] *)
Definition fwd_loop (m : mem) (tmp s count : Z) : option mem :=
  loop (fuel_of m) (λ '(m, tmp, s, count),
    if count =? 0 then Some (inr m) else
    c ← load m s;
    m' ← store m tmp c;
    Some (inl (m', tmp + 1, s + 1, count - 1))) (m, tmp, s, count).

(** [while (count--) *--tmp = *--s;] *)
Definition bwd_loop (m : mem) (tmp s count : Z) : option mem :=
  loop (fuel_of m) (λ '(m, tmp, s, count),
    if count =? 0 then Some (inr m) else
    c ← load m (s - 1);
    m' ← store m (tmp - 1) c;
    Some (inl (m', tmp - 1, s - 1, count - 1))) (m, tmp, s, count).

Definition bcopy (m : mem) (src dest count : Z) : option (mem * Z) :=
  m' ← fwd_loop m dest src count;
  Some (m', dest).

Definition memcpy (m : mem) (dest src count : Z) : option (mem * Z) :=
  m' ← fwd_loop m dest src count;
  Some (m', dest).

Definition memmove (m : mem) (dest src count : Z) : option (mem * Z) :=
  m' ← if dest <=? src then fwd_loop m dest src count
       else bwd_loop m (dest + count) (src + count) count;
  Some (m', dest).

Definition memcmp (m : mem) (cs ct count : Z) : option Z :=
  loop (fuel_of m) (λ '(su1, su2, count, res),
    if negb (0 <? count) then Some (inr res) else
    a ← load m su1;
    b ← load m su2;
    let res := a - b in
    Some (if negb (res =? 0) then inr res
          else inl (su1 + 1, su2 + 1, count - 1, res))) (cs, ct, count, 0).

Definition memscan (m : mem) (addr c size : Z) : option Z :=
  loop (fuel_of m) (λ '(p, size),
    if size =? 0 then Some (inr p) else
    x ← load m p;
    Some (if x =? c then inr p else inl (p + 1, size - 1))) (addr, size).

Definition strstr (m : mem) (s1 s2 : Z) : option Z :=
  l2 ← strlen m s2;
  if l2 =? 0 then Some s1 else
  l1 ← strlen m s1;
  loop (fuel_of m) (λ '(s1, l1),
    if negb (l2 <=? l1) then Some (inr 0) else
    r ← memcmp m s1 s2 l2;
    Some (if r =? 0 then inr s1 else inl (s1 + 1, l1 - 1))) (s1, l1).

Definition memchr (m : mem) (s c n : Z) : option Z :=
  loop (fuel_of m) (λ '(p, n),
    if n =? 0 then Some (inr 0) else
    x ← load m p;
    Some (if u8 c =? x then inr p else inl (p + 1, n - 1))) (s, n).

(** Smoke tests on concrete memories. *)
Definition demo : mem := image [(100, str "hello" ++ [0]); (200, str "help" ++ [0]); (300, replicate 16 170)].

Example demo_strcmp : strcmp demo 100 200 = Some (-4). Proof. vm_compute. reflexivity. Qed.
Example demo_strlen : strlen demo 100 = Some 5. Proof. vm_compute. reflexivity. Qed.

(** ** Lemmas: every loop as a sequence of states *)

Lemma load_at m a l (i : nat) x :
  at_ m a l → l !! i = Some x → load m (a + Z.of_nat i) = Some x.
Proof. rewrite at_lookup. intros H. apply H. Qed.

Lemma cstr_size m a s : cstr m a s → (S (length s) <= size m)%nat.
Proof. intros (H & _). apply at_size in H. rewrite length_app in H. simpl in H. lia. Qed.

Lemma cstr_char m a s (i : nat) x :
  cstr m a s → s !! i = Some x → load m (a + Z.of_nat i) = Some x ∧ x ≠ 0 ∧ is_byte x.
Proof.
  intros (H & Hz & Hb) Hx. split; [|split].
  - eapply load_at; [done|]. by apply lookup_app_l_Some.
  - intros ->. apply Hz. by apply list_elem_of_lookup_2 in Hx.
  - by eapply bytes_lookup.
Qed.

Lemma cstr_end m a s : cstr m a s → load m (a + Z.of_nat (length s)) = Some 0.
Proof.
  intros (H & _). eapply load_at; [done|].
  rewrite lookup_app_r by lia. by rewrite Nat.sub_diag.
Qed.

(** Suffixes of strings are strings. *)
Lemma cstr_drop m a s (k : nat) :
  cstr m a s → (k <= length s)%nat → cstr m (a + Z.of_nat k) (drop k s).
Proof.
  intros (H & Hz & Hb) Hk. split; [|split].
  - rewrite <-(take_drop k s), <-app_assoc, at_app in H.
    rewrite length_take, Nat.min_l in H by lia. apply H.
  - intros Hin. apply Hz. rewrite <-(take_drop k s). set_solver.
  - by apply bytes_drop.
Qed.

Lemma list_lookup_take_snoc {A} (l : list A) (k : nat) x :
  l !! k = Some x → take (S k) l = take k l ++ [x].
Proof. apply take_S_r. Qed.

Lemma end_loop_spec m a s : cstr m a s → end_loop m a = Some (a + Z.of_nat (length s)).
Proof.
  intros H. unfold end_loop. pose proof (cstr_size _ _ _ H).
  replace a with (a + Z.of_nat 0) at 1 by lia.
  refine (loop_run _ (λ k, a + Z.of_nat k) (length s) _ _ _ (fuel_of m) _).
  - intros k Hk. destruct (lookup_lt_is_Some_2 s k) as [x Hx]; [lia|].
    destruct (cstr_char _ _ _ _ _ H Hx) as (-> & ? & _). simpl.
    destruct (Z.eqb_spec x 0); [done|]. res_lia.
  - by rewrite (cstr_end _ _ _ H).
  - unfold fuel_of. lia.
Qed.

Lemma strlen_spec m a s : cstr m a s → strlen m a = Some (Z.of_nat (length s)).
Proof. intros H. unfold strlen. rewrite (end_loop_spec _ _ _ H). simpl. f_equal. lia. Qed.

Lemma store_put m a l n x :
  mapped m a n → Z.of_nat (length l) < n → is_byte x →
  store (put m a l) (a + Z.of_nat (length l)) x = Some (put m a (l ++ [x])).
Proof.
  intros Hm Hn Hx. unfold store.
  destruct (put_mapped m a l a n Hm (Z.of_nat (length l))) as [y ->]; [lia|].
  by rewrite put_snoc, u8_id.
Qed.

(** The forward copy of [l] with the destination not inside the part of the
    source that is still to be read. *)
Lemma load_put_before m dest src l (k : nat) x :
  at_ m src l → (dest <= src ∨ src + Z.of_nat (length l) <= dest) →
  l !! k = Some x → load (put m dest (take k l)) (src + Z.of_nat k) = Some x.
Proof.
  intros H Hd Hx. pose proof (lookup_lt_Some _ _ _ Hx). unfold load.
  rewrite put_lookup_ne by (rewrite length_take; lia).
  by apply (at_lookup m src l).
Qed.

Lemma copy_step m dest src l n (k : nat) x :
  at_ m src l → mapped m dest n → bytes l → Z.of_nat (length l) <= n →
  (dest <= src ∨ src + Z.of_nat (length l) <= dest) → l !! k = Some x →
  load (put m dest (take k l)) (src + Z.of_nat k) = Some x ∧
  store (put m dest (take k l)) (dest + Z.of_nat k) x = Some (put m dest (take (S k) l)).
Proof.
  intros Hs Hm Hb Hn Hd Hx. pose proof (lookup_lt_Some _ _ _ Hx).
  split; [by eapply load_put_before|].
  rewrite (take_S_r _ _ _ Hx).
  pose proof (store_put m dest (take k l) n x Hm) as E.
  rewrite length_take, Nat.min_l in E by lia. apply E; [lia|by eapply bytes_lookup].
Qed.

Lemma copy_loop_spec m dest src s :
  cstr m src s → mapped m dest (Z.of_nat (length s) + 1) →
  (dest <= src ∨ src + Z.of_nat (length s) + 1 <= dest) →
  copy_loop m dest src = Some (put m dest (s ++ [0])).
Proof.
  intros Hs Hm Hd. unfold copy_loop. pose proof (cstr_size _ _ _ Hs) as Hf.
  destruct Hs as (Hs & Hz & Hb).
  assert (bytes (s ++ [0])) by (apply bytes_app; split; [done|repeat constructor; unfold is_byte; lia]).
  assert (∀ (k : nat) x, (s ++ [0]) !! k = Some x →
    load (put m dest (take k (s ++ [0]))) (src + Z.of_nat k) = Some x ∧
    store (put m dest (take k (s ++ [0]))) (dest + Z.of_nat k) x
      = Some (put m dest (take (S k) (s ++ [0])))) as Hc.
  { intros k x Hx. eapply copy_step; try done; rewrite length_app; simpl; lia. }
  replace (m, dest, src) with
    (put m dest (take 0 (s ++ [0])), dest + Z.of_nat 0, src + Z.of_nat 0) by (simpl; res_lia).
  refine (loop_run _ (λ k, (put m dest (take k (s ++ [0])), dest + Z.of_nat k, src + Z.of_nat k))
    (length s) _ _ _ (fuel_of m) _).
  - intros k Hk. destruct (lookup_lt_is_Some_2 s k) as [x Hx]; [lia|].
    destruct (Hc k x) as [-> E]; [by apply lookup_app_l_Some|]. cbn -[take Z.of_nat]. rewrite E.
    cbn -[take Z.of_nat].
    destruct (Z.eqb_spec x 0) as [->|]; [exfalso; apply Hz; by apply list_elem_of_lookup_2 in Hx|].
    res_lia.
  - destruct (Hc (length s) 0) as [-> E].
    { rewrite lookup_app_r by lia. by rewrite Nat.sub_diag. }
    cbn -[take Z.of_nat]. rewrite E. cbn -[take Z.of_nat]. res_lia. f_equal.
    apply take_ge. rewrite length_app. simpl. lia.
  - unfold fuel_of. lia.
Qed.

Lemma fwd_loop_spec m dest src l :
  at_ m src l → bytes l → mapped m dest (Z.of_nat (length l)) →
  (dest <= src ∨ src + Z.of_nat (length l) <= dest) →
  fwd_loop m dest src (Z.of_nat (length l)) = Some (put m dest l).
Proof.
  intros Hs Hb Hm Hd. unfold fwd_loop. pose proof (at_size _ _ _ Hs) as Hf.
  set (n := length l) in *.
  replace (m, dest, src, Z.of_nat n) with
    (put m dest (take 0 l), dest + Z.of_nat 0, src + Z.of_nat 0, Z.of_nat n - Z.of_nat 0)
    by (simpl; res_lia).
  refine (loop_run _ (λ k, (put m dest (take k l), dest + Z.of_nat k,
    src + Z.of_nat k, Z.of_nat n - Z.of_nat k)) n _ _ _ (fuel_of m) _).
  - intros k Hk. destruct (lookup_lt_is_Some_2 l k) as [x Hx]; [lia|].
    cbn -[take Z.of_nat]. destruct (Z.eqb_spec (Z.of_nat n - Z.of_nat k) 0); [lia|].
    destruct (copy_step m dest src l (Z.of_nat n) k x) as [-> E]; try done.
    cbn -[take Z.of_nat]. rewrite E. cbn -[take Z.of_nat]. res_lia.
  - cbn -[take Z.of_nat]. destruct (Z.eqb_spec (Z.of_nat n - Z.of_nat n) 0); [|lia].
    by rewrite take_ge by lia.
  - unfold fuel_of. lia.
Qed.

(** Going down: the bytes written so far are the last [k] of [l]. *)
Lemma bwd_loop_spec m dest src l :
  at_ m src l → bytes l → mapped m dest (Z.of_nat (length l)) → src < dest →
  bwd_loop m (dest + Z.of_nat (length l)) (src + Z.of_nat (length l)) (Z.of_nat (length l))
    = Some (put m dest l).
Proof.
  intros Hs Hb Hm Hd. unfold bwd_loop. pose proof (at_size _ _ _ Hs) as Hf.
  set (n := length l) in *.
  set (f := λ k : nat, (put m (dest + Z.of_nat (n - k)) (drop (n - k) l),
    dest + Z.of_nat n - Z.of_nat k, src + Z.of_nat n - Z.of_nat k, Z.of_nat n - Z.of_nat k)).
  replace (m, dest + Z.of_nat n, src + Z.of_nat n, Z.of_nat n) with (f 0%nat).
  2:{ unfold f. rewrite drop_ge by lia. simpl. res_lia. }
  refine (loop_run _ f n _ _ _ (fuel_of m) _); unfold f.
  - intros k Hk. cbn -[take drop Z.of_nat].
    destruct (Z.eqb_spec (Z.of_nat n - Z.of_nat k) 0); [lia|].
    destruct (lookup_lt_is_Some_2 l (n - S k)%nat) as [x Hx]; [lia|].
    replace (src + Z.of_nat n - Z.of_nat k - 1) with (src + Z.of_nat (n - S k)) by lia.
    replace (dest + Z.of_nat n - Z.of_nat k - 1) with (dest + Z.of_nat (n - S k)) by lia.
    unfold load. rewrite put_lookup_ne by lia.
    rewrite (proj1 (at_lookup m src l) Hs _ _ Hx). cbn -[take drop Z.of_nat]. unfold store.
    rewrite put_lookup_ne by lia.
    destruct (Hm (Z.of_nat (n - S k))) as [y ->]; [lia|]. cbn -[take drop Z.of_nat].
    rewrite u8_id by (by eapply bytes_lookup).
    rewrite (drop_S _ _ _ Hx), put_cons.
    replace (S (n - S k)) with (n - k)%nat by lia.
    replace (dest + Z.of_nat (n - S k) + 1) with (dest + Z.of_nat (n - k)) by lia.
    res_lia.
  - cbn -[take drop Z.of_nat].
    destruct (Z.eqb_spec (Z.of_nat n - Z.of_nat n) 0); [|lia]. rewrite Nat.sub_diag, drop_0.
    res_lia. f_equal. lia.
  - unfold fuel_of. lia.
Qed.

(** The list-level meaning of the comparisons. *)
Fixpoint first_diff (l1 l2 : list Z) : Z :=
  match l1, l2 with
  | x :: l1', y :: l2' => if x - y =? 0 then first_diff l1' l2' else x - y
  | _, _ => 0
  end.

Lemma first_diff_zero l1 l2 :
  length l1 = length l2 → first_diff l1 l2 = 0 ↔ l1 = l2.
Proof.
  revert l2. induction l1 as [|x l1 IH]; intros [|y l2] H; simplify_eq/=; [done|].
  destruct (Z.eqb_spec (x - y) 0).
  - rewrite IH by done. split; [intros ->; f_equal; lia|congruence].
  - split; [done|]. intros [=]; lia.
Qed.

(** What [strcmp] returns on two strings: the first difference of the
    terminated strings, cut down to a signed 8-bit value. *)
Fixpoint cmp_str (s1 s2 : list Z) : Z :=
  match s1, s2 with
  | [], [] => 0
  | [], y :: _ => s8 (0 - y)
  | x :: _, [] => s8 (x - 0)
  | x :: s1', y :: s2' => if x =? y then cmp_str s1' s2' else s8 (x - y)
  end.

Lemma s8_diff x y : is_byte x → is_byte y → s8 (x - y) = 0 ↔ x = y.
Proof. intros. rewrite s8_zero; unfold is_byte in *; lia. Qed.

Lemma cmp_str_zero s1 s2 :
  bytes s1 → bytes s2 → 0 ∉ s1 → 0 ∉ s2 → cmp_str s1 s2 = 0 ↔ s1 = s2.
Proof.
  revert s2. induction s1 as [|x s1 IH]; intros [|y s2] H1 H2 Z1 Z2; simpl; [done| | |].
  - apply Forall_cons in H2 as [? _]. rewrite s8_diff by (done || (unfold is_byte; lia)).
    split; [intros <-; by apply not_elem_of_cons in Z2 as [? _]|done].
  - apply Forall_cons in H1 as [? _]. rewrite s8_diff by (done || (unfold is_byte; lia)).
    split; [intros ->; by apply not_elem_of_cons in Z1 as [? _]|done].
  - apply Forall_cons in H1 as [? ?], H2 as [? ?]. destruct (Z.eqb_spec x y) as [->|].
    + rewrite not_elem_of_cons in Z1, Z2. rewrite IH by (done || tauto). split; congruence.
    + rewrite s8_diff by done. split; congruence.
Qed.

Lemma cstr_nil m a : cstr m a [] → load m a = Some 0.
Proof. intros [[H _] _]. done. Qed.

Lemma cstr_cons m a x s :
  cstr m a (x :: s) → load m a = Some x ∧ x ≠ 0 ∧ is_byte x ∧ cstr m (a + 1) s.
Proof.
  intros ([H1 H2] & Hz & Hb). apply not_elem_of_cons in Hz as [? ?].
  inversion Hb; subst. split; [done|]. split; [done|]. split; [done|]. by split.
Qed.

Lemma strcmp_spec m a b s1 s2 :
  cstr m a s1 → cstr m b s2 → strcmp m a b = Some (cmp_str s1 s2).
Proof.
  intros H1 H2. unfold strcmp. pose proof (cstr_size _ _ _ H1) as Hf.
  assert (length s1 < fuel_of m)%nat as Hn by (unfold fuel_of; lia). clear Hf.
  revert a b s2 H1 H2 Hn. generalize (fuel_of m) as n. induction s1 as [|x s1 IH];
    intros [|n] a b s2 H1 H2 Hn; simpl in Hn; try lia; destruct s2 as [|y s2].
  - cbn. by rewrite (cstr_nil _ _ H1), (cstr_nil _ _ H2).
  - cbn. apply cstr_cons in H2 as (-> & Hy & Hb & _). rewrite (cstr_nil _ _ H1). cbn -[s8].
    destruct (Z.eqb_spec (s8 (0 - y)) 0) as [E|]; [|done].
    rewrite s8_diff in E by (done || (unfold is_byte; lia)). lia.
  - cbn. apply cstr_cons in H1 as (-> & Hy & Hb & _). rewrite (cstr_nil _ _ H2). cbn -[s8].
    destruct (Z.eqb_spec (s8 (x - 0)) 0) as [E|]; [|done].
    rewrite s8_diff in E by (done || (unfold is_byte; lia)). lia.
  - cbn -[s8]. apply cstr_cons in H1 as (-> & Hx & Hbx & H1).
    apply cstr_cons in H2 as (-> & Hy & Hby & H2). cbn -[s8].
    destruct (Z.eqb_spec (s8 (x - y)) 0) as [E|E]; simpl.
    + rewrite s8_diff in E by done. subst y. rewrite Z.eqb_refl.
      destruct (Z.eqb_spec x 0); [done|]. apply IH; [done..|lia].
    + rewrite s8_diff in E by done. by destruct (Z.eqb_spec x y).
Qed.

Lemma memcmp_spec m a b l1 l2 :
  at_ m a l1 → at_ m b l2 → length l1 = length l2 →
  memcmp m a b (Z.of_nat (length l1)) = Some (first_diff l1 l2).
Proof.
  intros H1 H2. unfold memcmp. pose proof (at_size _ _ _ H1) as Hf.
  assert (length l1 < fuel_of m)%nat as Hn by (unfold fuel_of; lia). clear Hf.
  revert a b l2 H1 H2 Hn. generalize (fuel_of m) as n. induction l1 as [|x l1 IH];
    intros [|n] a b l2 H1 H2 Hn Hl; simpl in Hn; try lia; destruct l2 as [|y l2]; try done.
  destruct H1 as [Hx H1]. destruct H2 as [Hy H2].
  change (load m a = Some x) in Hx. change (load m b = Some y) in Hy. cbn -[Z.of_nat].
  destruct (Z.ltb_spec 0 (Z.of_nat (S (length l1)))); [|simpl in *; lia].
  cbn -[Z.of_nat]. rewrite Hx. cbn -[Z.of_nat]. rewrite Hy. cbn -[Z.of_nat].
  destruct (Z.eqb_spec (x - y) 0) as [E|E]; cbn -[Z.of_nat]; [|done].
  replace (Z.of_nat (S (length l1)) - 1) with (Z.of_nat (length l1)) by (simpl; lia).
  rewrite E. apply IH; [done|done|lia|]. by injection Hl.
Qed.

(** *** Tokenising *)

(** Length of the longest prefix whose characters satisfy [P]. *)
Fixpoint spn (P : Z → bool) (s : list Z) : nat :=
  match s with
  | [] => 0
  | x :: s' => if P x then S (spn P s') else 0
  end.

Definition inb (l : list Z) (x : Z) : bool := bool_decide (x ∈ l).
Definition notinb (l : list Z) (x : Z) : bool := bool_decide (x ∉ l).

Lemma spn_le P s : (spn P s <= length s)%nat.
Proof. induction s as [|x s IH]; simpl; [lia|]. destruct (P x); simpl; lia. Qed.

Lemma spn_prefix P s : Forall (λ x, P x = true) (take (spn P s) s).
Proof.
  induction s as [|x s IH]; simpl; [constructor|].
  destruct (P x) eqn:E; simpl; [by constructor|constructor].
Qed.

Lemma spn_stop P s x : s !! spn P s = Some x → P x = false.
Proof.
  induction s as [|y s IH]; simpl; [done|]. destruct (P y) eqn:E; simpl; [done|].
  by intros [= ->].
Qed.

Lemma scan_set_spec m set l x :
  cstr m set l → x ≠ 0 →
  ∃ a, scan_set m set x = Some a ∧ load m a = Some (if inb l x then x else 0).
Proof.
  intros H Hx. unfold scan_set. pose proof (cstr_size _ _ _ H) as Hf.
  assert (length l < fuel_of m)%nat as Hn by (unfold fuel_of; lia). clear Hf.
  revert set H Hn. generalize (fuel_of m) as n.
  induction l as [|y l IH]; intros [|n] set H Hn; simpl in Hn; try lia; cbn.
  - rewrite (cstr_nil _ _ H). cbn. exists set. rewrite (cstr_nil _ _ H). done.
  - apply cstr_cons in H as (Hl & Hy & _ & H). rewrite Hl. cbn.
    destruct (Z.eqb_spec y 0); [done|]. destruct (Z.eqb_spec x y) as [->|Hne].
    + exists set. split; [done|]. rewrite Hl. unfold inb. rewrite bool_decide_true; [done|left].
    + destruct (IH n (set + 1) H) as (a & E & El); [lia|]. exists a. split; [done|].
      rewrite El. unfold inb. assert (x ∈ l ↔ x ∈ y :: l) as Hi by (rewrite elem_of_cons; tauto).
      by rewrite (bool_decide_ext _ _ Hi).
Qed.

Lemma strspn_spec m a b s set :
  cstr m a s → cstr m b set → strspn m a b = Some (Z.of_nat (spn (inb set) s)).
Proof.
  intros H Hset. unfold strspn. pose proof (cstr_size _ _ _ H) as Hf.
  assert (length s < fuel_of m)%nat as Hn by (unfold fuel_of; lia). clear Hf.
  cut (∀ count, loop (fuel_of m) (λ '(p, count),
    x ← load m p; if x =? 0 then Some (inr count) else
    a ← scan_set m b x; y ← load m a;
    Some (if y =? 0 then inr count else inl (p + 1, count + 1))) (a, count) =
    Some (count + Z.of_nat (spn (inb set) s))); [intros ->; done|].
  revert a H Hn. generalize (fuel_of m) as n.
  induction s as [|x s IH]; intros [|n] a H Hn count; simpl in Hn; try lia; cbn -[Z.of_nat scan_set].
  - rewrite (cstr_nil _ _ H). cbn. f_equal. lia.
  - apply cstr_cons in H as (Hl & Hx & _ & H). rewrite Hl. cbn -[Z.of_nat scan_set].
    destruct (Z.eqb_spec x 0); [done|].
    destruct (scan_set_spec m b set x Hset Hx) as (p & -> & Ep). cbn -[Z.of_nat scan_set].
    rewrite Ep. cbn -[Z.of_nat scan_set]. destruct (inb set x).
    + destruct (Z.eqb_spec x 0); [done|]. rewrite IH by (done || lia). f_equal. lia.
    + cbn. f_equal. lia.
Qed.

Lemma strpbrk_spec m a b s set :
  cstr m a s → cstr m b set →
  strpbrk m a b = Some (let k := spn (notinb set) s in
    if decide (k < length s)%nat then a + Z.of_nat k else 0).
Proof.
  intros H Hset. unfold strpbrk. pose proof (cstr_size _ _ _ H) as Hf.
  assert (length s < fuel_of m)%nat as Hn by (unfold fuel_of; lia). clear Hf.
  revert a H Hn. generalize (fuel_of m) as n.
  induction s as [|x s IH]; intros [|n] a H Hn; simpl in Hn; try lia; cbn -[Z.of_nat scan_set].
  - by rewrite (cstr_nil _ _ H).
  - apply cstr_cons in H as (Hl & Hx & _ & H). rewrite Hl. cbn -[Z.of_nat scan_set].
    destruct (Z.eqb_spec x 0); [done|].
    destruct (scan_set_spec m b set x Hset Hx) as (p & -> & Ep). cbn -[Z.of_nat scan_set].
    rewrite Ep. cbn -[Z.of_nat scan_set].
    assert (notinb set x = negb (inb set x)) as ->.
    { unfold notinb, inb. by rewrite bool_decide_not. }
    destruct (inb set x); cbn -[Z.of_nat scan_set].
    + destruct (Z.eqb_spec x 0); [done|]. f_equal.
      destruct (decide (0 < S (length s))%nat); lia.
    + rewrite IH by (done || lia). f_equal. cbv zeta.
      destruct (decide (spn (notinb set) s < length s)%nat);
        destruct (decide (S (spn (notinb set) s) < S (length s))%nat); lia.
Qed.

(** The token that starts a string, and what follows its separator. *)
Definition tok_skip (set s : list Z) : list Z := drop (spn (inb set) s) s.
Definition tok_word (set s : list Z) : list Z :=
  take (spn (notinb set) (tok_skip set s)) (tok_skip set s).
Definition tok_rest (set s : list Z) : list Z :=
  drop (S (spn (notinb set) (tok_skip set s))) (tok_skip set s).

Lemma cstr_load_byte m a s (k : nat) :
  cstr m a s → (k <= length s)%nat → is_Some (load m (a + Z.of_nat k)).
Proof.
  intros H Hk. destruct (decide (k = length s)) as [->|].
  - rewrite (cstr_end _ _ _ H). eauto.
  - destruct (lookup_lt_is_Some_2 s k) as [x Hx]; [lia|].
    destruct (cstr_char _ _ _ _ _ H Hx) as (-> & _). eauto.
Qed.

(** Cutting a string in two by a NUL. *)
Lemma cstr_cut m a s (k : nat) :
  cstr m a s → (k < length s)%nat →
  let m' := <[a + Z.of_nat k := 0]> m in
  cstr m' a (take k s) ∧ cstr m' (a + Z.of_nat (S k)) (drop (S k) s).
Proof.
  intros H Hk. pose proof (cstr_drop _ _ _ (S k) H) as Hd.
  destruct Hd as (Hd & Hdz & Hdb); [lia|]. destruct H as (H & Hz & Hb).
  assert (length (take k s) = k) as Hl by (rewrite length_take; lia).
  split; (split; [|split]); try done.
  - apply at_app. rewrite Hl. split; [|split; [apply lookup_insert_eq|done]].
    apply at_insert_ne; [rewrite Hl; lia|].
    rewrite <-(take_drop k s), <-app_assoc, at_app in H. apply H.
  - intros Hin. apply Hz. rewrite <-(take_drop k s). set_solver.
  - by apply bytes_take.
  - apply at_insert_ne; [lia|done].
Qed.

Lemma memmove_spec m dest src l : at_ m src l → bytes l → mapped m dest (Z.of_nat (length l)) →
  memmove m dest src (Z.of_nat (length l)) = Some (put m dest l, dest).
Proof.
  intros Hsrc Hb Hd. unfold memmove. destruct (Z.leb_spec dest src).
  - by rewrite fwd_loop_spec by (done || lia).
  - by rewrite bwd_loop_spec by (done || lia).
Qed.

(** ** Properties *)

(** [memmove] copies correctly whatever the overlap of source and
    destination: the destination ends up with the bytes the source held
    before the call, and nothing else changes. *)
Theorem memmove_correct m dest src l
    (Hsrc : at_ m src l) (Hb : bytes l) (Hd : mapped m dest (Z.of_nat (length l))) :
  memmove m dest src (Z.of_nat (length l)) = Some (put m dest l, dest).
Proof. by apply memmove_spec. Qed.

Lemma memmove_correct_witness :
  memmove demo 101 100 4 = Some (put demo 101 (str "hell"), 101).
Proof.
  apply (memmove_correct demo 101 100 (str "hell")).
  - vm_compute. repeat split.
  - apply str_bytes.
  - intros i Hi. change (Z.of_nat (length (str "hell"))) with 4 in Hi.
    assert (i = 0 ∨ i = 1 ∨ i = 2 ∨ i = 3) as [->|[->|[->| ->]]] by lia; vm_compute; eauto.
Defined.

(** [strcpy] writes exactly the source string and its NUL at the
    destination, provided the destination has room for [strlen(src) + 1] bytes
    and does not start inside the source; it always terminates. *)
Theorem strcpy_correct m dest src s
    (Hsrc : cstr m src s) (Hd : mapped m dest (Z.of_nat (length s) + 1))
    (Hov : dest <= src ∨ src + Z.of_nat (length s) + 1 <= dest) :
  strcpy m dest src = Some (put m dest (s ++ [0]), dest).
Proof. unfold strcpy. by rewrite (copy_loop_spec m dest src s). Qed.

Lemma demo_hello : cstr demo 100 (str "hello").
Proof. solve_cstr. Qed.

Lemma strcpy_correct_witness :
  strcpy demo 300 100 = Some (put demo 300 (str "hello" ++ [0]), 300).
Proof.
  apply (strcpy_correct demo 300 100 (str "hello")); [apply demo_hello| |right; vm_compute; congruence].
  intros i Hi. change (Z.of_nat (length (str "hello")) + 1) with 6 in Hi.
  assert (i = 0 ∨ i = 1 ∨ i = 2 ∨ i = 3 ∨ i = 4 ∨ i = 5)
    as [->|[->|[->|[->|[->| ->]]]]] by lia; vm_compute; eauto.
Defined.

(** [strcmp] terminates on every two strings and returns 0 exactly when
    they are equal. *)
Theorem strcmp_zero_iff m a b s1 s2 (H1 : cstr m a s1) (H2 : cstr m b s2) :
  ∃ r, strcmp m a b = Some r ∧ (r = 0 ↔ s1 = s2).
Proof.
  exists (cmp_str s1 s2). split; [by apply strcmp_spec|].
  destruct H1 as (_ & ? & ?), H2 as (_ & ? & ?). by apply cmp_str_zero.
Qed.

Lemma strcmp_zero_iff_witness :
  ∃ r, strcmp demo 100 100 = Some r ∧ (r = 0 ↔ str "hello" = str "hello").
Proof. apply (strcmp_zero_iff demo 100 100); apply demo_hello. Defined.

(** The sign of [strcmp] is not an order: the difference of two
    characters is truncated to a [signed char], so for the two one-character
    strings "\xff" and "\x01" the result is negative although the first
    is the larger one. *)
Theorem strcmp_sign_truncated :
  ∃ m r, cstr m 16 [255] ∧ cstr m 32 [1] ∧ strcmp m 16 32 = Some r ∧ r < 0.
Proof.
  exists (image [(16, [255; 0]); (32, [1; 0])]), (-2).
  split; [solve_cstr|]. split; [solve_cstr|]. by vm_compute.
Qed.

(** [strtok] returns the first token of the string: it skips the leading
    separators, cuts the word off with a NUL and leaves the cursor on what
    follows; with only separators left it returns NULL and clears the cursor. *)
Theorem strtok_correct m cursor a ct s set
    (Ha : 0 < a) (Hs : cstr m a s) (Hset : cstr m ct set) :
  let p := a + Z.of_nat (spn (inb set) s) in
  let w := tok_word set s in
  if decide (tok_skip set s = []) then strtok m cursor a ct = Some (m, 0, 0)
  else if decide (length w = length (tok_skip set s)) then
    strtok m cursor a ct = Some (m, 0, p) ∧ cstr m p w
  else ∃ m', strtok m cursor a ct = Some (m', p + Z.of_nat (length w) + 1, p) ∧
    m' = <[p + Z.of_nat (length w) := 0]> m ∧
    cstr m' p w ∧ cstr m' (p + Z.of_nat (length w) + 1) (tok_rest set s).
Proof.
  cbv zeta. unfold strtok. destruct (Z.eqb_spec a 0); [lia|]. cbv zeta.
  destruct (Z.eqb_spec a 0); [lia|]. rewrite (strspn_spec m a ct s set Hs Hset). cbn [mbind option_bind].
  pose proof (cstr_drop m a s _ Hs (spn_le (inb set) s)) as Hk. change (drop _ s) with (tok_skip set s) in Hk.
  set (p := a + Z.of_nat (spn (inb set) s)) in *. assert (0 < p) by lia.
  unfold tok_word, tok_rest. set (t := tok_skip set s) in *. clearbody t p.
  destruct (decide (t = [])) as [->|Ht].
  { by rewrite (cstr_nil _ _ Hk). }
  destruct t as [|c t]; [done|].
  pose proof (cstr_cons _ _ _ _ Hk) as (Hc & Hcz & _ & _).
  set (j := spn (notinb set) (c :: t)). pose proof (spn_le (notinb set) (c :: t)) as Hj.
  rewrite Hc. cbn [mbind option_bind]. destruct (Z.eqb_spec c 0); [done|].
  rewrite (strpbrk_spec m p ct _ set Hk Hset). cbv zeta. cbn [mbind option_bind].
  fold j in Hj |- *. clearbody j.
  rewrite length_take, Nat.min_l by done.
  destruct (decide (j = length (c :: t))) as [->|Hne].
  { rewrite decide_False by lia. cbn. by rewrite take_ge by done. }
  rewrite decide_True by lia.
  destruct (lookup_lt_is_Some_2 (c :: t) j) as [x Hx]; [lia|].
  destruct (cstr_char _ _ _ _ _ Hk Hx) as (Hl & Hxz & _).
  destruct (cstr_cut _ _ _ j Hk) as [C1 C2]; [lia|].
  destruct (Z.eqb_spec (p + Z.of_nat j) 0); [lia|].
  rewrite Hl. cbn [mbind option_bind]. destruct (Z.eqb_spec x 0); [done|].
  unfold store. unfold load in Hl. rewrite Hl. cbn [mbind option_bind].
  eexists. split; [done|]. split; [done|]. split; [done|].
  by replace (p + Z.of_nat j + 1) with (p + Z.of_nat (S j)) by lia.
Qed.

Definition demo_tok : mem := image [(100, str ",ab,c" ++ [0]); (200, str "," ++ [0])].

Lemma strtok_correct_witness :
  ∃ m', strtok demo_tok 0 100 200 = Some (m', 104, 101) ∧
    m' = <[103 := 0]> demo_tok ∧ cstr m' 101 (str "ab") ∧ cstr m' 104 (str "c").
Proof.
  apply (strtok_correct demo_tok 0 100 200 (str ",ab,c") (str ","));
    [reflexivity|solve_cstr|solve_cstr].
Defined.
