(* ===== verification/Crc32.v ===== *)
(** [lib_generic/crc32.c]: the table-driven CRC-32 used for the partition
    table and the environment, and its equality with the shift register. *)
From stdpp Require Import base tactics option list strings.
From Stdlib Require Import ZArith Lia.
From S2P Require Import Prelude.
Open Scope Z_scope.

(** ** The code *)

(** [make_crc_table], compiled under [DYNAMIC_CRC_TABLE]. *)
Definition crc_poly : Z :=
  foldl (λ poly p, Z.lor poly (Z.shiftl 1 (31 - p))) 0 [0; 1; 2; 4; 5; 7; 8; 10; 11; 12; 16; 22; 23; 26].

Definition crc_bit (c : Z) : Z :=
  if Z.testbit c 0 then Z.lxor crc_poly (Z.shiftr c 1) else Z.shiftr c 1.

Fixpoint crc_bits (k : nat) (c : Z) : Z :=
  match k with O => c | S k' => crc_bits k' (crc_bit c) end.

Definition make_crc_table : list Z := map (λ n, crc_bits 8 n) (seqZ 0 256).

(** The table of the default configuration. *)
Definition crc_table : list Z := [
  0; 1996959894; 3993919788; 2567524794; 124634137; 1886057615;
  3915621685; 2657392035; 249268274; 2044508324; 3772115230; 2547177864;
  162941995; 2125561021; 3887607047; 2428444049; 498536548; 1789927666;
  4089016648; 2227061214; 450548861; 1843258603; 4107580753; 2211677639;
  325883990; 1684777152; 4251122042; 2321926636; 335633487; 1661365465;
  4195302755; 2366115317; 997073096; 1281953886; 3579855332; 2724688242;
  1006888145; 1258607687; 3524101629; 2768942443; 901097722; 1119000684;
  3686517206; 2898065728; 853044451; 1172266101; 3705015759; 2882616665;
  651767980; 1373503546; 3369554304; 3218104598; 565507253; 1454621731;
  3485111705; 3099436303; 671266974; 1594198024; 3322730930; 2970347812;
  795835527; 1483230225; 3244367275; 3060149565; 1994146192; 31158534;
  2563907772; 4023717930; 1907459465; 112637215; 2680153253; 3904427059;
  2013776290; 251722036; 2517215374; 3775830040; 2137656763; 141376813;
  2439277719; 3865271297; 1802195444; 476864866; 2238001368; 4066508878;
  1812370925; 453092731; 2181625025; 4111451223; 1706088902; 314042704;
  2344532202; 4240017532; 1658658271; 366619977; 2362670323; 4224994405;
  1303535960; 984961486; 2747007092; 3569037538; 1256170817; 1037604311;
  2765210733; 3554079995; 1131014506; 879679996; 2909243462; 3663771856;
  1141124467; 855842277; 2852801631; 3708648649; 1342533948; 654459306;
  3188396048; 3373015174; 1466479909; 544179635; 3110523913; 3462522015;
  1591671054; 702138776; 2966460450; 3352799412; 1504918807; 783551873;
  3082640443; 3233442989; 3988292384; 2596254646; 62317068; 1957810842;
  3939845945; 2647816111; 81470997; 1943803523; 3814918930; 2489596804;
  225274430; 2053790376; 3826175755; 2466906013; 167816743; 2097651377;
  4027552580; 2265490386; 503444072; 1762050814; 4150417245; 2154129355;
  426522225; 1852507879; 4275313526; 2312317920; 282753626; 1742555852;
  4189708143; 2394877945; 397917763; 1622183637; 3604390888; 2714866558;
  953729732; 1340076626; 3518719985; 2797360999; 1068828381; 1219638859;
  3624741850; 2936675148; 906185462; 1090812512; 3747672003; 2825379669;
  829329135; 1181335161; 3412177804; 3160834842; 628085408; 1382605366;
  3423369109; 3138078467; 570562233; 1426400815; 3317316542; 2998733608;
  733239954; 1555261956; 3268935591; 3050360625; 752459403; 1541320221;
  2607071920; 3965973030; 1969922972; 40735498; 2617837225; 3943577151;
  1913087877; 83908371; 2512341634; 3803740692; 2075208622; 213261112;
  2463272603; 3855990285; 2094854071; 198958881; 2262029012; 4057260610;
  1759359992; 534414190; 2176718541; 4139329115; 1873836001; 414664567;
  2282248934; 4279200368; 1711684554; 285281116; 2405801727; 4167216745;
  1634467795; 376229701; 2685067896; 3608007406; 1308918612; 956543938;
  2808555105; 3495958263; 1231636301; 1047427035; 2932959818; 3654703836;
  1088359270; 936918000; 2847714899; 3736837829; 1202900863; 817233897;
  3183342108; 3401237130; 1404277552; 615818150; 3134207493; 3453421203;
  1423857449; 601450431; 3009837614; 3294710456; 1567103746; 711928724;
  3020668471; 3272380065; 1510334235; 755167117].

Definition DO1 (crc b : Z) : option Z :=
  t ← idx crc_table (Z.land (Z.lxor crc b) 255);
  Some (Z.lxor t (Z.shiftr crc 8)).

Fixpoint DO (n : nat) (crc : Z) (buf : list Z) : option (Z * list Z) :=
  match n with
  | O => Some (crc, buf)
  | S n' => match buf with
            | [] => None
            | b :: buf' => crc ← DO1 crc b; DO n' crc buf'
            end
  end.

(** [while (len >= 8) { DO8; len -= 8 }], then [DO1] for the rest. *)
Definition crc32_step (x : Z * list Z * Z) : option ((Z * list Z * Z) + (Z * list Z * Z)) :=
  let '(crc, buf, len) := x in
  if 8 <=? len then '(crc, buf) ← DO 8 crc buf; Some (inl (crc, buf, len - 8))
  else Some (inr (crc, buf, len)).

Definition crc32_loops (crc : Z) (buf : list Z) (len : Z) : option Z :=
  '(crc, buf, len) ← loop (S (Z.to_nat len)) crc32_step (crc, buf, len);
  '(crc, _) ← DO (Z.to_nat len) crc buf;
  Some crc.

Definition crc32 (crc : Z) (buf : list Z) (len : Z) : option Z :=
  crc ← crc32_loops (Z.lxor crc 4294967295) buf len;
  Some (Z.lxor crc 4294967295).

Definition crc32_no_comp (crc : Z) (buf : list Z) (len : Z) : option Z := crc32_loops crc buf len.

(** ** The shift register *)

(** One byte enters the register bit by bit, least significant bit first. *)
Fixpoint feed_bits (k : nat) (crc b : Z) : Z :=
  match k with
  | O => crc
  | S k' =>
      let c := Z.lxor crc (Z.land b 1) in
      feed_bits k' (crc_bit c) (Z.shiftr b 1)
  end.

Definition feed (crc b : Z) : Z := feed_bits 8 crc b.

Lemma table_is_generated : crc_table = make_crc_table.
Proof. vm_compute. reflexivity. Qed.

(** The register step is linear. *)
Lemma crc_bit_xor a b : crc_bit (Z.lxor a b) = Z.lxor (crc_bit a) (crc_bit b).
Proof.
  unfold crc_bit. rewrite Z.lxor_spec, Z.shiftr_lxor.
  destruct (Z.testbit a 0), (Z.testbit b 0); cbn [xorb]; generalize crc_poly; intros p;
    apply Z.bits_inj'; intros n Hn; rewrite !Z.lxor_spec;
    destruct (Z.testbit p n), (Z.testbit (Z.shiftr a 1) n), (Z.testbit (Z.shiftr b 1) n); done.
Qed.

Lemma crc_bits_xor k a b : crc_bits k (Z.lxor a b) = Z.lxor (crc_bits k a) (crc_bits k b).
Proof. revert a b. induction k as [|k IH]; intros a b; [done|]. cbn [crc_bits]. by rewrite crc_bit_xor, IH. Qed.

(** Shifting in zero bits only shifts. *)
Lemma crc_bits_high k a : crc_bits k (Z.shiftl a (Z.of_nat k)) = a.
Proof.
  revert a. induction k as [|k IH]; intros a; [apply Z.shiftl_0_r|]. cbn [crc_bits].
  assert (crc_bit (Z.shiftl a (Z.of_nat (S k))) = Z.shiftl a (Z.of_nat k)) as ->; [|apply IH].
  unfold crc_bit. rewrite Z.shiftl_spec_low by lia. rewrite Z.shiftr_shiftl_l by lia. f_equal. lia.
Qed.

Lemma feed_bits_xor k crc b :
  feed_bits k crc b = crc_bits k (Z.lxor crc (Z.land b (Z.ones (Z.of_nat k)))).
Proof.
  revert crc b. induction k as [|k IH]; intros crc b.
  - cbn. by rewrite Z.land_0_r, Z.lxor_0_r.
  - cbn [feed_bits crc_bits]. rewrite IH. f_equal.
    assert (Z.land b (Z.ones (Z.of_nat (S k))) =
      Z.lxor (Z.land b 1) (Z.shiftl (Z.land (Z.shiftr b 1) (Z.ones (Z.of_nat k))) 1)) as ->.
    { apply Z.bits_inj'. intros n Hn. rewrite Z.lxor_spec, !Z.land_spec, Z.shiftl_spec, Z.land_spec by done.
      destruct (Z.eq_dec n 0) as [->|].
      - rewrite Z.ones_spec_low by lia. rewrite (Z.testbit_neg_r (Z.shiftr b 1) (0 - 1)) by lia.
        change (Z.testbit 1 0) with true. by rewrite !andb_true_r, xorb_false_r.
      - rewrite (Z.shiftr_spec _ 1 (n - 1)) by lia. replace (n - 1 + 1) with n by lia.
        assert (Z.testbit 1 n = false) as ->.
        { change 1 with (2 ^ 0). apply Z.pow2_bits_false. lia. }
        rewrite andb_false_r, xorb_false_l.
        destruct (Z.lt_ge_cases n (Z.of_nat (S k))).
        + rewrite !Z.ones_spec_low by lia. done.
        + rewrite !Z.ones_spec_high by lia. done. }
    rewrite <-Z.lxor_assoc, (crc_bit_xor _ (Z.shiftl _ 1)). f_equal. symmetry.
    apply (crc_bits_high 1).
Qed.

Lemma crc_low_high crc : crc = Z.lxor (Z.land crc 255) (Z.shiftl (Z.shiftr crc 8) 8).
Proof.
  apply Z.bits_inj'. intros n Hn. rewrite Z.lxor_spec, Z.land_spec, Z.shiftl_spec by done.
  change 255 with (Z.ones 8). destruct (Z.lt_ge_cases n 8).
  - rewrite Z.ones_spec_low, (Z.testbit_neg_r (Z.shiftr crc 8) (n - 8)) by lia. by rewrite andb_true_r, xorb_false_r.
  - rewrite Z.ones_spec_high, Z.shiftr_spec by lia. rewrite andb_false_r, xorb_false_l. f_equal. lia.
Qed.

Lemma land_255_range z : 0 <= Z.land z 255 < 256.
Proof. change 255 with (Z.ones 8). rewrite Z.land_ones by lia. apply Z.mod_pos_bound. done. Qed.

(** One table step is eight register steps. *)
Lemma DO1_feed crc b : is_byte b → DO1 crc b = Some (feed crc b).
Proof.
  intros Hb. unfold DO1, feed. rewrite table_is_generated. unfold make_crc_table.
  pose proof (land_255_range (Z.lxor crc b)) as Hr.
  set (i := Z.land (Z.lxor crc b) 255) in *.
  assert (idx (map (λ n, crc_bits 8 n) (seqZ 0 256)) i = Some (crc_bits 8 i)) as ->.
  { apply idx_lookup. split; [lia|]. rewrite list_lookup_fmap, lookup_seqZ_lt by lia.
    cbn [fmap option_fmap option_map]. by rewrite Z.add_0_l, Z2Nat.id by lia. }
  cbn [mbind option_bind]. f_equal. rewrite feed_bits_xor.
  change (Z.ones (Z.of_nat 8)) with 255.
  assert (Z.land b 255 = b) as ->.
  { change 255 with (Z.ones 8). rewrite Z.land_ones by lia. apply Z.mod_small. exact Hb. }
  rewrite (crc_low_high (Z.lxor crc b)) at 1. fold i. rewrite crc_bits_xor. f_equal.
  rewrite (crc_bits_high 8). rewrite Z.shiftr_lxor.
  assert (Z.shiftr b 8 = 0) as ->.
  { rewrite Z.shiftr_div_pow2 by lia. apply Z.div_small. exact Hb. }
  by rewrite Z.lxor_0_r.
Qed.

Lemma DO_feed n crc buf :
  bytes buf → (n <= length buf)%nat →
  DO n crc buf = Some (foldl feed crc (take n buf), drop n buf).
Proof.
  revert crc buf. induction n as [|n IH]; intros crc buf Hb Hn; [by rewrite drop_0|].
  destruct buf as [|b buf]; [cbn in Hn; lia|]. apply Forall_cons in Hb as [Hb0 Hb].
  cbn [DO]. rewrite DO1_feed by done. cbn [mbind option_bind]. rewrite IH by (done || (cbn in Hn; lia)).
  done.
Qed.

Lemma crc32_loops_feed crc buf len :
  bytes buf → 0 <= len <= Z.of_nat (length buf) →
  crc32_loops crc buf len = Some (foldl feed crc (take (Z.to_nat len) buf)).
Proof.
  intros Hb Hl. unfold crc32_loops.
  assert (∀ n crc buf len, bytes buf → 0 <= len <= Z.of_nat (length buf) → (Z.to_nat len < n)%nat →
    ∃ crc' buf' len', loop n crc32_step (crc, buf, len) = Some (crc', buf', len') ∧
      bytes buf' ∧ 0 <= len' <= Z.of_nat (length buf') ∧
      foldl feed crc' (take (Z.to_nat len') buf') = foldl feed crc (take (Z.to_nat len) buf)) as HL.
  { clear. induction n as [|n IH]; intros crc buf len Hb Hl Hn; [lia|]. cbn [loop crc32_step].
    destruct (Z.leb_spec 8 len); [|by eexists _, _, _].
    rewrite DO_feed by (done || lia). cbn [mbind option_bind].
    destruct (IH (foldl feed crc (take 8 buf)) (drop 8 buf) (len - 8)) as (c' & b' & l' & -> & ? & ? & E).
    - auto with cint.
    - rewrite length_drop. lia.
    - lia.
    - eexists _, _, _. split; [done|]. split_and!; try done; try lia. rewrite E.
      rewrite <-foldl_app. f_equal. replace (Z.to_nat len) with (8 + Z.to_nat (len - 8))%nat by lia.
      rewrite <-(take_drop 8 (take (8 + _) buf)). rewrite take_take, Nat.min_l by lia.
      f_equal. by rewrite take_drop_commute. }
  destruct (HL (S (Z.to_nat len)) crc buf len Hb Hl) as (c' & b' & l' & -> & Hb' & Hl' & E); [lia|].
  cbn [mbind option_bind]. rewrite DO_feed by (done || lia). cbn [mbind option_bind]. by rewrite E.
Qed.

(** C33: [crc32] computes the CRC of the shift register with the polynomial
    0x04C11DB7: the table holds the contribution of every byte, and the
    eight-fold unrolled loop visits every byte once. *)
Theorem crc32_shift_register crc buf len
    (Hb : bytes buf) (Hl : 0 <= len <= Z.of_nat (length buf)) :
  crc32 crc buf len =
    Some (Z.lxor (foldl feed (Z.lxor crc 4294967295) (take (Z.to_nat len) buf)) 4294967295).
Proof. unfold crc32. by rewrite crc32_loops_feed. Qed.

Lemma crc32_shift_register_witness :
  crc32 0 (str "123456789") 9 = Some 3421780262 ∧
  crc32 0 (str "123456789") 9 =
    Some (Z.lxor (foldl feed (Z.lxor 0 4294967295) (take (Z.to_nat 9) (str "123456789"))) 4294967295).
Proof. split; [by vm_compute|]. apply (crc32_shift_register 0 (str "123456789") 9); by_eval. Defined.

(** The CRC of a message can be computed in pieces. *)
Theorem crc32_append crc l1 l2
    (H1 : bytes l1) (H2 : bytes l2) :
  ∃ c1, crc32 crc l1 (Z.of_nat (length l1)) = Some c1 ∧
    crc32 c1 l2 (Z.of_nat (length l2)) = crc32 crc (l1 ++ l2) (Z.of_nat (length (l1 ++ l2))).
Proof.
  unfold crc32. rewrite crc32_loops_feed by (done || lia). cbn [mbind option_bind].
  eexists. split; [done|]. rewrite !crc32_loops_feed; try lia; [|by apply bytes_app|done].
  rewrite Z.lxor_assoc, Z.lxor_nilpotent, Z.lxor_0_r, !Nat2Z.id, !take_ge by lia.
  by rewrite foldl_app.
Qed.

Lemma crc32_append_witness :
  ∃ c1, crc32 0 (str "1234") 4 = Some c1 ∧ crc32 c1 (str "56789") 5 = crc32 0 (str "123456789") 9.
Proof. apply (crc32_append 0 (str "1234") (str "56789")); by_eval. Defined.

(** ** The register stays in 32 bits *)

Lemma u32_testbit z n : is_u32 z → 32 <= n → Z.testbit z n = false.
Proof.
  intros Hz Hn. assert (z = z mod 2 ^ 32) as -> by (symmetry; apply Z.mod_small; exact Hz).
  by apply Z.mod_pow2_bits_high.
Qed.

Lemma u32_lxor a b : is_u32 a → is_u32 b → is_u32 (Z.lxor a b).
Proof.
  intros Ha Hb. assert (0 <= Z.lxor a b) as H0 by (apply Z.lxor_nonneg; unfold is_u32 in *; lia).
  assert (Z.lxor a b = Z.lxor a b mod 2 ^ 32) as ->; [|apply Z.mod_pos_bound; done].
  apply Z.bits_inj'. intros n Hn. destruct (Z.lt_ge_cases n 32).
  - by rewrite Z.mod_pow2_bits_low.
  - rewrite Z.mod_pow2_bits_high by lia. by rewrite Z.lxor_spec, !u32_testbit.
Qed.

Lemma crc_bit_u32 c : is_u32 c → is_u32 (crc_bit c).
Proof.
  intros Hc. unfold crc_bit.
  assert (is_u32 (Z.shiftr c 1)) by (rewrite Z.shiftr_div_pow2 by lia; unfold is_u32 in *; dm_lia).
  destruct (Z.testbit c 0); [|done]. apply u32_lxor; [done || by_eval|done || by_eval].
Qed.

Lemma crc_bits_u32 k c : is_u32 c → is_u32 (crc_bits k c).
Proof. revert c. induction k as [|k IH]; intros c Hc; [done|]. cbn. by apply IH, crc_bit_u32. Qed.

Lemma feed_u32 crc b : is_u32 crc → is_byte b → is_u32 (feed crc b).
Proof.
  intros Hc Hb. unfold feed. rewrite feed_bits_xor. apply crc_bits_u32, u32_lxor; [done|].
  change (Z.of_nat 8) with 8. rewrite Z.land_ones by lia.
  pose proof (Z.mod_pos_bound b (2 ^ 8) ltac:(done)). unfold is_u32. lia.
Qed.

Lemma crc32_total crc buf len :
  is_u32 crc → bytes buf → 0 <= len <= Z.of_nat (length buf) →
  ∃ c, crc32 crc buf len = Some c ∧ is_u32 c.
Proof.
  intros Hc Hb Hl. unfold crc32. rewrite crc32_loops_feed by done. cbn [mbind option_bind].
  eexists. split; [done|]. apply u32_lxor; [|by_eval].
  assert (Forall is_byte (take (Z.to_nat len) buf)) as Ht by (by apply bytes_take).
  assert (is_u32 (Z.lxor crc 4294967295)) as H0 by (apply u32_lxor; [done|by_eval]). revert H0.
  generalize (Z.lxor crc 4294967295). induction Ht as [|b l Hb0 Hl0 IH]; intros c H0; [done|].
  cbn [foldl]. by apply IH, feed_u32.
Qed.
