(* ===== verification/Rsa.v ===== *)
(** [common/rsa.c] and the RSA half of [common/crypto.c]: verification of a
    2048-bit RSA signature (exponent 3, PKCS#1 v1.5, SHA-1) with Montgomery
    multiplication on little-endian arrays of 32-bit words.  Arrays are lists
    of words, an index out of range is undefined ([None]); 64-bit accumulators
    are kept at their width. *)
From stdpp Require Import base tactics option list strings.
From Stdlib Require Import ZArith Lia Znumtheory.
From S2P Require Import Prelude.
Open Scope Z_scope.

(** ** Data *)

Definition RSANUMBYTES : Z := 256.
Definition RSANUMWORDS : Z := 64.
Definition SHA_DIGEST_SIZE : Z := 20.

Record RSAPublicKey := mkKey {
  key_len : Z;        (** [int len]: length of [n] in words *)
  key_n0inv : Z;      (** -1 / n[0] mod 2^32 *)
  key_n : list Z;     (** modulus, little-endian words *)
  key_rr : list Z;    (** R^2 mod n *)
}.

(** ** Operations *)

Definition subM (key : RSAPublicKey) (a : list Z) : option (list Z) :=
  r ← for_ (Z.to_nat (key_len key)) 0 (λ i '(A, a),
    x ← idx a i;
    y ← idx (key_n key) i;
    let A := s64 (A + u64 (x - y)) in
    a' ← upd a i (u32 A);
    Some (Z.shiftr A 32, a')) (0, a);
  Some r.2.

Definition geM (key : RSAPublicKey) (a : list Z) : option bool :=
  loop (S (Z.to_nat (key_len key))) (λ i,
    if i =? 0 then Some (inr true) else
    let i := i - 1 in
    x ← idx a i;
    y ← idx (key_n key) i;
    Some (if x <? y then inr false
          else if y <? x then inr true
          else inl i)) (key_len key).

Definition montMulAdd (key : RSAPublicKey) (c : list Z) (a : Z) (b : list Z)
    : option (list Z) :=
  b0 ← idx b 0;
  c0 ← idx c 0;
  n0 ← idx (key_n key) 0;
  let A := u64 (a * b0 + c0) in
  let d0 := u32 (u32 A * key_n0inv key) in
  let B := u64 (d0 * n0 + u32 A) in
  r ← for_ (Z.to_nat (key_len key - 1)) 1 (λ i '(A, B, c),
    bi ← idx b i;
    ci ← idx c i;
    ni ← idx (key_n key) i;
    let A := u64 (Z.shiftr A 32 + a * bi + ci) in
    let B := u64 (Z.shiftr B 32 + d0 * ni + u32 A) in
    c' ← upd c (i - 1) (u32 B);
    Some (A, B, c')) (A, B, c);
  let '(A, B, c) := r in
  let A := u64 (Z.shiftr A 32 + Z.shiftr B 32) in
  c' ← upd c (Z.max 1 (key_len key) - 1) (u32 A);
  if negb (Z.shiftr A 32 =? 0) then subM key c' else Some c'.

Definition montMul (key : RSAPublicKey) (c a b : list Z) : option (list Z) :=
  c ← for_ (Z.to_nat (key_len key)) 0 (λ i c, upd c i 0) c;
  for_ (Z.to_nat (key_len key)) 0 (λ i c,
    ai ← idx a i;
    montMulAdd key c ai b) c.

(** The words of the big-endian byte array [inout]. *)
Definition be_words (key : RSAPublicKey) (inout a : list Z) : option (list Z) :=
  for_ (Z.to_nat (key_len key)) 0 (λ i a,
    b0 ← idx inout ((key_len key - 1 - i) * 4 + 0);
    b1 ← idx inout ((key_len key - 1 - i) * 4 + 1);
    b2 ← idx inout ((key_len key - 1 - i) * 4 + 2);
    b3 ← idx inout ((key_len key - 1 - i) * 4 + 3);
    upd a i (u32 (be32 b0 b1 b2 b3))) a.

(** Storing the words back, most significant word first: round [j] writes
    word [len - 1 - j]. *)
Definition be_store (key : RSAPublicKey) (aaa inout : list Z) : option (list Z) :=
  for_ (Z.to_nat (key_len key)) 0 (λ j inout,
    tmp ← idx aaa (key_len key - 1 - j);
    blit inout (j * 4) [u8 (Z.shiftr tmp 24); u8 (Z.shiftr tmp 16);
                        u8 (Z.shiftr tmp 8); u8 tmp]) inout.

(** The three local arrays hold arbitrary words on entry. *)
Definition modpow3 (key : RSAPublicKey) (a aR aaR : list Z) (inout : list Z)
    : option (list Z) :=
  a ← be_words key inout a;
  aR ← montMul key aR a (key_rr key);
  aaR ← montMul key aaR aR aR;
  aaa ← montMul key aR aaR a;
  g ← geM key aaa;
  aaa ← if (g : bool) then subM key aaa else Some aaa;
  be_store key aaa inout.

Definition padding : list Z :=
  [0; 1] ++ replicate 218 255 ++
  [0; 48; 33; 48; 9; 6; 5; 43; 14; 3; 2; 26; 5; 0; 4; 20].

(** [RSA_verify]; [stack] is the content of the uninitialised local arrays. *)
Definition RSA_verify (stack : list Z) (key : RSAPublicKey) (signature : list Z) (len : Z)
    (sha : list Z) : option Z :=
  if negb (key_len key =? RSANUMWORDS) then Some 0 else
  if negb (len =? RSANUMBYTES) then Some 0 else
  buf ← slice signature 0 len;
  buf ← modpow3 key stack stack stack buf;
  bad ← loop (S (length padding)) (λ i,
    if negb (i <? Z.of_nat (length padding)) then Some (inr false) else
    x ← idx buf i;
    y ← idx padding i;
    Some (if negb (x =? y) then inr true else inl (i + 1))) 0;
  if (bad : bool) then Some 0 else
  loop (S (Z.to_nat len)) (λ i,
    if negb (i <? len) then Some (inr 1) else
    x ← idx buf i;
    y ← idx sha (i - Z.of_nat (length padding));
    Some (if negb (x =? y) then inr 0 else inl (i + 1))) (Z.of_nat (length padding)).

(** [common/crypto.c]: the entry point the boot code calls. *)
Definition SIGNATURE_SIZE : Z := 256.

Definition is_signature_okay (stack : list Z) (digest signature : list Z)
    (pubkey : RSAPublicKey) : option Z :=
  RSA_verify stack pubkey signature SIGNATURE_SIZE digest.

(** ** Values of word arrays *)

Abbreviation W := 4294967296.
Definition words (l : list Z) : Prop := Forall is_u32 l.

Fixpoint val (l : list Z) : Z :=
  match l with [] => 0 | x :: l' => x + W * val l' end.

Definition pw (k : nat) : Z := W ^ Z.of_nat k.

Lemma pw_0 : pw 0 = 1. Proof. done. Qed.
Lemma pw_S k : pw (S k) = W * pw k.
Proof. unfold pw. rewrite Nat2Z.inj_succ, Z.pow_succ_r by lia. done. Qed.
Lemma pw_pos k : 0 < pw k.
Proof. unfold pw. lia. Qed.

Lemma val_app l1 l2 : val (l1 ++ l2) = val l1 + pw (length l1) * val l2.
Proof.
  induction l1 as [|x l1 IH]; [change (val l2 = 0 + pw 0 * val l2); rewrite pw_0; lia|].
  change ((x :: l1) ++ l2) with (x :: (l1 ++ l2)). cbn [val length].
  rewrite IH, pw_S. lia.
Qed.

Lemma val_snoc l x : val (l ++ [x]) = val l + pw (length l) * x.
Proof. rewrite val_app. cbn [val]. lia. Qed.

Lemma val_take_S l k x :
  l !! k = Some x → val (take (S k) l) = val (take k l) + pw k * x.
Proof.
  intros H. pose proof (lookup_lt_Some _ _ _ H). rewrite (take_S_r _ _ _ H), val_snoc.
  by rewrite length_take, Nat.min_l by lia.
Qed.

Lemma val_range l : words l → 0 <= val l < pw (length l).
Proof.
  induction 1 as [|x l Hx Hl IH]; [change (0 <= 0 < pw 0); rewrite pw_0; lia|]. cbn [val length].
  rewrite pw_S. unfold is_u32 in Hx. lia.
Qed.

Lemma val_zeros k : val (replicate k 0) = 0.
Proof. induction k as [|k IH]; [done|]. cbn [replicate val]. lia. Qed.

Lemma words_lookup l k x : words l → l !! k = Some x → is_u32 x.
Proof. intros. by eapply Forall_lookup_1. Qed.

(** An array whose first words have been rewritten. *)
Lemma idx_tail (ws a : list Z) (k j : nat) :
  length ws = k → (k <= j)%nat → idx (ws ++ drop k a) (Z.of_nat j) = a !! j.
Proof.
  intros Hl Hj. rewrite idx_nat, lookup_app_r, lookup_drop by lia. f_equal. lia.
Qed.

Lemma upd_tail (ws a : list Z) (k : nat) v :
  length ws = k → (k < length a)%nat →
  upd (ws ++ drop k a) (Z.of_nat k) v = Some ((ws ++ [v]) ++ drop (S k) a).
Proof.
  intros Hl Hk. rewrite upd_Some by (rewrite length_app, length_drop; lia).
  rewrite Nat2Z.id, insert_app_r_alt by lia.
  destruct (lookup_lt_is_Some_2 a k Hk) as [x Hx].
  rewrite (drop_S _ _ _ Hx), Hl, Nat.sub_diag. cbn. by rewrite <-app_assoc.
Qed.

Lemma shiftr32 z : Z.shiftr z 32 = z / W.
Proof. by rewrite Z.shiftr_div_pow2. Qed.

(** ** Subtraction and comparison *)

Lemma subM_val key a :
  key_len key = Z.of_nat (length (key_n key)) → length a = length (key_n key) →
  words a → words (key_n key) →
  ∃ a', subM key a = Some a' ∧ length a' = length a ∧ words a' ∧
    val a' = (val a - val (key_n key)) mod pw (length a).
Proof.
  intros Hlen Hla Ha Hn. unfold subM.
  set (N := key_n key) in *. set (L := length N) in *.
  for_inv (λ i '(A, c), ∃ k ws, i = Z.of_nat k ∧ (k <= L)%nat ∧
      length ws = k ∧ words ws ∧ c = ws ++ drop k a ∧ (A = 0 ∨ A = -1) ∧
      val ws + pw k * A = val (take k a) - val (take k N)) HF.
  destruct HF as ([A c] & -> & (k & ws & Hk & HkL & Hws & Hwo & -> & HA & HV)).
  - exists 0%nat, []. rewrite !take_0. cbn. repeat split; auto with lia. constructor.
  - intros j [A c] Hj (k & ws & -> & HkL & Hws & Hwo & -> & HA & HV).
    rewrite Hlen in Hj.
    destruct (lookup_lt_is_Some_2 a k) as [x Hx]; [lia|].
    destruct (lookup_lt_is_Some_2 N k) as [y Hy]; [lia|].
    rewrite idx_tail, Hx, idx_nat, Hy by lia. cbn [mbind option_bind].
    pose proof (words_lookup _ _ _ Ha Hx). pose proof (words_lookup _ _ _ Hn Hy).
    assert (s64 (A + u64 (x - y)) = A + x - y) as -> by (destruct HA as [-> | ->]; int_lia).
    rewrite upd_tail by (done || lia). cbn [mbind option_bind].
    eexists. split; [done|]. exists (S k), (ws ++ [u32 (A + x - y)]).
    rewrite shiftr32, length_app, val_snoc, Hws, pw_S.
    rewrite (val_take_S _ _ _ Hx), (val_take_S _ _ _ Hy).
    split; [lia|]. split; [lia|]. split; [simpl; lia|].
    split; [apply Forall_app; split; [done|by repeat constructor; apply u32_range]|].
    split; [done|]. split; [destruct HA as [-> | ->]; int_lia|].
    assert (u32 (A + x - y) + W * ((A + x - y) / W) = A + x - y) by int_lia. nia.
  - cbn. eexists. split; [done|]. rewrite Hlen in Hk.
    assert (k = L) as -> by lia.
    rewrite drop_ge, app_nil_r by lia. rewrite !take_ge in HV by lia.
    split; [lia|]. split; [done|]. rewrite Hla. fold L.
    pose proof (val_range ws Hwo) as Hr. rewrite Hws in Hr.
    apply Zmod_unique with (q := A); lia.
Qed.

Lemma geM_val key a :
  key_len key = Z.of_nat (length (key_n key)) → length a = length (key_n key) →
  words a → words (key_n key) →
  geM key a = Some (val (key_n key) <=? val a).
Proof.
  intros Hlen Hla Ha Hn. unfold geM. rewrite Hlen, Nat2Z.id.
  set (N := key_n key) in *. set (L := length N) in *.
  assert (∀ k, (k <= L)%nat → drop k a = drop k N →
    val a - val N = val (take k a) - val (take k N)) as Hsplit.
  { intros k Hk Hd. rewrite <-(take_drop k a) at 1. rewrite <-(take_drop k N) at 1.
    rewrite !val_app, Hd, !length_take. replace (k `min` length a)%nat with (k `min` length N)%nat by lia. lia. }
  lazymatch goal with |- loop _ ?st _ = ?r =>
    enough (∀ k, (k <= L)%nat → drop k a = drop k N → loop (S k) st (Z.of_nat k) = r) as H end.
  { apply H; [lia|]. rewrite !drop_ge by lia. done. }
  induction k as [|k IH]; intros HL Hdr.
  - cbn. f_equal. symmetry. apply Z.leb_le.
    specialize (Hsplit 0%nat HL Hdr). rewrite !take_0 in Hsplit. cbn in Hsplit. lia.
  - cbn [loop]. destruct (Z.eqb_spec (Z.of_nat (S k)) 0); [lia|]. cbv zeta.
    replace (Z.of_nat (S k) - 1) with (Z.of_nat k) by lia.
    destruct (lookup_lt_is_Some_2 a k) as [x Hx]; [lia|].
    destruct (lookup_lt_is_Some_2 N k) as [y Hy]; [lia|].
    rewrite !idx_nat, Hx, Hy. cbn [mbind option_bind].
    assert (val a - val N = val (take k a) - val (take k N) + pw k * (x - y)) as HD.
    { rewrite (Hsplit (S k)) by (done || lia).
      rewrite (val_take_S _ _ _ Hx), (val_take_S _ _ _ Hy). lia. }
    pose proof (val_range (take k a) (Forall_take _ _ _ Ha)) as R1.
    pose proof (val_range (take k N) (Forall_take _ _ _ Hn)) as R2.
    rewrite length_take, Nat.min_l in R1, R2 by lia. pose proof (pw_pos k).
    destruct (Z.ltb_spec x y); [f_equal; symmetry; apply Z.leb_gt; nia|].
    destruct (Z.ltb_spec y x); [f_equal; symmetry; apply Z.leb_le; nia|].
    apply IH; [lia|]. rewrite (drop_S _ _ _ Hx), (drop_S _ _ _ Hy), Hdr. f_equal. lia.
Qed.

(** ** Montgomery multiplication *)

(** What a public key must satisfy: sizes, word ranges, and the two
    precomputed constants. *)
Record key_ok (key : RSAPublicKey) : Prop := mkKeyOk {
  ok_len : key_len key = Z.of_nat (length (key_n key));
  ok_pos : (0 < length (key_n key))%nat;
  ok_rrlen : length (key_rr key) = length (key_n key);
  ok_n : words (key_n key);
  ok_rr : words (key_rr key);
  ok_n0inv : ∀ n0, key_n key !! 0%nat = Some n0 → u32 (n0 * key_n0inv key) = W - 1;
  ok_rrval : val (key_rr key) mod val (key_n key)
             = (pw (length (key_n key)) * pw (length (key_n key))) mod val (key_n key);
  (** the modulus uses all its bits *)
  ok_top : pw (length (key_n key)) <= 2 * val (key_n key);
}.

Section montgomery.
Context (key : RSAPublicKey) (Hok : key_ok key).
#[local] Abbreviation N := (key_n key).
#[local] Abbreviation L := (length (key_n key)).
#[local] Abbreviation n := (val (key_n key)).

Lemma n_pos : 0 < n.
Proof using Hok. pose proof (ok_top _ Hok). pose proof (pw_pos L). lia. Qed.

(** The number [d0] makes the low word of the sum vanish. *)
Lemma d0_kills A0 n0 d0 :
  N !! 0%nat = Some n0 → 0 <= A0 →
  d0 = u32 (u32 A0 * key_n0inv key) →
  (d0 * n0 + u32 A0) mod W = 0.
Proof using Hok.
  intros Hn0 HA ->. pose proof (ok_n0inv _ Hok _ Hn0) as Hi. unfold u32 in *.
  rewrite Zplus_mod, Zmult_mod_idemp_l.
  replace (A0 mod W * key_n0inv key * n0) with (A0 mod W * (n0 * key_n0inv key)) by lia.
  rewrite <-Zmult_mod_idemp_r, Hi. rewrite Zmod_mod.
  rewrite <-Zplus_mod. replace (A0 mod W * (W - 1) + A0) with (A0 mod W * W + (A0 - A0 mod W)) by lia.
  rewrite Z.add_comm, Z.mod_add by lia. dm_lia.
Qed.

Lemma mul_add_range x y z w :
  is_u32 x → is_u32 y → is_u32 z → is_u32 w → 0 <= w + x * y + z < 18446744073709551616.
Proof. unfold is_u32. intros. nia. Qed.

(** One step of the inner loop, on the numbers. *)
Lemma mont_step A B a bi ci d0 ni :
  is_u32 a → is_u32 bi → is_u32 ci → is_u32 d0 → is_u32 ni →
  0 <= A < W * W → 0 <= B < W * W →
  let A' := u64 (Z.shiftr A 32 + a * bi + ci) in
  let B' := u64 (Z.shiftr B 32 + d0 * ni + u32 A') in
  0 <= A' < W * W ∧ 0 <= B' < W * W ∧
  u32 B' + W * (A' / W + B' / W) = A / W + B / W + a * bi + ci + d0 * ni.
Proof.
  intros Ha Hb Hc Hd Hn HA HB. rewrite !shiftr32. cbv zeta.
  assert (is_u32 (A / W)) by (unfold is_u32; dm_lia).
  assert (is_u32 (B / W)) by (unfold is_u32; dm_lia).
  rewrite (u64_id (A / W + a * bi + ci)) by (by apply mul_add_range).
  set (A' := A / W + a * bi + ci).
  pose proof (mul_add_range a bi ci (A / W) Ha Hb Hc ltac:(done)) as RA. fold A' in RA.
  pose proof (mul_add_range d0 ni (u32 A') (B / W) Hd Hn (u32_range _) ltac:(done)) as RB.
  rewrite (u64_id (B / W + d0 * ni + u32 A')) by done.
  set (B' := B / W + d0 * ni + u32 A') in *.
  split; [lia|]. split; [lia|].
  assert (u32 A' + W * (A' / W) = A') by int_lia.
  assert (u32 B' + W * (B' / W) = B') by int_lia. lia.
Qed.

Lemma montMulAdd_val c a b :
  length c = L → length b = L → words c → words b → is_u32 a →
  ∃ c', montMulAdd key c a b = Some c' ∧ length c' = L ∧ words c' ∧
    congm n (W * val c') (val c + a * val b).
Proof using Hok.
  intros Hlc Hlb Hc Hb Ha. pose proof (ok_pos _ Hok) as HL. pose proof (ok_n _ Hok) as Hn.
  pose proof (ok_len _ Hok) as Hlen.
  destruct (lookup_lt_is_Some_2 b 0) as [b0 Hb0]; [lia|].
  destruct (lookup_lt_is_Some_2 c 0) as [c0 Hc0]; [lia|].
  destruct (lookup_lt_is_Some_2 N 0) as [n0 Hn0]; [lia|].
  pose proof (words_lookup _ _ _ Hb Hb0). pose proof (words_lookup _ _ _ Hc Hc0).
  pose proof (words_lookup _ _ _ Hn Hn0).
  unfold montMulAdd. rewrite !idx_0, Hb0, Hc0, Hn0.
  cbn [mbind option_bind].
  pose proof (mul_add_range a b0 c0 0 Ha ltac:(done) ltac:(done) ltac:(done)) as RA.
  rewrite (u64_id (a * b0 + c0)) by lia. set (A0 := a * b0 + c0) in *.
  set (d0 := u32 (u32 A0 * key_n0inv key)).
  assert (is_u32 d0) as Hd0 by apply u32_range.
  pose proof (mul_add_range d0 n0 (u32 A0) 0 Hd0 ltac:(done) (u32_range _) ltac:(done)) as RB.
  rewrite (u64_id (d0 * n0 + u32 A0)) by lia. set (B0 := d0 * n0 + u32 A0) in *.
  assert (B0 mod W = 0) as HB0 by (apply d0_kills; [done|lia|done]).
  for_inv (λ i '(A, B, c'), ∃ (k : nat) ws, i = Z.of_nat (S k) ∧ (S k <= L)%nat ∧
    length ws = k ∧ words ws ∧ c' = ws ++ drop k c ∧
    0 <= A < W * W ∧ 0 <= B < W * W ∧
    W * (val ws + pw k * (A / W + B / W)) =
      val (take (S k) c) + a * val (take (S k) b) + d0 * val (take (S k) N)) HF.
  destruct HF as ([[A B] c'] & -> & (k & ws & Hk & HkL & Hws & Hwo & -> & RA' & RB' & HV)).
  - exists 0%nat, []. cbn [app]. repeat (split; [done || lia || constructor|]).
    rewrite (val_take_S _ _ _ Hb0), (val_take_S _ _ _ Hc0), (val_take_S _ _ _ Hn0), !take_0.
    rewrite pw_0. cbn [val].
    assert (u32 A0 + W * (A0 / W) = A0) by int_lia.
    assert (W * (B0 / W) = B0) by dm_lia. lia.
  - intros j [[A B] c'] Hj (k & ws & -> & HkL & Hws & Hwo & -> & RA' & RB' & HV).
    destruct (lookup_lt_is_Some_2 b (S k)) as [x Hx]; [lia|].
    destruct (lookup_lt_is_Some_2 c (S k)) as [y Hy]; [lia|].
    destruct (lookup_lt_is_Some_2 N (S k)) as [z Hz]; [lia|].
    rewrite idx_tail, !idx_nat, Hx, Hy, Hz by lia. cbn [mbind option_bind].
    pose proof (words_lookup _ _ _ Hb Hx). pose proof (words_lookup _ _ _ Hc Hy).
    pose proof (words_lookup _ _ _ Hn Hz).
    pose proof (mont_step A B a x y d0 z Ha ltac:(done) ltac:(done) Hd0 ltac:(done) RA' RB') as HS.
    cbv zeta in HS. cbv zeta.
    set (A' := u64 (Z.shiftr A 32 + a * x + y)) in *.
    set (B' := u64 (Z.shiftr B 32 + d0 * z + u32 A')) in *.
    destruct HS as (HA' & HB' & HS). clearbody A' B'.
    replace (Z.of_nat (S k) - 1) with (Z.of_nat k) by lia.
    rewrite upd_tail by (done || lia). cbn [mbind option_bind].
    eexists. split; [done|]. exists (S k), (ws ++ [u32 B']).
    rewrite length_app, Hws, val_snoc, Hws, pw_S.
    rewrite (val_take_S _ _ _ Hx), (val_take_S _ _ _ Hy), (val_take_S _ _ _ Hz), !pw_S.
    split; [lia|]. split; [lia|]. split; [simpl; lia|].
    split; [apply Forall_app; split; [done|by repeat constructor; apply u32_range]|].
    repeat (split; [done|]). nia.
  - cbn [mbind option_bind]. assert (S k = L) as HkL' by lia.
    rewrite (Z.max_r 1) by lia. rewrite Hlen.
    replace (Z.of_nat L - 1) with (Z.of_nat k) by lia.
    rewrite !shiftr32. rewrite (u64_id (A / W + B / W)) by dm_lia.
    rewrite upd_tail by (done || lia). cbn [mbind option_bind].
    rewrite HkL', !take_ge in HV by lia. rewrite (drop_ge c) by lia. rewrite app_nil_r.
    set (T := A / W + B / W) in *. assert (0 <= T < 2 * W) as HT by (unfold T; dm_lia).
    clearbody T. set (c' := ws ++ [u32 T]).
    assert (length c' = L) as Hlc' by (unfold c'; rewrite length_app; simpl; lia).
    assert (words c') as Hc'.
    { apply Forall_app; split; [done|by repeat constructor; apply u32_range]. }
    assert (val c' + pw L * (T / W) = val ws + pw k * T) as Hval.
    { unfold c'. rewrite val_snoc, Hws, <-HkL', pw_S.
      assert (u32 T + W * (T / W) = T) by int_lia. nia. }
    destruct (Z.eqb_spec (T / W) 0) as [E|E]; cbn [negb].
    + eexists. split; [done|]. split; [done|]. split; [done|].
      apply congm_intro with d0. rewrite E in Hval. lia.
    + assert (T / W = 1) as E1 by dm_lia. rewrite E1 in Hval.
      destruct (subM_val key c') as (c2 & -> & Hl2 & Hw2 & HV2); [done..|].
      eexists. split; [done|]. split; [lia|]. split; [done|]. rewrite HV2, Hlc'.
      pose proof (val_range c' Hc') as R1. rewrite Hlc' in R1.
      pose proof (val_range c Hc) as R2. rewrite Hlc in R2.
      pose proof (val_range b Hb) as R3. rewrite Hlb in R3.
      pose proof (val_range N Hn) as R4.
      assert (val c' - n < 0) as Hneg by (unfold is_u32 in *; nia).
      assert ((val c' - n) mod pw L = val c' - n + pw L) as ->.
      { symmetry. apply Zmod_unique with (q := -1); lia. }
      apply congm_intro with (d0 - W). lia.
Qed.

Lemma gcd_W : Z.gcd W n = 1.
Proof using Hok.
  destruct (lookup_lt_is_Some_2 N 0) as [n0 Hn0]; [apply (ok_pos _ Hok)|].
  pose proof (ok_n0inv _ Hok _ Hn0) as Hi. unfold u32 in Hi.
  assert (n = n0 + W * val (drop 1 N)) as Hn.
  { rewrite <-(take_drop 1 N) at 1. rewrite val_app, (val_take_S N 0 n0 Hn0), take_0, pw_0.
    rewrite length_take, Nat.min_l by (apply (ok_pos _ Hok)).
    rewrite pw_S, pw_0. cbn [val]. lia. }
  apply Z.bezout_1_gcd. rewrite Hn.
  exists (n0 * key_n0inv key / W + 1 + val (drop 1 N) * key_n0inv key), (- key_n0inv key).
  pose proof (Z.div_mod (n0 * key_n0inv key) W ltac:(done)). lia.
Qed.

Lemma gcd_pw k : Z.gcd (pw k) n = 1.
Proof using Hok.
  change (Z.coprime (pw k) n). induction k as [|k IH].
  - rewrite pw_0. apply Z.coprime_1_l.
  - rewrite pw_S. apply Z.coprime_mul_l; [apply gcd_W|done].
Qed.

Lemma zero_loop c :
  length c = L → for_ (Z.to_nat (key_len key)) 0 (λ i c, upd c i 0) c = Some (replicate L 0).
Proof using Hok.
  intros Hl. pose proof (ok_len _ Hok) as Hlen.
  for_inv (λ i c', ∃ k, i = Z.of_nat k ∧ (k <= L)%nat ∧ c' = replicate k 0 ++ drop k c) HF.
  destruct HF as (c' & -> & k & Hk & HkL & ->).
  - exists 0%nat. auto with lia.
  - intros j c' Hj (k & -> & HkL & ->). rewrite upd_tail by (rewrite ?length_replicate; lia).
    eexists. split; [done|]. exists (S k). split; [lia|]. split; [lia|].
    by rewrite <-replicate_S_end.
  - assert (k = L) as -> by lia. by rewrite drop_ge, app_nil_r by lia.
Qed.

Lemma montMul_val c a b :
  length c = L → length a = L → length b = L → words a → words b →
  ∃ c', montMul key c a b = Some c' ∧ length c' = L ∧ words c' ∧
    congm n (pw L * val c') (val a * val b).
Proof using Hok.
  intros Hlc Hla Hlb Ha Hb. unfold montMul. rewrite zero_loop by done. cbn [mbind option_bind].
  pose proof (ok_len _ Hok) as Hlen.
  for_inv (λ i c', ∃ k, i = Z.of_nat k ∧ (k <= L)%nat ∧ length c' = L ∧ words c' ∧
    congm n (pw k * val c') (val (take k a) * val b)) HF.
  destruct HF as (c' & -> & k & Hk & HkL & Hl & Hw & HV).
  - exists 0%nat. split; [done|]. split; [lia|]. split; [apply length_replicate|].
    split; [by apply Forall_replicate|]. rewrite take_0.
    by rewrite val_zeros, Z.mul_0_r.
  - intros j c' Hj (k & -> & HkL & Hl & Hw & HV).
    destruct (lookup_lt_is_Some_2 a k) as [x Hx]; [lia|].
    rewrite idx_nat, Hx. cbn [mbind option_bind].
    pose proof (words_lookup _ _ _ Ha Hx) as Hwx.
    destruct (montMulAdd_val c' x b Hl Hlb Hw Hb Hwx) as (c2 & -> & Hl2 & Hw2 & HV2).
    eexists. split; [done|]. exists (S k). repeat (split; [done || lia|]).
    rewrite pw_S, (val_take_S _ _ _ Hx).
    replace (W * pw k * val c2) with (pw k * (W * val c2)) by lia.
    rewrite HV2, Z.mul_add_distr_l, HV. apply congm_intro with 0. lia.
  - exists c'. rewrite Hlen in Hk. assert (k = L) as -> by lia.
    rewrite take_ge in HV by lia. done.
Qed.

(** The three multiplications compute the cube. *)
Lemma mont_cube a aR aaR aaa :
  congm n (pw L * aR) (a * val (key_rr key)) →
  congm n (pw L * aaR) (aR * aR) →
  congm n (pw L * aaa) (aaR * a) →
  congm n aaa (a * a * a).
Proof using Hok.
  intros H1 H2 H3.
  assert (congm n (val (key_rr key)) (pw L * pw L)) as Hrr.
  { unfold congm. apply Z.mod_divide; [pose proof n_pos; lia|].
    rewrite Zminus_mod, (ok_rrval _ Hok), Z.sub_diag. apply Z.mod_0_l.
    pose proof n_pos. lia. }
  rewrite Hrr in H1. pose proof (gcd_pw L) as HG.
  assert (congm n aR (pw L * a)) as E1.
  { apply (congm_cancel _ (pw L)); [done|]. rewrite H1. apply congm_intro with 0. lia. }
  assert (congm n aaR (pw L * (a * a))) as E2.
  { apply (congm_cancel _ (pw L)); [done|]. rewrite H2, E1. apply congm_intro with 0. lia. }
  apply (congm_cancel _ (pw L)); [done|]. rewrite H3, E2. apply congm_intro with 0. lia.
Qed.
End montgomery.

(** ** Big-endian byte strings *)

Fixpoint be_val (l : list Z) : Z :=
  match l with [] => 0 | b :: l' => b * 256 ^ Z.of_nat (length l') + be_val l' end.

Lemma be_val_app l1 l2 :
  be_val (l1 ++ l2) = be_val l1 * 256 ^ Z.of_nat (length l2) + be_val l2.
Proof.
  induction l1 as [|b l1 IH]; [done|]. cbn [app be_val].
  rewrite IH, length_app, Nat2Z.inj_add, Z.pow_add_r by lia. lia.
Qed.

(** Horner's rule. *)
Lemma be_val_fold l : be_val l = foldl (λ acc b, acc * 256 + b) 0 l.
Proof.
  enough (∀ acc, foldl (λ acc b, acc * 256 + b) acc l
            = acc * 256 ^ Z.of_nat (length l) + be_val l) as H by (rewrite H; lia).
  induction l as [|b l IH]; intros acc; [cbn; lia|]. cbn [foldl be_val length].
  rewrite IH, Nat2Z.inj_succ, Z.pow_succ_r by lia. lia.
Qed.

Lemma be_val_range l : bytes l → 0 <= be_val l < 256 ^ Z.of_nat (length l).
Proof.
  induction 1 as [|b l Hb Hl IH]; [simpl; lia|]. cbn [be_val length].
  rewrite Nat2Z.inj_succ, Z.pow_succ_r by lia. unfold is_byte in Hb. nia.
Qed.

Lemma be_val_inj l1 l2 :
  length l1 = length l2 → bytes l1 → bytes l2 → be_val l1 = be_val l2 → l1 = l2.
Proof.
  revert l2. induction l1 as [|x l1 IH]; intros [|y l2] Hl H1 H2 HV; simplify_eq/=; [done|].
  apply Forall_cons in H1 as [Hx H1], H2 as [Hy H2].
  pose proof (be_val_range _ H1) as R1. pose proof (be_val_range _ H2) as R2.
  rewrite Hl in *. assert (x = y) as -> by nia. f_equal. apply IH; [done..|lia].
Qed.

Lemma pow256_pw k : 256 ^ Z.of_nat (4 * k) = pw k.
Proof. unfold pw. rewrite Nat2Z.inj_mul, Z.pow_mul_r by lia. done. Qed.

Lemma be_val_4 b0 b1 b2 b3 l :
  be_val (b0 :: b1 :: b2 :: b3 :: l) =
    (b0 * 16777216 + b1 * 65536 + b2 * 256 + b3) * 256 ^ Z.of_nat (length l) + be_val l.
Proof.
  cbn [be_val length]. rewrite !Nat2Z.inj_succ, !Z.pow_succ_r by lia. lia.
Qed.

Lemma drop_4 (l : list Z) k :
  (k + 4 <= length l)%nat → ∃ b0 b1 b2 b3,
    l !! k = Some b0 ∧ l !! (k + 1)%nat = Some b1 ∧ l !! (k + 2)%nat = Some b2 ∧
    l !! (k + 3)%nat = Some b3 ∧ drop k l = b0 :: b1 :: b2 :: b3 :: drop (k + 4) l.
Proof.
  intros H.
  destruct (lookup_lt_is_Some_2 l k) as [b0 H0]; [lia|].
  destruct (lookup_lt_is_Some_2 l (k + 1)) as [b1 H1]; [lia|].
  destruct (lookup_lt_is_Some_2 l (k + 2)) as [b2 H2]; [lia|].
  destruct (lookup_lt_is_Some_2 l (k + 3)) as [b3 H3]; [lia|].
  exists b0, b1, b2, b3. repeat (split; [done|]).
  rewrite (drop_S _ _ _ H0). replace (S k) with (k + 1)%nat by lia.
  rewrite (drop_S _ _ _ H1). replace (S (k + 1)) with (k + 2)%nat by lia.
  rewrite (drop_S _ _ _ H2). replace (S (k + 2)) with (k + 3)%nat by lia.
  rewrite (drop_S _ _ _ H3). by replace (S (k + 3)) with (k + 4)%nat by lia.
Qed.

Lemma be32_u32 b0 b1 b2 b3 :
  is_byte b0 → is_byte b1 → is_byte b2 → is_byte b3 →
  u32 (be32 b0 b1 b2 b3) = b0 * 16777216 + b1 * 65536 + b2 * 256 + b3.
Proof. intros. rewrite be32_val by done. apply u32_id. unfold is_byte, is_u32 in *. lia. Qed.

Lemma be_words_val key inout a :
  key_len key = Z.of_nat (length a) → length inout = (4 * length a)%nat → bytes inout →
  ∃ a', be_words key inout a = Some a' ∧ length a' = length a ∧ words a' ∧
    val a' = be_val inout.
Proof.
  intros Hlen Hli Hb. unfold be_words. set (L := length a) in *.
  for_inv (λ i a', ∃ k ws, i = Z.of_nat k ∧ (k <= L)%nat ∧ length ws = k ∧ words ws ∧
    a' = ws ++ drop k a ∧ val ws = be_val (drop (4 * (L - k)) inout)) HF.
  destruct HF as (a' & -> & k & ws & Hk & HkL & Hws & Hwo & -> & HV).
  - exists 0%nat, []. rewrite (drop_ge inout) by lia. repeat (split; [done || lia || constructor|]). done.
  - intros j a' Hj (k & ws & -> & HkL & Hws & Hwo & -> & HV).
    destruct (drop_4 inout (4 * (L - S k))) as (b0 & b1 & b2 & b3 & H0 & H1 & H2 & H3 & HD); [lia|].
    replace ((key_len key - 1 - Z.of_nat k) * 4 + 0) with (Z.of_nat (4 * (L - S k))) by lia.
    replace ((key_len key - 1 - Z.of_nat k) * 4 + 1) with (Z.of_nat (4 * (L - S k) + 1)) by lia.
    replace ((key_len key - 1 - Z.of_nat k) * 4 + 2) with (Z.of_nat (4 * (L - S k) + 2)) by lia.
    replace ((key_len key - 1 - Z.of_nat k) * 4 + 3) with (Z.of_nat (4 * (L - S k) + 3)) by lia.
    rewrite !idx_nat, H0, H1, H2, H3. cbn [mbind option_bind].
    pose proof (bytes_lookup _ _ _ Hb H0). pose proof (bytes_lookup _ _ _ Hb H1).
    pose proof (bytes_lookup _ _ _ Hb H2). pose proof (bytes_lookup _ _ _ Hb H3).
    rewrite upd_tail by (done || lia). eexists. split; [done|].
    exists (S k), (ws ++ [u32 (be32 b0 b1 b2 b3)]). rewrite length_app, val_snoc, Hws.
    split; [lia|]. split; [lia|]. split; [simpl; lia|].
    split; [apply Forall_app; split; [done|by repeat constructor; apply u32_range]|].
    split; [done|]. rewrite HD, be_val_4, be32_u32, HV by done.
    replace (4 * (L - S k) + 4)%nat with (4 * (L - k))%nat by lia.
    rewrite length_drop, Hli. replace (4 * L - 4 * (L - k))%nat with (4 * k)%nat by lia.
    rewrite pow256_pw. lia.
  - eexists. split; [done|]. assert (k = L) as -> by lia.
    rewrite drop_ge, app_nil_r by lia. split; [lia|]. split; [done|].
    by rewrite HV, Nat.sub_diag, Nat.mul_0_r, drop_0.
Qed.

Lemma word_bytes w :
  is_u32 w → let l := [u8 (Z.shiftr w 24); u8 (Z.shiftr w 16); u8 (Z.shiftr w 8); u8 w] in
  bytes l ∧ be_val l = w.
Proof.
  intros H. cbv zeta. split; [repeat constructor; unfold is_byte; int_lia|].
  rewrite be_val_4. cbn [be_val length]. rewrite !Z.shiftr_div_pow2 by lia.
  change (256 ^ Z.of_nat 0) with 1. int_lia.
Qed.

Lemma be_store_val key aaa inout :
  key_len key = Z.of_nat (length aaa) → length inout = (4 * length aaa)%nat → words aaa →
  ∃ out, be_store key aaa inout = Some out ∧ length out = length inout ∧ bytes out ∧
    be_val out = val aaa.
Proof.
  intros Hlen Hli Hw. unfold be_store. set (L := length aaa) in *.
  for_inv (λ j out, ∃ k pre, j = Z.of_nat k ∧ (k <= L)%nat ∧ length pre = (4 * k)%nat ∧
    bytes pre ∧ out = pre ++ drop (4 * k) inout ∧ be_val pre = val (drop (L - k) aaa)) HF.
  destruct HF as (out & -> & k & pre & Hk & HkL & Hpre & Hb & -> & HV).
  - exists 0%nat, []. rewrite (drop_ge aaa) by lia. repeat (split; [done || lia || constructor|]). done.
  - intros j out Hj (k & pre & -> & HkL & Hpre & Hb & -> & HV).
    replace (key_len key - 1 - Z.of_nat k) with (Z.of_nat (L - S k)) by lia.
    destruct (lookup_lt_is_Some_2 aaa (L - S k)) as [w Hx]; [lia|].
    rewrite idx_nat, Hx. cbn [mbind option_bind].
    destruct (word_bytes w) as [Hwb Hwv]; [by eapply words_lookup|]. cbv zeta in Hwb, Hwv.
    set (l := [u8 (Z.shiftr w 24); u8 (Z.shiftr w 16); u8 (Z.shiftr w 8); u8 w]) in *.
    rewrite blit_Some by (rewrite ?length_app, ?length_drop; simpl; lia).
    eexists. split; [done|]. exists (S k), (pre ++ l).
    split; [lia|]. split; [lia|]. split; [rewrite length_app; simpl; lia|].
    split; [by apply bytes_app|]. split.
    + replace (Z.to_nat (Z.of_nat k * 4)) with (4 * k)%nat by lia.
      rewrite take_app_length' by done. rewrite <-app_assoc. do 2 f_equal.
      rewrite drop_app_ge by lia. rewrite drop_drop. f_equal. simpl. lia.
    + rewrite be_val_app, Hwv, (drop_S _ _ _ Hx). cbn [val].
      replace (S (L - S k)) with (L - k)%nat by lia. rewrite HV.
      change (256 ^ Z.of_nat (length l)) with W. lia.
  - assert (k = L) as -> by lia. eexists. split; [done|].
    rewrite drop_ge, app_nil_r by lia. split; [lia|]. split; [done|].
    by rewrite HV, Nat.sub_diag, drop_0.
Qed.

(** The comparison loops: leave at the first difference. *)
Lemma cmp_loop {R : Type} (f g : Z → option Z) (hi : Z) (req rne : R) fuel k l1 l2 :
  length l1 = length l2 → hi = k + Z.of_nat (length l1) → (length l1 < fuel)%nat →
  (∀ j x, l1 !! j = Some x → f (k + Z.of_nat j) = Some x) →
  (∀ j x, l2 !! j = Some x → g (k + Z.of_nat j) = Some x) →
  loop fuel (λ i, if negb (i <? hi) then Some (inr req) else
    x ← f i; y ← g i; Some (if negb (x =? y) then inr rne else inl (i + 1))) k
  = Some (if decide (l1 = l2) then req else rne).
Proof.
  revert fuel k l2. induction l1 as [|x l1 IH]; intros [|fuel] k [|y l2] Hl Hhi Hf H1 H2;
    simplify_eq/=; try lia.
  - destruct (Z.ltb_spec k (k + Z.of_nat 0)); [lia|done].
  - destruct (Z.ltb_spec k (k + Z.of_nat (S (length l1)))); [|lia]. cbn [negb].
    pose proof (H1 0%nat x eq_refl) as E1. pose proof (H2 0%nat y eq_refl) as E2.
    rewrite Z.add_0_r in E1, E2. rewrite E1, E2. cbn [mbind option_bind].
    destruct (Z.eqb_spec x y) as [->|Hne]; cbn [negb].
    + rewrite (IH fuel (k + 1) l2); [|done|lia|lia| |].
      * destruct (decide (l1 = l2)) as [->|]; [by rewrite decide_True|].
        rewrite decide_False; [done|congruence].
      * intros j z Hz. rewrite <-(H1 (S j) z Hz). f_equal. lia.
      * intros j z Hz. rewrite <-(H2 (S j) z Hz). f_equal. lia.
    + rewrite decide_False; [done|congruence].
Qed.

Lemma padding_length : length padding = 236%nat. Proof. done. Qed.
Lemma padding_bytes : bytes padding.
Proof. by_eval. Qed.

(** The comparison part of [RSA_verify]. *)
Lemma verify_compare buf sha :
  length buf = 256%nat → length sha = 20%nat →
  (bad ← loop (S (length padding)) (λ i,
      if negb (i <? Z.of_nat (length padding)) then Some (inr false) else
      x ← idx buf i; y ← idx padding i;
      Some (if negb (x =? y) then inr true else inl (i + 1))) 0;
    if (bad : bool) then Some 0 else
    loop (S (Z.to_nat 256)) (λ i,
      if negb (i <? 256) then Some (inr 1) else
      x ← idx buf i; y ← idx sha (i - Z.of_nat (length padding));
      Some (if negb (x =? y) then inr 0 else inl (i + 1))) (Z.of_nat (length padding)))
  = Some (if decide (buf = padding ++ sha) then 1 else 0).
Proof.
  intros Hb Hs.
  rewrite (cmp_loop (idx buf) (idx padding) _ false true _ 0 (take 236 buf) padding).
  2-4: rewrite ?length_take, ?padding_length; lia.
  2:{ intros j x Hx. rewrite Z.add_0_l, idx_nat. apply lookup_take_Some in Hx. tauto. }
  2:{ intros j x Hx. by rewrite Z.add_0_l, idx_nat. }
  cbn [mbind option_bind].
  assert (buf = padding ++ sha ↔ take 236 buf = padding ∧ drop 236 buf = sha) as Hiff.
  { split; [intros ->; by rewrite take_app_length', drop_app_length'|].
    intros [<- <-]. by rewrite take_drop. }
  destruct (decide (take 236 buf = padding)) as [Hp|Hne].
  - rewrite (cmp_loop (idx buf) (λ i, idx sha (i - Z.of_nat (length padding))) 256 1 0 _ _
      (drop 236 buf) sha).
    2-4: rewrite ?length_drop, ?padding_length; lia.
    2:{ intros j x Hx. rewrite padding_length. rewrite lookup_drop in Hx.
        rewrite <-Hx, <-idx_nat. f_equal. lia. }
    2:{ intros j x Hx. rewrite <-Hx, <-idx_nat. f_equal. lia. }
    f_equal. destruct (decide (drop 236 buf = sha)); [by rewrite decide_True by tauto|].
    by rewrite decide_False by tauto.
  - by rewrite decide_False by tauto.
Qed.

Lemma modpow3_spec key a aR aaR inout
    (Hok : key_ok key)
    (Ha : length a = length (key_n key)) (HaR : length aR = length (key_n key))
    (HaaR : length aaR = length (key_n key))
    (Hin : length inout = (4 * length (key_n key))%nat) (Hb : bytes inout) :
  ∃ out, modpow3 key a aR aaR inout = Some out ∧ length out = length inout ∧
    bytes out ∧ be_val out = (be_val inout * be_val inout * be_val inout) mod val (key_n key).
Proof.
  pose proof (ok_len _ Hok) as Hlen. pose proof (n_pos _ Hok) as Hn. unfold modpow3.
  destruct (be_words_val key inout a) as (a1 & -> & Hl1 & Hw1 & HV1); [lia|lia|done|].
  cbn [mbind option_bind].
  destruct (montMul_val key Hok aR a1 (key_rr key)) as (r1 & -> & Hl2 & Hw2 & HV2);
    [lia|lia|apply (ok_rrlen _ Hok)|done|apply (ok_rr _ Hok)|]. cbn [mbind option_bind].
  destruct (montMul_val key Hok aaR r1 r1) as (r2 & -> & Hl3 & Hw3 & HV3); [done..|].
  cbn [mbind option_bind].
  destruct (montMul_val key Hok r1 r2 a1) as (r3 & -> & Hl4 & Hw4 & HV4);
    [done|done|lia|done|done|]. cbn [mbind option_bind].
  pose proof (mont_cube key Hok _ _ _ _ HV2 HV3 HV4) as HC. rewrite HV1 in HC.
  rewrite geM_val by (done || lia || apply (ok_n _ Hok)). cbn [mbind option_bind].
  pose proof (val_range r3 Hw4) as R. rewrite Hl4 in R. pose proof (ok_top _ Hok) as Htop.
  assert (val (key_n key) ≠ 0) as Hnz by lia.
  assert (∃ r4, (if val (key_n key) <=? val r3 then subM key r3 else Some r3) = Some r4 ∧
    length r4 = length (key_n key) ∧ words r4 ∧
    val r4 = (be_val inout * be_val inout * be_val inout) mod val (key_n key))
    as (r4 & -> & Hl5 & Hw5 & HV5).
  { destruct (Z.leb_spec (val (key_n key)) (val r3)).
    - destruct (subM_val key r3) as (r4 & -> & ? & ? & HV5); [done..|apply (ok_n _ Hok)|].
      exists r4. split; [done|]. split; [lia|]. split; [done|].
      rewrite HV5, Z.mod_small by (rewrite Hl4; lia).
      rewrite <-(congm_mod (val (key_n key)) _ _ Hnz HC).
      apply Zmod_unique with (q := 1); rewrite ?Hl4 in *; lia.
    - exists r3. repeat (split; [done|]).
      rewrite <-(congm_mod (val (key_n key)) _ _ Hnz HC). by rewrite Z.mod_small by lia. }
  cbn [mbind option_bind].
  destruct (be_store_val key r4 inout) as (out & -> & Hlo & Hbo & HVo); [lia|lia|done|].
  exists out. rewrite HVo, HV5. done.
Qed.

(** ** Properties *)

(** C29: the in-place public exponentiation computes the cube of the
    big-endian input modulo the key's modulus, for every well-formed key and
    every input of the right size, and never leaves an array: the Montgomery
    products stay below R and one conditional subtraction is enough. *)
Theorem modpow3_correct key a aR aaR inout
    (Hok : key_ok key)
    (Ha : length a = length (key_n key)) (HaR : length aR = length (key_n key))
    (HaaR : length aaR = length (key_n key))
    (Hin : length inout = (4 * length (key_n key))%nat) (Hb : bytes inout) :
  ∃ out, modpow3 key a aR aaR inout = Some out ∧ length out = length inout ∧
    bytes out ∧ be_val out = (be_val inout * be_val inout * be_val inout) mod val (key_n key).
Proof. by apply modpow3_spec. Qed.

(** C1: a 2048-bit signature is accepted exactly when its cube modulo the
    key's modulus is the PKCS#1 v1.5 encoding of the expected SHA-1 digest;
    every other signature is rejected, and the function always returns. *)
Theorem RSA_verify_correct stack key signature sha
    (Hok : key_ok key) (Hlen : key_len key = RSANUMWORDS)
    (Hstack : length stack = 64%nat)
    (Hsig : length signature = 256%nat) (Hb : bytes signature)
    (Hsha : length sha = 20%nat) (Hsb : bytes sha) :
  ∃ r, is_signature_okay stack sha signature key = Some r ∧ (r = 0 ∨ r = 1) ∧
    (r = 1 ↔ (be_val signature * be_val signature * be_val signature) mod val (key_n key)
             = be_val (padding ++ sha)).
Proof.
  unfold is_signature_okay, RSA_verify. rewrite Hlen. cbn [negb Z.eqb RSANUMWORDS].
  change (negb (SIGNATURE_SIZE =? RSANUMBYTES)) with false.
  change (negb (64 =? 64)) with false. cbv match.
  rewrite slice_Some by (unfold SIGNATURE_SIZE; lia). cbn [mbind option_bind].
  rewrite take_ge by (rewrite length_drop; unfold SIGNATURE_SIZE; lia). rewrite drop_0.
  pose proof (ok_len _ Hok) as HL. rewrite Hlen in HL. unfold RSANUMWORDS in HL.
  destruct (modpow3_spec key stack stack stack signature Hok)
    as (buf & -> & Hl & Hbb & HV); [lia..|done|]. cbn [mbind option_bind].
  unfold SIGNATURE_SIZE. rewrite verify_compare by lia.
  eexists. split; [done|]. split; [case_decide; auto|].
  rewrite <-HV. assert (bytes (padding ++ sha)) by (apply bytes_app; split; [apply padding_bytes|done]).
  split.
  - case_decide as E; [by rewrite E|done].
  - intros E. rewrite decide_True; [done|]. apply be_val_inj; try done.
    rewrite length_app, padding_length. lia.
Qed.

(** ** A concrete key

    A 2048-bit modulus and a signature whose cube modulo it is the PKCS#1
    encoding of the SHA-1 digest of "abc". *)

Definition demo_n : list Z :=
  [2979198307; 1708182698; 2345715975; 2103238277; 2817686936; 564368935;
   21291164; 184304962; 686607517; 424637515; 457710472; 991244842;
   3776463014; 3350183823; 2470363548; 2517958851; 4164878018; 285432935;
   2268446385; 1898024673; 2050660943; 3752649494; 635560265; 1591335520;
   604209327; 4026902336; 1272600159; 1648226052; 3302624251; 628192628;
   3515912481; 3600536266; 281533706; 404497981; 3357712694; 4003799730;
   3339901233; 2597881962; 1353772819; 1849129565; 293579130; 2920880754;
   2023661; 0; 0; 0; 0; 0;
   0; 0; 0; 0; 0; 0;
   0; 0; 0; 0; 0; 0;
   0; 0; 0; 2147483648].

Definition demo_rr : list Z :=
  [3826830017; 1398617931; 581074306; 3668155053; 3176318732; 382185910;
   2998027016; 1956361336; 3555171836; 101061218; 2296912722; 1883644504;
   4241570241; 3968144314; 372760256; 1671150998; 1590806633; 1768172774;
   1807720054; 2343785839; 2679176697; 1504375469; 2240564298; 3511804236;
   549941847; 2577246380; 180651299; 4255569662; 2147962202; 2540939715;
   3383217707; 3321333992; 3488522423; 243509666; 495548245; 3771261076;
   2123740912; 2776846976; 856965608; 1757068222; 1749350850; 3777085973;
   1378324836; 3459768203; 2670502611; 3272592764; 3413574828; 3714148045;
   1125008779; 2986884697; 2964952260; 3046298836; 2593166553; 1338022657;
   2509603325; 659668070; 2848863950; 1218555471; 2700261302; 2905551091;
   2606212668; 1330925430; 209428399; 1093723473].

Definition demo_sig : list Z :=
  replicate 170 0 ++
  [5; 10; 47; 118; 144; 186; 72; 3; 48; 30; 147; 175; 39; 131;
   137; 65; 17; 236; 208; 14; 61; 188; 145; 233; 209; 206; 33; 217;
   186; 251; 66; 99; 52; 23; 249; 229; 47; 153; 5; 19; 61; 248;
   20; 97; 55; 114; 187; 199; 130; 121; 53; 159; 91; 233; 152; 122;
   249; 94; 0; 153; 83; 145; 78; 122; 115; 54; 35; 18; 127; 51;
   109; 194; 1; 35; 240; 95; 203; 26; 11; 56; 127; 199; 7; 117;
   193; 184].

Definition demo_sha : list Z :=
  [169; 153; 62; 54; 71; 6; 129; 106; 186; 62; 37; 113; 120; 80;
   194; 108; 156; 208; 216; 157].

Definition demo_key : RSAPublicKey := mkKey 64 1348586421 demo_n demo_rr.

Lemma demo_key_ok : key_ok demo_key.
Proof.
  constructor.
  - reflexivity.
  - apply Nat.ltb_lt. reflexivity.
  - reflexivity.
  - by_eval.
  - by_eval.
  - intros n0 [= <-]. reflexivity.
  - vm_compute. reflexivity.
  - apply Z.leb_le. vm_compute. reflexivity.
Qed.

(** A one-word key, for running the exponentiation itself. *)
Definition small_key : RSAPublicKey := mkKey 1 3435973837 [4294967291] [25].

Lemma small_key_ok : key_ok small_key.
Proof.
  constructor; try reflexivity; try by_eval.
  intros n0 [= <-]. reflexivity.
Qed.

Lemma modpow3_correct_witness :
  ∃ out, modpow3 small_key [7] [8] [9] [1; 2; 3; 4] = Some out ∧
    be_val out = (16909060 * 16909060 * 16909060) mod 4294967291.
Proof.
  destruct (modpow3_correct small_key [7] [8] [9] [1; 2; 3; 4] small_key_ok
    eq_refl eq_refl eq_refl eq_refl ltac:(by_eval)) as (out & E & _ & _ & H).
  exists out. split; [exact E|exact H].
Defined.

Lemma RSA_verify_correct_witness :
  is_signature_okay (replicate 64 0) demo_sha demo_sig demo_key = Some 1.
Proof.
  destruct (RSA_verify_correct (replicate 64 0) demo_key demo_sig demo_sha
    demo_key_ok eq_refl eq_refl eq_refl ltac:(by_eval) eq_refl ltac:(by_eval))
    as (r & E & _ & _ & H).
  rewrite E, H; [reflexivity|]. rewrite !be_val_fold. vm_compute. reflexivity.
Defined.
