(* ===== verification/Sha.v ===== *)
(** [common/sha.c] and [compute_digest] of [common/crypto.c]: the streaming
    SHA-1 of the boot loader.  The context is the C struct: a 64-bit byte
    count, the 64-byte block buffer and the five state words.  The reference
    is the block-wise definition of SHA-1: pad the whole message, cut it into
    64-byte blocks and fold the compression function over them. *)
From stdpp Require Import base tactics option list strings.
From Stdlib Require Import ZArith Lia.
From S2P Require Import Prelude.
Open Scope Z_scope.

(** ** Operations *)

Record SHA_CTX := mkCtx {
  count : Z;          (** [uint64_t count] *)
  buf : list Z;       (** [uint8_t buf[64]] *)
  state : list Z;     (** [uint32_t state[5]] *)
}.

(** [rol(bits, value)] on 32-bit words. *)
Definition rol (bits value : Z) : Z :=
  Z.lor (u32 (Z.shiftl value bits)) (Z.shiftr value (32 - bits)).

(** The round function and constant of round [t]. *)
Definition sha_f (t B C D : Z) : Z :=
  if t <? 20 then u32 (Z.lxor D (Z.land B (Z.lxor C D)) + 1518500249)
  else if t <? 40 then u32 (Z.lxor (Z.lxor B C) D + 1859775393)
  else if t <? 60 then u32 (Z.lor (Z.land B C) (Z.land D (Z.lor B C)) + 2400959708)
  else u32 (Z.lxor (Z.lxor B C) D + 3395469782).

(** The message schedule [W[0..79]] of the block in [buf]. *)
Definition sha_schedule (buf : list Z) : option (list Z) :=
  w16 ← for_ 16 0 (λ t w,
    b0 ← idx buf (4 * t);
    b1 ← idx buf (4 * t + 1);
    b2 ← idx buf (4 * t + 2);
    b3 ← idx buf (4 * t + 3);
    Some (w ++ [u32 (be32 b0 b1 b2 b3)])) [];
  for_ 64 16 (λ t w,
    w3 ← idx w (t - 3);
    w8 ← idx w (t - 8);
    w14 ← idx w (t - 14);
    w16 ← idx w (t - 16);
    Some (w ++ [rol 1 (Z.lxor (Z.lxor (Z.lxor w3 w8) w14) w16)])) w16.

Definition SHA1_transform (ctx : SHA_CTX) : option SHA_CTX :=
  w ← sha_schedule (buf ctx);
  match state ctx with
  | [s0; s1; s2; s3; s4] =>
      r ← for_ 80 0 (λ t '(A, B, C, D, E),
        wt ← idx w t;
        let tmp := u32 (u32 (rol 5 A + E + wt) + sha_f t B C D) in
        Some (tmp, A, rol 30 B, C, D)) (s0, s1, s2, s3, s4);
      let '(A, B, C, D, E) := r in
      Some (mkCtx (count ctx) (buf ctx)
        [u32 (s0 + A); u32 (s1 + B); u32 (s2 + C); u32 (s3 + D); u32 (s4 + E)])
  | _ => None
  end.

(** [SHA_init] leaves [buf] as it is. *)
Definition SHA_init (ctx : SHA_CTX) : SHA_CTX :=
  mkCtx 0 (buf ctx) [1732584193; 4023233417; 2562383102; 271733878; 3285377520].

(** The byte loop of [SHA_update]: [i] is the fill of the buffer. *)
Fixpoint sha_feed (ctx : SHA_CTX) (i : Z) (data : list Z) : option SHA_CTX :=
  match data with
  | [] => Some ctx
  | b :: data' =>
      buf' ← upd (buf ctx) i b;
      let ctx := mkCtx (count ctx) buf' (state ctx) in
      if i + 1 =? 64 then
        ctx' ← SHA1_transform ctx;
        sha_feed ctx' 0 data'
      else sha_feed ctx (i + 1) data'
  end.

(** [SHA_update(ctx, data, len)] for [len] the length of [data]. *)
Definition SHA_update (ctx : SHA_CTX) (data : list Z) : option SHA_CTX :=
  let i := count ctx mod 64 in
  sha_feed (mkCtx (u64 (count ctx + Z.of_nat (length data))) (buf ctx) (state ctx)) i data.

(** The five state words, big-endian. *)
Definition digest_bytes (st : list Z) : list Z :=
  concat (map (λ w, [u8 (Z.shiftr w 24); u8 (Z.shiftr w 16); u8 (Z.shiftr w 8); u8 w]) st).

(** The result is the context and the digest at the start of [buf]. *)
Definition SHA_final (ctx : SHA_CTX) : option (SHA_CTX * list Z) :=
  let cnt := u64 (count ctx * 8) in
  ctx ← SHA_update ctx [128];
  ctx ← loop 65 (λ ctx,
    if count ctx mod 64 =? 56 then Some (inr ctx) else
    ctx' ← SHA_update ctx [0];
    Some (inl ctx')) ctx;
  ctx ← for_ 8 0 (λ i ctx, SHA_update ctx [u8 (Z.shiftr cnt ((7 - i) * 8))]) ctx;
  buf' ← blit (buf ctx) 0 (digest_bytes (state ctx));
  Some (mkCtx (count ctx) buf' (state ctx), take 20 buf').

(** [SHA(data, len, digest)]; the context is an uninitialised local. *)
Definition SHA (ctx : SHA_CTX) (data : list Z) : option (list Z) :=
  ctx ← SHA_update (SHA_init ctx) data;
  r ← SHA_final ctx;
  Some r.2.

Definition compute_digest (ctx : SHA_CTX) (data : list Z) : option (list Z) :=
  SHA ctx data.

Definition fresh_ctx : SHA_CTX := mkCtx 0 (replicate 64 0) (replicate 5 0).

(** The digest of "abc" of the standard. *)
Example sha_abc : SHA fresh_ctx (str "abc") =
  Some [169; 153; 62; 54; 71; 6; 129; 106; 186; 62; 37; 113; 120; 80; 194; 108; 156; 208; 216; 157].
Proof. vm_compute. reflexivity. Qed.

(** ** Reference: block-wise SHA-1 *)

Definition sha_iv : list Z := [1732584193; 4023233417; 2562383102; 271733878; 3285377520].

(** One compression of a 64-byte block. *)
Definition compress (st block : list Z) : option (list Z) :=
  state <$> SHA1_transform (mkCtx 0 block st).

(** The first [n] blocks of a message. *)
Fixpoint absorb (n : nat) (st msg : list Z) : option (list Z) :=
  match n with
  | O => Some st
  | S n' => st' ← compress st (take 64 msg); absorb n' st' (drop 64 msg)
  end.

Definition len_bytes (l : Z) : list Z :=
  map (λ i : nat, u8 (Z.shiftr (u64 (l * 8)) ((7 - Z.of_nat i) * 8))) (seq 0 8).

(** The padding of the standard: 0x80, zeros up to 56 mod 64, bit length. *)
Definition sha_zeros (l : nat) : nat := Z.to_nat ((55 - Z.of_nat l) mod 64).
Definition sha_pad (msg : list Z) : list Z :=
  msg ++ [128] ++ replicate (sha_zeros (length msg)) 0 ++ len_bytes (Z.of_nat (length msg)).

Definition sha1 (msg : list Z) : option (list Z) :=
  digest_bytes <$> absorb (length (sha_pad msg) / 64) sha_iv (sha_pad msg).

(** ** The compression function is total on well-sized contexts *)

Lemma schedule_total b : length b = 64%nat → ∃ w, sha_schedule b = Some w ∧ length w = 80%nat.
Proof.
  intros Hb. unfold sha_schedule.
  for_inv (λ t (w : list Z), Z.of_nat (length w) = t) HF.
  destruct HF as (w & -> & Hw); [done| |].
  { intros t w Ht Hw.
    destruct (idx_Some b (4 * t)) as [? ->]; [lia|]. destruct (idx_Some b (4 * t + 1)) as [? ->]; [lia|].
    destruct (idx_Some b (4 * t + 2)) as [? ->]; [lia|]. destruct (idx_Some b (4 * t + 3)) as [? ->]; [lia|].
    eexists. split; [done|]. rewrite length_app. simpl. lia. }
  cbn [mbind option_bind]. for_inv (λ t (w : list Z), Z.of_nat (length w) = t) HF.
  destruct HF as (w' & -> & Hw'); [lia| |].
  { intros t w' Ht Hw'.
    destruct (idx_Some w' (t - 3)) as [? ->]; [lia|]. destruct (idx_Some w' (t - 8)) as [? ->]; [lia|].
    destruct (idx_Some w' (t - 14)) as [? ->]; [lia|]. destruct (idx_Some w' (t - 16)) as [? ->]; [lia|].
    eexists. split; [done|]. rewrite length_app. simpl. lia. }
  exists w'. split; [done|]. lia.
Qed.

Lemma transform_total ctx :
  length (buf ctx) = 64%nat → length (state ctx) = 5%nat →
  ∃ st, SHA1_transform ctx = Some (mkCtx (count ctx) (buf ctx) st) ∧
    compress (state ctx) (buf ctx) = Some st ∧ length st = 5%nat.
Proof.
  destruct ctx as [cnt b st]. cbn [buf state count]. intros Hb Hst. unfold compress, SHA1_transform.
  cbn [buf state count]. destruct (schedule_total b Hb) as (w & -> & Hw). cbn [mbind option_bind].
  destruct st as [|s0 [|s1 [|s2 [|s3 [|s4 [|]]]]]]; try done.
  for_inv (λ (t : Z) (s : Z * Z * Z * Z * Z), True) HF.
  destruct HF as ([[[[A B] C] D] E] & -> & _); [done| |].
  { intros t [[[[A B] C] D] E] Ht _. destruct (idx_Some w t) as [x ->]; [lia|]. cbn. eauto. }
  cbn. eauto.
Qed.

(** ** Absorbing a message *)

Lemma absorb_app n st msg d :
  (64 * n <= length msg)%nat → absorb n st (msg ++ d) = absorb n st msg.
Proof.
  revert st msg. induction n as [|n IH]; intros st msg H; [done|]. cbn [absorb].
  rewrite take_app_le by lia. destruct (compress st (take 64 msg)) as [st'|]; [|done].
  cbn [mbind option_bind]. rewrite drop_app_le by lia. apply IH. rewrite length_drop. lia.
Qed.

Lemma absorb_snoc n st msg :
  absorb (S n) st msg = st' ← absorb n st msg; compress st' (take 64 (drop (64 * n) msg)).
Proof.
  revert st msg. induction n as [|n IH]; intros st msg.
  - cbn [absorb]. rewrite Nat.mul_0_r, drop_0. cbn [mbind option_bind].
    by destruct (compress st (take 64 msg)).
  - cbn [absorb]. destruct (compress st (take 64 msg)) as [st'|]; [|done].
    cbn [mbind option_bind]. change (st'' ← compress st' (take 64 (drop 64 msg));
      absorb n st'' (drop 64 (drop 64 msg))) with (absorb (S n) st' (drop 64 msg)).
    rewrite IH, drop_drop. by replace (64 + 64 * n)%nat with (64 * S n)%nat by lia.
Qed.

(** The context has consumed [msg]: whole blocks are in the state, the rest
    is at the front of the buffer. *)
Record consumed (ctx : SHA_CTX) (msg : list Z) : Prop := mkConsumed {
  c_buf : length (buf ctx) = 64%nat;
  c_len : length (state ctx) = 5%nat;
  c_state : absorb (length msg / 64) sha_iv msg = Some (state ctx);
  c_tail : take (length msg mod 64) (buf ctx) = drop (64 * (length msg / 64)) msg;
}.

Lemma feed_consumed ctx msg data :
  consumed ctx msg →
  ∃ ctx', sha_feed ctx (Z.of_nat (length msg mod 64)) data = Some ctx' ∧
    consumed ctx' (msg ++ data) ∧ count ctx' = count ctx.
Proof.
  revert ctx msg. induction data as [|b data IH]; intros ctx msg H.
  { exists ctx. by rewrite app_nil_r. }
  destruct H as [Hb Hl Hs Ht]. cbn [sha_feed].
  set (i := (length msg mod 64)%nat) in *. set (q := (length msg / 64)%nat) in *.
  pose proof (Nat.div_mod_eq (length msg) 64) as Hdm. fold i q in Hdm.
  assert (i < 64)%nat as Hi by (apply Nat.mod_upper_bound; lia).
  rewrite upd_Some by lia. cbn [mbind option_bind]. rewrite Nat2Z.id.
  assert (take (S i) (<[i:=b]> (buf ctx)) = drop (64 * q) (msg ++ [b])) as Ht'.
  { rewrite (take_S_r _ _ b) by (apply list_lookup_insert_eq; lia).
    rewrite take_insert_ge, Ht by lia. rewrite drop_app_le by lia. done. }
  assert (length (msg ++ [b]) = 64 * q + S i)%nat as HL by (rewrite length_app; simpl; lia).
  replace (msg ++ b :: data) with ((msg ++ [b]) ++ data) by (by rewrite <-app_assoc).
  destruct (Z.eqb_spec (Z.of_nat i + 1) 64) as [E|E].
  - destruct (transform_total (mkCtx (count ctx) (<[i:=b]> (buf ctx)) (state ctx)))
      as (st & -> & HC & Hl'); cbn [buf state count] in *; [by rewrite length_insert|done|].
    cbn [mbind option_bind].
    assert (length (msg ++ [b]) / 64 = S q)%nat as Hq.
    { symmetry. apply Nat.div_unique with 0%nat; lia. }
    assert (length (msg ++ [b]) mod 64 = 0)%nat as Hr.
    { symmetry. apply Nat.mod_unique with (S q); lia. }
    destruct (IH (mkCtx (count ctx) (<[i:=b]> (buf ctx)) st) (msg ++ [b])) as (ctx' & Ef & Hc & Hn).
    + split; cbn [buf state]; [by rewrite length_insert|done| |].
      * rewrite Hq, absorb_snoc, absorb_app, Hs by lia. cbn [mbind option_bind].
        rewrite <-Ht'. rewrite take_take. replace (64 `min` S i)%nat with 64%nat by lia.
        rewrite take_ge by (rewrite length_insert; lia). done.
      * rewrite Hr, Hq, take_0, drop_ge by lia. done.
    + rewrite Hr in Ef. exists ctx'. done.
  - assert (length (msg ++ [b]) / 64 = q)%nat as Hq.
    { symmetry. apply Nat.div_unique with (S i); lia. }
    assert (length (msg ++ [b]) mod 64 = S i)%nat as Hr.
    { symmetry. apply Nat.mod_unique with q; lia. }
    destruct (IH (mkCtx (count ctx) (<[i:=b]> (buf ctx)) (state ctx)) (msg ++ [b]))
      as (ctx' & Ef & Hc & Hn).
    + split; cbn [buf state]; [by rewrite length_insert|done| |].
      * by rewrite Hq, absorb_app by lia.
      * by rewrite Hr, Hq.
    + rewrite Hr in Ef. exists ctx'.
      by replace (Z.of_nat i + 1) with (Z.of_nat (S i)) by lia.
Qed.

(** The context represents [msg]. *)
Definition represents (ctx : SHA_CTX) (msg : list Z) : Prop :=
  consumed ctx msg ∧ count ctx = u64 (Z.of_nat (length msg)).

Lemma u64_mod64 z : u64 z mod 64 = z mod 64.
Proof. unfold u64. dm_lia. Qed.

Lemma represents_mod ctx msg :
  represents ctx msg → count ctx mod 64 = Z.of_nat (length msg mod 64).
Proof. intros [_ ->]. rewrite u64_mod64. by rewrite Nat2Z.inj_mod. Qed.

Lemma init_represents ctx : length (buf ctx) = 64%nat → represents (SHA_init ctx) [].
Proof. intros H. split; [by split|done]. Qed.

Lemma update_represents ctx msg data :
  represents ctx msg →
  ∃ ctx', SHA_update ctx data = Some ctx' ∧ represents ctx' (msg ++ data).
Proof.
  intros H. pose proof (represents_mod _ _ H) as Hm. destruct H as [[Hb Hl Hs Ht] Hc].
  unfold SHA_update. rewrite Hm.
  destruct (feed_consumed (mkCtx (u64 (count ctx + Z.of_nat (length data))) (buf ctx) (state ctx))
    msg data) as (ctx' & -> & Hc' & Hn); [by split|].
  exists ctx'. split; [done|]. split; [done|]. rewrite Hn. cbn [count].
  rewrite Hc, length_app, Nat2Z.inj_add. unfold u64. by rewrite Zplus_mod_idemp_l.
Qed.

(** Feeding a message in pieces, as a caller of the streaming interface does. *)
Definition updates (ctx : SHA_CTX) (pieces : list (list Z)) : option SHA_CTX :=
  foldl (λ o d, c ← o; SHA_update c d) (Some ctx) pieces.

Lemma updates_represents ctx msg pieces :
  represents ctx msg →
  ∃ ctx', updates ctx pieces = Some ctx' ∧ represents ctx' (msg ++ concat pieces).
Proof.
  unfold updates. revert ctx msg. induction pieces as [|d pieces IH]; intros ctx msg H; cbn.
  - exists ctx. by rewrite app_nil_r.
  - destruct (update_represents _ _ d H) as (c1 & -> & H1).
    rewrite app_assoc. by apply IH.
Qed.

Lemma zeros_loop ctx msg :
  represents ctx (msg ++ [128]) →
  ∃ ctx', loop 65 (λ ctx,
      if count ctx mod 64 =? 56 then Some (inr ctx) else
      ctx' ← SHA_update ctx [0]; Some (inl ctx')) ctx = Some ctx' ∧
    represents ctx' (msg ++ [128] ++ replicate (sha_zeros (length msg)) 0).
Proof.
  intros H. set (k := sha_zeros (length msg)).
  assert (Z.of_nat k = (55 - Z.of_nat (length msg)) mod 64) as Hk.
  { unfold k, sha_zeros. rewrite Z2Nat.id; [done|]. apply Z.mod_pos_bound. lia. }
  apply (loop_total _ (λ c, ∃ j, (j <= k)%nat ∧ represents c (msg ++ [128] ++ replicate j 0) ∧
      Z.to_nat ((56 - count c) mod 64) = (k - j)%nat)
    (λ c, Z.to_nat ((56 - count c) mod 64))).
  - intros c (j & Hj & Hr & Hmu).
    assert (count c mod 64 = (Z.of_nat (length msg) + 1 + Z.of_nat j) mod 64) as Hcm.
    { destruct Hr as [_ ->]. rewrite u64_mod64. f_equal.
      rewrite !length_app, length_replicate. simpl. lia. }
    destruct (Z.eqb_spec (count c mod 64) 56) as [E|E].
    + eexists. split; [done|]. cbv beta iota. assert (j = k) as -> by dm_lia. done.
    + destruct (update_represents _ _ [0] Hr) as (c' & -> & Hr'). cbn [mbind option_bind].
      eexists. split; [done|]. cbv beta iota.
      assert (count c' mod 64 = (Z.of_nat (length msg) + 1 + Z.of_nat (S j)) mod 64) as Hcm'.
      { destruct Hr' as [_ ->]. rewrite u64_mod64. f_equal.
        rewrite !length_app, length_replicate. simpl. lia. }
      assert (j < k)%nat by dm_lia.
      assert (Z.to_nat ((56 - count c') mod 64) = (k - S j)%nat) as Hmu' by dm_lia.
      split; [|lia]. exists (S j). split; [lia|]. split; [|done].
      rewrite replicate_S_end, !app_assoc. rewrite !app_assoc in Hr'. done.
  - exists 0%nat. split; [lia|]. split; [by rewrite app_nil_r|].
    destruct H as [_ ->]. rewrite length_app. simpl. unfold u64. dm_lia.
  - pose proof (Z.mod_pos_bound (56 - count ctx) 64 ltac:(lia)). lia.
Qed.

Lemma length_loop ctx msg l :
  represents ctx msg →
  ∃ ctx', for_ 8 0 (λ i ctx, SHA_update ctx [u8 (Z.shiftr (u64 (l * 8)) ((7 - i) * 8))]) ctx
      = Some ctx' ∧ represents ctx' (msg ++ len_bytes l).
Proof.
  intros H.
  for_inv (λ i c, ∃ k, i = Z.of_nat k ∧ (k <= 8)%nat ∧
    represents c (msg ++ take k (len_bytes l))) HF.
  destruct HF as (c & -> & k & Hk & Hk8 & Hr).
  - exists 0%nat. rewrite take_0, app_nil_r. auto with lia.
  - intros i c Hi (k & -> & Hk & Hr).
    destruct (update_represents _ _ [u8 (Z.shiftr (u64 (l * 8)) ((7 - Z.of_nat k) * 8))] Hr)
      as (c' & -> & Hr'). eexists. split; [done|]. exists (S k). split; [lia|]. split; [lia|].
    rewrite (take_S_r _ _ (u8 (Z.shiftr (u64 (l * 8)) ((7 - Z.of_nat k) * 8)))).
    + by rewrite app_assoc.
    + unfold len_bytes. rewrite list_lookup_fmap, lookup_seq_lt by lia. done.
  - exists c. split; [done|]. by rewrite take_ge in Hr by (simpl in *; lia).
Qed.

Lemma digest_length st : length st = 5%nat → length (digest_bytes st) = 20%nat.
Proof. by destruct st as [|? [|? [|? [|? [|? [|]]]]]]. Qed.

(** The padded message is a whole number of blocks. *)
Lemma sha_pad_aligned msg : (length (sha_pad msg) mod 64 = 0)%nat.
Proof.
  unfold sha_pad. rewrite !length_app, length_replicate. unfold len_bytes.
  rewrite length_map, length_seq. unfold sha_zeros. apply Nat2Z.inj.
  pose proof (Z.mod_pos_bound (55 - Z.of_nat (length msg)) 64 ltac:(lia)).
  rewrite Nat2Z.inj_mod, !Nat2Z.inj_add, Z2Nat.id by lia. simpl. dm_lia.
Qed.

(** ** Properties *)

(** C17: the streaming SHA-1 computes the standard's padded, block-wise hash of
    the whole message, however the message is cut into [SHA_update] calls;
    every call returns, and the digest has 20 bytes. *)
Theorem sha_streaming_correct ctx pieces (Hb : length (buf ctx) = 64%nat) :
  ∃ ctx1 ctx2 digest, updates (SHA_init ctx) pieces = Some ctx1 ∧
    SHA_final ctx1 = Some (ctx2, digest) ∧ length digest = 20%nat ∧
    (length (sha_pad (concat pieces)) mod 64 = 0)%nat ∧ sha1 (concat pieces) = Some digest.
Proof.
  destruct (updates_represents _ _ pieces (init_represents ctx Hb)) as (c1 & E1 & H1).
  cbn [app] in H1. set (msg := concat pieces) in *. exists c1.
  unfold SHA_final. assert (count c1 = u64 (Z.of_nat (length msg))) as Hcnt by apply H1.
  destruct (update_represents _ _ [128] H1) as (c2 & -> & H2). cbn [mbind option_bind].
  destruct (zeros_loop _ _ H2) as (c3 & -> & H3). cbn [mbind option_bind].
  replace (u64 (count c1 * 8)) with (u64 (Z.of_nat (length msg) * 8))
    by (rewrite Hcnt; unfold u64; by rewrite Zmult_mod_idemp_l).
  destruct (length_loop _ _ (Z.of_nat (length msg)) H3) as (c4 & -> & H4). cbn [mbind option_bind].
  rewrite <-!app_assoc in H4. change (msg ++ _) with (sha_pad msg) in H4.
  destruct H4 as [[Hb4 Hl4 Hs4 Ht4] _].
  pose proof (digest_length _ Hl4) as Hd.
  rewrite blit_Some by lia. cbn [mbind option_bind].
  eexists _, _. split; [done|]. split; [done|].
  change (take (Z.to_nat 0) (buf c4)) with (@nil Z). cbn [app].
  rewrite take_app_length' by done. split; [done|]. split; [apply sha_pad_aligned|].
  unfold sha1. by rewrite Hs4.
Qed.

Lemma sha_streaming_correct_witness :
  ∃ ctx1 ctx2 digest, updates (SHA_init fresh_ctx) [str "a"; str "bc"] = Some ctx1 ∧
    SHA_final ctx1 = Some (ctx2, digest) ∧ sha1 (str "abc") = Some digest.
Proof.
  destruct (sha_streaming_correct fresh_ctx [str "a"; str "bc"] eq_refl)
    as (c1 & c2 & d & H1 & H2 & _ & _ & H3). exists c1, c2, d. split; [exact H1|split; [exact H2|exact H3]].
Defined.
