(* ===== verification/MmcDev.v ===== *)
(** The eMMC device as the boot code sees it through [mmc_read], [mmc_write]
    and [mmc_sw_part] ([cpu/omap4/mmc.c], declared in [include/mmc.h]): an
    interface with its laws, against which the clients are proved.  The
    driver below these three calls is modelled in [Hsmmc]; [HsmmcSpec] shows
    that they read and write sectors as the laws say as long as the card
    answers, and in which cases the driver reports an error as success, which
    the laws leave out.  An in-memory device shows that the laws can be
    met. *)
From stdpp Require Import base tactics option list gmap.
From Stdlib Require Import ZArith Lia.
From S2P Require Import Prelude.
Open Scope Z_scope.

(** The calls.  The [int] result is 1 on success.  [mmc_read] returns the
    bytes that ended up in the destination buffer. *)
Class MmcDev (D : Type) := {
  mmc_read : D → Z → Z → Z → list Z * Z;        (** slot, block, size *)
  mmc_write : D → Z → list Z → Z → D * Z;       (** slot, data, block *)
  mmc_sw_part : D → Z → Z → D * Z;              (** slot, partition *)
}.

(** A partition: sector number to 512 bytes. *)
Definition disk : Type := Z → list Z.
Definition disk_eq (a b : disk) : Prop := ∀ n, a n = b n.

#[export] Instance disk_equiv : Equivalence disk_eq.
Proof.
  split; [done|intros x y H n; by symmetry|intros x y z H1 H2 n; by rewrite H1, H2].
Qed.

(** Writing whole sectors. *)
Definition write_sectors (dk : disk) (s : Z) (l : list Z) : disk := λ n,
  if (s <=? n) && (n <? s + Z.of_nat (length l) / 512)
  then take 512 (drop (Z.to_nat (512 * (n - s))) l) else dk n.

Class MmcLaws (D : Type) `{MmcDev D} := {
  contents : D → Z → Z → disk;    (** slot, partition *)
  selected : D → Z → Z;           (** the partition a slot has selected *)
  contents_size : ∀ d slot p n, length (contents d slot p n) = 512%nat;
  read_ok : ∀ d slot b l,
    mmc_read d slot b 512 = (l, 1) → l = contents d slot (selected d slot) b;
  read_size : ∀ d slot b, length (mmc_read d slot b 512).1 = 512%nat;
  write_ok : ∀ d slot l b d',
    mmc_write d slot l b = (d', 1) → (length l mod 512 = 0)%nat →
    disk_eq (contents d' slot (selected d slot))
            (write_sectors (contents d slot (selected d slot)) b l);
  write_other : ∀ d slot l b p,
    p ≠ selected d slot →
    disk_eq (contents (mmc_write d slot l b).1 slot p) (contents d slot p);
  write_selected : ∀ d slot l b, selected (mmc_write d slot l b).1 slot = selected d slot;
  sw_ok : ∀ d slot p d', mmc_sw_part d slot p = (d', 1) → selected d' slot = p;
  sw_fail : ∀ d slot p d' r, mmc_sw_part d slot p = (d', r) → r ≠ 1 → selected d' slot = selected d slot;
  sw_contents : ∀ d slot p q,
    disk_eq (contents (mmc_sw_part d slot p).1 slot q) (contents d slot q);
}.

(** Consecutive sectors of a partition. *)
Fixpoint sectors (dk : disk) (b : Z) (n : nat) : list Z :=
  match n with
  | O => []
  | S n' => dk b ++ sectors dk (b + 1) n'
  end.

(** Reading several sectors: whole sectors arrive, however many bytes were
    asked for. *)
Definition sector_count (size : Z) : nat := Z.to_nat (u32 (size + 511) / 512).

Class MmcReads (D : Type) `{MmcLaws D} :=
  read_many : ∀ d slot b size l,
    mmc_read d slot b size = (l, 1) → 0 <= b → b + Z.of_nat (sector_count size) <= 4294967296 →
    l = sectors (contents d slot (selected d slot)) b (sector_count size).

(** A device none of whose calls fails. *)
Definition reliable (D : Type) `{MmcDev D} : Prop :=
  (∀ d slot b, (mmc_read d slot b 512).2 = 1) ∧
  (∀ d slot l b, (mmc_write d slot l b).2 = 1) ∧
  (∀ d slot p, (mmc_sw_part d slot p).2 = 1).

(** ** Lemmas *)

#[export] Instance write_sectors_proper s l : Proper (disk_eq ==> disk_eq) (λ dk, write_sectors dk s l).
Proof. intros a b Hab n. unfold write_sectors. by destruct (_ && _). Qed.

Lemma sectors_len (D : disk) b n : (∀ b, length (D b) = 512%nat) → length (sectors D b n) = (512 * n)%nat.
Proof. intros H. revert b. induction n as [|n IH]; intros b; [done|]. cbn [sectors]. rewrite length_app, IH, H. lia. Qed.

Lemma sectors_add (D : disk) n m : ∀ b, sectors D b (n + m) = sectors D b n ++ sectors D (b + Z.of_nat n) m.
Proof.
  induction n as [|n IH]; intros b; cbn [sectors Nat.add app]; [by rewrite Z.add_0_r|].
  rewrite IH, <-app_assoc. do 3 f_equal. lia.
Qed.

Lemma sectors_bytes (D : disk) b n : (∀ b, bytes (D b)) → bytes (sectors D b n).
Proof. intros H. revert b. induction n as [|n IH]; intros b; cbn [sectors]; [constructor|]. apply bytes_app. auto. Qed.

Lemma write_sectors_nil dk s : disk_eq (write_sectors dk s []) dk.
Proof.
  intros n. unfold write_sectors. change (Z.of_nat (length (@nil Z)) / 512) with 0.
  rewrite Z.add_0_r. to_prop; done || lia.
Qed.

Lemma write_sectors_app dk s l1 l2 :
  (length l1 mod 512 = 0)%nat →
  disk_eq (write_sectors dk s (l1 ++ l2))
    (write_sectors (write_sectors dk s l1) (s + Z.of_nat (length l1) / 512) l2).
Proof.
  intros H1 n. unfold write_sectors. rewrite length_app, Nat2Z.inj_add.
  assert (∃ k : nat, length l1 = 512 * k)%nat as [k Hk].
  { exists (length l1 / 512)%nat. pose proof (Nat.div_mod_eq (length l1) 512). lia. }
  rewrite Hk. replace (Z.of_nat (512 * k) / 512) with (Z.of_nat k) by dm_lia.
  replace ((Z.of_nat (512 * k) + Z.of_nat (length l2)) / 512)
    with (Z.of_nat k + Z.of_nat (length l2) / 512) by dm_lia.
  pose proof (Z.div_pos (Z.of_nat (length l2)) 512 ltac:(lia) ltac:(lia)).
  destruct (Z.leb_spec s n), (Z.ltb_spec n (s + (Z.of_nat k + Z.of_nat (length l2) / 512))),
    (Z.leb_spec (s + Z.of_nat k) n), (Z.ltb_spec n (s + Z.of_nat k + Z.of_nat (length l2) / 512)),
    (Z.ltb_spec n (s + Z.of_nat k)); cbn [andb]; try done; try lia.
  - rewrite drop_app_ge by lia. do 2 f_equal. lia.
  - rewrite drop_app_le by lia. rewrite take_app_le; [done|]. rewrite length_drop. lia.
Qed.

(** The sectors outside the written range are unchanged. *)
Lemma write_sectors_outside dk s l n :
  (n < s ∨ s + Z.of_nat (length l) / 512 <= n) → write_sectors dk s l n = dk n.
Proof. intros H. unfold write_sectors. to_prop; done || lia. Qed.

Lemma write_sectors_one dk s l : length l = 512%nat → write_sectors dk s l s = l.
Proof.
  intros H. unfold write_sectors. rewrite H. change (Z.of_nat 512 / 512) with 1.
  destruct (Z.leb_spec s s), (Z.ltb_spec s (s + 1)); try lia. cbn [andb].
  rewrite Z.sub_diag. change (Z.to_nat (512 * 0)) with 0%nat. rewrite drop_0. apply take_ge. lia.
Qed.

(** ** An in-memory device *)

Record ram := mkRam {
  ram_disk : gmap (Z * Z * Z) (list Z);   (** slot, partition, sector *)
  ram_sel : gmap Z Z;
}.

Definition ram_sector (d : ram) (slot p n : Z) : list Z :=
  match ram_disk d !! (slot, p, n) with
  | Some l => if decide (length l = 512%nat) then l else replicate 512 0
  | None => replicate 512 0
  end.

Definition ram_selected (d : ram) (slot : Z) : Z := default 0 (ram_sel d !! slot).

Fixpoint ram_put (k : nat) (m : gmap (Z * Z * Z) (list Z)) (slot p n : Z) (l : list Z) :=
  match k with
  | O => m
  | S k' => ram_put k' (<[(slot, p, n) := take 512 l]> m) slot p (n + 1) (drop 512 l)
  end.

#[export] Instance ram_dev : MmcDev ram := {|
  mmc_read d slot b size :=
    (sectors (ram_sector d slot (ram_selected d slot)) b (sector_count size), 1);
  mmc_write d slot l b :=
    (mkRam (ram_put (length l / 512) (ram_disk d) slot (ram_selected d slot) b l) (ram_sel d), 1);
  mmc_sw_part d slot p := (mkRam (ram_disk d) (<[slot := p]> (ram_sel d)), 1);
|}.

Lemma ram_put_ne k m slot p n l q i :
  q ≠ p → ram_put k m slot p n l !! (slot, q, i) = m !! (slot, q, i).
Proof.
  intros Hq. revert m n l. induction k as [|k IH]; intros m n l; [done|]. cbn [ram_put].
  rewrite IH. apply lookup_insert_ne. congruence.
Qed.

Lemma ram_put_before k m slot p n l i :
  i < n → ram_put k m slot p n l !! (slot, p, i) = m !! (slot, p, i).
Proof.
  revert m n l. induction k as [|k IH]; intros m n l Hi; [done|]. cbn [ram_put].
  rewrite IH by lia. apply lookup_insert_ne. intros [=]. lia.
Qed.

Lemma ram_put_in k m slot p n l (j : nat) :
  (j < k)%nat → ram_put k m slot p n l !! (slot, p, n + Z.of_nat j) = Some (take 512 (drop (512 * j) l)).
Proof.
  revert m n l j. induction k as [|k IH]; intros m n l j Hj; [lia|]. cbn [ram_put].
  destruct j as [|j].
  - rewrite Z.add_0_r, ram_put_before by lia. rewrite lookup_insert_eq. by rewrite Nat.mul_0_r, drop_0.
  - replace (n + Z.of_nat (S j)) with (n + 1 + Z.of_nat j) by lia.
    rewrite IH by lia. rewrite drop_drop. do 3 f_equal. lia.
Qed.

Lemma ram_put_after k m slot p n l i :
  n + Z.of_nat k <= i → ram_put k m slot p n l !! (slot, p, i) = m !! (slot, p, i).
Proof.
  revert m n l. induction k as [|k IH]; intros m n l Hi; [done|]. cbn [ram_put].
  rewrite IH by lia. apply lookup_insert_ne. intros [=]. lia.
Qed.

Lemma ram_sector_size d slot p n : length (ram_sector d slot p n) = 512%nat.
Proof. unfold ram_sector. destruct (_ !! _); [case_decide|]; rewrite ?length_replicate; done. Qed.

Lemma ram_write_spec d slot l b :
  (length l mod 512 = 0)%nat →
  disk_eq (ram_sector (mmc_write d slot l b).1 slot (ram_selected d slot))
    (write_sectors (ram_sector d slot (ram_selected d slot)) b l).
Proof.
  intros H n. unfold write_sectors, ram_sector. cbn [mmc_write ram_dev fst ram_disk].
  pose proof (Nat.div_mod_eq (length l) 512) as HD. rewrite H in HD.
  set (k := (length l / 512)%nat) in *. rewrite HD, Nat.add_0_r.
  replace (Z.of_nat (512 * k) / 512) with (Z.of_nat k) by dm_lia.
  destruct (Z.leb_spec b n); cbn [andb].
  - destruct (Z.ltb_spec n (b + Z.of_nat k)).
    + replace n with (b + Z.of_nat (Z.to_nat (n - b))) at 1 by lia.
      rewrite ram_put_in by lia. rewrite decide_True.
      * do 2 f_equal. lia.
      * rewrite length_take, length_drop. lia.
    + by rewrite ram_put_after by lia.
  - by rewrite ram_put_before by lia.
Qed.

#[export] Instance ram_laws : MmcLaws ram.
Proof.
  refine {| contents := ram_sector; selected := ram_selected |}.
  - apply ram_sector_size.
  - intros d slot b l [= <-]. apply app_nil_r.
  - intros d slot b. change (length (ram_sector d slot (ram_selected d slot) b ++ []) = 512%nat).
    rewrite app_nil_r. apply ram_sector_size.
  - intros d slot l b d' E H. pose proof (ram_write_spec d slot l b H) as HW. by rewrite E in HW.
  - intros d slot l b p Hp n. unfold ram_sector. cbn. by rewrite ram_put_ne by done.
  - done.
  - intros d slot p d' [= <-]. unfold ram_selected. cbn. by rewrite lookup_insert_eq.
  - intros d slot p d' r [= <- <-]. done.
  - done.
Defined.

#[export] Instance ram_reads : MmcReads ram.
Proof. by intros d slot b size l [= <-] _ _. Qed.

Lemma ram_reliable : reliable ram.
Proof. done. Qed.
