(* ===== verification/Sparse.v ===== *)
(** [cpu/omap4/sparse.c]: streaming expansion of Android sparse images onto
    the eMMC.  The image arrives in sections of arbitrary size (one per
    download); the static [state] carries the position inside the current
    chunk from one section to the next.  The device is the interface of
    [MmcDev]; as in the code, the result of the write callback is ignored. *)
From stdpp Require Import base tactics option list strings.
From Stdlib Require Import ZArith Lia.
From S2P Require Import Prelude.
From S2P Require Import MmcDev.
Open Scope Z_scope.

(** ** Data *)

Definition SPARSE_HEADER_MAGIC : Z := 3978755898.   (* 0xed26ff3a *)
Definition SPARSE_HEADER_MAJOR_VER : Z := 1.
Definition CHUNK_TYPE_RAW : Z := 51905.             (* 0xCAC1 *)
Definition CHUNK_TYPE_DONT_CARE : Z := 51907.       (* 0xCAC3 *)
Definition sizeof_sparse_header : Z := 28.
Definition sizeof_chunk_header : Z := 12.

(** The fields of the two packed little-endian headers. *)
Definition field (hdr : list Z) (off n : Z) : option Z := le_val <$> slice hdr off n.

Record sparse_state := mkState {
  remaining_chunks : Z;     (** [unsigned int] *)
  chunk_offset : Z;         (** [unsigned int]: offset in the current chunk *)
  sector : Z;               (** [unsigned long] *)
  last_header : list Z;     (** the 12 bytes of [chunk_header_t] *)
  block_size : Z;           (** [unsigned int] *)
  slot_no : Z;
  data : list Z;            (** [unsigned char data[512]] *)
}.

(** ** Operations *)

(** The cursor of a section: the bytes from [*source] on and [*section_size]. *)
Definition cursor : Type := list Z * Z.

Definition advance (c : cursor) (n : Z) : cursor :=
  (drop (Z.to_nat n) c.1, u64 (c.2 - n)).

(** 0 on success, 1 on error, as the C [int]. *)
Definition _unsparse_read_header (st : sparse_state) (c : cursor)
    : option (sparse_state * cursor * Z) :=
  if c.2 <? sizeof_sparse_header then Some (st, c, 1) else
  hdr ← slice c.1 0 sizeof_sparse_header;
  magic ← field hdr 0 4;
  major_version ← field hdr 4 2;
  file_hdr_sz ← field hdr 8 2;
  chunk_hdr_sz ← field hdr 10 2;
  blk_sz ← field hdr 12 4;
  total_chunks ← field hdr 20 4;
  if negb (magic =? SPARSE_HEADER_MAGIC) then Some (st, c, 1) else
  if negb (major_version =? SPARSE_HEADER_MAJOR_VER)
     || negb (file_hdr_sz =? sizeof_sparse_header)
     || negb (chunk_hdr_sz =? sizeof_chunk_header) then Some (st, c, 1) else
  Some (mkState total_chunks 0 (sector st) (last_header st) blk_sz (slot_no st) (data st),
        advance c file_hdr_sz, 0).

(** First part of [_unsparse_process_chunk]: complete the chunk header. *)
Definition read_chunk_header (st : sparse_state) (c : cursor)
    : option (sparse_state * cursor) :=
  if chunk_offset st <? sizeof_chunk_header then
    let missing_bytes := sizeof_chunk_header - chunk_offset st in
    let available_bytes := if missing_bytes <? c.2 then missing_bytes else c.2 in
    src ← slice c.1 0 available_bytes;
    h ← blit (last_header st) (chunk_offset st) src;
    Some (mkState (remaining_chunks st) (chunk_offset st + available_bytes) (sector st) h
            (block_size st) (slot_no st) (data st),
          advance c available_bytes)
  else Some (st, c).

(** Start of [_unsparse]: read the file header if none is active. *)
Definition unsparse_enter (st : sparse_state) (c : cursor)
    : option (sparse_state * cursor * Z) :=
  if remaining_chunks st =? 0 then _unsparse_read_header st c else Some (st, c, 0).

Section with_device.
Context {D : Type} `{MmcDev D}.

(** [WRITE(slot, src, sector, len)]: the result is dropped. *)
Definition WRITE (d : D) (slot : Z) (src : list Z) (sec : Z) : D :=
  (mmc_write d slot src sec).1.

(** The partial sector left over by the previous section, completed with the
    first [missing_bytes] bytes of this one. *)
Definition fill_sector (d : D) (st : sparse_state) (c : cursor) (prev_rem_data missing_bytes : Z)
    : option (D * sparse_state * cursor) :=
  if 0 <? missing_bytes then
    src ← slice c.1 0 missing_bytes;
    dat ← blit (data st) prev_rem_data src;
    Some (WRITE d (slot_no st) dat (sector st),
      mkState (remaining_chunks st) (chunk_offset st) (u32 (sector st + 1)) (last_header st)
        (block_size st) (slot_no st) dat,
      advance c missing_bytes)
  else Some (d, st, c).

(** [case CHUNK_TYPE_RAW]. *)
Definition process_raw (d : D) (st : sparse_state) (c : cursor) (chunk_sz total_sz : Z)
    : option (D * sparse_state * cursor * Z) :=
  if negb (0 <? c.2) then Some (d, st, c, 0) else
  let chunk_size := u32 (chunk_sz * block_size st) in
  let chunk_cur_size := u32 (chunk_offset st - sizeof_chunk_header) in
  let chunk_rem_size := u32 (chunk_size - chunk_cur_size) in
  let chunk_end := chunk_rem_size <=? c.2 in
  let chunk_avl_size := if chunk_end then chunk_rem_size else u32 c.2 in
  let prev_rem_data := chunk_cur_size mod 512 in
  let missing_bytes := if negb (prev_rem_data =? 0) then 512 - prev_rem_data else 0 in
  if negb (total_sz =? u32 (chunk_size + sizeof_chunk_header)) then Some (d, st, c, 1) else
  if (0 <? missing_bytes) && (chunk_avl_size <? missing_bytes) then Some (d, st, c, 1) else
  r ← fill_sector d st c prev_rem_data missing_bytes;
  let '(d, st, c) := r in
  let copy_len := u32 (chunk_avl_size - missing_bytes) / 512 * 512 in
  let rem_data := u32 (u32 (chunk_avl_size - copy_len) - missing_bytes) in
  src ← slice c.1 0 copy_len;
  let d := WRITE d (slot_no st) src (sector st) in
  let c := advance c copy_len in
  dat ← (if 0 <? rem_data then src ← slice c.1 0 rem_data; blit (data st) 0 src
         else Some (data st));
  let c := advance c rem_data in
  let sec := u32 (sector st + copy_len / 512) in
  if chunk_end then
    Some (d, mkState (u32 (remaining_chunks st - 1)) 0 sec (last_header st) (block_size st)
               (slot_no st) dat, c, 0)
  else
    Some (d, mkState (remaining_chunks st) (u32 (chunk_offset st + chunk_avl_size)) sec
               (last_header st) (block_size st) (slot_no st) dat, c, 0).

(** [case CHUNK_TYPE_DONT_CARE]. *)
Definition process_dont_care (d : D) (st : sparse_state) (c : cursor) (chunk_sz total_sz : Z)
    : option (D * sparse_state * cursor * Z) :=
  if negb (total_sz =? sizeof_chunk_header) then Some (d, st, c, 1) else
  let skip := u32 (chunk_sz * block_size st) in
  Some (d, mkState (u32 (remaining_chunks st - 1)) 0 (u32 (sector st + skip / 512))
             (last_header st) (block_size st) (slot_no st) (data st), c, 0).

Definition _unsparse_process_chunk (d : D) (st : sparse_state) (c : cursor)
    : option (D * sparse_state * cursor * Z) :=
  r ← read_chunk_header st c;
  let '(st, c) := r in
  if sizeof_chunk_header <=? chunk_offset st then
    chunk_type ← field (last_header st) 0 2;
    chunk_sz ← field (last_header st) 4 4;
    total_sz ← field (last_header st) 8 4;
    if chunk_type =? CHUNK_TYPE_RAW then process_raw d st c chunk_sz total_sz
    else if chunk_type =? CHUNK_TYPE_DONT_CARE then process_dont_care d st c chunk_sz total_sz
    else Some (d, st, c, 1)
  else Some (d, st, c, 0).

(** One round of the loop of [_unsparse]. *)
Definition unsparse_step (x : D * sparse_state * cursor * Z)
    : option ((D * sparse_state * cursor * Z) + (D * sparse_state * Z)) :=
  let '(d, st, c, ret) := x in
  if (0 <? remaining_chunks st) && (0 <? c.2) && (ret =? 0) then
    r ← _unsparse_process_chunk d st c;
    Some (inl r)
  else Some (inr (d, st, ret)).

(** The loop of [_unsparse]: as many chunks as the section has data for.
    A round consumes data or finishes a chunk whose header was complete, so
    twice the section size is enough fuel ([unsparse_safe]). *)
Definition _unsparse (d : D) (st : sparse_state) (source : list Z) (section_size : Z)
    : option (D * sparse_state * Z) :=
  r ← unsparse_enter st (source, section_size);
  let '(st, c, ret) := r in
  if negb (ret =? 0) then Some (d, st, ret) else
  loop (2 * Z.to_nat c.2 + 3) unsparse_step (d, st, c, 0).

Definition do_unsparse_process (d : D) (st : sparse_state) (source : list Z) (section_size : Z)
    : option (D * sparse_state * Z) :=
  r ← _unsparse d st source section_size;
  let '(d, st, ret) := r in
  Some (d, st, if negb (ret =? 0) then 1 else 0).

Definition do_unsparse_start (st : sparse_state) (sec slot : Z) : sparse_state :=
  mkState 0 0 sec (last_header st) (block_size st) slot (data st).

End with_device.

(** ** Safety on every input

    The image comes from the host and is not trusted: whatever its bytes, no
    access leaves a buffer and the loop ends. *)

Record state_ok (st : sparse_state) : Prop := mkStateOk {
  so_rem : is_u32 (remaining_chunks st);
  so_off : is_u32 (chunk_offset st);
  so_blk : is_u32 (block_size st);
  so_hdr : length (last_header st) = 12%nat;
  so_hdrb : bytes (last_header st);
  so_data : length (data st) = 512%nat;
  (** past the header, the position is inside the chunk *)
  so_cur : ∀ sz, field (last_header st) 4 4 = Some sz →
    sizeof_chunk_header < chunk_offset st →
    chunk_offset st - sizeof_chunk_header < u32 (sz * block_size st);
}.

Definition cursor_ok (c : cursor) : Prop :=
  bytes c.1 ∧ Z.of_nat (length c.1) = c.2 ∧ c.2 < 18446744073709551616.

Lemma slice_cursor c n :
  cursor_ok c → 0 <= n <= c.2 →
  slice c.1 0 n = Some (take (Z.to_nat n) c.1) ∧
  Z.of_nat (length (take (Z.to_nat n) c.1)) = n ∧ bytes (take (Z.to_nat n) c.1).
Proof.
  intros (Hb & Hl & Hm) Hn. rewrite slice_Some by lia.
  change (Z.to_nat 0) with 0%nat. rewrite drop_0, length_take. auto with lia cint.
Qed.

Lemma advance_ok c n :
  cursor_ok c → 0 <= n <= c.2 → cursor_ok (advance c n) ∧ (advance c n).2 = c.2 - n.
Proof.
  intros (Hb & Hl & Hm) Hn. unfold advance, cursor_ok. cbn [fst snd].
  rewrite u64_id by lia. rewrite length_drop. repeat split; auto with lia cint.
Qed.

Lemma field_total hdr off n :
  0 <= off → 0 <= n → off + n <= Z.of_nat (length hdr) → bytes hdr →
  ∃ v, field hdr off n = Some v ∧ 0 <= v < 256 ^ n.
Proof.
  intros. unfold field. rewrite slice_Some by lia. cbn. eexists. split; [done|].
  set (l := take _ _). assert (Z.of_nat (length l) = n) as Hl.
  { unfold l. rewrite length_take, length_drop. lia. }
  rewrite <-Hl. apply le_val_range. unfold l. auto with cint.
Qed.

Lemma read_header_ok st c :
  state_ok st → cursor_ok c →
  ∃ st' c' r, _unsparse_read_header st c = Some (st', c', r) ∧ state_ok st' ∧ cursor_ok c' ∧
    c'.2 <= c.2 ∧ (r = 0 ∨ (r = 1 ∧ st' = st ∧ c' = c)).
Proof.
  intros Hs Hc. unfold _unsparse_read_header, sizeof_sparse_header.
  destruct (Z.ltb_spec c.2 28) as [|Hn]; [by eexists _, _, _; eauto 10 with lia|].
  destruct (slice_cursor c 28 Hc ltac:(lia)) as (-> & Hl & Hb). cbn [mbind option_bind].
  set (hdr := take (Z.to_nat 28) c.1) in *. clearbody hdr.
  destruct (field_total hdr 0 4) as (magic & -> & _); [lia..|done|].
  destruct (field_total hdr 4 2) as (mv & -> & _); [lia..|done|].
  destruct (field_total hdr 8 2) as (fh & -> & _); [lia..|done|].
  destruct (field_total hdr 10 2) as (ch & -> & _); [lia..|done|].
  destruct (field_total hdr 12 4) as (bs & -> & Hbs); [lia..|done|].
  destruct (field_total hdr 20 4) as (tc & -> & Htc); [lia..|done|].
  cbn [mbind option_bind].
  destruct (negb (magic =? _)); [by eexists _, _, _; eauto 10 with lia|].
  destruct (negb (mv =? SPARSE_HEADER_MAJOR_VER) || negb (fh =? 28) ||
    negb (ch =? sizeof_chunk_header)) eqn:E; [by eexists _, _, _; eauto 10 with lia|].
  assert (fh = 28) as -> by (destruct (Z.eqb_spec fh 28); [done|]; cbn in E; by rewrite orb_true_r in E).
  destruct (advance_ok c 28 Hc ltac:(lia)) as [Hc' E2].
  eexists _, _, _. split; [done|]. split; [|split; [done|]; split; [lia|by left]].
  destruct Hs. split; cbn; try done.
Qed.

Lemma read_chunk_header_ok st c :
  state_ok st → cursor_ok c →
  ∃ st' c', read_chunk_header st c = Some (st', c') ∧ state_ok st' ∧ cursor_ok c' ∧
    remaining_chunks st' = remaining_chunks st ∧ block_size st' = block_size st ∧
    c'.2 <= c.2 ∧ (chunk_offset st < 12 → 0 < c.2 → c'.2 < c.2) ∧
    (12 <= chunk_offset st → st' = st ∧ c' = c) ∧
    (chunk_offset st < 12 → chunk_offset st' <= 12).
Proof.
  intros Hs Hc. unfold read_chunk_header, sizeof_chunk_header.
  destruct (Z.ltb_spec (chunk_offset st) 12) as [Hlt|].
  2:{ eexists _, _. repeat (split; [done || lia|]). lia. }
  cbv zeta. set (n := if 12 - chunk_offset st <? c.2 then _ else _).
  pose proof (so_off _ Hs) as Hoff. unfold is_u32 in Hoff.
  assert (0 <= n <= c.2 ∧ n <= 12 - chunk_offset st ∧ (0 < c.2 → 0 < n)) as (Hn & Hn12 & Hn0).
  { destruct Hc as (_ & ? & _). unfold n. to_prop; lia. }
  destruct (slice_cursor c n Hc Hn) as (-> & Hl & Hb). cbn [mbind option_bind].
  pose proof (so_hdr _ Hs).
  destruct (blit (last_header st) (chunk_offset st) (take (Z.to_nat n) c.1)) as [h|] eqn:E.
  2:{ rewrite blit_Some in E by lia. done. }
  cbn [mbind option_bind]. destruct (advance_ok c n Hc Hn) as [Hc' E2].
  eexists _, _. split; [done|]. cbn [remaining_chunks block_size chunk_offset].
  split; [|split; [done|]; repeat (split; [done || lia|]); lia].
  destruct Hs. split; cbn; try done.
  - unfold is_u32 in *. lia.
  - apply blit_length in E. lia.
  - by eapply blit_bytes.
  - unfold sizeof_chunk_header. lia.
Qed.

Section safety.
Context {D : Type} `{MmcDev D}.

(** The sizes [process_raw] computes. *)
Lemma raw_sizes (st : sparse_state) (c : cursor) chunk_sz :
  state_ok st → cursor_ok c → 12 <= chunk_offset st → 0 < c.2 →
  field (last_header st) 4 4 = Some chunk_sz →
  let chunk_size := u32 (chunk_sz * block_size st) in
  let cur := chunk_offset st - 12 in
  let rem := chunk_size - cur in
  let avl := if rem <=? c.2 then rem else u32 c.2 in
  u32 (chunk_offset st - sizeof_chunk_header) = cur ∧ u32 (chunk_size - cur) = rem ∧
  0 <= cur ∧ 0 <= rem ∧ 0 <= avl ∧ avl <= c.2 ∧ avl <= rem ∧ is_u32 avl ∧
  (rem <= c.2 ∨ (avl = c.2 ∧ avl < rem)) ∧ is_u32 chunk_size.
Proof.
  intros Hs Hc Ho Hpos Hf. cbv zeta. pose proof (so_cur _ Hs _ Hf) as Hcur.
  pose proof (so_off _ Hs) as Hoff. unfold sizeof_chunk_header in *.
  pose proof (u32_range (chunk_sz * block_size st)) as Hsz.
  set (sz := u32 (chunk_sz * block_size st)) in *. clearbody sz.
  assert (u32 (chunk_offset st - 12) = chunk_offset st - 12) as Ec by int_lia.
  assert (0 <= sz - (chunk_offset st - 12)) as Hr.
  { destruct (Z.eq_dec (chunk_offset st) 12); unfold is_u32 in *; lia. }
  assert (u32 (sz - (chunk_offset st - 12)) = sz - (chunk_offset st - 12)) as Er by int_lia.
  rewrite Ec, Er. unfold is_u32 in *.
  destruct (Z.leb_spec (sz - (chunk_offset st - 12)) c.2); [lia|].
  rewrite u32_id by (unfold is_u32; lia). lia.
Qed.

Lemma fill_sector_ok (d : D) st c prev missing :
  state_ok st → cursor_ok c → 0 <= prev → (missing = 0 ∨ prev + missing = 512) → 0 <= missing <= c.2 →
  ∃ d' st' c', fill_sector d st c prev missing = Some (d', st', c') ∧ state_ok st' ∧
    cursor_ok c' ∧ c'.2 = c.2 - missing ∧ chunk_offset st' = chunk_offset st ∧
    remaining_chunks st' = remaining_chunks st ∧ last_header st' = last_header st ∧
    block_size st' = block_size st.
Proof.
  intros Hs Hc Hp Hm Hr. unfold fill_sector. destruct (Z.ltb_spec 0 missing).
  2:{ assert (missing = 0) as -> by lia. eexists _, _, _. split; [done|]. auto 10 with lia. }
  destruct (slice_cursor c missing Hc Hr) as (-> & Hl & Hb). cbn [mbind option_bind].
  pose proof (so_data _ Hs).
  destruct (blit (data st) prev (take (Z.to_nat missing) c.1)) as [dat|] eqn:E.
  2:{ rewrite blit_Some in E by lia. done. }
  cbn [mbind option_bind]. destruct (advance_ok c missing Hc Hr) as [Hc' E2].
  eexists _, _, _. split; [done|]. split; [|auto 10].
  destruct Hs. apply blit_length in E. split; cbn; try done. lia.
Qed.

Lemma process_raw_ok (d : D) st c chunk_sz total_sz :
  state_ok st → cursor_ok c → 12 <= chunk_offset st →
  field (last_header st) 4 4 = Some chunk_sz →
  ∃ d' st' c' r, process_raw d st c chunk_sz total_sz = Some (d', st', c', r) ∧
    state_ok st' ∧ cursor_ok c' ∧ c'.2 <= c.2 ∧ (r = 0 ∨ r = 1) ∧
    (0 < c.2 → r = 0 → c'.2 < c.2 ∨ chunk_offset st' = 0).
Proof.
  intros Hs Hc Ho Hf. unfold process_raw. destruct (Z.ltb_spec 0 c.2) as [Hpos|]; cbn [negb].
  2:{ eexists _, _, _, _. split; [done|]. auto 10 with lia. }
  destruct (raw_sizes st c chunk_sz Hs Hc Ho Hpos Hf)
    as (Ec & Er & Hcur & Hrem & Havl & Havc & Havr & Hau & Hcase & Hsz).
  cbv zeta in *. rewrite Ec, Er.
  set (sz := u32 (chunk_sz * block_size st)) in *. set (cur := chunk_offset st - 12) in *.
  set (avl := if sz - cur <=? c.2 then sz - cur else u32 c.2) in *.
  set (prev := cur mod 512).
  set (miss := if negb (prev =? 0) then 512 - prev else 0).
  assert (0 <= prev < 512) as Hprev by (apply Z.mod_pos_bound; lia).
  assert (0 <= miss ∧ (miss = 0 ∨ prev + miss = 512)) as [Hm0 Hm].
  { unfold miss. destruct (Z.eqb_spec prev 0); cbn; lia. }
  clearbody avl prev miss.
  destruct (total_sz =? _); cbn [negb]; [|by eexists _, _, _, _; split; [done|]; auto 10 with lia].
  destruct ((0 <? miss) && (avl <? miss)) eqn:Eg;
    [by eexists _, _, _, _; split; [done|]; auto 10 with lia|].
  assert (miss <= avl) as Hma by (to_prop; done || lia).
  destruct (fill_sector_ok d st c prev miss) as
    (d1 & st1 & c1 & -> & Hs1 & Hc1 & E1 & Eo1 & Erm1 & Eh1 & Eb1); [done|done|lia|done|lia|].
  cbn [mbind option_bind].
  assert (u32 (avl - miss) = avl - miss) as -> by int_lia.
  set (cl := (avl - miss) / 512 * 512).
  assert (0 <= cl <= avl - miss ∧ avl - miss - cl < 512) as [Hcl Hcl2] by (unfold cl; dm_lia).
  assert (u32 (u32 (avl - cl) - miss) = avl - cl - miss) as -> by (unfold is_u32 in *; int_lia).
  clearbody cl.
  destruct (slice_cursor c1 cl Hc1 ltac:(lia)) as (-> & Hl1 & Hb1). cbn [mbind option_bind].
  destruct (advance_ok c1 cl Hc1 ltac:(lia)) as [Hc2 E2].
  set (rd := avl - cl - miss) in *.
  assert (∃ dat, (if 0 <? rd then src ← slice (advance c1 cl).1 0 rd; blit (data st1) 0 src
    else Some (data st1)) = Some dat ∧ length dat = 512%nat) as (dat & -> & Hdat).
  { pose proof (so_data _ Hs1). destruct (Z.ltb_spec 0 rd); [|eauto].
    destruct (slice_cursor (advance c1 cl) rd Hc2 ltac:(lia)) as (-> & Hl2 & _).
    cbn [mbind option_bind]. rewrite blit_Some by lia. eexists. split; [done|].
    rewrite !length_app, length_take, length_drop. lia. }
  cbn [mbind option_bind].
  destruct (advance_ok (advance c1 cl) rd Hc2 ltac:(lia)) as [Hc3 E3].
  destruct (Z.leb_spec (sz - cur) c.2).
  - eexists _, _, _, _. split; [done|]. cbn [chunk_offset].
    split; [|split; [done|]; split; [lia|]; auto].
    destruct Hs1. split; cbn; try done; try apply u32_range.
  - eexists _, _, _, _. split; [done|]. split; [|split; [done|]; split; [lia|]; split; [auto|lia]].
    destruct Hs1. split; cbn; try done; try apply u32_range.
    intros sz' Hf' Hgt. rewrite Eh1 in Hf'. rewrite Hf in Hf'. injection Hf' as <-.
    rewrite Eb1. fold sz. unfold sizeof_chunk_header in *. rewrite Eo1 in *. int_lia.
Qed.

Lemma process_chunk_ok (d : D) st c :
  state_ok st → cursor_ok c → 0 < c.2 →
  ∃ d' st' c' r, _unsparse_process_chunk d st c = Some (d', st', c', r) ∧
    state_ok st' ∧ cursor_ok c' ∧ c'.2 <= c.2 ∧ (r = 0 ∨ r = 1) ∧
    (r = 0 → c'.2 < c.2 ∨ (12 <= chunk_offset st ∧ chunk_offset st' = 0)).
Proof.
  intros Hs Hc Hpos. unfold _unsparse_process_chunk.
  destruct (read_chunk_header_ok st c Hs Hc) as
    (st1 & c1 & -> & Hs1 & Hc1 & _ & _ & Hle & Hlt & Hsame & _). cbn [mbind option_bind].
  unfold sizeof_chunk_header at 1.
  destruct (Z.leb_spec 12 (chunk_offset st1)) as [H12|].
  2:{ eexists _, _, _, _. split; [done|]. repeat (split; [done || lia || auto|]).
      intros _. destruct (Z.le_gt_cases 12 (chunk_offset st)); [|lia].
      destruct Hsame as [-> ->]; lia. }
  pose proof (so_hdr _ Hs1) as Hh. pose proof (so_hdrb _ Hs1) as Hhb.
  destruct (field_total (last_header st1) 0 2) as (ty & -> & _); [lia..|done|].
  destruct (field_total (last_header st1) 4 4) as (sz & Hsz & _); [lia..|done|].
  destruct (field_total (last_header st1) 8 4) as (tt & -> & _); [lia..|done|].
  rewrite Hsz. cbn [mbind option_bind].
  destruct (ty =? CHUNK_TYPE_RAW).
  - destruct (process_raw_ok d st1 c1 sz tt Hs1 Hc1 H12 Hsz) as
      (d2 & st2 & c2 & r & -> & Hs2 & Hc2 & Hle2 & Hr & Hdec).
    eexists _, _, _, _. split; [done|]. repeat (split; [done || lia|]).
    intros ->. destruct (Z.le_gt_cases 12 (chunk_offset st)); [|lia].
    destruct Hsame as [-> ->]; [lia|]. destruct Hdec; auto.
  - destruct (ty =? CHUNK_TYPE_DONT_CARE).
    + unfold process_dont_care. destruct (tt =? sizeof_chunk_header); cbn [negb].
      * eexists _, _, _, _. split; [done|]. cbn [chunk_offset]. split; [|split; [done|]].
        { destruct Hs1. split; cbn; try done; try apply u32_range. }
        split; [lia|]. split; [auto|]. intros _. lia.
      * eexists _, _, _, _. split; [done|]. repeat (split; [done || lia || auto|]). done.
    + eexists _, _, _, _. split; [done|]. repeat (split; [done || lia || auto|]). done.
Qed.

Lemma unsparse_enter_ok st c :
  state_ok st → cursor_ok c →
  ∃ st' c' r, unsparse_enter st c = Some (st', c', r) ∧ state_ok st' ∧ cursor_ok c' ∧
    (r = 0 ∨ r = 1).
Proof.
  intros Hs Hc. unfold unsparse_enter.
  destruct (remaining_chunks st =? 0); [|by eexists _, _, _; auto].
  destruct (read_header_ok st _ Hs Hc) as (st1 & c1 & r & -> & ? & ? & _ & Hr).
  eexists _, _, _. split; [done|]. tauto.
Qed.

Definition loop_ok (x : D * sparse_state * cursor * Z) : Prop :=
  let '(d, st, c, ret) := x in state_ok st ∧ cursor_ok c ∧ (ret = 0 ∨ ret = 1).

Definition loop_mu (x : D * sparse_state * cursor * Z) : nat :=
  let '(d, st, c, ret) := x in
  if ret =? 0 then (2 * Z.to_nat c.2 + (if (12 <=? chunk_offset st)%Z then 1 else 0) + 1)%nat
  else 0%nat.

Lemma unsparse_total (d : D) st src
    (Hs : state_ok st) (Hb : bytes src)
    (Hlen : Z.of_nat (length src) < 18446744073709551616) :
  ∃ d' st' r, do_unsparse_process d st src (Z.of_nat (length src)) = Some (d', st', r) ∧
    state_ok st' ∧ (r = 0 ∨ r = 1).
Proof.
  unfold do_unsparse_process, _unsparse.
  assert (cursor_ok (src, Z.of_nat (length src))) as Hc by done.
  destruct (unsparse_enter_ok st _ Hs Hc) as (st1 & c1 & r1 & -> & Hs1 & Hc1 & Hr1).
  cbn [mbind option_bind].
  destruct Hr1 as [-> | ->]; cbn [negb Z.eqb];
    [|exists d, st1, 1; auto].
  loop_inv loop_ok loop_mu (λ r : D * sparse_state * Z, state_ok r.1.2 ∧ (r.2 = 0 ∨ r.2 = 1)) HL.
  - unfold loop_mu, loop_ok, unsparse_step. intros [[[d0 st0] c0] r0] (Hs0 & Hc0 & Hr0).
    destruct (0 <? remaining_chunks st0); cbn [andb]; [|by eexists; split; [done|]].
    destruct (Z.ltb_spec 0 c0.2) as [Hp|]; cbn [andb]; [|by eexists; split; [done|]].
    destruct (Z.eqb_spec r0 0) as [->|]; [|by eexists; split; [done|]].
    destruct (process_chunk_ok d0 st0 c0 Hs0 Hc0 Hp) as
      (d2 & st2 & c2 & r2 & -> & Hs2 & Hc2 & Hle & Hr2 & Hdec). cbn [mbind option_bind].
    eexists. split; [done|]. cbv beta iota. split; [done|].
    destruct Hc2 as (_ & ? & _). destruct (Z.eqb_spec r2 0) as [->|]; [|lia].
    destruct (Hdec eq_refl) as [|[? ->]]; to_prop; lia.
  - unfold loop_ok. auto.
  - unfold loop_mu. destruct (12 <=? chunk_offset st1); cbn; lia.
  - destruct HL as ([[d' st'] r'] & -> & Hst' & Hr').
    cbn. eexists _, _, _. split; [done|]. split; [done|]. destruct (r' =? 0); auto.
Qed.

(** C32: the sparse expander is memory-safe and terminates on every input: from
    any well-formed state, whatever bytes a section holds, no slice of the
    source and no copy into the header or the sector buffer leaves its bounds,
    the loop ends, and the state stays well-formed for the next section. *)
Theorem unsparse_safe (d : D) st src
    (Hs : state_ok st) (Hb : bytes src)
    (Hlen : Z.of_nat (length src) < 18446744073709551616) :
  ∃ d' st' r, do_unsparse_process d st src (Z.of_nat (length src)) = Some (d', st', r) ∧
    state_ok st' ∧ (r = 0 ∨ r = 1).
Proof. by apply unsparse_total. Qed.
End safety.

#[local] Definition st0 : sparse_state := mkState 0 0 0 (replicate 12 0) 0 0 (replicate 512 0).

Lemma st0_ok : state_ok st0.
Proof.
  split; try by eval_to_nat; try by_eval.
Qed.

(** A header announcing three chunks, then a chunk of an unknown type. *)
Lemma unsparse_safe_witness :
  let src := le_bytes 4 SPARSE_HEADER_MAGIC ++ [1;0; 0;0; 28;0; 12;0; 0;16;0;0; 9;0;0;0; 3;0;0;0; 0;0;0;0] ++
    [205;171;0;0;1;2;3;4;5;6;7;8;9] in
  ∃ d' st' r, do_unsparse_process (mkRam ∅ ∅) st0 src (Z.of_nat (length src)) = Some (d', st', r) ∧
    state_ok st' ∧ (r = 0 ∨ r = 1).
Proof.
  cbv zeta. apply (unsparse_safe (mkRam ∅ ∅) st0).
  - exact st0_ok.
  - by_eval.
  - cbn. lia.
Defined.

(** ** The header check *)

Definition header_valid (src : list Z) : Prop :=
  (28 <= length src)%nat ∧ take 4 src = [58; 255; 38; 237] ∧ take 2 (drop 4 src) = [1; 0] ∧
  take 4 (drop 8 src) = [28; 0; 12; 0].

Lemma field_eq src oz nz v :
  bytes src → (28 <= length src)%nat → 0 <= oz → 0 <= nz → oz + nz <= 28 → 0 <= v < 256 ^ nz →
  ∃ w, field (take 28 src) oz nz = Some w ∧
    (w = v ↔ take (Z.to_nat nz) (drop (Z.to_nat oz) src) = le_bytes (Z.to_nat nz) v).
Proof.
  intros Hb Hl H1 H2 Ho Hv. unfold field. rewrite slice_Some by (rewrite ?length_take; lia).
  eexists. split; [done|]. rewrite <-(Z2Nat.id nz) in Hv by done.
  set (o := Z.to_nat oz) in *. set (n := Z.to_nat nz) in *.
  assert (o + n <= 28)%nat as Hon by lia.
  assert (take n (drop o (take 28 src)) = take n (drop o src)) as ->.
  { rewrite <-(take_drop 28 src) at 2. rewrite drop_app_le by (rewrite length_take; lia).
    rewrite take_app_le; [done|]. rewrite length_drop, length_take. lia. }
  set (l := take n (drop o src)). assert (length l = n) as Hn.
  { unfold l. rewrite length_take, length_drop. lia. }
  assert (bytes l) by (unfold l; auto with cint). split.
  - intros <-. rewrite <-Hn at 1. symmetry. by apply le_bytes_val.
  - intros ->. rewrite le_val_bytes. by apply Z.mod_small.
Qed.

(** A file header is accepted exactly when the section holds all of it,
    the magic number, the major version and the two header sizes being the
    expected ones; otherwise the call reports an error and leaves both the
    state and the position as they were. *)
Theorem read_header_check st src
    (Hb : bytes src) :
  ∃ st' c r, _unsparse_read_header st (src, Z.of_nat (length src)) = Some (st', c, r) ∧
    (r = 0 ↔ header_valid src) ∧
    (r ≠ 0 → r = 1 ∧ st' = st ∧ c = (src, Z.of_nat (length src))).
Proof.
  unfold _unsparse_read_header, sizeof_sparse_header, header_valid. cbn [fst snd].
  destruct (Z.ltb_spec (Z.of_nat (length src)) 28).
  { eexists _, _, _. split; [done|]. split; [split; [done|lia]|done]. }
  assert (slice src 0 28 = Some (take 28 src)) as ->.
  { rewrite slice_Some by lia. by rewrite drop_0. }
  cbn [mbind option_bind].
  destruct (field_eq src 0 4 SPARSE_HEADER_MAGIC Hb) as (magic & -> & Hm); [lia..|done|].
  destruct (field_eq src 4 2 1 Hb) as (ver & -> & Hv); [lia..|done|].
  destruct (field_eq src 8 2 28 Hb) as (fh & -> & Hf); [lia..|done|].
  destruct (field_eq src 10 2 12 Hb) as (ch & -> & Hc); [lia..|done|].
  destruct (field_eq src 12 4 0 Hb) as (bs & -> & _); [lia..|done|].
  destruct (field_eq src 20 4 0 Hb) as (tc & -> & _); [lia..|done|].
  cbn [mbind option_bind]. unfold SPARSE_HEADER_MAJOR_VER, sizeof_chunk_header.
  change (magic = SPARSE_HEADER_MAGIC ↔ take 4 (drop 0 src) = [58; 255; 38; 237]) in Hm.
  change (ver = 1 ↔ take 2 (drop 4 src) = [1; 0]) in Hv.
  change (fh = 28 ↔ take 2 (drop 8 src) = [28; 0]) in Hf.
  change (ch = 12 ↔ take 2 (drop 10 src) = [12; 0]) in Hc. rewrite drop_0 in Hm.
  assert (header_valid src ↔ magic = SPARSE_HEADER_MAGIC ∧ ver = 1 ∧ fh = 28 ∧ ch = 12) as HH.
  { assert (28 <= length src)%nat as HL by lia. unfold header_valid. rewrite Hm, Hv, Hf, Hc.
    assert (take 4 (drop 8 src) = take 2 (drop 8 src) ++ take 2 (drop 10 src)) as ->.
    { change 10%nat with (8 + 2)%nat. rewrite <-drop_drop.
      by destruct (drop 8 src) as [|? [|? [|? [|??]]]]. }
    assert (take 2 (drop 8 src) ++ take 2 (drop 10 src) = [28; 0; 12; 0] ↔
      take 2 (drop 8 src) = [28; 0] ∧ take 2 (drop 10 src) = [12; 0]) as ->; [|tauto].
    split; [|by intros [-> ->]]. intros E. apply (app_inj_1 _ [28; 0] _ [12; 0]) in E; [done|].
    rewrite length_take, length_drop, Nat.min_l; [done|]. clear -HL. lia. }
  fold (header_valid src).
  destruct (Z.eqb_spec magic SPARSE_HEADER_MAGIC), (Z.eqb_spec ver 1), (Z.eqb_spec fh 28),
    (Z.eqb_spec ch 12); cbn [negb orb];
    (eexists _, _, _; split; [done|]; split; [split; [try done|]; tauto|done]).
Qed.

Lemma read_header_check_witness :
  bytes (le_bytes 4 SPARSE_HEADER_MAGIC ++ [2; 0]) ∧
  ∃ st' c r, _unsparse_read_header st0 (le_bytes 4 SPARSE_HEADER_MAGIC ++ [2; 0], 6) = Some (st', c, r) ∧
    (r = 0 ↔ header_valid (le_bytes 4 SPARSE_HEADER_MAGIC ++ [2; 0])) ∧
    (r ≠ 0 → r = 1 ∧ st' = st0 ∧ c = (le_bytes 4 SPARSE_HEADER_MAGIC ++ [2; 0], 6)).
Proof.
  split; [by_eval|].
  apply (read_header_check st0 (le_bytes 4 SPARSE_HEADER_MAGIC ++ [2; 0])). by_eval.
Defined.
