(* ===== verification/SparseSpec.v ===== *)
(** What a sparse image means, and that [do_unsparse_process] ([Sparse]) over
    its sections puts exactly that on the device: the streaming refinement;
    how far a hole moves the write position, and which sections are too small. *)
From stdpp Require Import base tactics option list strings.
From Stdlib Require Import ZArith Lia.
From S2P Require Import Prelude.
From S2P Require Import MmcDev.
From S2P Require Import Sparse.
Open Scope Z_scope.

(** ** Reference: what an image means *)

Inductive chunk :=
  | Raw (n : Z) (dat : list Z)      (** [n] blocks of data *)
  | Skip (n : Z).                   (** [n] blocks left as they are *)

Definition chunk_hdr (ty n tot : Z) : list Z :=
  le_bytes 2 ty ++ le_bytes 2 0 ++ le_bytes 4 n ++ le_bytes 4 tot.

Definition encode_chunk (blk : Z) (c : chunk) : list Z :=
  match c with
  | Raw n dat => chunk_hdr CHUNK_TYPE_RAW n (n * blk + 12) ++ dat
  | Skip n => chunk_hdr CHUNK_TYPE_DONT_CARE n 12
  end.

Definition encode (blk : Z) (cs : list chunk) : list Z := concat (map (encode_chunk blk) cs).

Definition file_hdr (blk total_blks total_chunks crc : Z) : list Z :=
  le_bytes 4 SPARSE_HEADER_MAGIC ++ le_bytes 2 1 ++ le_bytes 2 0 ++ le_bytes 2 28 ++ le_bytes 2 12 ++
  le_bytes 4 blk ++ le_bytes 4 total_blks ++ le_bytes 4 total_chunks ++ le_bytes 4 crc.

Definition chunk_ok (blk : Z) (c : chunk) : Prop :=
  match c with
  | Raw n dat => 0 < n ∧ Z.of_nat (length dat) = n * blk ∧ bytes dat ∧ n * blk + 12 < 4294967296
  | Skip n => 0 <= n ∧ is_u32 n ∧ n * blk < 4294967296
  end.

(** Number of sectors a chunk covers, and its effect on a partition. *)
Definition chunk_sectors (blk : Z) (c : chunk) : Z :=
  match c with Raw n _ => n * blk / 512 | Skip n => n * blk / 512 end.

Definition apply_chunk (dk : disk) (s : Z) (c : chunk) : disk :=
  match c with Raw _ dat => write_sectors dk s dat | Skip _ => dk end.

Fixpoint expand (blk s : Z) (dk : disk) (cs : list chunk) : disk :=
  match cs with
  | [] => dk
  | c :: cs' => expand blk (s + chunk_sectors blk c) (apply_chunk dk s c) cs'
  end.

Definition total_sectors (blk : Z) (cs : list chunk) : Z :=
  foldr (λ c acc, chunk_sectors blk c + acc) 0 cs.

#[export] Instance expand_proper blk s : Proper (disk_eq ==> eq ==> disk_eq) (expand blk s).
Proof.
  intros a b Hab cs ? <-. revert s a b Hab. induction cs as [|c cs IH]; intros s a b Hab; [done|].
  cbn [expand]. apply IH. destruct c; [|done]. cbn [apply_chunk]. by apply write_sectors_proper.
Qed.

Lemma chunk_hdr_length ty n tot : length (chunk_hdr ty n tot) = 12%nat. Proof. done. Qed.

Lemma le_val_4 z : is_u32 z →
  u8 z + 256 * (u8 (z / 256) + 256 * (u8 (z / 256 / 256) + 256 * (u8 (z / 256 / 256 / 256) + 256 * 0))) = z.
Proof. intros. int_lia. Qed.

Lemma chunk_hdr_fields ty n tot :
  0 <= ty < 65536 → is_u32 n → is_u32 tot →
  field (chunk_hdr ty n tot) 0 2 = Some ty ∧ field (chunk_hdr ty n tot) 4 4 = Some n ∧
  field (chunk_hdr ty n tot) 8 4 = Some tot.
Proof.
  intros Hty Hn Ht. repeat split; unfold field; rewrite slice_Some by (cbn; lia);
    eval_to_nat; cbn -[u8 Z.mul Z.add Z.div]; f_equal;
    [int_lia|by apply le_val_4|by apply le_val_4].
Qed.

Lemma file_hdr_fields blk tb tc crc :
  is_u32 blk → is_u32 tc →
  let h := file_hdr blk tb tc crc in
  length h = 28%nat ∧ field h 0 4 = Some SPARSE_HEADER_MAGIC ∧ field h 4 2 = Some 1 ∧
  field h 8 2 = Some 28 ∧ field h 10 2 = Some 12 ∧ field h 12 4 = Some blk ∧
  field h 20 4 = Some tc.
Proof.
  intros Hb Ht. cbv zeta. repeat split; try reflexivity;
    unfold field; rewrite slice_Some by (cbn; lia);
    eval_to_nat; cbn -[u8 Z.mul Z.add Z.div]; f_equal; by apply le_val_4.
Qed.

Lemma chunk_hdr_bytes ty n tot : bytes (chunk_hdr ty n tot).
Proof. unfold chunk_hdr. rewrite !bytes_app. auto using le_bytes_bytes. Qed.

Lemma encode_bytes blk cs : Forall (chunk_ok blk) cs → bytes (encode blk cs).
Proof.
  induction 1 as [|c cs Hc Hcs IH]; [constructor|].
  change (encode blk (c :: cs)) with (encode_chunk blk c ++ encode blk cs).
  apply bytes_app. split; [|done]. destruct c as [n dat|n]; cbn [encode_chunk].
  - apply bytes_app. split; [apply chunk_hdr_bytes|]. by destruct Hc as (_ & _ & ? & _).
  - apply chunk_hdr_bytes.
Qed.

(** ** One RAW step on a well-formed chunk *)

Lemma sub_take {A} (l1 l2 : list A) a i j :
  take a l1 = take a l2 → (i + j <= a)%nat → take j (drop i l1) = take j (drop i l2).
Proof.
  intros H Hij. rewrite !take_drop_commute. f_equal.
  rewrite <-(Nat.min_l (i + j) a) by lia. by rewrite <-!take_take, H.
Qed.

Lemma blit_front {A} (l src : list A) :
  (length src <= length l)%nat → blit l 0 src = Some (src ++ drop (length src) l).
Proof. intros. rewrite blit_Some by lia. done. Qed.

Lemma slice_front {A} (l : list A) (n : nat) :
  (n <= length l)%nat → slice l 0 (Z.of_nat n) = Some (take n l).
Proof. intros. rewrite slice_Some by lia. by rewrite Nat2Z.id, drop_0. Qed.

Section stream.
Context {D : Type} `{MmcLaws D}.
Context (Hrel : ∀ (d : D) slot l b, (mmc_write d slot l b).2 = 1).
Context (slot p blk : Z) (Hblk0 : 0 < blk) (Hblk : blk mod 512 = 0).

#[local] Abbreviation view d := (contents d slot p).

Lemma WRITE_ok (d : D) l s :
  selected d slot = p → (length l mod 512 = 0)%nat →
  disk_eq (view (WRITE d slot l s)) (write_sectors (view d) s l) ∧
  selected (WRITE d slot l s) slot = p.
Proof using Hrel.
  intros Hp Hl. unfold WRITE. split; [|by rewrite write_selected].
  rewrite <-Hp. apply write_ok; [|done].
  pose proof (Hrel d slot l s) as HR. destruct (mmc_write d slot l s). cbn in *. by subst.
Qed.

(** The data of the current chunk not yet on the device is [rest_dat], of
    which the first [pr] bytes wait in the sector buffer. *)
Record in_raw (st : sparse_state) (n : Z) (rest_dat : list Z) (pr : nat) : Prop := mkInRaw {
  ir_slot : slot_no st = slot;
  ir_blk : block_size st = blk;
  ir_hdr : last_header st = chunk_hdr CHUNK_TYPE_RAW n (n * blk + 12);
  ir_data : length (data st) = 512%nat;
  ir_off : chunk_offset st = 12 + (n * blk - Z.of_nat (length rest_dat - pr));
  ir_mod : (length rest_dat mod 512 = 0)%nat;
  ir_n : 0 < n;
  ir_len : Z.of_nat (length rest_dat) <= n * blk;
  ir_max : n * blk + 12 < 4294967296;
  ir_pr : (pr < 512)%nat;
  ir_prl : (pr < length rest_dat)%nat;
  ir_buf : take pr (data st) = take pr rest_dat;
}.

(** Filling up the sector buffer. *)
Lemma fill_run (d : D) st n rd pr sec a :
  in_raw st n rd pr → selected d slot = p →
  (a <= length sec)%nat → (pr + a <= length rd)%nat → Z.of_nat (length sec) < 18446744073709551616 →
  take a sec = take a (drop pr rd) → (pr = 0 ∨ 512 - pr <= a)%nat →
  is_u32 (sector st + 1) → is_u32 (sector st) →
  let m := if decide (pr = 0)%nat then 0%nat else (512 - pr)%nat in
  ∃ d' st', fill_sector d st (sec, Z.of_nat (length sec)) (Z.of_nat pr) (Z.of_nat m)
      = Some (d', st', (drop m sec, Z.of_nat (length (drop m sec)))) ∧
    selected d' slot = p ∧
    disk_eq (view d') (write_sectors (view d) (sector st) (take (pr + m) rd)) ∧
    sector st' = sector st + Z.of_nat (pr + m) / 512 ∧ length (data st') = 512%nat ∧
    remaining_chunks st' = remaining_chunks st ∧ chunk_offset st' = chunk_offset st ∧
    last_header st' = last_header st ∧ block_size st' = block_size st ∧ slot_no st' = slot_no st.
Proof using Hrel.
  intros Hr Hp Ha Hal Hsec Htk Hpr Hs1 Hs. cbv zeta. unfold fill_sector.
  destruct (decide (pr = 0%nat)) as [->|Hne].
  - cbn [Z.ltb Z.of_nat]. exists d, st. rewrite drop_0. cbn.
    rewrite take_0. split; [done|]. split; [done|]. split; [by rewrite write_sectors_nil|].
    split; [dm_lia|]. split; [apply (ir_data _ _ _ _ Hr)|]. done.
  - destruct Hpr as [|Hpr]; [done|]. set (m := (512 - pr)%nat) in *.
    pose proof (ir_pr _ _ _ _ Hr). pose proof (ir_data _ _ _ _ Hr) as Hd.
    destruct (Z.ltb_spec 0 (Z.of_nat m)); [|lia].
    cbn [fst]. rewrite slice_front by lia. cbn [mbind option_bind].
    rewrite blit_Some by (rewrite ?length_take; lia). cbn [mbind option_bind].
    assert (take (Z.to_nat (Z.of_nat pr)) (data st) ++ take m sec ++
      drop (Z.to_nat (Z.of_nat pr) + length (take m sec)) (data st) = take 512 rd) as ->.
    { rewrite Nat2Z.id, length_take, (drop_ge (data st)), app_nil_r by lia.
      rewrite (ir_buf _ _ _ _ Hr).
      pose proof (sub_take _ _ a 0 m Htk ltac:(lia)) as E. rewrite !drop_0 in E. rewrite E.
      rewrite <-(take_drop pr (take 512 rd)). rewrite take_take, Nat.min_l by lia. f_equal.
      rewrite take_drop_commute. f_equal. f_equal. lia. }
    assert (length (take 512 rd) = 512%nat) as Hl.
    { rewrite length_take. lia. }
    destruct (WRITE_ok d (take 512 rd) (sector st) Hp) as [HV HP]; [by rewrite Hl|].
    rewrite (ir_slot _ _ _ _ Hr).
    eexists _, _. split.
    { f_equal. f_equal. unfold advance. cbn [fst snd]. rewrite Nat2Z.id.
      rewrite u64_id by lia. f_equal. rewrite length_drop. lia. }
    cbn [sector data remaining_chunks chunk_offset last_header block_size slot_no].
    replace (pr + m)%nat with 512%nat by lia. change (Z.of_nat 512 / 512) with 1.
    rewrite u32_id by done. pose proof (ir_slot _ _ _ _ Hr). by repeat (split; [done|]).
Qed.

Lemma raw_run (d : D) st n rd pr sec :
  in_raw st n rd pr → selected d slot = p → sec ≠ [] →
  Z.of_nat (length sec) < 18446744073709551616 →
  let a := Nat.min (length sec) (length rd - pr) in
  take a sec = take a (drop pr rd) → (pr = 0 ∨ 512 - pr <= a)%nat →
  0 <= sector st → sector st + Z.of_nat (length rd) / 512 < 4294967296 →
  0 < remaining_chunks st < 4294967296 →
  let w := (512 * ((pr + a) / 512))%nat in
  ∃ d' st', process_raw d st (sec, Z.of_nat (length sec)) n (n * blk + 12)
      = Some (d', st', (drop a sec, Z.of_nat (length (drop a sec))), 0) ∧
    selected d' slot = p ∧
    disk_eq (view d') (write_sectors (view d) (sector st) (take w rd)) ∧
    sector st' = sector st + Z.of_nat w / 512 ∧ length (data st') = 512%nat ∧
    last_header st' = last_header st ∧ block_size st' = block_size st ∧ slot_no st' = slot_no st ∧
    (if decide (a = length rd - pr)%nat then
       chunk_offset st' = 0 ∧ remaining_chunks st' = remaining_chunks st - 1
     else chunk_offset st' = chunk_offset st + Z.of_nat a ∧
       remaining_chunks st' = remaining_chunks st ∧
       take (pr + a - w) (data st') = drop w (take (pr + a) rd)).
Proof using Hrel Hblk0 Hblk.
  intros Hr Hp Hne Hsec. cbv zeta. set (a := Nat.min (length sec) (length rd - pr)).
  intros Htk Hpr Hs0 Hs1 Hrem. unfold process_raw. cbv zeta. cbn [snd].
  assert (0 < length sec)%nat as Hsl by (destruct sec; [done|simpl; lia]).
  destruct (Z.ltb_spec 0 (Z.of_nat (length sec))); [|lia]. cbn [negb].
  pose proof Hr as [Hslot Hb Hh Hd Ho Hmod Hn Hlen Hmax Hpr5 Hprl Hbuf].
  rewrite Hb, (u32_id (n * blk)) by (unfold is_u32; nia).
  rewrite Ho. unfold sizeof_chunk_header.
  set (R := (length rd - pr)%nat) in *.
  replace (12 + (n * blk - Z.of_nat R) - 12) with (n * blk - Z.of_nat R) by lia.
  assert (0 < n * blk < 4294967296) by nia.
  rewrite (u32_id (n * blk - Z.of_nat R)) by (unfold is_u32; lia).
  replace (n * blk - (n * blk - Z.of_nat R)) with (Z.of_nat R) by lia.
  rewrite (u32_id (Z.of_nat R)) by (unfold is_u32; lia).
  assert ((n * blk - Z.of_nat R) mod 512 = Z.of_nat pr) as ->.
  { assert (∃ k, blk = 512 * k) as [k ->] by (exists (blk / 512); dm_lia).
    assert (∃ j : nat, length rd = 512 * j)%nat as [j Hj].
    { exists (length rd / 512)%nat. pose proof (Nat.div_mod_eq (length rd) 512). lia. }
    symmetry. apply Zmod_unique with (q := n * k - Z.of_nat j); lia. }
  assert ((if negb (Z.of_nat pr =? 0) then 512 - Z.of_nat pr else 0)
    = Z.of_nat (if decide (pr = 0)%nat then 0%nat else (512 - pr)%nat)) as ->.
  { destruct (Z.eqb_spec (Z.of_nat pr) 0), (decide (pr = 0)%nat); cbn [negb]; lia. }
  set (m := if decide (pr = 0)%nat then 0%nat else (512 - pr)%nat).
  assert (m <= a ∧ (pr + m = 0 ∨ pr + m = 512))%nat as [Hma Hm512].
  { unfold m. destruct (decide (pr = 0)%nat); lia. }
  assert ((if Z.of_nat R <=? Z.of_nat (length sec) then Z.of_nat R else u32 (Z.of_nat (length sec)))
    = Z.of_nat a) as ->.
  { unfold a. destruct (Z.leb_spec (Z.of_nat R) (Z.of_nat (length sec))); [lia|].
    rewrite u32_id by (unfold is_u32; lia). lia. }
  rewrite (u32_id (n * blk + 12)) by (unfold is_u32; nia). rewrite Z.eqb_refl. cbn [negb].
  destruct (Z.ltb_spec (Z.of_nat a) (Z.of_nat m)); [lia|]. rewrite andb_false_r.
  assert (0 < Z.of_nat (length rd) / 512) as Hq.
  { pose proof (Nat.div_mod_eq (length rd) 512). dm_lia. }
  destruct (fill_run d st n rd pr sec a Hr Hp) as
    (d1 & st1 & E & HP1 & HV1 & Hsec1 & Hd1 & Hrm1 & Ho1 & Hh1 & Hb1 & Hsl1);
    [lia|lia|done|done|lia|unfold is_u32; lia|unfold is_u32; lia|].
  fold m in E, HV1, Hsec1. rewrite E. cbn [mbind option_bind]. clear E.
  rewrite (u32_id (Z.of_nat a - Z.of_nat m)) by (unfold is_u32; lia).
  set (cl := (512 * ((a - m) / 512))%nat).
  assert ((Z.of_nat a - Z.of_nat m) / 512 * 512 = Z.of_nat cl) as ->.
  { unfold cl. rewrite Nat2Z.inj_mul, Nat2Z.inj_div. rewrite <-Nat2Z.inj_sub by lia. lia. }
  assert (cl <= a - m ∧ a - m - cl < 512)%nat as [Hcl Hcl2].
  { pose proof (Nat.div_mod_eq (a - m) 512). pose proof (Nat.mod_upper_bound (a - m) 512). unfold cl. lia. }
  assert (512 * ((pr + a) / 512) = pr + m + cl)%nat as Hw.
  { unfold cl. replace (pr + a)%nat with ((a - m) + (pr + m))%nat by lia.
    destruct Hm512 as [-> | ->]; [by rewrite !Nat.add_0_r|].
    replace (a - m + 512)%nat with (a - m + 1 * 512)%nat by lia.
    rewrite Nat.div_add by lia. lia. }
  rewrite Hw.
  assert (u32 (u32 (Z.of_nat a - Z.of_nat cl) - Z.of_nat m) = Z.of_nat (a - m - cl)) as ->.
  { rewrite (u32_id (Z.of_nat a - Z.of_nat cl)) by (unfold is_u32; lia).
    rewrite u32_id by (unfold is_u32; lia). lia. }
  assert (a <= length sec ∧ a <= R)%nat as [Has HaR] by (unfold a; lia).
  cbn [fst]. rewrite (slice_front (drop m sec) cl) by (rewrite length_drop; lia). cbn [mbind option_bind].
  pose proof (sub_take _ _ a m cl Htk ltac:(lia)) as Ecl. rewrite drop_drop in Ecl.
  rewrite Ecl, Hsl1, Hslot.
  assert (length (take cl (drop (pr + m) rd)) = cl) as Hlcl.
  { rewrite length_take, length_drop. lia. }
  destruct (WRITE_ok d1 (take cl (drop (pr + m) rd)) (sector st1) HP1) as [HV2 HP2].
  { rewrite Hlcl. unfold cl. by rewrite Nat.mul_comm, Nat.Div0.mod_mul. }
  set (d2 := WRITE d1 slot _ _) in *. clearbody d2.
  assert (advance (drop m sec, Z.of_nat (length (drop m sec))) (Z.of_nat cl)
    = (drop (m + cl) sec, Z.of_nat (length (drop (m + cl) sec)))) as ->.
  { unfold advance. cbn [fst snd]. rewrite Nat2Z.id, drop_drop, !length_drop.
    rewrite u64_id by lia. f_equal. lia. }
  set (k := (a - m - cl)%nat) in *.
  assert (advance (drop (m + cl) sec, Z.of_nat (length (drop (m + cl) sec))) (Z.of_nat k)
    = (drop a sec, Z.of_nat (length (drop a sec)))) as ->.
  { unfold advance. cbn [fst snd]. rewrite Nat2Z.id, drop_drop, !length_drop.
    rewrite u64_id by lia. f_equal; [f_equal|]; lia. }
  assert (∃ dat, (if 0 <? Z.of_nat k
      then src ← slice (drop (m + cl) sec) 0 (Z.of_nat k); blit (data st1) 0 src
      else Some (data st1)) = Some dat ∧ length dat = 512%nat ∧
      take k dat = drop (pr + m + cl) (take (pr + a) rd)) as (dat & Edat & Hdat & Hbuf').
  { pose proof (sub_take _ _ a (m + cl) k Htk ltac:(lia)) as Ek. rewrite drop_drop in Ek.
    assert (drop (pr + m + cl) (take (pr + a) rd) = take k (drop (m + cl) sec)) as ->.
    { rewrite Ek, take_drop_commute. f_equal; [lia|]. f_equal. lia. }
    destruct (Z.ltb_spec 0 (Z.of_nat k)).
    - rewrite slice_front by (rewrite length_drop; unfold k; lia). cbn [mbind option_bind].
      rewrite blit_front by (rewrite length_take; lia). eexists. split; [done|].
      rewrite length_app, length_take, length_drop, length_drop. split; [lia|].
      apply take_app_length'. rewrite length_take, length_drop. lia.
    - exists (data st1). replace k with 0%nat by lia. by rewrite !take_0. }
  cbn [fst]. rewrite Edat. cbn [mbind option_bind].
  assert (disk_eq (view d2) (write_sectors (view d) (sector st) (take (pr + m + cl) rd))) as HV.
  { etrans; [exact HV2|]. etrans; [apply write_sectors_proper, HV1|].
    rewrite Hsec1, <-(take_drop (pr + m) (take (pr + m + cl) rd)).
    rewrite take_take, Nat.min_l by lia.
    replace (drop (pr + m) (take (pr + m + cl) rd)) with (take cl (drop (pr + m) rd))
      by (by rewrite take_drop_commute).
    assert (length (take (pr + m) rd) = pr + m)%nat as HL by (rewrite length_take; lia).
    symmetry. pose proof (write_sectors_app (view d) (sector st) (take (pr + m) rd)
      (take cl (drop (pr + m) rd))) as E. rewrite HL in E. apply E. by destruct Hm512 as [-> | ->]. }
  assert (u32 (sector st1 + Z.of_nat cl / 512) = sector st + Z.of_nat (pr + m + cl) / 512) as ->.
  { rewrite Hsec1. assert (Z.of_nat (pr + m + cl) <= Z.of_nat (length rd)) by lia.
    replace (sector st + Z.of_nat (pr + m) / 512 + Z.of_nat cl / 512)
      with (sector st + Z.of_nat (pr + m + cl) / 512).
    - apply u32_id. unfold is_u32. dm_lia.
    - destruct Hm512 as [-> | ->]; dm_lia. }
  rewrite Hh1, Hb1, Hrm1, Ho1, Ho.
  destruct (Z.leb_spec (Z.of_nat R) (Z.of_nat (length sec))).
  - eexists _, _. split; [done|]. cbn [sector data remaining_chunks chunk_offset last_header block_size slot_no].
    rewrite decide_True by lia. rewrite u32_id by (unfold is_u32; lia). auto 12.
  - eexists _, _. split; [done|]. cbn [sector data remaining_chunks chunk_offset last_header block_size slot_no].
    rewrite decide_False by lia. rewrite u32_id by (unfold is_u32; lia).
    repeat (split; [done|]). by replace (pr + a - (pr + m + cl))%nat with k by lia.
Qed.

(** What is left to do after the current chunk. *)
Record tail_ok (sct rem : Z) (cs : list chunk) : Prop := mkTailOk {
  t_ok : Forall (chunk_ok blk) cs;
  t_rem : rem = Z.of_nat (length cs);
  t_sec0 : 0 <= sct;
  t_sec : sct + total_sectors blk cs < 4294967296;
}.

(** [k] bytes of the header of the next chunk have arrived. *)
Record at_hdr (st : sparse_state) (k : nat) (cs : list chunk) : Prop := mkAtHdr {
  ah_slot : slot_no st = slot;
  ah_blk : block_size st = blk;
  ah_data : length (data st) = 512%nat;
  ah_hdr : length (last_header st) = 12%nat;
  ah_off : chunk_offset st = Z.of_nat k;
  ah_k : (k < 12)%nat;
  ah_buf : take k (last_header st) = take k (encode blk cs);
}.

(** [stream st dk pend fin]: in state [st], with the partition holding [dk],
    the bytes [pend] are still to come and will turn it into [fin]. *)
Inductive stream (st : sparse_state) (dk : disk) : list Z → disk → Prop :=
  | stream_hdr k cs fin :
      at_hdr st k cs → (cs = [] → k = 0%nat) → remaining_chunks st < 4294967296 →
      tail_ok (sector st) (remaining_chunks st) cs →
      disk_eq fin (expand blk (sector st) dk cs) →
      stream st dk (drop k (encode blk cs)) fin
  | stream_raw n rd pr cs fin :
      in_raw st n rd pr → 0 <= sector st → remaining_chunks st < 4294967296 →
      tail_ok (sector st + Z.of_nat (length rd) / 512) (remaining_chunks st - 1) cs →
      disk_eq fin (expand blk (sector st + Z.of_nat (length rd) / 512)
                     (write_sectors dk (sector st) rd) cs) →
      stream st dk (drop pr rd ++ encode blk cs) fin.

Lemma chunk_sectors_nonneg c : chunk_ok blk c → 0 <= chunk_sectors blk c.
Proof using Hblk0. destruct c; cbn; intros; apply Z.div_pos; nia. Qed.

Lemma total_sectors_nonneg cs : Forall (chunk_ok blk) cs → 0 <= total_sectors blk cs.
Proof using Hblk0.
  induction 1 as [|c cs Hc _ IH]; [done|]. pose proof (chunk_sectors_nonneg c Hc).
  change (total_sectors blk (c :: cs)) with (chunk_sectors blk c + total_sectors blk cs). lia.
Qed.

Lemma header_run st k cs sec later :
  at_hdr st k cs → sec ++ later = drop k (encode blk cs) →
  Z.of_nat (length sec) < 18446744073709551616 →
  let av := Nat.min (12 - k) (length sec) in
  ∃ h, read_chunk_header st (sec, Z.of_nat (length sec)) =
    Some (mkState (remaining_chunks st) (Z.of_nat (k + av)) (sector st) h blk slot (data st),
          (drop av sec, Z.of_nat (length (drop av sec)))) ∧
    length h = 12%nat ∧ take (k + av) h = take (k + av) (encode blk cs).
Proof.
  intros [Hsl Hb _ Hh Ho Hk Hbuf] Hsec Hlen. cbv zeta. unfold read_chunk_header, sizeof_chunk_header.
  rewrite Ho. destruct (Z.ltb_spec (Z.of_nat k) 12); [|lia]. cbn [fst snd].
  set (av := Nat.min (12 - k) (length sec)).
  assert ((if 12 - Z.of_nat k <? Z.of_nat (length sec) then 12 - Z.of_nat k
    else Z.of_nat (length sec)) = Z.of_nat av) as ->.
  { unfold av. destruct (Z.ltb_spec (12 - Z.of_nat k) (Z.of_nat (length sec))); lia. }
  assert (av <= length sec ∧ av <= 12 - k)%nat as [Ha1 Ha2] by (unfold av; lia). clearbody av.
  rewrite slice_front by lia. cbn [mbind option_bind].
  rewrite blit_Some by (rewrite ?length_take; lia). cbn [mbind option_bind].
  rewrite Nat2Z.id. eexists. split.
  { unfold advance. cbn [fst snd]. rewrite Nat2Z.id, Hb, Hsl, length_drop, u64_id by lia.
    do 4 f_equal; lia. }
  rewrite !length_app, !length_take, length_drop. split; [lia|].
  rewrite Hbuf. assert (k <= length (encode blk cs))%nat.
  { apply (f_equal length) in Hbuf. rewrite !length_take in Hbuf. lia. }
  rewrite take_app_ge by (rewrite length_take; lia).
  rewrite length_take, Nat.min_l by lia. replace (k + av - k)%nat with av by lia.
  rewrite take_app_le by (rewrite length_take; lia). rewrite take_take, Nat.min_id.
  rewrite <-(take_drop k (take (k + av) (encode blk cs))). rewrite take_take, Nat.min_l by lia.
  f_equal. rewrite <-take_drop_commute, <-Hsec. by rewrite take_app_le by lia.
Qed.

(** One call of [process_raw] inside a chunk. *)
Lemma raw_step (d : D) st n rd pr cs sec later fin :
  in_raw st n rd pr → 0 <= sector st → remaining_chunks st < 4294967296 →
  tail_ok (sector st + Z.of_nat (length rd) / 512) (remaining_chunks st - 1) cs →
  disk_eq fin (expand blk (sector st + Z.of_nat (length rd) / 512)
                 (write_sectors (view d) (sector st) rd) cs) →
  selected d slot = p → sec ≠ [] → Z.of_nat (length sec) < 18446744073709551616 →
  sec ++ later = drop pr rd ++ encode blk cs →
  (pr = 0 ∨ later = [] ∨ 512 <= length sec)%nat →
  ∃ d' st' sec', process_raw d st (sec, Z.of_nat (length sec)) n (n * blk + 12)
      = Some (d', st', (sec', Z.of_nat (length sec')), 0) ∧
    selected d' slot = p ∧ stream st' (view d') (sec' ++ later) fin ∧
    (length sec' < length sec)%nat ∧ (sec' = [] ∨ chunk_offset st' = 0).
Proof using Hrel Hblk0 Hblk.
  intros Hr Hs0 Hrem Ht Hfin Hp Hne Hlen Hsec Hcut.
  pose proof Hr as [Hslot Hb Hh Hd Ho Hmod Hn Hln Hmax Hpr5 Hprl Hbuf].
  set (a := Nat.min (length sec) (length rd - pr)).
  assert (0 < length sec)%nat as Hsl by (destruct sec; [done|simpl; lia]).
  assert (a <= length sec ∧ a <= length rd - pr ∧ (a = length sec ∨ a = length rd - pr) ∧ 0 < a)%nat
    as (Ha1 & Ha2 & Ha3 & Ha0) by (unfold a; lia).
  assert (take a sec = take a (drop pr rd)) as Htk.
  { pose proof (f_equal (take a) Hsec) as E.
    rewrite !take_app_le in E by (rewrite ?length_drop; lia). done. }
  assert (pr = 0 ∨ 512 - pr <= a)%nat as Hpra.
  { destruct Hcut as [|[-> |]]; [by left| |]; right.
    - apply (f_equal length) in Hsec. rewrite app_nil_r, length_app, length_drop in Hsec.
      pose proof (Nat.div_mod_eq (length rd) 512). lia.
    - pose proof (Nat.div_mod_eq (length rd) 512). lia. }
  assert (drop a sec ++ later = drop (pr + a) rd ++ encode blk cs) as Hsec'.
  { pose proof (f_equal (drop a) Hsec) as E.
    rewrite !drop_app_le, drop_drop in E by (rewrite ?length_drop; lia). done. }
  pose proof (total_sectors_nonneg cs (t_ok _ _ _ Ht)). pose proof (t_sec _ _ _ Ht).
  pose proof (t_rem _ _ _ Ht).
  destruct (raw_run d st n rd pr sec Hr Hp Hne Hlen Htk Hpra) as
    (d' & st' & E & HP & HV & Hsc & Hdl & Hhd & Hbs & Hsn & Hcase); [done|lia|lia|].
  fold a in E, HV, Hsc, Hcase. set (w := (512 * ((pr + a) / 512))%nat) in *.
  exists d', st', (drop a sec). split; [done|]. split; [done|]. rewrite length_drop, Hsec'.
  split; [|split; [lia|]].
  2:{ destruct (decide (a = length rd - pr)%nat); [by right; apply Hcase|].
      left. apply drop_ge. lia. }
  destruct (decide (a = length rd - pr)%nat) as [Ea|Ea].
  - destruct Hcase as [Ho' Hrm'].
    assert (w = length rd) as Hw.
    { unfold w. replace (pr + a)%nat with (length rd) by lia.
      pose proof (Nat.div_mod_eq (length rd) 512). lia. }
    rewrite Hw in HV, Hsc. rewrite take_ge in HV by done.
    rewrite drop_ge by lia. change ([] ++ encode blk cs) with (drop 0 (encode blk cs)).
    apply stream_hdr; [|done|lia|by rewrite Hsc, Hrm'|].
    + split; [congruence|congruence|done|by rewrite Hhd, Hh|done|lia|done].
    + etrans; [exact Hfin|]. rewrite Hsc. apply expand_proper; [|done]. by symmetry.
  - destruct Hcase as (Ho' & Hrm' & Hbuf').
    assert (a = length sec) as -> by lia.
    pose proof (Nat.div_mod_eq (pr + length sec) 512).
    pose proof (Nat.mod_upper_bound (pr + length sec) 512).
    assert (w <= pr + length sec ∧ pr + length sec - w < 512)%nat as [Hw1 Hw2] by (unfold w; lia).
    replace (drop (pr + length sec) rd) with (drop (pr + length sec - w) (drop w rd))
      by (rewrite drop_drop; f_equal; lia).
    assert (w mod 512 = 0)%nat as Hw5 by (unfold w; by rewrite Nat.mul_comm, Nat.Div0.mod_mul).
    assert (∃ q : nat, w = 512 * q)%nat as [q Hq] by (eexists; done).
    clearbody w. assert (0 <= Z.of_nat w / 512) by (apply Z.div_pos; lia).
    assert (Z.of_nat (length rd) / 512 = Z.of_nat w / 512 + Z.of_nat (length (drop w rd)) / 512) as Hdiv.
    { rewrite length_drop. assert (Z.of_nat w / 512 = Z.of_nat q) as -> by (rewrite Hq; dm_lia).
      replace (Z.of_nat (length rd)) with (Z.of_nat (length rd - w) + Z.of_nat q * 512) by lia.
      rewrite Z.div_add by lia. apply Z.add_comm. }
    apply (stream_raw _ _ n); [|lia|lia| |].
    + split; rewrite ?length_drop; try lia; [congruence| |].
      2:{ rewrite Hbuf', take_drop_commute. do 2 f_equal. lia. }
      pose proof (Nat.div_mod_eq (length rd) 512). rewrite Hq.
      replace (length rd - 512 * q)%nat with ((length rd / 512 - q) * 512)%nat by lia.
      apply Nat.Div0.mod_mul.
    + rewrite Hsc, Hrm'. rewrite <-Z.add_assoc, <-Hdiv. done.
    + etrans; [exact Hfin|]. rewrite Hsc, <-Z.add_assoc, <-Hdiv. apply expand_proper; [|done].
      etrans; [|apply write_sectors_proper; symmetry; exact HV].
      pose proof (write_sectors_app (view d) (sector st) (take w rd) (drop w rd)) as E'.
      rewrite take_drop, length_take, Nat.min_l in E' by lia. by apply E'.
Qed.

(** The header of a chunk in the stream. *)
Lemma encode_hdr c cs h :
  chunk_ok blk c → length h = 12%nat → take 12 h = take 12 (encode blk (c :: cs)) →
  match c with
  | Raw n dat => h = chunk_hdr CHUNK_TYPE_RAW n (n * blk + 12) ∧
      drop 12 (encode blk (c :: cs)) = dat ++ encode blk cs
  | Skip n => h = chunk_hdr CHUNK_TYPE_DONT_CARE n 12 ∧ drop 12 (encode blk (c :: cs)) = encode blk cs
  end.
Proof.
  intros Hc Hl. change (encode blk (c :: cs)) with (encode_chunk blk c ++ encode blk cs).
  rewrite take_ge by lia. by destruct c.
Qed.

(** The chunk type dispatch, on a complete header. *)
Lemma dispatch_raw (d : D) st n c :
  last_header st = chunk_hdr CHUNK_TYPE_RAW n (n * blk + 12) → is_u32 n →
  n * blk + 12 < 4294967296 → 12 <= chunk_offset st →
  _unsparse_process_chunk d st c = process_raw d st c n (n * blk + 12).
Proof using Hblk0.
  intros Hh Hn Hm Ho. unfold _unsparse_process_chunk, read_chunk_header, sizeof_chunk_header.
  destruct (Z.ltb_spec (chunk_offset st) 12); [lia|]. cbn [mbind option_bind].
  destruct (Z.leb_spec 12 (chunk_offset st)); [|lia]. rewrite Hh.
  destruct (chunk_hdr_fields CHUNK_TYPE_RAW n (n * blk + 12)) as (-> & -> & ->);
    [done|done|unfold is_u32 in *; nia|]. done.
Qed.

Lemma process_chunk_header (d : D) st c st1 c1 :
  read_chunk_header st c = Some (st1, c1) →
  _unsparse_process_chunk d st c =
    if sizeof_chunk_header <=? chunk_offset st1 then _unsparse_process_chunk d st1 c1
    else Some (d, st1, c1, 0).
Proof.
  intros E. unfold _unsparse_process_chunk. rewrite E. cbn [mbind option_bind].
  destruct (Z.leb_spec sizeof_chunk_header (chunk_offset st1)) as [Hle|]; [|done].
  assert (read_chunk_header st1 c1 = Some (st1, c1)) as ->.
  { unfold read_chunk_header. destruct (Z.ltb_spec (chunk_offset st1) sizeof_chunk_header); [lia|done]. }
  cbn [mbind option_bind]. destruct (Z.leb_spec sizeof_chunk_header (chunk_offset st1)); [done|lia].
Qed.

Lemma dispatch_skip (d : D) st n c :
  last_header st = chunk_hdr CHUNK_TYPE_DONT_CARE n 12 → is_u32 n → 12 <= chunk_offset st →
  _unsparse_process_chunk d st c = process_dont_care d st c n 12.
Proof.
  intros Hh Hn Ho. unfold _unsparse_process_chunk, read_chunk_header, sizeof_chunk_header.
  destruct (Z.ltb_spec (chunk_offset st) 12); [lia|]. cbn [mbind option_bind].
  destruct (Z.leb_spec 12 (chunk_offset st)); [|lia]. rewrite Hh.
  destruct (chunk_hdr_fields CHUNK_TYPE_DONT_CARE n 12) as (-> & -> & ->); done.
Qed.

Definition step_post (sec later : list Z) (fin : disk)
    (r : option (D * sparse_state * cursor * Z)) : Prop :=
  ∃ d' st' sec', r = Some (d', st', (sec', Z.of_nat (length sec')), 0) ∧
    selected d' slot = p ∧ stream st' (view d') (sec' ++ later) fin ∧
    (length sec' < length sec)%nat ∧ (sec' = [] ∨ chunk_offset st' = 0).

(** A RAW or DONT_CARE chunk whose header has just been completed. *)
Lemma chunk_begin (d : D) st c cs sec sec0 later fin :
  chunk_ok blk c → slot_no st = slot → block_size st = blk → length (data st) = 512%nat →
  chunk_offset st = 12 → length (last_header st) = 12%nat →
  take 12 (last_header st) = take 12 (encode blk (c :: cs)) →
  remaining_chunks st < 4294967296 → tail_ok (sector st) (remaining_chunks st) (c :: cs) →
  disk_eq fin (expand blk (sector st) (view d) (c :: cs)) → selected d slot = p →
  Z.of_nat (length sec) < 18446744073709551616 →
  sec ++ later = drop 12 (encode blk (c :: cs)) → (length sec < length sec0)%nat →
  step_post sec0 later fin (_unsparse_process_chunk d st (sec, Z.of_nat (length sec))).
Proof using Hrel Hblk0 Hblk.
  intros Hc Hsl Hb Hd Ho Hhl Hh Hrm [Hok Hrem Hs0 Hs] Hfin Hp Hlen Hsec Hlt.
  apply Forall_cons in Hok as [_ Hok]. cbn [length] in Hrem.
  pose proof (total_sectors_nonneg cs Hok).
  change (total_sectors blk (c :: cs)) with (chunk_sectors blk c + total_sectors blk cs) in Hs.
  pose proof (encode_hdr c cs _ Hc Hhl Hh) as HE. destruct c as [n dat|n]; destruct HE as [Ehdr Edrop].
  - destruct Hc as (Hn & Hdl & Hdb & Hmx).
    assert (∃ q, blk = 512 * q) as [q Hq] by (exists (blk / 512); dm_lia).
    assert (in_raw st n dat 0) as Hin.
    { assert (Z.of_nat (length dat mod 512) = 0); [|split; try done; try lia; nia].
      rewrite Nat2Z.inj_mod, Hdl, Hq.
        replace (n * (512 * q)) with (n * q * 512) by lia. apply Z.mod_mul. lia. }
    assert (tail_ok (sector st + Z.of_nat (length dat) / 512) (remaining_chunks st - 1) cs) as Ht.
    { rewrite Hdl. unfold chunk_sectors in Hs. pose proof (Z.div_pos (n * blk) 512).
      split; [done|lia|nia|lia]. }
    assert (disk_eq fin (expand blk (sector st + Z.of_nat (length dat) / 512)
      (write_sectors (view d) (sector st) dat) cs)) as Hfin'.
    { rewrite Hdl. exact Hfin. }
    rewrite (dispatch_raw d st n) by (unfold is_u32; done || nia).
    rewrite Edrop in Hsec. destruct (decide (sec = [])) as [->|Hne].
    + exists d, st, []. split; [done|]. split; [done|]. split; [|by auto].
      rewrite Hsec. by apply (stream_raw st (view d) n dat 0 cs fin).
    + destruct (raw_step d st n dat 0 cs sec later fin) as (d' & st' & sec' & E & ? & ? & ? & ?);
        try done; [by left|].
      exists d', st', sec'. split_and!; try done. lia.
  - destruct Hc as (Hn & Hu & Hmx). rewrite (dispatch_skip d st n) by (done || lia).
    unfold process_dont_care, sizeof_chunk_header. cbn [Z.eqb negb].
    rewrite Hb, (u32_id (n * blk)) by (unfold is_u32; nia).
    unfold chunk_sectors in Hs. pose proof (Z.div_pos (n * blk) 512).
    rewrite !u32_id by (unfold is_u32; nia).
    eexists _, _, sec. split; [done|]. split; [done|]. split; [|by auto].
    rewrite Hsec, Edrop. change (encode blk cs) with (drop 0 (encode blk cs)).
    apply stream_hdr; cbn [sector remaining_chunks]; [|done|lia| |done].
    + split; cbn; try done; lia.
    + split; [done|lia|nia|lia].
Qed.

(** One call of [_unsparse_process_chunk]. *)
Lemma chunk_step (d : D) st sec later fin :
  stream st (view d) (sec ++ later) fin → selected d slot = p → sec ≠ [] →
  Z.of_nat (length sec) < 18446744073709551616 →
  (chunk_offset st <= 12 ∨ later = [] ∨ (512 <= length sec)%nat) →
  step_post sec later fin (_unsparse_process_chunk d st (sec, Z.of_nat (length sec))).
Proof using Hrel Hblk0 Hblk.
  intros Hst Hp Hne Hlen Hcut. inversion Hst as [k cs fin' Hh Hcs Hrm Ht Hfin Hsec|n rd pr cs fin' Hr Hs0 Hrm Ht Hfin Hsec]; subst fin'.
  - destruct (header_run st k cs sec later Hh (eq_sym Hsec) Hlen) as (h & E & Hhl & Hbuf).
    rewrite (process_chunk_header _ _ _ _ _ E).
    set (av := Nat.min (12 - k) (length sec)) in *. cbn [chunk_offset].
    pose proof (ah_k _ _ _ Hh). assert (0 < length sec)%nat by (destruct sec; [done|cbn; lia]).
    assert (0 < av ∧ av <= length sec ∧ (av = length sec ∨ k + av = 12) ∧ k + av <= 12)%nat
      as (Ha0 & Ha1 & Ha2 & Ha3) by (unfold av; lia). clearbody av.
    assert (drop av sec ++ later = drop (k + av) (encode blk cs)) as Hsec'.
    { rewrite <-drop_drop, Hsec, drop_app_le by lia. done. }
    unfold sizeof_chunk_header. destruct (Z.leb_spec 12 (Z.of_nat (k + av))).
    + assert (k + av = 12)%nat as E12 by lia. rewrite E12 in *.
      destruct cs as [|c cs]; [by destruct sec, k|].
      apply (chunk_begin d _ c cs); try done; cbn [sector remaining_chunks];
        try done; rewrite ?length_drop; try lia.
      * by pose proof (Forall_inv (t_ok _ _ _ Ht)).
      * apply (ah_data _ _ _ Hh).
    + eexists _, _, _. split; [done|]. split; [done|]. split; [|].
      2:{ rewrite length_drop. split; [lia|]. left. apply drop_ge. lia. }
      rewrite Hsec'. apply stream_hdr; cbn [sector remaining_chunks]; try done.
      * split; cbn; try done; [apply (ah_data _ _ _ Hh)|lia].
      * intros ->. rewrite (Hcs eq_refl) in Hsec. by destruct sec.
  - pose proof (ir_off _ _ _ _ Hr). pose proof (ir_len _ _ _ _ Hr). pose proof (ir_prl _ _ _ _ Hr).
    pose proof (ir_n _ _ _ _ Hr). pose proof (ir_max _ _ _ _ Hr).
    rewrite (dispatch_raw d st n); [|apply (ir_hdr _ _ _ _ Hr)|unfold is_u32; nia|done|lia].
    apply (raw_step d st n rd pr cs sec later fin); try done.
    destruct Hcut as [|[]]; auto. left. lia.
Qed.

Lemma stream_nonempty st dk pend fin :
  stream st dk pend fin →
  0 <= remaining_chunks st ∧ (remaining_chunks st = 0 → pend = []) ∧
  (pend = [] → remaining_chunks st = 0 ∧ disk_eq fin dk).
Proof.
  intros [k cs fin' Hh Hcs Hrm Ht Hfin|n rd pr cs fin' Hr Hs0 Hrm Ht Hfin].
  - rewrite (t_rem _ _ _ Ht). split; [lia|]. split.
    + intros E. destruct cs; [by destruct k|done].
    + intros E. destruct cs as [|c cs]; [done|]. apply (f_equal length) in E.
      pose proof (ah_k _ _ _ Hh).
      change (encode blk (c :: cs)) with (encode_chunk blk c ++ encode blk cs) in E.
      destruct c; cbn [encode_chunk] in E; rewrite length_drop, !length_app in E;
        rewrite ?chunk_hdr_length in E; cbn in E; lia.
  - pose proof (t_rem _ _ _ Ht). pose proof (ir_prl _ _ _ _ Hr). split; [lia|]. split; [lia|].
    intros E. apply (f_equal length) in E. rewrite length_app, length_drop in E. cbn in E. lia.
Qed.

Definition sec_inv (later : list Z) (fin : disk) (x : D * sparse_state * cursor * Z) : Prop :=
  let '(d, st, c, ret) := x in ret = 0 ∧ selected d slot = p ∧
  c.2 = Z.of_nat (length c.1) ∧ c.2 < 18446744073709551616 ∧
  stream st (view d) (c.1 ++ later) fin ∧
  (chunk_offset st <= 12 ∨ later = [] ∨ c.1 = [] ∨ (512 <= length c.1)%nat).

Definition sec_post (later : list Z) (fin : disk) (r : D * sparse_state * Z) : Prop :=
  let '(d, st, ret) := r in ret = 0 ∧ selected d slot = p ∧ stream st (view d) later fin.

Definition sec_mu (x : D * sparse_state * cursor * Z) : nat := length x.1.2.1.

(** A section of the stream, after the entry. *)
Lemma section_loop (d : D) st sec later fin fuel :
  sec_inv later fin (d, st, (sec, Z.of_nat (length sec)), 0) → (length sec < fuel)%nat →
  ∃ r, loop fuel unsparse_step (d, st, (sec, Z.of_nat (length sec)), 0) = Some r ∧
    sec_post later fin r.
Proof using Hrel Hblk0 Hblk.
  intros HI Hf. apply (loop_total _ (sec_inv later fin) sec_mu); [|done|done].
  unfold unsparse_step. intros [[[d0 st0] [l n]] r0] (-> & Hp & Hn & Hlen & Hst & Hcut). cbn [fst snd] in *. subst n.
  destruct (stream_nonempty _ _ _ _ Hst) as (Hr0 & Hz & _).
  destruct (Z.ltb_spec 0 (remaining_chunks st0)); cbn [andb].
  2:{ eexists. split; [done|]. destruct (app_eq_nil _ _ (Hz ltac:(lia))) as [-> ->].
      by repeat split. }
  destruct (Z.ltb_spec 0 (Z.of_nat (length l))) as [Hl|]; cbn [andb].
  2:{ eexists. split; [done|]. destruct l; [by repeat split|cbn in *; lia]. }
  cbn [Z.eqb]. destruct (chunk_step d0 st0 l later fin Hst Hp) as
    (d' & st' & sec' & -> & Hp' & Hst' & Hlt & Hend);
    [by intros ->|done|destruct Hcut as [|[|[->|]]]; auto; done|].
  cbn [mbind option_bind]. eexists. split; [done|]. cbn [fst snd]. split; [|done].
  repeat split; try done; cbn [fst snd]; [lia|]. destruct Hend as [->| ->]; auto. left. lia.
Qed.

(** A later section of the stream. *)
Lemma process_section (d : D) st sec later fin :
  stream st (view d) (sec ++ later) fin → selected d slot = p → sec ≠ [] →
  Z.of_nat (length sec) < 18446744073709551616 → (later = [] ∨ (512 <= length sec)%nat) →
  ∃ d' st', do_unsparse_process d st sec (Z.of_nat (length sec)) = Some (d', st', 0) ∧
    selected d' slot = p ∧ stream st' (view d') later fin.
Proof using Hrel Hblk0 Hblk.
  intros Hst Hp Hne Hlen Hcut. unfold do_unsparse_process, _unsparse, unsparse_enter.
  destruct (stream_nonempty _ _ _ _ Hst) as (_ & Hz & _).
  destruct (Z.eqb_spec (remaining_chunks st) 0) as [E|_].
  { destruct (app_eq_nil _ _ (Hz E)) as [-> _]. done. }
  cbn [mbind option_bind negb Z.eqb snd].
  destruct (section_loop d st sec later fin (2 * Z.to_nat (Z.of_nat (length sec)) + 3)) as
    ([[d' st'] r] & -> & -> & Hp' & Hst'); [|lia|].
  - repeat split; try done. destruct Hcut; auto.
  - cbn. eauto.
Qed.

(** The first section: the file header starts the stream. *)
Lemma process_first (d : D) st cs sec later tb crc :
  Forall (chunk_ok blk) cs → is_u32 blk → is_u32 tb → is_u32 crc →
  Z.of_nat (length cs) < 4294967296 →
  remaining_chunks st = 0 → slot_no st = slot → length (data st) = 512%nat →
  length (last_header st) = 12%nat → 0 <= sector st →
  sector st + total_sectors blk cs < 4294967296 → selected d slot = p →
  Z.of_nat (length sec) < 18446744073709551616 → (28 <= length sec)%nat →
  sec ++ later = file_hdr blk tb (Z.of_nat (length cs)) crc ++ encode blk cs →
  ∃ d' st', do_unsparse_process d st sec (Z.of_nat (length sec)) = Some (d', st', 0) ∧
    selected d' slot = p ∧ stream st' (view d') later (expand blk (sector st) (view d) cs).
Proof using Hrel Hblk0 Hblk.
  intros Hcs Hbu Htb Hcrc Hncs Hrm Hsl Hd Hh Hs0 Hs Hp Hlen H28 Hsec.
  unfold do_unsparse_process, _unsparse, unsparse_enter. rewrite Hrm. cbn [Z.eqb].
  set (fh := file_hdr blk tb (Z.of_nat (length cs)) crc) in *.
  assert (length fh = 28%nat) as Hfl by done.
  destruct (file_hdr_fields blk tb (Z.of_nat (length cs)) crc Hbu) as
    (_ & F0 & F1 & F2 & F3 & F4 & F5); [unfold is_u32; lia|]. fold fh in F0, F1, F2, F3, F4, F5.
  assert (take 28 sec = fh) as Htk.
  { rewrite <-(take_app_le _ later) by lia. rewrite Hsec. by apply take_app_length'. }
  assert (drop 28 sec ++ later = encode blk cs) as Hdr.
  { rewrite <-(drop_app_le _ later) by lia. rewrite Hsec. by apply drop_app_length'. }
  unfold _unsparse_read_header, sizeof_sparse_header. cbn [fst snd].
  destruct (Z.ltb_spec (Z.of_nat (length sec)) 28); [lia|].
  assert (slice sec 0 28 = Some fh) as ->.
  { change 28 with (Z.of_nat 28). rewrite slice_front by lia. by rewrite Htk. }
  cbn [mbind option_bind]. rewrite F0, F1, F2, F3, F4, F5. cbn [mbind option_bind].
  unfold SPARSE_HEADER_MAJOR_VER, sizeof_chunk_header. rewrite !Z.eqb_refl. cbn [negb orb].
  unfold advance. cbn [fst snd]. change (Z.to_nat 28) with 28%nat.
  assert (u64 (Z.of_nat (length sec) - 28) = Z.of_nat (length (drop 28 sec))) as ->.
  { rewrite length_drop, u64_id by lia. lia. }
  cbn [mbind option_bind]. cbn [negb Z.eqb].
  set (st1 := mkState _ _ _ _ _ _ _).
  destruct (section_loop d st1 (drop 28 sec) later (expand blk (sector st) (view d) cs)
    (2 * Z.to_nat (drop 28 sec, Z.of_nat (length (drop 28 sec))).2 + 3)) as
    ([[d' st'] r] & -> & -> & Hp' & Hst'); [|cbn; lia|cbn; eauto].
  repeat split; try done; cbn [fst snd]; [rewrite length_drop; lia| |by left].
  rewrite Hdr. change (encode blk cs) with (drop 0 (encode blk cs)).
  apply stream_hdr; cbn [st1 sector remaining_chunks]; try done.
  split; cbn; try done; lia.
Qed.
End stream.

(** ** The whole image *)

Section image.
Context {D : Type} `{MmcLaws D}.

(** The host sends the sections one after the other and stops at an error. *)
Fixpoint process_sections (d : D) (st : sparse_state) (secs : list (list Z))
    : option (D * sparse_state * Z) :=
  match secs with
  | [] => Some (d, st, 0)
  | sec :: secs' =>
      r ← do_unsparse_process d st sec (Z.of_nat (length sec));
      let '(d, st, ret) := r in
      if ret =? 0 then process_sections d st secs' else Some (d, st, ret)
  end.

(** How an image may be cut: anywhere, but every section before the last has
    the size of a sector at least. *)
Fixpoint well_cut (secs : list (list Z)) : Prop :=
  match secs with
  | [] => True
  | [sec] => sec ≠ []
  | sec :: secs' => (512 <= length sec)%nat ∧ well_cut secs'
  end.

Lemma process_rest slot p blk secs fin (d : D) st :
  (∀ (d : D) slot l b, (mmc_write d slot l b).2 = 1) → 0 < blk → blk mod 512 = 0 →
  stream slot blk st (contents d slot p) (concat secs) fin → selected d slot = p → well_cut secs →
  Z.of_nat (length (concat secs)) < 18446744073709551616 →
  ∃ d' st', process_sections d st secs = Some (d', st', 0) ∧ remaining_chunks st' = 0 ∧
    selected d' slot = p ∧ disk_eq (contents d' slot p) fin.
Proof.
  intros Hrel Hb0 Hb. revert d st. induction secs as [|sec secs IH]; intros d st Hst Hp Hcut Hlen.
  - destruct (stream_nonempty _ _ _ _ _ _ Hst) as (_ & _ & Hz). destruct (Hz eq_refl) as [? Hf].
    exists d, st. split_and!; try done; by symmetry.
  - cbn [concat] in *. rewrite length_app in Hlen.
    assert (sec ≠ [] ∧ (concat secs = [] ∨ (512 <= length sec)%nat) ∧ well_cut secs) as (Hne & Hc & Hcut').
    { destruct secs as [|s2 secs]; [split_and!; [done|by left|done]|]. cbn -[Nat.le] in Hcut. destruct Hcut as [H5 ?].
      split; [intros ->; cbn in H5; lia|auto]. }
    destruct (process_section Hrel slot p blk Hb0 Hb d st sec (concat secs) fin Hst Hp Hne) as
      (d' & st' & E & Hp' & Hst'); [lia|done|].
    cbn [process_sections]. rewrite E. cbn [mbind option_bind Z.eqb]. apply IH; try done. lia.
Qed.

Lemma unsparse_sections slot p blk tb crc cs secs (d : D) st s0
    (Hrel : reliable D)
    (Hblk : 0 < blk < 4294967296 ∧ blk mod 512 = 0)
    (Hhdr : is_u32 tb ∧ is_u32 crc ∧ Z.of_nat (length cs) < 4294967296)
    (Hcs : Forall (chunk_ok blk) cs)
    (Hfit : 0 <= s0 ∧ s0 + total_sectors blk cs < 4294967296)
    (Hst : length (data st) = 512%nat ∧ length (last_header st) = 12%nat)
    (Hsel : selected d slot = p)
    (Hcut : concat secs = file_hdr blk tb (Z.of_nat (length cs)) crc ++ encode blk cs)
    (Hwell : well_cut secs)
    (Hlen : Z.of_nat (length (concat secs)) < 18446744073709551616) :
  ∃ d' st',
    process_sections d (do_unsparse_start st s0 slot) secs = Some (d', st', 0) ∧
    remaining_chunks st' = 0 ∧
    disk_eq (contents d' slot p) (expand blk s0 (contents d slot p) cs).
Proof.
  destruct Hrel as (_ & Hrel & _), Hblk as [[Hb0 Hb1] Hb], Hhdr as (Htb & Hcrc & Hn), Hst as [Hd Hh],
    Hfit.
  destruct secs as [|sec secs]; [done|]. cbn [concat] in *. rewrite length_app in Hlen.
  assert (28 <= length sec)%nat as H28.
  { destruct secs as [|s2 secs].
    - apply (f_equal length) in Hcut. rewrite app_nil_r, length_app in Hcut.
      change (length (file_hdr _ _ _ _)) with 28%nat in Hcut. lia.
    - cbn -[Nat.le] in Hwell. destruct Hwell as [Hwell _]. lia. }
  destruct (process_first Hrel slot p blk Hb0 Hb d (do_unsparse_start st s0 slot) cs sec
    (concat secs) tb crc Hcs) as (d1 & st1 & E & Hp1 & Hst1);
    [by unfold is_u32; lia|done..|lia|done|done|].
  cbn [process_sections]. rewrite E. cbn [mbind option_bind Z.eqb].
  destruct (process_rest slot p blk secs _ d1 st1 Hrel Hb0 Hb Hst1 Hp1) as
    (d2 & st2 & E2 & Hrm2 & _ & HV); [|lia|].
  { destruct secs; [done|]. cbn -[Nat.le] in Hwell. by destruct Hwell. }
  exists d2, st2. done.
Qed.

(** C13: streaming refinement.  A valid sparse image is cut anywhere into
    sections of at least 512 bytes each but the last, which may have any size from one
    byte.  Expanding it section by section puts on the partition exactly what
    the image denotes: every RAW chunk at its place, the DONT_CARE ranges and
    all other sectors untouched; every section is accepted and no chunk is
    left over.  A smaller section in between may be refused
    ([small_section_refused]). *)
Theorem unsparse_refines slot p blk tb crc cs secs (d : D) st s0
    (Hrel : reliable D)
    (Hblk : 0 < blk < 4294967296 ∧ blk mod 512 = 0)
    (Hhdr : is_u32 tb ∧ is_u32 crc ∧ Z.of_nat (length cs) < 4294967296)
    (Hcs : Forall (chunk_ok blk) cs)
    (Hfit : 0 <= s0 ∧ s0 + total_sectors blk cs < 4294967296)
    (Hst : length (data st) = 512%nat ∧ length (last_header st) = 12%nat)
    (Hsel : selected d slot = p)
    (Hcut : concat secs = file_hdr blk tb (Z.of_nat (length cs)) crc ++ encode blk cs)
    (Hwell : well_cut secs)
    (Hlen : Z.of_nat (length (concat secs)) < 18446744073709551616) :
  ∃ d' st',
    process_sections d (do_unsparse_start st s0 slot) secs = Some (d', st', 0) ∧
    remaining_chunks st' = 0 ∧
    disk_eq (contents d' slot p) (expand blk s0 (contents d slot p) cs).
Proof. by apply (unsparse_sections slot p blk tb crc). Qed.
End image.

(** ** What the expander cannot do *)

Section limits.
Context {D : Type} `{MmcDev D}.

(** A section that does not complete the sector of data the one before it
    began, in the middle of a RAW chunk, is refused. *)
Lemma small_section_refused (d : D) st n blk sec :
  0 < blk → is_u32 n → n * blk + 12 < 4294967296 → is_u32 (block_size st) → block_size st = blk →
  last_header st = chunk_hdr CHUNK_TYPE_RAW n (n * blk + 12) → 0 < remaining_chunks st →
  12 <= chunk_offset st < 4294967296 → sec ≠ [] →
  let waiting := (chunk_offset st - 12) mod 512 in
  0 < waiting → Z.of_nat (length sec) < 512 - waiting → chunk_offset st - 12 + Z.of_nat (length sec) < n * blk →
  do_unsparse_process d st sec (Z.of_nat (length sec)) = Some (d, st, 1).
Proof.
  intros Hb Hn Hmax Hbu Eb Hh Hr Ho Hsec waiting Hw Hl Hin. unfold do_unsparse_process, _unsparse, unsparse_enter.
  assert (0 < Z.of_nat (length sec)) as Hpos by (destruct sec; [done|cbn; lia]).
  rewrite (proj2 (Z.eqb_neq _ 0)) by lia. cbn [mbind option_bind negb Z.eqb snd].
  replace (2 * Z.to_nat (Z.of_nat (length sec)) + 3)%nat with (S (S (2 * Z.to_nat (Z.of_nat (length sec)) + 1))) by lia.
  cbn [loop]. unfold unsparse_step at 1. cbn [snd].
  rewrite (proj2 (Z.ltb_lt 0 (remaining_chunks st))), (proj2 (Z.ltb_lt 0 (Z.of_nat (length sec)))) by lia. cbn [andb Z.eqb].
  rewrite (dispatch_raw blk Hb d st n) by (done || lia). unfold process_raw. cbn [snd].
  rewrite (proj2 (Z.ltb_lt 0 (Z.of_nat (length sec)))) by lia. cbn [negb]. unfold sizeof_chunk_header. rewrite Eb.
  assert (is_u32 (n * blk) ∧ is_u32 (n * blk + 12)) as [Hu1 Hu2] by (unfold is_u32 in *; nia).
  assert (is_u32 (chunk_offset st - 12) ∧ is_u32 (n * blk - (chunk_offset st - 12))) as [Hu3 Hu4] by (unfold is_u32 in *; lia).
  rewrite (u32_id (n * blk)), (u32_id (chunk_offset st - 12)), (u32_id (n * blk - _)), (u32_id (n * blk + 12)) by done.
  rewrite Z.eqb_refl. cbn [negb]. fold waiting. rewrite (proj2 (Z.leb_gt _ _)) by lia.
  rewrite (proj2 (Z.eqb_neq waiting 0)) by lia. cbn [negb].
  rewrite (u32_id (Z.of_nat (length sec))) by (unfold is_u32; lia).
  rewrite (proj2 (Z.ltb_lt 0 (512 - waiting))), (proj2 (Z.ltb_lt (Z.of_nat (length sec)) (512 - waiting))) by lia. cbn [andb mbind option_bind].
  unfold unsparse_step. rewrite andb_false_r. done.
Qed.

(** [k] bytes of the header of a hole of [n] blocks have arrived, the others
    open this section. *)
Record at_hole (st : sparse_state) (k : nat) (n tot : Z) : Prop := mkAtHole {
  oh_off : chunk_offset st = Z.of_nat k ∧ (k <= 12)%nat;
  oh_hdr : length (last_header st) = 12%nat ∧ take k (last_header st) = take k (chunk_hdr CHUNK_TYPE_DONT_CARE n tot);
  oh_n : is_u32 n ∧ is_u32 tot;
  oh_sector : is_u32 (sector st);
}.

Lemma hole_header (d : D) st k n tot rest : at_hole st k n tot → Z.of_nat (length rest) + 12 < 18446744073709551616 →
  let sec := drop k (chunk_hdr CHUNK_TYPE_DONT_CARE n tot) ++ rest in
  _unsparse_process_chunk d st (sec, Z.of_nat (length sec)) =
    process_dont_care d (mkState (remaining_chunks st) 12 (sector st) (chunk_hdr CHUNK_TYPE_DONT_CARE n tot)
      (block_size st) (slot_no st) (data st)) (rest, Z.of_nat (length rest)) n tot.
Proof.
  intros [[Ho Hk] [Hl Ht] [Hn Htot] _] Hmax sec. set (h := chunk_hdr CHUNK_TYPE_DONT_CARE n tot) in *.
  assert (length h = 12%nat) as Hh by done. assert (length sec = 12 - k + length rest)%nat as Ls by (unfold sec; rewrite length_app, length_drop; lia).
  assert (read_chunk_header st (sec, Z.of_nat (length sec)) =
    Some (mkState (remaining_chunks st) 12 (sector st) h (block_size st) (slot_no st) (data st), (rest, Z.of_nat (length rest)))) as E.
  { unfold read_chunk_header, sizeof_chunk_header. rewrite Ho. destruct (Z.ltb_spec (Z.of_nat k) 12).
    - cbn [fst snd]. assert ((if 12 - Z.of_nat k <? Z.of_nat (length sec) then 12 - Z.of_nat k else Z.of_nat (length sec)) = Z.of_nat (12 - k)) as -> by (to_prop; lia).
      rewrite slice_front by lia. cbn [mbind option_bind]. assert (take (12 - k) sec = drop k h) as ->.
      { unfold sec. rewrite take_app_le by (rewrite length_drop; lia). apply take_ge. rewrite length_drop. lia. }
      rewrite blit_Some by (rewrite ?length_drop; lia). cbn [mbind option_bind]. rewrite Nat2Z.id, Ht, length_drop, Hh.
      rewrite (drop_ge (last_header st)), app_nil_r, take_drop by lia. unfold advance. cbn [fst snd].
      rewrite Nat2Z.id, u64_id by lia. replace (Z.of_nat k + Z.of_nat (12 - k)) with 12 by lia.
      assert (drop (12 - k) sec = rest) as ->.
      { unfold sec. rewrite drop_app_ge by (rewrite length_drop; lia). rewrite length_drop, Hh. by rewrite Nat.sub_diag. }
      by replace (Z.of_nat (length sec) - Z.of_nat (12 - k)) with (Z.of_nat (length rest)) by lia.
    - assert (k = 12)%nat as Ek by lia. rewrite Ek, !take_ge in Ht by lia. unfold sec. rewrite Ek, drop_ge by lia. cbn [app].
      destruct st. cbn in *. subst. done. }
  rewrite (process_chunk_header _ _ _ _ _ E). cbn [chunk_offset]. unfold sizeof_chunk_header. cbn [Z.leb Z.compare].
  unfold _unsparse_process_chunk, read_chunk_header, sizeof_chunk_header. cbn [chunk_offset].
  change (12 <=? 12) with true. change (12 <? 12) with false. cbn [mbind option_bind chunk_offset last_header]. change (12 <=? 12) with true.
  destruct (chunk_hdr_fields CHUNK_TYPE_DONT_CARE n tot) as (E0 & E4 & E8); [done..|].
  fold h in E0, E4, E8. by rewrite E0, E4, E8.
Qed.

Lemma hole_spec (d : D) st k n tot rest : at_hole st k n tot → 0 <= block_size st → 0 < remaining_chunks st < 4294967296 →
  Z.of_nat (length rest) + 12 < 18446744073709551616 →
  let sec := drop k (chunk_hdr CHUNK_TYPE_DONT_CARE n tot) ++ rest in
  ∃ st' ret, _unsparse_process_chunk d st (sec, Z.of_nat (length sec)) = Some (d, st', (rest, Z.of_nat (length rest)), ret) ∧
    if tot =? 12 then
      ret = 0 ∧ remaining_chunks st' = remaining_chunks st - 1 ∧ chunk_offset st' = 0 ∧
      sector st' = u32 (sector st + u32 (n * block_size st) / 512) ∧
      (sector st + n * block_size st / 512 < 4294967296 →
        sector st' = sector st + n * block_size st / 512 ↔ n * block_size st < 4294967296)
    else ret = 1 ∧ remaining_chunks st' = remaining_chunks st ∧ sector st' = sector st.
Proof.
  intros Hat Hb Hr Hmax sec. unfold sec. rewrite (hole_header d st k n tot rest Hat Hmax). unfold process_dont_care, sizeof_chunk_header.
  cbn [remaining_chunks block_size sector slot_no data last_header]. destruct (tot =? 12); cbn [negb]; eexists _, _; (split; [done|]); [|done].
  split; [done|]. cbn [remaining_chunks chunk_offset sector]. split; [apply u32_id; unfold is_u32; lia|]. split; [done|]. split; [done|].
  destruct Hat as [_ _ [Hn _] Hs]. unfold is_u32 in *. intros Hfit. assert (0 <= n * block_size st) as Hp by nia.
  destruct (Z.lt_ge_cases (n * block_size st) 4294967296) as [Hlt|Hge].
  - pose proof (Z.div_pos (n * block_size st) 512 Hp). rewrite (u32_id (n * block_size st)), u32_id by (unfold is_u32; lia). done.
  - pose proof (u32_range (n * block_size st)) as Hu. unfold is_u32 in Hu.
    assert (u32 (n * block_size st) / 512 < n * block_size st / 512).
    { apply Z.div_lt_upper_bound; [lia|]. pose proof (Z.div_le_mono 4294967296 _ 512 ltac:(lia) Hge). change (4294967296 / 512) with 8388608 in *. lia. }
    pose proof (Z.div_pos (u32 (n * block_size st)) 512 ltac:(lia)). rewrite u32_id by (unfold is_u32; lia). lia.
Qed.

(** C34: However the header of a DONT_CARE chunk of [n] blocks is cut between
    two sections, once it is complete the card is left alone, the chunk
    is done with, the section goes on behind the header, and the write
    position moves by [n * block_size] bytes, computed in 32 bits, in sectors
    (modulo 2^32).  Where the hole ends at a 32-bit sector, this is its end exactly
    when the hole is smaller than 4 GiB.  A header with another total
    size than its own is refused, and nothing moves. *)
Theorem dont_care_moves (d : D) st k n tot rest : at_hole st k n tot → 0 <= block_size st → 0 < remaining_chunks st < 4294967296 →
  Z.of_nat (length rest) + 12 < 18446744073709551616 →
  let sec := drop k (chunk_hdr CHUNK_TYPE_DONT_CARE n tot) ++ rest in
  ∃ st' ret, _unsparse_process_chunk d st (sec, Z.of_nat (length sec)) = Some (d, st', (rest, Z.of_nat (length rest)), ret) ∧
    if tot =? 12 then
      ret = 0 ∧ remaining_chunks st' = remaining_chunks st - 1 ∧ chunk_offset st' = 0 ∧
      sector st' = u32 (sector st + u32 (n * block_size st) / 512) ∧
      (sector st + n * block_size st / 512 < 4294967296 →
        sector st' = sector st + n * block_size st / 512 ↔ n * block_size st < 4294967296)
    else ret = 1 ∧ remaining_chunks st' = remaining_chunks st ∧ sector st' = sector st.
Proof. apply hole_spec. Qed.

(** A hole of 4 GiB leaves the write position where it is. *)
Lemma dont_care_wraps (d : D) st rest : at_hole st 0 1048576 12 → block_size st = 4096 → 0 < remaining_chunks st < 4294967296 →
  Z.of_nat (length rest) + 12 < 18446744073709551616 →
  let sec := chunk_hdr CHUNK_TYPE_DONT_CARE 1048576 12 ++ rest in
  ∃ st', _unsparse_process_chunk d st (sec, Z.of_nat (length sec)) = Some (d, st', (rest, Z.of_nat (length rest)), 0) ∧ sector st' = sector st.
Proof.
  intros Hat Hb Hr Hmax sec. destruct (hole_spec d st 0 1048576 12 rest Hat ltac:(lia) Hr Hmax) as (st' & ret & E & -> & _ & _ & Hs & _).
  exists st'. split; [exact E|]. rewrite Hs, Hb. change (u32 (1048576 * 4096) / 512) with 0. rewrite Z.add_0_r. apply u32_id, Hat.
Qed.
End limits.

(** A three-chunk image, cut inside the first chunk. *)
#[local] Definition demo_cs : list chunk := [Raw 1 (replicate 512 7); Skip 2; Raw 1 (replicate 512 9)].
#[local] Definition demo_img : list Z := file_hdr 512 4 3 0 ++ encode 512 demo_cs.
#[local] Definition demo_st : sparse_state := mkState 0 0 0 (replicate 12 0) 0 0 (replicate 512 0).

Lemma unsparse_refines_witness :
  ∃ d' st',
    process_sections (mkRam ∅ ∅) (do_unsparse_start demo_st 64 1)
      [take 600 demo_img; drop 600 demo_img] = Some (d', st', 0) ∧
    remaining_chunks st' = 0 ∧
    disk_eq (contents d' 1 0) (expand 512 64 (contents (mkRam ∅ ∅) 1 0) demo_cs).
Proof.
  apply (unsparse_refines 1 0 512 4 0 demo_cs).
  - exact ram_reliable.
  - by_eval.
  - by_eval.
  - repeat constructor; by_eval.
  - by_eval.
  - by_eval.
  - reflexivity.
  - cbn [concat]. rewrite app_nil_r. apply take_drop.
  - split; [|intros E; apply (f_equal length) in E; vm_compute in E; done].
    vm_compute. lia.
  - cbn [concat]. rewrite app_nil_r, take_drop. vm_compute. reflexivity.
Defined.

(** Five bytes of the header of three blocks of 4096 bytes came before. *)
#[local] Definition hole_st : sparse_state :=
  mkState 2 5 1000 (take 5 (chunk_hdr CHUNK_TYPE_DONT_CARE 3 12) ++ replicate 7 0) 4096 1 (replicate 512 0).

Lemma dont_care_moves_witness : ∃ st' ret,
  _unsparse_process_chunk (mkRam ∅ ∅) hole_st (drop 5 (chunk_hdr CHUNK_TYPE_DONT_CARE 3 12) ++ [193; 202], 9) =
    Some (mkRam ∅ ∅, st', ([193; 202], 2), ret) ∧
  ret = 0 ∧ sector st' = 1024.
Proof.
  destruct (dont_care_moves (mkRam ∅ ∅) hole_st 5 3 12 [193; 202]) as (st' & ret & E & -> & _ & _ & Hs & _).
  - split; by_eval.
  - by_eval.
  - by_eval.
  - by_eval.
  - exists st', 0. split; [exact E|]. split; [done|]. rewrite Hs. by_eval.
Defined.
