(* ===== verification/Eff.v ===== *)
(** A state monad with undefined behaviour, for the components whose functions
    thread a global state through many calls, and its total-correctness
    weakest precondition. *)
From stdpp Require Import base tactics option list.
From Stdlib Require Import ZArith Lia.
From S2P Require Import Prelude.

(** [None] is undefined behaviour (an access outside an object). *)
Definition ST (S A : Type) : Type := S → option (S * A).

#[export] Instance st_ret S : MRet (ST S) := λ A a s, Some (s, a).
#[export] Instance st_bind S : MBind (ST S) := λ A B f m s,
  match m s with Some (s', a) => f a s' | None => None end.

Definition get {S} : ST S S := λ s, Some (s, s).
Definition modify {S} (f : S → S) : ST S unit := λ s, Some (f s, tt).
(** A computation that may be undefined but does not touch the state. *)
Definition lift {S A} (o : option A) : ST S A := λ s,
  match o with Some a => Some (s, a) | None => None end.

(** [while] loops: [body] returns [inl] to go on and [inr] to leave. *)
Definition mloop {S X R} (fuel : nat) (body : X → ST S (X + R)) (x : X) : ST S R := λ s,
  loop fuel (λ '(s, x),
    match body x s with
    | Some (s', inl x') => Some (inl (s', x'))
    | Some (s', inr r) => Some (inr (s', r))
    | None => None
    end) (s, x).

(** [for] loops over a list. *)
Fixpoint mfor {S A X} (l : list A) (body : A → X → ST S X) (x : X) : ST S X :=
  match l with
  | [] => mret x
  | a :: l' => x' ← body a x; mfor l' body x'
  end.

Definition wp {S A} (m : ST S A) (s : S) (Q : S → A → Prop) : Prop :=
  match m s with Some (s', a) => Q s' a | None => False end.

Section wp.
Context {S : Type}.

Lemma wp_intro {A} (m : ST S A) s Q s' a : m s = Some (s', a) → Q s' a → wp m s Q.
Proof. unfold wp. by intros ->. Qed.

Lemma wp_elim {A} (m : ST S A) s Q : wp m s Q → ∃ s' a, m s = Some (s', a) ∧ Q s' a.
Proof. unfold wp. destruct (m s) as [[s' a]|]; [eauto|done]. Qed.

Lemma wp_ret {A} (a : A) (s : S) (Q : S → A → Prop) : Q s a → wp (mret a) s Q.
Proof. done. Qed.

Lemma wp_bind {A B} (m : ST S A) (f : A → ST S B) s Q :
  wp m s (λ s' a, wp (f a) s' Q) → wp (m ≫= f) s Q.
Proof. unfold wp, mbind, st_bind. by destruct (m s) as [[s' a]|]. Qed.

Lemma wp_get (s : S) (Q : S → S → Prop) : Q s s → wp get s Q.
Proof. done. Qed.

Lemma wp_modify (f : S → S) s (Q : S → unit → Prop) : Q (f s) tt → wp (modify f) s Q.
Proof. done. Qed.

Lemma wp_lift {A} (o : option A) (s : S) Q a : o = Some a → Q s a → wp (lift o) s Q.
Proof. unfold wp, lift. by intros ->. Qed.

Lemma wp_mono {A} (m : ST S A) s (P Q : S → A → Prop) :
  wp m s P → (∀ s' a, P s' a → Q s' a) → wp m s Q.
Proof. unfold wp. destruct (m s) as [[s' a]|]; auto. Qed.

Lemma wp_loop {X R} (body : X → ST S (X + R)) (I : S → X → Prop) (mu : X → nat) (Q : S → R → Prop) :
  (∀ s x, I s x → wp (body x) s (λ s' r,
     match r with inl x' => I s' x' ∧ mu x' < mu x | inr r => Q s' r end)) →
  ∀ n s x, I s x → mu x < n → wp (mloop n body x) s Q.
Proof.
  intros Hb n s x HI Hn. unfold wp, mloop.
  destruct (loop_total (λ '(s, x),
    match body x s with
    | Some (s', inl x') => Some (inl (s', x'))
    | Some (s', inr r) => Some (inr (s', r))
    | None => None
    end) (λ '(s, x), I s x) (λ '(_, x), mu x) (λ '(s, r), Q s r)) with (n := n) (s := (s, x))
    as ([s' r] & -> & HQ); [|done|done|done].
  intros [s0 x0] HI0. specialize (Hb s0 x0 HI0). unfold wp in Hb.
  destruct (body x0 s0) as [[s1 [x1|r]]|]; [by eauto..|done].
Qed.

(** Undefined behaviour in the first part, or behind it. *)
Lemma undef_bind_l {A B} (m : ST S A) (f : A → ST S B) s : m s = None → (m ≫= f) s = None.
Proof. unfold mbind, st_bind. by intros ->. Qed.

Lemma undef_bind {A B} (m : ST S A) (f : A → ST S B) s :
  wp m s (λ s' a, f a s' = None) → (m ≫= f) s = None.
Proof. unfold wp, mbind, st_bind. by destruct (m s) as [[s' a]|]. Qed.

(** A loop over a list, with an invariant on the elements done so far. *)
Lemma wp_for {A X} (l : list A) (body : A → X → ST S X) (I : list A → S → X → Prop) s x :
  I [] s x →
  (∀ done_ a todo s x, l = done_ ++ a :: todo → I done_ s x →
     wp (body a x) s (λ s' x', I (done_ ++ [a]) s' x')) →
  wp (mfor l body x) s (I l).
Proof.
  assert (∀ pre, (∀ done_ a todo s x, pre ++ l = done_ ++ a :: todo → (length pre <= length done_)%nat →
      I done_ s x → wp (body a x) s (λ s' x', I (done_ ++ [a]) s' x')) →
    ∀ s x, I pre s x → wp (mfor l body x) s (I (pre ++ l))) as H.
  { induction l as [|a l IH]; intros pre Hb s0 x0 H0; cbn [mfor].
    - apply wp_ret. by rewrite app_nil_r.
    - apply wp_bind. eapply wp_mono; [by apply (Hb pre a l)|]. cbn beta. intros s1 x1 H1.
      replace (pre ++ a :: l) with ((pre ++ [a]) ++ l) by by rewrite <-app_assoc.
      apply IH; [|done]. intros dn b todo s2 x2 E Hl H2. rewrite length_app in Hl. cbn in Hl.
      apply (Hb dn b todo); [|lia|done]. by rewrite <-E, <-app_assoc. }
  intros H0 Hb. apply (H []); [|done]. intros dn a todo s1 x1 E _. by apply (Hb dn a todo).
Qed.
End wp.

(** The first part of a computation, done. *)
Lemma bind_eq {S A B} (m : ST S A) (f : A → ST S B) s s' a : m s = Some (s', a) → (m ≫= f) s = f a s'.
Proof. unfold mbind, st_bind. by intros ->. Qed.

Lemma mfor_app {S A X} (l1 l2 : list A) (body : A → X → ST S X) x s :
  mfor (l1 ++ l2) body x s = (x ← mfor l1 body x; mfor l2 body x) s.
Proof.
  revert x s. induction l1 as [|a l1 IH]; intros x s; [done|]. cbn [mfor app].
  unfold mbind, st_bind. destruct (body a x s) as [[s' x']|]; [|done]. apply IH.
Qed.

Lemma mloop_S {S X R} n (body : X → ST S (X + R)) x s :
  mloop (Datatypes.S n) body x s =
    (r ← body x; match r with inl x' => mloop n body x' | inr r => mret r end) s.
Proof.
  unfold mloop, mbind, st_bind. cbn [loop]. by destruct (body x s) as [[s' [x'|r]]|].
Qed.

Lemma wp_mloop_S {S X R} n (body : X → ST S (X + R)) x s Q :
  wp (body x) s (λ s' r, match r with inl x' => wp (mloop n body x') s' Q | inr r => Q s' r end) →
  wp (mloop (Datatypes.S n) body x) s Q.
Proof.
  intros H. unfold wp at 1. rewrite mloop_S. fold (wp (r ← body x; match r with inl x' => mloop n body x' | inr r => mret r end) s Q).
  apply wp_bind. eapply wp_mono; [exact H|]. by intros s' [x'|r].
Qed.

(** ** What a computation leaves related to the state before it *)

Section stays.
Context {S : Type} (R : S → S → Prop) `{HR : !PreOrder R}.

Definition stays {A} (m : ST S A) : Prop := ∀ s s' a, m s = Some (s', a) → R s s'.

Lemma stays_ret {A} (a : A) : stays (mret a).
Proof using HR. by intros s s' b [= <- <-]. Qed.
Lemma stays_get : stays get.
Proof using HR. by intros s s' a [= <- <-]. Qed.
Lemma stays_lift {A} (o : option A) : stays (lift o).
Proof using HR. intros s s' a. unfold lift. destruct o; [|done]. by intros [= <- <-]. Qed.
Lemma stays_modify f : (∀ s, R s (f s)) → stays (modify f).
Proof. intros Hf s s' a [= <- <-]. apply Hf. Qed.
Lemma stays_bind {A B} (m : ST S A) (f : A → ST S B) : stays m → (∀ a, stays (f a)) → stays (m ≫= f).
Proof using HR.
  intros Hm Hf s s' b. unfold mbind, st_bind. destruct (m s) as [[s1 a]|] eqn:E; [|done].
  intros E'. etrans; [by eapply Hm|by eapply Hf].
Qed.
Lemma stays_loop {X Y} n (body : X → ST S (X + Y)) x : (∀ x, stays (body x)) → stays (mloop n body x).
Proof using HR.
  intros Hb. revert x. induction n as [|n IH]; intros x s s' r; [done|]. rewrite mloop_S.
  apply (stays_bind (body x) _); [done|]. intros [x'|y]; [apply IH|apply stays_ret].
Qed.
End stays.

(** Everything but the calls and the choices. *)
Ltac stay :=
  repeat first
    [ apply stays_ret; apply _ | apply stays_get; apply _ | apply stays_lift; apply _
    | apply stays_bind; [apply _| |intros ?] | apply stays_loop; [apply _|intros ?] ].

(** One step of a [wp] goal. *)
Ltac wp_step :=
  lazymatch goal with
  | |- wp (mbind _ _) _ _ => apply wp_bind
  | |- wp (mret _) _ _ => apply wp_ret
  | |- wp get _ _ => apply wp_get
  | |- wp (modify _) _ _ => apply wp_modify
  | |- wp (lift (Some _)) _ _ => eapply wp_lift; [reflexivity|]
  end; cbn beta iota.
