(* ===== verification/CBuf.v ===== *)
(** C strings as the code above [lib_generic] handles them: a [char *] is the
    list of the bytes from the pointer to the end of the object it points
    into, so a scan that leaves the object is undefined ([None]).  The
    functions are the list counterparts of [CString]; [strlen_refines],
    [strncmp_refines] and [strcmp_refines] show that the memory functions
    compute them. *)
From stdpp Require Import base tactics option list strings.
From Stdlib Require Import ZArith Lia.
From S2P Require Import Prelude.
From S2P Require Import CMem.
From S2P Require Import CString.
Open Scope Z_scope.

(** A string literal with its terminator. *)
Definition lit (s : string) : list Z := str s ++ [0].

(** The characters before the first NUL. *)
Fixpoint cut (l : list Z) : list Z :=
  match l with
  | [] => []
  | x :: l' => if x =? 0 then [] else x :: cut l'
  end.

Fixpoint c_strlen (l : list Z) : option Z :=
  match l with
  | [] => None
  | x :: l' => if x =? 0 then Some 0 else n ← c_strlen l'; Some (n + 1)
  end.

Fixpoint c_strncmp (l1 l2 : list Z) (n : nat) {struct n} : option Z :=
  match n with
  | O => Some 0
  | S n' =>
      match l1, l2 with
      | a :: l1', b :: l2' =>
          let res := s8 (a - b) in
          if negb (res =? 0) then Some res else if a =? 0 then Some res else c_strncmp l1' l2' n'
      | _, _ => None
      end
  end.

Fixpoint c_strcmp (l1 l2 : list Z) : option Z :=
  match l1, l2 with
  | a :: l1', b :: l2' =>
      let res := s8 (a - b) in
      if negb (res =? 0) then Some res else if a =? 0 then Some res else c_strcmp l1' l2'
  | _, _ => None
  end.

(** The bytes [strncpy(dest, src, n)] stores: [src] and, after its NUL, NULs. *)
Fixpoint c_strncpy (src : list Z) (n : nat) {struct n} : option (list Z) :=
  match n with
  | O => Some []
  | S n' =>
      match src with
      | [] => None
      | x :: src' => if x =? 0 then Some (replicate n 0) else r ← c_strncpy src' n'; Some (x :: r)
      end
  end.

(** [memcmp] on two blocks of the same size. *)
Definition c_memcmp (l1 l2 : list Z) : Z := first_diff l1 l2.

(** [memset] and [memcpy] into a buffer. *)
Definition c_memset (buf : list Z) (off c n : Z) : option (list Z) :=
  blit buf off (replicate (Z.to_nat n) c).
Definition c_memcpy (buf : list Z) (off : Z) (src : list Z) (n : Z) : option (list Z) :=
  s ← slice src 0 n; blit buf off s.

(** [strtok]: the token (if any) and the cursor left in [___strtok]. *)
Definition c_strtok (set : list Z) (cursor : option (list Z)) : option (list Z) * option (list Z) :=
  match cursor with
  | None => (None, None)
  | Some s =>
      let s1 := tok_skip set s in
      match s1 with
      | [] => (None, None)
      | _ => (Some (tok_word set s),
              if (spn (notinb set) s1 <? length s1)%nat then Some (tok_rest set s) else None)
      end
  end.

(** ** Lemmas *)

Lemma c_strlen_cut l n : c_strlen l = Some n → n = Z.of_nat (length (cut l)) ∧
  l = cut l ++ 0 :: drop (S (length (cut l))) l.
Proof.
  revert n. induction l as [|x l IH]; intros n H; [done|]. cbn in *.
  destruct (Z.eqb_spec x 0) as [->|]; [by simplify_eq|].
  destruct (c_strlen l) as [k|]; [|done]. cbn in H. simplify_eq.
  destruct (IH _ eq_refl) as [-> Hl]. split; [cbn [length]; lia|]. cbn [length app drop]. by f_equal.
Qed.

Lemma cut_app s l : 0 ∉ s → cut (s ++ 0 :: l) = s.
Proof.
  induction s as [|x s IH]; intros H; [done|]. cbn. apply not_elem_of_cons in H as [Hx Hs].
  destruct (Z.eqb_spec x 0); [by subst|]. by rewrite IH.
Qed.

Lemma cut_id s : 0 ∉ s → cut s = s.
Proof.
  induction s as [|x s IH]; intros H; [done|]. cbn. apply not_elem_of_cons in H as [Hx Hs].
  destruct (Z.eqb_spec x 0); [by subst|]. by rewrite IH.
Qed.

Lemma c_strlen_app s l : 0 ∉ s → c_strlen (s ++ 0 :: l) = Some (Z.of_nat (length s)).
Proof.
  induction s as [|x s IH]; intros H; [done|]. cbn -[Z.of_nat].
  apply not_elem_of_cons in H as [Hx Hs]. destruct (Z.eqb_spec x 0); [by subst|].
  rewrite IH by done. cbn [mbind option_bind]. f_equal. lia.
Qed.

Lemma cut_nonzero l : 0 ∉ cut l.
Proof.
  induction l as [|x l IH]; cbn; [apply not_elem_of_nil|].
  destruct (Z.eqb_spec x 0); [apply not_elem_of_nil|]. apply not_elem_of_cons. by split.
Qed.

Lemma c_strncmp_prefix s l1 l2 (n : nat) :
  0 ∉ s → bytes s → bytes l2 → (n = length s) → (n <= length l2)%nat →
  ∃ r, c_strncmp l2 (s ++ l1) n = Some r ∧ (r = 0 ↔ take n l2 = s).
Proof.
  intros H0 Hs Hl -> Hlen. revert l2 Hl Hlen. induction s as [|x s IH]; intros l2 Hl Hlen; [by exists 0; repeat split|].
  destruct l2 as [|y l2]; [cbn in Hlen; lia|]. cbn [length app c_strncmp take].
  apply not_elem_of_cons in H0 as [Hx Hs0]. apply Forall_cons in Hs as [Hbx Hs].
  apply Forall_cons in Hl as [Hby Hl]. cbn in Hlen.
  pose proof (s8_diff y x Hby Hbx) as E. destruct (Z.eqb_spec (s8 (y - x)) 0) as [E0|E0]; cbn [negb].
  - assert (y = x) as -> by tauto. destruct (Z.eqb_spec x 0); [by subst|].
    destruct (IH Hs0 Hs l2 Hl) as (r & -> & Hr); [lia|]. exists r. split; [done|]. rewrite Hr.
    split; [by intros ->|by intros [=]].
  - eexists. split; [done|]. split; [done|]. intros [= -> _]. tauto.
Qed.

Lemma c_strncmp_sym_zero l1 l2 n :
  c_strncmp l1 l2 n = Some 0 → bytes l1 → bytes l2 → c_strncmp l2 l1 n = Some 0.
Proof.
  revert l1 l2. induction n as [|n IH]; intros l1 l2 H H1 H2; [done|].
  destruct l1 as [|a l1], l2 as [|b l2]; try done. cbn in *.
  apply Forall_cons in H1 as [Ha H1]. apply Forall_cons in H2 as [Hb H2].
  pose proof (s8_diff a b Ha Hb) as E1. pose proof (s8_diff b a Hb Ha) as E2.
  destruct (Z.eqb_spec (s8 (a - b)) 0) as [E|E]; cbn [negb] in *; [|by simplify_eq].
  assert (a = b) as -> by tauto. rewrite Z.sub_diag in *. change (s8 0 =? 0) with true. cbn [negb].
  destruct (b =? 0); [done|]. auto.
Qed.

(** ** Refinement: the memory functions compute the list functions *)

Lemma at_cons m a x l : at_ m a (x :: l) ↔ load m a = Some x ∧ at_ m (a + 1) l.
Proof. done. Qed.

Lemma strncmp_refines m a b l1 l2 (n : nat) r :
  at_ m a l1 → at_ m b l2 → c_strncmp l1 l2 n = Some r →
  CString.strncmp m a b (Z.of_nat n) = Some r.
Proof.
  intros H1 H2 H. unfold CString.strncmp.
  assert (∀ k a b l1 l2 n res, at_ m a l1 → at_ m b l2 → c_strncmp l1 l2 n = Some r → (length l1 < k)%nat →
    (n = O → res = 0) →
    loop k (λ '(cs, ct, count, res),
      if count =? 0 then Some (inr res) else
      a ← load m cs; b ← load m ct; let res := s8 (a - b) in
      Some (if negb (res =? 0) then inr res else if a =? 0 then inr res
            else inl (cs + 1, ct + 1, count - 1, res))) (a, b, Z.of_nat n, res) = Some r) as HL.
  { clear. induction k as [|k IH]; intros a b l1 l2 n res H1 H2 H Hk Hn; [lia|]. cbn [loop].
    destruct n as [|n]; [cbn in *; rewrite Hn by done; by simplify_eq|].
    destruct (Z.eqb_spec (Z.of_nat (S n)) 0); [lia|].
    destruct l1 as [|x l1]; [done|]. destruct l2 as [|y l2]; [done|].
    cbn [c_strncmp] in H. apply at_cons in H1 as [-> H1]. apply at_cons in H2 as [-> H2].
    cbn [mbind option_bind]. cbv zeta.
    destruct (Z.eqb_spec (s8 (x - y)) 0) as [E|E]; cbn [negb] in *; [|done].
    destruct (x =? 0); [done|]. replace (Z.of_nat (S n) - 1) with (Z.of_nat n) by lia.
    apply (IH _ _ l1 l2); try done. cbn in Hk. lia. }
  apply (HL _ a b l1 l2); try done. pose proof (at_size m a l1 H1). unfold fuel_of. lia.
Qed.

Lemma strlen_refines m a l n :
  at_ m a l → bytes l → c_strlen l = Some n → CString.strlen m a = Some n.
Proof.
  intros H Hb Hn. destruct (c_strlen_cut l n Hn) as [-> E]. apply strlen_spec. split_and!.
  - rewrite E in H. apply (at_app m a (cut l) _) in H as [H1 H2]. apply at_app. split; [done|].
    cbn in *. tauto.
  - apply cut_nonzero.
  - rewrite E in Hb. by apply bytes_app in Hb as [? _].
Qed.

Lemma strcmp_refines m a b l1 l2 r :
  at_ m a l1 → at_ m b l2 → c_strcmp l1 l2 = Some r → CString.strcmp m a b = Some r.
Proof.
  intros H1 H2 H. unfold CString.strcmp.
  assert (∀ k a b l1 l2, at_ m a l1 → at_ m b l2 → c_strcmp l1 l2 = Some r → (length l1 < k)%nat →
    loop k (λ '(cs, ct),
      a ← load m cs; b ← load m ct; let res := s8 (a - b) in
      Some (if negb (res =? 0) then inr res else if a =? 0 then inr res
            else inl (cs + 1, ct + 1))) (a, b) = Some r) as HL.
  { clear. induction k as [|k IH]; intros a b l1 l2 H1 H2 H Hk; [lia|]. cbn [loop].
    destruct l1 as [|x l1]; [done|]. destruct l2 as [|y l2]; [done|].
    cbn [c_strcmp] in H. apply at_cons in H1 as [-> H1]. apply at_cons in H2 as [-> H2].
    cbn [mbind option_bind]. cbv zeta.
    destruct (Z.eqb_spec (s8 (x - y)) 0) as [E|E]; cbn [negb] in *; [|done].
    destruct (x =? 0); [done|]. apply (IH _ _ l1 l2); try done. cbn in Hk. lia. }
  apply (HL _ a b l1 l2); try done. pose proof (at_size m a l1 H1). unfold fuel_of. lia.
Qed.
