(* ===== verification/Vsprintf.v ===== *)
(** [lib_generic/ctype.c], [include/linux/ctype.h] and
    [lib_generic/vsprintf.c]: character classes, number parsing and formatted
    printing.  [unsigned long] has 32 bits and neither [CFG_64BIT_STRTOUL] nor
    [CFG_64BIT_VSPRINTF] is set for the board.  A [char *] is the list of the
    bytes from the pointer to the end of its object ([CBuf]). *)
From stdpp Require Import base tactics option list strings.
From Stdlib Require Import ZArith Lia.
From S2P Require Import Prelude.
From S2P Require Import CBuf.
Open Scope Z_scope.

(** ** Character classes *)

Definition _U : Z := 1.
Definition _L : Z := 2.
Definition _D : Z := 4.
Definition _C : Z := 8.
Definition _P : Z := 16.
Definition _S : Z := 32.
Definition _X : Z := 64.
Definition _SP : Z := 128.

Definition _ctype : list Z :=
  replicate 8 _C ++
  [_C; Z.lor _C _S; Z.lor _C _S; Z.lor _C _S; Z.lor _C _S; Z.lor _C _S; _C; _C] ++
  replicate 16 _C ++
  Z.lor _S _SP :: replicate 15 _P ++
  replicate 10 _D ++ replicate 6 _P ++
  _P :: replicate 6 (Z.lor _U _X) ++ replicate 20 _U ++ replicate 5 _P ++
  _P :: replicate 6 (Z.lor _L _X) ++ replicate 20 _L ++ replicate 4 _P ++ [_C] ++
  replicate 32 0 ++
  Z.lor _S _SP :: replicate 31 _P ++
  replicate 23 _U ++ _P :: replicate 7 _U ++ _L ::
  replicate 23 _L ++ _P :: replicate 8 _L.

Definition ismask (c : Z) : Z := default 0 (idx _ctype (u8 c)).
Definition has_class (c m : Z) : bool := negb (Z.land (ismask c) m =? 0).

Definition isalnum (c : Z) : bool := has_class c (Z.lor (Z.lor _U _L) _D).
Definition isalpha (c : Z) : bool := has_class c (Z.lor _U _L).
Definition isdigit (c : Z) : bool := has_class c _D.
Definition islower (c : Z) : bool := has_class c _L.
Definition isupper (c : Z) : bool := has_class c _U.
Definition isspace (c : Z) : bool := has_class c _S.
Definition isxdigit (c : Z) : bool := has_class c (Z.lor _D _X).
Definition tolower (c : Z) : Z := if isupper c then u8 (c + 32) else u8 c.
Definition toupper (c : Z) : Z := if islower c then u8 (c - 32) else u8 c.

(** ** Parsing numbers *)

(** The value of a digit, as the [unsigned long] of the loop condition. *)
Definition digit_value (c : Z) : Z :=
  if isdigit c then c - 48 else u32 ((if islower c then toupper c else c) - 65 + 10).

Fixpoint strtoul_loop (cp : list Z) (base result : Z) : option (Z * list Z) :=
  match cp with
  | [] => None
  | c :: cp' =>
      if isxdigit c && (digit_value c <? base)
      then strtoul_loop cp' base (u32 (u32 (result * base) + digit_value c))
      else Some (result, cp)
  end.

(** The prefix and the base: the remaining text and the base to use. *)
Definition strtoul_base (cp : list Z) (base : Z) : option (list Z * Z) :=
  c ← head cp;
  '(cp, base) ← (if c =? 48 then
      let cp := tail cp in
      c ← head cp;
      '(cp, base) ← (if c =? 120 then
          d ← head (tail cp);
          Some (if isxdigit d then (tail cp, 16) else (cp, base))
        else Some (cp, base));
      Some (cp, if base =? 0 then 8 else base)
    else Some (cp, base));
  Some (cp, if base =? 0 then 10 else base).

(** The value and [*endp]. *)
Definition simple_strtoul (cp : list Z) (base : Z) : option (Z * list Z) :=
  '(cp, base) ← strtoul_base cp base;
  strtoul_loop cp base 0.

Definition simple_strtol (cp : list Z) (base : Z) : option (Z * list Z) :=
  c ← head cp;
  if c =? 45 then '(r, e) ← simple_strtoul (tail cp) base; Some (s32 (- r), e)
  else '(r, e) ← simple_strtoul cp base; Some (s32 r, e).

(** [is_digit], the macro local to the file. *)
Definition is_digit (c : Z) : bool := (48 <=? c) && (c <=? 57).

Fixpoint skip_atoi_loop (s : list Z) (i : Z) : option (Z * list Z) :=
  match s with
  | [] => None
  | c :: s' => if is_digit c then skip_atoi_loop s' (s32 (i * 10 + c - 48)) else Some (i, s)
  end.

Definition skip_atoi (s : list Z) : option (Z * list Z) := skip_atoi_loop s 0.

(** ** Formatting numbers *)

Definition ZEROPAD : Z := 1.
Definition SIGN : Z := 2.
Definition PLUS : Z := 4.
Definition SPACE : Z := 8.
Definition LEFT : Z := 16.
Definition SPECIAL : Z := 32.
Definition LARGE : Z := 64.

Definition flag (type f : Z) : bool := negb (Z.land type f =? 0).

Definition lower_digits : list Z := str "0123456789abcdefghijklmnopqrstuvwxyz".
Definition upper_digits : list Z := str "0123456789ABCDEFGHIJKLMNOPQRSTUVWXYZ".

(** [while (num != 0) tmp[i++] = digits[do_div(num, base)];] with [num] as
    [unsigned long]: 32 rounds are enough for any base.  [tmp] has 66
    bytes. *)
Fixpoint tmp_loop (fuel : nat) (digits : list Z) (base num : Z) (tmp : list Z) : option (list Z) :=
  match fuel with
  | O => None
  | S f =>
      if num =? 0 then Some tmp else
      if 66 <=? Z.of_nat (length tmp) then None else
      d ← idx digits (num mod base);
      tmp_loop f digits base (num / base) (tmp ++ [d])
  end.

(** [while (size-- > 0) *str++ = c;]: the characters and the new size. *)
Definition pad_loop (size c : Z) : list Z * Z :=
  (replicate (Z.to_nat size) c, if 0 <? size then -1 else size - 1).

(** The characters [number] appends; [None] for its null result. *)
Definition number (num base size precision type : Z) : option (list Z) :=
  let digits := if flag type LARGE then upper_digits else lower_digits in
  let type := if flag type LEFT then Z.land type (Z.lnot ZEROPAD) else type in
  if (base <? 2) || (36 <? base) then None else
  let c := if flag type ZEROPAD then 48 else 32 in
  let '(sign, num, size) :=
    if flag type SIGN then
      if num <? 0 then ([45], s32 (- num), size - 1)
      else if flag type PLUS then ([43], num, size - 1)
      else if flag type SPACE then ([32], num, size - 1)
      else ([], num, size)
    else ([], num, size) in
  let size := if flag type SPECIAL then
      (if base =? 16 then size - 2 else if base =? 8 then size - 1 else size) else size in
  tmp ← (if num =? 0 then Some [48] else tmp_loop 33 digits base (u32 num) []);
  let i := Z.of_nat (length tmp) in
  let precision := if precision <? i then i else precision in
  let size := size - precision in
  let '(pad1, size) := if Z.land type (ZEROPAD + LEFT) =? 0 then pad_loop size 32 else ([], size) in
  prefix ← (if flag type SPECIAL then
      if base =? 8 then Some [48]
      else if base =? 16 then x ← idx digits 33; Some [48; x] else Some []
    else Some []);
  let '(pad2, size) := if negb (flag type LEFT) then pad_loop size c else ([], size) in
  let zeros := replicate (Z.to_nat (precision - i)) 48 in
  let '(pad3, _) := pad_loop size 32 in
  Some (pad1 ++ sign ++ prefix ++ pad2 ++ zeros ++ rev tmp ++ pad3).

(** ** Formatted printing *)

(** A variadic argument: an integer or pointer value as the call pushes it, a
    string (null or not), or the address behind a [%n]. *)
Inductive arg :=
  | AInt (z : Z)
  | AStr (s : option (list Z))
  | APtr (p : Z).

Definition int_arg (args : list arg) : option (Z * list arg) :=
  match args with AInt z :: args' => Some (z, args') | _ => None end.

Fixpoint get_flags (fmt : list Z) (flags : Z) : option (list Z * Z) :=
  match fmt with
  | [] => None
  | c :: fmt' =>
      if c =? 45 then get_flags fmt' (Z.lor flags LEFT)
      else if c =? 43 then get_flags fmt' (Z.lor flags PLUS)
      else if c =? 32 then get_flags fmt' (Z.lor flags SPACE)
      else if c =? 35 then get_flags fmt' (Z.lor flags SPECIAL)
      else if c =? 48 then get_flags fmt' (Z.lor flags ZEROPAD)
      else Some (fmt, flags)
  end.

Record spec := mkSpec {
  sp_flags : Z; sp_width : Z; sp_prec : Z; sp_qual : Z }.

(** Flags, field width, precision and qualifier: the conversion character is
    the head of the format returned. *)
Definition get_spec (fmt : list Z) (args : list arg) : option (spec * list Z * list arg) :=
  '(fmt, flags) ← get_flags fmt 0;
  c ← head fmt;
  '(width, flags, fmt, args) ← (
    if is_digit c then '(w, fmt) ← skip_atoi fmt; Some (w, flags, fmt, args)
    else if c =? 42 then
      '(w, args) ← int_arg args;
      Some (if w <? 0 then (s32 (- w), Z.lor flags LEFT, tail fmt, args) else (w, flags, tail fmt, args))
    else Some (-1, flags, fmt, args));
  c ← head fmt;
  '(prec, fmt, args) ← (
    if c =? 46 then
      let fmt := tail fmt in
      c ← head fmt;
      '(p, fmt, args) ← (
        if is_digit c then '(p, fmt) ← skip_atoi fmt; Some (p, fmt, args)
        else if c =? 42 then '(p, args) ← int_arg args; Some (p, tail fmt, args)
        else Some (-1, fmt, args));
      Some (if p <? 0 then 0 else p, fmt, args)
    else Some (-1, fmt, args));
  c ← head fmt;
  let '(qual, fmt) :=
    if (c =? 104) || (c =? 108) || (c =? 113) then (c, tail fmt) else (-1, fmt) in
  Some (mkSpec flags width prec qual, fmt, args).

(** [strnlen]. *)
Fixpoint c_strnlen (s : list Z) (n : nat) : option nat :=
  match n with
  | O => Some 0%nat
  | S n' => match s with
            | [] => None
            | c :: s' => if c =? 0 then Some 0%nat else k ← c_strnlen s' n'; Some (S k)
            end
  end.

Definition format_string (s : list Z) (sp : spec) : option (list Z) :=
  len ← (if sp_prec sp <? 0 then Z.to_nat <$> c_strlen s else c_strnlen s (Z.to_nat (sp_prec sp)));
  let fill := replicate (Z.to_nat (sp_width sp - Z.of_nat len)) 32 in
  Some (if flag (sp_flags sp) LEFT then take len s ++ fill else fill ++ take len s).

Definition format_char (c : Z) (sp : spec) : list Z :=
  let fill := replicate (Z.to_nat (sp_width sp - 1)) 32 in
  if flag (sp_flags sp) LEFT then u8 c :: fill else fill ++ [u8 c].

(** An integer argument after its qualifier. *)
Definition int_value (z : Z) (sp : spec) (signed : bool) : Z :=
  if sp_qual sp =? 108 then s32 z
  else if sp_qual sp =? 104 then if signed then s16 z else u16 z
  else s32 z.

(** One conversion: the text, the number stored through a [%n] and the rest. *)
Definition conversion (sp : spec) (fmt : list Z) (args : list arg) (len : Z)
    : option (list Z * list (Z * Z) * list Z * list arg) :=
  c ← head fmt;
  let num base flags signed :=
    '(z, args) ← int_arg args;
    t ← number (int_value z sp signed) base (sp_width sp) (sp_prec sp) flags;
    Some (t, [], tail fmt, args) in
  let flags := sp_flags sp in
  if c =? 99 then
    '(z, args) ← int_arg args; Some (format_char z sp, [], tail fmt, args)
  else if c =? 115 then
    match args with
    | AStr s :: args =>
        t ← format_string (match s with Some s => s | None => lit "<NULL>" end) sp;
        Some (t, [], tail fmt, args)
    | _ => None
    end
  else if c =? 112 then
    '(z, args) ← int_arg args;
    let '(width, flags) := if sp_width sp =? -1 then (8, Z.lor flags ZEROPAD) else (sp_width sp, flags) in
    t ← number (s32 z) 16 width (sp_prec sp) flags;
    Some (t, [], tail fmt, args)
  else if c =? 110 then
    match args with APtr p :: args => Some ([], [(p, len)], tail fmt, args) | _ => None end
  else if c =? 37 then Some ([37], [], tail fmt, args)
  else if c =? 111 then num 8 flags false
  else if c =? 88 then num 16 (Z.lor flags LARGE) false
  else if c =? 120 then num 16 flags false
  else if (c =? 100) || (c =? 105) then num 10 (Z.lor flags SIGN) true
  else if c =? 117 then num 10 flags false
  else if c =? 0 then Some ([37], [], fmt, args)
  else Some ([37; c], [], tail fmt, args).

(** The loop over the format: every round consumes at least one of its
    bytes. *)
Definition vsprintf_step (x : list Z * list arg * list Z * list (Z * Z))
    : option ((list Z * list arg * list Z * list (Z * Z)) + (list Z * list (Z * Z))) :=
  let '(fmt, args, out, stores) := x in
  c ← head fmt;
  if c =? 0 then Some (inr (out, stores)) else
  if negb (c =? 37) then Some (inl (tail fmt, args, out ++ [c], stores)) else
  '(sp, fmt, args) ← get_spec (tail fmt) args;
  '(t, st, fmt, args) ← conversion sp fmt args (Z.of_nat (length out));
  Some (inl (fmt, args, out ++ t, stores ++ st)).

(** The characters printed (without the NUL) and the [%n] stores. *)
Definition vsprintf (fmt : list Z) (args : list arg) : option (list Z * list (Z * Z)) :=
  loop (S (length fmt)) vsprintf_step (fmt, args, [], []).

(** [sprintf] into a buffer: it and the length returned. *)
Definition sprintf (buf fmt : list Z) (args : list arg) : option (list Z * Z) :=
  '(out, _) ← vsprintf fmt args;
  buf ← blit buf 0 (out ++ [0]);
  Some (buf, Z.of_nat (length out)).

Example sprintf_demo :
  vsprintf (lit "%s_nand[%04X|%-5d|%5d|%#x|%%|%q")
    [AStr (Some (lit "env")); AInt 4660; AInt (-42); AInt 7; AInt 4294967295]
  = Some (str "env_nand[1234|-42  |    7|0xffffffff|%|%", []).
Proof. vm_compute. reflexivity. Qed.

(** ** Character classes: lemmas *)

Lemma class_table (P : Z → bool) :
  Forall (λ c, P c = true) (seqZ 0 256) → ∀ c, is_byte c → P c = true.
Proof. intros HF c Hc. rewrite Forall_forall in HF. apply HF, elem_of_seqZ. unfold is_byte in Hc. lia. Qed.

Lemma isxdigit_spec c : is_byte c →
  isxdigit c = (is_digit c || ((65 <=? c) && (c <=? 70)) || ((97 <=? c) && (c <=? 102))).
Proof.
  intros Hc. apply eqb_prop. revert c Hc.
  apply (class_table (λ c, Bool.eqb (isxdigit c) _)). by_eval.
Qed.

Lemma isdigit_spec c : is_byte c → isdigit c = is_digit c.
Proof.
  intros Hc. apply eqb_prop. revert c Hc. apply (class_table (λ c, Bool.eqb (isdigit c) _)). by_eval.
Qed.

Lemma digit_char type v : 0 <= v < 16 →
  ∃ d, idx (if flag type LARGE then upper_digits else lower_digits) v = Some d ∧ isxdigit d = true ∧ digit_value d = v.
Proof.
  intros Hv. set (digits := if flag type LARGE then upper_digits else lower_digits).
  assert (Forall (λ v, match idx digits v with
    | Some d => isxdigit d && (digit_value d =? v) | None => false end = true) (seqZ 0 16)) as HF
    by (subst digits; destruct (flag type LARGE); by_eval).
  rewrite Forall_forall in HF. specialize (HF v ltac:(apply elem_of_seqZ; lia)).
  destruct (idx digits v) as [d|]; [|done]. apply andb_prop in HF as [? ?%Z.eqb_eq]. by exists d.
Qed.

Lemma digit_value_range c : is_byte c → is_u32 (digit_value c).
Proof.
  intros Hc. unfold digit_value. destruct (isdigit c) eqn:E; [|apply u32_range].
  rewrite isdigit_spec in E by done. unfold is_digit, is_byte, is_u32 in *. to_prop; lia || done.
Qed.

(** ** Parsing never leaves the string *)

Lemma strtoul_loop_total cp base r :
  bytes cp → 0 ∈ cp → is_u32 r →
  ∃ v e, strtoul_loop cp base r = Some (v, e) ∧ is_u32 v ∧ 0 ∈ e ∧ e `suffix_of` cp.
Proof.
  intros Hb H0. revert r. induction cp as [|c cp IH]; intros r Hr; [by apply not_elem_of_nil in H0|].
  cbn [strtoul_loop]. destruct (isxdigit c && _) eqn:E.
  - apply Forall_cons in Hb as [Hc Hb]. apply elem_of_cons in H0 as [<-|H0].
    { by apply andb_prop in E as [E _]. }
    destruct (IH Hb H0 (u32 (u32 (r * base) + digit_value c))) as (v & e & -> & Hv & He & Hs);
      [apply u32_range|].
    exists v, e. split_and!; try done. by apply suffix_cons_r.
  - exists r, (c :: cp). by split_and!.
Qed.

Lemma strtoul_ok cp base
    (Hb : bytes cp) (H0 : 0 ∈ cp) :
  ∃ v e, simple_strtoul cp base = Some (v, e) ∧ is_u32 v ∧ 0 ∈ e ∧ e `suffix_of` cp.
Proof.
  unfold simple_strtoul, strtoul_base. destruct cp as [|c cp]; [by apply not_elem_of_nil in H0|].
  cbn [head mbind option_bind]. apply Forall_cons in Hb as [Hc Hb].
  destruct (Z.eqb_spec c 48) as [->|].
  2:{ cbn [mbind option_bind]. apply strtoul_loop_total; [by constructor|done|done]. }
  apply elem_of_cons in H0 as [|H0]; [done|]. cbn [tail].
  destruct cp as [|c2 cp]; [by apply not_elem_of_nil in H0|]. cbn [head mbind option_bind tail].
  pose proof Hb as Hb'. apply Forall_cons in Hb' as [Hc2 Hb2].
  assert (∀ b, ∃ v e, strtoul_loop (c2 :: cp) b 0 = Some (v, e) ∧ is_u32 v ∧ 0 ∈ e ∧
    e `suffix_of` 48 :: c2 :: cp) as Hrest.
  { intros b. destruct (strtoul_loop_total (c2 :: cp) b 0 Hb H0) as (v & e & E & ? & ? & ?); [done|].
    exists v, e. split_and!; try done. by apply suffix_cons_r. }
  destruct (Z.eqb_spec c2 120) as [->|]; [|cbn [mbind option_bind]; apply Hrest].
  apply elem_of_cons in H0 as [|H0]; [done|].
  destruct cp as [|c3 cp]; [by apply not_elem_of_nil in H0|]. cbn [head mbind option_bind tail].
  destruct (isxdigit c3); cbn [mbind option_bind]; [|apply Hrest].
  destruct (strtoul_loop_total (c3 :: cp) (if (if 16 =? 0 then 8 else 16) =? 0 then 10 else if 16 =? 0 then 8 else 16) 0)
    as (v & e & E & ? & ? & ?); try done.
  exists v, e. split_and!; try done. by do 2 apply suffix_cons_r.
Qed.

(** [simple_strtoul] returns on every terminated string, for every base,
    with a 32-bit value and an end pointer inside the string. *)
Theorem strtoul_total cp base
    (Hb : bytes cp) (H0 : 0 ∈ cp) :
  ∃ v e, simple_strtoul cp base = Some (v, e) ∧ is_u32 v ∧ 0 ∈ e ∧ e `suffix_of` cp.
Proof. by apply strtoul_ok. Qed.

Lemma strtoul_total_witness :
  ∃ v e, simple_strtoul (lit "0x1Fz") 0 = Some (v, e) ∧ is_u32 v ∧ 0 ∈ e ∧ e `suffix_of` lit "0x1Fz".
Proof. apply (strtoul_total (lit "0x1Fz") 0); by_eval. Defined.

(** ** Printing and parsing back *)

Lemma tmp_loop_S f digits base num tmp :
  tmp_loop (S f) digits base num tmp =
    if num =? 0 then Some tmp else
    if 66 <=? Z.of_nat (length tmp) then None else
    d ← idx digits (num mod base); tmp_loop f digits base (num / base) (tmp ++ [d]).
Proof. done. Qed.

Lemma tmp_loop_spec type f base n acc :
  2 <= base <= 16 → 0 <= n < 2 ^ Z.of_nat f → (length acc + f <= 66)%nat →
  ∃ t, tmp_loop (S f) (if flag type LARGE then upper_digits else lower_digits) base n acc = Some (acc ++ t) ∧
    (n ≠ 0 → t ≠ []) ∧ (length t <= f)%nat ∧ (∀ k : nat, n < base ^ Z.of_nat k → (length t <= k)%nat) ∧
    ∀ rest r, strtoul_loop (rev t ++ rest) base r =
      strtoul_loop rest base (match t with [] => r | _ => u32 (r * base ^ Z.of_nat (length t) + n) end).
Proof.
  intros Hbase. revert n acc. induction f as [|f IH]; intros n acc Hn Hl.
  - exists []. cbn in Hn. assert (n = 0) as -> by lia. rewrite app_nil_r. split_and!; try done. cbn. lia.
  - rewrite tmp_loop_S. destruct (Z.eqb_spec n 0) as [->|Hne].
    { exists []. rewrite app_nil_r. split_and!; try done; cbn; lia. }
    destruct (Z.leb_spec 66 (Z.of_nat (length acc))); [lia|].
    destruct (digit_char type (n mod base)) as (d & -> & Hx & Hv); [dm_lia|]. cbn [mbind option_bind].
    destruct (IH (n / base) (acc ++ [d])) as (t & E & Hne' & Hlen & Hk & Hs).
    { rewrite Nat2Z.inj_succ, Z.pow_succ_r in Hn by lia. split; [apply Z.div_pos; lia|].
      apply Z.div_lt_upper_bound; nia. }
    { rewrite length_app. cbn. lia. }
    exists (d :: t). rewrite E, <-app_assoc. split_and!; try done; [cbn; lia| |].
    { intros [|k] Hn'; [cbn in Hn'; lia|]. cbn [length]. apply le_n_S, Hk.
      rewrite Nat2Z.inj_succ, Z.pow_succ_r in Hn' by lia. apply Z.div_lt_upper_bound; lia. }
    intros rest r. cbn [rev]. rewrite <-app_assoc, Hs. cbn [app strtoul_loop]. rewrite Hx, Hv.
    destruct (Z.ltb_spec (n mod base) base); [|dm_lia]. cbn [andb]. f_equal.
    cbn [length]. rewrite Nat2Z.inj_succ, Z.pow_succ_r by lia.
    rewrite u32_add_l. pose proof (Z.div_mod n base ltac:(lia)) as Hdm.
    destruct t as [|d' t].
    + assert (n / base = 0) as E0 by (destruct (Z.eq_dec (n / base) 0); [done|by destruct Hne']).
      cbn [length]. change (base ^ Z.of_nat 0) with 1. f_equal. nia.
    + set (k := base ^ Z.of_nat (length (d' :: t))). rewrite <-u32_add_l, u32_mul_l, u32_add_l.
      f_equal. nia.
Qed.

(** The text of a plain conversion. *)
Lemma number_plain n base type :
  is_u32 n → base = 10 ∨ base = 16 → type = 0 ∨ type = LARGE →
  ∃ t, number (s32 n) base (-1) (-1) type = Some t ∧ t ≠ [] ∧ (base = 16 → (length t <= 8)%nat) ∧
    ∀ rest, strtoul_loop (t ++ rest) base 0 = strtoul_loop rest base n.
Proof.
  intros Hn Hbase Htype. unfold number.
  assert (flag type LEFT = false ∧ flag type ZEROPAD = false ∧ flag type SIGN = false ∧ flag type SPECIAL = false ∧
    Z.land type (ZEROPAD + LEFT) = 0) as (-> & -> & -> & -> & ->) by by destruct Htype as [-> | ->].
  assert ((base <? 2) || (36 <? base) = false) as -> by (by destruct Hbase as [-> | ->]).
  cbv zeta iota beta. cbn [negb].
  assert (∃ t, (if s32 n =? 0 then Some [48]
      else tmp_loop 33 (if flag type LARGE then upper_digits else lower_digits) base (u32 (s32 n)) []) = Some t ∧
    t ≠ [] ∧ (base = 16 → (length t <= 8)%nat) ∧ ∀ rest, strtoul_loop (rev t ++ rest) base 0 = strtoul_loop rest base n)
    as (t & -> & Ht & Hl8 & Hs).
  { assert (u32 (s32 n) = n) as -> by int_lia.
    destruct (Z.eqb_spec (s32 n) 0) as [E|E].
    - assert (n = 0) as -> by int_lia. exists [48]. split_and!; try done; [cbn; lia|]. intros rest.
      by destruct Hbase as [-> | ->].
    - destruct (tmp_loop_spec type 32 base n []) as (t & E1 & Hne & _ & Hk & Hs);
        [by destruct Hbase as [-> | ->]|unfold is_u32 in Hn; cbn; lia|cbn; lia|].
      assert (t ≠ []) as Ht by (apply Hne; intros ->; done).
      exists t. split_and!; [exact E1|done| |].
      { intros ->. apply Hk. unfold is_u32 in Hn. cbn. lia. }
      intros rest. rewrite Hs. destruct t; [done|].
      rewrite Z.mul_0_l, Z.add_0_l. by rewrite u32_id. }
  cbn [mbind option_bind].
  set (i := Z.of_nat (length t)).
  assert ((if -1 <? i then i else -1) = i) as -> by (destruct (Z.ltb_spec (-1) i); lia).
  change (0 =? 0) with true. cbn iota.
  assert (∀ z c, z < 0 → pad_loop z c = ([], z - 1)) as Hp.
  { intros z c Hz. unfold pad_loop. destruct (Z.ltb_spec 0 z); [lia|].
    replace (Z.to_nat z) with 0%nat by lia. done. }
  assert (0 < i) by (unfold i; destruct t; [done|cbn; lia]).
  rewrite !Hp by lia. cbn [mbind option_bind app].
  assert (flag type LEFT = false) as -> by (by destruct Htype as [-> | ->]). cbn [negb].
  rewrite !Hp by lia. rewrite Z.sub_diag. cbn [Z.to_nat replicate app].
  exists (rev t). split; [by rewrite app_nil_r|]. rewrite length_rev. split; [|by split].
  intros E. apply (f_equal length) in E. rewrite length_rev in E. by destruct t.
Qed.

(** What the parser passes over are digits. *)
Lemma strtoul_loop_digits cp base r v e :
  strtoul_loop cp base r = Some (v, e) → ∃ pre, cp = pre ++ e ∧ Forall (λ c, isxdigit c = true) pre.
Proof.
  revert r. induction cp as [|c cp IH]; intros r; [done|]. cbn [strtoul_loop]. destruct (isxdigit c) eqn:Ex; cbn [andb].
  - destruct (digit_value c <? base); [|by intros [= <- <-]; exists []].
    intros (pre & -> & Hp)%IH. exists (c :: pre). split; [done|]. by constructor.
  - intros [= <- <-]. by exists [].
Qed.

(** Hexadecimal digits are read back without a prefix as well: a leading zero
    is no "0x". *)
Lemma plain_hex t n : t ≠ [] → strtoul_loop (t ++ [0]) 16 0 = Some (n, [0]) →
  (0 ∉ t) ∧ simple_strtoul (t ++ [0]) 16 = Some (n, [0]).
Proof.
  intros Ht E. destruct (strtoul_loop_digits _ _ _ _ _ E) as (pre & Epre & Hp). apply app_inv_tail in Epre as <-. split.
  { intros Hin. rewrite Forall_forall in Hp. by specialize (Hp _ Hin). }
  unfold simple_strtoul, strtoul_base. destruct t as [|c t]; [done|]. cbn [app head mbind option_bind].
  destruct (Z.eqb_spec c 48) as [->|]; [|exact E]. cbn [tail]. change (strtoul_loop (t ++ [0]) 16 0 = Some (n, [0])) in E.
  destruct t as [|d t]; [exact E|]. cbn [app head mbind option_bind]. apply Forall_cons in Hp as [_ [Hd _]%Forall_cons].
  destruct (Z.eqb_spec d 120) as [->|]; [done|exact E].
Qed.

(** The way the commands put the size of a file into the environment. *)
Lemma sprintf_hex buf n : is_u32 n → (9 <= length buf)%nat →
  ∃ t rest, sprintf buf (lit "%lX") [AInt n] = Some (t ++ 0 :: rest, Z.of_nat (length t)) ∧ (0 ∉ t) ∧
    simple_strtoul (t ++ [0]) 16 = Some (n, [0]).
Proof.
  intros Hn Hbuf. destruct (number_plain n 16 LARGE Hn ltac:(by right) ltac:(by right)) as (t & E & Ht & Hl & Hs).
  specialize (Hl eq_refl). destruct (plain_hex t n Ht ltac:(by rewrite Hs)) as [H0 Hp].
  exists t, (drop (S (length t)) buf). split; [|by split].
  unfold sprintf. assert (vsprintf (lit "%lX") [AInt n] = Some (t, [])) as ->.
  { change (lit "%lX"%string) with [37; 108; 88; 0]. unfold vsprintf. cbn -[number s32].
    change (Z.lor 0 LARGE) with LARGE. rewrite E. cbn [mbind option_bind]. reflexivity. }
  cbn [mbind option_bind]. rewrite blit_Some by (rewrite ?length_app; cbn [length]; lia).
  cbn [mbind option_bind]. change (Z.to_nat 0) with 0%nat. rewrite take_0, length_app. cbn [app length].
  rewrite <-app_assoc. cbn [app]. rewrite Nat.add_1_r. done.
Qed.

(** Digits behind "0x" are read back. *)
Lemma hex_roundtrip_text n : is_u32 n →
  ∃ t, number (s32 n) 16 (-1) (-1) 0 = Some t ∧ simple_strtoul (str "0x" ++ t ++ [0]) 16 = Some (n, [0]).
Proof.
  intros Hn. destruct (number_plain n 16 0 Hn ltac:(by right) ltac:(by left)) as (t & E & Ht & _ & Hs). exists t. split; [done|].
  unfold simple_strtoul, strtoul_base. change (str "0x") with [48; 120].
  cbn [app head mbind option_bind tail].
  change (48 =? 48) with true. change (120 =? 120) with true. cbv iota.
  destruct t as [|d t]; [done|]. cbn [app head mbind option_bind].
  specialize (Hs [0]). cbn [app] in Hs.
  destruct (isxdigit d) eqn:Ed; cbn [mbind option_bind Z.eqb].
  - rewrite Hs. done.
  - cbn [strtoul_loop] in Hs. rewrite Ed in Hs. cbn [andb] in Hs.
    change (isxdigit 0) with false in Hs. cbn [andb] in Hs.
    injection Hs as _ _ Hs. by destruct t.
Qed.

(** Printing a 32-bit number with "0x%x" and reading the text back with
    [simple_strtoul] in base 16 gives the number: the way start addresses and
    lengths are handed to the flash commands. *)
Theorem hex_roundtrip n (Hn : is_u32 n) :
  ∃ out, vsprintf (lit "0x%x") [AInt n] = Some (out, []) ∧
    simple_strtoul (out ++ [0]) 16 = Some (n, [0]).
Proof.
  destruct (hex_roundtrip_text n Hn) as (t & E & Hs). exists (str "0x" ++ t). split.
  - change (lit "0x%x"%string) with [48; 120; 37; 120; 0]. unfold vsprintf. cbn -[number s32].
    rewrite E. cbn [mbind option_bind]. reflexivity.
  - by rewrite <-app_assoc.
Qed.

Lemma hex_roundtrip_witness :
  is_u32 3735928559 ∧ ∃ out, vsprintf (lit "0x%x") [AInt 3735928559] = Some (out, []) ∧
    simple_strtoul (out ++ [0]) 16 = Some (3735928559, [0]).
Proof. split; [by_eval|]. apply (hex_roundtrip 3735928559). by_eval. Defined.
