(* ===== verification/Ptable.v ===== *)
(** The flash partition table of [common/cmd_fastboot.c] (end of the file) and
    [include/fastboot.h]: at most 16 entries, looked up by name. *)
From stdpp Require Import base tactics option list strings.
From Stdlib Require Import ZArith Lia.
From S2P Require Import Prelude.
From S2P Require Import CString.
From S2P Require Import CBuf.
Open Scope Z_scope.

Record fastboot_ptentry := mkPtentry {
  pname : list Z;      (** [char name[16]] *)
  pstart : Z;          (** [unsigned int]: first sector *)
  plength : Z;         (** [unsigned long long]: bytes *)
  pflags : Z;
}.

Definition FASTBOOT_PTENTRY_FLAGS_REPEAT_MASK : Z := 15.
Definition FASTBOOT_PTENTRY_FLAGS_WRITE_NEXT_GOOD_BLOCK : Z := 16.
Definition FASTBOOT_PTENTRY_FLAGS_WRITE_CONTIGUOUS_BLOCK : Z := 32.
Definition FASTBOOT_PTENTRY_FLAGS_WRITE_HW_ECC : Z := 64.
Definition FASTBOOT_PTENTRY_FLAGS_WRITE_SW_ECC : Z := 128.
Definition FASTBOOT_PTENTRY_FLAGS_WRITE_I : Z := 256.
Definition FASTBOOT_PTENTRY_FLAGS_WRITE_ENV : Z := 1024.

Definition MAX_PTN : Z := 16.

(** [ptable] and [pcount]. *)
Record ptn_table := mkTable { ptable : list fastboot_ptentry; pcount : Z }.

Definition fastboot_flash_reset_ptn (t : ptn_table) : ptn_table := mkTable (ptable t) 0.

Definition fastboot_flash_add_ptn (t : ptn_table) (e : fastboot_ptentry) : option ptn_table :=
  if pcount t <? MAX_PTN then
    p ← upd (ptable t) (pcount t) e;
    Some (mkTable p (pcount t + 1))
  else Some t.

(** The printed lines. *)
Definition fastboot_flash_dump_ptn (t : ptn_table) : list (Z * list Z * Z * Z) :=
  imap (λ n e, (Z.of_nat n, cut (pname e), pstart e, plength e)) (take (Z.to_nat (pcount t)) (ptable t)).

Definition find_step (t : ptn_table) (nm : list Z) (n : Z) : option (Z + option Z) :=
  if n <? pcount t then
    e ← idx (ptable t) n;
    l1 ← c_strlen nm;
    l2 ← c_strlen (pname e);
    if l1 =? l2 then
      r ← c_strcmp (pname e) nm;
      Some (if r =? 0 then inr (Some n) else inl (n + 1))
    else Some (inl (n + 1))
  else Some (inr None).

(** The index of the entry, [None] for the null pointer. *)
Definition fastboot_flash_find_ptn (t : ptn_table) (nm : list Z) : option (option Z) :=
  loop (S (Z.to_nat (pcount t))) (find_step t nm) 0.

Definition fastboot_flash_get_ptn (t : ptn_table) (n : Z) : option Z :=
  if n <? pcount t then Some n else None.

Definition fastboot_flash_get_ptn_count (t : ptn_table) : Z := pcount t.

(** ** Well-formed tables *)

Record table_ok (t : ptn_table) : Prop := mkTableOk {
  to_len : length (ptable t) = 16%nat;
  to_count : 0 <= pcount t <= 16;
  to_names : ∀ n e, idx (ptable t) n = Some e → 0 <= n < pcount t → 0 ∈ pname e ∧ bytes (pname e);
}.

Lemma add_ptn_ok t e :
  table_ok t → 0 ∈ pname e → bytes (pname e) →
  ∃ t', fastboot_flash_add_ptn t e = Some t' ∧ table_ok t' ∧
    (pcount t < 16 → pcount t' = pcount t + 1 ∧ idx (ptable t') (pcount t) = Some e ∧
       ∀ n, n ≠ pcount t → idx (ptable t') n = idx (ptable t) n) ∧
    (16 <= pcount t → t' = t).
Proof.
  intros [Hl Hc Hn] H0 Hb. unfold fastboot_flash_add_ptn, MAX_PTN.
  destruct (Z.ltb_spec (pcount t) 16).
  2:{ exists t. split; [done|]. split; [done|]. split; [intros; lia|done]. }
  rewrite upd_Some by (rewrite Hl; lia). cbn [mbind option_bind]. eexists. split; [done|].
  assert (∀ n, n ≠ pcount t → idx (<[Z.to_nat (pcount t):=e]> (ptable t)) n = idx (ptable t) n) as Hne.
  { intros n Hne. unfold idx. destruct (Z.ltb_spec n 0); [done|].
    rewrite list_lookup_insert_ne by lia. done. }
  assert (idx (<[Z.to_nat (pcount t):=e]> (ptable t)) (pcount t) = Some e) as He.
  { apply idx_lookup. split; [lia|]. apply list_lookup_insert_eq. lia. }
  split; [|split; [done|intros; lia]]. split; cbn [ptable pcount].
  - by rewrite length_insert.
  - lia.
  - intros n e' Hi Hr. destruct (decide (n = pcount t)) as [->|Hne'].
    + rewrite He in Hi. by injection Hi as <-.
    + rewrite Hne in Hi by done. apply (Hn n); [done|lia].
Qed.

Lemma c_strlen_Some l : 0 ∈ l → c_strlen l = Some (Z.of_nat (length (cut l))).
Proof.
  induction l as [|x l IH]; intros Hx; [by apply not_elem_of_nil in Hx|]. cbn.
  destruct (Z.eqb_spec x 0) as [->|]; [done|]. apply elem_of_cons in Hx as [|Hx]; [done|].
  rewrite IH by done. cbn [mbind option_bind length]. f_equal. lia.
Qed.

Lemma c_strcmp_spec l1 l2 :
  0 ∈ l1 → 0 ∈ l2 → bytes l1 → bytes l2 → ∃ r, c_strcmp l1 l2 = Some r ∧ (r = 0 ↔ cut l1 = cut l2).
Proof.
  revert l2. induction l1 as [|a l1 IH]; intros l2 H1 H2 B1 B2; [by apply not_elem_of_nil in H1|].
  destruct l2 as [|b l2]; [by apply not_elem_of_nil in H2|]. cbn [c_strcmp cut].
  apply Forall_cons in B1 as [Ba B1]. apply Forall_cons in B2 as [Bb B2].
  pose proof (s8_diff a b Ba Bb) as E.
  destruct (Z.eqb_spec (s8 (a - b)) 0) as [E0|E0]; cbn [negb].
  - assert (a = b) as -> by tauto. destruct (Z.eqb_spec b 0) as [->|].
    + exists (s8 (0 - 0)). split; [done|]. done.
    + apply elem_of_cons in H1 as [|H1]; [done|]. apply elem_of_cons in H2 as [|H2]; [done|].
      destruct (IH l2 H1 H2 B1 B2) as (r & -> & Hr). exists r. split; [done|]. rewrite Hr.
      split; [by intros ->|by intros [=]].
  - exists (s8 (a - b)). split; [done|]. split; [done|]. intros Hc. exfalso. apply E0, E.
    destruct (Z.eqb_spec a 0), (Z.eqb_spec b 0); congruence.
Qed.

Lemma find_ptn_spec t nm :
  table_ok t → 0 ∈ nm → bytes nm →
  ∃ r, fastboot_flash_find_ptn t nm = Some r ∧
    match r with
    | Some n => 0 <= n < pcount t ∧ (∃ e, idx (ptable t) n = Some e ∧ cut (pname e) = cut nm) ∧
        ∀ k e, 0 <= k < n → idx (ptable t) k = Some e → cut (pname e) ≠ cut nm
    | None => ∀ k e, 0 <= k < pcount t → idx (ptable t) k = Some e → cut (pname e) ≠ cut nm
    end.
Proof.
  intros [Hl Hc Hn] H0 Hb. unfold fastboot_flash_find_ptn.
  destruct (loop_total (find_step t nm)
    (λ n, 0 <= n <= pcount t ∧ ∀ k e, 0 <= k < n → idx (ptable t) k = Some e → cut (pname e) ≠ cut nm)
    (λ n, Z.to_nat (pcount t - n))
    (λ r, match r with
      | Some n => 0 <= n < pcount t ∧ (∃ e, idx (ptable t) n = Some e ∧ cut (pname e) = cut nm) ∧
          ∀ k e, 0 <= k < n → idx (ptable t) k = Some e → cut (pname e) ≠ cut nm
      | None => ∀ k e, 0 <= k < pcount t → idx (ptable t) k = Some e → cut (pname e) ≠ cut nm
      end)) with (n := S (Z.to_nat (pcount t))) (s := 0) as (r & -> & Hr);
    [|split; [lia|intros; lia]|lia|by exists r].
  intros n [Hn1 Hn2]. unfold find_step. destruct (Z.ltb_spec n (pcount t)).
  2:{ eexists. split; [done|]. intros k e Hk. apply Hn2. lia. }
  destruct (idx_Some (ptable t) n) as [e He]; [lia|]. rewrite He. cbn [mbind option_bind].
  destruct (Hn n e He) as [He0 Heb]; [lia|]. rewrite !c_strlen_Some by done. cbn [mbind option_bind].
  assert (∀ k e', cut (pname e) ≠ cut nm → 0 <= k < n + 1 → idx (ptable t) k = Some e' →
    cut (pname e') ≠ cut nm) as Hstep.
  { intros k e' Hne Hk Hi. destruct (decide (k = n)) as [->|]; [|apply (Hn2 k); [lia|done]].
    rewrite He in Hi. by injection Hi as <-. }
  destruct (Z.eqb_spec (Z.of_nat (length (cut nm))) (Z.of_nat (length (cut (pname e))))) as [El|El].
  - destruct (c_strcmp_spec (pname e) nm He0 H0 Heb Hb) as (r & -> & Hr). cbn [mbind option_bind].
    destruct (Z.eqb_spec r 0) as [->|Hr0].
    + eexists. split; [done|]. split; [lia|]. split; [|done]. exists e. split; [done|]. by apply Hr.
    + eexists. split; [done|]. split; [|lia]. split; [lia|]. intros k e' Hk Hi.
      apply (Hstep k e'); try done. tauto.
  - eexists. split; [done|]. split; [|lia]. split; [lia|]. intros k e' Hk Hi.
    apply (Hstep k e'); try done. intros Ec. rewrite Ec in El. done.
Qed.

(** [fastboot_flash_find_ptn] finds the first entry with exactly the name
    asked for, a prefix or an extension of it never matches, and it reports
    "not found" only when no entry has the name. *)
Theorem find_ptn_exact t nm
    (Ht : table_ok t) (H0 : 0 ∈ nm) (Hb : bytes nm) :
  ∃ r, fastboot_flash_find_ptn t nm = Some r ∧
    match r with
    | Some n => 0 <= n < pcount t ∧ (∃ e, idx (ptable t) n = Some e ∧ cut (pname e) = cut nm) ∧
        ∀ k e, 0 <= k < n → idx (ptable t) k = Some e → cut (pname e) ≠ cut nm
    | None => ∀ k e, 0 <= k < pcount t → idx (ptable t) k = Some e → cut (pname e) ≠ cut nm
    end.
Proof. by apply find_ptn_spec. Qed.

#[local] Definition entry (s : string) (st len : Z) : fastboot_ptentry :=
  mkPtentry (take 16 (str s ++ replicate 16 0)) st len 0.
#[local] Definition demo_table : ptn_table :=
  mkTable ([entry "boot" 0 1024; entry "bootloader" 2 1024; entry "system" 4 4096]
    ++ replicate 13 (entry "" 0 0)) 3.

Lemma demo_table_ok : table_ok demo_table.
Proof.
  split; [done|by_eval|]. intros n e Hi Hn. cbn [pcount demo_table] in Hn.
  assert (n = 0 ∨ n = 1 ∨ n = 2) as [->|[->| ->]] by lia; injection Hi as <-; split; by_eval.
Qed.

Lemma find_ptn_exact_witness :
  fastboot_flash_find_ptn demo_table (lit "bootloader") = Some (Some 1) ∧
  ∃ r, fastboot_flash_find_ptn demo_table (lit "boo") = Some r ∧
    match r with
    | Some n => 0 <= n < pcount demo_table ∧
        (∃ e, idx (ptable demo_table) n = Some e ∧ cut (pname e) = cut (lit "boo")) ∧
        ∀ k e, 0 <= k < n → idx (ptable demo_table) k = Some e → cut (pname e) ≠ cut (lit "boo")
    | None => ∀ k e, 0 <= k < pcount demo_table → idx (ptable demo_table) k = Some e →
        cut (pname e) ≠ cut (lit "boo")
    end.
Proof.
  split; [by vm_compute|]. apply (find_ptn_exact demo_table (lit "boo")); [apply demo_table_ok|by_eval|by_eval].
Defined.
