(* ===== verification/Env.v ===== *)
(** [common/cmd_nvedit.c] and the parts of [common/env_common.c] and
    [common/env_nowhere.c] behind it: the environment after relocation, a
    block of [ENV_SIZE] bytes with "name=value" strings one after the other
    and an empty string at the end.  Pointers into the block are indices. *)
From stdpp Require Import base tactics option list strings.
From Stdlib Require Import ZArith Lia.
From S2P Require Import Prelude.
From S2P Require Import Eff.
From S2P Require Import CBuf.
From S2P Require Import Vsprintf.
Open Scope Z_scope.

Definition CFG_ENV_SIZE : Z := 131072.
Definition ENV_HEADER_SIZE : Z := 4.
Definition ENV_SIZE : Z := 131068.

(** ** Reading *)

(** The default environment is copied to memory before any of this runs. *)
Definition env_get_char_memory (env : list Z) (index : Z) : option Z := idx env index.

(** [for (nxt = i; env_get_char(nxt) != '\0'; ++nxt)]. *)
Definition nxt_step (env : list Z) (nxt : Z) : option (Z + Z) :=
  c ← env_get_char_memory env nxt; Some (if c =? 0 then inr nxt else inl (nxt + 1)).
Definition end_of (env : list Z) (i : Z) : option Z := loop (S (length env)) (nxt_step env) i.

(** The same loop with the check of [getenv], [None] for its return. *)
Definition nxt_check_step (env : list Z) (nxt : Z) : option (Z + option Z) :=
  c ← env_get_char_memory env nxt;
  Some (if c =? 0 then inr (Some nxt) else if CFG_ENV_SIZE <=? nxt then inr None else inl (nxt + 1)).
Definition end_check (env : list Z) (i : Z) : option (option Z) :=
  loop (S (length env)) (nxt_check_step env) i.

(** The index of the value, -1 when the names differ. *)
Fixpoint envmatch (env s1 : list Z) (i2 : Z) {struct s1} : option Z :=
  match s1 with
  | [] => None
  | a :: s1' =>
      c ← env_get_char_memory env i2;
      if a =? c then if a =? 61 then Some (i2 + 1) else envmatch env s1' (i2 + 1)
      else Some (if (a =? 0) && (c =? 61) then i2 + 1 else -1)
  end.

Definition getenv_step (env name : list Z) (i : Z) : option (Z + option Z) :=
  c ← env_get_char_memory env i;
  if c =? 0 then Some (inr None) else
  o ← end_check env i;
  match o with
  | None => Some (inr None)
  | Some nxt => val ← envmatch env name i; Some (if val <? 0 then inl (nxt + 1) else inr (Some val))
  end.

(** The index of the value, [None] for the null pointer. *)
Definition getenv (env name : list Z) : option (option Z) :=
  loop (S (length env)) (getenv_step env name) 0.

(** The [while] loop that copies at most [len] characters. *)
Definition copy_step (env : list Z) (len val : Z) (x : list Z * Z) : option ((list Z * Z) + (list Z * Z)) :=
  let '(buf, n) := x in
  if n <? len then
    c ← env_get_char_memory env (val + n);
    buf ← upd buf n c;
    Some (if c =? 0 then inr (buf, n + 1) else inl (buf, n + 1))
  else Some (inr (buf, n + 1)).

(** The terminator goes to [*buf], one behind the characters copied. *)
Definition getenv_copy (env buf : list Z) (len val : Z) : option (list Z * Z) :=
  '(buf, n) ← loop (S (Z.to_nat len)) (copy_step env len val) (buf, 0);
  buf ← (if len =? n then upd buf n 0 else Some buf);
  Some (buf, n).

(** [getenv_r] with the buffer it fills and its result. *)
Definition getenv_r (env name buf : list Z) (len : Z) : option (list Z * Z) :=
  o ← getenv env name;
  match o with
  | None => Some (buf, -1)
  | Some val => getenv_copy env buf len val
  end.

(** What [printenv] prints; [ctrlc] says whether it is interrupted after the
    variable at an index. *)
Definition print_all_step (env : list Z) (ctrlc : Z → bool) (x : Z * list Z)
    : option ((Z * list Z) + (Z * list Z)) :=
  let '(i, out) := x in
  c ← env_get_char_memory env i;
  if c =? 0 then
    '(t, _) ← vsprintf (lit "Environment size: %d/%d bytes") [AInt i; AInt ENV_SIZE];
    Some (inr (0, out ++ [10] ++ t ++ [10]))
  else
    nxt ← end_of env i;
    t ← slice env i (nxt - i);
    let out := out ++ t ++ [10] in
    if ctrlc i then Some (inr (1, out ++ [10] ++ str " ** Abort" ++ [10]))
    else Some (inl (nxt + 1, out)).

Definition print_one_step (env name : list Z) (x : Z * Z) : option ((Z * Z) + (list Z * Z)) :=
  let '(j, k) := x in
  c ← env_get_char_memory env j;
  if c =? 0 then Some (inr ([], k)) else
  nxt ← end_of env j;
  k ← envmatch env name j;
  if k <? 0 then Some (inl (nxt + 1, k)) else
  v ← slice env k (Z.max 0 (nxt - k));
  Some (inr (cut name ++ [61] ++ v ++ [10], k)).

Definition print_one (env name : list Z) (x : list Z * Z) : option (list Z * Z) :=
  let '(out, rcode) := x in
  '(t, k) ← loop (S (length env)) (print_one_step env name) (0, -1);
  if k <? 0 then Some (out ++ t ++ str "## Error: " ++ [34] ++ cut name ++ [34] ++ str " not defined" ++ [10], rcode + 1)
  else Some (out ++ t, rcode).

(** [do_printenv]: the text and the result. *)
Definition do_printenv (env : list Z) (ctrlc : Z → bool) (argc : Z) (argv : list (list Z))
    : option (list Z * Z) :=
  if argc =? 1 then
    '(r, out) ← loop (S (length env)) (print_all_step env ctrlc) (0, []);
    Some (out, r)
  else
    foldl (λ acc name, x ← acc; print_one env name x) (Some ([], 0)) (take (Z.to_nat (argc - 1)) (drop 1 argv)).

(** ** Writing *)

(** The search of [_do_setenv]: the entry and its end. *)
Definition find_step (env name : list Z) (i : Z) : option (Z + option (Z * Z)) :=
  c ← env_get_char_memory env i;
  if c =? 0 then Some (inr None) else
  nxt ← end_of env i;
  oldval ← envmatch env name i;
  Some (if 0 <=? oldval then inr (Some (i, nxt)) else inl (nxt + 1)).
Definition find_old (env name : list Z) : option (option (Z * Z)) :=
  loop (S (length env)) (find_step env name) 0.

(** Moving the entries behind to the front. *)
Definition shift_step (x : list Z * Z * Z) : option ((list Z * Z * Z) + (list Z * Z)) :=
  let '(env, e, nxt) := x in
  c ← idx env nxt;
  env ← upd env e c;
  stop ← (if c =? 0 then d ← idx env (nxt + 1); Some (d =? 0) else Some false);
  Some (if (stop : bool) then inr (env, e) else inl (env, e + 1, nxt + 1)).

Definition delete_entry (env : list Z) (e nxt : Z) : option (list Z) :=
  c ← idx env (nxt + 1);
  '(env, e) ← (if c =? 0 then
      if 0 <? e then Some (env, e - 1) else env ← upd env e 0; Some (env, e)
    else loop (S (length env)) shift_step (env, e, nxt + 1));
  upd env (e + 1) 0.

(** [for (env=env_data; *env || *(env+1); ++env)]. *)
Definition last_step (env : list Z) (e : Z) : option (Z + Z) :=
  c ← idx env e;
  more ← (if c =? 0 then d ← idx env (e + 1); Some (negb (d =? 0)) else Some true);
  Some (if (more : bool) then inl (e + 1) else inr e).
Definition last_entry (env : list Z) : option Z :=
  e ← loop (S (length env)) (last_step env) 0; Some (if 0 <? e then e + 1 else e).

(** Copies a string; the index of its terminator. *)
Fixpoint put_chars (env : list Z) (e : Z) (s : list Z) {struct s} : option (list Z * Z) :=
  match s with
  | [] => None
  | c :: s' => env ← upd env e c; if c =? 0 then Some (env, e) else put_chars env (e + 1) s'
  end.

Definition put_arg (sep : Z) (x : list Z * Z) (val : list Z) : option (list Z * Z) :=
  let '(env, e) := x in env ← upd env e sep; put_chars env (e + 1) val.

(** The '=' before the first argument, a blank before the others. *)
Fixpoint put_args (sep : Z) (x : list Z * Z) (args : list (list Z)) : option (list Z * Z) :=
  match args with
  | [] => Some x
  | val :: args' => x ← put_arg sep x val; put_args 32 x args'
  end.

Definition args_length (args : list (list Z)) : option Z :=
  foldr (λ a acc, n ← c_strlen a; m ← acc; Some (n + 1 + m)) (Some 0) args.

(** The new block, [None] for the overflow error. *)
Definition append_entry (env name : list Z) (args : list (list Z)) : option (option (list Z)) :=
  e ← last_entry env;
  n ← c_strlen name;
  m ← args_length args;
  if ENV_SIZE - e <? n + 2 + m then Some None else
  x ← put_chars env e name;
  '(env, e) ← put_args 61 x args;
  env ← upd env (e + 1) 0;
  Some (Some env).

(** ** [setenv] *)

(** [console_assign] of [common/console.c]. *)
Class Console (C : Type) := {
  console_assign : C → Z → option (list Z) → option (C * Z);   (** file, device name *)
}.

Record env_state (C : Type) := mkEnv {
  env_bytes : list Z;
  console : C;
  baudrate : Z;
  bi_enetaddr : list Z;
  bi_ip_addr : Z;
  load_addr : Z;
  serial_in : list Z;          (** the characters [getc] will return *)
}.
Arguments mkEnv {C}.
Arguments env_bytes {C}.
Arguments console {C}.
Arguments baudrate {C}.
Arguments bi_enetaddr {C}.
Arguments bi_ip_addr {C}.
Arguments load_addr {C}.
Arguments serial_in {C}.

Definition baudrate_table : list Z := [4800; 9600; 19200; 38400; 57600; 115200].

Section setenv.
Context {C : Type} `{Console C}.
#[local] Abbreviation M := (ST (env_state C)).

Definition set_env_bytes (l : list Z) (s : env_state C) : env_state C :=
  mkEnv l (console s) (baudrate s) (bi_enetaddr s) (bi_ip_addr s) (load_addr s) (serial_in s).
Definition set_console (c : C) (s : env_state C) : env_state C :=
  mkEnv (env_bytes s) c (baudrate s) (bi_enetaddr s) (bi_ip_addr s) (load_addr s) (serial_in s).
Definition set_serial (b : Z) (l : list Z) (s : env_state C) : env_state C :=
  mkEnv (env_bytes s) (console s) b (bi_enetaddr s) (bi_ip_addr s) (load_addr s) l.
Definition set_enetaddr (a : list Z) (s : env_state C) : env_state C :=
  mkEnv (env_bytes s) (console s) (baudrate s) a (bi_ip_addr s) (load_addr s) (serial_in s).
Definition set_ip_addr (a : Z) (s : env_state C) : env_state C :=
  mkEnv (env_bytes s) (console s) (baudrate s) (bi_enetaddr s) a (load_addr s) (serial_in s).
Definition set_load_addr (a : Z) (s : env_state C) : env_state C :=
  mkEnv (env_bytes s) (console s) (baudrate s) (bi_enetaddr s) (bi_ip_addr s) a (serial_in s).

Definition is_name (name : list Z) (t : string) : option bool :=
  r ← c_strcmp name (lit t); Some (r =? 0).

(** The string behind an element of [argv]. *)
Definition argv_at (argv : list (option (list Z))) (i : Z) : option (list Z) := o ← idx argv i; o.

(** [stdin], [stdout] or [stderr]. *)
Definition console_of (name : list Z) : option (option Z) :=
  b ← is_name name "stdin"; if (b : bool) then Some (Some 0) else
  b ← is_name name "stdout"; if (b : bool) then Some (Some 1) else
  b ← is_name name "stderr"; if (b : bool) then Some (Some 2) else Some None.

(** Console redirection: whether to go on. *)
Definition redirect (argc : Z) (argv : list (option (list Z))) (name : list Z) : M bool :=
  o ← lift (console_of name);
  match o with
  | None => mret true
  | Some file =>
      if argc <? 3 then mret false else
      dev ← lift (idx argv 2);
      s ← get;
      '(c, r) ← lift (console_assign (console s) file dev);
      _ ← modify (set_console c);
      mret (negb (r <? 0))
  end.

(** [for (;;) if (getc() == '\r') break;]: with no more input it waits for
    ever. *)
Fixpoint wait_cr (input : list Z) : option (list Z) :=
  match input with
  | [] => None
  | c :: input' => if c =? 13 then Some input' else wait_cr input'
  end.

Definition switch_baudrate (argv : list (option (list Z))) (name : list Z) : M bool :=
  b ← lift (is_name name "baudrate");
  if negb (b : bool) then mret true else
  a ← lift (argv_at argv 2);
  '(rate, _) ← lift (simple_strtoul a 10);
  if bool_decide (rate ∈ baudrate_table) then
    s ← get;
    rest ← lift (wait_cr (serial_in s));
    _ ← modify (set_serial rate rest);
    mret true
  else mret false.

(** The entry found is deleted: whether to go on. *)
Definition delete_old (argc : Z) (argv : list (option (list Z))) (name : list Z) (e nxt : Z) : M bool :=
  go ← redirect argc argv name;
  if negb (go : bool) then mret false else
  go ← switch_baudrate argv name;
  if negb (go : bool) then mret false else
  s ← get;
  env ← lift (delete_entry (env_bytes s) e nxt);
  _ ← modify (set_env_bytes env);
  mret true.

(** The six bytes of an Ethernet address. *)
Fixpoint mac_bytes (n : nat) (s : list Z) : option (list Z) :=
  match n with
  | O => Some []
  | S n' =>
      '(v, e) ← simple_strtoul s 16;
      c ← head e;
      r ← mac_bytes n' (if c =? 0 then e else tail e);
      Some (u8 v :: r)
  end.

Fixpoint ip_bytes (n : nat) (addr : Z) (s : list Z) : option Z :=
  match n with
  | O => Some addr
  | S n' =>
      '(v, e) ← simple_strtoul s 10;
      c ← head e;
      ip_bytes n' (Z.lor (u32 (Z.shiftl addr 8)) (Z.land v 255)) (if c =? 0 then e else tail e)
  end.

Definition htonl (z : Z) : Z :=
  u8 z * 16777216 + u8 (z / 256) * 65536 + u8 (z / 65536) * 256 + u8 (z / 16777216).

(** "Some variables should be updated". *)
Definition update_variables (argv : list (option (list Z))) (name : list Z) : M Z :=
  b ← lift (is_name name "ethaddr");
  if (b : bool) then
    a ← lift (argv_at argv 2); m ← lift (mac_bytes 6 a); _ ← modify (set_enetaddr m); mret 0 else
  b ← lift (is_name name "ipaddr");
  if (b : bool) then
    a ← lift (argv_at argv 2);
    _ ← modify (set_ip_addr 0);
    i ← lift (ip_bytes 4 0 a); _ ← modify (set_ip_addr (htonl i)); mret 0 else
  b ← lift (is_name name "loadaddr");
  if (b : bool) then
    a ← lift (argv_at argv 2); '(v, _) ← lift (simple_strtoul a 16); _ ← modify (set_load_addr v); mret 0 else
  mret 0.

Definition _do_setenv (argc : Z) (argv : list (option (list Z))) : M Z :=
  name ← lift (argv_at argv 1);
  s ← get;
  old ← lift (find_old (env_bytes s) name);
  go ← (match old with None => mret true | Some (e, nxt) => delete_old argc argv name e nxt end);
  if negb (go : bool) then mret 1 else
  if argc <? 3 then mret 0 else
  o ← lift (idx argv 2);
  match o with
  | None => mret 0
  | Some _ =>
      args ← lift (mapM id (take (Z.to_nat (argc - 2)) (drop 2 argv)));
      s ← get;
      r ← lift (append_entry (env_bytes s) name args);
      match r with
      | None => mret 1
      | Some env => _ ← modify (set_env_bytes env); update_variables argv name
      end
  end.

Definition setenv (varname varvalue : option (list Z)) : M unit :=
  _ ← _do_setenv 3 [Some (lit "setenv"); varname; varvalue; None]; mret tt.

(** The usage text is read through [cmdtp]. *)
Definition do_setenv (cmdtp : option unit) (argc : Z) (argv : list (option (list Z))) : M Z :=
  if argc <? 2 then _ ← lift cmdtp; mret 1 else _do_setenv argc argv.

(** The environment is not stored anywhere. *)
Definition saveenv : Z := -1.

Definition do_saveenv (cmdtp : option unit) (argc : Z) (argv : list (option (list Z))) : M Z :=
  if argc =? 1 then
    s ← get;
    match serial_in s with
    | [] => lift None
    | c :: rest =>
        _ ← modify (set_serial (baudrate s) rest);
        mret (if ((c =? 121) || (c =? 89)) && (saveenv =? 0) then 0 else 1)
    end
  else if argc =? 2 then
    a ← lift (argv_at argv 1);
    r ← lift (c_strncmp a (lit "-f") 2);
    if negb (r =? 0) then _ ← lift cmdtp; mret 1
    else mret (if saveenv =? 0 then 0 else 1)
  else _ ← lift cmdtp; mret 1.
End setenv.
