(* ===== verification/EnvSpec.v ===== *)
(** What the environment of [Env] promises: it holds a list of variables,
    [getenv] looks a name up in it and [setenv] replaces one variable. *)
From stdpp Require Import base tactics option list strings.
From Stdlib Require Import ZArith Lia.
From S2P Require Import Prelude.
From S2P Require Import Eff.
From S2P Require Import CBuf.
From S2P Require Import Ptable.
From S2P Require Import Vsprintf.
From S2P Require Import Env.
Open Scope Z_scope.

(** ** The abstract environment *)

(** A variable: its name and its value. *)
Definition var : Type := list Z * list Z.

Definition name_ok (n : list Z) : Prop := n ≠ [] ∧ (0 ∉ n) ∧ (61 ∉ n).
Definition var_ok (x : var) : Prop := name_ok x.1 ∧ 0 ∉ x.2.

Definition enc (x : var) : list Z := x.1 ++ 61 :: x.2 ++ [0].
Definition encs (es : list var) : list Z := concat (enc <$> es).

(** An empty environment has two terminators. *)
Definition encode (es : list var) : list Z := match es with [] => [0; 0] | _ => (encs es ++ [0])%list end.

Record env_ok (env : list Z) (es : list var) : Prop := mkEnvOk {
  eo_size : Z.of_nat (length env) = ENV_SIZE;
  eo_vars : Forall var_ok es;
  eo_text : ∃ rest, env = encode es ++ rest;
}.

Fixpoint assoc (name : list Z) (es : list var) : option (list Z) :=
  match es with
  | [] => None
  | x :: es' => if decide (x.1 = name) then Some x.2 else assoc name es'
  end.

Fixpoint remove_first (name : list Z) (es : list var) : list var :=
  match es with
  | [] => []
  | x :: es' => if decide (x.1 = name) then es' else x :: remove_first name es'
  end.

Lemma encs_cons x es : encs (x :: es) = enc x ++ encs es.
Proof. done. Qed.

Lemma encs_app es1 es2 : encs (es1 ++ es2) = encs es1 ++ encs es2.
Proof. unfold encs. by rewrite fmap_app, concat_app. Qed.

Lemma enc_length x : length (enc x) = (length x.1 + length x.2 + 2)%nat.
Proof. unfold enc. rewrite !length_app. cbn [length]. rewrite length_app. cbn. lia. Qed.

Lemma env_front env es : env_ok env es → ∃ rest, env = encs es ++ 0 :: rest.
Proof.
  intros [_ _ [rest ->]]. destruct es; [by exists (0 :: rest)|]. exists rest. cbn [encode].
  by rewrite <-app_assoc.
Qed.

(** ** Reading *)

Lemma idx_mid {A} (pre post : list A) c : idx (pre ++ c :: post) (Z.of_nat (length pre)) = Some c.
Proof. rewrite idx_nat. by apply list_lookup_middle. Qed.

Lemma idx_at {A} (l pre post : list A) c i : l = pre ++ c :: post → i = Z.of_nat (length pre) → idx l i = Some c.
Proof. intros -> ->. apply idx_mid. Qed.

Lemma snoc_at {A} (pre : list A) (c : A) (post : list A) : pre ++ c :: post = (pre ++ [c]) ++ post.
Proof. by rewrite <-app_assoc. Qed.

Lemma snoc_len {A} (pre : list A) (c : A) : Z.of_nat (length pre) + 1 = Z.of_nat (length (pre ++ [c])).
Proof. rewrite length_app. cbn [length]. lia. Qed.

Lemma end_loop s : ∀ pre post fuel, 0 ∉ s → (length s < fuel)%nat →
  loop fuel (nxt_step (pre ++ s ++ 0 :: post)) (Z.of_nat (length pre))
    = Some (Z.of_nat (length pre + length s)).
Proof.
  induction s as [|c s IH]; intros pre post fuel Hs Hf; (destruct fuel as [|fuel]; [lia|]); cbn [loop app];
    unfold nxt_step at 1, env_get_char_memory; rewrite idx_mid; cbn [mbind option_bind].
  - cbn [Z.eqb length]. f_equal. lia.
  - apply not_elem_of_cons in Hs as [Hc Hs]. destruct (Z.eqb_spec c 0); [done|].
    rewrite snoc_at, (snoc_len pre c). rewrite IH by (done || (cbn in Hf; lia)). f_equal. rewrite length_app. cbn. lia.
Qed.

Lemma end_of_spec pre s post : 0 ∉ s →
  end_of (pre ++ s ++ 0 :: post) (Z.of_nat (length pre)) = Some (Z.of_nat (length pre + length s)).
Proof. intros. apply end_loop; [done|]. rewrite !length_app. cbn [length]. lia. Qed.

Lemma check_loop s : ∀ pre post fuel, 0 ∉ s → (length s < fuel)%nat →
  Z.of_nat (length (pre ++ s ++ 0 :: post)) <= CFG_ENV_SIZE →
  loop fuel (nxt_check_step (pre ++ s ++ 0 :: post)) (Z.of_nat (length pre))
    = Some (Some (Z.of_nat (length pre + length s))).
Proof.
  induction s as [|c s IH]; intros pre post fuel Hs Hf Hl; (destruct fuel as [|fuel]; [lia|]); cbn [loop app];
    unfold nxt_check_step at 1, env_get_char_memory; rewrite idx_mid; cbn [mbind option_bind].
  - cbn [Z.eqb length]. do 2 f_equal. lia.
  - apply not_elem_of_cons in Hs as [Hc Hs]. destruct (Z.eqb_spec c 0); [done|].
    rewrite length_app in Hl. cbn [app length] in Hl.
    destruct (Z.leb_spec CFG_ENV_SIZE (Z.of_nat (length pre))); [lia|].
    rewrite snoc_at, (snoc_len pre c). rewrite IH; [|done|cbn in Hf; lia|rewrite !length_app in *; cbn [app length] in *; rewrite ?length_app in *; cbn [length] in *; lia].
    do 2 f_equal. rewrite length_app. cbn. lia.
Qed.

Lemma end_check_spec pre s post : 0 ∉ s → Z.of_nat (length (pre ++ s ++ 0 :: post)) <= CFG_ENV_SIZE →
  end_check (pre ++ s ++ 0 :: post) (Z.of_nat (length pre)) = Some (Some (Z.of_nat (length pre + length s))).
Proof. intros. apply check_loop; [done| |done]. rewrite !length_app. cbn [length]. lia. Qed.

(** The names agree, or -1. *)
Lemma envmatch_spec name t : ∀ n pre post, 0 ∉ name → 61 ∉ name → 0 ∉ n → 61 ∉ n →
  envmatch (pre ++ n ++ 61 :: post) (name ++ 0 :: t) (Z.of_nat (length pre)) =
    Some (if decide (n = name) then Z.of_nat (length pre + length n + 1) else -1).
Proof.
  induction name as [|a name IH]; intros n pre post H0 H61 Hn0 Hn61; cbn [app envmatch];
    unfold env_get_char_memory; destruct n as [|c n]; cbn [app]; rewrite idx_mid; cbn [mbind option_bind].
  - rewrite decide_True by done. change (Some (Z.of_nat (length pre) + 1) = Some (Z.of_nat (length pre + 0 + 1))).
    f_equal. lia.
  - apply not_elem_of_cons in Hn0 as [? _], Hn61 as [? _].
    destruct (Z.eqb_spec 0 c); [done|]. destruct (Z.eqb_spec c 61); [done|]. done.
  - apply not_elem_of_cons in H0 as [? _], H61 as [? _].
    destruct (Z.eqb_spec a 61); [done|]. by destruct (Z.eqb_spec a 0).
  - apply not_elem_of_cons in Hn0 as [? Hn0], Hn61 as [? Hn61].
    apply not_elem_of_cons in H0 as [? H0], H61 as [? H61].
    destruct (Z.eqb_spec a c) as [->|Hne].
    + destruct (Z.eqb_spec c 61); [done|]. rewrite snoc_at, (snoc_len pre c), IH by done. f_equal.
      destruct (decide (n = name)) as [->|]; [rewrite decide_True by done|rewrite decide_False by congruence; done].
      rewrite length_app. cbn. lia.
    + rewrite decide_False by congruence. by destruct (Z.eqb_spec a 0).
Qed.

(** Where a value starts. *)
Fixpoint value_at (i : nat) (name : list Z) (es : list var) : option Z :=
  match es with
  | [] => None
  | x :: es' => if decide (x.1 = name) then Some (Z.of_nat (i + length x.1 + 1))
               else value_at (i + length (enc x)) name es'
  end.

Lemma enc_split pre x post :
  pre ++ enc x ++ post = pre ++ (x.1 ++ 61 :: x.2) ++ 0 :: post.
Proof. unfold enc. by rewrite <-!app_assoc, <-app_comm_cons, <-app_assoc. Qed.

Lemma enc_split_name pre x post :
  pre ++ enc x ++ post = pre ++ x.1 ++ 61 :: x.2 ++ 0 :: post.
Proof. unfold enc. by rewrite <-!app_assoc, <-app_comm_cons, <-app_assoc. Qed.

Lemma text_no_nul x : var_ok x → 0 ∉ x.1 ++ 61 :: x.2.
Proof. intros [(_ & H1 & _) H2]. rewrite elem_of_app, elem_of_cons. by intros [?|[?|?]]. Qed.

Lemma first_char x post pre : var_ok x → ∃ c, c ≠ 0 ∧ idx (pre ++ enc x ++ post) (Z.of_nat (length pre)) = Some c.
Proof.
  intros [(Hne & H1 & _) _]. unfold enc. destruct x.1 as [|c n]; [done|]. exists c.
  apply not_elem_of_cons in H1 as [? _]. split; [done|]. cbn [app]. apply idx_mid.
Qed.

Lemma getenv_loop name t es : name_ok name → Forall var_ok es → ∀ pre rest fuel, (length es < fuel)%nat →
  Z.of_nat (length (pre ++ encs es ++ 0 :: rest)) <= CFG_ENV_SIZE →
  loop fuel (getenv_step (pre ++ encs es ++ 0 :: rest) (name ++ 0 :: t)) (Z.of_nat (length pre))
    = Some (value_at (length pre) name es).
Proof.
  intros (_ & N0 & N61). induction 1 as [|x es Hx _ IH]; intros pre rest fuel Hf Hl;
    (destruct fuel as [|fuel]; [lia|]); cbn [loop].
  - change (encs []) with (@nil Z). cbn [app]. unfold getenv_step at 1, env_get_char_memory. by rewrite idx_mid.
  - rewrite encs_cons, <-app_assoc in *. unfold getenv_step at 1, env_get_char_memory.
    destruct (first_char x (encs es ++ 0 :: rest) pre Hx) as (c & Hc & ->). cbn [mbind option_bind].
    destruct (Z.eqb_spec c 0); [done|].
    rewrite enc_split at 1. rewrite end_check_spec; [|by apply text_no_nul|by rewrite <-enc_split].
    cbn [mbind option_bind]. destruct Hx as [(_ & X0 & X61) _].
    rewrite enc_split_name at 1. rewrite envmatch_spec by done. cbn [mbind option_bind value_at].
    destruct (decide (x.1 = name)).
    + by destruct (Z.ltb_spec (Z.of_nat (length pre + length x.1 + 1)) 0); [lia|].
    + cbn [Z.ltb Z.compare]. rewrite app_assoc in Hl |- *.
      replace (Z.of_nat (length pre + length (x.1 ++ 61 :: x.2)) + 1) with (Z.of_nat (length (pre ++ enc x)))
        by (rewrite length_app, enc_length, length_app; cbn [length]; lia).
      rewrite IH by (done || (cbn in Hf; lia)). by rewrite length_app.
Qed.

(** The value is where [value_at] says. *)
Lemma value_at_assoc name es pre rest : Forall var_ok es →
  match assoc name es with
  | None => value_at (length pre) name es = None
  | Some v => (0 ∉ v) ∧ ∃ p q, value_at (length pre) name es = Some (Z.of_nat (length p)) ∧
      pre ++ encs es ++ rest = p ++ v ++ 0 :: q
  end.
Proof.
  intros H. revert pre. induction H as [|x es [_ Hx] _ IH]; intros pre; cbn [assoc value_at]; [done|].
  rewrite encs_cons, <-app_assoc. destruct (decide (x.1 = name)) as [<-|].
  - split; [done|]. exists (pre ++ x.1 ++ [61]), (encs es ++ rest). split.
    + rewrite !length_app. cbn [length]. do 2 f_equal. lia.
    + rewrite enc_split_name, <-!app_assoc. done.
  - rewrite (app_assoc pre), <-length_app. apply IH.
Qed.

Lemma entries_fit es (pre rest : list Z) : (length es < S (length (pre ++ encs es ++ 0%Z :: rest)))%nat.
Proof.
  rewrite !length_app. assert (length es <= length (encs es))%nat; [|lia].
  induction es as [|x es IH]; [done|]. rewrite encs_cons, length_app, enc_length. cbn [length]. lia.
Qed.

Lemma getenv_spec env es name t : env_ok env es → name_ok name →
  match assoc name es with
  | None => getenv env (name ++ 0 :: t) = Some None
  | Some v => (0 ∉ v) ∧ ∃ p q, getenv env (name ++ 0 :: t) = Some (Some (Z.of_nat (length p))) ∧ env = p ++ v ++ 0 :: q
  end.
Proof.
  intros Henv Hn. pose proof (eo_size _ _ Henv) as Hsz. pose proof (eo_vars _ _ Henv) as Hes.
  destruct (env_front _ _ Henv) as [rest ->]. unfold getenv.
  pose proof (getenv_loop name t es Hn Hes [] rest _ (entries_fit es [] rest)) as E.
  cbn [length app] in E. change (Z.of_nat 0) with 0 in E.
  rewrite E by (rewrite Hsz; unfold ENV_SIZE, CFG_ENV_SIZE; lia).
  pose proof (value_at_assoc name es [] (0 :: rest) Hes) as Hv. cbn [length app] in Hv.
  destruct (assoc name es) as [v|]; [|by rewrite Hv]. destruct Hv as (Hv0 & p & q & -> & Hv). eauto 10.
Qed.

(** ** Deleting *)

Lemma find_loop name t es : name_ok name → Forall var_ok es → ∀ pre rest fuel, (length es < fuel)%nat →
  loop fuel (find_step (pre ++ encs es ++ 0 :: rest) (name ++ 0 :: t)) (Z.of_nat (length pre)) =
    Some (match list_find (λ x : var, x.1 = name) es with
          | Some (k, x) => Some (Z.of_nat (length (pre ++ encs (take k es))),
                                Z.of_nat (length (pre ++ encs (take k es)) + length (enc x) - 1))
          | None => None
          end).
Proof.
  intros (_ & N0 & N61). induction 1 as [|x es Hx _ IH]; intros pre rest fuel Hf;
    (destruct fuel as [|fuel]; [lia|]); cbn [loop].
  - change (encs []) with (@nil Z). cbn [app]. unfold find_step at 1, env_get_char_memory. by rewrite idx_mid.
  - rewrite encs_cons, <-app_assoc in *. unfold find_step at 1, env_get_char_memory.
    destruct (first_char x (encs es ++ 0 :: rest) pre Hx) as (c & Hc & ->). cbn [mbind option_bind].
    destruct (Z.eqb_spec c 0); [done|].
    rewrite enc_split at 1. rewrite end_of_spec by (by apply text_no_nul).
    cbn [mbind option_bind]. destruct Hx as [(_ & X0 & X61) _].
    rewrite enc_split_name at 1. rewrite envmatch_spec by done. cbn [mbind option_bind list_find].
    destruct (decide (x.1 = name)).
    + destruct (Z.leb_spec 0 (Z.of_nat (length pre + length x.1 + 1))); [|lia].
      cbn [take]. change (encs []) with (@nil Z). rewrite app_nil_r. do 4 f_equal.
      rewrite enc_length, length_app. cbn [length]. lia.
    + change (0 <=? -1) with false. cbv iota. rewrite app_assoc.
      replace (Z.of_nat (length pre + length (x.1 ++ 61 :: x.2)) + 1) with (Z.of_nat (length (pre ++ enc x)))
        by (rewrite length_app, enc_length, length_app; cbn [length]; lia).
      rewrite IH by (cbn in Hf; lia). destruct (list_find _ es) as [[k y]|]; [|done].
      cbn [fmap option_fmap option_map prod_map take]. by rewrite encs_cons, <-app_assoc.
Qed.

Lemma find_old_spec env es name t : env_ok env es → name_ok name →
  find_old env (name ++ 0 :: t) =
    Some (match list_find (λ x : var, x.1 = name) es with
          | Some (k, x) => Some (Z.of_nat (length (encs (take k es))),
                                Z.of_nat (length (encs (take k es)) + length (enc x) - 1))
          | None => None
          end).
Proof.
  intros Henv Hn. pose proof (eo_vars _ _ Henv) as Hes. destruct (env_front _ _ Henv) as [rest ->].
  unfold find_old. pose proof (find_loop name t es Hn Hes [] rest _ (entries_fit es [] rest)) as E.
  exact E.
Qed.

(** No empty string before the end. *)
Definition dense (l : list Z) : Prop := ∀ a b c, l = a ++ 0 :: b :: c → b ≠ 0.

Lemma dense_tail a l : dense (a :: l) → dense l.
Proof. intros H x b c ->. by apply (H (a :: x) b c). Qed.

Lemma dense_encs es : Forall var_ok es → dense (encs es).
Proof.
  induction 1 as [|x es Hx Hes IH]; intros a b c E; [by destruct a|]. rewrite encs_cons in E.
  unfold enc in E. rewrite <-app_assoc, <-app_comm_cons, <-app_assoc, (app_comm_cons x.2), app_assoc in E.
  pose proof (text_no_nul x Hx) as Ht. remember (x.1 ++ 61 :: x.2) as t eqn:Et. clear Et.
  revert a E. induction t as [|y t IHt]; intros a E.
  - cbn [app] in E. destruct a as [|a0 a].
    + cbn [app] in E. injection E as E. destruct Hes as [|z es [(Hne & Hz & _) _] _]; [done|].
      rewrite encs_cons in E. unfold enc in E. destruct z.1 as [|w n]; [done|].
      cbn [app] in E. injection E as <- _. by apply not_elem_of_cons in Hz as [? _].
    + cbn [app] in E. injection E as _ E. by apply (IH a b c).
  - apply not_elem_of_cons in Ht as [Hy Ht]. destruct a as [|a0 a]; cbn [app] in E.
    + by injection E as E _.
    + injection E as _ E. by apply (IHt Ht a).
Qed.

Lemma encs_last es : es ≠ [] → ∃ l, encs es = l ++ [0].
Proof.
  intros H. destruct (exists_last H) as (es' & x & ->). rewrite encs_app. unfold encs at 2. cbn [fmap list_fmap concat].
  rewrite app_nil_r. unfold enc. exists (encs es' ++ x.1 ++ 61 :: x.2). by rewrite <-!app_assoc, <-app_comm_cons.
Qed.

Lemma upd_at {A} (l pre post : list A) c c' i :
  l = pre ++ c :: post → i = Z.of_nat (length pre) → upd l i c' = Some (pre ++ c' :: post).
Proof.
  intros ->. apply upd_behind.
Qed.

(** The two obligations of [idx_at] and [upd_at]. *)
Ltac at_place :=
  first
    [ solve [rewrite <-?app_assoc; cbn [app]; rewrite <-?app_assoc; cbn [app]; rewrite <-?app_assoc; reflexivity]
    | solve [rewrite ?length_app; cbn [length]; rewrite ?length_app; cbn [length]; lia] ].

(** The entries behind a gap move over it. *)
Lemma shift_loop l : ∀ (A gap rest : list Z) fuel, dense (l ++ [0]) → gap ≠ [] → (length l < fuel)%nat →
  ∃ gap', length gap' = length gap ∧
    loop fuel shift_step (A ++ gap ++ (l ++ [0]) ++ 0 :: rest, Z.of_nat (length A), Z.of_nat (length A + length gap))
      = Some (A ++ (l ++ [0]) ++ gap' ++ 0 :: rest, Z.of_nat (length A + length l)).
Proof.
  induction l as [|c l IH]; intros A gap rest fuel Hd Hg Hf; (destruct fuel as [|fuel]; [lia|]);
    (destruct gap as [|g gap]; [done|]); cbn [loop app]; unfold shift_step at 1.
  - erewrite (idx_at _ (A ++ g :: gap) (0 :: rest) 0) by at_place.
    cbn [mbind option_bind]. erewrite (upd_at _ A) by done. cbn [mbind option_bind]. change (0 =? 0) with true. cbv iota.
    erewrite (idx_at _ (A ++ 0 :: gap ++ [0]) rest 0) by at_place.
    cbn [mbind option_bind]. change (0 =? 0) with true. cbv iota. exists (gap ++ [0]). split.
    + rewrite length_app. cbn. lia.
    + rewrite <-!app_assoc. cbn [app length]. do 2 f_equal. lia.
  - remember (l ++ [0]) as tl eqn:Htl. assert (dense (c :: tl)) as Hd' by (by rewrite Htl).
    erewrite (idx_at _ (A ++ g :: gap) (tl ++ 0 :: rest) c) by at_place.
    cbn [mbind option_bind]. erewrite (upd_at _ A) by done. cbn [mbind option_bind].
    assert ((if c =? 0 then d ← idx (A ++ c :: gap ++ c :: tl ++ 0 :: rest) (Z.of_nat (length A + length (g :: gap)) + 1); Some (d =? 0)
             else Some false) = Some false) as ->.
    { destruct (Z.eqb_spec c 0) as [->|]; [|done]. assert (∃ b tl', tl = b :: tl') as (b & tl' & Etl) by (rewrite Htl; destruct l; cbn; eauto).
      rewrite Etl in Hd' |- *. erewrite (idx_at _ (A ++ 0 :: gap ++ [0]) (tl' ++ 0 :: rest) b) by at_place.
      cbn [mbind option_bind]. by destruct (Z.eqb_spec b 0) as [->|]; [destruct (Hd' [] 0 tl')|]. }
    cbn [mbind option_bind]. cbv iota.
    destruct (IH (A ++ [c]) (gap ++ [c]) rest fuel) as (gap' & Hl & E); [by eapply dense_tail|by destruct gap|cbn in Hf; lia|].
    exists gap'. split; [rewrite Hl, length_app; cbn; lia|].
    replace (A ++ c :: gap ++ c :: tl ++ 0 :: rest) with ((A ++ [c]) ++ (gap ++ [c]) ++ tl ++ 0 :: rest)
      by (rewrite <-!app_assoc; cbn [app]; done).
    replace (Z.of_nat (length A) + 1) with (Z.of_nat (length (A ++ [c]))) by (rewrite length_app; cbn; lia).
    replace (Z.of_nat (length A + length (g :: gap)) + 1) with (Z.of_nat (length (A ++ [c]) + length (gap ++ [c])))
      by (rewrite !length_app; cbn [length]; lia).
    rewrite E. rewrite <-!app_assoc. cbn [app length]. rewrite length_app. cbn [length]. do 2 f_equal. lia.
Qed.

(** The block without an entry. *)
Lemma delete_spec env es k x :
  env_ok env es → es !! k = Some x →
  let e := length (encs (take k es)) in
  ∃ env', delete_entry env (Z.of_nat e) (Z.of_nat (e + length (enc x) - 1)) = Some env' ∧
    env_ok env' (take k es ++ drop (S k) es).
Proof.
  intros [Hsz Hes [rest0 Henv]] Hk. cbv zeta. pose proof (take_drop_middle _ _ _ Hk) as Hsplit.
  set (es1 := take k es) in *. set (es2 := drop (S k) es) in *.
  assert (∃ rest, env = encs es1 ++ enc x ++ encs es2 ++ 0 :: rest) as [rest Erest].
  { exists rest0. rewrite Henv. destruct es as [|y es']; [done|]. cbn [encode].
    rewrite <-Hsplit, encs_app, encs_cons, <-!app_assoc. done. }
  assert (Forall var_ok es1 ∧ var_ok x ∧ Forall var_ok es2) as (H1 & Hx & H2).
  { rewrite <-Hsplit, Forall_app, Forall_cons in Hes. tauto. }
  assert (0 < length (enc x))%nat as Hlx by (rewrite enc_length; lia).
  unfold delete_entry.
  assert (Z.of_nat (length (encs es1) + length (enc x) - 1) + 1 = Z.of_nat (length (encs es1 ++ enc x))) as ->
    by (rewrite length_app; lia).
  destruct (decide (es2 = [])) as [E2|E2].
  - (** the last entry *)
    rewrite E2 in *. change (encs []) with (@nil Z) in Erest. cbn [app] in Erest.
    erewrite (idx_at _ (encs es1 ++ enc x) rest 0) by (by rewrite Erest, <-app_assoc || done).
    cbn [mbind option_bind]. change (0 =? 0) with true. cbv iota. rewrite app_nil_r.
    destruct (enc x) as [|a [|b l]] eqn:Ex; [cbn in Hlx; lia| |].
    { apply (f_equal length) in Ex. rewrite enc_length in Ex. cbn in Ex. lia. }
    destruct (decide (es1 = [])) as [E1|E1].
    + rewrite E1 in *. change (encs []) with (@nil Z) in *. cbn [app length Nat.sub Nat.add] in *.
      change (0 <? Z.of_nat 0) with false. cbv iota.
      erewrite (upd_at _ [] (b :: l ++ 0 :: rest) a) by done. cbn [mbind option_bind app].
      erewrite (upd_at _ [0] (l ++ 0 :: rest) b) by done. eexists. split; [done|].
      split; [|constructor|by exists (l ++ 0 :: rest)]. rewrite <-Hsz, Erest. done.
    + destruct (encs_last es1 E1) as [l1 El1].
      assert (0 < length (encs es1))%nat as Hl1 by (rewrite El1, length_app; cbn; lia).
      destruct (Z.ltb_spec 0 (Z.of_nat (length (encs es1)))); [|lia]. cbn [mbind option_bind].
      rewrite Z.sub_add. erewrite (upd_at _ (encs es1) (b :: l ++ 0 :: rest) a) by (by rewrite Erest || done).
      eexists. split; [done|]. split; [|done|].
      * rewrite <-Hsz, Erest, !length_app. cbn [length]. rewrite ?length_app. cbn [length]. lia.
      * exists (b :: l ++ 0 :: rest). destruct es1; [done|]. cbn [encode]. by rewrite <-app_assoc.
  - (** entries behind *)
    destruct (encs_last es2 E2) as [l2 El2]. pose proof (dense_encs es2 H2) as Hd. rewrite El2 in Hd.
    destruct (first_char (hd x es2) (encs (tail es2) ++ 0 :: rest) (encs es1 ++ enc x)) as (c & Hc & Ec);
      [by destruct H2|].
    assert (idx env (Z.of_nat (length (encs es1 ++ enc x))) = Some c) as ->.
    { rewrite <-Ec, Erest. destruct es2; [done|]. cbn [hd tail]. rewrite encs_cons, <-!app_assoc. done. }
    cbn [mbind option_bind]. destruct (Z.eqb_spec c 0); [done|].
    destruct (shift_loop l2 (encs es1) (enc x) rest (S (length env)) Hd) as (gap & Hgap & E);
      [intros Ex; rewrite Ex in Hlx; cbn in Hlx; lia|rewrite Erest, El2, !length_app; lia|].
    rewrite <-El2, <-Erest in E. rewrite length_app, E. cbn [mbind option_bind].
    destruct gap as [|g gap]; [cbn in Hgap; lia|].
    erewrite (upd_at _ (encs es1 ++ encs es2) (gap ++ 0 :: rest) g);
      [|by rewrite <-app_assoc|rewrite El2, !length_app; cbn; lia].
    eexists. split; [done|]. split.
    + rewrite <-Hsz, Erest, !length_app. cbn [length] in *. rewrite !length_app. cbn [length]. lia.
    + apply Forall_app. done.
    + exists (gap ++ 0 :: rest). assert (es1 ++ es2 ≠ []) by (by destruct es1, es2).
      destruct (es1 ++ es2) eqn:E12; [done|]. cbn [encode]. rewrite <-E12, encs_app, <-!app_assoc. done.
Qed.

Lemma remove_find name es :
  remove_first name es = match list_find (λ x : var, x.1 = name) es with
                         | Some (k, _) => take k es ++ drop (S k) es
                         | None => es
                         end.
Proof.
  induction es as [|x es IH]; [done|]. cbn [remove_first list_find]. destruct (decide (x.1 = name)); [done|].
  rewrite IH. destruct (list_find _ es) as [[k y]|]; done.
Qed.

(** ** Appending *)

Lemma last_loop l : ∀ pre rest fuel, dense (l ++ [0]) → (length l < fuel)%nat →
  loop fuel (last_step (pre ++ (l ++ [0]) ++ 0 :: rest)) (Z.of_nat (length pre))
    = Some (Z.of_nat (length pre + length l)).
Proof.
  induction l as [|c l IH]; intros pre rest fuel Hd Hf; (destruct fuel as [|fuel]; [lia|]); cbn [loop app];
    unfold last_step at 1; rewrite idx_mid; cbn [mbind option_bind].
  - change (0 =? 0) with true. cbv iota. erewrite (idx_at _ (pre ++ [0]) rest 0) by at_place.
    cbn [mbind option_bind]. change (0 =? 0) with true. cbn [negb length]. do 2 f_equal. lia.
  - assert ((if c =? 0 then d ← idx (pre ++ c :: (l ++ [0]) ++ 0 :: rest) (Z.of_nat (length pre) + 1); Some (negb (d =? 0))
             else Some true) = Some true) as ->.
    { destruct (Z.eqb_spec c 0) as [->|]; [|done].
      assert (∃ b tl, l ++ [0] = b :: tl) as (b & tl & Etl) by (destruct l; cbn; eauto).
      rewrite Etl in *. cbn [app] in Hd. rewrite Etl in Hd. erewrite (idx_at _ (pre ++ [0]) (tl ++ 0 :: rest) b) by at_place.
      cbn [mbind option_bind]. by destruct (Z.eqb_spec b 0) as [->|]; [destruct (Hd [] 0 tl)|]. }
    cbn [mbind option_bind]. cbv iota. rewrite snoc_at, (snoc_len pre c).
    rewrite IH; [|by eapply dense_tail|cbn in Hf; lia]. rewrite length_app. cbn [length]. do 2 f_equal. lia.
Qed.

Lemma last_entry_spec env es : env_ok env es → last_entry env = Some (Z.of_nat (length (encs es))).
Proof.
  intros [_ Hes [rest ->]]. unfold last_entry. destruct (decide (es = [])) as [->|Hne]; [done|].
  destruct (encs_last es Hne) as [l El]. pose proof (dense_encs es Hes) as Hd. rewrite El in Hd.
  assert (encode es ++ rest = (l ++ [0]) ++ 0 :: rest) as ->.
  { destruct es; [done|]. cbn [encode]. by rewrite El, <-!app_assoc. }
  pose proof (last_loop l [] rest (S (length ((l ++ [0]) ++ 0 :: rest))) Hd ltac:(rewrite !length_app; lia)) as E.
  cbn [app length] in E. change (Z.of_nat 0) with 0 in E. rewrite E. cbn [mbind option_bind Nat.add].
  assert (l ≠ []).
  { intros ->. destruct es as [|x es]; [done|]. apply (f_equal length) in El.
    rewrite encs_cons, length_app, enc_length in El. cbn in El. lia. }
  destruct (Z.ltb_spec 0 (Z.of_nat (length l))); [|destruct l; [done|cbn [length] in *; lia]].
  rewrite El, length_app. cbn [length]. do 2 f_equal. lia.
Qed.

Lemma put_chars_spec s t : ∀ pre mid x post, 0 ∉ s → length mid = length s →
  put_chars (pre ++ mid ++ x :: post) (Z.of_nat (length pre)) (s ++ 0 :: t)
    = Some (pre ++ s ++ 0 :: post, Z.of_nat (length pre + length s)).
Proof.
  induction s as [|c s IH]; intros pre mid x post Hs Hl; cbn [app put_chars].
  - destruct mid; [|done]. cbn [app]. erewrite upd_at by done. cbn [mbind option_bind length].
    change (0 =? 0) with true. cbv iota. do 2 f_equal. lia.
  - apply not_elem_of_cons in Hs as [Hc Hs]. destruct mid as [|m mid]; [done|]. cbn [app].
    erewrite upd_at by done. cbn [mbind option_bind]. destruct (Z.eqb_spec c 0); [done|].
    rewrite snoc_at, (snoc_len pre c), IH by (done || by injection Hl). rewrite <-app_assoc, length_app.
    cbn [length app]. do 2 f_equal. lia.
Qed.

(** The text of the arguments. *)
Fixpoint args_text (sep : Z) (args : list (list Z)) : list Z :=
  match args with [] => [] | a :: args' => sep :: cut a ++ args_text 32 args' end.

Lemma cut_split a : 0 ∈ a → ∃ t, a = cut a ++ 0 :: t.
Proof.
  induction a as [|x a IH]; intros H; [by apply not_elem_of_nil in H|]. cbn [cut].
  destruct (Z.eqb_spec x 0) as [->|]; [by exists a|]. apply elem_of_cons in H as [|H]; [done|].
  destruct (IH H) as [t E]. exists t. cbn [app]. by rewrite E at 1.
Qed.

Lemma put_args_spec args : Forall (λ a, 0 ∈ a) args → ∀ sep pre mid post,
  length mid = S (length (args_text sep args)) → (args = [] → mid = [0]) →
  put_args sep (pre ++ mid ++ post, Z.of_nat (length pre)) args =
    Some (pre ++ args_text sep args ++ 0 :: post, Z.of_nat (length pre + length (args_text sep args))).
Proof.
  induction 1 as [|a args Ha _ IH]; intros sep pre mid post Hl Hm; cbn [put_args args_text].
  - rewrite Hm by done. cbn [app length]. do 2 f_equal. lia.
  - destruct mid as [|m mid]; [done|]. cbn [put_arg app args_text length] in *. injection Hl as Hl.
    rewrite length_app in Hl. erewrite upd_at by done. cbn [mbind option_bind].
    destruct (cut_split a Ha) as [t Et]. pose proof (cut_nonzero a) as H0.
    rewrite <-(take_drop (length (cut a)) mid). destruct (drop (length (cut a)) mid) as [|x rest] eqn:Ed.
    { apply (f_equal length) in Ed. rewrite length_drop in Ed. cbn in Ed. lia. }
    rewrite <-app_assoc. cbn [app]. rewrite (snoc_at pre sep), (snoc_len pre sep).
    rewrite Et at 2. rewrite put_chars_spec; [|done|rewrite length_take; lia]. cbn [mbind option_bind].
    rewrite <-length_app, (app_assoc (pre ++ [sep])).
    apply (f_equal length) in Ed. rewrite length_drop in Ed. cbn [length] in Ed.
    change (0 :: rest ++ post) with ((0 :: rest) ++ post). rewrite IH.
    + rewrite <-!app_assoc. cbn [app]. rewrite <-?app_assoc, !length_app. cbn [length]. rewrite ?length_app.
      do 2 f_equal. lia.
    + cbn [length]. lia.
    + intros ->. cbn in Hl. by destruct rest; [|cbn in Ed; lia].
Qed.

Lemma args_length_spec args : Forall (λ a, 0 ∈ a) args →
  args_length args = Some (Z.of_nat (length (args_text 32 args))).
Proof.
  induction 1 as [|a args Ha _ IH]; [done|]. unfold args_length in *. cbn [foldr args_text length].
  rewrite c_strlen_Some by done. cbn [mbind option_bind]. rewrite IH. cbn [mbind option_bind].
  rewrite length_app. f_equal. lia.
Qed.

(** The value the arguments make. *)
Definition value_of (args : list (list Z)) : list Z := tail (args_text 61 args).

Lemma text_sep sep sep' args : length (args_text sep args) = length (args_text sep' args).
Proof. by destruct args. Qed.

Lemma value_no_nul args : 0 ∉ value_of args.
Proof.
  unfold value_of. destruct args as [|a args]; [apply not_elem_of_nil|]. cbn [args_text tail].
  rewrite elem_of_app. intros [H|H]; [by apply (cut_nonzero a)|].
  assert (∀ l, 0 ∉ args_text 32 l) as Hn; [|by apply (Hn args)]. clear. induction l as [|b l IH]; cbn [args_text].
  - apply not_elem_of_nil.
  - rewrite elem_of_cons, elem_of_app. intros [?|[?|?]]; [done|by apply (cut_nonzero b)|done].
Qed.

Lemma append_spec env es name t args :
  env_ok env es → name_ok name → args ≠ [] → Forall (λ a, 0 ∈ a) args →
  let x := (name, value_of args) in
  if Z.of_nat (length (encs es) + length (enc x) + 1) <=? ENV_SIZE then
    ∃ env', append_entry env (name ++ 0 :: t) args = Some (Some env') ∧ env_ok env' (es ++ [x])
  else append_entry env (name ++ 0 :: t) args = Some None.
Proof.
  intros Henv Hname Hne Hargs x. pose proof Hname as (N1 & N0 & N61).
  pose proof (eo_size _ _ Henv) as Hsz. unfold append_entry. rewrite (last_entry_spec _ _ Henv).
  cbn [mbind option_bind]. rewrite c_strlen_app by done. cbn [mbind option_bind].
  rewrite args_length_spec by done. cbn [mbind option_bind].
  assert (length (args_text 32 args) = S (length (value_of args))) as Hlt.
  { unfold value_of. rewrite (text_sep 32 61). by destruct args. }
  assert (length (enc x) = length name + length (args_text 32 args) + 1)%nat as Hx
    by (rewrite enc_length, Hlt; cbn; lia).
  destruct (Z.leb_spec (Z.of_nat (length (encs es) + length (enc x) + 1)) ENV_SIZE);
    destruct (Z.ltb_spec (ENV_SIZE - Z.of_nat (length (encs es)))
      (Z.of_nat (length name) + 2 + Z.of_nat (length (args_text 32 args)))); try lia; [|done].
  pose proof (eo_vars _ _ Henv) as Hes. destruct (env_front _ _ Henv) as [rest0 ->].
  remember (0 :: rest0) as r eqn:Er. rewrite length_app in Hsz.
  assert (∃ m1 x1 m2 x2 post, r = m1 ++ (x1 :: m2) ++ x2 :: post ∧ length m1 = length name ∧
    length m2 = length (args_text 32 args)) as (m1 & x1 & m2 & x2 & post & -> & L1 & L2).
  { exists (take (length name) r).
    destruct (drop (length name) r) as [|x1 r1] eqn:E1; [apply (f_equal length) in E1; rewrite length_drop in E1; cbn in E1; lia|].
    exists x1, (take (length (args_text 32 args)) r1).
    destruct (drop (length (args_text 32 args)) r1) as [|x2 r2] eqn:E2.
    { apply (f_equal length) in E1, E2. rewrite length_drop in E1, E2. cbn in E1, E2. lia. }
    exists x2, r2. apply (f_equal length) in E1 as L1, E2 as L2. rewrite length_drop in L1, L2. cbn in L1, L2.
    split; [|rewrite !length_take; lia]. rewrite <-(take_drop (length name) r) at 1. rewrite E1. f_equal. cbn [app].
    f_equal. rewrite <-E2. by rewrite take_drop. }
  rewrite <-app_comm_cons, put_chars_spec by done. cbn [mbind option_bind].
  rewrite app_assoc, <-length_app. change (0 :: m2 ++ x2 :: post) with ((0 :: m2) ++ x2 :: post).
  rewrite put_args_spec; [|done|cbn [length]; by rewrite (text_sep 61 32), L2|done]. cbn [mbind option_bind].
  erewrite (upd_at _ ((encs es ++ name) ++ args_text 61 args ++ [0]) post x2) by at_place.
  eexists. split; [done|]. split.
  - rewrite <-Hsz, !length_app. cbn [length]. rewrite ?length_app. cbn [length]. rewrite (text_sep 61 32). lia.
  - apply Forall_app. split; [done|]. constructor; [|done]. split; [done|]. apply value_no_nul.
  - exists post. assert (args_text 61 args = 61 :: value_of args) as Et by (unfold value_of; by destruct args).
    rewrite Et. destruct (es ++ [x]) eqn:E; [by destruct es|]. cbn [encode]. rewrite <-E, encs_app.
    unfold encs at 3. cbn [fmap list_fmap concat]. unfold enc, x. cbn [fst snd]. rewrite <-!app_assoc. cbn [app].
    rewrite <-!app_assoc. cbn [app]. done.
Qed.

(** ** [setenv] *)

Lemma is_name_spec name t (s : string) :
  0 ∉ name → 0 ∉ str s → bytes (name ++ 0 :: t) →
  is_name (name ++ 0 :: t) s = Some (bool_decide (name = str s)).
Proof.
  intros Hn Hs Hb. unfold is_name, lit.
  destruct (c_strcmp_spec (name ++ 0 :: t) (str s ++ [0])) as (r & E & Hr).
  - rewrite elem_of_app, elem_of_cons. auto.
  - rewrite elem_of_app, elem_of_cons. auto.
  - done.
  - apply bytes_app. split; [apply str_bytes|by_eval].
  - rewrite E. cbn [mbind option_bind]. f_equal. rewrite !cut_app in Hr by done.
    destruct (Z.eqb_spec r 0); [rewrite bool_decide_true by tauto|rewrite bool_decide_false by tauto]; done.
Qed.

(** The names with an effect of their own. *)
Definition special_names : list string :=
  ["stdin"; "stdout"; "stderr"; "baudrate"; "ethaddr"; "ipaddr"; "loadaddr"]%string.
Definition special : list (list Z) := str <$> special_names.
(** Those whose value is also kept elsewhere. *)
Definition updated_names : list string := ["ethaddr"; "ipaddr"; "loadaddr"]%string.
Definition updated : list (list Z) := str <$> updated_names.
Lemma special_updated name : name ∈ updated → name ∈ special.
Proof.
  unfold updated, special, updated_names, special_names. cbn [fmap list_fmap]. rewrite !elem_of_cons. tauto.
Qed.

(** What a call leaves: the block and the result. *)
Definition setenv_result (es : list var) (name : list Z) (args : list (list Z)) (env' : list Z) (r : Z) : Prop :=
  let es1 := remove_first name es in
  let x := (name, value_of args) in
  if bool_decide (args = []) then r = 0 ∧ env_ok env' es1
  else if Z.of_nat (length (encs es1) + length (enc x) + 1) <=? ENV_SIZE
  then r = 0 ∧ env_ok env' (es1 ++ [x]) else r = 1 ∧ env_ok env' es1.

Section setenv.
Context {C : Type} `{Console C}.
Implicit Types (s : env_state C).

Context (name t : list Z) (Hname : name_ok name) (Hb : bytes (name ++ 0 :: t)).

Lemma not_named (names : list string) x : Forall (λ x, 0 ∉ str x) names → name ∉ str <$> names → x ∈ names →
  is_name (name ++ 0 :: t) x = Some false.
Proof using Hname Hb.
  intros Hs Hnew Hin. rewrite is_name_spec; [|apply Hname| |done].
  - f_equal. apply bool_decide_false. intros ->. by apply Hnew, list_elem_of_fmap_2.
  - by eapply Forall_forall in Hs.
Qed.

Lemma not_updated (x : string) : name ∉ updated → In x updated_names → is_name (name ++ 0 :: t) x = Some false.
Proof using Hname Hb. intros H1 H2. apply (not_named updated_names); [by_eval|done|by apply list_elem_of_In]. Qed.

Lemma not_special (x : string) : name ∉ special → In x special_names → is_name (name ++ 0 :: t) x = Some false.
Proof using Hname Hb. intros H1 H2. apply (not_named special_names); [by_eval|done|by apply list_elem_of_In]. Qed.

Lemma wp_delete_old argc argv k x es s (Q : env_state C → bool → Prop) :
  name ∉ special → env_ok (env_bytes s) es → es !! k = Some x →
  (∀ env', env_ok env' (take k es ++ drop (S k) es) → Q (set_env_bytes env' s) true) →
  wp (delete_old argc argv (name ++ 0 :: t) (Z.of_nat (length (encs (take k es))))
    (Z.of_nat (length (encs (take k es)) + length (enc x) - 1))) s Q.
Proof using Hname Hb.
  intros Hord Henv Hk HQ. unfold delete_old, redirect, switch_baudrate. do 2 apply wp_bind.
  eapply wp_lift; [unfold console_of; rewrite !not_special by (done || cbn; tauto); reflexivity|]. apply wp_ret. cbn [negb].
  do 2 apply wp_bind. eapply wp_lift; [by apply not_special; cbn; tauto|]. cbn [negb]. apply wp_ret. cbn [negb].
  apply wp_bind, wp_get. destruct (delete_spec _ es k x Henv Hk) as (env' & E & Henv').
  apply wp_bind. eapply wp_lift; [exact E|]. apply wp_bind, wp_modify, wp_ret. by apply HQ.
Qed.

(** The part behind the deletion, for a name no variable of which is kept
    elsewhere. *)
Lemma wp_setenv_rest cmd args more s es (Q : env_state C → Z → Prop) :
  name ∉ updated → Forall (λ a, 0 ∈ a) args → env_ok (env_bytes s) es →
  wp (match list_find (λ x : var, x.1 = name) es with
      | Some (k, x) => delete_old (2 + Z.of_nat (length args)) (Some cmd :: Some (name ++ 0 :: t) :: (Some <$> args) ++ more) (name ++ 0 :: t)
          (Z.of_nat (length (encs (take k es)))) (Z.of_nat (length (encs (take k es)) + length (enc x) - 1))
      | None => mret true
      end) s (λ s' go, go = true ∧ ∃ env1, s' = set_env_bytes env1 s ∧ env_ok env1 (remove_first name es)) →
  (∀ env' r,
    setenv_result es name args env' r →
    Q (set_env_bytes env' s) r) →
  wp (_do_setenv (2 + Z.of_nat (length args)) (Some cmd :: Some (name ++ 0 :: t) :: (Some <$> args) ++ more)) s Q.
Proof using Hname Hb.
  intros Hupd Hargs Henv Hdel HQ. unfold setenv_result in HQ. set (es1 := remove_first name es) in *.
  set (x := (name, value_of args)) in *. unfold _do_setenv. apply wp_bind. eapply wp_lift; [reflexivity|].
  apply wp_bind, wp_get. apply wp_bind. eapply wp_lift; [by apply find_old_spec|].
  apply wp_bind. eapply wp_mono.
  { fold x in Hdel. destruct (list_find (λ x0 : var, x0.1 = name) es) as [[k y]|]; exact Hdel. }
  cbn beta.
  intros s1 go (-> & env1 & -> & Henv1). cbn [negb]. cbv iota.
  destruct args as [|a args].
  - cbn [length]. change (2 + Z.of_nat 0 <? 3) with true. cbv iota. apply wp_ret, HQ. done.
  - destruct (Z.ltb_spec (2 + Z.of_nat (length (a :: args))) 3); [cbn [length] in *; lia|].
    apply wp_bind. eapply wp_lift; [reflexivity|]. cbn beta iota. apply wp_bind.
    apply (wp_lift _ _ _ (a :: args)).
    { replace (Z.to_nat (2 + Z.of_nat (length (a :: args)) - 2)) with (length (Some <$> (a :: args)))
        by (rewrite length_fmap; lia).
      cbn [drop]. rewrite drop_0, take_app_length. clear. induction (a :: args) as [|b l IH]; [done|].
      cbn [fmap list_fmap mapM id]. cbn [mbind option_bind]. by rewrite IH. }
    apply wp_bind, wp_get.
    pose proof (append_spec env1 es1 name t (a :: args) Henv1 Hname ltac:(done) Hargs) as Ha. cbv zeta in Ha. fold x in Ha.
    change (bool_decide (a :: args = [])) with false in HQ. cbv iota in HQ.
    destruct (Z.of_nat (length (encs es1) + length (enc x) + 1) <=? ENV_SIZE).
    + destruct Ha as (env2 & E & Henv2). apply wp_bind. eapply wp_lift; [exact E|]. cbn beta iota.
      apply wp_bind, wp_modify. unfold update_variables.
      do 3 (apply wp_bind; eapply wp_lift; [by apply not_updated; cbn; tauto|]; cbv iota beta). apply wp_ret.
      by apply (HQ env2 0).
    + apply wp_bind. eapply wp_lift; [exact Ha|]. apply wp_ret. by apply (HQ env1 1).
Qed.

Lemma wp_setenv cmd args more s es (Q : env_state C → Z → Prop) :
  name ∉ special → env_ok (env_bytes s) es → Forall (λ a, 0 ∈ a) args →
  (∀ env' r,
    setenv_result es name args env' r →
    Q (set_env_bytes env' s) r) →
  wp (_do_setenv (2 + Z.of_nat (length args)) (Some cmd :: Some (name ++ 0 :: t) :: (Some <$> args) ++ more)) s Q.
Proof using Hname Hb.
  intros Hord Henv Hargs HQ. eapply wp_setenv_rest; [|done|done| |done].
  { intros Hin. apply Hord, special_updated, Hin. }
  pose proof (remove_find name es) as Hr. destruct (list_find (λ x0 : var, x0.1 = name) es) as [[k y]|] eqn:Ef.
  - apply list_find_Some in Ef as (Hk & _). eapply wp_delete_old; [done|done|done|].
    intros env1 Henv1. split; [done|]. exists env1. split; [done|]. by rewrite Hr.
  - apply wp_ret. split; [done|]. exists (env_bytes s). split; [by destruct s|]. by rewrite Hr.
Qed.

(** A new variable, whose name may be that of a file of the console. *)
Lemma wp_setenv_new cmd args more s es (Q : env_state C → Z → Prop) :
  name ∉ updated → name ∉ es.*1 → env_ok (env_bytes s) es → Forall (λ a, 0 ∈ a) args →
  (∀ env' r,
    setenv_result es name args env' r →
    Q (set_env_bytes env' s) r) →
  wp (_do_setenv (2 + Z.of_nat (length args)) (Some cmd :: Some (name ++ 0 :: t) :: (Some <$> args) ++ more)) s Q.
Proof using Hname Hb.
  intros Hupd Hnew Henv Hargs HQ. eapply wp_setenv_rest; [done..| |done].
  pose proof (remove_find name es) as Hr. destruct (list_find (λ x0 : var, x0.1 = name) es) as [[k y]|] eqn:Ef.
  - apply list_find_Some in Ef as (Hk & Hy & _). destruct Hnew. subst name. by eapply list_elem_of_fmap_2, list_elem_of_lookup_2.
  - apply wp_ret. split; [done|]. exists (env_bytes s). split; [by destruct s|]. by rewrite Hr.
Qed.
End setenv.

(** C27: [getenv] finds the variable: the index it returns is where the value of
    the first entry with exactly this name is, and it returns the null
    pointer when there is none. *)
Theorem getenv_exact env es name t
    (Henv : env_ok env es)
    (Hname : name_ok name) :
  match assoc name es with
  | None => getenv env (name ++ 0 :: t) = Some None
  | Some v => ∃ i, getenv env (name ++ 0 :: t) = Some (Some i) ∧ 0 <= i ∧ cut (drop (Z.to_nat i) env) = v
  end.
Proof.
  pose proof (getenv_spec env es name t Henv Hname) as H. destruct (assoc name es) as [v|]; [|done].
  destruct H as (H0 & p & q & E & ->). exists (Z.of_nat (length p)). split; [done|]. split; [lia|].
  rewrite Nat2Z.id, drop_app_length. by apply cut_app.
Qed.

(** C11: [setenv] of a variable without effects of its own.  The first entry
    with the name is removed; then, when there is a value, the variable with
    the arguments joined by blanks is appended, or the call fails because it
    does not fit and the variable is gone.  Everything else stays. *)
Theorem setenv_refines {C} `{Console C} (s : env_state C) es cmd name t args more
    (Henv : env_ok (env_bytes s) es)
    (Hname : name_ok name)
    (Hb : bytes (name ++ 0 :: t))
    (Hord : name ∉ special)
    (Hargs : Forall (λ a, 0 ∈ a) args) :
  ∃ env' r,
    _do_setenv (2 + Z.of_nat (length args)) (Some cmd :: Some (name ++ 0 :: t) :: (Some <$> args) ++ more) s
      = Some (set_env_bytes env' s, r) ∧
    setenv_result es name args env' r.
Proof.
  destruct (wp_elim (_do_setenv (2 + Z.of_nat (length args))
      (Some cmd :: Some (name ++ 0 :: t) :: (Some <$> args) ++ more)) s
      (λ s' r, ∃ env', s' = set_env_bytes env' s ∧ setenv_result es name args env' r))
    as (s' & r & E & env' & -> & HP); [|by exists env', r].
  eapply wp_setenv; [done..|]. intros env' r Hr. by exists env'.
Qed.

(** ** [getenv_r] *)

Lemma copy_loop (v : list Z) : ∀ pre post (b1 b2 : list Z) fuel len, 0 ∉ v →
  Z.of_nat (length b1 + length b2) = len → (length b2 < fuel)%nat →
  loop fuel (copy_step (pre ++ v ++ 0 :: post) len (Z.of_nat (length pre) - Z.of_nat (length b1)))
    (b1 ++ b2, Z.of_nat (length b1)) =
  Some (if (length v <? length b2)%nat
        then (b1 ++ v ++ 0 :: drop (S (length v)) b2, Z.of_nat (length b1 + length v + 1))
        else (b1 ++ take (length b2) v, len + 1)).
Proof.
  induction v as [|c v IH]; intros pre post b1 b2 fuel len Hv Hl Hf; (destruct fuel as [|fuel]; [lia|]);
    cbn [loop app]; unfold copy_step at 1, env_get_char_memory;
    (destruct b2 as [|y b2]; cbn [length] in *;
      [destruct (Z.ltb_spec (Z.of_nat (length b1)) len); [lia|]; cbn [take Nat.ltb Nat.leb]; by rewrite <-Hl, Nat.add_0_r|]);
    (destruct (Z.ltb_spec (Z.of_nat (length b1)) len); [|lia]); rewrite Z.sub_add, idx_mid;
    cbn [mbind option_bind]; erewrite (upd_at _ b1 b2 y) by done; cbn [mbind option_bind].
  - change (0 =? 0) with true. cbv iota. cbn [Nat.ltb Nat.leb length drop app]. do 2 f_equal. lia.
  - apply not_elem_of_cons in Hv as [Hc Hv]. destruct (Z.eqb_spec c 0); [done|].
    rewrite snoc_at, (snoc_at b1 c b2), (snoc_len b1 c).
    replace (Z.of_nat (length pre) - Z.of_nat (length b1)) with
      (Z.of_nat (length (pre ++ [c])) - Z.of_nat (length (b1 ++ [c]))) by (rewrite !length_app; cbn [length]; lia).
    rewrite IH; [|done|rewrite length_app; cbn [length]; lia|lia].
    change (S (length v) <? S (length b2))%nat with (length v <? length b2)%nat.
    destruct (length v <? length b2)%nat; [|by rewrite <-app_assoc].
    rewrite <-app_assoc, length_app. cbn [length app drop]. do 2 f_equal. lia.
Qed.

(** [getenv_r] copies the value with its terminator when there is a byte to
    spare.  When the value and its terminator fill the buffer exactly, it
    writes one byte behind it; when the value is longer, the text in the
    buffer has no terminator and the result is more than the buffer holds. *)
Theorem getenv_r_exact env es name t buf v
    (Henv : env_ok env es)
    (Hname : name_ok name)
    (Hv : assoc name es = Some v) :
  let len := Z.of_nat (length buf) in
  getenv_r env (name ++ 0 :: t) buf len =
    if (length buf <=? length v)%nat then Some (take (length buf) v, len + 1)
    else if (length buf =? length v + 1)%nat then None
    else Some (v ++ 0 :: drop (S (length v)) buf, Z.of_nat (length v) + 1).
Proof.
  intros len. pose proof (getenv_spec env es name t Henv Hname) as H. rewrite Hv in H.
  destruct H as (H0 & p & q & E & ->). unfold getenv_r. rewrite E. cbn [mbind option_bind].
  unfold getenv_copy. pose proof (copy_loop v p q [] buf (S (Z.to_nat len)) len H0) as Ec.
  cbn [length app Nat.add] in Ec. change (Z.of_nat 0) with 0 in Ec. rewrite Z.sub_0_r in Ec.
  rewrite Ec by (unfold len; lia). cbn [mbind option_bind].
  destruct (Nat.ltb_spec (length v) (length buf)), (Nat.leb_spec (length buf) (length v)); try lia.
  - destruct (Nat.eqb_spec (length buf) (length v + 1)) as [Hl|Hl].
    + destruct (Z.eqb_spec len (Z.of_nat (length v + 1))); [|unfold len in *; lia]. unfold upd.
      destruct (Z.ltb_spec (Z.of_nat (length v + 1)) (Z.of_nat (length (v ++ 0 :: drop (S (length v)) buf))));
        [|by rewrite andb_false_r]. rewrite length_app in *. cbn [length] in *. rewrite length_drop in *. lia.
    + destruct (Z.eqb_spec len (Z.of_nat (length v + 1))); [unfold len in *; lia|]. cbn [mbind option_bind].
      do 2 f_equal. lia.
  - destruct (Z.eqb_spec len (len + 1)); [lia|]. done.
Qed.

(** An entry without '=' that is the whole name: [envmatch] goes on behind the
    terminators of both strings. *)
Lemma envmatch_runs_on :
  envmatch (str "b" ++ [0; 0]) (lit "b") 0 = None.
Proof. done. Qed.

(** ** Examples *)

Definition demo_vars : list var :=
  [(str "bootcmd", str "booti mmc1"); (str "bootdelay", str "1"); (str "stdin", str "serial")].
Definition demo_block : list Z := encode demo_vars ++ replicate (Z.to_nat ENV_SIZE - length (encode demo_vars)) 0.
#[local] Instance demo_console : Console unit := {| console_assign c _ _ := Some (c, 0) |}.
Definition demo_env : env_state unit := mkEnv demo_block tt 115200 [] 0 0 [].

(** A block that is filled up with zeros. *)
Lemma padded_env_ok es : Forall var_ok es → (length (encode es) <=? Z.to_nat ENV_SIZE)%nat = true →
  env_ok (encode es ++ replicate (Z.to_nat ENV_SIZE - length (encode es)) 0) es.
Proof.
  intros He Hl. apply Nat.leb_le in Hl. split; [|done|by eexists].
  rewrite length_app, length_replicate. remember (Z.to_nat ENV_SIZE) as n eqn:En. unfold ENV_SIZE in *. lia.
Qed.

Lemma demo_block_ok : env_ok demo_block demo_vars.
Proof. apply padded_env_ok; [repeat constructor; by_eval|by vm_compute]. Qed.

Lemma getenv_exact_witness :
  ∃ i, getenv demo_block (lit "bootdelay") = Some (Some i) ∧ 0 <= i ∧
    cut (drop (Z.to_nat i) demo_block) = str "1".
Proof.
  apply (getenv_exact demo_block demo_vars (str "bootdelay") []).
  - exact demo_block_ok.
  - split; [discriminate|]. split; by_eval.
Defined.

Lemma setenv_refines_witness :
  ∃ env' r,
    _do_setenv 4 [Some (lit "setenv"); Some (lit "bootcmd"); Some (lit "run"); Some (lit "x")] demo_env
      = Some (set_env_bytes env' demo_env, r) ∧
    r = 0 ∧ env_ok env' [(str "bootdelay", str "1"); (str "stdin", str "serial"); (str "bootcmd", str "run x")].
Proof.
  apply (setenv_refines demo_env demo_vars (lit "setenv") (str "bootcmd") [] [lit "run"; lit "x"] []).
  - exact demo_block_ok.
  - split; [discriminate|]. split; by_eval.
  - by_eval.
  - by_eval.
  - repeat constructor; by_eval.
Defined.

Lemma getenv_r_exact_witness : getenv_r demo_block (lit "bootdelay") [7; 7] 2 = None.
Proof.
  apply (getenv_r_exact demo_block demo_vars (str "bootdelay") [] [7; 7] (str "1")).
  - exact demo_block_ok.
  - split; [discriminate|]. split; by_eval.
  - reflexivity.
Defined.
