(* ===== verification/Cli.v ===== *)
(** The command line of [common/main.c], with [find_cmd] of
    [common/command.c]: separating commands, replacing variables, splitting
    into arguments and calling the command. *)
From stdpp Require Import base tactics option list strings.
From Stdlib Require Import ZArith Lia.
From S2P Require Import Prelude.
From S2P Require Import Eff.
From S2P Require Import CBuf.
From S2P Require Import Env.
Open Scope Z_scope.

Definition CFG_CBSIZE : Z := 256.
Definition CFG_MAXARGS : Z := 16.

Definition is_white (c : Z) : bool := (c =? 32) || (c =? 9).

(** ** Arguments *)

Definition white_step (line : list Z) (i : Z) : option (Z + Z) :=
  c ← idx line i; Some (if is_white c then inl (i + 1) else inr i).
Definition word_step (line : list Z) (i : Z) : option (Z + Z) :=
  c ← idx line i; Some (if (c =? 0) || is_white c then inr i else inl (i + 1)).

(** One round of [parse_line]: the line, the pointer into it, and where the
    arguments found start. *)
Definition arg_step (x : list Z * Z * list Z) : option ((list Z * Z * list Z) + (list Z * list Z)) :=
  let '(line, i, argv) := x in
  if Z.of_nat (length argv) <? CFG_MAXARGS then
    i ← loop (S (length line)) (white_step line) i;
    c ← idx line i;
    if c =? 0 then Some (inr (line, argv)) else
    let argv := argv ++ [i] in
    i ← loop (S (length line)) (word_step line) i;
    c ← idx line i;
    if c =? 0 then Some (inr (line, argv)) else
    line ← upd line i 0;
    Some (inl (line, i + 1, argv))
  else Some (inr (line, argv)).

(** The line with its terminators, and [argv]. *)
Definition parse_line (line : list Z) : option (list Z * list Z) :=
  loop (S (Z.to_nat CFG_MAXARGS)) arg_step (line, 0, []).

(** ** Variables *)

(** The locals of [process_macros]; [outputcnt] is what is left of the
    output. *)
Record macros := mkMacros {
  m_in : Z; m_cnt : Z; m_out : list Z; m_pos : Z; m_state : Z; m_var : Z; m_prev : Z }.

Definition outputcnt (m : macros) : Z := CFG_CBSIZE - m_pos m.

Definition m_put (c : Z) (m : macros) : option macros :=
  out ← upd (m_out m) (m_pos m) c;
  Some (mkMacros (m_in m) (m_cnt m) out (m_pos m + 1) (m_state m) (m_var m) (m_prev m)).
Definition m_goto (st : Z) (m : macros) : macros :=
  mkMacros (m_in m) (m_cnt m) (m_out m) (m_pos m) st (m_var m) (m_prev m).
Definition m_seen (c : Z) (m : macros) : macros :=
  mkMacros (m_in m) (m_cnt m) (m_out m) (m_pos m) (m_state m) (m_var m) c.
Definition m_next (m : macros) : macros :=
  mkMacros (m_in m + 1) (m_cnt m - 1) (m_out m) (m_pos m) (m_state m) (m_var m) (m_prev m).
Definition m_name (m : macros) : macros :=
  mkMacros (m_in m) (m_cnt m) (m_out m) (m_pos m) 2 (m_in m) (m_prev m).

(** The loop that copies the value while there is room. *)
Definition value_step (env : list Z) (x : Z * macros) : option ((Z * macros) + macros) :=
  let '(k, m) := x in
  c ← env_get_char_memory env k;
  if (c =? 0) || (outputcnt m =? 0) then Some (inr m) else
  m ← m_put c m; Some (inl (k + 1, m)).

(** "Get the varname", "Get its value", "Copy into the line if it exists". *)
Definition m_expand (env input : list Z) (m : macros) : option macros :=
  let envcnt := m_in m - m_var m - 1 in
  if CFG_CBSIZE <=? envcnt then None else
  name ← slice input (m_var m) envcnt;
  o ← getenv env (name ++ [0]);
  match o with
  | None => Some m
  | Some k => loop (S (Z.to_nat CFG_CBSIZE)) (value_step env) (k, m)
  end.

(** The [switch]. *)
Definition m_switch (env input : list Z) (c : Z) (m : macros) : option macros :=
  let escaped := m_prev m =? 92 in
  if m_state m =? 0 then
    if (c =? 39) && negb escaped then Some (m_goto 3 m)
    else if (c =? 36) && negb escaped then Some (m_goto 1 m)
    else m_put c m
  else if m_state m =? 1 then
    if (c =? 40) || (c =? 123) then Some (m_name m)
    else
      m ← m_put 36 (m_goto 0 m);
      if outputcnt m =? 0 then Some m else m_put c m
  else if m_state m =? 2 then
    if (c =? 41) || (c =? 125) then m ← m_expand env input m; Some (m_goto 0 m) else Some m
  else
    if (c =? 39) && negb escaped then Some (m_goto 0 m) else m_put c m.

Definition macro_step (env input : list Z) (m : macros) : option (macros + macros) :=
  if (m_cnt m =? 0) || (outputcnt m =? 0) then Some (inr m) else
  c ← idx input (m_in m);
  let m := m_next m in
  if negb (m_state m =? 3) && (c =? 92) && negb (m_prev m =? 92) then
    if m_cnt m =? 0 then Some (inr m) else
    c' ← idx input (m_in m);
    m ← m_switch env input c' (m_seen c (m_next m));
    Some (inl (m_seen c' m))
  else
    m ← m_switch env input c m;
    Some (inl (m_seen c m)).

(** The output array. *)
Definition process_macros (env input output : list Z) : option (list Z) :=
  n ← c_strlen input;
  m ← loop (S (Z.to_nat n)) (macro_step env input) (mkMacros 0 n output 0 0 0 0);
  if outputcnt m =? 0 then Some (m_out m) else upd (m_out m) (m_pos m) 0.

(** ** Commands *)

(** What the command line needs of the state of the program. *)
Class Cli (S : Type) := {
  cli_env : S → list Z;
  clear_ctrlc : S → S;
  had_ctrlc : S → bool;
}.

Record cmd_tbl (S : Type) := mkCmd {
  cmd_name : list Z;
  maxargs : Z;
  repeatable : Z;
  is_bootd : bool;                              (** the function is [do_bootd] *)
  cmd_func : Z → list (list Z) → ST S Z;        (** flag, argv *)
  cmd_usage : option (list Z);                  (** the short help *)
  cmd_help : option (list Z);                   (** the long one *)
  complete : bool;                              (** [var_complete], the only completer, or null *)
}.
Arguments mkCmd {S}.
Arguments cmd_name {S}.
Arguments maxargs {S}.
Arguments repeatable {S}.
Arguments is_bootd {S}.
Arguments cmd_func {S}.
Arguments cmd_usage {S}.
Arguments cmd_help {S}.
Arguments complete {S}.

Section commands.
Context {S : Type} `{Cli S} (table : list (cmd_tbl S)).
#[local] Abbreviation M := (ST S).

(** The search for a full match, counting abbreviations. *)
Fixpoint find_loop (tbl : list (cmd_tbl S)) (cmd : list Z) (len : Z) (temp : option (cmd_tbl S)) (n_found : Z)
    : option (option (cmd_tbl S)) :=
  match tbl with
  | [] => Some (if n_found =? 1 then temp else None)
  | c :: tbl' =>
      r ← c_strncmp cmd (cmd_name c) (Z.to_nat len);
      if r =? 0 then
        l ← c_strlen (cmd_name c);
        if len =? l then Some (Some c) else find_loop tbl' cmd len (Some c) (n_found + 1)
      else find_loop tbl' cmd len temp n_found
  end.

(** Only the text up to the first dot counts. *)
Definition find_cmd (cmd : list Z) : option (option (cmd_tbl S)) :=
  n ← c_strlen cmd;
  let len := default n ((λ x, Z.of_nat x.1) <$> list_find (eq 46) (cut cmd)) in
  find_loop table cmd len None 0.

(** "Find separator, or string end". *)
Definition sep_step (buf : list Z) (str : Z) (x : Z * bool) : option ((Z * bool) + Z) :=
  let '(sep, inquotes) := x in
  c ← idx buf sep;
  if c =? 0 then Some (inr sep) else
  inquotes ← (if c =? 39 then p ← idx buf (sep - 1); Some (if p =? 92 then inquotes else negb inquotes)
              else Some inquotes);
  stop ← (if negb (inquotes : bool) && (c =? 59) && negb (sep =? str)
          then p ← idx buf (sep - 1); Some (negb (p =? 92)) else Some false);
  Some (if (stop : bool) then inr sep else inl (sep + 1, inquotes)).

(** The locals of [run_command]. *)
Record cli := mkCli {
  cmdbuf : list Z; c_str : Z; finaltoken : list Z; c_flag : Z; c_rc : Z; c_repeatable : Z }.

Definition fail_cmd (x : cli) : cli :=
  mkCli (cmdbuf x) (c_str x) (finaltoken x) (c_flag x) (-1) (c_repeatable x).

Definition CMD_FLAG_BOOTD : Z := 2.

(** "OK - call function to do the command". *)
Definition call_cmd (c : cmd_tbl S) (argv : list (list Z)) (x : cli) : M (cli + Z) :=
  r ← cmd_func c (c_flag x) argv;
  let x := mkCli (cmdbuf x) (c_str x) (finaltoken x) (c_flag x) (if negb (r =? 0) then -1 else c_rc x)
             (Z.land (c_repeatable x) (repeatable c)) in
  s ← get;
  mret (if had_ctrlc s then inr 0 else inl x).

Definition dispatch (argv : list (list Z)) (x : cli) : M (cli + Z) :=
  match argv with
  | [] => mret (inl (fail_cmd x))
  | a :: _ =>
      o ← lift (find_cmd a);
      match o with
      | None => mret (inl (fail_cmd x))
      | Some c =>
          if maxargs c <? Z.of_nat (length argv) then mret (inl (fail_cmd x))
          else if is_bootd c then
            if negb (Z.land (c_flag x) CMD_FLAG_BOOTD =? 0) then mret (inl (fail_cmd x))
            else call_cmd c argv (mkCli (cmdbuf x) (c_str x) (finaltoken x) (Z.lor (c_flag x) CMD_FLAG_BOOTD)
                                    (c_rc x) (c_repeatable x))
          else call_cmd c argv x
      end
  end.

Definition run_step (x : cli) : M (cli + Z) :=
  let str := c_str x in
  c ← lift (idx (cmdbuf x) str);
  if c =? 0 then mret (inr (if negb (c_rc x =? 0) then c_rc x else c_repeatable x)) else
  sep ← lift (loop (Datatypes.S (length (cmdbuf x))) (sep_step (cmdbuf x) str) (str, false));
  c ← lift (idx (cmdbuf x) sep);
  '(buf, str') ← (if negb (c =? 0) then b ← lift (upd (cmdbuf x) sep 0); mret (b, sep + 1)
                  else mret (cmdbuf x, sep));
  s ← get;
  final ← lift (process_macros (cli_env s) (drop (Z.to_nat str) buf) (finaltoken x));
  '(final, argv) ← lift (parse_line final);
  dispatch ((λ i, drop (Z.to_nat i) final) <$> argv)
    (mkCli buf str' final (c_flag x) (c_rc x) (c_repeatable x)).

(** [cmdbuf0] and [final0] are the uninitialised locals. *)
Definition run_command (cmdbuf0 final0 : list Z) (cmd : option (list Z)) (flag : Z) : M Z :=
  _ ← modify clear_ctrlc;
  match cmd with
  | None => mret (-1)
  | Some cmd =>
      c ← lift (idx cmd 0);
      if c =? 0 then mret (-1) else
      n ← lift (c_strlen cmd);
      if CFG_CBSIZE <=? n then mret (-1) else
      buf ← lift (blit cmdbuf0 0 (cut cmd ++ [0]));
      mloop (Datatypes.S (Z.to_nat (n + 1))) run_step (mkCli buf 0 final0 flag 0 1)
  end.

(** The commands in the variables named. *)
Fixpoint run_vars (cmdbuf0 final0 : list Z) (flag : Z) (args : list (list Z)) : M Z :=
  match args with
  | [] => mret 0
  | a :: args' =>
      s ← get;
      o ← lift (getenv (cli_env s) a);
      match o with
      | None => mret 1
      | Some k =>
          r ← run_command cmdbuf0 final0 (Some (drop (Z.to_nat k) (cli_env s))) flag;
          if r =? -1 then mret 1 else run_vars cmdbuf0 final0 flag args'
      end
  end.

Definition do_run (cmdbuf0 final0 : list Z) (flag argc : Z) (argv : list (list Z)) : M Z :=
  if argc <? 2 then mret 1 else run_vars cmdbuf0 final0 flag (take (Z.to_nat (argc - 1)) (drop 1 argv)).
End commands.
