(* ===== verification/CliSpec.v ===== *)
(** The command line of [Cli]: how a line is split, what becomes of the
    variables in it, and which command runs. *)
From stdpp Require Import base tactics option list strings sets.
From Stdlib Require Import ZArith Lia.
From S2P Require Import Prelude.
From S2P Require Import CString.
From S2P Require Import Eff.
From S2P Require Import CBuf.
From S2P Require Import Ptable.
From S2P Require Import Env.
From S2P Require Import EnvSpec.
From S2P Require Import Cli.
Open Scope Z_scope.

(** ** Splitting a line *)

(** The words of a text; [w] is the one begun. *)
Fixpoint words_from (w s : list Z) : list (list Z) :=
  match s with
  | [] => match w with [] => [] | _ => [w] end
  | c :: s' =>
      if is_white c then match w with [] => words_from [] s' | _ => w :: words_from [] s' end
      else words_from (w ++ [c]) s'
  end.
Definition words (s : list Z) : list (list Z) := words_from [] s.

(** The strings at indices of an array. *)
Definition strings_at (line argv : list Z) : list (list Z) := (λ i, cut (drop (Z.to_nat i) line)) <$> argv.

Lemma white_loop b : ∀ pre post c fuel, Forall (λ x, is_white x = true) b → is_white c = false →
  (length b < fuel)%nat →
  loop fuel (white_step (pre ++ b ++ c :: post)) (Z.of_nat (length pre)) = Some (Z.of_nat (length pre + length b)).
Proof.
  induction b as [|x b IH]; intros pre post c fuel Hb Hc Hf; (destruct fuel as [|fuel]; [lia|]); cbn [loop app];
    unfold white_step at 1; rewrite idx_mid; cbn [mbind option_bind].
  - rewrite Hc. cbn [length]. f_equal. lia.
  - apply Forall_cons in Hb as [Hx Hb]. rewrite Hx, snoc_at, (snoc_len pre x).
    rewrite IH by (done || (cbn in Hf; lia)). rewrite length_app. cbn [length]. f_equal. lia.
Qed.

Definition in_word (x : Z) : Prop := x ≠ 0 ∧ is_white x = false.

Lemma word_loop w : ∀ pre post c fuel, Forall in_word w → c = 0 ∨ is_white c = true → (length w < fuel)%nat →
  loop fuel (word_step (pre ++ w ++ c :: post)) (Z.of_nat (length pre)) = Some (Z.of_nat (length pre + length w)).
Proof.
  induction w as [|x w IH]; intros pre post c fuel Hw Hc Hf; (destruct fuel as [|fuel]; [lia|]); cbn [loop app];
    unfold word_step at 1; rewrite idx_mid; cbn [mbind option_bind].
  - assert ((c =? 0) || is_white c = true) as -> by (destruct Hc as [-> | ->]; [done|by rewrite orb_true_r]).
    cbn [length]. f_equal. lia.
  - apply Forall_cons in Hw as [[Hx0 Hx] Hw]. rewrite Hx. destruct (Z.eqb_spec x 0); [done|]. cbn [orb].
    rewrite snoc_at, (snoc_len pre x), IH by (done || (cbn in Hf; lia)). rewrite length_app. cbn [length]. f_equal. lia.
Qed.

(** Blanks, then a word. *)
Lemma line_split s : 0 ∉ s → ∃ b w r, s = b ++ w ++ r ∧ Forall (λ x, is_white x = true) b ∧ Forall in_word w ∧
  (w = [] → r = []) ∧ (r = [] ∨ ∃ c r', r = c :: r' ∧ is_white c = true ∧ 0 ∉ r').
Proof.
  intros H0. induction s as [|x s IH]; [by exists [], [], []; split_and!; auto|].
  apply not_elem_of_cons in H0 as [Hx H0]. destruct (IH H0) as (b & w & r & -> & Hb & Hw & Hwr & Hr).
  destruct (is_white x) eqn:Ex.
  - exists (x :: b), w, r. split_and!; auto.
  - destruct b as [|y b].
    + exists [], (x :: w), r. split_and!; try done. by constructor.
    + exists [], [x], (y :: b ++ w ++ r). split_and!; try done; [by repeat constructor|]. right.
      apply Forall_cons in Hb as [Hy Hb]. exists y, (b ++ w ++ r). cbn [app] in H0.
      apply not_elem_of_cons in H0 as [_ H0]. done.
Qed.

Lemma words_white b s : Forall (λ x, is_white x = true) b → words (b ++ s) = words s.
Proof. induction 1 as [|x b Hx _ IH]; [done|]. unfold words in *. cbn [app words_from]. by rewrite Hx. Qed.

Lemma words_word w0 w r : Forall in_word w →
  (r = [] ∨ ∃ c r', r = c :: r' ∧ is_white c = true) → w0 ++ w ≠ [] →
  words_from w0 (w ++ r) = (w0 ++ w) :: words (tail r).
Proof.
  revert w0. induction w as [|x w IH]; intros w0 Hw Hr Hne; cbn [app words_from].
  - rewrite app_nil_r in *. destruct Hr as [->|(c & r' & -> & Hc)]; cbn [words_from tail];
      [|rewrite Hc]; by destruct w0.
  - apply Forall_cons in Hw as [[_ Hx] Hw]. rewrite Hx, IH by (done || by destruct w0). by rewrite <-app_assoc.
Qed.

(** What the rounds of [parse_line] find from a place on. *)
Lemma arg_loop t : ∀ fuel pre s argv, (16 - length argv < fuel)%nat → (length argv <= 16)%nat →
  0 ∉ s →
  ∃ line' new, loop fuel arg_step (pre ++ s ++ 0 :: t, Z.of_nat (length pre), argv) = Some (line', argv ++ new) ∧
    length line' = length (pre ++ s ++ 0 :: t) ∧ take (length pre) line' = pre ∧
    strings_at line' new = take (16 - length argv) (words s) ∧ Forall (λ i, 0 ∈ drop (Z.to_nat i) line') new.
Proof.
  induction fuel as [|fuel IH]; intros pre s argv Hn Hl Hs; [lia|].
  cbn [loop]. unfold arg_step at 1.
  destruct (Z.ltb_spec (Z.of_nat (length argv)) CFG_MAXARGS) as [Hm|Hm].
  2:{ unfold CFG_MAXARGS in Hm. exists (pre ++ s ++ 0 :: t), []. rewrite app_nil_r. split_and!; try done.
      - by rewrite take_app_length.
      - replace (16 - length argv)%nat with 0%nat by lia. done. }
  destruct (line_split s Hs) as (b & w & r & -> & Hb & Hw & Hwr & Hr).
  rewrite words_white by done.
  destruct w as [|x w].
  - (** no more words *)
    rewrite (Hwr eq_refl), app_nil_r in *. rewrite (white_loop b pre t 0) by (done || rewrite !length_app; lia).
    cbn [mbind option_bind]. rewrite <-length_app, app_assoc, idx_mid. cbn [mbind option_bind].
    change (0 =? 0) with true. cbv iota. exists ((pre ++ b) ++ 0 :: t), []. rewrite app_nil_r. split_and!; try done.
    + by rewrite <-app_assoc, take_app_length.
    + by destruct (16 - length argv)%nat.
  - pose proof Hw as Hw'. apply Forall_cons in Hw' as [[Hx0 Hx] _].
    replace (pre ++ (b ++ (x :: w) ++ r) ++ 0 :: t) with (pre ++ b ++ x :: (w ++ r ++ 0 :: t))
      by (rewrite <-!app_assoc; done).
    rewrite white_loop by (done || rewrite !length_app; lia). cbn [mbind option_bind].
    rewrite <-length_app, app_assoc, idx_mid. cbn [mbind option_bind]. destruct (Z.eqb_spec x 0); [done|].
    change (words ((x :: w) ++ r)) with (words_from [] ((x :: w) ++ r)).
    rewrite words_word; [|done|destruct Hr as [?|(c & r' & ? & ? & _)]; eauto 10|done].
    assert (∃ m, 16 - length argv = S m)%nat as [m Em] by (exists (15 - length argv)%nat; unfold CFG_MAXARGS in Hm; lia).
    destruct Hr as [->|(c & r' & -> & Hc & Hr0)].
    + (** the last word *)
      change (x :: w ++ [] ++ 0 :: t) with ((x :: w) ++ 0 :: t).
      rewrite (word_loop (x :: w)) by (auto || rewrite !length_app; lia). cbn [mbind option_bind].
      rewrite <-length_app, app_assoc, idx_mid. cbn [mbind option_bind]. change (0 =? 0) with true. cbv iota.
      eexists _, [_]. split; [done|]. split; [done|]. rewrite <-!app_assoc. split; [by rewrite take_app_length|].
      rewrite Em. unfold strings_at, words. cbn [fmap list_fmap take tail app words_from]. rewrite take_nil.
      rewrite Forall_singleton, Nat2Z.id, app_assoc, drop_app_length.
      change (x :: w ++ 0 :: t) with ((x :: w) ++ 0 :: t). rewrite cut_app; [split; [done|]; set_solver|].
      intros Hi. rewrite Forall_forall in Hw. by destruct (Hw 0 Hi).
    + change (x :: w ++ (c :: r') ++ 0 :: t) with ((x :: w) ++ c :: r' ++ 0 :: t).
      rewrite (word_loop (x :: w)) by (auto || rewrite !length_app; lia). cbn [mbind option_bind].
      rewrite <-length_app, app_assoc, idx_mid. cbn [mbind option_bind].
      destruct (Z.eqb_spec c 0) as [->|]; [done|]. erewrite upd_at by done. cbn [mbind option_bind].
      rewrite snoc_at, (snoc_len _ 0).
      destruct (IH (((pre ++ b) ++ x :: w) ++ [0]) r' (argv ++ [Z.of_nat (length (pre ++ b))])) as
        (line' & new & E & HL & HT & HS & H0); [rewrite length_app; unfold CFG_MAXARGS in Hm; cbn [length]; lia|rewrite length_app; unfold CFG_MAXARGS in Hm; cbn [length]; lia|done|].
      exists line', (Z.of_nat (length (pre ++ b)) :: new). split; [by rewrite E, <-app_assoc|].
      assert (line' = (((pre ++ b) ++ x :: w) ++ [0]) ++ drop (length ((((pre ++ b) ++ x :: w) ++ [0]))) line') as El
        by (rewrite <-HT at 1; by rewrite take_drop).
      split; [rewrite HL, !length_app; cbn [length]; rewrite ?length_app; cbn [length]; lia|]. split.
      * rewrite El, <-!app_assoc. by rewrite take_app_length.
      * rewrite Em. unfold strings_at in *. cbn [fmap list_fmap take tail]. split; [f_equal|].
        -- rewrite Nat2Z.id, El, <-!app_assoc, app_assoc, drop_app_length. cbn [app]. rewrite app_comm_cons. apply cut_app.
           intros Hi. rewrite Forall_forall in Hw. by destruct (Hw 0 Hi).
        -- rewrite HS, length_app. cbn [length]. f_equal. lia.
        -- constructor; [|done]. rewrite Nat2Z.id, El, <-!app_assoc, app_assoc, drop_app_length. set_solver.
Qed.

Lemma parse_line_spec s t
    (Hs : 0 ∉ s) :
  ∃ line' argv, parse_line (s ++ 0 :: t) = Some (line', argv) ∧ length line' = length (s ++ 0 :: t) ∧
    strings_at line' argv = take 16 (words s) ∧ Forall (λ i, 0 ∈ drop (Z.to_nat i) line') argv.
Proof.
  destruct (arg_loop t (S (Z.to_nat CFG_MAXARGS)) [] s []) as (line' & new & E & HL & _ & HS & H0);
    [unfold CFG_MAXARGS; cbn [length]; lia|cbn [length]; lia|done|]. by exists line', new.
Qed.

(** [parse_line] splits a line into its words, the first 16 of them: the
    strings it leaves at the pointers, each with its terminator, are exactly
    these. *)
Theorem parse_line_words s t
    (Hs : 0 ∉ s) :
  ∃ line' argv, parse_line (s ++ 0 :: t) = Some (line', argv) ∧ length line' = length (s ++ 0 :: t) ∧
    strings_at line' argv = take 16 (words s) ∧ Forall (λ i, 0 ∈ drop (Z.to_nat i) line') argv.
Proof. by apply parse_line_spec. Qed.

Lemma parse_line_words_witness :
  ∃ line' argv, parse_line (str " mmc 1  read" ++ [0]) = Some (line', argv) ∧ length line' = 13%nat ∧
    strings_at line' argv = [str "mmc"; str "1"; str "read"] ∧ Forall (λ i, 0 ∈ drop (Z.to_nat i) line') argv.
Proof. apply (parse_line_words (str " mmc 1  read") []). by_eval. Defined.

(** ** Replacing variables *)

(** A text is made of characters and of variables, between parentheses or
    braces. *)
Inductive seg := Char (c : Z) | Var (open : Z) (name : list Z) (close : Z).

Definition seg_ok (x : seg) : Prop :=
  match x with
  | Char c => c ∉ [0; 36; 39; 92]
  | Var o name c => o ∈ [40; 123] ∧ c ∈ [41; 125] ∧ name_ok name ∧ Forall (λ c, c ∉ [41; 92; 125]) name
  end.
Definition seg_text (x : seg) : list Z :=
  match x with Char c => [c] | Var o name c => 36 :: o :: name ++ [c] end.
Definition seg_value (es : list var) (x : seg) : list Z :=
  match x with Char c => [c] | Var _ name _ => default [] (assoc name es) end.
Definition segs_text (l : list seg) : list Z := concat (seg_text <$> l).
Definition segs_value (es : list var) (l : list seg) : list Z := concat (seg_value es <$> l).

Definition cb : nat := Z.to_nat CFG_CBSIZE.
Lemma cb_eq : Z.of_nat cb = CFG_CBSIZE.
Proof. done. Qed.

(** The output array after a text has been produced. *)
Definition outw (o txt : list Z) : list Z := take cb txt ++ drop (length txt) o.
Definition posw (txt : list Z) : Z := Z.of_nat (Nat.min cb (length txt)).

Section macros.
#[local] Opaque cb.
Context (env : list Z) (es : list var) (Henv : env_ok env es).
Context (o : list Z) (Ho : length o = cb).
Implicit Types (txt : list Z).

Lemma outw_full txt x : (cb <= length txt)%nat → outw o (txt ++ x) = outw o txt ∧ posw (txt ++ x) = posw txt.
Proof.
  intros Hl. unfold outw, posw. rewrite take_app_le, length_app, !drop_ge by (rewrite ?length_app; lia).
  split; [done|]. f_equal. lia.
Qed.

Lemma outw_put txt c : (length txt < cb)%nat → upd (outw o txt) (posw txt) c = Some (outw o (txt ++ [c])).
Proof.
  intros Hl. unfold outw, posw. rewrite Nat.min_r by lia.
  assert (∃ y r, drop (length txt) o = y :: r ∧ r = drop (S (length txt)) o) as (y & r & Ey & Er).
  { destruct (drop (length txt) o) as [|y r] eqn:E; [apply (f_equal length) in E; rewrite length_drop in E; cbn in E; lia|].
    exists y, r. split; [done|]. rewrite <-Nat.add_1_r, <-drop_drop, E. done. }
  rewrite Ey, (take_ge txt) by lia. erewrite upd_at by done.
  rewrite take_ge by (rewrite length_app; cbn; lia). rewrite length_app. cbn [length]. rewrite Nat.add_1_r, <-Er.
  by rewrite <-app_assoc.
Qed.

Lemma posw_snoc txt c : (length txt < cb)%nat → posw (txt ++ [c]) = posw txt + 1.
Proof. intros Hl. unfold posw. rewrite length_app. cbn [length]. lia. Qed.

Definition at_txt (i cnt : Z) txt (st v p : Z) : macros := mkMacros i cnt (outw o txt) (posw txt) st v p.

Lemma outputcnt_full i cnt txt st v p : (cb <= length txt)%nat → (outputcnt (at_txt i cnt txt st v p) =? 0) = true.
Proof. intros. unfold outputcnt, at_txt. cbn [m_pos]. unfold posw. rewrite Nat.min_l, cb_eq by lia. by rewrite Z.sub_diag. Qed.

Lemma outputcnt_room i cnt txt st v p : (length txt < cb)%nat → (outputcnt (at_txt i cnt txt st v p) =? 0) = false.
Proof. intros. unfold outputcnt, at_txt. cbn [m_pos]. unfold posw. pose proof cb_eq. apply Z.eqb_neq. lia. Qed.

Lemma m_put_at i cnt txt st v p c : (length txt < cb)%nat →
  m_put c (at_txt i cnt txt st v p) = Some (at_txt i cnt (txt ++ [c]) st v p).
Proof.
  intros Hl. unfold m_put, at_txt. cbn [m_out m_pos m_in m_cnt m_state m_var m_prev]. rewrite outw_put by done.
  cbn [mbind option_bind]. by rewrite posw_snoc.
Qed.

(** The characters of a value. *)
Lemma value_loop val : ∀ p q txt i cnt st v pr fuel, 0 ∉ val → env = p ++ val ++ 0 :: q →
  (cb - Nat.min cb (length txt) < fuel)%nat →
  loop fuel (value_step env) (Z.of_nat (length p), at_txt i cnt txt st v pr) = Some (at_txt i cnt (txt ++ val) st v pr).
Proof.
  induction val as [|c val IH]; intros p q txt i cnt st v pr fuel H0 E Hf; (destruct fuel as [|fuel]; [lia|]);
    cbn [loop]; unfold value_step at 1, env_get_char_memory; rewrite (idx_at env p _ _ _ E) by done; cbn [mbind option_bind].
  - by rewrite app_nil_r.
  - apply not_elem_of_cons in H0 as [Hc H0]. destruct (Z.eqb_spec c 0); [done|].
    destruct (decide (cb <= length txt)%nat) as [Hfull|Hroom].
    + rewrite outputcnt_full by done. cbn [orb]. destruct (outw_full txt (c :: val) Hfull) as [E1 E2].
      unfold at_txt. by rewrite E1, E2.
    + rewrite outputcnt_room, m_put_at by lia. cbn [orb mbind option_bind]. rewrite (snoc_len p c).
      rewrite (IH (p ++ [c]) q (txt ++ [c])); [by rewrite <-app_assoc|done|by rewrite <-app_assoc|rewrite length_app; cbn [length]; lia].
Qed.

Lemma expand_at input i cnt txt v p name :
  name_ok name → slice input v (i - v - 1) = Some name → Z.of_nat (length name) < CFG_CBSIZE →
  m_expand env input (at_txt i cnt txt 2 v p) = Some (at_txt i cnt (txt ++ default [] (assoc name es)) 2 v p).
Proof.
  intros Hn Es Hl. unfold m_expand.
  change (m_in (at_txt i cnt txt 2 v p)) with i. change (m_var (at_txt i cnt txt 2 v p)) with v. pose proof (slice_length _ _ _ _ Es) as Hsl.
  destruct (Z.leb_spec CFG_CBSIZE (i - v - 1)); [lia|]. rewrite Es. cbn [mbind option_bind].
  pose proof (getenv_spec env es name [] Henv Hn) as Hg. destruct (assoc name es) as [val|]; cbn [default].
  - destruct Hg as (H0 & q & r & -> & E). cbn [mbind option_bind]. apply value_loop with (q := r); [done|done|].
    change (Z.to_nat CFG_CBSIZE) with cb. lia.
  - rewrite Hg. cbn [mbind option_bind]. by rewrite app_nil_r.
Qed.

Lemma step_full input i cnt txt st v p : (cb <= length txt)%nat →
  macro_step env input (at_txt i cnt txt st v p) = Some (inr (at_txt i cnt txt st v p)).
Proof. intros. unfold macro_step. by rewrite outputcnt_full, orb_true_r. Qed.

Lemma step_char input pre c rest cnt txt st v p : input = pre ++ c :: rest → (length txt < cb)%nat → c ≠ 92 →
  macro_step env input (at_txt (Z.of_nat (length pre)) (cnt + 1) txt st v p) =
    if cnt + 1 =? 0 then Some (inr (at_txt (Z.of_nat (length pre)) (cnt + 1) txt st v p)) else
    m ← m_switch env input c (at_txt (Z.of_nat (length (pre ++ [c]))) cnt txt st v p); Some (inl (m_seen c m)).
Proof.
  intros E Hl Hc. unfold macro_step. rewrite outputcnt_room, orb_false_r by done.
  change (m_cnt (at_txt _ (cnt + 1) txt st v p)) with (cnt + 1).
  destruct (cnt + 1 =? 0); [done|]. change (m_in (at_txt _ _ txt st v p)) with (Z.of_nat (length pre)).
  rewrite (idx_at input pre rest c (Z.of_nat (length pre))) by done. cbn [mbind option_bind].
  destruct (Z.eqb_spec c 92); [done|]. rewrite andb_false_r. cbn [andb].
  assert (m_next (at_txt (Z.of_nat (length pre)) (cnt + 1) txt st v p) = at_txt (Z.of_nat (length (pre ++ [c]))) cnt txt st v p) as ->
    by (unfold m_next, at_txt; cbn; rewrite length_app; cbn [length]; f_equal; lia).
  done.
Qed.

Lemma name_loop input name : ∀ pre rest txt (k : nat) v p fuel,
  input = pre ++ name ++ rest → (length txt < cb)%nat → Forall (λ c, c ∉ [41; 92; 125]) name → p ≠ 92 →
  ∃ p', p' ≠ 92 ∧
  loop (length name + fuel) (macro_step env input)
      (at_txt (Z.of_nat (length pre)) (Z.of_nat (length name + k)) txt 2 v p) =
    loop fuel (macro_step env input) (at_txt (Z.of_nat (length pre + length name)) (Z.of_nat k) txt 2 v p').
Proof.
  induction name as [|c name IH]; intros pre rest txt k v p fuel E Hl Hn Hp.
  - exists p. split; [done|]. cbn [length Nat.add]. by rewrite Nat.add_0_r.
  - apply Forall_cons in Hn as [Hc Hn]. rewrite !not_elem_of_cons in Hc. destruct Hc as (H41 & H92 & H125 & _).
    destruct (IH (pre ++ [c]) rest txt k v c fuel) as (p' & Hp' & E'); [by rewrite <-app_assoc|done|done|done|].
    exists p'. split; [done|]. cbn [length Nat.add loop].
    replace (Z.of_nat (S (length name + k))) with (Z.of_nat (length name + k) + 1) by lia.
    rewrite (step_char input pre c (name ++ rest)) by done. destruct (Z.eqb_spec (Z.of_nat (length name + k) + 1) 0); [lia|].
    unfold m_switch. change (m_state (at_txt _ _ txt 2 v p)) with 2. change (2 =? 0) with false. change (2 =? 1) with false.
    change (2 =? 2) with true. cbv iota. destruct (Z.eqb_spec c 41); [done|]. destruct (Z.eqb_spec c 125); [done|].
    cbn [orb mbind option_bind]. change (m_seen c (at_txt (Z.of_nat (length (pre ++ [c]))) (Z.of_nat (length name + k)) txt 2 v p))
      with (at_txt (Z.of_nat (length (pre ++ [c]))) (Z.of_nat (length name + k)) txt 2 v c).
    rewrite E', length_app. cbn [length]. do 3 f_equal. lia.
Qed.

(** One variable. *)
Lemma var_run input pre op name cl rest txt (k : nat) v p fuel :
  input = pre ++ (36 :: op :: name ++ [cl]) ++ rest → (length txt < cb)%nat → seg_ok (Var op name cl) → p ≠ 92 →
  Z.of_nat (length name) < CFG_CBSIZE →
  ∃ v', loop (3 + length name + fuel) (macro_step env input)
      (at_txt (Z.of_nat (length pre)) (Z.of_nat (3 + length name + k)) txt 0 v p) =
    loop fuel (macro_step env input) (at_txt (Z.of_nat (length pre + 3 + length name)) (Z.of_nat k)
      (txt ++ default [] (assoc name es)) 0 v' cl).
Proof.
  intros E Hl (Hop & Hcl & Hname & Hn) Hp Hs. change (36 ∈ [40; 123]) in Hop || idtac.
  assert (op ≠ 92 ∧ ((op =? 40) || (op =? 123)) = true) as [Ho92 Hopb].
  { rewrite !elem_of_cons in Hop. by destruct Hop as [-> | [-> | ?%not_elem_of_nil]]. }
  assert (cl ≠ 92 ∧ ((cl =? 41) || (cl =? 125)) = true) as [Hc92 Hclb].
  { rewrite !elem_of_cons in Hcl. by destruct Hcl as [-> | [-> | ?%not_elem_of_nil]]. }
  set (pre2 := (pre ++ [36]) ++ [op]).
  assert (input = pre2 ++ name ++ cl :: rest) as E2 by (unfold pre2; rewrite E, <-!app_assoc; cbn [app]; by rewrite <-app_assoc).
  destruct (name_loop input name pre2 (cl :: rest) txt (S k) (Z.of_nat (length pre2)) op (S fuel) E2 Hl Hn Ho92) as (p' & Hp' & En).
  exists (Z.of_nat (length pre2)).
  replace (3 + length name + fuel)%nat with (S (S (length name + S fuel))) by lia. cbn [loop].
  replace (Z.of_nat (3 + length name + k)) with (Z.of_nat (2 + length name + k) + 1) by lia.
  rewrite (step_char input pre 36 (op :: name ++ cl :: rest)) by (done || by rewrite E2; unfold pre2; rewrite <-!app_assoc).
  destruct (Z.eqb_spec (Z.of_nat (2 + length name + k) + 1) 0); [lia|].
  unfold m_switch at 1. change (m_state (at_txt _ _ txt 0 v p)) with 0. change (m_prev (at_txt _ _ txt 0 v p)) with p.
  change (0 =? 0) with true. change (36 =? 39) with false. change (36 =? 36) with true. destruct (Z.eqb_spec p 92); [done|].
  cbn [andb negb]. cbv iota. cbn [mbind option_bind].
  change (m_seen 36 (m_goto 1 (at_txt (Z.of_nat (length (pre ++ [36]))) (Z.of_nat (2 + length name + k)) txt 0 v p)))
    with (at_txt (Z.of_nat (length (pre ++ [36]))) (Z.of_nat (2 + length name + k)) txt 1 v 36).
  replace (Z.of_nat (2 + length name + k)) with (Z.of_nat (length name + S k) + 1) by lia.
  rewrite (step_char input (pre ++ [36]) op (name ++ cl :: rest)) by (done || by rewrite E2; unfold pre2; rewrite <-!app_assoc).
  destruct (Z.eqb_spec (Z.of_nat (length name + S k) + 1) 0); [lia|].
  unfold m_switch at 1. change (m_state (at_txt _ _ txt 1 v 36)) with 1. change (1 =? 0) with false. change (1 =? 1) with true.
  cbv iota. rewrite Hopb. cbn [mbind option_bind]. fold pre2.
  change (m_seen op (m_name (at_txt (Z.of_nat (length pre2)) (Z.of_nat (length name + S k)) txt 1 v 36)))
    with (at_txt (Z.of_nat (length pre2)) (Z.of_nat (length name + S k)) txt 2 (Z.of_nat (length pre2)) op).
  rewrite En. cbn [loop]. replace (Z.of_nat (S k)) with (Z.of_nat k + 1) by lia.
  rewrite <-length_app. rewrite (step_char input (pre2 ++ name) cl rest) by (done || by rewrite E2, <-app_assoc).
  destruct (Z.eqb_spec (Z.of_nat k + 1) 0); [lia|].
  unfold m_switch at 1. change (m_state (at_txt _ _ txt 2 _ p')) with 2. change (2 =? 0) with false. change (2 =? 1) with false.
  change (2 =? 2) with true. cbv iota. rewrite Hclb.
  rewrite (expand_at input _ _ txt (Z.of_nat (length pre2)) p' name); [|done| |done].
  - cbn [mbind option_bind]. change (m_seen cl (m_goto 0 (at_txt ?a ?b ?c 2 ?d p'))) with (at_txt a b c 0 d cl).
    do 2 f_equal. unfold at_txt. f_equal. unfold pre2. rewrite !length_app. cbn [length]. lia.
  - rewrite E2, slice_Some; rewrite ?length_app; cbn [length]; try lia.
    rewrite Nat2Z.id, drop_app_length. f_equal. replace (Z.to_nat _) with (length name) by lia. by rewrite take_app_length.
Qed.

Lemma segs_text_cons x l : segs_text (x :: l) = seg_text x ++ segs_text l.
Proof. done. Qed.

(** Nothing more comes out once the output is full. *)
Lemma full_run input fuel i cnt txt x st v p : (cb <= length txt)%nat → (0 < fuel)%nat →
  loop fuel (macro_step env input) (at_txt i cnt txt st v p) = Some (at_txt i cnt (txt ++ x) st v p).
Proof.
  intros Hl Hf. destruct fuel as [|fuel]; [lia|]. cbn [loop]. rewrite step_full by done. unfold at_txt.
  by destruct (outw_full txt x Hl) as [-> ->].
Qed.

Lemma segs_run input segs : ∀ pre rest txt v p fuel,
  input = pre ++ segs_text segs ++ rest → Forall seg_ok segs → p ≠ 92 →
  (length (segs_text segs) < fuel)%nat → Z.of_nat (length (segs_text segs)) < CFG_CBSIZE →
  ∃ i cnt st v' p', loop fuel (macro_step env input)
      (at_txt (Z.of_nat (length pre)) (Z.of_nat (length (segs_text segs))) txt 0 v p)
    = Some (at_txt i cnt (txt ++ segs_value es segs) st v' p').
Proof.
  induction segs as [|x segs IH]; intros pre rest txt v p fuel E Hok Hp Hf Hs;
    (destruct (decide (cb <= length txt)%nat) as [Hfull|Hroom]; [eexists _, _, _, _, _; by apply full_run; [|lia]|]).
  - destruct fuel as [|fuel]; [lia|]. cbn [loop]. unfold macro_step. change (m_cnt (at_txt _ _ txt 0 v p)) with 0.
    change (0 =? 0) with true. cbn [orb]. eexists _, _, _, _, _. unfold segs_value. cbn [fmap list_fmap concat]. by rewrite app_nil_r.
  - apply Forall_cons in Hok as [Hx Hok]. rewrite segs_text_cons in E, Hf, Hs |- *. rewrite length_app in Hf, Hs |- *.
    rewrite <-app_assoc in E. change (segs_value es (x :: segs)) with (seg_value es x ++ segs_value es segs).
    destruct x as [c|op name cl].
    + cbn [seg_text seg_value seg_ok length app] in *. rewrite !not_elem_of_cons in Hx. destruct Hx as (H0 & H36 & H39 & H92 & _).
      destruct fuel as [|fuel]; [lia|].
      destruct (IH (pre ++ [c]) rest (txt ++ [c]) v c fuel) as (i & cnt & st & v' & p' & E');
        [by rewrite <-app_assoc|done|done|lia|lia|].
      exists i, cnt, st, v', p'. rewrite <-app_assoc in E'. cbn [app] in E'. rewrite <-E'. cbn [loop].
      replace (Z.of_nat (1 + length (segs_text segs))) with (Z.of_nat (length (segs_text segs)) + 1) by lia.
      rewrite (step_char input pre c (segs_text segs ++ rest)) by (done || lia).
      destruct (Z.eqb_spec (Z.of_nat (length (segs_text segs)) + 1) 0); [lia|].
      unfold m_switch at 1. change (m_state (at_txt _ _ txt 0 v p)) with 0. change (0 =? 0) with true. cbv iota.
      destruct (Z.eqb_spec c 39); [done|]. destruct (Z.eqb_spec c 36); [done|]. cbn [andb].
      rewrite m_put_at by lia. cbn [mbind option_bind]. done.
    + cbn [seg_value]. assert (length (seg_text (Var op name cl)) = 3 + length name)%nat as Hlx
        by (cbn [seg_text length]; rewrite length_app; cbn; lia).
      rewrite Hlx in *. set (f2 := (fuel - (3 + length name))%nat).
      destruct (var_run input pre op name cl (segs_text segs ++ rest) txt (length (segs_text segs)) v p f2)
        as (v1 & Ev); [done|lia|done|done|lia|].
      replace fuel with (3 + length name + f2)%nat by (unfold f2; lia). rewrite Ev.
      destruct (IH (pre ++ seg_text (Var op name cl)) rest (txt ++ default [] (assoc name es)) v1 cl f2)
        as (i & cnt & st & v' & p' & E'); [by rewrite <-app_assoc|done| |unfold f2; lia|lia|].
      { destruct Hx as (_ & Hcl & _). rewrite !elem_of_cons in Hcl. by destruct Hcl as [-> | [-> | ?%not_elem_of_nil]]. }
      exists i, cnt, st, v', p'. rewrite <-app_assoc in E'. rewrite <-E', length_app, Hlx. do 3 f_equal. lia.
Qed.
End macros.

Lemma process_macros_spec env es segs t out
    (Henv : env_ok env es)
    (Hsegs : Forall seg_ok segs)
    (Hin : Z.of_nat (length (segs_text segs)) < CFG_CBSIZE)
    (Hout : Z.of_nat (length out) = CFG_CBSIZE) :
  let txt := segs_value es segs in
  process_macros env (segs_text segs ++ 0 :: t) out =
    Some (if Z.of_nat (length txt) <? CFG_CBSIZE then txt ++ 0 :: drop (S (length txt)) out
          else take (Z.to_nat CFG_CBSIZE) txt).
Proof.
  intros txt. assert (length out = cb) as Ho by (unfold cb; lia).
  assert (0 ∉ segs_text segs) as H0.
  { clear -Hsegs. induction Hsegs as [|x l Hx _ IH]; [apply not_elem_of_nil|]. rewrite segs_text_cons, elem_of_app.
    intros [H|H]; [|done]. destruct x as [c|o n c]; cbn [seg_text seg_ok] in *.
    - apply list_elem_of_singleton in H as <-. apply Hx. left.
    - destruct Hx as (Hop & Hcl & (_ & Hn & _) & _). rewrite !elem_of_cons, elem_of_app, list_elem_of_singleton in H.
      rewrite !elem_of_cons in Hop, Hcl. destruct H as [|[<-|[?|<-]]]; [done| |done|].
      + by destruct Hop as [|[|?%not_elem_of_nil]].
      + by destruct Hcl as [|[|?%not_elem_of_nil]]. }
  unfold process_macros. rewrite c_strlen_app by done. cbn [mbind option_bind]. rewrite Nat2Z.id.
  destruct (segs_run env es Henv out Ho (segs_text segs ++ 0 :: t) segs [] (0 :: t) [] 0 0 (S (length (segs_text segs))))
    as (i & cnt & st & v & p & E); [done|done|done|lia|done|].
  change (at_txt out (Z.of_nat (length [])) (Z.of_nat (length (segs_text segs))) [] 0 0 0)
    with (mkMacros 0 (Z.of_nat (length (segs_text segs))) out 0 0 0 0) in E.
  rewrite E. cbn [app mbind option_bind]. fold txt. pose proof cb_eq as Hcb.
  destruct (Z.ltb_spec (Z.of_nat (length txt)) CFG_CBSIZE).
  - rewrite outputcnt_room by lia. change (m_out (at_txt out i cnt txt st v p)) with (outw out txt).
    change (m_pos (at_txt out i cnt txt st v p)) with (posw txt). rewrite outw_put by (done || lia).
    unfold outw. rewrite take_ge by (rewrite length_app; cbn [length]; lia). rewrite length_app, <-app_assoc. cbn [length].
    by rewrite Nat.add_1_r.
  - rewrite outputcnt_full by lia. change (m_out (at_txt out i cnt txt st v p)) with (outw out txt). unfold outw.
    rewrite (drop_ge out) by lia. by rewrite app_nil_r.
Qed.

(** Replacing variables.  A text of characters and of variables between
    parentheses or braces comes out with every variable replaced by its value
    in the environment, unset ones by nothing.  The output is cut off at 256
    characters, and only a shorter text gets its terminator. *)
Theorem process_macros_expand env es segs t out
    (Henv : env_ok env es)
    (Hsegs : Forall seg_ok segs)
    (Hin : Z.of_nat (length (segs_text segs)) < CFG_CBSIZE)
    (Hout : Z.of_nat (length out) = CFG_CBSIZE) :
  let txt := segs_value es segs in
  process_macros env (segs_text segs ++ 0 :: t) out =
    Some (if Z.of_nat (length txt) <? CFG_CBSIZE then txt ++ 0 :: drop (S (length txt)) out
          else take (Z.to_nat CFG_CBSIZE) txt).
Proof. by apply process_macros_spec. Qed.

Lemma process_macros_expand_witness :
  process_macros demo_block (str "a$(bootdelay)" ++ [0]) (replicate 256 9) = Some (str "a1" ++ 0 :: replicate 253 9).
Proof.
  apply (process_macros_expand demo_block demo_vars [Char 97; Var 40 (str "bootdelay") 41] [] (replicate 256 9)).
  - exact demo_block_ok.
  - repeat constructor; by_eval || discriminate.
  - by_eval.
  - reflexivity.
Defined.

(** ** Looking a command up *)

Section find.
Context {S : Type} `{Cli S}.
Implicit Types (tbl : list (cmd_tbl S)).

Definition table_ok tbl : Prop := Forall (λ c, 0 ∈ cmd_name c ∧ bytes (cmd_name c)) tbl.

(** The text up to the first dot. *)
Definition key (cmd : list Z) : list Z :=
  match list_find (eq 46) (cut cmd) with Some (n, _) => take n (cut cmd) | None => cut cmd end.

Definition named tbl (k : list Z) : list (cmd_tbl S) := filter (λ c, cut (cmd_name c) = k) tbl.
Definition abbreviated tbl (k : list Z) : list (cmd_tbl S) := filter (λ c, k `prefix_of` cut (cmd_name c)) tbl.

(** The command a key stands for. *)
Definition meant tbl (k : list Z) : option (cmd_tbl S) :=
  match named tbl k with
  | c :: _ => Some c
  | [] => match abbreviated tbl k with [c] => Some c | _ => None end
  end.

(** Comparing as many characters as the key has. *)
Lemma strncmp_key k : ∀ l name, Forall (λ x, x ≠ 0) k → bytes k → bytes name → 0 ∈ name →
  ∃ r, c_strncmp (k ++ l) name (length k) = Some r ∧ (r = 0 ↔ k `prefix_of` cut name).
Proof.
  induction k as [|a k IH]; intros l name Hk Hb Hn H0.
  - exists 0. split; [done|]. split; [intros _; apply prefix_nil|done].
  - apply Forall_cons in Hk as [Ha Hk]. destruct name as [|b name]; [by apply not_elem_of_nil in H0|].
    apply Forall_cons in Hb as [Hab Hb]. apply Forall_cons in Hn as [Hbb Hn].
    cbn [app length c_strncmp]. pose proof (s8_diff a b Hab Hbb) as E.
    destruct (Z.eqb_spec (s8 (a - b)) 0) as [E0|E0]; cbn [negb].
    + assert (a = b) as <- by tauto. destruct (Z.eqb_spec a 0); [done|].
      apply elem_of_cons in H0 as [|H0]; [done|]. destruct (IH l name Hk Hb Hn H0) as (r & Er & Hr).
      exists r. split; [done|]. cbn [cut]. destruct (Z.eqb_spec a 0); [done|]. rewrite Hr. split.
      * apply prefix_cons.
      * apply prefix_cons_inv_2.
    + exists (s8 (a - b)). split; [done|]. split; [done|]. cbn [cut]. intros Hp.
      destruct (Z.eqb_spec b 0); [by apply prefix_nil_inv in Hp|]. apply prefix_cons_inv_1 in Hp. tauto.
Qed.

(** What the search finds: the first full match, or else the only match
    among the abbreviations, those met before included. *)
Lemma find_loop_spec k l : ∀ tbl temp n, table_ok tbl → Forall (λ x, x ≠ 0) k → bytes k → 0 <= n →
  find_loop tbl (k ++ l) (Z.of_nat (length k)) temp n =
    Some (match named tbl k with
          | c :: _ => Some c
          | [] => if n + Z.of_nat (length (abbreviated tbl k)) =? 1
                  then match abbreviated tbl k with [] => temp | c :: _ => Some c end
                  else None
          end).
Proof.
  induction tbl as [|c tbl IH]; intros temp n Hok Hk Hb Hn; cbn [find_loop].
  - unfold named, abbreviated. cbn [filter list_filter length]. change (Z.of_nat 0) with 0. by rewrite Z.add_0_r.
  - apply Forall_cons in Hok as [[H0 Hc] Hok]. rewrite Nat2Z.id.
    destruct (strncmp_key k l (cmd_name c) Hk Hb Hc H0) as (r & -> & Hr). cbn [mbind option_bind].
    unfold named, abbreviated. rewrite !filter_cons. fold (named tbl k) (abbreviated tbl k).
    destruct (Z.eqb_spec r 0) as [E|E].
    + apply Hr in E as Hp. rewrite c_strlen_Some by done. cbn [mbind option_bind].
      destruct (Z.eqb_spec (Z.of_nat (length k)) (Z.of_nat (length (cut (cmd_name c))))) as [Hl|Hl].
      * destruct (decide (cut (cmd_name c) = k)) as [|Hne]; [done|]. destruct Hne. symmetry.
        by apply prefix_length_eq; [|lia].
      * destruct (decide (cut (cmd_name c) = k)) as [Ek|Hne]; [by rewrite Ek in Hl|].
        rewrite IH by (done || lia). destruct (decide (k `prefix_of` cut (cmd_name c))); [|done].
        destruct (named tbl k); [|done]. cbn [length].
        replace (n + 1 + Z.of_nat (length (abbreviated tbl k))) with (n + Z.of_nat (Datatypes.S (length (abbreviated tbl k)))) by lia.
        destruct (Z.eqb_spec (n + Z.of_nat (Datatypes.S (length (abbreviated tbl k)))) 1); [|done].
        by destruct (abbreviated tbl k); [|cbn [length] in *; lia].
    + assert (¬ k `prefix_of` cut (cmd_name c)) as Hp by tauto.
      destruct (decide (cut (cmd_name c) = k)) as [Ek|_]; [by destruct Hp; rewrite Ek|].
      destruct (decide (k `prefix_of` cut (cmd_name c))); [done|]. by apply IH.
Qed.

Lemma key_length cmd :
  default (Z.of_nat (length (cut cmd))) ((λ x, Z.of_nat x.1) <$> list_find (eq 46) (cut cmd)) = Z.of_nat (length (key cmd)).
Proof.
  unfold key. destruct (list_find (eq 46) (cut cmd)) as [[n x]|] eqn:Ef; [|done]. cbn [fmap option_fmap option_map default].
  apply list_find_Some in Ef as (Ef & _ & _). apply lookup_lt_Some in Ef. rewrite length_take. cbn. lia.
Qed.

Lemma key_prefix cmd : 0 ∈ cmd → bytes (cut cmd) →
  ∃ l, cmd = key cmd ++ l ∧ Forall (λ x, x ≠ 0) (key cmd) ∧ bytes (key cmd).
Proof.
  intros H0 Hb. destruct (cut_split cmd H0) as (t & E). assert (Forall (λ x, x ≠ 0) (cut cmd)) as Hc.
  { apply Forall_forall. intros x Hx ->. by apply (cut_nonzero cmd). }
  exists (drop (length (key cmd)) cmd). assert (key cmd `prefix_of` cmd) as [l El].
  { unfold key. destruct (list_find _ _) as [[n x]|]; [|by rewrite E at 2; apply prefix_app_r].
    etrans; [apply prefix_take|]. rewrite E at 2. by apply prefix_app_r. }
  assert (drop (length (key cmd)) cmd = l) as -> by (rewrite El at 2; by rewrite drop_app_length).
  split_and!; [done| |]; unfold key; (destruct (list_find _ _) as [[n x]|]; [|done]); by apply Forall_take.
Qed.

Lemma find_cmd_spec tbl cmd
    (Htbl : table_ok tbl)
    (Hend : 0 ∈ cmd)
    (Hbytes : bytes (cut cmd)) :
  find_cmd tbl cmd = Some (meant tbl (key cmd)).
Proof.
  destruct (key_prefix cmd Hend Hbytes) as (l & E & Hk & Hb). unfold find_cmd.
  rewrite c_strlen_Some by done. cbn [mbind option_bind].
  rewrite key_length.
  rewrite E at 1. rewrite find_loop_spec by done. f_equal. unfold meant. destruct (named tbl (key cmd)); [|done].
  destruct (abbreviated tbl (key cmd)) as [|c [|? l']]; [done|done|]. cbn [length].
  by destruct (Z.eqb_spec (0 + Z.of_nat (Datatypes.S (Datatypes.S (length l')))) 1); [lia|].
Qed.

(** Looking a command up.  What is written up to the first dot names a
    command by its whole name (the first one of the table that has it) or, if
    it is the whole name of none, as the beginning of the name of exactly one;
    what is ambiguous names none. *)
Theorem find_cmd_meant tbl cmd
    (Htbl : table_ok tbl)
    (Hend : 0 ∈ cmd)
    (Hbytes : bytes (cut cmd)) :
  find_cmd tbl cmd = Some (meant tbl (key cmd)).
Proof. by apply find_cmd_spec. Qed.
End find.
