(* ===== verification/CliRun.v ===== *)
(** A whole line of commands: [run_command] of [Cli] against the meaning of
    the line, each command in its turn with the variables as the commands
    before it left them. *)
From stdpp Require Import base tactics option list strings sets.
From Stdlib Require Import ZArith Lia.
From S2P Require Import Prelude.
From S2P Require Import Eff.
From S2P Require Import CBuf.
From S2P Require Import Env.
From S2P Require Import EnvSpec.
From S2P Require Import Cli.
From S2P Require Import CliSpec.
Open Scope Z_scope.

(** ** Lines *)

(** The text of a command: no quotes, separators or escapes. *)
Definition plain (txt : list Z) : Prop := Forall (λ c, c ∉ [0; 39; 59; 92]) txt.
Definition tok_ok (t : list seg) : Prop :=
  Forall seg_ok t ∧ plain (segs_text t) ∧ bytes (segs_text t) ∧ t ≠ [].

Fixpoint line_text (toks : list (list seg)) : list Z :=
  match toks with
  | [] => []
  | [t] => segs_text t
  | t :: toks' => segs_text t ++ 59 :: line_text toks'
  end.

Lemma sep_loop txt : ∀ pre post c str fuel, plain txt → c = 0 ∨ c = 59 →
  (c = 59 → txt = [] → ∃ p d, pre = p ++ [d] ∧ d ≠ 92 ∧ str ≠ Z.of_nat (length pre)) →
  str <= Z.of_nat (length pre) → (length txt < fuel)%nat →
  loop fuel (sep_step (pre ++ txt ++ c :: post) str) (Z.of_nat (length pre), false) =
    Some (Z.of_nat (length pre + length txt)).
Proof.
  induction txt as [|x txt IH]; intros pre post c str fuel Hp Hc Hend Hs Hf; (destruct fuel as [|fuel]; [lia|]);
    cbn [loop app]; unfold sep_step at 1; rewrite idx_mid; cbn [mbind option_bind].
  - cbn [length]. rewrite Nat.add_0_r. destruct Hc as [-> | ->]; [done|].
    destruct (Hend eq_refl eq_refl) as (p & d & -> & Hd & Hne). change (59 =? 0) with false. change (59 =? 39) with false.
    change (59 =? 59) with true. cbv iota. cbn [mbind option_bind negb andb].
    destruct (Z.eqb_spec (Z.of_nat (length (p ++ [d]))) str); [by symmetry in e|]. cbn [negb].
    rewrite <-app_assoc, (idx_at _ p (59 :: post) d) by (done || rewrite length_app; cbn [length]; lia).
    cbn [mbind option_bind]. by destruct (Z.eqb_spec d 92).
  - apply Forall_cons in Hp as [Hx Hp]. rewrite !not_elem_of_cons in Hx. destruct Hx as (H0 & H39 & H59 & H92 & _).
    destruct (Z.eqb_spec x 0); [done|]. destruct (Z.eqb_spec x 39); [done|]. destruct (Z.eqb_spec x 59); [done|].
    cbn [mbind option_bind negb andb]. rewrite snoc_at, (snoc_len pre x). rewrite IH; [|done|done| | |cbn in Hf; lia].
    + rewrite length_app. cbn [length]. f_equal. lia.
    + intros _ _. exists pre, x. split_and!; [done|done|]. rewrite length_app. cbn [length]. lia.
    + rewrite length_app. cbn [length]. lia.
Qed.

(** ** What a line means *)

Section exec.
Context {S : Type} `{Cli S} (table : list (cmd_tbl S)) (vars : S → list var).

(** Each command in turn: [rc] and [rep] are the results so far. *)
Fixpoint exec (toks : list (list seg)) (flag rc rep : Z) : ST S Z :=
  match toks with
  | [] => mret (if negb (rc =? 0) then rc else rep)
  | t :: toks' =>
      s ← get;
      match take 16 (words (segs_value (vars s) t)) with
      | [] => exec toks' flag (-1) rep
      | a :: args =>
          match meant table (key a) with
          | None => exec toks' flag (-1) rep
          | Some c =>
              if maxargs c <? Z.of_nat (length (a :: args)) then exec toks' flag (-1) rep
              else if is_bootd c && negb (Z.land flag CMD_FLAG_BOOTD =? 0) then exec toks' flag (-1) rep
              else
                let flag := if is_bootd c then Z.lor flag CMD_FLAG_BOOTD else flag in
                r ← cmd_func c flag ((λ w, w ++ [0]) <$> (a :: args));
                s ← get;
                if had_ctrlc s then mret 0
                else exec toks' flag (if negb (r =? 0) then -1 else rc) (Z.land rep (repeatable c))
          end
      end
  end.
End exec.

Lemma assoc_in name es v : assoc name es = Some v → (name, v) ∈ es.
Proof.
  induction es as [|[n w] es IH]; [done|]. cbn [assoc fst snd]. intros E. destruct (decide (n = name)) as [->|].
  - simplify_eq. left.
  - right. auto.
Qed.

Lemma encs_bytes env es x : env_ok env es → bytes env → x ∈ es → bytes x.2.
Proof.
  intros [_ _ (rest & E)] Hb Hx. rewrite E in Hb. apply bytes_app in Hb as [Hb _].
  assert (bytes (encs es)) as He by (unfold encode in Hb; destruct es; [by apply not_elem_of_nil in Hx|by apply bytes_app in Hb as [? _]]).
  clear -He Hx. unfold encs in He. induction es as [|y es IH]; [by apply not_elem_of_nil in Hx|].
  cbn [fmap list_fmap concat] in He. apply bytes_app in He as [Hy He].
  apply elem_of_cons in Hx as [-> |Hx]; [|by apply IH]. unfold enc in Hy. apply bytes_app in Hy as [_ Hy].
  apply Forall_cons in Hy as [_ Hy]. by apply bytes_app in Hy as [Hy _].
Qed.

(** The expansion of a command is a string of bytes. *)
Lemma value_ok env es t : env_ok env es → bytes env → Forall seg_ok t → bytes (segs_text t) →
  Forall (λ c, c ≠ 0 ∧ is_byte c) (segs_value es t).
Proof.
  intros Henv Hb. induction 1 as [|x t Hx _ IH]; intros Ht; [constructor|]. unfold segs_value in *. rewrite segs_text_cons in Ht.
  apply bytes_app in Ht as [Hxb Ht]. cbn [fmap list_fmap concat]. apply Forall_app. split; [|by apply IH].
  destruct x as [c|o name c]; cbn [seg_value seg_text seg_ok] in *.
  - apply Forall_cons in Hxb as [Hxb _]. constructor; [|constructor]. split; [|exact Hxb]. intros ->. apply Hx. left.
  - destruct (assoc name es) as [v|] eqn:E; [|constructor]. apply assoc_in in E. pose proof (encs_bytes _ _ _ Henv Hb E) as Hv.
    destruct Henv as [_ Hvars _]. rewrite Forall_forall in Hvars. destruct (Hvars _ E) as [_ H0]. cbn [snd default] in *.
    apply Forall_forall. intros c' Hc'. split; [by intros ->|]. unfold bytes in Hv. rewrite Forall_forall in Hv. auto.
Qed.

Lemma words_from_ok (P : Z → Prop) s : ∀ w, Forall P w → Forall P s → Forall (Forall P) (words_from w s).
Proof.
  induction s as [|c s IH]; intros w Hw Hs; cbn [words_from].
  - destruct w; [constructor|]. by constructor; [|constructor].
  - apply Forall_cons in Hs as [Hc Hs]. destruct (is_white c).
    + destruct w; [by apply IH|]. constructor; [done|by apply IH].
    + apply IH; [|done]. apply Forall_app. by repeat constructor.
Qed.

Lemma meant_in {S} (tbl : list (cmd_tbl S)) k c : meant tbl k = Some c → c ∈ tbl.
Proof.
  unfold meant. destruct (named tbl k) as [|c1 l1] eqn:E1.
  - destruct (abbreviated tbl k) as [|c2 [|? ?]] eqn:E2; [done| |done]. intros [= ->].
    assert (c ∈ abbreviated tbl k) as Hi by (rewrite E2; left). by apply list_elem_of_filter in Hi as [_ ?].
  - intros [= ->]. assert (c ∈ named tbl k) as Hi by (rewrite E1; left). by apply list_elem_of_filter in Hi as [_ ?].
Qed.

Lemma tok_text t : tok_ok t → (0 ∉ segs_text t) ∧ segs_text t ≠ [].
Proof.
  intros (_ & Hp & _ & Hne). split.
  - intros Hi. unfold plain in Hp. rewrite Forall_forall in Hp. apply (Hp 0 Hi). left.
  - destruct t as [|x t]; [done|]. rewrite segs_text_cons. by destruct x.
Qed.

Section run.
Context {S : Type} `{Cli S} (table : list (cmd_tbl S)) (vars : S → list var) (I : S → Prop).

(** What the commands promise: they keep the environment well formed, and
    read their arguments as strings. *)
Record commands_ok := mkCommandsOk {
  co_table : table_ok table;
  co_vars s : I s → env_ok (cli_env s) (vars s);
  co_bytes s : I s → bytes (cli_env s);
  co_clear s : I s → I (clear_ctrlc s);
  co_keep c flag argv s s' r : c ∈ table → I s → cmd_func c flag argv s = Some (s', r) → I s';
  co_strings c flag a b s : c ∈ table → cut <$> a = cut <$> b → cmd_func c flag a s = cmd_func c flag b s;
}.
Context (Hok : commands_ok).

Definition fits (t : list seg) : Prop := ∀ s, I s → Z.of_nat (length (segs_value (vars s) t)) < CFG_CBSIZE.

(** Up to the call: separating, replacing and splitting one command. *)
Lemma token_run pre t c post final flag rc rep s :
  I s → tok_ok t → fits t → c = 0 ∨ c = 59 → Z.of_nat (length final) = CFG_CBSIZE →
  Z.of_nat (length (segs_text t)) < CFG_CBSIZE →
  ∃ final' argv, Z.of_nat (length final') = CFG_CBSIZE ∧
    cut <$> argv = take 16 (words (segs_value (vars s) t)) ∧ Forall (λ a, 0 ∈ a) argv ∧
    run_step table (mkCli (pre ++ segs_text t ++ c :: post) (Z.of_nat (length pre)) final flag rc rep) s =
    dispatch table argv (mkCli (pre ++ segs_text t ++ 0 :: post)
      (Z.of_nat (length pre + length (segs_text t)) + (if c =? 0 then 0 else 1)) final' flag rc rep) s.
Proof.
  intros HI Ht Hfit Hc Hf Hlen. destruct (tok_text t Ht) as [H0 Hne]. destruct Ht as (Hsegs & Hplain & Hbytes & _).
  assert (∃ y ys, segs_text t = y :: ys ∧ y ≠ 0) as (y & ys & Ey & Hy).
  { destruct (segs_text t) as [|y ys]; [done|]. exists y, ys. split; [done|]. intros ->. apply H0. left. }
  set (n := length (segs_text t)) in *. set (txt := segs_value (vars s) t).
  pose proof (value_ok _ _ t (co_vars Hok s HI) (co_bytes Hok s HI) Hsegs Hbytes) as Hval. fold txt in Hval.
  assert (0 ∉ txt) as Hv0 by (intros Hi; rewrite Forall_forall in Hval; by destruct (Hval 0 Hi)).
  destruct (parse_line_spec txt (drop (Datatypes.S (length txt)) final) Hv0) as (line' & ix & Hparse & Hll & Hstr & Hend).
  pose proof (Hfit s HI) as Hl. fold txt in Hl.
  exists line', ((λ i, drop (Z.to_nat i) line') <$> ix). split_and!.
  - rewrite Hll, length_app. cbn [length]. rewrite length_drop. lia.
  - unfold strings_at in Hstr. by rewrite <-list_fmap_compose.
  - by apply Forall_fmap.
  - unfold run_step, mbind, st_bind, lift, get, mret, st_ret. cbn [cmdbuf c_str finaltoken c_flag c_rc c_repeatable].
    assert (idx (pre ++ segs_text t ++ c :: post) (Z.of_nat (length pre)) = Some y) as -> by (rewrite Ey; apply idx_mid). destruct (Z.eqb_spec y 0); [done|].
    rewrite sep_loop; [|done|done|by intros _ ?|lia|rewrite !length_app; fold n; lia]. fold n.
    rewrite (idx_at (pre ++ segs_text t ++ c :: post) (pre ++ segs_text t) post c)
      by (by rewrite <-app_assoc || (rewrite length_app; fold n; lia)).
    assert (∀ o, process_macros (cli_env s) (drop (Z.to_nat (Z.of_nat (length pre))) (pre ++ segs_text t ++ 0 :: post)) o =
      process_macros (cli_env s) (segs_text t ++ 0 :: post) o) as Edrop by (intros o; by rewrite Nat2Z.id, drop_app_length).
    pose proof (process_macros_spec _ _ t post final (co_vars Hok s HI) Hsegs Hlen Hf) as Hpm. cbn zeta in Hpm. fold txt in Hpm.
    destruct (Z.ltb_spec (Z.of_nat (length txt)) CFG_CBSIZE); [|lia].
    destruct Hc as [-> | ->].
    + change (0 =? 0) with true. cbn [negb]. rewrite Edrop, Hpm, Hparse, Z.add_0_r. done.
    + change (59 =? 0) with false. cbn [negb].
      rewrite (upd_at (pre ++ segs_text t ++ 59 :: post) (pre ++ segs_text t) post 59 0) by (by rewrite <-app_assoc || (rewrite length_app; fold n; lia)).
      rewrite <-app_assoc, Edrop, Hpm, Hparse. done.
Qed.

Lemma word_ok a w : w ∈ words a → Forall (λ c, c ≠ 0 ∧ is_byte c) a → (0 ∉ w) ∧ bytes w.
Proof.
  intros Hw Ha. assert (Forall (Forall (λ c, c ≠ 0 ∧ is_byte c)) (words a)) as Hall by by apply words_from_ok.
  rewrite Forall_forall in Hall. specialize (Hall w Hw). rewrite Forall_forall in Hall. split.
  - intros Hi. by destruct (Hall 0 Hi).
  - apply Forall_forall. intros x Hx. by destruct (Hall x Hx).
Qed.

Lemma key_cut a : key a = key (cut a).
Proof. unfold key. by rewrite (cut_id (cut a)) by apply cut_nonzero. Qed.

Lemma cut_terminated (ws : list (list Z)) : Forall (λ w, 0 ∉ w) ws → cut <$> ((λ w, w ++ [0]) <$> ws) = ws.
Proof. induction 1 as [|w ws Hw _ IH]; [done|]. cbn [fmap list_fmap]. rewrite cut_app by done. by f_equal. Qed.

(** The call itself, and what comes after it. *)
Lemma dispatch_run argv ws x s (K : cli → ST S Z) (E : Z → Z → Z → ST S Z) :
  I s → cut <$> argv = ws → Forall (λ a, 0 ∈ a) argv → Forall (λ w, (0 ∉ w) ∧ bytes w) ws →
  (∀ flag rc rep s, I s → K (mkCli (cmdbuf x) (c_str x) (finaltoken x) flag rc rep) s = E flag rc rep s) →
  (r ← dispatch table argv x; match r with inl x' => K x' | inr r => mret r end) s =
  match ws with
  | [] => E (c_flag x) (-1) (c_repeatable x)
  | a :: args =>
      match meant table (key a) with
      | None => E (c_flag x) (-1) (c_repeatable x)
      | Some c =>
          if maxargs c <? Z.of_nat (length (a :: args)) then E (c_flag x) (-1) (c_repeatable x)
          else if is_bootd c && negb (Z.land (c_flag x) CMD_FLAG_BOOTD =? 0) then E (c_flag x) (-1) (c_repeatable x)
          else
            let flag := if is_bootd c then Z.lor (c_flag x) CMD_FLAG_BOOTD else c_flag x in
            r ← cmd_func c flag ((λ w, w ++ [0]) <$> (a :: args));
            s ← get;
            if had_ctrlc s then mret 0
            else E flag (if negb (r =? 0) then -1 else c_rc x) (Z.land (c_repeatable x) (repeatable c))
      end
  end s.
Proof.
  intros HI <- H0 Hws HK. assert (∀ s, I s → K (fail_cmd x) s = E (c_flag x) (-1) (c_repeatable x) s) as Hfail by (intros; by apply HK).
  destruct argv as [|a argv]; [by apply Hfail|]. cbn [fmap list_fmap] in *. fold (cut <$> argv) in *.
  apply Forall_cons in H0 as [Ha _]. pose proof Hws as Hws'. apply Forall_cons in Hws' as [[_ Hab] _].
  unfold dispatch. unfold mbind at 1 2, st_bind at 1 2, lift. rewrite find_cmd_spec by (done || apply (co_table Hok)).
  rewrite <-key_cut. destruct (meant table (key a)) as [c|] eqn:Em; [|by apply Hfail].
  cbn [length]. rewrite length_fmap. destruct (maxargs c <? _); [by apply Hfail|].
  assert (∀ flag, (∀ rc rep s, I s → K (mkCli (cmdbuf x) (c_str x) (finaltoken x) flag rc rep) s = E flag rc rep s) →
    match call_cmd c (a :: argv) (mkCli (cmdbuf x) (c_str x) (finaltoken x) flag (c_rc x) (c_repeatable x)) s with
    | Some (s', r) => match r with inl x' => K x' | inr r => mret r end s'
    | None => None
    end = (r ← cmd_func c flag ((λ w, w ++ [0]) <$> (cut a :: (cut <$> argv)));
           s ← get;
           if had_ctrlc s then mret 0
           else E flag (if negb (r =? 0) then -1 else c_rc x) (Z.land (c_repeatable x) (repeatable c))) s) as Hcall.
  { intros flag HKf. unfold call_cmd, mbind, st_bind, get, mret, st_ret. cbn [c_flag cmdbuf c_str finaltoken c_rc c_repeatable].
    rewrite (co_strings Hok c flag (a :: argv) ((λ w, w ++ [0]) <$> (cut a :: (cut <$> argv)))).
    - destruct (cmd_func _ _ _ _) as [[s' r]|] eqn:Ec; [|done]. apply (co_keep Hok) in Ec; [|by eapply meant_in|done].
      destruct (had_ctrlc s'); [done|]. by apply HKf.
    - by eapply meant_in.
    - rewrite cut_terminated; [done|]. eapply Forall_impl; [exact Hws|]. by intros w [? _]. }
  destruct (is_bootd c).
  - destruct (Z.land (c_flag x) CMD_FLAG_BOOTD =? 0); cbn [negb andb]; [|by apply Hfail]. apply Hcall. auto.
  - cbn [andb]. destruct x. apply Hcall. auto.
Qed.

Lemma line_cons t toks rest : ∃ c post, line_text (t :: toks) ++ 0 :: rest = segs_text t ++ c :: post ∧ (c = 0 ∨ c = 59) ∧
  ∀ pre, ∃ pre' rest', pre ++ segs_text t ++ 0 :: post = pre' ++ line_text toks ++ 0 :: rest' ∧
    Z.of_nat (length pre + length (segs_text t)) + (if c =? 0 then 0 else 1) = Z.of_nat (length pre').
Proof.
  destruct toks as [|t' toks].
  - exists 0, rest. split_and!; [done|by left|]. intros pre. exists (pre ++ segs_text t), rest.
    rewrite <-app_assoc, length_app. cbn [line_text app]. split; [done|]. change (0 =? 0) with true. lia.
  - exists 59, (line_text (t' :: toks) ++ 0 :: rest). cbn [line_text]. fold (line_text (t' :: toks)).
    split_and!; [by rewrite <-app_assoc|by right|]. intros pre. exists (pre ++ segs_text t ++ [0]), rest.
    rewrite <-!app_assoc, !length_app. split; [done|]. change (59 =? 0) with false. cbn [length]. lia.
Qed.

Lemma line_length t toks : (length (segs_text t) <= length (line_text (t :: toks)))%nat ∧
  (length (line_text toks) <= length (line_text (t :: toks)))%nat.
Proof. cbn [line_text]. destruct toks; [cbn [line_text length]; lia|]. rewrite length_app. cbn [length]. lia. Qed.

Lemma exec_run toks : ∀ fuel pre rest final flag rc rep s,
  I s → Forall tok_ok toks → Forall fits toks → Z.of_nat (length final) = CFG_CBSIZE →
  Z.of_nat (length (line_text toks)) < CFG_CBSIZE → (length toks < fuel)%nat →
  mloop fuel (run_step table)
    (mkCli (pre ++ line_text toks ++ 0 :: rest) (Z.of_nat (length pre)) final flag rc rep) s =
  exec table vars toks flag rc rep s.
Proof.
  induction toks as [|t toks IH]; intros fuel pre rest final flag rc rep s HI Hts Hfits Hf Hl Hn;
    (destruct fuel as [|fuel]; [lia|]); rewrite mloop_S.
  - unfold run_step, mbind, st_bind, lift, mret, st_ret. cbn [cmdbuf c_str line_text app c_rc c_repeatable]. by rewrite idx_mid.
  - apply Forall_cons in Hts as [Ht Hts]. apply Forall_cons in Hfits as [Hfit Hfits].
    destruct (line_length t toks) as [Hl1 Hl2]. destruct (line_cons t toks rest) as (c & post & -> & Hc & Hnext).
    destruct (token_run pre t c post final flag rc rep s) as (final' & argv & Hf' & Hcut & Hend & Erun); [done..|lia|].
    unfold mbind at 1, st_bind at 1. rewrite Erun. destruct (Hnext pre) as (pre' & rest' & Eb & Es). rewrite Eb, Es.
    pose proof (value_ok _ _ t (co_vars Hok s HI) (co_bytes Hok s HI) (proj1 Ht) (proj1 (proj2 (proj2 Ht)))) as Hv.
    etrans; [apply (dispatch_run argv _ _ s _ (exec table vars toks) HI Hcut Hend)|done].
    + apply Forall_forall. intros w Hw. apply (word_ok (segs_value (vars s) t)); [|done].
      by apply elem_of_take in Hw as (i & Hw & _); apply list_elem_of_lookup_2 in Hw.
    + intros flag' rc' rep' s' HI'. cbn [cmdbuf c_str finaltoken]. apply IH; done || (cbn in Hn; lia).
Qed.

Lemma toks_length toks : Forall tok_ok toks → (length toks <= Datatypes.S (length (line_text toks)))%nat.
Proof.
  induction toks as [|t [|t' toks] IH]; [cbn; lia|cbn; lia|]. intros Hts. apply Forall_cons in Hts as [_ Hts].
  specialize (IH Hts). change (line_text (t :: t' :: toks)) with (segs_text t ++ 59 :: line_text (t' :: toks)).
  rewrite length_app. cbn [length] in *. lia.
Qed.

Lemma line_no_nul toks : Forall tok_ok toks → 0 ∉ line_text toks.
Proof.
  induction toks as [|t toks IH]; [intros _; apply not_elem_of_nil|]. intros Hts. apply Forall_cons in Hts as [Ht Hts].
  destruct (tok_text t Ht) as [H0 _]. cbn [line_text]. destruct toks; [done|]. rewrite elem_of_app, elem_of_cons.
  intros [?|[?|Hi]]; [done|done|]. by apply IH.
Qed.

(** C10: running a line of commands separated by semicolons.  Every command is
    expanded with the variables as they are when its turn comes, split into at
    most 16 words and looked up; unknown commands, missing commands and too
    many arguments count as failures and the line goes on; the first
    control-C ends it.  The working copies on the stack, whatever they hold
    when the function is entered, never show. *)
Theorem run_command_exec cmdbuf0 final0 toks t flag s
    (Hstate : I (clear_ctrlc s))
    (Htoks : Forall tok_ok toks)
    (Hne : toks ≠ [])
    (Hfits : Forall fits toks)
    (Hlen : Z.of_nat (length (line_text toks)) < CFG_CBSIZE)
    (Hbuf : Z.of_nat (length cmdbuf0) = CFG_CBSIZE)
    (Hfinal : Z.of_nat (length final0) = CFG_CBSIZE) :
  run_command table cmdbuf0 final0 (Some (line_text toks ++ 0 :: t)) flag s =
    exec table vars toks flag 0 1 (clear_ctrlc s).
Proof.
  pose proof (line_no_nul toks Htoks) as H0.
  unfold run_command. unfold mbind at 1, st_bind at 1, modify. set (s1 := clear_ctrlc s) in *.
  assert (∃ y ys, line_text toks = y :: ys ∧ y ≠ 0) as (y & ys & Ey & Hy).
  { destruct toks as [|t1 toks]; [done|]. apply Forall_cons in Htoks as [Ht _]. destruct (tok_text t1 Ht) as [_ H1].
    destruct (line_text (t1 :: toks)) as [|y ys] eqn:E.
    - pose proof (proj1 (line_length t1 toks)) as Hl1. rewrite E in Hl1. by destruct (segs_text t1); [|cbn in Hl1; lia].
    - exists y, ys. split; [done|]. intros ->. apply H0. left. }
  unfold mbind, st_bind, lift. assert (idx (line_text toks ++ 0 :: t) 0 = Some y) as -> by (rewrite Ey; done).
  destruct (Z.eqb_spec y 0); [done|]. rewrite c_strlen_app by done.
  destruct (Z.leb_spec CFG_CBSIZE (Z.of_nat (length (line_text toks)))); [lia|].
  rewrite cut_app, blit_Some by (done || rewrite length_app; cbn [length]; lia). change (Z.to_nat 0) with 0%nat. cbn [take app].
  rewrite <-app_assoc. apply (exec_run toks _ [] _ final0 flag 0 1 s1); [done..|].
  pose proof (toks_length toks Htoks). lia.
Qed.
End run.

(** Two commands of a console that remembers what it ran: the second one
    reads a variable. *)
#[local] Instance demo_cli : Cli (list (list (list Z))) := {|
  cli_env _ := demo_block;
  clear_ctrlc s := s;
  had_ctrlc _ := false;
|}.
Definition demo_table : list (cmd_tbl (list (list (list Z)))) :=
  [mkCmd (lit "echo") 16 1 false (λ _ argv s, Some (s ++ [cut <$> argv], 0)) None None false;
   mkCmd (lit "reset") 1 0 false (λ _ _ s, Some ([], 0)) None None false].
Definition demo_toks : list (list seg) :=
  [Char <$> str "ec hello"; (Char <$> str "nope"); (Char <$> str " echo x") ++ [Var 123 (str "bootdelay") 125]].

Lemma demo_commands : commands_ok demo_table (λ _, demo_vars) (λ _, True).
Proof.
  split.
  - repeat constructor; by_eval || discriminate.
  - intros ? ?. exact demo_block_ok.
  - intros ? ?. cbn; by_eval.
  - done.
  - done.
  - intros c flag a b s Hc E. unfold demo_table in Hc. rewrite !elem_of_cons in Hc.
    destruct Hc as [Hc|[Hc|Hc]]; [|by rewrite Hc|by apply not_elem_of_nil in Hc]. rewrite Hc. cbn [cmd_func]. by rewrite E.
Qed.

Lemma run_command_exec_witness :
  run_command demo_table (replicate 256 7) (replicate 256 8) (Some (str "ec hello;nope; echo x${bootdelay}" ++ [0])) 0 [] =
    Some ([[str "ec"; str "hello"]; [str "echo"; str "x1"]], -1).
Proof.
  etrans; [|vm_compute; reflexivity].
  apply (run_command_exec demo_table (λ _, demo_vars) (λ _, True) demo_commands
    (replicate 256 7) (replicate 256 8) demo_toks [] 0 []).
  - done.
  - repeat constructor; by_eval || discriminate.
  - discriminate.
  - repeat constructor; intros ? _; reflexivity.
  - reflexivity.
  - reflexivity.
  - reflexivity.
Defined.

(** A command that begins with a quote reads the byte before the buffer. *)
Lemma quote_at_start : run_command demo_table (replicate 256 7) (replicate 256 8) (Some (lit "'a'")) 0 [] = None.
Proof. vm_compute. reflexivity. Qed.

(** An expansion of 256 characters or more has no terminator, and splitting
    it runs past the end of the array. *)
Definition long_vars : list var := [(str "a", replicate 200 120)].
Definition long_block : list Z := encode long_vars ++ replicate (Z.to_nat ENV_SIZE - length (encode long_vars)) 0.
Lemma long_expansion :
  ∃ out, process_macros long_block (lit "$(a)$(a)") (replicate 256 8) = Some out ∧ parse_line out = None.
Proof. eexists. split; vm_compute; reflexivity. Qed.

(** The 17th word of a line is dropped, and the command runs. *)
Lemma too_many_words :
  run_command demo_table (replicate 256 7) (replicate 256 8) (Some (lit "echo 1 2 3 4 5 6 7 8 9 a b c d e f g")) 0 [] =
    Some ([str "echo" :: ((λ c, [c]) <$> str "123456789abcdef")], 1).
Proof. vm_compute. reflexivity. Qed.

(** The letter behind the dot does not count. *)
Lemma find_cmd_meant_witness :
  find_cmd demo_table (lit "ec.l") = Some (head demo_table) ∧ find_cmd demo_table (lit "x") = Some None.
Proof.
  split; (etrans; [apply find_cmd_meant; [exact (co_table _ _ _ demo_commands)|by_eval|by_eval]|vm_compute; reflexivity]).
Defined.
