(* ===== verification/Complete.v ===== *)
(** The completion of [common/command.c], with [env_complete] of
    [common/env_common.c]: what TAB adds to a line, or prints. *)
From stdpp Require Import base tactics option list strings.
From Stdlib Require Import ZArith Lia.
From S2P Require Import Prelude.
From S2P Require Import Eff.
From S2P Require Import CBuf.
From S2P Require Import Env.
From S2P Require Import Cli.
Open Scope Z_scope.

Definition CFG_PROMPT : list Z := lit "OMAP44XX SDP # ".
Definition dots : list Z := lit "...".

(** ** Candidates *)

(** A candidate: a place in the buffer filled, or the dots. *)
Definition cand_text (buf : list Z) (x : option Z) : list Z :=
  match x with Some off => drop (Z.to_nat off) buf | None => dots end.

(** [cmdv[found++] = x], an array of [maxv] pointers of which one must be
    left for the null pointer. *)
Definition push {A} (maxv : Z) (l : list A) (x : A) : option (list A) :=
  if Z.of_nat (length l) <? maxv - 1 then Some (l ++ [x]) else None.

Definition eq_step (env : list Z) (i : Z) : option (Z + option Z) :=
  c ← env_get_char_memory env i;
  Some (if c =? 61 then inr (Some i) else if c =? 0 then inr None else inl (i + 1)).
(** [strchr(lval, '=')]. *)
Definition find_eq (env : list Z) (i : Z) : option (option Z) := loop (S (length env)) (eq_step env) i.

(** The locals of [env_complete]: [buf] is the whole array, [bpos] the place
    the pointer has moved to, [bufsz] what is left. *)
Record envc := mkEnvc { ec_cmdv : list (option Z); ec_buf : list Z; ec_bpos : Z; ec_bufsz : Z }.

Definition env_complete_step (env var : list Z) (maxv : Z) (x : Z * envc) : option ((Z * envc) + envc) :=
  let '(i, e) := x in
  c ← env_get_char_memory env i;
  if c =? 0 then Some (inr e) else
  nxt ← end_of env i;
  rval ← find_eq env i;
  vallen ← (match rval with Some r => Some (r - i) | None => c_strlen (drop (Z.to_nat i) env) end);
  len ← c_strlen var;
  skip ← (if 0 <? len then
            if vallen <? len then Some true else
            a ← slice env i len; b ← slice var 0 len; Some (negb (c_memcmp a b =? 0))
          else Some false);
  if (skip : bool) then Some (inl (nxt + 1, e)) else
  if (maxv - 2 <=? Z.of_nat (length (ec_cmdv e))) || (ec_bufsz e <? vallen + 1) then
    cmdv ← push maxv (ec_cmdv e) None;
    Some (inr (mkEnvc cmdv (ec_buf e) (ec_bpos e) (ec_bufsz e)))
  else
    cmdv ← push maxv (ec_cmdv e) (Some (ec_bpos e));
    name ← slice env i vallen;
    buf ← blit (ec_buf e) (ec_bpos e) name;
    buf ← upd buf (ec_bpos e + vallen) 0;
    Some (inl (nxt + 1, mkEnvc cmdv buf (ec_bpos e + vallen + 1) (ec_bufsz e - vallen - 1))).

(** The candidates; [buf] is the static array as it is at the start. *)
Definition env_complete (env var : list Z) (maxv bufsz : Z) (buf : list Z) : option (list (list Z)) :=
  e ← loop (S (length env)) (env_complete_step env var maxv) (0, mkEnvc [] buf 0 bufsz);
  Some (cand_text (ec_buf e) <$> ec_cmdv e).

Definition is_blank_char (c : Z) : bool := (c =? 0) || (c =? 32) || (c =? 9).

Section complete.
Context {S : Type} `{Cli S} (env : list Z) (table : list (cmd_tbl S)).
(** [tmp_buf] of [var_complete], whatever it holds. *)
Context (vtmp : list Z).

Definition var_complete (argv : list (list Z)) (last_char maxv : Z) : option (list (list Z)) :=
  let argc := Z.of_nat (length argv) in
  let space := is_blank_char last_char in
  if space && (argc =? 1) then env_complete env (lit "") maxv 512 vtmp
  else if negb space && (argc =? 2) then a ← idx argv 1; env_complete env a maxv 512 vtmp
  else Some [].

(** The commands that begin with the first [len] characters. *)
Fixpoint complete_names (tbl : list (cmd_tbl S)) (keep : list Z → option bool) (maxv : Z) (found : list (list Z))
    : option (list (list Z)) :=
  match tbl with
  | [] => Some found
  | c :: tbl' =>
      k ← keep (cmd_name c);
      if (k : bool) then
        if maxv - 2 <=? Z.of_nat (length found) then push maxv found dots
        else found ← push maxv found (cmd_name c); complete_names tbl' keep maxv found
      else complete_names tbl' keep maxv found
  end.

(** The candidates in [cmdv]; the result -2 is [inr]. *)
Definition complete_cmdv (argv : list (list Z)) (last_char maxv : Z) : option (list (list Z) + Z) :=
  if maxv <? 2 then Some (inr (-2)) else
  match argv with
  | [] => l ← complete_names table (λ _, Some true) maxv []; Some (inl l)
  | cmd :: _ =>
      if (1 <? Z.of_nat (length argv)) || is_blank_char last_char then
        o ← find_cmd table cmd;
        match o with
        | None => Some (inl [])
        | Some c => if complete c then l ← var_complete argv last_char maxv; Some (inl l) else Some (inl [])
        end
      else
        n ← c_strlen cmd;
        let len := default n ((λ x, Z.of_nat x.1) <$> list_find (eq 46) (cut cmd)) in
        l ← complete_names table (λ name,
              clen ← c_strlen name;
              if clen <? len then Some false else
              a ← slice cmd 0 len; b ← slice name 0 len; Some (c_memcmp a b =? 0)) maxv [];
        Some (inl l)
  end.

(** ** Splitting, printing *)

Definition argv_step (argvsz : Z) (x : list Z * Z * list Z) : option ((list Z * Z * list Z) + (list Z * list Z)) :=
  let '(s, i, argv) := x in
  if Z.of_nat (length argv) <? argvsz - 1 then
    i ← loop (Datatypes.S (length s)) (white_step s) i;
    c ← idx s i;
    if c =? 0 then Some (inr (s, argv)) else
    let argv := argv ++ [i] in
    i ← loop (Datatypes.S (length s)) (word_step s) i;
    c ← idx s i;
    if c =? 0 then Some (inr (s, argv)) else
    s ← upd s i 0;
    Some (inl (s, i + 1, argv))
  else Some (inr (s, argv)).

(** The buffer with its terminators, and where the arguments start. *)
Definition make_argv (s : list Z) (argvsz : Z) : option (list Z * list Z) :=
  loop (Datatypes.S (Z.to_nat argvsz)) (argv_step argvsz) (s, 0, []).

(** What [print_argv] prints behind the banner, [i] being the column. *)
Fixpoint print_loop (leader sep : list Z) (linemax i : Z) (argv : list (list Z)) : option (list Z) :=
  match argv with
  | [] => Some []
  | a :: argv' =>
      n ← c_strlen a;
      let len := n + Z.of_nat (length sep) in
      let wrap := linemax <=? i + len in
      let i := if wrap then Z.of_nat (length leader) - Z.of_nat (length sep) else i in
      r ← print_loop leader sep linemax (i + len) argv';
      Some ((if wrap then 10 :: leader else sep) ++ cut a ++ r)
  end.
Definition print_argv (leader sep : list Z) (linemax : Z) (argv : list (list Z)) : option (list Z) :=
  r ← print_loop leader sep linemax linemax argv; Some (r ++ [10]).

(** How far two strings agree, at most [len] characters. *)
Fixpoint agree_len (s t : list Z) (len : nat) {struct len} : option nat :=
  match len with
  | O => Some O
  | Datatypes.S len' =>
      match s, t with
      | a :: s', b :: t' => if b =? a then n ← agree_len s' t' len'; Some (Datatypes.S n) else Some O
      | _, _ => None
      end
  end.

Fixpoint prefix_loop (anchor : list Z) (len : nat) (argv : list (list Z)) : option nat :=
  match argv with
  | [] => Some len
  | t :: argv' => n ← agree_len anchor t len; prefix_loop anchor n argv'
  end.
Definition find_common_prefix (argv : list (list Z)) : option Z :=
  match argv with
  | [] => Some 0
  | anchor :: argv' => n ← c_strlen anchor; l ← prefix_loop anchor (Z.to_nat n) argv'; Some (Z.of_nat l)
  end.

(** ** TAB *)

(** What is inserted at the end: [None] for the null pointer [s]. *)
Definition completion (argv cmdv : list (list Z)) : option (option (list Z) * bool) :=
  if Z.of_nat (length cmdv) =? 1 then
    a ← idx argv (Z.of_nat (length argv) - 1); k ← c_strlen a;
    c ← idx cmdv 0; let s := drop (Z.to_nat k) c in
    len ← c_strlen s; Some (Some (take (Z.to_nat len) s), true)
  else
    j ← (if 1 <? Z.of_nat (length cmdv) then find_common_prefix cmdv else Some 0);
    if j =? 0 then Some (None, false) else
    a ← idx argv (Z.of_nat (length argv) - 1); k ← c_strlen a;
    if 0 <? j - k then c ← idx cmdv 0; s ← slice c k (j - k); Some (Some s, false)
    else Some (None, false).

(** The buffer, [*np], [*colp], what is printed and the result; [ctmp] is the
    static [tmp_buf]. *)
Definition cmd_auto_complete (ctmp prompt buf : list Z) (n col : Z) : option (list Z * Z * Z * list Z * Z) :=
  r ← c_strcmp prompt CFG_PROMPT;
  if negb (r =? 0) then Some (buf, n, col, [], 0) else
  cnt ← c_strlen buf;
  last_char ← (if 1 <=? cnt then idx buf (cnt - 1) else Some 0);
  tmp ← blit ctmp 0 (cut buf ++ [0]);
  '(tmp, starts) ← make_argv tmp (CFG_MAXARGS + 1);
  let argv := (λ i, drop (Z.to_nat i) tmp) <$> starts in
  o ← complete_cmdv argv last_char 20;
  match o with
  | inr _ => None
  | inl cmdv =>
      if Z.of_nat (length cmdv) =? 0 then
        if 1 <? Z.of_nat (length argv) then Some (buf, n, col, [], 0) else Some (buf, n, col, [7], 1)
      else
        '(s, one) ← completion argv cmdv;
        match s with
        | Some s =>
            let text := s ++ (if (one : bool) then [32] else []) in
            let k := Z.of_nat (length text) in
            if CFG_CBSIZE - 2 <=? n + k then Some (buf, n, col, [7], 1) else
            buf ← blit buf cnt (text ++ [0]);
            Some (buf, n + k, col + k, text ++ (if (one : bool) then [] else [7]), 1)
        | None =>
            out ← print_argv (str "  ") (str " ") 78 cmdv;
            Some (buf, n, col, out ++ cut prompt ++ cut buf, 1)
        end
  end.

(** ** The commands that complete variables *)

Definition install_auto_complete_handler (tbl : list (cmd_tbl S)) (cmd : list Z) : option (list (cmd_tbl S)) :=
  o ← find_cmd tbl cmd;
  Some (match o with
        | None => tbl
        | Some c => (λ d, if decide (cmd_name d = cmd_name c)
                          then mkCmd (cmd_name d) (maxargs d) (repeatable d) (is_bootd d) (cmd_func d) (cmd_usage d) (cmd_help d) true
                          else d) <$> tbl
        end).
Definition install_auto_complete (tbl : list (cmd_tbl S)) : option (list (cmd_tbl S)) :=
  tbl ← install_auto_complete_handler tbl (lit "printenv");
  tbl ← install_auto_complete_handler tbl (lit "setenv");
  install_auto_complete_handler tbl (lit "run").
End complete.
