(* ===== verification/CompleteSpec.v ===== *)
(** What completion ([Complete]) does to a line: the candidates for its last
    word, and their common beginning. *)
From stdpp Require Import base tactics option list strings.
From Stdlib Require Import ZArith Lia.
From S2P Require Import Prelude.
From S2P Require Import CString.
From S2P Require Import Eff.
From S2P Require Import CBuf.
From S2P Require Import Ptable.
From S2P Require Import Env.
From S2P Require Import EnvSpec.
From S2P Require Import Cli.
From S2P Require Import CliSpec.
From S2P Require Import CliRun.
From S2P Require Import Complete.
Open Scope Z_scope.

(** ** Splitting *)

Lemma make_argv_spec s t : 0 ∉ s →
  ∃ line' argv, make_argv (s ++ 0 :: t) (CFG_MAXARGS + 1) = Some (line', argv) ∧
    strings_at line' argv = take 16 (words s) ∧ Forall (λ i, 0 ∈ drop (Z.to_nat i) line') argv.
Proof.
  intros Hs. unfold make_argv. change (argv_step (CFG_MAXARGS + 1)) with arg_step.
  destruct (arg_loop t (S (Z.to_nat (CFG_MAXARGS + 1))) [] s []) as (line' & new & E & HL & _ & HS & H0);
    [unfold CFG_MAXARGS; cbn [length]; lia|cbn [length]; lia|done|]. by exists line', new.
Qed.

(** ** Comparing *)

Lemma slice_cut a n : 0 ∈ a → 0 <= n <= Z.of_nat (length (cut a)) → slice a 0 n = Some (take (Z.to_nat n) (cut a)).
Proof.
  intros H0 Hn. destruct (cut_split a H0) as (t & E). rewrite E at 1. rewrite slice_Some by (rewrite ?length_app; lia).
  change (Z.to_nat 0) with 0%nat. rewrite drop_0. f_equal. by rewrite take_app_le by lia.
Qed.

Lemma zero_in (w t : list Z) : 0 ∈ w ++ 0 :: t.
Proof. apply elem_of_app. right. left. Qed.

Lemma memcmp_prefix w n : (length w <= length n)%nat →
  (c_memcmp w (take (length w) n) =? 0) = bool_decide (w `prefix_of` n).
Proof.
  intros Hl. unfold c_memcmp. assert (length w = length (take (length w) n)) as El by (rewrite length_take; lia).
  pose proof (first_diff_zero w (take (length w) n) El) as Hd.
  destruct (Z.eqb_spec (first_diff w (take (length w) n)) 0) as [E|E]; symmetry.
  - apply bool_decide_eq_true_2. apply Hd in E. rewrite E. apply prefix_take.
  - apply bool_decide_eq_false_2. intros [k ->]. apply E, Hd. by rewrite take_app_length.
Qed.

(** ** Commands *)

(** At most [k] candidates, then dots. *)
Definition limited (k : nat) (l : list (list Z)) : list (list Z) :=
  if decide (length l <= k)%nat then l else take k l ++ [str "..."].

Lemma limited_cons k x l : limited (S k) (x :: l) = x :: limited k l.
Proof. unfold limited. cbn [length take]. by repeat case_decide; try lia. Qed.

Section names.
Context {S : Type} `{Cli S}.
Implicit Types (tbl : list (cmd_tbl S)).

Definition names tbl : list (list Z) := (λ c, cut (cmd_name c)) <$> tbl.

Lemma complete_names_spec tbl keep (P : list Z → Prop) `{∀ x, Decision (P x)} : ∀ found,
  Forall (λ c, 0 ∈ cmd_name c ∧ keep (cmd_name c) = Some (bool_decide (P (cut (cmd_name c))))) tbl →
  (length found <= 18)%nat →
  ∃ l, complete_names tbl keep 20 found = Some (found ++ l) ∧ Forall (λ x, 0 ∈ x) l ∧
    cut <$> l = limited (18 - length found) (filter P (names tbl)).
Proof.
  induction tbl as [|c tbl IH]; intros found Ht Hl; cbn [complete_names].
  - exists []. rewrite app_nil_r. by split_and!.
  - apply Forall_cons in Ht as [[Hc0 Hk] Ht]. rewrite Hk. cbn [mbind option_bind]. unfold names. cbn [fmap list_fmap].
    destruct (decide (P (cut (cmd_name c)))) as [Hp|Hp].
    + rewrite bool_decide_eq_true_2, filter_cons_True by done. fold (names tbl).
      destruct (Z.leb_spec (20 - 2) (Z.of_nat (length found))).
      * exists [dots]. unfold push. destruct (Z.ltb_spec (Z.of_nat (length found)) (20 - 1)); [|lia].
        split; [done|]. split; [repeat constructor; by_eval|]. replace (18 - length found)%nat with 0%nat by lia. done.
      * unfold push. destruct (Z.ltb_spec (Z.of_nat (length found)) (20 - 1)); [|lia]. cbn [mbind option_bind].
        destruct (IH (found ++ [cmd_name c])) as (l & E & Hz & Hc); [done|rewrite length_app; cbn [length]; lia|].
        exists (cmd_name c :: l). rewrite E, <-app_assoc. split; [done|]. split; [by constructor|]. cbn [fmap list_fmap].
        rewrite Hc, length_app. cbn [length]. replace (18 - length found)%nat with (Datatypes.S (18 - (length found + 1))) by lia.
        by rewrite limited_cons.
    + rewrite bool_decide_eq_false_2, filter_cons_False by done. fold (names tbl). by apply IH.
Qed.

(** The names with a prefix. *)
Lemma keep_prefix w r name : 0 ∈ name →
  (clen ← c_strlen name;
   if clen <? Z.of_nat (length w) then Some false else
   a ← slice (w ++ r) 0 (Z.of_nat (length w)); b ← slice name 0 (Z.of_nat (length w)); Some (c_memcmp a b =? 0))
  = Some (bool_decide (w `prefix_of` cut name)).
Proof.
  intros Hn. rewrite c_strlen_Some by done. cbn [mbind option_bind].
  destruct (Z.ltb_spec (Z.of_nat (length (cut name))) (Z.of_nat (length w))).
  - rewrite bool_decide_eq_false_2; [done|]. intros ?%prefix_length. lia.
  - rewrite (slice_cut name) by (done || lia). rewrite (slice_Some (w ++ r)) by (rewrite ?length_app; lia).
    cbn [mbind option_bind]. change (Z.to_nat 0) with 0%nat. rewrite drop_0, Nat2Z.id, take_app_length. by rewrite memcmp_prefix by lia.
Qed.
End names.

(** ** Variables *)

(** The names that fit: 18 of them, in [room] bytes with their terminators. *)
Fixpoint var_limited (k : nat) (room : Z) (l : list (list Z)) {struct l} : list (list Z) :=
  match l with
  | [] => []
  | x :: l' =>
      match k with
      | O => [str "..."]
      | S k' => if room <? Z.of_nat (length x) + 1 then [str "..."]
                else x :: var_limited k' (room - Z.of_nat (length x) - 1) l'
      end
  end.

(** Strings one after the other, and where they start. *)
Definition packed (ns : list (list Z)) : list Z := concat ((λ n, n ++ [0]) <$> ns).
Fixpoint starts (b : Z) (ns : list (list Z)) : list (option Z) :=
  match ns with [] => [] | n :: ns' => Some b :: starts (b + Z.of_nat (length n) + 1) ns' end.

Lemma packed_snoc ns n : packed (ns ++ [n]) = packed ns ++ n ++ [0].
Proof. unfold packed. rewrite fmap_app, concat_app. cbn. by rewrite app_nil_r. Qed.

Lemma starts_snoc ns n : ∀ b, starts b (ns ++ [n]) = starts b ns ++ [Some (b + Z.of_nat (length (packed ns)))].
Proof.
  induction ns as [|m ns IH]; intros b; cbn [starts app]; [by rewrite Z.add_0_r|]. rewrite IH. do 3 f_equal.
  unfold packed. cbn [fmap list_fmap concat]. rewrite !length_app. cbn [length]. unfold packed in *. f_equal. lia.
Qed.

Lemma starts_length ns : ∀ b, length (starts b ns) = length ns.
Proof. induction ns as [|n ns IH]; intros b; [done|]. cbn. by rewrite IH. Qed.

Lemma starts_text ns : ∀ pre rest, Forall (λ n, 0 ∉ n) ns →
  Forall (λ x, 0 ∈ x) (cand_text (pre ++ packed ns ++ rest) <$> starts (Z.of_nat (length pre)) ns) ∧
  cut <$> (cand_text (pre ++ packed ns ++ rest) <$> starts (Z.of_nat (length pre)) ns) = ns.
Proof.
  induction ns as [|n ns IH]; intros pre rest Hn; [done|]. apply Forall_cons in Hn as [H0 Hn].
  cbn [starts fmap list_fmap]. change (packed (n :: ns)) with ((n ++ [0]) ++ packed ns).
  assert (cand_text (pre ++ ((n ++ [0]) ++ packed ns) ++ rest) (Some (Z.of_nat (length pre))) = n ++ 0 :: packed ns ++ rest) as Et.
  { cbn [cand_text]. rewrite Nat2Z.id, drop_app_length, <-!app_assoc. done. }
  specialize (IH (pre ++ n ++ [0]) rest Hn).
  replace (Z.of_nat (length (pre ++ n ++ [0]))) with (Z.of_nat (length pre) + Z.of_nat (length n) + 1) in IH
    by (rewrite !length_app; cbn [length]; lia).
  rewrite <-!app_assoc in IH |- *. cbn [app] in IH |- *. destruct IH as [IH1 IH2]. rewrite <-!app_assoc in Et. cbn [app] in Et.
  rewrite Et. split; [constructor; [apply zero_in|done]|]. by rewrite cut_app, IH2.
Qed.

Lemma find_eq_spec n : ∀ pre post fuel, 61 ∉ n → 0 ∉ n → (length n < fuel)%nat →
  loop fuel (eq_step (pre ++ n ++ 61 :: post)) (Z.of_nat (length pre)) = Some (Some (Z.of_nat (length pre + length n))).
Proof.
  induction n as [|c n IH]; intros pre post fuel H61 H0 Hf; (destruct fuel as [|fuel]; [lia|]); cbn [loop app];
    unfold eq_step at 1, env_get_char_memory; rewrite idx_mid; cbn [mbind option_bind].
  - cbn [Z.eqb Pos.eqb length]. do 2 f_equal. lia.
  - apply not_elem_of_cons in H61 as [Hc H61], H0 as [Hc0 H0].
    destruct (Z.eqb_spec c 61), (Z.eqb_spec c 0); [done..|].
    rewrite snoc_at, (snoc_len pre c), IH by (done || (cbn in Hf; lia)). rewrite length_app. cbn [length]. do 2 f_equal. lia.
Qed.

Lemma store_name used free n : (length n + 1 <= length free)%nat →
  ∃ buf free', blit (used ++ free) (Z.of_nat (length used)) n = Some buf ∧
    upd buf (Z.of_nat (length used) + Z.of_nat (length n)) 0 = Some ((used ++ n ++ [0]) ++ free') ∧
    length free = (length free' + length n + 1)%nat.
Proof.
  intros Hl. destruct (drop (length n) free) as [|z free'] eqn:Ed.
  { apply (f_equal length) in Ed. rewrite length_drop in Ed. cbn in Ed. lia. }
  exists (used ++ n ++ z :: free'), free'. split; [|split].
  - rewrite blit_Some by (rewrite ?length_app; lia). rewrite Nat2Z.id, take_app_length. do 3 f_equal.
    rewrite drop_app_ge by lia. replace (length used + length n - length used)%nat with (length n) by lia. exact Ed.
  - rewrite (upd_at _ (used ++ n) free' z) by (rewrite ?length_app; lia || by rewrite <-!app_assoc).
    by rewrite <-!app_assoc.
  - apply (f_equal length) in Ed. rewrite length_drop in Ed. cbn in Ed. lia.
Qed.

Definition var_names (es : list var) : list (list Z) := fst <$> es.

Section env.
Context (var : list Z) (t : list Z) (Hvar : 0 ∉ var).

(** One variable: kept or not. *)
Lemma var_keep pre x post vallen : var_ok x → vallen = Z.of_nat (length x.1) →
  (let len := Z.of_nat (length var) in
   if 0 <? len then
     if vallen <? len then Some true else
     a ← slice (pre ++ enc x ++ post) (Z.of_nat (length pre)) len; b ← slice (var ++ 0 :: t) 0 len;
     Some (negb (c_memcmp a b =? 0))
   else Some false) = Some (negb (bool_decide (var `prefix_of` x.1))).
Proof using Hvar.
  intros _ ->. cbv zeta.
  destruct (Z.ltb_spec 0 (Z.of_nat (length var))) as [Hl|Hl].
  2:{ destruct var; [|cbn in Hl; lia]. by rewrite bool_decide_eq_true_2 by apply prefix_nil. }
  destruct (Z.ltb_spec (Z.of_nat (length x.1)) (Z.of_nat (length var))).
  - rewrite bool_decide_eq_false_2; [done|]. intros ?%prefix_length. lia.
  - rewrite enc_split_name. rewrite !slice_Some by (rewrite ?length_app; cbn [length]; lia).
    cbn [mbind option_bind]. rewrite !Nat2Z.id, drop_app_length, take_app_le by lia.
    change (Z.to_nat 0) with 0%nat. rewrite drop_0, take_app_length. do 2 f_equal.
    rewrite <-memcmp_prefix by lia. unfold c_memcmp.
    assert (length (take (length var) x.1) = length var) as El by (rewrite length_take; lia).
    pose proof (first_diff_zero _ _ El) as H1. pose proof (first_diff_zero _ _ (eq_sym El)) as H2.
    destruct (Z.eqb_spec (first_diff (take (length var) x.1) var) 0) as [E1|E1],
      (Z.eqb_spec (first_diff var (take (length var) x.1)) 0) as [E2|E2]; try done.
    + apply H1 in E1. destruct E2. by apply H2.
    + apply H2 in E2. destruct E1. by apply H1.
Qed.

Lemma env_loop es : Forall var_ok es → ∀ fuel pre rest ns free,
  (length es < fuel)%nat → (length ns <= 18)%nat → Forall (λ n, 0 ∉ n) ns →
  ∃ e more, loop fuel (env_complete_step (pre ++ encs es ++ 0 :: rest) (var ++ 0 :: t) 20)
      (Z.of_nat (length pre), mkEnvc (starts 0 ns) (packed ns ++ free) (Z.of_nat (length (packed ns))) (Z.of_nat (length free)))
    = Some e ∧ (cand_text (ec_buf e) <$> ec_cmdv e) = more ∧ Forall (λ x, 0 ∈ x) more ∧
    cut <$> more = ns ++ var_limited (18 - length ns) (Z.of_nat (length free)) (filter (λ n, var `prefix_of` n) (var_names es)).
Proof using Hvar.
  induction 1 as [|x es Hx _ IH]; intros fuel pre rest ns free Hf Hl Hn; (destruct fuel as [|fuel]; [lia|]); cbn [loop].
  - change (encs []) with (@nil Z). cbn [app]. unfold env_complete_step at 1, env_get_char_memory. rewrite idx_mid.
    cbn [mbind option_bind Z.eqb]. do 2 eexists. split; [done|]. split; [done|]. cbn [ec_buf ec_cmdv].
    destruct (starts_text ns [] free Hn) as [H1 H2]. cbn [app length] in H1, H2. change (Z.of_nat 0) with 0 in *.
    split; [done|]. rewrite H2. change (filter _ (var_names [])) with (@nil (list Z)). symmetry. apply app_nil_r.
  - rewrite encs_cons, <-app_assoc. unfold env_complete_step at 1, env_get_char_memory.
    destruct (first_char x (encs es ++ 0 :: rest) pre Hx) as (c & Hc & ->). cbn [mbind option_bind].
    destruct (Z.eqb_spec c 0); [done|].
    pose proof Hx as [(_ & X0 & X61) Xv]. set (ev := pre ++ enc x ++ encs es ++ 0 :: rest).
    assert (end_of ev (Z.of_nat (length pre)) = Some (Z.of_nat (length pre + length (x.1 ++ 61 :: x.2)))) as ->
      by (unfold ev; rewrite enc_split; apply end_of_spec, text_no_nul, Hx).
    assert (find_eq ev (Z.of_nat (length pre)) = Some (Some (Z.of_nat (length pre + length x.1)))) as ->
      by (unfold find_eq, ev; rewrite enc_split_name; apply find_eq_spec; [done|done|rewrite !length_app; cbn [length]; lia]).
    cbn [mbind option_bind]. rewrite c_strlen_app by done. cbn [mbind option_bind].
    replace (Z.of_nat (length pre + length x.1) - Z.of_nat (length pre)) with (Z.of_nat (length x.1)) by lia.
    pose proof (var_keep pre x (encs es ++ 0 :: rest) (Z.of_nat (length x.1)) Hx eq_refl) as Hk. cbv zeta in Hk.
    fold ev in Hk. rewrite Hk. cbn [mbind option_bind]. clear Hk.
    replace (Z.of_nat (length pre + length (x.1 ++ 61 :: x.2)) + 1) with (Z.of_nat (length (pre ++ enc x)))
      by (rewrite length_app, enc_length, length_app; cbn [length]; lia).
    assert (ev = (pre ++ enc x) ++ encs es ++ 0 :: rest) as Eev by (unfold ev; by rewrite <-app_assoc).
    unfold var_names. cbn [fmap list_fmap]. fold (var_names es).
    case_bool_decide as Hp; cbn [negb].
    2:{ rewrite filter_cons_False by done. rewrite Eev. apply IH; [cbn in Hf; lia|done|done]. }
    rewrite filter_cons_True by done. cbn [ec_cmdv ec_buf ec_bpos ec_bufsz]. rewrite starts_length.
    destruct (starts_text ns [] free Hn) as [S1 S2]. cbn [app length] in S1, S2. change (Z.of_nat 0) with 0 in *.
    destruct ((20 - 2 <=? Z.of_nat (length ns)) || (Z.of_nat (length free) <? Z.of_nat (length x.1) + 1)) eqn:Efull.
    + (* no room *)
      unfold push. rewrite starts_length. destruct (Z.ltb_spec (Z.of_nat (length ns)) (20 - 1)); [|lia].
      cbn [mbind option_bind]. do 2 eexists. split; [done|]. split; [done|]. cbn [ec_buf ec_cmdv]. rewrite fmap_app.
      split; [apply Forall_app; split; [done|]; repeat constructor; by_eval|]. rewrite fmap_app, S2. f_equal.
      cbn [var_limited]. destruct (18 - length ns)%nat eqn:Ek; [done|].
      destruct (Z.leb_spec (20 - 2) (Z.of_nat (length ns))); [lia|]. cbn [orb] in Efull. rewrite Efull. done.
    + apply orb_false_iff in Efull as [Hk Hroom]. apply Z.leb_gt in Hk. apply Z.ltb_ge in Hroom.
      unfold push. rewrite starts_length. destruct (Z.ltb_spec (Z.of_nat (length ns)) (20 - 1)); [|lia].
      cbn [mbind option_bind].
      assert (slice ev (Z.of_nat (length pre)) (Z.of_nat (length x.1)) = Some x.1) as ->.
      { unfold ev. rewrite enc_split_name, slice_Some by (rewrite ?length_app; cbn [length]; lia).
        by rewrite !Nat2Z.id, drop_app_length, take_app_length. }
      cbn [mbind option_bind]. destruct (store_name (packed ns) free x.1) as (buf & free' & -> & E2 & Hfree); [lia|].
      cbn [mbind option_bind]. rewrite E2. cbn [mbind option_bind]. rewrite <-packed_snoc.
      replace (Z.of_nat (length (packed ns)) + Z.of_nat (length x.1) + 1) with (Z.of_nat (length (packed (ns ++ [x.1]))))
        by (rewrite packed_snoc, !length_app; cbn [length]; lia).
      replace (Z.of_nat (length free) - Z.of_nat (length x.1) - 1) with (Z.of_nat (length free')) by lia.
      pose proof (starts_snoc ns x.1 0) as Es. rewrite Z.add_0_l in Es. rewrite <-Es, Eev.
      destruct (IH fuel (pre ++ enc x) rest (ns ++ [x.1]) free') as (e & more & E & He & Hz & Hc');
        [cbn in Hf; lia|rewrite length_app; cbn [length]; lia|apply Forall_app; split; [done|by constructor]|].
      exists e, more. split; [exact E|]. split; [done|]. split; [done|]. rewrite Hc', length_app, <-app_assoc. cbn [length app].
      replace (18 - length ns)%nat with (S (18 - (length ns + 1))) by lia. cbn [var_limited].
      destruct (Z.ltb_spec (Z.of_nat (length free)) (Z.of_nat (length x.1) + 1)); [lia|].
      by replace (Z.of_nat (length free) - Z.of_nat (length x.1) - 1) with (Z.of_nat (length free')) by lia.
Qed.

Lemma env_complete_spec env es vtmp : env_ok env es → Z.of_nat (length vtmp) = 512 →
  ∃ l, env_complete env (var ++ 0 :: t) 20 512 vtmp = Some l ∧ Forall (λ x, 0 ∈ x) l ∧
    cut <$> l = var_limited 18 512 (filter (λ n, var `prefix_of` n) (var_names es)).
Proof using Hvar.
  intros He Hl. destruct (env_front env es He) as (rest & ->). destruct He as [_ Hv _].
  destruct (env_loop es Hv (S (length (encs es ++ 0 :: rest))) [] rest [] vtmp) as (e & more & E & Em & Hz & Hc);
    [pose proof (entries_fit es [] rest); cbn [app length] in *; lia|cbn [length]; lia|done|].
  exists more. unfold env_complete. cbn [app length] in E. change (packed []) with (@nil Z) in E.
  cbn [starts app length] in E. change (Z.of_nat 0) with 0 in E. rewrite Hl in E, Hc. rewrite E. cbn [mbind option_bind].
  rewrite Em. split; [done|]. split; [done|]. exact Hc.
Qed.
End env.

(** ** What is inserted *)

(** The common beginning. *)
Fixpoint common (a b : list Z) : list Z :=
  match a, b with x :: a', y :: b' => if decide (x = y) then x :: common a' b' else [] | _, _ => [] end.
Definition common_of (l : list (list Z)) : list Z := match l with [] => [] | a :: l' => foldl common a l' end.

Lemma common_prefix a b : common a b `prefix_of` a.
Proof.
  revert b. induction a as [|x a IH]; intros b; [done|]. destruct b as [|y b]; cbn [common]; [apply prefix_nil|].
  case_decide; [by apply prefix_cons|apply prefix_nil].
Qed.

Lemma foldl_common_prefix l : ∀ a, foldl common a l `prefix_of` a.
Proof. induction l as [|b l IH]; intros a; [done|]. cbn [foldl]. etrans; [apply IH|apply common_prefix]. Qed.

Lemma agree_len_spec a s : ∀ b t, 0 ∉ a → 0 ∉ b →
  agree_len (a ++ s) (b ++ 0 :: t) (length a) = Some (length (common a b)).
Proof.
  induction a as [|x a IH]; intros b t Ha Hb; [done|]. apply not_elem_of_cons in Ha as [Hx Ha]. cbn [length agree_len app].
  destruct b as [|y b]; cbn [app common].
  - destruct (Z.eqb_spec 0 x); [by subst|done].
  - apply not_elem_of_cons in Hb as [Hy Hb]. destruct (Z.eqb_spec y x) as [->|Hne].
    + rewrite IH by done. rewrite decide_True by done. done.
    + by rewrite decide_False by congruence.
Qed.

Lemma prefix_loop_spec l : ∀ a s, 0 ∉ a → Forall (λ x, 0 ∈ x) l →
  prefix_loop (a ++ s) (length a) l = Some (length (foldl common a (cut <$> l))).
Proof.
  induction l as [|b l IH]; intros a s Ha Hl; [done|]. apply Forall_cons in Hl as [Hb Hl]. cbn [prefix_loop].
  destruct (cut_split b Hb) as (t & Eb). rewrite Eb at 1. rewrite agree_len_spec by (done || apply cut_nonzero).
  cbn [mbind option_bind fmap list_fmap foldl]. destruct (common_prefix a (cut b)) as [k Ek].
  rewrite Ek at 1. rewrite <-app_assoc. apply IH; [|done]. rewrite Ek in Ha. by apply not_elem_of_app in Ha as [? _].
Qed.

Lemma find_common_prefix_spec l : Forall (λ x, 0 ∈ x) l →
  find_common_prefix l = Some (Z.of_nat (length (common_of (cut <$> l)))).
Proof.
  intros Hl. destruct l as [|a l]; [done|]. apply Forall_cons in Hl as [Ha Hl]. cbn [find_common_prefix].
  rewrite c_strlen_Some by done. cbn [mbind option_bind]. destruct (cut_split a Ha) as (t & Ea). rewrite Nat2Z.id.
  rewrite Ea at 1. rewrite prefix_loop_spec by (done || apply cut_nonzero). done.
Qed.

(** What the candidates [cs] add to the word [w]. *)
Definition extension (w : list Z) (cs : list (list Z)) : list Z :=
  match cs with
  | [c] => drop (length w) c ++ [32]
  | _ => drop (length w) (common_of cs)
  end.

Lemma drop_no_nul n l : 0 ∉ l → 0 ∉ drop n l.
Proof. intros Hl Hi. apply Hl. rewrite <-(take_drop n l). apply elem_of_app. by right. Qed.

Lemma drop_cut w x : 0 ∈ x → w `prefix_of` cut x → ∃ t, drop (length w) x = drop (length w) (cut x) ++ 0 :: t.
Proof.
  intros Hx [k Hk]. destruct (cut_split x Hx) as (t & E). exists t. rewrite E at 1. rewrite Hk, <-app_assoc, !drop_app_length.
  done.
Qed.

Lemma completion_spec argv a cmdv : argv ≠ [] → last argv = Some a → 0 ∈ a → cmdv ≠ [] → Forall (λ x, 0 ∈ x) cmdv →
  Forall (λ x, cut a `prefix_of` cut x) (take 1 cmdv) →
  completion argv cmdv =
    Some (match cmdv with
          | [_] => (Some (drop (length (cut a)) (cut (hd [] cmdv))), true)
          | _ => if decide (extension (cut a) (cut <$> cmdv) = []) then (None, false)
                 else (Some (extension (cut a) (cut <$> cmdv)), false)
          end).
Proof.
  intros Hne Ha Ha0 Hc Hz Hp. unfold completion.
  assert (idx argv (Z.of_nat (length argv) - 1) = Some a) as ->.
  { rewrite last_lookup in Ha. replace (Z.of_nat (length argv) - 1) with (Z.of_nat (Init.Nat.pred (length argv)))
      by (destruct argv; [done|cbn [length]; lia]). by rewrite idx_nat. }
  destruct cmdv as [|x cmdv]; [done|]. cbn [take] in Hp. apply Forall_cons in Hp as [Hp _], Hz as [Hx Hz].
  destruct (drop_cut _ _ Hx Hp) as (t & Et).
  destruct cmdv as [|y cmdv].
  - cbn [length]. change (Z.of_nat 1 =? 1) with true. cbv iota. cbn [mbind option_bind]. rewrite c_strlen_Some by done.
    cbn [mbind option_bind]. change (idx [x] 0) with (Some x). cbn [mbind option_bind hd]. rewrite Nat2Z.id, Et.
    assert (0 ∉ drop (length (cut a)) (cut x)) as H0 by apply drop_no_nul, cut_nonzero.
    rewrite c_strlen_app by done. cbn [mbind option_bind]. by rewrite Nat2Z.id, take_app_length.
  - cbn [length]. destruct (Z.eqb_spec (Z.of_nat (S (S (length cmdv)))) 1); [lia|].
    destruct (Z.ltb_spec 1 (Z.of_nat (S (S (length cmdv))))); [|lia]. rewrite find_common_prefix_spec by by constructor.
    cbn [mbind option_bind fmap list_fmap extension].
    set (cp := common_of (cut x :: cut y :: (cut <$> cmdv))). assert (cp `prefix_of` cut x) as [k Hk] by apply foldl_common_prefix.
    rewrite c_strlen_Some by done. cbn [mbind option_bind].
    destruct (decide (drop (length (cut a)) cp = [])) as [E|E].
    + apply (f_equal length) in E. rewrite length_drop in E. cbn [length] in E.
      destruct (Z.eqb_spec (Z.of_nat (length cp)) 0); [done|].
      by destruct (Z.ltb_spec 0 (Z.of_nat (length cp) - Z.of_nat (length (cut a)))); [lia|].
    + assert (length (cut a) < length cp)%nat as Hlt.
      { apply Nat.lt_nge. intros Hle. apply E. by apply drop_ge. }
      destruct (Z.eqb_spec (Z.of_nat (length cp)) 0); [lia|].
      destruct (Z.ltb_spec 0 (Z.of_nat (length cp) - Z.of_nat (length (cut a)))); [|lia].
      change (idx (x :: y :: cmdv) 0) with (Some x). cbn [mbind option_bind].
      destruct (cut_split x Hx) as (tx & Ex). rewrite Ex, Hk, <-app_assoc.
      rewrite slice_Some by (rewrite ?length_app; lia). cbn [mbind option_bind]. do 3 f_equal.
      rewrite Nat2Z.id, drop_app_le by lia.
      rewrite take_app_le by (rewrite length_drop; lia). apply take_ge. rewrite length_drop. lia.
Qed.

(** ** The list of the candidates *)

(** A row: a new line, two blanks, and the names with a blank between them;
    and its columns. *)
Definition row_text (row : list (list Z)) : list Z := 10 :: 32 :: concat ((λ a, 32 :: a) <$> row).
Definition width (row : list (list Z)) : Z := Z.of_nat (length (row_text row)) - 1.

(** Rows of fewer than 78 columns, but for a single long name, each as full
    as it can be. *)
Fixpoint filled (rows : list (list (list Z))) : Prop :=
  match rows with
  | [] => True
  | row :: rows' =>
      row ≠ [] ∧ (width row < 78 ∨ length row = 1%nat) ∧
      match rows' with (a :: _) :: _ => 78 <= width (row ++ [a]) | _ => True end ∧ filled rows'
  end.

(** The names, in their order, in such rows, and the end of the last line. *)
Definition menu (names : list (list Z)) (out : list Z) : Prop :=
  ∃ rows, concat rows = names ∧ filled rows ∧ out = concat (row_text <$> rows) ++ [10].

Lemma row_text_snoc row a : row_text (row ++ [a]) = row_text row ++ 32 :: a.
Proof. unfold row_text. rewrite fmap_app, concat_app. cbn. by rewrite app_nil_r. Qed.

Lemma width_snoc row a : width (row ++ [a]) = width row + (Z.of_nat (length a) + 1).
Proof. unfold width. rewrite row_text_snoc, length_app. cbn [length]. lia. Qed.

(** What follows in the row that is open, and the rows behind it. *)
Lemma print_rows argv : Forall (λ x, 0 ∈ x) argv → ∀ row, row ≠ [] → width row < 78 ∨ length row = 1%nat →
  ∃ more rows, print_loop (str "  ") (str " ") 78 (width row) argv =
      Some (concat ((λ a, 32 :: a) <$> more) ++ concat (row_text <$> rows)) ∧
    more ++ concat rows = cut <$> argv ∧ filled ((row ++ more) :: rows).
Proof.
  induction 1 as [|x argv Hx _ IH]; intros row Hne Hw; cbn [print_loop].
  - exists [], []. split; [done|]. split; [done|]. rewrite app_nil_r. by repeat split.
  - rewrite c_strlen_Some by done. cbn [mbind option_bind fmap list_fmap]. change (Z.of_nat (length (str " "))) with 1.
    change (Z.of_nat (length (str "  ")) - 1) with (width []). rewrite <-!width_snoc. destruct (Z.leb_spec 78 (width (row ++ [cut x]))) as [Hfull|Hfits].
    + rewrite <-width_snoc. destruct (IH ([] ++ [cut x])) as (more & rows & -> & Hc & Hf); [done|by right|]. cbn [mbind option_bind].
      exists [], ((cut x :: more) :: rows). split; [|split].
      * cbn [fmap list_fmap concat app]. unfold row_text at 2. cbn [fmap list_fmap concat app]. change (str "  ") with [32; 32]. cbn [app].
        by rewrite <-!app_assoc.
      * cbn [concat app]. by rewrite Hc.
      * rewrite app_nil_r. split; [done|]. split; [done|]. split; [done|]. exact Hf.
    + rewrite <-width_snoc. destruct (IH (row ++ [cut x])) as (more & rows & -> & Hc & Hf); [by destruct row|by left|]. cbn [mbind option_bind].
      exists (cut x :: more), rows. rewrite <-app_assoc in Hf. cbn [app] in Hf |- *. rewrite Hc. split; [|by split].
      cbn [fmap list_fmap concat app]. change (str " ") with [32]. cbn [app]. by rewrite <-app_assoc.
Qed.

Lemma print_argv_spec argv : argv ≠ [] → Forall (λ x, 0 ∈ x) argv →
  ∃ o, print_argv (str "  ") (str " ") 78 argv = Some o ∧ menu (cut <$> argv) o.
Proof.
  intros Hne Hz. unfold print_argv. destruct argv as [|x argv]; [done|]. apply Forall_cons in Hz as [Hx Hz]. cbn [print_loop].
  rewrite c_strlen_Some by done. cbn [mbind option_bind]. change (Z.of_nat (length (str " "))) with 1.
  change (Z.of_nat (length (str "  ")) - 1) with (width []). rewrite (proj2 (Z.leb_le 78 _)) by lia. rewrite <-width_snoc. cbn [app].
  destruct (print_rows argv Hz [cut x]) as (more & rows & -> & Hc & Hf); [done|by right|]. cbn [mbind option_bind].
  eexists. split; [done|]. exists ((cut x :: more) :: rows). cbn [fmap list_fmap concat app]. rewrite Hc. split; [done|]. split; [exact Hf|].
  unfold row_text at 2. cbn [fmap list_fmap concat app]. by rewrite <-!app_assoc.
Qed.

Lemma filter_true {A} (l : list A) : filter (λ _, True) l = l.
Proof. induction l as [|x l IH]; [done|]. rewrite filter_cons_True by done. by rewrite IH. Qed.

Lemma filter_nil_prefix (l : list (list Z)) : filter (λ n, [] `prefix_of` n) l = l.
Proof. induction l as [|x l IH]; [done|]. rewrite filter_cons_True by apply prefix_nil. by rewrite IH. Qed.

(** ** A line *)

Section tab.
Context {S : Type} `{Cli S} (env : list Z) (es : list var) (table : list (cmd_tbl S)).
Context (Henv : env_ok env es) (Htable : table_ok table).
Context (vtmp : list Z) (Hvtmp : Z.of_nat (length vtmp) = 512).

Definition words16 (l : list Z) : list (list Z) := take 16 (words l).
Definition blank_end (l : list Z) : bool := is_blank_char (default 0 (last l)).

(** The candidates for the last word. *)
Definition candidates (l : list Z) : list (list Z) :=
  match words16 l with
  | [] => limited 18 (names table)
  | w :: ws =>
      if negb (bool_decide (ws = [])) || blank_end l then
        match meant table (key w) with
        | Some c =>
            if complete c then
              match ws, blank_end l with
              | [], true => var_limited 18 512 (var_names es)
              | [w2], false => var_limited 18 512 (filter (λ n, w2 `prefix_of` n) (var_names es))
              | _, _ => []
              end
            else []
        | None => []
        end
      else limited 18 (filter (λ n, key w `prefix_of` n) (names table))
  end.

Definition last_word (l : list Z) : list Z := default [] (last (words16 l)).

(** The first candidate continues the last word, or the candidates have no
    beginning in common. *)
Definition tab_fine (l : list Z) : Prop :=
  candidates l = [] ∨ (length (candidates l) ≠ 1%nat ∧ common_of (candidates l) = []) ∨
  (words16 l ≠ [] ∧ Forall (λ c, last_word l `prefix_of` c) (take 1 (candidates l))).

(** What TAB inserts; [None] for a TAB that is inserted itself. *)
Definition tab_text (l : list Z) : option (list Z) :=
  match candidates l with
  | [] => if decide (1 < length (words16 l))%nat then None else Some []
  | cs => let e := extension (last_word l) cs in Some (if decide (254 <= length l + length e)%nat then [] else e)
  end.

(** What it shows for that: the bell without candidates, and where the
    line would become too long; what is inserted, with the bell behind it if
    there are several candidates; and, if these go on in different ways, the list of them, the
    prompt and the line. *)
Definition shown (l out : list Z) : Prop :=
  let cs := candidates l in let e := extension (last_word l) cs in
  match cs with
  | [] => out = [7]
  | [_] => out = if decide (254 <= length l + length e)%nat then [7] else e
  | _ =>
      if decide (e = []) then ∃ list, menu cs list ∧ out = list ++ cut CFG_PROMPT ++ l
      else out = if decide (254 <= length l + length e)%nat then [7] else e ++ [7]
  end.

(** The line, and the cursor at its end, whatever was shown. *)
Lemma shown_line l text out : tab_text l = Some text → shown l out →
  out = text ∨ out = text ++ [7] ∨ (text = [] ∧ ∃ o, out = o ++ [10] ++ cut CFG_PROMPT ++ l).
Proof.
  unfold tab_text, shown. destruct (candidates l) as [|c [|c' cs]].
  - case_decide; [done|]. intros [= <-] ->. right. by left.
  - set (e := extension _ _). intros [= <-] ->. case_decide; [by right; left|by left].
  - set (e := extension _ _). intros [= <-]. destruct (decide (e = [])) as [->|Hne].
    + intros (o & (rows & _ & _ & ->) & ->). right. right. split; [by case_decide|]. eexists. by rewrite <-app_assoc.
    + intros ->. right. left. by case_decide.
Qed.

Lemma complete_cmdv_spec l argv :
  cut <$> argv = words16 l → Forall (λ x, 0 ∈ x) argv → bytes l →
  ∃ cmdv, complete_cmdv env table vtmp argv (default 0 (last l)) 20 = Some (inl cmdv) ∧
    Forall (λ x, 0 ∈ x) cmdv ∧ cut <$> cmdv = candidates l.
Proof using Henv Htable Hvtmp.
  intros Hw Hz Hb. unfold complete_cmdv, candidates. change (20 <? 2) with false. cbv iota.
  destruct argv as [|a argv]; cbn [fmap list_fmap] in Hw; rewrite <-Hw.
  { destruct (complete_names_spec table (λ _, Some true) (λ _, True) []) as (cmdv & E & Hc & Hcut); [|cbn; lia|].
    - apply (Forall_impl _ _ _ Htable). by intros c [Hc _].
    - exists cmdv. rewrite E. cbn [mbind option_bind app]. split; [done|]. split; [done|]. rewrite Hcut. cbn [length].
      f_equal. apply filter_true. }
  apply Forall_cons in Hz as [Ha Hz]. fold (blank_end l).
  assert (bytes (cut a)) as Hba.
  { pose proof (words_from_ok is_byte l [] ltac:(constructor) Hb) as Hwb. rewrite Forall_forall in Hwb. apply Hwb.
    assert (cut a ∈ words16 l) as Hin by (rewrite <-Hw; left). unfold words16 in Hin.
    change (cut a ∈ words l). rewrite <-(take_drop 16 (words l)). apply elem_of_app. by left. }
  assert (key (cut a) = key a) as Ek by (unfold key; by rewrite (cut_id (cut a)) by apply cut_nonzero).
  rewrite Ek. assert (Z.of_nat (length (a :: argv)) = Z.of_nat (length argv) + 1) as El by (cbn [length]; lia). rewrite El.
  assert ((1 <? Z.of_nat (length argv) + 1) = negb (bool_decide (cut <$> argv = []))) as ->.
  { destruct argv; [by rewrite bool_decide_eq_true_2|]. rewrite bool_decide_eq_false_2 by done. cbn [length negb].
    by destruct (Z.ltb_spec 1 (Z.of_nat (Datatypes.S (length argv)) + 1)); [|lia]. }
  destruct (negb (bool_decide (cut <$> argv = [])) || blank_end l) eqn:Ebr.
  - rewrite find_cmd_spec by done. cbn [mbind option_bind]. destruct (meant table (key a)) as [c|]; [|by exists []].
    destruct (complete c); [|by exists []]. unfold var_complete. rewrite El. fold (blank_end l).
    destruct argv as [|b [|b' argv]]; cbn [fmap list_fmap length].
    + change (Z.of_nat 0 + 1 =? 1) with true. change (Z.of_nat 0 + 1 =? 2) with false. rewrite !andb_true_r, !andb_false_r.
      destruct (blank_end l); [|by exists []].
      destruct (env_complete_spec [] [] ltac:(apply not_elem_of_nil) env es vtmp Henv Hvtmp) as (cmdv & E & Hc & Hcut).
      change (lit "") with ([] ++ 0 :: []). rewrite E. cbn [mbind option_bind]. exists cmdv. split; [done|]. split; [done|].
      rewrite Hcut. f_equal. apply filter_nil_prefix.
    + change (Z.of_nat 1 + 1 =? 1) with false. change (Z.of_nat 1 + 1 =? 2) with true. rewrite !andb_true_r, !andb_false_r.
      destruct (blank_end l); cbn [negb]; [by exists []|]. change (idx [a; b] 1) with (Some b). cbn [mbind option_bind].
      apply Forall_cons in Hz as [Hb0 _]. destruct (cut_split b Hb0) as (t & Eb).
      destruct (env_complete_spec (cut b) t (cut_nonzero b) env es vtmp Henv Hvtmp) as (cmdv & E & Hc & Hcut).
      rewrite Eb, E. cbn [mbind option_bind]. exists cmdv. rewrite cut_app by apply cut_nonzero. by split_and!.
    + destruct (Z.eqb_spec (Z.of_nat (Datatypes.S (Datatypes.S (length argv))) + 1) 1); [lia|].
      destruct (Z.eqb_spec (Z.of_nat (Datatypes.S (Datatypes.S (length argv))) + 1) 2); [lia|]. rewrite !andb_false_r.
      by exists [].
  - rewrite c_strlen_Some by done. cbn [mbind option_bind].
    assert (default (Z.of_nat (length (cut a))) ((λ x, Z.of_nat x.1) <$> list_find (eq 46) (cut a)) = Z.of_nat (length (key a))) as ->
      by apply key_length.
    destruct (key_prefix a Ha Hba) as (r & Er & Hk & _).
    destruct (complete_names_spec table (λ name,
              clen ← c_strlen name;
              if clen <? Z.of_nat (length (key a)) then Some false else
              x ← slice a 0 (Z.of_nat (length (key a))); y ← slice name 0 (Z.of_nat (length (key a)));
              Some (c_memcmp x y =? 0)) (λ n, key a `prefix_of` n) []) as (cmdv & E & Hc & Hcut); [|cbn; lia|].
    + apply (Forall_impl _ _ _ Htable). intros c [Hc _]. split; [done|]. pose proof (keep_prefix (key a) r (cmd_name c) Hc) as Hkp.
      rewrite <-Er in Hkp. exact Hkp.
    + rewrite E. cbn [mbind option_bind app]. exists cmdv. split_and!; [done|done|]. rewrite Hcut. done.
Qed.

Lemma last_char_eq l rest : 0 ∉ l →
  (if 1 <=? Z.of_nat (length l) then idx (l ++ 0 :: rest) (Z.of_nat (length l) - 1) else Some 0) = Some (default 0 (last l)).
Proof.
  intros Hl. destruct (Z.leb_spec 1 (Z.of_nat (length l))).
  - rewrite last_lookup. replace (Z.of_nat (length l) - 1) with (Z.of_nat (Init.Nat.pred (length l))) by lia. rewrite idx_nat.
    rewrite lookup_app_l by lia. by destruct (l !! _) eqn:E; [|apply lookup_ge_None in E; lia].
  - by destruct l; [|cbn [length] in *; lia].
Qed.

Lemma insert_text l t rest : (length l + length t < length (l ++ 0%Z :: rest))%nat →
  ∃ rest', blit (l ++ 0 :: rest) (Z.of_nat (length l)) (t ++ [0]) = Some ((l ++ t) ++ 0 :: rest') ∧
    length ((l ++ t) ++ 0 :: rest') = length (l ++ 0 :: rest).
Proof.
  intros Hl. rewrite length_app in Hl. cbn [length] in Hl.
  exists (drop (length t) rest). rewrite blit_Some by (rewrite ?length_app; cbn [length]; lia). split.
  - rewrite Nat2Z.id, take_app_length, drop_app_ge by (rewrite length_app; lia). rewrite length_app.
    replace (length l + (length t + length [0%Z]) - length l)%nat with (Datatypes.S (length t)) by (cbn [length]; lia).
    cbn [drop]. by rewrite <-!app_assoc.
  - rewrite !length_app. cbn [length]. rewrite length_drop. lia.
Qed.

(** What is inserted, for candidates [x :: cmdv]. *)
Lemma completion_cases l argv x cmdv : cut <$> argv = words16 l → Forall (λ x, 0 ∈ x) argv → Forall (λ x, 0 ∈ x) (x :: cmdv) →
  (let cs := cut <$> x :: cmdv in cs = [] ∨ (length cs ≠ 1%nat ∧ common_of cs = []) ∨
    (words16 l ≠ [] ∧ Forall (λ c, last_word l `prefix_of` c) (take 1 cs))) →
  completion argv (x :: cmdv) =
    Some (match cmdv with
          | [] => (Some (drop (length (last_word l)) (cut x)), true)
          | _ => if decide (extension (last_word l) (cut <$> x :: cmdv) = []) then (None, false)
                 else (Some (extension (last_word l) (cut <$> x :: cmdv)), false)
          end).
Proof.
  intros Hcut Hz' Hc. cbv zeta. cbn [fmap list_fmap]. intros [?|[[H1 Hcom]|[Hne Hp]]]; [done| |].
  - destruct cmdv as [|y cmdv]; [done|]. unfold completion. cbn [length].
    destruct (Z.eqb_spec (Z.of_nat (Datatypes.S (Datatypes.S (length cmdv)))) 1); [lia|].
    destruct (Z.ltb_spec 1 (Z.of_nat (Datatypes.S (Datatypes.S (length cmdv))))); [|lia].
    rewrite find_common_prefix_spec by done. cbn [fmap list_fmap] in *. rewrite Hcom. cbn [mbind option_bind].
    change (Z.of_nat (length []) =? 0) with true. cbv iota. unfold extension. rewrite Hcom, drop_nil. by rewrite decide_True.
  - destruct (last argv) as [a|] eqn:Ea; [|apply last_None in Ea; subst argv; by destruct Hne].
    assert (last_word l = cut a) as Ew by (unfold last_word; rewrite <-Hcut, fmap_last, Ea; done). rewrite Ew in *.
    apply (completion_spec argv a); [by destruct argv|done| |done|done|].
    + rewrite Forall_forall in Hz'. apply Hz'. by apply last_Some_elem_of.
    + by apply Forall_cons in Hp as [Hp _]; repeat constructor.
Qed.

(** TAB at the end of a line.  The candidates for the last word (commands, or
    variables behind a command that takes them) decide: a single one is
    completed, with a blank behind it; several are completed as far as they
    agree, or else listed; without candidates the console beeps, or inserts
    the TAB among arguments. *)
Lemma auto_complete_spec ctmp l rest n col
    (Hl : 0 ∉ l) (Hbytes : bytes l)
    (Hsize : Z.of_nat (length (l ++ 0 :: rest)) = CFG_CBSIZE)
    (Hctmp : Z.of_nat (length ctmp) = CFG_CBSIZE)
    (Hn : n = Z.of_nat (length l))
    (Hfine : tab_fine l) :
  match tab_text l with
  | None => cmd_auto_complete env table vtmp ctmp CFG_PROMPT (l ++ 0 :: rest) n col = Some (l ++ 0 :: rest, n, col, [], 0)
  | Some text => ∃ rest' out,
      cmd_auto_complete env table vtmp ctmp CFG_PROMPT (l ++ 0 :: rest) n col =
        Some ((l ++ text) ++ 0 :: rest', n + Z.of_nat (length text), col + Z.of_nat (length text), out, 1) ∧
      length ((l ++ text) ++ 0 :: rest') = length (l ++ 0 :: rest) ∧ shown l out
  end.
Proof using Henv Htable Hvtmp.
  unfold cmd_auto_complete. change (c_strcmp CFG_PROMPT CFG_PROMPT) with (Some 0). cbn [mbind option_bind negb Z.eqb].
  rewrite c_strlen_app by done. cbn [mbind option_bind]. rewrite last_char_eq by done. cbn [mbind option_bind].
  rewrite cut_app by done. rewrite length_app in Hsize. cbn [length] in Hsize.
  rewrite blit_Some by (rewrite ?length_app; cbn [length]; lia). cbn [mbind option_bind].
  change (Z.to_nat 0) with 0%nat. rewrite take_0, <-app_assoc. cbn [app].
  set (trest := drop _ ctmp). clearbody trest.
  destruct (make_argv_spec l trest Hl) as (line' & ix & -> & Hw & Hz). cbn [mbind option_bind].
  set (argv := (λ i, drop (Z.to_nat i) line') <$> ix).
  assert (cut <$> argv = words16 l) as Hcut by (unfold argv; by rewrite <-list_fmap_compose).
  assert (Forall (λ x, 0 ∈ x) argv) as Hz' by (apply Forall_fmap; exact Hz). clearbody argv.
  assert (length argv = length (words16 l)) as Hlen by (rewrite <-Hcut; by rewrite length_fmap).
  destruct (complete_cmdv_spec l argv Hcut Hz' Hbytes) as (cmdv & -> & Hc & Hcands). cbn [mbind option_bind].
  unfold tab_text, tab_fine, shown in *. rewrite <-Hcands in *.
  destruct cmdv as [|x cmdv]; cbn [fmap list_fmap length].
  - change (Z.of_nat 0 =? 0) with true. cbv iota. rewrite Hlen. case_decide.
    + by destruct (Z.ltb_spec 1 (Z.of_nat (length (words16 l)))); [|lia].
    + destruct (Z.ltb_spec 1 (Z.of_nat (length (words16 l)))); [lia|].
      exists rest, [7]. rewrite app_nil_r. cbn [length]. rewrite !Z.add_0_r. by split.
  - destruct (Z.eqb_spec (Z.of_nat (Datatypes.S (length cmdv))) 0); [lia|].
    rewrite (completion_cases l argv x cmdv) by done. cbn [mbind option_bind]. clear Hfine.
    change (cut x :: (cut <$> cmdv)) with (cut <$> x :: cmdv) in *. set (cs := cut <$> x :: cmdv) in *.
    set (e := extension (last_word l) cs) in *. set (t := if decide (254 <= length l + length e)%nat then [] else e).
    assert (∀ text one, e = text ++ (if (one : bool) then [32] else []) → ∃ rest',
        (let t := text ++ (if one then [32] else []) in
         if CFG_CBSIZE - 2 <=? n + Z.of_nat (length t) then Some (l ++ 0 :: rest, n, col, [7], 1) else
         buf ← blit (l ++ 0 :: rest) (Z.of_nat (length l)) (t ++ [0]);
         Some (buf, n + Z.of_nat (length t), col + Z.of_nat (length t), t ++ (if one then [] else [7]), 1)) =
        Some ((l ++ t) ++ 0 :: rest', n + Z.of_nat (length t), col + Z.of_nat (length t),
          (if decide (254 <= length l + length e)%nat then [7] else e ++ (if one then [] else [7])), 1) ∧
         length ((l ++ t) ++ 0 :: rest') = length (l ++ 0 :: rest)) as Hins.
    { intros text one <-. cbv zeta. unfold t, CFG_CBSIZE in *. case_decide.
      - destruct (Z.leb_spec (256 - 2) (n + Z.of_nat (length e))); [|lia]. exists rest. cbn [length].
        by rewrite app_nil_r, !Z.add_0_r.
      - destruct (Z.leb_spec (256 - 2) (n + Z.of_nat (length e))); [lia|].
        destruct (insert_text l e rest) as (rest' & -> & Hr); [rewrite length_app; cbn [length]; lia|]. by exists rest'. }
    destruct cmdv as [|y cmdv]; [|change cs with (cut x :: cut y :: (cut <$> cmdv)); cbv iota].
    + destruct (Hins (drop (length (last_word l)) (cut x)) true eq_refl) as (rest' & E & Hr). eexists rest', _.
      split; [exact E|]. split; [exact Hr|]. change cs with [cut x]. cbv iota. case_decide; [done|]. by rewrite app_nil_r.
    + destruct (decide (e = [])) as [Ee|Ee].
      * destruct (print_argv_spec (x :: y :: cmdv)) as (o & -> & Ho); [done|done|]. cbn [mbind option_bind].
        exists rest, (o ++ cut CFG_PROMPT ++ l). assert (t = []) as -> by (unfold t; case_decide; [done|exact Ee]).
        rewrite app_nil_r. cbn [length]. rewrite !Z.add_0_r. split; [done|]. split; [done|]. by exists o.
      * destruct (Hins e false) as (rest' & E & Hr); [by rewrite app_nil_r|]. eexists rest', _. split; [exact E|]. by split.
Qed.

(** The first word, without a dot, is always completed from the commands. *)
Lemma tab_fine_command l w : words16 l = [w] → blank_end l = false → 46 ∉ w → 0 ∉ w → tab_fine l.
Proof.
  intros Hw Hb Hdot H0. assert (key w = w) as Hk.
  { unfold key. rewrite (cut_id w) by done. destruct (list_find (eq 46) w) as [[n y]|] eqn:E; [|done].
    apply list_find_Some in E as (E & <- & _). by apply list_elem_of_lookup_2 in E. }
  unfold tab_fine, candidates, last_word. rewrite Hw, Hb. rewrite bool_decide_eq_true_2 by done. cbn [negb orb last default].
  rewrite Hk. assert (Forall (λ c, w `prefix_of` c) (filter (λ n, w `prefix_of` n) (names table))) as Hf.
  { apply Forall_forall. intros x Hx. by apply list_elem_of_filter in Hx as [? _]. }
  destruct (filter _ _) as [|x cs]; [by left|]. right. right. split; [done|].
  apply Forall_cons in Hf as [Hx _]. unfold limited. by case_decide; constructor.
Qed.
End tab.

(** C26: TAB at the end of a line.  The candidates for the last word (commands,
    or variables behind a command that takes them; after 18 of them, dots) decide, and what is printed is exact.
    A single one is completed, with a blank behind it, and what is inserted is shown.
    Several are completed as far as they agree, with the bell; where they go
    on differently they are listed, in order, in rows of fewer than 78
    columns, and the prompt and the line are shown again.  Nothing is inserted
    in a line that would get longer than 253 characters, and there is only the bell, as there is without candidates; among
    arguments the TAB is then left to be inserted.  Excluded ([tab_fine]) are lines whose last
    word is not the beginning of the first candidate: a command with a
    modifier, and the first variable behind a blank ([complete_modifier],
    [complete_first_variable]). *)
Theorem auto_complete_exact {S} `{Cli S} env es (table : list (cmd_tbl S)) vtmp ctmp l rest n col
    (Henv : env_ok env es) (Htable : table_ok table)
    (Hvtmp : Z.of_nat (length vtmp) = 512) (Hctmp : Z.of_nat (length ctmp) = CFG_CBSIZE)
    (Hl : 0 ∉ l) (Hbytes : bytes l)
    (Hsize : Z.of_nat (length (l ++ 0 :: rest)) = CFG_CBSIZE)
    (Hn : n = Z.of_nat (length l))
    (Hfine : tab_fine es table l) :
  match tab_text es table l with
  | None => cmd_auto_complete env table vtmp ctmp CFG_PROMPT (l ++ 0 :: rest) n col = Some (l ++ 0 :: rest, n, col, [], 0)
  | Some text => ∃ rest' out,
      cmd_auto_complete env table vtmp ctmp CFG_PROMPT (l ++ 0 :: rest) n col =
        Some ((l ++ text) ++ 0 :: rest', n + Z.of_nat (length text), col + Z.of_nat (length text), out, 1) ∧
      length ((l ++ text) ++ 0 :: rest') = length (l ++ 0 :: rest) ∧ shown es table l out
  end.
Proof. by apply auto_complete_spec. Qed.

(** ** A table *)

#[local] Existing Instance demo_cli.

Lemma demo_commands_ok : table_ok demo_table.
Proof. exact (co_table _ _ _ demo_commands). Qed.

(** Only "echo" begins with "ec". *)
Lemma auto_complete_exact_witness :
  ∃ rest' out,
    cmd_auto_complete demo_block demo_table (replicate 512 7) (replicate 256 7) CFG_PROMPT (str "ec" ++ 0 :: replicate 253 9) 2 17 =
      Some (str "echo " ++ 0 :: rest', 2 + 3, 17 + 3, out, 1) ∧
    length (str "echo " ++ 0 :: rest') = 256%nat ∧ shown demo_vars demo_table (str "ec") out.
Proof.
  apply (auto_complete_exact demo_block demo_vars demo_table (replicate 512 7) (replicate 256 7) (str "ec") (replicate 253 9) 2 17).
  - exact demo_block_ok.
  - exact demo_commands_ok.
  - reflexivity.
  - reflexivity.
  - by_eval.
  - by_eval.
  - reflexivity.
  - reflexivity.
  - apply (tab_fine_command _ _ _ (str "ec")); [reflexivity|reflexivity|by_eval|by_eval].
Defined.

(** A command with a modifier matches without it, and the rest of the name is
    looked for behind its end. *)
Lemma complete_modifier :
  cmd_auto_complete demo_block demo_table (replicate 512 7) (replicate 256 7) CFG_PROMPT
    (str "echo.l" ++ 0 :: replicate 249 9) 6 21 = None.
Proof. by vm_compute. Qed.

(** Behind the blank the only variable loses as many characters as the
    command has. *)
Definition one_var : list Z := encode [(str "bootdelay", str "1")] ++ replicate (Z.to_nat ENV_SIZE - 13) 0.
Definition run_table : list (cmd_tbl (list (list (list Z)))) := [mkCmd (lit "run") 16 1 false (λ _ _ s, Some (s, 0)) None None true].
Lemma complete_first_variable :
  ∃ buf out, cmd_auto_complete one_var run_table (replicate 512 7) (replicate 256 7) CFG_PROMPT (str "run " ++ 0 :: replicate 251 9) 4 19 =
    Some (buf, 11, 26, out, 1) ∧ cut buf = str "run tdelay ".
Proof. do 2 eexists. split; [vm_compute; reflexivity|vm_compute; reflexivity]. Qed.
