(* ===== verification/Help.v ===== *)
(** The commands [help] and [version] of [common/command.c]: [help] without
    arguments sorts the table of commands by their names and prints their
    short help texts; with arguments it prints the long ones. *)
From stdpp Require Import base tactics option list strings sorting.
From Stdlib Require Import ZArith Lia.
From S2P Require Import Prelude.
From S2P Require Import Eff.
From S2P Require Import CBuf.
From S2P Require Import Vsprintf.
From S2P Require Import Env.
From S2P Require Import EnvSpec.
From S2P Require Import Cli.
From S2P Require Import CliSpec.
From S2P Require Import Complete.
Open Scope Z_scope.

(** [ctrlc] and the output functions of [common/console.c]. *)
Class Terminal (S : Type) := {
  term_puts : list Z → ST S unit;
  term_putc : Z → ST S unit;
  term_ctrlc : ST S Z;
}.

Section help.
Context {S : Type} `{Terminal S} (table : list (cmd_tbl S)).
#[local] Abbreviation M := (ST S).
Implicit Types (arr : list (cmd_tbl S)).

(** ** Sorting *)

(** One comparison of the inner loop: [cmd_array], [swaps]. *)
Definition swap_step (i : Z) (x : Z * list (cmd_tbl S) * Z) : option ((Z * list (cmd_tbl S) * Z) + (list (cmd_tbl S) * Z)) :=
  let '(j, arr, swaps) := x in
  if j <? i then
    a ← idx arr j;
    b ← idx arr (j + 1);
    r ← c_strcmp (cmd_name a) (cmd_name b);
    if 0 <? r then
      arr ← upd arr j b;
      arr ← upd arr (j + 1) a;
      Some (inl (j + 1, arr, swaps + 1))
    else Some (inl (j + 1, arr, swaps))
  else Some (inr (arr, swaps)).

Definition sort_pass (i : Z) arr : option (list (cmd_tbl S) * Z) :=
  loop (Datatypes.S (Z.to_nat i)) (swap_step i) (0, arr, 0).

(** The outer loop: until a pass swaps nothing. *)
Definition sort_step (x : Z * list (cmd_tbl S)) : option ((Z * list (cmd_tbl S)) + list (cmd_tbl S)) :=
  let '(i, arr) := x in
  if 0 <? i then
    '(arr, swaps) ← sort_pass i arr;
    Some (if swaps =? 0 then inr arr else inl (i - 1, arr))
  else Some (inr arr).

Definition sort_commands arr : option (list (cmd_tbl S)) :=
  loop (Datatypes.S (length arr)) sort_step (Z.of_nat (length arr) - 1, arr).

(** ** The commands *)

(** The short texts, in the order of the array; [true] when all were
    printed. *)
Fixpoint print_usages arr : M bool :=
  match arr with
  | [] => mret true
  | c :: arr' =>
      t ← term_ctrlc;
      if negb (t =? 0) then mret false else
      _ ← (match cmd_usage c with None => mret tt | Some u => term_puts u end);
      print_usages arr'
  end.

Definition unknown_text : list Z :=
  str "Unknown command '%s' - try 'help' without arguments for list of all known commands" ++ [10; 10; 0].

(** [sizeof (printbuffer)] of [printf]. *)
Definition CFG_PBSIZE : Z := CFG_CBSIZE + Z.of_nat (length CFG_PROMPT) + 16.

(** The help on one argument; [buf] are the bytes of [printbuffer]. *)
Definition help_on (buf : list Z) (arg : list Z) (rcode : Z) : M Z :=
  o ← lift (find_cmd table arg);
  match o with
  | Some c =>
      _ ← term_puts (cmd_name c);
      _ ← term_putc 32;
      rcode ← (match cmd_help c with
               | Some h => _ ← term_puts h; mret rcode
               | None => _ ← term_puts (str "- No help available." ++ [10; 0]); mret 1
               end);
      _ ← term_putc 10;
      mret rcode
  | None =>
      '(buf, _) ← lift (sprintf buf unknown_text [AStr (Some arg)]);
      _ ← term_puts buf;
      mret 1
  end.

Definition do_help (buf : list Z) (argc : Z) (argv : list (list Z)) : M Z :=
  if argc =? 1 then
    arr ← lift (sort_commands table);
    all ← print_usages arr;
    mret (if all : bool then 0 else 1)
  else mfor (take (Z.to_nat (argc - 1)) (drop 1 argv)) (help_on buf) 0.

Definition do_version (buf version_string : list Z) : M Z :=
  '(buf, _) ← lift (sprintf buf ([10] ++ str "%s" ++ [10; 0]) [AStr (Some version_string)]);
  _ ← term_puts buf;
  mret 0.
End help.
