(* ===== verification/HelpSpec.v ===== *)
(** [help] lists the commands in the order of their names: its bubble sort
    is one. *)
From stdpp Require Import base tactics option list strings sorting.
From Stdlib Require Import ZArith Lia.
From S2P Require Import Prelude.
From S2P Require Import Eff.
From S2P Require Import CBuf.
From S2P Require Import Vsprintf.
From S2P Require Import Env.
From S2P Require Import EnvSpec.
From S2P Require Import Cli.
From S2P Require Import CliSpec.
From S2P Require Import Complete.
From S2P Require Import Help.
Open Scope Z_scope.

(** ** The order of the names *)

Fixpoint lex_le (a b : list Z) : bool :=
  match a, b with
  | [], _ => true
  | _ :: _, [] => false
  | x :: a', y :: b' => if x <? y then true else if y <? x then false else lex_le a' b'
  end.

Lemma lex_total a : ∀ b, lex_le a b = false → lex_le b a = true.
Proof.
  induction a as [|x a IH]; intros [|y b]; cbn [lex_le]; try done.
  destruct (Z.ltb_spec x y), (Z.ltb_spec y x); try done. apply IH.
Qed.

Lemma lex_refl a : lex_le a a = true.
Proof. induction a as [|x a IH]; [done|]. cbn [lex_le]. by destruct (Z.ltb_spec x x); [lia|]. Qed.

Lemma lex_trans a : ∀ b c, lex_le a b = true → lex_le b c = true → lex_le a c = true.
Proof.
  induction a as [|x a IH]; intros [|y b] [|z c]; cbn [lex_le]; try done.
  destruct (Z.ltb_spec x y), (Z.ltb_spec y z), (Z.ltb_spec x z); try done; try lia;
    destruct (Z.ltb_spec y x), (Z.ltb_spec z y), (Z.ltb_spec z x); try done; try lia. apply IH.
Qed.

(** Characters of the names: with others the difference of two of them need
    not fit a [signed char]. *)
Definition ascii_text (l : list Z) : Prop := Forall (λ x, 0 <= x < 128) l.

Lemma strcmp_order a : ∀ b, 0 ∈ a → 0 ∈ b → ascii_text a → ascii_text b →
  ∃ r, c_strcmp a b = Some r ∧ (0 <? r) = negb (lex_le (cut a) (cut b)).
Proof.
  induction a as [|x a IH]; intros b Ha Hb Aa Ab; [by apply not_elem_of_nil in Ha|].
  destruct b as [|y b]; [by apply not_elem_of_nil in Hb|]. cbn [c_strcmp].
  apply Forall_cons in Aa as [Hx Aa], Ab as [Hy Ab]. rewrite s8_id by lia.
  destruct (Z.eqb_spec (x - y) 0) as [E|E]; cbn [negb].
  - assert (x = y) as -> by lia. cbn [cut]. destruct (Z.eqb_spec y 0) as [->|Hn]; [by exists (0 - 0)|].
    apply elem_of_cons in Ha as [|Ha]; [done|]. apply elem_of_cons in Hb as [|Hb]; [done|].
    destruct (IH b Ha Hb Aa Ab) as (r & -> & Hr). exists r. split; [done|]. rewrite Hr. cbn [lex_le].
    by destruct (Z.ltb_spec y y); [lia|].
  - exists (x - y). split; [done|]. cbn [cut].
    destruct (Z.ltb_spec 0 (x - y)), (Z.eqb_spec x 0), (Z.eqb_spec y 0); cbn [lex_le negb]; try done; try lia;
      destruct (Z.ltb_spec x y), (Z.ltb_spec y x); done || lia.
Qed.

Section help.
Context {S : Type} `{Terminal S}.
Implicit Types (c a b : cmd_tbl S) (l arr : list (cmd_tbl S)).

Definition named_ok c : Prop := 0 ∈ cmd_name c ∧ ascii_text (cmd_name c).
Definition before a b : Prop := lex_le (cut (cmd_name a)) (cut (cmd_name b)) = true.
#[local] Instance before_dec a b : Decision (before a b) := decide (lex_le (cut (cmd_name a)) (cut (cmd_name b)) = true).

(** ** One pass: the largest of the names moves to the end *)

Fixpoint bubble a l : list (cmd_tbl S) :=
  match l with
  | [] => [a]
  | b :: l' => if decide (before a b) then a :: bubble b l' else b :: bubble a l'
  end.
Fixpoint swapped a l : Z :=
  match l with
  | [] => 0
  | b :: l' => if decide (before a b) then swapped b l' else 1 + swapped a l'
  end.

Lemma swapped_nonneg a l : 0 <= swapped a l.
Proof. revert a. induction l as [|b l IH]; intros a; cbn [swapped]; [done|]. case_decide; [apply IH|specialize (IH a); lia]. Qed.

Lemma bubble_perm a l : bubble a l ≡ₚ a :: l.
Proof.
  revert a. induction l as [|b l IH]; intros a; cbn [bubble]; [done|]. case_decide; rewrite IH; [done|apply Permutation_swap].
Qed.

Lemma before_trans a b c : before a b → before b c → before a c.
Proof. unfold before. apply lex_trans. Qed.
Lemma before_flip a b : ¬ before a b → before b a.
Proof. unfold before. intros Hn. apply lex_total. by destruct (lex_le _ _). Qed.

Lemma bubble_last a l : ∃ l' m, bubble a l = l' ++ [m] ∧ Forall (λ x, before x m) (a :: l).
Proof.
  revert a. induction l as [|b l IH]; intros a; cbn [bubble].
  - exists [], a. split; [done|]. apply Forall_singleton. apply lex_refl.
  - case_decide as Hab.
    + destruct (IH b) as (l' & m & -> & Hm). exists (a :: l'), m. split; [done|]. constructor; [|done].
      apply Forall_cons in Hm as [Hb _]. by eapply before_trans.
    + destruct (IH a) as (l' & m & -> & Hm). exists (b :: l'), m. split; [done|]. apply Forall_cons in Hm as [Ha Hm].
      constructor; [done|]. constructor; [|done]. eapply before_trans; [by apply before_flip|done].
Qed.

Lemma unswapped_sorted a l : swapped a l = 0 → bubble a l = a :: l ∧ StronglySorted before (a :: l).
Proof.
  revert a. induction l as [|b l IH]; intros a; cbn [swapped bubble]; [by repeat constructor|]. case_decide as Hab.
  - intros Hs. destruct (IH b Hs) as (-> & Hst). split; [done|]. constructor; [done|].
    apply StronglySorted_inv in Hst as (_ & Hb). constructor; [done|]. eapply Forall_impl; [done|]. intros x. by apply before_trans.
  - pose proof (swapped_nonneg a l). lia.
Qed.

Lemma pass_loop pre : ∀ mid a suf swaps fuel, Forall named_ok (a :: mid) → (length mid < fuel)%nat →
  loop fuel (swap_step (Z.of_nat (length pre + length mid))) (Z.of_nat (length pre), pre ++ a :: mid ++ suf, swaps) =
    Some (pre ++ bubble a mid ++ suf, swaps + swapped a mid).
Proof.
  intros mid. revert pre. induction mid as [|b mid IH]; intros pre a suf swaps fuel Hn Hf; (destruct fuel as [|fuel]; [cbn in Hf; lia|]);
    rewrite loop_S; unfold swap_step at 1.
  - rewrite Nat.add_0_r, Z.ltb_irrefl. cbn [mbind option_bind bubble swapped app]. by rewrite Z.add_0_r.
  - destruct (Z.ltb_spec (Z.of_nat (length pre)) (Z.of_nat (length pre + length (b :: mid)))); [|cbn [length] in *; lia].
    rewrite (idx_behind pre ((b :: mid) ++ suf) a (Z.of_nat (length pre))) by done. cbn [mbind option_bind app].
    replace (Z.of_nat (length pre) + 1) with (Z.of_nat (length (pre ++ [a]))) by (rewrite length_app; cbn [length]; lia).
    assert (∀ x y : cmd_tbl S, pre ++ x :: y :: mid ++ suf = (pre ++ [x]) ++ y :: mid ++ suf) as Hsnoc by (intros; by rewrite <-app_assoc).
    rewrite Hsnoc at 1. rewrite idx_behind by done. cbn [mbind option_bind].
    apply Forall_cons in Hn as [Ha Hn]. apply Forall_cons in Hn as [Hb Hn].
    destruct (strcmp_order (cmd_name a) (cmd_name b)) as (r & Er & Hr); [apply Ha|apply Hb|apply Ha|apply Hb|].
    rewrite Er. cbn [mbind option_bind]. rewrite Hr. cbn [bubble swapped].
    replace (Z.of_nat (length pre + length (b :: mid))) with (Z.of_nat (length (pre ++ [a]) + length mid))
      by (rewrite length_app; cbn [length]; lia).
    destruct (decide (before a b)) as [Hab|Hab].
    + unfold before in Hab. rewrite Hab. cbn [negb mbind option_bind]. rewrite Hsnoc, IH by (by constructor || (cbn in Hf; lia)).
      by rewrite <-app_assoc.
    + unfold before in Hab. apply not_true_iff_false in Hab. rewrite Hab. cbn [negb]. rewrite upd_behind by done. cbn [mbind option_bind].
      replace (length (pre ++ [a])) with (length (pre ++ [b])) by (by rewrite !length_app).
      rewrite Hsnoc, upd_behind by done. cbn [mbind option_bind].
      rewrite IH by (by constructor || (cbn in Hf; lia)). rewrite <-app_assoc. cbn [app]. do 2 f_equal. lia.
Qed.

Lemma pass_spec a mid suf : Forall named_ok (a :: mid) →
  sort_pass (Z.of_nat (length mid)) ((a :: mid) ++ suf) = Some (bubble a mid ++ suf, swapped a mid).
Proof.
  intros Hn. unfold sort_pass. pose proof (pass_loop [] mid a suf 0) as E. cbn [app length] in E.
  change (Z.of_nat (0 + length mid)) with (Z.of_nat (length mid)) in E. change (Z.of_nat 0) with 0 in E. apply E; [done|lia].
Qed.

(** ** The whole sort *)

Lemma sorted_app l1 l2 : StronglySorted before l1 → StronglySorted before l2 → (∀ a b, a ∈ l1 → b ∈ l2 → before a b) →
  StronglySorted before (l1 ++ l2).
Proof.
  induction 1 as [|a l1 Hs IH Ha]; intros H2 Hx; [done|]. cbn [app]. constructor.
  - apply IH; [done|]. intros x y Hxl. apply Hx. by right.
  - apply Forall_app. split; [done|]. apply Forall_forall. intros y. apply Hx. by left.
Qed.

Lemma sort_loop n : ∀ l suf fuel, length l = n → (n < fuel)%nat → Forall named_ok l → StronglySorted before suf →
  (∀ a b, a ∈ l → b ∈ suf → before a b) →
  ∃ r, loop fuel sort_step (Z.of_nat n - 1, l ++ suf) = Some r ∧ r ≡ₚ l ++ suf ∧ StronglySorted before r.
Proof.
  induction n as [|n IH]; intros l suf fuel Hl Hf Hn Hsuf Hx; (destruct fuel as [|fuel]; [lia|]); rewrite loop_S; unfold sort_step at 1.
  - destruct l; [|done]. by exists suf.
  - destruct l as [|a mid]; [done|]. cbn [length] in Hl. injection Hl as Hl.
    replace (Z.of_nat (Datatypes.S n) - 1) with (Z.of_nat n) by lia. destruct (Z.ltb_spec 0 (Z.of_nat n)).
    + rewrite <-Hl, pass_spec by done. cbn [mbind option_bind]. rewrite Hl.
      destruct (Z.eqb_spec (swapped a mid) 0) as [E|E].
      * destruct (unswapped_sorted a mid E) as (-> & Hs). eexists. split; [done|]. split; [done|]. by apply sorted_app.
      * destruct (bubble_last a mid) as (l' & m & Eb & Hm). rewrite Eb, <-app_assoc.
        pose proof (bubble_perm a mid) as Hp. rewrite Eb in Hp.
        destruct (IH l' ([m] ++ suf) fuel) as (r & Er & Hpr & Hsr).
        -- apply Permutation_length in Hp. rewrite length_app in Hp. cbn [length] in Hp. lia.
        -- lia.
        -- assert (Forall named_ok (l' ++ [m])) as Hnl by by rewrite Hp. apply Forall_app in Hnl. apply Hnl.
        -- cbn [app]. constructor; [done|]. apply Forall_forall. intros x. apply Hx. rewrite <-Hp, elem_of_app. right. by apply list_elem_of_singleton.
        -- intros x y Hxl Hy. apply elem_of_app in Hy as [Hy|Hy].
           ++ apply list_elem_of_singleton in Hy as ->. apply (proj1 (Forall_forall _ _) Hm). rewrite <-Hp, elem_of_app. by left.
           ++ apply Hx; [|done]. rewrite <-Hp, elem_of_app. by left.
        -- exists r. split; [done|]. split; [|done]. rewrite Hpr, app_assoc, Hp. done.
    + assert (mid = []) as -> by (destruct mid; [done|cbn [length] in *; lia]). eexists. split; [done|]. split; [done|].
      cbn [app]. constructor; [done|]. apply Forall_forall. intros y. apply Hx. by left.
Qed.

Lemma sort_spec l : Forall named_ok l → ∃ r, sort_commands l = Some r ∧ r ≡ₚ l ∧ StronglySorted before r.
Proof.
  intros Hn. destruct (sort_loop (length l) l [] (Datatypes.S (length l))) as (r & E & Hp & Hs); [done|lia|done|constructor| |].
  - intros a b _ Hb. by apply not_elem_of_nil in Hb.
  - rewrite app_nil_r in *. by exists r.
Qed.

(** Without a key pressed, all the texts are printed. *)
Fixpoint print_all (l : list (list Z)) : ST S unit :=
  match l with [] => mret tt | u :: l' => _ ← term_puts u; print_all l' end.

Lemma print_usages_all l s : (∀ s', term_ctrlc s' = Some (s', 0)) →
  print_usages l s = (_ ← print_all (omap cmd_usage l); mret true) s.
Proof.
  intros Hq. revert s. induction l as [|c l IH]; intros s; [done|]. cbn [print_usages].
  rewrite (bind_eq _ _ _ _ _ (Hq s)). change (negb (0 =? 0)) with false. cbv iota. cbn [omap list_omap].
  destruct (cmd_usage c) as [u|]; cbn [print_all].
  - unfold mbind, st_bind in *. destruct (term_puts u s) as [[s' []]|]; [|done]. apply IH.
  - apply IH.
Qed.
End help.

(** C38: [help] without arguments prints the short texts of the commands in
    the order of their names: its bubble sort, which leaves as soon as a
    pass swaps nothing, ends with a sorted permutation of the table.  Every
    text is printed unless control-C is pressed. *)
Theorem help_sorted {S} `{Terminal S} (table : list (cmd_tbl S)) buf argv (Hn : Forall named_ok table) :
  ∃ r, r ≡ₚ table ∧ StronglySorted before r ∧
    (∀ s, do_help table buf 1 argv s = (all ← print_usages r; mret (if all : bool then 0 else 1)) s) ∧
    ((∀ s', term_ctrlc s' = Some (s', 0)) → ∀ s, do_help table buf 1 argv s = (_ ← print_all (omap cmd_usage r); mret 0) s).
Proof.
  destruct (sort_spec table Hn) as (r & E & Hp & Hs). exists r. split; [done|]. split; [done|].
  assert (∀ s, do_help table buf 1 argv s = (all ← print_usages r; mret (if all : bool then 0 else 1)) s) as Hd.
  { intros s. unfold do_help. cbn [Z.eqb]. unfold mbind at 1, st_bind at 1, lift. by rewrite E. }
  split; [done|]. intros Hq s. rewrite Hd. unfold mbind, st_bind. rewrite print_usages_all by done.
  unfold mbind, st_bind. by destruct (print_all _ s) as [[s' []]|].
Qed.

(** ** An example *)

#[local] Instance demo_terminal : Terminal (list (list Z)) := {|
  term_puts t s := Some (s ++ [cut t], tt); term_putc c s := Some (s ++ [[c]], tt); term_ctrlc s := Some (s, 0) |}.
#[local] Definition demo_commands : list (cmd_tbl (list (list Z))) :=
  (λ x, mkCmd (lit x) 1 1 false (λ _ _ s, Some (s, 0)) (Some (lit x)) None false) <$> ["run"; "mmc"; "version"; "boot"; "help"]%string.

Lemma help_sorted_witness : ∃ r, r ≡ₚ demo_commands ∧
  do_help demo_commands [] 1 [] [] = (_ ← print_all (omap cmd_usage r); mret 0) [].
Proof.
  destruct (help_sorted demo_commands [] []) as (r & Hp & _ & _ & E); [repeat constructor; by_eval|].
  exists r. split; [exact Hp|]. by apply E.
Defined.

Example help_prints : do_help demo_commands [] 1 [] [] = Some (str <$> ["boot"; "help"; "mmc"; "run"; "version"]%string, 0).
Proof. by vm_compute. Qed.

(** The text about an unknown command is put together in the buffer of
    [printf], which a name of 206 characters leaves no room for. *)
Lemma unknown_overflows : ∃ name : list Z, length name = 206%nat ∧
  help_on demo_commands (replicate (Z.to_nat CFG_PBSIZE) 0) (name ++ [0]) 0 [] = None.
Proof. exists (replicate 206 120). split; [done|]. by vm_compute. Qed.
