(* ===== verification/Readline.v ===== *)
(** [readline] and [delete_char] of [common/main.c]: editing a line on the
    console. *)
From stdpp Require Import base tactics option list strings.
From Stdlib Require Import ZArith Lia.
From S2P Require Import Prelude.
From S2P Require Import Eff.
From S2P Require Import CBuf.
From S2P Require Import Env.
From S2P Require Import Cli.
From S2P Require Import Complete.
Open Scope Z_scope.

(** What [puts] of a string prints. *)
Definition erase_seq : list Z := [8; 32; 8].
Definition tab_seq (skip : Z) : list Z := cut (drop (Z.to_nat skip) (lit "        ")).

(** Showing a character: what is printed, and the column behind it. *)
Definition echo_char (c col : Z) : list Z * Z :=
  if c =? 9 then (tab_seq (Z.land col 7), col + (8 - Z.land col 7)) else ([c], col + 1).

(** [while (col > plen) { puts(erase_seq); --col; }]. *)
Definition erase_step (plen : Z) (x : list Z * Z) : option ((list Z * Z) + (list Z * Z)) :=
  let '(out, col) := x in
  Some (if plen <? col then inl (out ++ erase_seq, col - 1) else inr (out, col)).
Definition erase_line (plen : Z) (out : list Z) (col : Z) : option (list Z * Z) :=
  loop (S (Z.to_nat (col - plen))) (erase_step plen) (out, col).

(** "will retype the whole line". *)
Definition retype (l out : list Z) (col : Z) : list Z * Z :=
  foldl (λ '(out, col) c, let '(t, col) := echo_char c col in (out ++ t, col)) (out, col) l.

(** The locals of [readline] and what it has printed; [p] is an index into
    [console_buffer]. *)
Record rl := mkRl { console_buffer : list Z; rl_p : Z; rl_n : Z; rl_col : Z; rl_out : list Z }.

Definition delete_char (plen : Z) (r : rl) : option rl :=
  if rl_n r =? 0 then Some r else
  let p := rl_p r - 1 in
  c ← idx (console_buffer r) p;
  if c =? 9 then
    '(out, col) ← erase_line plen (rl_out r) (rl_col r);
    l ← slice (console_buffer r) 0 p;
    let '(out, col) := retype l out col in
    Some (mkRl (console_buffer r) p (rl_n r - 1) col out)
  else Some (mkRl (console_buffer r) p (rl_n r - 1) (rl_col r - 1) (rl_out r ++ erase_seq)).

(** "erase word": the loop behind the first [delete_char]. *)
Definition erase_word_step (plen : Z) (r : rl) : option (rl + rl) :=
  if rl_n r <=? 0 then Some (inr r) else
  c ← idx (console_buffer r) (rl_p r);
  if c =? 32 then Some (inr r) else
  r ← delete_char plen r; Some (inl r).

Section readline.
Context {S : Type} `{Cli S} (env : list Z) (table : list (cmd_tbl S)).
(** The static buffers of the completion, whatever they hold. *)
Context (vtmp ctmp : list Z).

(** "Must be a normal character then". *)
Definition type_char (prompt : list Z) (c : Z) (r : rl) : option rl :=
  if rl_n r <? CFG_CBSIZE - 2 then
    if c =? 9 then
      buf ← upd (console_buffer r) (rl_p r) 0;
      '(buf, n, col, out, done) ← cmd_auto_complete env table vtmp ctmp prompt buf (rl_n r) (rl_col r);
      if negb (done =? 0) then Some (mkRl buf n n col (rl_out r ++ out)) else
      let '(t, col) := echo_char c col in
      buf ← upd buf (rl_p r) c;
      Some (mkRl buf (rl_p r + 1) (n + 1) col (rl_out r ++ out ++ t))
    else
      buf ← upd (console_buffer r) (rl_p r) c;
      Some (mkRl buf (rl_p r + 1) (rl_n r + 1) (rl_col r + 1) (rl_out r ++ [c]))
  else Some (mkRl (console_buffer r) (rl_p r) (rl_n r) (rl_col r) (rl_out r ++ [7])).

(** One character: [inr] is the result of [readline]. *)
Definition read_char (prompt : list Z) (plen c : Z) (r : rl) : option (rl + rl * Z) :=
  if (c =? 13) || (c =? 10) then
    buf ← upd (console_buffer r) (rl_p r) 0;
    Some (inr (mkRl buf (rl_p r) (rl_n r) (rl_col r) (rl_out r ++ [13; 10]), rl_p r))
  else if c =? 0 then Some (inl r)
  else if c =? 3 then
    buf ← upd (console_buffer r) 0 0;
    Some (inr (mkRl buf (rl_p r) (rl_n r) (rl_col r) (rl_out r), -1))
  else if c =? 21 then
    '(out, col) ← erase_line plen (rl_out r) (rl_col r);
    Some (inl (mkRl (console_buffer r) 0 0 col out))
  else if c =? 23 then
    r ← delete_char plen r;
    r ← loop (Datatypes.S (Z.to_nat (rl_n r))) (erase_word_step plen) r;
    Some (inl r)
  else if (c =? 8) || (c =? 127) then r ← delete_char plen r; Some (inl r)
  else r ← type_char prompt c r; Some (inl r).

(** The characters of the console, one after the other: the buffer, the
    output, the result and the characters left.  Without a result the call is
    still waiting for characters. *)
Fixpoint read_chars (prompt : list Z) (plen : Z) (input : list Z) (r : rl) : option (rl * option Z * list Z) :=
  match input with
  | [] => Some (r, None, [])
  | c :: input' =>
      x ← read_char prompt plen c r;
      match x with
      | inl r => read_chars prompt plen input' r
      | inr (r, n) => Some (r, Some n, input')
      end
  end.

Definition readline (prompt : option (list Z)) (buf input : list Z) : option (rl * option Z * list Z) :=
  match prompt with
  | Some p => plen ← c_strlen p; read_chars p plen input (mkRl buf 0 0 plen (cut p))
  | None => read_chars [] 0 input (mkRl buf 0 0 0 [])
  end.
End readline.
