(* ===== verification/ReadlineSpec.v ===== *)
(** [Readline] edits a line: what is in the buffer and what a terminal shows
    is the line the keys typed so far amount to. *)
From stdpp Require Import base tactics option list strings.
From Stdlib Require Import ZArith Lia.
From S2P Require Import Prelude.
From S2P Require Import Eff.
From S2P Require Import CBuf.
From S2P Require Import Ptable.
From S2P Require Import Env.
From S2P Require Import EnvSpec.
From S2P Require Import Cli.
From S2P Require Import CliSpec.
From S2P Require Import CliRun.
From S2P Require Import Complete.
From S2P Require Import CompleteSpec.
From S2P Require Import Readline.
Open Scope Z_scope.

(** ** A terminal

    The last line of its screen, long enough for what is typed, and the
    cursor. *)
Record term := mkTerm { cells : list Z; cur : nat }.

Definition tput (t : term) (c : Z) : term :=
  if c =? 7 then t
  else if c =? 8 then mkTerm (cells t) (Init.Nat.pred (cur t))
  else if c =? 10 then mkTerm [] 0
  else if c =? 13 then mkTerm (cells t) 0
  else if c =? 9 then
    let cur' := (cur t + (8 - cur t mod 8))%nat in
    mkTerm (cells t ++ replicate (cur' - length (cells t)) 32) cur'
  else mkTerm (take (cur t) (cells t) ++ c :: drop (S (cur t)) (cells t)) (S (cur t)).
Definition show (out : list Z) (t : term) : term := foldl tput t out.

Lemma show_app a b t : show (a ++ b) t = show b (show a t).
Proof. apply foldl_app. Qed.

Definition printable (c : Z) : Prop := 32 <= c < 256 ∧ c ≠ 127.
#[export] Instance printable_dec c : Decision (printable c).
Proof. unfold printable. apply _. Defined.
Definition typed (c : Z) : Prop := c = 9 ∨ printable c.
#[export] Instance typed_dec c : Decision (typed c).
Proof. unfold typed. apply _. Defined.

(** The cells of a line that begins at a column. *)
Definition char_cells (col : nat) (c : Z) : list Z := if c =? 9 then replicate (8 - col mod 8) 32 else [c].
Fixpoint expand (col : nat) (l : list Z) : list Z :=
  match l with [] => [] | c :: l' => char_cells col c ++ expand (col + length (char_cells col c)) l' end.

Lemma expand_snoc l c : ∀ col, expand col (l ++ [c]) = expand col l ++ char_cells (col + length (expand col l)) c.
Proof.
  induction l as [|d l IH]; intros col; cbn [expand app length].
  - by rewrite app_nil_r, Nat.add_0_r.
  - rewrite IH, <-app_assoc, length_app, Nat.add_assoc. done.
Qed.

(** The screen shows a prompt and a line, and blanks behind the cursor. *)
Definition shows (t : term) (prompt l : list Z) : Prop :=
  (∃ k, cells t = prompt ++ expand (length prompt) l ++ replicate k 32) ∧
  cur t = length (prompt ++ expand (length prompt) l).

Lemma show_cells w : ∀ t a k, Forall printable w → cells t = a ++ replicate k 32 → cur t = length a →
  show w t = mkTerm ((a ++ w) ++ replicate (k - length w) 32) (length (a ++ w)).
Proof.
  induction w as [|c w IH]; intros t a k Hw Hc Hn; cbn [show foldl].
  - rewrite app_nil_r. destruct t. cbn in *. subst. by rewrite Nat.sub_0_r.
  - apply Forall_cons in Hw as [[Hr _] Hw]. fold (show w (tput t c)).
    assert (tput t c = mkTerm ((a ++ [c]) ++ replicate (Init.Nat.pred k) 32) (length (a ++ [c]))) as ->.
    { unfold tput. destruct (Z.eqb_spec c 7), (Z.eqb_spec c 8), (Z.eqb_spec c 10), (Z.eqb_spec c 13), (Z.eqb_spec c 9); try lia.
      rewrite Hc, Hn, take_app_length, length_app. cbn [length]. f_equal; [|lia].
      rewrite <-app_assoc. cbn [app]. do 2 f_equal. rewrite drop_app_ge by lia.
      replace (S (length a) - length a)%nat with 1%nat by lia. by destruct k. }
    rewrite (IH _ (a ++ [c]) (Init.Nat.pred k)) by done. rewrite <-!app_assoc. cbn [app length].
    by replace (Init.Nat.pred k - length w)%nat with (k - S (length w))%nat by lia.
Qed.

(** Typing a cell or a TAB's blanks. *)
Lemma shows_add t prompt l w c : shows t prompt l → Forall printable w → w = char_cells (length prompt + length (expand (length prompt) l)) c →
  shows (show w t) prompt (l ++ [c]).
Proof.
  intros [(k & Hc) Hn] Hw Ew. rewrite app_assoc in Hc. rewrite (show_cells w t _ k Hw Hc Hn).
  unfold shows. rewrite expand_snoc, <-Ew, (app_assoc prompt). split; [|done]. exists (k - length w)%nat. cbn [cells].
  by rewrite <-!app_assoc.
Qed.

Lemma printable_blanks n : Forall printable (replicate n 32).
Proof. apply Forall_replicate. by_eval. Qed.

(** Erasing the last cell. *)
Lemma show_erase t a x k : cells t = a ++ x :: replicate k 32 → cur t = S (length a) →
  cells (show erase_seq t) = a ++ replicate (S k) 32 ∧ cur (show erase_seq t) = length a.
Proof.
  intros Hc Hn. unfold show, erase_seq. cbn [foldl].
  assert (tput t 8 = mkTerm (a ++ x :: replicate k 32) (length a)) as -> by (unfold tput; rewrite Hc, Hn; done).
  assert (tput (mkTerm (a ++ x :: replicate k 32) (length a)) 32 = mkTerm (a ++ replicate (S k) 32) (S (length a))) as ->.
  { unfold tput. cbn [Z.eqb Pos.eqb cells cur]. rewrite take_app_length, drop_app_ge by lia.
    replace (S (length a) - length a)%nat with 1%nat by lia. done. }
  done.
Qed.

Lemma show_erases n : ∀ t a w k, length w = n → cells t = a ++ w ++ replicate k 32 → cur t = length (a ++ w) →
  (∃ k', cells (show (concat (replicate n erase_seq)) t) = a ++ replicate k' 32) ∧
  cur (show (concat (replicate n erase_seq)) t) = length a.
Proof.
  induction n as [|n IH]; intros t a w k Hw Hc Hn.
  - destruct w; [|done]. cbn in *. rewrite app_nil_r in Hn. split; [by exists k|done].
  - destruct (exists_last (l := w)) as (w' & x & ->); [by destruct w|]. rewrite length_app in Hw. cbn [length] in Hw.
    cbn [replicate concat]. rewrite show_app. rewrite <-!app_assoc in Hc. cbn [app] in Hc. rewrite app_assoc in Hc.
    destruct (show_erase t (a ++ w') x k) as [E1 E2]; [done|rewrite Hn, !length_app; cbn [length]; lia|].
    apply (IH _ a w' (S k)); [lia|by rewrite <-app_assoc in E1|done].
Qed.

(** ** The state of [readline] *)

(** The buffer begins with the line, and the screen shows it. *)
Record editing (prompt l : list Z) (r : rl) : Prop := mkEditing {
  ed_buf : ∃ rest, console_buffer r = l ++ rest ∧ Z.of_nat (length (l ++ rest)) = CFG_CBSIZE;
  ed_p : rl_p r = Z.of_nat (length l);
  ed_n : rl_n r = Z.of_nat (length l);
  ed_col : rl_col r = Z.of_nat (length prompt + length (expand (length prompt) l));
  ed_shows : shows (show (rl_out r) (mkTerm [] 0)) prompt l;
  ed_typed : Forall typed l;
  ed_length : Z.of_nat (length l) <= CFG_CBSIZE - 2;
}.

(** Removing the last character, and the last word with the blank before it. *)
Fixpoint kill_rev (l : list Z) : list Z := match l with [] => [] | c :: l' => if c =? 32 then l' else kill_rev l' end.
Definition kill_word (l : list Z) : list Z := reverse (kill_rev (reverse l)).

Lemma char_cells_printable c : printable c → ∀ col, char_cells col c = [c].
Proof. intros [Hc _] col. unfold char_cells. by destruct (Z.eqb_spec c 9); [lia|]. Qed.

Lemma col_land (n : nat) : Z.land (Z.of_nat n) 7 = Z.of_nat (n mod 8).
Proof. change 7 with (Z.ones 3). rewrite Z.land_ones by lia. change (2 ^ 3) with (Z.of_nat 8). by rewrite Nat2Z.inj_mod. Qed.

Lemma tab_seq_blanks (k : nat) : (k < 8)%nat → tab_seq (Z.of_nat k) = replicate (8 - k) 32.
Proof. intros Hk. do 8 (destruct k as [|k]; [by vm_compute|]). lia. Qed.

(** Echoing puts the cells of a character on the screen. *)
Lemma echo_cells c (col : nat) : typed c → echo_char c (Z.of_nat col) = (char_cells col c, Z.of_nat (col + length (char_cells col c))) ∧
  Forall printable (char_cells col c).
Proof.
  intros [->|Hp].
  - unfold echo_char, char_cells. cbn [Z.eqb Pos.eqb]. rewrite col_land.
    pose proof (Nat.mod_upper_bound col 8 ltac:(lia)). rewrite tab_seq_blanks by done. split; [|apply printable_blanks].
    rewrite length_replicate. f_equal. lia.
  - rewrite char_cells_printable by done. unfold echo_char. destruct Hp as [Hc Hc']. destruct (Z.eqb_spec c 9); [lia|].
    split; [f_equal; cbn [length]; lia|]. repeat constructor; (lia || done).
Qed.

Lemma retype_spec prompt l2 : ∀ l1 out col, Forall typed l2 →
  shows (show out (mkTerm [] 0)) prompt l1 → col = Z.of_nat (length prompt + length (expand (length prompt) l1)) →
  ∃ out', retype l2 out col = (out', Z.of_nat (length prompt + length (expand (length prompt) (l1 ++ l2)))) ∧
    shows (show out' (mkTerm [] 0)) prompt (l1 ++ l2).
Proof.
  induction l2 as [|c l2 IH]; intros l1 out col Ht Hs ->; unfold retype; cbn [foldl].
  - exists out. rewrite app_nil_r. done.
  - apply Forall_cons in Ht as [Hc Ht]. destruct (echo_cells c (length prompt + length (expand (length prompt) l1)) Hc) as [-> Hp].
    change (foldl _ ?x l2) with (retype l2 x.1 x.2). cbn [fst snd].
    destruct (IH (l1 ++ [c]) (out ++ char_cells (length prompt + length (expand (length prompt) l1)) c)
      (Z.of_nat (length prompt + length (expand (length prompt) l1) + length (char_cells (length prompt + length (expand (length prompt) l1)) c)))) as (out' & E & Hs').
    + done.
    + rewrite show_app. by apply shows_add.
    + rewrite expand_snoc, length_app. f_equal. lia.
    + exists out'. rewrite <-app_assoc in E, Hs'. done.
Qed.

Lemma erase_line_spec prompt l out : shows (show out (mkTerm [] 0)) prompt l →
  ∃ out', erase_line (Z.of_nat (length prompt)) out (Z.of_nat (length prompt + length (expand (length prompt) l)))
      = Some (out', Z.of_nat (length prompt)) ∧ shows (show out' (mkTerm [] 0)) prompt [].
Proof.
  intros [(k & Hc) Hn]. exists (out ++ concat (replicate (length (expand (length prompt) l)) erase_seq)). split.
  - unfold erase_line. set (w := expand (length prompt) l). clearbody w.
    replace (S (Z.to_nat (Z.of_nat (length prompt + length w) - Z.of_nat (length prompt)))) with (S (length w)) by lia.
    generalize (length w) as n. clear. intros n. revert out. induction n as [|n IH]; intros out.
    + cbn [loop]. unfold erase_step at 1. rewrite Nat.add_0_r. destruct (Z.ltb_spec (Z.of_nat (length prompt)) (Z.of_nat (length prompt))); [lia|]. by rewrite app_nil_r.
    + remember (S n) as fuel eqn:Ef. cbn [loop]. unfold erase_step at 1. subst fuel.
      destruct (Z.ltb_spec (Z.of_nat (length prompt)) (Z.of_nat (length prompt + S n))); [|lia].
      replace (Z.of_nat (length prompt + S n) - 1) with (Z.of_nat (length prompt + n)) by lia.
      rewrite IH. cbn [replicate concat]. by rewrite app_assoc.
  - rewrite show_app. destruct (show_erases (length (expand (length prompt) l)) (show out (mkTerm [] 0)) prompt (expand (length prompt) l) k)
      as [(k' & E) E2]; [done..|]. split; [exists k'; exact E|]. cbn [expand]. by rewrite app_nil_r.
Qed.

Lemma delete_char_spec prompt l c r : editing prompt (l ++ [c]) r →
  ∃ r', delete_char (Z.of_nat (length prompt)) r = Some r' ∧ editing prompt l r' ∧ console_buffer r' = console_buffer r.
Proof.
  intros [(rest & Eb & Hsz) Hp Hn Hcol Hs Ht Hlen]. unfold delete_char. rewrite Hn, Hp, length_app. cbn [length].
  destruct (Z.eqb_spec (Z.of_nat (length l + 1)) 0); [lia|]. replace (Z.of_nat (length l + 1) - 1) with (Z.of_nat (length l)) by lia.
  rewrite <-app_assoc in Eb. cbn [app] in Eb. rewrite Eb, idx_mid. cbn [mbind option_bind].
  apply Forall_app in Ht as [Ht Hc]. apply Forall_cons in Hc as [Hc _].
  assert (∃ rest', l ++ c :: rest = l ++ rest' ∧ Z.of_nat (length (l ++ rest')) = CFG_CBSIZE) as Hb.
  { exists (c :: rest). split; [done|]. by rewrite <-app_assoc in Hsz. }
  rewrite length_app in Hlen. cbn [length] in Hlen.
  destruct (Z.eqb_spec c 9) as [->|Hc9].
  - rewrite Hcol. destruct (erase_line_spec prompt (l ++ [9]) (rl_out r) Hs) as (out1 & -> & Hs1). cbn [mbind option_bind].
    rewrite slice_Some by (rewrite ?length_app; lia). cbn [mbind option_bind]. change (Z.to_nat 0) with 0%nat.
    rewrite drop_0, Nat2Z.id, take_app_length.
    destruct (retype_spec prompt l [] out1 (Z.of_nat (length prompt))) as (out2 & -> & Hs2);
      [done|done|cbn [expand length]; lia|]. cbn [app] in *.
    eexists. split; [done|]. split; [|done]. split; cbn [console_buffer rl_p rl_n rl_col rl_out]; try done; lia.
  - destruct Hc as [->|Hc]; [done|]. eexists. split; [done|]. split; [|done].
    split; cbn [console_buffer rl_p rl_n rl_col rl_out]; try done; try lia.
    + rewrite Hcol, expand_snoc, char_cells_printable, length_app by done. cbn [length]. lia.
    + rewrite show_app. destruct Hs as [(k & Hs1) Hs2]. rewrite expand_snoc, char_cells_printable in * by done.
      destruct (show_erase (show (rl_out r) (mkTerm [] 0)) (prompt ++ expand (length prompt) l) c k) as [E1 E2].
      * rewrite Hs1, <-!app_assoc. done.
      * rewrite Hs2, !length_app. cbn [length]. lia.
      * split; [|done]. exists (S k). by rewrite E1, <-app_assoc.
Qed.

(** Deleting backwards, [c] being the character deleted last. *)
Lemma kill_loop prompt : ∀ n c l r, length l = n → editing prompt l r → idx (console_buffer r) (rl_p r) = Some c →
  ∃ r', loop (S n) (erase_word_step (Z.of_nat (length prompt))) r = Some r' ∧
    editing prompt (if c =? 32 then l else kill_word l) r'.
Proof.
  induction n as [|n IH]; intros c l r Hl He Hc; rewrite loop_S; unfold erase_word_step at 1;
    rewrite (ed_n _ _ _ He), Hl.
  - destruct l; [|done]. destruct (Z.leb_spec (Z.of_nat 0) 0); [|lia]. exists r. by destruct (c =? 32).
  - destruct (Z.leb_spec (Z.of_nat (S n)) 0); [lia|]. rewrite Hc. cbn [mbind option_bind].
    destruct (Z.eqb_spec c 32); [by exists r|].
    destruct (exists_last (l := l)) as (l' & x & ->); [by destruct l|]. rewrite length_app in Hl. cbn [length] in Hl.
    destruct (delete_char_spec _ _ _ _ He) as (r1 & -> & He1 & Hb). cbn [mbind option_bind].
    destruct (IH x l' r1) as (r' & -> & He'); [lia|done| |].
    + rewrite Hb, (ed_p _ _ _ He1). destruct (ed_buf _ _ _ He) as (rest & -> & _). rewrite <-app_assoc. apply idx_mid.
    + exists r'. split; [done|]. unfold kill_word. rewrite reverse_snoc. cbn [kill_rev].
      destruct (x =? 32); [by rewrite reverse_involutive|done].
Qed.

Lemma typed_text l : Forall typed l → (0 ∉ l) ∧ bytes l.
Proof.
  intros Ht. rewrite Forall_forall in Ht. split.
  - intros Hi. destruct (Ht 0 Hi) as [?|[? _]]; lia.
  - apply Forall_forall. intros x Hx. destruct (Ht x Hx) as [->|[Hp _]]; unfold is_byte; lia.
Qed.

Lemma editing_more prompt r l c rest' out : editing prompt l r → typed c →
  Z.of_nat (length l) < CFG_CBSIZE - 2 → Z.of_nat (length ((l ++ [c]) ++ rest')) = CFG_CBSIZE →
  shows (show out (mkTerm [] 0)) prompt (l ++ [c]) →
  editing prompt (l ++ [c]) (mkRl ((l ++ [c]) ++ rest') (rl_p r + 1) (rl_n r + 1)
    (Z.of_nat (length prompt + length (expand (length prompt) (l ++ [c])))) out).
Proof.
  intros [_ Hp Hn _ _ Ht _] Hc Hl Hsz Hs. split; cbn [console_buffer rl_p rl_n rl_col rl_out]; try done.
  - by exists rest'.
  - rewrite length_app. cbn [length]. lia.
  - rewrite length_app. cbn [length]. lia.
  - apply Forall_app. split; [done|by constructor].
  - rewrite length_app. cbn [length]. lia.
Qed.

(** The buffer has room behind the line. *)
Lemma editing_room prompt r l : editing prompt l r → ∃ x rest, console_buffer r = l ++ x :: rest ∧
  Z.of_nat (length (l ++ x :: rest)) = CFG_CBSIZE.
Proof.
  intros [(rest & Eb & Hsz) _ _ _ _ _ Hl]. destruct rest as [|x rest]; [|by exists x, rest].
  rewrite app_nil_r in Hsz. unfold CFG_CBSIZE in *. lia.
Qed.

Lemma show_bell prompt l r : editing prompt l r →
  editing prompt l (mkRl (console_buffer r) (rl_p r) (rl_n r) (rl_col r) (rl_out r ++ [7])).
Proof. intros [Hb Hp Hn Hc Hs Ht Hl]. split; try done. cbn [rl_out]. by rewrite show_app. Qed.

(** The raw text of a line moves the cursor like its echo. *)
Lemma shows_raw prompt l2 : ∀ l1 t, Forall typed l2 → shows t prompt l1 → (length (prompt ++ expand (length prompt) l1) = length (cells t))%nat →
  shows (show l2 t) prompt (l1 ++ l2).
Proof.
  induction l2 as [|c l2 IH]; intros l1 t Ht Hs Hl; [by rewrite app_nil_r|].
  apply Forall_cons in Ht as [Hc Ht]. cbn [show foldl]. fold (show l2 (tput t c)).
  pose proof Hs as [(k & Hk) Hn]. assert (k = 0%nat) as ->.
  { rewrite Hk, !length_app, length_replicate in Hl. lia. }
  cbn [replicate] in Hk. rewrite app_nil_r in Hk. rewrite (snoc_at l1 c l2).
  assert (tput t c = mkTerm (cells t ++ char_cells (cur t) c) (cur t + length (char_cells (cur t) c))) as ->.
  { destruct Hc as [->|Hc].
    - unfold tput, char_cells. cbn [Z.eqb Pos.eqb]. rewrite length_replicate. do 3 f_equal. lia.
    - rewrite char_cells_printable by done. change (tput t c) with (show [c] t).
      rewrite (show_cells [c] t (cells t) 0); [|by apply Forall_singleton|symmetry; apply app_nil_r|by rewrite Hn].
      cbn [length Nat.sub replicate]. rewrite app_nil_r, length_app. cbn [length]. f_equal. by rewrite Hn, Hl. }
  assert (cur t = (length prompt + length (expand (length prompt) l1))%nat) as En by (by rewrite Hn, length_app).
  apply IH; [done| |].
  - split; [|cbn [cur]; rewrite expand_snoc, !length_app, En; lia]. exists 0%nat. cbn [cells replicate].
    by rewrite Hk, expand_snoc, En, app_nil_r, <-app_assoc.
  - cbn [cells]. rewrite expand_snoc, En, !length_app in *. lia.
Qed.

(** A line listed again behind a prompt. *)
Lemma shows_again prompt o l t : Forall printable prompt → Forall typed l → shows (show (o ++ [10] ++ prompt ++ l) t) prompt l.
Proof.
  intros Hprompt Ht. rewrite !show_app. change (show [10] (show o t)) with (mkTerm [] 0).
  rewrite (show_cells prompt (mkTerm [] 0) [] 0) by done. cbn [app Nat.sub replicate]. rewrite app_nil_r.
  apply (shows_raw prompt l []); [done| |cbn [cells expand]; by rewrite app_nil_r].
  split; [exists 0%nat|]; cbn [cells cur expand replicate app]; by rewrite ?app_nil_r.
Qed.
Lemma expand_printable w : ∀ l col, Forall printable w → expand col (l ++ w) = expand col l ++ w.
Proof.
  induction w as [|c w IH]; intros l col Hw; [by rewrite !app_nil_r|]. apply Forall_cons in Hw as [Hc Hw].
  rewrite (snoc_at l c w), IH by done. rewrite expand_snoc, char_cells_printable by done. by rewrite <-app_assoc.
Qed.

Lemma tab_room {S} `{Cli S} es (table : list (cmd_tbl S)) l text : tab_text es table l = Some text →
  (length l + length text < 254)%nat ∨ text = [].
Proof.
  unfold tab_text. destruct (candidates es table l) as [|c cs].
  - case_decide; [done|]. intros [= <-]. by right.
  - cbv zeta. intros [= <-]. case_decide; [by right|left; lia].
Qed.

Section keys.
Context {S : Type} `{HC : Cli S} (env : list Z) (es : list var) (table : list (cmd_tbl S)).
Context (Henv : env_ok env es) (Htable : table_ok table).
Context (vtmp ctmp : list Z) (Hvtmp : Z.of_nat (length vtmp) = 512) (Hctmp : Z.of_nat (length ctmp) = CFG_CBSIZE).
(** The prompt; that of the main loop completes. *)
Context (prompt : list Z) (Hprompt : Forall printable prompt).

Definition completes : bool := bool_decide (prompt = cut CFG_PROMPT).

(** What a key does to the line. *)
Definition edit (l : list Z) (c : Z) : list Z :=
  if c =? 0 then l
  else if c =? 21 then []
  else if c =? 23 then kill_word l
  else if (c =? 8) || (c =? 127) then take (length l - 1) l
  else if Z.of_nat (length l) <? CFG_CBSIZE - 2 then
    if c =? 9 then
      match (if completes then tab_text es table l else None) with Some text => l ++ text | None => l ++ [9] end
    else l ++ [c]
  else l.

(** The keys of a line: no end of it, and no control-C. *)
Definition key_ok (l : list Z) (c : Z) : Prop :=
  c ∈ [0; 8; 21; 23; 127] ∨ printable c ∨
  (c = 9 ∧ (completes = true → tab_fine es table l ∧ Forall printable (default [] (tab_text es table l)))).
Fixpoint keys_ok (l : list Z) (keys : list Z) : Prop :=
  match keys with [] => True | c :: keys' => key_ok l c ∧ keys_ok (edit l c) keys' end.


Definition plain_key (c : Z) : Prop := c ∈ [0; 8; 21; 23; 127] ∨ printable c.
#[export] Instance plain_key_dec c : Decision (plain_key c).
Proof. unfold plain_key. apply _. Defined.
Lemma keys_plain keys : Forall plain_key keys → ∀ l, keys_ok l keys.
Proof.
  clear Henv Htable Hvtmp Hctmp Hprompt.
  induction 1 as [|c keys Hc _ IH]; intros l; [exact I|]. split; [|apply IH]. destruct Hc; [by left|by right; left].
Qed.

#[local] Abbreviation P := (prompt ++ [0]).

(** TAB: completed, or a character like any other. *)
Lemma tab_key l r x rest : editing prompt l r → console_buffer r = l ++ x :: rest →
  Z.of_nat (length (l ++ x :: rest)) = CFG_CBSIZE → Z.of_nat (length l) < CFG_CBSIZE - 2 → key_ok l 9 →
  match (if completes then tab_text es table l else None) with
  | Some text => ∃ rest' out,
      cmd_auto_complete env table vtmp ctmp P (l ++ 0 :: rest) (rl_n r) (rl_col r) =
        Some ((l ++ text) ++ 0 :: rest', rl_n r + Z.of_nat (length text), rl_col r + Z.of_nat (length text), out, 1) ∧
      editing prompt (l ++ text) (mkRl ((l ++ text) ++ 0 :: rest') (rl_n r + Z.of_nat (length text))
        (rl_n r + Z.of_nat (length text)) (rl_col r + Z.of_nat (length text)) (rl_out r ++ out))
  | None => cmd_auto_complete env table vtmp ctmp P (l ++ 0 :: rest) (rl_n r) (rl_col r) =
      Some (l ++ 0 :: rest, rl_n r, rl_col r, [], 0)
  end.
Proof using HC Henv Htable Hvtmp Hctmp Hprompt.
  intros He Eb Hsz Hlt Hk. pose proof He as [_ Hp Hn Hcol Hs Ht _]. destruct (typed_text l Ht) as [H0 Hby].
  destruct completes eqn:Ecomp; unfold completes in Ecomp; [apply bool_decide_eq_true in Ecomp as Hpr|apply bool_decide_eq_false in Ecomp as Hpr].
  - assert (P = CFG_PROMPT) as EP by (rewrite Hpr; done). rewrite EP.
    destruct Hk as [Hk|[[? _]|[_ Hk]]]; [by rewrite !elem_of_cons, elem_of_nil in Hk; lia|lia|].
    destruct (Hk Ecomp) as [Hfine Htext].
    pose proof (auto_complete_spec env es table Henv Htable vtmp Hvtmp ctmp l rest (rl_n r) (rl_col r) H0 Hby) as Hspec.
    rewrite length_app in Hsz, Hspec. cbn [length] in Hsz, Hspec. specialize (Hspec Hsz Hctmp Hn Hfine).
    destruct (tab_text es table l) as [text|] eqn:Etab; [|done]. destruct Hspec as (rest' & out & E & Hlen & Hout).
    cbn [default] in Htext. exists rest', out. split; [done|].
    assert (Forall typed (l ++ text)) as Ht' by (apply Forall_app; split; [done|by apply (Forall_impl _ _ _ Htext); right]).
    assert (expand (length prompt) (l ++ text) = expand (length prompt) l ++ text) as Eexp by by apply expand_printable.
    split; cbn [console_buffer rl_p rl_n rl_col rl_out].
    + exists (0 :: rest'). split; [done|]. rewrite Hlen. lia.
    + rewrite length_app. lia.
    + rewrite length_app. lia.
    + rewrite Eexp, length_app, Hcol. lia.
    + assert (shows (show text (show (rl_out r) (mkTerm [] 0))) prompt (l ++ text)) as Hst.
      { destruct Hs as [(k & Hk1) Hk2]. rewrite app_assoc in Hk1. rewrite (show_cells text _ _ k Htext Hk1 Hk2).
        split; [exists (k - length text)%nat|]; cbn [cells cur]; by rewrite Eexp, <-!app_assoc. }
      apply (shown_line _ _ _ text) in Hout; [|exact Etab].
      destruct Hout as [->|[->|[-> [o ->]]]]; rewrite ?show_app; [done|exact Hst|].
      rewrite <-!show_app, app_nil_r, <-Hpr, app_assoc. by apply shows_again.
    + done.
    + destruct (tab_room es table l text) as [Hr|Hr]; [exact Etab| |]; unfold CFG_CBSIZE.
      * rewrite length_app. lia.
      * rewrite Hr, app_nil_r. unfold CFG_CBSIZE in *. lia.
  - unfold cmd_auto_complete.
    destruct (c_strcmp_spec P CFG_PROMPT) as (res & -> & Hres); [apply zero_in|by_eval| |by_eval|].
    { apply bytes_app. split; [|by_eval]. apply (Forall_impl _ _ _ Hprompt). intros c [? _]. unfold is_byte. lia. }
    cbn [mbind option_bind]. rewrite cut_app in Hres by (intros Hi; rewrite Forall_forall in Hprompt; destruct (Hprompt 0 Hi); lia).
    destruct (Z.eqb_spec res 0) as [Er|]; [by apply Hres in Er|done].
Qed.

(** Deleting a character, or a word. *)
Lemma erase_key l r : editing prompt l r →
  ∃ r', delete_char (Z.of_nat (length prompt)) r = Some r' ∧ editing prompt (take (length l - 1) l) r'.
Proof.
  intros He. destruct l as [|d l0] eqn:El.
  { exists r. unfold delete_char. by rewrite (ed_n _ _ _ He). }
  destruct (exists_last (l := l)) as (l' & x & Ex); [by rewrite El|]. rewrite <-El, Ex in He |- *.
  destruct (delete_char_spec _ _ _ _ He) as (r1 & E & He1 & _). exists r1. split; [done|].
  rewrite length_app. cbn [length]. rewrite Nat.add_sub, take_app_length. done.
Qed.

Lemma kill_word_key l r : editing prompt l r →
  ∃ r1 r2, delete_char (Z.of_nat (length prompt)) r = Some r1 ∧
    loop (Datatypes.S (Z.to_nat (rl_n r1))) (erase_word_step (Z.of_nat (length prompt))) r1 = Some r2 ∧
    editing prompt (kill_word l) r2.
Proof.
  intros He. destruct l as [|d l0] eqn:El.
  { exists r, r. unfold delete_char. rewrite (ed_n _ _ _ He). split; [done|]. split; [|done].
    rewrite loop_S. unfold erase_word_step. by rewrite (ed_n _ _ _ He). }
  destruct (exists_last (l := l)) as (l' & x & Ex); [by rewrite El|]. rewrite <-El, Ex in He |- *.
  destruct (delete_char_spec _ _ _ _ He) as (r1 & E & He1 & Hb). exists r1.
  rewrite (ed_n _ _ _ He1), Nat2Z.id. destruct (kill_loop prompt (length l') x l' r1) as (r2 & E2 & He2); [done|done| |].
  { rewrite Hb, (ed_p _ _ _ He1). destruct (ed_buf _ _ _ He) as (rest & -> & _). rewrite <-app_assoc. apply idx_mid. }
  exists r2. split; [done|]. split; [done|]. unfold kill_word. rewrite reverse_snoc. cbn [kill_rev].
  unfold kill_word in He2. destruct (x =? 32); [by rewrite reverse_involutive|done].
Qed.

(** A character that is echoed. *)
Lemma typed_key l r c x rest : editing prompt l r → Z.of_nat (length (l ++ x :: rest)) = CFG_CBSIZE →
  Z.of_nat (length l) < CFG_CBSIZE - 2 → typed c →
  let w := char_cells (length prompt + length (expand (length prompt) l)) c in
  editing prompt (l ++ [c]) (mkRl (l ++ c :: rest) (rl_p r + 1) (rl_n r + 1)
    (Z.of_nat (length prompt + length (expand (length prompt) l) + length w)) (rl_out r ++ w)).
Proof.
  intros He Hsz Hlt Hc w. destruct (echo_cells c (length prompt + length (expand (length prompt) l)) Hc) as [_ Hw].
  rewrite (snoc_at l c rest). assert (length prompt + length (expand (length prompt) l) + length w =
    length prompt + length (expand (length prompt) (l ++ [c])))%nat as -> by (rewrite expand_snoc, length_app; unfold w; lia).
  apply (editing_more prompt r l c rest); [done|done|done| |].
  - rewrite <-Hsz, !length_app. cbn [length]. lia.
  - rewrite show_app. apply shows_add; [apply (ed_shows _ _ _ He)|done|done].
Qed.

(** One key. *)
Lemma read_key l r c : editing prompt l r → key_ok l c →
  ∃ r', read_char env table vtmp ctmp P (Z.of_nat (length prompt)) c r = Some (inl r') ∧ editing prompt (edit l c) r'.
Proof using HC Henv Htable Hvtmp Hctmp Hprompt.
  intros He Hk. assert (c ≠ 13 ∧ c ≠ 10 ∧ c ≠ 3) as (H13 & H10 & H3).
  { destruct Hk as [Hk|[[? _]|[? _]]]; [rewrite !elem_of_cons, elem_of_nil in Hk; lia|lia|lia]. }
  unfold read_char, edit. destruct (Z.eqb_spec c 13), (Z.eqb_spec c 10), (Z.eqb_spec c 3); [done..|]. cbn [orb].
  destruct (Z.eqb_spec c 0); [by exists r|].
  destruct (Z.eqb_spec c 21).
  { destruct He as [Hb Hp Hn Hcol Hs Ht Hl]. rewrite Hcol. destruct (erase_line_spec _ _ _ Hs) as (out & -> & Hs').
    cbn [mbind option_bind]. eexists. split; [done|]. destruct Hb as (rest & Eb & Hsz).
    split; cbn [console_buffer rl_p rl_n rl_col rl_out expand length]; try done; [by exists (console_buffer r); rewrite Eb|lia]. }
  destruct (Z.eqb_spec c 23).
  { destruct (kill_word_key l r He) as (r1 & r2 & -> & E & He2). cbn [mbind option_bind]. rewrite E. by exists r2. }
  destruct ((c =? 8) || (c =? 127)) eqn:Edel.
  { destruct (erase_key l r He) as (r1 & -> & He1). by exists r1. }
  unfold type_char. rewrite (ed_n _ _ _ He).
  destruct (Z.ltb_spec (Z.of_nat (length l)) (CFG_CBSIZE - 2)) as [Hlt|].
  2:{ eexists. cbn [mbind option_bind]. split; [done|]. rewrite <-(ed_n _ _ _ He). by apply show_bell. }
  destruct (editing_room prompt r l He) as (x & rest & Eb & Hsz).
  destruct (Z.eqb_spec c 9) as [->|Hc9].
  - rewrite Eb, (ed_p _ _ _ He). rewrite (upd_at _ l rest x) by done. cbn [mbind option_bind].
    pose proof (tab_key l r x rest He Eb Hsz Hlt Hk) as Htab. rewrite (ed_n _ _ _ He) in Htab.
    destruct (if completes then _ else _) as [text|].
    + destruct Htab as (rest' & out & -> & He'). cbn [mbind option_bind negb Z.eqb]. eexists. split; [done|]. exact He'.
    + rewrite Htab. cbn [mbind option_bind negb Z.eqb].
      destruct (echo_cells 9 (length prompt + length (expand (length prompt) l)) ltac:(by left)) as [Ee Hpr].
      rewrite (ed_col _ _ _ He), Ee. rewrite (upd_at _ l rest 0) by done. cbn [mbind option_bind app].
      eexists. split; [done|]. pose proof (typed_key l r 9 x rest He Hsz Hlt ltac:(by left)) as Ht. cbv zeta in Ht.
      by rewrite (ed_p _ _ _ He), (ed_n _ _ _ He) in Ht.
  - rewrite Eb, (ed_p _ _ _ He). rewrite (upd_at _ l rest x) by done. cbn [mbind option_bind].
    eexists. split; [done|].
    assert (printable c) as Hp.
    { destruct Hk as [Hk|[?|[? _]]]; [|done|done]. rewrite !elem_of_cons, elem_of_nil in Hk. apply orb_false_iff in Edel. lia. }
    pose proof (typed_key l r c x rest He Hsz Hlt ltac:(by right)) as Ht. cbv zeta in Ht.
    rewrite char_cells_printable in Ht by done. cbn [length] in Ht. rewrite (ed_p _ _ _ He), (ed_n _ _ _ He) in Ht.
    rewrite (ed_col _ _ _ He).
    by replace (Z.of_nat (length prompt + length (expand (length prompt) l)) + 1)
      with (Z.of_nat (length prompt + length (expand (length prompt) l) + 1)) by lia.
Qed.

Lemma read_keys keys : ∀ l r more, editing prompt l r → keys_ok l keys →
  ∃ r', read_chars env table vtmp ctmp P (Z.of_nat (length prompt)) (keys ++ more) r =
      read_chars env table vtmp ctmp P (Z.of_nat (length prompt)) more r' ∧ editing prompt (foldl edit l keys) r'.
Proof using HC Henv Htable Hvtmp Hctmp Hprompt.
  induction keys as [|c keys IH]; intros l r more He Hk; [by exists r|]. destruct Hk as [Hc Hk].
  destruct (read_key l r c He Hc) as (r1 & E & He1). destruct (IH _ r1 more He1 Hk) as (r' & E' & He').
  exists r'. split; [|done]. cbn [app read_chars]. rewrite E. cbn [mbind option_bind]. exact E'.
Qed.

Lemma readline_start buf : Z.of_nat (length buf) = CFG_CBSIZE →
  editing prompt [] (mkRl buf 0 0 (Z.of_nat (length prompt)) prompt).
Proof using Hprompt.
  clear Hvtmp Hctmp. intros Hb. split; cbn [console_buffer rl_p rl_n rl_col rl_out expand length].
  - by exists buf.
  - done.
  - done.
  - lia.
  - rewrite (show_cells prompt (mkTerm [] 0) [] 0) by done. split; [exists 0%nat|]; cbn; by rewrite ?app_nil_r.
  - constructor.
  - done.
Qed.

(** The result of a line: the keys amount to [l]. *)
Record line_read (keys rest : list Z) (x : rl * option Z * list Z) : Prop := mkLineRead {
  lr_len : x.1.2 = Some (Z.of_nat (length (foldl edit [] keys)));
  lr_rest : x.2 = rest;
  lr_buf : ∃ tail, console_buffer x.1.1 = foldl edit [] keys ++ 0 :: tail;
  lr_size : Z.of_nat (length (console_buffer x.1.1)) = CFG_CBSIZE;
  lr_typed : Forall typed (foldl edit [] keys);
  lr_length : Z.of_nat (length (foldl edit [] keys)) <= CFG_CBSIZE - 2;
  lr_out : ∃ out, rl_out x.1.1 = out ++ [13; 10] ∧ shows (show out (mkTerm [] 0)) prompt (foldl edit [] keys);
}.

Lemma readline_spec keys e rest buf : Z.of_nat (length buf) = CFG_CBSIZE → keys_ok [] keys → e = 13 ∨ e = 10 →
  ∃ x, readline env table vtmp ctmp (Some P) buf (keys ++ e :: rest) = Some x ∧ line_read keys rest x.
Proof using HC Henv Htable Hvtmp Hctmp Hprompt.
  intros Hbuf Hkeys He. assert (0 ∉ prompt) as Hp0 by (intros Hi; rewrite Forall_forall in Hprompt; destruct (Hprompt 0 Hi); lia).
  unfold readline. rewrite c_strlen_app, cut_app by done. cbn [mbind option_bind].
  destruct (read_keys keys [] _ (e :: rest) (readline_start buf Hbuf) Hkeys) as (r & -> & Hr). set (l := foldl edit [] keys) in *.
  destruct (editing_room _ _ _ Hr) as (x & tail & Eb & Hsz). cbn [read_chars]. unfold read_char.
  assert ((e =? 13) || (e =? 10) = true) as -> by (destruct He as [-> | ->]; done).
  rewrite Eb, (ed_p _ _ _ Hr), (upd_at _ l tail x) by done. cbn [mbind option_bind]. eexists. split; [done|].
  split; fold l; cbn [fst snd console_buffer rl_out]; try done.
  - by exists tail.
  - by rewrite <-Hsz, !length_app.
  - apply (ed_typed _ _ _ Hr).
  - apply (ed_length _ _ _ Hr).
  - exists (rl_out r). split; [done|apply (ed_shows _ _ _ Hr)].
Qed.

(** C18: reading a line from the console.  Whatever is typed, the line that is
    returned is what the keys amount to, with its terminator in the buffer;
    the characters behind the line are left; and until the line is ended the
    terminal shows the prompt and the line, with TABs expanded, the cursor
    behind it. *)
Theorem readline_edits keys e rest buf
    (Hbuf : Z.of_nat (length buf) = CFG_CBSIZE)
    (Hkeys : keys_ok [] keys)
    (He : e = 13 ∨ e = 10) :
  let l := foldl edit [] keys in
  ∃ r out tail, readline env table vtmp ctmp (Some P) buf (keys ++ e :: rest) = Some (r, Some (Z.of_nat (length l)), rest) ∧
    console_buffer r = l ++ 0 :: tail ∧ Z.of_nat (length (console_buffer r)) = CFG_CBSIZE ∧
    rl_out r = out ++ [13; 10] ∧ shows (show out (mkTerm [] 0)) prompt l.
Proof using HC Henv Htable Hvtmp Hctmp Hprompt.
  destruct (readline_spec keys e rest buf Hbuf Hkeys He) as ([[r n] rest'] & -> & [En Er [tail Hb] Hs _ _ [out [Ho Hsh]]]).
  cbn [fst snd] in *. rewrite En, Er. by exists r, out, tail.
Qed.

(** Control-C gives the line up. *)
Lemma readline_break keys rest buf : Z.of_nat (length buf) = CFG_CBSIZE → keys_ok [] keys →
  ∃ r tail, readline env table vtmp ctmp (Some P) buf (keys ++ 3 :: rest) = Some (r, Some (-1), rest) ∧ console_buffer r = 0 :: tail ∧
    Z.of_nat (length (console_buffer r)) = CFG_CBSIZE.
Proof using HC Henv Htable Hvtmp Hctmp Hprompt.
  intros Hbuf Hkeys. assert (0 ∉ prompt) as Hp0 by (intros Hi; rewrite Forall_forall in Hprompt; destruct (Hprompt 0 Hi); lia).
  unfold readline. rewrite c_strlen_app, cut_app by done. cbn [mbind option_bind].
  destruct (read_keys keys [] _ (3 :: rest) (readline_start buf Hbuf) Hkeys) as (r & -> & Hr).
  destruct (ed_buf _ _ _ Hr) as (b & Eb & Hsz). cbn [read_chars]. unfold read_char. cbn [Z.eqb Pos.eqb orb].
  rewrite Eb. destruct (foldl edit [] keys ++ b) as [|x b'] eqn:E; [done|].
  rewrite (upd_at _ [] b' x) by done. cbn [mbind option_bind]. do 2 eexists. split; [done|]. split; [done|].
  exact Hsz.
Qed.
End keys.

(** ** A console *)

#[local] Existing Instance demo_cli.

(** The keys: "ec", TAB, "hi", backspace, "o". *)
Lemma readline_edits_witness :
  ∃ r out tail, readline demo_block demo_table (replicate 512 7) (replicate 256 7) (Some (cut CFG_PROMPT ++ [0])) (replicate 256 9)
      ((str "ec" ++ [9] ++ str "hi" ++ [8] ++ str "o") ++ 13 :: str "more") = Some (r, Some 7, str "more") ∧
    console_buffer r = str "echo ho" ++ 0 :: tail ∧ Z.of_nat (length (console_buffer r)) = CFG_CBSIZE ∧
    rl_out r = out ++ [13; 10] ∧ shows (show out (mkTerm [] 0)) (cut CFG_PROMPT) (str "echo ho").
Proof.
  apply (readline_edits demo_block demo_vars demo_table demo_block_ok demo_commands_ok (replicate 512 7) (replicate 256 7)
    eq_refl eq_refl (cut CFG_PROMPT) ltac:(by_eval) (str "ec" ++ [9] ++ str "hi" ++ [8] ++ str "o") 13 (str "more") (replicate 256 9)).
  - reflexivity.
  - cbn [app str keys_ok]. repeat match goal with |- _ ∧ _ => split end; try exact I;
      try (right; left; by_eval); try (left; by_eval).
    right. right. split; [reflexivity|]. intros _. split; [|by_eval].
    apply (tab_fine_command _ _ _ (str "ec")); [reflexivity|reflexivity|by_eval|by_eval].
  - by left.
Defined.
