(* ===== verification/Idme.v ===== *)
(** [common/cmd_idme.c], [include/idme.h]: the board's non-volatile variables
    ("idme") kept in the first 16 KiB of the eMMC boot partition, with a copy
    in the user area.  The functions run in the state monad of [Eff] over the
    device interface of [MmcDev]; buffers are byte lists with checked
    accesses, C strings as in [CBuf].  The configuration is
    [include/configs/tate.h]. *)
From stdpp Require Import base tactics option list strings.
From Stdlib Require Import ZArith Lia.
From S2P Require Import Prelude.
From S2P Require Import CMem.
From S2P Require Import CString.
From S2P Require Import MmcDev.
From S2P Require Import Eff.
From S2P Require Import CBuf.
Open Scope Z_scope.

(** ** Layout *)

Record nvram_t := mkNvram { name : list Z; offset : Z; size : Z }.

Definition IDME_MAGIC_NUMBER : list Z := lit "beefdeed".
Definition IDME_BASE_ADDR : Z := 8.
Definition CONFIG_MMC_BLOCK_SIZE : Z := 512.
Definition CONFIG_MMC_BOOTFLASH : Z := 1.
Definition CONFIG_IDME_PARTITION_NUM : Z := 1.
Definition CONFIG_USERDATA_IDME_ADDR : Z := 524288.
Definition CONFIG_IDME_SIZE : Z := 16384.
Definition MAX_IDME_VALUE : Z := CONFIG_IDME_SIZE.
Definition BOOT_PARTITION : Z := 1.
Definition USER_PARTITION : Z := 0.
Definition IDME_VERSION_STR : list Z := lit "1.2".
Definition nvram_sig : list Z := lit "adbdefg12345".
Definition nvram_sig_info : nvram_t := mkNvram (lit "writesig") 496 12.
Definition nvram_sig_info_bitmap : nvram_t := mkNvram (lit "writesig_bitmap") 508 4.
Definition PM_SIZE : Z := 16.

Definition nvram_info : list nvram_t := [
  mkNvram (lit "version") 0 4;
  mkNvram (lit "boardid") 4 16;
  mkNvram (lit "serial") 20 16;
  mkNvram (lit "mac") 36 16;
  mkNvram (lit "sec") 52 32;
  mkNvram (lit "bt") 84 16;
  mkNvram (lit "pid") 512 32;
  mkNvram (lit "pid2") 544 32;
  mkNvram (lit "bootmode") 4096 16;
  mkNvram (lit "postmode") 4112 16;
  mkNvram (lit "gyrocal") 100 36;
  mkNvram (lit "camcal") 4128 2560;
  mkNvram (lit "mfg") 6688 512 ].

Definition CONFIG_NUM_NV_VARS : Z := 13.

(** ** Number conversion *)

(** One round of the [do ... while]. *)
Definition itoa_step (x : list Z * Z * Z) : option ((list Z * Z * Z) + (list Z * Z)) :=
  let '(local, p, i) := x in
  local ← upd local p (48 + i mod 10);
  let i := i / 10 in
  Some (if 0 <? i then inl (local, p - 1, i) else inr (local, p - 1)).

(** The string written into [local], from [p + 1] to its NUL at index 21. *)
Definition simple_itoa (i : Z) : option (list Z) :=
  let local := replicate 22 0 in
  local ← upd local 21 0;
  '(local, p) ← loop 23 itoa_step (local, 20, i);
  slice local (p + 1) (21 - (p + 1)).

(** [simple_atoi(s, e)] on the bytes from [s] to [e]; the byte at [e], read by
    the first loop when all digits are zeros, does not matter. *)
Fixpoint skip_zeros (s : list Z) : list Z :=
  match s with
  | x :: s' => if x =? 48 then skip_zeros s' else s
  | [] => []
  end.

Definition simple_atoi (s : list Z) : Z :=
  foldl (λ result c, u32 (u32 (result * 10) + u32 (c - 48))) 0 (skip_zeros s).

(** ** Finding a variable *)

Fixpoint find_var (l : list nvram_t) (nm : list Z) : option (option nvram_t) :=
  match l with
  | [] => Some None
  | nv :: l' =>
      len ← c_strlen (name nv);
      n ← c_strlen nm;
      if n =? len then
        r ← c_strncmp nm (name nv) (Z.to_nat len);
        if r =? 0 then Some (Some nv) else find_var l' nm
      else find_var l' nm
  end.

Definition idme_find_var (nm : list Z) : option (option nvram_t) := find_var nvram_info nm.

(** Copy a variable out of the cached copy; the result and [buf]. *)
Definition idme_get_var_ex (pbuf nm buf : list Z) (buflen : Z) : option (Z * list Z) :=
  nv ← idme_find_var nm;
  match nv with
  | None => Some (-1, buf)
  | Some nv =>
      if buflen <? size nv + 1 then Some (size nv + 1, buf) else
      src ← slice pbuf (offset nv) (size nv);
      buf ← blit buf 0 src;
      Some (0, buf)
  end.

(** [pidme_data] of a buffer. *)
Definition data_of (buf : list Z) : list Z := drop (Z.to_nat IDME_BASE_ADDR) buf.

Definition has_magic (buf : list Z) : option bool :=
  r ← c_strncmp buf IDME_MAGIC_NUMBER 8; Some (r =? 0).

(** ** Default contents *)

Definition default_var (buf : list Z) (nv : nvram_t) : option (list Z) :=
  r ← c_strncmp (name nv) (lit "bootmode") 8;
  if r =? 0 then c_memcpy buf (IDME_BASE_ADDR + offset nv) (lit "2") 1 else
  r ← c_strncmp (name nv) (lit "postmode") 8;
  if r =? 0 then c_memset buf (IDME_BASE_ADDR + offset nv) 0 (size nv)
  else c_memset buf (IDME_BASE_ADDR + offset nv) 48 (size nv).

Fixpoint default_vars (l : list nvram_t) (buf : list Z) : option (list Z) :=
  match l with
  | [] => Some buf
  | nv :: l' => buf ← default_var buf nv; default_vars l' buf
  end.

Definition idme_generate_default_vars (pbuf : list Z) : option (list Z) :=
  pbuf ← c_memset pbuf 0 0 CONFIG_IDME_SIZE;
  pbuf ← c_memcpy pbuf 0 IDME_MAGIC_NUMBER 8;
  nv0 ← idx nvram_info 0;
  pbuf ← c_memcpy pbuf (IDME_BASE_ADDR + offset nv0) IDME_VERSION_STR 3;
  nv1 ← idx nvram_info 1;
  pbuf ← c_memcpy pbuf (IDME_BASE_ADDR + offset nv1) (lit "0000400000000000") 16;
  default_vars (drop 2 nvram_info) pbuf.

(** ** State *)

Record idme (D : Type) := mkIdme {
  dev : D;
  gblock_buff : list Z;         (** [CONFIG_MMC_BLOCK_SIZE] bytes *)
  gidme_buff : list Z;          (** [CONFIG_IDME_SIZE] bytes *)
  gidme_buff_valid : Z;
  board_id : list Z;            (** 17 bytes *)
  board_serial : list Z;        (** 17 bytes *)
}.
Arguments mkIdme {D}.
Arguments dev {D}.
Arguments gblock_buff {D}.
Arguments gidme_buff {D}.
Arguments gidme_buff_valid {D}.
Arguments board_id {D}.
Arguments board_serial {D}.

Section ops.
Context {D : Type} `{MmcDev D}.
#[local] Abbreviation M := (ST (idme D)).

Definition set_dev (d : D) (s : idme D) : idme D :=
  mkIdme d (gblock_buff s) (gidme_buff s) (gidme_buff_valid s) (board_id s) (board_serial s).
Definition set_gblock (g : list Z) (s : idme D) : idme D :=
  mkIdme (dev s) g (gidme_buff s) (gidme_buff_valid s) (board_id s) (board_serial s).
Definition set_gidme (g : list Z) (v : Z) (s : idme D) : idme D :=
  mkIdme (dev s) (gblock_buff s) g v (board_id s) (board_serial s).
Definition set_board_id (g : list Z) (s : idme D) : idme D :=
  mkIdme (dev s) (gblock_buff s) (gidme_buff s) (gidme_buff_valid s) g (board_serial s).
Definition set_board_serial (g : list Z) (s : idme D) : idme D :=
  mkIdme (dev s) (gblock_buff s) (gidme_buff s) (gidme_buff_valid s) (board_id s) g.

(** The device calls, on the boot flash. *)
Definition sw_part (p : Z) : M Z := λ s,
  let '(d, r) := mmc_sw_part (dev s) CONFIG_MMC_BOOTFLASH p in Some (set_dev d s, r).
Definition read_block (block : Z) : M (list Z * Z) := λ s,
  Some (s, mmc_read (dev s) CONFIG_MMC_BOOTFLASH block CONFIG_MMC_BLOCK_SIZE).
Definition write_block (data : list Z) (block : Z) : M Z := λ s,
  let '(d, r) := mmc_write (dev s) CONFIG_MMC_BOOTFLASH data block in Some (set_dev d s, r).

(** [mmc_read(..., gblock_buff, ...)]. *)
Definition read_gblock (block : Z) : M Z :=
  '(data, r) ← read_block block;
  s ← get;
  g ← lift (blit (gblock_buff s) 0 data);
  _ ← modify (set_gblock g);
  mret r.

Definition idme_get_magic_size (buf : list Z) : M (Z * list Z) :=
  sw ← sw_part CONFIG_IDME_PARTITION_NUM;
  if negb (sw =? 1) then mret (-1, buf) else
  ret ← read_gblock 0;
  sw ← sw_part 0;
  if negb (sw =? 1) then mret (-1, buf) else
  if negb (ret =? 1) then mret (ret, buf) else
  s ← get;
  buf ← lift (c_memcpy buf 0 (gblock_buff s) IDME_BASE_ADDR);
  mret (0, buf).

(** [if (is_boot) mmc_sw_part(...)]; 1 when there is nothing to do. *)
Definition sw_if (is_boot p : Z) : M Z :=
  if negb (is_boot =? 0) then sw_part p else mret 1.

Definition start_block (is_boot : Z) : Z :=
  if negb (is_boot =? 0) then 0 else CONFIG_USERDATA_IDME_ADDR / CONFIG_MMC_BLOCK_SIZE.

(** The loops take at most [CONFIG_IDME_SIZE / CONFIG_MMC_BLOCK_SIZE = 32]
    rounds. *)
Definition idme_read (pbuf : list Z) (is_boot : Z) : M (Z * list Z) :=
  sw ← sw_if is_boot CONFIG_IDME_PARTITION_NUM;
  if negb (sw =? 1) then mret (-1, pbuf) else
  '(pbuf, ret) ← mloop 34 (λ '(len, block_addr, pbuf, ret),
    if len <? CONFIG_IDME_SIZE then
      '(data, ret) ← read_block block_addr;
      pbuf ← lift (blit pbuf len data);
      if negb (ret =? 1) then mret (inr (pbuf, ret)) else
      mret (inl (len + CONFIG_MMC_BLOCK_SIZE, block_addr + 1, pbuf, ret))
    else mret (inr (pbuf, ret))) (0, start_block is_boot, pbuf, 0);
  sw ← sw_if is_boot 0;
  if negb (sw =? 1) then mret (-1, pbuf) else
  mret (if negb (ret =? 1) then -1 else 0, pbuf).

Definition idme_write (pbuf : list Z) (is_boot : Z) : M Z :=
  sw ← sw_if is_boot CONFIG_IDME_PARTITION_NUM;
  if negb (sw =? 1) then mret (-1) else
  ret ← mloop 34 (λ '(len, block_addr, ret),
    if len <? CONFIG_IDME_SIZE then
      data ← lift (slice pbuf len CONFIG_MMC_BLOCK_SIZE);
      ret ← write_block data block_addr;
      if negb (ret =? 1) then mret (inr ret) else
      mret (inl (len + CONFIG_MMC_BLOCK_SIZE, block_addr + 1, ret))
    else mret (inr ret)) (0, start_block is_boot, 0);
  sw ← sw_if is_boot 0;
  if negb (sw =? 1) then mret (-1) else
  mret (if negb (ret =? 1) then -1 else 0).

Definition idme_get_var (nm buf : list Z) (buflen : Z) : M (Z * list Z) :=
  buf ← lift (upd buf 0 0);
  nv ← lift (idme_find_var nm);
  match nv with
  | None => mret (-1, buf)
  | Some nv =>
      let block := (offset nv + IDME_BASE_ADDR) / CONFIG_MMC_BLOCK_SIZE in
      let offset := (offset nv + IDME_BASE_ADDR) mod CONFIG_MMC_BLOCK_SIZE in
      let size := size nv in
      sw ← sw_part CONFIG_IDME_PARTITION_NUM;
      if negb (sw =? 1) then mret (-1, buf) else
      ret ← read_gblock block;
      sw ← sw_part 0;
      if negb (sw =? 1) then mret (-1, buf) else
      if negb (ret =? 1) then mret (ret, buf) else
      if buflen <? size + 1 then mret (size + 1, buf) else
      s ← get;
      src ← lift (slice (gblock_buff s) offset size);
      buf ← lift (blit buf 0 src);
      buf ← lift (upd buf size 0);
      mret (0, buf)
  end.

(** The part of [idme_update_var] between the read and the write. *)
Definition new_block (g : list Z) (offset size : Z) (value : option (list Z)) : option (list Z) :=
  g ← c_memset g offset 0 size;
  match value with
  | None => Some g
  | Some v => n ← c_strlen v; c_memcpy g offset v (Z.min size n)
  end.

Definition idme_update_var (nm : list Z) (value : option (list Z)) : M Z :=
  nv ← lift (idme_find_var nm);
  match nv with
  | None => mret (-1)
  | Some nv =>
      let block := (offset nv + IDME_BASE_ADDR) / CONFIG_MMC_BLOCK_SIZE in
      let offset := (offset nv + IDME_BASE_ADDR) mod CONFIG_MMC_BLOCK_SIZE in
      let size := size nv in
      sw ← sw_part CONFIG_IDME_PARTITION_NUM;
      if negb (sw =? 1) then mret (-1) else
      ret ← read_gblock block;
      ret ← (if negb (ret =? 1) then mret ret else
        s ← get;
        g ← lift (new_block (gblock_buff s) offset size value);
        _ ← modify (set_gblock g);
        write_block g block);
      sw ← sw_part 0;
      if negb (sw =? 1) || negb (ret =? 1) then mret (-1) else mret ret
  end.

(** The printed lines, a name and a value each; [value] is the uninitialised
    local buffer. *)
Fixpoint print_ex (l : list nvram_t) (data value : list Z) (out : list (list Z * list Z))
    : option (list (list Z * list Z)) :=
  match l with
  | [] => Some out
  | nv :: l' =>
      r ← idme_get_var_ex data (name nv) value MAX_IDME_VALUE;
      let '(ret, value) := r in
      if ret =? 0 then
        value ← upd value (size nv) 0;
        print_ex l' data value (out ++ [(name nv, cut value)])
      else Some out
  end.

Definition idme_print_vars_ex (value : list Z) : M (Z * list (list Z * list Z)) :=
  let buffer := replicate (Z.to_nat CONFIG_IDME_SIZE) 0 in
  '(r, buffer) ← idme_read buffer BOOT_PARTITION;
  if negb (r =? 0) then mret (-1, []) else
  magic ← lift (has_magic buffer);
  if negb magic then mret (-1, []) else
  out ← lift (print_ex nvram_info (data_of buffer) value []);
  mret (0, out).

Fixpoint print_vars (l : list nvram_t) (value : list Z) (out : list (list Z * list Z))
    : M (list (list Z * list Z)) :=
  match l with
  | [] => mret out
  | nv :: l' =>
      '(r, value) ← idme_get_var (name nv) value MAX_IDME_VALUE;
      if r =? 0 then
        value ← lift (upd value (size nv) 0);
        print_vars l' value (out ++ [(name nv, cut value)])
      else mret out
  end.

Definition idme_print_vars (value : list Z) : M (Z * list (list Z * list Z)) :=
  '(r, value) ← idme_get_magic_size value;
  if negb (r =? 0) then mret (-1, []) else
  magic ← lift (has_magic value);
  if negb magic then mret (-1, []) else
  out ← print_vars nvram_info value [];
  mret (0, out).

Definition idme_clean : M Z :=
  let buffer := replicate (Z.to_nat CONFIG_IDME_SIZE) 0 in
  _ ← idme_write buffer USER_PARTITION;
  _ ← idme_write buffer BOOT_PARTITION;
  mret 0.

Definition idme_write_magic_size : M Z :=
  s ← get;
  g ← lift (c_memset (gblock_buff s) 0 0 CONFIG_MMC_BLOCK_SIZE);
  g ← lift (c_memcpy g 0 IDME_MAGIC_NUMBER 8);
  _ ← modify (set_gblock g);
  sw ← sw_part CONFIG_IDME_PARTITION_NUM;
  if negb (sw =? 1) then mret (-1) else
  ret ← write_block g 0;
  sw ← sw_part 0;
  if negb (sw =? 1) || negb (ret =? 1) then mret (-1) else mret 0.

(** The loop of [idme_update_vars_ex]: bit [i] of the bitmap selects the
    variable [i]. *)
Fixpoint copy_selected (l : list nvram_t) (i bitmap : Z) (user boot : list Z) : option (list Z) :=
  match l with
  | [] => Some boot
  | nv :: l' =>
      boot ← (if negb (Z.land bitmap (Z.shiftl 1 i) =? 0) then
                src ← slice user (IDME_BASE_ADDR + offset nv) (size nv);
                blit boot (IDME_BASE_ADDR + offset nv) src
              else Some boot);
      copy_selected l' (i + 1) bitmap user boot
  end.

Definition idme_update_vars_ex : M Z :=
  let zeros := replicate (Z.to_nat CONFIG_IDME_SIZE) 0 in
  '(r, buffer) ← idme_read zeros USER_PARTITION;
  if negb (r =? 0) then mret (-1) else
  '(r, boot_buffer) ← idme_read zeros BOOT_PARTITION;
  if negb (r =? 0) then mret (-1) else
  magic ← lift (has_magic buffer);
  if negb magic then mret (-1) else
  sig ← lift (slice buffer (IDME_BASE_ADDR + offset nvram_sig_info) (size nvram_sig_info));
  want ← lift (slice nvram_sig 0 (size nvram_sig_info));
  if c_memcmp sig want =? 0 then
    bm ← lift (slice buffer (IDME_BASE_ADDR + offset nvram_sig_info_bitmap) 4);
    boot_buffer ← lift (copy_selected nvram_info 0 (le_val bm) buffer boot_buffer);
    buffer ← lift (c_memset buffer (IDME_BASE_ADDR + offset nvram_sig_info) 0 (size nvram_sig_info));
    buffer ← lift (blit buffer (IDME_BASE_ADDR + offset nvram_sig_info_bitmap) (le_bytes 4 0));
    r ← idme_write boot_buffer BOOT_PARTITION;
    if negb (r =? 0) then mret (-1) else
    r ← idme_write buffer USER_PARTITION;
    if negb (r =? 0) then mret (-1) else mret 0
  else mret 0.

Definition idme_load : M Z :=
  s ← get;
  '(r, buf) ← idme_read (gidme_buff s) BOOT_PARTITION;
  _ ← modify (set_gidme buf (gidme_buff_valid s));
  if negb (r =? 0) then mret (-1) else
  magic ← lift (has_magic buf);
  buf ← lift (if negb magic then idme_generate_default_vars buf else Some buf);
  _ ← modify (set_gidme buf 1);
  mret 0.

(** ** Selecting the boot image *)

Definition pdkernel : list Z := lit "dkernel".
Definition precovery : list Z := lit "recovery".
Definition GPIO_VOL_UP_KEY : Z := 1.
Definition GPIO_VOL_DN_KEY : Z := 50.

(** [ENABLE_RECOVERY_KEY] is defined, [ENABLE_DIAG_KEY] and
    [ENABLE_FASTBOOT_KEY] are not. *)
Definition idme_select_bootmode_by_key (gpio : Z → Z) (ptn : list Z) : list Z :=
  let val_vol_up := gpio GPIO_VOL_UP_KEY in
  let val_vol_down := gpio GPIO_VOL_DN_KEY in
  if (val_vol_up =? 0) && negb (val_vol_down =? 0) then precovery else ptn.

(** The body of the loop of [idme_select_boot_image] over the variables;
    [bootmode] is the local array with the stack bytes that follow it. *)
Definition select_var (nv : nvram_t) (x : list Z * list Z) : M (list Z * list Z) :=
  let '(buffer, bootmode) := x in
  r ← lift (c_strncmp (name nv) (lit "bootmode") 8);
  if r =? 0 then
    src ← lift (slice buffer (IDME_BASE_ADDR + offset nv) (size nv));
    bootmode ← lift (blit bootmode 0 src);
    bootmode ← lift (upd bootmode (size nv + 1) 0);
    mret (buffer, bootmode)
  else
    r ← lift (c_strncmp (name nv) (lit "postmode") 8);
    if r =? 0 then
      let boot_count := 1 in
      buffer ← lift (blit buffer (IDME_BASE_ADDR + offset nv) (le_bytes 4 boot_count));
      _ ← idme_update_var (lit "postmode") (Some (drop (Z.to_nat (IDME_BASE_ADDR + offset nv)) buffer));
      mret (buffer, bootmode)
    else mret (buffer, bootmode).

Definition idme_select_boot_image (gpio : Z → Z) (stack ptn : list Z) : M (Z * list Z) :=
  '(r, buffer) ← idme_read (replicate (Z.to_nat CONFIG_IDME_SIZE) 0) BOOT_PARTITION;
  if negb (r =? 0) then mret (-1, ptn) else
  magic ← lift (has_magic buffer);
  buffer ← (if negb magic then
      buffer ← lift (idme_generate_default_vars buffer);
      _ ← idme_write buffer BOOT_PARTITION;
      mret buffer
    else mret buffer);
  _ ← idme_write buffer USER_PARTITION;
  bootmode ← lift (c_memset stack 0 0 16);
  '(buffer, bootmode) ← mfor nvram_info select_var (buffer, bootmode);
  b ← lift (idx bootmode 0);
  ptn ← (if b =? 49 then mret ptn
    else if b =? 50 then mret pdkernel
    else if b =? 51 then mret precovery
    else if b =? 54 then mret pdkernel
    else if b =? 55 then _ ← idme_update_var (lit "bootmode") (Some (lit "1")); mret precovery
    else mret ptn);
  mret (0, idme_select_bootmode_by_key gpio ptn).

Fixpoint find_bootmode (l : list nvram_t) (buffer bootmode : list Z) (val : Z) : option Z :=
  match l with
  | [] => Some val
  | nv :: l' =>
      r ← c_strncmp (name nv) (lit "bootmode") 8;
      if r =? 0 then
        src ← slice buffer (IDME_BASE_ADDR + offset nv) (size nv);
        bootmode ← blit bootmode 0 src;
        bootmode ← upd bootmode (size nv + 1) 0;
        b ← idx bootmode 0;
        find_bootmode l' buffer bootmode (b - 48)
      else find_bootmode l' buffer bootmode val
  end.

Definition getbootmode (stack : list Z) : M Z :=
  '(r, buffer) ← idme_read (replicate (Z.to_nat CONFIG_IDME_SIZE) 0) BOOT_PARTITION;
  if negb (r =? 0) then mret (-1) else
  bootmode ← lift (c_memset stack 0 0 16);
  lift (find_bootmode nvram_info buffer bootmode (-1)).

(** [CONFIG_IDME_UPDATE] is not defined. *)
Definition idme_check_update : M Z := mret 0.

Definition idme_boot_count : M Z :=
  let postmode_buf := replicate 17 0 in
  '(r, postmode_buf) ← idme_get_var (lit "postmode") postmode_buf 17;
  if r =? 0 then
    postmode_buf ← lift (upd postmode_buf PM_SIZE 0);
    postmode_buf ← lift (blit postmode_buf 0 (le_bytes 4 1));
    _ ← idme_update_var (lit "postmode") (Some postmode_buf);
    mret 0
  else mret 0.

(** ** Board information *)

Definition is_valid_board_info (info : list Z) (max_len : Z) : option Z :=
  loop (S (Z.to_nat max_len)) (λ i,
    if i <? max_len then
      c ← idx info i;
      Some (if c =? 0 then inr 1
            else if (c <? 48) && (57 <? c) && (c <? 65) && (90 <? c) then inr 0
            else inl (i + 1))
    else Some (inr 1)) 0.

Definition idme_get_board_id : M (list Z) :=
  s ← get;
  let sz := Z.of_nat (length (board_id s)) in
  id ← lift (c_memset (board_id s) 0 0 sz);
  '(r, id) ← idme_get_var (lit "boardid") id sz;
  id ← lift (if negb (r =? 0) then id ← c_memset id 0 48 (sz - 1); upd id sz 0 else Some id);
  v ← lift (is_valid_board_info id sz);
  id ← lift (if v =? 0 then id ← c_memset id 0 48 (sz - 1); upd id sz 0 else Some id);
  id ← lift (upd id 16 0);
  _ ← modify (set_board_id id);
  mret id.

Definition idme_get_board_serial : M (list Z) :=
  s ← get;
  let sz := Z.of_nat (length (board_serial s)) in
  id ← lift (c_memset (board_serial s) 0 0 sz);
  '(r, id) ← idme_get_var (lit "serial") id sz;
  id ← lift (if negb (r =? 0) then id ← c_memset id 0 48 (sz - 1); upd id sz 0 else Some id);
  v ← lift (is_valid_board_info id sz);
  id ← lift (if v =? 0 then id ← c_memset id 0 48 (sz - 1); upd id sz 0 else Some id);
  id ← lift (upd id 16 0);
  _ ← modify (set_board_serial id);
  mret id.

(** The chain of board name prefixes: the text written before the revision,
    [None] for an unknown board. *)
Definition board_prefix (pBd : list Z) : option (option (list Z)) :=
  let has s n k := r ← c_strncmp pBd (lit s) n; (k (r =? 0) : option (option (list Z))) in
  has "000" 3%nat (λ b, if b then Some <$> c_strncpy (lit "Bowser-") 7 else
  has "001" 3%nat (λ b, if b then Some <$> c_strncpy (lit "Jem-PreEVT2-") 12 else
  has "801" 3%nat (λ b1, has "802" 3%nat (λ b2,
    if b1 || b2 then Some <$> c_strncpy (lit "Jem-PostEVT2-") 9 else
  has "002" 3%nat (λ b, if b then Some <$> c_strncpy (lit "Tate-PreEVT2.1-") 15 else
  has "80304" 5%nat (λ b, if b then Some <$> c_strncpy (lit "Tate-PostEVT2.1-") 16 else
  has "80305" 5%nat (λ b, if b then Some <$> c_strncpy (lit "Tate-PostEVT2.1-") 16 else
  has "80306" 5%nat (λ b, if b then Some <$> c_strncpy (lit "Tate-EVT3HS2-") 13 else
  has "80307" 5%nat (λ b, if b then Some <$> c_strncpy (lit "Tate-DVT-") 9 else
  has "80308" 5%nat (λ b, if b then Some <$> c_strncpy (lit "Tate-PVT-") 9 else
  has "804" 3%nat (λ b, if b then Some <$> c_strncpy (lit "Radley-") 7 else
  Some None)))))))))))%string.

(** [bt] is the caller's buffer, [None] the null pointer. *)
Definition idme_get_board_type_rev_string (bt : option (list Z)) : M (Z * option (list Z)) :=
  pBd ← idme_get_board_id;
  b0 ← lift (idx pBd 0);
  match bt with
  | None => lift None
  | Some bt =>
      pre ← (if negb (b0 =? 0) then lift (board_prefix pBd) else mret None);
      match pre with
      | Some w =>
          bt ← lift (blit bt 0 w);
          rev ← lift (c_strncpy (drop 3 pBd) 2);
          bt ← lift (blit bt (Z.of_nat (length w)) rev);
          mret (0, Some bt)
      | None =>
          w ← lift (c_strncpy (lit "unknown") 7);
          bt ← lift (blit bt 0 w);
          mret (0, Some bt)
      end
  end.

(** ** Commands *)

(** [cmdtp] is null when called from [fastboot_idme]; [usage] is then read
    through the null pointer. *)
Definition do_idme (cmdtp : option unit) (junk : list Z) (argc : Z) (argv : list (list Z)) : M Z :=
  q ← (if argc =? 1 then mret true else
       a ← lift (idx argv 1); r ← lift (c_strncmp a (lit "?") 1); mret (r =? 0));
  if (q : bool) then '(r, _) ← idme_print_vars_ex junk; mret r else
  if argc <=? 3 then
    a ← lift (idx argv 1);
    if argc =? 3 then v ← lift (idx argv 2); idme_update_var a (Some v)
    else if argc =? 2 then
      r ← lift (c_strncmp a (lit "version") 7);
      if r =? 0 then idme_update_var a (Some IDME_VERSION_STR) else
      r ← lift (c_strncmp a (lit "magic") 5);
      if r =? 0 then idme_write_magic_size else
      r ← lift (c_strncmp a (lit "clean") 5);
      if r =? 0 then idme_clean else
      r ← lift (c_strncmp a (lit "count") 5);
      if r =? 0 then idme_boot_count else
      idme_update_var a None
    else idme_update_var a None
  else
    _ ← lift cmdtp;
    mret 1.

(** The value tokens that follow the name: the last one wins, [i] counts. *)
Fixpoint more_tokens (fuel : nat) (cursor : option (list Z)) (value : list Z) (i : Z)
    : option (list Z * Z) :=
  match fuel with
  | O => None
  | S fuel' =>
      match c_strtok (str " ") cursor with
      | (Some t, cursor) => value ← blit value 0 (t ++ [0]); more_tokens fuel' cursor value (i + 1)
      | (None, _) => Some (value, i)
      end
  end.

(** [ver] and [value] are the two uninitialised 32-byte locals. *)
Definition fastboot_idme (junk ver value cmd : list Z) : M Z :=
  let '(token, cursor) := c_strtok (str " ") (Some (cut cmd)) in
  let text := match token with Some t => t | None => str "<NULL>" end in
  ver ← lift (blit ver 0 (text ++ [0]));
  '(value, i) ← (match token with
    | Some _ => lift (more_tokens (S (length cmd)) cursor value 2)
    | None => mret (value, 2)
    end);
  do_idme None junk i [lit "idme"; ver; value].
End ops.
