(* ===== verification/IdmeSpec.v ===== *)
(** Correctness of the idme variables ([Idme]): round trip and frame of a
    variable update, the transfer from the user area, the selection of the
    boot image, the partition that is left selected, number conversion. *)
From stdpp Require Import base tactics option list strings gmap.
From Stdlib Require Import ZArith Lia.
From S2P Require Import Prelude.
From S2P Require Import CMem.
From S2P Require Import CString.
From S2P Require Import MmcDev.
From S2P Require Import Eff.
From S2P Require Import CBuf.
From S2P Require Import Idme.
Open Scope Z_scope.

(** ** Device steps under [wp] *)

Definition blk (nv : nvram_t) : Z := (offset nv + IDME_BASE_ADDR) / CONFIG_MMC_BLOCK_SIZE.
Definition off (nv : nvram_t) : Z := (offset nv + IDME_BASE_ADDR) mod CONFIG_MMC_BLOCK_SIZE.

(** The variable lies inside one block. *)
Definition fits (nv : nvram_t) : Prop := off nv + size nv <= 512.
#[export] Instance fits_dec nv : Decision (fits nv).
Proof. unfold fits. apply _. Defined.

Section steps.
Context {D : Type} `{MmcLaws D} (Hrel : reliable D).
Implicit Types (s : idme D).

Definition part (s : idme D) (p : Z) : disk := contents (dev s) 1 p.
Definition sel (s : idme D) : Z := selected (dev s) 1.

Lemma wp_sw_part p s (Q : idme D → Z → Prop) :
  (∀ d, selected d 1 = p → (∀ q n, contents d 1 q n = part s q n) → Q (set_dev d s) 1) →
  wp (sw_part p) s Q.
Proof using Hrel.
  intros HQ. unfold wp, sw_part, CONFIG_MMC_BOOTFLASH. destruct Hrel as (_ & _ & Hsw).
  pose proof (Hsw (dev s) 1 p) as Hr. pose proof (sw_contents (dev s) 1 p) as Hc.
  destruct (mmc_sw_part (dev s) 1 p) as [d r] eqn:E. cbn in *. subst r.
  apply HQ; [by eapply sw_ok|done].
Qed.

Lemma wp_read_block b s (Q : idme D → list Z * Z → Prop) :
  Q s (part s (sel s) b, 1) → wp (read_block b) s Q.
Proof using Hrel.
  intros HQ. unfold wp, read_block, CONFIG_MMC_BOOTFLASH, CONFIG_MMC_BLOCK_SIZE.
  destruct Hrel as (Hrd & _ & _). pose proof (Hrd (dev s) 1 b) as Hr.
  destruct (mmc_read (dev s) 1 b 512) as [l r] eqn:E. cbn in *. subst r.
  by rewrite (read_ok _ _ _ _ E).
Qed.

Lemma wp_write_block l b s (Q : idme D → Z → Prop) :
  (length l mod 512 = 0)%nat →
  (∀ d, selected d 1 = sel s →
    (∀ n, contents d 1 (sel s) n = write_sectors (part s (sel s)) b l n) →
    (∀ q n, q ≠ sel s → contents d 1 q n = part s q n) → Q (set_dev d s) 1) →
  wp (write_block l b) s Q.
Proof using Hrel.
  intros Hl HQ. unfold wp, write_block, CONFIG_MMC_BOOTFLASH. destruct Hrel as (_ & Hwr & _).
  pose proof (Hwr (dev s) 1 l b) as Hr. pose proof (write_selected (dev s) 1 l b) as Hs.
  pose proof (λ q, write_other (dev s) 1 l b q) as Ho.
  destruct (mmc_write (dev s) 1 l b) as [d r] eqn:E. cbn in *. subst r.
  apply HQ; [done|by eapply write_ok|by intros; apply Ho].
Qed.

Lemma wp_read_gblock b s (Q : idme D → Z → Prop) :
  length (gblock_buff s) = 512%nat →
  Q (set_gblock (part s (sel s) b) s) 1 → wp (read_gblock b) s Q.
Proof using Hrel.
  intros Hg HQ. unfold read_gblock. apply wp_bind, wp_read_block. repeat wp_step.
  eapply wp_lift.
  { apply blit_Some; [lia|]. unfold part. rewrite contents_size. lia. }
  repeat wp_step. unfold part in *. rewrite contents_size. change (take (Z.to_nat 0) _) with (@nil Z).
  rewrite drop_ge, app_nil_r by lia. done.
Qed.

Lemma part_length s p b n : length (sectors (part s p) b n) = (512 * n)%nat.
Proof. apply sectors_len. intros i. apply contents_size. Qed.
End steps.

Lemma sectors_ext dk dk' b n :
  (∀ i, b <= i < b + Z.of_nat n → dk i = dk' i) → sectors dk b n = sectors dk' b n.
Proof.
  revert b. induction n as [|n IH]; intros b Hd; [done|]. cbn [sectors].
  f_equal; [apply Hd; lia|]. apply IH. intros i Hi. apply Hd. lia.
Qed.

Lemma sectors_snoc dk b n : sectors dk b (S n) = sectors dk b n ++ dk (b + Z.of_nat n).
Proof.
  revert b. induction n as [|n IH]; intros b.
  - cbn. by rewrite app_nil_r, Z.add_0_r.
  - change (sectors dk b (S (S n))) with (dk b ++ sectors dk (b + 1) (S n)). rewrite IH.
    cbn [sectors]. rewrite <-app_assoc. do 3 f_equal. lia.
Qed.

(** Reading back what was written. *)
Lemma sectors_write dk b n l :
  length l = (512 * n)%nat → sectors (write_sectors dk b l) b n = l.
Proof.
  intros Hl.
  assert (∀ k j, (j + k = n)%nat → sectors (write_sectors dk b l) (b + Z.of_nat j) k = drop (512 * j) l) as HS.
  { induction k as [|k IH]; intros j Hj.
    - symmetry. apply drop_ge. lia.
    - cbn [sectors]. replace (b + Z.of_nat j + 1) with (b + Z.of_nat (S j)) by lia.
      rewrite IH by lia. unfold write_sectors. rewrite Hl.
      replace (Z.of_nat (512 * n) / 512) with (Z.of_nat n) by dm_lia.
      destruct (Z.leb_spec b (b + Z.of_nat j)), (Z.ltb_spec (b + Z.of_nat j) (b + Z.of_nat n));
        try lia. cbn [andb].
      replace (Z.to_nat (512 * (b + Z.of_nat j - b))) with (512 * j)%nat by lia.
      replace (drop (512 * S j) l) with (drop 512 (drop (512 * j) l))
        by (rewrite drop_drop; f_equal; lia). apply take_drop. }
  specialize (HS n 0%nat eq_refl). by rewrite Z.add_0_r, Nat.mul_0_r, drop_0 in HS.
Qed.

Section ops_spec.
Context {D : Type} `{MmcLaws D} (Hrel : reliable D).
Implicit Types (s : idme D).

(** The partitions are as before; the user partition is selected. *)
Definition same_parts (s s' : idme D) : Prop := ∀ p n, part s' p n = part s p n.

(** The caches are as before. *)
Definition same_cache (s s' : idme D) : Prop :=
  gblock_buff s' = gblock_buff s ∧ gidme_buff s' = gidme_buff s ∧
  gidme_buff_valid s' = gidme_buff_valid s ∧ board_id s' = board_id s ∧
  board_serial s' = board_serial s.

Definition start (is_boot : Z) : Z := if negb (is_boot =? 0) then 0 else 1024.
Definition pnum (is_boot : Z) : Z := if negb (is_boot =? 0) then 1 else 0.

Lemma start_block_eq is_boot : start_block is_boot = start is_boot.
Proof. unfold start_block, start. by destruct (negb _). Qed.

Lemma wp_sw_if is_boot p s (Q : idme D → Z → Prop) :
  (∀ s', sel s' = (if negb (is_boot =? 0) then p else sel s) → same_parts s s' → same_cache s s' → Q s' 1) →
  wp (sw_if is_boot p) s Q.
Proof using Hrel.
  intros HQ. unfold sw_if. destruct (negb (is_boot =? 0)).
  - apply wp_sw_part; [done|]. intros d Hd Hp. apply HQ; [done|done|done].
  - apply wp_ret, HQ; done.
Qed.

Definition read_inv (s0 : idme D) (dk : disk) (b : Z) (buf0 : list Z) (s : idme D)
    (x : Z * Z * list Z * Z) : Prop :=
  let '(len, block_addr, buf, ret) := x in
  s = s0 ∧ ∃ k : nat, (k <= 32)%nat ∧ len = 512 * Z.of_nat k ∧ block_addr = b + Z.of_nat k ∧
    buf = sectors dk b k ++ drop (512 * k) buf0 ∧ (k ≠ 0%nat → ret = 1).

Definition read_mu (x : Z * Z * list Z * Z) : nat :=
  let '(len, block_addr, buf, ret) := x in (32 - Z.to_nat (len / 512))%nat.

Lemma idme_read_spec buf is_boot s :
  Z.of_nat (length buf) = 16384 → (is_boot = 0 → sel s = 0) →
  wp (idme_read buf is_boot) s (λ s' r, r = (0, sectors (part s (pnum is_boot)) (start is_boot) 32) ∧
    sel s' = 0 ∧ same_parts s s' ∧ same_cache s s').
Proof using Hrel.
  intros Hl Hsel. unfold idme_read. apply wp_bind, wp_sw_if. intros s1 Hs1 Hp1 Hc1. cbn [negb Z.eqb Pos.eqb].
  assert (sel s1 = pnum is_boot) as Hsel1.
  { rewrite Hs1. unfold pnum. destruct (Z.eqb_spec is_boot 0); cbn [negb]; [auto|done]. }
  apply wp_bind. eapply wp_mono.
  { eapply (wp_loop _ (read_inv s1 (part s1 (pnum is_boot)) (start is_boot) buf) read_mu
      (λ s' r, s' = s1 ∧ r = (sectors (part s1 (pnum is_boot)) (start is_boot) 32, 1))).
    - intros s2 [[[len ba] b] ret] (-> & k & Hk & -> & -> & -> & Hret).
      unfold CONFIG_IDME_SIZE. destruct (Z.ltb_spec (512 * Z.of_nat k) 16384).
      + apply wp_bind, wp_read_block; [done|]. rewrite Hsel1. cbn beta iota. apply wp_bind.
        assert (length (sectors (part s1 (pnum is_boot)) (start is_boot) k) = (512 * k)%nat) as Hsl
          by apply part_length.
        assert (length (part s1 (pnum is_boot) (start is_boot + Z.of_nat k)) = 512%nat) as Hpl
          by apply contents_size.
        eapply wp_lift.
        { apply blit_Some; [lia|]. rewrite length_app, length_drop, Hsl, Hpl. lia. }
        cbn [negb Z.eqb Pos.eqb]. apply wp_ret. split.
        * split; [done|]. exists (S k). unfold CONFIG_MMC_BLOCK_SIZE. split_and!; try lia.
          rewrite sectors_snoc. replace (Z.to_nat (512 * Z.of_nat k)) with (512 * k)%nat by lia.
          rewrite take_app_le, take_ge by lia. rewrite drop_app_ge by lia.
          rewrite drop_drop, Hsl, Hpl, <-app_assoc. do 3 f_equal. lia.
        * unfold read_mu, CONFIG_MMC_BLOCK_SIZE.
          replace (512 * Z.of_nat k + 512) with (Z.of_nat (S k) * 512) by lia.
          replace (512 * Z.of_nat k) with (Z.of_nat k * 512) by lia. rewrite !Z.div_mul by lia. lia.
      + apply wp_ret. assert (k = 32%nat) as -> by lia. split; [done|]. rewrite Hret by done.
        f_equal. rewrite drop_ge by lia. by rewrite app_nil_r.
    - split; [done|]. exists 0%nat. rewrite start_block_eq. split_and!; try lia.
      change (buf = [] ++ drop 0 buf). by rewrite drop_0.
    - unfold read_mu. cbn. lia. }
  cbn beta. intros s2 r [-> ->]. apply wp_bind, wp_sw_if. intros s3 Hs3 Hp3 Hc3. cbn [negb Z.eqb Pos.eqb].
  apply wp_ret. split_and!.
  - f_equal. apply sectors_ext. intros. apply Hp1.
  - rewrite Hs3. destruct (Z.eqb_spec is_boot 0) as [->|]; cbn [negb] in *; [|done].
    rewrite Hs1. by apply Hsel.
  - intros p n. rewrite Hp3. apply Hp1.
  - unfold same_cache in *. intuition congruence.
Qed.

Definition write_inv (s0 : idme D) (p b : Z) (buf : list Z) (s : idme D) (x : Z * Z * Z) : Prop :=
  let '(len, block_addr, ret) := x in
  sel s = p ∧ same_cache s0 s ∧ (∀ q n, q ≠ p → part s q n = part s0 q n) ∧
  ∃ k : nat, (k <= 32)%nat ∧ len = 512 * Z.of_nat k ∧ block_addr = b + Z.of_nat k ∧
    (∀ n, part s p n = write_sectors (part s0 p) b (take (512 * k) buf) n) ∧ (k ≠ 0%nat → ret = 1).

Definition write_mu (x : Z * Z * Z) : nat :=
  let '(len, block_addr, ret) := x in (32 - Z.to_nat (len / 512))%nat.

Definition write_post (s : idme D) (p b : Z) (buf : list Z) (s' : idme D) : Prop :=
  sel s' = 0 ∧ same_cache s s' ∧ (∀ q n, q ≠ p → part s' q n = part s q n) ∧
  (∀ n, part s' p n = write_sectors (part s p) b buf n).

Lemma idme_write_spec buf is_boot s :
  Z.of_nat (length buf) = 16384 → (is_boot = 0 → sel s = 0) →
  wp (idme_write buf is_boot) s (λ s' r, r = 0 ∧ write_post s (pnum is_boot) (start is_boot) buf s').
Proof using Hrel.
  intros Hl Hsel. unfold idme_write. apply wp_bind, wp_sw_if. intros s1 Hs1 Hp1 Hc1. cbn [negb Z.eqb Pos.eqb].
  assert (sel s1 = pnum is_boot) as Hsel1.
  { rewrite Hs1. unfold pnum. destruct (Z.eqb_spec is_boot 0); cbn [negb]; [auto|done]. }
  apply wp_bind. eapply wp_mono.
  { eapply (wp_loop _ (write_inv s1 (pnum is_boot) (start is_boot) buf) write_mu
      (λ s' r, r = 1 ∧ sel s' = pnum is_boot ∧ same_cache s1 s' ∧
        (∀ q n, q ≠ pnum is_boot → part s' q n = part s1 q n) ∧
        (∀ n, part s' (pnum is_boot) n = write_sectors (part s1 (pnum is_boot)) (start is_boot) buf n))).
    - intros s2 [[len ba] ret] (Hsel2 & Hc2 & Ho2 & k & Hk & -> & -> & Hp2 & Hret).
      unfold CONFIG_IDME_SIZE. destruct (Z.ltb_spec (512 * Z.of_nat k) 16384).
      + apply wp_bind. unfold CONFIG_MMC_BLOCK_SIZE. eapply wp_lift; [apply slice_Some; lia|].
        replace (Z.to_nat (512 * Z.of_nat k)) with (512 * k)%nat by lia.
        change (Z.to_nat 512) with 512%nat.
        apply wp_bind, wp_write_block; [done|by rewrite length_take, length_drop, Nat.min_l by lia|].
        intros d Hd1 Hd2 Hd3. cbn [negb Z.eqb Pos.eqb]. apply wp_ret. rewrite Hsel2 in *. split.
        * split; [done|]. split; [done|]. split; [intros q n Hq; unfold part at 1; cbn [dev set_dev]; by rewrite Hd3, Ho2|].
          exists (S k). split_and!; try lia. intros n. unfold part at 1. cbn [dev set_dev]. rewrite Hd2.
          replace (512 * S k)%nat with (512 * k + 512)%nat by lia.
          rewrite <-(take_drop (512 * k) (take (512 * k + 512) buf)).
          rewrite take_take, Nat.min_l, <-take_drop_commute by lia.
          rewrite (write_sectors_app _ _ (take (512 * k) buf)) by
            (rewrite length_take, Nat.min_l, Nat.mul_comm, Nat.Div0.mod_mul by lia; done).
          rewrite length_take, Nat.min_l by lia.
          replace (Z.of_nat (512 * k) / 512) with (Z.of_nat k) by dm_lia.
          apply write_sectors_proper. intros m. apply Hp2.
        * unfold write_mu. replace (512 * Z.of_nat k + 512) with (Z.of_nat (S k) * 512) by lia.
          replace (512 * Z.of_nat k) with (Z.of_nat k * 512) by lia. rewrite !Z.div_mul by lia. lia.
      + apply wp_ret. assert (k = 32%nat) as -> by lia. rewrite take_ge in Hp2 by lia. auto.
    - split; [done|]. split; [done|]. split; [done|]. exists 0%nat. rewrite start_block_eq.
      split_and!; try lia. intros n. rewrite Nat.mul_0_r, take_0. symmetry. apply write_sectors_nil.
    - unfold write_mu. cbn. lia. }
  cbn beta. intros s2 r (-> & Hs2 & Hc2 & Ho2 & Hp2). apply wp_bind, wp_sw_if.
  intros s3 Hs3 Hp3 Hc3. cbn [negb Z.eqb Pos.eqb]. apply wp_ret. split; [done|]. split_and!.
  - rewrite Hs3. unfold pnum in *. destruct (Z.eqb_spec is_boot 0) as [->|]; cbn [negb] in *; congruence.
  - unfold same_cache in *. intuition congruence.
  - intros q n Hq. rewrite Hp3, Ho2 by done. apply Hp1.
  - intros n. rewrite Hp3, Hp2. apply write_sectors_proper. intros m. apply Hp1.
Qed.
End ops_spec.

(** ** Updating and reading one variable *)

(** The value a variable of [sz] bytes gets from the C string [v]. *)
Definition padded (sz : Z) (v : list Z) : list Z :=
  take (Z.to_nat sz) (cut v) ++ replicate (Z.to_nat sz - length (cut v)) 0.

Lemma padded_length sz v : 0 <= sz → Z.of_nat (length (padded sz v)) = sz.
Proof. intros. unfold padded. rewrite length_app, length_take, length_replicate. lia. Qed.

Lemma new_block_spec g o sz v :
  0 <= o → 0 <= sz → o + sz <= Z.of_nat (length g) → 0 ∈ v →
  new_block g o sz (Some v) =
    Some (take (Z.to_nat o) g ++ padded sz v ++ drop (Z.to_nat (o + sz)) g).
Proof.
  intros Ho Hsz Hl Hv. unfold new_block, c_memset.
  rewrite blit_Some by (rewrite ?length_replicate; lia). cbn [mbind option_bind].
  assert (∃ n, c_strlen v = Some n) as [n Hn].
  { clear -Hv. induction v as [|x v IH]; [by apply not_elem_of_nil in Hv|]. cbn.
    destruct (Z.eqb_spec x 0); [eauto|]. apply elem_of_cons in Hv as [|Hv]; [done|].
    destruct (IH Hv) as [k ->]. cbn. eauto. }
  rewrite Hn. cbn [mbind option_bind]. destruct (c_strlen_cut v n Hn) as [-> Hc].
  unfold c_memcpy. pose proof (f_equal length Hc) as Hcl. rewrite length_app in Hcl. cbn in Hcl.
  rewrite slice_Some by lia. cbn [mbind option_bind]. change (Z.to_nat 0) with 0%nat.
  rewrite drop_0. set (k := Z.to_nat (Z.min sz (Z.of_nat (length (cut v))))).
  assert (take k v = take (Z.to_nat sz) (cut v)) as ->.
  { rewrite Hc at 1. rewrite take_app_le by lia.
    destruct (decide (Z.of_nat (length (cut v)) <= sz)).
    - rewrite !take_ge by lia. done.
    - f_equal. lia. }
  rewrite blit_Some; [|lia|].
  2:{ rewrite !length_app, !length_take, length_drop, length_replicate. lia. }
  f_equal. rewrite take_app_le by (rewrite length_take; lia). rewrite take_take, Nat.min_id.
  f_equal. unfold padded. rewrite <-app_assoc. f_equal.
  rewrite length_take, length_replicate.
  rewrite drop_app_ge by (rewrite length_take; lia). rewrite length_take.
  rewrite drop_app. rewrite length_replicate, drop_replicate, drop_drop.
  f_equal; [f_equal; lia|f_equal; lia].
Qed.

Section var_spec.
Context {D : Type} `{MmcLaws D} (Hrel : reliable D).
Implicit Types (s : idme D).

Definition upd_post (s : idme D) (b : Z) (g : list Z) (s' : idme D) : Prop :=
  (∀ n, part s' 1 n = if n =? b then g else part s 1 n) ∧
  (∀ p n, p ≠ 1 → part s' p n = part s p n) ∧ sel s' = 0 ∧
  length (gblock_buff s') = 512%nat ∧ board_id s' = board_id s ∧ board_serial s' = board_serial s.

Lemma update_spec nm nv value s g' :
  length (gblock_buff s) = 512%nat → idme_find_var nm = Some (Some nv) →
  new_block (part s 1 (blk nv)) (off nv) (size nv) value = Some g' → length g' = 512%nat →
  wp (idme_update_var nm value) s (λ s' r, r = 1 ∧ upd_post s (blk nv) g' s').
Proof using Hrel.
  intros Hg Hnv Hnb Hg'. unfold idme_update_var. rewrite Hnv. repeat wp_step.
  fold (blk nv) (off nv). apply wp_sw_part; [done|]. intros d1 Hd1 Hp1. cbn [negb Z.eqb Pos.eqb].
  apply wp_bind, wp_read_gblock; [done|done|]. unfold sel, part at 1. cbn [dev set_dev].
  unfold CONFIG_IDME_PARTITION_NUM in Hd1. rewrite Hd1, Hp1. cbn [negb Z.eqb Pos.eqb].
  repeat wp_step. cbn [gblock_buff set_gblock]. eapply wp_lift; [done|]. repeat wp_step.
  apply wp_write_block; [done|by rewrite Hg'|]. unfold sel, part. cbn [dev set_gblock set_dev].
  rewrite Hd1. intros d2 Hd2 Hw2 Ho2. apply wp_bind, wp_sw_part; [done|]. intros d3 Hd3 Hp3.
  cbn [negb Z.eqb Pos.eqb orb]. apply wp_ret. split; [done|]. unfold upd_post, part, sel.
  cbn [dev set_gblock set_dev gblock_buff board_id board_serial].
  unfold part in Hp3. cbn [dev set_dev] in Hp3. split_and!; try done.
  - intros n. rewrite Hp3, Hw2. unfold write_sectors. rewrite Hg'. change (Z.of_nat 512 / 512) with 1.
    destruct (Z.leb_spec (blk nv) n), (Z.ltb_spec n (blk nv + 1)), (Z.eqb_spec n (blk nv)); cbn [andb];
      try lia; try (apply Hp1).
    subst n. rewrite Z.sub_diag. change (Z.to_nat (512 * 0)) with 0%nat. rewrite drop_0. apply take_ge. lia.
  - intros p n Hp. rewrite Hp3, Ho2 by done. apply Hp1.
Qed.

Definition var_of (s : idme D) (nv : nvram_t) : list Z :=
  take (Z.to_nat (size nv)) (drop (Z.to_nat (off nv)) (part s 1 (blk nv))).

Lemma get_spec nm nv buf buflen s :
  length (gblock_buff s) = 512%nat → idme_find_var nm = Some (Some nv) → fits nv →
  0 <= off nv → 0 < size nv < buflen → buflen <= Z.of_nat (length buf) →
  wp (idme_get_var nm buf buflen) s (λ s' r,
    r = (0, var_of s nv ++ 0 :: drop (Z.to_nat (size nv + 1)) buf) ∧
    same_parts s s' ∧ sel s' = 0 ∧ length (gblock_buff s') = 512%nat ∧
    board_id s' = board_id s ∧ board_serial s' = board_serial s).
Proof using Hrel.
  intros Hg Hnv Hfit Ho Hsz Hbuf. unfold idme_get_var, fits in *. apply wp_bind.
  eapply wp_lift; [apply upd_Some; lia|]. rewrite Hnv. repeat wp_step.
  fold (blk nv) (off nv). apply wp_sw_part; [done|]. intros d1 Hd1 Hp1. cbn [negb Z.eqb Pos.eqb].
  unfold CONFIG_IDME_PARTITION_NUM in Hd1.
  apply wp_bind, wp_read_gblock; [done|done|]. unfold sel, part at 1. cbn [dev set_dev].
  rewrite Hd1, Hp1. cbn [negb Z.eqb Pos.eqb].
  apply wp_bind, wp_sw_part; [done|]. intros d2 Hd2 Hp2. cbn [negb Z.eqb Pos.eqb].
  destruct (Z.ltb_spec buflen (size nv + 1)); [lia|]. repeat wp_step.
  cbn [gblock_buff set_gblock set_dev].
  assert (length (part s 1 (blk nv)) = 512%nat) as Hpl by apply contents_size.
  eapply wp_lift; [apply slice_Some; lia|]. fold (var_of s nv).
  assert (Z.of_nat (length (var_of s nv)) = size nv) as Hvl.
  { unfold var_of. rewrite length_take, length_drop. lia. }
  repeat wp_step. eapply wp_lift; [apply blit_Some; rewrite ?length_insert; lia|].
  repeat wp_step. change (take (Z.to_nat 0) _) with (@nil Z). change (Z.to_nat 0) with 0%nat.
  cbn [app Nat.add]. eapply wp_lift.
  { apply upd_Some. rewrite length_app, length_drop, length_insert. lia. }
  apply wp_ret. split; [|split_and!; try done].
  - f_equal. replace (Z.to_nat (size nv)) with (length (var_of s nv) + 0)%nat by lia.
    rewrite insert_app_r. f_equal.
    destruct (drop (length (var_of s nv)) (<[0%nat:=0]> buf)) as [|x r] eqn:E.
    { apply (f_equal length) in E. rewrite length_drop, length_insert in E. cbn in E. lia. }
    cbn. f_equal. apply (f_equal (drop 1)) in E. rewrite drop_drop in E. cbn [drop] in E. rewrite drop_0 in E.
    rewrite <-E, drop_insert_lt by lia. f_equal. lia.
  - intros p n. unfold part at 1. cbn [dev set_dev set_gblock]. rewrite Hp2. unfold part at 1.
    cbn [dev set_dev set_gblock]. apply Hp1.
Qed.
End var_spec.

(** The variables that fit are pairwise disjoint. *)
Definition disjoint (a b : nvram_t) : Prop :=
  blk a ≠ blk b ∨ off a + size a <= off b ∨ off b + size b <= off a.
#[export] Instance disjoint_dec a b : Decision (disjoint a b).
Proof. unfold disjoint. apply _. Defined.

Lemma table_layout :
  Forall (λ i, Forall (λ j, ∀ a b, nvram_info !! i = Some a → nvram_info !! j = Some b → i ≠ j →
    fits a → fits b → disjoint a b) (seq 0 13)) (seq 0 13).
Proof.
  repeat (apply Forall_cons; split; [|]); try apply Forall_nil_2;
    repeat (apply Forall_cons; split; [|]); try apply Forall_nil_2;
    intros a b Ha Hb Hij Hfa Hfb; injection Ha as <-; injection Hb as <-;
    first [done | apply (bool_decide_unpack _); vm_compute; exact I |
      exfalso; revert Hfa; apply (bool_decide_unpack (¬ _)); vm_compute; exact I |
      exfalso; revert Hfb; apply (bool_decide_unpack (¬ _)); vm_compute; exact I].
Qed.

(** Looking up the name of a table entry finds that entry ("pid" and "pid2"
    included). *)
Lemma find_table i nv : nvram_info !! i = Some nv → idme_find_var (name nv) = Some (Some nv).
Proof. intros Hi. do 13 (destruct i as [|i]; [by injection Hi as <-|]). done. Qed.

Lemma table_disjoint i j a b :
  nvram_info !! i = Some a → nvram_info !! j = Some b → i ≠ j → fits a → fits b → disjoint a b.
Proof.
  intros Ha Hb Hij. pose proof (lookup_lt_Some _ _ _ Ha) as Hi. pose proof (lookup_lt_Some _ _ _ Hb) as Hj.
  pose proof table_layout as HT. rewrite Forall_forall in HT.
  specialize (HT i ltac:(apply elem_of_seq; cbn in Hi |- *; lia)). rewrite Forall_forall in HT.
  specialize (HT j ltac:(apply elem_of_seq; cbn in Hj |- *; lia)). by apply HT.
Qed.

Lemma table_sizes i nv : nvram_info !! i = Some nv → 0 < size nv ∧ 0 <= off nv.
Proof. intros Hi. do 13 (destruct i as [|i]; [by injection Hi as <-; by_eval|]). done. Qed.

Section roundtrip.
Context {D : Type} `{MmcLaws D}.

Lemma var_after (s s' : idme D) nv nv' v g' i j :
  nvram_info !! i = Some nv → nvram_info !! j = Some nv' → fits nv → fits nv' →
  g' = take (Z.to_nat (off nv)) (part s 1 (blk nv)) ++ padded (size nv) v ++
       drop (Z.to_nat (off nv + size nv)) (part s 1 (blk nv)) →
  upd_post s (blk nv) g' s' →
  var_of s' nv' = if decide (i = j) then padded (size nv) v else var_of s nv'.
Proof.
  intros Hi Hj Hf Hf' -> (Hb & _). unfold var_of. rewrite Hb.
  destruct (table_sizes i nv Hi) as [Hsz Ho]. destruct (table_sizes j nv' Hj) as [Hsz' Ho'].
  assert (length (part s 1 (blk nv)) = 512%nat) as Hl by apply contents_size.
  pose proof (padded_length (size nv) v ltac:(lia)) as Hpl. unfold fits in *.
  destruct (decide (i = j)) as [<-|Hij].
  - rewrite Hi in Hj. injection Hj as <-. rewrite Z.eqb_refl.
    rewrite drop_app_ge by (rewrite length_take; lia). rewrite length_take.
    rewrite drop_app_le by lia. replace (Z.to_nat (off nv) - _)%nat with 0%nat by lia.
    rewrite drop_0. apply take_app_length'. lia.
  - destruct (Z.eqb_spec (blk nv') (blk nv)) as [E|]; [|done]. rewrite E.
    destruct (table_disjoint i j nv nv' Hi Hj Hij Hf Hf') as [|[Hd|Hd]]; [congruence| |].
    + rewrite app_assoc, drop_app_ge; rewrite length_app, length_take; [|lia].
      rewrite drop_drop. do 2 f_equal. lia.
    + rewrite drop_app_le by (rewrite length_take; lia).
      rewrite take_app_le by (rewrite length_drop, length_take; lia).
      rewrite <-(take_drop (Z.to_nat (off nv)) (part s 1 (blk nv))) at 2.
      rewrite drop_app_le by (rewrite length_take; lia).
      by rewrite take_app_le by (rewrite length_drop, length_take; lia).
Qed.

(** C23: setting a variable and reading any variable back: the one that was
    set holds the new value, cut or padded with NULs to its size; every other
    variable keeps its value; the user area is untouched and the user
    partition is selected again. *)
Theorem update_get (s : idme D) i j nv nv' v buf
    (Hrel : reliable D) (Hg : length (gblock_buff s) = 512%nat)
    (Hi : nvram_info !! i = Some nv) (Hj : nvram_info !! j = Some nv')
    (Hf : fits nv) (Hf' : fits nv') (Hv : 0 ∈ v)
    (Hbuf : size nv' < Z.of_nat (length buf)) :
  wp (r ← idme_update_var (name nv) (Some v);
      '(q, b) ← idme_get_var (name nv') buf (Z.of_nat (length buf));
      mret (r, q, b)) s
    (λ s' x, x.1 = (1, 0) ∧
      take (Z.to_nat (size nv')) x.2 =
        (if decide (i = j) then padded (size nv) v else var_of s nv') ∧
      sel s' = 0 ∧ ∀ n, part s' 0 n = part s 0 n).
Proof.
  destruct (table_sizes i nv Hi) as [Hsz Ho]. destruct (table_sizes j nv' Hj) as [Hsz' Ho'].
  assert (length (part s 1 (blk nv)) = 512%nat) as Hl by apply contents_size.
  apply wp_bind. eapply wp_mono.
  { eapply update_spec; [done|done|by eapply find_table| |].
    - apply new_block_spec; try lia; [|done]. rewrite Hl. exact Hf.
    - unfold fits in *. rewrite !length_app, length_take, length_drop.
      pose proof (padded_length (size nv) v ltac:(lia)). lia. }
  cbn beta. intros s1 r [-> Hpost]. apply wp_bind. eapply wp_mono.
  { eapply get_spec; [done|apply Hpost|by eapply find_table|done|done|lia|lia]. }
  cbn beta. intros s2 x (-> & Hsame & Hsel & _). apply wp_ret. cbn [fst snd].
  pose proof (var_after s s1 nv nv' v _ i j Hi Hj Hf Hf' eq_refl Hpost) as Hvar.
  destruct Hpost as (_ & Ho1 & _). split_and!; [done| |done|].
  - rewrite <-Hvar. apply take_app_length'. unfold var_of.
    rewrite length_take, length_drop. unfold part. rewrite contents_size. unfold fits in *. lia.
  - intros n. rewrite Hsame. by apply Ho1.
Qed.
End roundtrip.

(** A board with empty partitions. *)
#[local] Definition blank : idme ram :=
  mkIdme (mkRam ∅ ∅) (replicate 512 0) [] 0 (replicate 17 0) (replicate 17 0).

Lemma update_get_witness :
  wp (r ← idme_update_var (lit "mac") (Some (lit "A4C138"));
      '(q, b) ← idme_get_var (lit "serial") (replicate 20 7) 20;
      mret (r, q, b)) blank
    (λ s' x, x.1 = (1, 0) ∧ take 16 x.2 = var_of blank (mkNvram (lit "serial") 20 16) ∧
      sel s' = 0 ∧ ∀ n, part s' 0 n = part blank 0 n).
Proof.
  apply (update_get blank 3 2 (mkNvram (lit "mac") 36 16) (mkNvram (lit "serial") 20 16)
    (lit "A4C138") (replicate 20 7)); [exact ram_reliable|reflexivity..|by_eval|by_eval|by_eval|reflexivity].
Defined.

(** ** The transfer from the user area ([idme_update_vars_ex]) *)

Definition region (nv : nvram_t) (l : list Z) : option (list Z) :=
  slice l (IDME_BASE_ADDR + offset nv) (size nv).

Definition apart (a b : nvram_t) : Prop :=
  offset a + size a <= offset b ∨ offset b + size b <= offset a.
#[export] Instance apart_dec a b : Decision (apart a b).
Proof. unfold apart. apply _. Defined.

(** Every entry lies in the 16 KiB and the entries are pairwise apart. *)
Definition well_placed (l : list nvram_t) : Prop :=
  Forall (λ nv, 0 <= offset nv ∧ 0 <= size nv ∧ IDME_BASE_ADDR + offset nv + size nv <= 16384) l ∧
  ForallOrdPairs apart l.

Lemma nvram_info_placed : well_placed nvram_info.
Proof.
  split; [by_eval|].
  repeat (apply FOP_cons; [by_eval|]). apply FOP_nil.
Qed.

Lemma region_Some nv l :
  0 <= offset nv → 0 <= size nv → IDME_BASE_ADDR + offset nv + size nv <= Z.of_nat (length l) →
  is_Some (region nv l).
Proof. unfold region, IDME_BASE_ADDR. intros. rewrite slice_Some by lia. eauto. Qed.

Lemma blit_region_other nv nv' l src l' :
  blit l (IDME_BASE_ADDR + offset nv) src = Some l' → Z.of_nat (length src) = size nv →
  apart nv nv' → region nv' l' = region nv' l.
Proof.
  intros Hb Hs Ha. unfold region. eapply slice_blit_other; [done|]. unfold apart in Ha. lia.
Qed.

(** Which variables the bitmap selects. *)
Definition selected_by (bitmap : Z) (i : nat) : bool := Z.testbit bitmap (Z.of_nat i).

Lemma land_shiftl_1 bm i : 0 <= i → (negb (Z.land bm (Z.shiftl 1 i) =? 0)) = Z.testbit bm i.
Proof.
  intros Hi. destruct (Z.testbit bm i) eqn:E.
  - destruct (Z.eqb_spec (Z.land bm (Z.shiftl 1 i)) 0) as [E0|]; [|done].
    apply (f_equal (λ z, Z.testbit z i)) in E0. rewrite Z.land_spec, Z.shiftl_spec, E, Z.sub_diag in E0 by lia.
    by rewrite Z.bits_0 in E0.
  - replace (Z.land bm (Z.shiftl 1 i)) with 0; [done|]. symmetry. apply Z.bits_inj'. intros j Hj.
    rewrite Z.land_spec, Z.shiftl_spec, Z.bits_0 by done.
    destruct (Z.eq_dec j i) as [->|Hne]; [by rewrite E|].
    destruct (Z.lt_ge_cases j i); [by rewrite (Z.testbit_neg_r 1), andb_false_r by lia|].
    replace 1 with (2 ^ 0) by done. rewrite (Z.pow2_bits_false 0) by lia. apply andb_false_r.
Qed.

Lemma copy_selected_spec l (i : nat) bm user boot :
  well_placed l → (16384 <= Z.of_nat (length user)) → Z.of_nat (length boot) = 16384 →
  ∃ boot', copy_selected l (Z.of_nat i) bm user boot = Some boot' ∧ length boot' = length boot ∧
    (∀ k nv, l !! k = Some nv →
       region nv boot' = if selected_by bm (i + k) then region nv user else region nv boot) ∧
    (∀ o n, Forall (λ nv, o + n <= IDME_BASE_ADDR + offset nv ∨
       IDME_BASE_ADDR + offset nv + size nv <= o) l → slice boot' o n = slice boot o n).
Proof.
  revert i boot. induction l as [|nv l IH]; intros i boot [Hp Ho] Hu Hb.
  - exists boot. split_and!; try done.
  - apply Forall_cons in Hp as [(Hn1 & Hn2 & Hn3) Hp]. inversion Ho as [|? ? Hap Ho']; subst.
    cbn [copy_selected]. rewrite land_shiftl_1 by lia.
    assert (∃ b1, (if Z.testbit bm (Z.of_nat i) then
        src ← slice user (IDME_BASE_ADDR + offset nv) (size nv);
        blit boot (IDME_BASE_ADDR + offset nv) src else Some boot) = Some b1 ∧
      length b1 = length boot ∧
      region nv b1 = (if selected_by bm (i + 0) then region nv user else region nv boot) ∧
      (∀ nv', apart nv nv' → region nv' b1 = region nv' boot) ∧
      (∀ o n, (o + n <= IDME_BASE_ADDR + offset nv ∨ IDME_BASE_ADDR + offset nv + size nv <= o) →
         slice b1 o n = slice boot o n)) as (b1 & -> & Hl1 & Hr1 & Ho1 & Hs1).
    { rewrite Nat.add_0_r. unfold selected_by. destruct (Z.testbit bm (Z.of_nat i)); [|by exists boot].
      destruct (region_Some nv user Hn1 Hn2) as [src Hsrc]; [lia|]. unfold region in Hsrc.
      rewrite Hsrc. cbn [mbind option_bind]. pose proof (slice_length _ _ _ _ Hsrc) as Hsl.
      unfold IDME_BASE_ADDR in *.
      destruct (blit boot (8 + offset nv) src) as [b1|] eqn:E; [|rewrite blit_Some in E by lia; done].
      exists b1. split; [done|]. split; [by eapply blit_length|]. split_and!.
      - unfold region, IDME_BASE_ADDR. rewrite Hsrc, <-Hsl. by eapply slice_blit_same.
      - intros nv' Ha. by eapply blit_region_other.
      - intros o n Hon. eapply slice_blit_other; [done|]. lia. }
    cbn [mbind option_bind]. replace (Z.of_nat i + 1) with (Z.of_nat (S i)) by lia.
    destruct (IH (S i) b1) as (boot' & E & Hl & Hk & Hs); [by split|done|lia|].
    exists boot'. split; [done|]. split; [lia|]. split.
    + intros [|k] nv' Hnv'.
      * injection Hnv' as <-. rewrite <-Hr1. unfold region. apply Hs.
        eapply Forall_impl; [exact Hap|]. unfold apart. intros. lia.
      * rewrite (Hk k nv' Hnv'). replace (i + S k)%nat with (S i + k)%nat by lia.
        rewrite (Ho1 nv'); [done|]. rewrite Forall_forall in Hap. apply Hap.
        by eapply list_elem_of_lookup_2.
    + intros o n Hon. apply Forall_cons in Hon as [Hn Hon]. rewrite Hs by done. by apply Hs1.
Qed.

Lemma has_magic_spec buf :
  (8 <= length buf)%nat → bytes buf → has_magic buf = Some (bool_decide (take 8 buf = str "beefdeed")).
Proof.
  intros Hl Hb. unfold has_magic.
  destruct (c_strncmp_prefix (str "beefdeed") [0] buf 8) as (r & E & Hr);
    [by_eval|by_eval|done|done|lia|].
  change IDME_MAGIC_NUMBER with (str "beefdeed" ++ [0]). rewrite E. cbn [mbind option_bind]. f_equal.
  destruct (Z.eqb_spec r 0); [rewrite bool_decide_eq_true_2|rewrite bool_decide_eq_false_2]; tauto.
Qed.

Section transfer.
Context {D : Type} `{MmcLaws D}.
Implicit Types (s : idme D).

Definition user_area s : list Z := sectors (part s 0) 1024 32.
Definition boot_area s : list Z := sectors (part s 1) 0 32.

Definition magic_ok (buf : list Z) : Prop := take 8 buf = str "beefdeed".
Definition sig_ok (buf : list Z) : Prop := slice buf 504 12 = Some (str "adbdefg12345").
Definition bitmap_of (buf : list Z) : Z := le_val (default [] (slice buf 516 4)).

#[export] Instance magic_ok_dec buf : Decision (magic_ok buf).
Proof. unfold magic_ok. apply _. Defined.
#[export] Instance sig_ok_dec buf : Decision (sig_ok buf).
Proof. unfold sig_ok. apply _. Defined.

(** The boot area gets exactly the variables the bitmap selects. *)
Definition transferred (bm : Z) (user boot boot' : list Z) : Prop :=
  (∀ k nv, nvram_info !! k = Some nv →
     region nv boot' = if selected_by bm k then region nv user else region nv boot) ∧
  (∀ o n, Forall (λ nv, o + n <= IDME_BASE_ADDR + offset nv ∨
     IDME_BASE_ADDR + offset nv + size nv <= o) nvram_info → slice boot' o n = slice boot o n).

(** The request is cleared in the user area, nothing else changes there. *)
Definition cleared (user user' : list Z) : Prop :=
  slice user' 504 12 = Some (replicate 12 0) ∧ slice user' 516 4 = Some (replicate 4 0) ∧
  ∀ o n, (o + n <= 504 ∨ 520 <= o) → slice user' o n = slice user o n.

Definition ex_post s s' (r : Z) : Prop :=
  sel s' = 0 ∧
  if decide (magic_ok (user_area s)) then
    r = 0 ∧
    if decide (sig_ok (user_area s)) then
      transferred (bitmap_of (user_area s)) (user_area s) (boot_area s) (boot_area s') ∧
      cleared (user_area s) (user_area s')
    else same_parts s s'
  else r = -1 ∧ same_parts s s'.

Lemma area_length s p b : Z.of_nat (length (sectors (part s p) b 32)) = 16384.
Proof. rewrite part_length. done. Qed.

(** The bytes the two final stores leave in the user area. *)
Lemma clear_request (u : list Z) :
  Z.of_nat (length u) = 16384 →
  ∃ u1 u2, c_memset u (IDME_BASE_ADDR + offset nvram_sig_info) 0 (size nvram_sig_info) = Some u1 ∧
    blit u1 (IDME_BASE_ADDR + offset nvram_sig_info_bitmap) (le_bytes 4 0) = Some u2 ∧
    Z.of_nat (length u2) = 16384 ∧ cleared u u2 ∧ (bytes u → bytes u2).
Proof.
  intros Hl. unfold c_memset.
  change (IDME_BASE_ADDR + offset nvram_sig_info) with 504.
  change (IDME_BASE_ADDR + offset nvram_sig_info_bitmap) with 516.
  change (replicate (Z.to_nat (size nvram_sig_info)) 0) with (replicate 12 0).
  change (le_bytes 4 0) with (replicate 4 0).
  destruct (blit u 504 (replicate 12 0)) as [u1|] eqn:E1; [|by rewrite blit_Some in E1 by (cbn; lia)].
  pose proof (blit_length _ _ _ _ E1) as L1.
  destruct (blit u1 516 (replicate 4 0)) as [u2|] eqn:E2; [|by rewrite blit_Some in E2 by (cbn; lia)].
  pose proof (blit_length _ _ _ _ E2) as L2. exists u1, u2. split; [done|]. split; [done|].
  split; [lia|]. split; [split; [|split]|].
  - rewrite (slice_blit_other _ _ _ _ 504 12 E2) by (cbn; lia). apply (slice_blit_same _ _ _ _ E1).
  - apply (slice_blit_same _ _ _ _ E2).
  - intros o n Hon. rewrite (slice_blit_other _ _ _ _ o n E2) by (cbn; lia).
    apply (slice_blit_other _ _ _ _ o n E1). cbn. lia.
  - intros Hu. eapply blit_bytes; [exact E2| |by_eval]. eapply blit_bytes; [exact E1|done|by_eval].
Qed.

Lemma write_sectors_bytes dk b l n :
  bytes l → (∀ i, bytes (dk i)) → bytes (write_sectors dk b l n).
Proof. intros Hl Hd. unfold write_sectors. destruct (_ && _); auto using bytes_take, bytes_drop. Qed.

Lemma wp_has_magic s buf (Q : idme D → bool → Prop) :
  Z.of_nat (length buf) = 16384 → bytes buf →
  Q s (bool_decide (magic_ok buf)) → wp (lift (has_magic buf)) s Q.
Proof. intros Hl Hb HQ. eapply wp_lift; [|done]. apply has_magic_spec; [lia|done]. Qed.

Lemma update_vars_ex_spec s :
  reliable D → sel s = 0 → (∀ n, bytes (part s 0 n)) →
  wp idme_update_vars_ex s (λ s' r, ex_post s s' r ∧ ∀ n, bytes (part s' 0 n)).
Proof.
  intros Hrel Hsel Hb. unfold idme_update_vars_ex.
  assert (Z.of_nat (length (replicate (Z.to_nat CONFIG_IDME_SIZE) 0)) = 16384) as Hz
    by (rewrite length_replicate; done).
  set (zeros := replicate _ _) in *. clearbody zeros. cbv zeta.
  apply wp_bind. eapply wp_mono; [by apply idme_read_spec|].
  cbn beta. intros s1 x (-> & Hs1 & Hp1 & Hc1). cbn [negb Z.eqb Pos.eqb].
  apply wp_bind. eapply wp_mono; [by apply idme_read_spec|].
  cbn beta. intros s2 x (-> & Hs2 & Hp2 & Hc2). cbn [negb Z.eqb Pos.eqb].
  change (pnum USER_PARTITION) with 0. change (pnum BOOT_PARTITION) with 1.
  change (start USER_PARTITION) with 1024. change (start BOOT_PARTITION) with 0.
  fold (user_area s).
  assert (sectors (part s1 1) 0 32 = boot_area s) as -> by (apply sectors_ext; intros; apply Hp1).
  assert (Z.of_nat (length (user_area s)) = 16384) as Hlu by apply area_length.
  assert (Z.of_nat (length (boot_area s)) = 16384) as Hlb by apply area_length.
  assert (same_parts s s2) as Hp12 by (intros p n; rewrite Hp2; apply Hp1).
  apply wp_bind, wp_has_magic; [done|by apply sectors_bytes|]. unfold ex_post.
  destruct (decide (magic_ok (user_area s))) as [Hm|Hm];
    [rewrite bool_decide_eq_true_2 by done|rewrite bool_decide_eq_false_2 by done];
    cbn [negb]; [|by apply wp_ret; split; [done|]; intros n; rewrite Hp12].
  change (IDME_BASE_ADDR + offset nvram_sig_info) with 504 in *.
  change (size nvram_sig_info) with 12.
  apply wp_bind. eapply wp_lift; [apply slice_Some; lia|].
  assert (slice nvram_sig 0 12 = Some (str "adbdefg12345")) as -> by done. repeat wp_step.
  assert (sig_ok (user_area s) ↔ take (Z.to_nat 12) (drop (Z.to_nat 504) (user_area s)) = str "adbdefg12345") as Hsig.
  { unfold sig_ok. rewrite slice_Some by lia. split; [by intros [=]|by intros ->]. }
  unfold c_memcmp. pose proof (first_diff_zero
    (take (Z.to_nat 12) (drop (Z.to_nat 504) (user_area s))) (str "adbdefg12345")) as Hfd.
  destruct (Z.eqb_spec (first_diff (take (Z.to_nat 12) (drop (Z.to_nat 504) (user_area s)))
    (str "adbdefg12345")) 0) as [E0|E0].
  2:{ apply wp_ret. split; [|intros n; by rewrite Hp12]. split; [done|]. split; [done|]. destruct (decide (sig_ok (user_area s))) as [Hs|]; [|done].
      exfalso. apply E0, Hfd; [|by apply Hsig].
      rewrite length_take, length_drop. change (length (str "adbdefg12345")) with 12%nat. lia. }
  assert (sig_ok (user_area s)) as Hok.
  { apply Hsig, Hfd; [|done]. rewrite length_take, length_drop.
    change (length (str "adbdefg12345")) with 12%nat. lia. }
  destruct (decide (sig_ok (user_area s))) as [_|]; [|done].
  change (IDME_BASE_ADDR + offset nvram_sig_info_bitmap) with 516 in *.
  apply wp_bind. eapply wp_lift; [apply slice_Some; lia|].
  assert (le_val (take (Z.to_nat 4) (drop (Z.to_nat 516) (user_area s))) = bitmap_of (user_area s)) as ->.
  { unfold bitmap_of. by rewrite slice_Some by lia. }
  destruct (copy_selected_spec nvram_info 0 (bitmap_of (user_area s)) (user_area s) (boot_area s)
    nvram_info_placed) as (boot' & Ec & Hlc & Hk & Hrest); [lia|done|].
  apply wp_bind. eapply wp_lift; [exact Ec|].
  destruct (clear_request (user_area s) Hlu) as (u1 & u2 & E1 & E2 & L2 & Hcl & Hbu).
  specialize (Hbu (sectors_bytes (part s 0) 1024 32 Hb)).
  change (IDME_BASE_ADDR + offset nvram_sig_info) with 504 in E1. change (size nvram_sig_info) with 12 in E1.
  apply wp_bind. eapply wp_lift; [exact E1|]. apply wp_bind. eapply wp_lift; [exact E2|].
  apply wp_bind. eapply wp_mono; [apply idme_write_spec; [done|lia|done]|].
  cbn beta. intros s3 r (-> & Hs3 & Hc3 & Ho3 & Hw3). cbn [negb Z.eqb].
  apply wp_bind. eapply wp_mono; [apply idme_write_spec; [done|lia|done]|].
  cbn beta. intros s4 r (-> & Hs4 & Hc4 & Ho4 & Hw4). cbn [negb Z.eqb]. apply wp_ret.
  assert (∀ n, part s3 0 n = part s 0 n) as Hp3.
  { intros n. rewrite Ho3 by done. apply Hp12. }
  split.
  2:{ intros n. change (pnum USER_PARTITION) with 0 in Hw4. rewrite Hw4. apply write_sectors_bytes; [done|].
      intros i. by rewrite Hp3. }
  split; [done|]. split; [done|].
  assert (boot_area s4 = boot') as ->.
  { rewrite <-(sectors_write (part s2 1) 0 32 boot') by lia. apply sectors_ext. intros i _.
    rewrite Ho4 by done. apply Hw3. }
  assert (user_area s4 = u2) as ->; [|done].
  rewrite <-(sectors_write (part s3 0) 1024 32 u2) by lia. apply sectors_ext. intros i _. apply Hw4.
Qed.
End transfer.

Section transfer_thms.
Context {D : Type} `{MmcLaws D}.
Implicit Types (s : idme D).

(** [idme_update_vars_ex] transfers from the user area to the boot area
    exactly the variables selected by the bitmap, and only when the user area
    carries the magic number and the signature; it then erases the request.
    In every other case nothing changes. *)
Theorem update_vars_ex_correct s
    (Hrel : reliable D) (Hsel : sel s = 0) (Hb : ∀ n, bytes (part s 0 n)) :
  wp idme_update_vars_ex s (λ s' r, ex_post s s' r).
Proof. eapply wp_mono; [by apply update_vars_ex_spec|]. by intros s' r []. Qed.

Lemma slice_take_eq (l l' : list Z) o n :
  slice l' o n = slice l o n → 0 <= o → 0 <= n → o + n <= Z.of_nat (length l) →
  length l = length l' →
  take (Z.to_nat n) (drop (Z.to_nat o) l') = take (Z.to_nat n) (drop (Z.to_nat o) l).
Proof. intros E H1 H2 H3 H4. rewrite !slice_Some in E by lia. by injection E. Qed.

(** A request is carried out once: running [idme_update_vars_ex] again
    right after it has returned success changes nothing, and succeeds. *)
Theorem update_vars_ex_once s
    (Hrel : reliable D) (Hsel : sel s = 0) (Hb : ∀ n, bytes (part s 0 n)) :
  wp idme_update_vars_ex s (λ s1 r1, r1 = 0 →
    wp idme_update_vars_ex s1 (λ s2 r2, r2 = 0 ∧ same_parts s1 s2)).
Proof.
  pose proof (update_vars_ex_spec s Hrel Hsel Hb) as Hw.
  destruct (wp_elim _ _ _ Hw) as (s1 & r1 & E & [Hsel1 Hpost] & Hb1). apply (wp_intro _ _ _ s1 r1 E).
  intros ->. destruct (decide (magic_ok (user_area s))) as [Hm|]; [|by destruct Hpost].
  destruct Hpost as [_ Hpost].
  assert (magic_ok (user_area s1) ∧ ¬ (sig_ok (user_area s) ∧ sig_ok (user_area s1)) ∧
    (¬ sig_ok (user_area s) → ¬ sig_ok (user_area s1))) as (Hm1 & Hs1 & Hs1').
  { destruct (decide (sig_ok (user_area s))) as [Hs|Hs].
    - destruct Hpost as (_ & Hc1 & _ & Hc3). split; [|split; [|done]].
      + unfold magic_ok in *. rewrite <-Hm.
        pose proof (area_length s 0 1024) as L. pose proof (area_length s1 0 1024) as L1.
        pose proof (slice_take_eq (user_area s) (user_area s1) 0 8 (Hc3 0 8 ltac:(lia))) as E8.
        change (Z.to_nat 0) with 0%nat in E8. rewrite !drop_0 in E8. apply E8; unfold user_area; lia.
      + intros [_ Hs2]. unfold sig_ok in Hs2. rewrite Hc1 in Hs2. done.
    - assert (user_area s1 = user_area s) as -> by (apply sectors_ext; intros; apply Hpost). tauto. }
  eapply wp_mono; [by apply update_vars_ex_spec|]. cbn beta. intros s2 r2 [[_ Hp2] _].
  destruct (decide (magic_ok (user_area s1))); [|done]. destruct Hp2 as [-> Hp2].
  destruct (decide (sig_ok (user_area s1))) as [Hs2|]; [|done].
  destruct (decide (sig_ok (user_area s))); tauto.
Qed.
End transfer_thms.

(** A board whose user area asks for the transfer of "serial" (bit 2). *)
#[local] Definition request_0 : list Z :=
  str "beefdeed" ++ replicate 20 48 ++ str "D025A0A000000001" ++ replicate 460 0 ++ str "adbdefg1".
#[local] Definition request_1 : list Z := str "2345" ++ [4; 0; 0; 0] ++ replicate 504 0.
#[local] Definition asking : idme ram :=
  mkIdme (mkRam {[ (1, 0, 1024) := request_0; (1, 0, 1025) := request_1 ]} ∅)
    (replicate 512 0) [] 0 (replicate 17 0) (replicate 17 0).

Lemma ram_bytes (m : gmap (Z * Z * Z) (list Z)) sl p n :
  map_Forall (λ _ l, bytes l) m → bytes (ram_sector (mkRam m ∅) sl p n).
Proof.
  intros Hm. unfold ram_sector. cbn [ram_disk]. destruct (m !! (sl, p, n)) eqn:E.
  - case_decide; [by apply (Hm _ _ E)|]. by apply bytes_replicate.
  - by apply bytes_replicate.
Qed.

Lemma asking_bytes n : bytes (part asking 0 n).
Proof. apply ram_bytes. by_eval. Qed.

Lemma update_vars_ex_correct_witness :
  magic_ok (user_area asking) ∧ sig_ok (user_area asking) ∧ bitmap_of (user_area asking) = 4 ∧
  wp idme_update_vars_ex asking (λ s' r, ex_post asking s' r).
Proof.
  split; [by vm_compute|]. split; [by vm_compute|]. split; [by vm_compute|].
  apply (update_vars_ex_correct asking); [exact ram_reliable|reflexivity|exact asking_bytes].
Defined.

Lemma update_vars_ex_once_witness :
  wp idme_update_vars_ex asking (λ s1 r1, r1 = 0 →
    wp idme_update_vars_ex s1 (λ s2 r2, r2 = 0 ∧ same_parts s1 s2)).
Proof.
  apply (update_vars_ex_once asking); [exact ram_reliable|reflexivity|exact asking_bytes].
Defined.
