(* ===== verification/IdmeBoot.v ===== *)
(** The idme variables at boot ([Idme]): which image [idme_select_boot_image]
    chooses and what it leaves behind, the partition every command leaves
    selected on a device whose transfers may fail, board names, number
    conversion, and the accesses outside of objects that the code can make. *)
From stdpp Require Import base tactics option list strings gmap.
From Stdlib Require Import ZArith Lia.
From S2P Require Import Prelude.
From S2P Require Import CMem.
From S2P Require Import CString.
From S2P Require Import MmcDev.
From S2P Require Import Eff.
From S2P Require Import CBuf.
From S2P Require Import Idme.
From S2P Require Import IdmeSpec.
Open Scope Z_scope.

#[local] Definition bm_var : nvram_t := mkNvram (lit "bootmode") 4096 16.
#[local] Definition pm_var : nvram_t := mkNvram (lit "postmode") 4112 16.

(** ** Selecting the boot image *)

(** The image for a boot mode character. *)
Definition choose (b : Z) (ptn : list Z) : list Z :=
  if decide (b = 50 ∨ b = 54) then pdkernel
  else if decide (b = 51 ∨ b = 55) then precovery else ptn.

Section select.
Context {D : Type} `{MmcLaws D} (Hrel : reliable D).
Implicit Types (s : idme D).

Definition plain (nv : nvram_t) : bool :=
  match c_strncmp (name nv) (lit "bootmode") 8, c_strncmp (name nv) (lit "postmode") 8 with
  | Some a, Some b => negb (a =? 0) && negb (b =? 0)
  | _, _ => false
  end.

Lemma select_plain nv x s : plain nv = true → select_var (D:=D) nv x s = Some (s, x).
Proof.
  unfold plain, select_var. destruct x as [buffer bootmode].
  destruct (c_strncmp (name nv) (lit "bootmode") 8) as [a|]; [|done].
  destruct (c_strncmp (name nv) (lit "postmode") 8) as [b|]; [|done].
  intros E. unfold mbind, st_bind, lift. destruct (a =? 0); [done|]. by destruct (b =? 0).
Qed.

Lemma mfor_plain l x s : Forall (λ nv, plain nv = true) l → mfor l (select_var (D:=D)) x s = Some (s, x).
Proof.
  intros Hl. revert s. induction Hl as [|nv l Hp Hl IH]; intros s; [done|]. cbn [mfor].
  unfold mbind, st_bind. rewrite select_plain by done. apply IH.
Qed.

Lemma select_vars x s (Q : idme D → list Z * list Z → Prop) :
  wp (x ← select_var bm_var x; select_var pm_var x) s Q → wp (mfor nvram_info select_var x) s Q.
Proof.
  unfold wp.
  change nvram_info with (take 8 nvram_info ++ [bm_var; pm_var] ++ drop 10 nvram_info).
  rewrite mfor_app. unfold mbind at 2, st_bind at 2. rewrite mfor_plain by by_eval.
  rewrite mfor_app. unfold mbind at 2, st_bind at 2. cbn [mfor].
  intros HQ. assert (HQ' : match (x0 ← select_var bm_var x; x1 ← select_var pm_var x0; mret x1) s with
    | Some (s', a) => Q s' a | None => False end).
  { revert HQ. unfold mbind, st_bind. destruct (select_var bm_var x s) as [[s1 x1]|]; [|done].
    by destruct (select_var pm_var x1 s1) as [[s2 x2]|]. }
  destruct ((x0 ← select_var bm_var x; x1 ← select_var pm_var x0; mret x1) s) as [[s1 x1]|]; [|done].
  by rewrite mfor_plain by by_eval.
Qed.

Lemma sectors_drop dk b (n k : nat) :
  (∀ i, length (dk i) = 512%nat) → (k <= n)%nat →
  drop (512 * k) (sectors dk b n) = sectors dk (b + Z.of_nat k) (n - k).
Proof.
  intros Hd. revert b n. induction k as [|k IH]; intros b n Hk.
  - rewrite Nat.mul_0_r, drop_0, Z.add_0_r. by rewrite Nat.sub_0_r.
  - destruct n as [|n]; [lia|]. cbn [sectors].
    replace (512 * S k)%nat with (length (dk b) + 512 * k)%nat by (rewrite Hd; lia).
    rewrite drop_app_add, IH by lia. f_equal. lia.
Qed.

(** A variable in the copy of a whole area. *)
Lemma region_var s nv :
  0 <= offset nv → 0 < size nv → IDME_BASE_ADDR + offset nv + size nv <= 16384 → fits nv →
  region nv (boot_area s) = Some (var_of s nv).
Proof.
  unfold fits, off, blk, IDME_BASE_ADDR, CONFIG_MMC_BLOCK_SIZE. intros H1 H2 H3 Hf.
  unfold region, boot_area, IDME_BASE_ADDR.
  rewrite slice_Some by (rewrite ?area_length; lia). f_equal. unfold var_of, off, blk, IDME_BASE_ADDR, CONFIG_MMC_BLOCK_SIZE.
  assert (∀ i, length (part s 1 i) = 512%nat) as Hl by (intros; apply contents_size).
  set (k := Z.to_nat ((offset nv + 8) / 512)). set (o := (offset nv + 8) mod 512) in *.
  assert (0 <= o < 512 ∧ 8 + offset nv = 512 * Z.of_nat k + o) as [Ho Ek] by (unfold o, k; dm_lia).
  assert (k < 32)%nat by (unfold k; dm_lia).
  assert ((offset nv + 8) / 512 = Z.of_nat k) as -> by (unfold k; dm_lia).
  rewrite Ek. clearbody k o.
  replace (Z.to_nat (512 * Z.of_nat k + o)) with (512 * k + Z.to_nat o)%nat by lia.
  rewrite <-drop_drop, sectors_drop by (done || lia). rewrite Z.add_0_l.
  destruct (32 - k)%nat eqn:E; [lia|]. cbn [sectors].
  rewrite drop_app_le by (rewrite Hl; lia). rewrite take_app_le; [done|].
  rewrite length_drop, Hl. lia.
Qed.

(** What selecting the boot image leaves in the variables. *)
Definition boot_vars s s' : Prop :=
  ∀ j nv, nvram_info !! j = Some nv → fits nv →
    var_of s' nv =
      if decide (j = 9%nat) then 1 :: replicate 15 0
      else if decide (j = 8%nat ∧ hd 0 (var_of s bm_var) = 55) then 49 :: replicate 15 0
      else var_of s nv.

Lemma update_table (s : idme D) i nv v :
  length (gblock_buff s) = 512%nat → nvram_info !! i = Some nv → fits nv → 0 ∈ v →
  wp (idme_update_var (name nv) (Some v)) s (λ s' r, r = 1 ∧ sel s' = 0 ∧
    length (gblock_buff s') = 512%nat ∧ (∀ n, part s' 0 n = part s 0 n) ∧
    ∀ j nv', nvram_info !! j = Some nv' → fits nv' →
      var_of s' nv' = if decide (i = j) then padded (size nv) v else var_of s nv').
Proof using Hrel.
  intros Hg Hi Hf Hv. destruct (table_sizes i nv Hi) as [Hsz Ho].
  assert (length (part s 1 (blk nv)) = 512%nat) as Hl by apply contents_size.
  eapply wp_mono.
  { eapply update_spec; [done|done|by eapply find_table| |].
    - apply new_block_spec; try lia; [|done]. rewrite Hl. exact Hf.
    - unfold fits in *. rewrite !length_app, length_take, length_drop.
      pose proof (padded_length (size nv) v ltac:(lia)). lia. }
  cbn beta. intros s1 r [-> Hpost]. pose proof Hpost as (_ & Ho1 & Hs1 & Hg1 & _).
  split; [done|]. split; [done|]. split; [done|]. split; [intros; by apply Ho1|].
  intros j nv' Hj Hf'. by eapply var_after.
Qed.

Lemma wp_select_bm buffer bootmode s src (Q : idme D → list Z * list Z → Prop) :
  slice buffer 4104 16 = Some src → (18 <= length bootmode)%nat →
  (∀ bm', idx bm' 0 = Some (hd 0 src) → Q s (buffer, bm')) →
  wp (select_var bm_var (buffer, bootmode)) s Q.
Proof.
  intros Hsrc Hlen HQ. unfold select_var.
  change (c_strncmp (name bm_var) (lit "bootmode") 8) with (Some 0).
  repeat wp_step. change (0 =? 0) with true. cbn iota. repeat wp_step.
  pose proof (slice_length _ _ _ _ Hsrc) as Hsl.
  eapply wp_lift; [exact Hsrc|]. repeat wp_step.
  eapply wp_lift; [apply blit_Some; lia|]. repeat wp_step.
  change (take (Z.to_nat 0) bootmode) with (@nil Z). change (size bm_var + 1) with 17.
  eapply wp_lift.
  { apply upd_Some. rewrite !length_app, length_drop. cbn [length]. lia. }
  repeat wp_step. apply HQ. rewrite idx_0, list_lookup_insert_ne by done. cbn [app].
  destruct src as [|y src]; [cbn in Hsl; lia|]. done.
Qed.

Definition table_upd s i (nw : list Z) s' : Prop :=
  sel s' = 0 ∧ length (gblock_buff s') = 512%nat ∧ (∀ n, part s' 0 n = part s 0 n) ∧
  ∀ j nv', nvram_info !! j = Some nv' → fits nv' →
    var_of s' nv' = if decide (i = j) then nw else var_of s nv'.

Lemma wp_select_pm buffer bootmode s (Q : idme D → list Z * list Z → Prop) :
  Z.of_nat (length buffer) = 16384 → length (gblock_buff s) = 512%nat →
  (∀ s' buffer', table_upd s 9 (1 :: replicate 15 0) s' → Q s' (buffer', bootmode)) →
  wp (select_var pm_var (buffer, bootmode)) s Q.
Proof using Hrel.
  intros Hlen Hg HQ. unfold select_var.
  change (c_strncmp (name pm_var) (lit "bootmode") 8) with (Some 14).
  change (c_strncmp (name pm_var) (lit "postmode") 8) with (Some 0).
  repeat wp_step. change (14 =? 0) with false. cbn iota. repeat wp_step.
  change (0 =? 0) with true. cbn iota. repeat wp_step.
  change (IDME_BASE_ADDR + offset pm_var) with 4120. change (le_bytes 4 1) with [1; 0; 0; 0].
  eapply wp_lift; [apply blit_Some; cbn [length]; lia|]. repeat wp_step.
  set (v := drop (Z.to_nat 4120) _).
  assert (v = [1] ++ 0 :: drop 2 v) as Ev.
  { unfold v. rewrite drop_app_length' by (rewrite length_take; lia). done. }
  eapply wp_mono; [apply (update_table s 9 pm_var v); [done|done|by_eval|]|].
  { rewrite Ev. set_solver. }
  cbn beta. intros s' r (_ & H1 & H2 & H3 & H4). apply wp_ret. apply HQ. split_and!; try done.
  intros j nv' Hj Hf. rewrite (H4 j nv' Hj Hf). case_decide; [|done].
  unfold padded. rewrite Ev, cut_app by by_eval. done.
Qed.

(** C31: [idme_select_boot_image] with a valid boot area: the image is the one
    the first character of "bootmode" asks for, unless the volume-up key alone
    forces recovery; the user area becomes a copy of the boot area; "postmode"
    is reset to the counter value 1; a one-shot recovery request ('7') is
    turned into a normal boot; all other variables keep their values. *)
Theorem select_boot_image_correct s gpio stack ptn
    (Hsel : sel s = 0) (Hg : length (gblock_buff s) = 512%nat)
    (Hb : ∀ n, bytes (part s 1 n)) (Hm : magic_ok (boot_area s))
    (Hstack : (18 <= length stack)%nat) :
  wp (idme_select_boot_image gpio stack ptn) s (λ s' r,
    r = (0, idme_select_bootmode_by_key gpio (choose (hd 0 (var_of s bm_var)) ptn)) ∧
    sel s' = 0 ∧ user_area s' = boot_area s ∧ boot_vars s s').
Proof using Hrel.
  unfold idme_select_boot_image. apply wp_bind. eapply wp_mono.
  { apply idme_read_spec; [done|rewrite length_replicate; done|done]. }
  cbn beta. intros s1 x (-> & Hs1 & Hp1 & Hc1). change (pnum BOOT_PARTITION) with 1.
  change (start BOOT_PARTITION) with 0. fold (boot_area s). cbn [negb Z.eqb].
  assert (Z.of_nat (length (boot_area s)) = 16384) as Hl by apply area_length.
  apply wp_bind, wp_has_magic; [done|by apply sectors_bytes|].
  rewrite bool_decide_eq_true_2 by done. cbn [negb]. repeat wp_step.
  eapply wp_mono; [apply idme_write_spec; [done|done|done]|].
  cbn beta. intros s2 r (-> & Hs2 & Hc2 & Ho2 & Hw2). change (pnum USER_PARTITION) with 0 in *.
  change (start USER_PARTITION) with 1024 in *.
  repeat wp_step. eapply wp_lift.
  { unfold c_memset. apply blit_Some; rewrite ?length_replicate; lia. }
  change (take (Z.to_nat 0) stack) with (@nil Z). cbn [app].
  set (arr := replicate _ _ ++ _).
  assert (18 <= length arr)%nat as Harr.
  { unfold arr. rewrite length_app, !length_replicate, length_drop. lia. }
  clearbody arr. repeat wp_step. apply select_vars.
  destruct (region_Some bm_var (boot_area s)) as [src Hsrc]; [done|done|rewrite Hl; done|].
  assert (src = var_of s bm_var) as ->.
  { rewrite region_var in Hsrc by by_eval. by injection Hsrc. }
  assert (length (gblock_buff s2) = 512%nat) as Hg2.
  { destruct Hc1 as (E1 & _), Hc2 as (E2 & _). congruence. }
  assert (∀ nv, var_of s2 nv = var_of s nv) as Hv2.
  { intros nv. unfold var_of. rewrite Ho2, Hp1 by done. done. }
  apply wp_bind. eapply wp_select_bm; [exact Hsrc|done|]. intros arr2 Hidx.
  apply wp_select_pm; [done|done|]. intros s3 buffer' (Hs3 & Hg3 & Hu3 & Hv3).
  repeat wp_step. eapply wp_lift; [exact Hidx|]. apply wp_bind.
  set (b := hd 0 (var_of s bm_var)) in *.
  assert (user_area s2 = boot_area s) as Hus.
  { rewrite <-(sectors_write (part s1 0) 1024 32 (boot_area s)) by lia.
    apply sectors_ext. intros i _. apply Hw2. }
  assert (user_area s3 = boot_area s) as Hus3.
  { rewrite <-Hus. apply sectors_ext. intros. apply Hu3. }
  destruct (Z.eqb_spec b 55) as [E55|E55].
  - rewrite E55. cbn [Z.eqb Pos.eqb]. apply wp_bind.
    eapply wp_mono; [apply (update_table s3 8 bm_var (lit "1")); [done|done|by_eval|by_eval]|].
    cbn beta. intros s4 r (_ & Hs4 & _ & Hu4 & Hv4). repeat wp_step. apply wp_ret.
    split; [done|]. split; [done|]. split.
    + rewrite <-Hus3. apply sectors_ext. intros. apply Hu4.
    + intros j nv Hj Hf. rewrite (Hv4 j nv Hj Hf). destruct (decide (8 = j)%nat) as [<-|Hne].
      * fold b. rewrite decide_False, decide_True by done. done.
      * rewrite (Hv3 j nv Hj Hf), Hv2. destruct (decide (9 = j)%nat) as [<-|].
        -- by rewrite decide_True.
        -- rewrite !decide_False by (intros ?; destruct_and?; congruence). done.
  - assert (wp (if b =? 49 then mret ptn else if b =? 50 then mret pdkernel else
      if b =? 51 then mret precovery else if b =? 54 then mret pdkernel else
      mret ptn) s3 (λ s' p, s' = s3 ∧ p = choose b ptn)) as HW.
    { unfold choose. destruct (Z.eqb_spec b 49) as [->|]; [by apply wp_ret|].
      destruct (Z.eqb_spec b 50) as [->|]; [by apply wp_ret|].
      destruct (Z.eqb_spec b 51) as [->|]; [by apply wp_ret|].
      destruct (Z.eqb_spec b 54) as [->|]; [by apply wp_ret|].
      rewrite !decide_False by lia. by apply wp_ret. }
    eapply wp_mono; [exact HW|]. cbn beta. intros s' p [-> ->]. apply wp_ret.
    split; [done|]. split; [done|]. split; [done|].
    intros j nv Hj Hf. rewrite (Hv3 j nv Hj Hf), Hv2. destruct (decide (9 = j)%nat) as [<-|].
    + by rewrite decide_True.
    + fold b. rewrite !decide_False by (intros ?; destruct_and?; congruence). done.
Qed.

(** ** [getbootmode] *)

(** The first character of the variable "bootmode". *)
Definition boot_mode s : Z := hd 0 (var_of s bm_var).

Definition unmoded (nv : nvram_t) : bool :=
  match c_strncmp (name nv) (lit "bootmode") 8 with Some a => negb (a =? 0) | None => false end.

Lemma find_unmoded l buffer bootmode val : Forall (λ nv, unmoded nv = true) l → find_bootmode l buffer bootmode val = Some val.
Proof.
  induction 1 as [|nv l Hp _ IH]; [done|]. cbn [find_bootmode]. unfold unmoded in Hp.
  destruct (c_strncmp (name nv) (lit "bootmode") 8) as [a|]; [|done]. cbn [mbind option_bind]. by destruct (a =? 0).
Qed.

Lemma find_bootmode_skip l1 l2 buffer bootmode val : Forall (λ nv, unmoded nv = true) l1 →
  find_bootmode (l1 ++ l2) buffer bootmode val = find_bootmode l2 buffer bootmode val.
Proof.
  induction 1 as [|nv l Hp _ IH]; [done|]. cbn [find_bootmode app]. unfold unmoded in Hp.
  destruct (c_strncmp (name nv) (lit "bootmode") 8) as [a|]; [|done]. cbn [mbind option_bind]. by destruct (a =? 0).
Qed.

Lemma getbootmode_spec s stack : sel s = 0 → (18 <= length stack)%nat →
  wp (getbootmode stack) s (λ s' v, v = boot_mode s - 48 ∧ sel s' = 0 ∧ same_parts s s' ∧ same_cache s s').
Proof using Hrel.
  intros Hsel Hstack. unfold getbootmode. apply wp_bind. eapply wp_mono.
  { apply (idme_read_spec Hrel); [done|done]. }
  cbn beta. intros s1 x (-> & Hs1 & Hp1 & Hc1). change (pnum BOOT_PARTITION) with 1.
  change (start BOOT_PARTITION) with 0. fold (boot_area s). cbn [negb Z.eqb]. repeat wp_step. eapply wp_lift.
  { unfold c_memset. apply blit_Some; rewrite ?length_replicate; lia. }
  change (take (Z.to_nat 0) stack) with (@nil Z). cbn [app]. set (arr := replicate _ _ ++ _).
  assert (18 <= length arr)%nat as Harr by (unfold arr; rewrite length_app, !length_replicate, length_drop; lia).
  assert (Z.of_nat (length (boot_area s)) = 16384) as Hl by apply area_length.
  clearbody arr. destruct (region_Some bm_var (boot_area s)) as [src Hsrc]; [done|done|rewrite Hl; done|].
  assert (src = var_of s bm_var) as -> by (rewrite region_var in Hsrc by by_eval; by injection Hsrc).
  change nvram_info with (take 8 nvram_info ++ bm_var :: drop 9 nvram_info).
  rewrite find_bootmode_skip by by_eval. cbn [find_bootmode].
  change (c_strncmp (name bm_var) (lit "bootmode") 8) with (Some 0). cbn [mbind option_bind]. change (0 =? 0) with true. cbv iota.
  unfold region in Hsrc. rewrite Hsrc. cbn [mbind option_bind]. pose proof (slice_length _ _ _ _ Hsrc) as Hsl.
  rewrite blit_Some by (cbn [size bm_var] in Hsl; lia). cbn [mbind option_bind].
  change (take (Z.to_nat 0) arr) with (@nil Z). change (size bm_var + 1) with 17.
  rewrite upd_Some by (rewrite !length_app, length_drop; cbn [length]; cbn [size bm_var] in Hsl; lia). cbn [mbind option_bind].
  rewrite idx_0, list_lookup_insert_ne by done. unfold boot_mode.
  destruct (var_of s bm_var) as [|y t]; [cbn in Hsl; lia|]. cbn [app lookup list_lookup mbind option_bind hd].
  rewrite find_unmoded by by_eval. eapply wp_lift; [done|]. done.
Qed.
End select.

(** A board that asks for one recovery boot. *)
#[local] Definition recovery_0 : list Z := str "beefdeed" ++ replicate 504 48.
#[local] Definition recovery_8 : list Z := replicate 8 0 ++ str "7" ++ replicate 503 0.
#[local] Definition asking_recovery : idme ram :=
  mkIdme (mkRam {[ (1, 1, 0) := recovery_0; (1, 1, 8) := recovery_8 ]} ∅)
    (replicate 512 0) [] 0 (replicate 17 0) (replicate 17 0).

Lemma select_boot_image_correct_witness :
  choose (hd 0 (var_of asking_recovery bm_var)) (lit "boot") = precovery ∧
  wp (idme_select_boot_image (λ _, 1) (replicate 20 9) (lit "boot")) asking_recovery (λ s' r,
    r = (0, idme_select_bootmode_by_key (λ _, 1) (choose (hd 0 (var_of asking_recovery bm_var)) (lit "boot"))) ∧
    sel s' = 0 ∧ user_area s' = boot_area asking_recovery ∧ boot_vars asking_recovery s').
Proof.
  split; [by vm_compute|].
  apply (select_boot_image_correct ram_reliable asking_recovery); [done|done| |by vm_compute|].
  - intros n. apply ram_bytes. by_eval.
  - cbn. lia.
Defined.

#[local] Definition blank_board : idme ram :=
  mkIdme (mkRam ∅ ∅) (replicate 512 0) [] 0 (replicate 17 0) (replicate 17 0).

(** ** The selected partition, on any device

    The transfers may fail in any way; only the partition switch works. *)

Section restores.
Context {D : Type} `{MmcLaws D} (Hsw : ∀ (d : D) slot p, (mmc_sw_part d slot p).2 = 1).
Implicit Types (s : idme D).

(** Starting from the user partition, the user partition is selected at the
    end. *)
Definition restores {A} (m : ST (idme D) A) : Prop := ∀ s s' a, sel s = 0 → m s = Some (s', a) → sel s' = 0.
(** Whatever partition is selected before. *)
Definition ends {A} (m : ST (idme D) A) : Prop := ∀ s s' a, m s = Some (s', a) → sel s' = 0.
(** The selection does not change. *)
Definition keeps {A} (m : ST (idme D) A) : Prop := ∀ s s' a, m s = Some (s', a) → sel s' = sel s.

Lemma keeps_restores {A} (m : ST (idme D) A) : keeps m → restores m.
Proof. intros Hk s s' a Hs E. by rewrite (Hk _ _ _ E). Qed.
Lemma ends_restores {A} (m : ST (idme D) A) : ends m → restores m.
Proof. intros Hk s s' a Hs E. by eapply Hk. Qed.

Lemma bind_inv {A B} (m : ST (idme D) A) (f : A → ST (idme D) B) s s' b :
  (m ≫= f) s = Some (s', b) → ∃ s1 a, m s = Some (s1, a) ∧ f a s1 = Some (s', b).
Proof. unfold mbind, st_bind. destruct (m s) as [[s1 a]|]; [eauto|done]. Qed.

Lemma restores_bind {A B} (m : ST (idme D) A) (f : A → ST (idme D) B) :
  restores m → (∀ a, restores (f a)) → restores (m ≫= f).
Proof. intros Hm Hf s s' b Hs E. apply bind_inv in E as (s1 & a & E1 & E2). exact (Hf a _ _ _ (Hm _ _ _ Hs E1) E2). Qed.
Lemma ends_bind {A B} (m : ST (idme D) A) (f : A → ST (idme D) B) :
  (∀ a, ends (f a)) → ends (m ≫= f).
Proof. intros Hf s s' b E. apply bind_inv in E as (s1 & a & E1 & E2). exact (Hf a _ _ _ E2). Qed.
Lemma ends_bind_restores {A B} (m : ST (idme D) A) (f : A → ST (idme D) B) :
  ends m → (∀ a, restores (f a)) → ends (m ≫= f).
Proof. intros Hm Hf s s' b E. apply bind_inv in E as (s1 & a & E1 & E2). exact (Hf a _ _ _ (Hm _ _ _ E1) E2). Qed.
Lemma keeps_bind {A B} (m : ST (idme D) A) (f : A → ST (idme D) B) :
  keeps m → (∀ a, keeps (f a)) → keeps (m ≫= f).
Proof.
  intros Hm Hf s s' b E. apply bind_inv in E as (s1 & a & E1 & E2).
  rewrite (Hf _ _ _ _ E2). exact (Hm _ _ _ E1).
Qed.

Lemma keeps_ret {A} (a : A) : keeps (mret a). Proof. intros s s' b [= <- <-]. done. Qed.
Lemma keeps_lift {A} (o : option A) : keeps (lift o).
Proof. intros s s' a E. unfold lift in E. by destruct o; simplify_eq. Qed.
Lemma keeps_get : keeps get. Proof. intros s s' a [= <- <-]. done. Qed.
Lemma keeps_gblock g : keeps (modify (set_gblock g)). Proof. intros s s' a [= <- <-]. done. Qed.
Lemma keeps_gidme g v : keeps (modify (set_gidme g v)). Proof. intros s s' a [= <- <-]. done. Qed.
Lemma keeps_id g : keeps (modify (set_board_id g)). Proof. intros s s' a [= <- <-]. done. Qed.
Lemma keeps_serial g : keeps (modify (set_board_serial g)). Proof. intros s s' a [= <- <-]. done. Qed.
Lemma keeps_read_block b : keeps (read_block b). Proof. intros s s' a [= <- <-]. done. Qed.

Lemma keeps_write_block l b : keeps (write_block l b).
Proof.
  intros s s' a E. unfold write_block in E.
  pose proof (write_selected (dev s) CONFIG_MMC_BOOTFLASH l b) as Hw.
  destruct (mmc_write _ _ _ _) as [d r]. injection E as <- <-. done.
Qed.

Lemma keeps_loop {X R} n (body : X → ST (idme D) (X + R)) x :
  (∀ x, keeps (body x)) → keeps (mloop n body x).
Proof.
  intros Hb s s' r E. unfold mloop in E.
  eapply (loop_partial _ (λ p, sel p.1 = sel s) (λ p, sel p.1 = sel s)) in E; [done| |done].
  intros [s1 x1] y Hs1 Ey. cbn in Hs1. destruct (body x1 s1) as [[s2 [x2|r2]]|] eqn:E1; [| |done];
    simplify_eq; cbn; by rewrite (Hb _ _ _ _ E1).
Qed.

Lemma sw_part_inv p s s' r : sw_part p s = Some (s', r) → r = 1 ∧ sel s' = p.
Proof using Hsw.
  unfold sw_part, CONFIG_MMC_BOOTFLASH. pose proof (Hsw (dev s) 1 p) as Hr.
  pose proof (sw_ok (dev s) 1 p) as Hok. destruct (mmc_sw_part (dev s) 1 p) as [d r'].
  cbn in Hr. subst r'. intros [= <- <-]. split; [done|]. by apply (Hok d).
Qed.

Lemma ends_sw {A} (f : Z → ST (idme D) A) : restores (f 1) → ends (sw_part 0 ≫= f).
Proof using Hsw.
  intros Hf s s' a E. apply bind_inv in E as (s1 & r & E1 & E2).
  apply sw_part_inv in E1 as [-> Hs1]. exact (Hf _ _ _ Hs1 E2).
Qed.

(** The switch to the boot partition: what follows has to end properly. *)
Lemma restores_sw {A} p (f : Z → ST (idme D) A) : ends (f 1) → restores (sw_part p ≫= f).
Proof using Hsw.
  intros Hf s s' a _ E. apply bind_inv in E as (s1 & r & E1 & E2).
  apply sw_part_inv in E1 as [-> _]. exact (Hf _ _ _ E2).
Qed.

Create HintDb keeps discriminated.
Create HintDb restores discriminated.
#[local] Hint Constants Opaque : keeps restores.
#[local] Hint Resolve keeps_ret keeps_lift keeps_get keeps_gblock keeps_gidme keeps_id keeps_serial
  keeps_read_block keeps_write_block : keeps.

#[local] Ltac split_body :=
  lazymatch goal with
  | |- context [match ?x with _ => _ end] => destruct x
  end.

#[local] Ltac keep :=
  lazymatch goal with
  | |- keeps (mbind _ _) => apply keeps_bind; [keep|intros; keep]
  | |- keeps (mloop _ _ _) => apply keeps_loop; intros; keep
  | |- keeps _ => first [solve [eauto with keeps] | split_body; keep]
  end.

Lemma keeps_read_gblock b : keeps (read_gblock b).
Proof. unfold read_gblock. keep. Qed.
#[local] Hint Resolve keeps_read_gblock : keeps.

#[local] Ltac restore :=
  cbn beta iota delta [negb Z.eqb Pos.eqb orb];
  lazymatch goal with
  | |- restores (mbind _ (sw_part _)) => apply restores_sw; restore
  | |- ends (mbind _ (sw_part 0)) => apply ends_sw; restore
  | |- ends (mbind _ _) => apply ends_bind; intros; restore
  | |- restores (mbind _ _) => apply restores_bind; [restore|intros; restore]
  | |- restores _ => first [solve [apply keeps_restores; eauto with keeps] |
                            solve [eauto with restores] | split_body; restore]
  | |- ends _ => split_body; restore
  end.


Lemma restores_read buf b : restores (idme_read buf b).
Proof using Hsw.
  unfold idme_read, sw_if. destruct (negb (b =? 0)).
  - apply restores_sw. cbn beta iota delta [negb Z.eqb Pos.eqb]. apply ends_bind. intros [buf' ret]. restore.
  - apply keeps_restores. keep.
Qed.
#[local] Hint Resolve restores_read : restores.

Lemma restores_write buf b : restores (idme_write buf b).
Proof using Hsw.
  unfold idme_write, sw_if. destruct (negb (b =? 0)).
  - apply restores_sw. cbn beta iota delta [negb Z.eqb Pos.eqb]. apply ends_bind. intros ret. restore.
  - apply keeps_restores. keep.
Qed.
#[local] Hint Resolve restores_write : restores.

Lemma restores_get_var nm buf n : restores (idme_get_var nm buf n).
Proof using Hsw. unfold idme_get_var. restore. Qed.
Lemma restores_update_var nm v : restores (idme_update_var nm v).
Proof using Hsw. unfold idme_update_var. restore. Qed.
#[local] Hint Resolve restores_get_var restores_update_var : restores.

Lemma restores_print_vars_ex v : restores (idme_print_vars_ex v).
Proof using Hsw. unfold idme_print_vars_ex. generalize (replicate (Z.to_nat CONFIG_IDME_SIZE) 0). intros. cbv zeta. restore. Qed.
Lemma restores_clean : restores idme_clean.
Proof using Hsw. unfold idme_clean. generalize (replicate (Z.to_nat CONFIG_IDME_SIZE) 0). intros. cbv zeta. restore. Qed.
Lemma restores_write_magic : restores idme_write_magic_size.
Proof using Hsw. unfold idme_write_magic_size. restore. Qed.
Lemma restores_boot_count : restores idme_boot_count.
Proof using Hsw. unfold idme_boot_count. restore. Qed.
#[local] Hint Resolve restores_print_vars_ex restores_clean restores_write_magic restores_boot_count : restores.

Lemma restores_do_idme c j n a : restores (do_idme c j n a).
Proof using Hsw. unfold do_idme. restore. Qed.
#[local] Hint Resolve restores_do_idme : restores.

Lemma restores_for {A X} (l : list A) (body : A → X → ST (idme D) X) x :
  (∀ a x, restores (body a x)) → restores (mfor l body x).
Proof.
  intros Hb. revert x. induction l as [|a l IH]; intros x; cbn [mfor]; [restore|].
  apply restores_bind; [apply Hb|intros; apply IH].
Qed.

Lemma restores_select_var nv x : restores (select_var nv x).
Proof using Hsw. unfold select_var. restore. Qed.
#[local] Hint Resolve restores_select_var restores_for : restores.

(** C35: no idme command and no boot-time entry point leaves the boot partition
    selected: whatever transfers fail on the way, if the partition switch
    works and the user partition was selected, it is selected again at the
    end. *)
Theorem commands_restore_user_partition :
  (∀ junk ver value cmd, restores (fastboot_idme junk ver value cmd)) ∧
  (∀ c j n a, restores (do_idme c j n a)) ∧
  restores idme_update_vars_ex ∧ restores idme_load ∧
  (∀ gpio stack ptn, restores (idme_select_boot_image gpio stack ptn)) ∧
  (∀ stack, restores (getbootmode stack)) ∧
  (∀ buf, restores (idme_get_magic_size buf)) ∧
  (∀ bt, restores (idme_get_board_type_rev_string bt)).
Proof using Hsw.
  split_and!.
  - intros. unfold fastboot_idme. restore.
  - apply restores_do_idme.
  - unfold idme_update_vars_ex. generalize (replicate (Z.to_nat CONFIG_IDME_SIZE) 0). intros. cbv zeta. restore.
  - unfold idme_load. restore.
  - intros. unfold idme_select_boot_image. generalize (replicate (Z.to_nat CONFIG_IDME_SIZE) 0). intros. cbv zeta. restore.
  - intros. unfold getbootmode. generalize (replicate (Z.to_nat CONFIG_IDME_SIZE) 0). intros. cbv zeta. restore.
  - intros. unfold idme_get_magic_size. restore.
  - intros. unfold idme_get_board_type_rev_string, idme_get_board_id. restore.
Qed.
End restores.

Lemma commands_restore_user_partition_witness :
  (∀ junk ver value cmd, restores (D:=ram) (fastboot_idme junk ver value cmd)) ∧
  sel blank_board = 0.
Proof.
  split; [|reflexivity]. apply (commands_restore_user_partition (D:=ram)). reflexivity.
Defined.

(** ** Number conversion *)

(** The digits of [i], most significant first, in front of [acc]. *)
Fixpoint digits (fuel : nat) (i : Z) (acc : list Z) : list Z :=
  match fuel with
  | O => acc
  | S f => let acc := (48 + i mod 10) :: acc in if 0 <? i / 10 then digits f (i / 10) acc else acc
  end.

Definition dec_val (l : list Z) : Z := foldl (λ r c, r * 10 + (c - 48)) 0 l.

Lemma foldl_dec l r : foldl (λ r c, r * 10 + (c - 48)) r l = r * 10 ^ Z.of_nat (length l) + dec_val l.
Proof.
  unfold dec_val. revert r. induction l as [|c l IH]; intros r; cbn [foldl length].
  - cbn. lia.
  - rewrite (IH (r * 10 + (c - 48))), (IH (0 * 10 + (c - 48))).
    rewrite Nat2Z.inj_succ, Z.pow_succ_r by lia. nia.
Qed.

Lemma digits_val fuel i acc :
  0 <= i < 10 ^ Z.of_nat fuel → (0 < fuel)%nat →
  dec_val (digits fuel i acc) = i * 10 ^ Z.of_nat (length acc) + dec_val acc.
Proof.
  revert i acc. induction fuel as [|f IH]; intros i acc Hi Hf; [lia|]. cbn [digits].
  rewrite Nat2Z.inj_succ, Z.pow_succ_r in Hi by lia.
  assert (dec_val ((48 + i mod 10) :: acc) = (i mod 10) * 10 ^ Z.of_nat (length acc) + dec_val acc) as E.
  { unfold dec_val at 1. cbn [foldl]. rewrite foldl_dec. f_equal. f_equal. lia. }
  destruct (Z.ltb_spec 0 (i / 10)).
  - rewrite IH; [|dm_lia|destruct f; [cbn in Hi; dm_lia|lia]]. rewrite E. cbn [length].
    rewrite Nat2Z.inj_succ, Z.pow_succ_r by lia.
    rewrite (Z.div_mod i 10) at 3 by lia. lia.
  - rewrite E. f_equal. f_equal. dm_lia.
Qed.

Lemma digits_chars fuel i acc :
  Forall (λ c, 48 <= c < 58) acc → Forall (λ c, 48 <= c < 58) (digits fuel i acc).
Proof.
  revert i acc. induction fuel as [|f IH]; intros i acc Ha; [done|]. cbn [digits].
  assert (Forall (λ c, 48 <= c < 58) ((48 + i mod 10) :: acc)) by (constructor; [dm_lia|done]).
  destruct (0 <? i / 10); [by apply IH|done].
Qed.

(** The loop of [simple_itoa], writing downwards from index [p]. *)
Lemma itoa_loop f n local (p : nat) i acc :
  length local = 22%nat → (f <= S p)%nat → (p < 21)%nat → 0 <= i < 10 ^ Z.of_nat f → (0 < f)%nat →
  drop (S p) local = acc ++ [0] → (f < n)%nat →
  ∃ local' p', loop n itoa_step (local, Z.of_nat p, i)
    = Some (local', Z.of_nat p' - 1) ∧ length local' = 22%nat ∧ (p' < 21)%nat ∧
    drop p' local' = digits f i acc ++ [0].
Proof.
  revert n local p i acc. induction f as [|f IH]; intros n local p i acc Hl Hp Hp21 Hi Hf Hd Hn; [lia|].
  destruct n as [|n]; [lia|]. cbn [loop digits]. unfold itoa_step at 1. rewrite upd_Some by lia.
  cbn [mbind option_bind]. cbv zeta. rewrite Nat2Z.id.
  assert (drop p (<[p:=48 + i mod 10]> local) = (48 + i mod 10) :: acc ++ [0]) as Hd'.
  { rewrite drop_insert_ge, Nat.sub_diag by lia.
    destruct (drop p local) as [|x r] eqn:E.
    { apply (f_equal length) in E. rewrite length_drop in E. cbn in E. lia. }
    cbn. f_equal. apply (f_equal (drop 1)) in E. rewrite drop_drop in E. cbn [drop] in E.
    rewrite drop_0 in E. by rewrite <-E, Nat.add_1_r. }
  rewrite Nat2Z.inj_succ, Z.pow_succ_r in Hi by lia.
  destruct (Z.ltb_spec 0 (i / 10)).
  - destruct f as [|f]; [cbn in Hi; dm_lia|]. destruct p as [|p]; [lia|].
    replace (Z.of_nat (S p) - 1) with (Z.of_nat p) by lia.
    apply (IH n _ p (i / 10) ((48 + i mod 10) :: acc)); try lia; [by rewrite length_insert|dm_lia|done].
  - eexists _, p. split; [done|]. rewrite length_insert. done.
Qed.

Lemma skip_zeros_val l : dec_val (skip_zeros l) = dec_val l.
Proof.
  induction l as [|c l IH]; [done|]. cbn [skip_zeros]. destruct (Z.eqb_spec c 48) as [->|]; [|done].
  rewrite IH. done.
Qed.

Lemma skip_zeros_digits l : Forall (λ c, 48 <= c < 58) l → Forall (λ c, 48 <= c < 58) (skip_zeros l).
Proof.
  induction 1 as [|c l Hc Hl IH]; [constructor|]. cbn [skip_zeros]. destruct (c =? 48); [done|].
  by constructor.
Qed.

Lemma atoi_fold l r :
  Forall (λ c, 48 <= c < 58) l → is_u32 r →
  foldl (λ result c, u32 (u32 (result * 10) + u32 (c - 48))) r l =
    u32 (r * 10 ^ Z.of_nat (length l) + dec_val l).
Proof.
  intros Hl. revert r. induction Hl as [|c l Hc Hl IH]; intros r Hr; cbn [foldl length].
  - cbn. rewrite Z.add_0_r, Z.mul_1_r. by rewrite u32_id.
  - rewrite IH by apply u32_range.
    assert (dec_val (c :: l) = (c - 48) * 10 ^ Z.of_nat (length l) + dec_val l) as ->.
    { unfold dec_val at 1. cbn [foldl]. rewrite foldl_dec. lia. }
    rewrite Nat2Z.inj_succ, Z.pow_succ_r by lia. rewrite u32_add_l, u32_add_r.
    rewrite <-u32_add_l, u32_mul_l, u32_add_l. f_equal. ring.
Qed.

Lemma simple_atoi_val l : Forall (λ c, 48 <= c < 58) l → simple_atoi l = u32 (dec_val l).
Proof.
  intros Hl. unfold simple_atoi. rewrite atoi_fold; [|by apply skip_zeros_digits|done].
  by rewrite skip_zeros_val.
Qed.

Lemma simple_itoa_spec i :
  is_u32 i → simple_itoa i = Some (digits 10 i []).
Proof.
  intros Hi. unfold simple_itoa. cbv zeta. rewrite upd_Some by (rewrite length_replicate; lia).
  cbn [mbind option_bind].
  destruct (itoa_loop 10 23 (<[Z.to_nat 21:=0]> (replicate 22 0)) 20 i []) as
    (local & p & E & Hl & Hp & Hd); [done|lia|lia|unfold is_u32 in Hi; cbn; lia|lia|done|lia|].
  change (Z.of_nat 20) with 20 in E. rewrite E. cbn [mbind option_bind].
  replace (Z.of_nat p - 1 + 1) with (Z.of_nat p) by lia.
  rewrite slice_Some by lia. rewrite Nat2Z.id, Hd. f_equal.
  apply take_app_length'. apply (f_equal length) in Hd. rewrite length_drop, length_app in Hd.
  cbn [length] in Hd. lia.
Qed.

(** [simple_itoa] stays inside its 22-byte buffer for every 32-bit number
    and produces a decimal numeral that [simple_atoi] reads back. *)
Theorem itoa_atoi i (Hi : is_u32 i) :
  ∃ l, simple_itoa i = Some l ∧ Forall (λ c, 48 <= c < 58) l ∧ simple_atoi l = i.
Proof.
  rewrite simple_itoa_spec by done. eexists. split; [done|].
  assert (Forall (λ c, 48 <= c < 58) (digits 10 i [])) as Hc by (apply digits_chars; constructor).
  split; [done|]. rewrite simple_atoi_val by done.
  rewrite digits_val; [|unfold is_u32 in Hi; cbn; lia|lia]. cbn [length]. unfold dec_val. cbn.
  rewrite Z.add_0_r, Z.mul_1_r. by apply u32_id.
Qed.

Lemma itoa_atoi_witness :
  is_u32 4294967295 ∧ ∃ l, simple_itoa 4294967295 = Some l ∧ Forall (λ c, 48 <= c < 58) l ∧ simple_atoi l = 4294967295.
Proof. split; [by_eval|]. apply (itoa_atoi 4294967295). by_eval. Defined.

(** ** Accesses outside of objects, and checks without effect *)

Lemma board_info_loop info n i :
  0 <= i → 0 ∈ drop (Z.to_nat i) info → (length info - Z.to_nat i < n)%nat →
  ∀ m, loop n (λ i,
    if i <? m then
      c ← idx info i;
      Some (if c =? 0 then inr 1
            else if (c <? 48) && (57 <? c) && (c <? 65) && (90 <? c) then inr 0
            else inl (i + 1))
    else Some (inr 1)) i = Some 1.
Proof.
  revert i. induction n as [|n IH]; intros i Hi Hz Hn m; [lia|]. cbn [loop].
  destruct (i <? m); [|done].
  destruct (drop (Z.to_nat i) info) as [|c r] eqn:E; [by apply not_elem_of_nil in Hz|].
  assert (idx info i = Some c) as ->.
  { apply idx_lookup. split; [done|]. replace (Z.to_nat i) with (Z.to_nat i + 0)%nat by lia.
    rewrite <-lookup_drop, E. done. }
  cbn [mbind option_bind]. destruct (Z.eqb_spec c 0) as [|Hc]; [done|].
  assert (drop (Z.to_nat (i + 1)) info = r) as Er.
  { replace (Z.to_nat (i + 1)) with (Z.to_nat i + 1)%nat by lia. by rewrite <-drop_drop, E. }
  assert (0 ∈ drop (Z.to_nat (i + 1)) info) as Hr.
  { rewrite Er. by apply elem_of_cons in Hz as [|]. }
  apply (f_equal length) in E. rewrite length_drop in E. cbn [length] in E.
  pose proof (IH (i + 1) ltac:(lia) Hr ltac:(lia) m) as HI.
  destruct (Z.ltb_spec c 48), (Z.ltb_spec 57 c); cbn [andb]; done || lia.
Qed.

(** [is_valid_board_info] accepts every terminated string: its test asks
    for a character that is below '0' and above '9' at once. *)
Theorem board_info_never_rejected info max_len
    (Hz : 0 ∈ info) (Hl : Z.of_nat (length info) <= max_len) :
  is_valid_board_info info max_len = Some 1.
Proof.
  unfold is_valid_board_info. apply board_info_loop; [lia| |lia].
  change (Z.to_nat 0) with 0%nat. by rewrite drop_0.
Qed.

Lemma board_info_never_rejected_witness :
  is_valid_board_info [33; 126; 0] 17 = Some 1.
Proof. apply board_info_never_rejected; [by_eval|cbn; lia]. Defined.

Section flaws.
Context {D : Type} `{MmcLaws D}.
Implicit Types (s : idme D).

(** "camcal" and "mfg" do not fit into the one block that
    [idme_update_var] reads: setting one of them writes past the end of the
    512-byte [gblock_buff]. *)
Theorem update_large_overflows s nm v
    (Hrel : reliable D) (Hg : length (gblock_buff s) = 512%nat)
    (Hnm : nm = lit "camcal" ∨ nm = lit "mfg") :
  idme_update_var nm v s = None.
Proof.
  assert (∃ nv, idme_find_var nm = Some (Some nv) ∧ ¬ fits nv ∧ 0 <= size nv ∧ 0 <= off nv) as
    (nv & Hnv & Hfit & Hsz & Ho).
  { destruct Hnm as [-> | ->]; eexists; (split; [reflexivity|]); by_eval. }
  unfold idme_update_var. unfold mbind at 1, st_bind at 1. rewrite Hnv. cbn [lift]. fold (blk nv) (off nv).
  assert (∀ (m : ST (idme D) Z) f s0 (Q : idme D → Z → Prop), wp m s0 Q →
    (∀ s' a, Q s' a → f a s' = None (A := idme D * Z)) → (m ≫= f) s0 = None) as Hstep.
  { intros m f s0 Q (s' & a & E & HQ)%wp_elim Hf. unfold mbind, st_bind. rewrite E. by apply Hf. }
  eapply (Hstep _ _ _ (λ s' r, r = 1 ∧ gblock_buff s' = gblock_buff s)).
  { apply wp_sw_part; [done|]. done. }
  intros s1 ? [-> Hg1]. cbn [negb Z.eqb Pos.eqb].
  eapply (Hstep _ _ _ (λ s' r, r = 1 ∧ length (gblock_buff s') = 512%nat)).
  { apply wp_read_gblock; [done|by rewrite Hg1|]. split; [done|]. apply contents_size. }
  intros s2 ? [-> Hg2]. cbn [negb Z.eqb Pos.eqb]. unfold mbind, st_bind, get, lift, new_block, c_memset.
  unfold fits in Hfit.
  assert (blit (gblock_buff s2) (off nv) (replicate (Z.to_nat (size nv)) 0) = None) as ->; [|done].
  unfold blit. rewrite length_replicate, Hg2. to_prop; done || lia.
Qed.

(** [idme_select_boot_image] writes one byte past its local array
    [bootmode] (17 bytes, index [16 + 1]): with no padding behind the array
    the call is undefined on every board. *)
Theorem select_boot_image_overflows s gpio stack ptn
    (Hrel : reliable D) (Hsel : sel s = 0) (Hb : ∀ n, bytes (part s 1 n))
    (Hm : magic_ok (boot_area s)) (Hstack : length stack = 17%nat) :
  idme_select_boot_image gpio stack ptn s = None.
Proof.
  assert (∀ {A} (m : ST (idme D) A) f s0 (Q : idme D → A → Prop), wp m s0 Q →
    (∀ s' a, Q s' a → f a s' = None (A := idme D * (Z * list Z))) → (m ≫= f) s0 = None) as Hstep.
  { intros A m f s0 Q (s' & a & E & HQ)%wp_elim Hf. unfold mbind, st_bind. rewrite E. by apply Hf. }
  unfold idme_select_boot_image.
  eapply Hstep.
  { apply idme_read_spec; [done|rewrite length_replicate; done|done]. }
  cbn beta. intros s1 x (-> & Hs1 & Hp1 & _). change (pnum BOOT_PARTITION) with 1.
  change (start BOOT_PARTITION) with 0. fold (boot_area s). cbn [negb Z.eqb].
  eapply (Hstep _ _ _ _ (λ s' b, s' = s1 ∧ b = true)).
  { apply wp_has_magic; [apply area_length|by apply sectors_bytes|]. by rewrite bool_decide_eq_true_2. }
  intros s1' b [-> ->]. cbn [negb].
  eapply (Hstep _ _ _ _ (λ s' b, s' = s1 ∧ b = boot_area s)); [by apply wp_ret|].
  intros ? ? [-> ->].
  eapply Hstep; [apply idme_write_spec; [done|apply area_length|done]|].
  cbn beta. intros s2 r _.
  unfold mbind at 1, st_bind at 1, lift at 1, c_memset.
  rewrite blit_Some by (rewrite ?length_replicate; lia).
  unfold mbind at 1, st_bind at 1.
  change nvram_info with (take 8 nvram_info ++ bm_var :: drop 9 nvram_info).
  rewrite mfor_app. unfold mbind at 1, st_bind at 1. rewrite mfor_plain by by_eval.
  cbn [mfor]. unfold mbind at 1, st_bind at 1.
  assert (∀ bm, length bm = 17%nat → select_var bm_var (boot_area s, bm) s2 = None) as ->; [|done|].
  - intros bm Hbm. unfold select_var.
    change (c_strncmp (name bm_var) (lit "bootmode") 8) with (Some 0).
    unfold mbind, st_bind, lift. change (0 =? 0) with true. cbn iota.
    destruct (slice (boot_area s) _ _) as [src|]; [|done].
    destruct (blit bm 0 src) as [bm'|] eqn:E; [|done]. apply blit_length in E.
    unfold upd. change (size bm_var + 1) with 17. rewrite E, Hbm. done.
  - rewrite !length_app, length_take, length_replicate, length_drop, Hstack. done.
Qed.

(** A failed read can pass for a success: [idme_get_var] returns the
    driver's result, and the driver reports some failures as 0. *)
Theorem get_var_read_failure s i nv buf
    (Hsw : ∀ (d : D) slot p, (mmc_sw_part d slot p).2 = 1)
    (Hrd : ∀ (d : D) slot b, (mmc_read d slot b 512).2 = 0)
    (Hi : nvram_info !! i = Some nv) (Hg : length (gblock_buff s) = 512%nat) (Hbuf : buf ≠ []) :
  ∃ s' rest, idme_get_var (name nv) buf (Z.of_nat (length buf)) s = Some (s', (0, 0 :: rest)).
Proof.
  unfold idme_get_var. destruct buf as [|b0 buf]; [done|].
  assert (upd (b0 :: buf) 0 0 = Some (0 :: buf)) as -> by (by rewrite upd_Some by (cbn [length]; lia)).
  unfold mbind at 1, st_bind at 1. cbn [lift]. rewrite (find_table i nv Hi).
  unfold mbind at 1, st_bind at 1. cbn [lift]. fold (blk nv) (off nv).
  assert (∀ p s0, ∃ d, sw_part p s0 = Some (set_dev d s0, 1)) as Hswp.
  { intros p s0. unfold sw_part, CONFIG_MMC_BOOTFLASH. pose proof (Hsw (dev s0) 1 p) as Hr.
    destruct (mmc_sw_part _ _ _) as [d r]. cbn in Hr. subst r. eauto. }
  destruct (Hswp CONFIG_IDME_PARTITION_NUM s) as [d1 E1].
  unfold mbind at 1, st_bind at 1. rewrite E1. cbn [negb Z.eqb Pos.eqb].
  assert (∃ g, read_gblock (blk nv) (set_dev d1 s) = Some (set_gblock g (set_dev d1 s), 0)) as [g E2].
  { unfold read_gblock, read_block, CONFIG_MMC_BOOTFLASH, CONFIG_MMC_BLOCK_SIZE.
    pose proof (Hrd (dev (set_dev d1 s)) 1 (blk nv)) as Hr.
    pose proof (read_size (dev (set_dev d1 s)) 1 (blk nv)) as Hz.
    cbn [dev set_dev] in *.
    destruct (mmc_read d1 1 (blk nv) 512) as [l r] eqn:E. cbn in Hr, Hz. subst r.
    unfold mbind, st_bind, get, modify, lift. cbn [gblock_buff set_dev dev]. rewrite E.
    cbn [gblock_buff set_dev dev]. rewrite blit_Some by lia. eauto. }
  unfold mbind at 1, st_bind at 1. rewrite E2.
  destruct (Hswp 0 (set_gblock g (set_dev d1 s))) as [d2 E3].
  unfold mbind at 1, st_bind at 1. rewrite E3. cbn [negb Z.eqb Pos.eqb]. by eexists _, buf.
Qed.
End flaws.

Lemma update_large_overflows_witness :
  idme_update_var (lit "camcal") (Some (lit "1")) blank_board = None.
Proof.
  apply (update_large_overflows blank_board); [exact ram_reliable|reflexivity|by left].
Defined.

Lemma select_boot_image_overflows_witness :
  idme_select_boot_image (λ _, 1) (replicate 17 0) (lit "boot") asking_recovery = None.
Proof.
  apply (select_boot_image_overflows asking_recovery); [exact ram_reliable|reflexivity| |by vm_compute|reflexivity].
  intros n. apply ram_bytes. by_eval.
Defined.

(** A device whose reads fail with the result 0. *)
#[local] Definition unreadable : MmcDev ram := {|
  mmc_read d slot b size := (replicate 512 0, 0);
  mmc_write := mmc_write (D := ram);
  mmc_sw_part := mmc_sw_part (D := ram);
|}.

#[local] Definition unreadable_laws : @MmcLaws ram unreadable.
Proof.
  refine (@Build_MmcLaws ram unreadable ram_sector ram_selected ram_sector_size _ _ _ _ _ _ _ _).
  - intros d slot b l [=].
  - done.
  - exact (write_ok (D := ram)).
  - exact (write_other (D := ram)).
  - exact (write_selected (D := ram)).
  - exact (sw_ok (D := ram)).
  - exact (sw_fail (D := ram)).
  - exact (sw_contents (D := ram)).
Defined.

Lemma get_var_read_failure_witness :
  ∃ s' rest, @idme_get_var ram unreadable (lit "serial") (replicate 17 7) 17 blank_board
    = Some (s', (0, 0 :: rest)).
Proof.
  apply (@get_var_read_failure ram unreadable unreadable_laws blank_board 2
    (mkNvram (lit "serial") 20 16) (replicate 17 7)); done.
Defined.
