(* ===== verification/Gpt.v ===== *)
(** [board/bowser/mmc.c] and [include/flash_part.h]: the GUID partition table
    of the board, written by [fastboot oem format] and read back at boot into
    the partition table of [Ptable]. *)
From stdpp Require Import base tactics option list strings.
From Stdlib Require Import ZArith Lia.
From S2P Require Import Prelude.
From S2P Require Import CString.
From S2P Require Import MmcDev.
From S2P Require Import Eff.
From S2P Require Import CBuf.
From S2P Require Import Crc32.
From S2P Require Import Ptable.
From S2P Require Import Idme.
Open Scope Z_scope.

(** The other calls of [include/mmc.h] the board code and the fastboot
    commands make; the last two transfer to and from a physical address. *)
Class MmcCtl (D : Type) := {
  mmc_init : D → Z → D * Z;        (** slot; 0 on success *)
  mmc_info : D → Z → Z * Z;        (** slot; block size and sectors *)
  mmc_erase : D → Z → Z → Z → D * Z;      (** slot, start, size *)
  mmc_read_at : D → Z → Z → Z → Z → D * Z;   (** slot, source block, address, size *)
  mmc_write_at : D → Z → Z → Z → Z → D * Z;  (** slot, address, destination block, size *)
}.

(** ** Data *)

Definition EFI_VERSION : Z := 65536.
Definition EFI_ENTRIES : Z := 128.
Definition EFI_NAMELEN : Z := 36.

Definition partition_type : list Z :=
  [162; 160; 208; 235; 229; 185; 51; 68; 135; 192; 104; 182; 183; 38; 153; 199].
Definition random_uuid : list Z :=
  [255; 31; 242; 249; 212; 168; 14; 95; 151; 70; 89; 72; 105; 174; 195; 78].

Record efi_entry := mkEntry {
  type_uuid : list Z;      (** [u8[16]] *)
  uniq_uuid : list Z;      (** [u8[16]] *)
  e_first_lba : Z;         (** [u64] *)
  e_last_lba : Z;
  e_attr : Z;
  e_name : list Z;         (** [u16[EFI_NAMELEN]] *)
}.

Record efi_header := mkHeader {
  h_magic : list Z;        (** [u8[8]] *)
  h_version : Z;
  h_header_sz : Z;
  h_crc32 : Z;
  h_reserved : Z;
  h_header_lba : Z;        (** [u64] *)
  h_backup_lba : Z;
  h_first_lba : Z;
  h_last_lba : Z;
  h_volume_uuid : list Z;  (** [u8[16]] *)
  h_entries_lba : Z;       (** [u64] *)
  h_entries_count : Z;
  h_entries_size : Z;
  h_entries_crc32 : Z;
}.

(** [struct ptable]. *)
Record gpt := mkGpt {
  mbr : list Z;               (** [u8[512]] *)
  header : efi_header;        (** in a 512-byte block *)
  entry : list efi_entry;     (** [EFI_ENTRIES] *)
}.

(** ** Memory layout *)

Definition sizeof_header : Z := 92.

Definition header_bytes (h : efi_header) : list Z :=
  h_magic h ++ le_bytes 4 (h_version h) ++ le_bytes 4 (h_header_sz h) ++
  le_bytes 4 (h_crc32 h) ++ le_bytes 4 (h_reserved h) ++
  le_bytes 8 (h_header_lba h) ++ le_bytes 8 (h_backup_lba h) ++
  le_bytes 8 (h_first_lba h) ++ le_bytes 8 (h_last_lba h) ++ h_volume_uuid h ++
  le_bytes 8 (h_entries_lba h) ++ le_bytes 4 (h_entries_count h) ++
  le_bytes 4 (h_entries_size h) ++ le_bytes 4 (h_entries_crc32 h).

Fixpoint words (l : list Z) : list Z :=
  match l with a :: b :: l' => (a + 256 * b) :: words l' | _ => [] end.
Definition word_bytes (l : list Z) : list Z := l ≫= le_bytes 2.

Definition entry_bytes (e : efi_entry) : list Z :=
  type_uuid e ++ uniq_uuid e ++ le_bytes 8 (e_first_lba e) ++ le_bytes 8 (e_last_lba e) ++
  le_bytes 8 (e_attr e) ++ word_bytes (e_name e).

(** The bytes behind a [struct efi_entry *]. *)
Definition entry_of (l : list Z) : efi_entry :=
  mkEntry (take 16 l) (take 16 (drop 16 l)) (le_val (take 8 (drop 32 l)))
    (le_val (take 8 (drop 40 l))) (le_val (take 8 (drop 48 l))) (words (take 72 (drop 56 l))).

Definition gpt_bytes (p : gpt) : list Z :=
  mbr p ++ header_bytes (header p) ++ replicate 420 0 ++ (entry p ≫= entry_bytes).

(** ** Building a table *)

Definition init_mbr (m : list Z) (blocks : Z) : option (list Z) :=
  m ← blit m 446 [0; 255; 255; 255];
  m ← blit m 450 [238; 255; 255; 255];
  m ← blit m 454 [1; 0; 0; 0];
  m ← blit m 458 (le_bytes 4 blocks);
  blit m 510 [85; 170].

(** What [memset] of the whole table leaves in an entry. *)
Definition zero_entry : efi_entry :=
  mkEntry (replicate 16 0) (replicate 16 0) 0 0 0 (replicate 36 0).

Definition start_ptbl (blocks : Z) : option gpt :=
  m ← init_mbr (replicate 512 0) (u32 (blocks - 1));
  Some (mkGpt m
    (mkHeader (str "EFI PART") EFI_VERSION sizeof_header 0 0 1 (u32 (blocks - 1)) 34
       (u32 (blocks - 1)) random_uuid 2 EFI_ENTRIES 128 0)
    (replicate (Z.to_nat EFI_ENTRIES) zero_entry)).

Definition set_crc (h : efi_header) (ecrc crc : Z) : efi_header :=
  mkHeader (h_magic h) (h_version h) (h_header_sz h) crc (h_reserved h) (h_header_lba h)
    (h_backup_lba h) (h_first_lba h) (h_last_lba h) (h_volume_uuid h) (h_entries_lba h)
    (h_entries_count h) (h_entries_size h) ecrc.

Definition end_ptbl (p : gpt) : option gpt :=
  n ← crc32 0 [] 0;
  n ← crc32 n (entry p ≫= entry_bytes) (EFI_ENTRIES * 128);
  let p := mkGpt (mbr p) (set_crc (header p) n (h_crc32 (header p))) (entry p) in
  n ← crc32 0 [] 0;
  n ← crc32 0 (header_bytes (header p)) sizeof_header;
  Some (mkGpt (mbr p) (set_crc (header p) (h_entries_crc32 (header p)) n) (entry p)).

(** [for (n = 0; (n < EFI_NAMELEN) && *name; n++) entry->name[n] = *name++]
    on the rest of the name array. *)
Fixpoint copy_name (dst name : list Z) : option (list Z) :=
  match dst with
  | [] => Some []
  | d :: dst' =>
      match name with
      | [] => None
      | c :: name' => if c =? 0 then Some dst else r ← copy_name dst' name'; Some (c :: r)
      end
  end.

(** The loop over the entries from index [n] on: [None] inside when there is
    no free one. *)
Fixpoint add_entry (es : list efi_entry) (n first last : Z) (name : list Z)
    : option (option (list efi_entry)) :=
  match es with
  | [] => Some None
  | e :: es' =>
      if negb (e_last_lba e =? 0) then
        r ← add_entry es' (n + 1) first last name; Some (option_map (cons e) r)
      else
        uniq ← upd random_uuid 0 (u8 n);
        nm ← copy_name (e_name e) name;
        Some (Some (mkEntry partition_type uniq first last (e_attr e) nm :: es'))
  end.

Definition add_ptn (p : gpt) (first last : Z) (name : list Z) : option (gpt * Z) :=
  if first <? 34 then Some (p, -1) else
  if h_last_lba (header p) <? last then Some (p, -1) else
  r ← add_entry (entry p) 0 first last name;
  Some (match r with Some es => (mkGpt (mbr p) (header p) es, 0) | None => (p, -1) end).

(** The static partition list. *)
Record partition := mkPartition { pt_name : list Z; size_kb : Z }.

Definition partitions : list partition := [
  mkPartition (lit "-") 128;
  mkPartition (lit "xloader") 128;
  mkPartition (lit "bootloader") 256;
  mkPartition (lit "idme") 64;
  mkPartition (lit "crypto") 16;
  mkPartition (lit "misc") 2;
  mkPartition (lit "-") 430;
  mkPartition (lit "dkernel") (10 * 1024);
  mkPartition (lit "dfs") (192 * 1024);
  mkPartition (lit "efs") (16 * 1024);
  mkPartition (lit "recovery") (8 * 1024);
  mkPartition (lit "boot") (8 * 1024);
  mkPartition (lit "system") (886 * 1024);
  mkPartition (lit "cache") (650 * 1024);
  mkPartition (lit "userdata") 0 ].

(** The loop of [do_format]. *)
Fixpoint format_loop (ps : list partition) (blocks : Z) (p : gpt) (next : Z) : option (gpt * Z) :=
  match ps with
  | [] => Some (p, 0)
  | pt :: ps' =>
      let sz := u32 (size_kb pt * 2) in
      r ← c_strcmp (pt_name pt) (lit "-");
      if r =? 0 then format_loop ps' blocks p (u32 (next + sz)) else
      let sz := if sz =? 0 then u32 (blocks - next) else sz in
      '(p, r) ← add_ptn p next (u32 (u32 (next + sz) - 1)) (pt_name pt);
      if negb (r =? 0) then Some (p, -1) else format_loop ps' blocks p (u32 (next + sz))
  end.

(** ** Reading a table *)

Definition import_efi_partition (e : efi_entry) (t : ptn_table) : option ptn_table :=
  if negb (c_memcmp (type_uuid e) partition_type =? 0) then Some t else
  let name := take 15 (u8 <$> e_name e) ++ [0] in
  let start := u32 (e_first_lba e) in
  let length := u64 ((e_last_lba e - e_first_lba e + 1) * 512) in
  r ← c_strcmp name (lit "environment");
  let flags := if r =? 0 then FASTBOOT_PTENTRY_FLAGS_WRITE_ENV else 0 in
  fastboot_flash_add_ptn t (mkPtentry name start length flags).

Fixpoint import_all (es : list efi_entry) (t : ptn_table) : option ptn_table :=
  match es with
  | [] => Some t
  | e :: es' => t ← import_efi_partition e t; import_all es' t
  end.

(** The four entries of a sector. *)
Definition sector_entries (l : list Z) : list efi_entry :=
  (λ m, entry_of (take 128 (drop (128 * m) l))) <$> [0; 1; 2; 3]%nat.

(** What the board code keeps: the state of [Idme] (with the device) and the
    table of [Ptable]. *)
Record board (D : Type) := mkBoard { b_idme : idme D; b_table : ptn_table }.
Arguments mkBoard {D}.
Arguments b_idme {D}.
Arguments b_table {D}.

Section ops.
Context {D : Type} `{MmcDev D} `{MmcCtl D}.
#[local] Abbreviation G := (ST (board D)).

Definition g_init (slot : Z) : G Z := λ s,
  let '(d, r) := mmc_init (dev (b_idme s)) slot in
  Some (mkBoard (set_dev d (b_idme s)) (b_table s), r).
Definition g_info (slot : Z) : G (Z * Z) := λ s, Some (s, mmc_info (dev (b_idme s)) slot).
Definition g_read (slot block : Z) : G (list Z * Z) := λ s,
  Some (s, mmc_read (dev (b_idme s)) slot block 512).
Definition g_write (slot : Z) (data : list Z) (block : Z) : G Z := λ s,
  let '(d, r) := mmc_write (dev (b_idme s)) slot data block in
  Some (mkBoard (set_dev d (b_idme s)) (b_table s), r).
Definition set_table (t : ptn_table) (s : board D) : board D := mkBoard (b_idme s) t.

(** [for (n = 0; n < (128/4); n++)] of [load_ptbl], [k] rounds from [n]. *)
Fixpoint load_loop (k : nat) (n : Z) : G Z :=
  match k with
  | O => mret 0
  | S k' =>
      '(data, r) ← g_read 1 (1 + n);
      if negb (r =? 1) then mret 1 else
      s ← get;
      t ← lift (import_all (sector_entries data) (b_table s));
      _ ← modify (set_table t);
      load_loop k' (n + 1)
  end.

(** [do_format], given the [load_ptbl] it calls at its end. *)
Definition do_format_with (load : G Z) : G Z :=
  r ← g_init 1;
  if negb (r =? 0) then mret (-1) else
  '(_, blocks) ← g_info 1;
  p ← lift (start_ptbl blocks);
  '(p, r) ← lift (format_loop partitions blocks p 0);
  if negb (r =? 0) then mret (-1) else
  p ← lift (end_ptbl p);
  _ ← modify (λ s, set_table (fastboot_flash_reset_ptn (b_table s)) s);
  r ← g_write 1 (gpt_bytes p) 0;
  if negb (r =? 1) then mret (-1) else
  _ ← load;
  mret 0.

(** [load_ptbl] and [do_format] call each other; the fuel bounds the depth of
    the recursion. *)
Fixpoint load_ptbl (fuel : nat) : G Z :=
  match fuel with
  | O => lift None
  | S fuel' =>
      '(data, r) ← g_read 1 1;
      if negb (r =? 1) then mret (-1) else
      if negb (c_memcmp (take 8 data) (str "EFI PART") =? 0) then
        _ ← do_format_with (load_ptbl fuel'); mret (-1)
      else load_loop 32 0
  end.

Definition do_format (fuel : nat) : G Z := do_format_with (load_ptbl fuel).

Definition fastboot_oem (fuel : nat) (cmd : list Z) : G Z :=
  r ← lift (c_strcmp cmd (lit "format"));
  if r =? 0 then do_format fuel else mret (-1).

(** [idme_update_vars_ex] on the board's state. *)
Definition on_idme {A} (m : ST (idme D) A) : G A := λ s,
  match m (b_idme s) with Some (i, a) => Some (mkBoard i (b_table s), a) | None => None end.

Definition board_late_init (fuel : nat) : G Z :=
  r ← g_init 1;
  if negb (r =? 0) then mret 1 else
  _ ← on_idme idme_update_vars_ex;
  load_ptbl fuel.
End ops.
