(* ===== verification/GptSpec.v ===== *)
(** The partition table of [Gpt]: what [do_format] writes is a valid GUID
    partition table, reading it back gives the static layout, and a device
    that does not answer sends the boot code into endless recursion. *)
From stdpp Require Import base tactics option list strings.
From Stdlib Require Import ZArith Lia.
From S2P Require Import Prelude.
From S2P Require Import CString.
From S2P Require Import MmcDev.
From S2P Require Import Eff.
From S2P Require Import CBuf.
From S2P Require Import Crc32.
From S2P Require Import Ptable.
From S2P Require Import Idme.
From S2P Require Import Gpt.
Open Scope Z_scope.

(** ** Byte layout *)

Record entry_ok (e : efi_entry) : Prop := mkEntryOk {
  eo_type : length (type_uuid e) = 16%nat;
  eo_uniq : length (uniq_uuid e) = 16%nat;
  eo_type_bytes : bytes (type_uuid e);
  eo_uniq_bytes : bytes (uniq_uuid e);
  eo_first : 0 <= e_first_lba e < 2 ^ 64;
  eo_last : 0 <= e_last_lba e < 2 ^ 64;
  eo_attr : 0 <= e_attr e < 2 ^ 64;
  eo_name : length (e_name e) = 36%nat;
  eo_chars : Forall (λ c, 0 <= c < 65536) (e_name e);
}.

Lemma word_bytes_length l : length (word_bytes l) = (2 * length l)%nat.
Proof.
  induction l as [|x l IH]; [done|]. change (word_bytes (x :: l)) with (le_bytes 2 x ++ word_bytes l).
  rewrite length_app, le_bytes_length, IH. cbn [length]. lia.
Qed.

Lemma words_word_bytes l : Forall (λ c, 0 <= c < 65536) l → words (word_bytes l) = l.
Proof.
  induction 1 as [|x l Hx Hl IH]; [done|].
  change (word_bytes (x :: l)) with (le_bytes 2 x ++ word_bytes l). cbn [le_bytes app words].
  rewrite IH. f_equal. unfold u8. dm_lia.
Qed.

Lemma entry_bytes_length e : entry_ok e → length (entry_bytes e) = 128%nat.
Proof.
  intros []. unfold entry_bytes. rewrite !length_app, !le_bytes_length, word_bytes_length. lia.
Qed.

Lemma take_mid {A} (a b c : list A) (n k : nat) :
  length a = n → length b = k → take k (drop n (a ++ b ++ c)) = b.
Proof.
  intros <- <-. rewrite drop_app_length. apply take_app_length.
Qed.

Lemma entry_of_bytes e : entry_ok e → entry_of (entry_bytes e) = e.
Proof.
  intros Hok. pose proof Hok as []. unfold entry_of, entry_bytes. destruct e as [ty un fi la at_ nm].
  cbn [type_uuid uniq_uuid e_first_lba e_last_lba e_attr e_name] in *. f_equal.
  - rewrite take_app_le by lia. apply take_ge. lia.
  - by apply take_mid.
  - rewrite (app_assoc ty un). rewrite take_mid by (rewrite ?length_app, ?le_bytes_length; lia).
    rewrite le_val_bytes. apply Z.mod_small. lia.
  - rewrite (app_assoc ty un), (app_assoc (ty ++ un)).
    rewrite take_mid by (rewrite ?length_app, ?le_bytes_length; lia).
    rewrite le_val_bytes. apply Z.mod_small. lia.
  - rewrite (app_assoc ty un), (app_assoc (ty ++ un)), (app_assoc ((ty ++ un) ++ _)).
    rewrite take_mid by (rewrite ?length_app, ?le_bytes_length; lia).
    rewrite le_val_bytes. apply Z.mod_small. lia.
  - rewrite !(app_assoc _ _ (word_bytes nm)). rewrite !app_assoc.
    rewrite drop_app_length' by (rewrite !length_app, !le_bytes_length; lia).
    rewrite take_ge by (rewrite word_bytes_length; lia). by apply words_word_bytes.
Qed.

Lemma entries_bytes_length es : Forall entry_ok es → length (es ≫= entry_bytes) = (128 * length es)%nat.
Proof.
  induction 1 as [|e es He Hes IH]; [done|].
  change ((e :: es) ≫= entry_bytes) with (entry_bytes e ++ (es ≫= entry_bytes)).
  rewrite length_app, entry_bytes_length, IH by done. cbn [length]. lia.
Qed.

Lemma drop_entries es (j : nat) :
  Forall entry_ok es → drop (128 * j) (es ≫= entry_bytes) = drop j es ≫= entry_bytes.
Proof.
  intros H. revert j. induction H as [|e es He Hes IH]; intros j; [rewrite drop_nil; apply drop_nil|].
  destruct j as [|j]; [by rewrite Nat.mul_0_r|]. cbn [drop]. rewrite <-IH.
  change ((e :: es) ≫= entry_bytes) with (entry_bytes e ++ (es ≫= entry_bytes)).
  rewrite drop_app_ge by (rewrite entry_bytes_length by done; lia).
  rewrite entry_bytes_length by done. f_equal. lia.
Qed.

(** The four entries of the [k]-th sector of the array. *)
Lemma sector_entries_array es (k : nat) :
  Forall entry_ok es → (4 * k + 4 <= length es)%nat →
  sector_entries (take 512 (drop (512 * k) (es ≫= entry_bytes))) = take 4 (drop (4 * k) es).
Proof.
  intros H Hl. replace (512 * k)%nat with (128 * (4 * k))%nat by lia. rewrite drop_entries by done.
  assert (length (drop (4 * k) es) >= 4)%nat as Hd by (rewrite length_drop; lia).
  apply (Forall_drop _ (4 * k)) in H. destruct (drop (4 * k) es) as [|a [|b [|c [|d r]]]]; cbn in Hd; try lia.
  clear Hd Hl. repeat match goal with H : Forall _ (_ :: _) |- _ => apply Forall_cons in H as [? H] end.
  cbn [take]. unfold sector_entries. cbn [fmap list_fmap].
  change ((a :: b :: c :: d :: r) ≫= entry_bytes) with
    (entry_bytes a ++ entry_bytes b ++ entry_bytes c ++ entry_bytes d ++ (r ≫= entry_bytes)).
  pose proof (entry_bytes_length a ltac:(done)) as La. pose proof (entry_bytes_length b ltac:(done)) as Lb.
  pose proof (entry_bytes_length c ltac:(done)) as Lc. pose proof (entry_bytes_length d ltac:(done)) as Ld.
  assert (∀ (x y z : list Z) (n : nat), length x = n → length y = 128%nat → (n + 128 <= 512)%nat →
    take 128 (drop n (take 512 (x ++ y ++ z))) = y) as HT.
  { intros x y z n Hx Hy Hn. rewrite skipn_firstn_comm, take_take, Nat.min_l by lia. by apply take_mid. }
  set (w := entry_bytes a ++ entry_bytes b ++ entry_bytes c ++ entry_bytes d ++ (r ≫= entry_bytes)).
  assert (take 128 (drop (128 * 0) (take 512 w)) = entry_bytes a) as -> by (apply (HT []); done || lia).
  assert (take 128 (drop (128 * 1) (take 512 w)) = entry_bytes b) as -> by (apply HT; done || lia).
  assert (take 128 (drop (128 * 2) (take 512 w)) = entry_bytes c) as ->.
  { unfold w. rewrite (app_assoc (entry_bytes a)). apply HT; rewrite ?length_app; lia. }
  assert (take 128 (drop (128 * 3) (take 512 w)) = entry_bytes d) as ->.
  { unfold w. rewrite (app_assoc (entry_bytes a)), (app_assoc (_ ++ entry_bytes b)).
    apply HT; rewrite ?length_app; lia. }
  by rewrite !entry_of_bytes.
Qed.

(** ** Adding partitions *)

Definition pad (name : list Z) (n : nat) : list Z := cut name ++ replicate (n - length (cut name)) 0.

Definition made_entry (n : Z) (x : list Z * Z * Z) : efi_entry :=
  let '(name, first, last) := x in
  mkEntry partition_type (<[0%nat:=u8 n]> random_uuid) first last 0 (pad name 36).

Fixpoint made_entries (n : Z) (ls : list (list Z * Z * Z)) : list efi_entry :=
  match ls with [] => [] | x :: ls' => made_entry n x :: made_entries (n + 1) ls' end.

(** Where the partitions of a list go: the gaps are the entries named "-". *)
Fixpoint layout (ps : list partition) (blocks next : Z) : list (list Z * Z * Z) :=
  match ps with
  | [] => []
  | pt :: ps' =>
      let sz := u32 (size_kb pt * 2) in
      if decide (cut (pt_name pt) = str "-") then layout ps' blocks (u32 (next + sz)) else
      let sz := if sz =? 0 then u32 (blocks - next) else sz in
      (pt_name pt, next, u32 (u32 (next + sz) - 1)) :: layout ps' blocks (u32 (next + sz))
  end.

Definition fits (blocks : Z) (x : list Z * Z * Z) : Prop :=
  let '(name, first, last) := x in
  0 ∈ name ∧ (length (cut name) <= 36)%nat ∧ 34 <= first < 2 ^ 32 ∧ 0 < last <= u32 (blocks - 1).

Lemma copy_name_spec name k :
  0 ∈ name → (length (cut name) <= k)%nat → copy_name (replicate k 0) name = Some (pad name k).
Proof.
  unfold pad. revert name. induction k as [|k IH]; intros name H0 Hl.
  - destruct (cut name); [done|cbn in Hl; lia].
  - cbn [replicate copy_name]. destruct name as [|c name]; [by apply not_elem_of_nil in H0|].
    cbn [cut] in *. destruct (Z.eqb_spec c 0) as [->|Hc]; [done|].
    apply elem_of_cons in H0 as [|H0]; [done|]. cbn [length] in Hl.
    rewrite IH by (done || lia). cbn [mbind option_bind length app]. done.
Qed.

Lemma add_entry_free pre n first last name rest :
  Forall (λ e, e_last_lba e ≠ 0) pre → 0 ∈ name → (length (cut name) <= 36)%nat →
  add_entry (pre ++ zero_entry :: rest) n first last name =
    Some (Some (pre ++ made_entry (n + Z.of_nat (length pre)) (name, first, last) :: rest)).
Proof.
  intros Hpre H0 Hl. revert n. induction Hpre as [|e pre He Hpre IH]; intros n.
  - cbn [app add_entry]. change (e_last_lba zero_entry =? 0) with true. cbn [negb].
    rewrite upd_Some by (cbn; lia). cbn [mbind option_bind e_name zero_entry].
    rewrite copy_name_spec by done. cbn [mbind option_bind length made_entry]. by rewrite Z.add_0_r.
  - cbn [app add_entry]. destruct (Z.eqb_spec (e_last_lba e) 0); [done|]. cbn [negb].
    rewrite IH. cbn [mbind option_bind option_map length].
    replace (n + 1 + Z.of_nat (length pre)) with (n + Z.of_nat (S (length pre))) by lia. done.
Qed.

Lemma format_loop_spec ps blocks p next pre (k : nat) :
  Forall (λ pt, 0 ∈ pt_name pt ∧ bytes (pt_name pt)) ps →
  entry p = pre ++ replicate k zero_entry →
  Forall (λ e, e_last_lba e ≠ 0) pre →
  h_last_lba (header p) = u32 (blocks - 1) →
  Forall (fits blocks) (layout ps blocks next) →
  (length (layout ps blocks next) <= k)%nat →
  format_loop ps blocks p next =
    Some (mkGpt (mbr p) (header p)
      (pre ++ made_entries (Z.of_nat (length pre)) (layout ps blocks next) ++
       replicate (k - length (layout ps blocks next)) zero_entry), 0).
Proof.
  intros Hps. revert p next pre k. induction Hps as [|pt ps [Hn Hb] Hps IH];
    intros p next pre k Hp Hpre Hh Hfit Hk.
  - cbn. rewrite Nat.sub_0_r, <-Hp. by destruct p.
  - cbn [format_loop layout] in *.
    destruct (c_strcmp_spec (pt_name pt) (lit "-")) as (r & -> & Hr); [done|by_eval|done|by_eval|].
    cbn [mbind option_bind]. change (cut (lit "-")) with (str "-") in Hr. case_decide as Hd.
    + assert (r = 0) as -> by tauto. change (0 =? 0) with true. cbv iota. by apply IH.
    + destruct (Z.eqb_spec r 0) as [|_]; [tauto|].
      set (sz := if u32 (size_kb pt * 2) =? 0 then u32 (blocks - next) else u32 (size_kb pt * 2)) in *.
      apply Forall_cons in Hfit as [(Hn0 & Hl & Hf & Hla) Hfit]. cbn [length] in Hk.
      unfold add_ptn. destruct (Z.ltb_spec next 34); [lia|]. rewrite Hh.
      destruct (Z.ltb_spec (u32 (blocks - 1)) (u32 (u32 (next + sz) - 1))); [lia|].
      rewrite Hp. destruct k as [|k]; [lia|]. cbn [replicate].
      rewrite add_entry_free by done. cbn [mbind option_bind]. change (negb (0 =? 0)) with false. cbv iota.
      set (e := made_entry _ _). rewrite (IH _ _ (pre ++ [e]) k); cbn [entry header mbr].
      * f_equal. f_equal. f_equal. rewrite <-app_assoc. cbn [app made_entries length].
        rewrite length_app. cbn [length]. unfold e. rewrite Z.add_0_l.
        replace (Z.of_nat (length pre + 1)) with (Z.of_nat (length pre) + 1) by lia. done.
      * by rewrite <-app_assoc.
      * apply Forall_app. split; [done|]. constructor; [|done]. cbn. lia.
      * done.
      * done.
      * lia.
Qed.

(** ** Importing *)

Definition to_ptentry (x : list Z * Z * Z) : fastboot_ptentry :=
  let '(name, first, last) := x in
  mkPtentry (pad name 16) first (u64 ((last - first + 1) * 512))
    (if decide (cut name = str "environment") then FASTBOOT_PTENTRY_FLAGS_WRITE_ENV else 0).

(** What the flash code can name and address. *)
Definition importable (x : list Z * Z * Z) : Prop :=
  let '(name, first, _) := x in
  bytes name ∧ (length (cut name) <= 15)%nat ∧ is_u32 first.

Lemma cut_bytes l : bytes l → bytes (cut l).
Proof.
  induction 1 as [|x l Hx Hl IH]; [constructor|]. cbn. destruct (x =? 0); [constructor|by constructor].
Qed.

Lemma pad_16 name : bytes name → (length (cut name) <= 15)%nat →
  take 15 (u8 <$> pad name 36) ++ [0] = pad name 16.
Proof.
  intros Hb Hl. unfold pad. apply cut_bytes in Hb. rewrite fmap_app.
  assert (u8 <$> cut name = cut name) as ->.
  { induction Hb as [|x l Hx Hl' IH]; [done|]. cbn [fmap list_fmap]. f_equal; [by apply u8_id|].
    apply IH. cbn in Hl. lia. }
  rewrite fmap_replicate. rewrite take_app, take_ge by done. rewrite take_replicate, <-app_assoc. f_equal.
  change (u8 0) with 0. change [0] with (replicate 1 0). rewrite <-replicate_add. f_equal. lia.
Qed.

Lemma cut_pad name n : (length (cut name) < n)%nat → cut (pad name n) = cut name.
Proof.
  intros Hl. unfold pad. destruct (n - length (cut name))%nat as [|k] eqn:E; [lia|].
  cbn [replicate]. apply cut_app, cut_nonzero.
Qed.

Lemma pad_terminated name n : (length (cut name) < n)%nat → 0 ∈ pad name n.
Proof. intros. apply elem_of_app. right. apply elem_of_replicate. split; [done|lia]. Qed.

Lemma pad_bytes name n : bytes name → bytes (pad name n).
Proof. intros. apply bytes_app. split; [by apply cut_bytes|]. by apply bytes_replicate. Qed.

Lemma import_made n x t : importable x →
  import_efi_partition (made_entry n x) t = fastboot_flash_add_ptn t (to_ptentry x).
Proof.
  destruct x as [[name first] last]. intros (Hb & Hl & Hf). unfold import_efi_partition.
  cbn [made_entry type_uuid e_name e_first_lba e_last_lba].
  change (c_memcmp partition_type partition_type =? 0) with true. cbn [negb].
  rewrite pad_16 by done. rewrite (u32_id first) by done.
  destruct (c_strcmp_spec (pad name 16) (lit "environment")) as (r & -> & Hr);
    [by apply pad_terminated; lia|by_eval|by apply pad_bytes|by_eval|]. cbn [mbind option_bind].
  rewrite cut_pad in Hr by lia. change (cut (lit "environment")) with (str "environment") in Hr.
  unfold to_ptentry. do 2 f_equal. case_decide; destruct (Z.eqb_spec r 0); tauto.
Qed.

(** An entry whose type starts with another byte is skipped. *)
Lemma import_other x l t : x ≠ 162 → import_efi_partition (entry_of (x :: l)) t = Some t.
Proof.
  intros Hx. unfold import_efi_partition, entry_of. cbn [type_uuid take].
  unfold c_memcmp, partition_type. cbn [first_diff].
  destruct (Z.eqb_spec (x - 162) 0) as [|_]; [lia|]. destruct (Z.eqb_spec (x - 162) 0); [lia|done].
Qed.

Lemma import_all_app l1 l2 t :
  import_all (l1 ++ l2) t = t ← import_all l1 t; import_all l2 t.
Proof.
  revert t. induction l1 as [|e l1 IH]; intros t; [done|]. cbn [app import_all].
  destruct (import_efi_partition e t); [|done]. cbn [mbind option_bind]. apply IH.
Qed.

Lemma import_zeros k t : import_all (replicate k zero_entry) t = Some t.
Proof. induction k as [|k IH]; [done|]. cbn [replicate import_all]. exact IH. Qed.

Lemma import_made_all n ls t pre rest :
  Forall importable ls →
  ptable t = pre ++ rest → pcount t = Z.of_nat (length pre) → (length (ptable t) = 16)%nat →
  (length ls <= length rest)%nat →
  import_all (made_entries n ls) t =
    Some (mkTable (pre ++ (to_ptentry <$> ls) ++ drop (length ls) rest)
      (Z.of_nat (length pre + length ls))).
Proof.
  intros Hls. revert n t pre rest. induction Hls as [|x ls Hx Hls IH]; intros n t pre rest Ht Hc Hl Hr.
  - cbn. rewrite Nat.add_0_r, drop_0, <-Hc, <-Ht. by destruct t.
  - cbn [made_entries import_all]. rewrite import_made by done.
    destruct rest as [|y rest]; [cbn in Hr; lia|].
    assert (length pre < 16)%nat as Hpre by (rewrite Ht, length_app in Hl; cbn in Hl; lia).
    unfold fastboot_flash_add_ptn, MAX_PTN. rewrite Hc. destruct (Z.ltb_spec (Z.of_nat (length pre)) 16); [|lia].
    rewrite upd_Some by (rewrite Hl; lia). cbn [mbind option_bind].
    rewrite Nat2Z.id, Ht, insert_app_r_alt, Nat.sub_diag by lia. cbn [insert list_insert].
    rewrite (IH (n + 1) _ (pre ++ [to_ptentry x]) rest).
    + cbn [fmap list_fmap drop length app]. rewrite <-app_assoc, length_app. cbn [length app].
      replace (length pre + 1 + length ls)%nat with (length pre + S (length ls))%nat by lia. done.
    + cbn [ptable]. by rewrite <-app_assoc.
    + cbn [pcount]. rewrite length_app. cbn [length]. lia.
    + cbn [ptable]. rewrite Ht, !length_app in *. cbn [length] in *. lia.
    + cbn in Hr. lia.
Qed.

(** ** The static layout *)

Definition fixed_partitions : list partition := removelast partitions.

Lemma layout_app l1 l2 blocks next :
  Forall (λ pt, u32 (size_kb pt * 2) ≠ 0) l1 →
  layout (l1 ++ l2) blocks next = layout l1 0 next ++
    layout l2 blocks (foldl (λ n pt, u32 (n + u32 (size_kb pt * 2))) next l1).
Proof.
  intros H. revert next. induction H as [|pt l1 Hpt H IH]; intros next; [done|].
  cbn [app layout foldl]. case_decide; [apply IH|].
  destruct (Z.eqb_spec (u32 (size_kb pt * 2)) 0) as [|_]; [done|]. cbn [app]. f_equal. apply IH.
Qed.

(** Name, first and last sector. *)
Definition fixed_layout : list (list Z * Z * Z) := [
  (lit "xloader", 256, 511); (lit "bootloader", 512, 1023); (lit "idme", 1024, 1151);
  (lit "crypto", 1152, 1183); (lit "misc", 1184, 1187); (lit "dkernel", 2048, 22527);
  (lit "dfs", 22528, 415743); (lit "efs", 415744, 448511); (lit "recovery", 448512, 464895);
  (lit "boot", 464896, 481279); (lit "system", 481280, 2295807); (lit "cache", 2295808, 3627007)].

Definition userdata_first : Z := 3627008.

Lemma partitions_layout blocks :
  layout partitions blocks 0 = fixed_layout ++ [(lit "userdata", userdata_first, u32 (blocks - 1))].
Proof.
  change partitions with (fixed_partitions ++ [mkPartition (lit "userdata") 0]).
  rewrite layout_app by by_eval. assert (layout fixed_partitions 0 0 = fixed_layout) as -> by (by vm_compute). f_equal.
  change (foldl _ 0 fixed_partitions) with userdata_first. cbn [layout pt_name size_kb].
  rewrite decide_False by by_eval. change (u32 (0 * 2) =? 0) with true. cbv iota.
  do 2 f_equal. unfold userdata_first. int_lia.
Qed.

Lemma layout_length blocks : length (layout partitions blocks 0) = 13%nat.
Proof. by rewrite partitions_layout. Qed.

Lemma partitions_fit blocks :
  userdata_first - 1 <= u32 (blocks - 1) → Forall (fits blocks) (layout partitions blocks 0).
Proof.
  intros Hb. rewrite partitions_layout. apply Forall_app. unfold userdata_first in *. split.
  - repeat (constructor; [split; [by_eval|split; [by_eval|lia]]|]). constructor.
  - constructor; [|constructor]. split; [by_eval|split; [by_eval|lia]].
Qed.

Lemma partitions_importable blocks : Forall importable (layout partitions blocks 0).
Proof.
  rewrite partitions_layout. apply Forall_app. split.
  - repeat (constructor; [split; [by_eval|split; [by_eval|by_eval]]|]). constructor.
  - constructor; [|constructor]. split; [by_eval|split; [by_eval|by_eval]].
Qed.

Lemma made_entries_length n ls : length (made_entries n ls) = length ls.
Proof. revert n. induction ls as [|x ls IH]; intros n; [done|]. cbn. by rewrite IH. Qed.

Lemma made_entry_ok n x blocks : fits blocks x → importable x → entry_ok (made_entry n x).
Proof.
  destruct x as [[name first] last]. intros (_ & Hl & Hf & Hla) (Hb & _).
  pose proof (u32_range (blocks - 1)) as Hr. unfold is_u32 in Hr.
  split; cbn [made_entry type_uuid uniq_uuid e_first_lba e_last_lba e_attr e_name]; try lia.
  - done.
  - by rewrite length_insert.
  - by_eval.
  - apply Forall_insert; [by_eval|apply u8_byte].
  - unfold pad. rewrite length_app, length_replicate. lia.
  - apply (Forall_impl is_byte); [by apply pad_bytes|]. unfold is_byte. lia.
Qed.

Lemma zero_entry_ok : entry_ok zero_entry.
Proof. split; by_eval. Qed.

(** The entries of the table [do_format] builds. *)
Definition format_entries (blocks : Z) : list efi_entry :=
  made_entries 0 (layout partitions blocks 0) ++ replicate 115 zero_entry.

Lemma format_entries_length blocks : length (format_entries blocks) = 128%nat.
Proof.
  unfold format_entries. by rewrite length_app, made_entries_length, partitions_layout.
Qed.

Lemma format_entries_ok blocks :
  userdata_first - 1 <= u32 (blocks - 1) → Forall entry_ok (format_entries blocks).
Proof.
  intros Hb. apply Forall_app. split.
  - pose proof (partitions_fit blocks Hb) as Hf. pose proof (partitions_importable blocks) as Hi.
    generalize 0 at 1. revert Hf Hi. generalize (layout partitions blocks 0). intros ls Hf.
    induction Hf as [|x ls Hx Hf IH]; intros Hi n; [constructor|].
    apply Forall_cons in Hi as [? Hi]. cbn. constructor; [by eapply made_entry_ok|by apply IH].
  - apply Forall_replicate, zero_entry_ok.
Qed.

(** ** The table [do_format] writes *)

Lemma init_mbr_spec blocks : ∃ m, init_mbr (replicate 512 0) blocks = Some m ∧ length m = 512%nat ∧
  slice m 510 2 = Some [85; 170] ∧ slice m 450 1 = Some [238] ∧ bytes m.
Proof.
  unfold init_mbr. assert (length (replicate 512 0) = 512%nat) as L0 by done.
  assert (bytes (replicate 512 0)) as B0 by by_eval. revert L0 B0. generalize (replicate 512 0). intros m0 L0 B0.
  destruct (blit m0 446 [0; 255; 255; 255]) as [m1|] eqn:E1; [|by rewrite blit_Some in E1 by (cbn; lia)].
  pose proof (blit_length _ _ _ _ E1) as L1. pose proof (blit_bytes _ _ _ _ E1 B0 ltac:(by_eval)) as B1.
  cbn [mbind option_bind].
  destruct (blit m1 450 [238; 255; 255; 255]) as [m2|] eqn:E2; [|by rewrite blit_Some in E2 by (cbn; lia)].
  pose proof (blit_length _ _ _ _ E2) as L2. pose proof (blit_bytes _ _ _ _ E2 B1 ltac:(by_eval)) as B2.
  cbn [mbind option_bind].
  destruct (blit m2 454 [1; 0; 0; 0]) as [m3|] eqn:E3; [|by rewrite blit_Some in E3 by (cbn; lia)].
  pose proof (blit_length _ _ _ _ E3) as L3. pose proof (blit_bytes _ _ _ _ E3 B2 ltac:(by_eval)) as B3.
  cbn [mbind option_bind].
  destruct (blit m3 458 (le_bytes 4 blocks)) as [m4|] eqn:E4;
    [|by rewrite blit_Some in E4 by (rewrite ?le_bytes_length; lia)].
  pose proof (blit_length _ _ _ _ E4) as L4. pose proof (blit_bytes _ _ _ _ E4 B3 (le_bytes_bytes _ _)) as B4.
  cbn [mbind option_bind].
  destruct (blit m4 510 [85; 170]) as [m5|] eqn:E5; [|by rewrite blit_Some in E5 by (cbn; lia)].
  pose proof (blit_length _ _ _ _ E5) as L5. pose proof (blit_bytes _ _ _ _ E5 B4 ltac:(by_eval)) as B5.
  exists m5. split_and!; [done|lia|by apply (slice_blit_same _ _ _ _ E5)| |done].
  rewrite (slice_blit_other _ _ _ _ 450 1 E5) by (cbn; lia).
  rewrite (slice_blit_other _ _ _ _ 450 1 E4) by (cbn; lia).
  rewrite (slice_blit_other _ _ _ _ 450 1 E3) by (cbn; lia).
  pose proof (slice_blit_same _ _ _ _ E2) as E. apply slice_inv in E as [? E].
  rewrite slice_Some by lia. f_equal. revert E. generalize (drop (Z.to_nat 450) m2). intros l E.
  change (Z.to_nat (Z.of_nat (length [238; 255; 255; 255]))) with 4%nat in E.
  destruct l as [|x l]; [done|]. by injection E as <- _.
Qed.

Lemma word_bytes_bytes l : bytes (word_bytes l).
Proof.
  induction l as [|x l IH]; [constructor|].
  change (word_bytes (x :: l)) with (le_bytes 2 x ++ word_bytes l). apply bytes_app.
  split; [apply le_bytes_bytes|done].
Qed.

Lemma entries_bytes es : Forall entry_ok es → bytes (es ≫= entry_bytes).
Proof.
  induction 1 as [|e es [] Hes IH]; [constructor|].
  change ((e :: es) ≫= entry_bytes) with (entry_bytes e ++ (es ≫= entry_bytes)).
  apply bytes_app. split; [|done]. unfold entry_bytes. rewrite !bytes_app.
  split_and!; done || apply le_bytes_bytes || apply word_bytes_bytes.
Qed.

(** A number in the table. *)
Definition word_at (l : list Z) (off n : Z) : option Z := le_val <$> slice l off n.

(** The checks the UEFI specification asks of a reader of a table, on its
    first 34 sectors. *)
Record valid_gpt (l : list Z) : Prop := mkValid {
  vg_len : length l = Z.to_nat 17408;
  vg_mbr_sig : slice l 510 2 = Some [85; 170];
  vg_mbr_type : slice l 450 1 = Some [238];
  vg_magic : slice l 512 8 = Some (str "EFI PART");
  vg_header_lba : word_at l 536 8 = Some 1;
  vg_entries_lba : word_at l 584 8 = Some 2;
  vg_count : word_at l 592 4 = Some 128;
  vg_size : word_at l 596 4 = Some 128;
  vg_entries_crc : word_at l 600 4 = crc32 0 (drop (Z.to_nat 1024) l) (128 * 128);
  vg_header_crc : ∃ h, slice l 512 92 = Some h ∧
    word_at l 528 4 = crc32 0 (take 16 h ++ [0; 0; 0; 0] ++ drop 20 h) 92;
}.

(** A header as [start_ptbl] and [end_ptbl] leave it. *)
Definition made_header (blocks ecrc crc : Z) : efi_header :=
  mkHeader (str "EFI PART") EFI_VERSION sizeof_header crc 0 1 (u32 (blocks - 1)) 34
    (u32 (blocks - 1)) random_uuid 2 EFI_ENTRIES 128 ecrc.

Lemma made_header_length blocks ecrc crc : length (header_bytes (made_header blocks ecrc crc)) = 92%nat.
Proof. done. Qed.

Lemma made_header_bytes blocks ecrc crc : bytes (header_bytes (made_header blocks ecrc crc)).
Proof.
  unfold header_bytes. rewrite !bytes_app. split_and!; try apply le_bytes_bytes; by_eval.
Qed.

Lemma slice_header (m h rest : list Z) (k n : Z) :
  length m = 512%nat → 0 <= k → 0 <= n → k + n <= Z.of_nat (length h) →
  slice (m ++ h ++ rest) (512 + k) n = slice h k n.
Proof.
  intros Hm Hk Hn Hl. rewrite !slice_Some by (rewrite ?length_app; lia). f_equal.
  replace (Z.to_nat (512 + k)) with (512 + Z.to_nat k)%nat by lia.
  rewrite drop_app_ge by lia. rewrite drop_app_le by lia. rewrite take_app_le by (rewrite length_drop; lia).
  do 2 f_equal. lia.
Qed.

Lemma made_gpt_valid m blocks es ecrc crc :
  length m = 512%nat → slice m 510 2 = Some [85; 170] → slice m 450 1 = Some [238] →
  Forall entry_ok es → length es = 128%nat → is_u32 ecrc → is_u32 crc →
  crc32 0 (es ≫= entry_bytes) (128 * 128) = Some ecrc →
  crc32 0 (header_bytes (made_header blocks ecrc 0)) 92 = Some crc →
  valid_gpt (gpt_bytes (mkGpt m (made_header blocks ecrc crc) es)).
Proof.
  intros Hm H1 H2 Hes Hl He Hc E1 E2. unfold gpt_bytes. cbn [mbr header entry].
  set (h := header_bytes (made_header blocks ecrc crc)).
  assert (length h = 92%nat) as Lh by done.
  assert (∀ rest k n, (0 <= k ∧ 0 <= n ∧ k + n <= 512) → slice (m ++ rest) k n = slice m k n) as HM.
  { intros rest k n Hk. rewrite !slice_Some by (rewrite ?length_app; lia). f_equal.
    rewrite drop_app_le by lia. by rewrite take_app_le by (rewrite length_drop; lia). }
  assert (∀ v k, is_u32 v → slice h k 4 = Some (le_bytes 4 v) →
    word_at (m ++ h ++ replicate 420 0 ++ (es ≫= entry_bytes)) (512 + k) 4 = Some v) as HW.
  { intros v k Hv E. pose proof (slice_inv _ _ _ _ E) as [? _]. unfold word_at.
    rewrite slice_header by lia. rewrite E. cbn [fmap option_fmap option_map]. rewrite le_val_bytes.
    f_equal. by apply Z.mod_small. }
  split.
  - rewrite !length_app, entries_bytes_length, length_replicate, Hm, Lh, Hl by done. lia.
  - by rewrite HM by lia.
  - by rewrite HM by lia.
  - change 512 with (512 + 0). rewrite slice_header by lia. done.
  - unfold word_at. change 536 with (512 + 24). rewrite slice_header by lia. done.
  - unfold word_at. change 584 with (512 + 72). rewrite slice_header by lia. done.
  - apply (HW 128 80); [by_eval|done].
  - apply (HW 128 84); [by_eval|done].
  - change 600 with (512 + 88). rewrite (HW ecrc 88) by done. symmetry. rewrite <-E1. f_equal.
    rewrite !app_assoc. rewrite drop_app_length' by (rewrite !length_app, length_replicate; lia). done.
  - exists h. split.
    + change 512 with (512 + 0). rewrite slice_header by lia. rewrite slice_Some by lia. done.
    + change 528 with (512 + 16). rewrite (HW crc 16) by done. by rewrite <-E2.
Qed.

Lemma crc32_nil : crc32 0 [] 0 = Some 0.
Proof. by vm_compute. Qed.
#[local] Opaque crc32.

Lemma start_spec blocks m :
  init_mbr (replicate 512 0) (u32 (blocks - 1)) = Some m →
  start_ptbl blocks = Some (mkGpt m (made_header blocks 0 0) (replicate 128 zero_entry)).
Proof. intros E. unfold start_ptbl. rewrite E. reflexivity. Qed.

Lemma format_spec blocks m h :
  userdata_first - 1 <= u32 (blocks - 1) → h_last_lba h = u32 (blocks - 1) →
  format_loop partitions blocks (mkGpt m h (replicate 128 zero_entry)) 0 =
    Some (mkGpt m h (format_entries blocks), 0).
Proof.
  intros Hb Hh. rewrite (format_loop_spec partitions blocks _ 0 [] 128).
  - cbn [mbr header app length]. unfold format_entries. rewrite layout_length. reflexivity.
  - by_eval.
  - reflexivity.
  - constructor.
  - exact Hh.
  - by apply partitions_fit.
  - rewrite layout_length. lia.
Qed.

Lemma end_spec m blocks es ecrc crc :
  crc32 0 (es ≫= entry_bytes) (EFI_ENTRIES * 128) = Some ecrc →
  crc32 0 (header_bytes (made_header blocks ecrc 0)) sizeof_header = Some crc →
  end_ptbl (mkGpt m (made_header blocks 0 0) es) = Some (mkGpt m (made_header blocks ecrc crc) es).
Proof.
  intros E1 E2. unfold end_ptbl. cbn [mbr header entry]. rewrite crc32_nil. cbn [mbind option_bind].
  rewrite E1. cbn [mbind option_bind header]. unfold set_crc, made_header in *.
  cbn [h_magic h_version h_header_sz h_crc32 h_reserved h_header_lba h_backup_lba
    h_first_lba h_last_lba h_volume_uuid h_entries_lba h_entries_count h_entries_size h_entries_crc32].
  rewrite E2. reflexivity.
Qed.

(** The table built for a device of [blocks] sectors. *)
Lemma build_table blocks :
  userdata_first - 1 <= u32 (blocks - 1) →
  ∃ p0 p1 m ecrc crc, start_ptbl blocks = Some p0 ∧ format_loop partitions blocks p0 0 = Some (p1, 0) ∧
    end_ptbl p1 = Some (mkGpt m (made_header blocks ecrc crc) (format_entries blocks)) ∧
    length m = 512%nat ∧
    valid_gpt (gpt_bytes (mkGpt m (made_header blocks ecrc crc) (format_entries blocks))).
Proof.
  intros Hb. destruct (init_mbr_spec (u32 (blocks - 1))) as (m & Em & Hm & S1 & S2 & Bm).
  pose proof (format_entries_ok blocks Hb) as Hes.
  destruct (crc32_total 0 (format_entries blocks ≫= entry_bytes) (128 * 128)) as (ecrc & E1 & He);
    [by_eval|by apply entries_bytes|rewrite entries_bytes_length, format_entries_length by done; lia|].
  destruct (crc32_total 0 (header_bytes (made_header blocks ecrc 0)) 92) as (crc & E2 & Hc);
    [by_eval|apply made_header_bytes|rewrite made_header_length; lia|].
  exists (mkGpt m (made_header blocks 0 0) (replicate 128 zero_entry)),
    (mkGpt m (made_header blocks 0 0) (format_entries blocks)), m, ecrc, crc.
  split; [by apply start_spec|]. split; [by apply format_spec|]. split; [by apply end_spec|].
  split; [done|]. apply made_gpt_valid; assumption || apply format_entries_length.
Qed.

(** ** Reading the table back *)

Section load.
Context {D : Type} `{MmcDev D} `{MmcCtl D}.

(** The device answers the read of a sector with the data. *)
Definition reads (d : D) (block : Z) (l : list Z) : Prop := mmc_read d 1 block 512 = (l, 1).

Lemma load_loop_spec (chunks : list (list efi_entry)) n (s : board D) t :
  (∀ (i : nat) c, chunks !! i = Some c → ∃ l, reads (dev (b_idme s)) (1 + n + Z.of_nat i) l ∧
    sector_entries l = c) →
  import_all (concat chunks) (b_table s) = Some t →
  load_loop (length chunks) n s = Some (mkBoard (b_idme s) t, 0).
Proof.
  revert n s t. induction chunks as [|c chunks IH]; intros n s t Hr Ht.
  - cbn in Ht. simplify_eq. by destruct s.
  - destruct (Hr 0%nat c eq_refl) as (l & Hl & Hc). rewrite Z.add_0_r in Hl.
    cbn [length load_loop]. unfold mbind, st_bind, g_read, get, lift, modify. cbn beta. rewrite Hl.
    change (negb (1 =? 1)) with false. cbn beta iota. rewrite Hc.
    cbn [concat] in Ht. rewrite import_all_app in Ht.
    destruct (import_all c (b_table s)) as [t1|] eqn:E; [|done]. cbn [mbind option_bind] in Ht.
    unfold set_table.
    rewrite (IH (n + 1) (mkBoard (b_idme s) t1) t); [done| |done].
    intros i c' Hi. destruct (Hr (S i) c' Hi) as (l' & Hl' & Hc'). exists l'. split; [|done].
    cbn [b_idme]. by replace (1 + (n + 1) + Z.of_nat i) with (1 + n + Z.of_nat (S i)) by lia.
Qed.

Lemma concat_quads {A} (l : list A) (n : nat) :
  concat ((λ k, take 4 (drop (4 * k) l)) <$> seq 0 n) = take (4 * n) l.
Proof.
  induction n as [|n IH]; [done|]. rewrite seq_S, fmap_app, concat_app, IH. cbn [fmap list_fmap concat].
  rewrite app_nil_r, Nat.add_0_l. replace (4 * S n)%nat with (4 * n + 4)%nat by lia.
  apply (take_take_drop l (4 * n) 4).
Qed.

Lemma header_sector_skipped m blocks ecrc crc es t :
  length m = 512%nat →
  let l := gpt_bytes (mkGpt m (made_header blocks ecrc crc) es) in
  import_all (sector_entries (take 512 (drop (512 * 1) l))) t = Some t.
Proof.
  intros Hm. cbv zeta. unfold gpt_bytes. cbn [mbr header entry].
  rewrite Nat.mul_1_r, drop_app_length' by done. rewrite app_assoc.
  rewrite take_app_le by (rewrite length_app, length_replicate, made_header_length; lia).
  rewrite take_ge by (rewrite length_app, length_replicate, made_header_length; lia).
  unfold sector_entries. cbn [fmap list_fmap]. rewrite Nat.mul_0_r, drop_0.
  set (h := header_bytes _). assert (length h = 92%nat) as Lh by done.
  assert (∀ k : nat, (k = 1 ∨ k = 2 ∨ k = 3)%nat →
    take 128 (drop (128 * k) (h ++ replicate 420 0)) = replicate 128 0) as HZ.
  { intros k Hk. rewrite drop_app_ge by lia. rewrite drop_replicate, take_replicate. f_equal. lia. }
  rewrite (HZ 1%nat), (HZ 2%nat), (HZ 3%nat) by lia. cbn [import_all].
  rewrite take_app_ge by lia.
  assert (∃ h', h = 69 :: h') as [h' ->] by (by eexists). cbn [app].
  rewrite import_other by done. cbn [mbind option_bind]. change (replicate 128 0) with (0 :: replicate 127 0).
  by rewrite !import_other by done.
Qed.
End load.

(** The flash table of the board: the static partitions at their sectors, and
    [userdata] on the rest of the device. *)
Definition boot_table (blocks : Z) : list fastboot_ptentry := [
  mkPtentry (pad (lit "xloader") 16) 256 131072 0;
  mkPtentry (pad (lit "bootloader") 16) 512 262144 0;
  mkPtentry (pad (lit "idme") 16) 1024 65536 0;
  mkPtentry (pad (lit "crypto") 16) 1152 16384 0;
  mkPtentry (pad (lit "misc") 16) 1184 2048 0;
  mkPtentry (pad (lit "dkernel") 16) 2048 10485760 0;
  mkPtentry (pad (lit "dfs") 16) 22528 201326592 0;
  mkPtentry (pad (lit "efs") 16) 415744 16777216 0;
  mkPtentry (pad (lit "recovery") 16) 448512 8388608 0;
  mkPtentry (pad (lit "boot") 16) 464896 8388608 0;
  mkPtentry (pad (lit "system") 16) 481280 929038336 0;
  mkPtentry (pad (lit "cache") 16) 2295808 681574400 0;
  mkPtentry (pad (lit "userdata") 16) userdata_first ((blocks - userdata_first) * 512) 0 ].

Lemma boot_table_layout blocks :
  userdata_first <= blocks < 4294967296 → to_ptentry <$> layout partitions blocks 0 = boot_table blocks.
Proof.
  intros Hb. rewrite partitions_layout, fmap_app.
  change (boot_table blocks) with (removelast (boot_table 0) ++
    [mkPtentry (pad (lit "userdata") 16) userdata_first ((blocks - userdata_first) * 512) 0]).
  assert (to_ptentry <$> fixed_layout = removelast (boot_table 0)) as -> by (by vm_compute).
  apply (f_equal (app _)). cbn [fmap list_fmap to_ptentry]. rewrite decide_False by by_eval.
  unfold userdata_first in *. do 2 f_equal. int_lia.
Qed.

Lemma gpt_magic m blocks ecrc crc es :
  length m = 512%nat →
  take 8 (take 512 (drop 512 (gpt_bytes (mkGpt m (made_header blocks ecrc crc) es)))) = str "EFI PART".
Proof.
  intros Hm. rewrite take_take, Nat.min_l by lia. unfold gpt_bytes. cbn [mbr header entry].
  by rewrite drop_app_length' by done.
Qed.

Lemma gpt_entry_sector m blocks ecrc crc es (i : nat) :
  length m = 512%nat → Forall entry_ok es → length es = 128%nat → (i < 31)%nat →
  sector_entries (take 512 (drop (1024 + 512 * i) (gpt_bytes (mkGpt m (made_header blocks ecrc crc) es)))) =
    take 4 (drop (4 * i) es).
Proof.
  intros Hm Hes Hl Hi. rewrite <-sector_entries_array by (done || lia).
  unfold gpt_bytes. cbn [mbr header entry]. rewrite <-drop_drop. do 3 f_equal.
  rewrite !app_assoc. apply drop_app_length'.
  rewrite !length_app, length_replicate, made_header_length, Hm. lia.
Qed.

Lemma import_padded ls t k :
  Forall importable ls → pcount t = 0 → length (ptable t) = 16%nat → (length ls <= 16)%nat →
  import_all (made_entries 0 ls ++ replicate k zero_entry) t =
    Some (mkTable ((to_ptentry <$> ls) ++ drop (length ls) (ptable t)) (Z.of_nat (length ls))).
Proof.
  intros Hi Hc Hl Hls. rewrite import_all_app.
  rewrite (import_made_all 0 _ _ [] (ptable t)) by (done || lia).
  cbn [mbind option_bind]. by rewrite import_zeros.
Qed.

Lemma format_entries_take blocks :
  take 124 (format_entries blocks) = made_entries 0 (layout partitions blocks 0) ++ replicate 111 zero_entry.
Proof.
  unfold format_entries. rewrite take_app_ge by (rewrite made_entries_length, layout_length; lia).
  rewrite take_replicate, made_entries_length, layout_length. reflexivity.
Qed.

(** The entries [load_ptbl] looks at, in order. *)
Lemma import_format blocks t :
  pcount t = 0 → length (ptable t) = 16%nat →
  import_all (take 124 (format_entries blocks)) t =
    Some (mkTable ((to_ptentry <$> layout partitions blocks 0) ++ drop 13 (ptable t)) 13).
Proof.
  intros Hc Hl. rewrite format_entries_take, import_padded; [|apply partitions_importable|exact Hc|exact Hl|].
  - by rewrite layout_length.
  - rewrite layout_length. lia.
Qed.

#[local] Opaque gpt_bytes format_entries sector_entries.

Lemma load_ptbl_S {D} `{MmcDev D} `{MmcCtl D} fuel (s : board D) :
  load_ptbl (S fuel) s = ('(data, r) ← g_read 1 1;
    if negb (r =? 1) then mret (-1) else
    if negb (c_memcmp (take 8 data) (str "EFI PART") =? 0) then
      _ ← do_format_with (load_ptbl fuel); mret (-1)
    else load_loop 32 0) s.
Proof. reflexivity. Qed.

Section format.
Context {D : Type} `{MmcDev D} `{MmcCtl D}.

Lemma load_written fuel (s : board D) m blocks ecrc crc l :
  l = gpt_bytes (mkGpt m (made_header blocks ecrc crc) (format_entries blocks)) →
  userdata_first - 1 <= u32 (blocks - 1) → length m = 512%nat →
  (∀ k : nat, (1 <= k < 33)%nat → reads (dev (b_idme s)) (Z.of_nat k) (take 512 (drop (512 * k) l))) →
  pcount (b_table s) = 0 → (length (ptable (b_table s)) = 16)%nat →
  load_ptbl (S fuel) s = Some (mkBoard (b_idme s)
    (mkTable ((to_ptentry <$> layout partitions blocks 0) ++ drop 13 (ptable (b_table s))) 13), 0).
Proof.
  intros Hgpt Hb Hm Hr Hc Hl. pose proof (format_entries_ok blocks Hb) as Hes.
  cbn [load_ptbl]. unfold mbind at 1, st_bind at 1, g_read.
  pose proof (Hr 1%nat ltac:(lia)) as Hr1. change (Z.of_nat 1) with 1 in Hr1. rewrite Nat.mul_1_r in Hr1.
  rewrite Hr1. change (negb (1 =? 1)) with false. cbn beta iota. rewrite Hgpt, gpt_magic by done.
  change (c_memcmp (str "EFI PART") (str "EFI PART") =? 0) with true. cbn [negb].
  remember (sector_entries (take 512 (drop 512 l)) ::
    ((λ k, take 4 (drop (4 * k) (format_entries blocks))) <$> seq 0 31)) as chunks eqn:Ech.
  assert (length chunks = 32%nat) as Elen by (by rewrite Ech; cbn [length]; rewrite length_fmap, length_seq).
  rewrite <-Elen. apply load_loop_spec; rewrite Ech.
  - intros [|i] c Hi.
    + injection Hi as <-. eexists. split; [exact Hr1|reflexivity].
    + rewrite lookup_cons_ne_0, Nat.pred_succ, list_lookup_fmap in Hi by done.
      apply fmap_Some in Hi as (j & Hj & ->). apply lookup_seq in Hj as [-> Hj].
      exists (take 512 (drop (512 * (S (S i))) l)). split.
      * replace (1 + 0 + Z.of_nat (S i)) with (Z.of_nat (S (S i))) by lia. apply Hr. lia.
      * rewrite Nat.add_0_l, Hgpt. replace (512 * S (S i))%nat with (1024 + 512 * i)%nat by lia.
        apply gpt_entry_sector; done || apply format_entries_length.
  - cbn [concat]. rewrite import_all_app, concat_quads.
    pose proof (header_sector_skipped m blocks ecrc crc (format_entries blocks) (b_table s) Hm) as E.
    cbv zeta in E. rewrite <-Hgpt, Nat.mul_1_r in E. rewrite E. cbn [mbind option_bind].
    by apply import_format.
Qed.
End format.

Lemma format_spec_full {D} `{MmcLaws D} `{MmcCtl D} fuel (s : board D) d0 sz blocks
    (Hrel : reliable D)
    (Hinit : mmc_init (dev (b_idme s)) 1 = (d0, 0))
    (Hinfo : mmc_info d0 1 = (sz, blocks))
    (Hb : userdata_first <= blocks < 4294967296)
    (Hl : length (ptable (b_table s)) = 16%nat) :
  ∃ s' l, do_format (S fuel) s = Some (s', 0) ∧
    pcount (b_table s') = 13 ∧ take 13 (ptable (b_table s')) = boot_table blocks ∧
    valid_gpt l ∧
    ∀ k, 0 <= k < 34 →
      contents (dev (b_idme s')) 1 (selected d0 1) k = take 512 (drop (Z.to_nat (512 * k)) l).
Proof.
  assert (userdata_first - 1 <= u32 (blocks - 1)) as Hb' by (unfold userdata_first in *; int_lia).
  destruct (build_table blocks Hb') as (p0 & p1 & m & ecrc & crc & E0 & E1 & E2 & Hm & Hv).
  remember (gpt_bytes _) as l eqn:El in Hv. destruct Hrel as (Hread & Hwrite & _).
  destruct (mmc_write d0 1 l 0) as [d1 r1] eqn:Ew.
  pose proof (Hwrite d0 1 l 0) as Hr1. rewrite Ew in Hr1. cbn in Hr1. subst r1.
  assert (length l mod 512 = 0)%nat as Hmod by by rewrite (vg_len _ Hv).
  pose proof (write_ok _ _ _ _ _ Ew Hmod) as Hw.
  assert (selected d1 1 = selected d0 1) as Hsel.
  { pose proof (write_selected d0 1 l 0) as Hs. by rewrite Ew in Hs. }
  assert (∀ k, 0 <= k < 34 → contents d1 1 (selected d0 1) k = take 512 (drop (Z.to_nat (512 * k)) l)) as Hc.
  { intros k Hk. rewrite (Hw k). unfold write_sectors. rewrite (vg_len _ Hv).
    replace (0 + Z.of_nat (Z.to_nat 17408) / 512) with 34 by (rewrite Z2Nat.id by lia; done).
    destruct (Z.leb_spec 0 k), (Z.ltb_spec k 34); try lia. cbn [andb]. do 3 f_equal. lia. }
  assert (∀ k : nat, (1 <= k < 33)%nat → reads d1 (Z.of_nat k) (take 512 (drop (512 * k) l))) as Hreads.
  { intros k Hk. unfold reads. pose proof (Hread d1 1 (Z.of_nat k)) as Hr.
    destruct (mmc_read d1 1 (Z.of_nat k) 512) as [l' r'] eqn:Er. cbn in Hr. subst r'.
    rewrite (read_ok _ _ _ _ Er), Hsel, Hc by lia. do 3 f_equal. lia. }
  unfold do_format, do_format_with, g_init, g_info, g_write, modify, lift, mbind, st_bind. rewrite Hinit.
  change (negb (0 =? 0)) with false. cbn beta iota. cbn [b_idme dev set_dev]. rewrite Hinfo, E0.
  cbn beta iota. rewrite E1. change (negb (0 =? 0)) with false. cbn beta iota. rewrite E2.
  cbn beta iota. cbn [b_idme set_table dev set_dev]. rewrite <-El, Ew. change (negb (1 =? 1)) with false.
  cbn beta iota. rewrite (load_written fuel _ m blocks ecrc crc l); try done.
  eexists _, l. split; [reflexivity|]. cbn [b_table b_idme pcount ptable set_dev dev].
  rewrite boot_table_layout by done. split_and!; try done.
Qed.

(** C16: formatting a device puts a valid partition table on its first 34
    sectors (signatures, both checksums, geometry), and the flash table is
    then exactly the static layout, with [userdata] up to the end of the
    device. *)
Theorem format_load {D} `{MmcLaws D} `{MmcCtl D} fuel (s : board D) d0 sz blocks
    (Hrel : reliable D)
    (Hinit : mmc_init (dev (b_idme s)) 1 = (d0, 0))
    (Hinfo : mmc_info d0 1 = (sz, blocks))
    (Hb : userdata_first <= blocks < 4294967296)
    (Hl : length (ptable (b_table s)) = 16%nat) :
  ∃ s' l, do_format (S fuel) s = Some (s', 0) ∧
    pcount (b_table s') = 13 ∧ take 13 (ptable (b_table s')) = boot_table blocks ∧
    valid_gpt l ∧
    ∀ k, 0 <= k < 34 →
      contents (dev (b_idme s')) 1 (selected d0 1) k = take 512 (drop (Z.to_nat (512 * k)) l).
Proof. by eapply format_spec_full. Qed.

(** A memory-backed device of [blocks] sectors. *)
Definition ram_ctl (blocks : Z) : MmcCtl ram :=
  {| mmc_init d _ := (d, 0); mmc_info _ _ := (512, blocks);
     mmc_erase d slot start size :=
       (mkRam (ram_put (Z.to_nat ((size + 511) / 512)) (ram_disk d) slot (ram_selected d slot) start [])
          (ram_sel d), 1);
     mmc_read_at d _ _ _ _ := (d, 1); mmc_write_at d _ _ _ _ := (d, 1) |}.

Definition empty_board : board ram :=
  mkBoard (mkIdme (mkRam ∅ ∅) [] [] 0 [] []) (mkTable (replicate 16 (mkPtentry [] 0 0 0)) 0).

Lemma format_load_witness :
  ∃ s' l, do_format (H0 := ram_ctl 15269888) 1 empty_board = Some (s', 0) ∧
    pcount (b_table s') = 13 ∧ take 13 (ptable (b_table s')) = boot_table 15269888 ∧
    valid_gpt l ∧
    ∀ k, 0 <= k < 34 →
      contents (dev (b_idme s')) 1 (selected (dev (b_idme empty_board)) 1) k =
        take 512 (drop (Z.to_nat (512 * k)) l).
Proof.
  apply (format_load (H1 := ram_ctl 15269888) 0 empty_board _ 512); try done; exact ram_reliable.
Defined.

(** On a device without a partition table, [load_ptbl] formats it and
    loads the new table; it then still reports failure (-1). *)
Theorem load_blank {D} `{MmcLaws D} `{MmcCtl D} fuel (s : board D) d0 sz blocks
    (Hrel : reliable D)
    (Hblank : take 8 (mmc_read (dev (b_idme s)) 1 1 512).1 ≠ str "EFI PART")
    (Hinit : mmc_init (dev (b_idme s)) 1 = (d0, 0))
    (Hinfo : mmc_info d0 1 = (sz, blocks))
    (Hb : userdata_first <= blocks < 4294967296)
    (Hl : length (ptable (b_table s)) = 16%nat) :
  ∃ s', load_ptbl (S (S fuel)) s = Some (s', -1) ∧
    pcount (b_table s') = 13 ∧ take 13 (ptable (b_table s')) = boot_table blocks.
Proof.
  destruct (format_spec_full fuel s d0 sz blocks Hrel Hinit Hinfo Hb Hl) as (s' & l & E & Hc & Ht & _).
  exists s'. split; [|done]. unfold do_format in E.
  rewrite load_ptbl_S. unfold mbind, st_bind, g_read. pose proof (proj1 Hrel (dev (b_idme s)) 1 1) as Hr.
  pose proof (read_size (dev (b_idme s)) 1 1) as Hsz.
  destruct (mmc_read (dev (b_idme s)) 1 1 512) as [l1 r1]. cbn in Hr, Hblank, Hsz. subst r1.
  change (negb (1 =? 1)) with false. cbn beta iota. unfold c_memcmp.
  destruct (Z.eqb_spec (first_diff (take 8 l1) (str "EFI PART")) 0) as [Ed|_]; cbn [negb].
  - apply first_diff_zero in Ed; [done|]. rewrite length_take, Hsz. done.
  - by rewrite E.
Qed.

Lemma load_blank_witness :
  ∃ s', load_ptbl (H0 := ram_ctl 15269888) 2 empty_board = Some (s', -1) ∧
    pcount (b_table s') = 13 ∧ take 13 (ptable (b_table s')) = boot_table 15269888.
Proof.
  apply (load_blank (H1 := ram_ctl 15269888) 0 empty_board (mkRam ∅ ∅) 512); try done; exact ram_reliable.
Defined.

(** When the eMMC does not answer, [mmc_init] still returns 0, reads and
    writes of the uninitialised slot return 1 (success), and the static read
    buffer holds no partition table: [load_ptbl] and [do_format] then call
    each other without end, for no depth of the recursion is there a
    result. *)
Theorem load_never_returns {D} `{MmcDev D} `{MmcCtl D} (dead : D → Prop) fuel (s : board D)
    (Hread : ∀ d, dead d → (mmc_read d 1 1 512).2 = 1 ∧
       c_memcmp (take 8 (mmc_read d 1 1 512).1) (str "EFI PART") ≠ 0)
    (Hinit : ∀ d, dead d → (mmc_init d 1).2 = 0 ∧ dead (mmc_init d 1).1)
    (Hinfo : ∀ d, dead d → userdata_first - 1 <= u32 ((mmc_info d 1).2 - 1))
    (Hwrite : ∀ d l b, dead d → (mmc_write d 1 l b).2 = 1 ∧ dead (mmc_write d 1 l b).1)
    (Hs : dead (dev (b_idme s))) :
  load_ptbl fuel s = None.
Proof.
  revert s Hs. induction fuel as [|fuel IH]; intros s Hs; [done|]. rewrite load_ptbl_S.
  unfold mbind, st_bind, g_read. destruct (Hread _ Hs) as [Hr1 Hr2].
  destruct (mmc_read (dev (b_idme s)) 1 1 512) as [l1 r1]. cbn in Hr1, Hr2. subst r1.
  change (negb (1 =? 1)) with false. cbn beta iota.
  destruct (Z.eqb_spec (c_memcmp (take 8 l1) (str "EFI PART")) 0) as [|_]; [done|]. cbn [negb].
  unfold do_format_with, g_init, g_info, g_write, modify, lift, mbind, st_bind.
  destruct (Hinit _ Hs) as [Hi1 Hd0]. destruct (mmc_init (dev (b_idme s)) 1) as [d0 r0].
  cbn in Hi1, Hd0. subst r0. change (negb (0 =? 0)) with false. cbn beta iota. cbn [b_idme dev set_dev].
  pose proof (Hinfo _ Hd0) as Hb. destruct (mmc_info d0 1) as [sz blocks]. cbn in Hb.
  destruct (build_table blocks Hb) as (p0 & p1 & m & ecrc & crc & -> & E1 & E2 & _). cbn beta iota.
  rewrite E1. change (negb (0 =? 0)) with false. cbn beta iota. rewrite E2.
  cbn beta iota. cbn [b_idme set_table dev set_dev].
  destruct (Hwrite d0 (gpt_bytes (mkGpt m (made_header blocks ecrc crc) (format_entries blocks))) 0 Hd0)
    as [Hw1 Hd1].
  destruct (mmc_write d0 1 _ 0) as [d1 r1]. cbn in Hw1, Hd1. subst r1. change (negb (1 =? 1)) with false.
  cbn beta iota. by rewrite IH.
Qed.

(** The slot as [mmc.c] leaves it after a failed initialisation: nothing is
    transferred and the calls return 1. *)
Definition dead_dev : MmcDev unit :=
  {| mmc_read _ _ _ _ := (replicate 512 0, 1); mmc_write d _ _ _ := (d, 1); mmc_sw_part d _ _ := (d, 1) |}.
Definition dead_ctl : MmcCtl unit := {| mmc_init d _ := (d, 0); mmc_info _ _ := (0, 0); mmc_erase d _ _ _ := (d, 1);
     mmc_read_at d _ _ _ _ := (d, 1); mmc_write_at d _ _ _ _ := (d, 1) |}.
Definition dead_board : board unit :=
  mkBoard (mkIdme tt [] [] 0 [] []) (mkTable (replicate 16 (mkPtentry [] 0 0 0)) 0).

Lemma load_never_returns_witness : load_ptbl (H := dead_dev) (H0 := dead_ctl) 100 dead_board = None.
Proof.
  apply (load_never_returns (H := dead_dev) (H0 := dead_ctl) (λ _, True)); by_eval || (intros; cbn; by_eval).
Defined.
