(* ===== verification/Fastboot.v ===== *)
(** [common/cmd_fastboot.c]: the fastboot protocol.  [rx_handler] is called
    by the USB driver with every packet: the data of a download in progress,
    or a command.  A [char *] is the list of the bytes from the pointer to
    the end of its object; the transfer buffer, the environment and the
    statics of the file are the state. *)
From stdpp Require Import base tactics option list strings.
From Stdlib Require Import ZArith Lia.
From S2P Require Import Prelude.
From S2P Require Import MmcDev.
From S2P Require Import Sparse.
From S2P Require Import Eff.
From S2P Require Import CBuf.
From S2P Require Import Vsprintf.
From S2P Require Import Env.
From S2P Require Import Ptable.
From S2P Require Import Idme.
From S2P Require Import Gpt.
Open Scope Z_scope.

(** ** Data *)

Inductive storage_medium_type := NAND | EMMC.

(** [struct cmd_fastboot_interface], as the board fills it in. *)
Record interface := mkInterface {
  product_name : option (list Z);
  serial_no : option (list Z);
  proc_rev : option (list Z);
  proc_type : option (list Z);
  storage_medium : storage_medium_type;
  nand_block_size : Z;
  transfer_buffer_addr : Z;     (** the address [transfer_buffer] holds *)
  transfer_buffer_size : Z;
}.

(** The statics of a download. *)
Record download := mkDownload {
  download_size : Z;            (** all [unsigned int] *)
  download_bytes : Z;
  download_bytes_unpadded : Z;
  download_error : Z;
}.

(** The statics of flashing. *)
Record flashing := mkFlashing {
  mmc_controller_no : Z;
  multiflash_offset : Z;
  multiflash_ptn : option Z;    (** index in the partition table *)
  mmcwrite_is_sparsed : Z;
  fastboot_confirmed : Z;
}.

(** Calls that leave the file and are not modelled further. *)
Inductive action :=
  | Tx (status : list Z)                         (** [fastboot_tx_status] *)
  | SetEnv (var : list Z) (val : option (list Z))  (** [do_setenv] *)
  | SaveEnv                                      (** [do_saveenv] *)
  | Bootd | Booti (arg : list Z)                 (** [do_bootd], [do_booti] *)
  | WarmReset (reason : list Z)                  (** SAR RAM text, warm reset *)
  | ColdReset (reason : list Z)                  (** SAR RAM text, [do_reset] *)
  | PowerDown
  | Show                                         (** [show_fastboot] *)
  | SwBooting.                                   (** [set_SWBootingCfg] *)

Record fb (D : Type) := mkFb {
  f_board : board D;
  mmc_flag : list Z;            (** of [cmd_mmc.c] *)
  dl : download;
  fl : flashing;
  sparse : sparse_state;
  transfer_buffer : list Z;
  iface : interface;
  env_data : list Z;            (** [env_ptr->data] *)
  trace : list action;
}.
Arguments mkFb {D}.
Arguments f_board {D}.
Arguments mmc_flag {D}.
Arguments dl {D}.
Arguments fl {D}.
Arguments sparse {D}.
Arguments transfer_buffer {D}.
Arguments iface {D}.
Arguments env_data {D}.
Arguments trace {D}.

(** Which boot calls do not come back, and whether the power goes off. *)
Class Platform := {
  bootd_boots : bool;
  booti_boots : bool;
  powers_down : bool;
}.

Definition FASTBOOT_VERSION : list Z := lit "0.5".
Definition CFG_FASTBOOT_MKBOOTIMAGE_PAGE_SIZE : Z := 2048.

(** [memcmp(buf, s, strlen(s)) == 0]: the comparison stops at the first
    difference. *)
Fixpoint starts (buf s : list Z) {struct s} : option bool :=
  match s with
  | [] => Some true
  | c :: s' =>
      match buf with
      | [] => None
      | b :: buf' => if b - c =? 0 then starts buf' s' else Some false
      end
  end.

(** [sprintf] into a local array of [n] characters. *)
Definition sprintf_local (n : nat) (fmt : list Z) (args : list arg) : option (list Z) :=
  '(out, _) ← vsprintf fmt args;
  if (length out <? n)%nat then Some (out ++ [0]) else None.

(** ** The state *)

Section ops.
Context {D : Type} `{MmcDev D} `{MmcCtl D} `{Platform}.
#[local] Abbreviation F := (ST (fb D)).

Definition set_board (b : board D) (s : fb D) : fb D :=
  mkFb b (mmc_flag s) (dl s) (fl s) (sparse s) (transfer_buffer s) (iface s) (env_data s) (trace s).
Definition set_flag (f : list Z) (s : fb D) : fb D :=
  mkFb (f_board s) f (dl s) (fl s) (sparse s) (transfer_buffer s) (iface s) (env_data s) (trace s).
Definition set_dl (d : download) (s : fb D) : fb D :=
  mkFb (f_board s) (mmc_flag s) d (fl s) (sparse s) (transfer_buffer s) (iface s) (env_data s) (trace s).
Definition set_fl (f : flashing) (s : fb D) : fb D :=
  mkFb (f_board s) (mmc_flag s) (dl s) f (sparse s) (transfer_buffer s) (iface s) (env_data s) (trace s).
Definition set_sparse (st : sparse_state) (s : fb D) : fb D :=
  mkFb (f_board s) (mmc_flag s) (dl s) (fl s) st (transfer_buffer s) (iface s) (env_data s) (trace s).
Definition set_buffer (t : list Z) (s : fb D) : fb D :=
  mkFb (f_board s) (mmc_flag s) (dl s) (fl s) (sparse s) t (iface s) (env_data s) (trace s).
Definition set_env_data (e : list Z) (s : fb D) : fb D :=
  mkFb (f_board s) (mmc_flag s) (dl s) (fl s) (sparse s) (transfer_buffer s) (iface s) e (trace s).
Definition add_trace (a : action) (s : fb D) : fb D :=
  mkFb (f_board s) (mmc_flag s) (dl s) (fl s) (sparse s) (transfer_buffer s) (iface s) (env_data s)
    (trace s ++ [a]).

Definition fdev (s : fb D) : D := dev (b_idme (f_board s)).
Definition set_fdev (d : D) (s : fb D) : fb D :=
  set_board (mkBoard (set_dev d (b_idme (f_board s))) (b_table (f_board s))) s.

Definition emit (a : action) : F unit := modify (add_trace a).

(** At most 64 bytes go out. *)
Definition fastboot_tx_status (response : list Z) : F unit :=
  n ← lift (c_strlen response);
  emit (Tx (take (Z.to_nat (Z.min 64 n)) response)).

(** A call into the board code. *)
Definition on_board {A} (m : ST (board D) A) : F A := λ s,
  match m (f_board s) with Some (b, a) => Some (set_board b s, a) | None => None end.

(** ** The environment *)

Definition set_env (var : list Z) (val : option (list Z)) : F unit := emit (SetEnv var val).

(** The nand commands are compiled out; the texts of the start and the length
    go to local arrays of 32 characters. *)
Definition save_env (ptn : fastboot_ptentry) (var : list Z) (val : option (list Z)) : F unit :=
  _ ← set_env var val;
  _ ← lift (sprintf_local 32 (lit "0x%x") [AInt (pstart ptn)]);
  _ ← lift (sprintf_local 32 (lit "0x%x") [AInt (plength ptn)]);
  emit SaveEnv.

Definition save_block_values (ptn : fastboot_ptentry) (offset size : Z) : F unit :=
  var1 ← lift (sprintf_local 64 (lit "%s_nand_offset") [AStr (Some (pname ptn))]);
  var2 ← lift (sprintf_local 64 (lit "%s_nand_size") [AStr (Some (pname ptn))]);
  _ ← (if size =? 0 then
      _ ← emit (SetEnv (cut var1) (Some []));
      emit (SetEnv (cut var2) (Some []))
    else
      val1 ← lift (sprintf_local 32 (lit "0x%x") [AInt offset]);
      _ ← emit (SetEnv (cut var1) (Some (cut val1)));
      val2 ← lift (sprintf_local 32 (lit "0x%x") [AInt size]);
      emit (SetEnv (cut var2) (Some (cut val2))));
  s ← get;
  env_ptn ← lift (fastboot_flash_find_ptn (b_table (f_board s)) (lit "environment"));
  _ ← (match env_ptn with
    | Some n =>
        e ← lift (idx (ptable (b_table (f_board s))) n);
        _ ← lift (sprintf_local 32 (lit "0x%x") [AInt (pstart e)]);
        _ ← lift (sprintf_local 32 (lit "0x%x") [AInt (plength e)]);
        mret tt
    | None => mret tt
    end);
  emit SaveEnv.

Definition reset_handler : F unit := modify (set_dl (mkDownload 0 0 0 0)).

(** The pointers of [parse_env], as indices in the buffer. *)
Record parse := mkParse {
  p_var : option Z; p_var_end : option Z; p_val : option Z; p_val_end : option Z; p_sets : Z }.

Definition is_blank (c : Z) : bool := (c =? 32) || (c =? 9).
Definition is_eol (c : Z) : bool := (c =? 13) || (c =? 10).

Definition buf_at (i : Z) : F Z := s ← get; lift (idx (transfer_buffer s) i).
Definition buf_put (i c : Z) : F unit :=
  s ← get; t ← lift (upd (transfer_buffer s) i c); modify (set_buffer t).
(** The string at a pointer into the buffer. *)
Definition buf_str (i : Z) : F (list Z) :=
  s ← get;
  let l := drop (Z.to_nat i) (transfer_buffer s) in
  _ ← lift (c_strlen l);
  mret (cut l).

Definition save_pair (ptn : fastboot_ptentry) (var : Z) (val : option Z) : F unit :=
  v ← buf_str var;
  w ← (match val with Some i => x ← buf_str i; mret (Some x) | None => mret None end);
  save_env ptn v w.

(** The chain of conditions for one character: the new pointers, or [None]
    for the internal error. *)
Definition parse_char (ptn : fastboot_ptentry) (save : bool) (i : Z) (p : parse) : F (option parse) :=
  c ← buf_at i;
  match p_var p with
  | None =>
      mret (Some (if negb (is_blank c || is_eol c)
                  then mkParse (Some i) (p_var_end p) (p_val p) (p_val_end p) (p_sets p) else p))
  | Some var =>
      if (bool_decide (p_var_end p = None) || bool_decide (p_val p = None)) && is_eol c then
        _ ← (if save then _ ← buf_put i 0; save_pair ptn var (p_val p) else mret tt);
        mret (Some (mkParse None None (p_val p) (p_val_end p) (u32 (p_sets p + 1))))
      else match p_var_end p with
      | None =>
          mret (Some (if is_blank c then mkParse (Some var) (Some i) (p_val p) (p_val_end p) (p_sets p) else p))
      | Some _ =>
          match p_val p with
          | None =>
              mret (Some (if negb (is_blank c)
                          then mkParse (Some var) (p_var_end p) (Some i) (p_val_end p) (p_sets p) else p))
          | Some _ =>
              match p_val_end p with
              | None =>
                  if is_eol c then
                    b ← buf_at (i - 1);
                    if b =? 92 then
                      _ ← (if c =? 13 then
                          n ← buf_at (i + 1);
                          if n =? 10 then buf_put (i + 1) 32 else mret tt
                        else mret tt);
                      _ ← buf_put i 32;
                      _ ← buf_put (i - 1) 32;
                      mret (Some p)
                    else mret (Some (mkParse (Some var) (p_var_end p) (p_val p) (Some i) (p_sets p)))
                  else mret (Some p)
              | Some _ => mret None
              end
          end
      end
  end.

(** "Check if a var / val pair is ready". *)
Definition parse_ready (ptn : fastboot_ptentry) (save : bool) (p : parse) : F parse :=
  match p_val_end p with
  | None => mret p
  | Some val_end =>
      _ ← (if save then
          var_end ← lift (p_var_end p);
          _ ← buf_put var_end 0;
          _ ← buf_put val_end 0;
          var ← lift (p_var p);
          save_pair ptn var (p_val p)
        else mret tt);
      mret (mkParse None None None None (u32 (p_sets p + 1)))
  end.

Definition parse_step (ptn : fastboot_ptentry) (save : bool) (size : Z) (x : Z * parse)
    : F ((Z * parse) + option parse) :=
  let '(i, p) := x in
  if i <? size then
    r ← parse_char ptn save i p;
    match r with
    | None => mret (inr None)
    | Some p => p ← parse_ready ptn save p; mret (inl (i + 1, p))
    end
  else mret (inr (Some p)).

(** 0 when something was set; the text left in [err_string] otherwise. *)
Definition parse_env (ptn : fastboot_ptentry) (save : bool) : F (Z * option (list Z)) :=
  s ← get;
  let size := download_bytes_unpadded (dl s) in
  _ ← (if save then buf_put size 0 else mret tt);
  r ← mloop (S (Z.to_nat size)) (parse_step ptn save size) (0, mkParse None None None None 0);
  match r with
  | None => mret (1, Some (lit "Internal Error"))
  | Some p =>
      sets ← (match p_var p, p_val_end p with
        | Some var, None =>
            _ ← (if save then
                _ ← (match p_var_end p with Some e => buf_put e 0 | None => mret tt end);
                save_pair ptn var (p_val p)
              else mret tt);
            mret (u32 (p_sets p + 1))
        | _, _ => mret (p_sets p)
        end);
      if sets =? 0 then mret (1, Some (lit "No variables set")) else mret (0, None)
  end.

(** The result and [err_string]. *)
Definition saveenv_to_ptn (ptn : fastboot_ptentry) : F (Z * list Z) :=
  '(r, err) ← parse_env ptn false;
  if r =? 0 then
    '(r, err') ← parse_env ptn true;
    mret (r, default (lit "Unknown Error") err')
  else mret (1, default (lit "Unknown Error") err).

(** ** Flashing *)

(** The round [repeat] of [write_to_ptn]: with the nand commands compiled out
    nothing is written and [ret] keeps its initial 1. *)
Fixpoint next_good_block (fuel : nat) (ptn : fastboot_ptentry) (bs blocks i offset : Z) (ret : Z)
    : option Z :=
  match fuel with
  | O => None
  | S fuel' =>
      if i <? blocks then
        if plength ptn <=? offset then Some ret
        else if negb (ret =? 0) then Some ret
        else next_good_block fuel' ptn bs blocks (u32 (i + 1)) (u32 (offset + bs)) ret
      else Some ret
  end.

Definition write_round (ptn : fastboot_ptentry) (repeat ret : Z) : F Z :=
  s ← get;
  let fla := pflags ptn in
  let next := flag fla FASTBOOT_PTENTRY_FLAGS_WRITE_NEXT_GOOD_BLOCK in
  let contiguous := flag fla FASTBOOT_PTENTRY_FLAGS_WRITE_CONTIGUOUS_BLOCK in
  let bs := nand_block_size (iface s) in
  if next && contiguous then mret ret
  else if next then
    if negb (bs =? 0) then
      let blocks := download_bytes (dl s) / bs in
      lift (next_good_block (S (Z.to_nat blocks)) ptn bs blocks 0 0 ret)
    else mret ret
  else if contiguous then mret ret
  else
    _ ← (if repeat =? 0 then
        if negb (ret =? 0) then save_block_values ptn 0 0
        else save_block_values ptn (pstart ptn) (download_bytes (dl s))
      else mret tt);
    mret ret.

Definition write_step (ptn : fastboot_ptentry) (repeat_max : Z) (x : Z * Z) : F ((Z * Z) + Z) :=
  let '(repeat, ret) := x in
  if repeat <? repeat_max then
    ret ← write_round ptn repeat ret;
    if negb (ret =? 0) then mret (inr ret) else mret (inl (repeat + 1, ret))
  else mret (inr ret).

Definition write_to_ptn (ptn : fastboot_ptentry) : F Z :=
  let fla := pflags ptn in
  let repeat_max :=
    if flag fla FASTBOOT_PTENTRY_FLAGS_REPEAT_MASK then
      if flag fla FASTBOOT_PTENTRY_FLAGS_WRITE_CONTIGUOUS_BLOCK then 1
      else Z.land fla FASTBOOT_PTENTRY_FLAGS_REPEAT_MASK
    else 1 in
  mloop (S (Z.to_nat repeat_max)) (write_step ptn repeat_max) (0, 1).

Definition slot_no : Z := 1.

Definition f_init (slot : Z) : F Z := on_board (g_init slot).
Definition f_write (slot : Z) (data : list Z) (block : Z) : F Z := on_board (g_write slot data block).

(** The sparse expander on the device of the state. *)
Definition f_unsparse (source : list Z) (size : Z) : F Z := λ s,
  match do_unsparse_process (fdev s) (sparse s) source size with
  | Some (d, st, r) => Some (set_sparse st (set_fdev d s), r)
  | None => None
  end.

(** "Sparse image detection" on the first chunk. *)
Definition detect_sparse (ptn : fastboot_ptentry) : F unit :=
  s ← get;
  magic ← lift (field (transfer_buffer s) 0 4);
  let f := fl s in
  if magic =? SPARSE_HEADER_MAGIC then
    _ ← modify (set_sparse (do_unsparse_start (sparse s) (pstart ptn) slot_no));
    modify (set_fl (mkFlashing (mmc_controller_no f) (multiflash_offset f) (multiflash_ptn f) 1 (fastboot_confirmed f)))
  else
    modify (set_fl (mkFlashing (mmc_controller_no f) (multiflash_offset f) (multiflash_ptn f) 0 (fastboot_confirmed f))).

(** The driver reads whole sectors of the buffer. *)
Definition round512 (n : Z) : Z := (n + 511) / 512 * 512.

(** The text written to [response] and the status. *)
Definition write_to_ptn_emmc (ptn : fastboot_ptentry) (offset : Z) : F (list Z * Z) :=
  i ← (if offset =? 0 then f_init slot_no else mret 0);
  if negb (i =? 0) then mret (str "FAIL:Init of MMC card", -1) else
  _ ← (if offset =? 0 then detect_sparse ptn else mret tt);
  s ← get;
  let bytes := download_bytes (dl s) in
  if negb (mmcwrite_is_sparsed (fl s) =? 0) then
    section ← lift (slice (transfer_buffer s) 0 bytes);
    r ← f_unsparse section bytes;
    if r =? 0 then mret (str "OKAY", 0) else mret (str "FAIL: Sparsed Write", -1)
  else
    data ← lift (slice (transfer_buffer s) 0 (round512 bytes));
    r ← f_write slot_no data (u32 (pstart ptn + offset / 512));
    if r <=? 0 then mret (str "FAIL: Write partition", -1) else mret (str "OKAY", 0).

(** ** [do_mmc] of [common/cmd_mmc.c] *)

(** The usage text is read through [cmdtp], which the fastboot commands pass
    as a null pointer. *)
Definition mmc_cmd_usage (cmdtp : option unit) : F Z := _ ← lift cmdtp; mret 1.

Definition dev_call (m : D → D * Z) : F Z := λ s, let '(d, r) := m (fdev s) in Some (set_fdev d s, r).

Definition mmc_word (argv : list (list Z)) (i : Z) : F Z :=
  a ← lift (idx argv i); '(v, _) ← lift (simple_strtoul a 16); mret v.

Definition mmc_erase_cmd (cmdtp : option unit) (argv : list (list Z)) (mmc_cont : Z) : F Z :=
  if negb (length argv =? 5)%nat then mmc_cmd_usage cmdtp else
  src_addr ← mmc_word argv 3;
  size ← mmc_word argv 4;
  _ ← dev_call (λ d, mmc_erase d mmc_cont src_addr size);
  mret 0.

Definition mmc_transfer_cmd (cmdtp : option unit) (argv : list (list Z)) (mmc_cont : Z) (write : bool) : F Z :=
  if negb (length argv =? 6)%nat then mmc_cmd_usage cmdtp else
  src_addr ← mmc_word argv 3;
  dst_addr ← mmc_word argv 4;
  size ← mmc_word argv 5;
  _ ← dev_call (λ d, if write then mmc_write_at d mmc_cont src_addr dst_addr size
                     else mmc_read_at d mmc_cont src_addr dst_addr size);
  mret 0.

Definition do_mmc (cmdtp : option unit) (argv : list (list Z)) : F Z :=
  if (length argv <? 2)%nat then mmc_cmd_usage cmdtp else
  if (length argv =? 2)%nat then
    a0 ← lift (idx argv 0);
    r ← lift (c_strncmp a0 (lit "mmcinit") 7);
    if negb (r =? 0) then mmc_cmd_usage cmdtp else
    slot ← mmc_word argv 1;
    if negb (slot =? 0) && negb (slot =? 1) then mmc_cmd_usage cmdtp else
    r ← f_init slot;
    if negb (r =? 0) then mret 1 else
    s ← get;
    f ← lift (upd (mmc_flag s) slot 1);
    _ ← modify (set_flag f);
    mret 0
  else
    mmc_cont ← mmc_word argv 1;
    if negb (mmc_cont =? 0) && negb (mmc_cont =? 1) then mmc_cmd_usage cmdtp else
    s ← get;
    f ← lift (idx (mmc_flag s) mmc_cont);
    if f =? 0 then mmc_cmd_usage cmdtp else
    cmd ← lift (idx argv 2);
    r1 ← lift (c_strncmp cmd (lit "read") 4);
    r2 ← lift (c_strncmp cmd (lit "write") 5);
    r3 ← lift (c_strncmp cmd (lit "erase") 5);
    if negb (r1 =? 0) && negb (r2 =? 0) && negb (r3 =? 0) then mmc_cmd_usage cmdtp else
    e ← lift (c_strcmp cmd (lit "erase"));
    if e =? 0 then mmc_erase_cmd cmdtp argv mmc_cont else
    e ← lift (c_strcmp cmd (lit "read"));
    if e =? 0 then mmc_transfer_cmd cmdtp argv mmc_cont false else
    e ← lift (c_strcmp cmd (lit "write"));
    if e =? 0 then mmc_transfer_cmd cmdtp argv mmc_cont true else
    mret 0.

(** ** Commands

    The command part of [rx_handler] is a sequence of [if] blocks over the
    local [response] (65 bytes) and [ret].  A block falls through to the next
    one, jumps to [done], returns, or does not come back. *)

Definition response : Type := list Z * Z.

Inductive flow := Next (r : response) | Goto_done (r : response) | Return (ret : Z) | Gone.

(** [sprintf(response + off, ...)] and [strcpy(response + off, ...)] of a
    text. *)
Definition put_at (off : Z) (r : response) (text : list Z) : F response :=
  b ← lift (blit r.1 off (text ++ [0])); mret (b, r.2).
Definition put (r : response) (text : string) : F response := put_at 0 r (str text).
Definition put_fmt (off : Z) (r : response) (fmt : string) (args : list arg) : F response :=
  '(out, _) ← lift (vsprintf (lit fmt) args); put_at off r out.
Definition set_ret (r : response) (z : Z) : response := (r.1, z).

Definition tx (r : response) : F unit := fastboot_tx_status r.1.

Definition block : Type := response → F flow.

Definition seq (a b : block) : block := λ r,
  f ← a r; match f with Next r => b r | _ => mret f end.

(** [if (memcmp(cmdbuf, prefix, ...) == 0)]. *)
Definition on_cmd (cmdbuf : list Z) (prefix : string) (body : block) : block := λ r,
  b ← lift (starts cmdbuf (str prefix)); if (b : bool) then body r else mret (Next r).

Definition cmd_continue : block := λ r,
  r ← put r "OKAY";
  _ ← tx r;
  _ ← emit Bootd;
  if bootd_boots then mret Gone else
  r ← put r "FAIL: invalid boot image";
  mret (Next (set_ret r 0)).

Definition cmd_reboot_bootloader : block := λ r,
  r ← put r "OKAY";
  _ ← tx r;
  _ ← emit (WarmReset (str "bootloader"));
  mret (Return 0).

Definition cmd_reboot : block := λ r,
  r ← put r "OKAY";
  _ ← tx r;
  _ ← emit (ColdReset []);
  mret (Return 0).

(** A board string, copied behind the "OKAY". *)
Definition put_opt (r : response) (o : option (list Z)) : F response :=
  match o with
  | Some t => _ ← lift (c_strlen t); put_at 4 r (cut t)
  | None => mret r
  end.

(** [fastboot_getvar] of [drivers/fastboot.c] knows no variable. *)
Definition fastboot_getvar (r : response) : F response := mret r.

Definition is_var (v : list Z) (name : string) : F bool :=
  r ← lift (c_strcmp v (lit name)); mret (r =? 0).

Definition cmd_getvar (cmdbuf : list Z) : block := λ r,
  r ← put r "OKAY";
  s ← get;
  let i := iface s in
  let v := drop 7 cmdbuf in
  r ← (b ← is_var v "version"; if (b : bool) then put_at 4 r (cut FASTBOOT_VERSION) else
       b ← is_var v "product"; if (b : bool) then put_opt r (product_name i) else
       b ← is_var v "serialno"; if (b : bool) then put_opt r (serial_no i) else
       b ← is_var v "downloadsize"; if (b : bool) then
         (if transfer_buffer_size i =? 0 then mret r
          else put_fmt 4 r "%08x" [AInt (transfer_buffer_size i)]) else
       b ← is_var v "max-download-size"; if (b : bool) then
         (if transfer_buffer_size i =? 0 then mret r
          else put_fmt 4 r "%lu" [AInt (transfer_buffer_size i)]) else
       b ← is_var v "cpurev"; if (b : bool) then put_opt r (proc_rev i) else
       b ← is_var v "secure"; if (b : bool) then put_opt r (proc_type i) else
       fastboot_getvar r);
  mret (Next (set_ret r 0)).

(** The blocks of "oem ", on the text behind it.  [junk], [ver] and [value]
    are the uninitialised locals of the idme functions; [fuel] bounds the
    recursion of the formatting. *)
Definition oem_shutdown : block := λ r,
  r ← put r "SHUTDOWN";
  _ ← tx r;
  _ ← emit PowerDown;
  if powers_down then mret Gone else mret (Next r).

Definition oem_idme (junk ver value cmdbuf : list Z) : block := λ r,
  ret ← on_board (on_idme (fastboot_idme junk ver value (drop 5 cmdbuf)));
  r ← put r (if negb (ret =? 0) then "FAIL" else "OKAY");
  mret (Goto_done (set_ret r 0)).

Definition oem_format (fuel : nat) (cmdbuf : list Z) : block := λ r,
  ret ← on_board (fastboot_oem fuel cmdbuf);
  r ← put r (if ret <? 0 then "FAIL" else "OKAY");
  mret (Goto_done (set_ret r ret)).

Definition oem_recovery : block := λ r,
  r ← put r "OKAY";
  _ ← tx r;
  _ ← emit (WarmReset (str "recovery"));
  mret Gone.

Definition oem_fail : block := λ r,
  r ← put r "FAIL"; mret (Goto_done r).

Definition cmd_oem (fuel : nat) (junk ver value cmdbuf : list Z) : block := λ r,
  let cmdbuf := drop 4 cmdbuf in
  seq (on_cmd cmdbuf "shutdown" oem_shutdown)
  (seq (on_cmd cmdbuf "idme " (oem_idme junk ver value cmdbuf))
  (seq (on_cmd cmdbuf "format" (oem_format fuel cmdbuf))
  (seq (on_cmd cmdbuf "recovery" oem_recovery)
  (seq (on_cmd cmdbuf "unlock" oem_fail)
  oem_fail)))) (set_ret r 0).

(** The entry with a name: its index and the entry. *)
Definition find_ptn (name : list Z) : F (option (Z * fastboot_ptentry)) :=
  s ← get;
  o ← lift (fastboot_flash_find_ptn (b_table (f_board s)) name);
  match o with
  | Some n => e ← lift (idx (ptable (b_table (f_board s))) n); mret (Some (n, e))
  | None => mret None
  end.

Definition set_controller (n : Z) : F unit :=
  modify (λ s, let f := fl s in
    set_fl (mkFlashing n (multiflash_offset f) (multiflash_ptn f) (mmcwrite_is_sparsed f) (fastboot_confirmed f)) s).

(** The two [do_mmc] calls of the erase commands. *)
Definition erase_calls (ptn : fastboot_ptentry) (r : response) : F response :=
  s ← get;
  slot ← lift (sprintf_local 32 (lit "%d") [AInt (mmc_controller_no (fl s))]);
  length ← lift (sprintf_local 32 (lit "0x%x") [AInt (plength ptn)]);
  start ← lift (sprintf_local 32 (lit "0x%x") [AInt (pstart ptn)]);
  i ← do_mmc None [lit "mmcinit"; slot];
  r ← put r (if negb (i =? 0) then "FAIL: Init of MMC card" else "OKAY");
  e ← do_mmc None [lit "mmc"; slot; lit "erase"; start; length];
  put r (if negb (e =? 0) then "FAIL: Erase partition" else "OKAY").

(** The loop of the NAND branch, whose erase command is compiled out: the
    texts of the locals. *)
Definition erase_round (ptn : fastboot_ptentry) (repeat : Z) (x : unit) : F unit :=
  _ ← lift (sprintf_local 32 (lit "0x%x") [AInt (u64 (pstart ptn + repeat * plength ptn))]); mret x.

Definition erase_nand (ptn : fastboot_ptentry) : F unit :=
  let repeat_max :=
    if flag (pflags ptn) FASTBOOT_PTENTRY_FLAGS_REPEAT_MASK
    then Z.land (pflags ptn) FASTBOOT_PTENTRY_FLAGS_REPEAT_MASK else 1 in
  _ ← lift (sprintf_local 32 (lit "0x%x") [AInt (plength ptn)]);
  mfor (seqZ 0 repeat_max) (erase_round ptn) tt.

Definition cmd_erase (cmdbuf : list Z) : block := λ r,
  s ← get;
  r ← (match storage_medium (iface s) with
    | NAND =>
        o ← find_ptn (drop 6 cmdbuf);
        match o with
        | None => put r "FAILpartition does not exist"
        | Some (_, ptn) => _ ← erase_nand ptn; put r "OKAY"
        end
    | EMMC =>
        _ ← set_controller 1;
        o ← find_ptn (drop 6 cmdbuf);
        match o with
        | None => put r "FAIL: partition doesn't exist"
        | Some (_, ptn) => erase_calls ptn r
        end
    end);
  mret (Next (set_ret r 0)).

(** [ret] is left as it is. *)
Definition cmd_mmcerase (cmdbuf : list Z) : block := λ r,
  '(n, _) ← lift (simple_strtoul (drop 9 cmdbuf) 10);
  _ ← set_controller n;
  o ← find_ptn (drop 11 cmdbuf);
  r ← (match o with
    | None => put r "FAIL: partition doesn't exist"
    | Some (_, ptn) => erase_calls ptn r
    end);
  mret (Next r).

Definition cmd_download (cmdbuf : list Z) : block := λ r,
  '(n, _) ← lift (simple_strtoul (drop 9 cmdbuf) 16);
  s ← get;
  let unpadded := download_bytes_unpadded (dl s) in
  _ ← modify (set_dl (mkDownload n 0 unpadded 0));
  r ← (if n =? 0 then put r "FAILdata invalid size"
       else if transfer_buffer_size (iface s) <? n then
         _ ← modify (set_dl (mkDownload 0 0 unpadded 0));
         put r "FAILdata too large"
       else put_fmt 0 r "DATA%08x" [AInt n]);
  mret (Next (set_ret r 0)).

Definition cmd_boot : block := λ r,
  s ← get;
  let n := download_bytes (dl s) in
  if negb (n =? 0) && (CFG_FASTBOOT_MKBOOTIMAGE_PAGE_SIZE <? n) then
    start ← lift (sprintf_local 32 (lit "0x%x") [AInt (transfer_buffer_addr (iface s))]);
    r ← put r "OKAY";
    _ ← tx r;
    _ ← emit (Booti (cut start));
    if booti_boots then mret Gone else
    r ← put r "FAILinvalid boot image";
    mret (Next (set_ret r 0))
  else
    r ← put r "FAILinvalid boot image";
    mret (Next (set_ret r 0)).

(** [write_to_ptn_emmc(ptn, offset, response)] with the text it leaves. *)
Definition flash_emmc (ptn : fastboot_ptentry) (offset : Z) (r : response) : F (response * Z) :=
  '(t, status) ← write_to_ptn_emmc ptn offset;
  r ← put_at 0 r t;
  mret (r, status).

(** [ret] is left as it is. *)
Definition cmd_mmcwrite (cmdbuf : list Z) : block := λ r,
  s ← get;
  r ← (if negb (download_bytes (dl s) =? 0) then
      '(n, _) ← lift (simple_strtoul (drop 9 cmdbuf) 10);
      _ ← set_controller n;
      o ← find_ptn (drop 11 cmdbuf);
      match o with
      | None => put r "FAILpartition does not exist"
      | Some (_, ptn) => '(r, _) ← flash_emmc ptn 0 r; mret r
      end
    else put r "FAILno image downloaded");
  mret (Next r).

(** Newlines become the terminators of the environment. *)
Definition env_of_text (l : list Z) (n : Z) : list Z :=
  ((λ c, if c =? 10 then 0 else c) <$> take (Z.to_nat n) l) ++ drop (Z.to_nat n) l.

(** "this is not really a flash write, but instead a saveenv". *)
Definition flash_env : F unit :=
  s ← get;
  let n := download_bytes (dl s) in
  _ ← lift (slice (transfer_buffer s) 0 n);
  _ ← modify (set_buffer (env_of_text (transfer_buffer s) n));
  s ← get;
  e ← lift (c_memset (env_data s) 0 0 ENV_SIZE);
  e ← lift (c_memcpy e 0 (transfer_buffer s) n);
  _ ← modify (set_env_data e);
  emit SaveEnv.

Definition too_large (n : Z) (ptn : fastboot_ptentry) : bool :=
  (plength ptn <? n) && negb (flag (pflags ptn) FASTBOOT_PTENTRY_FLAGS_WRITE_ENV).

Definition flash_nand (ptn : fastboot_ptentry) (r : response) : F response :=
  s ← get;
  if too_large (download_bytes (dl s)) ptn then put r "FAILimage too large for partition"
  else if flag (pflags ptn) FASTBOOT_PTENTRY_FLAGS_WRITE_ENV then
    '(e, err) ← saveenv_to_ptn ptn;
    if negb (e =? 0) then put_fmt 0 r "FAIL%s" [AStr (Some err)] else put r "OKAY"
  else
    e ← write_to_ptn ptn;
    put r (if negb (e =? 0) then "FAILfailed to flash partition" else "OKAY").

Definition flash_ptn_emmc (ptn : fastboot_ptentry) (r : response) : F response :=
  s ← get;
  if too_large (download_bytes (dl s)) ptn then put r "FAILimage too large for partition"
  else if flag (pflags ptn) FASTBOOT_PTENTRY_FLAGS_WRITE_ENV then
    _ ← flash_env; put r "OKAY"
  else '(r, _) ← flash_emmc ptn 0 r; mret r.

(** [printf] of [ptn->name]: the text is read through the pointer.  (Of an
    entry that was found [fastboot_flash_find_ptn] has read all of it.) *)
Definition print_name (ptn : option fastboot_ptentry) : F unit :=
  e ← lift ptn; _ ← lift (c_strlen (pname e)); mret tt.

(** On the eMMC branch the message for a partition that does not exist
    prints the name behind the null pointer. *)
Definition cmd_flash (cmdbuf : list Z) : block := λ r,
  s ← get;
  r ← (if negb (download_bytes (dl s) =? 0) then
      o ← find_ptn (drop 6 cmdbuf);
      match o with
      | None =>
          _ ← (match storage_medium (iface s) with NAND => mret tt | EMMC => print_name None end);
          put r "FAILpartition does not exist"
      | Some (_, ptn) =>
          match storage_medium (iface s) with
          | NAND => flash_nand ptn r
          | EMMC => flash_ptn_emmc ptn r
          end
      end
    else put r "FAILno image downloaded");
  mret (Next (set_ret r 0)).

Definition set_multiflash (offset : Z) (ptn : option Z) : F unit :=
  modify (λ s, let f := fl s in
    set_fl (mkFlashing (mmc_controller_no f) offset ptn (mmcwrite_is_sparsed f) (fastboot_confirmed f)) s).

Definition multiflash_chunk (cmdbuf : list Z) (n : Z) (ptn : fastboot_ptentry) (r : response) : F response :=
  s ← get;
  let offset := multiflash_offset (fl s) in
  let bytes := download_bytes (dl s) in
  if flag (pflags ptn) FASTBOOT_PTENTRY_FLAGS_WRITE_ENV then
    put r "FAILpartition not supported with multiflash"
  else if plength ptn <? u32 (bytes + offset) then put r "FAILimage too large for partition"
  else
    '(r, status) ← flash_emmc ptn offset r;
    _ ← (if status =? 0 then
        last ← lift (starts (drop 11 cmdbuf) (str "1"));
        if (last : bool) then set_multiflash 0 None
        else set_multiflash (u32 (offset + bytes)) (Some n)
      else mret tt);
    mret r.

Definition cmd_multiflash (cmdbuf : list Z) : block := λ r,
  s ← get;
  r ← (match storage_medium (iface s) with
    | NAND => put r "FAILmultiflash is not supported for NAND"
    | EMMC =>
        if negb (download_bytes (dl s) =? 0) then
          o ← find_ptn (drop 13 cmdbuf);
          _ ← (if decide (fst <$> o = multiflash_ptn (fl s)) then mret tt
               else set_multiflash 0 (fst <$> o));
          match o with
          | None => _ ← print_name None; put r "FAILpartition does not exist"
          | Some (n, ptn) => multiflash_chunk cmdbuf n ptn r
          end
        else put r "FAILno image downloaded"
    end);
  mret (Next (set_ret r 0)).

Definition commands (fuel : nat) (junk ver value cmdbuf : list Z) : block :=
  seq (on_cmd cmdbuf "continue" cmd_continue)
  (seq (on_cmd cmdbuf "reboot-bootloader" cmd_reboot_bootloader)
  (seq (on_cmd cmdbuf "reboot" cmd_reboot)
  (seq (on_cmd cmdbuf "getvar:" (cmd_getvar cmdbuf))
  (seq (on_cmd cmdbuf "oem " (cmd_oem fuel junk ver value cmdbuf))
  (seq (on_cmd cmdbuf "erase:" (cmd_erase cmdbuf))
  (seq (on_cmd cmdbuf "mmcerase:" (cmd_mmcerase cmdbuf))
  (seq (on_cmd cmdbuf "download:" (cmd_download cmdbuf))
  (seq (on_cmd cmdbuf "boot" cmd_boot)
  (seq (on_cmd cmdbuf "mmcwrite:" (cmd_mmcwrite cmdbuf))
  (seq (on_cmd cmdbuf "flash:" (cmd_flash cmdbuf))
  (on_cmd cmdbuf "multiflash:" (cmd_multiflash cmdbuf)))))))))))).

(** The command part: the value returned, [None] when control does not come
    back.  [resp] is the uninitialised local array. *)
Definition rx_command (fuel : nat) (resp junk ver value cmdbuf : list Z) : F (option Z) :=
  _ ← modify (λ s, let f := fl s in
    set_fl (mkFlashing (mmc_controller_no f) (multiflash_offset f) (multiflash_ptn f) (mmcwrite_is_sparsed f) 1) s);
  r ← put (resp, 1) "FAIL";
  f ← commands fuel junk ver value cmdbuf r;
  match f with
  | Next r | Goto_done r => _ ← tx r; mret (Some r.2)
  | Return z => mret (Some z)
  | Gone => mret None
  end.

(** ** Downloads *)

(** The padding loop: zeros up to [pad] of them, or the end of the buffer. *)
Fixpoint pad_buffer (pad : nat) (size : Z) (t : list Z) (n : Z) : option (list Z * Z) :=
  match pad with
  | O => Some (t, n)
  | S pad' =>
      if size <=? n then Some (t, n) else
      t ← upd t n 0; pad_buffer pad' size t (u32 (n + 1))
  end.

(** "Transfer is done". *)
Definition rx_finish (resp : list Z) : F unit :=
  s ← get;
  let d := dl s in
  _ ← modify (set_dl (mkDownload 0 (download_bytes d) (download_bytes_unpadded d) (download_error d)));
  r ← put (resp, 1) (if negb (download_error d =? 0) then "ERROR" else "OKAY");
  _ ← tx r;
  match storage_medium (iface s) with
  | EMMC => mret tt
  | NAND =>
      let n := download_bytes d in
      let bs := nand_block_size (iface s) in
      '(t, n') ← lift (
        if negb (bs =? 0) && negb (n mod bs =? 0)
        then pad_buffer (Z.to_nat (bs - n mod bs)) (transfer_buffer_size (iface s)) (transfer_buffer s) n
        else Some (transfer_buffer s, n));
      _ ← modify (set_buffer t);
      modify (set_dl (mkDownload 0 n' n (download_error d)))
  end.

(** The feedback only prints; its remainders must be defined. *)
Definition rx_feedback : F unit :=
  s ← get;
  let n := download_bytes (dl s) in
  let bs := nand_block_size (iface s) in
  if n =? 0 then mret tt else
  if u32 (16 * bs) =? 0 then lift None else
  if n mod u32 (16 * bs) =? 0 then
    if u32 (80 * 16 * bs) =? 0 then lift None else mret tt
  else mret tt.

Definition rx_data (resp buffer : list Z) (buffer_size : Z) : F (option Z) :=
  if buffer_size =? 0 then mret (Some 0) else
  s ← get;
  let d := dl s in
  let transfer_size := u32 (download_size d - download_bytes d) in
  let transfer_size := if buffer_size <? transfer_size then buffer_size else transfer_size in
  t ← lift (c_memcpy (transfer_buffer s) (download_bytes d) buffer transfer_size);
  _ ← modify (set_buffer t);
  let n := u32 (download_bytes d + transfer_size) in
  _ ← modify (set_dl (mkDownload (download_size d) n (download_bytes_unpadded d) (download_error d)));
  _ ← (if download_size d <=? n then rx_finish resp else mret tt);
  _ ← rx_feedback;
  mret (Some 0).

Definition rx_handler (fuel : nat) (resp junk ver value buffer : list Z) (buffer_size : Z) : F (option Z) :=
  s ← get;
  if negb (download_size (dl s) =? 0) then rx_data resp buffer buffer_size
  else rx_command fuel resp junk ver value buffer.

(** ** The command [fastboot]

    [init], [poll] and [shutdown] are the functions of the USB driver;
    [poll] calls [rx_handler]. *)
Section session.
Context (init poll : F Z) (shutdown : F unit) (fuel : nat).

Definition poll_step (_ : unit) : F (unit + unit) :=
  r ← poll; mret (if negb (r =? 0) then inr tt else inl tt).
Definition poll_forever : F unit := mloop fuel poll_step tt.

(** One round of [while (fastboot_countdown--)]. *)
Definition countdown_step (countdown : Z) : F (Z + unit) :=
  if countdown =? 0 then mret (inr tt) else
  r ← poll;
  if negb (r =? 0) then mret (inr tt) else
  s ← get;
  if fastboot_confirmed (fl s) =? 1 then
    _ ← emit Show;
    _ ← poll_forever;
    mret (inl (countdown - 1))
  else
    r ← poll;
    mret (if negb (r =? 0) then inr tt else inl (countdown - 1)).

Definition CFG_FASTBOOT_COUNTDOWN : Z := 700000.

(** [val] is the uninitialised local; [stack] is that of [getbootmode]. *)
Definition do_fastboot (stack : list Z) (val : option Z) (flag : Z) : F Z :=
  i ← init;
  '(ret, val) ← (if i =? 0 then
      v ← on_board (on_idme (getbootmode stack));
      _ ← (if flag =? 3 then mloop (S (Z.to_nat CFG_FASTBOOT_COUNTDOWN)) countdown_step CFG_FASTBOOT_COUNTDOWN
           else _ ← emit Show; poll_forever);
      mret (0, Some v)
    else mret (1, val));
  _ ← shutdown;
  v ← lift val;
  _ ← (if v =? 5 then emit SwBooting else mret tt);
  mret ret.
End session.
End ops.
