(* ===== verification/FastbootSafe.v ===== *)
(** The invariant of the fastboot state of [Fastboot], and its preservation by
    every command: whatever the host sends, no access leaves a buffer and
    every call returns. *)
From stdpp Require Import base tactics option list strings.
From Stdlib Require Import ZArith Lia.
From S2P Require Import Prelude.
From S2P Require Import CString.
From S2P Require Import MmcDev.
From S2P Require Import Sparse.
From S2P Require Import Eff.
From S2P Require Import CBuf.
From S2P Require Import Vsprintf.
From S2P Require Import Ptable.
From S2P Require Import Idme.
From S2P Require Import Gpt.
From S2P Require Import Fastboot.
Open Scope Z_scope.

Create HintDb fb discriminated.
#[local] Hint Constants Opaque : fb.

(** ** Texts in the response *)

(** A usable response: a terminated string in the 65-byte array. *)
Definition resp_ok (r : response) : Prop := length r.1 = 65%nat ∧ 0 ∈ r.1.

(** The response holds exactly this text. *)
Definition says (r : response) (t : list Z) : Prop := length r.1 = 65%nat ∧ ∃ rest, r.1 = t ++ 0 :: rest.

Lemma says_ok r t : says r t → resp_ok r.
Proof. intros [? [rest E]]. split; [done|]. rewrite E. apply elem_of_app. right. left. Qed.

Lemma wp_put_at {S} off r t (s : S) (Q : S → response → Prop) :
  length r.1 = 65%nat → 0 <= off → off + Z.of_nat (length t) < 65 →
  (∀ r', says r' (take (Z.to_nat off) r.1 ++ t) → r'.2 = r.2 → Q s r') →
  wp (b ← lift (blit r.1 off (t ++ [0])); mret (b, r.2)) s Q.
Proof.
  intros Hr Ho Hl HQ. apply wp_bind.
  assert (off + Z.of_nat (length (t ++ [0])) <= Z.of_nat (length r.1)).
  { rewrite length_app, Hr. cbn [length]. lia. }
  eapply wp_lift; [by apply blit_Some|]. apply wp_ret, HQ; [|done].
  split; cbn [fst].
  - rewrite !length_app, length_take, length_drop. rewrite length_app in H. cbn [length] in *. lia.
  - exists (drop (Z.to_nat off + length (t ++ [0])) r.1). by rewrite <-!app_assoc.
Qed.

Section put.
Context {D : Type}.
Implicit Types (s : fb D) (r : response).

Lemma wp_put r (t : string) s (Q : fb D → response → Prop) :
  length r.1 = 65%nat → (length (str t) < 65)%nat →
  (∀ r', says r' (str t) → r'.2 = r.2 → Q s r') → wp (put r t) s Q.
Proof. intros Hr Hl HQ. apply wp_put_at; [done|lia|lia|]. intros r'. by apply HQ. Qed.

Lemma wp_put_text r (t : list Z) s (Q : fb D → response → Prop) :
  length r.1 = 65%nat → (length t < 65)%nat →
  (∀ r', says r' t → r'.2 = r.2 → Q s r') → wp (put_at 0 r t) s Q.
Proof. intros Hr Hl HQ. apply wp_put_at; [done|lia|lia|]. intros r'. by apply HQ. Qed.

(** Behind the four characters of "OKAY". *)
Lemma wp_put_4 r (t : list Z) s (Q : fb D → response → Prop) :
  says r (str "OKAY") → (length t < 61)%nat →
  (∀ r', says r' (str "OKAY" ++ t) → r'.2 = r.2 → Q s r') → wp (put_at 4 r t) s Q.
Proof.
  intros [Hr [rest E]] Hl HQ. apply wp_put_at; [done|lia|lia|]. intros r' H.
  rewrite E, take_app_length' in H by done. by apply HQ.
Qed.

Lemma wp_tx r t s (Q : fb D → unit → Prop) :
  says r t → 0 ∉ t → Q (add_trace (Tx t) s) tt → wp (tx r) s Q.
Proof.
  intros [Hr [rest E]] Ht HQ. unfold tx, fastboot_tx_status. apply wp_bind.
  rewrite E. eapply wp_lift; [by apply c_strlen_app|]. unfold emit. apply wp_modify.
  assert (length t <= 64)%nat by (rewrite E, length_app in Hr; cbn [length] in Hr; lia).
  rewrite Z.min_r, Nat2Z.id by lia. by rewrite take_app_length.
Qed.

(** Some text goes out. *)
Lemma wp_tx_ok r s (Q : fb D → unit → Prop) :
  resp_ok r → (∀ t, Q (add_trace (Tx t) s) tt) → wp (tx r) s Q.
Proof.
  intros [Hr H0] HQ. unfold tx, fastboot_tx_status. apply wp_bind.
  eapply wp_lift; [by apply c_strlen_Some|]. unfold emit. apply wp_modify, HQ.
Qed.
End put.

(** ** Printed numbers are short *)

(** Characters of a text: bytes other than NUL. *)
Definition text (l : list Z) : Prop := Forall (λ c, 0 < c < 256) l.

Lemma text_nonzero l : text l → 0 ∉ l.
Proof. intros H Hi. unfold text in H. rewrite Forall_forall in H. specialize (H 0 Hi). lia. Qed.

Lemma text_bytes l : text l → bytes l.
Proof. intros H. apply (Forall_impl _ _ _ H). unfold is_byte. lia. Qed.

Lemma text_app l1 l2 : text l1 → text l2 → text (l1 ++ l2).
Proof. intros. by apply Forall_app. Qed.

Lemma text_replicate n c : 0 < c < 256 → text (replicate n c).
Proof. intros. by apply Forall_replicate. Qed.

Lemma digit_text digits n d :
  digits = lower_digits ∨ digits = upper_digits → idx digits n = Some d → 0 < d < 256.
Proof.
  intros Hd E. assert (text digits) as Ht by (destruct Hd as [-> | ->]; by_eval).
  unfold text in Ht. rewrite Forall_forall in Ht. apply Ht.
  apply idx_lookup in E as [_ E]. by apply list_elem_of_lookup_2 in E.
Qed.

Lemma tmp_loop_bound digits base f (k : nat) n acc :
  digits = lower_digits ∨ digits = upper_digits → 2 <= base <= 36 → 0 <= n < base ^ Z.of_nat k →
  (k < f)%nat → (length acc + k <= 66)%nat → text acc →
  ∃ t, tmp_loop f digits base n acc = Some t ∧ (length t <= length acc + k)%nat ∧ text t.
Proof.
  intros Hd Hb. revert f n acc. induction k as [|k IH]; intros f n acc Hn Hf Hl Ha;
    (destruct f as [|f]; [lia|]; rewrite tmp_loop_S).
  - cbn in Hn. assert (n = 0) as -> by lia. exists acc. split; [done|]. split; [lia|done].
  - destruct (Z.eqb_spec n 0) as [->|Hne]; [exists acc; split; [done|]; split; [lia|done]|].
    destruct (Z.leb_spec 66 (Z.of_nat (length acc))); [lia|].
    destruct (idx_Some digits (n mod base)) as [d Hi].
    { assert (length digits = 36%nat) as -> by (by destruct Hd as [-> | ->]). dm_lia. }
    rewrite Hi. cbn [mbind option_bind].
    destruct (IH f (n / base) (acc ++ [d])) as (t & E & Ht & Htt).
    + rewrite Nat2Z.inj_succ, Z.pow_succ_r in Hn by lia. split; [apply Z.div_pos; lia|].
      apply Z.div_lt_upper_bound; lia.
    + lia.
    + rewrite length_app. cbn. lia.
    + apply text_app; [done|]. constructor; [by eapply digit_text|constructor].
    + exists t. split; [done|]. rewrite length_app in Ht. cbn in Ht. split; [lia|done].
Qed.

Lemma pad_loop_spec size c : ∃ k s', pad_loop size c = (replicate k c, s') ∧
  Z.of_nat k = Z.max 0 size ∧ (0 < size → s' = -1) ∧ (size <= 0 → s' = size - 1).
Proof.
  unfold pad_loop. exists (Z.to_nat size). eexists. split; [done|].
  destruct (Z.ltb_spec 0 size); split_and!; lia.
Qed.

(** What [number] appends for a 32-bit value in base 10 or 16, without the
    "#" flag and a precision: a text of at most 11 characters. *)
Lemma number_bound num base size type :
  base = 10 ∨ base = 16 → flag type SPECIAL = false → -1 <= size <= 8 →
  -2147483648 <= num < 2147483648 →
  ∃ t, number num base size (-1) type = Some t ∧ (length t <= 11)%nat ∧ text t.
Proof.
  intros Hbase Hsp Hs Hn. unfold number.
  assert ((base <? 2) || (36 <? base) = false) as -> by (by destruct Hbase as [-> | ->]).
  set (digits := if flag type LARGE then upper_digits else lower_digits).
  assert (digits = lower_digits ∨ digits = upper_digits) as Hd by (unfold digits; destruct (flag type LARGE); auto).
  set (type' := if flag type LEFT then Z.land type (Z.lnot ZEROPAD) else type).
  assert (flag type' SPECIAL = false) as Hsp'.
  { unfold type'. destruct (flag type LEFT); [|done]. unfold flag in *.
    rewrite <-Z.land_assoc, (Z.land_comm (Z.lnot ZEROPAD)), Z.land_assoc.
    apply negb_false_iff, Z.eqb_eq in Hsp. rewrite Hsp. done. }
  set (c := if flag type' ZEROPAD then 48 else 32).
  assert (0 < c < 256) as Hc by (unfold c; destruct (flag type' ZEROPAD); lia).
  cbv zeta. rewrite Hsp'.
  assert (∃ sign num' size', (if flag type' SIGN then
      if num <? 0 then ([45], s32 (- num), size - 1)
      else if flag type' PLUS then ([43], num, size - 1)
      else if flag type' SPACE then ([32], num, size - 1) else ([], num, size)
    else ([], num, size)) = (sign, num', size') ∧ text sign ∧ (length sign <= 1)%nat ∧
      size' = size - Z.of_nat (length sign)) as (sign & num' & size' & -> & Hsign & Hl & ->).
  { destruct (flag type' SIGN), (num <? 0), (flag type' PLUS), (flag type' SPACE);
      eexists _, _, _; (split; [done|]); cbn [length]; (split; [by_eval|]); split; lia. }
  assert (∃ tmp, (if num' =? 0 then Some [48] else tmp_loop 33 digits base (u32 num') []) = Some tmp ∧
    (length tmp <= 10)%nat ∧ text tmp) as (tmp & -> & Hlt & Htt).
  { destruct (num' =? 0); [exists [48]; split; [done|]; split; [cbn; lia|by_eval]|].
    destruct (tmp_loop_bound digits base 33 10 (u32 num') []) as (t & -> & ? & ?);
      [done|by destruct Hbase as [-> | ->]| |lia|cbn; lia|constructor|].
    - pose proof (u32_range num') as Hr. unfold is_u32 in Hr.
      assert (4294967296 <= base ^ Z.of_nat 10) by (by destruct Hbase as [-> | ->]). lia.
    - exists t. split; [done|]. split; [cbn in *; lia|done]. }
  cbn [mbind option_bind].
  assert ((if -1 <? Z.of_nat (length tmp) then Z.of_nat (length tmp) else -1) = Z.of_nat (length tmp)) as ->
    by (destruct (Z.ltb_spec (-1) (Z.of_nat (length tmp))); lia).
  set (rest := size - Z.of_nat (length sign) - Z.of_nat (length tmp)).
  assert (∃ k1 s1, (if Z.land type' (ZEROPAD + LEFT) =? 0 then pad_loop rest 32 else ([], rest)) =
    (replicate k1 32, s1) ∧ Z.of_nat k1 + Z.max 0 s1 <= Z.max 0 rest) as (k1 & s1 & -> & H1).
  { destruct (_ =? 0); [|exists 0%nat; eexists; split; [done|lia]].
    destruct (pad_loop_spec rest 32) as (k & s' & -> & ? & ? & ?). eexists _, _. split; [done|lia]. }
  assert (∃ k2 s2, (if negb (flag type' LEFT) then pad_loop s1 c else ([], s1)) = (replicate k2 c, s2) ∧
    Z.of_nat k2 + Z.max 0 s2 <= Z.max 0 s1) as (k2 & s2 & -> & H2).
  { destruct (negb _); [|exists 0%nat; eexists; split; [done|lia]].
    destruct (pad_loop_spec s1 c) as (k & s' & -> & ? & ? & ?). eexists _, _. split; [done|lia]. }
  destruct (pad_loop_spec s2 32) as (k3 & s3 & -> & H3 & _).
  eexists. split; [reflexivity|]. rewrite Z.sub_diag. cbn [Z.to_nat replicate app]. split.
  - rewrite !length_app, length_rev, !length_replicate. unfold rest in *. lia.
  - repeat apply text_app; try done; try (apply text_replicate; lia). by apply Forall_rev.
Qed.

(** The formats the fastboot code prints numbers with. *)
Ltac run_format E :=
  unfold vsprintf; cbn -[number s32]; try change (s32 (0 * 10 + 56 - 48)) with 8; try change (Z.lor 0 SIGN) with SIGN; try change (Z.lor 0 ZEROPAD) with ZEROPAD; rewrite E; cbn [mbind option_bind]; reflexivity.

Lemma s32_range z : -2147483648 <= s32 z < 2147483648.
Proof. int_lia. Qed.

Lemma fmt_0x z : ∃ t, vsprintf (lit "0x%x") [AInt z] = Some (str "0x" ++ t, []) ∧
  number (s32 z) 16 (-1) (-1) 0 = Some t ∧ (length t <= 11)%nat ∧ text t.
Proof.
  destruct (number_bound (s32 z) 16 (-1) 0) as (t & E & Hl & Ht);
    [by right|done|lia|apply s32_range|].
  exists t. split; [|done]. change (lit "0x%x"%string) with [48; 120; 37; 120; 0]. run_format E.
Qed.

Lemma fmt_d z : ∃ t, vsprintf (lit "%d") [AInt z] = Some (t, []) ∧ (length t <= 11)%nat ∧ text t.
Proof.
  destruct (number_bound (s32 z) 10 (-1) SIGN) as (t & E & Hl & Ht);
    [by left|done|lia|apply s32_range|].
  exists t. split; [|done]. change (lit "%d"%string) with [37; 100; 0]. run_format E.
Qed.

Lemma fmt_08x z : ∃ t, vsprintf (lit "%08x") [AInt z] = Some (t, []) ∧ (length t <= 11)%nat ∧ text t.
Proof.
  destruct (number_bound (s32 z) 16 8 ZEROPAD) as (t & E & Hl & Ht);
    [by right|done|lia|apply s32_range|].
  exists t. split; [|done]. change (lit "%08x"%string) with [37; 48; 56; 120; 0]. run_format E.
Qed.

Lemma fmt_DATA z : ∃ t, vsprintf (lit "DATA%08x") [AInt z] = Some (str "DATA" ++ t, []) ∧
  vsprintf (lit "%08x") [AInt z] = Some (t, []) ∧ (length t <= 11)%nat ∧ text t.
Proof.
  destruct (number_bound (s32 z) 16 8 ZEROPAD) as (t & E & Hl & Ht);
    [by right|done|lia|apply s32_range|].
  exists t. split; [|split; [|done]].
  - change (lit "DATA%08x"%string) with [68; 65; 84; 65; 37; 48; 56; 120; 0]. run_format E.
  - change (lit "%08x"%string) with [37; 48; 56; 120; 0]. run_format E.
Qed.

Lemma fmt_lu z : ∃ t, vsprintf (lit "%lu") [AInt z] = Some (t, []) ∧ (length t <= 11)%nat ∧ text t.
Proof.
  destruct (number_bound (s32 z) 10 (-1) 0) as (t & E & Hl & Ht);
    [by left|done|lia|apply s32_range|].
  exists t. split; [|done]. change (lit "%lu"%string) with [37; 108; 117; 0]. run_format E.
Qed.

(** Local arrays. *)
Lemma local_text n fmt args t :
  vsprintf fmt args = Some (t, []) → (length t < n)%nat → sprintf_local n fmt args = Some (t ++ [0]).
Proof.
  intros E Hl. unfold sprintf_local. rewrite E. cbn [mbind option_bind].
  by destruct (Nat.ltb_spec (length t) n); [|lia].
Qed.

Lemma local_0x z : ∃ t, sprintf_local 32 (lit "0x%x") [AInt z] = Some (str "0x" ++ t ++ [0]) ∧
  number (s32 z) 16 (-1) (-1) 0 = Some t ∧ text t.
Proof.
  destruct (fmt_0x z) as (t & E & En & Hl & Ht). exists t. split; [|done].
  rewrite (local_text _ _ _ _ E); [by rewrite <-app_assoc|]. rewrite length_app. cbn. lia.
Qed.

Lemma local_d z : ∃ t, sprintf_local 32 (lit "%d") [AInt z] = Some (t ++ [0]) ∧ text t.
Proof.
  destruct (fmt_d z) as (t & E & Hl & Ht). exists t. split; [|done].
  apply (local_text _ _ _ _ E). lia.
Qed.

(** The text of a 32-bit number, read back in base 16. *)
Lemma strtoul_0x z t : number (s32 z) 16 (-1) (-1) 0 = Some t →
  simple_strtoul (str "0x" ++ t ++ [0]) 16 = Some (u32 z, [0]).
Proof.
  intros E. destruct (hex_roundtrip_text (u32 z) (u32_range z)) as (t' & E' & H).
  assert (s32 (u32 z) = s32 z) as Es by int_lia. rewrite Es, E in E'. by simplify_eq.
Qed.

(** ** Prefixes *)

Lemma starts_total buf s : 0 ∈ buf → text s → ∃ b, starts buf s = Some b.
Proof.
  revert buf. induction s as [|c s IH]; intros buf H0 Ht; [by exists true|].
  destruct buf as [|b buf]; [by apply not_elem_of_nil in H0|]. cbn [starts].
  apply Forall_cons in Ht as [Hc Ht]. destruct (Z.eqb_spec (b - c) 0); [|by exists false].
  apply elem_of_cons in H0 as [<-|H0]; [lia|]. by apply IH.
Qed.

Lemma drop_elem {A} (x : A) (l : list A) (n m : nat) : (n <= m)%nat → x ∈ drop m l → x ∈ drop n l.
Proof.
  intros Hn Hx. replace m with (n + (m - n))%nat in Hx by lia. rewrite <-drop_drop in Hx.
  rewrite <-(take_drop (m - n) (drop n l)). rewrite elem_of_app. by right.
Qed.

(** ** The invariant *)

(** A board string fits behind "OKAY". *)
Definition short (o : option (list Z)) : Prop :=
  match o with Some t => 0 ∈ t ∧ (length (cut t) <= 60)%nat | None => True end.

Record iface_ok (i : interface) : Prop := mkIfaceOk {
  io_medium : storage_medium i = EMMC;
  io_size : 0 < transfer_buffer_size i < 4294967296;
  io_sectors : transfer_buffer_size i mod 512 = 0;
  io_product : short (product_name i);
  io_serial : short (serial_no i);
  io_rev : short (proc_rev i);
  io_type : short (proc_type i);
  io_block : u32 (16 * nand_block_size i) ≠ 0;
  io_line : u32 (80 * 16 * nand_block_size i) ≠ 0;
}.

(** A download stays inside the transfer buffer. *)
Record dl_ok (size : Z) (d : download) : Prop := mkDlOk {
  do_bytes : 0 <= download_bytes d <= size;
  do_size : 0 <= download_size d <= size;
  do_progress : download_size d ≠ 0 → download_bytes d < download_size d;
}.

(** No partition is flashed as an environment. *)
Definition no_env (t : ptn_table) : Prop := ∀ n e, idx (ptable t) n = Some e → 0 <= n < pcount t →
  flag (pflags e) FASTBOOT_PTENTRY_FLAGS_WRITE_ENV = false.

Record buffer_ok (size : Z) (t : list Z) : Prop := mkBufferOk {
  bo_len : Z.of_nat (length t) = size;
  bo_bytes : bytes t;
}.

Record fb_ok {D} (s : fb D) : Prop := mkFbOk {
  fo_table : table_ok (b_table (f_board s));
  fo_env : no_env (b_table (f_board s));
  fo_flag : length (mmc_flag s) = 2%nat;
  fo_dl : dl_ok (transfer_buffer_size (iface s)) (dl s);
  fo_sparse : state_ok (sparse s);
  fo_buffer : buffer_ok (transfer_buffer_size (iface s)) (transfer_buffer s);
  fo_iface : iface_ok (iface s);
}.

Section preserved.
Context {D : Type} `{MmcDev D} `{MmcCtl D}.
Implicit Types (s : fb D).

Lemma ok_trace a s : fb_ok s → fb_ok (add_trace a s).
Proof. by intros []. Qed.
Lemma ok_fl f s : fb_ok s → fb_ok (set_fl f s).
Proof. by intros []. Qed.
Lemma ok_flag f s : fb_ok s → length f = 2%nat → fb_ok (set_flag f s).
Proof. by intros []. Qed.
Lemma ok_dl d s : fb_ok s → dl_ok (transfer_buffer_size (iface s)) d → fb_ok (set_dl d s).
Proof. by intros []. Qed.
Lemma ok_sparse st s : fb_ok s → state_ok st → fb_ok (set_sparse st s).
Proof. by intros []. Qed.
Lemma ok_buffer t s : fb_ok s → buffer_ok (transfer_buffer_size (iface s)) t → fb_ok (set_buffer t s).
Proof. by intros []. Qed.
Lemma ok_fdev d s : fb_ok s → fb_ok (set_fdev d s).
Proof. by intros []. Qed.
Lemma ok_board b s : fb_ok s → b_table b = b_table (f_board s) → fb_ok (set_board b s).
Proof. intros [] E. by split; cbn [set_board f_board]; rewrite ?E. Qed.

Lemma set_dl_twice d1 d2 s : set_dl d2 (set_dl d1 s) = set_dl d2 s.
Proof. done. Qed.

Lemma dl_ok_zero size d : dl_ok size d → 0 <= size → dl_ok size (mkDownload 0 0 (download_bytes_unpadded d) 0).
Proof. intros [] ?. split; cbn; lia. Qed.
End preserved.
#[export] Hint Resolve ok_trace ok_fl ok_flag ok_dl ok_sparse ok_buffer ok_fdev : fb.

(** The outcome of a block: a usable response. *)
Definition flow_ok (f : flow) : Prop :=
  match f with Next r | Goto_done r => resp_ok r | _ => True end.

Definition safe_block {D} (b : block (D := D)) : Prop := ∀ s r,
  fb_ok s → resp_ok r → wp (b r) s (λ s' f, fb_ok s' ∧ flow_ok f).

Section blocks.
Context {D : Type} `{MmcDev D} `{MmcCtl D} `{Platform}.
Implicit Types (s : fb D) (r : response).

Lemma safe_seq (a b : block (D := D)) : safe_block a → safe_block b → safe_block (seq a b).
Proof.
  intros Ha Hb s r Hs Hr. unfold seq. apply wp_bind. eapply wp_mono; [by apply Ha|].
  intros s' f [Hs' Hf]. destruct f; [by apply Hb|by apply wp_ret..].
Qed.

Lemma safe_on_cmd cmdbuf prefix (b : block (D := D)) :
  0 ∈ cmdbuf → text (str prefix) → (starts cmdbuf (str prefix) = Some true → safe_block b) →
  safe_block (on_cmd cmdbuf prefix b).
Proof.
  intros Hz Hp Hb s r Hs Hr. unfold on_cmd. apply wp_bind.
  destruct (starts_total cmdbuf (str prefix) Hz Hp) as [x E]. eapply wp_lift; [exact E|].
  destruct x; [by apply Hb|by apply wp_ret].
Qed.

(** Steps every block is made of. *)
Lemma safe_put r t s (Q : fb D → response → Prop) :
  fb_ok s → resp_ok r → (length (str t) < 65)%nat →
  (∀ r', says r' (str t) → resp_ok r' → Q s r') → wp (put r t) s Q.
Proof. intros Hs [Hr _] Hl HQ. apply wp_put; [done|done|]. intros r' Hs' _. apply HQ; [done|by eapply says_ok]. Qed.

Lemma safe_tx r s (Q : fb D → unit → Prop) :
  fb_ok s → resp_ok r → (∀ s', fb_ok s' → Q s' tt) → wp (tx r) s Q.
Proof. intros Hs Hr HQ. apply wp_tx_ok; [done|]. intros t. by apply HQ, ok_trace. Qed.

Lemma safe_emit a s (Q : fb D → unit → Prop) :
  fb_ok s → (∀ s', fb_ok s' → Q s' tt) → wp (emit a) s Q.
Proof. intros Hs HQ. by apply wp_modify, HQ, ok_trace. Qed.

End blocks.

(** One step of a safety proof. *)
Ltac safe_step :=
  lazymatch goal with
  | |- wp (mbind _ _) _ _ => apply wp_bind
  | |- wp (mret _) _ _ => apply wp_ret
  | |- wp get _ _ => apply wp_get
  | |- wp (put _ _) _ _ => apply safe_put; [assumption|assumption|by apply Nat.ltb_lt|intros ? ? ?]
  | |- wp (tx _) _ _ => apply safe_tx; [assumption|assumption|intros ? ?]
  | |- wp (emit _) _ _ => apply safe_emit; [assumption|intros ? ?]
  | |- wp (if ?b then _ else _) _ _ => destruct b eqn:?
  end; cbn beta iota.

Ltac safe_run := repeat safe_step; try (split; [assumption|done]).

Section blocks2.
Context {D : Type} `{MmcDev D} `{MmcCtl D} `{Platform}.
Implicit Types (s : fb D) (r : response).

Lemma safe_continue : safe_block (D := D) cmd_continue.
Proof. intros s r Hs Hr. unfold cmd_continue. safe_run. Qed.

Lemma safe_reboot_bootloader : safe_block (D := D) cmd_reboot_bootloader.
Proof. intros s r Hs Hr. unfold cmd_reboot_bootloader. safe_run. Qed.

Lemma safe_reboot : safe_block (D := D) cmd_reboot.
Proof. intros s r Hs Hr. unfold cmd_reboot. safe_run. Qed.

Lemma safe_shutdown : safe_block (D := D) oem_shutdown.
Proof. intros s r Hs Hr. unfold oem_shutdown. safe_run. Qed.

Lemma safe_recovery : safe_block (D := D) oem_recovery.
Proof. intros s r Hs Hr. unfold oem_recovery. safe_run. Qed.

Lemma safe_oem_fail : safe_block (D := D) oem_fail.
Proof. intros s r Hs Hr. unfold oem_fail. safe_run. Qed.

End blocks2.

(** ** The blocks that take an argument *)

Section blocks3.
Context {D : Type} `{MmcDev D} `{MmcCtl D} `{Platform}.
Implicit Types (s : fb D) (r : response).

(** A name after a prefix of the command. *)
Definition arg_ok (l : list Z) : Prop := 0 ∈ l ∧ bytes l.

Lemma arg_drop n l : arg_ok (drop 13 l) → bytes l → (n <= 13)%nat → arg_ok (drop n l).
Proof. intros [Hz _] Hb Hn. split; [by apply (drop_elem 0 l n 13)|by apply bytes_drop]. Qed.

Lemma safe_is_var v name s (Q : fb D → bool → Prop) :
  arg_ok v → (∀ b, Q s b) → wp (is_var v name) s Q.
Proof.
  intros [Hz Hb] HQ. unfold is_var. apply wp_bind.
  destruct (c_strcmp_spec v (lit name)) as (x & E & _); [done| |done| |].
  - apply elem_of_app. right. left.
  - apply bytes_app. split; [apply str_bytes|by_eval].
  - eapply wp_lift; [exact E|]. by apply wp_ret.
Qed.

Lemma safe_put_opt r o s (Q : fb D → response → Prop) :
  fb_ok s → says r (str "OKAY") → short o → (∀ r', resp_ok r' → Q s r') → wp (put_opt r o) s Q.
Proof.
  intros Hs Hr Ho HQ. destruct o as [t|]; cbn [put_opt short] in *.
  - destruct Ho as [Ht Hl]. apply wp_bind. eapply wp_lift; [by apply c_strlen_Some|].
    apply wp_put_4; [done|lia|]. intros r' Hr' _. apply HQ. by eapply says_ok.
  - apply wp_ret, HQ. by eapply says_ok.
Qed.

Lemma safe_put_fmt r off fmt args t s (Q : fb D → response → Prop) :
  says r (str "OKAY") ∧ off = 4 ∨ resp_ok r ∧ off = 0 →
  vsprintf (lit fmt) args = Some (t, []) → (length t < 61)%nat →
  (∀ r', says r' (take (Z.to_nat off) r.1 ++ t) → resp_ok r' → Q s r') → wp (put_fmt off r fmt args) s Q.
Proof.
  intros Hr E Hl HQ. unfold put_fmt. apply wp_bind. eapply wp_lift; [exact E|]. cbn beta iota.
  assert (length r.1 = 65%nat ∧ (off = 0 ∨ off = 4)) as [Hlen Hoff].
  { destruct Hr as [[[? ?] ->]|[[? ?] ->]]; auto. }
  apply wp_put_at; [done|lia|lia|]. intros r' Hr' _. apply HQ; [done|by eapply says_ok].
Qed.

Lemma safe_getvar cmdbuf : arg_ok (drop 7 cmdbuf) → safe_block (D := D) (cmd_getvar cmdbuf).
Proof.
  intros Hv s r0 Hs Hr. unfold cmd_getvar. apply wp_bind, safe_put; [done|done|by apply Nat.ltb_lt|].
  intros r Hsay Hok. do 3 safe_step.
  assert (iface_ok (iface s)) as Hi by apply Hs.
  eapply (wp_mono _ _ (λ s' r', s' = s ∧ resp_ok r'));
    [|intros s' r' [-> Hr']; apply wp_ret; by split].
  repeat (apply wp_bind; apply safe_is_var; [done|]; intros []; cbn beta iota).
  all: try (apply safe_put_opt; [done|done|apply Hi|by intros; split]).
  - apply wp_put_4; [done|by apply Nat.ltb_lt|]. intros r' Hr' _. split; [done|by eapply says_ok].
  - destruct (_ =? 0); [by apply wp_ret|].
    destruct (fmt_08x (transfer_buffer_size (iface s))) as (t & E & ? & _).
    eapply safe_put_fmt; [by left|exact E|lia|by intros; split].
  - destruct (_ =? 0); [by apply wp_ret|].
    destruct (fmt_lu (transfer_buffer_size (iface s))) as (t & E & ? & _).
    eapply safe_put_fmt; [by left|exact E|lia|by intros; split].
  - by apply wp_ret.
Qed.

(** Looking a partition up. *)
Lemma wp_find_ptn name s (Q : fb D → option (Z * fastboot_ptentry) → Prop) :
  fb_ok s → arg_ok name →
  ((∀ k e, 0 <= k < pcount (b_table (f_board s)) → idx (ptable (b_table (f_board s))) k = Some e →
      cut (pname e) ≠ cut name) → Q s None) →
  (∀ n e, 0 <= n < pcount (b_table (f_board s)) → idx (ptable (b_table (f_board s))) n = Some e →
     cut (pname e) = cut name → flag (pflags e) FASTBOOT_PTENTRY_FLAGS_WRITE_ENV = false →
     0 ∈ pname e → Q s (Some (n, e))) →
  wp (find_ptn name) s Q.
Proof.
  intros Hs [Hz Hb] HN HS. unfold find_ptn. do 2 safe_step.
  destruct (find_ptn_spec _ name (fo_table _ Hs) Hz Hb) as ([n|] & E & Hr); apply wp_bind;
    (eapply wp_lift; [exact E|]); cbn beta iota.
  - destruct Hr as (Hn & (e & He & Hc) & _). apply wp_bind. eapply wp_lift; [exact He|].
    apply wp_ret. apply HS; try done; [by apply (fo_env _ Hs n e)|].
    by apply (to_names _ (fo_table _ Hs) n e).
  - by apply wp_ret, HN.
Qed.

Lemma safe_controller n s (Q : fb D → unit → Prop) :
  fb_ok s → (∀ s', fb_ok s' → mmc_controller_no (fl s') = n → Q s' tt) → wp (set_controller n) s Q.
Proof. intros Hs HQ. apply wp_modify, HQ; [by apply ok_fl|done]. Qed.

(** *** Erasing *)

Context (Hinit : ∀ (d : D) slot, (mmc_init d slot).2 = 0).

Lemma wp_init slot s (Q : fb D → Z → Prop) :
  Q (set_fdev (mmc_init (fdev s) slot).1 s) 0 → wp (f_init slot) s Q.
Proof.
  intros HQ. unfold f_init, on_board, g_init, wp. pose proof (Hinit (dev (b_idme (f_board s))) slot) as E.
  unfold fdev in HQ. destruct (mmc_init _ _) as [d x]. cbn in E. by subst x.
Qed.

(** The digit of a controller number. *)
Lemma slot_text n : n = 0 ∨ n = 1 →
  sprintf_local 32 (lit "%d") [AInt n] = Some (if n =? 0 then lit "0" else lit "1").
Proof. intros [-> | ->]; by vm_compute. Qed.

Lemma wp_word argv i a v e s (Q : fb D → Z → Prop) :
  idx argv i = Some a → simple_strtoul a 16 = Some (v, e) → Q s v → wp (mmc_word argv i) s Q.
Proof.
  intros Ha Hv HQ. unfold mmc_word. apply wp_bind. eapply wp_lift; [exact Ha|].
  apply wp_bind. eapply wp_lift; [exact Hv|]. by apply wp_ret.
Qed.

Lemma slot_word n : n = 0 ∨ n = 1 →
  simple_strtoul (if n =? 0 then lit "0" else lit "1") 16 = Some (n, [0]).
Proof. intros [-> | ->]; by vm_compute. Qed.

Lemma wp_mmcinit n s (Q : fb D → Z → Prop) :
  n = 0 ∨ n = 1 → length (mmc_flag s) = 2%nat →
  (∀ f, upd (mmc_flag s) n 1 = Some f → Q (set_flag f (set_fdev (mmc_init (fdev s) n).1 s)) 0) →
  wp (do_mmc None [lit "mmcinit"; if n =? 0 then lit "0" else lit "1"]) s Q.
Proof.
  intros Hn Hl HQ. unfold do_mmc. cbn [length Nat.ltb Nat.leb Nat.eqb].
  apply wp_bind. eapply wp_lift; [reflexivity|]. apply wp_bind. eapply wp_lift; [by vm_compute|].
  cbn [Z.eqb negb]. apply wp_bind. eapply wp_word; [reflexivity|by apply slot_word|]. assert (negb (n =? 0) && negb (n =? 1) = false) as -> by (by destruct Hn as [-> | ->]).
  apply wp_bind, wp_init. cbn [Z.eqb negb]. do 2 safe_step. cbn [mmc_flag set_fdev set_board].
  destruct (upd (mmc_flag s) n 1) as [f|] eqn:E; [|rewrite upd_Some in E by (rewrite Hl; lia); done].
  apply wp_bind. eapply wp_lift; [reflexivity|]. apply wp_bind, wp_modify, wp_ret. by apply HQ.
Qed.

Lemma wp_mmc_erase n st len tst tlen s (Q : fb D → Z → Prop) :
  n = 0 ∨ n = 1 → idx (mmc_flag s) n = Some 1 →
  simple_strtoul tst 16 = Some (st, [0]) → simple_strtoul tlen 16 = Some (len, [0]) →
  Q (set_fdev (mmc_erase (fdev s) n st len).1 s) 0 →
  wp (do_mmc None [lit "mmc"; if n =? 0 then lit "0" else lit "1"; lit "erase"; tst; tlen]) s Q.
Proof.
  intros Hn Hf Hs Hl HQ. unfold do_mmc. cbn [length Nat.ltb Nat.leb Nat.eqb].
  apply wp_bind. eapply wp_word; [reflexivity|by apply slot_word|]. assert (negb (n =? 0) && negb (n =? 1) = false) as -> by (by destruct Hn as [-> | ->]).
  do 2 safe_step. apply wp_bind. eapply wp_lift; [exact Hf|]. cbn [Z.eqb].
  apply wp_bind. eapply wp_lift; [reflexivity|].
  do 3 (apply wp_bind; eapply wp_lift; [by vm_compute|]). cbn [Z.eqb negb andb].
  apply wp_bind. eapply wp_lift; [by vm_compute|]. cbn [Z.eqb].
  unfold mmc_erase_cmd. cbn [length Nat.eqb negb].
  apply wp_bind. eapply wp_word; [reflexivity|exact Hs|].
  apply wp_bind. eapply wp_word; [reflexivity|exact Hl|].
  apply wp_bind. unfold dev_call, wp. destruct (mmc_erase (fdev s) n st len) as [d x]. exact HQ.
Qed.
End blocks3.

Section blocks4.
Context {D : Type} `{MmcDev D} `{MmcCtl D} `{Platform}.
Context (Hinit : ∀ (d : D) slot, (mmc_init d slot).2 = 0).
Implicit Types (s : fb D) (r : response).

(** The device after the two [do_mmc] calls of an erase: the texts of the
    start and of the 64-bit length carry only 32 bits. *)
Definition erased (d : D) (n : Z) (ptn : fastboot_ptentry) : D :=
  (mmc_erase (mmc_init d n).1 n (u32 (pstart ptn)) (u32 (plength ptn))).1.

Lemma wp_erase_calls ptn r s (Q : fb D → response → Prop) :
  fb_ok s → resp_ok r → mmc_controller_no (fl s) = 0 ∨ mmc_controller_no (fl s) = 1 →
  (∀ f r', length f = 2%nat → says r' (str "OKAY") → resp_ok r' →
     Q (set_fdev (erased (fdev s) (mmc_controller_no (fl s)) ptn) (set_flag f s)) r') →
  wp (erase_calls ptn r) s Q.
Proof.
  intros Hs Hr Hn HQ. unfold erase_calls. do 2 safe_step. set (n := mmc_controller_no (fl s)) in *.
  apply wp_bind. eapply wp_lift; [by apply slot_text|].
  destruct (local_0x (plength ptn)) as (tl & El & Enl & _). apply wp_bind. eapply wp_lift; [exact El|].
  destruct (local_0x (pstart ptn)) as (ts & Es & Ens & _). apply wp_bind. eapply wp_lift; [exact Es|].
  apply wp_bind. apply wp_mmcinit; [done|done|by apply Hs|]. intros f Hf.
  pose proof (fo_flag _ Hs) as Hlen.
  assert (length f = 2%nat) as Hf2 by (by rewrite (upd_length _ _ _ _ Hf)).
  cbn [Z.eqb negb]. apply wp_bind.
  apply safe_put; [by apply ok_flag; [apply ok_fdev|]|done|by apply Nat.ltb_lt|]. intros r1 _ Hr1.
  apply wp_bind. eapply (wp_mmc_erase n (u32 (pstart ptn)) (u32 (plength ptn)) _ _ _ _);
    [done| |by apply strtoul_0x|by apply strtoul_0x|].
  { cbn [mmc_flag set_flag]. apply upd_inv in Hf as [_ ->]. apply idx_lookup. split; [lia|].
    apply list_lookup_insert_eq. lia. }
  cbn [Z.eqb negb].
  apply safe_put; [by apply ok_fdev, ok_flag; [apply ok_fdev|]|done|by apply Nat.ltb_lt|]. intros r2 Hsay Hr2.
  exact (HQ f r2 Hf2 Hsay Hr2).
Qed.

Lemma safe_erase cmdbuf : arg_ok (drop 6 cmdbuf) → safe_block (D := D) (cmd_erase cmdbuf).
Proof.
  intros Hv s r Hs Hr. unfold cmd_erase. do 2 safe_step. rewrite (io_medium _ (fo_iface _ Hs)).
  apply wp_bind, wp_bind, safe_controller; [done|]. intros s1 Hs1 Hc.
  apply wp_bind, wp_find_ptn; [done|done| |].
  - intros _. safe_step. safe_run.
  - intros n e _ _ _ _ _. apply wp_erase_calls; [done|done|by right|].
    intros f r' Hf _ Hr'. apply wp_ret. split; [by apply ok_fdev, ok_flag|done].
Qed.

(** The controller number of [mmcerase:] is used unchecked. *)
Definition controller_ok (cmdbuf : list Z) : Prop :=
  ∀ n e, simple_strtoul (drop 9 cmdbuf) 10 = Some (n, e) → n = 0 ∨ n = 1.

Lemma wp_strtoul l base s (Q : fb D → Z * list Z → Prop) :
  arg_ok l → (∀ v e, simple_strtoul l base = Some (v, e) → is_u32 v → Q s (v, e)) →
  wp (lift (simple_strtoul l base)) s Q.
Proof.
  intros [Hz Hb] HQ. destruct (strtoul_ok l base Hb Hz) as (v & e & E & Hv & _).
  eapply wp_lift; [exact E|]. by apply HQ.
Qed.

Lemma safe_mmcerase cmdbuf :
  arg_ok (drop 9 cmdbuf) → arg_ok (drop 11 cmdbuf) → controller_ok cmdbuf →
  safe_block (D := D) (cmd_mmcerase cmdbuf).
Proof.
  intros Hv9 Hv11 Hc s r Hs Hr. unfold cmd_mmcerase. apply wp_bind, wp_strtoul; [done|].
  intros n e0 En _. cbn beta iota. apply wp_bind, safe_controller; [done|]. intros s1 Hs1 Hn.
  apply wp_bind, wp_find_ptn; [done|done| |].
  - intros _. safe_run.
  - intros k e _ _ _ _ _. safe_step. apply wp_erase_calls; [done|done|rewrite Hn; by eapply Hc|].
    intros f r' Hf _ Hr'. apply wp_ret. split; [by apply ok_fdev, ok_flag|done].
Qed.

Lemma safe_download cmdbuf : arg_ok (drop 9 cmdbuf) → safe_block (D := D) (cmd_download cmdbuf).
Proof.
  intros Hv s r Hs Hr. unfold cmd_download. apply wp_bind, wp_strtoul; [done|].
  intros n e _ Hn. cbn beta iota. do 3 safe_step. apply wp_modify.
  pose proof (fo_iface _ Hs) as []. unfold is_u32 in Hn. apply wp_bind.
  destruct (Z.eqb_spec n 0) as [->|Hn0].
  - apply safe_put; [|done|by apply Nat.ltb_lt|].
    + apply ok_dl; [done|]. split; cbn; lia.
    + intros r1 _ Hr1. apply wp_ret. split; [|done]. apply ok_dl; [done|]. split; cbn; lia.
  - destruct (Z.ltb_spec (transfer_buffer_size (iface s)) n).
    + apply wp_bind, wp_modify. rewrite set_dl_twice.
      assert (fb_ok (set_dl (mkDownload 0 0 (download_bytes_unpadded (dl s)) 0) s))
        by (apply ok_dl; [done|]; split; cbn; lia).
      apply safe_put; [done|done|by apply Nat.ltb_lt|]. intros r1 _ Hr1. by apply wp_ret.
    + destruct (fmt_DATA n) as (t & E & _ & Hl & _).
      eapply safe_put_fmt; [by right|exact E|rewrite length_app; cbn; lia|].
      intros r1 _ Hr1. apply wp_ret. split; [|done]. apply ok_dl; [done|]. split; cbn; intros; lia.
Qed.

Lemma safe_boot : safe_block (D := D) cmd_boot.
Proof.
  intros s r Hs Hr. unfold cmd_boot. do 3 safe_step.
  - destruct (local_0x (transfer_buffer_addr (iface s))) as (t & E & _).
    apply wp_bind. eapply wp_lift; [exact E|]. safe_run.
  - safe_run.
Qed.
End blocks4.

(** *** Flashing *)

Lemma unsparse_ok {D} `{MmcDev D} (d : D) st src :
  state_ok st → bytes src → Z.of_nat (length src) < 18446744073709551616 →
  ∃ d' st' r, do_unsparse_process d st src (Z.of_nat (length src)) = Some (d', st', r) ∧
    state_ok st' ∧ (r = 0 ∨ r = 1).
Proof. apply unsparse_total. Qed.

Section blocks5.
Context {D : Type} `{MmcDev D} `{MmcCtl D} `{Platform}.
Context (Hinit : ∀ (d : D) slot, (mmc_init d slot).2 = 0).
Implicit Types (s : fb D) (r : response).

Lemma start_ok st sec slot : state_ok st → state_ok (do_unsparse_start st sec slot).
Proof. intros []. split; try done; cbn; lia || (intros; lia). Qed.

(** The buffer of a state with a complete download. *)
Lemma buffer_slice s n :
  fb_ok s → 0 <= n <= transfer_buffer_size (iface s) →
  ∃ l, slice (transfer_buffer s) 0 n = Some l ∧ Z.of_nat (length l) = n ∧ bytes l.
Proof.
  intros Hs Hn. destruct (fo_buffer _ Hs) as [Hl Hb].
  pose proof (slice_Some (transfer_buffer s) 0 n ltac:(lia) ltac:(lia) ltac:(lia)) as E.
  eexists. split; [exact E|]. split; [by eapply slice_length|by eapply slice_bytes].
Qed.

Lemma round512_le n size : size mod 512 = 0 → 0 <= n <= size → 0 <= round512 n <= size.
Proof. unfold round512. intros. dm_lia. Qed.

(** The same statics as far as a download is concerned. *)
Lemma safe_detect ptn s (Q : fb D → unit → Prop) :
  fb_ok s → (∀ s', fb_ok s' → dl s' = dl s → Q s' tt) → wp (detect_sparse ptn) s Q.
Proof.
  intros Hs HQ. unfold detect_sparse. do 2 safe_step. pose proof (fo_iface _ Hs) as Hi.
  destruct (buffer_slice s 4 Hs) as (l & E & _ & Hl).
  { pose proof (io_size _ Hi). pose proof (io_sectors _ Hi). dm_lia. }
  apply wp_bind. eapply (wp_lift _ _ _ (le_val l)); [unfold field; by rewrite E|].
  destruct (_ =? _).
  - apply wp_bind, wp_modify, wp_modify, HQ; [|done].
    apply ok_fl, ok_sparse; [done|]. by apply start_ok, Hs.
  - apply wp_modify, HQ; [by apply ok_fl|done].
Qed.

Lemma safe_write_to_ptn_emmc ptn offset s (Q : fb D → list Z * Z → Prop) :
  fb_ok s →
  (∀ s' t z, fb_ok s' → (length t < 65)%nat → Q s' (t, z)) →
  wp (write_to_ptn_emmc ptn offset) s Q.
Proof.
  intros Hs HQ. unfold write_to_ptn_emmc.
  apply wp_bind. apply (wp_mono _ _ (λ s' i, i = 0 ∧ fb_ok s' )).
  { destruct (_ =? 0); [apply wp_init; [done|]|apply wp_ret]; by eauto with fb. }
  intros s1 i [-> Hs1]. cbn [Z.eqb negb].
  apply wp_bind. apply (wp_mono _ _ (λ s' _, fb_ok s')).
  { destruct (_ =? 0); [by apply safe_detect|by apply wp_ret]. }
  intros s2 [] Hs2. do 2 safe_step. pose proof (fo_iface _ Hs2) as Hi.
  pose proof (fo_dl _ Hs2) as []. pose proof (io_size _ Hi). pose proof (io_sectors _ Hi).
  destruct (negb _).
  - destruct (buffer_slice s2 (download_bytes (dl s2)) Hs2) as (l & E & Hl & Hb); [done|].
    apply wp_bind. eapply wp_lift; [exact E|]. apply wp_bind. unfold f_unsparse, wp at 1.
    destruct (unsparse_ok (fdev s2) (sparse s2) l) as (d' & st' & r & Eu & Hst & Hr);
      [apply Hs2|done|lia|]. rewrite Hl in Eu. rewrite Eu.
    assert (fb_ok (set_sparse st' (set_fdev d' s2))) by eauto with fb.
    destruct (r =? 0); apply wp_ret, HQ; done || by apply Nat.ltb_lt.
  - destruct (buffer_slice s2 (round512 (download_bytes (dl s2))) Hs2) as (l & E & _);
      [by apply round512_le|]. apply wp_bind. eapply wp_lift; [exact E|].
    apply wp_bind. unfold f_write, on_board, g_write, wp at 1.
    destruct (mmc_write _ _ _ _) as [d x].
    assert (fb_ok (set_fdev d s2)) by eauto with fb.
    destruct (x <=? 0); apply wp_ret, HQ; done || by apply Nat.ltb_lt.
Qed.

Lemma safe_flash_emmc ptn offset r s (Q : fb D → response * Z → Prop) :
  fb_ok s → resp_ok r → (∀ s' r' z, fb_ok s' → resp_ok r' → Q s' (r', z)) →
  wp (flash_emmc ptn offset r) s Q.
Proof.
  intros Hs Hr HQ. unfold flash_emmc. apply wp_bind, safe_write_to_ptn_emmc; [done|].
  intros s' t z Hs' Ht. cbn beta iota. apply wp_bind, wp_put_text; [apply Hr|done|].
  intros r' Hr' _. apply wp_ret, HQ; [done|by eapply says_ok].
Qed.

Lemma safe_mmcwrite cmdbuf :
  arg_ok (drop 9 cmdbuf) → arg_ok (drop 11 cmdbuf) → safe_block (D := D) (cmd_mmcwrite cmdbuf).
Proof.
  intros Hv9 Hv11 s r Hs Hr. unfold cmd_mmcwrite. do 3 safe_step. destruct (negb _).
  - apply wp_bind, wp_strtoul; [done|]. intros n e0 _ _. cbn beta iota.
    apply wp_bind, safe_controller; [done|]. intros s1 Hs1 _. apply wp_bind, wp_find_ptn; [done|done| |].
    + intros _. safe_run.
    + intros k e _ _ _ _ _. apply wp_bind, safe_flash_emmc; [done|done|]. intros s2 r2 z Hs2 Hr2.
      cbn beta iota. safe_run.
  - safe_run.
Qed.

(** The partition named, wanted when there is something to flash: the
    message for one that does not exist reads its name behind a null pointer. *)
Definition known s (name : list Z) : Prop := download_bytes (dl s) ≠ 0 →
  ∃ k e, 0 <= k < pcount (b_table (f_board s)) ∧ idx (ptable (b_table (f_board s))) k = Some e ∧ cut (pname e) = cut name.

Lemma safe_flash cmdbuf s r : arg_ok (drop 6 cmdbuf) → known s (drop 6 cmdbuf) → fb_ok s → resp_ok r →
  wp (cmd_flash cmdbuf r) s (λ s' f, fb_ok s' ∧ flow_ok f).
Proof.
  intros Hv Hk Hs Hr. unfold cmd_flash. do 2 safe_step. destruct (Z.eqb_spec (download_bytes (dl s)) 0) as [E|E]; cbn [negb]; [safe_step; safe_run|].
  safe_step. apply wp_bind, wp_find_ptn; [done|done| |].
  - destruct (Hk E) as (k & e & Hn & He & Hc). intros Hnone. by destruct (Hnone k e Hn He).
  - intros k e _ _ _ He _. rewrite (io_medium _ (fo_iface _ Hs)). unfold flash_ptn_emmc. do 2 safe_step.
    destruct (too_large _ _); [safe_run|]. rewrite He. apply wp_bind, safe_flash_emmc; [done|done|].
    intros s2 r2 z Hs2 Hr2. cbn beta iota. safe_run.
Qed.

Lemma safe_set_multiflash offset o s (Q : fb D → unit → Prop) :
  fb_ok s → (∀ s', fb_ok s' → Q s' tt) → wp (set_multiflash offset o) s Q.
Proof. intros Hs HQ. by apply wp_modify, HQ, ok_fl. Qed.

Lemma safe_multiflash cmdbuf s r :
  arg_ok (drop 11 cmdbuf) → arg_ok (drop 13 cmdbuf) → known s (drop 13 cmdbuf) → fb_ok s → resp_ok r →
  wp (cmd_multiflash cmdbuf r) s (λ s' f, fb_ok s' ∧ flow_ok f).
Proof.
  intros Hv11 Hv13 Hk Hs Hr. unfold cmd_multiflash. do 3 safe_step.
  rewrite (io_medium _ (fo_iface _ Hs)). destruct (Z.eqb_spec (download_bytes (dl s)) 0) as [E|E]; cbn [negb]; [safe_run|].
  assert (∀ o s1 (Q : fb D → unit → Prop), fb_ok s1 → (∀ s', fb_ok s' → Q s' tt) →
    wp (if decide (fst <$> o = multiflash_ptn (fl s)) then mret tt else set_multiflash 0 (fst (B := fastboot_ptentry) <$> o)) s1 Q) as Hm.
  { intros o s1 Q Hs1 HQ. destruct (decide _); [by apply wp_ret, HQ|by apply safe_set_multiflash]. }
  apply wp_bind, wp_find_ptn; [done|done| |].
  - destruct (Hk E) as (k & e & Hn & He & Hc). intros Hnone. by destruct (Hnone k e Hn He).
  - intros n e _ _ _ _ _. apply wp_bind, Hm; [done|]. intros s1 Hs1. unfold multiflash_chunk. do 2 safe_step.
    destruct (flag _ _); [safe_run|]. destruct (_ <? _); [safe_run|].
    apply wp_bind, safe_flash_emmc; [done|done|]. intros s2 r2 z Hs2 Hr2. cbn beta iota. apply wp_bind.
    destruct (z =? 0); [|safe_run]. destruct (starts_total (drop 11 cmdbuf) (str "1")) as [b Eb];
      [apply Hv11|by_eval|]. apply wp_bind. eapply wp_lift; [exact Eb|].
    destruct b; (apply safe_set_multiflash; [done|]); intros s3 Hs3; safe_run.
Qed.
End blocks5.

(** ** The handler *)

(** A packet: the bytes of the receive buffer, which the driver clears behind
    every packet. *)
Definition packet_ok (buffer : list Z) (size : Z) : Prop :=
  bytes buffer ∧ 0 <= size <= Z.of_nat (length buffer).

(** A command the safety theorem covers.  It is a text with a terminator at
    the 14th byte or behind it, where every argument still ends in the buffer;
    not one of the [oem] commands into the idme and the partition code (which
    have theorems of their own); with controller 0 or 1 in [mmcerase:]; and
    with the name of a partition in [flash:] and [multiflash:], if something
    has been downloaded. *)
Record command_ok {D} (s : fb D) (cmdbuf : list Z) : Prop := mkCommandOk {
  co_bytes : bytes cmdbuf;
  co_end : 0 ∈ drop 13 cmdbuf;
  co_idme : starts cmdbuf (str "oem ") = Some true → starts (drop 4 cmdbuf) (str "idme ") ≠ Some true;
  co_format : starts cmdbuf (str "oem ") = Some true → starts (drop 4 cmdbuf) (str "format") ≠ Some true;
  co_erase : starts cmdbuf (str "mmcerase:") = Some true → controller_ok cmdbuf;
  co_flash : starts cmdbuf (str "flash:") = Some true → known s (drop 6 cmdbuf);
  co_multiflash : starts cmdbuf (str "multiflash:") = Some true → known s (drop 13 cmdbuf);
}.

Section handler.
Context {D : Type} `{MmcDev D} `{MmcCtl D} `{Platform}.
Context (Hinit : ∀ (d : D) slot, (mmc_init d slot).2 = 0).
Implicit Types (s : fb D) (r : response).

Lemma safe_oem fuel junk ver value s cmdbuf :
  command_ok s cmdbuf → starts cmdbuf (str "oem ") = Some true →
  safe_block (D := D) (cmd_oem fuel junk ver value cmdbuf).
Proof.
  intros [] Hoem s0 r Hs Hr. unfold cmd_oem.
  assert (0 ∈ drop 4 cmdbuf) as Hz by (by apply (drop_elem 0 cmdbuf 4 13); [lia|]).
  apply safe_seq; [apply safe_on_cmd; [done|by_eval|intros _; apply safe_shutdown]|
  apply safe_seq; [apply safe_on_cmd; [done|by_eval|intros E; by destruct (co_idme0 Hoem)]|
  apply safe_seq; [apply safe_on_cmd; [done|by_eval|intros E; by destruct (co_format0 Hoem)]|
  apply safe_seq; [apply safe_on_cmd; [done|by_eval|intros _; apply safe_recovery]|
  apply safe_seq; [apply safe_on_cmd; [done|by_eval|intros _; apply safe_oem_fail]|apply safe_oem_fail]]]]|done|done].
Qed.

Lemma wp_skip cmdbuf p a b r s Q :
  starts cmdbuf (str p) = Some false → wp (b r) s Q → wp (seq (on_cmd cmdbuf p a) b r) s Q.
Proof.
  intros E HQ. unfold seq, on_cmd. do 2 apply wp_bind. eapply wp_lift; [exact E|]. by apply wp_ret.
Qed.

Lemma wp_take cmdbuf p a b r s Q :
  starts cmdbuf (str p) = Some true →
  wp (a r) s (λ s' f, match f with Next r' => wp (b r') s' Q | _ => Q s' f end) →
  wp (seq (on_cmd cmdbuf p a) b r) s Q.
Proof.
  intros E HQ. unfold seq, on_cmd. do 2 apply wp_bind. eapply wp_lift; [exact E|]. cbn beta iota.
  eapply wp_mono; [exact HQ|]. intros s' f Hf. by destruct f.
Qed.

Lemma wp_skip_last cmdbuf p a r s (Q : fb D → flow → Prop) :
  starts cmdbuf (str p) = Some false → Q s (Next r) → wp (on_cmd cmdbuf p a r) s Q.
Proof. intros E HQ. unfold on_cmd. apply wp_bind. eapply wp_lift; [exact E|]. by apply wp_ret. Qed.

(** A prefix that is there is the front of the buffer. *)
Lemma starts_front p buf : starts buf p = Some true → ∃ rest, buf = p ++ rest.
Proof.
  revert buf. induction p as [|c p IH]; intros buf; [by exists buf|]. destruct buf as [|b buf]; [done|]. cbn [starts].
  destruct (Z.eqb_spec (b - c) 0); [|done]. intros E. destruct (IH _ E) as [rest ->]. exists rest. by replace b with c by lia.
Qed.

Lemma safe_flash_command fuel junk ver value rest s r : let cmdbuf := str "flash:" ++ rest in
  arg_ok (drop 6 cmdbuf) → known s (drop 6 cmdbuf) → fb_ok s → resp_ok r →
  wp (commands fuel junk ver value cmdbuf r) s (λ s' f, fb_ok s' ∧ flow_ok f).
Proof.
  intros cmdbuf Ha Hk Hs Hr. unfold commands. repeat (apply wp_skip; [reflexivity|]). apply wp_take; [reflexivity|].
  eapply wp_mono; [by apply safe_flash|]. intros s' f [Hs' Hf]. destruct f; [|done..]. by apply wp_skip_last.
Qed.

Lemma safe_multiflash_command fuel junk ver value rest s r : let cmdbuf := str "multiflash:" ++ rest in
  arg_ok (drop 11 cmdbuf) → arg_ok (drop 13 cmdbuf) → known s (drop 13 cmdbuf) → fb_ok s → resp_ok r →
  wp (commands fuel junk ver value cmdbuf r) s (λ s' f, fb_ok s' ∧ flow_ok f).
Proof.
  intros cmdbuf Ha Ha' Hk Hs Hr. unfold commands. repeat (apply wp_skip; [reflexivity|]).
  unfold on_cmd. apply wp_bind. eapply wp_lift; [reflexivity|]. cbn beta iota. by apply safe_multiflash.
Qed.

Lemma safe_commands fuel junk ver value cmdbuf s r : command_ok s cmdbuf → fb_ok s → resp_ok r →
  wp (commands fuel junk ver value cmdbuf r) s (λ s' f, fb_ok s' ∧ flow_ok f).
Proof.
  intros Hc Hs Hr. pose proof Hc as [Hb He _ _ Her Hfl Hmu].
  assert (0 ∈ cmdbuf) as Hz by (by apply (drop_elem 0 cmdbuf 0 13); [lia|]).
  assert (∀ n, (n <= 13)%nat → arg_ok (drop n cmdbuf)) as Ha.
  { intros n Hn. apply arg_drop; [|done|done]. split; [done|by apply bytes_drop]. }
  destruct (decide (starts cmdbuf (str "flash:") = Some true)) as [E|Hnf].
  { specialize (Hfl E). destruct (starts_front _ _ E) as [rest ->]. apply safe_flash_command; [apply Ha; lia|done..]. }
  destruct (decide (starts cmdbuf (str "multiflash:") = Some true)) as [E|Hnm].
  { specialize (Hmu E). destruct (starts_front _ _ E) as [rest ->]. apply safe_multiflash_command; [apply Ha; lia..|done|done|done]. }
  unfold commands.
  match goal with |- wp (?b r) s _ => assert (safe_block b) as Hsafe; [|by apply Hsafe] end.
  repeat (apply safe_seq; [apply safe_on_cmd; [done|by_eval|intros E]|]);
    [..|apply safe_on_cmd; [done|by_eval|by intros E; destruct Hnm]].
  - apply safe_continue.
  - apply safe_reboot_bootloader.
  - apply safe_reboot.
  - apply safe_getvar, Ha. lia.
  - by apply (safe_oem _ _ _ _ s).
  - apply safe_erase; [done|apply Ha; lia].
  - apply safe_mmcerase; [done|apply Ha; lia|apply Ha; lia|by apply Her].
  - apply safe_download, Ha. lia.
  - apply safe_boot.
  - apply safe_mmcwrite; [done|apply Ha; lia|apply Ha; lia].
  - by destruct Hnf.
Qed.

Lemma safe_rx_command fuel resp junk ver value cmdbuf s :
  fb_ok s → length resp = 65%nat → command_ok s cmdbuf →
  wp (rx_command fuel resp junk ver value cmdbuf) s (λ s' _, fb_ok s').
Proof.
  intros Hs Hr Hc. unfold rx_command. apply wp_bind, wp_modify. cbv zeta.
  apply wp_bind, wp_put; [done|by apply Nat.ltb_lt|]. intros r Hsay _.
  apply wp_bind. eapply wp_mono; [apply safe_commands; [by destruct Hc; split|by apply ok_fl|by eapply says_ok]|].
  cbn beta. intros s' f [Hs' Hf]. destruct f; cbn [flow_ok] in Hf; safe_run; done.
Qed.

Lemma safe_feedback s (Q : fb D → unit → Prop) :
  fb_ok s → Q s tt → wp rx_feedback s Q.
Proof.
  intros Hs HQ. unfold rx_feedback. do 2 safe_step. pose proof (fo_iface _ Hs) as Hi.
  pose proof (io_block _ Hi). pose proof (io_line _ Hi).
  destruct (download_bytes (dl s) =? 0); [done|].
  destruct (Z.eqb_spec (u32 (16 * nand_block_size (iface s))) 0); [done|].
  destruct (_ =? 0); [|done]. by destruct (Z.eqb_spec (u32 (80 * 16 * nand_block_size (iface s))) 0).
Qed.

Lemma blit_ok size t off src t' :
  buffer_ok size t → bytes src → blit t off src = Some t' → buffer_ok size t'.
Proof.
  intros [Hl Hb] Hsrc E. split; [by rewrite (blit_length _ _ _ _ E)|by eapply blit_bytes].
Qed.

(** The state after the bytes of a packet are stored. *)
Definition received s (t : list Z) (n : Z) : fb D :=
  set_dl (mkDownload (download_size (dl s)) n (download_bytes_unpadded (dl s)) (download_error (dl s)))
    (set_buffer t s).

(** The number of bytes taken from a packet. *)
Definition taken (d : download) (size : Z) : Z :=
  Z.min size (download_size d - download_bytes d).

Lemma wp_rx_data resp buffer size s (Q : fb D → option Z → Prop) :
  fb_ok s → length resp = 65%nat → packet_ok buffer size → download_size (dl s) ≠ 0 → size ≠ 0 →
  let n := download_bytes (dl s) + taken (dl s) size in
  (∀ t, blit (transfer_buffer s) (download_bytes (dl s)) (take (Z.to_nat (taken (dl s) size)) buffer) = Some t →
     buffer_ok (transfer_buffer_size (iface s)) t → 0 < n <= download_size (dl s) →
     Q (if download_size (dl s) <=? n
        then add_trace (Tx (if download_error (dl s) =? 0 then str "OKAY" else str "ERROR"))
               (set_dl (mkDownload 0 n (download_bytes_unpadded (dl s)) (download_error (dl s)))
                  (set_buffer t s))
        else received s t n) (Some 0)) →
  wp (rx_data resp buffer size) s Q.
Proof.
  intros Hs Hr [Hb Hsz] Hd Hsz0 n HQ. unfold rx_data.
  destruct (Z.eqb_spec size 0); [done|]. do 2 safe_step.
  pose proof (fo_dl _ Hs) as [D1 D2 D3]. specialize (D3 Hd). pose proof (io_size _ (fo_iface _ Hs)) as Hio.
  set (k := if size <? u32 (download_size (dl s) - download_bytes (dl s)) then size else u32 (download_size (dl s) - download_bytes (dl s))).
  assert (k = taken (dl s) size) as Ek.
  { unfold k, taken, u32. rewrite !Z.mod_small by lia.
    destruct (Z.ltb_spec size (download_size (dl s) - download_bytes (dl s))); lia. }
  rewrite Ek. unfold taken in *. set (k' := Z.min size _) in *.
  assert (0 < k' <= Z.of_nat (length buffer)) as Hk by lia.
  assert (n = download_bytes (dl s) + k' ∧ 0 < n <= download_size (dl s)) as [En Hn] by (unfold n, k'; lia).
  pose proof (slice_Some buffer 0 k' ltac:(lia) ltac:(lia) ltac:(lia)) as Esl.
  cbn [Z.to_nat] in Esl. rewrite drop_0 in Esl.
  assert (length (take (Z.to_nat k') buffer) = Z.to_nat k') as Hlen by (rewrite length_take; lia).
  destruct (fo_buffer _ Hs) as [Hbl Hbb].
  pose proof (blit_Some (transfer_buffer s) (download_bytes (dl s)) (take (Z.to_nat k') buffer) ltac:(lia) ltac:(lia)) as Eb.
  match type of Eb with _ = Some ?t' => set (t := t') in * end.
  assert (buffer_ok (transfer_buffer_size (iface s)) t) as Ht
    by (eapply blit_ok; [by apply Hs| |exact Eb]; by apply bytes_take).
  apply wp_bind. eapply wp_lift; [unfold c_memcpy; rewrite Esl; exact Eb|].
  specialize (HQ t Eb Ht ltac:(lia)).
  apply wp_bind, wp_modify. cbv zeta. rewrite (u32_id (download_bytes (dl s) + k')) by (unfold is_u32; lia).
  fold n. apply wp_bind, wp_modify. apply wp_bind.
  assert (fb_ok (set_buffer t s)) as Hs1 by eauto with fb.
  destruct (Z.leb_spec (download_size (dl s)) n).
  - unfold rx_finish. do 2 safe_step. apply wp_bind, wp_modify. rewrite set_dl_twice.
    cbn [set_dl dl download_bytes download_bytes_unpadded download_error].
    set (s2 := set_dl (mkDownload 0 n (download_bytes_unpadded (dl s)) (download_error (dl s))) (set_buffer t s)).
    assert (fb_ok s2) as Hs2 by (apply ok_dl; [done|]; split; cbn; intros; lia).
    apply wp_bind, wp_put; [done|by destruct (negb _); apply Nat.ltb_lt|]. intros r Hsay _.
    apply wp_bind. eapply wp_tx; [exact Hsay|by destruct (negb _); by_eval|].
    change (iface (set_dl _ (set_buffer t s))) with (iface s). rewrite (io_medium _ (fo_iface _ Hs)).
    apply wp_ret, wp_bind, safe_feedback; [by apply ok_trace|]. apply wp_ret.
    unfold s2. by destruct (download_error (dl s) =? 0).
  - apply wp_ret, wp_bind, safe_feedback; [|by apply wp_ret].
    apply ok_dl; [done|]. split; cbn; intros; lia.
Qed.

Lemma safe_rx_data resp buffer size s :
  fb_ok s → length resp = 65%nat → packet_ok buffer size → download_size (dl s) ≠ 0 →
  wp (rx_data resp buffer size) s (λ s' _, fb_ok s').
Proof.
  intros Hs Hr Hp Hd. destruct (decide (size = 0)) as [->|Hsz]; [done|].
  apply wp_rx_data; [done..|]. intros t _ Ht Hn.
  pose proof (fo_dl _ Hs) as [D1 D2 D3]. specialize (D3 Hd).
  destruct (Z.leb_spec (download_size (dl s)) (download_bytes (dl s) + taken (dl s) size)).
  - apply ok_trace, ok_dl; [by apply ok_buffer|]. split; cbn; intros; lia.
  - apply ok_dl; [by apply ok_buffer|]. split; cbn; intros; lia.
Qed.
End handler.
