(* ===== verification/FastbootSpec.v ===== *)
(** What the fastboot commands of [Fastboot] do: sessions are safe, a download
    arrives complete and in order, and flashing touches the partition asked
    for and nothing else. *)
From stdpp Require Import base tactics option list strings relations.
From Stdlib Require Import ZArith Lia.
From S2P Require Import Prelude.
From S2P Require Import MmcDev.
From S2P Require Import Sparse.
From S2P Require Import SparseSpec.
From S2P Require Import Eff.
From S2P Require Import CBuf.
From S2P Require Import Vsprintf.
From S2P Require Import Ptable.
From S2P Require Import Idme.
From S2P Require Import Gpt.
From S2P Require Import Fastboot.
From S2P Require Import FastbootSafe.
Open Scope Z_scope.

(** ** Sessions *)

(** The uninitialised locals of a call, and the depth of the recursion allowed
    to the partition code. *)
Record locals := mkLocals {
  l_fuel : nat; l_resp : list Z; l_junk : list Z; l_ver : list Z; l_value : list Z }.

Section session.
Context {D : Type} `{MmcDev D} `{MmcCtl D} `{Platform}.
Implicit Types (s : fb D).

Definition handle (l : locals) (buffer : list Z) (size : Z) : ST (fb D) (option Z) :=
  rx_handler (l_fuel l) (l_resp l) (l_junk l) (l_ver l) (l_value l) buffer size.

(** The packets the safety theorem covers in a state: any bytes during a
    download, the commands of [command_ok] otherwise. *)
Record accepted s (l : locals) (buffer : list Z) (size : Z) : Prop := mkAccepted {
  ac_resp : length (l_resp l) = 65%nat;
  ac_packet : packet_ok buffer size;
  ac_command : download_size (dl s) = 0 → command_ok s buffer;
}.

(** What can happen to the state: a packet, or a reset of the bus. *)
Inductive fb_step : fb D → fb D → Prop :=
  | step_packet s s' l buffer size r :
      accepted s l buffer size → handle l buffer size s = Some (s', r) → fb_step s s'
  | step_reset s s' :
      reset_handler s = Some (s', tt) → fb_step s s'.

Lemma wp_handle_data l buffer size s Q :
  download_size (dl s) ≠ 0 → wp (rx_data (l_resp l) buffer size) s Q → wp (handle l buffer size) s Q.
Proof.
  intros Hd HQ. unfold handle, rx_handler. do 2 safe_step. by destruct (Z.eqb_spec (download_size (dl s)) 0).
Qed.

Lemma wp_handle_command l buffer size s Q :
  download_size (dl s) = 0 →
  wp (rx_command (l_fuel l) (l_resp l) (l_junk l) (l_ver l) (l_value l) buffer) s Q →
  wp (handle l buffer size) s Q.
Proof. intros Hd HQ. unfold handle, rx_handler. do 2 safe_step. by rewrite Hd. Qed.

Context (Hinit : ∀ (d : D) slot, (mmc_init d slot).2 = 0).

Lemma handle_safe s l buffer size :
  fb_ok s → accepted s l buffer size → wp (handle l buffer size) s (λ s' _, fb_ok s').
Proof.
  intros Hs []. destruct (decide (download_size (dl s) = 0)) as [E|E].
  - apply wp_handle_command; [done|]. apply safe_rx_command; auto.
  - apply wp_handle_data; [done|]. by apply safe_rx_data.
Qed.

Lemma reset_ok s : fb_ok s → fb_ok (set_dl (mkDownload 0 0 0 0) s).
Proof.
  intros Hs. pose proof (io_size _ (fo_iface _ Hs)). apply ok_dl; [done|]. split; cbn; intros; lia.
Qed.

Lemma steps_ok s s' : rtc fb_step s s' → fb_ok s → fb_ok s'.
Proof.
  induction 1 as [s|s1 s2 s3 Hstep _ IH]; [done|]. intros Hs. apply IH. destruct Hstep as [s s' l b sz r Ha E|s s' E].
  - pose proof (handle_safe s l b sz Hs Ha) as Hw. unfold wp in Hw. by rewrite E in Hw.
  - injection E as <-. by apply reset_ok.
Qed.
End session.


(** ** Single commands *)

Section command.
Context {D : Type} `{MmcDev D} `{MmcCtl D} `{Platform}.
Implicit Types (s : fb D) (r : response) (a b : block (D := D)).

(** A state in which a command has been received. *)
Definition confirmed s : fb D :=
  let f := fl s in
  set_fl (mkFlashing (mmc_controller_no f) (multiflash_offset f) (multiflash_ptn f) (mmcwrite_is_sparsed f) 1) s.

(** The frame of a command: the block runs on the response "FAIL", and what
    it leaves in the response goes out. *)
Lemma wp_command l cmdbuf size s (Q : fb D → option Z → Prop) :
  length (l_resp l) = 65%nat → download_size (dl s) = 0 →
  (∀ r, says r (str "FAIL") → r.2 = 1 →
    wp (commands (l_fuel l) (l_junk l) (l_ver l) (l_value l) cmdbuf r) (confirmed s) (λ s' f,
      match f with
      | Next r | Goto_done r => wp (tx r) s' (λ s'' _, Q s'' (Some r.2))
      | Return z => Q s' (Some z)
      | Gone => Q s' None
      end)) →
  wp (handle l cmdbuf size) s Q.
Proof.
  intros Hr Hd HQ. apply wp_handle_command; [done|]. unfold rx_command.
  apply wp_bind, wp_modify. apply wp_bind, wp_put; [done|by apply Nat.ltb_lt|]. intros r Hsay Hr2.
  apply wp_bind. eapply wp_mono; [by apply HQ|]. cbn beta. intros s' f Hf.
  destruct f; [by apply wp_bind|by apply wp_bind|by apply wp_ret|by apply wp_ret].
Qed.

(** A command whose block runs into undefined behaviour. *)
Lemma undef_command l cmdbuf size s :
  length (l_resp l) = 65%nat → download_size (dl s) = 0 →
  (∀ r, resp_ok r →
    commands (l_fuel l) (l_junk l) (l_ver l) (l_value l) cmdbuf r (confirmed s) = None) →
  handle l cmdbuf size s = None.
Proof.
  intros Hr Hd HQ. unfold handle, rx_handler. apply undef_bind, wp_get. rewrite Hd. cbn [Z.eqb negb].
  unfold rx_command. apply undef_bind, wp_modify. apply undef_bind, wp_put; [done|by apply Nat.ltb_lt|].
  intros r Hsay _. apply undef_bind_l, HQ. by eapply says_ok.
Qed.

Lemma undef_skip cmdbuf p a b r s :
  starts cmdbuf (str p) = Some false → b r s = None → seq (on_cmd cmdbuf p a) b r s = None.
Proof.
  intros E HQ. unfold seq, on_cmd. apply undef_bind, wp_bind. eapply wp_lift; [exact E|]. by apply wp_ret.
Qed.

Lemma undef_take cmdbuf p a b r s :
  starts cmdbuf (str p) = Some true → a r s = None → seq (on_cmd cmdbuf p a) b r s = None.
Proof.
  intros E HQ. unfold seq, on_cmd. apply undef_bind_l, undef_bind. by eapply wp_lift; [exact E|].
Qed.
End command.

(** Walk through the blocks of [commands] up to the one of the command. *)
Ltac to_command :=
  unfold commands;
  repeat (apply wp_skip; [reflexivity|]);
  first [apply wp_take; [reflexivity|] | idtac].
Ltac to_undef_command :=
  unfold commands;
  repeat (apply undef_skip; [reflexivity|]);
  apply undef_take; [reflexivity|].
Ltac past_commands :=
  repeat (apply wp_skip; [reflexivity|]); try (apply wp_skip_last; [reflexivity|]).

(** ** Downloads *)

Section download.
Context {D : Type} `{MmcDev D} `{MmcCtl D} `{Platform}.
Implicit Types (s : fb D).

(** The data packets, one call of the handler each. *)
Fixpoint feed (ls : list (locals * list Z)) : ST (fb D) unit :=
  match ls with
  | [] => mret tt
  | (l, p) :: ls' => _ ← handle l p (Z.of_nat (length p)); feed ls'
  end.

Definition payload (ls : list (locals * list Z)) : list Z := concat (snd <$> ls).

(** Data packets: none empty, and the last one is the first to reach the
    size. *)
Fixpoint well_sent (n : Z) (ls : list (locals * list Z)) : Prop :=
  match ls with
  | [] => n = 0
  | (l, p) :: ls' =>
      length (l_resp l) = 65%nat ∧ bytes p ∧ p ≠ [] ∧ 0 < n ∧
      (if Z.of_nat (length p) <? n then well_sent (n - Z.of_nat (length p)) ls' else ls' = [])
  end.

Lemma blit_slice_front (t : list Z) off src t' k :
  blit t off src = Some t' → 0 <= k <= off → slice t' 0 k = slice t 0 k.
Proof. intros E Hk. eapply slice_blit_other; [exact E|]. left. lia. Qed.

Lemma wp_feed ls s (Q : fb D → unit → Prop) :
  fb_ok s → download_error (dl s) = 0 → download_size (dl s) ≠ 0 →
  well_sent (download_size (dl s) - download_bytes (dl s)) ls →
  (∀ t, blit (transfer_buffer s) (download_bytes (dl s))
          (take (Z.to_nat (download_size (dl s) - download_bytes (dl s))) (payload ls)) = Some t →
     Q (add_trace (Tx (str "OKAY")) (set_dl (mkDownload 0 (download_size (dl s)) (download_bytes_unpadded (dl s)) 0)
         (set_buffer t s))) tt) →
  wp (feed ls) s Q.
Proof.
  revert s. induction ls as [|[l p] ls IH]; intros s Hs He Hd Hw HQ.
  - pose proof (fo_dl _ Hs) as [_ _ D3]. specialize (D3 Hd). cbn in Hw. lia.
  - destruct Hw as (Hr & Hb & Hne & Hn & Hw). cbn [feed]. apply wp_bind.
    assert (0 < Z.of_nat (length p)) as Hlp by (destruct p; [done|cbn [length]; lia]).
    apply wp_handle_data; [done|]. apply wp_rx_data; try done; [by split; [|lia]|lia|].
    rewrite He. intros t E Ht Hbnd. unfold taken in *.
    destruct (Z.ltb_spec (Z.of_nat (length p)) (download_size (dl s) - download_bytes (dl s))) as [Hlt|Hge].
    + rewrite Z.min_l in * by lia. rewrite Nat2Z.id, take_ge in E by lia.
      destruct (Z.leb_spec (download_size (dl s)) (download_bytes (dl s) + Z.of_nat (length p))); [lia|].
      apply IH; cbn [received set_dl set_buffer dl download_error download_size download_bytes transfer_buffer iface].
      * apply ok_dl; [by apply ok_buffer|]. pose proof (fo_dl _ Hs) as [D1 D2 D3]. split; cbn; intros; lia.
      * done.
      * done.
      * by replace (download_size (dl s) - (download_bytes (dl s) + Z.of_nat (length p)))
          with (download_size (dl s) - download_bytes (dl s) - Z.of_nat (length p)) by lia.
      * intros t2 E2. refine (HQ t2 _). cbn [payload fmap list_fmap concat snd].
        change (concat _) with (payload ls).
        rewrite take_app_ge by lia. replace (Z.to_nat _ - length p)%nat with
          (Z.to_nat (download_size (dl s) - (download_bytes (dl s) + Z.of_nat (length p)))) by lia.
        by eapply blit_app.
    + subst ls. rewrite Z.min_r in * by lia.
      destruct (Z.leb_spec (download_size (dl s)) (download_bytes (dl s) + (download_size (dl s) - download_bytes (dl s)))); [|lia].
      cbn [feed]. apply wp_ret. rewrite Z.add_sub_assoc, Z.add_comm, Z.add_simpl_r.
      change (0 =? 0) with true. cbv iota. apply HQ. cbn [payload fmap list_fmap concat snd].
      by rewrite app_nil_r.
Qed.
End download.

Section download_command.
Context {D : Type} `{MmcDev D} `{MmcCtl D} `{Platform}.
Implicit Types (s : fb D).

(** The request: its answer, and the statics it leaves. *)
Lemma wp_download l rest n e size s (Q : fb D → option Z → Prop) :
  fb_ok s → length (l_resp l) = 65%nat → download_size (dl s) = 0 →
  simple_strtoul rest 16 = Some (n, e) → is_u32 n →
  (∀ hex, vsprintf (lit "%08x") [AInt n] = Some (hex, []) →
    let fits := (0 <? n) && (n <=? transfer_buffer_size (iface s)) in
    Q (add_trace (Tx (if fits then str "DATA" ++ hex
                      else if n =? 0 then str "FAILdata invalid size" else str "FAILdata too large"))
        (set_dl (mkDownload (if fits then n else 0) 0 (download_bytes_unpadded (dl s)) 0) (confirmed s)))
      (Some 0)) →
  wp (handle l (str "download:" ++ rest) size) s Q.
Proof.
  intros Hs Hl Hd En Hn HQ. apply wp_command; [done..|]. intros r Hsay _. to_command.
  unfold cmd_download. change (drop 9 (str "download:" ++ rest)) with rest.
  apply wp_bind. eapply wp_lift; [exact En|]. cbn beta iota. do 2 safe_step. apply wp_bind, wp_modify.
  apply wp_bind. destruct (fmt_DATA n) as (hex & E1 & E2 & Hlen & Htext). specialize (HQ hex E2).
  pose proof Hsay as [Hr _]. cbv zeta in HQ. unfold is_u32 in Hn.
  change (iface (confirmed s)) with (iface s).
  destruct (Z.eqb_spec n 0) as [->|Hn0]; [|destruct (Z.ltb_spec (transfer_buffer_size (iface s)) n) as [Hlt|Hge]].
  - apply wp_put; [done|by apply Nat.ltb_lt|]. intros r1 Hs1 _. apply wp_ret. past_commands.
    eapply wp_tx; [exact Hs1|by_eval|]. exact HQ.
  - destruct (Z.ltb_spec 0 n); [|lia]. destruct (Z.leb_spec n (transfer_buffer_size (iface s))); [lia|].
    apply wp_bind, wp_modify. rewrite set_dl_twice.
    apply wp_put; [done|by apply Nat.ltb_lt|]. intros r1 Hs1 _. apply wp_ret. past_commands.
    eapply wp_tx; [exact Hs1|by_eval|]. exact HQ.
  - destruct (Z.ltb_spec 0 n); [|lia]. destruct (Z.leb_spec n (transfer_buffer_size (iface s))); [|lia].
    unfold put_fmt. apply wp_bind. eapply wp_lift; [exact E1|]. cbn beta iota.
    apply wp_put_text; [done|rewrite length_app; cbn; lia|]. intros r1 Hs1 _. apply wp_ret. past_commands.
    eapply wp_tx; [exact Hs1| |exact HQ]. rewrite elem_of_app. intros [Hi|Hi]; [by apply (text_nonzero (str "DATA")) in Hi; [|by_eval]|].
    by apply (text_nonzero hex).
Qed.
End download_command.

(** C20: a download.  After "download:" with a size that fits, the answer is
    DATA and the size in 8 hex digits; the data packets that follow, however
    they are cut, put exactly the first bytes sent at the start of the
    transfer buffer and leave the rest of it alone, the last of them is
    answered with OKAY, and the device is not touched. *)
Theorem download_complete {D} `{MmcDev D} `{MmcCtl D} `{Platform} (s : fb D) l rest n e size ls
    (Hs : fb_ok s)
    (Hl : length (l_resp l) = 65%nat)
    (Hidle : download_size (dl s) = 0)
    (Hn : simple_strtoul rest 16 = Some (n, e))
    (Hfit : 0 < n <= transfer_buffer_size (iface s))
    (Hsent : well_sent n ls) :
  ∃ s' hex, (_ ← handle l (str "download:" ++ rest) size; feed ls) s = Some (s', tt) ∧
    vsprintf (lit "%08x") [AInt n] = Some (hex, []) ∧
    trace s' = trace s ++ [Tx (str "DATA" ++ hex); Tx (str "OKAY")] ∧
    download_size (dl s') = 0 ∧ download_bytes (dl s') = n ∧
    blit (transfer_buffer s) 0 (take (Z.to_nat n) (payload ls)) = Some (transfer_buffer s') ∧
    f_board s' = f_board s ∧ env_data s' = env_data s.
Proof.
  pose proof (io_size _ (fo_iface _ Hs)) as Hsz.
  destruct (wp_elim (_ ← handle l (str "download:" ++ rest) size; feed ls) s
    (λ s' _, ∃ hex, vsprintf (lit "%08x") [AInt n] = Some (hex, []) ∧
      trace s' = trace s ++ [Tx (str "DATA" ++ hex); Tx (str "OKAY")] ∧
      download_size (dl s') = 0 ∧ download_bytes (dl s') = n ∧
      blit (transfer_buffer s) 0 (take (Z.to_nat n) (payload ls)) = Some (transfer_buffer s') ∧
      f_board s' = f_board s ∧ env_data s' = env_data s)) as (s' & [] & E & hex & HQ); [|by exists s', hex].
  apply wp_bind. eapply wp_download; [done|done|done|exact Hn|unfold is_u32; lia|]. intros hex Ehex. cbv zeta.
  destruct (Z.ltb_spec 0 n); [|lia]. destruct (Z.leb_spec n (transfer_buffer_size (iface s))); [|lia].
  cbn [andb]. apply wp_feed; cbn [add_trace set_dl dl download_error download_size download_bytes transfer_buffer confirmed set_fl iface].
  - apply ok_trace, ok_dl; [by apply ok_fl|]. split; cbn; intros; lia.
  - done.
  - lia.
  - by rewrite Z.sub_0_r.
  - rewrite Z.sub_0_r. intros t Et. exists hex. split; [done|]. cbn. rewrite <-app_assoc. done.
Qed.

(** ** Flashing *)

(** The entry a name stands for. *)
Definition names {D} (s : fb D) (name : list Z) (n : Z) (e : fastboot_ptentry) : Prop :=
  fastboot_flash_find_ptn (b_table (f_board s)) name = Some (Some n) ∧
  idx (ptable (b_table (f_board s))) n = Some e.

Section flash.
Context {D : Type} `{MmcDev D} `{MmcCtl D} `{Platform}.
Implicit Types (s : fb D) (r : response).

Lemma wp_found name n e s (Q : fb D → option (Z * fastboot_ptentry) → Prop) :
  names s name n e → Q s (Some (n, e)) → wp (find_ptn name) s Q.
Proof.
  intros [E1 E2] HQ. unfold find_ptn. do 2 safe_step. apply wp_bind. eapply wp_lift; [exact E1|].
  cbn beta iota. apply wp_bind. eapply wp_lift; [exact E2|]. by apply wp_ret.
Qed.

Lemma names_no_env s name n e : fb_ok s → arg_ok name → names s name n e →
  flag (pflags e) FASTBOOT_PTENTRY_FLAGS_WRITE_ENV = false.
Proof.
  intros Hs [Hz Hb] [E1 E2]. destruct (find_ptn_spec _ name (fo_table _ Hs) Hz Hb) as (o & E & Ho).
  rewrite E1 in E. injection E as <-. destruct Ho as (Hn & _). by apply (fo_env _ Hs n e).
Qed.

(** "flash:" of a partition that exists, with something downloaded. *)
Lemma wp_flash l name n e size s (Q : fb D → option Z → Prop) :
  storage_medium (iface s) = EMMC → length (l_resp l) = 65%nat → download_size (dl s) = 0 → download_bytes (dl s) ≠ 0 →
  names s name n e → 
  (∀ r, resp_ok r →
     wp (flash_ptn_emmc e r) (confirmed s) (λ s' r', wp (tx r') s' (λ s'' _, Q s'' (Some 0)))) →
  wp (handle l (str "flash:" ++ name) size) s Q.
Proof.
  intros Hs Hl Hd Hb Hn HQ. apply wp_command; [done..|]. intros r Hsay _. to_command.
  unfold cmd_flash. change (drop 6 (str "flash:" ++ name)) with name. do 3 safe_step.
  change (download_bytes (dl (confirmed s))) with (download_bytes (dl s)).
  destruct (Z.eqb_spec (download_bytes (dl s)) 0); [done|]. cbn [negb].
  apply wp_bind. eapply wp_found; [exact Hn|]. cbn beta iota.
  change (iface (confirmed s)) with (iface s). rewrite Hs.
  eapply wp_mono; [apply HQ; by eapply says_ok|]. intros s' r' H'. apply wp_ret. past_commands. exact H'.
Qed.

(** A raw image: the magic number of the sparse format is not there. *)
Definition raw_image s : Prop := field (transfer_buffer s) 0 4 ≠ Some SPARSE_HEADER_MAGIC.

Lemma wp_write_raw ptn s (Q : fb D → list Z * Z → Prop) data :
  fb_ok s → (∀ (d : D) slot, (mmc_init d slot).2 = 0) → raw_image s → is_u32 (pstart ptn) →
  slice (transfer_buffer s) 0 (round512 (download_bytes (dl s))) = Some data →
  let d0 := (mmc_init (fdev s) 1).1 in
  (∀ f, let w := mmc_write d0 1 data (pstart ptn) in
     let s' := set_fdev w.1 (set_fl f (set_fdev d0 s)) in
     if w.2 <=? 0 then Q s' (str "FAIL: Write partition", -1) else Q s' (str "OKAY", 0)) →
  wp (write_to_ptn_emmc ptn 0) s Q.
Proof.
  intros Hs Hinit Hraw Hst Hdata d0 HQ. unfold write_to_ptn_emmc. change (0 =? 0) with true. cbv iota.
  apply wp_bind, wp_init; [done|]. change (mmc_init (fdev s) slot_no).1 with d0. cbn [Z.eqb negb].
  apply wp_bind. unfold detect_sparse. do 2 safe_step.
  change (transfer_buffer (set_fdev d0 s)) with (transfer_buffer s).
  destruct (buffer_slice s 4 Hs) as (l & E & _ & Hl).
  { pose proof (io_size _ (fo_iface _ Hs)). pose proof (io_sectors _ (fo_iface _ Hs)). dm_lia. }
  apply wp_bind. eapply (wp_lift _ _ _ (le_val l)); [unfold field; by rewrite E|].
  unfold raw_image, field in Hraw. rewrite E in Hraw. cbn [fmap option_fmap option_map] in Hraw.
  destruct (Z.eqb_spec (le_val l) SPARSE_HEADER_MAGIC) as [Em|_]; [by rewrite Em in Hraw|].
  apply wp_modify. do 2 safe_step. cbn [set_fl fl mmcwrite_is_sparsed]. change (negb (0 =? 0)) with false.
  cbv iota. apply wp_bind. eapply wp_lift; [exact Hdata|].
  assert (u32 (pstart ptn + 0 / 512) = pstart ptn) as -> by (change (0 / 512) with 0; rewrite Z.add_0_r; by apply u32_id).
  apply wp_bind. unfold f_write, on_board, g_write, wp at 1.
  match goal with |- context [set_fl ?f (set_fdev d0 s)] => specialize (HQ f) end. cbv zeta in HQ.
  change (dev (b_idme (f_board (set_fl _ (set_fdev d0 s))))) with d0. unfold slot_no.
  destruct (mmc_write d0 1 data (pstart ptn)) as [d1 x]. cbn [fst snd] in HQ.
  destruct (x <=? 0); exact HQ.
Qed.
Lemma file_hdr_magic blk tb tc crc rest :
  field (file_hdr blk tb tc crc ++ rest) 0 4 = Some SPARSE_HEADER_MAGIC.
Proof.
  unfold field. rewrite slice_Some; [reflexivity|lia|lia|].
  rewrite length_app. change (length (file_hdr _ _ _ _)) with 28%nat. lia.
Qed.

(** A sparse image: the expander runs on the bytes downloaded. *)
Lemma wp_write_sparse ptn s (Q : fb D → list Z * Z → Prop) img d2 st2 x :
  (∀ (d : D) slot, (mmc_init d slot).2 = 0) →
  slice (transfer_buffer s) 0 (download_bytes (dl s)) = Some img →
  4 <= download_bytes (dl s) → field img 0 4 = Some SPARSE_HEADER_MAGIC →
  do_unsparse_process (mmc_init (fdev s) 1).1 (do_unsparse_start (sparse s) (pstart ptn) 1) img
    (download_bytes (dl s)) = Some (d2, st2, x) →
  (∀ s', fdev s' = d2 → trace s' = trace s → sparse s' = st2 →
     if x =? 0 then Q s' (str "OKAY", 0) else Q s' (str "FAIL: Sparsed Write", -1)) →
  wp (write_to_ptn_emmc ptn 0) s Q.
Proof.
  intros Hinit Himg H4 Hm Eu HQ. unfold write_to_ptn_emmc. change (0 =? 0) with true. cbv iota.
  apply wp_bind, wp_init; [done|]. change (mmc_init (fdev s) slot_no).1 with (mmc_init (fdev s) 1).1.
  set (d0 := (mmc_init (fdev s) 1).1) in *. cbn [Z.eqb negb].
  apply wp_bind. unfold detect_sparse. do 2 safe_step.
  change (transfer_buffer (set_fdev d0 s)) with (transfer_buffer s).
  assert (field (transfer_buffer s) 0 4 = Some SPARSE_HEADER_MAGIC) as Em.
  { unfold field in *. rewrite <-Hm. f_equal. apply slice_inv in Himg as [B ->].
    assert (4 <= Z.of_nat (length (transfer_buffer s))) by lia.
    rewrite !slice_Some by (rewrite ?length_take, ?length_drop; lia). f_equal.
    cbn [Z.to_nat]. rewrite !drop_0, take_take. f_equal. lia. }
  apply wp_bind. eapply wp_lift; [exact Em|]. rewrite Z.eqb_refl.
  apply wp_bind, wp_modify, wp_modify. do 2 safe_step.
  cbn [set_fl fl mmcwrite_is_sparsed set_sparse set_fdev set_board dl transfer_buffer]. change (negb (1 =? 0)) with true. cbv iota.
  apply wp_bind. eapply wp_lift; [exact Himg|]. apply wp_bind. unfold f_unsparse, wp at 1.
  match goal with |- context [do_unsparse_process ?a ?b img ?n] =>
    change (do_unsparse_process a b img n) with
      (do_unsparse_process d0 (do_unsparse_start (sparse s) (pstart ptn) 1) img (download_bytes (dl s))) end.
  rewrite Eu. match goal with |- context [set_sparse st2 ?s2] => specialize (HQ (set_sparse st2 s2)) end.
  destruct (x =? 0); by apply wp_ret, HQ.
Qed.
End flash.

(** An image longer than the partition is refused. *)
Lemma flash_refused {D} `{MmcDev D} `{MmcCtl D} `{Platform} (s : fb D) l name n e size :
  fb_ok s → length (l_resp l) = 65%nat → download_size (dl s) = 0 → arg_ok name → names s name n e →
  0 < download_bytes (dl s) → plength e < download_bytes (dl s) →
  wp (handle l (str "flash:" ++ name) size) s (λ s' r, r = Some 0 ∧
    trace s' = trace s ++ [Tx (str "FAILimage too large for partition")] ∧ fdev s' = fdev s).
Proof.
  intros Hs Hl Hidle Hname Hptn Hb Hbig. pose proof (fo_iface _ Hs) as Hi.
  eapply wp_flash; [apply Hs|done|done|lia|done|]. intros r Hr. unfold flash_ptn_emmc. do 2 safe_step.
  change (download_bytes (dl (confirmed s))) with (download_bytes (dl s)). unfold too_large.
  destruct (Z.ltb_spec (plength e) (download_bytes (dl s))); [|lia]. rewrite (names_no_env s name n e) by done.
  cbn [andb negb]. apply wp_put; [apply Hr|by apply Nat.ltb_lt|].
  intros r1 Hr1 _. eapply wp_tx; [exact Hr1|by_eval|]. done.
Qed.

(** C4: flashing an ordinary image writes the downloaded bytes from the first
    sector of the partition named, and no sector outside that partition,
    and no other hardware partition, changes; an image that is longer than the
    partition is refused and nothing is written. *)
Theorem flash_inside_partition {D} `{MmcLaws D} `{MmcCtl D} `{Platform} (s : fb D) l name n e size
    (Hs : fb_ok s)
    (Hl : length (l_resp l) = 65%nat)
    (Hidle : download_size (dl s) = 0)
    (Hname : arg_ok name)
    (Hptn : names s name n e)
    (Hstart : is_u32 (pstart e))
    (Hsectors : plength e mod 512 = 0)
    (Hsome : 0 < download_bytes (dl s))
    (Hraw : raw_image s)
    (Hinit : ∀ (d : D) slot, (mmc_init d slot).2 = 0)
    (Hrel : reliable D) :
  let d0 := (mmc_init (fdev s) 1).1 in
  ∃ s', handle l (str "flash:" ++ name) size s = Some (s', Some 0) ∧
    if plength e <? download_bytes (dl s) then
      trace s' = trace s ++ [Tx (str "FAILimage too large for partition")] ∧ fdev s' = fdev s
    else ∃ data,
      trace s' = trace s ++ [Tx (str "OKAY")] ∧
      slice (transfer_buffer s) 0 (round512 (download_bytes (dl s))) = Some data ∧
      disk_eq (contents (fdev s') 1 (selected d0 1))
        (write_sectors (contents d0 1 (selected d0 1)) (pstart e) data) ∧
      (∀ k, k < pstart e ∨ pstart e + plength e / 512 <= k →
         contents (fdev s') 1 (selected d0 1) k = contents d0 1 (selected d0 1) k) ∧
      (∀ p, p ≠ selected d0 1 → disk_eq (contents (fdev s') 1 p) (contents d0 1 p)).
Proof.
  intros d0. destruct (Z.ltb_spec (plength e) (download_bytes (dl s))) as [Hbig|Hfit].
  { destruct (wp_elim _ _ _ (flash_refused s l name n e size Hs Hl Hidle Hname Hptn Hsome Hbig)) as (s' & r & Er & -> & H').
    by exists s'. }
  pose proof (fo_dl _ Hs) as []. pose proof (fo_iface _ Hs) as Hi.
  destruct (buffer_slice s (round512 (download_bytes (dl s))) Hs) as (data & E & Hlen & _).
  { apply round512_le; [apply Hi|done]. }
  destruct Hrel as (_ & Hw & _). pose proof (Hw d0 1 data (pstart e)) as Hw1.
  destruct (wp_elim (handle l (str "flash:" ++ name) size) s (λ s' r, r = Some 0 ∧
    trace s' = trace s ++ [Tx (str "OKAY")] ∧ fdev s' = (mmc_write d0 1 data (pstart e)).1))
    as (s' & r & Er & -> & Ht & Hd).
  { eapply wp_flash; [apply Hs|done|done|lia|done|]. intros r Hr. unfold flash_ptn_emmc. do 2 safe_step.
    change (download_bytes (dl (confirmed s))) with (download_bytes (dl s)). unfold too_large.
    destruct (Z.ltb_spec (plength e) (download_bytes (dl s))); [lia|]. cbn [andb].
    rewrite (names_no_env s name n e) by done. apply wp_bind. unfold flash_emmc.
    apply wp_bind. eapply wp_write_raw; [by apply ok_fl|done|exact Hraw|done|exact E|].
    intros f. change (fdev (confirmed s)) with (fdev s). fold d0. cbv zeta. rewrite Hw1.
    change (1 <=? 0) with false. cbv iota. apply wp_bind, wp_put_text; [apply Hr|by apply Nat.ltb_lt|].
    intros r1 Hr1 _. do 2 apply wp_ret. eapply wp_tx; [exact Hr1|by_eval|]. done. }
  exists s'. split; [done|]. exists data. split; [done|]. split; [done|]. rewrite Hd.
  assert (length data mod 512 = 0)%nat as Hmod.
  { unfold round512 in Hlen. set (q := (download_bytes (dl s) + 511) / 512) in Hlen.
    assert (0 <= q) by (unfold q; dm_lia). replace (length data) with (Z.to_nat q * 512)%nat by lia.
    apply Nat.Div0.mod_mul. }
  destruct (mmc_write d0 1 data (pstart e)) as [d1 x] eqn:Ew. cbn [snd] in Hw1. subst x. cbn [fst].
  pose proof (write_ok _ _ _ _ _ Ew Hmod) as Hc. split; [done|]. split.
  - intros k Hk. rewrite (Hc k). apply write_sectors_outside. rewrite Hlen.
    assert (round512 (download_bytes (dl s)) / 512 <= plength e / 512) by (unfold round512; dm_lia). lia.
  - intros p Hp. pose proof (write_other d0 1 data (pstart e) p Hp) as Ho. by rewrite Ew in Ho.
Qed.

(** C15: flashing a sparse image puts on the partition exactly what the image
    denotes, from the partition's first sector: the download, the partition
    table and the sparse expander composed. *)
Theorem flash_sparse {D} `{MmcLaws D} `{MmcCtl D} `{Platform} (s : fb D) l name n e size
    blk tb crc cs
    (Hs : fb_ok s)
    (Hl : length (l_resp l) = 65%nat)
    (Hidle : download_size (dl s) = 0)
    (Hname : arg_ok name)
    (Hptn : names s name n e)
    (Hfit : 0 < download_bytes (dl s) <= plength e)
    (Himg : slice (transfer_buffer s) 0 (download_bytes (dl s)) =
       Some (file_hdr blk tb (Z.of_nat (length cs)) crc ++ encode blk cs))
    (Hblk : 0 < blk < 4294967296 ∧ blk mod 512 = 0)
    (Hhdr : is_u32 tb ∧ is_u32 crc ∧ Z.of_nat (length cs) < 4294967296)
    (Hcs : Forall (chunk_ok blk) cs)
    (Hdisk : 0 <= pstart e ∧ pstart e + total_sectors blk cs < 4294967296)
    (Hinit : ∀ (d : D) slot, (mmc_init d slot).2 = 0)
    (Hrel : reliable D) :
  let d0 := (mmc_init (fdev s) 1).1 in
  ∃ s', handle l (str "flash:" ++ name) size s = Some (s', Some 0) ∧
    trace s' = trace s ++ [Tx (str "OKAY")] ∧
    disk_eq (contents (fdev s') 1 (selected d0 1))
      (expand blk (pstart e) (contents d0 1 (selected d0 1)) cs).
Proof.
  intros d0. set (img := file_hdr _ _ _ _ ++ _) in *.
  pose proof (fo_dl _ Hs) as []. pose proof (io_size _ (fo_iface _ Hs)) as Hsz.
  pose proof (slice_length _ _ _ _ Himg) as Hlen.
  assert (28 <= Z.of_nat (length img)) as H28 by (unfold img; rewrite length_app; change (length (file_hdr _ _ _ _)) with 28%nat; lia).
  destruct (unsparse_sections 1 (selected d0 1) blk tb crc cs [img] d0 (sparse s) (pstart e))
    as (d1 & st1 & Ep & _ & Hc).
  1-6: done || (pose proof (fo_sparse _ Hs) as []; done).
  - reflexivity.
  - cbn [concat]. by rewrite app_nil_r.
  - cbn [well_cut]. intros E. rewrite E in H28. cbn in H28. lia.
  - cbn [concat]. rewrite app_nil_r. lia.
  - cbn [process_sections] in Ep.
  destruct (do_unsparse_process d0 (do_unsparse_start (sparse s) (pstart e) 1) img (Z.of_nat (length img)))
    as [[[d2 st2] x]|] eqn:Eu; [|done]. cbn [mbind option_bind] in Ep.
  destruct (Z.eqb_spec x 0) as [->|]; [|congruence]. injection Ep as -> ->.
  destruct (wp_elim (handle l (str "flash:" ++ name) size) s (λ s' r, r = Some 0 ∧
    trace s' = trace s ++ [Tx (str "OKAY")] ∧ fdev s' = d1)) as (s' & r & Er & -> & Ht & Hd).
  { eapply wp_flash; [apply Hs|done|done|lia|done|]. intros r Hr. unfold flash_ptn_emmc. do 2 safe_step.
    change (download_bytes (dl (confirmed s))) with (download_bytes (dl s)). unfold too_large.
    destruct (Z.ltb_spec (plength e) (download_bytes (dl s))); [lia|]. cbn [andb].
    rewrite (names_no_env s name n e) by done. apply wp_bind. unfold flash_emmc.
    apply wp_bind. eapply (wp_write_sparse e (confirmed s) _ img d1 st1 0); [done|exact Himg|cbn; lia| | |].
    - unfold img. apply file_hdr_magic.
    - change (download_bytes (dl (confirmed s))) with (download_bytes (dl s)). rewrite <-Hlen. exact Eu.
    - intros s1 Hd1 Ht1 _. cbn [Z.eqb]. apply wp_bind, wp_put_text; [apply Hr|by apply Nat.ltb_lt|].
      intros r1 Hr1 _. do 2 apply wp_ret. eapply wp_tx; [exact Hr1|by_eval|].
      cbn [add_trace trace]. rewrite Ht1. done. }
  exists s'. split; [done|]. split; [done|]. rewrite Hd. exact Hc.
Qed.

(** ** A download ends *)

Section finish.
Context {D : Type} `{MmcDev D} `{MmcCtl D} `{Platform}.
Implicit Types (s : fb D) (stream : nat → locals * list Z).

(** Usable packets that carry something. *)
Definition sends stream : Prop := ∀ k,
  length (l_resp (stream k).1) = 65%nat ∧ bytes (stream k).2 ∧ (stream k).2 ≠ [].

Fixpoint first_packets (k : nat) stream : list (locals * list Z) :=
  match k with O => [] | S k' => stream 0%nat :: first_packets k' (λ i, stream (S i)) end.

Lemma finish_download (n : nat) s stream :
  (Z.to_nat (download_size (dl s) - download_bytes (dl s)) <= n)%nat →
  fb_ok s → sends stream →
  ∃ k s', (k <= n)%nat ∧ feed (first_packets k stream) s = Some (s', tt) ∧
    fb_ok s' ∧ download_size (dl s') = 0.
Proof.
  revert s stream. induction n as [|n IH]; intros s stream Hn Hs Hst;
    (destruct (decide (download_size (dl s) = 0)) as [Hz|Hnz]; [by exists 0%nat, s; split_and!; [lia|..]|]);
    pose proof (fo_dl _ Hs) as [D1 D2 D3]; specialize (D3 Hnz); [lia|].
  destruct (Hst 0%nat) as (Hr & Hb & Hne). destruct (stream 0%nat) as [l p] eqn:E0. cbn [fst snd] in *.
  assert (0 < Z.of_nat (length p)) as Hp by (destruct p; [done|cbn [length]; lia]).
  destruct (wp_elim (handle l p (Z.of_nat (length p))) s (λ s' _, fb_ok s' ∧
    (download_size (dl s') = 0 ∨ (Z.to_nat (download_size (dl s') - download_bytes (dl s')) <= n)%nat)))
    as (s1 & r & E1 & Hs1 & Hn1).
  { apply wp_handle_data; [done|]. apply wp_rx_data; try done; [by split; [|lia]|lia|].
    intros t _ Ht Hbnd. unfold taken in *.
    destruct (Z.leb_spec (download_size (dl s)) (download_bytes (dl s) + Z.min (Z.of_nat (length p)) (download_size (dl s) - download_bytes (dl s)))).
    - split; [|by left]. apply ok_trace, ok_dl; [by apply ok_buffer|]. split; cbn; intros; lia.
    - split; [|right; cbn; lia]. apply ok_dl; [by apply ok_buffer|]. split; cbn; intros; lia. }
  assert (∃ k s', (k <= n)%nat ∧ feed (first_packets k (λ i, stream (S i))) s1 = Some (s', tt) ∧
    fb_ok s' ∧ download_size (dl s') = 0) as (k & s' & Hk & E & Hs' & Hd).
  { destruct Hn1 as [Hz|Hn1]; [by exists 0%nat, s1; split_and!; [lia|..]|].
    apply IH; [done|done|]. intros k. apply (Hst (S k)). }
  exists (S k), s'. split; [lia|]. cbn [first_packets feed]. rewrite E0.
  unfold mbind, st_bind. by rewrite E1.
Qed.
End finish.

(** C30: liveness.  In every state a session can reach, whatever non-empty
    packets the host goes on sending, the handler returns to accepting
    commands: at the latest after as many packets as bytes are missing. *)
Theorem download_finishes {D} `{MmcDev D} `{MmcCtl D} `{Platform} (s0 s : fb D) stream
    (Hinit : ∀ (d : D) slot, (mmc_init d slot).2 = 0)
    (Hs : fb_ok s0)
    (Hrun : rtc fb_step s0 s)
    (Hsends : sends stream) :
  ∃ k s', (k <= Z.to_nat (download_size (dl s) - download_bytes (dl s)))%nat ∧
    feed (first_packets k stream) s = Some (s', tt) ∧ fb_ok s' ∧ download_size (dl s') = 0.
Proof. apply finish_download; [done|by apply (steps_ok Hinit s0)|done]. Qed.
