(* ===== verification/FastbootCases.v ===== *)
(** The fastboot theorems on a memory-backed device, and the commands that
    erase, flash in several parts and save the environment. *)
From stdpp Require Import base tactics option list strings relations gmap.
From Stdlib Require Import ZArith Lia.
From S2P Require Import Prelude.
From S2P Require Import MmcDev.
From S2P Require Import Sparse.
From S2P Require Import SparseSpec.
From S2P Require Import Eff.
From S2P Require Import CBuf.
From S2P Require Import Vsprintf.
From S2P Require Import Env.
From S2P Require Import Ptable.
From S2P Require Import Idme.
From S2P Require Import Gpt.
From S2P Require Import GptSpec.
From S2P Require Import Fastboot.
From S2P Require Import FastbootSafe.
From S2P Require Import FastbootSpec.
Open Scope Z_scope.

(** ** A small board *)

Definition demo_platform : Platform := {| bootd_boots := true; booti_boots := true; powers_down := true |}.
Definition demo_ctl : MmcCtl ram := ram_ctl 65536.
#[local] Existing Instance demo_platform.
#[local] Existing Instance demo_ctl.

(** Two partitions, of 2 and of 2^24 sectors, the second one with the flags
    given. *)
Definition demo_table (flags : Z) : ptn_table :=
  mkTable (mkPtentry (pad (lit "boot") 16) 100 1024 0 ::
           mkPtentry (pad (lit "userdata") 16) 200 8589934592 flags ::
           replicate 14 (mkPtentry [] 0 0 0)) 2.

Definition demo_iface : interface :=
  mkInterface (Some (lit "Blaze")) None None None EMMC 2048 2147483648 1024.

Definition demo_sparse : sparse_state := mkState 0 0 0 (replicate 12 0) 0 0 (replicate 512 0).

Definition demo_fb (flags : Z) (d : download) (f : flashing) (buffer : list Z) : fb ram :=
  mkFb (mkBoard (mkIdme (mkRam ∅ ∅) [] [] 0 [] []) (demo_table flags)) [0; 0] d f demo_sparse buffer
    demo_iface (replicate 8 1) [].

Definition idle_fl : flashing := mkFlashing 0 0 None 0 0.
Definition demo_idle : fb ram := demo_fb 0 (mkDownload 0 0 0 0) idle_fl (replicate 1024 0).

Definition demo_locals : locals := mkLocals 1 (replicate 65 9) [] [] [].

Lemma demo_ok d f buffer :
  dl_ok 1024 d → buffer_ok 1024 buffer → fb_ok (demo_fb 0 d f buffer).
Proof.
  intros Hd Hb. split; [| |done|done|exact st0_ok|done|].
  - split; [done|cbn; lia|]. intros n e Hi Hn. cbn in Hn.
    assert (n = 0 ∨ n = 1) as [-> | ->] by lia; injection Hi as <-; by_eval.
  - intros n e Hi Hn. cbn in Hn.
    assert (n = 0 ∨ n = 1) as [-> | ->] by lia; injection Hi as <-; by_eval.
  - split; try by_eval; cbn; try lia; done || (split; [by_eval|cbn; lia]).
Qed.

Lemma demo_idle_ok : fb_ok demo_idle.
Proof. apply demo_ok; [split; cbn; lia|split; [done|by_eval]]. Qed.

Lemma demo_init (d : ram) slot : (mmc_init d slot).2 = 0.
Proof. done. Qed.

(** A download of four bytes has been asked for. *)
Definition confirmed_fl : flashing := mkFlashing 0 0 None 0 1.
Definition demo_receiving : fb ram :=
  add_trace (Tx (str "DATA00000004")) (demo_fb 0 (mkDownload 4 0 0 0) confirmed_fl (replicate 1024 0)).
Definition demo_packet : list Z := lit "download:00000004" ++ replicate 14 0.

Lemma demo_accepted : accepted demo_idle demo_locals demo_packet 17.
Proof.
  split; [done|split; [by_eval|by_eval]|]. intros _. split; [by_eval|by_eval|done..].
Qed.

Lemma demo_run : rtc fb_step demo_idle demo_receiving.
Proof. eapply rtc_once, (step_packet _ _ _ _ _ (Some 0)); [exact demo_accepted|by vm_compute]. Qed.


Lemma download_finishes_witness :
  ∃ k s', (k <= 4)%nat ∧
    feed (first_packets k (λ _, (demo_locals, [1; 2; 3]))) demo_receiving = Some (s', tt) ∧ fb_ok s' ∧
    download_size (dl s') = 0.
Proof.
  apply (download_finishes demo_idle demo_receiving); [exact demo_init|exact demo_idle_ok|exact demo_run|].
  intros k. cbn [fst snd]. split; [reflexivity|]. split; [by_eval|discriminate].
Defined.

Lemma download_complete_witness :
  ∃ s' hex, (_ ← handle demo_locals (str "download:" ++ lit "4") 10;
      feed [(demo_locals, [1; 2; 3]); (demo_locals, [4; 5])]) demo_idle = Some (s', tt) ∧
    vsprintf (lit "%08x") [AInt 4] = Some (hex, []) ∧
    trace s' = trace demo_idle ++ [Tx (str "DATA" ++ hex); Tx (str "OKAY")] ∧
    download_size (dl s') = 0 ∧ download_bytes (dl s') = 4 ∧
    blit (transfer_buffer demo_idle) 0 [1; 2; 3; 4] = Some (transfer_buffer s') ∧
    f_board s' = f_board demo_idle ∧ env_data s' = env_data demo_idle.
Proof.
  apply (download_complete demo_idle demo_locals (lit "4") 4 [0]); [exact demo_idle_ok|reflexivity..|by_eval|].
  cbn [well_sent fst snd length]. repeat (split; [by_eval || discriminate|]). cbn.
  repeat (split; [by_eval || discriminate|]). reflexivity.
Defined.

(** ** Flashing *)

(** 600 bytes of 7 have been downloaded. *)
Definition demo_raw_buffer : list Z := replicate 600 7 ++ replicate 424 0.
Definition demo_raw : fb ram := demo_fb 0 (mkDownload 0 600 0 0) idle_fl demo_raw_buffer.
Definition boot_ptn : fastboot_ptentry := mkPtentry (pad (lit "boot") 16) 100 1024 0.

Lemma demo_raw_ok : fb_ok demo_raw.
Proof. apply demo_ok; [split; cbn; lia|split; [by vm_compute|by_eval]]. Qed.

Lemma flash_inside_partition_witness :
  let d0 := (mmc_init (fdev demo_raw) 1).1 in
  ∃ s', handle demo_locals (str "flash:" ++ lit "boot") 11 demo_raw = Some (s', Some 0) ∧ ∃ data,
    trace s' = trace demo_raw ++ [Tx (str "OKAY")] ∧
    slice (transfer_buffer demo_raw) 0 (round512 600) = Some data ∧
    disk_eq (contents (fdev s') 1 (selected d0 1))
      (write_sectors (contents d0 1 (selected d0 1)) 100 data) ∧
    (∀ k, k < 100 ∨ 100 + 1024 / 512 <= k →
       contents (fdev s') 1 (selected d0 1) k = contents d0 1 (selected d0 1) k) ∧
    (∀ p, p ≠ selected d0 1 → disk_eq (contents (fdev s') 1 p) (contents d0 1 p)).
Proof.
  apply (flash_inside_partition demo_raw demo_locals (lit "boot") 0 boot_ptn 11).
  - exact demo_raw_ok.
  - reflexivity.
  - reflexivity.
  - split; by_eval.
  - split; by vm_compute.
  - by_eval.
  - reflexivity.
  - cbn. lia.
  - by vm_compute.
  - exact demo_init.
  - exact ram_reliable.
Defined.

(** A sparse image that fits: one block of 512 bytes behind a gap of one. *)
Definition demo_chunks (gap : Z) : list chunk := [Skip gap; Raw 1 (replicate 512 7)].
Definition demo_image (gap : Z) : list Z := file_hdr 512 (gap + 1) 2 0 ++ encode 512 (demo_chunks gap).
Definition demo_sparse_fb (gap : Z) : fb ram :=
  demo_fb 0 (mkDownload 0 564 0 0) idle_fl (demo_image gap ++ replicate 460 0).

Lemma demo_chunks_ok gap : 0 <= gap < 8388608 → Forall (chunk_ok 512) (demo_chunks gap).
Proof.
  intros Hg. apply Forall_cons. split; [cbn; unfold is_u32; lia|].
  apply Forall_cons. split; [|constructor]. split; [lia|]. split; [by vm_compute|]. split; by_eval.
Qed.

Lemma demo_sparse_ok gap : 0 <= gap < 8388608 → fb_ok (demo_sparse_fb gap).
Proof.
  intros Hg. apply demo_ok; [split; cbn; lia|]. split; [by vm_compute|].
  unfold demo_image. rewrite !bytes_app. split_and!; [|by apply encode_bytes, demo_chunks_ok|by_eval].
  unfold file_hdr. rewrite !bytes_app. auto 20 using le_bytes_bytes.
Qed.

Lemma flash_sparse_witness :
  let d0 := (mmc_init (fdev (demo_sparse_fb 1)) 1).1 in
  ∃ s', handle demo_locals (str "flash:" ++ lit "boot") 11 (demo_sparse_fb 1) = Some (s', Some 0) ∧
    trace s' = [Tx (str "OKAY")] ∧
    disk_eq (contents (fdev s') 1 (selected d0 1))
      (expand 512 100 (contents d0 1 (selected d0 1)) (demo_chunks 1)).
Proof.
  apply (flash_sparse (demo_sparse_fb 1) demo_locals (lit "boot") 0 boot_ptn 11 512 2 0 (demo_chunks 1)).
  - apply demo_sparse_ok. lia.
  - reflexivity.
  - reflexivity.
  - split; by_eval.
  - split; by vm_compute.
  - cbn. lia.
  - by vm_compute.
  - by_eval.
  - by_eval.
  - apply demo_chunks_ok. lia.
  - by_eval.
  - exact demo_init.
  - exact ram_reliable.
Defined.

(** Only the size of the sparse file is compared with the partition: an image
    of 564 bytes goes into the partition of two sectors, and its data to the
    eighth sector behind the start. *)
Lemma sparse_leaves_partition :
  match handle demo_locals (str "flash:" ++ lit "boot") 11 (demo_sparse_fb 8) with
  | Some (s', r) => r = Some 0 ∧ trace s' = [Tx (str "OKAY")] ∧
      contents (fdev s') 1 0 108 = replicate 512 7 ∧
      contents (fdev (demo_sparse_fb 8)) 1 0 108 = replicate 512 0
  | None => False
  end ∧ 108 >= pstart boot_ptn + plength boot_ptn / 512.
Proof. by vm_compute. Qed.

(** ** Erasing *)

Section erase.
Context {D : Type} `{MmcDev D} `{MmcCtl D} `{Platform}.
Implicit Types (s : fb D).

Lemma wp_erase l name n e size s (Q : fb D → option Z → Prop) :
  fb_ok s → length (l_resp l) = 65%nat → download_size (dl s) = 0 →
  (∀ (d : D) slot, (mmc_init d slot).2 = 0) → names s name n e →
  (∀ s', fdev s' = erased (fdev s) 1 e → trace s' = trace s ++ [Tx (str "OKAY")] → Q s' (Some 0)) →
  wp (handle l (str "erase:" ++ name) size) s Q.
Proof.
  intros Hs Hl Hd Hinit Hn HQ. apply wp_command; [done..|]. intros r Hsay _. to_command.
  unfold cmd_erase. change (drop 6 (str "erase:" ++ name)) with name. do 2 safe_step.
  change (iface (confirmed s)) with (iface s). rewrite (io_medium _ (fo_iface _ Hs)).
  apply wp_bind, wp_bind. unfold set_controller. apply wp_modify. cbv beta zeta.
  apply wp_bind. eapply wp_found; [exact Hn|]. cbn beta iota.
  apply wp_erase_calls; [done|by do 2 apply ok_fl|by eapply says_ok|by right|]. intros f r1 Hf Hr1 _.
  apply wp_ret. past_commands. eapply wp_tx; [exact Hr1|by_eval|]. by apply HQ.
Qed.
End erase.

(** "erase:" of a partition that exists is answered with OKAY and is one
    erase of the device, from the partition's first sector.  The length goes
    through a text of 32 bits: of a partition of 4 GiB or more only the
    length modulo 2^32 is erased. *)
Theorem erase_exact {D} `{MmcDev D} `{MmcCtl D} `{Platform} (s : fb D) l name n e size
    (Hs : fb_ok s)
    (Hl : length (l_resp l) = 65%nat)
    (Hidle : download_size (dl s) = 0)
    (Hptn : names s name n e)
    (Hstart : is_u32 (pstart e))
    (Hinit : ∀ (d : D) slot, (mmc_init d slot).2 = 0) :
  ∃ s', handle l (str "erase:" ++ name) size s = Some (s', Some 0) ∧
    trace s' = trace s ++ [Tx (str "OKAY")] ∧
    fdev s' = (mmc_erase (mmc_init (fdev s) 1).1 1 (pstart e) (plength e mod 4294967296)).1.
Proof.
  destruct (wp_elim (handle l (str "erase:" ++ name) size) s (λ s' r, r = Some 0 ∧
    trace s' = trace s ++ [Tx (str "OKAY")] ∧ fdev s' = erased (fdev s) 1 e)) as (s' & r & E & -> & Ht & Hd).
  { by eapply wp_erase. }
  exists s'. split; [done|]. split; [done|]. rewrite Hd. unfold erased. by rewrite (u32_id (pstart e)).
Qed.

(** The partition "userdata" of 8 GiB: nothing of it is erased. *)
Lemma erase_exact_witness :
  ∃ s', handle demo_locals (str "erase:" ++ lit "userdata") 15 demo_idle = Some (s', Some 0) ∧
    trace s' = trace demo_idle ++ [Tx (str "OKAY")] ∧
    fdev s' = (mmc_erase (mmc_init (fdev demo_idle) 1).1 1 200 0).1.
Proof.
  apply (erase_exact demo_idle demo_locals (lit "userdata") 1
    (mkPtentry (pad (lit "userdata") 16) 200 8589934592 0)).
  - exact demo_idle_ok.
  - reflexivity.
  - reflexivity.
  - split; by vm_compute.
  - by_eval.
  - exact demo_init.
Defined.

(** ** Flashing in several parts *)

Section multiflash.
Context {D : Type} `{MmcDev D} `{MmcCtl D} `{Platform}.
Implicit Types (s : fb D).

(** A chunk behind the first one, of an image that is not sparse. *)
Lemma wp_write_chunk ptn offset s (Q : fb D → list Z * Z → Prop) data :
  offset ≠ 0 → mmcwrite_is_sparsed (fl s) = 0 →
  slice (transfer_buffer s) 0 (round512 (download_bytes (dl s))) = Some data →
  (let w := mmc_write (fdev s) 1 data (u32 (pstart ptn + offset / 512)) in
   let s' := set_fdev w.1 s in
   if w.2 <=? 0 then Q s' (str "FAIL: Write partition", -1) else Q s' (str "OKAY", 0)) →
  wp (write_to_ptn_emmc ptn offset) s Q.
Proof.
  intros Ho Hsp Hdata HQ. unfold write_to_ptn_emmc. destruct (Z.eqb_spec offset 0); [done|].
  apply wp_bind, wp_ret. cbn [Z.eqb negb]. apply wp_bind, wp_ret. do 2 safe_step. rewrite Hsp.
  change (negb (0 =? 0)) with false. cbv iota. apply wp_bind. eapply wp_lift; [exact Hdata|].
  apply wp_bind. unfold f_write, on_board, g_write, wp at 1. unfold slot_no.
  change (dev (b_idme (f_board s))) with (fdev s).
  destruct (mmc_write (fdev s) 1 data _) as [d1 x]. cbn [fst snd] in HQ. destruct (x <=? 0); exact HQ.
Qed.

Lemma starts_1 c l : starts (c :: l) (str "1") = Some (c =? 49).
Proof.
  change (str "1") with [49]. cbn [starts].
  destruct (Z.eqb_spec (c - 49) 0), (Z.eqb_spec c 49); done || lia.
Qed.

Lemma wp_multiflash l c x name n e size s (Q : fb D → option Z → Prop) :
  fb_ok s → length (l_resp l) = 65%nat → download_size (dl s) = 0 → download_bytes (dl s) ≠ 0 →
  arg_ok name → names s name n e → multiflash_ptn (fl s) = Some n →
  u32 (download_bytes (dl s) + multiflash_offset (fl s)) <= plength e →
  (∀ r, resp_ok r →
    wp (flash_emmc e (multiflash_offset (fl s)) r) (confirmed s) (λ s1 p,
      let s2 := if p.2 =? 0 then
          if c =? 49 then set_fl (let f := fl s1 in mkFlashing (mmc_controller_no f) 0 None (mmcwrite_is_sparsed f) (fastboot_confirmed f)) s1
          else set_fl (let f := fl s1 in mkFlashing (mmc_controller_no f)
            (u32 (multiflash_offset (fl s) + download_bytes (dl s))) (Some n) (mmcwrite_is_sparsed f) (fastboot_confirmed f)) s1
        else s1 in
      wp (tx p.1) s2 (λ s'' _, Q s'' (Some 0)))) →
  wp (handle l (str "multiflash:" ++ c :: x :: name) size) s Q.
Proof.
  intros Hs Hl Hd Hb Ha Hn Hp Hsum HQ. apply wp_command; [done..|]. intros r Hsay _.
  unfold commands. repeat (apply wp_skip; [reflexivity|]).
  unfold on_cmd at 1. apply wp_bind. eapply wp_lift; [reflexivity|]. cbv iota beta.
  unfold cmd_multiflash. change (drop 13 (str "multiflash:" ++ c :: x :: name)) with name. do 2 safe_step.
  change (iface (confirmed s)) with (iface s). rewrite (io_medium _ (fo_iface _ Hs)).
  change (download_bytes (dl (confirmed s))) with (download_bytes (dl s)).
  destruct (Z.eqb_spec (download_bytes (dl s)) 0); [done|]. cbn [negb].
  apply wp_bind, wp_bind. eapply wp_found; [exact Hn|]. apply wp_bind.
  change (multiflash_ptn (fl (confirmed s))) with (multiflash_ptn (fl s)).
  rewrite decide_True by (by rewrite Hp). apply wp_ret.
  unfold multiflash_chunk. do 2 safe_step.
  rewrite (names_no_env s name n e) by done.
  change (multiflash_offset (fl (confirmed s))) with (multiflash_offset (fl s)).
  change (download_bytes (dl (confirmed s))) with (download_bytes (dl s)).
  destruct (Z.ltb_spec (plength e) (u32 (download_bytes (dl s) + multiflash_offset (fl s)))); [lia|].
  apply wp_bind. eapply wp_mono; [apply HQ; by eapply says_ok|]. intros s1 [r1 z]. cbn [fst snd]. intros H'.
  apply wp_bind. destruct (z =? 0).
  - apply wp_bind. change (drop 11 (str "multiflash:" ++ c :: x :: name)) with (c :: x :: name).
    eapply wp_lift; [apply starts_1|]. destruct (c =? 49); by apply wp_modify, wp_ret, wp_ret.
  - by do 3 apply wp_ret.
Qed.
End multiflash.

(** A further chunk of a multi-part flash goes to the sector of its
    offset and moves the offset on.  Only the 32-bit sum of the offset and
    the size is compared with the partition, so past 4 GiB the check says
    nothing and the offset starts again from the low end. *)
Theorem multiflash_chunk_exact {D} `{MmcLaws D} `{MmcCtl D} `{Platform} (s : fb D) l c x name n e size
    (Hs : fb_ok s)
    (Hl : length (l_resp l) = 65%nat)
    (Hidle : download_size (dl s) = 0)
    (Hb : download_bytes (dl s) ≠ 0)
    (Hname : arg_ok name)
    (Hptn : names s name n e)
    (Hsame : multiflash_ptn (fl s) = Some n)
    (Hnext : multiflash_offset (fl s) ≠ 0)
    (Hplain : mmcwrite_is_sparsed (fl s) = 0)
    (Hsum : u32 (download_bytes (dl s) + multiflash_offset (fl s)) <= plength e)
    (Hmore : c ≠ 49)
    (Hrel : reliable D) :
  ∃ s' data, handle l (str "multiflash:" ++ c :: x :: name) size s = Some (s', Some 0) ∧
    trace s' = trace s ++ [Tx (str "OKAY")] ∧
    slice (transfer_buffer s) 0 (round512 (download_bytes (dl s))) = Some data ∧
    multiflash_ptn (fl s') = Some n ∧
    multiflash_offset (fl s') = u32 (multiflash_offset (fl s) + download_bytes (dl s)) ∧
    disk_eq (contents (fdev s') 1 (selected (fdev s) 1))
      (write_sectors (contents (fdev s) 1 (selected (fdev s) 1))
         (u32 (pstart e + multiflash_offset (fl s) / 512)) data).
Proof.
  pose proof (fo_dl _ Hs) as []. pose proof (fo_iface _ Hs) as Hi.
  destruct (buffer_slice s (round512 (download_bytes (dl s))) Hs) as (data & E & Hlen & _).
  { apply round512_le; [apply Hi|done]. }
  set (b := u32 (pstart e + multiflash_offset (fl s) / 512)).
  destruct Hrel as (_ & Hw & _). pose proof (Hw (fdev s) 1 data b) as Hw1.
  destruct (wp_elim (handle l (str "multiflash:" ++ c :: x :: name) size) s (λ s' r, r = Some 0 ∧
    trace s' = trace s ++ [Tx (str "OKAY")] ∧ multiflash_ptn (fl s') = Some n ∧
    multiflash_offset (fl s') = u32 (multiflash_offset (fl s) + download_bytes (dl s)) ∧
    fdev s' = (mmc_write (fdev s) 1 data b).1)) as (s' & r & Er & -> & Ht & Hp & Ho & Hd).
  { eapply wp_multiflash; [done..|]. intros r Hr. unfold flash_emmc.
    apply wp_bind. eapply wp_write_chunk; [done|done|exact E|].
    change (fdev (confirmed s)) with (fdev s). fold b. cbv zeta. rewrite Hw1. change (1 <=? 0) with false.
    cbv iota. apply wp_bind, wp_put_text; [apply Hr|by apply Nat.ltb_lt|].
    intros r1 Hr1 _. apply wp_ret. cbn [fst snd Z.eqb]. destruct (Z.eqb_spec c 49); [done|].
    eapply wp_tx; [exact Hr1|by_eval|]. done. }
  exists s', data. do 5 (split; [done|]). rewrite Hd.
  assert (length data mod 512 = 0)%nat as Hmod.
  { unfold round512 in Hlen. set (q := (download_bytes (dl s) + 511) / 512) in Hlen.
    assert (0 <= q) by (unfold q; dm_lia). replace (length data) with (Z.to_nat q * 512)%nat by lia.
    apply Nat.Div0.mod_mul. }
  destruct (mmc_write (fdev s) 1 data b) as [d1 y] eqn:Ew. cbn [snd] in Hw1. subst y.
  exact (write_ok _ _ _ _ _ Ew Hmod).
Qed.

(** 600 bytes at 4 GiB less 512 bytes of the partition of 8 GiB: the next
    chunk goes to offset 88. *)
Definition demo_multi : fb ram :=
  demo_fb 0 (mkDownload 0 600 0 0) (mkFlashing 1 4294966784 (Some 1) 0 1) demo_raw_buffer.

Lemma multiflash_chunk_exact_witness :
  ∃ s' data, handle demo_locals (str "multiflash:" ++ 48 :: 58 :: lit "userdata") 22 demo_multi
      = Some (s', Some 0) ∧
    trace s' = trace demo_multi ++ [Tx (str "OKAY")] ∧
    slice (transfer_buffer demo_multi) 0 (round512 600) = Some data ∧
    multiflash_ptn (fl s') = Some 1 ∧
    multiflash_offset (fl s') = 88 ∧
    disk_eq (contents (fdev s') 1 (selected (fdev demo_multi) 1))
      (write_sectors (contents (fdev demo_multi) 1 (selected (fdev demo_multi) 1))
         (u32 (200 + 4294966784 / 512)) data).
Proof.
  apply (multiflash_chunk_exact demo_multi demo_locals 48 58 (lit "userdata") 1
    (mkPtentry (pad (lit "userdata") 16) 200 8589934592 0) 22).
  - apply demo_ok; [split; cbn; lia|split; [by vm_compute|by_eval]].
  - reflexivity.
  - reflexivity.
  - by_eval.
  - split; by_eval.
  - split; by vm_compute.
  - reflexivity.
  - by_eval.
  - reflexivity.
  - by_eval.
  - by_eval.
  - exact ram_reliable.
Defined.

(** ** Flashing the environment *)

Definition env_char (c : Z) : Z := if c =? 10 then 0 else c.

(** The environment a text becomes. *)
Definition env_image (text : list Z) : list Z :=
  (env_char <$> text) ++ replicate (Z.to_nat ENV_SIZE - length text) 0.

Section env.
Context {D : Type} `{MmcDev D} `{MmcCtl D} `{Platform}.
Implicit Types (s : fb D).

Lemma env_of_text_front l n : 0 <= n <= Z.of_nat (length l) →
  slice (env_of_text l n) 0 n = Some (env_char <$> take (Z.to_nat n) l).
Proof.
  intros Hn. unfold env_of_text. rewrite slice_Some; [|lia|lia|].
  - f_equal. cbn [Z.to_nat]. rewrite drop_0, take_app_length'; [done|]. rewrite length_fmap, length_take. lia.
  - rewrite length_app, length_fmap, length_take, length_drop. lia.
Qed.

(** The two copies of [flash_env]. *)
Lemma env_copies e l n : Z.of_nat (length e) = ENV_SIZE → 0 <= n <= Z.of_nat (length l) →
  c_memset e 0 0 ENV_SIZE = Some (replicate (Z.to_nat ENV_SIZE) 0) ∧
  c_memcpy (replicate (Z.to_nat ENV_SIZE) 0) 0 (env_of_text l n) n =
    if n <=? ENV_SIZE then Some (env_image (take (Z.to_nat n) l)) else None.
Proof.
  intros He Hn. remember (Z.to_nat ENV_SIZE) as N eqn:EN. assert (Z.of_nat N = ENV_SIZE) as HN by (unfold ENV_SIZE in *; lia).
  split.
  - unfold c_memset. rewrite <-EN, blit_Some by (rewrite ?length_replicate; lia). cbn [Z.to_nat].
    rewrite take_0, length_replicate, drop_ge by lia. by rewrite app_nil_r.
  - unfold c_memcpy. rewrite env_of_text_front by done. cbn [mbind option_bind].
    assert (length (env_char <$> take (Z.to_nat n) l) = Z.to_nat n) as Hl by (rewrite length_fmap, length_take; lia).
    destruct (Z.leb_spec n ENV_SIZE).
    + rewrite blit_Some by (rewrite ?length_replicate; lia). cbn [Z.to_nat]. rewrite take_0. cbn [app].
      unfold env_image. rewrite <-EN. f_equal. f_equal. rewrite drop_replicate. f_equal. rewrite length_take. lia.
    + unfold blit. rewrite length_replicate, Hl. destruct (Z.leb_spec (0 + Z.of_nat (Z.to_nat n)) (Z.of_nat N)); [lia|done].
Qed.

Lemma wp_flash_env s (Q : fb D → unit → Prop) :
  Z.of_nat (length (env_data s)) = ENV_SIZE →
  0 <= download_bytes (dl s) <= Z.of_nat (length (transfer_buffer s)) →
  download_bytes (dl s) <= ENV_SIZE →
  (∀ t, Q (add_trace SaveEnv (set_env_data (env_image (take (Z.to_nat (download_bytes (dl s))) (transfer_buffer s)))
     (set_buffer t s))) tt) →
  wp flash_env s Q.
Proof.
  intros He Hn Hle HQ. destruct (env_copies _ _ _ He Hn) as [E1 E2].
  destruct (Z.leb_spec (download_bytes (dl s)) ENV_SIZE); [|lia].
  unfold flash_env. do 2 safe_step. apply wp_bind. eapply wp_lift; [apply slice_Some; lia|].
  apply wp_bind, wp_modify. do 2 safe_step. apply wp_bind. eapply wp_lift; [exact E1|].
  apply wp_bind. eapply wp_lift; [exact E2|]. apply wp_bind, wp_modify, wp_modify. apply HQ.
Qed.

Lemma undef_flash_env s :
  Z.of_nat (length (env_data s)) = ENV_SIZE →
  0 <= download_bytes (dl s) <= Z.of_nat (length (transfer_buffer s)) →
  ENV_SIZE < download_bytes (dl s) → flash_env s = None.
Proof.
  intros He Hn Hle. destruct (env_copies _ _ _ He Hn) as [E1 E2].
  destruct (Z.leb_spec (download_bytes (dl s)) ENV_SIZE); [lia|].
  unfold flash_env. apply undef_bind, wp_get. apply undef_bind. eapply wp_lift; [apply slice_Some; lia|].
  apply undef_bind, wp_modify. apply undef_bind, wp_get. apply undef_bind. eapply wp_lift; [exact E1|].
  apply undef_bind_l. unfold lift.
  match goal with |- context [c_memcpy ?a ?b ?c ?d] => change (c_memcpy a b c d) with
    (c_memcpy (replicate (Z.to_nat ENV_SIZE) 0) 0 (env_of_text (transfer_buffer s) (download_bytes (dl s))) (download_bytes (dl s))) end.
  by rewrite E2.
Qed.
End env.

(** Flashing the environment partition.  The text downloaded, with its
    newlines turned into terminators and zeros behind it, becomes the
    environment, it is saved, and the device is not written.  Its size is not
    compared with the environment: a longer download runs over its end. *)
Theorem flash_env_exact {D} `{MmcDev D} `{MmcCtl D} `{Platform} (s : fb D) l name n e size
    (Hemmc : storage_medium (iface s) = EMMC)
    (Hl : length (l_resp l) = 65%nat)
    (Hidle : download_size (dl s) = 0)
    (Hptn : names s name n e)
    (Henv : flag (pflags e) FASTBOOT_PTENTRY_FLAGS_WRITE_ENV = true)
    (Hlen : Z.of_nat (length (env_data s)) = ENV_SIZE)
    (Hb : 0 < download_bytes (dl s) <= Z.of_nat (length (transfer_buffer s))) :
  if download_bytes (dl s) <=? ENV_SIZE then
    ∃ s', handle l (str "flash:" ++ name) size s = Some (s', Some 0) ∧
      trace s' = trace s ++ [SaveEnv; Tx (str "OKAY")] ∧
      env_data s' = env_image (take (Z.to_nat (download_bytes (dl s))) (transfer_buffer s)) ∧
      f_board s' = f_board s
  else handle l (str "flash:" ++ name) size s = None.
Proof.
  destruct (Z.leb_spec (download_bytes (dl s)) ENV_SIZE).
  - destruct (wp_elim (handle l (str "flash:" ++ name) size) s (λ s' r, r = Some 0 ∧
      trace s' = trace s ++ [SaveEnv; Tx (str "OKAY")] ∧
      env_data s' = env_image (take (Z.to_nat (download_bytes (dl s))) (transfer_buffer s)) ∧
      f_board s' = f_board s)) as (s' & r & E & -> & HQ); [|by exists s'].
    eapply wp_flash; [done|done|done|lia|done|]. intros r Hr. unfold flash_ptn_emmc. do 2 safe_step.
    unfold too_large. rewrite Henv, andb_false_r. apply wp_bind, wp_flash_env; [done|cbn; lia|done|].
    intros t. apply wp_put; [apply Hr|by apply Nat.ltb_lt|]. intros r1 Hr1 _.
    eapply wp_tx; [exact Hr1|by_eval|]. cbn [add_trace trace]. by rewrite <-app_assoc.
  - apply undef_command; [done|done|]. intros r Hr. to_undef_command.
    unfold cmd_flash. change (drop 6 (str "flash:" ++ name)) with name. apply undef_bind, wp_get.
    apply undef_bind_l. change (download_bytes (dl (confirmed s))) with (download_bytes (dl s)).
    destruct (Z.eqb_spec (download_bytes (dl s)) 0); [lia|]. cbn [negb].
    apply undef_bind. eapply wp_found; [exact Hptn|]. cbn beta iota.
    change (iface (confirmed s)) with (iface s). rewrite Hemmc. unfold flash_ptn_emmc.
    apply undef_bind, wp_get. unfold too_large. rewrite Henv, andb_false_r.
    apply undef_bind_l, undef_flash_env; [done|cbn; lia|done].
Qed.

(** The two-line text "a=1", "b" in "userdata", taken for the environment. *)
Definition demo_env : fb ram :=
  set_env_data (replicate (Z.to_nat ENV_SIZE) 1)
    (demo_fb 1024 (mkDownload 0 5 0 0) idle_fl ([97; 61; 49; 10; 98] ++ replicate 1019 0)).

Lemma flash_env_exact_witness :
  ∃ s', handle demo_locals (str "flash:" ++ lit "userdata") 15 demo_env = Some (s', Some 0) ∧
    trace s' = [SaveEnv; Tx (str "OKAY")] ∧ env_data s' = env_image [97; 61; 49; 10; 98] ∧
    f_board s' = f_board demo_env.
Proof.
  apply (flash_env_exact demo_env demo_locals (lit "userdata") 1
    (mkPtentry (pad (lit "userdata") 16) 200 8589934592 1024)).
  - reflexivity.
  - reflexivity.
  - reflexivity.
  - split; by vm_compute.
  - reflexivity.
  - unfold demo_env, set_env_data. cbn [env_data]. rewrite length_replicate. by_eval.
  - by_eval.
Defined.

(** ** Commands that go wrong *)

(** "mmcerase:" with a controller other than 0 and 1: [do_mmc] prints the
    usage text through the null command pointer. *)
Lemma mmcerase_null :
  Forall (λ k, handle demo_locals (str "mmcerase:" ++ [48 + k; 58] ++ lit "boot") 15 demo_idle = None)
    [2; 3; 4; 5; 6; 7; 8; 9].
Proof. repeat constructor; by vm_compute. Qed.

(** The name of no partition, with something downloaded: the message reads
    the name of the entry through the null pointer. *)
Section unknown.
Context {D : Type} `{MmcDev D} `{MmcCtl D} `{Platform}.
Implicit Types (s : fb D).

Lemma wp_missing name s (Q : fb D → option (Z * fastboot_ptentry) → Prop) :
  fastboot_flash_find_ptn (b_table (f_board s)) name = Some None → Q s None → wp (find_ptn name) s Q.
Proof.
  intros E HQ. unfold find_ptn. do 2 safe_step. apply wp_bind. eapply wp_lift; [exact E|]. by apply wp_ret.
Qed.

Lemma flash_unknown s l name size : storage_medium (iface s) = EMMC → length (l_resp l) = 65%nat →
  download_size (dl s) = 0 → download_bytes (dl s) ≠ 0 → fastboot_flash_find_ptn (b_table (f_board s)) name = Some None →
  handle l (str "flash:" ++ name) size s = None.
Proof.
  intros Hm Hl Hd Hb E. apply undef_command; [done|done|]. intros r Hr. to_undef_command.
  unfold cmd_flash. change (drop 6 (str "flash:" ++ name)) with name. apply undef_bind, wp_get, undef_bind_l.
  change (download_bytes (dl (confirmed s))) with (download_bytes (dl s)). rewrite (proj2 (Z.eqb_neq _ 0)) by done. cbn [negb].
  apply undef_bind. eapply wp_missing; [exact E|]. cbn beta iota. change (iface (confirmed s)) with (iface s). by rewrite Hm.
Qed.

Lemma multiflash_unknown s l c x name size : storage_medium (iface s) = EMMC → length (l_resp l) = 65%nat →
  download_size (dl s) = 0 → download_bytes (dl s) ≠ 0 → fastboot_flash_find_ptn (b_table (f_board s)) name = Some None →
  handle l (str "multiflash:" ++ c :: x :: name) size s = None.
Proof.
  intros Hm Hl Hd Hb E. apply undef_command; [done|done|]. intros r Hr.
  unfold commands. repeat (apply undef_skip; [reflexivity|]). unfold on_cmd. apply undef_bind. eapply wp_lift; [reflexivity|]. cbv beta iota.
  unfold cmd_multiflash. change (drop 13 (str "multiflash:" ++ c :: x :: name)) with name. apply undef_bind, wp_get, undef_bind_l.
  change (iface (confirmed s)) with (iface s). rewrite Hm.
  change (download_bytes (dl (confirmed s))) with (download_bytes (dl s)). rewrite (proj2 (Z.eqb_neq _ 0)) by done. cbn [negb].
  apply undef_bind. eapply wp_missing; [exact E|]. cbn beta iota. apply undef_bind. by destruct (decide _); [apply wp_ret|apply wp_modify].
Qed.
End unknown.

(** A packet of 512 digits and no terminator: the number of a download is
    read on behind the buffer. *)
Lemma unterminated_undefined : handle demo_locals (str "download:" ++ replicate 503 48) 512 demo_idle = None.
Proof. by vm_compute. Qed.

(** With NAND as the medium, erasing reports success and flashing failure,
    and neither touches the device: the commands they would use are compiled
    out. *)
Definition demo_nand : fb ram :=
  mkFb (f_board demo_raw) (mmc_flag demo_raw) (dl demo_raw) (fl demo_raw) (sparse demo_raw)
    (transfer_buffer demo_raw)
    (mkInterface None None None None NAND 2048 2147483648 1024) (env_data demo_raw) [].

Definition outcome (name : string) (s : fb ram) : option (list action * ram) :=
  match handle demo_locals (lit name) 20 s with
  | Some (s', _) => Some (trace s', fdev s')
  | None => None
  end.

Lemma nand_erase_succeeds : outcome "erase:boot" demo_nand = Some ([Tx (str "OKAY")], fdev demo_nand).
Proof. by vm_compute. Qed.

Lemma nand_flash_fails :
  outcome "flash:boot" demo_nand =
    Some ([SetEnv (str "boot_nand_offset") (Some []); SetEnv (str "boot_nand_size") (Some []); SaveEnv;
           Tx (str "FAILfailed to flash partition")], fdev demo_nand).
Proof. by vm_compute. Qed.
