(* ===== verification/Atags.v ===== *)
(** [lib_arm/armlinux.c], [include/asm-arm/setup.h], [include/bootimg.h]: the
    list of tags that tells the kernel about the board.  It is written into
    RAM, a memory of [CMem]; [params] points behind the tags written so far. *)
From stdpp Require Import base tactics option list gmap strings.
From Stdlib Require Import ZArith Lia.
From S2P Require Import Prelude.
From S2P Require Import CMem.
From S2P Require Import CString.
From S2P Require Import MmcDev.
From S2P Require Import Eff.
From S2P Require Import CBuf.
From S2P Require Import Idme.
From S2P Require Import Gpt.
From S2P Require Import Fastboot.
Open Scope Z_scope.

(** ** Memory *)

Fixpoint store_bytes (m : mem) (a : Z) (l : list Z) : option mem :=
  match l with
  | [] => Some m
  | x :: l' => m ← store m a x; store_bytes m (a + 1) l'
  end.
Fixpoint load_bytes (m : mem) (a : Z) (n : nat) : option (list Z) :=
  match n with
  | O => Some []
  | S n' => x ← load m a; r ← load_bytes m (a + 1) n'; Some (x :: r)
  end.
Definition load_u32 (m : mem) (a : Z) : option Z := le_val <$> load_bytes m a 4.

(** ** Data *)

Definition ATAG_NONE : Z := 0.
Definition ATAG_CORE : Z := 0x54410001.
Definition ATAG_MEM : Z := 0x54410002.
Definition ATAG_REVISION : Z := 0x54410007.
Definition ATAG_INITRD2 : Z := 0x54420005.
Definition ATAG_CMDLINE : Z := 0x54410009.
Definition ATAG_SERIAL16 : Z := 0x5441000a.
Definition ATAG_REVISION16 : Z := 0x5441000b.
Definition ATAG_MACADDR : Z := 0x5441000c.
Definition ATAG_BOOTMODE : Z := 0x5441000d.
Definition ATAG_GYROCAL : Z := 0x5441000e.

(** The sizes of the structures behind the header. *)
Definition sizeof_tag_header : Z := 8.
Definition sizeof_tag_core : Z := 12.
Definition sizeof_tag_mem32 : Z := 8.
Definition sizeof_tag_initrd : Z := 8.
Definition sizeof_tag_revision : Z := 4.
Definition sizeof_tag_id16 : Z := 16.
Definition sizeof_tag_macaddr : Z := 64.
Definition sizeof_tag_bootmode : Z := 32.
Definition sizeof_tag_gyrocal : Z := 36.

Definition tag_size (sizeof_type : Z) : Z := Z.shiftr (sizeof_tag_header + sizeof_type) 2.

(** [for_each_tag]: the tags from an address on, each with the words that
    follow its header. *)
Fixpoint for_each_tag (fuel : nat) (m : mem) (t : Z) : option (list (Z * list Z)) :=
  match fuel with
  | O => None
  | S fuel' =>
      size ← load_u32 m t;
      if size =? 0 then Some [] else
      tag ← load_u32 m (t + 4);
      u ← load_bytes m (t + 8) (Z.to_nat (4 * size - 8));
      r ← for_each_tag fuel' m (t + 4 * size);
      Some ((tag, u) :: r)
  end.

(** The fields of [bd_t] used here; one bank of RAM. *)
Record bd_t := mkBd {
  bi_arch_number : Z;
  bi_boot_params : Z;
  bi_board_revision : Z;
  bi_dram : list (Z * Z);       (** start, size *)
}.
Definition CONFIG_NR_DRAM_BANKS : Z := 1.

(** The state of the boot: that of [Fastboot], the RAM and [params]. *)
Record boot (D : Type) := mkBoot { k_fb : fb D; k_mem : mem; k_params : Z }.
Arguments mkBoot {D}.
Arguments k_fb {D}.
Arguments k_mem {D}.
Arguments k_params {D}.

Section ops.
Context {D : Type} `{MmcDev D}.
#[local] Abbreviation K := (ST (boot D)).

Definition on_fb {A} (f : ST (fb D) A) : K A := λ s,
  match f (k_fb s) with Some (b, a) => Some (mkBoot b (k_mem s) (k_params s), a) | None => None end.
Definition on_vars {A} (f : ST (idme D) A) : K A := on_fb (on_board (on_idme f)).
Definition set_mem (m : mem) : K unit := modify (λ s, mkBoot (k_fb s) m (k_params s)).
Definition set_params (p : Z) : K unit := modify (λ s, mkBoot (k_fb s) (k_mem s) p).

Definition k_load (a : Z) : K Z := s ← get; lift (load_u32 (k_mem s) a).
Definition k_store (a : Z) (l : list Z) : K unit :=
  s ← get; m ← lift (store_bytes (k_mem s) a l); set_mem m.

(** Bytes and words at an offset of [*params]. *)
Definition put_bytes (off : Z) (l : list Z) : K unit := s ← get; k_store (k_params s + off) l.
Definition put_u32 (off v : Z) : K unit := put_bytes off (le_bytes 4 (u32 v)).
Definition set_hdr (tag size : Z) : K unit := _ ← put_u32 4 tag; put_u32 0 size.

(** [params = tag_next(params)]. *)
Definition tag_next : K unit :=
  s ← get; size ← k_load (k_params s); set_params (k_params s + 4 * size).

(** ** The tags *)

Definition setup_start_tag (bd : bd_t) : K unit :=
  _ ← set_params (bi_boot_params bd);
  _ ← set_hdr ATAG_CORE (tag_size sizeof_tag_core);
  _ ← put_u32 8 0;
  _ ← put_u32 12 0;
  _ ← put_u32 16 0;
  tag_next.

Definition memory_tag (bank : Z * Z) (_ : unit) : K unit :=
  _ ← set_hdr ATAG_MEM (tag_size sizeof_tag_mem32);
  _ ← put_u32 12 bank.1;
  _ ← put_u32 8 bank.2;
  tag_next.
Definition setup_memory_tags (bd : bd_t) : K unit :=
  banks ← lift (slice (bi_dram bd) 0 CONFIG_NR_DRAM_BANKS);
  mfor banks memory_tag tt.

(** "eat leading white space". *)
Definition blank_step (m : mem) (p : Z) : option (Z + Z) :=
  c ← load m p; Some (if c =? 32 then inl (p + 1) else inr p).

(** [commandline] is the address of an array, never null. *)
Definition setup_commandline_tag (commandline : Z) : K unit :=
  s ← get;
  p ← lift (loop (fuel_of (k_mem s)) (blank_step (k_mem s)) commandline);
  c ← lift (load (k_mem s) p);
  if c =? 0 then mret tt else
  _ ← put_u32 4 ATAG_CMDLINE;
  s ← get;
  n ← lift (strlen (k_mem s) p);
  _ ← put_u32 0 (Z.shiftr (sizeof_tag_header + n + 1 + 4) 2);
  s ← get;
  '(m, _) ← lift (strcpy (k_mem s) (k_params s + 8) p);
  _ ← set_mem m;
  tag_next.

Definition setup_initrd_tag (initrd_start initrd_end : Z) : K unit :=
  _ ← set_hdr ATAG_INITRD2 (tag_size sizeof_tag_initrd);
  _ ← put_u32 8 initrd_start;
  _ ← put_u32 12 (initrd_end - initrd_start);
  tag_next.

Definition setup_serial16_tag : K unit :=
  sn ← on_vars idme_get_board_serial;
  _ ← set_hdr ATAG_SERIAL16 (tag_size sizeof_tag_id16);
  id ← lift (slice sn 0 16);
  _ ← put_bytes 8 id;
  tag_next.

Definition setup_revision_tag (bd : bd_t) : K unit :=
  _ ← set_hdr ATAG_REVISION (tag_size sizeof_tag_revision);
  _ ← put_u32 8 (bi_board_revision bd);
  tag_next.

Definition setup_revision16_tag : K unit :=
  rev ← on_vars idme_get_board_id;
  _ ← set_hdr ATAG_REVISION16 (tag_size sizeof_tag_id16);
  id ← lift (slice rev 0 16);
  _ ← put_bytes 8 id;
  tag_next.

Definition IDME_MAX_MAC_LEN : Z := 16.
Definition IDME_MAX_SEC_LEN : Z := 32.
Definition IDME_MAX_BOOTMODE_LEN : Z := 16.
Definition IDME_MAX_GYROCAL_LEN : Z := 36.

(** [memset] of a local array of [n + 1] bytes, [idme_get_var] into it. *)
Definition get_local (nm : string) (n : Z) : K (Z * list Z) :=
  on_vars (idme_get_var (lit nm) (replicate (Z.to_nat (n + 1)) 0) (n + 1)).

Definition setup_macaddr_tag : K unit :=
  '(r, mac_buf) ← get_local "mac" IDME_MAX_MAC_LEN;
  if negb (r =? 0) then mret tt else
  '(r, bt_mac_buf) ← get_local "bt" IDME_MAX_MAC_LEN;
  if negb (r =? 0) then mret tt else
  '(r, sec_buf) ← get_local "sec" IDME_MAX_SEC_LEN;
  if negb (r =? 0) then mret tt else
  _ ← set_hdr ATAG_MACADDR (tag_size sizeof_tag_macaddr);
  x ← lift (slice sec_buf 0 32); _ ← put_bytes 8 x;
  x ← lift (slice mac_buf 0 16); _ ← put_bytes 40 x;
  x ← lift (slice bt_mac_buf 0 16); _ ← put_bytes 56 x;
  tag_next.

Definition setup_bootmode_tag : K unit :=
  '(r, bootmode_buf) ← get_local "bootmode" IDME_MAX_BOOTMODE_LEN;
  if negb (r =? 0) then mret tt else
  '(r, postmode_buf) ← get_local "postmode" IDME_MAX_BOOTMODE_LEN;
  if negb (r =? 0) then mret tt else
  _ ← set_hdr ATAG_BOOTMODE (tag_size sizeof_tag_bootmode);
  x ← lift (slice bootmode_buf 0 16); _ ← put_bytes 8 x;
  x ← lift (slice postmode_buf 0 16); _ ← put_bytes 24 x;
  tag_next.

Definition setup_gyrocal_tag : K unit :=
  '(r, gyrocal_data_buf) ← get_local "gyrocal" IDME_MAX_GYROCAL_LEN;
  if negb (r =? 0) then mret tt else
  _ ← set_hdr ATAG_GYROCAL (tag_size sizeof_tag_gyrocal);
  x ← lift (slice gyrocal_data_buf 0 36); _ ← put_bytes 8 x;
  tag_next.

Definition setup_end_tag : K unit := set_hdr ATAG_NONE 0.

(** ** Starting the kernel *)

(** Offsets in [boot_img_hdr]. *)
Definition hdr_kernel_size : Z := 8.
Definition hdr_kernel_addr : Z := 12.
Definition hdr_ramdisk_size : Z := 16.
Definition hdr_ramdisk_addr : Z := 20.
Definition hdr_page_size : Z := 36.
Definition hdr_cmdline : Z := 64.
Definition sizeof_boot_img_hdr : Z := 608.

(** A call of [theKernel], with its address and arguments. *)
Record kernel_entry := mkKernelEntry { theKernel : Z; r0 : Z; r1 : Z; r2 : Z }.

(** Up to the call.  [hdr] is the address of the image's header. *)
Definition do_booti_linux (bd : bd_t) (hdr : Z) : K kernel_entry :=
  kernel ← k_load (hdr + hdr_kernel_addr);
  initrd_start ← k_load (hdr + hdr_ramdisk_addr);
  size ← k_load (hdr + hdr_ramdisk_size);
  let initrd_end := u32 (initrd_start + size) in
  _ ← setup_start_tag bd;
  _ ← setup_revision_tag bd;
  _ ← setup_revision16_tag;
  _ ← setup_serial16_tag;
  _ ← setup_macaddr_tag;
  _ ← setup_bootmode_tag;
  _ ← setup_gyrocal_tag;
  _ ← setup_memory_tags bd;
  _ ← setup_commandline_tag (hdr + hdr_cmdline);
  size ← k_load (hdr + hdr_ramdisk_size);
  _ ← (if negb (size =? 0) then setup_initrd_tag initrd_start initrd_end else mret tt);
  _ ← setup_end_tag;
  mret (mkKernelEntry kernel 0 (bi_arch_number bd) (bi_boot_params bd)).
End ops.
