(* ===== verification/AtagsSpec.v ===== *)
(** The list of tags of [Atags]: what the boot loader writes is what the
    kernel reads. *)
From stdpp Require Import base tactics option list gmap strings.
From Stdlib Require Import ZArith Lia.
From S2P Require Import Prelude.
From S2P Require Import CString.
From S2P Require Import MmcDev.
From S2P Require Import Eff.
From S2P Require Import CBuf.
From S2P Require Import Idme.
From S2P Require Import IdmeSpec.
From S2P Require Import IdmeBoot.
From S2P Require Import Gpt.
From S2P Require Import Fastboot.
From S2P Require Import Atags.
From S2P Require Import CMem.
Open Scope Z_scope.

(** ** Memory *)

Lemma mapped_sub m a n k n' : mapped m a n → 0 <= k → k + n' <= n → mapped m (a + k) n'.
Proof. intros H Hk Hn. eapply mapped_le; [by apply mapped_shift|lia]. Qed.

Lemma at_put_at m a b l : a = b → at_ (put m a l) b l.
Proof. intros ->. apply at_put. Qed.

Lemma store_bytes_put m a l : mapped m a (Z.of_nat (length l)) → bytes l → store_bytes m a l = Some (put m a l).
Proof.
  revert m a. induction l as [|x l IH]; intros m a Hm Hb; [done|]. cbn [store_bytes put].
  apply Forall_cons in Hb as [Hx Hb]. cbn [length] in Hm. rewrite (store_mapped _ _ _ (Z.of_nat (S (length l)))) by (done || lia).
  cbn [mbind option_bind]. rewrite u8_id by done. apply IH; [|done].
  eapply mapped_le; [apply (mapped_tail _ _ (Z.of_nat (S (length l)))); [lia|done]|lia].
Qed.

Lemma load_bytes_at m a l : at_ m a l → load_bytes m a (length l) = Some l.
Proof.
  revert a. induction l as [|x l IH]; intros a H; [done|]. destruct H as [Hx Hl]. cbn [length load_bytes].
  unfold load. rewrite Hx. cbn [mbind option_bind]. rewrite IH by done. done.
Qed.

Lemma load_u32_at m a v : is_u32 v → at_ m a (le_bytes 4 v) → load_u32 m a = Some v.
Proof.
  intros Hv H. unfold load_u32. rewrite <-(le_bytes_length 4 v). rewrite load_bytes_at by done.
  cbn [fmap option_fmap option_map]. f_equal. rewrite le_val_bytes. by apply Z.mod_small.
Qed.

(** ** Lists of tags *)

Definition tag : Type := Z * list Z.
Definition tag_words (x : tag) : Z := (8 + Z.of_nat (length x.2)) / 4.
Definition enc_tag (x : tag) : list Z := le_bytes 4 (tag_words x) ++ le_bytes 4 x.1 ++ x.2.
Definition tags_text (l : list tag) : list Z := concat (enc_tag <$> l).
Definition tag_ok (x : tag) : Prop :=
  is_u32 x.1 ∧ (length x.2 mod 4 = 0)%nat ∧ Z.of_nat (length x.2) < 4294967288.

Lemma enc_tag_length x : length (enc_tag x) = (8 + length x.2)%nat.
Proof. unfold enc_tag. by rewrite !length_app, !le_bytes_length. Qed.

Lemma tags_text_cons x l : tags_text (x :: l) = enc_tag x ++ tags_text l.
Proof. done. Qed.
Lemma tags_text_snoc l x : tags_text (l ++ [x]) = tags_text l ++ enc_tag x.
Proof. unfold tags_text. rewrite fmap_app, concat_app. cbn. by rewrite app_nil_r. Qed.

Lemma tag_words_spec x : tag_ok x → is_u32 (tag_words x) ∧ 2 <= tag_words x ∧
  4 * tag_words x = 8 + Z.of_nat (length x.2).
Proof.
  intros (_ & Hm & Hs). unfold tag_words, is_u32. set (n := length x.2) in *.
  pose proof (Nat2Z.inj_mod n 4) as Hz. rewrite Hm in Hz. change (Z.of_nat 4) with 4 in Hz. dm_lia.
Qed.

(** The kernel reads back the tags that are there. *)
Lemma read_tags l : ∀ fuel m a, Forall tag_ok l → at_ m a (tags_text l ++ le_bytes 4 0) → (length l < fuel)%nat →
  for_each_tag fuel m a = Some l.
Proof.
  induction l as [|x l IH]; intros fuel m a Hl Ha Hf; (destruct fuel as [|fuel]; [lia|]); cbn [for_each_tag].
  - rewrite (load_u32_at m a 0) by (done || by_eval). done.
  - apply Forall_cons in Hl as [Hx Hl]. destruct (tag_words_spec x Hx) as (Hu & H2 & H4).
    rewrite tags_text_cons, <-app_assoc, at_app in Ha. destruct Ha as [Hh Ha]. rewrite enc_tag_length in Ha.
    unfold enc_tag in Hh. rewrite !at_app, !le_bytes_length in Hh. destruct Hh as (Hs & Ht & Hb).
    rewrite (load_u32_at m a (tag_words x)) by done. cbn [mbind option_bind].
    destruct (Z.eqb_spec (tag_words x) 0); [lia|]. rewrite (load_u32_at m (a + 4) x.1) by (done || apply Hx).
    cbn [mbind option_bind]. replace (Z.to_nat (4 * tag_words x - 8)) with (length x.2) by lia.
    replace (a + Z.of_nat 4 + Z.of_nat 4) with (a + 8) in Hb by lia. rewrite load_bytes_at by done. cbn [mbind option_bind].
    rewrite (IH fuel m (a + 4 * tag_words x)); [by destruct x|done| |cbn in Hf; lia].
    by replace (a + 4 * tag_words x) with (a + Z.of_nat (8 + length x.2)) by lia.
Qed.

(** ** One tag *)

Section tags.
Context {D : Type} `{MmcDev D}.
Implicit Types (s : boot D).

Definition set_kmem (m : mem) s : boot D := mkBoot (k_fb s) m (k_params s).
Definition set_kparams (p : Z) s : boot D := mkBoot (k_fb s) (k_mem s) p.

Record tag_added s s' (x : tag) : Prop := mkTagAdded {
  ta_at : at_ (k_mem s') (k_params s) (enc_tag x);
  ta_params : k_params s' = k_params s + Z.of_nat (length (enc_tag x));
  ta_frame a : a < k_params s ∨ k_params s + Z.of_nat (length (enc_tag x)) <= a → k_mem s' !! a = k_mem s !! a;
  ta_room a n : mapped (k_mem s) a n → mapped (k_mem s') a n;
  ta_fb : k_fb s' = k_fb s;
}.

Lemma wp_put_bytes off l s (Q : boot D → unit → Prop) :
  mapped (k_mem s) (k_params s + off) (Z.of_nat (length l)) → bytes l →
  Q (set_kmem (put (k_mem s) (k_params s + off) l) s) tt → wp (put_bytes off l) s Q.
Proof.
  intros Hm Hb HQ. unfold put_bytes, k_store. repeat wp_step.
  eapply wp_lift; [by apply store_bytes_put|]. exact HQ.
Qed.

Lemma wp_put_u32 off v s (Q : boot D → unit → Prop) :
  mapped (k_mem s) (k_params s + off) 4 →
  Q (set_kmem (put (k_mem s) (k_params s + off) (le_bytes 4 (u32 v))) s) tt → wp (put_u32 off v) s Q.
Proof. intros Hm HQ. apply wp_put_bytes; [by rewrite le_bytes_length|apply le_bytes_bytes|done]. Qed.

Lemma wp_tag_next size s (Q : boot D → unit → Prop) :
  is_u32 size → at_ (k_mem s) (k_params s) (le_bytes 4 size) →
  Q (set_kparams (k_params s + 4 * size) s) tt → wp tag_next s Q.
Proof.
  intros Hs Ha HQ. unfold tag_next, k_load. repeat wp_step.
  eapply wp_lift; [by apply load_u32_at|]. exact HQ.
Qed.
End tags.

(** Lengths, with those the context knows. *)
Ltac lens :=
  rewrite ?length_app, ?le_bytes_length; cbn [length];
  repeat match goal with H : length ?x = _ |- context [length ?x] => rewrite H end.
(** Part of the room for the next tag. *)
Ltac room Hroom :=
  cbn [k_mem k_params k_fb set_kmem set_kparams length]; lens; repeat apply put_mapped;
  eapply mapped_sub; [exact Hroom|lia|cbn; lia].
(** What was written last at a place is still there. *)
Ltac at_written :=
  first [ apply at_put_at; lia | rewrite at_put_other by (lens; lia); at_written ].
(** The end of a tag function: [params] moves on, and the tag is there. *)
Ltac tag_done HQ sz :=
  apply (wp_tag_next sz);
  [ unfold is_u32; lia
  | cbn [k_mem k_params k_fb set_kmem set_kparams]; at_written
  | apply HQ; split; rewrite ?enc_tag_length; cbn [k_mem k_params k_fb set_kmem set_kparams snd];
    [ unfold enc_tag, tag_words; cbn [fst snd]; rewrite ?at_app; lens; repeat (split; [at_written|]); at_written
    | lens; lia
    | lens; intros adr Hadr; rewrite !put_lookup_ne by (lens; lia); done
    | intros adr k Hadr; by repeat apply put_mapped
    | done ] ].

Section setup.
Context {D : Type} `{MmcDev D}.
Implicit Types (s : boot D) (Q : boot D → unit → Prop).

Lemma wp_set_hdr t size n s Q :
  mapped (k_mem s) (k_params s) 8 → u32 t = t → u32 size = n →
  Q (set_kmem (put (put (k_mem s) (k_params s + 4) (le_bytes 4 t)) (k_params s + 0) (le_bytes 4 n)) s) tt →
  wp (set_hdr t size) s Q.
Proof.
  intros Hr Ht <- HQ. unfold set_hdr. apply wp_bind, wp_put_u32; [room Hr|]. apply wp_put_u32; [room Hr|].
  cbn [k_mem k_params k_fb set_kmem]. by rewrite Ht.
Qed.

Lemma wp_revision bd s Q : mapped (k_mem s) (k_params s) 12 →
  (∀ s', tag_added s s' (ATAG_REVISION, le_bytes 4 (u32 (bi_board_revision bd))) → Q s' tt) →
  wp (setup_revision_tag bd) s Q.
Proof.
  intros Hr HQ. unfold setup_revision_tag. apply wp_bind, (wp_set_hdr _ _ 3); [eapply mapped_le; [exact Hr|lia]|done|done|].
  apply wp_bind, wp_put_u32; [room Hr|]. tag_done HQ 3.
Qed.

Lemma wp_core bd s Q : mapped (k_mem s) (bi_boot_params bd) 20 →
  (∀ s', tag_added (set_kparams (bi_boot_params bd) s) s' (ATAG_CORE, replicate 12 0) → Q s' tt) →
  wp (setup_start_tag bd) s Q.
Proof.
  intros Hr HQ. unfold setup_start_tag. repeat wp_step. fold (set_kparams (bi_boot_params bd) s).
  apply wp_bind, (wp_set_hdr _ _ 5); [eapply mapped_le; [exact Hr|lia]|done|done|].
  do 3 (apply wp_bind, wp_put_u32; [room Hr|]).
  change (replicate 12 0) with (le_bytes 4 (u32 0) ++ le_bytes 4 (u32 0) ++ le_bytes 4 (u32 0)) in HQ.
  tag_done HQ 5.
Qed.

Lemma wp_memory bank s Q : mapped (k_mem s) (k_params s) 16 →
  (∀ s', tag_added s s' (ATAG_MEM, le_bytes 4 (u32 bank.2) ++ le_bytes 4 (u32 bank.1)) → Q s' tt) →
  wp (memory_tag bank tt) s Q.
Proof.
  intros Hr HQ. unfold memory_tag. apply wp_bind, (wp_set_hdr _ _ 4); [eapply mapped_le; [exact Hr|lia]|done|done|].
  do 2 (apply wp_bind, wp_put_u32; [room Hr|]). tag_done HQ 4.
Qed.

Lemma wp_memory_tags bd bank banks s Q : bi_dram bd = bank :: banks → mapped (k_mem s) (k_params s) 16 →
  (∀ s', tag_added s s' (ATAG_MEM, le_bytes 4 (u32 bank.2) ++ le_bytes 4 (u32 bank.1)) → Q s' tt) →
  wp (setup_memory_tags bd) s Q.
Proof.
  intros Hd Hr HQ. unfold setup_memory_tags. apply wp_bind. rewrite Hd.
  eapply wp_lift; [apply slice_Some; cbn [length]; unfold CONFIG_NR_DRAM_BANKS; lia|]. cbn [mfor].
  apply wp_bind, wp_memory; [done|]. intros s' Hs'. by apply wp_ret, HQ.
Qed.

Lemma wp_initrd a b s Q : mapped (k_mem s) (k_params s) 16 →
  (∀ s', tag_added s s' (ATAG_INITRD2, le_bytes 4 (u32 a) ++ le_bytes 4 (u32 (b - a))) → Q s' tt) →
  wp (setup_initrd_tag a b) s Q.
Proof.
  intros Hr HQ. unfold setup_initrd_tag. apply wp_bind, (wp_set_hdr _ _ 4); [eapply mapped_le; [exact Hr|lia]|done|done|].
  do 2 (apply wp_bind, wp_put_u32; [room Hr|]). tag_done HQ 4.
Qed.

Lemma wp_id16 t id s Q : mapped (k_mem s) (k_params s) 24 → u32 t = t → length id = 17%nat → bytes id →
  (∀ s', tag_added s s' (t, take 16 id) → Q s' tt) →
  wp (_ ← set_hdr t (tag_size sizeof_tag_id16); x ← lift (slice id 0 16); _ ← put_bytes 8 x; tag_next) s Q.
Proof.
  intros Hr Ht Hl Hb HQ. apply wp_bind, (wp_set_hdr _ _ 6); [eapply mapped_le; [exact Hr|lia]|done|done|].
  apply wp_bind. eapply wp_lift; [apply slice_Some; lia|]. change (drop (Z.to_nat 0) id) with id. change (Z.to_nat 16) with 16%nat.
  assert (length (take 16 id) = 16%nat) as Hl16 by (rewrite length_take; lia).
  apply wp_bind, wp_put_bytes; [room Hr|by apply bytes_take|].
  tag_done HQ 6.
Qed.
End setup.

(** ** The board variables *)

Section vars.
Context {D : Type} `{MmcLaws D} (Hrel : reliable D).
Implicit Types (s : boot D) (v : idme D).

Definition vars s : idme D := b_idme (f_board (k_fb s)).
Definition set_vars (v : idme D) s : boot D :=
  mkBoot (set_board (mkBoard v (b_table (f_board (k_fb s)))) (k_fb s)) (k_mem s) (k_params s).

Lemma wp_on_vars {A} (f : ST (idme D) A) s (Q : boot D → A → Prop) :
  wp f (vars s) (λ v a, Q (set_vars v s) a) → wp (on_vars f) s Q.
Proof.
  unfold wp, on_vars, on_fb, on_board, on_idme, vars. destruct (f (b_idme (f_board (k_fb s)))) as [[v a]|]; done.
Qed.

(** The variables as they were at the start, and the buffers in shape. *)
Record vars_ok v0 v : Prop := mkVarsOk {
  vo_parts : same_parts v0 v;
  vo_sel : sel v = 0;
  vo_gblock : length (gblock_buff v) = 512%nat;
  vo_id : length (board_id v) = 17%nat;
  vo_serial : length (board_serial v) = 17%nat;
}.

Definition boot_var v (i : nat) : list Z := match nvram_info !! i with Some nv => var_of v nv | None => [] end.

Lemma boot_var_same v0 v i : vars_ok v0 v → boot_var v i = boot_var v0 i.
Proof.
  intros Hv. unfold boot_var. destruct (nvram_info !! i) as [nv|]; [|done].
  unfold var_of. by rewrite (vo_parts _ _ Hv).
Qed.

Lemma boot_var_length v i nv : nvram_info !! i = Some nv → IdmeSpec.fits nv → length (boot_var v i) = Z.to_nat (size nv).
Proof.
  intros Hi Hf. destruct (table_sizes i nv Hi) as [Hs Ho]. unfold boot_var, IdmeSpec.fits in *. rewrite Hi.
  unfold var_of, part. rewrite length_take, length_drop, contents_size. lia.
Qed.

(** Reading a variable into a buffer that is long enough. *)
Lemma wp_get_var i nv n v0 v (Q : idme D → Z * list Z → Prop) :
  nvram_info !! i = Some nv → IdmeSpec.fits nv → size nv < n → vars_ok v0 v →
  (∀ v', vars_ok v0 v' → Q v' (0, boot_var v0 i ++ 0 :: replicate (Z.to_nat (n - size nv - 1)) 0)) →
  wp (idme_get_var (name nv) (replicate (Z.to_nat n) 0) n) v Q.
Proof.
  intros Hi Hf Hn Hv HQ. destruct (table_sizes i nv Hi) as [Hs Ho].
  eapply wp_mono; [apply (get_spec Hrel); [apply Hv|by eapply find_table|done|done|lia|rewrite length_replicate; lia]|].
  cbn beta. intros v' r (-> & Hp & Hsel & Hg & Hid & Hser).
  assert (vars_ok v0 v') as Hv'.
  { destruct Hv as [H1 H2 H3 H4 H5]. split; [intros p k; by rewrite Hp|done|done|by rewrite Hid|by rewrite Hser]. }
  specialize (HQ v' Hv').
  assert (var_of v nv = boot_var v0 i) as ->.
  { rewrite <-(boot_var_same v0 v i Hv). unfold boot_var. by rewrite Hi. }
  rewrite drop_replicate. replace (Z.to_nat n - Z.to_nat (size nv + 1))%nat with (Z.to_nat (n - size nv - 1)) by lia. done.
Qed.

Lemma memset_all l n : Z.of_nat (length l) = n → c_memset l 0 0 n = Some (replicate (Z.to_nat n) 0).
Proof.
  intros Hl. unfold c_memset. rewrite blit_Some by (rewrite ?length_replicate; lia).
  change (take (Z.to_nat 0) l) with (@nil Z). cbn [app]. rewrite drop_ge by (rewrite length_replicate; lia).
  by rewrite app_nil_r.
Qed.

Lemma id_text v0 v i : vars_ok v0 v → length (boot_var v0 i) = 16%nat →
  is_valid_board_info (boot_var v0 i ++ [0]) 17 = Some 1 ∧ upd (boot_var v0 i ++ [0]) 16 0 = Some (boot_var v0 i ++ [0]).
Proof.
  intros Hv Hl. split.
  - apply board_info_never_rejected; [set_solver|]. rewrite length_app, Hl. done.
  - rewrite upd_Some by (rewrite length_app, Hl; done). f_equal. change (Z.to_nat 16) with 16%nat. rewrite <-Hl.
    by rewrite insert_app_r_alt, Nat.sub_diag by lia.
Qed.

(** The two functions that copy an identification into a static array. *)
Ltac board_text Hv Hlen i nv HQ :=
  repeat wp_step; rewrite Hlen; change (Z.of_nat 17) with 17;
  eapply wp_lift; [apply memset_all; by rewrite Hlen|]; apply wp_bind;
  apply (wp_get_var i nv 17 _ _ _ eq_refl ltac:(by_eval) eq_refl Hv); intros v' Hv';
  change (replicate (Z.to_nat _) 0) with (@nil Z); cbn [Z.eqb negb]; repeat wp_step;
  let E := fresh "E" in
  assert (∀ w : idme _, length (boot_var w i) = 16%nat) as E
    by (intros w; apply (boot_var_length w i nv); [done|by_eval]);
  let E1 := fresh "E" in let E2 := fresh "E" in
  destruct (id_text _ v' i Hv' (E _)) as [E1 E2]; rewrite E1; repeat wp_step;
  change (1 =? 0) with false; cbv iota; repeat wp_step; rewrite E2; repeat wp_step;
  apply HQ; destruct Hv'; split;
  first [done | cbn [board_id board_serial set_board_id set_board_serial]; rewrite length_app, E; done].

Lemma wp_board_id v0 v (Q : idme D → list Z → Prop) : vars_ok v0 v →
  (∀ v', vars_ok v0 v' → Q v' (boot_var v0 1 ++ [0])) → wp idme_get_board_id v Q.
Proof. intros Hv HQ. unfold idme_get_board_id. board_text Hv (vo_id _ _ Hv) 1%nat (mkNvram (lit "boardid") 4 16) HQ. Qed.

Lemma wp_board_serial v0 v (Q : idme D → list Z → Prop) : vars_ok v0 v →
  (∀ v', vars_ok v0 v' → Q v' (boot_var v0 2 ++ [0])) → wp idme_get_board_serial v Q.
Proof. intros Hv HQ. unfold idme_get_board_serial. board_text Hv (vo_serial _ _ Hv) 2%nat (mkNvram (lit "serial") 20 16) HQ. Qed.

(** ** The tags with variables *)

Context (v0 : idme D) (Hbytes : ∀ p n, bytes (part v0 p n)).

Lemma boot_var_bytes i : bytes (boot_var v0 i).
Proof using Hbytes.
  unfold boot_var. destruct (nvram_info !! i); [|constructor]. unfold var_of. apply bytes_take, bytes_drop, Hbytes.
Qed.

Lemma id_length i : length (boot_var v0 i) = 16%nat → length (boot_var v0 i ++ [0]) = 17%nat.
Proof. intros Hl. by rewrite length_app, Hl. Qed.

Lemma wp_id_tag f i t s (Q : boot D → unit → Prop) :
  (∀ v (P : idme D → list Z → Prop), vars_ok v0 v → (∀ v', vars_ok v0 v' → P v' (boot_var v0 i ++ [0])) → wp f v P) →
  length (boot_var v0 i) = 16%nat → u32 t = t →
  vars_ok v0 (vars s) → mapped (k_mem s) (k_params s) 24 →
  (∀ v s', vars_ok v0 v → tag_added (set_vars v s) s' (t, boot_var v0 i) → Q s' tt) →
  wp (id ← on_vars f; _ ← set_hdr t (tag_size sizeof_tag_id16); x ← lift (slice id 0 16); _ ← put_bytes 8 x; tag_next) s Q.
Proof using Hbytes.
  intros Hf Hl Ht Hv Hr HQ. apply wp_bind, wp_on_vars, Hf; [done|]. intros v Hv'.
  apply wp_id16; [done|done|by apply id_length|apply bytes_app; split; [apply boot_var_bytes|by_eval]|].
  intros s' Hs'. apply (HQ v); [done|]. by rewrite <-Hl, take_app_length in Hs'.
Qed.

Lemma wp_revision16 s (Q : boot D → unit → Prop) : vars_ok v0 (vars s) → mapped (k_mem s) (k_params s) 24 →
  (∀ v s', vars_ok v0 v → tag_added (set_vars v s) s' (ATAG_REVISION16, boot_var v0 1) → Q s' tt) →
  wp setup_revision16_tag s Q.
Proof using Hrel Hbytes.
  intros Hv Hr HQ. eapply wp_id_tag; [|by apply (boot_var_length v0 1 (mkNvram (lit "boardid") 4 16)); [|by_eval]|done..].
  intros v P Hv1 HP. by eapply wp_board_id.
Qed.

Lemma wp_serial16 s (Q : boot D → unit → Prop) : vars_ok v0 (vars s) → mapped (k_mem s) (k_params s) 24 →
  (∀ v s', vars_ok v0 v → tag_added (set_vars v s) s' (ATAG_SERIAL16, boot_var v0 2) → Q s' tt) →
  wp setup_serial16_tag s Q.
Proof using Hrel Hbytes.
  intros Hv Hr HQ. eapply wp_id_tag; [|by apply (boot_var_length v0 2 (mkNvram (lit "serial") 20 16)); [|by_eval]|done..].
  intros v P Hv1 HP. by eapply wp_board_serial.
Qed.

Lemma wp_get_local (nm : string) n i nv s (Q : boot D → Z * list Z → Prop) :
  nvram_info !! i = Some nv → name nv = lit nm → IdmeSpec.fits nv → size nv = n → vars_ok v0 (vars s) →
  (∀ v, vars_ok v0 v → Q (set_vars v s) (0, boot_var v0 i ++ [0])) →
  wp (get_local nm n) s Q.
Proof using Hrel.
  intros Hi Hnm Hf Hn Hv HQ. unfold get_local. rewrite <-Hnm. apply wp_on_vars.
  apply (wp_get_var i nv (n + 1) v0); [done|done|lia|done|]. intros v' Hv'.
  replace (Z.to_nat (n + 1 - size nv - 1)) with 0%nat by lia. by apply HQ.
Qed.

(** A variable read into a local array, as the tag functions use it. *)
Ltac read_local i nv v Hv l Hl :=
  apply wp_bind, (wp_get_local _ _ i nv); [done|done|by_eval|done|done|]; intros v Hv;
  change (negb (0 =? 0)) with false; cbv iota;
  pose proof (boot_var_length v0 i nv eq_refl ltac:(by_eval)) as Hl;
  let B := fresh l "_bytes" in pose proof (boot_var_bytes i) as B; set (l := boot_var v0 i) in *;
  let n := eval vm_compute in (Z.to_nat (size nv)) in change (length l = n) in Hl.
(** The copy of such an array into the tag. *)
Ltac copy_local Hl Hr :=
  apply wp_bind; eapply wp_lift; [apply slice_Some; rewrite ?length_app, ?Hl; cbn; lia|];
  change (drop (Z.to_nat 0) ?l) with l; rewrite take_app_length' by (by rewrite Hl);
  apply wp_bind, wp_put_bytes; [room Hr|done|].

Lemma wp_macaddr s (Q : boot D → unit → Prop) : vars_ok v0 (vars s) → mapped (k_mem s) (k_params s) 72 →
  (∀ v s', vars_ok v0 v →
     tag_added (set_vars v s) s' (ATAG_MACADDR, boot_var v0 4 ++ boot_var v0 3 ++ boot_var v0 5) → Q s' tt) →
  wp setup_macaddr_tag s Q.
Proof using Hrel Hbytes.
  intros Hv Hr HQ. unfold setup_macaddr_tag.
  read_local 3%nat (mkNvram (lit "mac") 36 16) v1 Hv1 mac Hmac.
  read_local 5%nat (mkNvram (lit "bt") 84 16) v2 Hv2 bt Hbt.
  read_local 4%nat (mkNvram (lit "sec") 52 32) v3 Hv3 sec Hsec.
  change (set_vars v3 (set_vars v2 (set_vars v1 s))) with (set_vars v3 s).
  assert (∀ s', tag_added (set_vars v3 s) s' (ATAG_MACADDR, sec ++ mac ++ bt) → Q s' tt) as HQ' by eauto. clear HQ.
  apply wp_bind, (wp_set_hdr _ _ 18); [eapply mapped_le; [exact Hr|lia]|done|done|].
  copy_local Hsec Hr. copy_local Hmac Hr. copy_local Hbt Hr. tag_done HQ' 18.
Qed.

Lemma wp_bootmode s (Q : boot D → unit → Prop) : vars_ok v0 (vars s) → mapped (k_mem s) (k_params s) 40 →
  (∀ v s', vars_ok v0 v →
     tag_added (set_vars v s) s' (ATAG_BOOTMODE, boot_var v0 8 ++ boot_var v0 9) → Q s' tt) →
  wp setup_bootmode_tag s Q.
Proof using Hrel Hbytes.
  intros Hv Hr HQ. unfold setup_bootmode_tag.
  read_local 8%nat (mkNvram (lit "bootmode") 4096 16) v1 Hv1 bm Hbm.
  read_local 9%nat (mkNvram (lit "postmode") 4112 16) v2 Hv2 pm Hpm.
  change (set_vars v2 (set_vars v1 s)) with (set_vars v2 s).
  assert (∀ s', tag_added (set_vars v2 s) s' (ATAG_BOOTMODE, bm ++ pm) → Q s' tt) as HQ' by eauto. clear HQ.
  apply wp_bind, (wp_set_hdr _ _ 10); [eapply mapped_le; [exact Hr|lia]|done|done|].
  copy_local Hbm Hr. copy_local Hpm Hr. tag_done HQ' 10.
Qed.

Lemma wp_gyrocal s (Q : boot D → unit → Prop) : vars_ok v0 (vars s) → mapped (k_mem s) (k_params s) 44 →
  (∀ v s', vars_ok v0 v → tag_added (set_vars v s) s' (ATAG_GYROCAL, boot_var v0 10) → Q s' tt) →
  wp setup_gyrocal_tag s Q.
Proof using Hrel Hbytes.
  intros Hv Hr HQ. unfold setup_gyrocal_tag.
  read_local 10%nat (mkNvram (lit "gyrocal") 100 36) v1 Hv1 gc Hgc.
  assert (∀ s', tag_added (set_vars v1 s) s' (ATAG_GYROCAL, gc) → Q s' tt) as HQ' by eauto. clear HQ.
  apply wp_bind, (wp_set_hdr _ _ 11); [eapply mapped_le; [exact Hr|lia]|done|done|].
  copy_local Hgc Hr. tag_done HQ' 11.
Qed.
End vars.

(** ** The command line *)

Fixpoint strip (l : list Z) : list Z := match l with [] => [] | c :: l' => if c =? 32 then strip l' else l end.

Lemma strip_suffix l : ∃ k, strip l = drop k l ∧ (k <= length l)%nat.
Proof.
  induction l as [|c l (k & E & Hk)]; [by exists 0%nat|]. cbn [strip]. destruct (c =? 32).
  - exists (S k). split; [done|cbn; lia].
  - by exists 0%nat; split; [|cbn; lia].
Qed.

Lemma blank_loop m l : ∀ p fuel, cstr m p l → (length l < fuel)%nat →
  ∃ q, loop fuel (blank_step m) p = Some q ∧ cstr m q (strip l) ∧ p <= q ∧
    q + Z.of_nat (length (strip l)) = p + Z.of_nat (length l).
Proof.
  induction l as [|c l IH]; intros p fuel Hl Hf; (destruct fuel as [|fuel]; [lia|]); cbn [loop strip];
    unfold blank_step at 1.
  - pose proof (cstr_end m p [] Hl) as E. rewrite Z.add_0_r in E. rewrite E. cbn [mbind option_bind].
    change (0 =? 32) with false. cbv iota. exists p. split_and!; [done|done|lia|done].
  - destruct (cstr_char m p (c :: l) 0 c Hl eq_refl) as (E & _). rewrite Z.add_0_r in E. rewrite E. cbn [mbind option_bind].
    destruct (Z.eqb_spec c 32) as [->|].
    + destruct (IH (p + 1) fuel) as (q & Eq & Hq & Hpq & Hlen); [apply (cstr_drop m p (32 :: l) 1); [done|cbn; lia]|cbn in Hf; lia|].
      exists q. split_and!; [done|done|lia|]. cbn [length]. lia.
    + exists p. split_and!; [done|done|lia|done].
Qed.

Lemma mapped_at m (n : nat) : ∀ a, mapped m a (Z.of_nat n) → ∃ l, length l = n ∧ at_ m a l.
Proof.
  induction n as [|n IH]; intros a Hm; [by exists []|].
  destruct (Hm 0) as [x Hx]; [lia|]. rewrite Z.add_0_r in Hx.
  destruct (IH (a + 1)) as (l & Hl & Ha).
  { replace (Z.of_nat n) with (Z.of_nat (S n) - 1) by lia. apply mapped_shift; [done|lia]. }
  exists (x :: l). split; [cbn; lia|done].
Qed.

Lemma cstr_put m a l b t : cstr m b t → (b + Z.of_nat (length t) + 1 <= a ∨ a + Z.of_nat (length l) <= b) →
  cstr (put m a l) b t.
Proof.
  intros (Ha & Hz & Hb) Hd. split; [|done]. apply at_put_other; [|done]. rewrite length_app. cbn [length]. lia.
Qed.

(** The words of the tag for a command line of [n] characters. *)
Definition cmdline_words (n : Z) : Z := (13 + n) / 4.

Section commandline.
Context {D : Type} `{MmcDev D}.

Lemma wp_commandline p t s (Q : boot D → unit → Prop) :
  cstr (k_mem s) p t → mapped (k_mem s) (k_params s) (4 * cmdline_words (Z.of_nat (length t))) →
  Z.of_nat (length t) < 4294967000 →
  (p + Z.of_nat (length t) + 1 <= k_params s ∨ k_params s + 4 * cmdline_words (Z.of_nat (length t)) <= p) →
  (strip t = [] → Q s tt) →
  (∀ s' pad, strip t ≠ [] → (1 <= length pad)%nat → tag_ok (ATAG_CMDLINE, strip t ++ 0 :: pad) →
     Z.of_nat (length (strip t ++ 0 :: pad)) <= Z.of_nat (length t) + 5 →
     tag_added s s' (ATAG_CMDLINE, strip t ++ 0 :: pad) → Q s' tt) →
  wp (setup_commandline_tag p) s Q.
Proof.
  intros Ht Hr Hn Hd HQ0 HQ1. unfold setup_commandline_tag. repeat wp_step.
  destruct (blank_loop (k_mem s) t p (fuel_of (k_mem s)) Ht) as (q & Eq & Hq & Hpq & Hlen);
    [pose proof (cstr_size _ _ _ Ht); unfold fuel_of; lia|].
  destruct (strip_suffix t) as (k & Ek & Hk). assert (length (strip t) <= length t)%nat as Hle by (rewrite Ek, length_drop; lia).
  eapply wp_lift; [exact Eq|]. apply wp_bind. remember (strip t) as u eqn:Eu.
  destruct u as [|c u].
  { eapply wp_lift; [pose proof (cstr_end _ _ _ Hq) as E; cbn [length] in E; by rewrite Z.add_0_r in E|]. by apply wp_ret, HQ0. }
  destruct (cstr_char _ _ _ 0 c Hq eq_refl) as (Ec & Hc & _). rewrite Z.add_0_r in Ec.
  eapply wp_lift; [exact Ec|]. destruct (Z.eqb_spec c 0); [done|].
  assert (c :: u ≠ []) as Hne by done. remember (c :: u) as v eqn:Ev. clear Ec Ev.
  set (L := Z.of_nat (length v)) in *. set (W := Z.shiftr (sizeof_tag_header + L + 1 + 4) 2).
  assert (W = cmdline_words L) as EW.
  { unfold W, cmdline_words, sizeof_tag_header. rewrite Z.shiftr_div_pow2 by lia. f_equal. lia. }
  assert (4 * W <= 13 + L < 4 * W + 4 ∧ W <= cmdline_words (Z.of_nat (length t))) as [HW HWt].
  { rewrite EW. unfold cmdline_words. dm_lia. }
  assert (mapped (k_mem s) (k_params s) (4 * W)) as Hr' by (eapply mapped_le; [exact Hr|lia]).
  assert (is_u32 W) as HuW by (unfold is_u32; lia).
  assert (u32 W = W) as EuW by by apply u32_id.
  apply wp_bind, wp_put_u32; [room Hr'|]. repeat wp_step.
  eapply wp_lift; [apply strlen_spec; cbn [k_mem set_kmem]; apply cstr_put; [exact Hq|lens; lia]|].
  fold L. fold W. apply wp_bind, wp_put_u32; [room Hr'|]. repeat wp_step.
  eapply wp_lift.
  { apply strcpy_correct; cbn [k_mem k_params set_kmem].
    - apply cstr_put; [apply cstr_put; [exact Hq|lens; lia]|lens; lia].
    - fold L. room Hr'.
    - fold L. lia. }
  cbv beta iota. apply wp_bind. unfold set_mem. apply wp_modify. cbn [k_fb k_mem k_params set_kmem]. rewrite EuW.
  destruct (mapped_at (k_mem s) (Z.to_nat (4 * W - 9 - L)) (k_params s + 9 + L)) as (pad & Hpad & Hat).
  { rewrite Z2Nat.id by lia. rewrite <-Z.add_assoc. eapply mapped_sub; [exact Hr'|lia|lia]. }
  assert (Z.of_nat (length (v ++ 0 :: pad)) = 4 * W - 8) as Hpay by (rewrite length_app; cbn [length]; fold L; lia).
  apply (wp_tag_next W); [done|cbn [k_mem k_params]; at_written|].
  apply (HQ1 _ pad); [done|lia| |lia|].
  - split; [by_eval|]. cbn [snd]. split; [|lia].
    apply (Nat2Z.inj _ 0). rewrite Nat2Z.inj_mod, Hpay. change (Z.of_nat 4) with 4. dm_lia.
  - assert (tag_words (ATAG_CMDLINE, v ++ 0 :: pad) = W) as Ew
      by (unfold tag_words; cbn [snd]; rewrite Hpay; dm_lia).
    split; rewrite ?enc_tag_length; cbn [k_mem k_params k_fb set_kmem set_kparams snd]; [ |lia| | |done].
    + unfold enc_tag. rewrite Ew. cbn [fst snd]. replace (v ++ 0 :: pad) with ((v ++ [0]) ++ pad) by by rewrite <-app_assoc.
      change (u32 ATAG_CMDLINE) with ATAG_CMDLINE.
      rewrite at_app; split; [at_written|]. rewrite at_app; split; [lens; at_written|]. rewrite at_app; split; [lens; at_written|].
      lens. rewrite !at_put_other by (lens; lia).
      match goal with |- at_ _ ?a _ => replace a with (k_params s + 9 + L) by (unfold L; lia) end. exact Hat.
    + intros adr Hadr. rewrite !put_lookup_ne by (lens; fold L; lia). done.
    + intros adr j Hj. by repeat apply put_mapped.
Qed.
End commandline.

(** ** The whole list *)

Definition agree (m m' : mem) (a n : Z) : Prop := ∀ i, a <= i < a + n → m' !! i = m !! i.

Lemma load_bytes_agree m m' n : ∀ a, agree m m' a (Z.of_nat n) → load_bytes m' a n = load_bytes m a n.
Proof.
  induction n as [|n IH]; intros a Ha; [done|]. cbn [load_bytes]. unfold load. rewrite (Ha a) by lia.
  destruct (m !! a); [|done]. cbn [mbind option_bind]. rewrite IH; [done|]. intros i Hi. apply Ha. lia.
Qed.
Lemma load_u32_agree m m' a : agree m m' a 4 → load_u32 m' a = load_u32 m a.
Proof. intros Ha. unfold load_u32. by rewrite (load_bytes_agree m m' 4). Qed.
Lemma at_agree m m' a l : agree m m' a (Z.of_nat (length l)) → at_ m a l → at_ m' a l.
Proof.
  intros Ha. rewrite !at_lookup. intros H i x Hx. rewrite (Ha (a + Z.of_nat i)); [by apply H|].
  apply lookup_lt_Some in Hx. lia.
Qed.
Lemma cstr_agree m m' a t : agree m m' a (Z.of_nat (length t) + 1) → cstr m a t → cstr m' a t.
Proof.
  intros Ha (Hat & Hz). split; [|done]. eapply at_agree; [|done]. rewrite length_app. cbn [length].
  intros i Hi. apply Ha. lia.
Qed.

(** Room for every tag list of the board. *)
Definition TAGS_ROOM : Z := 1024.

Section built.
Context {D : Type} `{MmcDev D}.
Implicit Types (s : boot D).

Record tags_built (m0 : mem) (base : Z) (l : list tag) s : Prop := mkBuilt {
  tb_at : at_ (k_mem s) base (tags_text l);
  tb_params : k_params s = base + Z.of_nat (length (tags_text l));
  tb_frame a : a < base ∨ base + TAGS_ROOM <= a → k_mem s !! a = m0 !! a;
  tb_room : mapped (k_mem s) base TAGS_ROOM;
  tb_ok : Forall tag_ok l;
}.

Lemma built_room m0 base l s n : tags_built m0 base l s → Z.of_nat (length (tags_text l)) + n <= TAGS_ROOM →
  mapped (k_mem s) (k_params s) n.
Proof. intros [] Hn. rewrite tb_params0. eapply mapped_sub; [done|lia|lia]. Qed.

Lemma built_add m0 base l s s1 s' x : tags_built m0 base l s → k_mem s1 = k_mem s → k_params s1 = k_params s →
  tag_added s1 s' x → tag_ok x → Z.of_nat (length (tags_text (l ++ [x]))) <= TAGS_ROOM →
  tags_built m0 base (l ++ [x]) s'.
Proof.
  intros [Hat Hp Hf Hr Hok] Em Ep [Ta Tp Tf Tr _] Hx Hl. rewrite Em, Ep in *. rewrite tags_text_snoc, length_app in *.
  split.
  - rewrite tags_text_snoc, at_app. split; [|by rewrite <-Hp]. eapply at_agree; [|done]. intros i Hi. apply Tf. lia.
  - rewrite tags_text_snoc, length_app. lia.
  - intros a Ha. rewrite Tf by lia. by apply Hf.
  - by apply Tr.
  - apply Forall_app. split; [done|]. by constructor.
Qed.

Lemma built_agree m0 base l s a n : tags_built m0 base l s → (a + n <= base ∨ base + TAGS_ROOM <= a) →
  agree m0 (k_mem s) a n.
Proof. intros Hb Hd i Hi. apply (tb_frame _ _ _ _ Hb). lia. Qed.
End built.

(** What the kernel is told. *)
Definition tag_list {D} `{MmcLaws D} (v0 : idme D) (bd : bd_t) (bank : Z * Z) (cmdline pad : list Z) (raddr rsize : Z)
    : list tag :=
  [(ATAG_CORE, replicate 12 0);
   (ATAG_REVISION, le_bytes 4 (u32 (bi_board_revision bd)));
   (ATAG_REVISION16, boot_var v0 1);
   (ATAG_SERIAL16, boot_var v0 2);
   (ATAG_MACADDR, boot_var v0 4 ++ boot_var v0 3 ++ boot_var v0 5);
   (ATAG_BOOTMODE, boot_var v0 8 ++ boot_var v0 9);
   (ATAG_GYROCAL, boot_var v0 10);
   (ATAG_MEM, le_bytes 4 (u32 bank.2) ++ le_bytes 4 (u32 bank.1))]
  ++ (if decide (strip cmdline = []) then [] else [(ATAG_CMDLINE, strip cmdline ++ 0 :: pad)])
  ++ (if rsize =? 0 then [] else [(ATAG_INITRD2, le_bytes 4 raddr ++ le_bytes 4 rsize)]).

Section linux.
Context {D : Type} `{MmcLaws D} (Hrel : reliable D).
Implicit Types (s : boot D).

(** The header in memory, as far as the kernel's start needs it. *)
Record hdr_at (m : mem) (hdr kaddr raddr rsize : Z) (cmdline : list Z) : Prop := mkHdrAt {
  ha_kaddr : load_u32 m (hdr + hdr_kernel_addr) = Some kaddr;
  ha_raddr : load_u32 m (hdr + hdr_ramdisk_addr) = Some raddr;
  ha_rsize : load_u32 m (hdr + hdr_ramdisk_size) = Some rsize;
  ha_cmdline : cstr m (hdr + hdr_cmdline) cmdline;
  ha_length : Z.of_nat (length cmdline) < 512;
}.

Lemma wp_load a v s (Q : boot D → Z → Prop) : load_u32 (k_mem s) a = Some v → Q s v → wp (k_load a) s Q.
Proof. intros E HQ. unfold k_load. repeat wp_step. by eapply wp_lift. Qed.

Context (v0 : idme D) (Hbytes : ∀ p n, bytes (part v0 p n)).
Context (m0 : mem) (bd : bd_t).
#[local] Abbreviation base := (bi_boot_params bd).

Definition going (l : list tag) s : Prop := tags_built m0 base l s ∧ vars_ok v0 (vars s).

Lemma tags_text_length l : length (tags_text l) = sum_list ((λ x : tag, 8 + length x.2)%nat <$> l).
Proof.
  induction l as [|x l IH]; [done|]. rewrite tags_text_cons, length_app, enc_tag_length, IH. done.
Qed.

Lemma going_room l s n : going l s → Z.of_nat (length (tags_text l)) + n <= TAGS_ROOM → mapped (k_mem s) (k_params s) n.
Proof. intros [Hb _]. by apply (built_room m0 base l s). Qed.

Lemma going_add l s s' x : going l s → tag_added s s' x → tag_ok x →
  Z.of_nat (length (tags_text (l ++ [x]))) <= TAGS_ROOM → going (l ++ [x]) s'.
Proof.
  intros [Hb Hv] Ha Hx Hl. split; [by apply (built_add m0 base l s s)|]. unfold vars. by rewrite (ta_fb _ _ _ Ha).
Qed.

Lemma going_vars l s v s' x : going l s → vars_ok v0 v → tag_added (set_vars v s) s' x → tag_ok x →
  Z.of_nat (length (tags_text (l ++ [x]))) <= TAGS_ROOM → going (l ++ [x]) s'.
Proof.
  intros [Hb _] Hv Ha Hx Hl. split; [by apply (built_add m0 base l s (set_vars v s))|].
  unfold vars. by rewrite (ta_fb _ _ _ Ha).
Qed.

Lemma var_lengths : length (boot_var v0 1) = 16%nat ∧ length (boot_var v0 2) = 16%nat ∧ length (boot_var v0 3) = 16%nat ∧
  length (boot_var v0 4) = 32%nat ∧ length (boot_var v0 5) = 16%nat ∧ length (boot_var v0 8) = 16%nat ∧
  length (boot_var v0 9) = 16%nat ∧ length (boot_var v0 10) = 36%nat.
Proof.
  split_and!; lazymatch goal with |- length (boot_var _ ?i) = _ =>
    let r := eval vm_compute in (nvram_info !! i) in
    lazymatch r with Some ?nv => rewrite (boot_var_length v0 i nv) by (reflexivity || by_eval) end end; reflexivity.
Qed.

(** A tag fits. *)
Ltac tags_fit := rewrite tags_text_length; unfold TAGS_ROOM; unfold sum_list; cbn [app fmap list_fmap sum_list_with snd]; unfold id; lens; rewrite ?length_replicate; lia.
Ltac this_tag_ok := split; [by_eval|cbn [snd]; lens; rewrite ?length_replicate; split; [done|lia]].

(** The tags that are always there. *)
Definition fixed_tags (bank : Z * Z) : list tag := take 8 (tag_list v0 bd bank [] [] 0 0).

Lemma wp_fixed {A} bank banks s (k : ST (boot D) A) (Q : boot D → A → Prop) :
  bi_dram bd = bank :: banks → vars_ok v0 (vars s) → k_mem s = m0 → mapped m0 base TAGS_ROOM →
  (∀ s', going (fixed_tags bank) s' → wp k s' Q) →
  wp (_ ← setup_start_tag bd; _ ← setup_revision_tag bd; _ ← setup_revision16_tag; _ ← setup_serial16_tag;
      _ ← setup_macaddr_tag; _ ← setup_bootmode_tag; _ ← setup_gyrocal_tag; _ ← setup_memory_tags bd; k) s Q.
Proof using Hrel Hbytes.
  intros Hbank Hv Hm Hroom HQ. destruct var_lengths as (L1 & L2 & L3 & L4 & L5 & L8 & L9 & L10).
  assert (going [] (set_kparams base s)) as G0.
  { split; [|done]. split; [done|cbn; lia|intros; by cbn; rewrite Hm|cbn; by rewrite Hm|constructor]. }
  apply wp_bind, wp_core; [rewrite Hm; eapply mapped_le; [done|unfold TAGS_ROOM; lia]|]. intros s1 A1.
  apply (going_add []) in A1 as G1; [|done|this_tag_ok|tags_fit]. clear G0 A1.
  apply wp_bind, wp_revision; [apply (going_room _ _ _ G1); tags_fit|]. intros s2 A2.
  apply (going_add _ _ _ _ G1) in A2 as G2; [|this_tag_ok|tags_fit]. clear G1 A2.
  apply wp_bind, (wp_revision16 Hrel v0 Hbytes); [apply G2|apply (going_room _ _ _ G2); tags_fit|]. intros v s3 Hv3 A3.
  apply (going_vars _ _ _ _ _ G2 Hv3) in A3 as G3; [|this_tag_ok|tags_fit]. clear G2 A3 Hv3.
  apply wp_bind, (wp_serial16 Hrel v0 Hbytes); [apply G3|apply (going_room _ _ _ G3); tags_fit|]. intros v4 s4 Hv4 A4.
  apply (going_vars _ _ _ _ _ G3 Hv4) in A4 as G4; [|this_tag_ok|tags_fit]. clear G3 A4 Hv4.
  apply wp_bind, (wp_macaddr Hrel v0 Hbytes); [apply G4|apply (going_room _ _ _ G4); tags_fit|]. intros v5 s5 Hv5 A5.
  apply (going_vars _ _ _ _ _ G4 Hv5) in A5 as G5; [|this_tag_ok|tags_fit]. clear G4 A5 Hv5.
  apply wp_bind, (wp_bootmode Hrel v0 Hbytes); [apply G5|apply (going_room _ _ _ G5); tags_fit|]. intros v6 s6 Hv6 A6.
  apply (going_vars _ _ _ _ _ G5 Hv6) in A6 as G6; [|this_tag_ok|tags_fit]. clear G5 A6 Hv6.
  apply wp_bind, (wp_gyrocal Hrel v0 Hbytes); [apply G6|apply (going_room _ _ _ G6); tags_fit|]. intros v7 s7 Hv7 A7.
  apply (going_vars _ _ _ _ _ G6 Hv7) in A7 as G7; [|this_tag_ok|tags_fit]. clear G6 A7 Hv7.
  apply wp_bind. eapply wp_memory_tags; [exact Hbank|apply (going_room _ _ _ G7); tags_fit|]. intros s8 A8.
  apply (going_add _ _ _ _ G7) in A8 as G8; [|this_tag_ok|tags_fit]. by apply HQ.
Qed.

Lemma fixed_length bank : Z.of_nat (length (tags_text (fixed_tags bank))) = 252.
Proof.
  destruct var_lengths as (L1 & L2 & L3 & L4 & L5 & L8 & L9 & L10). rewrite tags_text_length.
  cbn [app fmap list_fmap take fixed_tags tag_list snd]. unfold sum_list. cbn [sum_list_with]. unfold id. by lens.
Qed.

(** The end mark: all the tags are there to be read. *)
Lemma wp_end l s (Q : boot D → unit → Prop) :
  going l s → Z.of_nat (length (tags_text l)) + 8 <= TAGS_ROOM →
  (∀ s', (∀ fuel, (length l < fuel)%nat → for_each_tag fuel (k_mem s') base = Some l) →
     (∀ a n, (a + n <= base ∨ base + TAGS_ROOM <= a) → agree m0 (k_mem s') a n) → vars_ok v0 (vars s') → Q s' tt) →
  wp setup_end_tag s Q.
Proof.
  intros G Hl HQ. pose proof (going_room l s 8 G Hl) as Hr. destruct G as [[Hat Hp Hf Hm Hok] Hv].
  apply (wp_set_hdr _ _ 0); [done|done|done|]. apply HQ.
  - intros fuel Hfuel. apply read_tags; [done| |done]. cbn [k_mem set_kmem]. rewrite at_app, <-Hp. split.
    + rewrite !at_put_other by (lens; lia). done.
    + at_written.
  - intros a n Ha i Hi. cbn [k_mem set_kmem]. rewrite !put_lookup_ne by (lens; lia). apply Hf. lia.
  - done.
Qed.

(** The command line's tag, when there is one. *)
Lemma wp_going_cmdline {A} p t l s (k : ST (boot D) A) (Q : boot D → A → Prop) :
  going l s → cstr (k_mem s) p t → Z.of_nat (length t) < 512 → Z.of_nat (length (tags_text l)) = 252 →
  (p + 512 <= base ∨ base + TAGS_ROOM <= p) →
  (∀ pad s', going (l ++ (if decide (strip t = []) then [] else [(ATAG_CMDLINE, strip t ++ 0 :: pad)])) s' →
     Z.of_nat (length (tags_text (l ++ (if decide (strip t = []) then [] else [(ATAG_CMDLINE, strip t ++ 0 :: pad)])))) <= 800 →
     wp k s' Q) →
  wp (_ ← setup_commandline_tag p; k) s Q.
Proof.
  intros G Ht Hl Htl Hd HQ. apply wp_bind. pose proof (tb_params _ _ _ _ (proj1 G)) as Hp.
  assert (4 * cmdline_words (Z.of_nat (length t)) <= 13 + Z.of_nat (length t)) as Hw by (unfold cmdline_words; dm_lia).
  apply (wp_commandline p t); [done| |lia|unfold TAGS_ROOM in Hd; lia| |].
  - apply (going_room l); [done|]. unfold TAGS_ROOM. lia.
  - intros E. apply (HQ []); rewrite decide_True by done; rewrite app_nil_r; [done|lia].
  - intros s' pad Hne Hpad Hok Hlen Ha. assert (Z.of_nat (length (tags_text (l ++ [(ATAG_CMDLINE, strip t ++ 0 :: pad)]))) <= 800) as H800.
    { rewrite tags_text_snoc, length_app, enc_tag_length. cbn [snd]. lia. }
    apply (HQ pad); rewrite decide_False by done; [|done]. apply (going_add l s); try done. by etrans; [exact H800|].
Qed.

Lemma wp_going_initrd {A} a n l s (k : ST (boot D) A) (Q : boot D → A → Prop) :
  going l s → Z.of_nat (length (tags_text l)) <= 800 → is_u32 a → is_u32 n →
  (∀ s', going (l ++ (if n =? 0 then [] else [(ATAG_INITRD2, le_bytes 4 a ++ le_bytes 4 n)])) s' →
     Z.of_nat (length (tags_text (l ++ (if n =? 0 then [] else [(ATAG_INITRD2, le_bytes 4 a ++ le_bytes 4 n)])))) + 8 <= TAGS_ROOM →
     wp k s' Q) →
  wp (_ ← (if negb (n =? 0) then setup_initrd_tag a (u32 (a + n)) else mret tt); k) s Q.
Proof.
  intros G Hl Ha Hn HQ. apply wp_bind. destruct (n =? 0); cbn [negb].
  - apply wp_ret, HQ; rewrite app_nil_r; [done|unfold TAGS_ROOM; lia].
  - apply wp_initrd; [apply (going_room l); [done|unfold TAGS_ROOM; lia]|]. intros s' Ha1.
    assert (u32 (u32 (a + n) - a) = n) as En by (unfold is_u32 in *; int_lia). rewrite En, (u32_id a Ha) in Ha1.
    assert (Z.of_nat (length (tags_text (l ++ [(ATAG_INITRD2, le_bytes 4 a ++ le_bytes 4 n)]))) <= 816) as H816.
    { rewrite tags_text_snoc, length_app, enc_tag_length. cbn [snd]. lens. lia. }
    apply HQ; [|unfold TAGS_ROOM; clear -H816; unfold tag in *; lia].
    apply (going_add l s); [done|done| |by etrans; [exact H816|]].
    split; [by_eval|]. cbn [snd]. lens. by split; [|lia].
Qed.

(** Starting the kernel.  The list of tags that is written at the boot
    parameters is the list the kernel reads there: the board's numbers and
    variables, the memory bank, the command line of the image without its
    leading blanks, and the ramdisk; nothing outside of the 1024 bytes from
    the boot parameters on is written, and the kernel is entered where the
    image says. *)
Lemma booti_linux_spec bank banks s hdr kaddr raddr rsize cmdline
    (Hbank : bi_dram bd = bank :: banks)
    (Hvars : vars_ok v0 (vars s))
    (Hmem : k_mem s = m0)
    (Hroom : mapped m0 (bi_boot_params bd) TAGS_ROOM)
    (Hhdr : hdr_at m0 hdr kaddr raddr rsize cmdline)
    (Hsizes : is_u32 raddr ∧ is_u32 rsize)
    (Hapart : hdr + sizeof_boot_img_hdr <= bi_boot_params bd ∨ bi_boot_params bd + TAGS_ROOM <= hdr) :
  ∃ s' pad, do_booti_linux bd hdr s = Some (s', mkKernelEntry kaddr 0 (bi_arch_number bd) (bi_boot_params bd)) ∧
    for_each_tag 11 (k_mem s') (bi_boot_params bd) = Some (tag_list v0 bd bank cmdline pad raddr rsize) ∧
    (∀ a n, (a + n <= bi_boot_params bd ∨ bi_boot_params bd + TAGS_ROOM <= a) → agree m0 (k_mem s') a n) ∧
    vars_ok v0 (vars s').
Proof using Hrel Hbytes.
  destruct Hhdr as [Hk Hra Hrs Hc Hcl]. destruct Hsizes as [Hra' Hrs']. unfold sizeof_boot_img_hdr in Hapart.
  destruct (wp_elim (do_booti_linux bd hdr) s (λ s' e, e = mkKernelEntry kaddr 0 (bi_arch_number bd) base ∧
    ∃ pad, for_each_tag 11 (k_mem s') base = Some (tag_list v0 bd bank cmdline pad raddr rsize) ∧
    (∀ a n, (a + n <= base ∨ base + TAGS_ROOM <= a) → agree m0 (k_mem s') a n) ∧ vars_ok v0 (vars s')))
    as (s' & e & E & -> & pad & H'); [|by exists s', pad].
  unfold do_booti_linux. rewrite <-Hmem in Hk, Hra, Hrs.
  do 3 (apply wp_bind; eapply wp_load; [eassumption|]). eapply wp_fixed; [done|done|done|done|].
  intros s1 G1. pose proof (built_agree _ _ _ _ (hdr + hdr_cmdline) 512 (proj1 G1) ltac:(unfold hdr_cmdline; lia)) as Hag.
  apply (wp_going_cmdline _ cmdline (fixed_tags bank)); [done| |done|apply fixed_length|unfold hdr_cmdline; lia|].
  { eapply cstr_agree; [|exact Hc]. intros i Hi. apply Hag. lia. }
  intros pad s2 G2 L2. apply wp_bind. eapply wp_load.
  { rewrite (load_u32_agree m0); [by rewrite Hmem in Hrs|].
    apply (built_agree _ _ _ _ _ _ (proj1 G2)). unfold hdr_ramdisk_size. lia. }
  apply (wp_going_initrd _ _ _ _ _ _ G2); [done|done|done|]. intros s3 G3 L3.
  apply wp_bind. eapply wp_end; [exact G3|done|]. intros s4 Hread Hag4 Hv4. apply wp_ret. split; [done|].
  exists pad. split; [|done]. rewrite Hread.
  - done.
  - rewrite !length_app. unfold fixed_tags. rewrite length_take. destruct (decide _), (rsize =? 0); cbn [length]; lia.
Qed.
End linux.
