(* ===== verification/Booti.v ===== *)
(** [do_booti] of [common/cmd_bootm.c]: loading an Android boot image from a
    partition and starting its kernel.  [SIGNATURE_BYPASS] is defined and
    [WATCHDOG_ENABLE] is not. *)
From stdpp Require Import base tactics option list gmap strings.
From Stdlib Require Import ZArith Lia.
From S2P Require Import Prelude.
From S2P Require Import CMem.
From S2P Require Import CString.
From S2P Require Import MmcDev.
From S2P Require Import Eff.
From S2P Require Import CBuf.
From S2P Require Import Vsprintf.
From S2P Require Import Ptable.
From S2P Require Import Idme.
From S2P Require Import Gpt.
From S2P Require Import Fastboot.
From S2P Require Import Atags.
Open Scope Z_scope.

Definition BOOT_MAGIC : list Z := str "ANDROID!".
Definition KERNEL_PHY_LOAD_ADDRESS : Z := 0x80008000.

(** In 32 bits. *)
Definition ALIGN (n pagesz : Z) : Z := Z.land (u32 (n + (pagesz - 1))) (u32 (Z.lnot (pagesz - 1))).

(** The kernel has been called, or the function returns. *)
Inductive outcome := Kernel (e : kernel_entry) | Ret (r : Z).

Section ops.
Context {D : Type} `{MmcDev D} `{MmcCtl D} `{Platform}.
#[local] Abbreviation K := (ST (boot D)).

(** The keys, the charger's flag [gnUSBAttached], the USB driver's functions
    and the uninitialised locals of the calls. *)
Context (gpio : Z → Z) (gnUSBAttached : bool).
Context (init poll : ST (fb D) Z) (shutdown : ST (fb D) unit) (fuel : nat).
Context (stack : list Z) (val : option Z).
Context (bd : bd_t).

(** [mmc_read] into the RAM. *)
Definition read_to (mmcc sector dst size : Z) : K Z :=
  s ← get;
  let '(data, r) := mmc_read (fdev (k_fb s)) mmcc sector size in
  _ ← k_store dst data;
  mret r.

Definition fastboot (flag : Z) : K Z := on_fb (do_fastboot init poll shutdown fuel stack val flag).
Definition fail_booti : K outcome := r ← fastboot 0; mret (Ret r).

(** From the partition table entry to the kernel. *)
Definition boot_partition (mmcc : Z) (pte : fastboot_ptentry) : K outcome :=
  r ← on_fb (f_init mmcc);
  if negb (r =? 0) then fail_booti else
  let load_addr := KERNEL_PHY_LOAD_ADDRESS - CFG_FASTBOOT_MKBOOTIMAGE_PAGE_SIZE in
  r ← read_to mmcc (u32 (pstart pte + 2)) load_addr CFG_FASTBOOT_MKBOOTIMAGE_PAGE_SIZE;
  if negb (r =? 1) then fail_booti else
  let hdr := load_addr in
  s ← get;
  magic ← lift (load_bytes (k_mem s) hdr 8);
  if negb (c_memcmp magic BOOT_MAGIC =? 0) then fail_booti else
  page_size ← k_load (hdr + hdr_page_size);
  kernel_addr ← k_load (hdr + hdr_kernel_addr);
  kernel_size ← k_load (hdr + hdr_kernel_size);
  let sector := u32 (u32 (pstart pte + 2) + page_size / 512) in
  r ← read_to mmcc sector kernel_addr kernel_size;
  if negb (r =? 1) then fail_booti else
  kernel_size ← k_load (hdr + hdr_kernel_size);
  page_size ← k_load (hdr + hdr_page_size);
  let sector := u32 (sector + ALIGN kernel_size page_size / 512) in
  ramdisk_addr ← k_load (hdr + hdr_ramdisk_addr);
  ramdisk_size ← k_load (hdr + hdr_ramdisk_size);
  r ← read_to mmcc sector ramdisk_addr ramdisk_size;
  if negb (r =? 1) then fail_booti else
  e ← do_booti_linux bd hdr;
  mret (Kernel e).

(** An image in memory at [addr].  [hdr] is the local pointer the header is
    copied to: nothing sets it, so it is [None]. *)
Definition boot_memory (hdr : option Z) (addr : Z) : K outcome :=
  hdr ← lift hdr;
  s ← get;
  '(m, _) ← lift (memcpy (k_mem s) hdr addr sizeof_boot_img_hdr);
  _ ← set_mem m;
  s ← get;
  magic ← lift (load_bytes (k_mem s) hdr 8);
  if negb (c_memcmp magic BOOT_MAGIC =? 0) then mret (Ret 1) else
  page_size ← k_load (hdr + hdr_page_size);
  kernel_size ← k_load (hdr + hdr_kernel_size);
  let kaddr := u32 (addr + page_size) in
  let raddr := u32 (kaddr + ALIGN kernel_size page_size) in
  kernel_addr ← k_load (hdr + hdr_kernel_addr);
  s ← get;
  '(m, _) ← lift (memmove (k_mem s) kernel_addr kaddr kernel_size);
  _ ← set_mem m;
  ramdisk_addr ← k_load (hdr + hdr_ramdisk_addr);
  ramdisk_size ← k_load (hdr + hdr_ramdisk_size);
  s ← get;
  '(m, _) ← lift (memmove (k_mem s) ramdisk_addr raddr ramdisk_size);
  _ ← set_mem m;
  e ← do_booti_linux bd hdr;
  mret (Kernel e).

Definition do_booti (argc : Z) (argv : list (list Z)) : K outcome :=
  '(_, ptn) ← on_vars (idme_select_boot_image gpio stack (lit "boot"));
  _ ← (if gnUSBAttached then fastboot 3 else mret 0);
  if argc <? 2 then mret (Ret (-1)) else
  a ← lift (idx argv 1);
  r0 ← lift (c_strcmp a (lit "mmc0"));
  r1 ← (if r0 =? 0 then mret 1 else lift (c_strcmp a (lit "mmc1")));
  let mmcc := if r0 =? 0 then 0 else if r1 =? 0 then 1 else -1 in
  addr ← (if mmcc =? -1 then '(addr, _) ← lift (simple_strtoul a 16); mret addr else mret 0);
  ptn ← (if 2 <? argc then lift (idx argv 2) else mret ptn);
  if negb (mmcc =? -1) then
    o ← on_fb (find_ptn ptn);
    match o with
    | None => fail_booti
    | Some (_, pte) => boot_partition mmcc pte
    end
  else boot_memory None addr.
End ops.
