(* ===== verification/BootiSpec.v ===== *)
(** Correctness of [Booti]: the kernel and the ramdisk of the selected
    partition are in memory where the image's header says when the kernel is
    entered, together with the tags of [AtagsSpec]; an image without the magic
    is not started. *)
From stdpp Require Import base tactics option list gmap strings.
From Stdlib Require Import ZArith Lia.
From S2P Require Import Prelude.
From S2P Require Import CString.
From S2P Require Import MmcDev.
From S2P Require Import Sparse.
From S2P Require Import Eff.
From S2P Require Import CBuf.
From S2P Require Import Ptable.
From S2P Require Import Idme.
From S2P Require Import IdmeSpec.
From S2P Require Import Gpt.
From S2P Require Import GptSpec.
From S2P Require Import Fastboot.
From S2P Require Import FastbootSpec.
From S2P Require Import FastbootCases.
From S2P Require Import Atags.
From S2P Require Import AtagsSpec.
From S2P Require Import Booti.
From S2P Require Import CMem.
Open Scope Z_scope.

(** ** The header's page *)

(** A word of the page. *)
Definition page_u32 (page : list Z) (o : Z) : Z := le_val (take 4 (drop (Z.to_nat o) page)).

Definition image_header_addr : Z := KERNEL_PHY_LOAD_ADDRESS - CFG_FASTBOOT_MKBOOTIMAGE_PAGE_SIZE.

Lemma at_part m a l k n : at_ m a l → at_ m (a + Z.of_nat k) (take n (drop k l)).
Proof.
  intros H. apply at_lookup. intros i x Hx. apply lookup_take_Some in Hx as [Hx _]. rewrite lookup_drop in Hx.
  rewrite at_lookup in H. rewrite <-(H _ _ Hx). f_equal. lia.
Qed.

Lemma load_u32_page m a page o : at_ m a page → 0 <= o → o + 4 <= Z.of_nat (length page) →
  load_u32 m (a + o) = Some (page_u32 page o).
Proof.
  intros H Ho Hl. unfold load_u32, page_u32. replace (a + o) with (a + Z.of_nat (Z.to_nat o)) by lia.
  replace 4%nat with (length (take 4 (drop (Z.to_nat o) page))) at 1 by (rewrite length_take, length_drop; lia).
  by rewrite load_bytes_at by by apply at_part.
Qed.

Lemma load_first m a page n : at_ m a page → (n <= length page)%nat → load_bytes m a n = Some (take n page).
Proof.
  intros H Hn. rewrite <-(take_drop n page), at_app in H. destruct H as [H _].
  rewrite <-(load_bytes_at m a _ H), length_take. f_equal. lia.
Qed.

Lemma page_u32_range page o : bytes page → is_u32 (page_u32 page o).
Proof.
  intros Hb. unfold page_u32, is_u32. pose proof (le_val_range (take 4 (drop (Z.to_nat o) page)) ltac:(by apply bytes_take, bytes_drop)).
  assert (length (take 4 (drop (Z.to_nat o) page)) <= 4)%nat by (rewrite length_take; lia).
  pose proof (Z.pow_le_mono_r 256 (Z.of_nat (length (take 4 (drop (Z.to_nat o) page)))) 4 ltac:(lia) ltac:(lia)).
  change (256 ^ 4) with 4294967296 in *. lia.
Qed.

(** Two ranges of addresses that do not meet. *)
Definition ranges_apart (x y : Z * Z) : Prop := x.1 + x.2 <= y.1 ∨ y.1 + y.2 <= x.1.
#[export] Instance ranges_apart_dec x y : Decision (ranges_apart x y).
Proof. unfold ranges_apart. apply _. Defined.

Lemma pairs_of_four {A} (R : A → A → Prop) a b c d : ForallOrdPairs R [a; b; c; d] →
  R a b ∧ R a c ∧ R a d ∧ R b c ∧ R b d ∧ R c d.
Proof.
  intros Hp. inversion_clear Hp as [|?? Ha Hp1]. inversion_clear Hp1 as [|?? Hb Hp2]. inversion_clear Hp2 as [|?? Hc _].
  apply Forall_cons in Ha as [? Ha]. apply Forall_cons in Ha as [? Ha]. apply Forall_cons in Ha as [? _].
  apply Forall_cons in Hb as [? Hb]. apply Forall_cons in Hb as [? _]. apply Forall_cons in Hc as [? _]. done.
Qed.

Lemma at_put_apart m a l b l' : ranges_apart (a, Z.of_nat (length l)) (b, Z.of_nat (length l')) →
  at_ m a l → at_ (put m b l') a l.
Proof. intros Hd H. apply at_put_other; [|done]. unfold ranges_apart in Hd. cbn in Hd. lia. Qed.

Section boot.
Context {D : Type} `{HR : MmcReads D} `{MmcCtl D} `{Platform} (Hrel : reliable D).
Context (Hreads : ∀ (d : D) slot b n, (mmc_read d slot b n).2 = 1).
Context (gpio : Z → Z) (init poll : ST (fb D) Z) (shutdown : ST (fb D) unit) (fuel : nat).
Context (stack : list Z) (val : option Z) (bd : bd_t).
Implicit Types (s : boot D).
#[local] Abbreviation boot_partition := (boot_partition init poll shutdown fuel stack val bd).
#[local] Abbreviation do_booti := (do_booti gpio false init poll shutdown fuel stack val bd).
#[local] Abbreviation fail_booti := (fail_booti init poll shutdown fuel stack val).

(** The sectors a read delivers. *)
Definition loaded (d : D) (slot b size : Z) : list Z := sectors (contents d slot (selected d slot)) b (sector_count size).
Definition in_device (b size : Z) : Prop := 0 <= b ∧ b + Z.of_nat (sector_count size) <= 4294967296.
Definition span (a size : Z) : Z * Z := (a, 512 * Z.of_nat (sector_count size)).

Lemma loaded_length d slot b size : Z.of_nat (length (loaded d slot b size)) = (span 0 size).2.
Proof.
  unfold loaded, span. cbn [snd]. generalize (sector_count size) b. intros n. induction n as [|n IH]; intros b'; [done|].
  cbn [sectors]. rewrite length_app, contents_size. specialize (IH (b' + 1)). lia.
Qed.

Lemma loaded_bytes d slot b size : (∀ p n, bytes (contents d slot p n)) → bytes (loaded d slot b size).
Proof.
  intros Hb. unfold loaded. generalize (sector_count size) b. intros n. induction n as [|n IH]; intros b'; [constructor|].
  cbn [sectors]. apply bytes_app. split; [apply Hb|apply IH].
Qed.

Lemma wp_read_to mmcc b dst size s (Q : boot D → Z → Prop) :
  let l := loaded (fdev (k_fb s)) mmcc b size in
  in_device b size → bytes l → mapped (k_mem s) dst (span dst size).2 →
  Q (set_kmem (put (k_mem s) dst l) s) 1 → wp (read_to mmcc b dst size) s Q.
Proof using HR Hreads.
  intros l [Hb Hn] Hl Hm HQ. unfold read_to. repeat wp_step.
  pose proof (Hreads (fdev (k_fb s)) mmcc b size) as Hr. destruct (mmc_read _ _ _ _) as [l' r] eqn:E. cbn in Hr. subst r.
  pose proof (read_many _ _ _ _ _ E Hb Hn) as ->. change (sectors _ b _) with l.
  pose proof (loaded_length (fdev (k_fb s)) mmcc b size) as Hlen. fold l in Hlen. clearbody l.
  apply wp_bind. unfold k_store. repeat wp_step.
  eapply wp_lift; [apply store_bytes_put; [by rewrite Hlen|done]|]. repeat wp_step. exact HQ.
Qed.

Lemma wp_read_part d m fb0 mmcc b dst size s (Q : boot D → Z → Prop) :
  k_mem s = m → k_fb s = fb0 → fdev fb0 = d →
  in_device b size → bytes (loaded d mmcc b size) → mapped m dst (span dst size).2 →
  (∀ s', k_mem s' = put m dst (loaded d mmcc b size) → k_fb s' = fb0 → Q s' 1) → wp (read_to mmcc b dst size) s Q.
Proof using HR Hreads. intros <- <- <- Hd Hl Hm HQ. apply wp_read_to; [done..|]. by apply HQ. Qed.

(** ** An image on a partition *)

(** What is read for a partition, from the device after [mmc_init]. *)
Section image.
Context (d : D) (mmcc : Z) (pte : fastboot_ptentry).

Definition page : list Z := loaded d mmcc (u32 (pstart pte + 2)) CFG_FASTBOOT_MKBOOTIMAGE_PAGE_SIZE.
Definition kaddr : Z := page_u32 page hdr_kernel_addr.
Definition ksize : Z := page_u32 page hdr_kernel_size.
Definition raddr : Z := page_u32 page hdr_ramdisk_addr.
Definition rsize : Z := page_u32 page hdr_ramdisk_size.
Definition psize : Z := page_u32 page hdr_page_size.
Definition ksector : Z := u32 (u32 (pstart pte + 2) + psize / 512).
Definition rsector : Z := u32 (ksector + ALIGN ksize psize / 512).
Definition kernel : list Z := loaded d mmcc ksector ksize.
Definition ramdisk : list Z := loaded d mmcc rsector rsize.

(** The image can be loaded: it has the magic and a command line with an end,
    its parts lie on the device, and they go to different parts of the
    memory, none of them over the header or the parameters. *)
Record bootable (m : mem) (cmdline : list Z) : Prop := mkBootable {
  bo_magic : take 8 page = BOOT_MAGIC;
  bo_cmdline : ∃ rest, drop 64 page = cmdline ++ 0 :: rest;
  bo_nonzero : 0 ∉ cmdline;
  bo_short : Z.of_nat (length cmdline) < 512;
  bo_page_in : in_device (u32 (pstart pte + 2)) CFG_FASTBOOT_MKBOOTIMAGE_PAGE_SIZE;
  bo_kernel_in : in_device ksector ksize;
  bo_ramdisk_in : in_device rsector rsize;
  bo_mapped : Forall (λ x, mapped m x.1 x.2)
    [(image_header_addr, 2048); span kaddr ksize; span raddr rsize; (bi_boot_params bd, TAGS_ROOM)];
  bo_apart : ForallOrdPairs ranges_apart
    [(image_header_addr, 2048); span kaddr ksize; span raddr rsize; (bi_boot_params bd, TAGS_ROOM)];
}.
End image.

(** The state once [mmc_init] has been called. *)
Definition after_init (d : D) s : boot D := set_vars (set_dev d (vars s)) s.

Lemma wp_boot_init mmcc d s (Q : boot D → Z → Prop) : mmc_init (fdev (k_fb s)) mmcc = (d, 0) →
  Q (after_init d s) 0 → wp (on_fb (f_init mmcc)) s Q.
Proof.
  intros E HQ. unfold wp, on_fb, f_init, on_board, g_init. unfold fdev in E. rewrite E. exact HQ.
Qed.

Lemma wp_page_word a pg s o (Q : boot D → Z → Prop) : at_ (k_mem s) a pg → 0 <= o → o + 4 <= Z.of_nat (length pg) →
  Q s (page_u32 pg o) → wp (k_load (a + o)) s Q.
Proof. intros Hp Ho Hl. apply wp_load. by apply load_u32_page. Qed.

Lemma page_length d mmcc pte : length (page d mmcc pte) = 2048%nat.
Proof. apply Nat2Z.inj. unfold page. by rewrite loaded_length. Qed.

(** The header that [do_booti_linux] finds. *)
Lemma page_hdr m d mmcc pte cmdline : bootable d mmcc pte m cmdline → (∀ slot p n, bytes (contents d slot p n)) →
  ∀ m', at_ m' image_header_addr (page d mmcc pte) →
  hdr_at m' image_header_addr (kaddr d mmcc pte) (raddr d mmcc pte) (rsize d mmcc pte) cmdline.
Proof.
  intros [] Hb m' Hp. pose proof (page_length d mmcc pte) as Hl.
  split; try (apply load_u32_page; [done|by_eval|rewrite Hl; by_eval]); [|done].
  destruct bo_cmdline0 as [rest Hr]. split; [|split; [done|]].
  - pose proof (at_part _ _ _ 64 (length (drop 64 (page d mmcc pte))) Hp) as Ha. rewrite take_ge in Ha by lia.
    rewrite Hr, cons_middle, app_assoc, at_app in Ha. by apply Ha.
  - assert (bytes (drop 64 (page d mmcc pte))) as Hd by (apply bytes_drop, loaded_bytes; intros; apply Hb).
    rewrite Hr in Hd. by apply bytes_app in Hd as [Hd _].
Qed.

(** The memory once the image has been loaded. *)
Definition loaded_mem (m : mem) d mmcc pte : mem :=
  put (put (put m image_header_addr (page d mmcc pte)) (kaddr d mmcc pte) (kernel d mmcc pte))
    (raddr d mmcc pte) (ramdisk d mmcc pte).

Definition image_spans d mmcc pte : list (Z * Z) :=
  [(image_header_addr, 2048); span (kaddr d mmcc pte) (ksize d mmcc pte); span (raddr d mmcc pte) (rsize d mmcc pte);
   (bi_boot_params bd, TAGS_ROOM)].

Lemma wp_load_image mmcc pte s d cmdline (Q : boot D → outcome → Prop) :
  mmc_init (fdev (k_fb s)) mmcc = (d, 0) → (∀ slot p n, bytes (contents d slot p n)) →
  bootable d mmcc pte (k_mem s) cmdline →
  (∀ s', k_mem s' = loaded_mem (k_mem s) d mmcc pte → k_fb s' = k_fb (after_init d s) →
     wp (e ← do_booti_linux bd image_header_addr; mret (Kernel e)) s' Q) →
  wp (boot_partition mmcc pte) s Q.
Proof using HR Hreads.
  intros Hinit Hbytes Hboot HQ. pose proof (page_length d mmcc pte) as Hpl.
  pose proof (λ b n, loaded_bytes d mmcc b n (λ p k, Hbytes mmcc p k)) as Hlb.
  destruct Hboot as [Hmagic _ _ _ Hpin Hkin Hrin Hmap Hap].
  rewrite !Forall_cons in Hmap. destruct Hmap as (Mh & Mk & Mr & _ & _). cbn [fst snd] in *.
  apply pairs_of_four in Hap as (Ahk & _).
  unfold Booti.boot_partition. apply wp_bind, (wp_boot_init _ d); [done|]. cbn [negb Z.eqb].
  apply wp_bind, (wp_read_part d (k_mem s) (k_fb (after_init d s))); [done..|apply Hlb|done|].
  fold (page d mmcc pte) image_header_addr. intros s1 M1 F1. cbn [negb Z.eqb Pos.eqb].
  pose proof (at_put (k_mem s) image_header_addr (page d mmcc pte)) as P1. rewrite <-M1 in P1.
  apply wp_bind, wp_get, wp_bind. eapply wp_lift; [by apply (load_first _ _ _ 8 P1); lia|].
  rewrite Hmagic. change (negb (c_memcmp BOOT_MAGIC BOOT_MAGIC =? 0)) with false. cbn iota.
  do 3 (apply wp_bind; eapply (wp_page_word _ (page d mmcc pte)); [done|by_eval|rewrite Hpl; by_eval|]).
  apply wp_bind, (wp_read_part d _ _ _ _ _ _ _ _ M1 F1); [done|exact Hkin|apply Hlb|by apply put_mapped|].
  intros s2 M2 F2. cbn [negb Z.eqb Pos.eqb].
  fold (ksize d mmcc pte) (psize d mmcc pte) (kaddr d mmcc pte) (ksector d mmcc pte) (kernel d mmcc pte) in M2.
  assert (at_ (k_mem s2) image_header_addr (page d mmcc pte)) as P2.
  { rewrite M2. apply at_put_apart; [|by rewrite <-M1]. rewrite Hpl. unfold kernel. rewrite loaded_length. exact Ahk. }
  do 4 (apply wp_bind; eapply (wp_page_word _ (page d mmcc pte)); [done|by_eval|rewrite Hpl; by_eval|]).
  apply wp_bind, (wp_read_part d _ _ _ _ _ _ _ _ M2 F2); [done|exact Hrin|apply Hlb|by do 2 apply put_mapped|].
  intros s3 M3 F3. cbn [negb Z.eqb Pos.eqb]. by apply HQ.
Qed.

(** What is in it. *)
Lemma loaded_mem_spec m d mmcc pte cmdline : bootable d mmcc pte m cmdline →
  at_ (loaded_mem m d mmcc pte) image_header_addr (page d mmcc pte) ∧
  at_ (loaded_mem m d mmcc pte) (kaddr d mmcc pte) (kernel d mmcc pte) ∧
  at_ (loaded_mem m d mmcc pte) (raddr d mmcc pte) (ramdisk d mmcc pte) ∧
  mapped (loaded_mem m d mmcc pte) (bi_boot_params bd) TAGS_ROOM ∧
  (∀ a n, Forall (ranges_apart (a, n)) (image_spans d mmcc pte) → agree m (loaded_mem m d mmcc pte) a n).
Proof.
  intros [_ _ _ _ _ _ _ Hmap Hap]. pose proof (page_length d mmcc pte) as Hpl.
  assert (Z.of_nat (length (kernel d mmcc pte)) = (span 0 (ksize d mmcc pte)).2) as Hkl by apply loaded_length.
  assert (Z.of_nat (length (ramdisk d mmcc pte)) = (span 0 (rsize d mmcc pte)).2) as Hrl by apply loaded_length.
  rewrite !Forall_cons in Hmap. destruct Hmap as (_ & _ & _ & Mp & _).
  apply pairs_of_four in Hap as (Ahk & Ahr & _ & Akr & _). unfold loaded_mem. split_and!.
  - do 2 (apply at_put_apart; [by rewrite Hpl, ?Hkl, ?Hrl|]). apply at_put.
  - apply at_put_apart; [by rewrite Hkl, Hrl|apply at_put].
  - apply at_put.
  - by do 3 apply put_mapped.
  - intros a n Ha i Hi. unfold image_spans, ranges_apart in Ha. rewrite !Forall_cons in Ha. unfold span in *. cbn [fst snd] in *.
    rewrite !put_lookup_ne by lia. done.
Qed.

(** Loading and starting the image of a partition.  The kernel and the
    ramdisk of the image are where its header says when the kernel is entered
    at its first byte, the tags the kernel finds are those of the board, the
    command line and the ramdisk, and the rest of the memory is as it was. *)
Lemma boot_partition_starts mmcc pte s d bank banks cmdline
    (Hinit : mmc_init (fdev (k_fb s)) mmcc = (d, 0))
    (Hbank : bi_dram bd = bank :: banks)
    (Hbytes : ∀ slot p n, bytes (contents d slot p n))
    (Hvars : vars_ok (vars (after_init d s)) (vars (after_init d s)))
    (Hboot : bootable d mmcc pte (k_mem s) cmdline) :
  ∃ s' pad, boot_partition mmcc pte s =
      Some (s', Kernel (mkKernelEntry (kaddr d mmcc pte) 0 (bi_arch_number bd) (bi_boot_params bd))) ∧
    at_ (k_mem s') (kaddr d mmcc pte) (kernel d mmcc pte) ∧
    at_ (k_mem s') (raddr d mmcc pte) (ramdisk d mmcc pte) ∧
    for_each_tag 11 (k_mem s') (bi_boot_params bd) =
      Some (tag_list (vars (after_init d s)) bd bank cmdline pad (raddr d mmcc pte) (rsize d mmcc pte)) ∧
    (∀ a n, Forall (ranges_apart (a, n)) (image_spans d mmcc pte) → agree (k_mem s) (k_mem s') a n).
Proof using HR Hrel Hreads.
  destruct (loaded_mem_spec _ _ _ _ _ Hboot) as (Lh & Lk & Lr & Lp & La).
  pose proof (page_hdr _ _ _ _ _ Hboot Hbytes _ Lh) as Hhdr.
  assert (is_u32 (raddr d mmcc pte) ∧ is_u32 (rsize d mmcc pte)) as Hu
    by (split; apply page_u32_range, loaded_bytes; intros; apply Hbytes).
  pose proof (bo_apart _ _ _ _ _ Hboot) as Hap. apply pairs_of_four in Hap as (_ & _ & Ahp & _ & Akp & Arp).
  destruct (wp_elim (boot_partition mmcc pte) s (λ s' o, ∃ e s3 pad, o = Kernel e ∧
    k_mem s3 = loaded_mem (k_mem s) d mmcc pte ∧ e = mkKernelEntry (kaddr d mmcc pte) 0 (bi_arch_number bd) (bi_boot_params bd) ∧
    for_each_tag 11 (k_mem s') (bi_boot_params bd) =
      Some (tag_list (vars (after_init d s)) bd bank cmdline pad (raddr d mmcc pte) (rsize d mmcc pte)) ∧
    (∀ a n, (a + n <= bi_boot_params bd ∨ bi_boot_params bd + TAGS_ROOM <= a) → agree (k_mem s3) (k_mem s') a n)))
    as (s' & o & E & e & s3 & pad & -> & M3 & -> & Ht & Ha).
  - apply (wp_load_image _ _ _ _ _ _ Hinit Hbytes Hboot). intros s3 M3 F3. apply wp_bind.
    assert (vars_ok (vars (after_init d s)) (vars s3)) as Hv3 by (unfold vars at 2; rewrite F3; exact Hvars).
    rewrite <-M3 in Lp, Hhdr.
    destruct (booti_linux_spec Hrel (vars (after_init d s)) (λ p n, Hbytes 1 p n) (k_mem s3) bd bank banks s3
      image_header_addr _ _ _ _ Hbank Hv3 eq_refl Lp Hhdr Hu)
      as (s' & pad & E & Ht & Ha & _); [unfold ranges_apart, sizeof_boot_img_hdr in *; cbn in *; lia|].
    unfold wp. rewrite E. exists (mkKernelEntry (kaddr d mmcc pte) 0 (bi_arch_number bd) (bi_boot_params bd)), s3, pad.
    split; [reflexivity|]. split; [exact M3|]. split; [reflexivity|]. split; [exact Ht|exact Ha].
  - rewrite M3 in Ha. exists s', pad. split; [done|]. unfold ranges_apart, span in *. cbn [fst snd] in *. split_and!; [| |done|].
    + apply (at_agree (loaded_mem (k_mem s) d mmcc pte)); [|done]. apply Ha. unfold kernel. rewrite loaded_length. cbn. lia.
    + apply (at_agree (loaded_mem (k_mem s) d mmcc pte)); [|done]. apply Ha. unfold ramdisk. rewrite loaded_length. cbn. lia.
    + intros a n Hr i Hi. rewrite <-(La a n Hr) by done. apply (Ha a n); [|done].
      unfold image_spans in Hr. rewrite !Forall_cons in Hr. cbn in Hr. lia.
Qed.
Lemma find_named s name n e : names (k_fb s) name n e → on_fb (find_ptn name) s = Some (s, Some (n, e)).
Proof.
  intros [E1 E2]. unfold on_fb, find_ptn. unfold mbind, st_bind, get, lift. rewrite E1. cbn beta iota. rewrite E2. by destruct s.
Qed.

Lemma find_unnamed s name : fastboot_flash_find_ptn (b_table (f_board (k_fb s))) name = Some None →
  on_fb (find_ptn name) s = Some (s, None).
Proof. intros E. unfold on_fb, find_ptn. unfold mbind, st_bind, get, lift. rewrite E. by destruct s. Qed.

(** The arguments of the command: the slot and, maybe, the partition. *)
Definition slot_named (mmcc : Z) (a : list Z) : Prop := mmcc = 0 ∧ a = lit "mmc0" ∨ mmcc = 1 ∧ a = lit "mmc1".
Definition booti_args (a : list Z) (ptn : option (list Z)) : list (list Z) := lit "booti" :: a :: option_list ptn.

(** [do_booti] up to the partition table. *)
Lemma booti_table mmcc a arg s v z chosen :
  slot_named mmcc a → idme_select_boot_image gpio stack (lit "boot") (vars s) = Some (v, (z, chosen)) →
  do_booti (Z.of_nat (length (booti_args a arg))) (booti_args a arg) s =
    (o ← on_fb (find_ptn (default chosen arg));
     match o with None => fail_booti | Some (_, pte) => boot_partition mmcc pte end) (set_vars v s).
Proof.
  intros Ha E. unfold Booti.do_booti. unfold mbind at 1, st_bind at 1.
  assert (on_vars (idme_select_boot_image gpio stack (lit "boot")) s = Some (set_vars v s, (z, chosen))) as ->.
  { unfold on_vars, on_fb, on_board, on_idme, vars in *. by rewrite E. }
  destruct arg as [p|], Ha as [[-> ->]|[-> ->]]; reflexivity.
Qed.

(** C2: [booti] with a slot and, maybe, a partition; without one it takes the
    image the boot mode and the keys select.  The kernel is entered at the
    address the image's header says, with the kernel and the ramdisk of the
    partition in memory, the tags of the board at the boot parameters, and
    nothing else of the memory changed. *)
Theorem booti_starts_kernel mmcc a arg s v z chosen n pte d bank banks cmdline
    (Hslot : slot_named mmcc a)
    (Hselect : idme_select_boot_image gpio stack (lit "boot") (vars s) = Some (v, (z, chosen)))
    (Hptn : names (k_fb s) (default chosen arg) n pte)
    (Hinit : mmc_init (dev v) mmcc = (d, 0))
    (Hbank : bi_dram bd = bank :: banks)
    (Hbytes : ∀ slot p n, bytes (contents d slot p n))
    (Hvars : vars_ok (set_dev d v) (set_dev d v))
    (Hboot : bootable d mmcc pte (k_mem s) cmdline) :
  ∃ s' pad, do_booti (Z.of_nat (length (booti_args a arg))) (booti_args a arg) s =
      Some (s', Kernel (mkKernelEntry (kaddr d mmcc pte) 0 (bi_arch_number bd) (bi_boot_params bd))) ∧
    at_ (k_mem s') (kaddr d mmcc pte) (kernel d mmcc pte) ∧
    at_ (k_mem s') (raddr d mmcc pte) (ramdisk d mmcc pte) ∧
    for_each_tag 11 (k_mem s') (bi_boot_params bd) =
      Some (tag_list (set_dev d v) bd bank cmdline pad (raddr d mmcc pte) (rsize d mmcc pte)) ∧
    (∀ a n, Forall (ranges_apart (a, n)) (image_spans d mmcc pte) → agree (k_mem s) (k_mem s') a n).
Proof using HR Hrel Hreads.
  rewrite (booti_table mmcc a arg s v z chosen) by done.
  rewrite (bind_eq _ _ _ _ _ (find_named (set_vars v s) _ _ _ Hptn)).
  by apply (boot_partition_starts mmcc pte (set_vars v s) d bank banks cmdline).
Qed.

(** C19: [booti] with a partition that is not in the table, a device that does
    not start, or an image without the magic: the kernel is not entered, the
    board goes to fastboot, and of the memory at most the page for the header
    has changed. *)
Theorem booti_falls_back mmcc a arg s v z chosen
    (Hslot : slot_named mmcc a)
    (Hselect : idme_select_boot_image gpio stack (lit "boot") (vars s) = Some (v, (z, chosen)))
    (Hmapped : mapped (k_mem s) image_header_addr 2048)
    (Hbytes : ∀ slot p n, bytes (contents (mmc_init (dev v) mmcc).1 slot p n))
    (Hbad : fastboot_flash_find_ptn (b_table (f_board (k_fb s))) (default chosen arg) = Some None ∨
      ∃ n pte, names (k_fb s) (default chosen arg) n pte ∧
        ((mmc_init (dev v) mmcc).2 ≠ 0 ∨ ∃ d, mmc_init (dev v) mmcc = (d, 0) ∧
          in_device (u32 (pstart pte + 2)) CFG_FASTBOOT_MKBOOTIMAGE_PAGE_SIZE ∧ take 8 (page d mmcc pte) ≠ BOOT_MAGIC)) :
  ∃ s', do_booti (Z.of_nat (length (booti_args a arg))) (booti_args a arg) s = fail_booti s' ∧
    (∀ i, i < image_header_addr ∨ KERNEL_PHY_LOAD_ADDRESS <= i → k_mem s' !! i = k_mem s !! i).
Proof using HR Hreads.
  rewrite (booti_table mmcc a arg s v z chosen) by done.
  destruct Hbad as [Hnone|(n & pte & Hptn & Hbad)].
  { rewrite (bind_eq _ _ _ _ _ (find_unnamed (set_vars v s) _ Hnone)). by exists (set_vars v s). }
  rewrite (bind_eq _ _ _ _ _ (find_named (set_vars v s) _ _ _ Hptn)). cbn beta iota. unfold Booti.boot_partition.
  destruct Hbad as [Hfail|(d & Hinit & Hin & Hmagic)].
  - destruct (mmc_init (dev v) mmcc) as [d r] eqn:E. cbn in Hfail.
    rewrite (bind_eq _ _ _ (after_init d (set_vars v s)) r).
    2:{ unfold on_fb, f_init, on_board, g_init. cbn. by rewrite E. }
    destruct (Z.eqb_spec r 0); [done|]. by exists (after_init d (set_vars v s)).
  - pose proof (page_length d mmcc pte) as Hpl. rewrite Hinit in Hbytes.
    rewrite (bind_eq _ _ _ (after_init d (set_vars v s)) 0).
    2:{ unfold on_fb, f_init, on_board, g_init. cbn. by rewrite Hinit. }
    cbn [negb Z.eqb]. fold image_header_addr.
    set (s1 := after_init d (set_vars v s)).
    set (s2 := set_kmem (put (k_mem s) image_header_addr (page d mmcc pte)) s1).
    assert (read_to mmcc (u32 (pstart pte + 2)) image_header_addr CFG_FASTBOOT_MKBOOTIMAGE_PAGE_SIZE s1 = Some (s2, 1)) as E.
    { destruct (wp_elim _ _ (λ s' r, s' = s2 ∧ r = 1) (wp_read_to mmcc (u32 (pstart pte + 2)) image_header_addr
        CFG_FASTBOOT_MKBOOTIMAGE_PAGE_SIZE s1 _ Hin ltac:(apply loaded_bytes; intros; apply Hbytes) Hmapped
        (conj eq_refl eq_refl))) as (s' & r & E & -> & ->). exact E. }
    rewrite (bind_eq _ _ _ _ _ E). cbn [negb Z.eqb Pos.eqb].
    assert (load_bytes (k_mem s2) image_header_addr 8 = Some (take 8 (page d mmcc pte))) as El
      by (apply load_first; [apply at_put|lia]).
    unfold mbind, st_bind, get, lift. rewrite El.
    destruct (Z.eqb_spec (c_memcmp (take 8 (page d mmcc pte)) BOOT_MAGIC) 0) as [Em|_].
    { exfalso. apply Hmagic. apply first_diff_zero in Em; [done|]. by rewrite length_take, Hpl. }
    exists s2. split; [done|]. intros i Hi. cbn. apply put_lookup_ne. rewrite Hpl.
    unfold image_header_addr, CFG_FASTBOOT_MKBOOTIMAGE_PAGE_SIZE, KERNEL_PHY_LOAD_ADDRESS in *. lia.
Qed.
End boot.

(** ** A board with an image *)

Lemma mapped_eval m a n : forallb (λ i, bool_decide (is_Some (m !! (a + i)))) (seqZ 0 n) = true → mapped m a n.
Proof.
  intros Hf i Hi. rewrite forallb_forall in Hf. apply (bool_decide_eq_true _), Hf, list_elem_of_In, elem_of_seqZ. lia.
Qed.

#[local] Existing Instance demo_platform.
#[local] Existing Instance demo_ctl.

Definition demo_header : list Z :=
  str "ANDROID!" ++ le_bytes 4 512 ++ le_bytes 4 0x80008000 ++ le_bytes 4 300 ++ le_bytes 4 0x81000000 ++
  replicate 12 0 ++ le_bytes 4 2048 ++ replicate 24 0 ++ lit " console=ttyO2" ++ replicate 433 0.

(** The partition "boot" starts at sector 100; the variables ask for it. *)
Definition demo_disk : ram :=
  mkRam {[ (1, 1, 0) := str "beefdeed" ++ replicate 504 48; (1, 1, 8) := replicate 8 0 ++ str "1" ++ replicate 503 0;
           (1, 0, 102) := demo_header; (1, 0, 106) := replicate 512 11; (1, 0, 110) := replicate 512 12 ]} ∅.
Definition demo_vars : idme ram := mkIdme demo_disk (replicate 512 0) [] 0 (replicate 17 0) (replicate 17 0).
Definition demo_memory : mem :=
  image [(image_header_addr, replicate 2560 0); (0x81000000, replicate 512 0); (0x80000100, replicate 1024 0)].
Definition demo_boot : boot ram :=
  mkBoot (mkFb (mkBoard demo_vars (demo_table 0)) [0; 0] (mkDownload 0 0 0 0) idle_fl demo_sparse [] demo_iface [] [])
    demo_memory 0.
Definition demo_bd : bd_t := mkBd 2839 0x80000100 5 [(0x80000000, 0x40000000)].
Definition demo_stack : list Z := replicate 20 9.

(** The variables once the image has been selected. *)
Definition demo_selected : idme ram :=
  match idme_select_boot_image (λ _, 1) demo_stack (lit "boot") demo_vars with Some (v, _) => v | None => demo_vars end.

Lemma ram_disk_bytes (d : ram) slot p n : map_Forall (λ _ l, bytes l) (ram_disk d) → bytes (ram_sector d slot p n).
Proof. destruct d as [m q]. intros Hm. change (bytes (ram_sector (mkRam m ∅) slot p n)). by apply ram_bytes. Qed.

Lemma demo_bytes slot p n : bytes (contents (dev demo_selected) slot p n).
Proof. apply (ram_disk_bytes (dev demo_selected)). by_eval. Qed.

Lemma demo_bootable : bootable demo_bd (dev demo_selected) 1 boot_ptn demo_memory (str " console=ttyO2").
Proof.
  split; [by vm_compute| |by_eval|by_eval|by split; vm_compute..| |].
  - exists (drop 79 (page (dev demo_selected) 1 boot_ptn)). by vm_compute.
  - repeat apply Forall_cons_2; [by apply mapped_eval; vm_compute..|constructor].
  - repeat apply FOP_cons; [by_eval..|apply FOP_nil].
Qed.

Lemma booti_starts_kernel_witness :
  let d := dev demo_selected in
  let args := booti_args (lit "mmc1") None in
  (kaddr d 1 boot_ptn = 0x80008000 ∧ raddr d 1 boot_ptn = 0x81000000 ∧
   kernel d 1 boot_ptn = replicate 512 11 ∧ ramdisk d 1 boot_ptn = replicate 512 12) ∧
  ∃ s' pad, do_booti (λ _, 1) false (mret 0) (mret 0) (mret tt) 1 demo_stack None demo_bd
      (Z.of_nat (length args)) args demo_boot =
      Some (s', Kernel (mkKernelEntry (kaddr d 1 boot_ptn) 0 (bi_arch_number demo_bd) (bi_boot_params demo_bd))) ∧
    at_ (k_mem s') (kaddr d 1 boot_ptn) (kernel d 1 boot_ptn) ∧
    at_ (k_mem s') (raddr d 1 boot_ptn) (ramdisk d 1 boot_ptn) ∧
    for_each_tag 11 (k_mem s') (bi_boot_params demo_bd) =
      Some (tag_list (set_dev d demo_selected) demo_bd (0x80000000, 0x40000000) (str " console=ttyO2") pad
        (raddr d 1 boot_ptn) (rsize d 1 boot_ptn)) ∧
    (∀ a n, Forall (ranges_apart (a, n)) (image_spans demo_bd d 1 boot_ptn) →
       agree (k_mem demo_boot) (k_mem s') a n).
Proof.
  intros d args. split; [by vm_compute|].
  apply (booti_starts_kernel ram_reliable ltac:(done) (λ _, 1) (mret 0) (mret 0) (mret tt) 1 demo_stack None demo_bd 1
    (lit "mmc1") None demo_boot demo_selected 0 (lit "boot") 0 boot_ptn d (0x80000000, 0x40000000) []
    (str " console=ttyO2")).
  - by right.
  - by vm_compute.
  - by split; vm_compute.
  - reflexivity.
  - reflexivity.
  - exact demo_bytes.
  - by split; vm_compute.
  - exact demo_bootable.
Defined.

(** "userdata" holds no image. *)
Lemma booti_falls_back_witness :
  let args := booti_args (lit "mmc1") (Some (lit "userdata")) in
  ∃ s', do_booti (λ _, 1) false (mret 0) (mret 0) (mret tt) 1 demo_stack None demo_bd (Z.of_nat (length args)) args demo_boot =
      fail_booti (mret 0) (mret 0) (mret tt) 1 demo_stack None s' ∧
    (∀ i, i < image_header_addr ∨ KERNEL_PHY_LOAD_ADDRESS <= i → k_mem s' !! i = k_mem demo_boot !! i).
Proof.
  intros args.
  apply (booti_falls_back ltac:(done) (λ _, 1) (mret 0) (mret 0) (mret tt) 1 demo_stack None demo_bd 1
    (lit "mmc1") (Some (lit "userdata")) demo_boot demo_selected 0 (lit "boot")).
  - by right.
  - by vm_compute.
  - by apply mapped_eval; vm_compute.
  - exact demo_bytes.
  - right. exists 1, (mkPtentry (pad (lit "userdata") 16) 200 8589934592 0). split; [by split; vm_compute|].
    right. exists (dev demo_selected). split; [reflexivity|]. split; [by split; vm_compute|by vm_compute].
Defined.

(** With an address instead of a slot the header is copied to a pointer that
    nothing has set. *)
Lemma booti_memory_undefined :
  do_booti (λ _, 1) false (mret 0) (mret 0) (mret tt) 1 demo_stack None demo_bd 2 [lit "booti"; lit "80000100"] demo_boot = None.
Proof. by vm_compute. Qed.
