(* ===== verification/Bootmsg.v ===== *)
(** The message block ([common/bootmsg.c]) with which Android and the boot
    loader tell each other what to start, and [fastboot_preboot] of
    [drivers/fastboot.c], which decides at power-on. *)
From stdpp Require Import base tactics option list gmap strings.
From Stdlib Require Import ZArith Lia.
From S2P Require Import Prelude.
From S2P Require Import CMem.
From S2P Require Import MmcDev.
From S2P Require Import Eff.
From S2P Require Import CBuf.
From S2P Require Import Ptable.
From S2P Require Import Idme.
From S2P Require Import Gpt.
Open Scope Z_scope.

Definition COMMAND_SIZE : Z := 32.
Definition BOOTMSG_BLOCK_SIZE : Z := 512.
Definition bootmsg_partition : list Z := lit "misc".
Definition BOOTMSG_COMMAND_RECOVERY : list Z := lit "boot-recovery".
Definition BOOTMSG_COMMAND_NORMAL : list Z := lit "boot".

(** The state of the board and the static buffer. *)
Record bm (D : Type) := mkBm { bm_board : board D; bootmsg_1st_block : list Z }.
Arguments mkBm {D}.
Arguments bm_board {D}.
Arguments bootmsg_1st_block {D}.

(** What [fastboot_preboot] reads from registers and from the memory that
    survives a warm reset. *)
Record power_on := mkPowerOn {
  KBD_STATEMACHINE : Z; KBD_FULLCODE31_0 : Z; GPIO4_DATA_IN : Z; PRM_RSTST : Z; PUBLIC_SAR_RAM_1_FREE : list Z }.
Definition PRM_RSTST_RESET_WARM_BIT : Z := 2.

Section ops.
Context {D : Type} `{MmcDev D}.
#[local] Abbreviation B := (ST (bm D)).

Definition on_state {A} (m : ST (board D) A) : B A := λ s,
  match m (bm_board s) with Some (b, a) => Some (mkBm b (bootmsg_1st_block s), a) | None => None end.
Definition set_block (l : list Z) : B unit := modify (λ s, mkBm (bm_board s) l).

(** [fastboot_flash_find_ptn(bootmsg_partition)]: its entry. *)
Definition find_misc : B (option fastboot_ptentry) :=
  s ← get;
  o ← lift (fastboot_flash_find_ptn (b_table (bm_board s)) bootmsg_partition);
  match o with
  | None => mret None
  | Some n => e ← lift (idx (ptable (b_table (bm_board s))) n); mret (Some e)
  end.

(** Reading the block, whatever the result of the call. *)
Definition read_msg (e : fastboot_ptentry) : B unit :=
  s ← get;
  let '(data, _) := mmc_read (dev (b_idme (bm_board s))) 1 (pstart e) BOOTMSG_BLOCK_SIZE in
  l ← lift (blit (bootmsg_1st_block s) 0 data);
  set_block l.

(** "Ensure that command is null terminated". *)
Definition terminate_msg : B unit :=
  s ← get; l ← lift (upd (bootmsg_1st_block s) (COMMAND_SIZE - 1) 0); set_block l.

(** The static block, or the null pointer. *)
Definition bootmsg_get_command : B (option (list Z)) :=
  o ← find_misc;
  match o with
  | None => mret None
  | Some e => _ ← read_msg e; _ ← terminate_msg; s ← get; mret (Some (bootmsg_1st_block s))
  end.

(** Without the partition the null pointer is read: undefined. *)
Definition bootmsg_write_command (command : list Z) : B unit :=
  o ← find_misc;
  e ← lift o;
  _ ← read_msg e;
  s ← get;
  c ← lift (c_strncpy command (Z.to_nat COMMAND_SIZE));
  l ← lift (blit (bootmsg_1st_block s) 0 c);
  _ ← set_block l;
  _ ← on_state (λ b,
        let '(d, r) := mmc_write (dev (b_idme b)) 1 l (pstart e) in
        Some (mkBoard (set_dev d (b_idme b)) (b_table b), r));
  terminate_msg.

(** [start_recovery]. *)
Definition start_recovery : B Z := _ ← bootmsg_write_command BOOTMSG_COMMAND_RECOVERY; mret 0.

(** [stack] is that of [getbootmode]. *)
Definition fastboot_preboot (stack : list Z) (hw : power_on) : B Z :=
  val ← on_state (on_idme (getbootmode stack));
  if val =? 5 then mret 1 else
  if negb (KBD_STATEMACHINE hw =? 0) then
    if KBD_FULLCODE31_0 hw =? 0x800 then start_recovery else mret 1
  else if negb (Z.land (GPIO4_DATA_IN hw) (Z.shiftl 1 8) =? 0) then mret 1
  else if negb (Z.land (PRM_RSTST hw) PRM_RSTST_RESET_WARM_BIT =? 0) then
    r ← lift (c_strcmp (PUBLIC_SAR_RAM_1_FREE hw) (lit "recovery"));
    if r =? 0 then start_recovery else
    r ← lift (c_strcmp (PUBLIC_SAR_RAM_1_FREE hw) (lit "bootloader"));
    if r =? 0 then mret 1 else mret 0
  else mret 0.
End ops.
