(* ===== verification/BootmsgSpec.v ===== *)
(** [Bootmsg]: a command that is written is read back, and what the boot
    loader decides at power-on. *)
From stdpp Require Import base tactics option list gmap strings.
From Stdlib Require Import ZArith Lia.
From S2P Require Import Prelude.
From S2P Require Import CMem.
From S2P Require Import CString.
From S2P Require Import MmcDev.
From S2P Require Import Eff.
From S2P Require Import CBuf.
From S2P Require Import Ptable.
From S2P Require Import Idme.
From S2P Require Import IdmeSpec.
From S2P Require Import IdmeBoot.
From S2P Require Import Gpt.
From S2P Require Import Bootmsg.
Open Scope Z_scope.

(** ** What a message is *)

Section spec.
Context {D : Type} `{MmcLaws D} (Hrel : reliable D).
Implicit Types (s : bm D).

Definition mdev s : D := dev (b_idme (bm_board s)).
(** The sectors of the selected partition of the card. *)
Definition card s : disk := contents (mdev s) 1 (selected (mdev s) 1).
Definition misc_at s (e : fastboot_ptentry) : Prop :=
  ∃ n, fastboot_flash_find_ptn (b_table (bm_board s)) bootmsg_partition = Some (Some n) ∧
    idx (ptable (b_table (bm_board s))) n = Some e.

(** The command field of a block. *)
Definition command_of (l : list Z) : list Z := cut (take 31 l).

Lemma strncpy_spec c t n : 0 ∉ c → c_strncpy (c ++ 0 :: t) n = Some (take n c ++ replicate (n - length c) 0).
Proof.
  revert n. induction c as [|x c IH]; intros n Hc; destruct n as [|n]; try done.
  apply not_elem_of_cons in Hc as [Hx Hc]. cbn [app c_strncpy take length]. destruct (Z.eqb_spec x 0); [done|].
  rewrite IH by done. done.
Qed.

Lemma wp_find_misc s e (Q : bm D → option fastboot_ptentry → Prop) : misc_at s e → Q s (Some e) → wp find_misc s Q.
Proof.
  intros (n & E1 & E2) HQ. unfold find_misc. repeat wp_step. eapply wp_lift; [exact E1|]. cbn beta iota.
  apply wp_bind. eapply wp_lift; [exact E2|]. by apply wp_ret.
Qed.

Lemma wp_read_msg s e (Q : bm D → unit → Prop) : length (bootmsg_1st_block s) = 512%nat →
  Q (mkBm (bm_board s) (card s (pstart e))) tt → wp (read_msg e) s Q.
Proof using Hrel.
  intros Hl HQ. unfold read_msg. repeat wp_step. destruct Hrel as (Hr & _). fold (mdev s).
  pose proof (Hr (mdev s) 1 (pstart e)) as E1. destruct (mmc_read (mdev s) 1 (pstart e) BOOTMSG_BLOCK_SIZE) as [l r] eqn:E.
  unfold BOOTMSG_BLOCK_SIZE in E. rewrite E in E1. cbn in E1. subst r. apply read_ok in E. subst l.
  repeat wp_step. pose proof (contents_size (mdev s) 1 (selected (mdev s) 1) (pstart e)) as Hs.
  eapply wp_lift; [apply blit_Some; lia|]. change (Z.to_nat 0) with 0%nat. rewrite take_0, drop_ge, app_nil_r by lia.
  repeat wp_step. exact HQ.
Qed.

Lemma wp_terminate s (Q : bm D → unit → Prop) : length (bootmsg_1st_block s) = 512%nat →
  Q (mkBm (bm_board s) (<[31%nat := 0]> (bootmsg_1st_block s))) tt → wp terminate_msg s Q.
Proof.
  intros Hl HQ. unfold terminate_msg, COMMAND_SIZE. repeat wp_step. eapply wp_lift; [apply upd_Some; lia|].
  repeat wp_step. exact HQ.
Qed.

Lemma command_terminated l : length l = 512%nat → cut (<[31%nat := 0]> l) = command_of l.
Proof.
  intros Hl. unfold command_of. rewrite <-(take_drop 31 (<[31%nat:=0]> l)), take_insert_ge by lia.
  rewrite drop_insert_ge by lia. destruct (drop 31 l) as [|x r] eqn:E; [by apply (f_equal length) in E; rewrite length_drop in E; cbn in E; lia|].
  cbn [Nat.sub]. change (<[0%nat:=0]> (x :: r)) with (0 :: r). generalize (take 31 l). clear. intros a.
  induction a as [|y a IH]; [done|]. cbn [app cut]. by destruct (y =? 0); [|rewrite IH].
Qed.

Lemma wp_get_command s e (Q : bm D → option (list Z) → Prop) : misc_at s e → length (bootmsg_1st_block s) = 512%nat →
  (let l := <[31%nat := 0]> (card s (pstart e)) in Q (mkBm (bm_board s) l) (Some l)) → wp bootmsg_get_command s Q.
Proof using Hrel.
  intros He Hl HQ. unfold bootmsg_get_command. eapply wp_bind, wp_find_misc; [exact He|]. cbn beta iota.
  apply wp_bind, wp_read_msg; [done|]. apply wp_bind, wp_terminate; [apply contents_size|]. repeat wp_step.
  by apply wp_ret.
Qed.

(** What is read is a string: the command. *)
Lemma message_read s e : cut (<[31%nat := 0]> (card s (pstart e))) = command_of (card s (pstart e)) ∧
  length (<[31%nat := 0]> (card s (pstart e))) = 512%nat ∧ 0 ∈ <[31%nat := 0]> (card s (pstart e)).
Proof.
  pose proof (contents_size (mdev s) 1 (selected (mdev s) 1) (pstart e)) as Hl. fold (card s) in Hl. split_and!.
  - by apply command_terminated.
  - by rewrite length_insert.
  - apply list_elem_of_lookup. exists 31%nat. apply list_lookup_insert_eq. lia.
Qed.

(** The block with another command. *)
Definition with_command (c l : list Z) : list Z := take 32 c ++ replicate (32 - length c) 0 ++ drop 32 l.

Lemma with_command_length c l : length l = 512%nat → length (with_command c l) = 512%nat.
Proof. intros Hl. unfold with_command. rewrite !length_app, length_take, length_replicate, length_drop. lia. Qed.

Lemma command_with c l : 0 ∉ c → command_of (with_command c l) = take 31 c.
Proof.
  intros Hc. unfold command_of, with_command.
  assert (0 ∉ take 31 c) as H31 by (intros Hi; apply Hc; rewrite <-(take_drop 31 c); apply elem_of_app; by left).
  destruct (decide (31 <= length c)%nat) as [Hl|Hl].
  - rewrite take_app_le by (rewrite length_take; lia). rewrite take_take. replace (31 `min` 32)%nat with 31%nat by lia.
    by apply cut_id.
  - rewrite (take_ge c 32), take_app_ge by lia. rewrite (take_ge c 31) in * by lia.
    replace (32 - length c)%nat with (S (31 - length c)) by lia. cbn [replicate app].
    destruct (31 - length c)%nat eqn:E; [lia|]. cbn [take]. by apply cut_app.
Qed.

(** What a write of command [c] leaves. *)
Record written s (e : fastboot_ptentry) (c : list Z) s' : Prop := mkWritten {
  wr_table : b_table (bm_board s') = b_table (bm_board s);
  wr_block : length (bootmsg_1st_block s') = 512%nat;
  wr_idme : selected (mdev s') 1 = selected (mdev s) 1;
  wr_card : disk_eq (card s') (write_sectors (card s) (pstart e) (with_command c (card s (pstart e))));
  wr_other p : p ≠ selected (mdev s) 1 → disk_eq (contents (mdev s') 1 p) (contents (mdev s) 1 p) }.

Lemma wp_write_command s e c t (Q : bm D → unit → Prop) : misc_at s e → length (bootmsg_1st_block s) = 512%nat → 0 ∉ c →
  (∀ s', written s e c s' → Q s' tt) →
  wp (bootmsg_write_command (c ++ 0 :: t)) s Q.
Proof using Hrel.
  intros He Hl Hc HQ. unfold bootmsg_write_command. eapply wp_bind, wp_find_misc; [exact He|]. repeat wp_step.
  apply wp_read_msg; [done|]. repeat wp_step. unfold COMMAND_SIZE. eapply wp_lift; [by apply strncpy_spec|]. repeat wp_step.
  cbn [bootmsg_1st_block bm_board]. pose proof (contents_size (mdev s) 1 (selected (mdev s) 1) (pstart e)) as Hs. fold (card s) in Hs.
  eapply wp_lift; [apply blit_Some; rewrite ?length_app, ?length_take, ?length_replicate; lia|].
  match goal with |- context [set_block ?l] => replace l with (with_command c (card s (pstart e))) end.
  2:{ unfold with_command. change (Z.to_nat 0) with 0%nat. change (Z.to_nat 32) with 32%nat.
      rewrite take_0, length_app, length_take, length_replicate, <-app_assoc. cbn [app]. do 3 f_equal. lia. }
  apply wp_bind, wp_modify. cbn [bootmsg_1st_block bm_board]. apply wp_bind. unfold wp at 1, on_state. cbn [bm_board].
  destruct Hrel as (_ & Hw & _). fold (mdev s). pose proof (with_command_length c _ Hs) as Hlen.
  pose proof (Hw (mdev s) 1 (with_command c (card s (pstart e))) (pstart e)) as Er.
  destruct (mmc_write (mdev s) 1 (with_command c (card s (pstart e))) (pstart e)) as [d r] eqn:E. cbn in Er. subst r.
  pose proof (write_selected (mdev s) 1 (with_command c (card s (pstart e))) (pstart e)) as Esel. rewrite E in Esel. cbn in Esel.
  apply wp_terminate; [exact Hlen|]. apply HQ. split; cbn [bm_board b_table bootmsg_1st_block].
  - done.
  - by rewrite length_insert.
  - exact Esel.
  - pose proof (write_ok _ _ _ _ _ E) as Hcc. rewrite Hlen in Hcc. specialize (Hcc eq_refl).
    rewrite <-Esel in Hcc at 1. exact Hcc.
  - intros p Hp. pose proof (write_other (mdev s) 1 (with_command c (card s (pstart e))) (pstart e) p Hp) as Ho. by rewrite E in Ho.
Qed.

Lemma written_misc s e c s' : written s e c s' → misc_at s e → misc_at s' e.
Proof. intros [Et _ _ _ _] (n & E1 & E2). exists n. by rewrite !Et. Qed.

(** Writing one sector. *)
Lemma write_sectors_here (dk : disk) b l : length l = 512%nat → write_sectors dk b l b = l.
Proof.
  intros Hl. unfold write_sectors. rewrite Hl, Z.sub_diag, Z.mul_0_r. change (Z.of_nat 512 / 512) with 1.
  destruct (Z.leb_spec b b), (Z.ltb_spec b (b + 1)); try lia.
  cbn [andb]. change (Z.to_nat 0) with 0%nat. rewrite drop_0. apply take_ge. lia.
Qed.

(** The sector of the message after the write. *)
Lemma written_sector s e c s' : written s e c s' → card s' (pstart e) = with_command c (card s (pstart e)).
Proof. intros Hw. rewrite (wr_card _ _ _ _ Hw). apply write_sectors_here, with_command_length, contents_size. Qed.

(** C24: a command that [bootmsg_write_command] writes is the one
    [bootmsg_get_command] returns, cut to 31 characters.  Only the first 32
    bytes of the message's sector change; the rest of it, the other sectors and
    the other partitions of the card keep what they hold. *)
Theorem bootmsg_roundtrip s e c t
    (He : misc_at s e)
    (Hl : length (bootmsg_1st_block s) = 512%nat)
    (Hc : 0 ∉ c) :
  wp (_ ← bootmsg_write_command (c ++ 0 :: t); bootmsg_get_command) s (λ s' o, ∃ l, o = Some l ∧ cut l = take 31 c ∧
    bootmsg_1st_block s' = l ∧ written s e c s').
Proof using Hrel.
  apply wp_bind, wp_write_command with e; [done..|]. intros s1 Hw.
  apply wp_get_command with e; [by eapply written_misc|apply Hw|]. cbv zeta.
  destruct (message_read s1 e) as (E1 & E2 & _). eexists. split_and!; try done.
  - by rewrite E1, (written_sector _ _ _ _ Hw), command_with.
  - destruct Hw. by split.
Qed.

(** ** The decision at power-on *)

Inductive decision := Fastboot | Recovery | Normal.

(** [mode] is the character of the variable. *)
Definition decide_boot (mode : Z) (hw : power_on) : decision :=
  if mode =? 53 then Fastboot
  else if negb (KBD_STATEMACHINE hw =? 0) then if KBD_FULLCODE31_0 hw =? 0x800 then Recovery else Fastboot
  else if Z.testbit (GPIO4_DATA_IN hw) 8 then Fastboot
  else if Z.testbit (PRM_RSTST hw) 1 then
    if decide (cut (PUBLIC_SAR_RAM_1_FREE hw) = str "recovery") then Recovery
    else if decide (cut (PUBLIC_SAR_RAM_1_FREE hw) = str "bootloader") then Fastboot else Normal
  else Normal.

(** Nothing on the card, and not the buffer, has changed. *)
Record quiet s s' : Prop := mkQuiet {
  qt_table : b_table (bm_board s') = b_table (bm_board s);
  qt_block : bootmsg_1st_block s' = bootmsg_1st_block s;
  qt_sel : sel (b_idme (bm_board s')) = 0;
  qt_parts : same_parts (b_idme (bm_board s)) (b_idme (bm_board s')) }.

Lemma quiet_misc s s' e : quiet s s' → misc_at s e → misc_at s' e.
Proof. intros [Et _ _ _] (n & E1 & E2). exists n. by rewrite !Et. Qed.

Lemma quiet_card s s' n : quiet s s' → sel (b_idme (bm_board s)) = 0 → card s' n = card s n.
Proof. intros [_ _ Hs Hp] Hs0. unfold card, mdev. unfold sel in *. rewrite Hs, Hs0. apply Hp. Qed.

Lemma quiet_written s s1 s2 e c : quiet s s1 → sel (b_idme (bm_board s)) = 0 → written s1 e c s2 → written s e c s2.
Proof.
  intros Hq Hs0 [Ht Hb Hi Hc Ho]. pose proof Hq as [Qt Qb Qs Qp]. split.
  - by rewrite Ht.
  - done.
  - unfold sel, mdev in *. by rewrite Hi, Qs, Hs0.
  - rewrite Hc, (quiet_card _ _ _ Hq Hs0). apply write_sectors_proper. intros n. by apply quiet_card.
  - intros p Hp. rewrite Ho; [intros n; apply Qp|]. unfold sel, mdev in *. by rewrite Qs, <-Hs0.
Qed.

Lemma wp_on_board (m : ST (idme D) Z) s (Q : bm D → Z → Prop) :
  wp m (b_idme (bm_board s)) (λ i r, Q (mkBm (mkBoard i (b_table (bm_board s))) (bootmsg_1st_block s)) r) →
  wp (on_state (on_idme m)) s Q.
Proof. unfold wp, on_state, on_idme. by destruct (m (b_idme (bm_board s))) as [[i r]|]. Qed.

(** The sector [fastboot_preboot] runs on: the partition is there, the buffer
    has its size and the arrays are long enough. *)
Record power_ok s (e : fastboot_ptentry) (stack : list Z) (hw : power_on) : Prop := mkPowerOk {
  po_misc : misc_at s e;
  po_block : length (bootmsg_1st_block s) = 512%nat;
  po_sel : sel (b_idme (bm_board s)) = 0;
  po_stack : (18 <= length stack)%nat;
  po_reboot : 0 ∈ PUBLIC_SAR_RAM_1_FREE hw ∧ bytes (PUBLIC_SAR_RAM_1_FREE hw) }.

(** What the decision amounts to. *)
Definition decided (d : decision) s e s' (r : Z) : Prop :=
  match d with
  | Fastboot => r = 1 ∧ quiet s s'
  | Recovery => r = 0 ∧ written s e (str "boot-recovery") s'
  | Normal => r = 0 ∧ quiet s s'
  end.

Lemma wp_start_recovery s s1 e : misc_at s1 e → length (bootmsg_1st_block s1) = 512%nat → quiet s s1 →
  sel (b_idme (bm_board s)) = 0 → wp start_recovery s1 (decided Recovery s e).
Proof using Hrel.
  intros He Hl Hq Hs. unfold start_recovery. apply wp_bind. change BOOTMSG_COMMAND_RECOVERY with (str "boot-recovery" ++ 0 :: []).
  apply wp_write_command with e; [done|done|by_eval|]. intros s' Hw. apply wp_ret. split; [done|by eapply quiet_written].
Qed.

Lemma fastboot_preboot_spec s e stack hw : power_ok s e stack hw →
  wp (fastboot_preboot stack hw) s (decided (decide_boot (boot_mode (b_idme (bm_board s))) hw) s e).
Proof using Hrel.
  intros [He Hl Hs Hst [Hn Hby]]. unfold fastboot_preboot, decide_boot. apply wp_bind, wp_on_board.
  eapply wp_mono; [by apply (getbootmode_spec Hrel)|]. cbn beta. intros i v (-> & Hi & Hp & _).
  set (s1 := mkBm _ _). assert (quiet s s1) as Hq by by split. pose proof (quiet_misc _ _ _ Hq He) as He1.
  destruct (Z.eqb_spec (boot_mode (b_idme (bm_board s)) - 48) 5), (Z.eqb_spec (boot_mode (b_idme (bm_board s))) 53); try lia;
    [by apply wp_ret|].
  destruct (negb (KBD_STATEMACHINE hw =? 0)).
  { destruct (KBD_FULLCODE31_0 hw =? 0x800); [by apply wp_start_recovery|by apply wp_ret]. }
  rewrite land_shiftl_1 by done. destruct (Z.testbit (GPIO4_DATA_IN hw) 8); [by apply wp_ret|].
  change PRM_RSTST_RESET_WARM_BIT with (Z.shiftl 1 1). rewrite land_shiftl_1 by done.
  destruct (Z.testbit (PRM_RSTST hw) 1); [|by apply wp_ret].
  destruct (c_strcmp_spec (PUBLIC_SAR_RAM_1_FREE hw) (lit "recovery")) as (r1 & E1 & Hr1); [done|by_eval|done|by_eval|].
  apply wp_bind. eapply wp_lift; [exact E1|]. change (cut (lit "recovery")) with (str "recovery") in Hr1.
  destruct (Z.eqb_spec r1 0) as [Hz|Hz]; [rewrite decide_True by (by apply Hr1); by apply wp_start_recovery|].
  rewrite decide_False by (intros ?; by apply Hz, Hr1).
  destruct (c_strcmp_spec (PUBLIC_SAR_RAM_1_FREE hw) (lit "bootloader")) as (r2 & E2 & Hr2); [done|by_eval|done|by_eval|].
  apply wp_bind. eapply wp_lift; [exact E2|]. change (cut (lit "bootloader")) with (str "bootloader") in Hr2.
  destruct (Z.eqb_spec r2 0) as [Hz2|Hz2]; [rewrite decide_True by (by apply Hr2); by apply wp_ret|].
  rewrite decide_False by (intros ?; by apply Hz2, Hr2). by apply wp_ret.
Qed.
End spec.

(** ** A board with a message block *)

#[local] Definition misc_entry : fastboot_ptentry := mkPtentry (take 16 (str "misc" ++ replicate 16 0)) 300 512 0.
#[local] Definition misc_board : board ram :=
  mkBoard (mkIdme (mkRam ∅ ∅) (replicate 512 0) [] 0 (replicate 17 0) (replicate 17 0))
    (mkTable (misc_entry :: replicate 15 misc_entry) 1).
#[local] Definition misc_state : bm ram := mkBm misc_board (replicate 512 7).

Lemma bootmsg_roundtrip_witness :
  wp (_ ← bootmsg_write_command (str "boot-recovery" ++ [0]); bootmsg_get_command) misc_state (λ s' o, ∃ l,
    o = Some l ∧ cut l = take 31 (str "boot-recovery") ∧ bootmsg_1st_block s' = l ∧ written misc_state misc_entry (str "boot-recovery") s').
Proof.
  apply (bootmsg_roundtrip ram_reliable misc_state misc_entry (str "boot-recovery") []).
  - exists 0. split; [by vm_compute|done].
  - done.
  - by_eval.
Defined.
