(* ===== verification/MainLoop.v ===== *)
(** [abortboot] and [main_loop] of [common/main.c]: what the boot loader does
    from the end of the initialisation on. *)
From stdpp Require Import base tactics option list strings.
From Stdlib Require Import ZArith Lia.
From S2P Require Import Prelude.
From S2P Require Import CMem.
From S2P Require Import CString.
From S2P Require Import MmcDev.
From S2P Require Import Eff.
From S2P Require Import CBuf.
From S2P Require Import Vsprintf.
From S2P Require Import Env.
From S2P Require Import Cli.
From S2P Require Import Complete.
From S2P Require Import Readline.
From S2P Require Import Bootmsg.
Open Scope Z_scope.

(** What the console hears, in order of time: a character, or [None] when
    somebody looks and there is none. *)
Definition console : Type := list (option Z).

(** The next character; [None] when there will not be one. *)
Fixpoint next_char (l : console) : option (Z * console) :=
  match l with
  | [] => None
  | None :: l' => next_char l'
  | Some c :: l' => Some (c, l')
  end.

(** The state of the commands holds that of the board. *)
Class HasBoard (C D : Type) := {
  the_bm : C → bm D;
  put_bm : bm D → C → C;
}.
Class HasBoardLaws (C D : Type) `{HasBoard C D} `{Cli C} := {
  the_put b c : the_bm (put_bm b c) = b;
  put_put b b' c : put_bm b (put_bm b' c) = put_bm b c;
  env_put b c : cli_env (put_bm b c) = cli_env c;
}.

(** The globals of [main.c] next to those of the commands; the commands do
    not touch them. *)
Record mon (C : Type) := mkMon {
  m_cmds : C; m_console : console; m_buffer : list Z; lastcommand : list Z; is_recovery_mode : Z }.
Arguments mkMon {C}.
Arguments m_cmds {C}.
Arguments m_console {C}.
Arguments m_buffer {C}.
Arguments lastcommand {C}.
Arguments is_recovery_mode {C}.

Definition CONFIG_BOOTDELAY : Z := 1.
Definition CMD_FLAG_REPEAT : Z := 1.

Section main.
Context {C : Type} `{Cli C} {D : Type} `{MmcDev D} `{HasBoard C D}.
#[local] Abbreviation M := (ST (mon C)).

Definition on_cmds {A} (m : ST C A) : M A := λ s,
  match m (m_cmds s) with
  | Some (c, a) => Some (mkMon c (m_console s) (m_buffer s) (lastcommand s) (is_recovery_mode s), a)
  | None => None
  end.
Definition on_bm {A} (m : ST (bm D) A) : M A := on_cmds (λ c,
  match m (the_bm c) with Some (b, a) => Some (put_bm b c, a) | None => None end).
Definition set_console (l : console) (s : mon C) : mon C :=
  mkMon (m_cmds s) l (m_buffer s) (lastcommand s) (is_recovery_mode s).
Definition set_buffer (l : list Z) (s : mon C) : mon C :=
  mkMon (m_cmds s) (m_console s) l (lastcommand s) (is_recovery_mode s).
Definition set_last (l : list Z) (s : mon C) : mon C :=
  mkMon (m_cmds s) (m_console s) (m_buffer s) l (is_recovery_mode s).
Definition set_recovery (s : mon C) : mon C :=
  mkMon (m_cmds s) (m_console s) (m_buffer s) (lastcommand s) 1.

(** [tstc] looks, [getc] waits. *)
Definition tstc : M bool :=
  s ← get;
  match m_console s with
  | [] => mret false
  | None :: l => _ ← modify (set_console l); mret false
  | Some _ :: _ => mret true
  end.
Definition getc : M Z :=
  s ← get;
  '(c, l) ← lift (next_char (m_console s));
  _ ← modify (set_console l);
  mret c.

(** ** [abortboot] *)

(** "delay 100 * 10ms": whether a key was pressed. *)
Definition wait_step (i : Z) : M (Z + bool) :=
  if i <? 100 then
    b ← tstc;
    if (b : bool) then _ ← getc; mret (inr true) else mret (inl (i + 1))
  else mret (inr false).
Definition delay_step (bootdelay : Z) : M (Z + Z) :=
  if 0 <? bootdelay then
    b ← mloop 101 wait_step 0;
    mret (if (b : bool) then inr 1 else inl (bootdelay - 1))
  else mret (inr 0).
Definition abortboot (bootdelay : Z) : M Z :=
  abort ← (if 0 <=? bootdelay then
             b ← tstc;
             if (b : bool) then _ ← getc; mret 1 else mret 0
           else mret 0);
  if negb (abort =? 0) then mret abort else mloop (S (Z.to_nat bootdelay)) delay_step bootdelay.

(** ** [main_loop] *)

Section loop.
(** The commands once [install_auto_complete] has run; the uninitialised
    locals of [run_command]; the static buffers of the completion. *)
Context (table : list (cmd_tbl C)) (cmdbuf0 final0 vtmp ctmp : list Z).

Definition run (cmd : option (list Z)) (flag : Z) : M Z := on_cmds (run_command table cmdbuf0 final0 cmd flag).

(** The string at a place of the environment. *)
Definition env_string (k : option Z) (s : mon C) : option (list Z) :=
  (λ k, drop (Z.to_nat k) (cli_env (m_cmds s))) <$> k.

(** What the message selects. *)
Definition boot_variable (msg : option (list Z)) : M (list Z) :=
  match msg with
  | None => mret (lit "bootcmd")
  | Some m =>
      r ← lift (c_strcmp m BOOTMSG_COMMAND_RECOVERY);
      if r =? 0 then _ ← modify set_recovery; mret (lit "recoverycmd") else
      r ← lift (c_strcmp m BOOTMSG_COMMAND_NORMAL);
      if r =? 0 then mret (lit "bootcmd") else mret (lit "bootcmd")
  end.

Definition autoboot : M unit :=
  s ← get;
  k ← lift (getenv (cli_env (m_cmds s)) (lit "bootdelay"));
  bootdelay ← lift (match env_string k s with
                    | Some v => '(n, _) ← simple_strtol v 10; Some n
                    | None => Some CONFIG_BOOTDELAY
                    end);
  msg ← on_bm bootmsg_get_command;
  v ← boot_variable msg;
  s ← get;
  k ← lift (getenv (cli_env (m_cmds s)) v);
  match env_string k s with
  | Some cmd =>
      if 0 <=? bootdelay then
        a ← abortboot bootdelay;
        if a =? 0 then _ ← run (Some cmd) 0; mret tt else mret tt
      else mret tt
  | None => mret tt
  end.

(** Up to the prompt; [hw] and [stack] are those of [fastboot_preboot]. *)
Definition startup (stack : list Z) (hw : power_on) : M unit :=
  r ← on_bm (fastboot_preboot stack hw);
  _ ← (if negb (r =? 0) then run (Some (lit "fastboot")) 0 else mret 0);
  autoboot.

(** "if (len > 0) strcpy (lastcommand, console_buffer)". *)
Definition store_line (len : Z) : M unit :=
  if 0 <? len then
    s ← get;
    l ← lift (blit (lastcommand s) 0 (cut (m_buffer s) ++ [0]));
    modify (set_last l)
  else mret tt.

(** "invalid command or not repeatable, forget it". *)
Definition forget (rc : Z) : M unit :=
  if rc <=? 0 then s ← get; l ← lift (upd (lastcommand s) 0 0); modify (set_last l) else mret tt.

(** One round of [for (;;)], [rc] being the result so far: the next result,
    or [None] while [readline] waits. *)
Definition prompt_round (rc : Z) : M (option Z) :=
  s ← get;
  '(r, len, rest) ← lift (readline (cli_env (m_cmds s)) table vtmp ctmp (Some CFG_PROMPT) (m_buffer s)
                            (omap id (m_console s)));
  _ ← modify (λ s, set_console (Some <$> rest) (set_buffer (console_buffer r) s));
  match len with
  | None => mret None
  | Some len =>
      _ ← store_line len;
      let flag := if len =? 0 then CMD_FLAG_REPEAT else 0 in
      s ← get;
      rc ← (if len =? -1 then mret rc else run (Some (lastcommand s)) flag);
      _ ← forget rc;
      mret (Some rc)
  end.
Definition prompt_step (rc : Z) : M (Z + Z) :=
  o ← prompt_round rc; mret (match o with Some rc => inl rc | None => inr rc end).
(** Until there is nothing more to read; every round reads a character. *)
Definition prompt_loop (rc : Z) : M Z :=
  s ← get; mloop (S (length (m_console s))) prompt_step rc.
End loop.

Definition main_loop (table : list (cmd_tbl C)) (cmdbuf0 final0 vtmp ctmp stack : list Z) (hw : power_on) : M Z :=
  table ← lift (install_auto_complete table);
  _ ← startup table cmdbuf0 final0 stack hw;
  prompt_loop table cmdbuf0 final0 vtmp ctmp 1.
End main.
