(* ===== verification/MainSpec.v ===== *)
(** [MainLoop]: how long the boot loader waits for a key, and that the prompt
    runs the lines typed, one after the other. *)
From stdpp Require Import base tactics option list strings.
From Stdlib Require Import ZArith Lia.
From S2P Require Import Prelude.
From S2P Require Import CMem.
From S2P Require Import CString.
From S2P Require Import MmcDev.
From S2P Require Import Eff.
From S2P Require Import CBuf.
From S2P Require Import Vsprintf.
From S2P Require Import Ptable.
From S2P Require Import Env.
From S2P Require Import EnvSpec.
From S2P Require Import Cli.
From S2P Require Import CliSpec.
From S2P Require Import CliRun.
From S2P Require Import Complete.
From S2P Require Import CompleteSpec.
From S2P Require Import Readline.
From S2P Require Import ReadlineSpec.
From S2P Require Import Bootmsg.
From S2P Require Import MainLoop.
Open Scope Z_scope.

(** ** [run_command] and its argument *)

Section run.
Context {S : Type} `{Cli S} (table : list (cmd_tbl S)).

(** Only the string counts. *)
Lemma run_command_string c0 f0 c t flag s : 0 ∉ c →
  run_command table c0 f0 (Some (c ++ 0 :: t)) flag s = run_command table c0 f0 (Some (c ++ [0])) flag s.
Proof.
  intros Hc. unfold run_command, mbind, st_bind, modify, lift. rewrite !c_strlen_app, !cut_app by done.
  destruct c as [|x c]; done.
Qed.

Lemma find_loop_in (tbl : list (cmd_tbl S)) cmd len temp n c : find_loop tbl cmd len temp n = Some (Some c) → c ∈ tbl ∨ temp = Some c.
Proof.
  revert temp n. induction tbl as [|d tbl IH]; intros temp n; cbn [find_loop].
  - case_match; [|done]. intros [= <-]. by right.
  - destruct (c_strncmp _ _ _) as [r|]; [|done]. cbn [mbind option_bind]. rewrite elem_of_cons.
    destruct (r =? 0); [|intros [?|?]%IH; auto].
    destruct (c_strlen _) as [l|]; [|done]. cbn [mbind option_bind].
    destruct (len =? l); [intros [= <-]; auto|]. intros [?|?]%IH; [auto|simplify_eq; auto].
Qed.

Lemma find_cmd_in cmd c : find_cmd table cmd = Some (Some c) → c ∈ table.
Proof.
  unfold find_cmd. destruct (c_strlen cmd) as [n|]; [|done]. cbn [mbind option_bind].
  intros E. by apply find_loop_in in E as [?|?].
Qed.

(** It leaves behind what every command leaves behind. *)
Lemma run_command_stays (R : S → S → Prop) `{!PreOrder R} c0 f0 cmd flag :
  (∀ s, R s (clear_ctrlc s)) → (∀ c fl argv, c ∈ table → stays R (cmd_func c fl argv)) →
  stays R (run_command table c0 f0 cmd flag).
Proof.
  intros Hclear Hcmd.
  assert (∀ x argv c, c ∈ table → stays R (call_cmd c argv x)) as Hcall.
  { intros x argv c Hc. unfold call_cmd. stay. by apply Hcmd. }
  assert (∀ argv x, stays R (dispatch table argv x)) as Hdisp.
  { intros argv x. unfold dispatch. destruct argv as [|a argv]; [stay|].
    intros s s' b. unfold mbind, st_bind, lift. destruct (find_cmd table a) as [[c|]|] eqn:E; [|by intros [= <- <-]|done].
    apply find_cmd_in in E. destruct (_ <? _); [by intros [= <- <-]|]. destruct (is_bootd c); [|by apply Hcall].
    destruct (negb _); [by intros [= <- <-]|by apply Hcall]. }
  unfold run_command. stay; [by apply stays_modify|]. destruct cmd; stay. destruct (_ =? 0); stay.
  destruct (CFG_CBSIZE <=? _); stay. unfold run_step. stay. destruct (_ =? 0); stay; [destruct (negb _); stay|].
  all: repeat match goal with x : (_ * _)%type |- _ => destruct x end; stay.
  match goal with x : (_ * _)%type |- _ => destruct x end. apply Hdisp.
Qed.
End run.

(** ** Waiting for a key *)

(** The console behind the first character, if one comes among the first [k]
    looks. *)
Fixpoint pressed (k : nat) (l : console) : option console :=
  match k, l with
  | Datatypes.S k', None :: l' => pressed k' l'
  | Datatypes.S _, Some _ :: l' => Some l'
  | _, _ => None
  end.

Lemma pressed_add a b l : pressed (a + b) l = match pressed a l with Some l' => Some l' | None => pressed b (drop a l) end.
Proof.
  revert l. induction a as [|a IH]; intros l; [by rewrite drop_0|].
  destruct l as [|[c|] l]; cbn [Nat.add pressed drop]; [by destruct b|done|apply IH].
Qed.

Section wait.
Context {C : Type}.

(** The console after [k] looks, and whether they saw a character. *)
Definition looked (k : nat) (m : mon C) : mon C * bool :=
  match pressed k (m_console m) with
  | Some l => (set_console l m, true)
  | None => (set_console (drop k (m_console m)) m, false)
  end.

Lemma set_console_id (m : mon C) : set_console (m_console m) m = m.
Proof. by destruct m. Qed.

(** One look. *)
Lemma tstc_spec m : (b ← tstc; if (b : bool) then _ ← getc; mret true else mret false) m = Some (looked 1 m).
Proof.
  unfold tstc, getc, mbind, st_bind, mret, st_ret, get, modify, lift, looked. destruct m as [c [|[k|] l] b ls r]; done.
Qed.

Lemma looked_add a b m : looked (a + b) m = if (looked a m).2 then looked a m else looked b (looked a m).1.
Proof.
  unfold looked. rewrite pressed_add. destruct (pressed a (m_console m)) as [l|]; cbn [fst snd set_console m_console]; [done|].
  rewrite drop_drop. by destruct (pressed b _).
Qed.

Lemma wait_spec k : ∀ i m, i = 100 - Z.of_nat k → (k <= 100)%nat → mloop (Datatypes.S k) wait_step i m = Some (looked k m).
Proof.
  induction k as [|k IH]; intros i m -> Hk; rewrite mloop_S; unfold wait_step, mbind, st_bind.
  - cbn. unfold mret, st_ret, looked. cbn [pressed]. by rewrite drop_0, set_console_id.
  - destruct (Z.ltb_spec (100 - Z.of_nat (Datatypes.S k)) 100); [|lia]. change (Datatypes.S k) with (1 + k)%nat.
    rewrite looked_add. pose proof (tstc_spec m) as E. unfold mbind, st_bind in E.
    destruct (tstc m) as [[m1 b]|]; [|done]. destruct b.
    + destruct (getc m1) as [[m2 c]|]; [|done]. injection E as E. by rewrite <-E.
    + injection E as E. rewrite <-E. cbn [fst snd mret st_ret]. unfold mret, st_ret. cbn beta iota.
      apply IH; lia.
Qed.

Lemma delay_spec n : ∀ m, mloop (Datatypes.S n) delay_step (Z.of_nat n) m =
  Some ((looked (100 * n) m).1, if (looked (100 * n) m).2 then 1 else 0).
Proof.
  induction n as [|n IH]; intros m; rewrite mloop_S; unfold delay_step, mbind, st_bind.
  - cbn. unfold mret, st_ret, looked. cbn [pressed]. by rewrite drop_0, set_console_id.
  - destruct (Z.ltb_spec 0 (Z.of_nat (Datatypes.S n))); [|lia]. change 101%nat with (Datatypes.S 100).
    rewrite (wait_spec 100) by lia. replace (100 * Datatypes.S n)%nat with (100 + 100 * n)%nat by lia.
    rewrite looked_add. destruct (looked 100 m) as [m1 []]; cbn [fst snd mret st_ret]; [done|].
    replace (Z.of_nat (Datatypes.S n) - 1) with (Z.of_nat n) by lia. apply IH.
Qed.

(** [abortboot] looks once, and then 100 times a second. *)
Lemma abortboot_spec (n : nat) m : abortboot (Z.of_nat n) m =
  Some ((looked (1 + 100 * n) m).1, if (looked (1 + 100 * n) m).2 then 1 else 0).
Proof.
  unfold abortboot. destruct (Z.leb_spec 0 (Z.of_nat n)); [|lia]. rewrite looked_add.
  pose proof (tstc_spec m) as E. unfold mbind, st_bind in *. destruct (tstc m) as [[m1 b]|]; [|done]. destruct b.
  - destruct (getc m1) as [[m2 c]|]; [|done]. injection E as E. by rewrite <-E.
  - injection E as E. rewrite <-E. cbn [fst snd]. unfold mret, st_ret. cbn [Z.eqb negb].
    rewrite Nat2Z.id. apply delay_spec.
Qed.
End wait.

(** ** The prompt *)

(** A line that is typed, ended or given up. *)
Inductive entry :=
  | Line (keys : list Z)
  | Interrupt (keys : list Z).
Definition entry_keys (e : entry) : list Z := match e with Line ks | Interrupt ks => ks end.
Definition strokes (e : entry) : list Z := entry_keys e ++ [match e with Line _ => 13 | Interrupt _ => 3 end].

Section session.
Context {C : Type} `{HC : Cli C} (table : list (cmd_tbl C)) (vars : C → list var) (I : C → Prop).
Context (Hok : commands_ok table vars I).
Context (cmdbuf0 final0 vtmp ctmp : list Z).
Context (Hvtmp : Z.of_nat (length vtmp) = 512) (Hctmp : Z.of_nat (length ctmp) = CFG_CBSIZE).

(** The line the keys amount to when the commands are in state [s]. *)
Definition typed_line (s : C) (keys : list Z) : list Z := foldl (edit (vars s) table (cut CFG_PROMPT)) [] keys.

(** The lines run, one after the other: [last] is the command an empty line
    repeats, and [rc] the result so far. *)
Fixpoint session (entries : list entry) (last : list Z) (rc : Z) : ST C Z :=
  match entries with
  | [] => mret rc
  | Interrupt _ :: es => session es (if rc <=? 0 then [] else last) rc
  | Line keys :: es =>
      s ← get;
      let line := typed_line s keys in
      let cmd := match line with [] => last | _ => line end in
      rc ← run_command table cmdbuf0 final0 (Some (cmd ++ [0])) (match line with [] => CMD_FLAG_REPEAT | _ => 0 end);
      session es (if rc <=? 0 then [] else cmd) rc
  end.

Definition entry_ok (e : entry) : Prop := ∀ s, I s → keys_ok (vars s) table (cut CFG_PROMPT) [] (entry_keys e).

(** The monitor at the prompt. *)
Record at_prompt (m : mon C) (last : list Z) : Prop := mkAtPrompt {
  ap_inv : I (m_cmds m);
  ap_buffer : Z.of_nat (length (m_buffer m)) = CFG_CBSIZE;
  ap_size : Z.of_nat (length (lastcommand m)) = CFG_CBSIZE;
  ap_last : ∃ t, lastcommand m = last ++ 0 :: t;
  ap_text : 0 ∉ last;
}.

Lemma prompt_printable : Forall printable (cut CFG_PROMPT).
Proof. by_eval. Qed.

Lemma run_keeps cmd flag : stays (λ s s', I s → I s') (run_command table cmdbuf0 final0 cmd flag).
Proof using Hok.
  clear Hvtmp Hctmp. apply run_command_stays.
  - split; [by intros ?|by intros ? ? ? ? ?; auto].
  - intros s. apply (co_clear _ _ _ Hok).
  - intros c fl argv Hc s s' r E Hs. by eapply (co_keep _ _ _ Hok).
Qed.

Lemma forget_spec rc m last : at_prompt m last → ∃ m', forget rc m = Some (m', tt) ∧
  at_prompt m' (if rc <=? 0 then [] else last) ∧ m_cmds m' = m_cmds m ∧ m_console m' = m_console m.
Proof using.
  intros [Hi Hb Hs (t & El) H0]. unfold forget. destruct (rc <=? 0); [|by exists m; repeat split; try done; exists t].
  unfold mbind, st_bind, get, lift, modify. rewrite El.
  assert (∃ x t', last ++ 0 :: t = x :: t') as (x & t' & Et) by (destruct last; eauto). rewrite Et.
  rewrite (upd_at _ [] t' x) by done. eexists. split; [done|]. cbn [app]. repeat split; try done.
  - cbn [lastcommand set_last]. rewrite El, Et in Hs. exact Hs.
  - by exists t'.
  - apply not_elem_of_nil.
Qed.

Lemma round_wait rc m last : at_prompt m last → omap id (m_console m) = [] →
  ∃ m', prompt_round table cmdbuf0 final0 vtmp ctmp rc m = Some (m', None) ∧ m_cmds m' = m_cmds m.
Proof using.
  intros _ E. unfold prompt_round, mbind, st_bind, get, lift, modify. rewrite E. unfold readline.
  change (c_strlen CFG_PROMPT) with (Some 15). cbn [mbind option_bind read_chars]. by eexists.
Qed.
Lemma omap_some (l : list Z) : omap id (Some <$> l) = l.
Proof. induction l as [|x l IH]; [done|]. cbn. by rewrite IH. Qed.

(** Storing the line in [lastcommand]. *)
Lemma store_last (l : list Z) (line t : list Z) : 0 ∉ line → Z.of_nat (length line) <= CFG_CBSIZE - 2 →
  Z.of_nat (length l) = CFG_CBSIZE →
  ∃ t', blit l 0 (cut (line ++ 0 :: t) ++ [0]) = Some (line ++ 0 :: t') ∧ Z.of_nat (length (line ++ 0 :: t')) = CFG_CBSIZE.
Proof using.
  clear. intros H0 Hl Hs. rewrite cut_app by done. rewrite blit_Some by (rewrite ?length_app; cbn [length]; lia).
  change (Z.to_nat 0) with 0%nat. rewrite take_0. cbn [app].
  eexists. split; [by rewrite <-app_assoc|]. rewrite <-Hs, !length_app. cbn [length].
  rewrite length_drop. cbn [length Nat.add]. unfold CFG_CBSIZE in *. lia.
Qed.

Lemma round_line keys rest rc m last :
  at_prompt m last → entry_ok (Line keys) → omap id (m_console m) = keys ++ 13 :: rest →
  let line := typed_line (m_cmds m) keys in
  let cmd := match line with [] => last | _ => line end in
  match run_command table cmdbuf0 final0 (Some (cmd ++ [0])) (match line with [] => CMD_FLAG_REPEAT | _ => 0 end) (m_cmds m) with
  | None => prompt_round table cmdbuf0 final0 vtmp ctmp rc m = None
  | Some (c, rc') => ∃ m', prompt_round table cmdbuf0 final0 vtmp ctmp rc m = Some (m', Some rc') ∧
      at_prompt m' (if rc' <=? 0 then [] else cmd) ∧ m_cmds m' = c ∧ omap id (m_console m') = rest
  end.
Proof using HC Hok Hvtmp Hctmp.
  intros [Hi Hb Hs (t & El) H0] Hk Ein line cmd.
  destruct (readline_spec (cli_env (m_cmds m)) (vars (m_cmds m)) table (co_vars _ _ _ Hok _ Hi) (co_table _ _ _ Hok)
    vtmp ctmp Hvtmp Hctmp (cut CFG_PROMPT) prompt_printable keys 13 rest (m_buffer m) Hb (Hk _ Hi) ltac:(by left))
    as ([[r len] rest'] & Er & [Elen Erest [tl Ebuf] Esz Ety Elg _]).
  cbn [fst snd] in *. fold (typed_line (m_cmds m) keys) in *. fold line in Elen, Ebuf, Ety, Elg. subst len rest'.
  destruct (typed_text _ Ety) as [Hl0 _].
  (** the state when the command starts *)
  assert (∃ m1, store_line (Z.of_nat (length line)) (set_console (Some <$> rest) (set_buffer (console_buffer r) m)) = Some (m1, tt) ∧
     m_cmds m1 = m_cmds m ∧ m_console m1 = Some <$> rest ∧ at_prompt m1 cmd) as (m1 & E1 & Ec1 & En1 & Hm1).
  { unfold store_line, mbind, st_bind, get, lift, modify, mret, st_ret. destruct (Z.ltb_spec 0 (Z.of_nat (length line))) as [Hp|Hp].
    - cbn [lastcommand m_buffer set_console set_buffer]. rewrite Ebuf.
      destruct (store_last (lastcommand m) line tl Hl0 Elg Hs) as (t' & -> & Hsz). eexists. split; [done|].
      split; [done|]. split; [done|]. assert (cmd = line) as -> by (unfold cmd; destruct line; [cbn in Hp; lia|done]).
      split; cbn [m_cmds m_buffer lastcommand set_last set_console set_buffer]; [done|by rewrite <-Ebuf|done|by exists t'|done].
    - eexists. split; [done|]. split; [done|]. split; [done|].
      assert (cmd = last) as -> by (unfold cmd; destruct line; [done|cbn in Hp; lia]).
      split; cbn [m_cmds m_buffer lastcommand set_last set_console set_buffer]; try done. by exists t. }
  assert ((Z.of_nat (length line) =? -1) = false) as En by lia.
  destruct (ap_last _ _ Hm1) as (t1 & El1).
  assert ((if Z.of_nat (length line) =? 0 then CMD_FLAG_REPEAT else 0) = match line with [] => CMD_FLAG_REPEAT | _ => 0 end) as Efl
    by by destruct line.
  assert (prompt_round table cmdbuf0 final0 vtmp ctmp rc m =
    (rc ← run table cmdbuf0 final0 (Some (lastcommand m1)) (match line with [] => CMD_FLAG_REPEAT | _ => 0 end);
     _ ← forget rc; mret (Some rc)) m1) as ->.
  { unfold prompt_round. unfold mbind at 1, st_bind at 1, get at 1. rewrite Ein.
    change CFG_PROMPT with (cut CFG_PROMPT ++ [0]). unfold mbind at 1, st_bind at 1, lift at 1. rewrite Er. cbn beta iota.
    unfold mbind at 1, st_bind at 1, modify at 1. unfold mbind at 1, st_bind at 1. rewrite E1. cbv zeta.
    unfold mbind at 1, st_bind at 1, get at 1. by rewrite En, Efl. }
  rewrite El1. unfold mbind, st_bind, run, on_cmds. rewrite Ec1, (run_command_string _ _ _ cmd t1) by apply Hm1.
  destruct (run_command table cmdbuf0 final0 (Some (cmd ++ [0])) _ (m_cmds m)) as [[c rc']|] eqn:Erun; [|done].
  set (m3 := mkMon _ _ _ _ _). assert (at_prompt m3 cmd) as H3.
  { split; cbn; try apply Hm1. by eapply run_keeps. }
  destruct (forget_spec rc' m3 cmd H3) as (m' & E' & Hm' & Ec' & En').
  rewrite E'. exists m'. split; [done|]. split; [done|]. rewrite Ec', En'. split; [done|]. cbn [m_console m3]. rewrite En1. apply omap_some.
Qed.

Lemma round_break keys rest rc m last :
  at_prompt m last → entry_ok (Interrupt keys) → omap id (m_console m) = keys ++ 3 :: rest →
  ∃ m', prompt_round table cmdbuf0 final0 vtmp ctmp rc m = Some (m', Some rc) ∧
      at_prompt m' (if rc <=? 0 then [] else last) ∧ m_cmds m' = m_cmds m ∧ omap id (m_console m') = rest.
Proof using HC Hok Hvtmp Hctmp.
  intros [Hi Hb Hs (t & El) H0] Hk Ein.
  destruct (readline_break (cli_env (m_cmds m)) (vars (m_cmds m)) table (co_vars _ _ _ Hok _ Hi) (co_table _ _ _ Hok)
    vtmp ctmp Hvtmp Hctmp (cut CFG_PROMPT) prompt_printable keys rest (m_buffer m) Hb (Hk _ Hi))
    as (r & tl & Er & Ebuf & Esz).
  set (m1 := set_console (Some <$> rest) (set_buffer (console_buffer r) m)).
  assert (prompt_round table cmdbuf0 final0 vtmp ctmp rc m = (_ ← forget rc; mret (Some rc)) m1) as ->.
  { unfold prompt_round. unfold mbind at 1, st_bind at 1, get at 1. rewrite Ein.
    change CFG_PROMPT with (cut CFG_PROMPT ++ [0]). unfold mbind at 1, st_bind at 1, lift at 1. by rewrite Er. }
  assert (at_prompt m1 last) as H1 by (split; try done; by exists t).
  destruct (forget_spec rc m1 last H1) as (m' & E' & Hm' & Ec' & En'). unfold mbind, st_bind. rewrite E'.
  exists m'. split; [done|]. split; [done|]. rewrite Ec', En'. split; [done|]. apply omap_some.
Qed.

Lemma prompt_step_eq rc m : prompt_step table cmdbuf0 final0 vtmp ctmp rc m =
  match prompt_round table cmdbuf0 final0 vtmp ctmp rc m with
  | Some (m', Some rc') => Some (m', inl rc')
  | Some (m', None) => Some (m', inr rc)
  | None => None
  end.
Proof using. unfold prompt_step, mbind, st_bind. by destruct (prompt_round _ _ _ _ _ _ _) as [[m' [rc'|]]|]. Qed.

(** The prompt and the session agree, also on what is undefined. *)
Lemma prompt_loop_spec entries : ∀ n rc m last, at_prompt m last → Forall entry_ok entries → (length entries < n)%nat →
  omap id (m_console m) = concat (strokes <$> entries) →
  (λ '(m', rc'), (m_cmds m', rc')) <$> mloop n (prompt_step table cmdbuf0 final0 vtmp ctmp) rc m =
    session entries last rc (m_cmds m).
Proof using HC Hok Hvtmp Hctmp.
  induction entries as [|e es IH]; intros n rc m last Hm He Hn Ein; (destruct n as [|n]; [cbn in Hn; lia|]);
    rewrite mloop_S; unfold mbind at 1, st_bind at 1; rewrite prompt_step_eq.
  - destruct (round_wait rc m last Hm Ein) as (m' & -> & Ec). cbn. by rewrite Ec.
  - apply Forall_cons in He as [He Hes]. cbn [fmap list_fmap concat] in Ein. unfold strokes in Ein at 1. rewrite <-app_assoc in Ein.
    cbn [length] in Hn. destruct e as [keys|keys]; cbn [session].
    + pose proof (round_line keys _ rc m last Hm He Ein) as Hround. cbv zeta in Hround. unfold mbind, st_bind, get.
      destruct (run_command table cmdbuf0 final0 _ _ (m_cmds m)) as [[c rc']|]; [|by rewrite Hround].
      destruct Hround as (m' & -> & Hm' & <- & En). apply IH; [done|done|lia|done].
    + destruct (round_break keys _ rc m last Hm He Ein) as (m' & -> & Hm' & <- & En).
      apply IH; [done|done|lia|done].
Qed.

(** At most one entry for every character. *)
Lemma strokes_fit entries l : omap id l = concat (strokes <$> entries) → (length entries <= length l)%nat.
Proof using.
  clear. intros E. trans (length (omap id l)).
  - rewrite E. clear. induction entries as [|e es IH]; [done|]. cbn [fmap list_fmap concat length]. unfold strokes at 1.
    rewrite !length_app. cbn [length]. lia.
  - clear. induction l as [|[x|] l IH]; cbn; lia.
Qed.

(** C12: the prompt is a faithful interpreter of what is typed.  Given lines
    that are ended or given up with control-C, the loop runs, in order, the
    command every line amounts to after editing and completion; an empty line
    runs the last command again, with the flag that says so; a command that
    fails or is not repeatable is forgotten; control-C runs nothing.  The final
    state of the commands and the final result are those of the session, and
    one is undefined when the other is. *)
Theorem prompt_runs_lines entries rc m last
    (Hm : at_prompt m last)
    (Hentries : Forall entry_ok entries)
    (Hin : omap id (m_console m) = concat (strokes <$> entries)) :
  (λ '(m', rc'), (m_cmds m', rc')) <$> prompt_loop table cmdbuf0 final0 vtmp ctmp rc m = session entries last rc (m_cmds m).
Proof using HC Hok Hvtmp Hctmp.
  unfold prompt_loop. rewrite (bind_eq _ _ _ m m) by done.
  apply prompt_loop_spec; [done|done| |done]. pose proof (strokes_fit entries _ Hin). lia.
Qed.
End session.

(** ** A session *)

#[local] Existing Instance demo_cli.

(** "echo hi", nothing twice, an unknown command, a line given up, nothing. *)
Definition demo_entries : list entry :=
  [Line (str "echo hj" ++ [8] ++ str "i"); Line []; Line (str "nope"); Line []; Interrupt (str "echo x"); Line (str "ec 2")].
Definition demo_console : console := None :: (Some <$> concat (strokes <$> demo_entries)) ++ [None].

Lemma prompt_runs_lines_witness :
  (λ '(m', rc'), (m_cmds m', rc')) <$> prompt_loop demo_table (replicate 256 7) (replicate 256 8) (replicate 512 7) (replicate 256 7) 1
      (mkMon [] demo_console (replicate 256 9) (replicate 256 0) 0) =
    Some ([[str "echo"; str "hi"]; [str "echo"; str "hi"]; [str "ec"; str "2"]], 1).
Proof.
  etrans; [|vm_compute; reflexivity].
  apply (prompt_runs_lines demo_table (λ _, demo_vars) (λ _, True) demo_commands (replicate 256 7) (replicate 256 8)
    (replicate 512 7) (replicate 256 7) eq_refl eq_refl demo_entries 1 (mkMon [] demo_console (replicate 256 9) (replicate 256 0) 0) []).
  - split; [exact I|reflexivity|reflexivity|exists (replicate 255 0); reflexivity|by_eval].
  - repeat (apply Forall_cons; split; [intros s _; apply keys_plain; by_eval|]). by apply Forall_nil.
  - reflexivity.
Defined.
