(* ===== verification/MainBoot.v ===== *)
(** [MainLoop.startup]: the decision at power-on, the message block, the boot
    delay and the boot command, put together. *)
From stdpp Require Import base tactics option list gmap strings.
From Stdlib Require Import ZArith Lia.
From S2P Require Import Prelude.
From S2P Require Import CMem.
From S2P Require Import CString.
From S2P Require Import MmcDev.
From S2P Require Import Eff.
From S2P Require Import CBuf.
From S2P Require Import Vsprintf.
From S2P Require Import Ptable.
From S2P Require Import Env.
From S2P Require Import EnvSpec.
From S2P Require Import Cli.
From S2P Require Import CliSpec.
From S2P Require Import CliRun.
From S2P Require Import Idme.
From S2P Require Import IdmeSpec.
From S2P Require Import IdmeBoot.
From S2P Require Import Gpt.
From S2P Require Import Bootmsg.
From S2P Require Import BootmsgSpec.
From S2P Require Import MainLoop.
From S2P Require Import MainSpec.
Open Scope Z_scope.

(** ** What is booted *)

(** The variable for a command of the message block. *)
Definition boot_var_for (msg : list Z) : list Z :=
  if decide (msg = str "boot-recovery") then str "recoverycmd" else str "bootcmd".

(** The seconds to wait. *)
Definition boot_delay (es : list var) (n : Z) : Prop :=
  match assoc (str "bootdelay") es with
  | Some v => ∀ t, ∃ e, simple_strtol (v ++ 0 :: t) 10 = Some (n, e)
  | None => n = CONFIG_BOOTDELAY
  end.

Section boot.
Context {C : Type} {D : Type} `{MmcLaws D} `{HasBoardLaws C D} (Hrel : reliable D).
Context (table : list (cmd_tbl C)) (cmdbuf0 final0 : list Z).
Implicit Types (m : mon C).

#[local] Abbreviation B m := (the_bm (m_cmds m)).

(** The start of the board, with a well-formed environment. *)
Record start_ok m (es : list var) (e : fastboot_ptentry) (stack : list Z) (hw : power_on) : Prop := mkStartOk {
  so_power : power_ok (B m) e stack hw;
  so_env : env_ok (cli_env (m_cmds m)) es;
  so_bytes : ∀ n, bytes (card (B m) n) }.

(** The command that decides: what [fastboot_preboot] writes, or what the
    block holds. *)
Definition message (d : decision) (b : bm D) (e : fastboot_ptentry) : list Z :=
  match d with Recovery => str "boot-recovery" | _ => command_of (card b (pstart e)) end.

(** The board once the message is read. *)
Definition ready (d : decision) (b : bm D) (e : fastboot_ptentry) (b' : bm D) : Prop :=
  b_table (bm_board b') = b_table (bm_board b) ∧
  disk_eq (card b') (match d with
    | Recovery => write_sectors (card b) (pstart e) (with_command (str "boot-recovery") (card b (pstart e)))
    | _ => card b
    end).

Lemma wp_on_bm {A} (f : ST (bm D) A) m (Q : mon C → A → Prop) :
  wp f (B m) (λ b a, Q (mkMon (put_bm b (m_cmds m)) (m_console m) (m_buffer m) (lastcommand m) (is_recovery_mode m)) a) →
  wp (on_bm f) m Q.
Proof using. unfold wp, on_bm, on_cmds. by destruct (f (B m)) as [[b a]|]. Qed.

(** A variable looked up. *)
Lemma env_string_spec m es name : env_ok (cli_env (m_cmds m)) es → name_ok name →
  ∃ k, getenv (cli_env (m_cmds m)) (name ++ [0]) = Some k ∧
    match assoc name es with
    | Some v => (0 ∉ v) ∧ ∃ t, env_string k m = Some (v ++ 0 :: t)
    | None => env_string k m = None
    end.
Proof using.
  intros Henv Hn. pose proof (getenv_spec _ es name [] Henv Hn) as E. destruct (assoc name es) as [v|].
  - destruct E as (Hv & p & q & E & Eq). exists (Some (Z.of_nat (length p))). split; [done|]. split; [done|].
    exists q. unfold env_string. cbn. by rewrite Nat2Z.id, Eq, drop_app_length.
  - by exists None.
Qed.

(** The state in which the boot command runs. *)
Definition with_board m (b : bm D) : mon C :=
  mkMon (put_bm b (m_cmds m)) (m_console m) (m_buffer m) (lastcommand m) (is_recovery_mode m).
Definition selected_by (msg : list Z) m : mon C := if decide (msg = str "boot-recovery") then set_recovery m else m.

Lemma on_bm_get m e : misc_at (B m) e → length (bootmsg_1st_block (B m)) = 512%nat →
  let l := <[31%nat := 0]> (card (B m) (pstart e)) in
  on_bm bootmsg_get_command m = Some (with_board m (mkBm (bm_board (B m)) l), Some l).
Proof using Hrel.
  intros He Hl l. pose proof (wp_get_command Hrel (B m) e (λ s o, (s, o) = (mkBm (bm_board (B m)) l, Some l)) He Hl eq_refl) as Hw.
  apply wp_elim in Hw as (b & o & E & [= -> ->]). unfold on_bm, on_cmds. by rewrite E.
Qed.

Lemma boot_variable_spec l m : 0 ∈ l → bytes l →
  boot_variable (Some l) m = Some (selected_by (cut l) m, boot_var_for (cut l) ++ [0]).
Proof using.
  intros Hn0 Hb. unfold boot_variable, selected_by, boot_var_for, mbind, st_bind, lift.
  destruct (c_strcmp_spec l BOOTMSG_COMMAND_RECOVERY) as (r1 & -> & Hr1); [done|by_eval|done|by_eval|].
  change (cut BOOTMSG_COMMAND_RECOVERY) with (str "boot-recovery") in Hr1.
  destruct (Z.eqb_spec r1 0) as [Hz|Hz]; [rewrite !decide_True by (by apply Hr1); done|].
  rewrite !decide_False by (intros ?; by apply Hz, Hr1).
  destruct (c_strcmp_spec l BOOTMSG_COMMAND_NORMAL) as (r2 & -> & _); [done|by_eval|done|by_eval|]. by destruct (r2 =? 0).
Qed.

Lemma var_for_ok msg : name_ok (boot_var_for msg).
Proof using. unfold boot_var_for. case_decide; by_eval. Qed.

Lemma delay_value m es k n : boot_delay es n →
  match assoc (str "bootdelay") es with
  | Some v => (0 ∉ v) ∧ ∃ t, env_string k m = Some (v ++ 0 :: t)
  | None => env_string k m = None
  end →
  match env_string k m with Some v => '(n, _) ← simple_strtol v 10; Some n | None => Some CONFIG_BOOTDELAY end = Some n.
Proof using.
  unfold boot_delay. destruct (assoc (str "bootdelay") es) as [v|].
  - intros Hv (_ & t & ->). destruct (Hv t) as [x ->]. done.
  - by intros -> ->.
Qed.

(** Waiting, and running the command. *)
Lemma run_after_wait cmd t n m : 0 ∉ cmd →
  (if 0 <=? n then
     a ← abortboot n; if a =? 0 then _ ← run table cmdbuf0 final0 (Some (cmd ++ 0 :: t)) 0; mret tt else mret tt
   else mret tt) m =
  if n <? 0 then Some (m, tt) else
  let '(mk, key) := looked (1 + 100 * Z.to_nat n) m in
  if key then Some (mk, tt) else (_ ← run table cmdbuf0 final0 (Some (cmd ++ [0])) 0; mret tt) mk.
Proof using.
  intros Hc. destruct (Z.leb_spec 0 n), (Z.ltb_spec n 0); try lia; [|done].
  unfold mbind at 1, st_bind at 1. rewrite <-(Z2Nat.id n) at 1 by done. rewrite abortboot_spec.
  destruct (looked _ m) as [mk []]; cbn [fst snd Z.eqb]; [done|]. unfold mbind, st_bind, run, on_cmds.
  by rewrite run_command_string by done.
Qed.

(** [autoboot] with a message that is there. *)
Lemma autoboot_spec m es e n : env_ok (cli_env (m_cmds m)) es → misc_at (B m) e →
  length (bootmsg_1st_block (B m)) = 512%nat → bytes (card (B m) (pstart e)) → boot_delay es n →
  let msg := command_of (card (B m) (pstart e)) in
  let m' := selected_by msg (with_board m (mkBm (bm_board (B m)) (<[31%nat := 0]> (card (B m) (pstart e))))) in
  autoboot table cmdbuf0 final0 m =
    match assoc (boot_var_for msg) es with
    | Some cmd =>
        if n <? 0 then Some (m', tt) else
        let '(mk, key) := looked (1 + 100 * Z.to_nat n) m' in
        if key then Some (mk, tt) else (_ ← run table cmdbuf0 final0 (Some (cmd ++ [0])) 0; mret tt) mk
    | None => Some (m', tt)
    end.
Proof using All.
  intros Henv He Hl Hby Hdelay msg m'. unfold autoboot. rewrite (bind_eq _ _ _ m m) by done.
  destruct (env_string_spec m es (str "bootdelay") Henv) as (k & Ek & Hk); [by_eval|].
  change (str "bootdelay" ++ [0]) with (lit "bootdelay") in Ek.
  rewrite (bind_eq _ _ _ m k) by (unfold lift; by rewrite Ek).
  rewrite (bind_eq _ _ _ m n) by (unfold lift; by rewrite (delay_value m es k n)).
  rewrite (bind_eq _ _ _ _ _ (on_bm_get m e He Hl)). cbv zeta.
  destruct (message_read (B m) e) as (Ecut & _ & Hn0). fold msg in Ecut.
  erewrite bind_eq.
  2:{ apply boot_variable_spec; [done|]. apply Forall_insert; [done|]. by_eval. }
  rewrite Ecut. fold m'. erewrite bind_eq by done.
  assert (env_ok (cli_env (m_cmds m')) es) as Henv'.
  { unfold m', selected_by. case_decide; cbn [set_recovery with_board m_cmds]; by rewrite env_put. }
  destruct (env_string_spec m' es (boot_var_for msg) Henv' (var_for_ok msg)) as (k' & Ek' & Hk').
  erewrite bind_eq by (unfold lift; by rewrite Ek'). destruct (assoc (boot_var_for msg) es) as [cmd|].
  - destruct Hk' as (Hc & t & ->). by apply run_after_wait.
  - by rewrite Hk'.
Qed.
(** ** From power-on *)

Lemma ready_bytes b e d b' : (∀ n, bytes (card b n)) → ready d b e b' → bytes (card b' (pstart e)).
Proof using.
  intros Hb [_ Hc]. rewrite Hc. destruct d; try apply Hb.
  set (l := card b (pstart e)). assert (length l = 512%nat) as Hl by apply contents_size.
  rewrite (write_sectors_here (card b) (pstart e)) by by apply with_command_length.
  unfold with_command. rewrite !bytes_app. split; [|split]; [by_eval|by_eval|]. apply Forall_drop, Hb.
Qed.

Lemma ready_message b e d b' : ready d b e b' → command_of (card b' (pstart e)) = message d b e.
Proof using.
  intros [_ Hc]. rewrite Hc. destruct d; try done. cbn [message].
  rewrite (write_sectors_here (card b) (pstart e)) by (apply with_command_length, contents_size).
  rewrite command_with by by_eval. done.
Qed.

Lemma decided_ready d b e b' r : d ≠ Fastboot → sel (b_idme (bm_board b)) = 0 → length (bootmsg_1st_block b) = 512%nat →
  decided d b e b' r →
  r = 0 ∧ ready d b e b' ∧ length (bootmsg_1st_block b') = 512%nat ∧ (misc_at b e → misc_at b' e).
Proof using.
  intros Hd Hs Hl. destruct d; [done|intros [-> Hw]|intros [-> Hq]]; (split; [done|]); split.
  - split; apply Hw.
  - split; [apply Hw|by eapply written_misc].
  - split; [apply Hq|]. intros n. by apply quiet_card.
  - split; [by rewrite (qt_block _ _ Hq)|by apply quiet_misc].
Qed.

(** C3: from power-on to the prompt when nothing asks for fastboot.  A warm
    reset for recovery (or the recovery key) writes its command into the
    message block; the block then selects the variable to run, and marks
    recovery mode; the variable runs with the board as the message left it,
    unless it does not exist, the delay is negative, or a key comes among the
    first [1 + 100 * delay] looks, which stops at the prompt having used up
    that key only. *)
Theorem startup_boots m es e stack hw n
    (Hm : start_ok m es e stack hw)
    (Hd : decide_boot (boot_mode (b_idme (bm_board (B m)))) hw ≠ Fastboot)
    (Hdelay : boot_delay es n) :
  let d := decide_boot (boot_mode (b_idme (bm_board (B m)))) hw in
  let msg := message d (B m) e in
  ∃ b, ready d (B m) e b ∧
    let m' := selected_by msg (with_board m b) in
    startup table cmdbuf0 final0 stack hw m =
      match assoc (boot_var_for msg) es with
      | Some cmd =>
          if n <? 0 then Some (m', tt) else
          let '(mk, key) := looked (1 + 100 * Z.to_nat n) m' in
          if key then Some (mk, tt) else (_ ← run table cmdbuf0 final0 (Some (cmd ++ [0])) 0; mret tt) mk
      | None => Some (m', tt)
      end.
Proof using All.
  intros d msg. destruct Hm as [Hpow Henv Hby]. pose proof (fastboot_preboot_spec Hrel _ _ _ _ Hpow) as Hw. fold d in Hw, Hd.
  apply wp_elim in Hw as (b1 & r & E1 & Hdec).
  destruct (decided_ready _ _ _ _ _ Hd (po_sel _ _ _ _ Hpow) (po_block _ _ _ _ Hpow) Hdec) as (-> & Hr & Hl1 & Hmisc).
  unfold startup. rewrite (bind_eq (on_bm (fastboot_preboot stack hw)) _ m (with_board m b1) 0)
    by (unfold on_bm, on_cmds; by rewrite E1).
  rewrite (bind_eq _ _ _ (with_board m b1) 0) by done.
  pose proof (autoboot_spec (with_board m b1) es e n) as Ha. cbn [with_board m_cmds] in Ha. rewrite env_put, !the_put in Ha.
  specialize (Ha Henv (Hmisc (po_misc _ _ _ _ Hpow)) Hl1 (ready_bytes _ _ _ _ Hby Hr) Hdelay). cbv zeta in Ha.
  rewrite (ready_message _ _ _ _ Hr) in Ha. fold msg in Ha.
  exists (mkBm (bm_board b1) (<[31%nat := 0]> (card b1 (pstart e)))). split; [exact Hr|]. cbv zeta.
  rewrite Ha. unfold with_board at 2 4. cbn [m_cmds m_console m_buffer lastcommand is_recovery_mode].
  unfold with_board. cbn [m_cmds m_console m_buffer lastcommand is_recovery_mode]. by rewrite put_put.
Qed.

(** Otherwise fastboot comes first. *)
Lemma startup_fastboot m es e stack hw : start_ok m es e stack hw →
  decide_boot (boot_mode (b_idme (bm_board (B m)))) hw = Fastboot →
  ∃ b, quiet (B m) b ∧ startup table cmdbuf0 final0 stack hw m =
    (_ ← run table cmdbuf0 final0 (Some (lit "fastboot")) 0; autoboot table cmdbuf0 final0) (with_board m b).
Proof using All.
  intros [Hpow _ _] Hd. pose proof (fastboot_preboot_spec Hrel _ _ _ _ Hpow) as Hw. rewrite Hd in Hw.
  apply wp_elim in Hw as (b1 & r & E1 & -> & Hq). exists b1. split; [done|]. unfold startup.
  by rewrite (bind_eq (on_bm (fastboot_preboot stack hw)) _ m (with_board m b1) 1) by (unfold on_bm, on_cmds; by rewrite E1).
Qed.
End boot.

(** ** A recovery boot *)

(** The commands of a console that remembers what it ran, on a board. *)
#[local] Definition demo_vars : list var := [(str "bootdelay", str "0"); (str "bootcmd", str "ec boot"); (str "recoverycmd", str "ec rescue;ec me")].
#[local] Definition demo_block : list Z := encode demo_vars ++ replicate (Z.to_nat ENV_SIZE - length (encode demo_vars)) 0.
#[local] Definition demo_state : Type := bm ram * list (list (list Z)).
#[local] Instance demo_cli : Cli demo_state := {|
  cli_env _ := demo_block;
  clear_ctrlc s := s;
  had_ctrlc _ := false;
|}.
#[local] Instance demo_has : HasBoard demo_state ram := {| the_bm := fst; put_bm b s := (b, s.2) |}.
#[local] Instance demo_has_laws : HasBoardLaws demo_state ram.
Proof. by split. Qed.
#[local] Definition demo_table : list (cmd_tbl demo_state) :=
  [mkCmd (lit "echo") 16 1 false (λ _ argv s, Some ((s.1, s.2 ++ [cut <$> argv]), 0)) None None false].

(** "misc" is the second entry of the table. *)
#[local] Definition misc_entry : fastboot_ptentry := mkPtentry (take 16 (str "misc" ++ replicate 16 0)) 300 512 0.
#[local] Definition demo_board : board ram :=
  mkBoard (mkIdme (mkRam ∅ ∅) (replicate 512 0) [] 0 (replicate 17 0) (replicate 17 0))
    (mkTable (mkPtentry (take 16 (str "boot" ++ replicate 16 0)) 0 1024 0 :: misc_entry :: replicate 14 misc_entry) 2).
#[local] Definition demo_mon : mon demo_state :=
  mkMon (mkBm demo_board (replicate 512 7), []) [None; Some 65] (replicate 256 0) (replicate 256 0) 0.
(** A warm reset with "recovery" in the memory that survives. *)
#[local] Definition warm : power_on := mkPowerOn 0 0 0 2 (lit "recovery" ++ replicate 7 255).

Lemma startup_boots_witness :
  ∃ b, ready Recovery (mkBm demo_board (replicate 512 7)) misc_entry b ∧
    startup demo_table (replicate 256 7) (replicate 256 8) (replicate 20 9) warm demo_mon =
      Some (mkMon (b, [[str "ec"; str "rescue"]; [str "ec"; str "me"]]) [Some 65] (replicate 256 0) (replicate 256 0) 1, tt).
Proof.
  destruct (startup_boots ram_reliable demo_table (replicate 256 7) (replicate 256 8) demo_mon demo_vars misc_entry
    (replicate 20 9) warm 0) as (b & Hr & E).
  - split.
    + split; [exists 1; split; [by vm_compute|done]|done|done|cbn; lia|split; by_eval].
    + apply padded_env_ok; [repeat constructor; by_eval|by vm_compute].
    + intros k. apply (ram_bytes ∅). by_eval.
  - vm_compute. discriminate.
  - intros t. eexists. reflexivity.
  - exists b. split; [exact Hr|]. rewrite E. vm_compute. reflexivity.
Defined.
