(* ===== verification/PartDos.v ===== *)
(** The partition table of a disk as DOS writes it ([disk/part_dos.c], with
    [get_partition_info] of [disk/part.c]): four primary partitions in the
    first sector, and a chain of extended tables. *)
From stdpp Require Import base tactics option list strings.
From Stdlib Require Import ZArith Lia.
From S2P Require Import Prelude.
From S2P Require Import CBuf.
Open Scope Z_scope.

(** [block_read] of a block device: first block and number of blocks; the bytes
    that end up in the buffer, and the result. *)
Definition blockdev : Type := Z → Z → list Z * Z.

Definition DOS_PART_TBL_OFFSET : Z := 0x1be.
Definition DOS_PART_MAGIC_OFFSET : Z := 0x1fe.

(** The fields of [disk_partition_t] that are numbers. *)
Record disk_partition := mkPart { part_start : Z; part_size : Z; part_blksz : Z }.

Definition le32_to_int (l : list Z) : Z := s32 (le_val l).
Definition is_extended (part_type : Z) : bool := (part_type =? 0x5) || (part_type =? 0xf) || (part_type =? 0x85).

(** The fields of the [i]-th entry of the table in a sector. *)
Definition pt_sys_ind (buffer : list Z) (i : Z) : option Z := idx buffer (DOS_PART_TBL_OFFSET + 16 * i + 4).
Definition pt_start4 (buffer : list Z) (i : Z) : option (list Z) := slice buffer (DOS_PART_TBL_OFFSET + 16 * i + 8) 4.
Definition pt_size4 (buffer : list Z) (i : Z) : option (list Z) := slice buffer (DOS_PART_TBL_OFFSET + 16 * i + 12) 4.

(** "Print all primary/logical partitions", [n] entries from [i] on: the
    partition wanted, or the number of the next one. *)
Fixpoint scan_table (n : nat) (buffer : list Z) (ext_part_sector i part_num which_part : Z) : option (Z + disk_partition) :=
  match n with
  | O => Some (inl part_num)
  | S n' =>
      t ← pt_sys_ind buffer i;
      if negb (t =? 0) && (part_num =? which_part) && negb (is_extended t) then
        a ← pt_start4 buffer i;
        b ← pt_size4 buffer i;
        Some (inr (mkPart (u32 (ext_part_sector + le32_to_int a)) (u32 (le32_to_int b)) 512))
      else
        scan_table n' buffer ext_part_sector (i + 1)
          (if (ext_part_sector =? 0) || (negb (t =? 0) && negb (is_extended t)) then part_num + 1 else part_num) which_part
  end.

(** "Follows the extended partitions": the first one there is. *)
Fixpoint find_extended (n : nat) (buffer : list Z) (i : Z) : option (option (list Z)) :=
  match n with
  | O => Some None
  | S n' =>
      t ← pt_sys_ind buffer i;
      if is_extended t then a ← pt_start4 buffer i; Some (Some a) else find_extended n' buffer (i + 1)
  end.

Section info.
Context (block_read : blockdev).

(** [None] in the result is the error.  The fuel bounds the number of tables
    read. *)
Fixpoint get_partition_info_extended (fuel : nat) (ext_part_sector relative part_num which_part : Z) : option (option disk_partition) :=
  match fuel with
  | O => None
  | S fuel' =>
      let '(buffer, r) := block_read (u32 ext_part_sector) 1 in
      if negb (r =? 1) then Some None else
      a ← idx buffer DOS_PART_MAGIC_OFFSET;
      b ← idx buffer (DOS_PART_MAGIC_OFFSET + 1);
      if negb (a =? 0x55) || negb (b =? 0xaa) then Some None else
      x ← scan_table 4 buffer ext_part_sector 0 part_num which_part;
      match x with
      | inr info => Some (Some info)
      | inl part_num =>
          o ← find_extended 4 buffer 0;
          match o with
          | Some start4 =>
              let lba_start := s32 (le32_to_int start4 + relative) in
              get_partition_info_extended fuel' lba_start (if ext_part_sector =? 0 then lba_start else relative) part_num which_part
          | None => Some None
          end
      end
  end.

Definition get_partition_info_dos (fuel : nat) (part : Z) : option (option disk_partition) :=
  get_partition_info_extended fuel 0 0 1 part.

(** Whether there is a table. *)
Definition test_part_dos : option Z :=
  let '(buffer, r) := block_read 0 1 in
  if negb (r =? 1) then Some (-1) else
  a ← idx buffer DOS_PART_MAGIC_OFFSET;
  if negb (a =? 0x55) then Some (-1) else
  b ← idx buffer (DOS_PART_MAGIC_OFFSET + 1);
  Some (if negb (b =? 0xaa) then -1 else 0).

Definition PART_TYPE_DOS : Z := 2.
Definition get_partition_info (fuel : nat) (part_type part : Z) : option (option disk_partition) :=
  if part_type =? PART_TYPE_DOS then get_partition_info_dos fuel part else Some None.
End info.

(** ** Which partition has which number *)

Section spec.
Context (block_read : blockdev).

(** An entry of a table: a partition, unless it is empty or extended. *)
Definition ty (buf : list Z) (i : nat) : Z := default 0 (buf !! (450 + 16 * i)%nat).
Definition start4 (buf : list Z) (i : nat) : list Z := take 4 (drop (454 + 16 * i) buf).
Definition size4 (buf : list Z) (i : nat) : list Z := take 4 (drop (458 + 16 * i) buf).
Definition slot (ext : Z) (buf : list Z) (i : nat) : option disk_partition :=
  if negb (ty buf i =? 0) && negb (is_extended (ty buf i)) then
    Some (mkPart (u32 (ext + le32_to_int (start4 buf i))) (u32 (le32_to_int (size4 buf i))) 512)
  else None.

(** The numbers an entry takes: each of the first table takes one, of the
    others only the partitions do. *)
Definition numbers (ext : Z) (buf : list Z) (i : nat) : list (option disk_partition) :=
  if ext =? 0 then [slot ext buf i] else match slot ext buf i with Some p => [Some p] | None => [] end.
Fixpoint numbered (n : nat) (ext : Z) (buf : list Z) (i : nat) : list (option disk_partition) :=
  match n with O => [] | S n' => numbers ext buf i ++ numbered n' ext buf (S i) end.

(** The table that follows. *)
Fixpoint next_table (n : nat) (buf : list Z) (i : nat) : option (list Z) :=
  match n with O => None | S n' => if is_extended (ty buf i) then Some (start4 buf i) else next_table n' buf (S i) end.

(** A sector with a table in it. *)
Definition table_at (ext : Z) (buf : list Z) : Prop :=
  block_read (u32 ext) 1 = (buf, 1) ∧ length buf = 512%nat ∧ buf !! 510%nat = Some 0x55 ∧ buf !! 511%nat = Some 0xaa.
(** A sector without. *)
Definition no_table (ext : Z) : Prop :=
  (block_read (u32 ext) 1).2 ≠ 1 ∨
  ∃ buf, block_read (u32 ext) 1 = (buf, 1) ∧ length buf = 512%nat ∧ ¬ (buf !! 510%nat = Some 0x55 ∧ buf !! 511%nat = Some 0xaa).

(** The partitions from an extended table on, [n] being the number of
    sectors read; [rel] is the start of the first extended table. *)
Inductive logical (rel : Z) : Z → nat → list (option disk_partition) → Prop :=
  | logical_bad ext : no_table ext → logical rel ext 1 []
  | logical_last ext buf : ext ≠ 0 → table_at ext buf → next_table 4 buf 0 = None →
      logical rel ext 1 (numbered 4 ext buf 0)
  | logical_more ext buf a n l : ext ≠ 0 → table_at ext buf → next_table 4 buf 0 = Some a →
      logical rel (s32 (le32_to_int a + rel)) n l → logical rel ext (S n) (numbered 4 ext buf 0 ++ l).

Lemma entry_fields buf (i : nat) : length buf = 512%nat → (i < 4)%nat →
  pt_sys_ind buf (Z.of_nat i) = Some (ty buf i) ∧ pt_start4 buf (Z.of_nat i) = Some (start4 buf i) ∧
  pt_size4 buf (Z.of_nat i) = Some (size4 buf i).
Proof.
  intros Hl Hi. unfold pt_sys_ind, pt_start4, pt_size4, DOS_PART_TBL_OFFSET, ty, start4, size4. split_and!.
  - replace (446 + 16 * Z.of_nat i + 4) with (Z.of_nat (450 + 16 * i)) by lia. rewrite idx_nat.
    destruct (lookup_lt_is_Some_2 buf (450 + 16 * i)) as [x ->]; [lia|done].
  - rewrite slice_Some by lia. change (Z.to_nat 4) with 4%nat. do 3 f_equal. lia.
  - rewrite slice_Some by lia. change (Z.to_nat 4) with 4%nat. do 3 f_equal. lia.
Qed.

(** The partition with a number, among those numbered from [pn] on. *)
Definition pick (l : list (option disk_partition)) (pn which : Z) : option disk_partition :=
  if which <? pn then None else mjoin (l !! Z.to_nat (which - pn)).

Lemma pick_app l1 l2 pn which : pick (l1 ++ l2) pn which =
  match pick l1 pn which with Some p => Some p | None => pick l2 (pn + Z.of_nat (length l1)) which end.
Proof.
  unfold pick. destruct (Z.ltb_spec which pn), (Z.ltb_spec which (pn + Z.of_nat (length l1))); try done; try lia.
  - rewrite lookup_app_l by lia. by destruct (l1 !! _) as [[p|]|].
  - rewrite lookup_app_r by lia. rewrite (lookup_ge_None_2 l1) by lia. cbn [mjoin option_join]. do 3 f_equal. lia.
Qed.

Lemma numbers_spec ext buf i pn which : pick (numbers ext buf i) pn which =
  if pn =? which then slot ext buf i else None.
Proof.
  unfold pick, numbers. destruct (Z.eqb_spec pn which) as [<-|Hne].
  - rewrite Z.ltb_irrefl, Z.sub_diag. change (Z.to_nat 0) with 0%nat.
    by destruct (ext =? 0), (slot ext buf i).
  - destruct (Z.ltb_spec which pn); [done|]. destruct (Z.to_nat (which - pn)) eqn:E; [lia|].
    by destruct (ext =? 0), (slot ext buf i).
Qed.

Lemma scan_table_spec ext buf which : length buf = 512%nat → ∀ n i pn, (i + n <= 4)%nat →
  scan_table n buf ext (Z.of_nat i) pn which =
    Some (match pick (numbered n ext buf i) pn which with
          | Some p => inr p
          | None => inl (pn + Z.of_nat (length (numbered n ext buf i)))
          end).
Proof.
  intros Hl n. induction n as [|n IH]; intros i pn Hi; cbn [scan_table numbered].
  - unfold pick. destruct (which <? pn); cbn; do 2 f_equal; lia.
  - destruct (entry_fields buf i Hl) as (-> & -> & ->); [lia|]. cbn [mbind option_bind].
    rewrite pick_app, numbers_spec, length_app.
    assert (Z.of_nat i + 1 = Z.of_nat (S i)) as -> by lia.
    assert ((if (ext =? 0) || negb (ty buf i =? 0) && negb (is_extended (ty buf i)) then pn + 1 else pn) =
      pn + Z.of_nat (length (numbers ext buf i))) as ->.
    { unfold numbers, slot. destruct (ext =? 0); cbn [orb length]; [done|].
      destruct (negb (ty buf i =? 0) && negb (is_extended (ty buf i))); cbn [length]; lia. }
    rewrite IH by lia. rewrite Nat2Z.inj_add, Z.add_assoc.
    destruct (Z.eqb_spec pn which) as [<-|]; [|by rewrite andb_false_r].
    unfold slot at 1. rewrite andb_true_r. by destruct (negb (ty buf i =? 0) && negb (is_extended (ty buf i))).
Qed.

Lemma find_extended_spec buf : length buf = 512%nat → ∀ n i, (i + n <= 4)%nat →
  find_extended n buf (Z.of_nat i) = Some (next_table n buf i).
Proof.
  intros Hl n. induction n as [|n IH]; intros i Hi; cbn [find_extended next_table]; [done|].
  destruct (entry_fields buf i Hl) as (-> & -> & _); [lia|]. cbn [mbind option_bind].
  destruct (is_extended (ty buf i)); [done|]. assert (Z.of_nat i + 1 = Z.of_nat (S i)) as -> by lia. apply IH. lia.
Qed.

(** Reading a table. *)
Lemma read_table fuel ext rel pn which buf : table_at ext buf →
  get_partition_info_extended block_read (S fuel) ext rel pn which =
    match pick (numbered 4 ext buf 0) pn which with
    | Some p => Some (Some p)
    | None =>
        match next_table 4 buf 0 with
        | Some a => let lba := s32 (le32_to_int a + rel) in
            get_partition_info_extended block_read fuel lba (if ext =? 0 then lba else rel)
              (pn + Z.of_nat (length (numbered 4 ext buf 0))) which
        | None => Some None
        end
    end.
Proof.
  intros (E & Hl & Ha & Hb). cbn [get_partition_info_extended]. rewrite E. change (1 =? 1) with true. cbn [negb].
  change DOS_PART_MAGIC_OFFSET with (Z.of_nat 510). change (Z.of_nat 510 + 1) with (Z.of_nat 511).
  rewrite !idx_nat, Ha, Hb. cbn [mbind option_bind Z.eqb Pos.eqb negb orb].
  pose proof (scan_table_spec ext buf which Hl 4 0 pn ltac:(lia)) as Escan. change (Z.of_nat 0) with 0 in Escan.
  rewrite Escan. cbn [mbind option_bind]. destruct (pick _ _ _); [done|].
  pose proof (find_extended_spec buf Hl 4 0 ltac:(lia)) as Efind. change (Z.of_nat 0) with 0 in Efind. rewrite Efind.
  cbn [mbind option_bind]. by destruct (next_table 4 buf 0).
Qed.

Lemma read_none fuel ext rel pn which : no_table ext →
  get_partition_info_extended block_read (S fuel) ext rel pn which = Some None.
Proof.
  intros Hno. cbn [get_partition_info_extended]. destruct (block_read (u32 ext) 1) as [buf r] eqn:E.
  destruct (Z.eqb_spec r 1) as [->|]; cbn [negb]; [|done].
  destruct Hno as [Hr|(buf' & E' & Hl & Hm)]; [by rewrite E in Hr|]. rewrite E in E'. injection E' as <-.
  change DOS_PART_MAGIC_OFFSET with (Z.of_nat 510). change (Z.of_nat 510 + 1) with (Z.of_nat 511). rewrite !idx_nat.
  destruct (lookup_lt_is_Some_2 buf 510) as [a Ha]; [lia|]. destruct (lookup_lt_is_Some_2 buf 511) as [b Hb]; [lia|].
  rewrite Ha, Hb in Hm |- *. cbn [mbind option_bind].
  destruct (Z.eqb_spec a 0x55) as [->|], (Z.eqb_spec b 0xaa) as [->|]; cbn [negb orb]; try done. by destruct Hm.
Qed.

Lemma logical_spec rel ext n l : logical rel ext n l → ∀ fuel pn which, (n <= fuel)%nat →
  get_partition_info_extended block_read fuel ext rel pn which = Some (pick l pn which).
Proof.
  induction 1 as [ext Hno|ext buf H0 Hb Hn|ext buf a n l H0 Hb Hn _ IH]; intros fuel pn which Hf;
    (destruct fuel as [|fuel]; [lia|]).
  - rewrite read_none by done. unfold pick. by destruct (which <? pn).
  - rewrite (read_table _ _ _ _ _ buf) by done. rewrite Hn. by destruct (pick _ _ _).
  - rewrite (read_table _ _ _ _ _ buf) by done. rewrite Hn, pick_app. destruct (pick _ _ _); [done|]. cbv zeta.
    destruct (Z.eqb_spec ext 0); [done|]. apply IH. lia.
Qed.

(** The partitions of a disk by number, and how many sectors are read. *)
Inductive disk_parts : nat → list (option disk_partition) → Prop :=
  | disk_none : no_table 0 → disk_parts 1 []
  | disk_primary buf : table_at 0 buf → next_table 4 buf 0 = None → disk_parts 1 (numbered 4 0 buf 0)
  | disk_logical buf a n l : table_at 0 buf → next_table 4 buf 0 = Some a →
      logical (s32 (le32_to_int a)) (s32 (le32_to_int a)) n l → disk_parts (S n) (numbered 4 0 buf 0 ++ l).

Lemma partition_info_spec n l fuel part : disk_parts n l → (n <= fuel)%nat →
  get_partition_info_dos block_read fuel part = Some (pick l 1 part).
Proof.
  intros Hd Hf. unfold get_partition_info_dos. destruct Hd as [Hno|buf Hb Hn|buf a n l Hb Hn Hl]; (destruct fuel as [|fuel]; [lia|]).
  - rewrite read_none by done. unfold pick. by destruct (part <? 1).
  - rewrite (read_table _ _ _ _ _ buf) by done. rewrite Hn. by destruct (pick _ _ _).
  - rewrite (read_table _ _ _ _ _ buf) by done. rewrite Hn, pick_app. destruct (pick _ _ _); [done|]. cbv zeta.
    rewrite Z.add_0_r. apply logical_spec with n; [done|lia].
Qed.

(** C28: with enough fuel for the tables of the disk, partition [part] is the
    [part]-th of the numbering DOS uses: the first four numbers belong to the
    entries of the first sector, used or not, and the others to the partitions
    of the extended tables in the order of the chain.  Empty and extended
    entries, numbers that are not there, unreadable sectors and sectors
    without the signature give the error. *)
Theorem partition_info_exact n l fuel part
    (Hdisk : disk_parts n l)
    (Hfuel : (n <= fuel)%nat) :
  get_partition_info block_read fuel PART_TYPE_DOS part =
    Some (if part <? 1 then None else mjoin (l !! Z.to_nat (part - 1))).
Proof. change (get_partition_info block_read fuel PART_TYPE_DOS part) with (get_partition_info_dos block_read fuel part). by rewrite (partition_info_spec n l). Qed.
End spec.

(** ** A disk with two logical partitions *)

Definition table_entry (t start size : Z) : list Z := [0; 0; 0; 0; t; 0; 0; 0] ++ le_bytes 4 start ++ le_bytes 4 size.
Definition table_sector (es : list (list Z)) : list Z :=
  replicate 446 0 ++ concat es ++ replicate (64 - length (concat es)) 0 ++ [0x55; 0xaa].
Definition demo_dos : blockdev := λ start n,
  (if start =? 0 then table_sector [table_entry 0xc 63 100; table_entry 0x5 200 300]
   else if start =? 200 then table_sector [table_entry 0x83 1 20; table_entry 0x5 50 60]
   else if start =? 250 then table_sector [table_entry 0x83 2 30] else replicate 512 0, 1).

Lemma partition_info_exact_witness :
  get_partition_info demo_dos 5 PART_TYPE_DOS 1 = Some (Some (mkPart 63 100 512)) ∧
  get_partition_info demo_dos 5 PART_TYPE_DOS 6 = Some (Some (mkPart 252 30 512)).
Proof.
  split; (etrans; [apply (partition_info_exact demo_dos 3
    (numbered 4 0 (demo_dos 0 1).1 0 ++ numbered 4 200 (demo_dos 200 1).1 0 ++ numbered 4 250 (demo_dos 250 1).1 0))|vm_compute; reflexivity]);
    try lia;
    (eapply (disk_logical _ _ [200; 0; 0; 0]); [by vm_compute|by vm_compute|];
     eapply (logical_more _ _ _ _ [50; 0; 0; 0]); [done|by vm_compute|by vm_compute|];
     eapply logical_last; [done|by vm_compute|by vm_compute]).
Defined.

(** An extended table that continues with itself: the call never returns. *)
Definition looping_dos : blockdev := λ _ _, (table_sector [table_entry 0x5 0 0], 1).
Lemma extended_loop fuel : get_partition_info_dos looping_dos fuel 5 = None.
Proof.
  unfold get_partition_info_dos. generalize 1 as pn. induction fuel as [|fuel IH]; intros pn; [done|].
  rewrite (read_table _ _ _ _ _ _ (table_sector [table_entry 0x5 0 0])) by by vm_compute.
  change (numbered 4 0 _ 0) with [@None disk_partition; None; None; None].
  assert (pick [None; None; None; None] pn 5 = None) as ->.
  { unfold pick. destruct (5 <? pn); [done|]. by destruct (Z.to_nat (5 - pn)) as [|[|[|[|]]]]. }
  change (next_table 4 _ 0) with (Some [0; 0; 0; 0]). apply IH.
Qed.
