(* ===== verification/Fat.v ===== *)
(** The FAT file system ([fs/fat/fat.c], [include/fat.h]): reading a file, or
    listing a directory, of a FAT12, FAT16 or FAT32 volume. *)
From stdpp Require Import base tactics option list strings.
From Stdlib Require Import ZArith Lia.
From S2P Require Import Prelude.
From S2P Require Import Eff.
From S2P Require Import CBuf.
From S2P Require Import PartDos.
Open Scope Z_scope.

(** ** Constants *)

Definition FS_BLOCK_SIZE : Z := 512.
Definition MAX_CLUSTSIZE : Z := 65536.
Definition DIRENTSPERBLOCK : Z := 16.
Definition FATBUFBLOCKS : Z := 6.
Definition FATBUFSIZE : Z := 3072.
Definition FAT12BUFSIZE : Z := 2048.
Definition FAT16BUFSIZE : Z := 1536.
Definition FAT32BUFSIZE : Z := 768.
Definition FAT12_SIGN : list Z := str "FAT12   ".
Definition FAT16_SIGN : list Z := str "FAT16   ".
Definition FAT32_SIGN : list Z := str "FAT32   ".
Definition ATTR_VOLUME : Z := 8.
Definition ATTR_DIR : Z := 16.
Definition ATTR_VFAT : Z := 15.
Definition DELETED_FLAG : Z := 0xe5.
Definition aRING : Z := 0x05.
Definition LAST_LONG_ENTRY_MASK : Z := 0x40.
Definition LS_NO : Z := 0.
Definition LS_YES : Z := 1.
Definition LS_ROOT : Z := 2.
Definition DOS_FS_TYPE_OFFSET : Z := 0x52.
Definition ISDIRDELIM (c : Z) : bool := (c =? 47) || (c =? 92).
Definition TOLOWER (c : Z) : Z := if (65 <=? c) && (c <=? 90) then c + 32 else c.

(** A little-endian field of [n] bytes. *)
Definition le_at (l : list Z) (o n : Z) : option Z := le_val <$> slice l o n.
Definition has (x mask : Z) : bool := negb (Z.land x mask =? 0).

(** ** The device *)

(** The globals: [cur_dev] ([None] for the null pointer) and the partition. *)
Record fat_dev := mkDev { cur_dev : option blockdev; part_offset : Z; cur_part : Z }.

Definition disk_read (g : fat_dev) (startblock getsize : Z) : list Z * Z :=
  match cur_dev g with
  | None => ([], -1)
  | Some rd => let '(data, r) := rd (u32 (startblock + part_offset g)) getsize in (data, s32 r)
  end.

(** The device with its part type; the fuel is that of the partition table. *)
Definition fat_register_device (fuel : nat) (dev_desc : blockdev) (part_type part_no : Z) (g : fat_dev) : option (fat_dev * Z) :=
  let '(buffer, r) := dev_desc 0 1 in
  let g := mkDev (Some dev_desc) (part_offset g) (cur_part g) in
  if negb (r =? 1) then Some (g, -1) else
  a ← idx buffer DOS_PART_MAGIC_OFFSET;
  b ← idx buffer (DOS_PART_MAGIC_OFFSET + 1);
  if negb (a =? 0x55) || negb (b =? 0xaa) then Some (g, -1) else
  r ← c_strncmp (drop (Z.to_nat DOS_FS_TYPE_OFFSET) buffer) (lit "FAT") 3;
  if r =? 0 then Some (mkDev (Some dev_desc) 0 1, 0) else
  o ← get_partition_info dev_desc fuel part_type part_no;
  match o with
  | Some info => Some (mkDev (Some dev_desc) (part_start info) part_no, 0)
  | None => Some (g, -1)
  end.

(** ** Names *)

Fixpoint downcase (s : list Z) : option (list Z) :=
  match s with
  | [] => None
  | c :: s' => if c =? 0 then Some s else r ← downcase s'; Some (TOLOWER c :: r)
  end.

Definition delim_step (s : list Z) (i : Z) : option (Z + Z) :=
  c ← idx s i;
  Some (if c =? 0 then inr (-1) else if ISDIRDELIM c then inr i else inl (i + 1)).
Definition dirdelim (s : list Z) : option Z := loop (S (length s)) (delim_step s) 0.

(** Skipping the delimiters at the front. *)
Fixpoint skip_delims (s : list Z) : option (list Z) :=
  match s with
  | [] => None
  | c :: s' => if ISDIRDELIM c then skip_delims s' else Some s
  end.

Definition compare_sign (str1 str2 : list Z) : option Z :=
  a ← slice str1 0 8; b ← slice str2 0 8; Some (if decide (a = b) then 0 else -1).

(** To the first NUL or blank. *)
Definition name_blank (s : list Z) (p : Z) : option (Z + Z) :=
  c ← idx s p; Some (if negb (c =? 0) && negb (c =? 32) then inl (p + 1) else inr p).
(** The first character. *)
Definition fix_first (s : list Z) : option (list Z) :=
  c ← idx s 0;
  if c =? DELETED_FLAG then upd s 0 0 else if c =? aRING then upd s 0 0xe5 else Some s.

(** [s] is the array [s_name], whatever it holds. *)
Definition get_name (dirent s : list Z) : option (list Z) :=
  name ← slice dirent 0 8;
  s ← blit s 0 name;
  s ← upd s 8 0;
  p ← loop 16 (name_blank s) 0;
  e ← idx dirent 8;
  '(s, p) ← (if negb (e =? 0) && negb (e =? 32) then
      s ← upd s p 46;
      let p := p + 1 in
      ext ← slice dirent 8 3;
      s ← blit s p ext;
      s ← upd s (p + 3) 0;
      p ← loop 16 (name_blank s) p;
      Some (s, p)
    else Some (s, p));
  s ← upd s p 0;
  s ← fix_first s;
  downcase s.

(** Where a slot keeps its 13 characters. *)
Definition slot_offsets : list Z := [1; 3; 5; 7; 9; 14; 16; 18; 20; 22; 24; 28; 30].
Fixpoint slot_chars (offs slotptr l_name : list Z) (i : Z) : option (list Z * Z * bool) :=
  match offs with
  | [] => Some (l_name, i, false)
  | o :: offs' =>
      c ← idx slotptr o;
      l_name ← upd l_name i c;
      if c =? 0 then Some (l_name, i, true) else slot_chars offs' slotptr l_name (i + 1)
  end.
(** The array, the index behind, and whether the terminator was found. *)
Definition slot2str (slotptr l_name : list Z) (i : Z) : option (list Z * Z * bool) := slot_chars slot_offsets slotptr l_name i.

Fixpoint cksum_loop (s : list Z) (ret : Z) : Z :=
  match s with
  | [] => ret
  | c :: s' => cksum_loop s' (u8 (Z.lor (Z.shiftl (Z.land ret 1) 7) (Z.shiftr (Z.land ret 0xfe) 1) + c))
  end.
Definition mkcksum (dirent : list Z) : option Z := s ← slice dirent 0 11; Some (cksum_loop s 0).

(** ** The volume *)

(** [fatbuf] is the array as bytes. *)
Record fsdata := mkFs {
  fatsize : Z; fatlength : Z; fat_sect : Z; rootdir_sect : Z; clust_size : Z; data_begin : Z;
  fatbuf : list Z; fatbufnum : Z }.

Definition CHECK_CLUST (x fsz : Z) : bool := (x <=? 1) || ((if negb (fsz =? 32) then 0xfff0 else 0xffffff0) <=? x).

(** The number of entries the buffer holds. *)
Definition entries_per_buf (fsz : Z) : option Z :=
  if fsz =? 32 then Some FAT32BUFSIZE else if fsz =? 16 then Some FAT16BUFSIZE
  else if fsz =? 12 then Some FAT12BUFSIZE else None.

Section fat.
Context (g : fat_dev).

(** "Read a new block of FAT entries into the cache": the result of
    [disk_read]. *)
Definition fill_fatbuf (bufnum : Z) : ST fsdata Z :=
  s ← get;
  let fl := u32 (fatlength s * FS_BLOCK_SIZE) in
  let getsize := if fl <? FATBUFBLOCKS then fl else FATBUFBLOCKS in
  let '(data, r) := disk_read g (u32 (bufnum * FATBUFBLOCKS + fat_sect s)) getsize in
  buf ← lift (blit (fatbuf s) 0 data);
  _ ← modify (λ s, mkFs (fatsize s) (fatlength s) (fat_sect s) (rootdir_sect s) (clust_size s) (data_begin s) buf
                     (if r <? 0 then fatbufnum s else s32 bufnum));
  mret r.

(** "Get the actual entry from the table". *)
Definition table_entry_at (fsz : Z) (buf : list Z) (offset : Z) : option Z :=
  if fsz =? 32 then le_at buf (4 * offset) 4
  else if fsz =? 16 then le_at buf (2 * offset) 2
  else
    let off16 := (offset * 3) / 4 in
    let w k := le_at buf (2 * k) 2 in
    let c := Z.land offset 3 in
    if c =? 0 then v ← w off16; Some (Z.land v 0xfff)
    else if c =? 1 then
      val1 ← w off16; val2 ← w (off16 + 1);
      Some (Z.lor (Z.shiftl (Z.land val2 0xff) 4) (Z.shiftr (Z.land val1 0xf000) 12))
    else if c =? 2 then
      val1 ← w off16; val2 ← w (off16 + 1);
      Some (Z.lor (Z.shiftl (Z.land val2 0xf) 8) (Z.shiftr (Z.land val1 0xff00) 8))
    else v ← w off16; Some (Z.shiftr (Z.land v 0xfff0) 4).

Definition get_fatent (entry : Z) : ST fsdata Z :=
  s ← get;
  match entries_per_buf (fatsize s) with
  | None => mret 0
  | Some n =>
      let bufnum := entry / n in
      let offset := entry - bufnum * n in
      r ← (if negb (bufnum =? u32 (fatbufnum s)) then fill_fatbuf bufnum else mret 0);
      if r <? 0 then mret 0 else
      s ← get;
      lift (table_entry_at (fatsize s) (fatbuf s) offset)
  end.

(** The buffer [buf] from offset [off] on, and the result. *)
Definition get_cluster (s : fsdata) (clustnum : Z) (buf : list Z) (off size : Z) : option (list Z * Z) :=
  let startsect := u32 (if 0 <? clustnum then data_begin s + clustnum * clust_size s else rootdir_sect s) in
  let '(data, r) := disk_read g startsect (size / FS_BLOCK_SIZE) in
  buf ← blit buf off data;
  if r <? 0 then Some (buf, -1) else
  if negb (size mod FS_BLOCK_SIZE =? 0) then
    let i := size / FS_BLOCK_SIZE in
    let '(tmp, r) := disk_read g (u32 (startsect + i)) 1 in
    if r <? 0 then Some (buf, -1) else
    part ← slice tmp 0 (size mod FS_BLOCK_SIZE);
    buf ← blit buf (off + i * FS_BLOCK_SIZE) part;
    Some (buf, 0)
  else Some (buf, 0).

(** ** Reading a file *)

(** What [do_fat_read] works on: the volume, the three static blocks, the
    caller's buffer, and the lines it prints. *)
Inductive ls_line :=
  | LsFile (size : Z) (name : list Z)
  | LsDir (name : list Z)
  | LsTotal (files dirs : Z).
Record fat := mkFat {
  fs : fsdata; rd_block : list Z; dent_block : list Z; vfat_block : list Z; dest : list Z; ls_out : list ls_line }.
#[local] Abbreviation F := (ST fat).

Definition set_fs (v : fsdata) (s : fat) : fat := mkFat v (rd_block s) (dent_block s) (vfat_block s) (dest s) (ls_out s).
Definition set_rd (v : list Z) (s : fat) : fat := mkFat (fs s) v (dent_block s) (vfat_block s) (dest s) (ls_out s).
Definition set_dent (v : list Z) (s : fat) : fat := mkFat (fs s) (rd_block s) v (vfat_block s) (dest s) (ls_out s).
Definition set_vfat (v : list Z) (s : fat) : fat := mkFat (fs s) (rd_block s) (dent_block s) v (dest s) (ls_out s).
Definition set_dest (v : list Z) (s : fat) : fat := mkFat (fs s) (rd_block s) (dent_block s) (vfat_block s) v (ls_out s).
Definition put_line (l : ls_line) : F unit :=
  modify (λ s, mkFat (fs s) (rd_block s) (dent_block s) (vfat_block s) (dest s) (ls_out s ++ [l])).
Definition on_fs {A} (m : ST fsdata A) : F A := λ s,
  match m (fs s) with Some (v, a) => Some (set_fs v s, a) | None => None end.

Definition START (fsz : Z) (dent : list Z) : option Z :=
  lo ← le_at dent 26 2;
  hi ← (if negb (fsz =? 32) then Some 0 else h ← le_at dent 20 2; Some (Z.shiftl h 16));
  Some (u32 (lo + hi)).

(** [get_cluster] into the caller's buffer. *)
Definition read_dest (clustnum pos size : Z) : F Z :=
  s ← get;
  '(buf, r) ← lift (get_cluster (fs s) clustnum (dest s) pos size);
  _ ← modify (set_dest buf);
  mret r.

(** "search for consecutive clusters". *)
Inductive span_end := Getit | Reached | Invalid.
Definition span_step (bytesperclust filesize : Z) (x : Z * Z) : F (Z * Z + span_end * Z * Z) :=
  let '(endclust, actsize) := x in
  if actsize <? filesize then
    s ← get;
    newclust ← on_fs (get_fatent endclust);
    if negb (u32 (newclust - 1) =? endclust) then mret (inr (Getit, endclust, actsize))
    else if CHECK_CLUST newclust (fatsize (fs s)) then mret (inr (Invalid, endclust, actsize))
    else mret (inl (newclust, u32 (actsize + bytesperclust)))
  else mret (inr (Reached, endclust, actsize)).

(** The locals of [get_contents]. *)
Record contents_at := mkAt { curclust : Z; left : Z; gotsize : Z; pos : Z }.

Definition contents_step (bytesperclust : Z) (x : contents_at) : F (contents_at + Z) :=
  '(k, endclust, actsize) ← mloop (S (Z.to_nat (left x))) (span_step bytesperclust (left x)) (curclust x, bytesperclust);
  match k with
  | Invalid => mret (inr (s32 (gotsize x)))
  | Reached =>
      let actsize := u32 (actsize - bytesperclust) in
      r ← read_dest (curclust x) (pos x) actsize;
      if negb (r =? 0) then mret (inr (-1)) else
      let gotsize := u32 (gotsize x + actsize) in
      let filesize := u32 (left x - actsize) in
      r ← read_dest endclust (pos x + actsize) filesize;
      if negb (r =? 0) then mret (inr (-1)) else
      mret (inr (s32 (u32 (gotsize + filesize))))
  | Getit =>
      r ← read_dest (curclust x) (pos x) actsize;
      if negb (r =? 0) then mret (inr (-1)) else
      let gotsize := u32 (gotsize x + actsize) in
      s ← get;
      c ← on_fs (get_fatent endclust);
      if CHECK_CLUST c (fatsize (fs s)) then mret (inr (s32 gotsize))
      else mret (inl (mkAt c (u32 (left x - actsize)) gotsize (pos x + actsize)))
  end.

Definition get_contents (dentptr : list Z) (maxsize : Z) : F Z :=
  s ← get;
  size ← lift (le_at dentptr 28 4);
  let filesize := if (0 <? maxsize) && (maxsize <? size) then maxsize else size in
  start ← lift (START (fatsize (fs s)) dentptr);
  mloop (S (Z.to_nat filesize)) (contents_step (clust_size (fs s) * FS_BLOCK_SIZE)) (mkAt start filesize 0 0).

(** ** Long names *)

(** Stepping over the slots in the cluster: [None] when a number does not
    match. *)
Definition slot_step (block : list Z) (nextclust : Z) (x : Z * Z) : option ((Z * Z) + option Z) :=
  let '(slotptr, counter) := x in
  if slotptr <? nextclust then
    if counter =? 0 then Some (inr (Some slotptr)) else
    id ← idx block slotptr;
    if negb (Z.land id 0xbf =? counter) then Some (inr None)
    else Some (inl (slotptr + 32, u8 (counter - 1)))
  else Some (inr (Some slotptr)).

(** [while (slotptr2->id > 0x01) slotptr2++;]. *)
Definition last_slot_step (block : list Z) (p : Z) : option (Z + Z) :=
  id ← idx block p; Some (if 1 <? id then inl (p + 32) else inr p).
(** [slot2str] of the slots from [n] on downwards, whatever it returns. *)
Fixpoint slots_down (n : nat) (block l_name : list Z) (i : Z) : option (list Z * Z) :=
  d ← slice block (32 * Z.of_nat n) 32;
  '(l_name, i, _) ← slot2str d l_name i;
  match n with O => Some (l_name, i) | S n' => slots_down n' block l_name i end.

(** [do { slotptr--; ... } while (!(slotptr->id & LAST_LONG_ENTRY_MASK));]. *)
Definition name_step (block : list Z) (x : Z * list Z * Z) : option ((Z * list Z * Z) + (list Z * Z)) :=
  let '(slotptr, l_name, i) := x in
  let slotptr := slotptr - 32 in
  d ← slice block slotptr 32;
  '(l_name, i, stop) ← slot2str d l_name i;
  if (stop : bool) then Some (inr (l_name, i)) else
  id ← idx d 0;
  Some (if has id LAST_LONG_ENTRY_MASK then inr (l_name, i) else inl (slotptr, l_name, i)).

(** What follows the slots in the next cluster: the end of the slots, the
    name so far and the real entry; [None] for the error. *)
Definition next_cluster (curclust slotptr : Z) (l_name : list Z) : F (option (Z * list Z * Z * list Z)) :=
  let slotptr := slotptr - 32 in
  c ← on_fs (get_fatent (u32 curclust));
  let curclust := s32 c in
  s ← get;
  if CHECK_CLUST curclust (fatsize (fs s)) then mret None else
  '(block, r) ← lift (get_cluster (fs s) (u32 curclust) (vfat_block s) 0 (clust_size (fs s) * FS_BLOCK_SIZE));
  _ ← modify (set_vfat block);
  if negb (r =? 0) then mret None else
  p ← lift (loop (S (length block)) (last_slot_step block) 0);
  realdent ← lift (slice block (p + 32) 32);
  '(l_name, i) ← lift (slots_down (Z.to_nat (p / 32)) block l_name 0);
  mret (Some (slotptr, l_name, i, realdent)).

(** [off] is the offset of [retdent] in [cluster]: the cluster, the name and
    the result. *)
Definition get_vfatname (curclust : Z) (cluster : list Z) (off : Z) (l_name : list Z) : F (list Z * list Z * Z) :=
  s ← get;
  let nextclust := clust_size (fs s) * FS_BLOCK_SIZE in
  id ← lift (idx cluster off);
  o ← lift (loop 257 (slot_step cluster nextclust) (off, Z.land id 0xbf));
  match o with
  | None => mret (cluster, l_name, -1)
  | Some slotptr =>
      x ← (if nextclust <=? slotptr then next_cluster curclust slotptr l_name
           else realdent ← lift (slice cluster slotptr 32); mret (Some (slotptr, l_name, 0, realdent)));
      match x with
      | None => mret (cluster, l_name, -1)
      | Some (slotptr, l_name, i, realdent) =>
          '(l_name, i) ← lift (loop (S (length cluster)) (name_step cluster) (slotptr, l_name, i));
          l_name ← lift (upd l_name i 0);
          l_name ← lift (fix_first l_name);
          l_name ← lift (downcase l_name);
          cluster ← lift (blit cluster off realdent);
          mret (cluster, l_name, 0)
      end
  end.

(** ** Directories *)

(** A line of a listing; [always] is whether directories without a name
    count. *)
Definition list_entry (always : bool) (d name : list Z) (files dirs : Z) : F (Z * Z) :=
  attr ← lift (idx d 11);
  c ← lift (idx name 0);
  if has attr ATTR_DIR then
    if always || negb (c =? 0) then _ ← put_line (LsDir (cut name)); mret (files, dirs + 1) else mret (files, dirs)
  else if negb (c =? 0) then
    size ← lift (le_at d 28 4);
    _ ← put_line (LsFile (s32 size) (cut name)); mret (files + 1, dirs)
  else mret (files, dirs).

(** The locals of the loops over the entries. *)
Record scan := mkScan { sc_i : Z; prevcksum : Z; files : Z; dirs : Z }.
Definition next_entry (x : scan) : scan := mkScan (sc_i x + 1) (prevcksum x) (files x) (dirs x).

(** The arrays [s_name] and [l_name], uninitialised. *)
Context (s_name0 l_name0 : list Z).

(** What becomes of an entry that is no volume label ([o] is its offset), the
    rest of the loop's body in [get_dentfromdir]. *)
Definition dent_entry (filename : list Z) (dols o : Z) (x : scan) (l_name : list Z) : F (scan + (scan + option (list Z))) :=
  s ← get;
  d ← lift (slice (dent_block s) o 32);
  c ← lift (idx d 0);
  if c =? 0 then
    _ ← (if negb (dols =? 0) then put_line (LsTotal (files x) (dirs x)) else mret tt);
    mret (inr (inr None))
  else
    k ← lift (mkcksum d);
    if negb (dols =? 0) && (k =? prevcksum x) then mret (inl (next_entry x)) else
    s_name ← lift (get_name d s_name0);
    if negb (dols =? 0) then
      '(f, n) ← list_entry true d s_name (files x) (dirs x);
      mret (inl (next_entry (mkScan (sc_i x) (prevcksum x) f n)))
    else
      a ← lift (c_strcmp filename s_name);
      b ← (if negb (a =? 0) then lift (c_strcmp filename l_name) else mret 0);
      if negb (a =? 0) && negb (b =? 0) then mret (inl (next_entry x))
      else mret (inr (inr (Some d))).

(** One entry of the cluster in [get_dentfromdir_block]: on to the next one,
    or the end of the cluster ([inr] of the locals), or the result. *)
Definition dent_step (curclust : Z) (filename : list Z) (dols : Z) (x : scan) : F (scan + (scan + option (list Z))) :=
  s ← get;
  if sc_i x <? clust_size (fs s) * FS_BLOCK_SIZE / 32 then
    let o := 32 * sc_i x in
    l_name ← lift (upd l_name0 0 0);
    d ← lift (slice (dent_block s) o 32);
    c ← lift (idx d 0);
    if c =? DELETED_FLAG then mret (inl (next_entry x)) else
    attr ← lift (idx d 11);
    if has attr ATTR_VOLUME then
      if has attr ATTR_VFAT && has c LAST_LONG_ENTRY_MASK then
        k ← lift (idx d 13);
        let x := mkScan (sc_i x) k (files x) (dirs x) in
        '(block, l_name, _) ← get_vfatname (s32 curclust) (dent_block s) o l_name;
        _ ← modify (set_dent block);
        if negb (dols =? 0) then
          d ← lift (slice block o 32);
          '(f, n) ← list_entry true d l_name (files x) (dirs x);
          mret (inl (next_entry (mkScan (sc_i x) k f n)))
        else dent_entry filename dols o x l_name
      else mret (inl (next_entry x))
    else dent_entry filename dols o x l_name
  else mret (inr (inl x)).

(** One cluster: the next one with the locals, or the result. *)
Definition dir_step (filename : list Z) (dols : Z) (x : Z * scan) : F (Z * scan + option (list Z)) :=
  let '(curclust, x) := x in
  s ← get;
  '(block, r) ← lift (get_cluster (fs s) curclust (dent_block s) 0 (clust_size (fs s) * FS_BLOCK_SIZE));
  _ ← modify (set_dent block);
  if negb (r =? 0) then mret (inr None) else
  y ← mloop (S (length block)) (dent_step curclust filename dols) (mkScan 0 (prevcksum x) (files x) (dirs x));
  match y with
  | inr o => mret (inr o)
  | inl x =>
      s ← get;
      c ← on_fs (get_fatent curclust);
      mret (if CHECK_CLUST c (fatsize (fs s)) then inr None else inl (c, x))
  end.

(** [retdent], the entry of the directory, and what it becomes; the fuel
    bounds the number of clusters. *)
Definition get_dentfromdir (fuel : nat) (filename retdent : list Z) (dols : Z) : F (option (list Z)) :=
  s ← get;
  start ← lift (START (fatsize (fs s)) retdent);
  mloop fuel (dir_step filename dols) (start, mkScan 0 0xffff 0 0).

(** ** The boot sector *)

(** The boot sector (as [FAT2CPU] leaves it), the size of the entries and the
    volume info; [None] for the error. *)
Definition read_bootsectandvi : option (option (list Z * list Z * Z)) :=
  let '(block, r) := disk_read g 0 1 in
  if r <? 0 then Some None else
  bs ← slice block 0 64;
  fat_length ← le_at bs 22 2;
  let fat32 := fat_length =? 0 in
  volinfo ← (if fat32 then slice block 64 27 else slice bs 36 27);
  sign ← slice volinfo 18 8;
  Some (if fat32 then if decide (sign = FAT32_SIGN) then Some (bs, volinfo, 32) else None
        else if decide (sign = FAT12_SIGN) then Some (bs, volinfo, 12)
        else if decide (sign = FAT16_SIGN) then Some (bs, volinfo, 16) else None).

(** The parameters of the volume; [fatbuf0] is uninitialised. *)
Definition fs_params (bs fatbuf0 : list Z) (fsz : Z) : option fsdata :=
  fl ← (if fsz =? 32 then le_at bs 36 4 else le_at bs 22 2);
  let fatlength := u16 fl in
  fat_sect ← le_at bs 14 2;
  fats ← idx bs 16;
  let rootdir_sect := u16 (fat_sect + fatlength * fats) in
  clust_size ← idx bs 13;
  rootdir_size ← (if fsz =? 32 then Some 0
                  else lo ← idx bs 17; hi ← idx bs 18; Some ((hi * 256 + lo) * 32 / FS_BLOCK_SIZE));
  Some (mkFs fsz fatlength fat_sect rootdir_sect clust_size (s16 (rootdir_sect + rootdir_size - clust_size * 2)) fatbuf0 (-1)).

(** ** The root directory *)

Inductive root_res :=
  | RootRet (ret : Z)
  | RootDone (dent : list Z).

(** The rest of the loop's body in [do_fat_read]. *)
Definition root_entry (fnamecopy : list Z) (dols : Z) (isdir : bool) (o : Z) (x : scan) (l_name : list Z) : F (scan + (scan + root_res)) :=
  s ← get;
  d ← lift (slice (rd_block s) o 32);
  s_name ← lift (get_name d s_name0);
  if dols =? LS_ROOT then
    '(f, n) ← list_entry false d s_name (files x) (dirs x);
    mret (inl (next_entry (mkScan (sc_i x) (prevcksum x) f n)))
  else
    a ← lift (c_strcmp fnamecopy s_name);
    b ← (if negb (a =? 0) then lift (c_strcmp fnamecopy l_name) else mret 0);
    if negb (a =? 0) && negb (b =? 0) then mret (inl (next_entry x)) else
    attr ← lift (idx d 11);
    mret (inr (inr (if isdir && negb (has attr ATTR_DIR) then RootRet (-1) else RootDone d))).

Definition root_step (fnamecopy : list Z) (dols : Z) (isdir : bool) (x : scan) : F (scan + (scan + root_res)) :=
  s ← get;
  if sc_i x <? DIRENTSPERBLOCK then
    let o := 32 * sc_i x in
    let ls := dols =? LS_ROOT in
    l_name ← lift (upd l_name0 0 0);
    d ← lift (slice (rd_block s) o 32);
    c ← lift (idx d 0);
    attr ← lift (idx d 11);
    if has attr ATTR_VOLUME then
      if has attr ATTR_VFAT && has c LAST_LONG_ENTRY_MASK then
        k ← lift (idx d 13);
        let x := mkScan (sc_i x) k (files x) (dirs x) in
        '(block, l_name, _) ← get_vfatname 0 (rd_block s) o l_name;
        _ ← modify (set_rd block);
        if ls then
          d ← lift (slice block o 32);
          '(f, n) ← list_entry true d l_name (files x) (dirs x);
          mret (inl (next_entry (mkScan (sc_i x) k f n)))
        else root_entry fnamecopy dols isdir o x l_name
      else mret (inl (next_entry x))
    else if c =? 0 then
      if ls then _ ← put_line (LsTotal (files x) (dirs x)); mret (inr (inr (RootRet 0)))
      else mret (inr (inr (RootRet (-1))))
    else
      k ← lift (mkcksum d);
      if ls && (k =? prevcksum x) then mret (inl (next_entry x)) else root_entry fnamecopy dols isdir o x l_name
  else mret (inr (inl x)).

(** One sector of the root directory. *)
Definition sector_step (fnamecopy : list Z) (dols : Z) (isdir : bool) (x : Z * Z * Z * scan) : F (Z * Z * Z * scan + root_res) :=
  let '(cursect, root_cluster, j, x) := x in
  s ← get;
  let '(data, r) := disk_read g (u32 cursect) (clust_size (fs s)) in
  block ← lift (blit (rd_block s) 0 data);
  _ ← modify (set_rd block);
  if r <? 0 then mret (inr (RootRet (-1))) else
  y ← mloop 17 (root_step fnamecopy dols isdir) (mkScan 0 (prevcksum x) (files x) (dirs x));
  match y with
  | inr res => mret (inr res)
  | inl x =>
      if (fatsize (fs s) =? 32) && (j + 1 =? clust_size (fs s)) then
        c ← on_fs (get_fatent (u32 root_cluster));
        let nxt_clust := s32 c in
        mret (inl (s32 (data_begin (fs s) + nxt_clust * clust_size (fs s)), nxt_clust, 0, x))
      else mret (inl (s32 (cursect + 1), root_cluster, if fatsize (fs s) =? 32 then j + 1 else j, x))
  end.

(** ** Subdirectories *)

Record walk := mkWalk { wk_isdir : bool; firsttime : bool; subname : list Z; wk_dent : list Z }.

Definition walk_step (fuel : nat) (dols : Z) (x : walk) : F (walk + root_res) :=
  if wk_isdir x then
    let ls := negb (dols =? 0) in
    i ← lift (dirdelim (subname x));
    '(name, nextname, first, isdir) ← lift (
      if 0 <=? i then
        name ← upd (subname x) i 0;
        nextname ← skip_delims (drop (Z.to_nat (i + 1)) (subname x));
        c ← idx nextname 0;
        Some (name, nextname, if ls && (c =? 0) then false else firsttime x, true)
      else if ls && firsttime x then Some (subname x, subname x, false, true)
      else Some (subname x, subname x, firsttime x, false));
    o ← get_dentfromdir fuel name (wk_dent x) (if (isdir : bool) then 0 else dols);
    match o with
    | None => mret (inr (RootRet (if ls && negb isdir then 0 else -1)))
    | Some d =>
        if 0 <=? i then
          attr ← lift (idx d 11);
          if negb (has attr ATTR_DIR) then mret (inr (RootRet (-1)))
          else mret (inl (mkWalk isdir first nextname d))
        else mret (inl (mkWalk isdir first (subname x) d))
    end
  else mret (inr (RootDone (wk_dent x))).

(** ** [do_fat_read] *)

(** The first name, the rest of the path, [isdir] and [dols]. *)
Definition split_name (fnamecopy : list Z) (dols : Z) : option (list Z * list Z * bool * Z) :=
  c ← idx fnamecopy 0;
  if c =? 0 then Some (fnamecopy, lit "", false, LS_ROOT) else
  i ← dirdelim fnamecopy;
  if 0 <=? i then
    name ← upd fnamecopy i 0;
    sub ← skip_delims (drop (Z.to_nat (i + 1)) fnamecopy);
    Some (name, sub, true, dols)
  else Some (fnamecopy, lit "", negb (dols =? 0), dols).

(** [fnamecopy0] and [fatbuf0] are uninitialised; the fuel bounds the number
    of sectors of the root directory and of clusters of a directory. *)
Definition do_fat_read (fuel : nat) (fnamecopy0 fatbuf0 filename : list Z) (maxsize dols : Z) : F Z :=
  o ← lift read_bootsectandvi;
  match o with
  | None => mret (-1)
  | Some (bs, volinfo, fsz) =>
      mydata ← lift (fs_params bs fatbuf0 fsz);
      _ ← modify (set_fs mydata);
      root_cluster ← lift (le_at bs 44 4);
      filename ← lift (skip_delims filename);
      n ← lift (c_strlen filename);
      fnamecopy ← lift (blit fnamecopy0 0 (cut filename ++ [0]));
      fnamecopy ← lift (downcase fnamecopy);
      c ← lift (idx fnamecopy 0);
      if (c =? 0) && (dols =? 0) then mret (-1) else
      '(fnamecopy, sub, isdir, dols) ← lift (split_name fnamecopy dols);
      res ← mloop fuel (sector_step fnamecopy dols isdir) (rootdir_sect mydata, s32 root_cluster, 0, mkScan 0 0xffff 0 0);
      match res with
      | RootRet r => mret r
      | RootDone dent =>
          res ← mloop (S (S (length sub))) (walk_step fuel dols) (mkWalk isdir true sub dent);
          match res with
          | RootRet r => mret r
          | RootDone dent => get_contents dent maxsize
          end
      end
  end.

Definition file_fat_read (fuel : nat) (fnamecopy0 fatbuf0 filename : list Z) (maxsize : Z) : F Z :=
  do_fat_read fuel fnamecopy0 fatbuf0 filename maxsize LS_NO.
Definition file_fat_ls (fuel : nat) (fnamecopy0 fatbuf0 dir : list Z) : F Z :=
  do_fat_read fuel fnamecopy0 fatbuf0 dir 0 LS_YES.
(** Whether there is a volume. *)
Definition file_fat_detectfs : option Z :=
  match cur_dev g with
  | None => Some 1
  | Some _ => o ← read_bootsectandvi; Some (match o with Some _ => 0 | None => 1 end)
  end.
End fat.
