(* ===== verification/FatName.v ===== *)
(** [Fat]: the names of the entries of a directory, short and long. *)
From stdpp Require Import base tactics option list.
From Stdlib Require Import ZArith Lia.
From S2P Require Import Prelude.
From S2P Require Import Eff.
From S2P Require Import CBuf.
From S2P Require Import PartDos.
From S2P Require Import Fat.
Open Scope Z_scope.

(** ** Tidying a name *)

(** What becomes of the first character, and the lower case. *)
Definition tidy (w : list Z) : list Z :=
  match w with [] => [] | c :: w' => if c =? DELETED_FLAG then [] else TOLOWER (if c =? aRING then 0xe5 else c) :: (TOLOWER <$> w') end.

Lemma downcase_spec w r : 0 ∉ w → downcase (w ++ 0 :: r) = Some ((TOLOWER <$> w) ++ 0 :: r).
Proof.
  induction w as [|c w IH]; intros Hw; [done|]. apply not_elem_of_cons in Hw as [Hc Hw]. cbn [app downcase].
  destruct (Z.eqb_spec c 0); [by subst|]. by rewrite IH.
Qed.

Lemma tidy_spec w r : 0 ∉ w → ∃ r', (s ← fix_first (w ++ 0 :: r); downcase s) = Some (tidy w ++ 0 :: r').
Proof.
  intros Hw. unfold fix_first. destruct w as [|c w].
  { exists r. done. }
  cbn [app]. rewrite idx_0. change ((c :: w ++ 0 :: r) !! 0%nat) with (Some c). cbn [mbind option_bind]. apply not_elem_of_cons in Hw as [Hc Hw]. unfold tidy.
  pose proof (downcase_spec w r Hw) as Hd.
  destruct (Z.eqb_spec c DELETED_FLAG) as [->|].
  { by exists (w ++ 0 :: r). }
  exists r. destruct (Z.eqb_spec c aRING) as [->|].
  - pose proof (upd_behind [] (w ++ 0 :: r) aRING 0xe5 0 eq_refl) as E. cbn [app] in E. rewrite E. cbn [app mbind option_bind downcase]. change (0xe5 =? 0) with false.
    cbn [mbind option_bind] in *. by rewrite Hd.
  - cbn [mbind option_bind downcase]. destruct (Z.eqb_spec c 0); [by subst|]. by rewrite Hd.
Qed.

(** ** Short names *)

(** The characters to the first NUL or blank. *)
Fixpoint word (l : list Z) : list Z :=
  match l with [] => [] | c :: l => if (c =? 0) || (c =? 32) then [] else c :: word l end.

(** The name of an entry: the base, and the extension behind a dot. *)
Definition short_text (d : list Z) : list Z :=
  let ext := word (take 3 (drop 8 d)) in
  word (take 8 d) ++ match ext with [] => [] | _ => 46 :: ext end.
Definition short_name (d : list Z) : list Z := tidy (short_text d).

Lemma word_nonzero l : 0 ∉ word l.
Proof.
  induction l as [|c l IH]; cbn; [apply not_elem_of_nil|]. destruct (Z.eqb_spec c 0); [apply not_elem_of_nil|].
  destruct (Z.eqb_spec c 32); [apply not_elem_of_nil|]. apply not_elem_of_cons. by split.
Qed.

Lemma word_length l : (length (word l) <= length l)%nat.
Proof. induction l as [|c l IH]; cbn; [lia|]. destruct (_ || _); cbn; lia. Qed.

Lemma word_split l : ∃ r, l = word l ++ r ∧ match r with [] => True | c :: _ => c = 0 ∨ c = 32 end.
Proof.
  induction l as [|c l IH]; [by exists []|]. cbn [word]. destruct ((c =? 0) || (c =? 32)) eqn:E.
  - exists (c :: l). split; [done|]. to_prop; lia.
  - destruct IH as (r & Hr & H). exists r. cbn [app]. by rewrite <-Hr.
Qed.

Lemma short_text_nonzero d : 0 ∉ short_text d.
Proof.
  unfold short_text. apply not_elem_of_app. split; [apply word_nonzero|].
  pose proof (word_nonzero (take 3 (drop 8 d))) as H. destruct (word _); [apply not_elem_of_nil|]. by apply not_elem_of_cons.
Qed.

(** The loop to the first NUL or blank. *)
Lemma to_blank_loop w : ∀ pre c r p n, (c = 0 ∨ c = 32) → word w = w → p = Z.of_nat (length pre) → (length w < n)%nat →
  loop n (name_blank (pre ++ w ++ c :: r)) p = Some (p + Z.of_nat (length w)).
Proof.
  induction w as [|x w IH]; intros pre c r p n Hc Hw Hp Hn; (destruct n as [|n]; [lia|]); rewrite loop_S; unfold name_blank; cbn [app].
  - rewrite idx_behind by done. cbn [mbind option_bind length].
    destruct Hc as [-> | ->]; cbn [Z.eqb Pos.eqb negb andb]; by rewrite Z.add_0_r.
  - rewrite idx_behind by done. cbn [mbind option_bind length] in *. cbn [word] in Hw.
    destruct ((x =? 0) || (x =? 32)) eqn:E; [done|]. injection Hw as Hw.
    replace (negb (x =? 0) && negb (x =? 32)) with true by (symmetry; to_prop; done || lia).
    change (name_blank (pre ++ x :: w ++ c :: r)) with (name_blank (pre ++ x :: w ++ c :: r)).
    pose proof (IH (pre ++ [x]) c r (p + 1) n Hc Hw) as IH'. rewrite <-app_assoc in IH'. cbn [app] in IH'.
    unfold name_blank in IH'. rewrite IH' by (rewrite ?length_app; cbn [length]; lia). f_equal. lia.
Qed.

Lemma word_word l : word (word l) = word l.
Proof. induction l as [|c l IH]; cbn; [done|]. destruct ((c =? 0) || (c =? 32)) eqn:E; cbn; [done|]. by rewrite E, IH. Qed.

(** The array up to the first NUL or blank of a field in it. *)
Lemma field_split l x r : ∃ c r', l ++ x :: r = word l ++ c :: r' ∧ (x = 0 ∨ x = 32 → c = 0 ∨ c = 32) ∧ (length (word l) + length r' = length l + length r)%nat.
Proof.
  destruct (word_split l) as ([|c t] & Hl & Hc).
  - exists x, r. rewrite app_nil_r in Hl. rewrite <-Hl. done.
  - exists c, (t ++ x :: r). rewrite Hl at 1. rewrite <-app_assoc. split; [done|]. split; [done|].
    apply (f_equal length) in Hl. rewrite length_app in *. cbn [length] in *. lia.
Qed.

Lemma get_name_spec d s : length d = 32%nat → length s = 14%nat → ∃ r, get_name d s = Some (short_name d ++ 0 :: r).
Proof.
  intros Hd Hs. unfold get_name. rewrite (slice_Some d 0 8), (slice_Some d 8 3) by (rewrite ?Hd; lia). cbn [mbind option_bind].
  change (drop (Z.to_nat 0) d) with d. change (Z.to_nat 8) with 8%nat. change (Z.to_nat 3) with 3%nat.
  assert (length (take 8 d) = 8%nat) as Lb by (rewrite length_take, Hd; done).
  destruct (drop 8 s) as [|x rest] eqn:Er; [apply (f_equal length) in Er; rewrite length_drop, Hs in Er; done|].
  assert (length rest = 5%nat) as Lr by (apply (f_equal length) in Er; rewrite length_drop, Hs in Er; cbn in Er; lia).
  pose proof (blit_behind [] (take 8 s) (take 8 d) (x :: rest) 0 eq_refl) as E. cbn [app] in E.
  rewrite <-Er, take_drop, Er in E. rewrite E by (rewrite Lb, length_take, Hs; done). clear E. cbn [mbind option_bind].
  rewrite (upd_behind (take 8 d) rest x) by (rewrite Lb; done). cbn [mbind option_bind].
  destruct (field_split (take 8 d) 0 rest) as (c & r & -> & Hc & Hl). specialize (Hc (or_introl eq_refl)).
  pose proof (word_length (take 8 d)) as Lw. rewrite Lb in *.
  pose proof (to_blank_loop (word (take 8 d)) [] c r 0 16 Hc (word_word _) eq_refl ltac:(lia)) as El. cbn [app] in El.
  rewrite El. cbn [mbind option_bind]. clear El. rewrite Z.add_0_l.
  destruct (lookup_lt_is_Some_2 d 8) as [e He]; [lia|]. rewrite (idx_nat d 8 : idx d 8 = d !! 8%nat), He. cbn [mbind option_bind].
  assert (take 3 (drop 8 d) = e :: take 2 (drop 9 d)) as Hext by (by rewrite (drop_S d e 8)).
  unfold short_name, short_text. rewrite Hext.
  destruct (Z.eqb_spec e 0) as [->|He0]; [|destruct (Z.eqb_spec e 32) as [->|He32]]; cbn [negb andb].
  1-2: cbn [mbind option_bind word Z.eqb Pos.eqb orb]; rewrite upd_behind by done; cbn [mbind option_bind]; rewrite app_nil_r;
    apply tidy_spec, word_nonzero.
  rewrite upd_behind by done. cbn [mbind option_bind]. set (ext := e :: take 2 (drop 9 d)) in *.
  assert (length ext = 3%nat) as Le by (rewrite <-Hext, length_take, length_drop, Hd; done).
  assert (word ext = e :: word (take 2 (drop 9 d))) as Hw by (unfold ext; cbn [word]; to_prop; done || lia).
  destruct (drop 3 r) as [|y rr] eqn:Err; [apply (f_equal length) in Err; rewrite length_drop in Err; cbn in Err; lia|].
  pose proof (blit_behind (word (take 8 d) ++ [46]) (take 3 r) ext (y :: rr) (Z.of_nat (length (word (take 8 d))) + 1)) as E.
  rewrite <-Err, take_drop, Err, <-!app_assoc in E. cbn [app] in E. rewrite E; [|rewrite length_app; cbn [length]; lia|rewrite Le, length_take; lia].
  clear E. cbn [mbind option_bind].
  rewrite (app_assoc _ [46] (ext ++ y :: rr)), (app_assoc _ ext (y :: rr)).
  rewrite (upd_behind _ rr y) by (rewrite !length_app; cbn [length]; lia). cbn [mbind option_bind]. rewrite <-!app_assoc. cbn [app].
  destruct (field_split ext 0 rr) as (c' & r' & -> & Hc' & Hl'). specialize (Hc' (or_introl eq_refl)).
  pose proof (word_length ext) as Lx. rewrite Le in *.
  pose proof (to_blank_loop (word ext) (word (take 8 d) ++ [46]) c' r' (Z.of_nat (length (word (take 8 d))) + 1) 16 Hc' (word_word _)) as El.
  rewrite <-app_assoc in El. cbn [app] in El. rewrite El by (rewrite ?length_app; cbn [length]; lia). cbn [mbind option_bind]. clear El.
  change (word (take 8 d) ++ 46 :: word ext ++ c' :: r') with (word (take 8 d) ++ (46 :: word ext) ++ c' :: r').
  rewrite app_assoc, upd_behind by (rewrite length_app; cbn [length]; lia). cbn [mbind option_bind].
  rewrite Hw. apply tidy_spec. rewrite <-Hw. apply not_elem_of_app. split; [apply word_nonzero|].
  apply not_elem_of_cons. split; [done|apply word_nonzero].
Qed.

(** ** Long names *)

(** The characters of a slot, and the name of several, given as they lie in
    the directory: the last part of the name first. *)
Fixpoint chars_at (offs d : list Z) : list Z :=
  match offs with [] => [] | o :: offs => default 0 (d !! Z.to_nat o) :: chars_at offs d end.
Definition slot_text (d : list Z) : list Z := chars_at slot_offsets d.
Definition long_text (slots : list (list Z)) : list Z := cut (concat (slot_text <$> reverse slots)).
Definition long_name (slots : list (list Z)) : list Z := tidy (long_text slots).

Lemma cut_app_l a b : 0 ∉ a → cut (a ++ b) = a ++ cut b.
Proof.
  induction a as [|x a IH]; intros Ha; [done|]. apply not_elem_of_cons in Ha as [Hx Ha]. cbn [app cut].
  destruct (Z.eqb_spec x 0); [by subst|]. by rewrite IH.
Qed.

Lemma cut_app_in a b : 0 ∈ a → cut (a ++ b) = cut a.
Proof.
  induction a as [|x a IH]; intros Ha; [by apply not_elem_of_nil in Ha|]. cbn [app cut].
  destruct (Z.eqb_spec x 0); [done|]. apply elem_of_cons in Ha as [?|Ha]; [by subst|]. by rewrite IH.
Qed.

(** The characters behind what the array holds already. *)
Lemma slot_chars_all offs : ∀ d pre old rest i, length d = 32%nat → Forall (λ o, 0 <= o < 32) offs →
  length old = length offs → i = Z.of_nat (length pre) →
  0 ∉ (chars_at offs d) →
  slot_chars offs d (pre ++ old ++ rest) i =
    Some (pre ++ (chars_at offs d) ++ rest, i + Z.of_nat (length offs), false).
Proof.
  induction offs as [|o offs IH]; intros d pre old rest i Hd Ho Hl Hi H0; cbn [slot_chars chars_at length] in *.
  - destruct old; [|done]. by rewrite Z.add_0_r.
  - destruct old as [|x old]; [done|]. apply Forall_cons in Ho as [Ho Hos]. apply not_elem_of_cons in H0 as [Hc H0]. cbn [app].
    destruct (lookup_lt_is_Some_2 d (Z.to_nat o)) as [c Ec]; [lia|]. rewrite Ec in Hc |- *. cbn [default from_option id] in *.
    rewrite (proj2 (idx_lookup d o c)) by (split; [lia|done]). cbn [mbind option_bind]. rewrite upd_behind by done. cbn [mbind option_bind].
    destruct (Z.eqb_spec c 0); [by subst|].
    specialize (IH d (pre ++ [c]) old rest (i + 1) Hd Hos). rewrite <-!app_assoc in IH. cbn [app] in IH.
    rewrite IH; [|cbn in Hl; lia|rewrite length_app; cbn [length]; lia|done]. do 2 f_equal. f_equal. lia.
Qed.

Lemma slot_chars_end offs : ∀ d pre rest i, length d = 32%nat → Forall (λ o, 0 <= o < 32) offs → i = Z.of_nat (length pre) →
  0 ∈ (chars_at offs d) →
  let w := cut (chars_at offs d) in
  (length w < length rest)%nat →
  slot_chars offs d (pre ++ rest) i = Some (pre ++ w ++ 0 :: drop (S (length w)) rest, i + Z.of_nat (length w), true).
Proof.
  induction offs as [|o offs IH]; intros d pre rest i Hd Ho Hi H0 w Hw; [by apply not_elem_of_nil in H0|].
  apply Forall_cons in Ho as [Ho Hos]. unfold w in *. clear w. cbn [slot_chars chars_at cut] in *.
  destruct (lookup_lt_is_Some_2 d (Z.to_nat o)) as [c Ec]; [lia|]. rewrite Ec in *. cbn [default from_option id] in *.
  destruct rest as [|x rest]; [cbn in Hw; lia|].
  rewrite (proj2 (idx_lookup d o c)) by (split; [lia|done]). cbn [mbind option_bind]. rewrite upd_behind by done. cbn [mbind option_bind].
  destruct (Z.eqb_spec c 0) as [->|Hc].
  - cbn [length app drop]. rewrite drop_0. by rewrite Z.add_0_r.
  - apply elem_of_cons in H0 as [?|H0]; [by subst|]. cbn [length] in Hw.
    specialize (IH d (pre ++ [c]) rest (i + 1) Hd Hos). rewrite <-!app_assoc in IH. cbn [app] in IH.
    rewrite IH; [|rewrite length_app; cbn [length]; lia|done|lia]. cbn [length app drop]. do 3 f_equal. lia.
Qed.

Lemma slot_offsets_range : Forall (λ o, 0 <= o < 32) slot_offsets.
Proof. by_eval. Qed.

(** The slots, the last one in memory first. *)
Lemma slots_loop cluster n0 slots : ∀ pre post acc rest n slotptr, slots ≠ [] →
  cluster = pre ++ concat slots ++ post → Forall (λ sl, length sl = 32%nat) slots →
  (∀ j sl, slots !! j = Some sl → ∃ id, sl !! 0%nat = Some id ∧ has id LAST_LONG_ENTRY_MASK = (j =? 0)%nat) →
  slotptr = Z.of_nat (length pre) + 32 * Z.of_nat (length slots) → 0 ∉ acc → (length slots < n)%nat →
  (length (acc ++ long_text slots) < length (acc ++ rest))%nat → length (acc ++ rest) = n0 →
  ∃ rest', loop n (name_step cluster) (slotptr, acc ++ rest, Z.of_nat (length acc)) =
      Some (acc ++ long_text slots ++ rest', Z.of_nat (length (acc ++ long_text slots))) ∧
    length (acc ++ long_text slots ++ rest') = n0.
Proof.
  induction slots as [|sl slots IH] using rev_ind; intros pre post acc rest n slotptr Hne Hcl Hlen Hid Hp H0 Hn Hfit Hn0; [done|].
  destruct n as [|n]; [lia|]. rewrite loop_S. unfold name_step.
  apply Forall_app in Hlen as [Hlen Hsl]. apply Forall_cons in Hsl as [Hsl _].
  assert (length (concat slots) = (32 * length slots)%nat) as Lc.
  { clear -Hlen. induction Hlen as [|a l Ha _ IH]; [done|]. cbn [concat length]. rewrite length_app, Ha, IH. lia. }
  rewrite concat_app in Hcl. cbn [concat] in Hcl. rewrite app_nil_r, <-app_assoc in Hcl. rewrite length_app in Hp, Hn. cbn [length] in Hp, Hn.
  assert (slice cluster (slotptr - 32) 32 = Some sl) as ->.
  { rewrite Hcl, (app_assoc pre). apply slice_behind; [rewrite length_app, Lc; lia|by rewrite Hsl]. }
  cbn [mbind option_bind]. unfold slot2str.
  unfold long_text in *. rewrite reverse_app in *. cbn [reverse rev_append fmap list_fmap app concat] in *. fold (slot_text sl) in *.
  destruct (decide (0 ∈ slot_text sl)) as [Hin|Hin].
  - rewrite cut_app_in in * by done. rewrite length_app, (length_app acc rest) in Hfit.
    rewrite (slot_chars_end slot_offsets sl acc rest) by (done || apply slot_offsets_range || (unfold slot_text in *; lia)).
    cbn [mbind option_bind]. fold (slot_text sl). eexists. rewrite length_app, Nat2Z.inj_add. split; [done|].
    rewrite <-Hn0, !length_app. cbn [length]. rewrite length_drop. lia.
  - rewrite cut_app_l in * by done. rewrite !length_app in Hfit.
    assert (length (slot_text sl) = 13%nat) as L13 by done.
    replace (acc ++ rest) with (acc ++ take 13 rest ++ drop 13 rest) by (by rewrite take_drop).
    rewrite (slot_chars_all slot_offsets sl acc) by (done || apply slot_offsets_range || (rewrite length_take; cbn [length slot_offsets]; lia)).
    cbn [mbind option_bind]. fold (slot_text sl).
    destruct (Hid (length slots) sl) as (id & Hid0 & Hlast); [by rewrite lookup_app_r, Nat.sub_diag|].
    change (idx sl 0) with (sl !! 0%nat). rewrite Hid0. cbn [mbind option_bind]. rewrite Hlast.
    destruct (Nat.eqb_spec (length slots) 0) as [E0|E0].
    + destruct slots; [|done]. cbn [reverse rev_append fmap list_fmap concat cut]. rewrite app_nil_r.
      exists (drop 13 rest). rewrite length_app, L13. split; [do 2 f_equal; cbn [length slot_offsets]; lia|].
      rewrite <-Hn0, !length_app, length_drop. lia.
    + destruct (IH pre (sl ++ post) (acc ++ slot_text sl) (drop 13 rest) n (slotptr - 32)) as (rest' & E & Hl).
      * by destruct slots.
      * exact Hcl.
      * done.
      * intros j s Hj. destruct (Hid j s) as (i & ? & ?); [by apply lookup_app_l_Some|]. by exists i.
      * lia.
      * by apply not_elem_of_app.
      * lia.
      * rewrite !length_app, length_drop. lia.
      * rewrite <-Hn0, !length_app, length_drop. lia.
      * exists rest'. rewrite <-!app_assoc in *. rewrite length_app, L13, Nat2Z.inj_add in E. split; [exact E|exact Hl].
Qed.

(** ** A group of slots *)

(** The slots count down to 1, the first of them is marked, and the name fits
    its array. *)
Record slots_ok (slots : list (list Z)) : Prop := mkSlotsOk {
  sl_count : (0 < length slots <= 20)%nat;
  sl_length : Forall (λ sl, length sl = 32%nat) slots;
  sl_id j sl : slots !! j = Some sl → sl !! 0%nat = Some (Z.of_nat (length slots - j) + (if (j =? 0)%nat then 64 else 0));
  sl_attr : Forall (λ sl, sl !! 11%nat = Some ATTR_VFAT) slots;
  sl_fits : (length (long_text slots) <= 255)%nat;
}.

(** The numbers without the mark. *)
Lemma slot_numbers n : 0 <= n <= 20 → Z.land n 0xbf = n ∧ Z.land (n + 64) 0xbf = n ∧
  has n LAST_LONG_ENTRY_MASK = false ∧ has (n + 64) LAST_LONG_ENTRY_MASK = true.
Proof.
  intros Hn. assert (Forall (λ n, Z.land n 0xbf = n ∧ Z.land (n + 64) 0xbf = n ∧ has n LAST_LONG_ENTRY_MASK = false ∧
    has (n + 64) LAST_LONG_ENTRY_MASK = true) (Z.of_nat <$> seq 0 21)) as H by by_eval.
  apply (Forall_forall _ _) with (x := n) in H; [done|]. apply list_elem_of_fmap. exists (Z.to_nat n). rewrite elem_of_seq. lia.
Qed.

Lemma slot_number slots j sl : slots_ok slots → slots !! j = Some sl →
  ∃ id, sl !! 0%nat = Some id ∧ Z.land id 0xbf = Z.of_nat (length slots - j) ∧ has id LAST_LONG_ENTRY_MASK = (j =? 0)%nat.
Proof.
  intros Hs Hj. pose proof (sl_count _ Hs). pose proof (lookup_lt_Some _ _ _ Hj). eexists. split; [by apply (sl_id _ Hs)|].
  pose proof (slot_numbers (Z.of_nat (length slots - j))) as (?&?&?&?); [lia|]. destruct (j =? 0)%nat; [done|]. by rewrite Z.add_0_r.
Qed.

Lemma concat_length32 (l : list (list Z)) : Forall (λ d, length d = 32%nat) l → length (concat l) = (32 * length l)%nat.
Proof. induction 1 as [|a l Ha _ IH]; [done|]. cbn [concat length]. rewrite length_app, Ha, IH. lia. Qed.

(** The [j]-th entry of a row of them. *)
Lemma entry_at (pre post : list Z) (l : list (list Z)) j d i : Forall (λ d, length d = 32%nat) l → l !! j = Some d →
  i = Z.of_nat (length pre) + 32 * Z.of_nat j → slice (pre ++ concat l ++ post) i 32 = Some d.
Proof.
  intros Hl Hj ->. pose proof (Forall_lookup_1 _ _ _ _ Hl Hj) as Hlen.
  apply list_elem_of_split_length in Hj as (l1 & l2 & -> & ->). apply Forall_app in Hl as [Hl1 _].
  rewrite concat_app. cbn [concat]. rewrite <-!app_assoc, app_assoc. apply slice_behind; [|by rewrite Hlen].
  rewrite length_app, (concat_length32 l1) by done. lia.
Qed.

Lemma first_at (pre post : list Z) (l : list (list Z)) j d i b : Forall (λ d, length d = 32%nat) l → l !! j = Some d → d !! 0%nat = Some b →
  i = Z.of_nat (length pre) + 32 * Z.of_nat j → idx (pre ++ concat l ++ post) i = Some b.
Proof.
  intros Hl Hj Hb ->. apply list_elem_of_split_length in Hj as (l1 & l2 & -> & ->). apply Forall_app in Hl as [Hl1 _].
  rewrite concat_app. cbn [concat]. rewrite <-!app_assoc, app_assoc. destruct d as [|b' d]; [done|]. injection Hb as ->. cbn [app].
  apply idx_behind. rewrite length_app, (concat_length32 l1) by done. lia.
Qed.

(** Counting the slots. *)
Lemma count_slots pre post slots next : slots_ok slots → Z.of_nat (length pre) + 32 * Z.of_nat (length slots) < next →
  ∀ k j n, (j + k = length slots)%nat → (k < n)%nat →
  loop n (slot_step (pre ++ concat slots ++ post) next) (Z.of_nat (length pre) + 32 * Z.of_nat j, Z.of_nat k) =
    Some (Some (Z.of_nat (length pre) + 32 * Z.of_nat (length slots))).
Proof.
  intros Hs Hnext. induction k as [|k IH]; intros j n Hj Hn; (destruct n as [|n]; [lia|]); rewrite loop_S; unfold slot_step;
    (destruct (Z.ltb_spec (Z.of_nat (length pre) + 32 * Z.of_nat j) next); [|lia]).
  - cbn [Z.of_nat Z.eqb]. do 3 f_equal. lia.
  - destruct (Z.eqb_spec (Z.of_nat (S k)) 0); [lia|].
    destruct (lookup_lt_is_Some_2 slots j) as [sl Hsl]; [lia|].
    destruct (slot_number slots j sl Hs Hsl) as (id & Hid & Hland & _).
    rewrite (first_at pre post slots j sl _ id (sl_length _ Hs) Hsl Hid) by done. cbn [mbind option_bind]. rewrite Hland.
    destruct (Z.eqb_spec (Z.of_nat (length slots - j)) (Z.of_nat (S k))); [|lia]. cbn [negb].
    pose proof (sl_count _ Hs). replace (u8 (Z.of_nat (S k) - 1)) with (Z.of_nat k) by (rewrite u8_id by (unfold is_byte; lia); lia).
    replace (Z.of_nat (length pre) + 32 * Z.of_nat j + 32) with (Z.of_nat (length pre) + 32 * Z.of_nat (S j)) by lia.
    apply IH; lia.
Qed.

(** A group inside the cluster: its name, and the entry behind the slots in
    the place of the first one. *)
Lemma get_vfatname_spec g pre slots sl0 slots' d post curclust l_name st :
  slots_ok slots → slots = sl0 :: slots' → length d = 32%nat → length l_name = 256%nat →
  Z.of_nat (length pre) + 32 * Z.of_nat (length slots) < clust_size (fs st) * FS_BLOCK_SIZE →
  ∃ r, get_vfatname g curclust (pre ++ concat slots ++ d ++ post) (Z.of_nat (length pre)) l_name st =
    Some (st, (pre ++ d ++ concat slots' ++ d ++ post, long_name slots ++ 0 :: r, 0)).
Proof.
  intros Hs E0 Hd Hl Hn. pose proof (sl_count _ Hs) as Hcount.
  destruct (slot_number slots 0 sl0 Hs) as (id & Hid & Hland & _); [by rewrite E0|].
  assert (wp (get_vfatname g curclust (pre ++ concat slots ++ d ++ post) (Z.of_nat (length pre)) l_name) st
    (λ st' x, st' = st ∧ ∃ r, x = (pre ++ d ++ concat slots' ++ d ++ post, long_name slots ++ 0 :: r, 0))) as Hwp.
  2:{ destruct (wp_elim _ _ _ Hwp) as (st' & x & -> & -> & r & ->). by exists r. }
  unfold get_vfatname. apply wp_bind, wp_get, wp_bind. eapply wp_lift.
  { apply (first_at pre (d ++ post) slots 0 sl0 _ id (sl_length _ Hs)); [by rewrite E0|done|lia]. }
  apply wp_bind. eapply wp_lift.
  { pose proof (count_slots pre (d ++ post) slots _ Hs Hn (length slots) 0 257 eq_refl ltac:(lia)) as Ec.
    cbn [Z.of_nat] in Ec. rewrite Z.mul_0_r, Z.add_0_r in Ec. rewrite Hland, Nat.sub_0_r. exact Ec. }
  cbn beta iota. set (o := Z.of_nat (length pre) + 32 * Z.of_nat (length slots)) in *.
  destruct (Z.leb_spec (clust_size (fs st) * FS_BLOCK_SIZE) o); [lia|]. apply wp_bind, wp_bind.
  pose proof (concat_length32 slots (sl_length _ Hs)) as Lc. eapply wp_lift.
  { rewrite (app_assoc pre). apply slice_behind; [rewrite length_app, Lc; unfold o; lia|by rewrite Hd]. }
  apply wp_ret. cbn beta iota. apply wp_bind.
  destruct (slots_loop (pre ++ concat slots ++ d ++ post) 256 slots pre (d ++ post) [] l_name
    (S (length (pre ++ concat slots ++ d ++ post))) o) as (rest & El & Ll); [by rewrite E0|done|apply Hs| |done|apply not_elem_of_nil|..].
  { intros j sl Hj. destruct (slot_number slots j sl Hs Hj) as (i & ? & _ & ?). by exists i. }
  { rewrite !length_app, Lc. lia. }
  { pose proof (sl_fits _ Hs). cbn [app]. lia. }
  { done. }
  cbn [app length] in El, Ll. eapply wp_lift; [exact El|]. cbn beta iota.
  destruct rest as [|x rest]; [pose proof (sl_fits _ Hs); rewrite app_nil_r in Ll; lia|].
  apply wp_bind. eapply wp_lift; [by apply upd_behind|].
  destruct (tidy_spec (long_text slots) rest) as (r & Et); [apply cut_nonzero|].
  destruct (fix_first (long_text slots ++ 0 :: rest)) as [s1|] eqn:E1; [|done]. cbn [mbind option_bind] in Et.
  apply wp_bind. eapply wp_lift; [reflexivity|]. apply wp_bind. eapply wp_lift; [exact Et|]. apply wp_bind.
  rewrite E0 at 1. cbn [concat]. rewrite <-(app_assoc sl0). eapply wp_lift.
  { apply blit_behind; [done|]. rewrite Hd. pose proof (sl_length _ Hs) as Hall. rewrite E0 in Hall. by apply Forall_cons in Hall as [? _]. }
  apply wp_ret. split; [done|]. by exists r.
Qed.
