(* ===== verification/FatTable.v ===== *)
(** [Fat]: the entries of the allocation table, looked up through the cache,
    are those of the table on the volume. *)
From stdpp Require Import base tactics option list.
From Stdlib Require Import ZArith Lia.
From S2P Require Import Prelude.
From S2P Require Import MmcDev.
From S2P Require Import Eff.
From S2P Require Import CBuf.
From S2P Require Import PartDos.
From S2P Require Import Fat.
Open Scope Z_scope.

(** ** The volume *)

(** The device returns the sectors of the volume, [N] in number. *)
Record volume (g : fat_dev) (D : disk) (N : Z) : Prop := mkVolume {
  vo_size b : length (D b) = 512%nat;
  vo_bytes b : bytes (D b);
  vo_range : N < 2 ^ 32;
  vo_read s n : 0 <= s → 0 <= n → n = 0 ∨ s + n <= N → ∃ r, disk_read g s n = (sectors D s (Z.to_nat n), r) ∧ 0 <= r;
}.

(** The byte of a volume at an offset from a sector. *)
Definition byte_at (D : disk) (sect i : Z) : Z := default 0 (D (sect + i / 512) !! Z.to_nat (i mod 512)).

Lemma sectors_lookup (D : disk) b n i : (∀ b, length (D b) = 512%nat) → 0 <= i < 512 * Z.of_nat n →
  sectors D b n !! Z.to_nat i = Some (byte_at D b i).
Proof.
  intros H. revert b i. induction n as [|n IH]; intros b i Hi; [lia|]. cbn [sectors].
  destruct (decide (i < 512)).
  - rewrite lookup_app_l by (rewrite H; lia). unfold byte_at. rewrite Z.div_small, Z.mod_small, Z.add_0_r by lia.
    destruct (lookup_lt_is_Some_2 (D b) (Z.to_nat i)) as [x ->]; [rewrite H; lia|done].
  - rewrite lookup_app_r by (rewrite H; lia). rewrite H. replace (Z.to_nat i - 512)%nat with (Z.to_nat (i - 512)) by lia.
    rewrite IH by lia. unfold byte_at. replace (b + 1 + (i - 512) / 512) with (b + i / 512) by dm_lia.
    by replace ((i - 512) mod 512) with (i mod 512) by dm_lia.
Qed.

Lemma byte_at_byte (D : disk) s i : (∀ b, bytes (D b)) → is_byte (byte_at D s i).
Proof.
  intros H. unfold byte_at. destruct (D _ !! _) eqn:E; cbn; [|unfold is_byte; lia]. by eapply bytes_lookup in E; [|apply H].
Qed.

(** ** The table *)

(** The entry of a cluster, from the bytes [B] of the table. *)
Definition fat_entry (fsz : Z) (B : Z → Z) (k : Z) : Z :=
  if fsz =? 32 then B (4 * k) + 256 * (B (4 * k + 1) + 256 * (B (4 * k + 2) + 256 * B (4 * k + 3)))
  else if fsz =? 16 then B (2 * k) + 256 * B (2 * k + 1)
  else if Z.even k then B (k + k / 2) + 256 * (B (k + k / 2 + 1) mod 16)
  else B (k + k / 2) / 16 + 16 * B (k + k / 2 + 1).

Lemma land_mod v n m : 0 <= n → m = Z.ones n → Z.land v m = v mod 2 ^ n.
Proof. intros H ->. by apply Z.land_ones. Qed.

Lemma land_high v n m k : 0 <= n → 0 <= k → m = Z.shiftl (Z.ones k) n → Z.shiftr (Z.land v m) n = v / 2 ^ n mod 2 ^ k.
Proof.
  intros Hn Hk ->. rewrite Z.shiftr_land, Z.shiftr_shiftl_l, Z.sub_diag, Z.shiftl_0_r by lia.
  rewrite Z.land_ones by done. by rewrite Z.shiftr_div_pow2.
Qed.

(** The buffer holds the bytes [W], [n] of them. *)
Definition holds (buf : list Z) (n : Z) (W : Z → Z) : Prop :=
  (∀ i, 0 <= i < n → buf !! Z.to_nat i = Some (W i)) ∧ (∀ i, is_byte (W i)).

Lemma le_at_2 buf n W o : holds buf n W → 0 <= o → o + 2 <= n → le_at buf o 2 = Some (W o + 256 * W (o + 1)).
Proof.
  intros [Hb _] H0 H2. unfold le_at. pose proof (Hb o ltac:(lia)) as E0. pose proof (Hb (o + 1) ltac:(lia)) as E1.
  pose proof (lookup_lt_Some _ _ _ E1). rewrite slice_Some by lia. change (Z.to_nat 2) with 2%nat. cbn [fmap option_fmap option_map]. f_equal.
  rewrite (drop_S buf (W o)) by done. replace (S (Z.to_nat o)) with (Z.to_nat (o + 1)) by lia.
  rewrite (drop_S buf (W (o + 1))) by done. cbn [take]. rewrite take_0. cbn [le_val]. lia.
Qed.

Lemma le_at_4 buf n W o : holds buf n W → 0 <= o → o + 4 <= n →
  le_at buf o 4 = Some (W o + 256 * (W (o + 1) + 256 * (W (o + 2) + 256 * W (o + 3)))).
Proof.
  intros Hh H0 H4. pose proof (le_at_2 buf n W o Hh H0 ltac:(lia)) as E1. pose proof (le_at_2 buf n W (o + 2) Hh ltac:(lia) ltac:(lia)) as E2.
  replace (o + 2 + 1) with (o + 3) in E2 by lia. unfold le_at in *.
  pose proof (proj1 Hh (o + 3) ltac:(lia)) as E3. apply lookup_lt_Some in E3.
  rewrite slice_Some in * by lia. cbn [fmap option_fmap option_map] in *. injection E1 as E1. injection E2 as E2.
  change (Z.to_nat 4) with (2 + 2)%nat. change (Z.to_nat 2) with 2%nat in *. f_equal.
  rewrite <-take_take_drop, drop_drop. replace (Z.to_nat o + 2)%nat with (Z.to_nat (o + 2)) by lia.
  assert (length (take 2 (drop (Z.to_nat o) buf)) = 2%nat) as Hl by (rewrite length_take, length_drop; lia).
  destruct (take 2 (drop (Z.to_nat o) buf)) as [|a [|b [|c r]]]; try done. cbn [app le_val] in *. lia.
Qed.

(** The code picks the entry out of the buffer. *)
Lemma table_entry_spec fsz per buf W off : entries_per_buf fsz = Some per → holds buf 3072 W → 0 <= off < per →
  table_entry_at fsz buf off = Some (fat_entry fsz W off).
Proof.
  intros Hper Hh Ho. unfold entries_per_buf, FAT32BUFSIZE, FAT16BUFSIZE, FAT12BUFSIZE in Hper. unfold table_entry_at, fat_entry.
  destruct (Z.eqb_spec fsz 32); [injection Hper as <-; by rewrite (le_at_4 _ 3072 W) by (done || lia)|].
  destruct (Z.eqb_spec fsz 16); [injection Hper as <-; by rewrite (le_at_2 _ 3072 W) by (done || lia)|].
  destruct (Z.eqb_spec fsz 12); [injection Hper as <-|done].
  assert (∃ q, 0 <= q < 512 ∧ (off = 4 * q ∨ off = 4 * q + 1 ∨ off = 4 * q + 2 ∨ off = 4 * q + 3)) as (q & Hq & Hoff)
    by (exists (off / 4); dm_lia).
  pose proof (proj2 Hh) as HW. unfold is_byte in HW.
  destruct Hoff as [-> |[-> |[-> | ->]]]; rewrite (land_mod _ 2 3) by (done || lia); change (2 ^ 2) with 4; cbv zeta.
  - replace ((4 * q) mod 4) with 0 by dm_lia. replace (4 * q * 3 / 4) with (3 * q) by dm_lia. change (0 =? 0) with true.
    rewrite (le_at_2 _ 3072 W) by (done || lia). cbn [mbind option_bind]. rewrite (land_mod _ 12 0xfff) by (done || lia).
    replace (Z.even (4 * q)) with true by (rewrite Z.even_mul; done).
    replace (4 * q + 4 * q / 2) with (2 * (3 * q)) by dm_lia. change (2 ^ 12) with 4096.
    pose proof (HW (2 * (3 * q))). pose proof (HW (2 * (3 * q) + 1)). f_equal. dm_lia.
  - replace ((4 * q + 1) mod 4) with 1 by dm_lia. replace ((4 * q + 1) * 3 / 4) with (3 * q) by dm_lia.
    change (1 =? 0) with false. change (1 =? 1) with true.
    rewrite !(le_at_2 _ 3072 W) by (done || lia). cbn [mbind option_bind].
    rewrite (land_mod _ 8 0xff), (land_high _ 12 0xf000 4) by (done || lia).
    rewrite lor_shiftl_add by (try done; dm_lia).
    replace (Z.even (4 * q + 1)) with false by (rewrite Z.even_add, Z.even_mul; done).
    replace (4 * q + 1 + (4 * q + 1) / 2) with (2 * (3 * q) + 1) by dm_lia.
    replace (2 * (3 * q + 1)) with (2 * (3 * q) + 1 + 1) by lia.
    pose proof (HW (2 * (3 * q))). pose proof (HW (2 * (3 * q) + 1)). pose proof (HW (2 * (3 * q) + 1 + 1)). f_equal.
    change (2 ^ 12) with 4096. change (2 ^ 8) with 256. change (2 ^ 4) with 16. dm_lia.
  - replace ((4 * q + 2) mod 4) with 2 by dm_lia. replace ((4 * q + 2) * 3 / 4) with (3 * q + 1) by dm_lia.
    change (2 =? 0) with false. change (2 =? 1) with false. change (2 =? 2) with true.
    rewrite !(le_at_2 _ 3072 W) by (done || lia). cbn [mbind option_bind].
    rewrite (land_mod _ 4 0xf), (land_high _ 8 0xff00 8) by (done || lia).
    rewrite lor_shiftl_add by (try done; dm_lia).
    replace (Z.even (4 * q + 2)) with true by (rewrite Z.even_add, Z.even_mul; done).
    replace (4 * q + 2 + (4 * q + 2) / 2) with (2 * (3 * q + 1) + 1) by dm_lia.
    replace (2 * (3 * q + 1 + 1)) with (2 * (3 * q + 1) + 1 + 1) by lia.
    pose proof (HW (2 * (3 * q + 1))). pose proof (HW (2 * (3 * q + 1) + 1)). pose proof (HW (2 * (3 * q + 1) + 1 + 1)).
    pose proof (HW (2 * (3 * q + 1) + 1 + 1 + 1)). f_equal.
    change (2 ^ 8) with 256. change (2 ^ 4) with 16. dm_lia.
  - replace ((4 * q + 3) mod 4) with 3 by dm_lia. replace ((4 * q + 3) * 3 / 4) with (3 * q + 2) by dm_lia.
    change (3 =? 0) with false. change (3 =? 1) with false. change (3 =? 2) with false.
    rewrite (le_at_2 _ 3072 W) by (done || lia). cbn [mbind option_bind]. rewrite (land_high _ 4 0xfff0 12) by (done || lia).
    replace (Z.even (4 * q + 3)) with false by (rewrite Z.even_add, Z.even_mul; done).
    replace (4 * q + 3 + (4 * q + 3) / 2) with (2 * (3 * q + 2)) by dm_lia.
    pose proof (HW (2 * (3 * q + 2))). pose proof (HW (2 * (3 * q + 2) + 1)). f_equal.
    change (2 ^ 12) with 4096. change (2 ^ 4) with 16. dm_lia.
Qed.

(** ** The cache *)

Section cache.
Context (g : fat_dev) (D : disk) (N : Z) (V : volume g D N).

(** The entry of a cluster in the table of the volume. *)
Definition next (s : fsdata) (k : Z) : Z := fat_entry (fatsize s) (byte_at D (fat_sect s)) k.
Definition geometry (s : fsdata) := (fatsize s, fatlength s, fat_sect s, rootdir_sect s, clust_size s, data_begin s).

(** The buffer holds the block of the table its number tells. *)
Record cached (s : fsdata) : Prop := mkCached {
  ca_len : Z.of_nat (length (fatbuf s)) = 12288;
  ca_table : 0 < fatlength s < 2 ^ 16;
  ca_sect : 0 <= fat_sect s;
  ca_num : fatbufnum s = -1 ∨
    0 <= fatbufnum s < 2 ^ 31 ∧ take 3072 (fatbuf s) = sectors D (fat_sect s + 6 * fatbufnum s) 6;
}.

(** The block of the table with the entry is on the device. *)
Definition in_table (s : fsdata) (k : Z) : Prop :=
  ∃ per, entries_per_buf (fatsize s) = Some per ∧ 0 <= k < 2 ^ 32 ∧ fat_sect s + 6 * (k / per) + 6 <= N.

Lemma per_range fsz per : entries_per_buf fsz = Some per →
  (fsz = 32 ∧ per = 768) ∨ (fsz = 16 ∧ per = 1536) ∨ (fsz = 12 ∧ per = 2048).
Proof.
  unfold entries_per_buf. repeat case_match; intros [= <-]; unfold FAT32BUFSIZE, FAT16BUFSIZE, FAT12BUFSIZE; lia.
Qed.

(** The entries of a block are those of the table, counted from the block. *)
Lemma fat_entry_block fsz per sect b k : entries_per_buf fsz = Some per → 0 <= k →
  fat_entry fsz (byte_at D (sect + 6 * b)) k = fat_entry fsz (byte_at D sect) (b * per + k).
Proof.
  intros Hper Hk. assert (∀ i, byte_at D (sect + 6 * b) i = byte_at D sect (3072 * b + i)) as HB.
  { intros i. unfold byte_at. replace (sect + (3072 * b + i) / 512) with (sect + 6 * b + i / 512) by dm_lia.
    by replace ((3072 * b + i) mod 512) with (i mod 512) by dm_lia. }
  unfold fat_entry. rewrite !HB.
  destruct (per_range _ _ Hper) as [[-> ->]|[[-> ->]|[-> ->]]]; cbn [Z.eqb Pos.eqb].
  - replace (4 * (b * 768 + k)) with (3072 * b + 4 * k) by lia. by rewrite <-!Z.add_assoc.
  - replace (2 * (b * 1536 + k)) with (3072 * b + 2 * k) by lia. by rewrite <-!Z.add_assoc.
  - replace (b * 2048 + k + (b * 2048 + k) / 2) with (3072 * b + (k + k / 2)) by dm_lia.
    rewrite Z.even_add, Z.even_mul, orb_comm. cbn [Z.even orb]. replace (eqb true (Z.even k)) with (Z.even k) by by destruct (Z.even k).
    by rewrite <-!Z.add_assoc.
Qed.

Lemma take_holds s : cached s → 0 <= fatbufnum s → holds (fatbuf s) 3072 (byte_at D (fat_sect s + 6 * fatbufnum s)).
Proof using V.
  intros Hc H0. destruct (ca_num s Hc) as [?|[_ Hb]]; [lia|]. split.
  - intros i Hi. rewrite <-(lookup_take_lt _ 3072), Hb by lia. apply sectors_lookup; [apply V|lia].
  - intros i. apply byte_at_byte, V.
Qed.

Lemma wp_fill_fatbuf b s : cached s → 0 <= b < 2 ^ 31 → fat_sect s + 6 * b + 6 <= N →
  wp (fill_fatbuf g b) s (λ s' r, 0 <= r ∧ cached s' ∧ geometry s' = geometry s ∧ fatbufnum s' = b).
Proof using V.
  intros Hc Hb HN. pose proof (vo_range g D N V). pose proof (ca_table s Hc). pose proof (ca_sect s Hc).
  unfold fill_fatbuf, FATBUFBLOCKS, FS_BLOCK_SIZE. apply wp_bind, wp_get. cbv zeta.
  replace (u32 (fatlength s * 512) <? 6) with false by (symmetry; apply Z.ltb_ge; rewrite u32_id by int_lia; lia).
  destruct (vo_read g D N V (fat_sect s + 6 * b) 6) as (r & Hr & Hr0); [lia..|].
  rewrite u32_id by int_lia. replace (b * 6 + fat_sect s) with (fat_sect s + 6 * b) by lia. rewrite Hr.
  change (Z.to_nat 6) with 6%nat. pose proof (sectors_len D (fat_sect s + 6 * b) 6 ltac:(apply V)) as Hl.
  apply wp_bind. eapply wp_lift; [apply blit_Some; [lia|]; rewrite Hl, (ca_len s Hc); lia|].
  repeat wp_step. cbn [fatbufnum geometry]. destruct (Z.ltb_spec r 0); [lia|]. rewrite s32_id by int_lia.
  split_and!; [done| |done|done]. split; cbn [fatbuf fatlength fat_sect fatbufnum]; [|lia..|].
  - pose proof (ca_len s Hc). change (Z.to_nat 0) with 0%nat. rewrite take_0, !length_app, Hl, length_drop. cbn [length]. lia.
  - right. split; [lia|]. change (Z.to_nat 0) with 0%nat. rewrite take_0. cbn [app]. by rewrite take_app_length' by (rewrite Hl; done).
Qed.

Lemma get_fatent_spec s k : cached s → in_table s k →
  wp (get_fatent g k) s (λ s' v, v = next s k ∧ cached s' ∧ geometry s' = geometry s).
Proof using V.
  intros Hc (per & Hper & Hk & HN). unfold get_fatent. apply wp_bind, wp_get. rewrite Hper.
  assert (0 <= k / per < 2 ^ 31) as Hb by (clear -Hper Hk; destruct (per_range _ _ Hper) as [[_ ->]|[[_ ->]|[_ ->]]]; dm_lia). apply wp_bind.
  apply (wp_mono _ _ (λ s' r, 0 <= r ∧ cached s' ∧ geometry s' = geometry s ∧ fatbufnum s' = k / per)).
  { destruct (Z.eqb_spec (k / per) (u32 (fatbufnum s))) as [E|E]; cbn [negb]; [|by apply wp_fill_fatbuf].
    apply wp_ret. split_and!; [lia|done..|]. destruct (ca_num s Hc) as [E'|[Hn _]].
    - rewrite E' in E. change (u32 (-1)) with 4294967295 in E. lia.
    - by rewrite E, u32_id by int_lia. }
  cbn beta. intros s' r (Hr & Hc' & Hg & Hn). destruct (Z.ltb_spec r 0); [lia|]. apply wp_bind, wp_get.
  unfold geometry in Hg. injection Hg as G1 G2 G3 G4 G5 G6.
  pose proof (take_holds s' Hc' ltac:(lia)) as Hh. rewrite Hn, G3 in Hh. rewrite G1.
  assert (0 <= k - k / per * per < per) as Ho by (clear -Hper Hk; destruct (per_range _ _ Hper) as [[_ ->]|[[_ ->]|[_ ->]]]; dm_lia).
  eapply wp_lift; [by apply (table_entry_spec _ per)|].
  rewrite (fat_entry_block _ per) by (done || lia). split_and!; [|done|unfold geometry; congruence].
  unfold next. f_equal. lia.
Qed.
End cache.
