(* ===== verification/FatSpec.v ===== *)
(** [Fat]: [get_contents] reads a file along its chain of clusters. *)
From stdpp Require Import base tactics option list strings.
From Stdlib Require Import ZArith Lia.
From S2P Require Import Prelude.
From S2P Require Import MmcDev.
From S2P Require Import Eff.
From S2P Require Import CBuf.
From S2P Require Import PartDos.
From S2P Require Import Fat.
From S2P Require Import FatTable.
Open Scope Z_scope.

Section contents.
Context (g : fat_dev) (D : disk) (N : Z) (V : volume g D N).

(** ** Clusters *)

Definition cluster_sect (s : fsdata) (k : Z) : Z := data_begin s + k * clust_size s.
Definition cluster_data (s : fsdata) (k : Z) : list Z := sectors D (cluster_sect s k) (Z.to_nat (clust_size s)).
Definition on_volume (s : fsdata) (k : Z) : Prop :=
  0 < k ∧ 0 <= cluster_sect s k ∧ cluster_sect s k + clust_size s <= N.

Lemma data_sectors b n : length (sectors D b n) = (512 * n)%nat.
Proof using V. apply sectors_len, V. Qed.

(** [get_cluster] reads a number of bytes from the start of a cluster on,
    past its end too. *)
Lemma get_cluster_spec s k buf off size n buf' :
  0 < k → 0 <= cluster_sect s k → cluster_sect s k + Z.of_nat n <= N → 0 <= size <= 512 * Z.of_nat n →
  blit buf off (take (Z.to_nat size) (sectors D (cluster_sect s k) n)) = Some buf' →
  get_cluster g s k buf off size = Some (buf', 0).
Proof using V.
  intros Hk H0 HN Hs Hb. pose proof (vo_range g D N V). unfold get_cluster, FS_BLOCK_SIZE.
  rewrite (proj2 (Z.ltb_lt 0 k) Hk), u32_id by (fold (cluster_sect s k); int_lia). cbv zeta. fold (cluster_sect s k).
  set (b := cluster_sect s k) in *. set (q := Z.to_nat (size / 512)).
  destruct (vo_read g D N V b (size / 512)) as (r & -> & Hr); [lia|dm_lia|right; dm_lia|]. fold q.
  assert (n = q + (n - q))%nat as En by (unfold q; dm_lia). rewrite En, sectors_add in Hb.
  pose proof (data_sectors b q) as Lq. rewrite take_app_ge in Hb by (rewrite Lq; unfold q; dm_lia).
  apply blit_app_inv in Hb as (t1 & E1 & E2). rewrite E1. cbn [mbind option_bind].
  destruct (Z.ltb_spec r 0); [lia|]. rewrite Lq in E2.
  destruct (Z.eqb_spec (size mod 512) 0) as [E|E]; cbn [negb].
  - replace (Z.to_nat size - 512 * q)%nat with 0%nat in E2 by (unfold q; dm_lia). rewrite take_0 in E2.
    f_equal. f_equal. apply blit_inv in E2 as [_ ->]. cbn [app length]. by rewrite Nat.add_0_r, take_drop.
  - destruct (vo_read g D N V (b + size / 512) 1) as (r' & Hr' & Hr0); [dm_lia|lia|right; dm_lia|].
    rewrite u32_id by int_lia. rewrite Hr'. destruct (Z.ltb_spec r' 0); [lia|].
    pose proof (data_sectors (b + size / 512) 1) as L1. change (Z.to_nat 1) with 1%nat.
    rewrite slice_Some by (rewrite ?L1; dm_lia). cbn [mbind option_bind]. change (drop (Z.to_nat 0) ?l) with l.
    replace (n - q)%nat with (1 + (n - q - 1))%nat in E2 by (unfold q; dm_lia). rewrite sectors_add in E2.
    replace (b + Z.of_nat q) with (b + size / 512) in E2 by (unfold q; dm_lia).
    rewrite take_app_le in E2 by (rewrite L1; unfold q; dm_lia).
    replace (Z.to_nat size - 512 * q)%nat with (Z.to_nat (size mod 512)) in E2 by (unfold q; dm_lia).
    replace (off + size / 512 * 512) with (off + Z.of_nat (512 * q)) by (unfold q; dm_lia). by rewrite E2.
Qed.

(** Nothing is read of an empty file, whatever its cluster. *)
Lemma get_cluster_nothing s k buf off : 0 <= off <= Z.of_nat (length buf) → get_cluster g s k buf off 0 = Some (buf, 0).
Proof using V.
  intros Ho. unfold get_cluster, FS_BLOCK_SIZE. cbv zeta. change (0 / 512) with 0. change (0 mod 512 =? 0) with true.
  generalize (u32_range (if 0 <? k then data_begin s + k * clust_size s else rootdir_sect s)). set (b := u32 _). intros Hb.
  destruct (vo_read g D N V b 0) as (r & -> & Hr); [apply Hb|done|by left|].
  change (sectors D b (Z.to_nat 0)) with (@nil Z). rewrite blit_Some by (cbn [length]; lia). cbn [mbind option_bind app length negb].
  rewrite Nat.add_0_r, take_drop. destruct (Z.ltb_spec r 0); [lia|done].
Qed.

(** ** Chains *)

Context (v : fsdata).
#[local] Abbreviation nxt := (next D v).

(** The clusters after [k]. *)
Fixpoint chain (k : Z) (rest : list Z) : Prop :=
  match rest with [] => True | n :: rest => nxt k = n ∧ CHECK_CLUST n (fatsize v) = false ∧ chain n rest end.
(** The last of them has no successor. *)
Fixpoint chain_end (k : Z) (rest : list Z) : Prop :=
  match rest with
  | [] => CHECK_CLUST (nxt k) (fatsize v) = true ∧ u32 (nxt k - 1) ≠ k
  | n :: rest => chain_end n rest
  end.
Fixpoint consecutive (k : Z) (run : list Z) : Prop :=
  match run with [] => True | n :: run => n = k + 1 ∧ consecutive n run end.

Lemma chain_run run : ∀ k rest, consecutive k run → chain k (run ++ rest) → chain (k + Z.of_nat (length run)) rest.
Proof.
  induction run as [|n run IH]; intros k rest Hc Hch; cbn [length app]; [by rewrite Z.add_0_r|].
  destruct Hc as [-> Hc]. destruct Hch as (_ & _ & Hch). apply IH in Hch; [|done].
  by replace (k + Z.of_nat (S (length run))) with (k + 1 + Z.of_nat (length run)) by lia.
Qed.

Lemma chain_end_run run : ∀ k rest, consecutive k run → chain_end k (run ++ rest) → chain_end (k + Z.of_nat (length run)) rest.
Proof.
  induction run as [|n run IH]; intros k rest Hc Hch; cbn [length app]; [by rewrite Z.add_0_r|].
  destruct Hc as [-> Hc]. apply IH in Hch; [|done].
  by replace (k + Z.of_nat (S (length run))) with (k + 1 + Z.of_nat (length run)) by lia.
Qed.

(** Consecutive clusters are consecutive sectors. *)
Lemma consecutive_data run : ∀ k, 0 <= clust_size v → consecutive k run →
  concat (cluster_data v <$> (k :: run)) = sectors D (cluster_sect v k) (Z.to_nat (clust_size v) * (1 + length run)).
Proof.
  induction run as [|n run IH]; intros k H0 Hc; cbn [length fmap list_fmap concat].
  - by rewrite app_nil_r, Nat.mul_1_r.
  - destruct Hc as [-> Hc]. specialize (IH (k + 1) H0 Hc). cbn [fmap list_fmap concat] in IH. rewrite IH.
    replace (Z.to_nat (clust_size v) * (1 + S (length run)))%nat
      with (Z.to_nat (clust_size v) + Z.to_nat (clust_size v) * (1 + length run))%nat by lia.
    rewrite sectors_add. unfold cluster_data, cluster_sect. rewrite Z2Nat.id by done.
    by replace (data_begin v + (k + 1) * clust_size v) with (data_begin v + k * clust_size v + clust_size v) by lia.
Qed.
(** ** Reading along a chain *)

#[local] Abbreviation bpc := (clust_size v * 512).
#[local] Abbreviation data ks := (concat (cluster_data v <$> ks)).

(** The volume and its cache. *)
Definition mounted (st : fat) : Prop := cached D (fs st) ∧ geometry (fs st) = geometry v.

Lemma wp_fatent k st (Q : fat → Z → Prop) : mounted st → in_table N v k →
  (∀ fs', cached D fs' → geometry fs' = geometry v → Q (set_fs fs' st) (nxt k)) →
  wp (on_fs (get_fatent g k)) st Q.
Proof using V.
  intros [Hc Hg] (per & Hper & Hk) HQ. unfold geometry in Hg. injection Hg as G1 G2 G3 G4 G5 G6.
  destruct (wp_elim _ _ _ (get_fatent_spec g D N V (fs st) k Hc ltac:(exists per; rewrite G1, G3; done)))
    as (fs' & r & E & -> & Hc' & Hg').
  unfold wp, on_fs. rewrite E. replace (next D (fs st) k) with (nxt k) by (unfold next; congruence).
  apply HQ; [done|]. rewrite Hg'. unfold geometry. congruence.
Qed.

(** The stretch of clusters found from [k] on; where it stops, the next
    cluster is elsewhere, or the chain ends. *)
Lemma wp_span rest : ∀ fuel k a len st (Q : fat → span_end * Z * Z → Prop),
  mounted st → chain k rest → Forall (in_table N v) (k :: rest) → 1 <= k → 0 < bpc → (length rest < fuel)%nat →
  rest = [] ∨ a + bpc * Z.of_nat (length rest) < len + bpc → 0 <= a → len + bpc < 2 ^ 32 →
  len <= a + bpc * Z.of_nat (length rest) ∨ chain_end k rest →
  (∀ fs' run rest' K, cached D fs' → geometry fs' = geometry v → rest = run ++ rest' → consecutive k run →
    (K = Reached ∧ rest' = [] ∧ len <= a + bpc * Z.of_nat (length run) ∨
     K = Getit ∧ a + bpc * Z.of_nat (length run) < len) →
    Q (set_fs fs' st) (K, k + Z.of_nat (length run), a + bpc * Z.of_nat (length run))) →
  wp (mloop fuel (span_step g bpc len) (k, a)) st Q.
Proof using V.
  induction rest as [|n rest IH]; intros fuel k a len st Q Hm Hch Ht Hk Hb Hf Hlen Ha Hmax Hend HQ;
    (destruct fuel as [|fuel]; [cbn [length] in Hf; lia|]); apply wp_mloop_S; unfold span_step;
    inversion_clear Ht as [|? ? Hk1 Ht']; (destruct (Z.ltb_spec a len) as [Hl|Hl]).
  - apply wp_bind, wp_get, wp_bind, wp_fatent; [done..|]. intros fs' Hc Hg.
    destruct Hend as [?|[_ He]]; [cbn [length] in *; lia|]. destruct (Z.eqb_spec (u32 (nxt k - 1)) k); [done|].
    apply wp_ret. specialize (HQ fs' [] [] Getit Hc Hg eq_refl I). cbn [length] in HQ. rewrite Z.mul_0_r, !Z.add_0_r in HQ.
    apply HQ. right. done.
  - apply wp_ret. specialize (HQ (fs st) [] [] Reached (proj1 Hm) (proj2 Hm) eq_refl I).
    cbn [length] in HQ. rewrite Z.mul_0_r, !Z.add_0_r in HQ. destruct st. apply HQ. left. done.
  - destruct Hch as (Hn & Hgood & Hch). apply wp_bind, wp_get, wp_bind, wp_fatent; [done..|]. intros fs' Hc Hg.
    rewrite Hn. cbn [length] in *. destruct (Z.eqb_spec (u32 (n - 1)) k) as [E|E]; cbn [negb].
    + replace (fatsize (fs st)) with (fatsize v) by (destruct Hm as [_ Hg']; unfold geometry in Hg'; congruence).
      rewrite Hgood. apply wp_ret. rewrite u32_id by int_lia.
      assert (n = k + 1) as -> by (unfold CHECK_CLUST in Hgood; inversion_clear Ht' as [|? ? (?&?&?&_) _]; to_prop; int_lia).
      apply IH; [done..|lia|done|lia|right; destruct Hlen; [done|lia]|lia|done|destruct Hend as [?|?]; [left; lia|by right]|].
      intros fs'' run rest' K Hc' Hg' -> Hrun HK. specialize (HQ fs'' (k + 1 :: run) rest' K Hc' Hg' eq_refl (conj eq_refl Hrun)).
      cbn [length] in HQ. rewrite Nat2Z.inj_succ in HQ.
      replace (k + 1 + Z.of_nat (length run)) with (k + Z.succ (Z.of_nat (length run))) by lia.
      replace (a + bpc + bpc * Z.of_nat (length run)) with (a + bpc * Z.succ (Z.of_nat (length run))) in * by lia. by apply HQ.
    + apply wp_ret. specialize (HQ fs' [] (n :: rest) Getit Hc Hg eq_refl I). cbn [length] in HQ. rewrite Z.mul_0_r, !Z.add_0_r in HQ.
      apply HQ. right. done.
  - exfalso. cbn [length] in *. destruct Hlen as [?|?]; [done|]. lia.
Qed.
Lemma wp_read_dest k pos size n st dest' (Q : fat → Z → Prop) :
  geometry (fs st) = geometry v → 0 < k → 0 <= cluster_sect v k → cluster_sect v k + Z.of_nat n <= N →
  0 <= size <= 512 * Z.of_nat n → blit (dest st) pos (take (Z.to_nat size) (sectors D (cluster_sect v k) n)) = Some dest' →
  Q (set_dest dest' st) 0 → wp (read_dest g k pos size) st Q.
Proof using V.
  intros Hg Hk H0 HN Hs Hb HQ. unfold geometry in Hg. injection Hg as G1 G2 G3 G4 G5 G6.
  assert (cluster_sect (fs st) k = cluster_sect v k) as Hk' by (unfold cluster_sect; congruence). rewrite <-Hk' in *.
  unfold read_dest. apply wp_bind, wp_get, wp_bind. eapply wp_lift; [by eapply get_cluster_spec|]. cbn beta iota. by repeat wp_step.
Qed.

Lemma run_last (P : Z → Prop) k run rest : consecutive k run → Forall P (k :: run ++ rest) → P (k + Z.of_nat (length run)).
Proof.
  revert k. induction run as [|n run IH]; intros k Hc Hv; cbn [length app].
  - rewrite Z.add_0_r. by inversion_clear Hv.
  - destruct Hc as [-> Hc]. apply Forall_cons in Hv as [_ Hv]. apply IH in Hv; [|done].
    by replace (k + Z.of_nat (S (length run))) with (k + 1 + Z.of_nat (length run)) by lia.
Qed.

Lemma data_length ks : 0 <= clust_size v → Z.of_nat (length (data ks)) = bpc * Z.of_nat (length ks).
Proof using V.
  intros H0. induction ks as [|k ks IH]; cbn [fmap list_fmap concat length]; [lia|].
  rewrite length_app, Nat2Z.inj_add. cbn [fmap] in IH. rewrite IH. unfold cluster_data. rewrite data_sectors. lia.
Qed.

(** The bytes of a stretch and of its last cluster. *)
Lemma run_data k run : 0 <= clust_size v → consecutive k run →
  data (k :: run) = sectors D (cluster_sect v k) (Z.to_nat (clust_size v) * length run) ++
    cluster_data v (k + Z.of_nat (length run)).
Proof.
  intros H0 Hc. rewrite consecutive_data by done.
  replace (Z.to_nat (clust_size v) * (1 + length run))%nat
    with (Z.to_nat (clust_size v) * length run + Z.to_nat (clust_size v))%nat by lia.
  rewrite sectors_add. unfold cluster_data. do 2 f_equal. unfold cluster_sect. lia.
Qed.

(** A stretch up to the end of the file. *)
Lemma wp_reached k run len got pos st dest' (Q : fat → contents_at + Z → Prop) :
  geometry (fs st) = geometry v → consecutive k run → Forall (on_volume v) (k :: run) → 0 < clust_size v →
  bpc * Z.of_nat (length run) <= len <= bpc * (1 + Z.of_nat (length run)) → 0 <= got → got + len < 2 ^ 31 →
  blit (dest st) pos (take (Z.to_nat len) (data (k :: run))) = Some dest' →
  Q (set_dest dest' st) (inr (got + len)) →
  wp (let actsize := u32 (bpc + bpc * Z.of_nat (length run) - bpc) in
      r ← read_dest g k pos actsize;
      if negb (r =? 0) then mret (inr (-1)) else
      let gotsize := u32 (got + actsize) in
      let filesize := u32 (len - actsize) in
      r ← read_dest g (k + Z.of_nat (length run)) (pos + actsize) filesize;
      if negb (r =? 0) then mret (inr (-1)) else
      mret (inr (s32 (u32 (gotsize + filesize))))) st Q.
Proof using V.
  intros Hg Hc Hv H0 Hlen Hgot Hmax Hb HQ. cbv zeta.
  rewrite (run_data k run) in Hb by (done || lia). rewrite <-(app_nil_r run) in Hv.
  pose proof (run_last _ _ _ _ Hc Hv) as (Hl1 & Hl2 & Hl3). apply Forall_cons in Hv as [(Hk1 & Hk2 & Hk3) _].
  set (act := bpc * Z.of_nat (length run)) in *.
  assert (0 <= act) as Ha by (unfold act; lia).
  replace (bpc + act - bpc) with act by lia. rewrite !u32_id by int_lia. rewrite s32_id by int_lia.
  pose proof (data_sectors (cluster_sect v k) (Z.to_nat (clust_size v) * length run)) as Ls.
  rewrite take_app_ge in Hb by (rewrite Ls; unfold act in *; lia).
  apply blit_app_inv in Hb as (t1 & B1 & B2). rewrite Ls in B2.
  assert (cluster_sect v (k + Z.of_nat (length run)) = cluster_sect v k + clust_size v * Z.of_nat (length run)) as El
    by (unfold cluster_sect; lia).
  apply wp_bind. apply (wp_read_dest k pos act (Z.to_nat (clust_size v) * length run) st t1); [done..|lia|unfold act; lia| |].
  { by rewrite take_ge by (rewrite Ls; unfold act; lia). }
  cbn [Z.eqb negb]. apply wp_bind.
  eapply (wp_read_dest _ _ _ (Z.to_nat (clust_size v)) _ dest'); [exact Hg|done|done|lia|unfold act in *; lia| |].
  { cbn [dest set_dest]. unfold cluster_data in B2.
    replace (Z.to_nat len - 512 * (Z.to_nat (clust_size v) * length run))%nat with (Z.to_nat (len - act)) in B2 by (unfold act; lia).
    replace (pos + act) with (pos + Z.of_nat (512 * (Z.to_nat (clust_size v) * length run))) by (unfold act; lia). exact B2. }
  cbn [Z.eqb negb]. apply wp_ret. replace (got + act + (len - act)) with (got + len) by lia. exact HQ.
Qed.
(** A stretch followed by other clusters. *)
Lemma wp_stretch k run rest len pos st dest' (Q : fat → Z → Prop) :
  geometry (fs st) = geometry v → consecutive k run → on_volume v k → on_volume v (k + Z.of_nat (length run)) →
  0 < clust_size v → bpc * (1 + Z.of_nat (length run)) <= len →
  blit (dest st) pos (take (Z.to_nat len) (data (k :: run ++ rest))) = Some dest' →
  (∀ t1, blit t1 (pos + bpc * (1 + Z.of_nat (length run)))
           (take (Z.to_nat (len - bpc * (1 + Z.of_nat (length run)))) (data rest)) = Some dest' → Q (set_dest t1 st) 0) →
  wp (read_dest g k pos (bpc * (1 + Z.of_nat (length run)))) st Q.
Proof using V.
  intros Hg Hc (Hk & Hk0 & _) (_ & _ & Hl3) H0 Hlen Hb HQ.
  set (a := bpc * (1 + Z.of_nat (length run))) in *.
  assert (cluster_sect v (k + Z.of_nat (length run)) = cluster_sect v k + clust_size v * Z.of_nat (length run)) as El
    by (unfold cluster_sect; lia).
  rewrite app_comm_cons, fmap_app, concat_app, consecutive_data in Hb by (done || lia).
  pose proof (data_sectors (cluster_sect v k) (Z.to_nat (clust_size v) * (1 + length run))) as Ls.
  rewrite take_app_ge in Hb by (rewrite Ls; unfold a in Hlen; lia).
  apply blit_app_inv in Hb as (t1 & B1 & B2). rewrite Ls in B2.
  apply (wp_read_dest k pos a (Z.to_nat (clust_size v) * (1 + length run)) _ t1); [done..|lia|unfold a; lia| |].
  { by rewrite take_ge by (rewrite Ls; unfold a; lia). }
  apply HQ. replace (len - a) with (len - Z.of_nat (512 * (Z.to_nat (clust_size v) * (1 + length run)))) by (unfold a; lia).
  replace (pos + a) with (pos + Z.of_nat (512 * (Z.to_nat (clust_size v) * (1 + length run)))) by (unfold a; lia).
  rewrite Z2Nat.inj_sub, Nat2Z.id by lia. exact B2.
Qed.

Lemma wp_contents fuel : ∀ rest k len got pos st dest' (Q : fat → Z → Prop),
  mounted st → chain k rest → Forall (in_table N v) (k :: rest) → Forall (on_volume v) (k :: rest) →
  0 < clust_size v < 256 → (length rest < fuel)%nat → rest = [] ∨ bpc * Z.of_nat (length rest) < len → 0 <= len → 0 <= got →
  got + len < 2 ^ 31 → len <= bpc * (1 + Z.of_nat (length rest)) ∨ chain_end k rest →
  blit (dest st) pos (take (Z.to_nat len) (data (k :: rest))) = Some dest' →
  (∀ fs', cached D fs' → geometry fs' = geometry v →
    Q (set_fs fs' (set_dest dest' st)) (got + Z.min len (bpc * (1 + Z.of_nat (length rest))))) →
  wp (mloop fuel (contents_step g bpc) (mkAt k len got pos)) st Q.
Proof using V.
  induction fuel as [|fuel IH]; intros rest k len got pos st dest' Q Hm Hch Ht Hv Hc Hf Hex H0 Hgot Hmax Hend Hb HQ; [lia|].
  apply wp_mloop_S. unfold contents_step at 1. cbn [left curclust gotsize Fat.pos]. apply wp_bind.
  pose proof Hv as [(Hk & Hk0 & HkN) _]%Forall_cons.
  apply (wp_span rest); [done|done|done|lia|lia|destruct Hex as [-> |?]; cbn [length]; nia|destruct Hex; [by left|right; lia]|lia|lia| |].
  { destruct Hend; [left; lia|by right]. }
  intros fs' run rest' K Hc' Hg' -> Hrun [(-> & -> & Hl)|(-> & Hl)]; rewrite ?app_nil_r in *.
  { apply (wp_reached k run len got pos _ dest'); [done|done|done|lia|split; [destruct Hex as [-> |?]; cbn [length] in *; lia|lia]|lia..|exact Hb|].
    specialize (HQ fs' Hc' Hg'). by rewrite Z.min_l in HQ by lia. }
  replace (bpc + bpc * Z.of_nat (length run)) with (bpc * (1 + Z.of_nat (length run))) in * by lia.
  apply wp_bind, (wp_stretch k run rest' len pos _ dest');
    [done|done|done|by eapply run_last|lia|lia|exact Hb|]. intros t1 B2.
  set (a := bpc * (1 + Z.of_nat (length run))) in *.
  cbn [Z.eqb negb]. apply wp_bind, wp_get, wp_bind. cbn [fs set_dest set_fs].
  apply wp_fatent; [by split|by eapply run_last|]. intros fs2 Hc2 Hg2.
  replace (fatsize fs') with (fatsize v) by (unfold geometry in Hg'; congruence).
  destruct rest' as [|n rest'].
  - rewrite app_nil_r in *. destruct Hend as [?|Hend]; [unfold a in Hl; lia|].
    rewrite <-(app_nil_r run) in Hend. apply chain_end_run in Hend as [-> _]; [|done]. apply wp_ret. cbn [fmap list_fmap concat] in B2.
    rewrite take_nil in B2. pose proof B2 as [_ E]%blit_inv. cbn [app length] in E. rewrite Nat.add_0_r, take_drop in E.
    subst t1. rewrite u32_id, s32_id by (unfold a in Hl |- *; int_lia).
    specialize (HQ fs2 Hc2 Hg2). by rewrite Z.min_r in HQ by (unfold a in Hl; lia).
  - pose proof (chain_run _ _ _ Hrun Hch) as (-> & Hgood & Hch'). rewrite Hgood. apply wp_ret. rewrite !u32_id by (unfold a in *; int_lia).
    rewrite length_app in *. cbn [length] in *.
    rewrite app_comm_cons in Ht, Hv. apply Forall_app in Ht as [_ Ht]. apply Forall_app in Hv as [_ Hv].
    apply (IH rest' n (len - a) (got + a) (pos + a) _ dest'); [by split|done|done|done|done|lia| |unfold a; lia|unfold a; lia|lia| |exact B2|].
    + destruct Hex as [?|?]; [by destruct run|]. right. unfold a. lia.
    + destruct Hend as [?|Hend]; [left; unfold a; lia|right]. by apply (chain_end_run run) in Hend.
    + intros fs3 Hc3 Hg3. specialize (HQ fs3 Hc3 Hg3).
      replace (got + a + Z.min (len - a) (bpc * (1 + Z.of_nat (length rest'))))
        with (got + Z.min len (bpc * (1 + Z.of_nat (length run + S (length rest'))))) by (unfold a; lia). exact HQ.
Qed.
End contents.

(** ** [get_contents] *)

(** The clusters of a file of [want] bytes that starts at [start]: as many as
    the bytes need, or all that the table has. *)
Definition file_clusters (D : disk) (N : Z) (v : fsdata) (start want : Z) (ks : list Z) : Prop :=
  want = 0 ∧ ks = [] ∨
  ∃ rest, ks = start :: rest ∧ chain D v start rest ∧ Forall (in_table N v) ks ∧ Forall (on_volume N v) ks ∧
    (rest = [] ∨ clust_size v * 512 * Z.of_nat (length rest) < want) ∧
    (want <= clust_size v * 512 * Z.of_nat (length ks) ∨ chain_end D v start rest).

Lemma get_contents_spec g D N v dentptr maxsize size start ks st :
  volume g D N → mounted D v st → 0 < clust_size v < 256 →
  le_at dentptr 28 4 = Some size → START (fatsize v) dentptr = Some start →
  let want := if (0 <? maxsize) && (maxsize <? size) then maxsize else size in
  0 <= want < 2 ^ 31 → want <= Z.of_nat (length (dest st)) → file_clusters D N v start want ks →
  let got := take (Z.to_nat want) (concat (cluster_data D v <$> ks)) in
  ∃ fs', get_contents g dentptr maxsize st =
      Some (set_fs fs' (set_dest (got ++ drop (length got) (dest st)) st), Z.of_nat (length got)) ∧
    cached D fs' ∧ geometry fs' = geometry v.
Proof.
  intros V [Hc Hg] Hcl Hsize Hstart want Hw Hd Hks got. pose proof Hg as Hg'. unfold geometry in Hg'. injection Hg' as G1 G2 G3 G4 G5 G6.
  assert (wp (get_contents g dentptr maxsize) st (λ st' r, r = Z.of_nat (length got) ∧
    ∃ fs', st' = set_fs fs' (set_dest (got ++ drop (length got) (dest st)) st) ∧ cached D fs' ∧ geometry fs' = geometry v)) as Hwp.
  { unfold get_contents, FS_BLOCK_SIZE. apply wp_bind, wp_get, wp_bind. eapply wp_lift; [exact Hsize|]. fold want. cbv zeta.
    apply wp_bind. rewrite G1, G5. eapply wp_lift; [exact Hstart|].
    destruct Hks as [[Hw0 ->]|(rest & -> & Hch & Ht & Hv & Hex & Hend)].
    - rewrite Hw0 in *. apply wp_mloop_S. unfold contents_step at 1, read_dest. apply wp_bind. cbn [left curclust gotsize pos].
      apply wp_mloop_S. unfold span_step. destruct (Z.ltb_spec (clust_size v * 512) 0); [lia|]. apply wp_ret, wp_bind, wp_bind, wp_get.
      rewrite Z.sub_diag. change (u32 0) with 0. apply wp_bind. eapply wp_lift; [by eapply get_cluster_nothing; [exact V|lia]|].
      cbn beta iota. do 3 wp_step. cbn [Z.eqb negb]. apply wp_bind, wp_bind, wp_get. change (0 + 0) with 0. change (u32 (0 - 0)) with 0.
      apply wp_bind. eapply wp_lift; [by eapply get_cluster_nothing; [exact V|cbn [dest set_dest]; lia]|].
      cbn beta iota. do 3 wp_step. cbn [Z.eqb negb]. apply wp_ret. unfold got. cbn [fmap list_fmap concat]. rewrite take_nil. split; [done|]. exists (fs st). split; [by destruct st|by split].
    - pose proof (data_length g D N V v (start :: rest) ltac:(lia)) as Ld. cbn [length] in Ld.
      assert (Z.of_nat (length got) = Z.min want (clust_size v * 512 * (1 + Z.of_nat (length rest)))) as Lg
        by (unfold got; rewrite length_take; lia).
      eapply (wp_contents g D N V v); [done|exact Hch|done|done|done|destruct Hex as [-> |?]; cbn [length]; nia|done|lia|lia|lia| | |].
      + cbn [length] in Hend. destruct Hend; [left; lia|by right].
      + fold got. change (Z.to_nat 0) with 0%nat. rewrite blit_Some by lia. change (Z.to_nat 0) with 0%nat. by rewrite take_0.
      + intros fs' Hc' Hg'. split; [by rewrite Lg|]. by exists fs'. }
  destruct (wp_elim _ _ _ Hwp) as (st' & r & -> & -> & fs' & -> & ?). by exists fs'.
Qed.

(** Reading a file follows its chain of clusters in the allocation table
    and puts the file's bytes, no more than the caller asked for, at the
    start of the destination: the clusters may lie anywhere on the volume,
    stretches of consecutive ones are read at once, the last one as far as
    the size tells. When the chain ends before the size is reached, what the
    clusters hold is read. The number of bytes read is returned, the rest of
    the destination keeps its bytes, and the cache of the table stays right. *)
Theorem get_contents_exact g D N dentptr maxsize size start ks st :
  volume g D N → cached D (fs st) → 0 < clust_size (fs st) < 256 →
  le_at dentptr 28 4 = Some size → START (fatsize (fs st)) dentptr = Some start →
  let want := if (0 <? maxsize) && (maxsize <? size) then maxsize else size in
  0 <= want < 2 ^ 31 → want <= Z.of_nat (length (dest st)) → file_clusters D N (fs st) start want ks →
  let got := take (Z.to_nat want) (concat (cluster_data D (fs st) <$> ks)) in
  ∃ fs', get_contents g dentptr maxsize st =
      Some (set_fs fs' (set_dest (got ++ drop (length got) (dest st)) st), Z.of_nat (length got)) ∧
    cached D fs' ∧ geometry fs' = geometry (fs st).
Proof. intros V Hc. by apply get_contents_spec. Qed.

(** The entry of a cluster is the one the table on the volume holds, for
    the three widths of entries (12 bits packed in pairs of three bytes, 16
    and 28/32 bits), whichever block of the table the cache holds; and
    afterwards the cache holds the block of the entry. *)
Theorem get_fatent_exact g D N s k :
  volume g D N → cached D s → in_table N s k →
  ∃ s', get_fatent g k s = Some (s', fat_entry (fatsize s) (byte_at D (fat_sect s)) k) ∧
    cached D s' ∧ geometry s' = geometry s.
Proof.
  intros V Hc Ht. destruct (wp_elim _ _ _ (get_fatent_spec g D N V s k Hc Ht)) as (s' & r & E & -> & Hc' & Hg). by exists s'.
Qed.

(** ** A small volume *)

(** A FAT12 volume of clusters of one sector each: [/file.txt] lies in the
    clusters 2, 3 and 5, the directory [/sub] in 4, with a file [Read Me.md]
    that has a short name too. *)
#[local] Definition fat12_pairs : list (Z * Z) := [(0xff8, 0xfff); (3, 5); (0xfff, 0xfff)].
#[local] Definition fat_demo_table : list Z :=
  concat ((λ '(a, b), [a mod 256; a / 256 + b mod 16 * 16; b / 16]) <$> fat12_pairs).
#[local] Definition demo_entry (name : string) (attr start size : Z) : list Z :=
  str name ++ [attr] ++ replicate 14 0 ++ le_bytes 2 start ++ le_bytes 4 size.
#[local] Definition demo_slot (id : Z) (name short : string) : list Z :=
  let c i := match str name !! i with Some c => [c; 0] | None => if (i =? length (str name))%nat then [0; 0] else [0xff; 0xff] end in
  [id] ++ concat (c <$> seq 0 5) ++ [15; 0; cksum_loop (str short) 0] ++ concat (c <$> seq 5 6) ++ [0; 0] ++ concat (c <$> seq 11 2).
#[local] Definition demo_boot : list Z :=
  replicate 11 0 ++ le_bytes 2 512 ++ [1] ++ le_bytes 2 1 ++ [1] ++ le_bytes 2 32 ++ le_bytes 2 100 ++ [248] ++ le_bytes 2 1 ++
  replicate 19 0 ++ str "VOLUME     " ++ str "FAT12   " ++ replicate 448 0 ++ [0x55; 0xaa].
#[local] Definition sector_of (l : list Z) : list Z := l ++ replicate (512 - length l) 0.
#[local] Definition demo_volume : list (list Z) :=
  [demo_boot; sector_of fat_demo_table;
   sector_of (demo_entry "FILE    TXT" 32 2 1100 ++ demo_entry "SUB        " 16 4 0); sector_of [];
   replicate 512 65; replicate 512 66;
   sector_of (demo_entry ".          " 16 4 0 ++ demo_entry "..         " 16 0 0 ++
     demo_slot 0x41 "Read Me.md" "README~1MD " ++ demo_entry "README~1MD " 32 3 600);
   replicate 512 67].
(** It is the first partition of a card, from sector 63 on. *)
#[local] Definition demo_table : list Z :=
  replicate 446 0 ++ ([0; 0; 0; 0; 6; 0; 0; 0] ++ le_bytes 4 63 ++ le_bytes 4 100) ++ replicate 48 0 ++ [0x55; 0xaa].
#[local] Definition demo_sectors : disk := λ n, if n <? 63 then demo_table else default (sector_of []) (demo_volume !! Z.to_nat (n - 63)).
#[local] Definition demo_disk : disk := λ b, demo_sectors (63 + b).
#[local] Definition demo_read : blockdev := λ s n, (sectors demo_disk s (Z.to_nat n), 1).
#[local] Definition demo_dev : fat_dev := mkDev (Some demo_read) 0 1.
#[local] Definition demo_fs : fsdata := mkFs 12 1 1 2 1 2 (replicate 12288 0) (-1).
#[local] Definition demo_fat : fat := mkFat demo_fs [] [] [] (replicate 2000 0) [].

Lemma demo_sectors_ok b : length (demo_sectors b) = 512%nat ∧ bytes (demo_sectors b).
Proof.
  assert (Forall (λ l, length l = 512%nat ∧ bytes l) (demo_table :: sector_of [] :: demo_volume)) as H by by_eval.
  apply Forall_cons in H as [Ht H]. apply Forall_cons in H as [H0 H]. unfold demo_sectors. destruct (b <? 63); [apply Ht|].
  destruct (demo_volume !! Z.to_nat (b - 63)) as [l|] eqn:E; [|apply H0]. by apply (Forall_lookup_1 _ _ _ _ H E).
Qed.

Lemma demo_fat_volume : volume demo_dev demo_disk 100.
Proof.
  split; [intros b; apply demo_sectors_ok..|lia|]. intros s n H0 Hn HN. exists 1. unfold disk_read, demo_dev, demo_read. cbn [cur_dev part_offset].
  rewrite Z.add_0_r. change (s32 1) with 1. split; [|done]. destruct HN as [-> |HN]; [done|]. by rewrite u32_id by int_lia.
Qed.

Lemma get_contents_exact_witness :
  ∃ fs', get_contents demo_dev (demo_entry "FILE    TXT" 32 2 1100) 0 demo_fat =
      Some (set_fs fs' (set_dest (replicate 512 65 ++ replicate 512 66 ++ replicate 76 67 ++ replicate 900 0) demo_fat), 1100) ∧
    cached demo_disk fs' ∧ geometry fs' = geometry demo_fs.
Proof.
  apply (get_contents_exact demo_dev demo_disk 100 _ 0 1100 2 [2; 3; 5] demo_fat demo_fat_volume).
  - split; [done|done|done|by left].
  - done.
  - done.
  - done.
  - done.
  - done.
  - right. exists [3; 5]. split; [done|]. split; [by vm_compute|].
    split; [repeat apply Forall_cons_2; try apply Forall_nil_2; exists 2048; done|].
    split; [repeat apply Forall_cons_2; try apply Forall_nil_2; done|].
    split; [right; done|left; done].
Defined.

Lemma get_fatent_exact_witness :
  ∃ s', get_fatent demo_dev 3 demo_fs = Some (s', 5) ∧ cached demo_disk s' ∧ geometry s' = geometry demo_fs.
Proof.
  apply (get_fatent_exact demo_dev demo_disk 100 demo_fs 3 demo_fat_volume); [split; [done|done|done|by left]|].
  exists 2048. done.
Defined.

(** The same file by its name, and one in a directory. *)
#[local] Definition demo_path (p : string) (maxsize dols : Z) : option (Z * list Z * list ls_line) :=
  (λ '(s, r), (r, take (Z.to_nat r) (dest s), ls_out s)) <$>
    do_fat_read demo_dev (replicate 14 0) (replicate 256 0) 40 (replicate 2048 0) (replicate 12288 0) (lit p) maxsize dols
      (mkFat demo_fs (replicate 65536 0) (replicate 65536 0) (replicate 65536 0) (replicate 2000 0) []).

Lemma demo_paths :
  demo_path "/File.TXT" 0 0 = Some (1100, replicate 512 65 ++ replicate 512 66 ++ replicate 76 67, []) ∧
  demo_path "SUB//read me.md" 520 0 = Some (520, replicate 512 66 ++ replicate 8 67, []) ∧
  demo_path "/sub/readme~1.md" 520 0 = Some (520, replicate 512 66 ++ replicate 8 67, []) ∧
  demo_path "/sub/y" 0 0 = Some (-1, [], []) ∧
  demo_path "/" 0 1 = Some (0, [], [LsFile 1100 (str "file.txt"); LsDir (str "sub"); LsTotal 1 1]) ∧
  demo_path "/sub/" 0 1 = Some (0, [], [LsDir (str "."); LsDir (str ".."); LsFile 600 (str "read me.md"); LsTotal 1 2]).
Proof. vm_compute. done. Qed.
