(* ===== verification/FatDir.v ===== *)
(** [Fat]: looking a name up in a directory. *)
From stdpp Require Import base tactics option list.
From Stdlib Require Import ZArith Lia.
From S2P Require Import Prelude.
From S2P Require Import MmcDev.
From S2P Require Import Eff.
From S2P Require Import CString.
From S2P Require Import CBuf.
From S2P Require Import PartDos.
From S2P Require Import Fat.
From S2P Require Import FatName.
From S2P Require Import FatTable.
From S2P Require Import FatSpec.
Open Scope Z_scope.

(** ** What a directory holds *)

(** Removed entries, volume labels, files and directories with a short name
    only, and with a long name, in slots in front of the entry. *)
Inductive item :=
  | Gone (d : list Z)
  | Label (d : list Z)
  | Short (d : list Z)
  | Long (slots : list (list Z)) (d : list Z).

Definition entries (it : item) : list (list Z) :=
  match it with Gone d | Label d | Short d => [d] | Long slots d => slots ++ [d] end.
Definition entry_of (it : item) : list Z := match it with Gone d | Label d | Short d | Long _ d => d end.
Definition items_bytes (its : list item) : list Z := concat (its ≫= entries).

(** The entry of a file or directory. *)
Record file_entry (d : list Z) : Prop := mkFileEntry {
  fe_length : length d = 32%nat;
  fe_bytes : bytes d;
  fe_first : ∃ c, d !! 0%nat = Some c ∧ c ≠ 0 ∧ c ≠ DELETED_FLAG;
  fe_attr : ∃ a, d !! 11%nat = Some a ∧ has a ATTR_VOLUME = false;
}.

(** An entry the search passes over. *)
Definition skipped (d : list Z) : Prop :=
  ∃ c a, d !! 0%nat = Some c ∧ d !! 11%nat = Some a ∧ (c = DELETED_FLAG ∨ has a ATTR_VOLUME = true ∧ has c LAST_LONG_ENTRY_MASK = false).

Definition item_ok (it : item) : Prop :=
  match it with
  | Gone d => length d = 32%nat ∧ skipped d
  | Label d => length d = 32%nat ∧ skipped d
  | Short d => file_entry d
  | Long slots d => slots_ok slots ∧ Forall bytes slots ∧ file_entry d
  end.

(** Whether an item has a name, and the first one that does. *)
Definition called (name : list Z) (it : item) : bool :=
  match it with
  | Gone _ | Label _ => false
  | Short d => bool_decide (name = short_name d)
  | Long slots d => bool_decide (name = short_name d ∨ name = long_name slots)
  end.
Fixpoint look_up (name : list Z) (its : list item) : option (list Z) :=
  match its with
  | [] => None
  | it :: its => if called name it then Some (entry_of it) else look_up name its
  end.

Lemma look_up_app name a b : look_up name (a ++ b) = match look_up name a with Some d => Some d | None => look_up name b end.
Proof. induction a as [|it a IH]; [done|]. cbn [app look_up]. by destruct (called name it). Qed.

(** ** Names *)

Lemma strcmp_names a b r1 r2 : 0 ∉ a → 0 ∉ b → bytes a → bytes b →
  ∃ r, c_strcmp (a ++ 0 :: r1) (b ++ 0 :: r2) = Some r ∧ (r = 0 ↔ a = b).
Proof.
  revert b. induction a as [|x a IH]; intros b Ha Hb Ba Bb.
  - destruct b as [|y b]; cbn [app c_strcmp]; [by exists 0|]. apply not_elem_of_cons in Hb as [Hy _]. apply Forall_cons in Bb as [By _].
    pose proof (s8_diff 0 y) as E. destruct (Z.eqb_spec (s8 (0 - y)) 0) as [E0|E0]; cbn [negb].
    + exfalso. apply Hy. unfold is_byte in *. tauto || (apply E in E0; lia).
    + eexists. split; [done|]. by split.
  - apply not_elem_of_cons in Ha as [Hx Ha]. apply Forall_cons in Ba as [Bx Ba]. destruct b as [|y b]; cbn [app c_strcmp].
    + pose proof (s8_diff x 0) as E. destruct (Z.eqb_spec (s8 (x - 0)) 0) as [E0|E0]; cbn [negb].
      * exfalso. apply Hx. unfold is_byte in *. symmetry. apply E; [lia|lia|done].
      * eexists. split; [done|]. by split.
    + apply not_elem_of_cons in Hb as [Hy Hb]. apply Forall_cons in Bb as [By Bb].
      pose proof (s8_diff x y Bx By) as E. destruct (Z.eqb_spec (s8 (x - y)) 0) as [E0|E0]; cbn [negb].
      * assert (x = y) as -> by tauto. destruct (Z.eqb_spec y 0); [by subst|].
        destruct (IH b Ha Hb Ba Bb) as (r & -> & Hr). exists r. split; [done|]. rewrite Hr. split; [by intros ->|by intros [=]].
      * eexists. split; [done|]. split; [done|]. intros [= -> _]. tauto.
Qed.

Lemma tolower_byte c : is_byte c → is_byte (TOLOWER c).
Proof. unfold TOLOWER, is_byte. intros. to_prop; lia. Qed.

Lemma tidy_nice w : 0 ∉ w → bytes w → (0 ∉ tidy w) ∧ bytes (tidy w).
Proof.
  intros H0 Hb. destruct w as [|c w]; [split; [apply not_elem_of_nil|constructor]|]. cbn [tidy].
  apply not_elem_of_cons in H0 as [Hc H0]. apply Forall_cons in Hb as [Hbc Hb].
  destruct (c =? DELETED_FLAG); [split; [apply not_elem_of_nil|constructor]|].
  assert (∀ c, c ≠ 0 → is_byte c → TOLOWER c ≠ 0) as Hl by (unfold TOLOWER, is_byte; intros; to_prop; lia).
  set (c' := if c =? aRING then 0xe5 else c). assert (c' ≠ 0 ∧ is_byte c') as [? ?] by (unfold c'; destruct (c =? aRING); [unfold is_byte; lia|done]).
  split.
  - apply not_elem_of_cons. split; [by apply not_eq_sym, Hl|]. intros (y & E & Hy)%list_elem_of_fmap.
    symmetry in E. apply Hl in E; [done|by intros ->|]. by eapply (Forall_forall _ _) in Hb.
  - apply Forall_cons. split; [by apply tolower_byte|]. apply Forall_fmap. eapply Forall_impl; [exact Hb|]. intros y. apply tolower_byte.
Qed.

Lemma word_byte l : bytes l → bytes (word l).
Proof. induction 1 as [|c l Hc _ IH]; cbn; [constructor|]. destruct (_ || _); constructor; done. Qed.

Lemma short_name_nice d : bytes d → (0 ∉ short_name d) ∧ bytes (short_name d).
Proof.
  intros Hd. apply tidy_nice; [apply short_text_nonzero|]. unfold short_text. apply bytes_app. split.
  - apply word_byte. by apply bytes_take.
  - pose proof (word_byte (take 3 (drop 8 d)) ltac:(by apply bytes_take, bytes_drop)) as H.
    destruct (word _); [constructor|]. constructor; [unfold is_byte; lia|done].
Qed.

Lemma long_name_nice slots : Forall bytes slots → (0 ∉ long_name slots) ∧ bytes (long_name slots).
Proof.
  intros Hs. apply tidy_nice; [apply cut_nonzero|]. unfold long_text.
  assert (bytes (concat (slot_text <$> reverse slots))) as H.
  { apply Forall_concat, Forall_fmap. apply (Forall_forall _ _). intros sl. rewrite elem_of_reverse. intros Hin.
    pose proof (proj1 (Forall_forall _ _) Hs sl Hin) as Hb. unfold slot_text. induction slot_offsets as [|o offs IH]; cbn [chars_at]; [constructor|].
    constructor; [|done]. destruct (sl !! Z.to_nat o) eqn:E; cbn; [by eapply bytes_lookup in E|unfold is_byte; lia]. }
  induction H as [|x l Hx _ IH]; cbn; [constructor|]. destruct (x =? 0); [constructor|by constructor].
Qed.

Lemma upd_first (l : list Z) c : (0 < length l)%nat → upd l 0 c = Some (c :: drop 1 l).
Proof. destruct l as [|x l]; [cbn; lia|]. intros _. apply (upd_behind [] l x c 0 eq_refl). Qed.

(** ** One entry *)

Section dir.
Context (g : fat_dev) (s_name0 l_name0 : list Z) (Hs0 : length s_name0 = 14%nat) (Hl0 : length l_name0 = 256%nat).
Context (name rest0 : list Z) (Hn0 : 0 ∉ name) (Hnb : bytes name) (Hne : name ≠ []).
#[local] Abbreviation filename := (name ++ 0 :: rest0).
#[local] Abbreviation step := (dent_step g s_name0 l_name0).

(** The cluster in memory: what was seen, an entry, and what follows. *)
Definition scanning (pre rest : list Z) (x : scan) (st : fat) : Prop :=
  dent_block st = pre ++ rest ∧ Z.of_nat (length pre) = 32 * sc_i x ∧ sc_i x < clust_size (fs st) * FS_BLOCK_SIZE / 32.

Lemma wp_dent_entry pre d rest x st l_name w r (Q : fat → scan + (scan + option (list Z)) → Prop) :
  scanning pre (d ++ rest) x st → file_entry d → l_name = w ++ 0 :: r → 0 ∉ w → bytes w →
  (if bool_decide (name = short_name d ∨ name = w) then Q st (inr (inr (Some d))) else Q st (inl (next_entry x))) →
  wp (dent_entry s_name0 filename 0 (32 * sc_i x) x l_name) st Q.
Proof using Hs0 Hl0 Hn0 Hnb.
  intros (Hb & Hp & Hi) Hd -> Hw Bw HQ. unfold dent_entry. apply wp_bind, wp_get, wp_bind.
  eapply wp_lift; [rewrite Hb; by apply slice_behind; [|rewrite (fe_length _ Hd)]|].
  destruct (fe_first _ Hd) as (c & Hc & Hc0 & Hc1). apply wp_bind. eapply wp_lift; [exact Hc|].
  destruct (Z.eqb_spec c 0); [done|]. cbn [Z.eqb negb andb]. apply wp_bind. unfold mkcksum.
  rewrite slice_Some by (rewrite ?(fe_length _ Hd); lia). eapply wp_lift; [reflexivity|].
  destruct (get_name_spec d s_name0 (fe_length _ Hd) Hs0) as (r1 & Hname). apply wp_bind. eapply wp_lift; [exact Hname|].
  destruct (short_name_nice d (fe_bytes _ Hd)) as [Hz Hbn].
  destruct (strcmp_names name (short_name d) rest0 r1 Hn0 Hz Hnb Hbn) as (a & Ha & Ha0).
  destruct (strcmp_names name w rest0 r Hn0 Hw Hnb Bw) as (b & Hb' & Hb0).
  apply wp_bind. eapply wp_lift; [exact Ha|]. apply wp_bind. destruct (Z.eqb_spec a 0) as [Ea|Ea]; cbn [negb].
  - apply wp_ret. cbn [negb andb]. apply wp_ret. rewrite bool_decide_eq_true_2 in HQ by (left; by apply Ha0). done.
  - eapply wp_lift; [exact Hb'|]. destruct (Z.eqb_spec b 0) as [Eb|Eb]; cbn [negb andb]; apply wp_ret.
    + rewrite bool_decide_eq_true_2 in HQ by (right; by apply Hb0). done.
    + rewrite bool_decide_eq_false_2 in HQ by tauto. done.
Qed.

Lemma wp_step_skip cur pre d rest x st (Q : fat → scan + (scan + option (list Z)) → Prop) :
  scanning pre (d ++ rest) x st → length d = 32%nat → skipped d →
  Q st (inl (next_entry x)) → wp (step cur filename 0 x) st Q.
Proof using Hs0 Hl0.
  intros (Hb & Hp & Hi) Hd (c & a & Hc & Ha & Hor) HQ. unfold dent_step. apply wp_bind, wp_get.
  rewrite (proj2 (Z.ltb_lt _ _) Hi). cbv zeta. apply wp_bind. eapply wp_lift; [by apply upd_first; lia|].
  apply wp_bind. eapply wp_lift; [rewrite Hb; by apply slice_behind; [|rewrite Hd]|].
  apply wp_bind. eapply wp_lift; [exact Hc|]. destruct (Z.eqb_spec c DELETED_FLAG); [by apply wp_ret|].
  apply wp_bind. eapply wp_lift; [exact Ha|]. destruct Hor as [?|[-> ->]]; [done|]. rewrite andb_false_r. by apply wp_ret.
Qed.

Lemma wp_step_short cur pre d rest x st (Q : fat → scan + (scan + option (list Z)) → Prop) :
  scanning pre (d ++ rest) x st → file_entry d →
  (if bool_decide (name = short_name d) then Q st (inr (inr (Some d))) else Q st (inl (next_entry x))) →
  wp (step cur filename 0 x) st Q.
Proof using Hs0 Hl0 Hn0 Hnb Hne.
  intros Hsc Hd HQ. pose proof Hsc as (Hb & Hp & Hi). unfold dent_step. apply wp_bind, wp_get.
  rewrite (proj2 (Z.ltb_lt _ _) Hi). cbv zeta. apply wp_bind. eapply wp_lift; [by apply upd_first; lia|].
  apply wp_bind. eapply wp_lift; [rewrite Hb; by apply slice_behind; [|rewrite (fe_length _ Hd)]|].
  destruct (fe_first _ Hd) as (c & Hc & Hc0 & Hc1). apply wp_bind. eapply wp_lift; [exact Hc|].
  destruct (Z.eqb_spec c DELETED_FLAG); [done|]. destruct (fe_attr _ Hd) as (a & Ha & Hv).
  apply wp_bind. eapply wp_lift; [exact Ha|]. rewrite Hv.
  apply (wp_dent_entry pre d rest x st _ [] (drop 1 l_name0)); [done|done|done|apply not_elem_of_nil|constructor|].
  destruct (decide (name = short_name d)) as [->|Hx].
  - rewrite bool_decide_eq_true_2 in HQ |- * by auto. done.
  - rewrite bool_decide_eq_false_2 in HQ |- * by (done || intros [?|?]; done). done.
Qed.

Lemma wp_step_long cur pre sl slots d rest x st (Q : fat → scan + (scan + option (list Z)) → Prop) :
  scanning pre (concat (sl :: slots) ++ d ++ rest) x st → slots_ok (sl :: slots) → Forall bytes (sl :: slots) → file_entry d →
  sc_i x + Z.of_nat (S (length slots)) < clust_size (fs st) * FS_BLOCK_SIZE / 32 →
  (∀ x', sc_i x' = sc_i x →
    let st' := set_dent (pre ++ d ++ concat slots ++ d ++ rest) st in
    if bool_decide (name = short_name d ∨ name = long_name (sl :: slots)) then Q st' (inr (inr (Some d)))
    else Q st' (inl (next_entry x'))) →
  wp (step cur filename 0 x) st Q.
Proof using Hs0 Hl0 Hn0 Hnb.
  intros (Hb & Hp & Hi) Hok Hbs Hd Hin HQ. unfold dent_step. apply wp_bind, wp_get.
  rewrite (proj2 (Z.ltb_lt _ _) Hi). cbv zeta. apply wp_bind. eapply wp_lift; [by apply upd_first; lia|].
  pose proof (sl_length _ Hok) as [Hsl _]%Forall_cons. pose proof (sl_attr _ Hok) as [Hat _]%Forall_cons.
  destruct (slot_number (sl :: slots) 0 sl Hok eq_refl) as (id & Hid & _ & Hlast).
  apply wp_bind. eapply wp_lift.
  { rewrite Hb. cbn [concat]. rewrite <-(app_assoc sl). by apply slice_behind; [|rewrite Hsl]. }
  apply wp_bind. eapply wp_lift; [exact Hid|].
  assert (id ≠ DELETED_FLAG) as Hd5.
  { intros ->. pose proof (sl_id _ Hok 0 sl eq_refl) as E. rewrite Hid in E. injection E as E. pose proof (sl_count _ Hok) as Hc.
    unfold DELETED_FLAG in E. cbn [length] in *. lia. }
  destruct (Z.eqb_spec id DELETED_FLAG); [done|]. apply wp_bind. eapply wp_lift; [exact Hat|].
  change (has ATTR_VFAT ATTR_VOLUME) with true. change (has ATTR_VFAT ATTR_VFAT) with true. rewrite Hlast. cbn [Nat.eqb andb].
  destruct (lookup_lt_is_Some_2 sl 13) as [k Hk]; [lia|]. apply wp_bind. eapply wp_lift; [exact Hk|]. cbv zeta.
  apply wp_bind. rewrite <-Hp, Hb.
  destruct (get_vfatname_spec g pre (sl :: slots) sl slots d rest (s32 cur) (0 :: drop 1 l_name0) st) as (r & E);
    [done|done|apply (fe_length _ Hd)|cbn [length]; rewrite length_drop; lia|cbn [length]; unfold FS_BLOCK_SIZE in *; dm_lia|].
  eapply wp_intro; [exact E|]. cbn beta iota. apply wp_bind, wp_modify. cbn [negb Z.eqb]. rewrite Hp.
  set (x' := mkScan (sc_i x) k (files x) (dirs x)). change (32 * sc_i x) with (32 * sc_i x').
  destruct (long_name_nice _ Hbs) as [? ?].
  eapply (wp_dent_entry pre d (concat slots ++ d ++ rest)); [split; [done|split; [exact Hp|exact Hi]]|done|done|done|done|]. by apply HQ.
Qed.
(** ** Many entries *)

#[local] Abbreviation per_cluster st := (clust_size (fs st) * FS_BLOCK_SIZE / 32).

Lemma wp_skips cur ds : ∀ pre rest fuel x st (Q : fat → scan + option (list Z) → Prop),
  dent_block st = pre ++ concat ds ++ rest → Z.of_nat (length pre) = 32 * sc_i x →
  sc_i x + Z.of_nat (length ds) <= per_cluster st → Forall (λ d, length d = 32%nat ∧ skipped d) ds →
  (∀ x', sc_i x' = sc_i x + Z.of_nat (length ds) → wp (mloop fuel (step cur filename 0) x') st Q) →
  wp (mloop (length ds + fuel) (step cur filename 0) x) st Q.
Proof using Hs0 Hl0.
  induction ds as [|d ds IH]; intros pre rest fuel x st Q Hb Hp Hi Hds HQ; cbn [length Nat.add] in *; [apply HQ; lia|].
  apply Forall_cons in Hds as [[Hd Hsk] Hds]. apply wp_mloop_S. cbn [concat] in Hb. rewrite <-app_assoc in Hb.
  eapply (wp_step_skip cur pre d); [split; [exact Hb|split; [done|lia]]|done|done|].
  apply (IH (pre ++ d) rest).
  - by rewrite <-app_assoc.
  - cbn [next_entry sc_i]. rewrite length_app. lia.
  - cbn [next_entry sc_i]. lia.
  - done.
  - cbn [next_entry sc_i]. intros x' Hx'. apply HQ. lia.
Qed.

Lemma slots_skipped slots : slots_ok slots → Forall (λ d, length d = 32%nat ∧ skipped d) (drop 1 slots).
Proof.
  intros Hok. apply Forall_lookup. intros j d Hj. rewrite lookup_drop in Hj.
  destruct (slot_number slots (1 + j) d Hok Hj) as (id & Hid & _ & Hl). split; [by apply (Forall_lookup_1 _ _ _ _ (sl_length _ Hok) Hj)|].
  exists id, ATTR_VFAT. split; [done|]. split; [by apply (Forall_lookup_1 _ _ _ _ (sl_attr _ Hok) Hj)|]. right. done.
Qed.

#[local] Abbreviation count its := (length (its ≫= entries)).

Lemma items_bytes_cons it its : items_bytes (it :: its) = concat (entries it) ++ items_bytes its.
Proof. unfold items_bytes. cbn [mbind list_bind]. by rewrite concat_app. Qed.

Lemma wp_item_long cur slots d rest pre fuel x st (Q : fat → scan + option (list Z) → Prop) :
  dent_block st = pre ++ concat slots ++ d ++ rest → Z.of_nat (length pre) = 32 * sc_i x →
  slots_ok slots → Forall bytes slots → file_entry d → sc_i x + Z.of_nat (length slots) < per_cluster st →
  (if bool_decide (name = short_name d ∨ name = long_name slots)
   then ∀ b, length b = length (dent_block st) → Q (set_dent b st) (inr (Some d))
   else ∀ pre' x', Z.of_nat (length pre') = 32 * sc_i x' → sc_i x' = sc_i x + Z.of_nat (length slots) + 1 →
     length (pre' ++ rest) = length (dent_block st) → wp (mloop fuel (step cur filename 0) x') (set_dent (pre' ++ rest) st) Q) →
  wp (mloop (length slots + S fuel) (step cur filename 0) x) st Q.
Proof using Hs0 Hl0 Hn0 Hnb Hne.
  intros Hb Hp Hok Hbs Hd Hi HQ. pose proof (slots_skipped _ Hok) as Hsk. pose proof (sl_length _ Hok) as Hlen.
  destruct slots as [|sl slots]; [by destruct (sl_count _ Hok); cbn in *; lia|]. cbn [length Nat.add drop] in *.
  apply Forall_cons in Hlen as [Hsl Hlen]. pose proof (fe_length _ Hd) as Ld.
  assert (length (concat slots) = (32 * length slots)%nat) as Lc by by apply concat_length32.
  apply wp_mloop_S. eapply (wp_step_long cur pre sl slots d rest); [split; [exact Hb|split; [done|lia]]|done|done|done|lia|].
  intros x' Hx'. cbv zeta.
  assert (length (pre ++ d ++ concat slots ++ d ++ rest) = length (dent_block st)) as Hbl
    by (rewrite Hb; cbn [concat]; rewrite !length_app, Hsl, Ld; lia).
  destruct (bool_decide_reflect (name = short_name d ∨ name = long_name (sl :: slots))) as [Hm|Hm]; [by apply HQ|].
  apply (wp_skips cur slots (pre ++ d) (d ++ rest)); [by rewrite <-!app_assoc| | |done|].
  { cbn [next_entry sc_i]. rewrite length_app, Ld. lia. }
  { cbn [next_entry sc_i fs set_dent]. lia. }
  intros x2 Hx2. cbn [next_entry sc_i] in Hx2. apply wp_mloop_S.
  eapply (wp_step_short cur ((pre ++ d) ++ concat slots) d rest); [split; [|split]|done|].
  { cbn [dent_block set_dent]. by rewrite <-!app_assoc. }
  { rewrite !length_app, Ld, Lc. lia. }
  { cbn [fs set_dent]. lia. }
  rewrite bool_decide_eq_false_2 by tauto.
  specialize (HQ ((pre ++ d) ++ concat slots ++ d) (next_entry x2)). rewrite <-!app_assoc in HQ. apply HQ.
  - cbn [next_entry sc_i]. rewrite !length_app, Ld, Lc. lia.
  - cbn [next_entry sc_i]. lia.
  - exact Hbl.
Qed.

(** The items of a cluster, and what follows them. *)
Lemma wp_items cur its : ∀ pre rest fuel x st (Q : fat → scan + option (list Z) → Prop),
  dent_block st = pre ++ items_bytes its ++ rest → Z.of_nat (length pre) = 32 * sc_i x →
  sc_i x + Z.of_nat (count its) <= per_cluster st → Forall item_ok its →
  match look_up name its with
  | Some d => ∀ b, length b = length (dent_block st) → Q (set_dent b st) (inr (Some d))
  | None => ∀ pre' x', Z.of_nat (length pre') = 32 * sc_i x' → sc_i x' = sc_i x + Z.of_nat (count its) →
      length (pre' ++ rest) = length (dent_block st) → wp (mloop fuel (step cur filename 0) x') (set_dent (pre' ++ rest) st) Q
  end →
  wp (mloop (count its + fuel) (step cur filename 0) x) st Q.
Proof using Hs0 Hl0 Hn0 Hnb Hne.
  induction its as [|it its IH]; intros pre rest fuel x st Q Hb Hp Hi Hok HQ.
  { cbn [look_up] in HQ. cbn [mbind list_bind length Nat.add] in *. specialize (HQ pre x Hp ltac:(lia)).
    rewrite Hb in HQ. cbn [items_bytes concat mbind list_bind app] in HQ, Hb. specialize (HQ eq_refl). rewrite <-Hb in HQ. by destruct st. }
  apply Forall_cons in Hok as [Hit Hok]. cbn [mbind list_bind] in *. rewrite items_bytes_cons, <-app_assoc in Hb.
  rewrite length_app in Hi |- *. rewrite <-Nat.add_assoc.
  assert (∀ pre' x', Z.of_nat (length pre') = 32 * sc_i x' → sc_i x' = sc_i x + Z.of_nat (length (entries it)) →
    length (pre' ++ items_bytes its ++ rest) = length (dent_block st) → called name it = false →
    wp (mloop (count its + fuel) (step cur filename 0) x') (set_dent (pre' ++ items_bytes its ++ rest) st) Q) as Hgo.
  { intros pre' x' Hp' Hx' Hl Hc. cbn [look_up] in HQ. rewrite Hc in HQ.
    apply (IH pre' rest fuel x' (set_dent (pre' ++ items_bytes its ++ rest) st)); [done|done|cbn [fs set_dent]; lia|done|].
    destruct (look_up name its) as [d|].
    - intros b Hbl. cbn [dent_block set_dent] in Hbl. apply (HQ b). by rewrite Hbl, Hl.
    - intros pre2 x2 Hp2 Hx2 Hl2. cbn [dent_block set_dent] in Hl2. apply (HQ pre2 x2 Hp2); [rewrite length_app; lia|]. by rewrite Hl2, Hl. }
  destruct it as [d|d|d|slots d]; cbn [entries item_ok called look_up length concat entry_of] in *.
  - destruct Hit as [Ld Hsk]. rewrite app_nil_r in Hb.
    apply (wp_skips cur [d] pre (items_bytes its ++ rest)); [by cbn [concat]; rewrite app_nil_r|done|cbn [length]; lia|by constructor|].
    intros x' Hx'. cbn [length] in Hx'. specialize (Hgo (pre ++ d) x'). rewrite <-app_assoc, <-Hb in Hgo. destruct st.
    apply Hgo; [rewrite length_app, Ld; lia|lia|done|done].
  - destruct Hit as [Ld Hsk]. rewrite app_nil_r in Hb.
    apply (wp_skips cur [d] pre (items_bytes its ++ rest)); [by cbn [concat]; rewrite app_nil_r|done|cbn [length]; lia|by constructor|].
    intros x' Hx'. cbn [length] in Hx'. specialize (Hgo (pre ++ d) x'). rewrite <-app_assoc, <-Hb in Hgo. destruct st.
    apply Hgo; [rewrite length_app, Ld; lia|lia|done|done].
  - rewrite app_nil_r in Hb. apply wp_mloop_S. eapply (wp_step_short cur pre d (items_bytes its ++ rest)); [split; [exact Hb|split; [done|lia]]|done|].
    destruct (bool_decide (name = short_name d)).
    + specialize (HQ (dent_block st) eq_refl). by destruct st.
    + specialize (Hgo (pre ++ d) (next_entry x)). rewrite <-app_assoc, <-Hb in Hgo. pose proof (fe_length _ Hit) as Ld. destruct st.
      apply Hgo; [cbn [next_entry sc_i]; rewrite length_app, Ld; lia|done|done|done].
  - destruct Hit as (Hsl & Hbs & Hd). rewrite length_app in Hi, Hgo |- *. cbn [length] in Hi, Hgo |- *. rewrite <-Nat.add_assoc.
    rewrite concat_app in Hb. cbn [concat] in Hb. rewrite app_nil_r, <-app_assoc in Hb.
    apply (wp_item_long cur slots d (items_bytes its ++ rest) pre); [done..|lia|].
    destruct (bool_decide (name = short_name d ∨ name = long_name slots)); [done|].
    intros pre' x' Hp' Hx' Hl. apply Hgo; [done|lia|done|done].
Qed.
(** The entry of zeros that ends a directory, and the end of a cluster. *)
Definition ends_here (tail : list Z) : Prop :=
  (32 <= length tail)%nat ∧ tail !! 0%nat = Some 0 ∧ ∃ a, tail !! 11%nat = Some a ∧ has a ATTR_VOLUME = false.

Lemma wp_step_end cur pre tail x st (Q : fat → scan + (scan + option (list Z)) → Prop) :
  scanning pre tail x st → ends_here tail → Q st (inr (inr None)) → wp (step cur filename 0 x) st Q.
Proof using Hs0 Hl0.
  intros (Hb & Hp & Hi) (Hl & Hz & a & Ha & Hv) HQ. unfold dent_step. apply wp_bind, wp_get.
  rewrite (proj2 (Z.ltb_lt _ _) Hi). cbv zeta. apply wp_bind. eapply wp_lift; [by apply upd_first; lia|].
  assert (slice (dent_block st) (32 * sc_i x) 32 = Some (take 32 tail)) as Hsl.
  { rewrite Hb, <-(take_drop 32 tail) at 1. apply slice_behind; [done|]. rewrite length_take. lia. }
  apply wp_bind. eapply wp_lift; [exact Hsl|]. apply wp_bind.
  eapply (wp_lift (idx (take 32 tail) 0) _ _ 0); [by change (idx (take 32 tail) 0) with (take 32 tail !! 0%nat); rewrite lookup_take_lt by lia|].
  change (0 =? DELETED_FLAG) with false. cbn iota. apply wp_bind.
  eapply (wp_lift (idx (take 32 tail) 11) _ _ a); [by change (idx (take 32 tail) 11) with (take 32 tail !! 11%nat); rewrite lookup_take_lt by lia|].
  rewrite Hv. unfold dent_entry. apply wp_bind, wp_get, wp_bind. eapply wp_lift; [exact Hsl|]. apply wp_bind.
  eapply (wp_lift (idx (take 32 tail) 0) _ _ 0); [by change (idx (take 32 tail) 0) with (take 32 tail !! 0%nat); rewrite lookup_take_lt by lia|].
  cbn [Z.eqb negb]. apply wp_bind, wp_ret, wp_ret, HQ.
Qed.

Lemma wp_step_last cur x st (Q : fat → scan + (scan + option (list Z)) → Prop) :
  per_cluster st <= sc_i x → Q st (inr (inl x)) → wp (step cur filename 0 x) st Q.
Proof. intros Hi HQ. unfold dent_step. apply wp_bind, wp_get. rewrite (proj2 (Z.ltb_ge _ _) Hi). by apply wp_ret. Qed.

Lemma entries_length it : item_ok it → Forall (λ d, length d = 32%nat) (entries it).
Proof.
  destruct it as [d|d|d|slots d]; cbn [item_ok entries].
  1-2: intros [? _]; by constructor.
  - intros H. constructor; [apply fe_length, H|constructor].
  - intros (H & _ & Hd). apply Forall_app. split; [apply (sl_length _ H)|]. constructor; [apply fe_length, Hd|constructor].
Qed.

Lemma items_length its : Forall item_ok its → length (items_bytes its) = (32 * count its)%nat.
Proof.
  intros H. apply concat_length32. induction H as [|it its Hit _ IH]; cbn [mbind list_bind]; [constructor|].
  apply Forall_app. split; [by apply entries_length|done].
Qed.
End dir.

(** ** The clusters of a directory *)

Section clusters.
Context (g : fat_dev) (D : disk) (N : Z) (V : volume g D N) (v : fsdata).

(** The directory in [m] clusters from [k] on: it ends with an entry of
    zeros, or with its last cluster. *)
Inductive directory : Z → nat → list item → Prop :=
  | dir_zero k its tail : on_volume N v k → Forall item_ok its → cluster_data D v k = items_bytes its ++ tail →
      ends_here tail → directory k 1 its
  | dir_full k its : on_volume N v k → in_table N v k → Forall item_ok its → cluster_data D v k = items_bytes its →
      CHECK_CLUST (next D v k) (fatsize v) = true → directory k 1 its
  | dir_more k m its its' : on_volume N v k → in_table N v k → Forall item_ok its → cluster_data D v k = items_bytes its →
      CHECK_CLUST (next D v k) (fatsize v) = false → directory (next D v k) m its' → directory k (S m) (its ++ its').

Context (s_name0 l_name0 : list Z) (Hs0 : length s_name0 = 14%nat) (Hl0 : length l_name0 = 256%nat).
Context (name rest0 : list Z) (Hn0 : 0 ∉ name) (Hnb : bytes name) (Hne : name ≠ []) (Hcl : 0 < clust_size v <= 128).
#[local] Abbreviation filename := (name ++ 0 :: rest0).

(** The volume is mounted, and the block of the directory has its size. *)
Definition ready (st : fat) : Prop := mounted D v st ∧ Z.of_nat (length (dent_block st)) = MAX_CLUSTSIZE.

(** One cluster. *)
Lemma wp_cluster k its tail x st (Q : fat → Z * scan + option (list Z) → Prop) :
  ready st → on_volume N v k → Forall item_ok its → cluster_data D v k = items_bytes its ++ tail →
  ends_here tail ∨ tail = [] ∧ in_table N v k →
  (∀ st', ready st' → (∃ fs' b, st' = set_fs fs' (set_dent b st)) →
    match look_up name its with
    | Some d => Q st' (inr (Some d))
    | None =>
        (ends_here tail → Q st' (inr None)) ∧
        (tail = [] → ∀ x', Q st' (if CHECK_CLUST (next D v k) (fatsize v) then inr None else inl (next D v k, x')))
    end) →
  wp (dir_step g s_name0 l_name0 filename 0 (k, x)) st Q.
Proof using V Hs0 Hl0 Hn0 Hnb Hne Hcl.
  intros [[Hc Hg] Hlb] (Hk & Hk0 & HkN) Hok Hdata Htail HQ. pose proof Hg as Hg'. unfold geometry in Hg'. injection Hg' as G1 G2 G3 G4 G5 G6.
  pose proof (items_length its Hok) as Li. unfold MAX_CLUSTSIZE in Hlb.
  assert (length (cluster_data D v k) = Z.to_nat (clust_size v * 512)) as Lc
    by (unfold cluster_data; rewrite (data_sectors g D N V); lia).
  pose proof Lc as Lt. rewrite Hdata, length_app, Li in Lt.
  set (block := cluster_data D v k ++ drop (Z.to_nat (clust_size v * 512)) (dent_block st)).
  assert (Z.of_nat (length block) = 65536) as Lb by (unfold block; rewrite length_app, length_drop, Lc; lia).
  assert (cluster_sect (fs st) k = cluster_sect v k) as Es by (unfold cluster_sect; congruence).
  unfold dir_step. apply wp_bind, wp_get, wp_bind. rewrite G5. eapply wp_lift.
  { eapply (get_cluster_spec g D N V (fs st) k _ 0 _ (Z.to_nat (clust_size v)) block); rewrite ?Es; [done|done|lia|unfold FS_BLOCK_SIZE; lia|].
    fold (cluster_data D v k). unfold FS_BLOCK_SIZE. rewrite take_ge by (rewrite Lc; done).
    rewrite blit_Some by (rewrite ?Lc; lia). cbn [Z.to_nat take app Nat.add]. by rewrite Lc. }
  cbn beta iota. apply wp_bind, wp_modify. cbn [Z.eqb negb]. apply wp_bind.
  set (st1 := set_dent block st). set (per := clust_size v * FS_BLOCK_SIZE / 32).
  assert (per = 16 * clust_size v) as Eper by (unfold per, FS_BLOCK_SIZE; dm_lia).
  replace (S (length block)) with (length (its ≫= entries) + S (length block - length (its ≫= entries)))%nat by (unfold FS_BLOCK_SIZE in *; lia).
  apply (wp_items g s_name0 l_name0 Hs0 Hl0 name rest0 Hn0 Hnb Hne k its [] (tail ++ drop (Z.to_nat (clust_size v * 512)) (dent_block st))).
  - cbn [st1 dent_block set_dent app]. unfold block. by rewrite Hdata, <-app_assoc.
  - done.
  - cbn [sc_i st1 fs set_dent]. rewrite G5. fold per. lia.
  - done.
  - assert (∀ b, length b = length block → ready (set_dent b st1)) as Hr.
    { intros b Hb. split; [by split|]. cbn [dent_block set_dent]. rewrite Hb. done. }
    destruct (look_up name its) as [d|].
    + intros b Hb. apply wp_ret. apply (HQ (set_dent b st1)); [by apply Hr|]. by exists (fs st), b.
    + intros pre' x' Hp' Hx' Hl. cbn [dent_block st1 set_dent] in Hl. apply wp_mloop_S.
      destruct Htail as [He|[Ht0 Hin]].
      * pose proof He as (Hl32 & _). eapply (wp_step_end g s_name0 l_name0); [done|done|split; [done|split; [done|]]| |].
        { cbn [sc_i fs set_dent st1] in *. rewrite G5. fold per. lia. }
        { destruct He as (? & ? & a & ? & ?). split; [rewrite length_app; lia|].
          split; [by rewrite lookup_app_l by lia|]. exists a. by rewrite lookup_app_l by lia. }
        destruct (HQ (set_dent (pre' ++ tail ++ drop (Z.to_nat (clust_size v * 512)) (dent_block st)) st1)) as [HQ1 _];
          [by apply Hr|by exists (fs st), (pre' ++ tail ++ drop (Z.to_nat (clust_size v * 512)) (dent_block st))|by apply wp_ret, HQ1].
      * subst tail. eapply (wp_step_last g s_name0 l_name0).
        { cbn [sc_i fs set_dent st1] in *. rewrite G5. fold per. cbn [length] in Lt. lia. }
        apply wp_bind, wp_get, wp_bind. eapply (wp_fatent g D N V v); [by apply Hr|done|]. intros fs' Hc' Hg'.
        apply wp_ret. cbn [fs set_dent st1]. rewrite G1.
        specialize (HQ (set_fs fs' (set_dent (pre' ++ [] ++ drop (Z.to_nat (clust_size v * 512)) (dent_block st)) st1))).
        destruct HQ as [_ HQ].
        { split; [by split|]. cbn [dent_block set_dent set_fs]. by rewrite Hl. }
        { eexists fs', _. done. }
        by apply HQ.
Qed.

(** Looking a name up. *)
Lemma wp_directory k m its : directory k m its → ∀ fuel x st (Q : fat → option (list Z) → Prop),
  ready st → (m <= fuel)%nat →
  (∀ st', ready st' → (∃ fs' b, st' = set_fs fs' (set_dent b st)) → Q st' (look_up name its)) →
  wp (mloop fuel (dir_step g s_name0 l_name0 filename 0) (k, x)) st Q.
Proof using V Hs0 Hl0 Hn0 Hnb Hne Hcl.
  induction 1 as [k its tail Hv Hok Hd He|k its Hv Ht Hok Hd Hch|k m its its' Hv Ht Hok Hd Hch Hdir IH]; intros fuel x st Q Hr Hm HQ;
    (destruct fuel as [|fuel]; [lia|]); apply wp_mloop_S.
  - eapply wp_cluster; [done|done|done|done|by left|]. intros st' Hr' Hst. specialize (HQ st' Hr' Hst).
    destruct (look_up name its); [done|]. split; [done|]. intros ->. by destruct He as [? _]; cbn in *; lia.
  - eapply (wp_cluster _ _ []); [done|done|done|by rewrite app_nil_r|by right|]. intros st' Hr' Hst. specialize (HQ st' Hr' Hst).
    destruct (look_up name its); [done|]. split; [done|]. intros _ x'. by rewrite Hch.
  - eapply (wp_cluster _ _ []); [done|done|done|by rewrite app_nil_r|by right|]. intros st' Hr' (fs1 & b1 & Hst).
    rewrite look_up_app in HQ. destruct (look_up name its); [apply HQ; eauto|]. split; [by intros [? _]; cbn in *; lia|].
    intros _ x'. rewrite Hch. apply IH; [done|lia|]. intros st2 Hr2 (fs2 & b2 & Hst2). apply HQ; [done|].
    exists fs2, b2. by rewrite Hst2, Hst.
Qed.

Lemma get_dentfromdir_spec k m its fuel dent st : ready st → START (fatsize v) dent = Some k → directory k m its → (m <= fuel)%nat →
  ∃ fs' b, get_dentfromdir g s_name0 l_name0 fuel filename dent 0 st = Some (set_fs fs' (set_dent b st), look_up name its) ∧
    ready (set_fs fs' (set_dent b st)).
Proof using V Hs0 Hl0 Hn0 Hnb Hne Hcl.
  intros Hr Hst Hd Hm. pose proof Hr as [[_ Hg] _]. unfold geometry in Hg. injection Hg as G1 _ _ _ _ _.
  assert (wp (get_dentfromdir g s_name0 l_name0 fuel filename dent 0) st (λ st' r, r = look_up name its ∧
    ready st' ∧ ∃ fs' b, st' = set_fs fs' (set_dent b st))) as Hwp.
  { unfold get_dentfromdir. apply wp_bind, wp_get, wp_bind. rewrite G1. eapply wp_lift; [exact Hst|].
    eapply wp_directory; [exact Hd|done|done|]. intros st' Hr' Hst'. done. }
  destruct (wp_elim _ _ _ Hwp) as (st' & r & -> & -> & Hr' & fs' & b & ->). by exists fs', b.
Qed.
End clusters.
