(* ===== verification/FatRoot.v ===== *)
(** [Fat]: the root directory, paths, and reading a file by its path. *)
From stdpp Require Import base tactics option list.
From Stdlib Require Import ZArith Lia.
From S2P Require Import Prelude.
From S2P Require Import MmcDev.
From S2P Require Import Eff.
From S2P Require Import CBuf.
From S2P Require Import PartDos.
From S2P Require Import Fat.
From S2P Require Import FatName.
From S2P Require Import FatTable.
From S2P Require Import FatSpec.
From S2P Require Import FatDir.
Open Scope Z_scope.

(** ** The entries of the root directory *)

(** Entry by entry, as the search sees them through its window of a cluster's
    length: passed over, removed with the mark of a long name, a file or
    directory, and the first slot of a long name. *)
Inductive seen :=
  | SeenSkip (d : list Z)
  | SeenDead (d : list Z)
  | SeenShort (d : list Z)
  | SeenLong (slots : list (list Z)) (d : list Z).

Definition seen_called (name : list Z) (e : seen) : option (list Z) :=
  match e with
  | SeenSkip _ | SeenDead _ => None
  | SeenShort d => if bool_decide (name = short_name d) then Some d else None
  | SeenLong slots d => if bool_decide (name = short_name d ∨ name = long_name slots) then Some d else None
  end.
Fixpoint look_seen (name : list Z) (es : list seen) : option (list Z) :=
  match es with
  | [] => None
  | e :: es => match seen_called name e with Some d => Some d | None => look_seen name es end
  end.

Lemma look_seen_app name a b :
  look_seen name (a ++ b) = match look_seen name a with Some d => Some d | None => look_seen name b end.
Proof. induction a as [|e a IH]; [done|]. cbn [app look_seen]. by destruct (seen_called name e). Qed.

(** What is seen of the items of a directory, and that looking a name up in
    one is looking it up in the other. *)
Definition seen_of (it : item) : list seen :=
  match it with
  | Gone d | Label d => [SeenSkip d]
  | Short d => [SeenShort d]
  | Long slots d => SeenLong slots d :: (SeenSkip <$> drop 1 slots) ++ [SeenShort d]
  end.

Lemma look_seen_items name its : look_seen name (its ≫= seen_of) = look_up name its.
Proof.
  induction its as [|it its IH]; [done|]. cbn [mbind list_bind look_up] in *. rewrite look_seen_app, IH.
  destruct it as [d|d|d|slots d]; cbn [seen_of look_seen seen_called called entry_of]; [done|done|by destruct (bool_decide _)|].
  destruct (bool_decide_reflect (name = short_name d ∨ name = long_name slots)) as [H|H]; [done|].
  rewrite look_seen_app. assert (∀ l, look_seen name (SeenSkip <$> l) = None) as -> by (induction l; done).
  cbn [look_seen seen_called]. by rewrite bool_decide_eq_false_2 by tauto.
Qed.

(** The window [w] holds the entry [e] at the place [i]. *)
Definition seen_at (w : list Z) (i : nat) (e : seen) : Prop :=
  match e with
  | SeenSkip d =>
      length d = 32%nat ∧ (∃ post, drop (32 * i) w = d ++ post) ∧
      ∃ c a, d !! 0%nat = Some c ∧ d !! 11%nat = Some a ∧
        if has a ATTR_VOLUME then has c LAST_LONG_ENTRY_MASK = false else c = DELETED_FLAG
  | SeenDead d =>
      length d = 32%nat ∧ bytes d ∧ (∃ b post, drop (32 * i) w = d ++ b :: post ∧ Z.land b 0xbf ≠ 0xa4) ∧
      d !! 0%nat = Some DELETED_FLAG ∧ ∃ a, d !! 11%nat = Some a ∧ has a ATTR_VOLUME = true
  | SeenShort d => file_entry d ∧ ∃ post, drop (32 * i) w = d ++ post
  | SeenLong slots d =>
      slots_ok slots ∧ Forall bytes slots ∧ file_entry d ∧ ∃ post, drop (32 * i) w = concat slots ++ d ++ post
  end.

Section root.
Context (g : fat_dev) (s_name0 l_name0 : list Z) (Hs0 : length s_name0 = 14%nat) (Hl0 : length l_name0 = 256%nat).
Context (name rest0 : list Z) (Hn0 : 0 ∉ name) (Hnb : bytes name) (Hne : name ≠ []) (isdir : bool).
#[local] Abbreviation fnamecopy := (name ++ 0 :: rest0).
#[local] Abbreviation step := (root_step g s_name0 l_name0 fnamecopy 0 isdir).

(** The entry found, unless a directory is wanted and it is none. *)
Definition root_found (d : list Z) : root_res :=
  if isdir && negb (has (default 0 (d !! 11%nat)) ATTR_DIR) then RootRet (-1) else RootDone d.

(** A removed entry has no name. *)
Lemma gone_name d : d !! 0%nat = Some DELETED_FLAG → short_name d = [].
Proof. destruct d as [|c d]; [done|]. intros [= ->]. done. Qed.

Lemma wp_root_entry d i x st l_name w r (Q : fat → scan + (scan + root_res) → Prop) :
  slice (rd_block st) (32 * i) 32 = Some d → length d = 32%nat → (0 ∉ short_name d) → bytes (short_name d) →
  l_name = w ++ 0 :: r → 0 ∉ w → bytes w →
  (if bool_decide (name = short_name d ∨ name = w) then Q st (inr (inr (root_found d))) else Q st (inl (next_entry x))) →
  wp (root_entry s_name0 fnamecopy 0 isdir (32 * i) x l_name) st Q.
Proof using Hs0 Hl0 Hn0 Hnb Hne.
  intros Hb Hd Hz Hbn -> Hw Bw HQ. unfold root_entry. apply wp_bind, wp_get, wp_bind. eapply wp_lift; [exact Hb|].
  destruct (get_name_spec d s_name0 Hd Hs0) as (r1 & Hname). apply wp_bind. eapply wp_lift; [exact Hname|].
  change (0 =? LS_ROOT) with false. cbn iota.
  destruct (strcmp_names name (short_name d) rest0 r1 Hn0 Hz Hnb Hbn) as (a & Ha & Ha0).
  destruct (strcmp_names name w rest0 r Hn0 Hw Hnb Bw) as (b & Hb' & Hb0).
  destruct (lookup_lt_is_Some_2 d 11) as [at_ Hat]; [lia|]. unfold root_found in HQ. rewrite Hat in HQ. cbn [default from_option id] in HQ.
  apply wp_bind. eapply wp_lift; [exact Ha|]. apply wp_bind. destruct (Z.eqb_spec a 0) as [Ea|Ea]; cbn [negb].
  - apply wp_ret. cbn [negb andb]. apply wp_bind. eapply wp_lift; [exact Hat|]. apply wp_ret.
    rewrite bool_decide_eq_true_2 in HQ by (left; by apply Ha0). done.
  - eapply wp_lift; [exact Hb'|]. destruct (Z.eqb_spec b 0) as [Eb|Eb]; cbn [negb andb].
    + apply wp_bind. eapply wp_lift; [exact Hat|]. apply wp_ret. rewrite bool_decide_eq_true_2 in HQ by (right; by apply Hb0). done.
    + apply wp_ret. rewrite bool_decide_eq_false_2 in HQ by tauto. done.
Qed.

(** The block in memory, from the place [i] on as the window has it. *)
Definition root_view (w old pre : list Z) (i : nat) (x : scan) (st : fat) : Prop :=
  rd_block st = pre ++ drop (32 * i) w ++ old ∧ length pre = (32 * i)%nat ∧ sc_i x = Z.of_nat i ∧ (i < 16)%nat ∧
  Z.of_nat (length w) = clust_size (fs st) * FS_BLOCK_SIZE.

Lemma wp_root_skip w old pre i x st d post (Q : fat → scan + (scan + root_res) → Prop) c a :
  root_view w old pre i x st → length d = 32%nat → drop (32 * i) w = d ++ post →
  d !! 0%nat = Some c → d !! 11%nat = Some a →
  (if has a ATTR_VOLUME then has c LAST_LONG_ENTRY_MASK = false else c = DELETED_FLAG) →
  Q st (inl (next_entry x)) → wp (step x) st Q.
Proof using Hs0 Hl0 Hn0 Hnb Hne.
  intros (Hb & Hp & Hi & Hi16 & Hw) Hd Hdrop Hc Ha Hor HQ. unfold root_step. apply wp_bind, wp_get.
  replace (sc_i x <? DIRENTSPERBLOCK) with true by (symmetry; apply Z.ltb_lt; unfold DIRENTSPERBLOCK; lia).
  cbv zeta. apply wp_bind. eapply wp_lift; [by apply upd_first; lia|].
  assert (slice (rd_block st) (32 * sc_i x) 32 = Some d) as Hsl.
  { rewrite Hb, Hdrop, <-app_assoc. apply slice_behind; [lia|by rewrite Hd]. }
  apply wp_bind. eapply wp_lift; [exact Hsl|]. apply wp_bind. eapply wp_lift; [exact Hc|]. apply wp_bind. eapply wp_lift; [exact Ha|].
  destruct (has a ATTR_VOLUME) eqn:Hv.
  - rewrite Hor, andb_false_r. by apply wp_ret.
  - subst c. change (DELETED_FLAG =? 0) with false. cbn iota. apply wp_bind. unfold mkcksum. rewrite slice_Some by (rewrite ?Hd; lia).
    eapply wp_lift; [reflexivity|]. change (0 =? LS_ROOT) with false. cbn [andb].
    apply (wp_root_entry d _ x st _ [] (drop 1 l_name0)); rewrite ?(gone_name d Hc); [done|done|apply not_elem_of_nil|constructor|done|apply not_elem_of_nil|constructor|].
    rewrite bool_decide_eq_false_2 by tauto. done.
Qed.

Lemma wp_root_short w old pre i x st d post (Q : fat → scan + (scan + root_res) → Prop) :
  root_view w old pre i x st → file_entry d → drop (32 * i) w = d ++ post →
  (if bool_decide (name = short_name d) then Q st (inr (inr (root_found d))) else Q st (inl (next_entry x))) →
  wp (step x) st Q.
Proof using Hs0 Hl0 Hn0 Hnb Hne.
  intros (Hb & Hp & Hi & Hi16 & Hw) Hd Hdrop HQ. unfold root_step. apply wp_bind, wp_get.
  replace (sc_i x <? DIRENTSPERBLOCK) with true by (symmetry; apply Z.ltb_lt; unfold DIRENTSPERBLOCK; lia).
  cbv zeta. apply wp_bind. eapply wp_lift; [by apply upd_first; lia|]. pose proof (fe_length _ Hd) as Ld.
  assert (slice (rd_block st) (32 * sc_i x) 32 = Some d) as Hsl.
  { rewrite Hb, Hdrop, <-app_assoc. apply slice_behind; [lia|by rewrite Ld]. }
  destruct (fe_first _ Hd) as (c & Hc & Hc0 & Hc1). destruct (fe_attr _ Hd) as (a & Ha & Hv).
  apply wp_bind. eapply wp_lift; [exact Hsl|]. apply wp_bind. eapply wp_lift; [exact Hc|]. apply wp_bind. eapply wp_lift; [exact Ha|].
  rewrite Hv. destruct (Z.eqb_spec c 0); [done|]. apply wp_bind. unfold mkcksum. rewrite slice_Some by (rewrite ?Ld; lia).
  eapply wp_lift; [reflexivity|]. change (0 =? LS_ROOT) with false. cbn [andb].
  destruct (short_name_nice d (fe_bytes _ Hd)) as [Hz Hbn].
  apply (wp_root_entry d _ x st _ [] (drop 1 l_name0)); [done|done|done|done|done|apply not_elem_of_nil|constructor|].
  destruct (decide (name = short_name d)) as [->|Hx].
  - rewrite bool_decide_eq_true_2 in HQ |- * by auto. done.
  - rewrite bool_decide_eq_false_2 in HQ |- * by (done || intros [?|?]; done). done.
Qed.

(** The entry of zeros. *)
Lemma wp_root_end w old pre i x st (Q : fat → scan + (scan + root_res) → Prop) :
  root_view w old pre i x st → ends_here (drop (32 * i) w) → Q st (inr (inr (RootRet (-1)))) → wp (step x) st Q.
Proof using Hs0 Hl0.
  intros (Hb & Hp & Hi & Hi16 & Hw) (Hl & Hz & a & Ha & Hv) HQ. unfold root_step. apply wp_bind, wp_get.
  replace (sc_i x <? DIRENTSPERBLOCK) with true by (symmetry; apply Z.ltb_lt; unfold DIRENTSPERBLOCK; lia).
  cbv zeta. apply wp_bind. eapply wp_lift; [by apply upd_first; lia|]. set (t := drop (32 * i) w) in *.
  assert (slice (rd_block st) (32 * sc_i x) 32 = Some (take 32 t)) as Hsl.
  { rewrite Hb, <-(take_drop 32 t) at 1. rewrite <-app_assoc. apply slice_behind; [lia|]. rewrite length_take. lia. }
  apply wp_bind. eapply wp_lift; [exact Hsl|]. apply wp_bind.
  eapply (wp_lift (idx (take 32 t) 0) _ _ 0); [by change (idx (take 32 t) 0) with (take 32 t !! 0%nat); rewrite lookup_take_lt by lia|].
  apply wp_bind.
  eapply (wp_lift (idx (take 32 t) 11) _ _ a); [by change (idx (take 32 t) 11) with (take 32 t !! 11%nat); rewrite lookup_take_lt by lia|].
  rewrite Hv. by apply wp_ret.
Qed.
(** A removed slot that bears the mark: the next entry does not count on. *)
Lemma wp_root_dead w old pre i x st d b post (Q : fat → scan + (scan + root_res) → Prop) a :
  root_view w old pre i x st → length d = 32%nat → drop (32 * i) w = d ++ b :: post → Z.land b 0xbf ≠ 0xa4 →
  d !! 0%nat = Some DELETED_FLAG → d !! 11%nat = Some a → has a ATTR_VOLUME = true →
  (∀ x', sc_i x' = sc_i x → Q (set_rd (rd_block st) st) (inl (next_entry x'))) → wp (step x) st Q.
Proof using Hs0 Hl0 Hn0 Hnb Hne.
  intros (Hb & Hp & Hi & Hi16 & Hw) Hd Hdrop Hnext Hc Ha Hv HQ. unfold root_step. apply wp_bind, wp_get.
  replace (sc_i x <? DIRENTSPERBLOCK) with true by (symmetry; apply Z.ltb_lt; unfold DIRENTSPERBLOCK; lia).
  cbv zeta. apply wp_bind. eapply wp_lift; [by apply upd_first; lia|].
  assert (rd_block st = pre ++ d ++ (b :: post) ++ old) as Hbd by (by rewrite Hb, Hdrop, <-app_assoc).
  assert (slice (rd_block st) (32 * sc_i x) 32 = Some d) as Hsl by (rewrite Hbd; apply slice_behind; [lia|by rewrite Hd]).
  apply wp_bind. eapply wp_lift; [exact Hsl|]. apply wp_bind. eapply wp_lift; [exact Hc|]. apply wp_bind. eapply wp_lift; [exact Ha|].
  assert (has a ATTR_VFAT = true) as Hvf.
  { unfold has, ATTR_VOLUME, ATTR_VFAT in *. destruct (Z.eqb_spec (Z.land a 15) 0) as [E|]; [|done].
    assert (Z.land a 8 = Z.land (Z.land a 15) 8) as E8 by (by rewrite <-Z.land_assoc). rewrite E in E8. by rewrite E8 in Hv. }
  rewrite Hv, Hvf. change (has DELETED_FLAG LAST_LONG_ENTRY_MASK) with true. cbn [andb].
  destruct (lookup_lt_is_Some_2 d 13) as [k Hk]; [lia|]. apply wp_bind. eapply wp_lift; [exact Hk|]. cbv zeta.
  apply wp_bind. assert (length w = (32 * i + length (drop (32 * i) w))%nat) as Lw.
  { rewrite length_drop. assert (32 * i <= length w)%nat; [|lia]. apply (f_equal length) in Hdrop. rewrite length_drop, length_app in Hdrop. cbn [length] in Hdrop. lia. }
  rewrite Hdrop, length_app in Lw. cbn [length] in Lw. unfold get_vfatname. apply wp_bind, wp_get, wp_bind.
  assert (idx (rd_block st) (32 * sc_i x) = Some DELETED_FLAG) as Hid.
  { rewrite Hbd. destruct d as [|c d]; [done|]. injection Hc as ->. cbn [app]. apply idx_behind. lia. }
  assert (idx (rd_block st) (32 * sc_i x + 32) = Some b) as Hid2.
  { rewrite Hbd, app_assoc. cbn [app]. apply idx_behind. rewrite length_app. lia. }
  eapply wp_lift; [exact Hid|]. change (Z.land DELETED_FLAG 0xbf) with 0xa5. apply wp_bind. eapply wp_lift.
  { set (next := clust_size (fs st) * FS_BLOCK_SIZE) in *.
    assert (slot_step (rd_block st) next (32 * sc_i x, 0xa5) = Some (inl (32 * sc_i x + 32, 0xa4))) as E1
      by (unfold slot_step; rewrite (proj2 (Z.ltb_lt _ _)), Hid by lia; done).
    assert (slot_step (rd_block st) next (32 * sc_i x + 32, 0xa4) = Some (inr None)) as E2.
    { unfold slot_step. rewrite (proj2 (Z.ltb_lt _ _)), Hid2 by lia. cbn [Z.eqb mbind option_bind]. by rewrite (proj2 (Z.eqb_neq _ _) Hnext). }
    by rewrite loop_S, E1, loop_S, E2. }
  cbn beta iota. apply wp_ret. cbn beta iota. apply wp_bind, wp_modify. change (0 =? LS_ROOT) with false. cbn iota.
  set (x' := mkScan (sc_i x) k (files x) (dirs x)). change (32 * sc_i x) with (32 * sc_i x').
  apply (wp_root_entry d _ x' _ _ [] (drop 1 l_name0)); rewrite ?(gone_name d Hc); [done|done|apply not_elem_of_nil|constructor|done|apply not_elem_of_nil|constructor|].
  rewrite bool_decide_eq_false_2 by tauto. by apply HQ.
Qed.

Lemma wp_root_long w old pre i x st slots d post (Q : fat → scan + (scan + root_res) → Prop) :
  root_view w old pre i x st → slots_ok slots → Forall bytes slots → file_entry d → drop (32 * i) w = concat slots ++ d ++ post →
  (∀ x', sc_i x' = sc_i x →
    let st' := set_rd (pre ++ d ++ drop 32 (drop (32 * i) w) ++ old) st in
    if bool_decide (name = short_name d ∨ name = long_name slots) then Q st' (inr (inr (root_found d)))
    else Q st' (inl (next_entry x'))) →
  wp (step x) st Q.
Proof using Hs0 Hl0 Hn0 Hnb Hne.
  intros (Hb & Hp & Hi & Hi16 & Hw) Hok Hbs Hd Hdrop HQ. unfold root_step. apply wp_bind, wp_get.
  replace (sc_i x <? DIRENTSPERBLOCK) with true by (symmetry; apply Z.ltb_lt; unfold DIRENTSPERBLOCK; lia).
  cbv zeta. apply wp_bind. eapply wp_lift; [by apply upd_first; lia|].
  destruct slots as [|sl slots]; [by destruct (sl_count _ Hok); cbn in *; lia|].
  pose proof (sl_length _ Hok) as [Hsl _]%Forall_cons. pose proof (sl_attr _ Hok) as [Hat _]%Forall_cons. pose proof (fe_length _ Hd) as Ld.
  pose proof (concat_length32 _ (sl_length _ Hok)) as Lc.
  assert (rd_block st = pre ++ concat (sl :: slots) ++ d ++ post ++ old) as Hbd by (by rewrite Hb, Hdrop, <-!app_assoc).
  destruct (slot_number (sl :: slots) 0 sl Hok eq_refl) as (id & Hid & _ & Hlast).
  apply wp_bind. eapply wp_lift.
  { rewrite Hbd. cbn [concat]. rewrite <-(app_assoc sl). apply slice_behind; [lia|by rewrite Hsl]. }
  apply wp_bind. eapply wp_lift; [exact Hid|]. apply wp_bind. eapply wp_lift; [exact Hat|].
  change (has ATTR_VFAT ATTR_VOLUME) with true. change (has ATTR_VFAT ATTR_VFAT) with true. rewrite Hlast. cbn [Nat.eqb andb].
  destruct (lookup_lt_is_Some_2 sl 13) as [k Hk]; [lia|]. apply wp_bind. eapply wp_lift; [exact Hk|]. cbv zeta.
  apply wp_bind. replace (32 * sc_i x) with (Z.of_nat (length pre)) at 1 by lia. rewrite Hbd.
  assert (length w = (32 * i + (length (concat (sl :: slots)) + (length d + length post)))%nat) as Lw.
  { rewrite <-!length_app, <-Hdrop, length_drop. assert (32 * i <= length w)%nat; [|lia]. apply (f_equal length) in Hdrop. rewrite length_drop, length_app, Lc in Hdrop. cbn [length] in Hdrop. lia. }
  destruct (get_vfatname_spec g pre (sl :: slots) sl slots d (post ++ old) 0 (0 :: drop 1 l_name0) st) as (r & E);
    [done|done|done|cbn [length]; rewrite length_drop; lia|rewrite <-Hw, Lw, Lc, Ld; cbn [length]; lia|].
  eapply wp_intro; [exact E|]. cbn beta iota. apply wp_bind, wp_modify. change (0 =? LS_ROOT) with false. cbn iota.
  set (x' := mkScan (sc_i x) k (files x) (dirs x)). change (32 * sc_i x) with (32 * sc_i x').
  destruct (long_name_nice _ Hbs) as [? ?]. destruct (short_name_nice d (fe_bytes _ Hd)) as [? ?].
  assert (drop 32 (drop (32 * i) w) = concat slots ++ d ++ post) as Ed.
  { rewrite Hdrop. cbn [concat]. rewrite <-app_assoc. by apply drop_app_length'. }
  specialize (HQ x' eq_refl). rewrite Ed, <-!app_assoc in HQ. eapply (wp_root_entry d); [|done|done|done|done|done|done|exact HQ].
  cbn [rd_block set_rd]. apply slice_behind; [cbn [sc_i x']; lia|by rewrite Ld].
Qed.
Lemma row_rest (w d post : list Z) i : drop (32 * i) w = d ++ post → length d = 32%nat → post = drop (32 * S i) w.
Proof.
  intros H Hd. replace (32 * S i)%nat with (32 * i + 32)%nat by lia. rewrite <-drop_drop, H. by rewrite drop_app_length'.
Qed.

(** What one entry makes of the search. *)
Lemma wp_root_seen w old pre i x st e (Q : fat → scan + (scan + root_res) → Prop) :
  root_view w old pre i x st → seen_at w i e →
  match seen_called name e with
  | Some d => ∀ b, length b = length (rd_block st) → Q (set_rd b st) (inr (inr (root_found d)))
  | None => ∀ pre' x', length pre' = (32 * S i)%nat → sc_i x' = Z.of_nat (S i) →
      length (pre' ++ drop (32 * S i) w ++ old) = length (rd_block st) → Q (set_rd (pre' ++ drop (32 * S i) w ++ old) st) (inl x')
  end → wp (step x) st Q.
Proof using Hs0 Hl0 Hn0 Hnb Hne.
  intros Hv He HQ. pose proof Hv as (Hb & Hp & Hi & Hi16 & Hw).
  assert (∀ d post x', drop (32 * i) w = d ++ post → length d = 32%nat → sc_i x' = sc_i x → seen_called name e = None →
    Q (set_rd (rd_block st) st) (inl (next_entry x'))) as Hpass.
  { intros d post x' Hd Ld Hx' Hn. rewrite Hn in HQ. pose proof (row_rest _ _ _ _ Hd Ld) as ->.
    specialize (HQ (pre ++ d) (next_entry x')). rewrite <-app_assoc, (app_assoc d), <-Hd, <-Hb in HQ. apply HQ; [|cbn [next_entry sc_i]; lia|done].
    rewrite length_app. lia. }
  assert (set_rd (rd_block st) st = st) as Est by by destruct st.
  destruct e as [d|d|d|slots d]; cbn [seen_at seen_called] in *.
  - destruct He as (Ld & (post & Hd) & c & a & Hc & Ha & Hor). eapply (wp_root_skip w old pre i); [done..|]. rewrite <-Est. by eapply Hpass.
  - destruct He as (Ld & Bd & (b & post & Hd & Hnext) & Hc & a & Ha & Hvol). eapply (wp_root_dead w old pre i); [done..|].
    intros x' Hx'. by eapply Hpass.
  - destruct He as (Hfe & post & Hd). eapply (wp_root_short w old pre i); [done..|]. destruct (bool_decide (name = short_name d)).
    + rewrite <-Est. by apply HQ.
    + rewrite <-Est. eapply Hpass; [done|apply Hfe|done|done].
  - destruct He as (Hok & Hbs & Hfe & post & Hd). eapply (wp_root_long w old pre i); [done..|]. intros x' Hx'. cbv zeta.
    assert (drop 32 (drop (32 * i) w) = drop (32 * S i) w) as -> by (rewrite drop_drop; f_equal; lia).
    pose proof (fe_length _ Hfe) as Ld.
    assert (length (pre ++ d ++ drop (32 * S i) w ++ old) = length (rd_block st)) as Hbl.
    { rewrite Hb, !length_app, !length_drop, Ld. pose proof (concat_length32 _ (sl_length _ Hok)) as Lc. pose proof (sl_count _ Hok).
      apply (f_equal length) in Hd. rewrite length_drop, !length_app, Lc in Hd. lia. }
    destruct (bool_decide (name = short_name d ∨ name = long_name slots)); [by apply HQ|].
    specialize (HQ (pre ++ d) (next_entry x')). rewrite <-app_assoc in HQ. apply HQ; [rewrite length_app; lia|cbn [next_entry sc_i]; lia|done].
Qed.

Lemma wp_root_row w old es : ∀ i pre x fuel st (Q : fat → scan + root_res → Prop),
  (∀ j e, es !! j = Some e → seen_at w (i + j) e) → (i + length es <= 16)%nat →
  rd_block st = pre ++ drop (32 * i) w ++ old → length pre = (32 * i)%nat → sc_i x = Z.of_nat i →
  Z.of_nat (length w) = clust_size (fs st) * FS_BLOCK_SIZE →
  match look_seen name es with
  | Some d => ∀ b, length b = length (rd_block st) → Q (set_rd b st) (inr (root_found d))
  | None => ∀ pre' x', length pre' = (32 * (i + length es))%nat → sc_i x' = Z.of_nat (i + length es) →
      length (pre' ++ drop (32 * (i + length es)) w ++ old) = length (rd_block st) →
      wp (mloop fuel step x') (set_rd (pre' ++ drop (32 * (i + length es)) w ++ old) st) Q
  end → wp (mloop (length es + fuel) step x) st Q.
Proof using Hs0 Hl0 Hn0 Hnb Hne.
  induction es as [|e es IH]; intros i pre x fuel st Q Hes Hi Hb Hp Hx Hw HQ; cbn [look_seen length Nat.add] in *.
  { rewrite Nat.add_0_r in HQ. specialize (HQ pre x Hp Hx). rewrite <-Hb in HQ. specialize (HQ eq_refl). by destruct st. }
  apply wp_mloop_S. eapply (wp_root_seen w old pre i _ _ e).
  { split; [done|split; [done|split; [done|split; [lia|done]]]]. }
  { specialize (Hes 0%nat e eq_refl). by rewrite Nat.add_0_r in Hes. }
  destruct (seen_called name e) as [d|]; [done|]. intros pre' x' Hp' Hx' Hl.
  apply (IH (S i) pre'); [|lia|done|done|done|done|].
  { intros j e' Hj. specialize (Hes (S j) e' Hj). by replace (S i + j)%nat with (i + S j)%nat by lia. }
  cbn [rd_block set_rd]. destruct (look_seen name es) as [d|].
  - intros b Hbl. apply (HQ b). by rewrite Hbl.
  - replace (S i + length es)%nat with (i + S (length es))%nat by lia. intros pre2 x2 Hp2 Hx2 Hl2. apply (HQ pre2 x2 Hp2 Hx2). by rewrite Hl2.
Qed.
End root.

(** ** The sectors of the root directory *)

Section sectors.
Context (g : fat_dev) (D : disk) (N : Z) (V : volume g D N) (v : fsdata).

(** Which sector follows: the next one, or on FAT32, behind the last of a
    cluster, the first of the next cluster. *)
Definition root_next (cursect root_cluster j : Z) : Z * Z * Z :=
  if (fatsize v =? 32) && (j + 1 =? clust_size v) then
    let n := s32 (next D v (u32 root_cluster)) in (s32 (data_begin v + n * clust_size v), n, 0)
  else (s32 (cursect + 1), root_cluster, if fatsize v =? 32 then j + 1 else j).

Definition window (cursect : Z) : list Z := sectors D cursect (Z.to_nat (clust_size v)).
Definition seen_row (cursect : Z) (es : list seen) : Prop :=
  0 <= cursect ∧ cursect + clust_size v <= N ∧ ∀ j e, es !! j = Some e → seen_at (window cursect) j e.

(** The root directory in [m] sectors. *)
Inductive root_dir : Z → Z → Z → nat → list seen → Prop :=
  | root_zero cs rc j es : seen_row cs es → (length es < 16)%nat → ends_here (drop (32 * length es) (window cs)) → root_dir cs rc j 1 es
  | root_more cs rc j cs' rc' j' m es es' : seen_row cs es → length es = 16%nat →
      (fatsize v = 32 → j + 1 = clust_size v → in_table N v (u32 rc)) →
      root_next cs rc j = (cs', rc', j') → root_dir cs' rc' j' m es' → root_dir cs rc j (S m) (es ++ es').

Context (s_name0 l_name0 : list Z) (Hs0 : length s_name0 = 14%nat) (Hl0 : length l_name0 = 256%nat).
Context (name rest0 : list Z) (Hn0 : 0 ∉ name) (Hnb : bytes name) (Hne : name ≠ []) (Hcl : 0 < clust_size v <= 128) (isdir : bool).
#[local] Abbreviation fnamecopy := (name ++ 0 :: rest0).

Definition root_ready (st : fat) : Prop := mounted D v st ∧ Z.of_nat (length (rd_block st)) = MAX_CLUSTSIZE.

Definition root_result (es : list seen) : root_res :=
  match look_seen name es with Some d => root_found isdir d | None => RootRet (-1) end.

(** A window in memory. *)
Lemma wp_sector cs rc j x es st (Q : fat → Z * Z * Z * scan + root_res → Prop) :
  root_ready st → seen_row cs es → (length es <= 16)%nat →
  ((length es < 16)%nat ∧ ends_here (drop (32 * length es) (window cs)) ∨
   length es = 16%nat ∧ (fatsize v = 32 → j + 1 = clust_size v → in_table N v (u32 rc))) →
  (∀ st', root_ready st' → (∃ fs' b, st' = set_fs fs' (set_rd b st)) →
    match look_seen name es with
    | Some d => Q st' (inr (root_found isdir d))
    | None => ((length es < 16)%nat → Q st' (inr (RootRet (-1)))) ∧
        (length es = 16%nat → ∀ x', Q st' (inl (root_next cs rc j, x')))
    end) →
  wp (sector_step g s_name0 l_name0 fnamecopy 0 isdir (cs, rc, j, x)) st Q.
Proof using V Hs0 Hl0 Hn0 Hnb Hne Hcl.
  intros [[Hc Hg] Hlb] (Hcs & HcsN & Hes) Hl16 Hend HQ. pose proof Hg as Hg'. unfold geometry in Hg'. injection Hg' as G1 G2 G3 G4 G5 G6.
  unfold MAX_CLUSTSIZE in Hlb. pose proof (vo_range g D N V).
  assert (Z.of_nat (length (window cs)) = clust_size v * 512) as Lw by (unfold window; rewrite (data_sectors g D N V); lia).
  set (old := drop (length (window cs)) (rd_block st)).
  assert (Z.of_nat (length (window cs ++ old)) = 65536) as Lb by (unfold old; rewrite length_app, length_drop; lia).
  unfold sector_step. apply wp_bind, wp_get. rewrite G5, u32_id by int_lia.
  destruct (vo_read g D N V cs (clust_size v)) as (r & -> & Hr); [lia|lia|right; lia|]. fold (window cs). apply wp_bind. eapply wp_lift.
  { apply blit_Some; lia. }
  cbn [Z.to_nat take app Nat.add]. change (drop (0 + length (window cs)) (rd_block st)) with old.
  apply wp_bind, wp_modify. destruct (Z.ltb_spec r 0); [lia|]. apply wp_bind.
  set (st1 := set_rd (take (Z.to_nat 0) (rd_block st) ++ window cs ++ old) st).
  assert (∀ b, length b = length (window cs ++ old) → root_ready (set_rd b st1)) as Hrd.
  { intros b Hb. split; [by split|]. cbn [rd_block set_rd]. by rewrite Hb. }
  replace 17%nat with (length es + (17 - length es))%nat by lia.
  apply (wp_root_row g s_name0 l_name0 Hs0 Hl0 name rest0 Hn0 Hnb Hne isdir (window cs) old es 0 []);
    [done|lia|done|done|done|cbn [fs set_rd st1]; rewrite G5; exact Lw|].
  destruct (look_seen name es) as [d|].
  - intros b Hb. apply wp_ret. apply (HQ (set_rd b st1)); [by apply Hrd|]. by exists (fs st), b.
  - cbn [Nat.add]. intros pre' x' Hp' Hx' Hl. set (b := pre' ++ drop (32 * length es) (window cs) ++ old) in *.
    replace (17 - length es)%nat with (S (16 - length es)) by lia. apply wp_mloop_S.
    destruct Hend as [[Hlt He]|[H16 Hin]].
    + eapply (wp_root_end g s_name0 l_name0 Hs0 Hl0 name rest0 isdir (window cs) old pre' (length es)); [|exact He|].
      { split; [done|split; [done|split; [done|split; [lia|cbn [fs set_rd st1]; rewrite G5; exact Lw]]]]. }
      apply wp_ret. destruct (HQ (set_rd b st1)) as [HQ1 _]; [by apply Hrd|by exists (fs st), b|by apply HQ1].
    + unfold root_step at 1. apply wp_bind, wp_get. rewrite (proj2 (Z.ltb_ge _ _)) by (unfold DIRENTSPERBLOCK; lia). apply wp_ret.
      cbn [fs set_rd st1]. rewrite G1. unfold root_next in HQ.
      destruct ((fatsize v =? 32) && (j + 1 =? clust_size v)) eqn:E.
      * apply andb_prop in E as [E1%Z.eqb_eq E2%Z.eqb_eq]. apply wp_bind. eapply (wp_fatent g D N V v); [by apply Hrd|by apply Hin|].
        intros fs' Hc' Hg'. apply wp_ret. rewrite G6. cbv zeta in HQ.
        destruct (HQ (set_fs fs' (set_rd b st1))) as [_ HQ1]; [split; [by split|]|by exists fs', b|by apply HQ1].
        cbn [rd_block set_fs set_rd]. by rewrite Hl.
      * apply wp_ret. destruct (HQ (set_rd b st1)) as [_ HQ1]; [by apply Hrd|by exists (fs st), b|by apply HQ1].
Qed.

Lemma wp_root_dir cs rc j m es : root_dir cs rc j m es → ∀ fuel x st (Q : fat → root_res → Prop),
  root_ready st → (m <= fuel)%nat →
  (∀ st', root_ready st' → (∃ fs' b, st' = set_fs fs' (set_rd b st)) → Q st' (root_result es)) →
  wp (mloop fuel (sector_step g s_name0 l_name0 fnamecopy 0 isdir) (cs, rc, j, x)) st Q.
Proof using V Hs0 Hl0 Hn0 Hnb Hne Hcl.
  induction 1 as [cs rc j es Hrow Hlt He|cs rc j cs' rc' j' m es es' Hrow H16 Hin Hnext Hdir IH]; intros fuel x st Q Hr Hm HQ;
    (destruct fuel as [|fuel]; [lia|]); apply wp_mloop_S; unfold root_result in HQ.
  - eapply wp_sector; [done|done|lia|by left|]. intros st' Hr' Hst. specialize (HQ st' Hr' Hst).
    destruct (look_seen name es); [done|]. split; [done|lia].
  - eapply wp_sector; [done|done|lia|by right|]. intros st' Hr' (fs1 & b1 & Hst). rewrite look_seen_app in HQ.
    destruct (look_seen name es); [apply HQ; eauto|]. split; [lia|]. intros _ x'. rewrite Hnext.
    apply IH; [done|lia|]. intros st2 Hr2 (fs2 & b2 & Hst2). unfold root_result. apply HQ; [done|].
    exists fs2, b2. by rewrite Hst2, Hst.
Qed.
End sectors.
