(* ===== verification/FatLayout.v ===== *)
(** [Fat]: where the boot sector puts the parts of a volume, and that the
    parameters read from it say the same. *)
From stdpp Require Import base tactics option list strings.
From Stdlib Require Import ZArith Lia.
From S2P Require Import Prelude.
From S2P Require Import MmcDev.
From S2P Require Import Eff.
From S2P Require Import CBuf.
From S2P Require Import PartDos.
From S2P Require Import Fat.
From S2P Require Import FatName.
From S2P Require Import FatTable.
From S2P Require Import FatSpec.
From S2P Require Import FatDir.
From S2P Require Import FatRoot.
Open Scope Z_scope.

(** ** The layout of a volume

    As the description of the file system has it: the boot sector and the other
    reserved sectors, the copies of the allocation table, on FAT12 and FAT16
    the root directory, and the clusters, the first of which has the number
    2. *)

Section layout.
Context (D : disk).

(** The fields of the boot sector. *)
Definition boot_byte (i : Z) : Z := byte_at D 0 i.
Definition boot_word (i : Z) : Z := boot_byte i + 256 * boot_byte (i + 1).
Definition boot_dword (i : Z) : Z :=
  boot_byte i + 256 * (boot_byte (i + 1) + 256 * (boot_byte (i + 2) + 256 * boot_byte (i + 3))).
Definition boot_text (i n : nat) : list Z := take n (drop i (D 0)).

Definition sector_bytes : Z := boot_word 11.
Definition sectors_per_cluster : Z := boot_byte 13.
Definition fat_start : Z := boot_word 14.
Definition fat_copies : Z := boot_byte 16.
Definition root_entries : Z := boot_word 17.
Definition fat_sectors : Z := if boot_word 22 =? 0 then boot_dword 36 else boot_word 22.
Definition root_cluster : Z := boot_dword 44.

(** The width of the entries of the table: FAT12, FAT16 or FAT32. *)
Inductive fat_kind : Z → Prop :=
  | kind_12 : boot_word 22 ≠ 0 → boot_text 54 8 = str "FAT12   " → fat_kind 12
  | kind_16 : boot_word 22 ≠ 0 → boot_text 54 8 = str "FAT16   " → fat_kind 16
  | kind_32 : boot_word 22 = 0 → boot_text 82 8 = str "FAT32   " → fat_kind 32.

Definition behind_fats : Z := fat_start + fat_copies * fat_sectors.
(** The sectors the root directory takes in front of the clusters. *)
Definition root_sectors (bits : Z) : Z := if bits =? 32 then 0 else (32 * root_entries + 511) / 512.
Definition first_data (bits : Z) : Z := behind_fats + root_sectors bits.
Definition cluster_start (bits k : Z) : Z := first_data bits + (k - 2) * sectors_per_cluster.
Definition cluster_bytes (bits k : Z) : list Z := sectors D (cluster_start bits k) (Z.to_nat sectors_per_cluster).
(** Where the root directory begins. *)
Definition root_start (bits : Z) : Z := if bits =? 32 then cluster_start bits root_cluster else behind_fats.

(** The volumes the code reads as the layout has them.  Its variables for the
    layout have 16 bits, the place of cluster 0 with a sign; the root directory
    of FAT32 is looked for in the first cluster, whatever its number; and
    sectors have 512 bytes, which the entries of the root directory fill. *)
Record readable (bits : Z) : Prop := mkReadable {
  rb_kind : fat_kind bits;
  rb_sector : sector_bytes = 512;
  rb_cluster : 0 < sectors_per_cluster <= 128;
  rb_fat : 0 < fat_sectors < 65536;
  rb_behind : behind_fats < 65536;
  rb_zero : first_data bits - 2 * sectors_per_cluster < 32768;
  rb_entries : bits ≠ 32 → root_entries mod 16 = 0;
  rb_root : bits = 32 → root_cluster = 2;
}.

(** The layout as the code keeps it. *)
Definition layout (bits : Z) (fatbuf0 : list Z) : fsdata :=
  mkFs bits fat_sectors fat_start behind_fats sectors_per_cluster (first_data bits - 2 * sectors_per_cluster) fatbuf0 (-1).

Lemma layout_cluster bits fatbuf0 k : cluster_sect (layout bits fatbuf0) k = cluster_start bits k.
Proof. unfold cluster_sect, cluster_start, layout. cbn [data_begin clust_size]. lia. Qed.

Lemma layout_data bits fatbuf0 k : cluster_data D (layout bits fatbuf0) k = cluster_bytes bits k.
Proof. unfold cluster_data, cluster_bytes. by rewrite layout_cluster. Qed.

Lemma layout_root bits fatbuf0 : readable bits → rootdir_sect (layout bits fatbuf0) = root_start bits.
Proof.
  intros H. unfold root_start. destruct (Z.eqb_spec bits 32) as [->|]; [|done]. rewrite (rb_root _ H) by done.
  unfold cluster_start, first_data, root_sectors. cbn. lia.
Qed.

(** ** The boot sector as the code reads it *)

Context (g : fat_dev) (N : Z) (V : volume g D N).

Lemma boot_byte_byte i : is_byte (boot_byte i).
Proof using V. apply byte_at_byte, V. Qed.

Lemma boot_word_range i : 0 <= boot_word i < 65536.
Proof using V. unfold boot_word. pose proof (boot_byte_byte i). pose proof (boot_byte_byte (i + 1)). unfold is_byte in *. lia. Qed.

(** The first bytes. *)
Lemma boot_holds n : (n <= 512)%nat → holds (take n (D 0)) (Z.of_nat n) boot_byte.
Proof using V.
  intros Hn. split; [|apply boot_byte_byte]. intros i Hi. rewrite lookup_take_lt by lia. unfold boot_byte, byte_at.
  rewrite Z.div_small, Z.mod_small, Z.add_0_r by lia. destruct (lookup_lt_is_Some_2 (D 0) (Z.to_nat i)) as [x ->]; [rewrite (vo_size _ _ _ V); lia|done].
Qed.

(** What the parameters are, the variables' sizes included. *)
Lemma fs_params_value bits fatbuf0 : fat_kind bits →
  fs_params (take 64 (D 0)) fatbuf0 bits =
    Some (mkFs bits (u16 fat_sectors) fat_start (u16 (fat_start + u16 fat_sectors * fat_copies)) sectors_per_cluster
      (s16 (u16 (fat_start + u16 fat_sectors * fat_copies) + (if bits =? 32 then 0 else root_entries * 32 / 512) - sectors_per_cluster * 2))
      fatbuf0 (-1)).
Proof using V.
  intros Hk. pose proof (boot_holds 64 ltac:(lia)) as Hh. unfold fs_params.
  assert (∀ i, 0 <= i < 64 → idx (take 64 (D 0)) i = Some (boot_byte i)) as Hi.
  { intros i Hi. rewrite <-(Z2Nat.id i), idx_nat by lia. rewrite (proj1 Hh) by lia. by rewrite Z2Nat.id by lia. }
  rewrite (le_at_2 _ _ _ 14 Hh), !Hi by lia.
  assert ((if bits =? 32 then le_at (take 64 (D 0)) 36 4 else le_at (take 64 (D 0)) 22 2) = Some fat_sectors) as ->.
  { unfold fat_sectors, boot_dword. destruct Hk as [H _|H _|H _]; cbn [Z.eqb Pos.eqb];
      rewrite ?(le_at_2 _ _ _ 22 Hh), ?(le_at_4 _ _ _ 36 Hh) by lia; fold (boot_word 22); destruct (Z.eqb_spec (boot_word 22) 0); done. }
  cbn [mbind option_bind]. unfold FS_BLOCK_SIZE, root_entries, boot_word. change (17 + 1) with 18.
  replace (boot_byte 18 * 256 + boot_byte 17) with (boot_byte 17 + 256 * boot_byte 18) by lia. by destruct (bits =? 32).
Qed.

(** The sector behind the tables fits its variable. *)
Lemma behind_fats_kept : 0 < fat_sectors < 65536 → behind_fats < 65536 →
  u16 (fat_start + u16 fat_sectors * fat_copies) = behind_fats ∧ 0 <= behind_fats.
Proof using V.
  intros Hf Hb. pose proof (boot_word_range 14) as H14. fold fat_start in H14. pose proof (boot_byte_byte 16) as H16. fold fat_copies in H16.
  assert (u16 fat_sectors = fat_sectors) as -> by (unfold u16; rewrite Z.mod_small; lia).
  rewrite (Z.mul_comm fat_sectors fat_copies). fold behind_fats.
  assert (0 <= behind_fats) by (unfold behind_fats, is_byte in *; nia). split; [unfold u16; rewrite Z.mod_small; lia|done].
Qed.

Lemma root_sectors_kept bits : (bits ≠ 32 → root_entries mod 16 = 0) →
  (if bits =? 32 then 0 else root_entries * 32 / 512) = root_sectors bits ∧ 0 <= root_sectors bits.
Proof using V.
  intros He. pose proof (boot_word_range 17) as H17. fold root_entries in H17.
  unfold root_sectors. destruct (Z.eqb_spec bits 32); [done|]. specialize (He ltac:(done)). dm_lia.
Qed.

(** The sector cluster 0 would have. *)
Lemma cluster_zero bits : behind_fats + root_sectors bits - sectors_per_cluster * 2 = first_data bits - 2 * sectors_per_cluster.
Proof. unfold first_data. lia. Qed.

(** On a readable volume they are the layout. *)
Lemma fs_params_layout bits fatbuf0 : readable bits → fs_params (take 64 (D 0)) fatbuf0 bits = Some (layout bits fatbuf0).
Proof using V.
  intros [Hk _ Hc Hf Hb Hz He _]. rewrite fs_params_value by done. unfold layout. destruct (behind_fats_kept Hf Hb) as [-> ?].
  destruct (root_sectors_kept bits He) as [-> ?]. rewrite cluster_zero.
  assert (s16 (first_data bits - 2 * sectors_per_cluster) = first_data bits - 2 * sectors_per_cluster) as -> by (unfold first_data in *; int_lia).
  by replace (u16 fat_sectors) with fat_sectors by int_lia.
Qed.

Lemma slice_take (l : list Z) n o k : 0 <= o → 0 <= k → o + k <= Z.of_nat n → (n <= length l)%nat →
  slice (take n l) o k = Some (take (Z.to_nat k) (drop (Z.to_nat o) l)).
Proof.
  intros. rewrite slice_Some by (rewrite ?length_take; lia). f_equal. rewrite skipn_firstn_comm, take_take. f_equal. lia.
Qed.

Lemma boot_sector_read bits : fat_kind bits → 1 <= N →
  ∃ volinfo, read_bootsectandvi g = Some (Some (take 64 (D 0), volinfo, bits)).
Proof using V.
  intros Hk HN. unfold read_bootsectandvi. destruct (vo_read g D N V 0 1) as (r & -> & Hr); [lia..|].
  destruct (Z.ltb_spec r 0); [lia|]. change (sectors D 0 (Z.to_nat 1)) with (D 0 ++ []). rewrite app_nil_r.
  pose proof (vo_size _ _ _ V 0) as L. assert (slice (D 0) 0 64 = Some (take 64 (D 0))) as -> by (by rewrite slice_Some by (rewrite ?L; lia)).
  cbn [mbind option_bind].
  rewrite (le_at_2 _ _ _ 22 (boot_holds 64 ltac:(lia))) by lia. cbn [mbind option_bind]. fold (boot_word 22).
  assert (slice (take 64 (D 0)) 36 27 = Some (take 27 (drop 36 (D 0)))) as E36 by (by rewrite slice_take by (rewrite ?L; lia)).
  assert (slice (D 0) 64 27 = Some (take 27 (drop 64 (D 0)))) as E64 by (by rewrite slice_Some by (rewrite ?L; lia)).
  assert (slice (take 27 (drop 36 (D 0))) 18 8 = Some (boot_text 54 8)) as S36.
  { rewrite slice_take by (rewrite ?length_drop, ?L; lia). by rewrite drop_drop. }
  assert (slice (take 27 (drop 64 (D 0))) 18 8 = Some (boot_text 82 8)) as S64.
  { rewrite slice_take by (rewrite ?length_drop, ?L; lia). by rewrite drop_drop. }
  destruct Hk as [H0 Ht|H0 Ht|H0 Ht]; destruct (Z.eqb_spec (boot_word 22) 0); try done;
    rewrite ?E36, ?E64; cbn [mbind option_bind]; rewrite ?S36, ?S64; cbn [mbind option_bind]; rewrite Ht; by eexists.
Qed.

(** ** Volumes that are not readable *)

(** Where the first cluster lies at sector 32768 or behind, its sector is
    kept with the top bit as a sign, and all clusters are looked for 65536
    sectors too low. *)
Lemma data_begin_wraps bits fatbuf0 : fat_kind bits → 0 < sectors_per_cluster <= 128 → 0 < fat_sectors < 65536 → behind_fats < 65536 →
  (bits ≠ 32 → root_entries mod 16 = 0) → 32768 <= first_data bits - 2 * sectors_per_cluster < 65536 →
  ∃ v, fs_params (take 64 (D 0)) fatbuf0 bits = Some v ∧ ∀ k, cluster_sect v k = cluster_start bits k - 65536.
Proof using V.
  intros Hk Hc Hf Hb He Hz. eexists. split; [by apply fs_params_value|]. intros k. unfold cluster_sect, cluster_start. cbn [data_begin clust_size].
  destruct (behind_fats_kept Hf Hb) as [-> ?]. destruct (root_sectors_kept bits He) as [-> ?]. rewrite cluster_zero.
  assert (s16 (first_data bits - 2 * sectors_per_cluster) = first_data bits - 2 * sectors_per_cluster - 65536) as -> by int_lia. lia.
Qed.

(** The root directory of a FAT32 volume is looked for in cluster 2. *)
Lemma root_cluster_ignored fatbuf0 v : fat_kind 32 → 0 < sectors_per_cluster → 0 < fat_sectors < 65536 → behind_fats < 65536 →
  fs_params (take 64 (D 0)) fatbuf0 32 = Some v → root_cluster ≠ 2 →
  rootdir_sect v = cluster_start 32 2 ∧ rootdir_sect v ≠ root_start 32.
Proof using V.
  intros Hk Hc Hf Hb Hp Hr. rewrite fs_params_value in Hp by done. injection Hp as <-. cbn [rootdir_sect].
  destruct (behind_fats_kept Hf Hb) as [-> ?].
  unfold root_start, cluster_start, first_data, root_sectors. cbn [Z.eqb Pos.eqb]. split; [lia|]. nia.
Qed.
End layout.
