(* ===== verification/FatPath.v ===== *)
(** [Fat]: reading a file by its path. *)
From stdpp Require Import base tactics option list strings.
From Stdlib Require Import ZArith Lia.
From S2P Require Import Prelude.
From S2P Require Import MmcDev.
From S2P Require Import Eff.
From S2P Require Import CBuf.
From S2P Require Import PartDos.
From S2P Require Import Fat.
From S2P Require Import FatName.
From S2P Require Import FatTable.
From S2P Require Import FatSpec.
From S2P Require Import FatDir.
From S2P Require Import FatRoot.
From S2P Require Import FatLayout.
Open Scope Z_scope.

(** ** The text of a path *)







(** ** Where a path leads *)

Section path.
Context (g : fat_dev) (D : disk) (N : Z) (V : volume g D N) (v : fsdata) (fuel : nat).




Context (s_name0 l_name0 : list Z) (Hs0 : length s_name0 = 14%nat) (Hl0 : length l_name0 = 256%nat) (Hcl : 0 < clust_size v <= 128).







(** ** [do_fat_read] *)








End path.







(** ** A file in a directory of the small volume *)












