(* ===== verification/FatCmd.v ===== *)
(** The FAT commands ([common/cmd_fat.c]): [fatload], [fatls] and [fatinfo].
    What they print is left out, apart from a listing. *)
From stdpp Require Import base tactics option list gmap strings.
From Stdlib Require Import ZArith Lia.
From S2P Require Import Prelude.
From S2P Require Import CMem.
From S2P Require Import Eff.
From S2P Require Import CBuf.
From S2P Require Import Vsprintf.
From S2P Require Import Env.
From S2P Require Import PartDos.
From S2P Require Import Fat.
Open Scope Z_scope.

(** The bytes from an address to the end of the object there. *)
Fixpoint object_loop (n : nat) (m : mem) (a : Z) : list Z :=
  match n with
  | O => []
  | S n' => match m !! a with Some c => c :: object_loop n' m (a + 1) | None => [] end
  end.
Definition object (m : mem) (a : Z) : list Z := object_loop (size m) m a.

(** The device of the file system, the memory, the environment, the three
    static blocks of [fs/fat/fat.c] and the lines listed. *)
Record cmd_state (C : Type) := mkCmd {
  gdev : fat_dev; memory : mem; genv : env_state C; blocks : list Z * list Z * list Z; listed : list ls_line }.
Arguments mkCmd {C}.
Arguments gdev {C}.
Arguments memory {C}.
Arguments genv {C}.
Arguments blocks {C}.
Arguments listed {C}.

(** The slots: only two are there. *)
Definition mmc_get_dev (dev : Z) : option Z := if (dev =? 0) || (dev =? 1) then Some dev else None.

Definition get_dev (ifname : list Z) (dev : Z) : option (option Z) :=
  r ← c_strncmp ifname (lit "mmc") 3;
  Some (if r =? 0 then mmc_get_dev dev else None).

Section cmd.
Context {C : Type} `{Console C}.
#[local] Abbreviation M := (ST (cmd_state C)).

(** [mmc_blk_dev]: the [block_read] of a slot, null until the slot is set up,
    and its kind of partition table.  The fuel of the partition tables, and
    that of the directories. *)
Context (mmc_blk_dev : Z → option blockdev * Z) (tables fuel : nat).
(** The arrays that are not initialised. *)
Context (fs0 : fsdata) (s_name0 l_name0 fnamecopy0 fatbuf0 buf0 : list Z).

Definition set_gdev (g : fat_dev) (s : cmd_state C) : cmd_state C := mkCmd g (memory s) (genv s) (blocks s) (listed s).
Definition set_genv (e : env_state C) (s : cmd_state C) : cmd_state C := mkCmd (gdev s) (memory s) e (blocks s) (listed s).

Definition on_genv {A} (m : ST (env_state C) A) : M A := λ s,
  match m (genv s) with Some (e, a) => Some (set_genv e s, a) | None => None end.

(** A call of the file system with a buffer. *)
Definition on_file {A} (buffer : option Z) (m : fat_dev → ST fat A) : M A := λ s,
  let '(rd, dent, vfat) := blocks s in
  match m (gdev s) (mkFat fs0 rd dent vfat (match buffer with Some a => object (memory s) a | None => [] end) (listed s)) with
  | Some (f, a) =>
      Some (mkCmd (gdev s) (match buffer with Some p => put (memory s) p (dest f) | None => memory s end) (genv s)
              (rd_block f, dent_block f, vfat_block f) (ls_out f), a)
  | None => None
  end.

(** [fat_register_device] of a slot. *)
Definition register_slot (slot part : Z) : M Z :=
  match mmc_blk_dev slot with
  | (None, _) => mret (-1)
  | (Some rd, part_type) =>
      s ← get;
      '(g, r) ← lift (fat_register_device tables rd part_type part (gdev s));
      _ ← modify (set_gdev g);
      mret r
  end.

(** What the three commands begin with: whether the volume can be used. *)
Definition use_volume (argv : list (option (list Z))) : M bool :=
  a2 ← lift (argv_at argv 2);
  '(v, ep) ← lift (simple_strtoul a2 16);
  a1 ← lift (argv_at argv 1);
  o ← lift (get_dev a1 (s32 v));
  match o with
  | None => mret false
  | Some slot =>
      c ← lift (head ep);
      part ← (if c =? 0 then mret (Some 1)
              else if negb (c =? 58) then mret None
              else '(p, _) ← lift (simple_strtoul (tail ep) 16); mret (Some (s32 p)));
      match part with
      | None => mret false
      | Some part => r ← register_slot slot part; mret (r =? 0)
      end
  end.

Definition do_fat_fsload (argc : Z) (argv : list (option (list Z))) : M Z :=
  if argc <? 5 then mret 1 else
  ok ← use_volume argv;
  if negb (ok : bool) then mret 1 else
  a3 ← lift (argv_at argv 3);
  '(offset, _) ← lift (simple_strtoul a3 16);
  count ← (if argc =? 6 then a5 ← lift (argv_at argv 5); '(c, _) ← lift (simple_strtoul a5 16); mret c else mret 0);
  a4 ← lift (argv_at argv 4);
  size ← on_file (Some offset) (λ g, file_fat_read g s_name0 l_name0 fuel fnamecopy0 fatbuf0 a4 count);
  if size =? -1 then mret 1 else
  '(buf, _) ← lift (sprintf buf0 (lit "%lX") [AInt size]);
  _ ← on_genv (setenv (Some (lit "filesize")) (Some buf));
  mret 0.

Definition do_fat_ls (argc : Z) (argv : list (option (list Z))) : M Z :=
  if argc <? 3 then mret 0 else
  ok ← use_volume argv;
  if negb (ok : bool) then mret 1 else
  dir ← (if argc =? 4 then lift (argv_at argv 3) else mret (lit "/"));
  on_file None (λ g, file_fat_ls g s_name0 l_name0 fuel fnamecopy0 fatbuf0 dir).

Definition do_fat_fsinfo (argc : Z) (argv : list (option (list Z))) : M Z :=
  if argc <? 2 then mret 0 else
  ok ← use_volume argv;
  if negb (ok : bool) then mret 1 else
  s ← get;
  lift (file_fat_detectfs (gdev s)).
End cmd.
