(* ===== verification/FatCmdSpec.v ===== *)
(** Loading a file with [fatload]: its bytes in memory, and its size in the
    environment. *)
From stdpp Require Import base tactics option list gmap strings.
From Stdlib Require Import ZArith Lia.
From S2P Require Import Prelude.
From S2P Require Import CMem.
From S2P Require Import MmcDev.
From S2P Require Import Eff.
From S2P Require Import CBuf.
From S2P Require Import Vsprintf.
From S2P Require Import Env.
From S2P Require Import EnvSpec.
From S2P Require Import PartDos.
From S2P Require Import Fat.
From S2P Require Import FatName.
From S2P Require Import FatTable.
From S2P Require Import FatSpec.
From S2P Require Import FatDir.
From S2P Require Import FatRoot.
From S2P Require Import FatLayout.
From S2P Require Import FatPath.
From S2P Require Import FatCmd.
Open Scope Z_scope.

(** ** The object at an address *)





(** ** The volume on a card *)










(** ** The beginning of a command *)

Section spec.
Context {C : Type} `{Console C}.
Context (mmc_blk_dev : Z → option blockdev * Z) (tables fuel : nat).
Context (fs0 : fsdata) (s_name0 l_name0 fnamecopy0 fatbuf0 buf0 : list Z).
Implicit Types (s : cmd_state C).





(** ** [fatload] *)









(** ** [fatinfo] *)

(** With an interface and no device the null pointer behind the last argument
    is read. *)
Lemma fatinfo_undefined cmd ifname s : do_fat_fsinfo mmc_blk_dev tables 2 [cmd; Some ifname; None] s = None.
Proof. done. Qed.
End spec.


(** ** A card with one partition, the small volume *)





