(* ===== verification/Lists.v ===== *)
(** Growing lists of items of one size ([common/lists.c], [include/lists.h]),
    with the functions of [CFG_ALL_LIST_FUNCTIONS]. *)
From stdpp Require Import base tactics option list.
From Stdlib Require Import ZArith Lia.
From S2P Require Import Prelude.
From S2P Require Import CBuf.
Open Scope Z_scope.

Definition LIST_START : Z := -1.
Definition LIST_END : Z := 0.
Definition LIST_SIGNATURE : Z := 0x4c495354.
Definition kDefaultAllocationPercentIncrease : Z := 10.
Definition kDefaultAllocationminNumItemsIncrease : Z := 4.

(** The structure behind a handle: its fields, the bytes from [itemList] to
    the end of the block, and the size the handle records. *)
Record ListStruct := mkList {
  signature : Z; percentIncrease : Z; minNumItemsIncrease : Z; listSize : Z; itemSize : Z; numItems : Z;
  itemList : list Z; handle_size : Z }.

(** [sizeof (ListStruct)], and the offset of [itemList]. *)
Definition sizeof_ListStruct : Z := 28.
Definition itemList_offset : Z := 24.

Definition set_items (d : list Z) (n : Z) (l : ListStruct) : ListStruct :=
  mkList (signature l) (percentIncrease l) (minNumItemsIncrease l) (listSize l) (itemSize l) n d (handle_size l).
Definition set_listSize (n : Z) (l : ListStruct) : ListStruct :=
  mkList (signature l) (percentIncrease l) (minNumItemsIncrease l) n (itemSize l) (numItems l) (itemList l) (handle_size l).

Definition NUMITEMSPERALLOC (l : ListStruct) : Z :=
  Z.max (Z.quot (s32 (listSize l * (percentIncrease l + 100))) 100) (minNumItemsIncrease l).
Definition ITEMPTR (l : ListStruct) (item : Z) : Z := itemSize l * item.

(** ** Memory *)

Section alloc.
(** Whether the heap has a block of a size (the heap is vendored). *)
Context (granted : Z → bool).

(** [realloc] keeps the bytes, the new ones are cleared. *)
Definition SetHandleSize (l : ListStruct) (newSize : Z) : ListStruct * Z :=
  if handle_size l =? newSize then (l, 1) else
  if granted newSize || (newSize =? 0) then
    let n := Z.to_nat (newSize - itemList_offset) in
    (mkList (signature l) (percentIncrease l) (minNumItemsIncrease l) (listSize l) (itemSize l) (numItems l)
       (take n (itemList l) ++ replicate (n - length (itemList l)) 0) newSize, 1)
  else (l, 0).

Definition ExpandListSpace (l : ListStruct) (numNewItems : Z) : ListStruct * Z :=
  let numNewItems :=
    if numNewItems =? 0 then NUMITEMSPERALLOC l
    else if numNewItems <? 0 then s32 (- numNewItems + NUMITEMSPERALLOC l) else numNewItems in
  let '(l, ok) := SetHandleSize l (u32 (sizeof_ListStruct + (listSize l + numNewItems) * itemSize l)) in
  if negb (ok =? 0) then (set_listSize (s32 (listSize l + numNewItems)) l, 1) else (l, 0).

Definition ListCompact (l : ListStruct) : ListStruct :=
  let '(l, ok) := SetHandleSize l (u32 (sizeof_ListStruct + numItems l * itemSize l)) in
  if ok =? 0 then l else set_listSize (numItems l) l.

(** The two blocks of a handle.  The bytes of a fresh one are [fresh]:
    [calloc] is [malloc] here. *)
Definition sizeof_HandleRecord : Z := 8.
Definition NewHandle (numBytes : Z) : bool := granted sizeof_HandleRecord && (granted numBytes || (numBytes =? 0)).
Definition ListCreate (fresh : list Z) (elementSize : Z) : option ListStruct :=
  if NewHandle sizeof_ListStruct then
    Some (mkList LIST_SIGNATURE kDefaultAllocationPercentIncrease kDefaultAllocationminNumItemsIncrease 0 elementSize 0
            (take (Z.to_nat (sizeof_ListStruct - itemList_offset)) fresh) sizeof_ListStruct)
  else None.

Definition ListSetAllocationPolicy (l : ListStruct) (minItemsPerAlloc percentIncreasePerAlloc : Z) : ListStruct :=
  mkList (signature l) percentIncreasePerAlloc minItemsPerAlloc (listSize l) (itemSize l) (numItems l) (itemList l) (handle_size l).

(** ** Items *)

(** The items to store: zeros for the null pointer. *)
Definition items_from (p : option (list Z)) (n : Z) : option (list Z) :=
  match p with Some src => slice src 0 n | None => if n <? 0 then None else Some (replicate (Z.to_nat n) 0) end.

Definition ListInsertItems (l : ListStruct) (ptrToItems : option (list Z)) (firstItemPosition numItemsToInsert : Z) : option (ListStruct * Z) :=
  let num := numItems l in
  if negb (firstItemPosition =? num + 1) && (num <? firstItemPosition) then Some (l, 0) else
  let first := if firstItemPosition =? num + 1 then LIST_END else firstItemPosition in
  let '(l, ok) := if listSize l <=? numItems l then ExpandListSpace l (- numItemsToInsert) else (l, 1) in
  if ok =? 0 then Some (l, 0) else
  let first := if first =? LIST_START then if num =? 0 then LIST_END else 1 else first in
  src ← items_from ptrToItems (itemSize l * numItemsToInsert);
  if first =? LIST_END then
    d ← blit (itemList l) (ITEMPTR l num) src;
    Some (set_items d (numItems l + numItemsToInsert) l, 1)
  else
    part ← slice (itemList l) (ITEMPTR l (first - 1)) ((num + 1 - first) * itemSize l);
    d ← blit (itemList l) (ITEMPTR l (first - 1 + numItemsToInsert)) part;
    d ← blit d (ITEMPTR l (first - 1)) src;
    Some (set_items d (numItems l + numItemsToInsert) l, 1).

Definition ListInsertItem (l : ListStruct) (ptrToItem : option (list Z)) (itemPosition : Z) : option (ListStruct * Z) :=
  ListInsertItems l ptrToItem itemPosition 1.

(** The position meant by one of the two constants. *)
Definition position (l : ListStruct) (p : Z) : Z := if p =? LIST_START then 1 else if p =? LIST_END then numItems l else p.

Definition ListReplaceItems (l : ListStruct) (ptrToItems : list Z) (firstItemPosition numItemsToReplace : Z) : option ListStruct :=
  src ← slice ptrToItems 0 (itemSize l * numItemsToReplace);
  d ← blit (itemList l) (ITEMPTR l (position l firstItemPosition - 1)) src;
  Some (set_items d (numItems l) l).

Definition ListReplaceItem (l : ListStruct) (ptrToItem : list Z) (itemPosition : Z) : option ListStruct :=
  ListReplaceItems l ptrToItem itemPosition 1.

(** The bytes that go to the destination. *)
Definition ListGetItems (l : ListStruct) (firstItemPosition numItemsToGet : Z) : option (list Z) :=
  slice (itemList l) (ITEMPTR l (position l firstItemPosition - 1)) (itemSize l * numItemsToGet).
Definition ListGetItem (l : ListStruct) (itemPosition : Z) : option (list Z) := ListGetItems l itemPosition 1.

(** Of a pointer: the item it points to. *)
Definition ListGetPtrToItem (l : ListStruct) (itemPosition : Z) : option (list Z) :=
  slice (itemList l) (ITEMPTR l (position l itemPosition - 1)) (itemSize l).

(** With [get], the bytes removed go to a destination. *)
Definition ListRemoveItems (l : ListStruct) (get : bool) (firstItemPosition numItemsToRemove : Z) : option (ListStruct * list Z) :=
  let first := position l firstItemPosition in
  out ← (if get then slice (itemList l) (ITEMPTR l (first - 1)) (itemSize l * numItemsToRemove) else Some []);
  let firstItemAfterChunk := first + numItemsToRemove in
  let numToMove := numItems l - (firstItemAfterChunk - 1) in
  d ← (if 0 <? numToMove then
         part ← slice (itemList l) (ITEMPTR l (firstItemAfterChunk - 1)) (itemSize l * numToMove);
         blit (itemList l) (ITEMPTR l (first - 1)) part
       else Some (itemList l));
  Some (set_items d (numItems l - numItemsToRemove) l, out).
Definition ListRemoveItem (l : ListStruct) (get : bool) (itemPosition : Z) : option (ListStruct * list Z) :=
  ListRemoveItems l get itemPosition 1.

Definition ListClear (l : ListStruct) : ListStruct := set_items (itemList l) 0 l.

(** ** Two lists *)

Definition ListCopy (fresh : list Z) (o : ListStruct) : option (option ListStruct) :=
  match ListCreate fresh (itemSize o) with
  | None => Some None
  | Some t =>
      let num := numItems o in
      let '(t, ok) := SetHandleSize t (u32 (sizeof_ListStruct + num * itemSize t)) in
      if ok =? 0 then Some None else
      src ← slice (itemList o) (ITEMPTR o 0) (num * itemSize o);
      d ← blit (itemList t) 0 src;
      Some (Some (mkList (signature t) (percentIncrease o) (minNumItemsIncrease o) num (itemSize o) num d (handle_size t)))
  end.

Definition ListAppend (l1 l2 : ListStruct) : option (ListStruct * Z) :=
  if negb (itemSize l1 =? itemSize l2) then Some (l1, 0) else
  let n1 := numItems l1 in let n2 := numItems l2 in
  if n2 =? 0 then Some (l1, 1) else
  let '(l1, ok) := SetHandleSize l1 (u32 (sizeof_ListStruct + (n1 + n2) * itemSize l1)) in
  if ok =? 0 then Some (l1, 0) else
  src ← slice (itemList l2) 0 (n2 * itemSize l2);
  d ← blit (itemList l1) (ITEMPTR l1 n1) src;
  Some (set_listSize (n1 + n2) (set_items d (n1 + n2) l1), 1).

(** Two different lists; the item sizes compared are those of the first. *)
Definition ListEqual (l1 l2 : ListStruct) : option Z :=
  if numItems l1 =? numItems l2 then
    a ← slice (itemList l1) 0 (itemSize l1 * numItems l1);
    b ← slice (itemList l2) 0 (itemSize l1 * numItems l1);
    Some (if c_memcmp a b =? 0 then 1 else 0)
  else Some 0.

(** The function gets the index, the item, and its own data, and may change
    the item; the result is that of the last call. *)
Definition apply_step {S} (f : Z → list Z → S → S * list Z * Z) (ascending : bool) (x : ListStruct * S * Z * Z) :
    option ((ListStruct * S * Z * Z) + (ListStruct * S * Z)) :=
  let '(l, data, result, index) := x in
  if (0 <? index) && (index <=? numItems l) then
    e ← ListGetPtrToItem l index;
    let '(data, e', result) := f index e data in
    d ← blit (itemList l) (ITEMPTR l (index - 1)) e';
    let l := set_items d (numItems l) l in
    Some (if result <? 0 then inr (l, data, result) else inl (l, data, result, if ascending then index + 1 else index - 1))
  else Some (inr (l, data, result)).
Definition ListApplyToEach {S} (l : ListStruct) (ascending : bool) (f : Z → list Z → S → S * list Z * Z) (data : S) : option (ListStruct * S * Z) :=
  loop (Datatypes.S (Z.to_nat (numItems l))) (apply_step f ascending) (l, data, 0, if ascending then 1 else numItems l).

(** ** Searching *)

(** The comparison: [memcmp] for the null pointer. *)
Definition ListMemBlockCmp (a b : list Z) : Z := c_memcmp a b.

Section cmp.
Context (compare : list Z → list Z → Z).

(** The locals of [BinSearch]. *)
Record bin := mkBin { low : Z; high : Z; mid : Z; bcmp : Z }.
Definition bin_step (array : list Z) (elementSize : Z) (item : list Z) (s : bin) : option (bin + Z) :=
  if low s <=? high s then
    let m := Z.shiftr (low s + high s) 1 in
    e ← slice array (m * elementSize) elementSize;
    let c := compare item e in
    if c =? 0 then Some (inr m)
    else if c <? 0 then Some (inl (mkBin (low s) (m - 1) m c))
    else Some (inl (mkBin (m + 1) (high s) m c))
  else Some (inr (- (if 0 <? bcmp s then mid s + 1 else mid s) - 1)).
Definition BinSearch (array : list Z) (numElements elementSize : Z) (item : list Z) : option Z :=
  loop (S (Z.to_nat numElements)) (bin_step array elementSize item) (mkBin 0 (numElements - 1) 0 (-1)).

Definition ListBinSearch (l : ListStruct) (item : list Z) : option Z :=
  i ← BinSearch (itemList l) (numItems l) (itemSize l) item;
  Some (if 0 <=? i then i + 1 else 0).

Definition find_step (l : ListStruct) (item : list Z) (index : Z) : option (Z + Z) :=
  if index <=? numItems l then
    e ← slice (itemList l) (ITEMPTR l (index - 1)) (itemSize l);
    Some (if compare item e =? 0 then inr index else inl (index + 1))
  else Some (inr 0).
Definition ListFindItem (l : ListStruct) (item : list Z) (startingPosition : Z) : option Z :=
  if numItems l =? 0 then Some 0 else
  loop (S (Z.to_nat (numItems l))) (find_step l item) (position l startingPosition).

(** The [while] of [ListRemoveDuplicates]: the list and [numItems]. *)
Definition dup_step (index : Z) (x : ListStruct * Z * Z) : option ((ListStruct * Z * Z) + (ListStruct * Z)) :=
  let '(l, num, start) := x in
  if start <=? num then
    e ← ListGetPtrToItem l index;
    d ← ListFindItem l e start;
    if 0 <? d then '(l, _) ← ListRemoveItem l false d; Some (inl (l, num - 1, d)) else Some (inr (l, num))
  else Some (inr (l, num)).
Definition dups_step (x : ListStruct * Z * Z) : option ((ListStruct * Z * Z) + ListStruct) :=
  let '(l, num, index) := x in
  if index <? num then
    '(l, num) ← loop (S (Z.to_nat num)) (dup_step index) (l, num, index + 1);
    Some (inl (l, num, index + 1))
  else Some (inr l).
Definition ListRemoveDuplicates (l : ListStruct) : option ListStruct :=
  loop (S (Z.to_nat (numItems l))) dups_step (l, numItems l, 1).
End cmp.

Definition ListPreAllocate (l : ListStruct) (num : Z) : ListStruct * Z :=
  if listSize l - numItems l <? num then ExpandListSpace l (num - (listSize l - numItems l)) else (l, 1).
End alloc.
