(* ===== verification/ListsSpec.v ===== *)
(** [Lists] implements lists: each operation is the one on the list of the
    items, whatever the blocks behind it. *)
From stdpp Require Import base tactics option list.
From Stdlib Require Import ZArith Lia.
From S2P Require Import Prelude.
From S2P Require Import CBuf.
From S2P Require Import CString.
From S2P Require Import Lists.
Open Scope Z_scope.

(** ** What a list holds *)

(** The structure holds the items [xs]; the block has room for [listSize] of
    them, and its size is a positive [int]. *)
Record holds_items (l : ListStruct) (xs : list (list Z)) : Prop := mkHolds {
  hi_size : 0 < itemSize l;
  hi_items : Forall (λ x, Z.of_nat (length x) = itemSize l) xs;
  hi_num : numItems l = Z.of_nat (length xs);
  hi_room : numItems l <= listSize l;
  hi_handle : handle_size l = sizeof_ListStruct + listSize l * itemSize l ∧ handle_size l < 2 ^ 31;
  hi_block : Z.of_nat (length (itemList l)) = handle_size l - itemList_offset;
  hi_bytes : ∃ rest, itemList l = concat xs ++ rest;
}.

(** The policy gives a positive number of items. *)
Definition policy_ok (l : ListStruct) : Prop :=
  0 <= percentIncrease l ∧ 0 < minNumItemsIncrease l ∧ listSize l * (percentIncrease l + 100) < 2 ^ 31.

Lemma concat_length_items sz (xs : list (list Z)) : Forall (λ x, Z.of_nat (length x) = sz) xs →
  Z.of_nat (length (concat xs)) = sz * Z.of_nat (length xs).
Proof. induction 1 as [|x xs Hx _ IH]; cbn [concat length]; [lia|]. rewrite length_app. lia. Qed.

Lemma items_length_at l xs i : holds_items l xs → (i <= length xs)%nat → Z.of_nat (length (concat (take i xs))) = itemSize l * Z.of_nat i.
Proof.
  intros H Hi. rewrite (concat_length_items (itemSize l)) by (apply Forall_take, H). rewrite length_take. f_equal. lia.
Qed.

(** The bytes around a row of items. *)
Lemma split_items l xs i : holds_items l xs → ∃ rest, itemList l = concat (take i xs) ++ concat (drop i xs) ++ rest ∧
  Z.of_nat (length rest) = 4 + (listSize l - numItems l) * itemSize l.
Proof.
  intros H. destruct (hi_bytes _ _ H) as [rest Hr]. exists rest.
  assert (itemList l = concat (take i xs) ++ concat (drop i xs) ++ rest) as E by (by rewrite app_assoc, <-concat_app, take_drop).
  split; [done|]. pose proof (hi_block _ _ H) as Hb. rewrite Hr, length_app, (Nat2Z.inj_add), (concat_length_items (itemSize l)) in Hb by apply H.
  pose proof (hi_handle _ _ H). pose proof (hi_num _ _ H). unfold sizeof_ListStruct, itemList_offset in *. lia.
Qed.

(** ** Memory *)

Section granted.
Context (granted : Z → bool).

(** A block of another size, if the heap has one. *)
Lemma set_handle_holds l xs n : holds_items l xs → numItems l <= n → sizeof_ListStruct + n * itemSize l < 2 ^ 31 →
  let size := sizeof_ListStruct + n * itemSize l in
  ∃ l', SetHandleSize granted l size = (if (handle_size l =? size) || granted size then (l', 1) else (l, 0)) ∧
    holds_items (set_listSize n l') xs ∧ numItems l' = numItems l ∧ itemSize l' = itemSize l ∧ listSize l' = listSize l ∧
    percentIncrease l' = percentIncrease l ∧ minNumItemsIncrease l' = minNumItemsIncrease l.
Proof.
  intros H Hn Hmax size. destruct (hi_bytes _ _ H) as [rest Hr]. pose proof (hi_size _ _ H) as Hs. pose proof (hi_num _ _ H) as Hnum.
  pose proof (concat_length_items _ _ (hi_items _ _ H)) as Lc. unfold sizeof_ListStruct, itemList_offset in *.
  assert (0 <= numItems l * itemSize l <= n * itemSize l) as Hn0 by nia.
  unfold SetHandleSize, itemList_offset. destruct (Z.eqb_spec (handle_size l) size) as [E|E]; cbn [orb].
  - exists l. split; [done|]. split; [|done]. pose proof (hi_handle _ _ H) as Hh. unfold sizeof_ListStruct in Hh.
    split; cbn [set_listSize itemSize numItems listSize handle_size itemList]; try apply H; [lia|unfold sizeof_ListStruct, size in *; lia].
  - rewrite (proj2 (Z.eqb_neq size 0)) by (unfold size; lia). rewrite orb_false_r. eexists. split; [done|]. split; [|done].
    split; cbn [set_listSize itemSize numItems listSize handle_size itemList]; try apply H; [lia|unfold sizeof_ListStruct, size in *; lia| |].
    + unfold itemList_offset. rewrite length_app, length_take, length_replicate. lia.
    + rewrite Hr, take_app_ge by (unfold size; lia). rewrite <-app_assoc. by eexists.
Qed.

Lemma expand_holds l xs n : holds_items l xs → policy_ok l →
  let m := if n =? 0 then NUMITEMSPERALLOC l else if n <? 0 then - n + NUMITEMSPERALLOC l else n in
  sizeof_ListStruct + (listSize l + m) * itemSize l < 2 ^ 31 →
  0 < m ∧ ∃ l', ExpandListSpace granted l n = (if granted (sizeof_ListStruct + (listSize l + m) * itemSize l) then (l', 1) else (l, 0)) ∧
    holds_items l' xs ∧ numItems l' = numItems l ∧ itemSize l' = itemSize l ∧ listSize l' = listSize l + m.
Proof.
  intros H (Hp & Hm & Hov) m Hmax. pose proof (hi_size _ _ H). pose proof (hi_room _ _ H). pose proof (hi_num _ _ H).
  pose proof (hi_handle _ _ H). unfold sizeof_ListStruct in *.
  assert (0 < NUMITEMSPERALLOC l) as Ha by (unfold NUMITEMSPERALLOC; lia).
  assert (0 < m) as Hm0 by (unfold m; to_prop; lia). split; [done|].
  assert (listSize l + m < 2 ^ 31) as Hb by nia.
  assert ((if n =? 0 then NUMITEMSPERALLOC l else if n <? 0 then s32 (- n + NUMITEMSPERALLOC l) else n) = m) as Em.
  { unfold m in *. destruct (n =? 0); [done|]. destruct (n <? 0) eqn:E; [|done]. apply s32_id. lia. }
  unfold ExpandListSpace. rewrite Em.
  destruct (set_handle_holds l xs (listSize l + m) H) as (l' & E & H' & E1 & E2 & E3 & _); [lia|unfold sizeof_ListStruct; lia|].
  unfold sizeof_ListStruct in *. rewrite u32_id by (unfold is_u32; nia). rewrite E.
  rewrite (proj2 (Z.eqb_neq _ _)) by nia. cbn [orb].
  exists (set_listSize (listSize l + m) l'). destruct (granted _); cbn [negb Z.eqb]; [|done].
  rewrite E3, s32_id by lia. done.
Qed.

(** ** Inserting *)

(** The index a position up to the end means; [None] in front of the first. *)
Definition insert_index (num p : Z) : option nat :=
  if (p =? num + 1) || (p =? LIST_END) then Some (Z.to_nat num)
  else if p =? LIST_START then Some 0%nat
  else if (1 <=? p) && (p <=? num) then Some (Z.to_nat (p - 1)) else None.

(** What is stored: the items at the pointer, or items of zeros. *)
Definition gives (ptr : option (list Z)) (sz : Z) (ys : list (list Z)) : Prop :=
  Forall (λ y, Z.of_nat (length y) = sz) ys ∧
  match ptr with Some src => ∃ rest, src = concat ys ++ rest | None => concat ys = replicate (length (concat ys)) 0 end.

Lemma gives_from ptr sz ys : gives ptr sz ys → items_from ptr (sz * Z.of_nat (length ys)) = Some (concat ys).
Proof.
  intros (Hy & Hp). pose proof (concat_length_items _ _ Hy) as Lc. unfold items_from. destruct ptr as [src|].
  - destruct Hp as [rest ->]. apply (slice_behind [] (concat ys) rest); [done|lia].
  - destruct (Z.ltb_spec (sz * Z.of_nat (length ys)) 0); [lia|]. rewrite <-Lc, Nat2Z.id. by rewrite <-Hp.
Qed.

(** Making room in a block, and filling it. *)
Lemma blit_insert (a b r y : list Z) i j : (length y <= length r)%nat → i = Z.of_nat (length a) → j = Z.of_nat (length a + length y) →
  (d ← blit (a ++ b ++ r) j b; blit d i y) = Some (a ++ y ++ b ++ drop (length y) r).
Proof.
  intros Hy -> ->. set (x := take (length y) (b ++ r)). set (old := take (length b) (drop (length y) (b ++ r))).
  assert (a ++ b ++ r = (a ++ x) ++ old ++ drop (length y) r) as ->.
  { rewrite <-app_assoc. f_equal. rewrite <-(take_drop (length y) (b ++ r)) at 1. fold x. f_equal.
    rewrite <-(take_drop (length b) (drop (length y) (b ++ r))) at 1. fold old. f_equal.
    rewrite drop_drop, drop_app_ge by lia. f_equal. lia. }
  rewrite blit_behind; [|unfold x; rewrite length_app, length_take, length_app; lia|unfold old; rewrite length_take, length_drop, length_app; lia].
  cbn [mbind option_bind]. rewrite <-app_assoc. apply blit_behind; [done|]. unfold x. rewrite length_take, length_app. lia.
Qed.

(** The items [zs], at the front of what may be more or less than the room
    the structure counts. *)
Definition contains (l : ListStruct) (zs : list (list Z)) : Prop :=
  numItems l = Z.of_nat (length zs) ∧ ∃ rest, itemList l = concat zs ++ rest.

(** What is left of [ListInsertItems] when there is a block to write to. *)
Definition store_items (l : ListStruct) (ptr : option (list Z)) (first k : Z) : option (ListStruct * Z) :=
  src ← items_from ptr (itemSize l * k);
  if first =? LIST_END then
    d ← blit (itemList l) (ITEMPTR l (numItems l)) src;
    Some (set_items d (numItems l + k) l, 1)
  else
    part ← slice (itemList l) (ITEMPTR l (first - 1)) ((numItems l + 1 - first) * itemSize l);
    d ← blit (itemList l) (ITEMPTR l (first - 1 + k)) part;
    d ← blit d (ITEMPTR l (first - 1)) src;
    Some (set_items d (numItems l + k) l, 1).

(** The position [first] is the index [i]. *)
Definition first_at (l : ListStruct) (xs : list (list Z)) (i : nat) (first : Z) : Prop :=
  (i <= length xs)%nat ∧ (i = length xs ∧ first = LIST_END ∨ first = Z.of_nat i + 1).

(** The bytes of [k] more items are bytes of the block: behind the room for
    [listSize] items there are four more. *)
Definition fits (l : ListStruct) (k : nat) : Prop := itemSize l * (numItems l + Z.of_nat k - listSize l) <= 4.

Section store.
Context (l : ListStruct) (xs ys : list (list Z)) (ptr : option (list Z)).
Context (H : holds_items l xs) (Hg : gives ptr (itemSize l) ys).

Lemma length_after i : (i <= length xs)%nat →
  Z.of_nat (length (concat (drop i xs))) = itemSize l * (numItems l - Z.of_nat i).
Proof using H.
  intros Hi. rewrite (concat_length_items (itemSize l)) by (apply Forall_drop, H). rewrite length_drop.
  pose proof (hi_num _ _ H). f_equal. lia.
Qed.

Lemma store_fits i first : first_at l xs i first → fits l (length ys) →
  ∃ d, store_items l ptr first (Z.of_nat (length ys)) = Some (set_items d (numItems l + Z.of_nat (length ys)) l, 1) ∧
    length d = length (itemList l) ∧ ∃ rest, d = concat (take i xs ++ ys ++ drop i xs) ++ rest.
Proof using H Hg.
  intros [Hi Hf] Hfits. unfold fits, store_items in *. rewrite (gives_from _ _ _ Hg). cbn [mbind option_bind]. pose proof Hg as [Hy _].
  destruct (split_items l xs i H) as (rest & Er & Lr). pose proof (hi_num _ _ H) as Hn.
  pose proof (items_length_at l xs i H Hi) as Lt. pose proof (concat_length_items _ _ Hy) as Ly. pose proof (length_after i Hi) as Ld.
  assert (length (concat ys) <= length rest)%nat as Hfit by nia.
  exists (concat (take i xs) ++ concat ys ++ concat (drop i xs) ++ drop (length (concat ys)) rest).
  split; [|split; [rewrite Er, !length_app, length_drop; lia|exists (drop (length (concat ys)) rest); by rewrite !concat_app, <-!app_assoc]].
  rewrite Er. unfold ITEMPTR. destruct Hf as [[-> ->]| ->].
  - cbn [Z.eqb LIST_END]. rewrite drop_all in *. cbn [concat app length] in *.
    rewrite <-(take_drop (length (concat ys)) rest) at 1. rewrite blit_behind; [done|lia|rewrite length_take; lia].
  - destruct (Z.eqb_spec (Z.of_nat i + 1) LIST_END); [unfold LIST_END in *; lia|].
    rewrite (slice_behind _ (concat (drop i xs)) rest) by (rewrite ?Lt, ?Ld; lia). cbn [mbind option_bind].
    pose proof (blit_insert (concat (take i xs)) (concat (drop i xs)) rest (concat ys) (itemSize l * (Z.of_nat i + 1 - 1))
      (itemSize l * (Z.of_nat i + 1 - 1 + Z.of_nat (length ys))) Hfit ltac:(lia) ltac:(lia)) as E.
    destruct (blit _ _ (concat (drop i xs))) as [d1|]; [|done]. cbn [mbind option_bind] in E |- *. by rewrite E.
Qed.

Lemma store_room i first : first_at l xs i first → numItems l + Z.of_nat (length ys) <= listSize l →
  ∃ l', store_items l ptr first (Z.of_nat (length ys)) = Some (l', 1) ∧ holds_items l' (take i xs ++ ys ++ drop i xs).
Proof using H Hg.
  intros Hf Hroom. pose proof (hi_size _ _ H). destruct (store_fits i first Hf) as (d & E & Hd & rest & ->); [unfold fits; nia|].
  eexists. split; [exact E|]. pose proof Hg as [Hy _]. pose proof (hi_num _ _ H) as Hn. destruct Hf as [Hi _].
  split; cbn [set_items itemSize numItems listSize handle_size itemList]; try apply H; [| |lia| |].
  - apply Forall_app; split; [apply Forall_take, H|]. apply Forall_app; split; [done|apply Forall_drop, H].
  - rewrite !length_app, length_take, length_drop. lia.
  - rewrite Hd. apply H.
  - by exists rest.
Qed.

(** Bytes behind the block. *)
Lemma blit_beyond (d src : list Z) o : Z.of_nat (length d) < o + Z.of_nat (length src) → blit d o src = None.
Proof. intros Hd. unfold blit. case_match; [|done]. to_prop; lia. Qed.

Lemma store_behind i first : first_at l xs i first → ¬ fits l (length ys) → store_items l ptr first (Z.of_nat (length ys)) = None.
Proof using H Hg.
  intros [Hi Hf] Hfits. unfold fits, store_items in *. rewrite (gives_from _ _ _ Hg). cbn [mbind option_bind]. pose proof Hg as [Hy _].
  pose proof (concat_length_items _ _ Hy) as Ly. pose proof (hi_num _ _ H) as Hn. pose proof (length_after i Hi) as Ld.
  assert (Z.of_nat (length (itemList l)) = 4 + listSize l * itemSize l) as Lb.
  { pose proof (hi_block _ _ H). pose proof (hi_handle _ _ H). unfold sizeof_ListStruct, itemList_offset in *. lia. }
  unfold ITEMPTR. destruct Hf as [[-> ->]| ->].
  - cbn [Z.eqb LIST_END]. by rewrite blit_beyond by nia.
  - destruct (Z.eqb_spec (Z.of_nat i + 1) LIST_END); [unfold LIST_END in *; lia|].
    destruct (split_items l xs i H) as (rest & Er & Lr). pose proof (items_length_at l xs i H Hi) as Lt.
    rewrite Er at 1. rewrite (slice_behind _ (concat (drop i xs)) rest) by (rewrite ?Lt, ?Ld; lia). cbn [mbind option_bind].
    rewrite blit_beyond; [done|]. nia.
Qed.

(** A position in front of the first. *)
Lemma store_before first : first < LIST_START → store_items l ptr first (Z.of_nat (length ys)) = None.
Proof using H Hg.
  intros Hf. unfold store_items, LIST_START, LIST_END in *. rewrite (gives_from _ _ _ Hg). cbn [mbind option_bind].
  rewrite (proj2 (Z.eqb_neq first 0)) by lia. unfold slice, ITEMPTR. pose proof (hi_size _ _ H).
  rewrite (proj2 (Z.leb_gt 0 _)) by nia. done.
Qed.
End store.

Lemma insert_first l xs p i : holds_items l xs → insert_index (numItems l) p = Some i →
  let first := if p =? numItems l + 1 then LIST_END else p in
  first_at l xs i (if first =? LIST_START then if numItems l =? 0 then LIST_END else 1 else first).
Proof.
  intros H Hp. pose proof (hi_num _ _ H) as Hn. unfold first_at, insert_index, LIST_END, LIST_START in *.
  destruct (Z.eqb_spec p (numItems l + 1)); [injection Hp as <-; cbn [Z.eqb]; lia|].
  destruct (Z.eqb_spec p 0); [injection Hp as <-; subst p; cbn [Z.eqb]; lia|].
  destruct (Z.eqb_spec p (-1)); [injection Hp as <-; destruct (Z.eqb_spec (numItems l) 0); lia|].
  cbn [orb] in Hp. destruct (Z.leb_spec 1 p), (Z.leb_spec p (numItems l)); try done. injection Hp as <-. lia.
Qed.

(** The size of the block a full list asks for. *)
Definition enlarged (l : ListStruct) (k : nat) : Z :=
  sizeof_ListStruct + (listSize l + (Z.of_nat k + NUMITEMSPERALLOC l)) * itemSize l.

(** A full list gets the room for the items, and more, or nothing. *)
Lemma expand_full l xs k : holds_items l xs → policy_ok l → enlarged l k < 2 ^ 31 →
  ∃ l', ExpandListSpace granted l (- Z.of_nat k) = (if granted (enlarged l k) then (l', 1) else (l, 0)) ∧
    holds_items l' xs ∧ numItems l' = numItems l ∧ itemSize l' = itemSize l ∧ listSize l + Z.of_nat k <= listSize l'.
Proof.
  intros H Hpol Hmax. pose proof Hpol as (_ & Hmin & _). assert (0 < NUMITEMSPERALLOC l) as Ha by (unfold NUMITEMSPERALLOC; lia).
  set (m := if - Z.of_nat k =? 0 then NUMITEMSPERALLOC l else if - Z.of_nat k <? 0 then - - Z.of_nat k + NUMITEMSPERALLOC l else - Z.of_nat k).
  assert (m = Z.of_nat k + NUMITEMSPERALLOC l) as Em by (unfold m; to_prop; lia).
  destruct (expand_holds l xs (- Z.of_nat k) H Hpol) as (_ & l' & E & H' & E1 & E2 & E3); fold m; [by rewrite Em|].
  fold m in E, E3. rewrite Em in E, E3. exists l'. split; [exact E|]. split_and!; [done|done|done|lia].
Qed.

Lemma insert_cases l xs ys ptr p : holds_items l xs → gives ptr (itemSize l) ys →
  (listSize l <= numItems l → policy_ok l ∧ enlarged l (length ys) < 2 ^ 31) →
  let full := listSize l <=? numItems l in
  let run := ListInsertItems granted l ptr p (Z.of_nat (length ys)) in
  if (numItems l + 1 <? p) || (full && negb (granted (enlarged l (length ys)))) then run = Some (l, 0)
  else match insert_index (numItems l) p with
  | None => run = None
  | Some i =>
      if full || (numItems l + Z.of_nat (length ys) <=? listSize l)
      then ∃ l', run = Some (l', 1) ∧ holds_items l' (take i xs ++ ys ++ drop i xs)
      else if itemSize l * (numItems l + Z.of_nat (length ys) - listSize l) <=? 4
      then ∃ l', run = Some (l', 1) ∧ contains l' (take i xs ++ ys ++ drop i xs)
      else run = None
  end.
Proof.
  intros H Hg Hmax full run. unfold run, ListInsertItems, full. clear run full.
  pose proof (hi_num _ _ H) as Hn. destruct (Z.ltb_spec (numItems l + 1) p) as [Hp|Hp]; cbn [orb].
  { rewrite (proj2 (Z.eqb_neq _ _)), (proj2 (Z.ltb_lt _ _)) by lia. done. }
  replace (negb (p =? numItems l + 1) && (numItems l <? p)) with false by (symmetry; to_prop; done || lia). cbv zeta.
  set (first := if (if p =? numItems l + 1 then LIST_END else p) =? LIST_START then if numItems l =? 0 then LIST_END else 1
    else if p =? numItems l + 1 then LIST_END else p).
  assert (insert_index (numItems l) p = None → first < LIST_START) as Hbefore.
  { unfold first, insert_index, LIST_END, LIST_START. to_prop; cbn; intros; simplify_eq; try lia. }
  destruct (Z.leb_spec (listSize l) (numItems l)) as [Hfull|Hfree]; cbn [andb orb].
  - destruct (Hmax Hfull) as [Hpol Hsz]. destruct (expand_full l xs (length ys) H Hpol Hsz) as (l' & -> & H' & E1 & E2 & E3).
    destruct (granted _); cbn [negb]; [|done]. cbn [Z.eqb]. rewrite <-E1. fold (store_items l' ptr first (Z.of_nat (length ys))).
    rewrite <-E2 in Hg. pose proof (hi_room _ _ H). destruct (insert_index (numItems l') p) as [i|] eqn:Ei; rewrite E1 in Ei.
    + apply (store_room l' xs ys ptr H' Hg i); [|lia]. unfold first_at. by apply (insert_first l xs p i H).
    + apply (store_before l' xs ys ptr H' Hg). by apply Hbefore.
  - cbn [Z.eqb]. fold (store_items l ptr first (Z.of_nat (length ys))). destruct (insert_index (numItems l) p) as [i|] eqn:Ei.
    + pose proof (insert_first l xs p i H Ei) as Hf. cbv zeta in Hf. fold first in Hf.
      destruct (Z.leb_spec (numItems l + Z.of_nat (length ys)) (listSize l)); [by apply (store_room l xs ys ptr H Hg i)|].
      destruct (Z.leb_spec (itemSize l * (numItems l + Z.of_nat (length ys) - listSize l)) 4).
      * destruct (store_fits l xs ys ptr H Hg i first Hf) as (d & -> & _ & Hd); [done|]. eexists. split; [done|]. split; [|exact Hd].
        cbn [set_items numItems]. rewrite !length_app, length_take, length_drop. pose proof (proj1 Hf). lia.
      * apply (store_behind l xs ys ptr H Hg i); [done|]. unfold fits. lia.
    + apply (store_before l xs ys ptr H Hg). by apply Hbefore.
Qed.

End granted.

(** ** Reading and removing *)

Lemma get_items_spec l xs (i n : nat) p : holds_items l xs → position l p = Z.of_nat i + 1 → (i + n <= length xs)%nat →
  ListGetItems l p (Z.of_nat n) = Some (concat (take n (drop i xs))).
Proof.
  intros H Hp Hn. unfold ListGetItems. rewrite Hp. destruct (split_items l xs i H) as (rest & -> & _).
  rewrite <-(take_drop n (drop i xs)) at 1. rewrite concat_app, <-app_assoc. apply slice_behind.
  - rewrite (items_length_at l xs i H) by lia. unfold ITEMPTR. lia.
  - rewrite (concat_length_items (itemSize l)) by (apply Forall_take, Forall_drop, H). rewrite length_take, length_drop. f_equal. lia.
Qed.

Lemma get_ptr_spec l xs (i : nat) x : holds_items l xs → xs !! i = Some x → ListGetPtrToItem l (Z.of_nat i + 1) = Some x.
Proof.
  intros H Hx. pose proof (lookup_lt_Some _ _ _ Hx) as Hi. pose proof (hi_num _ _ H).
  assert (position l (Z.of_nat i + 1) = Z.of_nat i + 1) as Hp by (unfold position, LIST_START, LIST_END; to_prop; lia).
  pose proof (get_items_spec l xs i 1 _ H Hp ltac:(lia)) as E. unfold ListGetItems in E. change (Z.of_nat 1) with 1 in E. rewrite Z.mul_1_r in E.
  unfold ListGetPtrToItem. rewrite E. f_equal. rewrite (drop_S xs x i) by done. cbn [take concat]. apply app_nil_r.
Qed.

Lemma remove_items_spec l xs (i n : nat) p get : holds_items l xs → position l p = Z.of_nat i + 1 → (i + n <= length xs)%nat →
  ∃ l', ListRemoveItems l get p (Z.of_nat n) = Some (l', if get then concat (take n (drop i xs)) else []) ∧
    holds_items l' (take i xs ++ drop (i + n) xs) ∧ itemSize l' = itemSize l.
Proof.
  intros H Hp Hn. unfold ListRemoveItems. rewrite Hp. pose proof (get_items_spec l xs i n p H Hp Hn) as Eg.
  unfold ListGetItems in Eg. rewrite Hp in Eg. rewrite Eg. pose proof (hi_num _ _ H) as Hnum. pose proof (hi_size _ _ H) as Hs.
  assert ((if get then Some (concat (take n (drop i xs))) else Some []) = Some (if get then concat (take n (drop i xs)) else [])) as -> by by destruct get.
  cbn [mbind option_bind]. destruct (split_items l xs i H) as (rest & Er & Lr).
  set (x := concat (take n (drop i xs))). set (b := concat (drop (i + n) xs)).
  assert (concat (drop i xs) = x ++ b) as Exb.
  { unfold x, b. rewrite <-drop_drop, <-concat_app. by rewrite take_drop. }
  rewrite Exb, <-app_assoc in Er.
  assert (Z.of_nat (length x) = itemSize l * Z.of_nat n) as Lx.
  { unfold x. rewrite (concat_length_items (itemSize l)) by (apply Forall_take, Forall_drop, H). rewrite length_take, length_drop. f_equal. lia. }
  assert (Z.of_nat (length b) = itemSize l * (numItems l - Z.of_nat (i + n))) as Lb.
  { unfold b. rewrite (concat_length_items (itemSize l)) by (apply Forall_drop, H). rewrite length_drop. f_equal. lia. }
  pose proof (items_length_at l xs i H ltac:(lia)) as La.
  set (d := concat (take i xs) ++ b ++ drop (length b) (x ++ b) ++ rest).
  assert (Z.of_nat (length d) = Z.of_nat (length (itemList l))) as Ldd by (rewrite Er; unfold d; rewrite !length_app, length_drop, length_app; lia).
  exists (set_items d (numItems l - Z.of_nat n) l).
  assert (holds_items (set_items d (numItems l - Z.of_nat n) l) (take i xs ++ drop (i + n) xs)) as Hh.
  { split; cbn [set_items itemSize numItems listSize handle_size itemList]; try apply H.
    - apply Forall_app; split; [apply Forall_take, H|apply Forall_drop, H].
    - rewrite length_app, length_take, length_drop. lia.
    - pose proof (hi_room _ _ H). lia.
    - rewrite Ldd. apply H.
    - exists (drop (length b) (x ++ b) ++ rest). unfold d. by rewrite concat_app, <-app_assoc. }
  split; [|done]. destruct (Z.ltb_spec 0 (numItems l - (Z.of_nat i + 1 + Z.of_nat n - 1))) as [Hm|Hm].
  - rewrite Er. rewrite app_assoc. rewrite (slice_behind _ b rest) by (rewrite ?length_app; unfold ITEMPTR; lia). cbn [mbind option_bind].
    rewrite <-app_assoc, (app_assoc x). rewrite <-(take_drop (length b) (x ++ b)) at 1. rewrite <-app_assoc.
    rewrite blit_behind by (rewrite ?length_take, ?length_app; unfold ITEMPTR; lia). done.
  - cbn [mbind option_bind]. do 3 f_equal. rewrite Er. unfold d.
    assert (b = []) as -> by (apply length_zero_iff_nil; nia). cbn [app length]. rewrite drop_0, app_nil_r. done.
Qed.

Lemma remove_item_spec l xs (i : nat) : holds_items l xs → (i < length xs)%nat →
  ∃ l', ListRemoveItem l false (Z.of_nat i + 1) = Some (l', []) ∧ holds_items l' (take i xs ++ drop (S i) xs) ∧ itemSize l' = itemSize l.
Proof.
  intros H Hi. pose proof (hi_num _ _ H).
  destruct (remove_items_spec l xs i 1 (Z.of_nat i + 1) false H) as (l' & E & H' & Es);
    [unfold position, LIST_START, LIST_END; to_prop; lia|lia|]. change (Z.of_nat 1) with 1 in E.
  exists l'. unfold ListRemoveItem. rewrite E. replace (i + 1)%nat with (S i) in H' by lia. done.
Qed.

(** ** Searching *)

Section cmp.
Context (compare : list Z → list Z → Z).

(** The first match from an index on. *)
Fixpoint first_match (item : list Z) (xs : list (list Z)) (i : nat) : option nat :=
  match xs with
  | [] => None
  | x :: xs => if compare item x =? 0 then Some i else first_match item xs (S i)
  end.

Lemma find_from l xs item k : ∀ i fuel, holds_items l xs → (i + k = length xs)%nat → (k < fuel)%nat →
  loop fuel (find_step compare l item) (Z.of_nat i + 1) =
    Some (match first_match item (drop i xs) i with Some j => Z.of_nat j + 1 | None => 0 end).
Proof.
  induction k as [|k IH]; intros i fuel H Hi Hf; (destruct fuel as [|fuel]; [lia|]); rewrite loop_S; unfold find_step at 1;
    pose proof (hi_num _ _ H) as Hn.
  - rewrite (proj2 (Z.leb_gt _ _)) by lia. by rewrite drop_ge by lia.
  - rewrite (proj2 (Z.leb_le _ _)) by lia. destruct (lookup_lt_is_Some_2 xs i) as [x Hx]; [lia|].
    pose proof (get_ptr_spec l xs i x H Hx) as E. unfold ListGetPtrToItem in E.
    replace (position l (Z.of_nat i + 1)) with (Z.of_nat i + 1) in E by (unfold position, LIST_START, LIST_END; to_prop; lia).
    rewrite E. cbn [mbind option_bind]. rewrite (drop_S xs x i) by done. cbn [first_match].
    destruct (compare item x =? 0); [done|]. replace (Z.of_nat i + 1 + 1) with (Z.of_nat (S i) + 1) by lia. apply IH; [done|lia|lia].
Qed.

Lemma find_item_spec l xs item (i : nat) : holds_items l xs → (i <= length xs)%nat → xs ≠ [] →
  ListFindItem compare l item (Z.of_nat i + 1) =
    Some (match first_match item (drop i xs) i with Some j => Z.of_nat j + 1 | None => 0 end).
Proof.
  intros H Hi Hne. pose proof (hi_num _ _ H) as Hn. unfold ListFindItem.
  rewrite (proj2 (Z.eqb_neq _ _)) by (destruct xs; [done|cbn [length] in Hn; lia]).
  replace (position l (Z.of_nat i + 1)) with (Z.of_nat i + 1) by (unfold position, LIST_START, LIST_END; to_prop; lia).
  apply (find_from l xs item (length xs - i)); [done|lia|lia].
Qed.

(** The items in the order of their comparison with the one looked for. *)
Definition ordered (item : list Z) (xs : list (list Z)) : Prop :=
  ∀ i j x y, (i < j)%nat → xs !! i = Some x → xs !! j = Some y →
    (compare item x < 0 → compare item y < 0) ∧ (0 < compare item y → 0 < compare item x).

(** The result of a search: an item that matches, or between which two it
    would have to be. *)
Definition found_at (item : list Z) (xs : list (list Z)) (r : Z) : Prop :=
  if 0 <=? r then ∃ x, xs !! Z.to_nat r = Some x ∧ compare item x = 0
  else let i := Z.to_nat (- r - 1) in (i <= length xs)%nat ∧
    (∀ j x, (j < i)%nat → xs !! j = Some x → 0 < compare item x) ∧ (∀ j x, (i <= j)%nat → xs !! j = Some x → compare item x < 0).

Lemma bin_search_spec l xs item : holds_items l xs → ordered item xs →
  ∃ r, BinSearch compare (itemList l) (numItems l) (itemSize l) item = Some r ∧ found_at item xs r.
Proof.
  intros H Ho. pose proof (hi_num _ _ H) as Hn. unfold BinSearch.
  apply (loop_total _ (λ s, 0 <= low s ∧ low s <= high s + 1 ∧ high s < numItems l ∧
      (∀ j x, Z.of_nat j < low s → xs !! j = Some x → 0 < compare item x) ∧
      (∀ j x, high s < Z.of_nat j → xs !! j = Some x → compare item x < 0) ∧
      (if 0 <? bcmp s then mid s + 1 = low s else mid s = high s + 1 ∨ mid s = 0 ∧ low s = 0 ∧ high s = numItems l - 1))
    (λ s, Z.to_nat (high s + 1 - low s))).
  - intros [lo hi m c] (H0 & H1 & H2 & Hlo & Hhi & Hm). cbn [low high mid bcmp] in *. unfold bin_step. cbn [low high mid bcmp].
    destruct (Z.leb_spec lo hi) as [Hle|Hgt].
    + rewrite Z.shiftr_div_pow2 by lia. change (2 ^ 1) with 2. set (k := (lo + hi) / 2). assert (lo <= k <= hi) as Hk by (unfold k; dm_lia).
      destruct (lookup_lt_is_Some_2 xs (Z.to_nat k)) as [x Hx]; [lia|].
      pose proof (get_ptr_spec l xs (Z.to_nat k) x H Hx) as E. unfold ListGetPtrToItem, ITEMPTR in E.
      replace (position l (Z.of_nat (Z.to_nat k) + 1)) with (k + 1) in E by (unfold position, LIST_START, LIST_END; to_prop; lia).
      replace (itemSize l * (k + 1 - 1)) with (k * itemSize l) in E by lia. rewrite E. cbn [mbind option_bind]. cbv zeta.
      destruct (Z.eqb_spec (compare item x) 0) as [E0|E0].
      { eexists. split; [done|]. cbn. unfold found_at. rewrite (proj2 (Z.leb_le _ _)) by lia. eauto. }
      destruct (Z.ltb_spec (compare item x) 0) as [El|El]; (eexists; split; [done|]; cbn [low high mid bcmp]).
      * split; [|lia]. split_and!; [lia|lia|lia|done| |].
        { intros j y Hj Hy. destruct (decide (Z.to_nat k = j)) as [<-|]; [by rewrite Hx in Hy; injection Hy as <-|].
          by apply (Ho (Z.to_nat k) j x y); [lia|..]. }
        { rewrite (proj2 (Z.ltb_ge _ _)) by lia. lia. }
      * split; [|lia]. split_and!; [lia|lia|lia| |done|].
        { intros j y Hj Hy. destruct (decide (j = Z.to_nat k)) as [->|]; [rewrite Hx in Hy; injection Hy as <-; lia|].
          apply (Ho j (Z.to_nat k) y x); [lia|done|done|lia]. }
        { rewrite (proj2 (Z.ltb_lt _ _)) by lia. lia. }
    + eexists. split; [done|]. cbn. assert ((if 0 <? c then m + 1 else m) = lo) as -> by (destruct (0 <? c); lia).
      unfold found_at. rewrite (proj2 (Z.leb_gt _ _)) by lia. cbv zeta. replace (- (- lo - 1) - 1) with lo by lia.
      split; [lia|]. split; intros j x Hj Hx; [by apply (Hlo j); [lia|]|by apply (Hhi j); [lia|]].
  - cbn [low high mid bcmp]. split_and!; [lia|lia|lia|intros; lia| |].
    + intros j x Hj Hx%lookup_lt_Some. lia.
    + right. split; [done|]. lia.
  - cbn [low high]. lia.
Qed.

(** ** Duplicates *)

Definition same (a b : list Z) : bool := compare a b =? 0.

(** The items that match none kept before them. *)
Fixpoint keep (seen xs : list (list Z)) : list (list Z) :=
  match xs with
  | [] => []
  | x :: xs => if existsb (λ s, same s x) seen then keep seen xs else x :: keep (seen ++ [x]) xs
  end.
Definition without (e : list Z) (xs : list (list Z)) : list (list Z) := filter (λ y, same e y = false) xs.

Lemma keep_without e : ∀ xs seen, e ∈ seen → keep seen (without e xs) = keep seen xs.
Proof.
  induction xs as [|x xs IH]; intros seen He; [done|]. unfold without in *. rewrite filter_cons. cbn [keep].
  destruct (decide (same e x = false)) as [E|E].
  - cbn [keep]. destruct (existsb _ seen); [by apply IH|]. f_equal. apply IH. apply elem_of_app. by left.
  - replace (existsb (λ s, same s x) seen) with true; [by apply IH|]. symmetry. apply existsb_exists. exists e.
    split; [by apply list_elem_of_In|]. by destruct (same e x).
Qed.

Lemma first_match_split item xs : ∀ i, match first_match item xs i with
  | Some j => ∃ a y b, xs = a ++ y :: b ∧ Forall (λ x, same item x = false) a ∧ same item y = true ∧ j = (i + length a)%nat
  | None => Forall (λ x, same item x = false) xs
  end.
Proof.
  unfold same. induction xs as [|x xs IH]; intros i; cbn [first_match]; [constructor|].
  destruct (compare item x =? 0) eqn:E.
  - exists [], x, xs. split_and!; [done|constructor|done|cbn; lia].
  - specialize (IH (S i)). destruct (first_match item xs (S i)) as [j|].
    + destruct IH as (a & y & b & -> & Ha & Hy & ->). exists (x :: a), y, b. split_and!; [done|by constructor|done|cbn [length]; lia].
    + by constructor.
Qed.

Lemma without_none e xs : Forall (λ x, same e x = false) xs → without e xs = xs.
Proof. induction 1 as [|x xs Hx _ IH]; [done|]. unfold without in *. rewrite filter_cons_True by done. by rewrite IH. Qed.

(** The items behind the one at [i], from some place on. *)
Lemma dup_loop e i n : ∀ b a pre l fuel, (length b <= n)%nat → (n < fuel)%nat → holds_items l (pre ++ a ++ b) → pre !! i = Some e →
  ∃ l', loop fuel (dup_step compare (Z.of_nat i + 1)) (l, numItems l, Z.of_nat (length (pre ++ a)) + 1) = Some (l', numItems l') ∧
    holds_items l' (pre ++ a ++ without e b).
Proof.
  induction n as [|n IH]; intros b a pre l fuel Hb Hf H He; (destruct fuel as [|fuel]; [lia|]); rewrite loop_S; unfold dup_step at 1;
    pose proof (hi_num _ _ H) as Hn; rewrite !length_app in Hn; rewrite length_app.
  - destruct b; [|cbn in Hb; lia]. cbn [length] in *. rewrite (proj2 (Z.leb_gt _ _)) by lia. by exists l.
  - destruct b as [|y0 b0]; [cbn [length] in *; rewrite (proj2 (Z.leb_gt _ _)) by lia; by exists l|].
    rewrite (proj2 (Z.leb_le _ _)) by (cbn [length] in *; lia).
    rewrite (get_ptr_spec l _ i e H) by (by apply lookup_app_l_Some). cbn [mbind option_bind].
    rewrite <-length_app, (find_item_spec l (pre ++ a ++ y0 :: b0)); [|done|rewrite !length_app; lia|by destruct pre, a].
    cbn [mbind option_bind]. rewrite app_assoc, drop_app_length. pose proof (first_match_split e (y0 :: b0) (length (pre ++ a))) as Hm.
    destruct (first_match e (y0 :: b0) (length (pre ++ a))) as [j|].
    + destruct Hm as (c & y & d & Eb & Hc & Hy & ->). rewrite (proj2 (Z.ltb_lt _ _)) by lia.
      destruct (remove_item_spec l (pre ++ a ++ y0 :: b0) (length (pre ++ a) + length c) H) as (l' & -> & H' & Es).
      { rewrite Eb, !length_app. cbn [length]. lia. }
      assert (take (length (pre ++ a) + length c) (pre ++ a ++ y0 :: b0) ++ drop (S (length (pre ++ a) + length c)) (pre ++ a ++ y0 :: b0) =
        pre ++ (a ++ c) ++ d) as Et.
      { assert (pre ++ a ++ y0 :: b0 = ((pre ++ a) ++ c) ++ y :: d) as -> by (rewrite Eb; by rewrite <-!app_assoc).
        rewrite <-length_app, take_app_length, cons_middle, (app_assoc _ [y]), drop_app_length'; [by rewrite <-!app_assoc|].
        rewrite (length_app _ [y]). cbn [length]. lia. }
      rewrite Et in H'. cbn [mbind option_bind].
      pose proof (hi_num _ _ H') as Hn'. rewrite !length_app in Hn'.
      pose proof (f_equal length Eb) as Lb. rewrite length_app in Lb. cbn [length] in Lb, Hb, Hn.
      replace (numItems l - 1) with (numItems l') by lia.
      destruct (IH d (a ++ c) pre l' fuel) as (l2 & E & H2); [lia|lia|done|done|].
      exists l2. rewrite (app_assoc pre a c), (length_app (pre ++ a)) in E. rewrite E. split; [done|].
      replace (without e (y0 :: b0)) with (c ++ without e d); [by rewrite <-app_assoc in H2|].
      rewrite Eb. unfold without at 2. rewrite filter_app. fold (without e c). rewrite (without_none e c) by done. f_equal.
      by rewrite filter_cons_False by (by rewrite Hy).
    + cbn [Z.ltb Z.compare]. exists l. split; [done|]. by rewrite without_none.
Qed.

Lemma dups_loop xs n : ∀ l kept rest fuel, (length rest <= n)%nat → (n < fuel)%nat → holds_items l (kept ++ rest) →
  Forall (λ x, existsb (λ s, same s x) kept = false) rest → keep [] xs = kept ++ keep kept rest →
  ∃ l', loop fuel (dups_step compare) (l, numItems l, Z.of_nat (length kept) + 1) = Some l' ∧ holds_items l' (keep [] xs).
Proof.
  induction n as [|n IH]; intros l kept rest fuel Hr Hf H Hnone Hk; (destruct fuel as [|fuel]; [lia|]); rewrite loop_S; unfold dups_step at 1;
    pose proof (hi_num _ _ H) as Hn; rewrite length_app in Hn.
  - destruct rest; [|cbn in Hr; lia]. cbn [length] in *. rewrite (proj2 (Z.ltb_ge _ _)) by lia. exists l. split; [done|]. by rewrite Hk.
  - destruct rest as [|e rest]; [cbn [length] in *; rewrite (proj2 (Z.ltb_ge _ _)) by lia; exists l; split; [done|]; by rewrite Hk|].
    apply Forall_cons in Hnone as [He Hnone]. cbn [keep] in Hk. rewrite He in Hk.
    destruct rest as [|e2 rest2]; cbn [length] in *.
    { rewrite (proj2 (Z.ltb_ge _ _)) by lia. exists l. split; [done|]. by rewrite Hk. }
    rewrite (proj2 (Z.ltb_lt _ _)) by lia.
    destruct (dup_loop e (length kept) (length (e2 :: rest2)) (e2 :: rest2) [] (kept ++ [e]) l (S (Z.to_nat (numItems l)))) as (l' & E & H').
    { done. }
    { cbn [length]. lia. }
    { cbn [app]. by rewrite <-app_assoc. }
    { by apply list_lookup_middle. }
    rewrite app_nil_r, length_app in E. cbn [length] in E.
    replace (Z.of_nat (length kept + 1) + 1) with (Z.of_nat (length kept) + 1 + 1) in E by lia. rewrite E. cbn [mbind option_bind].
    cbn [app] in H'. replace (Z.of_nat (length kept) + 1 + 1) with (Z.of_nat (length (kept ++ [e])) + 1) by (rewrite length_app; cbn [length]; lia).
    apply (IH l' (kept ++ [e]) (without e (e2 :: rest2))).
    + pose proof (length_filter (λ y, same e y = false) (e2 :: rest2)). unfold without. cbn [length] in *. lia.
    + lia.
    + done.
    + apply (Forall_forall _ _). intros x [Hx Hin]%list_elem_of_filter. rewrite existsb_app. cbn [existsb]. rewrite Hx.
      by rewrite (proj1 (Forall_forall _ _) Hnone x Hin).
    + rewrite keep_without by (apply elem_of_app; right; by left). by rewrite <-app_assoc.
Qed.

(** Removing duplicates ends, and keeps the items that match none kept
    before them, in their order. *)
Lemma remove_duplicates_spec l xs : holds_items l xs → ∃ l', ListRemoveDuplicates compare l = Some l' ∧ holds_items l' (keep [] xs).
Proof.
  intros H. unfold ListRemoveDuplicates. pose proof (hi_num _ _ H).
  apply (dups_loop xs (length xs) l [] xs); [done|lia|done| |done]. apply (Forall_forall _ _). done.
Qed.
End cmp.

(** ** Whole lists *)

Lemma create_spec granted fresh sz l : ListCreate granted fresh sz = Some l → 0 < sz → (4 <= length fresh)%nat → holds_items l [] ∧ policy_ok l.
Proof.
  unfold ListCreate. destruct (NewHandle _ _); [|done]. injection 1 as <-. intros Hs Hf.
  split; [|split_and!; by_eval]. split; cbn -[Z.pow]; try done; [rewrite length_take; unfold sizeof_ListStruct, itemList_offset; lia|by eexists].
Qed.

Lemma clear_spec l xs : holds_items l xs → holds_items (ListClear l) [].
Proof.
  intros H. pose proof (hi_room _ _ H). pose proof (hi_num _ _ H). split; cbn [ListClear set_items itemSize numItems listSize handle_size itemList]; try apply H.
  - constructor.
  - done.
  - lia.
  - by eexists.
Qed.

Lemma compact_spec granted l xs : holds_items l xs → holds_items (ListCompact granted l) xs ∧ numItems (ListCompact granted l) = numItems l.
Proof.
  intros H. pose proof (hi_room _ _ H). pose proof (hi_handle _ _ H). pose proof (hi_num _ _ H). pose proof (hi_size _ _ H).
  assert (numItems l * itemSize l <= listSize l * itemSize l) by nia. unfold ListCompact.
  assert (0 <= numItems l * itemSize l) by nia.
  rewrite u32_id by (unfold is_u32, sizeof_ListStruct in *; lia).
  destruct (set_handle_holds granted l xs (numItems l) H) as (l' & -> & H' & En & _); [lia|lia|].
  destruct (_ || _); cbn [Z.eqb]; [|done]. by rewrite En.
Qed.

Lemma replace_items_spec l xs ys src p (i : nat) : holds_items l xs → Forall (λ y, Z.of_nat (length y) = itemSize l) ys →
  position l p = Z.of_nat i + 1 → (i + length ys <= length xs)%nat →
  ∃ l', ListReplaceItems l (concat ys ++ src) p (Z.of_nat (length ys)) = Some l' ∧ holds_items l' (take i xs ++ ys ++ drop (i + length ys) xs).
Proof.
  intros H Hy Hp Hi. unfold ListReplaceItems. rewrite Hp. pose proof (concat_length_items _ _ Hy) as Ly.
  change (concat ys ++ src) with ([] ++ concat ys ++ src). rewrite slice_behind; [|done|lia]. cbn [mbind option_bind].
  destruct (split_items l xs i H) as (rest & Er & _). pose proof (items_length_at l xs i H ltac:(lia)) as La.
  set (old := concat (take (length ys) (drop i xs))). set (b := concat (drop (i + length ys) xs)).
  assert (concat (drop i xs) = old ++ b) as Eb by (unfold old, b; by rewrite <-drop_drop, <-concat_app, take_drop).
  assert (length old = length (concat ys)) as Lo.
  { apply Nat2Z.inj. rewrite Ly. unfold old. rewrite (concat_length_items (itemSize l)) by (apply Forall_take, Forall_drop, H).
    rewrite length_take, length_drop. f_equal. lia. }
  rewrite Eb, <-app_assoc in Er. rewrite Er, blit_behind by (unfold ITEMPTR; lia). cbn [mbind option_bind]. eexists. split; [done|].
  split; cbn [set_items itemSize numItems listSize handle_size itemList]; try apply H.
  - apply Forall_app; split; [apply Forall_take, H|]. apply Forall_app; split; [done|apply Forall_drop, H].
  - rewrite (hi_num _ _ H), !length_app, length_take, length_drop. lia.
  - rewrite <-(hi_block _ _ H), Er, !length_app. lia.
  - exists rest. unfold b. by rewrite !concat_app, <-!app_assoc.
Qed.

Lemma append_list_spec granted l1 l2 xs ys : holds_items l1 xs → holds_items l2 ys → itemSize l1 = itemSize l2 →
  let size := sizeof_ListStruct + Z.of_nat (length (xs ++ ys)) * itemSize l1 in
  size < 2 ^ 31 →
  if (length ys =? 0)%nat || (handle_size l1 =? size) || granted size
  then ∃ l', ListAppend granted l1 l2 = Some (l', 1) ∧ holds_items l' (xs ++ ys)
  else ListAppend granted l1 l2 = Some (l1, 0).
Proof.
  intros H1 H2 Es size Hmax. pose proof (hi_num _ _ H1) as N1. pose proof (hi_num _ _ H2) as N2. pose proof (hi_size _ _ H1) as Hs.
  unfold ListAppend. rewrite (proj2 (Z.eqb_eq (itemSize l1) _)) by done. cbn [negb].
  destruct (Nat.eqb_spec (length ys) 0) as [E0|E0]; cbn [orb].
  { rewrite (proj2 (Z.eqb_eq _ _)) by lia. exists l1. split; [done|]. apply length_zero_iff_nil in E0. by rewrite E0, app_nil_r. }
  rewrite (proj2 (Z.eqb_neq (numItems l2) 0)) by lia. set (n := Z.of_nat (length (xs ++ ys))) in *.
  assert (numItems l1 + numItems l2 = n) as En by (unfold n; rewrite length_app; lia).
  rewrite En. rewrite u32_id by (unfold is_u32, size, sizeof_ListStruct in *; nia).
  destruct (set_handle_holds granted l1 xs n H1) as (l' & E & H' & En' & Es' & _); [lia|done|].
  rewrite E. fold size. destruct (_ || _); cbn [Z.eqb]; [|done].
  pose proof (concat_length_items _ _ (hi_items _ _ H2)) as Ly. destruct (hi_bytes _ _ H2) as [r2 Hr2].
  assert (slice (itemList l2) 0 (numItems l2 * itemSize l2) = Some (concat ys)) as ->.
  { rewrite Hr2. apply (slice_behind [] (concat ys) r2); [done|lia]. }
  cbn [mbind option_bind]. destruct (split_items _ _ (length xs) H') as (rest & Er & Lr). cbn [set_listSize listSize numItems itemSize itemList] in Er, Lr.
  rewrite take_ge, drop_ge in Er by lia. cbn [concat app] in Er.
  rewrite Er. rewrite <-(take_drop (length (concat ys)) rest).
  pose proof (concat_length_items _ _ (hi_items _ _ H1)) as Lx.
  rewrite blit_behind; [|unfold ITEMPTR; rewrite Es'; lia|rewrite length_take; nia]. cbn [mbind option_bind]. eexists. split; [done|].
  pose proof (hi_block _ _ H') as Hb. cbn [set_listSize itemList handle_size] in Hb. rewrite Er, length_app in Hb.
  split; cbn [set_listSize set_items itemSize numItems listSize handle_size itemList]; try apply H'.
  - apply Forall_app. split; [apply H'|]. cbn [set_listSize itemSize]. rewrite Es', Es. apply H2.
  - done.
  - done.
  - rewrite !length_app, length_drop. nia.
  - eexists. by rewrite concat_app, <-app_assoc.
Qed.

(** The copy has just the room for its items. *)
Lemma copy_spec granted fresh l xs : holds_items l xs → (4 <= length fresh)%nat →
  ListCreate granted fresh (itemSize l) ≠ None → granted (sizeof_ListStruct + numItems l * itemSize l) = true →
  ∃ l', ListCopy granted fresh l = Some (Some l') ∧ holds_items l' xs ∧ listSize l' = numItems l.
Proof.
  intros H Hf Hc Hg. unfold ListCopy. destruct (ListCreate granted fresh (itemSize l)) as [t|] eqn:Et; [|done].
  pose proof (hi_size _ _ H) as Hs. pose proof (hi_num _ _ H) as Hn. pose proof (hi_handle _ _ H) as Hh. pose proof (hi_room _ _ H).
  assert (itemSize t = itemSize l) as Es by (unfold ListCreate in Et; destruct (NewHandle _ _); [by injection Et as <-|done]).
  destruct (create_spec _ _ _ _ Et Hs Hf) as [Ht _]. rewrite <-Es in Hg.
  assert (numItems t = 0) as Ent by apply Ht. assert (0 <= numItems l * itemSize l <= listSize l * itemSize l) as Hm by nia.
  rewrite Es in *. unfold sizeof_ListStruct in Hh. rewrite u32_id by (unfold is_u32, sizeof_ListStruct; lia).
  destruct (set_handle_holds granted t [] (numItems l) Ht) as (t' & E & H' & En' & Es' & _); [lia|unfold sizeof_ListStruct; rewrite Es; lia|].
  rewrite Es in E. rewrite E, Hg, orb_true_r. cbn [Z.eqb].
  destruct (split_items _ _ (length xs) H) as (rest & Er & _). rewrite take_ge, drop_ge in Er by lia. cbn [concat app] in Er.
  pose proof (concat_length_items _ _ (hi_items _ _ H)) as Lx.
  assert (slice (itemList l) (ITEMPTR l 0) (numItems l * itemSize l) = Some (concat xs)) as ->.
  { rewrite Er. apply (slice_behind [] (concat xs) rest); [unfold ITEMPTR; cbn; lia|lia]. }
  cbn [mbind option_bind]. pose proof (hi_block _ _ H') as Hb. pose proof (hi_handle _ _ H') as Hh'. cbn [set_listSize listSize itemList handle_size itemSize] in Hb, Hh'.
  rewrite Es' in Hh'. unfold sizeof_ListStruct, itemList_offset in *.
  rewrite <-(take_drop (length (concat xs)) (itemList t')).
  pose proof (blit_behind [] (take (length (concat xs)) (itemList t')) (concat xs) (drop (length (concat xs)) (itemList t')) 0 eq_refl) as Eb.
  cbn [app] in Eb. rewrite Eb by (rewrite length_take; nia). clear Eb. cbn [mbind option_bind]. eexists. split; [done|]. split; [|done].
  split; cbn [itemSize numItems listSize handle_size itemList]; try apply H; [done|unfold sizeof_ListStruct; lia| |by eexists].
  rewrite length_app, length_drop. unfold itemList_offset. lia.
Qed.

Lemma concat_items_inj sz (xs ys : list (list Z)) : 0 < sz → Forall (λ x, Z.of_nat (length x) = sz) xs → Forall (λ x, Z.of_nat (length x) = sz) ys →
  concat xs = concat ys → xs = ys.
Proof.
  intros Hs Hx. revert ys. induction Hx as [|x xs Hl _ IH]; intros ys Hy E; destruct Hy as [|y ys Hl' Hy]; cbn [concat] in E; [done| | |].
  - apply (f_equal length) in E. rewrite length_app in E. cbn in E. lia.
  - apply (f_equal length) in E. rewrite length_app in E. cbn in E. lia.
  - apply app_inj_1 in E as [-> E]; [|lia]. f_equal. by apply IH.
Qed.

(** Two lists of items of one size: whether they hold the same. *)
Lemma equal_spec l1 l2 xs ys : holds_items l1 xs → holds_items l2 ys → itemSize l1 = itemSize l2 →
  ListEqual l1 l2 = Some (if bool_decide (xs = ys) then 1 else 0).
Proof.
  intros H1 H2 Es. unfold ListEqual. pose proof (hi_num _ _ H1) as N1. pose proof (hi_num _ _ H2) as N2.
  pose proof (concat_length_items _ _ (hi_items _ _ H1)) as L1. pose proof (concat_length_items _ _ (hi_items _ _ H2)) as L2.
  destruct (Z.eqb_spec (numItems l1) (numItems l2)) as [E|E]; [|by rewrite bool_decide_eq_false_2 by (intros ->; lia)].
  destruct (hi_bytes _ _ H1) as [r1 ->], (hi_bytes _ _ H2) as [r2 ->].
  rewrite (slice_behind [] (concat xs) r1 0); [|done|rewrite L1; lia]. cbn [mbind option_bind].
  rewrite (slice_behind [] (concat ys) r2 0); [|done|rewrite L2, <-Es; f_equal; lia]. cbn [mbind option_bind].
  pose proof (first_diff_zero (concat xs) (concat ys) ltac:(nia)) as Hd. unfold c_memcmp.
  destruct (Z.eqb_spec (first_diff (concat xs) (concat ys)) 0) as [E0|E0].
  - rewrite bool_decide_eq_true_2; [done|]. apply (concat_items_inj (itemSize l1)); [apply H1|apply H1|rewrite Es; apply H2|by apply Hd].
  - rewrite bool_decide_eq_false_2; [done|]. intros ->. by apply E0, Hd.
Qed.

(** ** The lists of the program *)

#[local] Definition two (a b : Z) : list Z := [a; b].
#[local] Definition demo_items : list (list Z) := [two 1 0; two 3 0; two 3 9; two 5 0; two 1 7].
#[local] Definition demo_list : ListStruct :=
  mkList LIST_SIGNATURE 10 4 6 2 5 (concat demo_items ++ replicate 6 0) 40.
#[local] Definition by_first (a b : list Z) : Z := match a, b with x :: _, y :: _ => x - y | _, _ => 0 end.

#[local] Definition sorted_items : list (list Z) := [two 1 0; two 3 0; two 5 9; two 6 0].
#[local] Definition sorted_list : ListStruct := mkList LIST_SIGNATURE 10 4 4 2 4 (concat sorted_items ++ replicate 4 0) 36.

Lemma demo_holds : holds_items demo_list demo_items.
Proof. split; try by_eval. exists (replicate 6 0). done. Qed.

Lemma sorted_holds : holds_items sorted_list sorted_items.
Proof. split; try by_eval. exists (replicate 4 0). done. Qed.

(** A list with some room, but not for all the items to insert, is not
    expanded: the items behind the block are lost. *)
Lemma insert_items_overflows : ∃ l ptr, ListCreate (λ _, true) (replicate 28 0) 4 ≫=
    (λ l, ListInsertItems (λ _, true) l (Some [1; 0; 0; 0]) LIST_END 1) = Some (l, 1) ∧
  numItems l < listSize l ∧ length ptr = 24%nat ∧ ListInsertItems (λ _, true) l (Some ptr) LIST_END 6 = None.
Proof.
  exists (mkList LIST_SIGNATURE 10 4 5 4 1 ([1; 0; 0; 0] ++ replicate 20 0) 48), (replicate 24 7).
  split_and!; vm_compute; reflexivity.
Qed.

(** C36: Inserting items, for every position, every state of the list and
    every answer of the heap.  A position behind the end, or a full list that
    the heap cannot enlarge, refuses and changes nothing.  A full list that is
    enlarged, and one with room for all the items, takes them in order at the
    place the position names (the front, the end, or before an item), and is
    well formed again.  A list with some room, but not enough, is not enlarged:
    the items that still fit in the four spare bytes of the block are
    stored, and otherwise the code writes behind the block, which is undefined, as is a
    position in front of the first item.  Only the sizes are limited: a full list has a policy
    that gives a positive number of items and a block below 2 GiB. *)
Theorem insert_items_exact granted l xs ys ptr p : holds_items l xs → gives ptr (itemSize l) ys →
  (listSize l <= numItems l → policy_ok l ∧ enlarged l (length ys) < 2 ^ 31) →
  let full := listSize l <=? numItems l in
  let run := ListInsertItems granted l ptr p (Z.of_nat (length ys)) in
  if (numItems l + 1 <? p) || (full && negb (granted (enlarged l (length ys)))) then run = Some (l, 0)
  else match insert_index (numItems l) p with
  | None => run = None
  | Some i =>
      if full || (numItems l + Z.of_nat (length ys) <=? listSize l)
      then ∃ l', run = Some (l', 1) ∧ holds_items l' (take i xs ++ ys ++ drop i xs)
      else if itemSize l * (numItems l + Z.of_nat (length ys) - listSize l) <=? 4
      then ∃ l', run = Some (l', 1) ∧ contains l' (take i xs ++ ys ++ drop i xs)
      else run = None
  end.
Proof. apply insert_cases. Qed.

Lemma insert_items_exact_witness :
  (∃ l', ListInsertItems (λ _, true) demo_list (Some [8; 8]) 2 1 = Some (l', 1) ∧
    holds_items l' [two 1 0; two 8 8; two 3 0; two 3 9; two 5 0; two 1 7]) ∧
  ListInsertItems (λ _, true) demo_list (Some [8; 8; 9; 9; 7; 7; 6; 6]) 2 4 = None ∧
  ListInsertItems (λ _, true) demo_list (Some [8; 8]) 7 1 = Some (demo_list, 0).
Proof.
  split_and!.
  - apply (insert_items_exact (λ _, true) demo_list demo_items [two 8 8] (Some [8; 8]) 2 demo_holds); [|by_eval].
    split; [repeat constructor|]. by exists [].
  - apply (insert_items_exact (λ _, true) demo_list demo_items [two 8 8; two 9 9; two 7 7; two 6 6] (Some [8; 8; 9; 9; 7; 7; 6; 6]) 2 demo_holds); [|by_eval].
    split; [repeat constructor|]. by exists [].
  - apply (insert_items_exact (λ _, true) demo_list demo_items [two 8 8] (Some [8; 8]) 7 demo_holds); [|by_eval].
    split; [repeat constructor|]. by exists [].
Defined.

(** A binary search in a list ordered for the comparison ends, and finds
    an item that matches, or tells the place where it belongs: every item
    before it is smaller, every item from it on is greater. *)
Theorem bin_search_exact compare l xs item : holds_items l xs → ordered compare item xs →
  ∃ r, BinSearch compare (itemList l) (numItems l) (itemSize l) item = Some r ∧ found_at compare item xs r.
Proof. apply bin_search_spec. Qed.

Lemma bin_search_exact_witness : ∃ r, BinSearch by_first (itemList sorted_list) 4 2 [4; 4] = Some r ∧ found_at by_first [4; 4] sorted_items r.
Proof.
  apply (bin_search_exact by_first sorted_list sorted_items [4; 4] sorted_holds).
  intros i j x y Hij Hi Hj. pose proof (lookup_lt_Some _ _ _ Hj).
  destruct i as [|[|[|[|i]]]], j as [|[|[|[|j]]]]; cbn in *; simplify_eq; cbn; lia.
Defined.
