(* ===== verification/Console.v ===== *)
(** [common/devices.c], [common/console.c] and [common/cmd_console.c]: the
    devices of the console, and the three files that stand for them.  The
    configuration has the one device "serial", no silent console and no
    console in the environment. *)
From stdpp Require Import base tactics option list strings.
From Stdlib Require Import ZArith Lia.
From S2P Require Import Prelude.
From S2P Require Import Eff.
From S2P Require Import CBuf.
From S2P Require Import Vsprintf.
From S2P Require Import Env.
From S2P Require Import Lists.
Open Scope Z_scope.

(** ** Data *)

Definition DEV_FLAGS_INPUT : Z := 0x1.
Definition DEV_FLAGS_OUTPUT : Z := 0x2.
Definition DEV_FLAGS_SYSTEM : Z := 0x80000000.
Definition GD_FLG_DEVINIT : Z := 0x2.

(** The files, and the entries of the jump table they have. *)
Definition stdin : Z := 0.
Definition stdout : Z := 1.
Definition stderr : Z := 2.
Definition MAX_FILES : Z := 3.
Definition XF_getc : Z := 1.
Definition XF_tstc : Z := 2.
Definition XF_putc : Z := 3.
Definition XF_puts : Z := 4.
Definition XF_printf : Z := 5.

(** Functions are their addresses, 0 for none. *)
Record device_t := mkDevice {
  dv_flags : Z; dv_ext : Z; dv_name : list Z;
  dv_start : Z; dv_stop : Z; dv_putc : Z; dv_puts : Z; dv_tstc : Z; dv_getc : Z; dv_priv : Z }.
Definition sizeof_device : Z := 52.

(** A device as the bytes of an item of the list, and back. *)
Definition device_bytes (d : device_t) : list Z :=
  le_bytes 4 (dv_flags d) ++ le_bytes 4 (dv_ext d) ++ dv_name d ++ le_bytes 4 (dv_start d) ++ le_bytes 4 (dv_stop d) ++
  le_bytes 4 (dv_putc d) ++ le_bytes 4 (dv_puts d) ++ le_bytes 4 (dv_tstc d) ++ le_bytes 4 (dv_getc d) ++ le_bytes 4 (dv_priv d).
Definition device_word (l : list Z) (o : Z) : option Z := le_val <$> slice l o 4.
Definition device_of (l : list Z) : option device_t :=
  flags ← device_word l 0; ext ← device_word l 4; name ← slice l 8 16;
  start ← device_word l 24; stop ← device_word l 28; putc ← device_word l 32; puts ← device_word l 36;
  tstc ← device_word l 40; getc ← device_word l 44; priv ← device_word l 48;
  Some (mkDevice flags ext name start stop putc puts tstc getc priv).

(** The world of the drivers: a call of the function at an address. *)
Class Drivers (W : Type) := {
  call : Z → W → option (W * Z);            (** no arguments, an [int] *)
  call_char : Z → Z → W → option W;
  call_string : Z → list Z → W → option W;
}.

(** [devlist]; [stdio_devices] as positions in it; the jump table; the fields
    [have_console] and [flags] of the global data; the locals of
    [console.c]. *)
Record con (W : Type) := mkCon {
  devlist : option ListStruct; stdio_devices : list (option Z); jt : list Z; have_console : Z; gd_flags : Z;
  ctrlc_disabled : Z; ctrlc_was_pressed : Z; world : W }.
Arguments mkCon {W}.
Arguments devlist {W}.
Arguments stdio_devices {W}.
Arguments jt {W}.
Arguments have_console {W}.
Arguments gd_flags {W}.
Arguments ctrlc_disabled {W}.
Arguments ctrlc_was_pressed {W}.
Arguments world {W}.

Section ops.
Context {W : Type} `{Drivers W}.
#[local] Abbreviation M := (ST (con W)).
Implicit Types (s : con W).

(** The heap, the bytes of a fresh block, and the functions of the serial
    driver and of the console. *)
Context (granted : Z → bool) (fresh : list Z).
Context (serial_putc serial_puts serial_tstc serial_getc printf_addr : Z).

Definition set_devlist (l : option ListStruct) s : con W :=
  mkCon l (stdio_devices s) (jt s) (have_console s) (gd_flags s) (ctrlc_disabled s) (ctrlc_was_pressed s) (world s).
Definition set_files (f : list (option Z)) s : con W :=
  mkCon (devlist s) f (jt s) (have_console s) (gd_flags s) (ctrlc_disabled s) (ctrlc_was_pressed s) (world s).
Definition set_jt (t : list Z) s : con W :=
  mkCon (devlist s) (stdio_devices s) t (have_console s) (gd_flags s) (ctrlc_disabled s) (ctrlc_was_pressed s) (world s).
Definition set_gd (h f : Z) s : con W :=
  mkCon (devlist s) (stdio_devices s) (jt s) h f (ctrlc_disabled s) (ctrlc_was_pressed s) (world s).
Definition set_ctrlc (d p : Z) s : con W :=
  mkCon (devlist s) (stdio_devices s) (jt s) (have_console s) (gd_flags s) d p (world s).
Definition set_world (w : W) s : con W :=
  mkCon (devlist s) (stdio_devices s) (jt s) (have_console s) (gd_flags s) (ctrlc_disabled s) (ctrlc_was_pressed s) w.

Definition call_int (f : Z) : M Z := s ← get; '(w, r) ← lift (call f (world s)); _ ← modify (set_world w); mret r.
Definition call_putc (f c : Z) : M unit := s ← get; w ← lift (call_char f c (world s)); modify (set_world w).
Definition call_puts (f : Z) (t : list Z) : M unit := s ← get; w ← lift (call_string f t (world s)); modify (set_world w).

(** ** The devices *)

(** The list, which must not be null; the item at a position. *)
Definition the_list : M ListStruct := s ← get; lift (devlist s).
Definition item_at (i : Z) : M (list Z) := l ← the_list; lift (ListGetPtrToItem l i).
Definition device_at (i : Z) : M device_t := e ← item_at i; lift (device_of e).
(** [dev->name], up to the end of the structure. *)
Definition name_at (i : Z) : M (list Z) := e ← item_at i; mret (drop 8 e).

Definition device_register (dev : list Z) : M Z :=
  l ← the_list;
  '(l, _) ← lift (ListInsertItem granted l (Some dev) LIST_END);
  _ ← modify (set_devlist (Some l));
  mret 0.

(** [memset], [strcpy] of the name and the assignments. *)
Definition serial_device : device_t :=
  mkDevice (Z.lor (Z.lor DEV_FLAGS_OUTPUT DEV_FLAGS_INPUT) DEV_FLAGS_SYSTEM) 0 (str "serial" ++ replicate 10 0) 0 0
    serial_putc serial_puts serial_tstc serial_getc 0.
Definition drv_system_init : M unit := _ ← device_register (device_bytes serial_device); mret tt.

(** ** The files *)

(** A file stands for a device from now on. *)
Definition set_file (file : Z) (dev : Z) (d : device_t) : M unit :=
  s ← get;
  f ← lift (upd (stdio_devices s) file (Some dev));
  _ ← modify (set_files f);
  s ← get;
  t ← lift (if file =? stdin then t ← upd (jt s) XF_getc (dv_getc d); upd t XF_tstc (dv_tstc d)
    else if file =? stdout then t ← upd (jt s) XF_putc (dv_putc d); t ← upd t XF_puts (dv_puts d); upd t XF_printf printf_addr
    else Some (jt s));
  modify (set_jt t).

(** [dev] is a position, [None] the null pointer. *)
Definition console_setfile (file : Z) (dev : option Z) : M Z :=
  match dev with
  | None => mret (-1)
  | Some dev =>
      if (file =? stdin) || (file =? stdout) || (file =? stderr) then
        d ← device_at dev;
        error ← (if negb (dv_start d =? 0) then call_int (dv_start d) else mret 0);
        if error <? 0 then mret error else
        _ ← set_file file dev d;
        mret error
      else mret (-1)
  end.

Definition file_device (file : Z) : M device_t :=
  s ← get; o ← lift (idx (stdio_devices s) file); i ← lift o; device_at i.
Definition fgetc (file : Z) : M Z := if file <? MAX_FILES then d ← file_device file; call_int (dv_getc d) else mret (-1).
Definition ftstc (file : Z) : M Z := if file <? MAX_FILES then d ← file_device file; call_int (dv_tstc d) else mret (-1).
Definition fputc (file c : Z) : M unit := if file <? MAX_FILES then d ← file_device file; call_putc (dv_putc d) c else mret tt.
Definition fputs (file : Z) (t : list Z) : M unit := if file <? MAX_FILES then d ← file_device file; call_puts (dv_puts d) t else mret tt.

(** [buf] are the bytes of [printbuffer]. *)
Definition fprintf (buf : list Z) (file : Z) (fmt : list Z) (args : list arg) : M unit :=
  '(buf, _) ← lift (sprintf buf fmt args); fputs file buf.

Definition devinit : M bool := s ← get; mret (negb (Z.land (gd_flags s) GD_FLG_DEVINIT =? 0)).
Definition getc : M Z := b ← devinit; if b : bool then fgetc stdin else call_int serial_getc.
Definition tstc : M Z := b ← devinit; if b : bool then ftstc stdin else call_int serial_tstc.
Definition putc (c : Z) : M unit := b ← devinit; if b : bool then fputc stdout c else call_putc serial_putc c.
Definition puts (t : list Z) : M unit := b ← devinit; if b : bool then fputs stdout t else call_puts serial_puts t.
Definition printf (buf fmt : list Z) (args : list arg) : M unit := '(buf, _) ← lift (sprintf buf fmt args); puts buf.
Definition serial_printf (buf fmt : list Z) (args : list arg) : M unit :=
  '(buf, _) ← lift (sprintf buf fmt args); call_puts serial_puts buf.

Definition ctrlc : M Z :=
  s ← get;
  if (ctrlc_disabled s =? 0) && negb (have_console s =? 0) then
    t ← tstc;
    if negb (t =? 0) then
      c ← getc;
      if c =? 3 then _ ← modify (λ s, set_ctrlc (ctrlc_disabled s) 1 s); mret 1 else mret 0
    else mret 0
  else mret 0.
Definition disable_ctrlc (disable : Z) : M Z :=
  s ← get; _ ← modify (set_ctrlc disable (ctrlc_was_pressed s)); mret (ctrlc_disabled s).
Definition had_ctrlc : M Z := s ← get; mret (ctrlc_was_pressed s).
Definition clear_ctrlc : M unit := modify (λ s, set_ctrlc (ctrlc_disabled s) 0 s).

(** [eputs] of the failure is [fputs (stderr, .)]. *)
Definition devices_init : M Z :=
  let l := ListCreate granted fresh sizeof_device in
  _ ← modify (set_devlist l);
  match l with
  | None => _ ← fputs stderr (str "Cannot initialize the list of devices!" ++ [10; 0]); mret (-1)
  | Some _ => _ ← drv_system_init; mret 0
  end.

(** ** Assigning a device by its name *)

Definition assign_step (file flag : Z) (devname : list Z) (i : Z) : M (Z + Z) :=
  l ← the_list;
  if i <=? numItems l then
    d ← device_at i;
    nm ← name_at i;
    r ← lift (c_strcmp devname nm);
    if r =? 0 then
      if negb (Z.land (dv_flags d) flag =? 0) then r ← console_setfile file (Some i); mret (inr r) else mret (inr (-1))
    else mret (inl (i + 1))
  else mret (inr (-1)).

Definition console_assign (file : Z) (devname : list Z) : M Z :=
  if (file =? stdin) || (file =? stdout) || (file =? stderr) then
    let flag := if file =? stdin then DEV_FLAGS_INPUT else DEV_FLAGS_OUTPUT in
    l ← the_list;
    mloop (S (Z.to_nat (numItems l))) (assign_step file flag devname) 1
  else mret (-1).

Definition console_init_f : M Z := _ ← modify (λ s, set_gd 1 (gd_flags s) s); mret 0.

(** ** Start-up *)

(** The search for an input and an output device. *)
Definition scan_step (x : Z * option Z * option Z) : M ((Z * option Z * option Z) + (option Z * option Z)) :=
  let '(i, inputdev, outputdev) := x in
  l ← the_list;
  if (i <=? numItems l) && (bool_decide (inputdev = None) || bool_decide (outputdev = None)) then
    d ← device_at i;
    let inputdev := if negb (Z.land (dv_flags d) DEV_FLAGS_INPUT =? 0) && bool_decide (inputdev = None) then Some i else inputdev in
    let outputdev := if negb (Z.land (dv_flags d) DEV_FLAGS_OUTPUT =? 0) && bool_decide (outputdev = None) then Some i else outputdev in
    mret (inl (i + 1, inputdev, outputdev))
  else mret (inr (inputdev, outputdev)).

(** One line of the information: [buf] are the bytes of [printbuffer]. *)
Definition print_file (buf : list Z) (file : Z) (title none : string) : M unit :=
  _ ← puts (lit title);
  s ← get;
  o ← lift (idx (stdio_devices s) file);
  match o with
  | None => puts (str none ++ [10; 0])
  | Some i => nm ← name_at i; printf buf (str "%s" ++ [10; 0]) [AStr (Some nm)]
  end.

Definition assign_files (buf : list Z) : M unit :=
  l ← the_list;
  '(inputdev, outputdev) ← mloop (S (Z.to_nat (numItems l))) scan_step (1, None, None);
  _ ← (match outputdev with Some _ => _ ← console_setfile stdout outputdev; _ ← console_setfile stderr outputdev; mret tt | None => mret tt end);
  _ ← (match inputdev with Some _ => _ ← console_setfile stdin inputdev; mret tt | None => mret tt end);
  _ ← modify (λ s, set_gd (have_console s) (Z.lor (gd_flags s) GD_FLG_DEVINIT) s);
  _ ← print_file buf stdin "In:    " "No input devices available!";
  _ ← print_file buf stdout "Out:   " "No output devices available!";
  print_file buf stderr "Err:   " "No error devices available!".

(** ** [coninfo] *)

Definition stdio_names : list (list Z) := [lit "stdin"; lit "stdout"; lit "stderr"].

Definition coninfo_file (buf : list Z) (i : Z) (l : Z) (_ : unit) : M unit :=
  s ← get;
  o ← lift (idx (stdio_devices s) l);
  nm ← lift (idx stdio_names l);
  if bool_decide (o = Some i) then printf buf (lit "%s ") [AStr (Some nm)] else mret tt.
Definition coninfo_step (buf : list Z) (i : Z) : M (Z + Z) :=
  l ← the_list;
  if i <=? numItems l then
    d ← device_at i;
    nm ← name_at i;
    let letter flag c := if negb (Z.land (dv_flags d) flag =? 0) then c else 46 in
    _ ← printf buf (lit "%-8s %08x %c%c%c ")
      [AStr (Some nm); AInt (dv_flags d); AInt (letter DEV_FLAGS_SYSTEM 83); AInt (letter DEV_FLAGS_INPUT 73); AInt (letter DEV_FLAGS_OUTPUT 79)];
    _ ← mfor [0; 1; 2] (coninfo_file buf i) tt;
    _ ← putc 10;
    mret (inl (i + 1))
  else mret (inr 0).
Definition do_coninfo (buf : list Z) : M Z :=
  _ ← puts (str "List of available devices:" ++ [10; 0]);
  l ← the_list;
  mloop (S (Z.to_nat (numItems l))) (coninfo_step buf) 1.

(** ** The environment *)

(** What the environment asks of the console. *)
#[global] Instance con_console : Console (con W) := {|
  Env.console_assign c file dev := match dev with Some nm => console_assign file nm c | None => None end |}.

#[local] Abbreviation E := (ST (env_state (con W))).
Definition on_con {A} (f : M A) : E A := λ (s : env_state (con W)),
  match f (console s) with Some (c, a) => Some (Env.set_console c s, a) | None => None end.

(** [setenv (stdio_names[i], stdio_devices[i]->name)]. *)
Definition file_name (l : Z) : M (list Z) := s ← get; o ← lift (idx (stdio_devices s) l); i ← lift o; name_at i.
Definition name_file (l : Z) (_ : unit) : E unit :=
  nm ← lift (idx stdio_names l);
  dev ← on_con (file_name l);
  setenv (Some nm) (Some dev).
Definition console_init_r (buf : list Z) : E Z :=
  _ ← on_con (assign_files buf);
  _ ← mfor [0; 1; 2] name_file tt;
  mret 0.
End ops.
