(* ===== verification/ConsoleSpec.v ===== *)
(** The console of [Console]: the files stand for the devices they are
    assigned to, and start-up assigns all three to the serial port. *)
From stdpp Require Import base tactics option list strings.
From Stdlib Require Import ZArith Lia.
From S2P Require Import Prelude.
From S2P Require Import Eff.
From S2P Require Import CBuf.
From S2P Require Import CString.
From S2P Require Import Ptable.
From S2P Require Import Vsprintf.
From S2P Require Import Env.
From S2P Require Import EnvSpec.
From S2P Require Import Lists.
From S2P Require Import ListsSpec.
From S2P Require Import Console.
Open Scope Z_scope.

(** ** Devices in the list *)

Definition word_ok (z : Z) : Prop := 0 <= z < 2 ^ 32.
Record dev_ok (d : device_t) : Prop := mkDevOk {
  do_name : Z.of_nat (length (dv_name d)) = 16 ∧ bytes (dv_name d) ∧ 0 ∈ dv_name d;
  do_words : Forall word_ok [dv_flags d; dv_ext d; dv_start d; dv_stop d; dv_putc d; dv_puts d; dv_tstc d; dv_getc d; dv_priv d];
}.

Lemma device_length d : dev_ok d → Z.of_nat (length (device_bytes d)) = sizeof_device.
Proof.
  intros [(Hl & _) _]. unfold device_bytes. rewrite !length_app, !le_bytes_length. unfold sizeof_device. lia.
Qed.

Definition chunks (d : device_t) : list (list Z) :=
  [le_bytes 4 (dv_flags d); le_bytes 4 (dv_ext d); dv_name d; le_bytes 4 (dv_start d); le_bytes 4 (dv_stop d);
   le_bytes 4 (dv_putc d); le_bytes 4 (dv_puts d); le_bytes 4 (dv_tstc d); le_bytes 4 (dv_getc d); le_bytes 4 (dv_priv d)].

Lemma device_chunks d : device_bytes d = concat (chunks d).
Proof. unfold device_bytes, chunks. cbn [concat]. by rewrite app_nil_r. Qed.

Lemma slice_chunk {A} (cs : list (list A)) (k : nat) c o n : cs !! k = Some c → o = Z.of_nat (length (concat (take k cs))) →
  n = Z.of_nat (length c) → slice (concat cs) o n = Some c.
Proof.
  intros Hc Ho Hn. rewrite <-(take_drop_middle cs k c Hc), concat_app. cbn [concat]. by apply slice_behind.
Qed.

Lemma word_of_bytes z : word_ok z → le_val (le_bytes 4 z) = z.
Proof. intros Hz. rewrite le_val_bytes. apply Z.mod_small. exact Hz. Qed.

Lemma device_of_bytes d : dev_ok d → device_of (device_bytes d) = Some d.
Proof.
  intros [(Hl & _) Hw]. rewrite !Forall_cons in Hw. destruct_and! Hw.
  assert (∀ k c o n, chunks d !! k = Some c → o = Z.of_nat (length (concat (take k (chunks d)))) → n = Z.of_nat (length c) →
    slice (device_bytes d) o n = Some c) as Hs by (intros; rewrite device_chunks; by eapply slice_chunk).
  assert (∀ k z o, chunks d !! k = Some (le_bytes 4 z) → word_ok z → o = Z.of_nat (length (concat (take k (chunks d)))) →
    device_word (device_bytes d) o = Some z) as Hd.
  { intros k z o Hk Hz Ho. unfold device_word. rewrite (Hs k (le_bytes 4 z)) by (done || by rewrite le_bytes_length).
    cbn [fmap option_fmap option_map]. by rewrite word_of_bytes. }
  assert (∀ k, Z.of_nat (length (concat (take (S (S (S k))) (chunks d)))) = 24 + Z.of_nat (length (concat (take k (drop 3 (chunks d)))))) as Ht.
  { intros k. cbn [chunks take drop concat]. rewrite !length_app, !le_bytes_length. lia. }
  unfold device_of.
  rewrite (Hd 0%nat (dv_flags d) 0), (Hd 1%nat (dv_ext d) 4), (Hs 2%nat (dv_name d) 8 16) by done.
  rewrite (Hd 3%nat (dv_start d) 24), (Hd 4%nat (dv_stop d) 28), (Hd 5%nat (dv_putc d) 32), (Hd 6%nat (dv_puts d) 36),
    (Hd 7%nat (dv_tstc d) 40), (Hd 8%nat (dv_getc d) 44), (Hd 9%nat (dv_priv d) 48) by (done || by rewrite Ht).
  cbn [mbind option_bind]. by destruct d.
Qed.

(** The text behind [dev->name], and the name it is. *)
Definition name_of (d : device_t) : list Z := cut (dv_name d).

Lemma name_behind d : dev_ok d → ∃ t, drop 8 (device_bytes d) = name_of d ++ 0 :: t ∧ bytes (drop 8 (device_bytes d)) ∧ 0 ∉ name_of d.
Proof.
  intros [(Hl & Hb & Hz) Hw]. destruct (cut_split _ Hz) as (t & E).
  assert (drop 8 (device_bytes d) = dv_name d ++ concat (drop 3 (chunks d))) as ->
    by (unfold device_bytes; cbn [chunks drop concat]; rewrite app_nil_r; reflexivity).
  exists (t ++ concat (drop 3 (chunks d))). split_and!.
  - rewrite E at 1. rewrite <-app_assoc. done.
  - apply bytes_app; split; [done|]. unfold bytes. rewrite Forall_concat. cbn [chunks drop].
    rewrite !Forall_cons. split_and!; try apply le_bytes_bytes. done.
  - apply cut_nonzero.
Qed.

Lemma remove_first_new name es : name ∉ es.*1 → remove_first name es = es.
Proof.
  induction es as [|x es IH]; [done|]. cbn [fmap list_fmap remove_first]. rewrite not_elem_of_cons. intros [Hx Hes].
  rewrite decide_False by congruence. by rewrite IH.
Qed.

Section spec.
Context {W : Type} `{Drivers W}.
Context (serial_putc serial_puts serial_tstc serial_getc printf_addr : Z).
Implicit Types (s : con W) (devs : list device_t).
#[local] Abbreviation setfile := (console_setfile printf_addr).
#[local] Abbreviation assign := (console_assign printf_addr).

(** The list holds the devices [devs]; there are three files, and a jump
    table. *)
Record con_ok s devs : Prop := mkConOk {
  co_list : ∃ l, devlist s = Some l ∧ holds_items l (device_bytes <$> devs);
  co_devs : Forall dev_ok devs;
  co_files : Z.of_nat (length (stdio_devices s)) = MAX_FILES;
  co_jt : (6 <= length (jt s))%nat;
}.

Lemma item_found s devs (i : nat) d : con_ok s devs → devs !! i = Some d →
  item_at (Z.of_nat i + 1) s = Some (s, device_bytes d).
Proof.
  intros Hs Hd. destruct (co_list _ _ Hs) as (l & El & Hl). unfold item_at, the_list.
  assert (ListGetPtrToItem l (Z.of_nat i + 1) = Some (device_bytes d)) as E.
  { eapply get_ptr_spec; [done|]. by rewrite list_lookup_fmap, Hd. }
  unfold mbind, st_bind, get, lift. by rewrite El, E.
Qed.

Lemma device_found s devs (i : nat) d : con_ok s devs → devs !! i = Some d → device_at (Z.of_nat i + 1) s = Some (s, d).
Proof.
  intros Hs Hd. unfold device_at. rewrite (bind_eq _ _ _ _ _ (item_found s devs i d Hs Hd)).
  unfold lift. rewrite device_of_bytes; [done|]. eapply Forall_lookup_1; [apply Hs|done].
Qed.

Lemma name_found s devs (i : nat) d : con_ok s devs → devs !! i = Some d → name_at (Z.of_nat i + 1) s = Some (s, drop 8 (device_bytes d)).
Proof. intros Hs Hd. unfold name_at. by rewrite (bind_eq _ _ _ _ _ (item_found s devs i d Hs Hd)). Qed.

(** ** What a file stands for *)

Definition file_dev devs s (file : nat) : option device_t :=
  o ← stdio_devices s !! file; i ← o; if i <? 1 then None else devs !! Z.to_nat (i - 1).

Lemma file_found s devs (file : nat) d : con_ok s devs → file_dev devs s file = Some d → file_device (Z.of_nat file) s = Some (s, d).
Proof.
  intros Hs. unfold file_dev. destruct (stdio_devices s !! file) as [[i|]|] eqn:Ef; [|done..]. cbn [mbind option_bind].
  destruct (Z.ltb_spec i 1); [done|]. intros Hd. unfold file_device, mbind, st_bind, get, lift. rewrite idx_nat, Ef.
  replace i with (Z.of_nat (Z.to_nat (i - 1)) + 1) by lia. by apply (device_found s devs).
Qed.

(** ** Assigning *)

(** The state after a file was assigned to the device [d], item [i]. *)
Definition assigned (file i : nat) (d : device_t) s : con W :=
  let t := jt s in
  set_jt (match file with
          | 0%nat => <[2%nat := dv_tstc d]> (<[1%nat := dv_getc d]> t)
          | 1%nat => <[5%nat := printf_addr]> (<[4%nat := dv_puts d]> (<[3%nat := dv_putc d]> t))
          | _ => t
          end) (set_files (<[file := Some (Z.of_nat i + 1)]> (stdio_devices s)) s).

(** A device with a start function is started first, and used only when that
    returns no error. *)
Definition setfile_result (file i : nat) (d : device_t) s : option (con W * Z) :=
  '(w, r) ← (if dv_start d =? 0 then Some (world s, 0) else call (dv_start d) (world s));
  Some (if r <? 0 then (set_world w s, r) else (assigned file i d (set_world w s), r)).

Lemma upd_nat {A} (l : list A) (i : nat) x : (i < length l)%nat → upd l (Z.of_nat i) x = Some (<[i := x]> l).
Proof. intros Hi. unfold upd. replace ((0 <=? Z.of_nat i) && (Z.of_nat i <? Z.of_nat (length l))) with true by (symmetry; to_prop; lia). by rewrite Nat2Z.id. Qed.

Lemma set_file_spec s devs (file i : nat) d : con_ok s devs → (file < 3)%nat →
  set_file printf_addr (Z.of_nat file) (Z.of_nat i + 1) d s = Some (assigned file i d s, tt).
Proof.
  intros Hs Hf. pose proof (co_files _ _ Hs) as Hl. pose proof (co_jt _ _ Hs) as Hj. unfold MAX_FILES in Hl.
  unfold set_file, mbind, st_bind, get, lift, modify. rewrite upd_nat by lia. cbn [jt set_files].
  destruct file as [|[|[|]]]; [| | |lia]; cbn [Z.of_nat Z.eqb Pos.of_succ_nat Pos.succ stdin stdout].
  - change XF_getc with (Z.of_nat 1). change XF_tstc with (Z.of_nat 2).
    rewrite upd_nat by lia. cbn [mbind option_bind]. by rewrite upd_nat by (rewrite length_insert; lia).
  - change XF_putc with (Z.of_nat 3). change XF_puts with (Z.of_nat 4). change XF_printf with (Z.of_nat 5).
    rewrite upd_nat by lia. cbn [mbind option_bind]. rewrite upd_nat by (rewrite length_insert; lia). cbn [mbind option_bind].
    by rewrite upd_nat by (rewrite !length_insert; lia).
  - done.
Qed.

Lemma con_world s devs w : con_ok s devs → con_ok (set_world w s) devs.
Proof. by intros [? ? ? ?]; split. Qed.

Lemma con_assigned s devs file i d : con_ok s devs → con_ok (assigned file i d s) devs.
Proof.
  intros [Hl Hd Hf Hj]. split; [exact Hl|done| |].
  - cbn. by rewrite length_insert.
  - cbn. destruct file as [|[|]]; rewrite ?length_insert; done.
Qed.

Lemma assigned_dev s devs file i d f : con_ok s devs → (file < 3)%nat → devs !! i = Some d →
  file_dev devs (assigned file i d s) f = if decide (f = file) then Some d else file_dev devs s f.
Proof.
  intros Hs Hf Hd. pose proof (co_files _ _ Hs) as Hl. unfold MAX_FILES in Hl. unfold file_dev. cbn. destruct (decide (f = file)) as [->|].
  - rewrite list_lookup_insert_eq by lia. cbn [mbind option_bind].
    destruct (Z.ltb_spec (Z.of_nat i + 1) 1); [lia|]. by replace (Z.to_nat (Z.of_nat i + 1 - 1)) with i by lia.
  - by rewrite list_lookup_insert_ne.
Qed.

Lemma valid_file (file : nat) : (file < 3)%nat → ((Z.of_nat file =? stdin) || (Z.of_nat file =? stdout) || (Z.of_nat file =? stderr)) = true.
Proof. intros Hf. destruct file as [|[|[|]]]; [done..|lia]. Qed.

Lemma setfile_spec s devs (file i : nat) d : con_ok s devs → (file < 3)%nat → devs !! i = Some d →
  setfile (Z.of_nat file) (Some (Z.of_nat i + 1)) s = setfile_result file i d s.
Proof.
  intros Hs Hf Hd. unfold console_setfile, setfile_result. rewrite valid_file by done.
  rewrite (bind_eq _ _ _ _ _ (device_found s devs i d Hs Hd)).
  destruct (Z.eqb_spec (dv_start d) 0); cbn [negb].
  - cbn [mbind option_bind]. change (0 <? 0) with false. cbv iota. replace (set_world (world s) s) with s by by destruct s.
    unfold mbind, st_bind, mret, st_ret. change (0 <? 0) with false. cbv iota beta. by rewrite (set_file_spec s devs).
  - unfold call_int, mbind, st_bind, get, lift, modify, mret, st_ret. destruct (call (dv_start d) (world s)) as [[w r]|]; [|done].
    cbn [option_bind]. destruct (r <? 0); [done|]. cbv beta. by rewrite (set_file_spec _ devs) by (try apply con_world; done).
Qed.

(** ** [console_assign] *)

Definition flag_of (file : nat) : Z := if decide (file = 0%nat) then DEV_FLAGS_INPUT else DEV_FLAGS_OUTPUT.

(** The first device of the name, if it has the direction of the file. *)
Definition assign_result devs (file : nat) (name : list Z) s : option (con W * Z) :=
  match list_find (λ d, name_of d = name) devs with
  | Some (i, d) => if Z.land (dv_flags d) (flag_of file) =? 0 then Some (s, -1) else setfile_result file i d s
  | None => Some (s, -1)
  end.

(** One round of the search. *)
Lemma step_spec s devs (file i : nat) name t : con_ok s devs → (file < 3)%nat → 0 ∉ name → bytes (name ++ 0 :: t) →
  assign_step printf_addr (Z.of_nat file) (flag_of file) (name ++ 0 :: t) (Z.of_nat i + 1) s =
    match devs !! i with
    | None => Some (s, inr (-1))
    | Some d =>
        if decide (name_of d = name) then
          if Z.land (dv_flags d) (flag_of file) =? 0 then Some (s, inr (-1))
          else '(s', r) ← setfile_result file i d s; Some (s', inr r)
        else Some (s, inl (Z.of_nat (S i) + 1))
    end.
Proof.
  intros Hs Hf Hn Hb. destruct (co_list _ _ Hs) as (l & El & Hl). pose proof (hi_num _ _ Hl) as Hnum. rewrite length_fmap in Hnum.
  unfold assign_step. rewrite (bind_eq _ _ s s l) by (unfold the_list, mbind, st_bind, get, lift; by rewrite El).
  destruct (devs !! i) as [d|] eqn:Hd.
  - pose proof (lookup_lt_Some _ _ _ Hd). destruct (Z.leb_spec (Z.of_nat i + 1) (numItems l)); [|lia].
    rewrite (bind_eq _ _ _ _ _ (device_found s devs _ d Hs Hd)).
    rewrite (bind_eq _ _ _ _ _ (name_found s devs _ d Hs Hd)).
    destruct (name_behind d) as (t' & Et & Hbt & Hz); [eapply Forall_lookup_1; [apply Hs|done]|].
    destruct (c_strcmp_spec (name ++ 0 :: t) (drop 8 (device_bytes d))) as (r & Er & Hr);
      [rewrite elem_of_app, elem_of_cons; auto|rewrite Et, elem_of_app, elem_of_cons; auto|done..|].
    rewrite Et, !cut_app in Hr by done. rewrite (bind_eq _ _ s s r) by (unfold lift; by rewrite Er).
    destruct (Z.eqb_spec r 0) as [E0|E0].
    + rewrite decide_True by (symmetry; tauto). destruct (Z.land (dv_flags d) (flag_of file) =? 0); cbn [negb]; [done|].
      unfold mbind, st_bind. rewrite (setfile_spec s devs file i d) by done. by destruct (setfile_result _ _ _ _) as [[]|].
    + rewrite decide_False by (intros <-; tauto). cbv [mret st_ret]. do 3 f_equal. lia.
  - apply lookup_ge_None_1 in Hd. destruct (Z.leb_spec (Z.of_nat i + 1) (numItems l)); [lia|done].
Qed.

Lemma assign_loop s devs (file : nat) name t : con_ok s devs → (file < 3)%nat → 0 ∉ name → bytes (name ++ 0 :: t) →
  ∀ rest pre fuel, devs = pre ++ rest → (length rest < fuel)%nat →
  mloop fuel (assign_step printf_addr (Z.of_nat file) (flag_of file) (name ++ 0 :: t)) (Z.of_nat (length pre) + 1) s =
    match list_find (λ d, name_of d = name) rest with
    | Some (i, d) => if Z.land (dv_flags d) (flag_of file) =? 0 then Some (s, -1) else setfile_result file (length pre + i) d s
    | None => Some (s, -1)
    end.
Proof.
  intros Hs Hf Hn Hb. induction rest as [|d rest IH]; intros pre fuel E Hfu; (destruct fuel as [|fuel]; [cbn in Hfu; lia|]);
    rewrite mloop_S; unfold mbind, st_bind; rewrite (step_spec s devs) by done; cbn [list_find].
  - rewrite lookup_ge_None_2 by (rewrite E, length_app; cbn; lia). done.
  - assert (devs !! length pre = Some d) as -> by (rewrite E; by apply list_lookup_middle).
    destruct (decide (name_of d = name)).
    + destruct (Z.land (dv_flags d) (flag_of file) =? 0); [done|]. rewrite Nat.add_0_r.
      by destruct (setfile_result _ _ _ _) as [[]|].
    + replace (Z.of_nat (S (length pre)) + 1) with (Z.of_nat (length (pre ++ [d])) + 1) by (rewrite length_app; cbn [length]; lia).
      rewrite IH by (rewrite <-?app_assoc; done || (cbn in Hfu; lia)).
      destruct (list_find _ rest) as [[k d']|]; [|done]. cbn [prod_map fmap option_fmap option_map fst snd id].
      rewrite length_app. cbn [length]. by replace (length pre + 1 + k)%nat with (length pre + S k)%nat by lia.
Qed.

Lemma assign_spec s devs (file : nat) name t : con_ok s devs → (file < 3)%nat → 0 ∉ name → bytes (name ++ 0 :: t) →
  assign (Z.of_nat file) (name ++ 0 :: t) s = assign_result devs file name s.
Proof.
  intros Hs Hf Hn Hb. destruct (co_list _ _ Hs) as (l & El & Hl). pose proof (hi_num _ _ Hl) as Hnum. rewrite length_fmap in Hnum.
  unfold console_assign. rewrite valid_file by done.
  replace (if Z.of_nat file =? stdin then DEV_FLAGS_INPUT else DEV_FLAGS_OUTPUT) with (flag_of file)
    by (unfold flag_of; by destruct file).
  unfold the_list, mbind at 1 2, st_bind at 1 2, get, lift. rewrite El.
  by rewrite (assign_loop s devs file name t Hs Hf Hn Hb devs []) by (done || lia).
Qed.

(** ** What is read and written *)

Definition directed devs s (file : nat) (serial : Z) (f : device_t → Z) : option Z :=
  if Z.land (gd_flags s) GD_FLG_DEVINIT =? 0 then Some serial else f <$> file_dev devs s file.

Ltac route i Hs open :=
  unfold devinit; unfold mbind at 1 2, st_bind at 1 2, get; cbv [mret st_ret];
  case_match; cbn [negb]; [by intros [= ->]|];
  let Ed := fresh in destruct (file_dev _ _ i) eqn:Ed; [|done]; intros [= <-];
  open; case_match; [|done]; by rewrite (bind_eq _ _ _ _ _ (file_found _ _ i _ Hs Ed)).

Lemma puts_routed s devs text f : con_ok s devs → directed devs s 1 serial_puts dv_puts = Some f → puts serial_puts text s = call_puts f text s.
Proof. intros Hs. unfold directed, puts. route 1%nat Hs ltac:(unfold fputs). Qed.
Lemma putc_routed s devs c f : con_ok s devs → directed devs s 1 serial_putc dv_putc = Some f → putc serial_putc c s = call_putc f c s.
Proof. intros Hs. unfold directed, putc. route 1%nat Hs ltac:(unfold fputc). Qed.
Lemma getc_routed s devs f : con_ok s devs → directed devs s 0 serial_getc dv_getc = Some f → getc serial_getc s = call_int f s.
Proof. intros Hs. unfold directed, getc. route 0%nat Hs ltac:(unfold fgetc). Qed.
Lemma tstc_routed s devs f : con_ok s devs → directed devs s 0 serial_tstc dv_tstc = Some f → tstc serial_tstc s = call_int f s.
Proof. intros Hs. unfold directed, tstc. route 0%nat Hs ltac:(unfold ftstc). Qed.

(** ** Start-up *)

#[local] Abbreviation serial := (serial_device serial_putc serial_puts serial_tstc serial_getc).
Context (Hwords : Forall word_ok [serial_putc; serial_puts; serial_tstc; serial_getc]).

Lemma serial_ok : dev_ok serial.
Proof using Hwords.
  rewrite !Forall_cons in Hwords. destruct Hwords as (? & ? & ? & ? & _). split.
  - split_and!; by_eval.
  - cbn [serial_device dv_flags dv_ext dv_start dv_stop dv_putc dv_puts dv_tstc dv_getc dv_priv].
    rewrite !Forall_cons. split_and!; try done; by_eval.
Qed.

Lemma devices_init_spec granted fresh s : (∀ n, granted n = true) → (4 <= length fresh)%nat →
  Z.of_nat (length (stdio_devices s)) = MAX_FILES → (6 <= length (jt s))%nat →
  ∃ l, devices_init granted fresh serial_putc serial_puts serial_tstc serial_getc s = Some (set_devlist (Some l) s, 0) ∧
    con_ok (set_devlist (Some l) s) [serial].
Proof using Hwords.
  intros Hg Hfresh Hf Hj. unfold devices_init, mbind at 1, st_bind at 1, modify.
  assert (∃ l, ListCreate granted fresh sizeof_device = Some l ∧ itemSize l = sizeof_device ∧ listSize l = 0 ∧ NUMITEMSPERALLOC l = 4 ∧ numItems l = 0)
    as (l & El & Ei & Es & En & Em).
  { unfold ListCreate, NewHandle. rewrite !Hg. cbn [andb orb]. by eexists. }
  destruct (create_spec _ _ _ _ El) as (Hl & Hpol); [done|done|]. rewrite El.
  pose proof (insert_cases granted l [] [device_bytes serial] (Some (device_bytes serial)) LIST_END Hl) as Hins.
  unfold insert_index in Hins. rewrite Hg, Em, Es in Hins. cbn [Z.eqb Z.leb Z.ltb orb andb negb Z.compare Z.add] in Hins. destruct Hins as (l' & E' & Hl').
  - split; [|by exists []; rewrite app_nil_r; symmetry; apply app_nil_r]. constructor; [|done]. rewrite Ei. apply device_length, serial_ok.
  - intros _. split; [done|]. unfold enlarged. rewrite Es, Ei, En. by_eval.
  - exists l'. split.
    + unfold drv_system_init, device_register, the_list, mbind, st_bind, get, lift, modify, mret, st_ret. cbn [devlist set_devlist].
      unfold ListInsertItem. change (Z.of_nat (length [device_bytes serial])) with 1 in E'. rewrite E'. done.
    + split; [by exists l'|apply Forall_singleton, serial_ok|done..].
Qed.

(** The state with the serial device in all three files. *)
Definition started s : con W :=
  let s := assigned 0 0 serial (assigned 2 0 serial (assigned 1 0 serial s)) in
  set_gd (have_console s) (Z.lor (gd_flags s) GD_FLG_DEVINIT) s.

Lemma con_started s : con_ok s [serial] → con_ok (started s) [serial].
Proof. intros Hs. apply (con_assigned _ _ 1 0 serial), (con_assigned _ _ 2 0 serial), (con_assigned _ _ 0 0 serial) in Hs as [? ? ? ?]. by split. Qed.

Lemma started_dev s (f : nat) : con_ok s [serial] → (f < 3)%nat → file_dev [serial] (started s) f = Some serial.
Proof.
  intros Hs Hf. change (file_dev [serial] (started s) f) with
    (file_dev [serial] (assigned 0 0 serial (assigned 2 0 serial (assigned 1 0 serial s))) f).
  rewrite !assigned_dev by (repeat apply con_assigned; done || lia).
  destruct f as [|[|[|]]]; [done..|lia].
Qed.

Lemma started_init s : negb (Z.land (gd_flags (started s)) GD_FLG_DEVINIT =? 0) = true.
Proof.
  cbn. apply negb_true_iff, Z.eqb_neq. intros E. apply (f_equal (λ z, Z.testbit z 1)) in E.
  rewrite Z.land_spec, Z.lor_spec, Z.bits_0 in E. cbn in E. by rewrite orb_true_r in E.
Qed.

Lemma started_directed s (f : nat) z fld : con_ok s [serial] → (f < 3)%nat → directed [serial] (started s) f z fld = Some (fld serial).
Proof.
  intros Hs Hf. unfold directed. rewrite started_dev by done. pose proof (started_init s) as E. by destruct (_ =? 0).
Qed.

(** A console where every file is on the serial port. *)
Record up_ok s : Prop := mkUp {
  up_con : con_ok s [serial];
  up_init : negb (Z.land (gd_flags s) GD_FLG_DEVINIT =? 0) = true;
  up_files : stdio_devices s = [Some 1; Some 1; Some 1];
}.

Lemma set_world_twice s w w' : set_world w (set_world w' s) = set_world w s.
Proof. done. Qed.

Lemma up_world s w : up_ok s → up_ok (set_world w s).
Proof. intros [H1 H2 H3]. split; [by apply con_world|done..]. Qed.

Lemma up_started s : con_ok s [serial] → up_ok (started s).
Proof.
  intros Hs. split; [by apply con_started|apply started_init|].
  pose proof (co_files _ _ Hs) as Hl. unfold MAX_FILES in Hl. cbn.
  destruct (stdio_devices s) as [|? [|? [|? [|]]]]; cbn in Hl; try lia. done.
Qed.

Lemma up_directed s (f : nat) z fld : up_ok s → (f < 3)%nat → directed [serial] s f z fld = Some (fld serial).
Proof.
  intros [_ E Hf] Hl. unfold directed, file_dev. rewrite Hf. destruct (_ =? 0); [done|].
  by destruct f as [|[|[|]]]; [done..|lia].
Qed.

(** Nothing else is heard or written to. *)
Lemma up_routes s : up_ok s →
  (∀ text, puts serial_puts text s = call_puts serial_puts text s) ∧ (∀ c, putc serial_putc c s = call_putc serial_putc c s) ∧
  getc serial_getc s = call_int serial_getc s ∧ tstc serial_tstc s = call_int serial_tstc s.
Proof.
  intros Hs. pose proof (up_con _ Hs) as Hc.
  split_and!; [intros t; apply (puts_routed s [serial] t)|intros c; apply (putc_routed s [serial] c)
    |apply (getc_routed s [serial])|apply (tstc_routed s [serial])]; done || (apply up_directed; [done|lia]).
Qed.

Fixpoint say (texts : list (list Z)) (w : W) : option W :=
  match texts with [] => Some w | t :: ts => w ← call_string serial_puts t w; say ts w end.

(** What is printed: the line is the first part of the buffer. *)
Definition serial_line (buf : list Z) : list Z := str "serial" ++ [10; 0] ++ drop 8 buf.
Definition info (buf : list Z) : list (list Z) :=
  [lit "In:    "; serial_line buf; lit "Out:   "; serial_line buf; lit "Err:   "; serial_line buf].

Lemma print_file_spec s (f : nat) buf title none w w' : up_ok s → (f < 3)%nat → (8 <= length buf)%nat →
  world s = w → say [lit title; serial_line buf] w = Some w' →
  print_file serial_puts buf (Z.of_nat f) title none s = Some (set_world w' s, tt).
Proof.
  intros Hs Hf Hb Hw Hsay. cbn [say] in Hsay. apply bind_Some in Hsay as (w1 & E1 & Hsay). apply bind_Some in Hsay as (w2 & E2 & [= <-]).
  unfold print_file, mbind at 1, st_bind at 1. rewrite (proj1 (up_routes s Hs)).
  unfold call_puts at 1, mbind at 1 2, st_bind at 1 2, get, lift, modify. rewrite Hw, E1.
  pose proof (up_world s w1 Hs) as Hs1. set (s1 := set_world w1 s) in *.
  unfold mbind at 1 2, st_bind at 1 2. rewrite idx_nat, (up_files _ Hs1).
  replace ([Some 1; Some 1; Some 1] !! f) with (Some (Some 1)) by (destruct f as [|[|[|]]]; [done..|lia]).
  change (Some 1) with (Some (Z.of_nat 0 + 1)). cbv iota beta.
  rewrite (bind_eq _ _ _ _ _ (name_found s1 [serial] 0 serial (up_con _ Hs1) eq_refl)).
  unfold printf. rewrite (bind_eq _ _ s1 s1 (serial_line buf, 7)).
  - rewrite (proj1 (up_routes s1 Hs1)).
    unfold call_puts, mbind, st_bind, get, lift, modify. cbn [world s1 set_world]. by rewrite E2.
  - unfold lift. assert (sprintf buf (str "%s" ++ [10; 0]) [AStr (Some (drop 8 (device_bytes serial)))] = Some (serial_line buf, 7)) as ->; [|done].
    unfold sprintf. assert (vsprintf (str "%s" ++ [10; 0]) [AStr (Some (drop 8 (device_bytes serial)))] = Some (str "serial" ++ [10], [])) as -> by reflexivity.
    cbn [mbind option_bind]. unfold blit. destruct (Z.leb_spec (0 + Z.of_nat (length ((str "serial" ++ [10]) ++ [0]))) (Z.of_nat (length buf))) as [|Hx];
      [done|cbn in Hx; lia].
Qed.

Lemma scan_spec s l : con_ok s [serial] → devlist s = Some l → numItems l = 1 →
  mloop 2 scan_step (1, None, None) s = Some (s, (Some 1, Some 1)).
Proof.
  intros Hs El Hn. assert (the_list s = Some (s, l)) as Hlist by (unfold the_list, mbind, st_bind, get, lift; by rewrite El).
  assert (scan_step (1, None, None) s = Some (s, inl (2, Some 1, Some 1))) as E1.
  { unfold scan_step. unfold mbind at 1, st_bind at 1. rewrite Hlist, Hn. change ((1 <=? 1) && _) with true. cbv iota.
    by rewrite (bind_eq _ _ _ _ _ (device_found s [serial] 0 serial Hs eq_refl)). }
  assert (scan_step (2, Some 1, Some 1) s = Some (s, inr (Some 1, Some 1))) as E2.
  { unfold scan_step. unfold mbind at 1, st_bind at 1. by rewrite Hlist, Hn. }
  rewrite mloop_S. unfold mbind, st_bind. rewrite E1, mloop_S. unfold mbind, st_bind. by rewrite E2.
Qed.

Lemma setfile_serial s (file : nat) : con_ok s [serial] → (file < 3)%nat →
  setfile (Z.of_nat file) (Some 1) s = Some (assigned file 0 serial s, 0).
Proof.
  intros Hs Hf. change 1 with (Z.of_nat 0 + 1). rewrite (setfile_spec s [serial] file 0 serial) by done.
  unfold setfile_result. cbn [dv_start serial_device Z.eqb mbind option_bind]. by destruct s.
Qed.

Lemma assign_files_spec s buf w : con_ok s [serial] → (8 <= length buf)%nat → say (info buf) (world s) = Some w →
  assign_files serial_puts printf_addr buf s = Some (set_world w (started s), tt).
Proof.
  intros Hs Hb Hsay. destruct (co_list _ _ Hs) as (l & El & Hl). pose proof (hi_num _ _ Hl) as Hn. cbn in Hn.
  assert (∃ w1 w2, say [lit "In:    "; serial_line buf] (world s) = Some w1 ∧ say [lit "Out:   "; serial_line buf] w1 = Some w2 ∧
    say [lit "Err:   "; serial_line buf] w2 = Some w) as (w1 & w2 & E1 & E2 & E3).
  { cbn [say info] in *. repeat (apply bind_Some in Hsay as (? & ? & Hsay)). simplify_option_eq. eexists _, _. split_and!; by simplify_option_eq. }
  unfold assign_files. rewrite (bind_eq _ _ s s l) by (unfold the_list, mbind, st_bind, get, lift; by rewrite El).
  rewrite Hn. rewrite (bind_eq _ _ s s (Some 1, Some 1)) by by eapply scan_spec.
  cbv iota beta. unfold mbind at 1, st_bind at 1.
  rewrite (bind_eq _ _ _ _ _ (setfile_serial s 1 Hs ltac:(lia))).
  rewrite (bind_eq _ _ _ _ _ (setfile_serial _ 2 (con_assigned _ _ 1 0 serial Hs) ltac:(lia))). cbv [mret st_ret].
  unfold mbind at 1, st_bind at 1.
  rewrite (bind_eq _ _ _ _ _ (setfile_serial _ 0 (con_assigned _ _ 2 0 serial (con_assigned _ _ 1 0 serial Hs)) ltac:(lia))). cbv [mret st_ret].
  unfold mbind at 1, st_bind at 1, modify. fold (started s). pose proof (up_started s Hs) as Hu.
  rewrite (bind_eq _ _ _ _ _ (print_file_spec (started s) 0 buf _ _ _ w1 Hu ltac:(lia) Hb eq_refl E1)).
  rewrite (bind_eq _ _ _ _ _ (print_file_spec _ 1 buf _ _ _ w2 (up_world _ w1 Hu) ltac:(lia) Hb eq_refl E2)).
  rewrite (print_file_spec _ 2 buf _ _ _ w (up_world _ w2 (up_world _ w1 Hu)) ltac:(lia) Hb eq_refl E3).
  by rewrite !set_world_twice.
Qed.

(** ** The environment *)

Implicit Types (e : env_state (con W)).

Definition file_names : list (list Z) := [str "stdin"; str "stdout"; str "stderr"].
Definition serial_var (name : list Z) : var := (name, str "serial").

Lemma wp_name_file (f : nat) name e es (Q : env_state (con W) → unit → Prop) : up_ok (console e) → file_names !! f = Some name →
  env_ok (env_bytes e) es → name ∉ es.*1 → Z.of_nat (length (encs es) + length (enc (serial_var name)) + 1) <= ENV_SIZE →
  (∀ env', env_ok env' (es ++ [serial_var name]) → Q (set_env_bytes env' e) tt) →
  wp (name_file printf_addr (Z.of_nat f) tt) e Q.
Proof.
  intros Hu Hname Henv Hnew Hfit HQ. unfold name_file.
  assert (name_ok name ∧ bytes (name ++ [0]) ∧ (name ∉ updated) ∧ idx stdio_names (Z.of_nat f) = Some (name ++ [0])) as (Hno & Hb & Hupd & Hidx).
  { unfold file_names in Hname. rewrite idx_nat. destruct f as [|[|[|]]]; [| | |done]; injection Hname as <-; split_and!; by_eval. }
  apply wp_bind. eapply wp_lift; [exact Hidx|]. apply wp_bind.
  pose proof (up_con _ Hu) as Hc. set (dev := drop 8 (device_bytes serial)).
  apply (wp_intro _ _ _ e dev).
  { unfold on_con. assert (file_name (Z.of_nat f) (console e) = Some (console e, dev)) as ->; [|by destruct e].
    unfold file_name, mbind, st_bind, get, lift. rewrite idx_nat, (up_files _ Hu).
    replace ([Some 1; Some 1; Some 1] !! f) with (Some (Some 1)) by (destruct f as [|[|[|]]]; done).
    cbv iota beta. change 1 with (Z.of_nat 0 + 1). by rewrite (name_found _ [serial] 0 serial Hc eq_refl). }
  unfold setenv. apply wp_bind.
  apply (wp_setenv_new name [] Hno Hb (lit "setenv") [dev] [None] e es); [done|done|done| |].
  { apply Forall_singleton. unfold dev. by_eval. }
  intros env' r Hr. apply wp_ret. apply HQ. unfold setenv_result in Hr.
  change (bool_decide ([dev] = [])) with false in Hr. change (value_of [dev]) with (str "serial") in Hr. cbv iota in Hr.
  rewrite remove_first_new in Hr by done. change (name, str "serial") with (serial_var name) in Hr.
  destruct (Z.leb_spec (Z.of_nat (length (encs es) + length (enc (serial_var name)) + 1)) ENV_SIZE); [by apply Hr|lia].
Qed.

Lemma wp_console_init_r e es buf w (Q : env_state (con W) → Z → Prop) : con_ok (console e) [serial] → (8 <= length buf)%nat →
  say (info buf) (world (console e)) = Some w → env_ok (env_bytes e) es → Forall (λ n, n ∉ es.*1) file_names →
  Z.of_nat (length (encs (es ++ (serial_var <$> file_names))) + 1) <= ENV_SIZE →
  (∀ env', env_ok env' (es ++ (serial_var <$> file_names)) →
     Q (set_env_bytes env' (Env.set_console (set_world w (started (console e))) e)) 0) →
  wp (console_init_r serial_puts printf_addr buf) e Q.
Proof using Hwords.
  intros Hc Hb Hsay Henv Hnew Hfit HQ. unfold console_init_r. apply wp_bind.
  eapply wp_intro; [unfold on_con; by rewrite (assign_files_spec _ buf w Hc Hb Hsay)|].
  pose proof (up_world _ w (up_started _ Hc)) as Hu. set (c := set_world w (started (console e))) in *.
  unfold file_names in Hnew. rewrite !Forall_cons in Hnew. destruct Hnew as (N1 & N2 & N3 & _).
  cbn [file_names fmap list_fmap] in Hfit, HQ. rewrite !encs_app, !encs_cons, !length_app in Hfit.
  apply wp_bind. cbn [mfor]. apply wp_bind. change 0 with (Z.of_nat 0) at 1.
  eapply (wp_name_file 0); [done|done|exact Henv|done|lia|]. intros env1 H1.
  apply wp_bind. change 1 with (Z.of_nat 1) at 1.
  eapply (wp_name_file 1); [done|done|exact H1| |rewrite encs_app, encs_cons, !length_app; cbn [length encs fmap list_fmap concat]; lia|].
  { rewrite fmap_app, elem_of_app. cbn [fmap list_fmap fst serial_var]. rewrite list_elem_of_singleton. by intros [|]. }
  intros env2 H2. apply wp_bind. change 2 with (Z.of_nat 2) at 1.
  eapply (wp_name_file 2); [done|done|exact H2| |rewrite !encs_app, !encs_cons, !length_app; cbn [length encs fmap list_fmap concat]; lia|].
  { rewrite !fmap_app, !elem_of_app. cbn [fmap list_fmap fst serial_var]. rewrite !list_elem_of_singleton. intros [[|]|]; done. }
  intros env3 H3. apply wp_ret, wp_ret. rewrite <-!app_assoc in H3. by apply (HQ env3).
Qed.

(** ** What the assignment changes *)

Lemma assign_moves s devs (file : nat) name s' r : con_ok s devs → (file < 3)%nat → assign_result devs file name s = Some (s', r) →
  con_ok s' devs ∧ ∀ f, file_dev devs s' f =
    if decide (f = file ∧ 0 <= r) then snd <$> list_find (λ d, name_of d = name) devs else file_dev devs s f.
Proof.
  intros Hs Hf. unfold assign_result. destruct (list_find _ devs) as [[i d]|] eqn:Ed.
  - apply list_find_Some in Ed as (Hd & _). destruct (_ =? 0).
    + intros [= <- <-]. split; [done|]. intros f. rewrite decide_False by lia. done.
    + unfold setfile_result. destruct (if dv_start d =? 0 then _ else _) as [[w r']|]; [|done]. cbn [mbind option_bind].
      destruct (Z.ltb_spec r' 0); intros [= <- <-].
      * split; [by apply con_world|]. intros f. by rewrite decide_False by lia.
      * split; [by apply con_assigned, con_world|]. intros f. rewrite assigned_dev by (done || by apply con_world).
        destruct (decide (f = file)); [rewrite decide_True by done|rewrite decide_False by tauto]; done.
  - intros [= <- <-]. split; [done|]. intros f. by rewrite decide_False by lia.
Qed.

Lemma started_jt s : (6 <= length (jt s))%nat →
  take 5 (drop 1 (jt (started s))) = [serial_getc; serial_tstc; serial_putc; serial_puts; printf_addr].
Proof. cbn. destruct (jt s) as [|? [|? [|? [|? [|? [|? ?]]]]]]; cbn; try lia. done. Qed.
End spec.

(** C37: [console_assign] directs a file to the first device of the name.
    When there is none, or it has not the direction of the file, or its
    start function fails, the result is negative and every file stands for
    the device it stood for; else the file stands for that device and the
    others stay. *)
Theorem console_assign_exact {W} `{Drivers W} printf_addr (s : con W) devs (file : nat) name t
    (Hs : con_ok s devs) (Hf : (file < 3)%nat) (Hn : 0 ∉ name) (Hb : bytes (name ++ 0 :: t)) :
  console_assign printf_addr (Z.of_nat file) (name ++ 0 :: t) s = assign_result printf_addr devs file name s ∧
  ∀ s' r, assign_result printf_addr devs file name s = Some (s', r) →
    con_ok s' devs ∧ ∀ f, file_dev devs s' f =
      if decide (f = file ∧ 0 <= r) then snd <$> list_find (λ d, name_of d = name) devs else file_dev devs s f.
Proof. split; [by apply assign_spec|]. intros s' r. by apply assign_moves. Qed.

(** C25: start-up of the console, [devices_init] and [console_init_r], with
    memory for the list: the serial port is registered and becomes the
    device of the three files, the lines about them are printed there, the
    variables [stdin], [stdout] and [stderr] are set to "serial", and from
    then on what is read and written, through the jump table too, goes to
    the serial driver. *)
Theorem console_starts {W} `{Drivers W} granted fresh serial_putc serial_puts serial_tstc serial_getc printf_addr
    (e : env_state (con W)) es buf w
    (Hwords : Forall word_ok [serial_putc; serial_puts; serial_tstc; serial_getc])
    (Hg : ∀ n, granted n = true) (Hfresh : (4 <= length fresh)%nat)
    (Hfiles : Z.of_nat (length (stdio_devices (console e))) = MAX_FILES) (Hjt : (6 <= length (jt (console e)))%nat)
    (Hb : (8 <= length buf)%nat)
    (Hsay : say serial_puts (info buf) (world (console e)) = Some w)
    (Henv : env_ok (env_bytes e) es) (Hnew : Forall (λ n, n ∉ es.*1) file_names)
    (Hfit : Z.of_nat (length (encs (es ++ (serial_var <$> file_names))) + 1) <= ENV_SIZE) :
  ∃ e', (_ ← on_con (devices_init granted fresh serial_putc serial_puts serial_tstc serial_getc);
         console_init_r serial_puts printf_addr buf) e = Some (e', 0) ∧
    env_ok (env_bytes e') (es ++ (serial_var <$> file_names)) ∧
    world (console e') = w ∧ stdio_devices (console e') = [Some 1; Some 1; Some 1] ∧
    take 5 (drop 1 (jt (console e'))) = [serial_getc; serial_tstc; serial_putc; serial_puts; printf_addr] ∧
    (∀ text, puts serial_puts text (console e') = call_puts serial_puts text (console e')) ∧
    (∀ c, putc serial_putc c (console e') = call_putc serial_putc c (console e')) ∧
    getc serial_getc (console e') = call_int serial_getc (console e') ∧
    tstc serial_tstc (console e') = call_int serial_tstc (console e').
Proof.
  destruct (devices_init_spec serial_putc serial_puts serial_tstc serial_getc Hwords granted fresh (console e)) as (l & El & Hc); [done..|].
  set (c1 := set_devlist (Some l) (console e)) in *.
  destruct (wp_elim (_ ← on_con (devices_init granted fresh serial_putc serial_puts serial_tstc serial_getc);
      console_init_r serial_puts printf_addr buf) e (λ e' r, r = 0 ∧ env_ok (env_bytes e') (es ++ (serial_var <$> file_names)) ∧
        console e' = set_world w (started serial_putc serial_puts serial_tstc serial_getc printf_addr c1)))
    as (e' & r & E & -> & He & Ec).
  { apply wp_bind. eapply wp_intro; [unfold on_con; by rewrite El|].
    eapply wp_console_init_r; [exact Hwords|exact Hc|done|exact Hsay|exact Henv|done|done|]. intros env' He. done. }
  pose proof (up_world _ _ _ _ _ w (up_started _ _ _ _ printf_addr c1 Hc)) as Hu.
  exists e'. split; [done|]. split; [done|]. rewrite Ec. split; [done|]. split; [apply Hu|]. split; [by apply started_jt|].
  apply (up_routes _ _ _ _ _ Hu).
Qed.

(** ** An example: the serial port and a display that has to be started *)

#[local] Instance demo_drivers : Drivers (list (list Z)) := {|
  call f w := Some (w, f); call_char f c w := Some (w ++ [[c]]); call_string f t w := Some (w ++ [cut t]) |}.
#[local] Definition demo_devices : list device_t :=
  [serial_device 11 12 13 14; mkDevice DEV_FLAGS_OUTPUT 0 (str "lcd" ++ replicate 13 0) 99 0 21 22 0 0 0].
#[local] Definition demo_devlist : ListStruct :=
  mkList LIST_SIGNATURE 10 4 2 sizeof_device 2 (concat (device_bytes <$> demo_devices) ++ [7; 7; 7; 7]) 132.
#[local] Definition demo_con : con (list (list Z)) :=
  mkCon (Some demo_devlist) [Some 1; Some 1; Some 1] (replicate 6 0) 1 GD_FLG_DEVINIT 0 0 [].

Lemma demo_con_ok : con_ok demo_con demo_devices.
Proof.
  split; [|repeat constructor; by_eval|done|by_eval].
  exists demo_devlist. split; [done|]. split; try by_eval. by eexists.
Qed.

(** Standard output goes to the display. *)
Lemma console_assign_exact_witness : ∃ s', console_assign 15 1 (lit "lcd") demo_con = Some (s', 99) ∧
  con_ok s' demo_devices ∧ file_dev demo_devices s' 1 = demo_devices !! 1%nat ∧ file_dev demo_devices s' 0 = demo_devices !! 0%nat.
Proof.
  destruct (console_assign_exact 15 demo_con demo_devices 1 (str "lcd") [] demo_con_ok) as (E & Hs); [by_eval..|].
  eexists. split; [exact E|]. destruct (Hs _ _ eq_refl) as (Hok & Hf). split; [exact Hok|]. by rewrite !Hf.
Defined.

#[local] Definition demo_env : env_state (con (list (list Z))) :=
  mkEnv (replicate (Z.to_nat ENV_SIZE) 0) (mkCon None [None; None; None] (replicate 6 0) 1 0 0 0 []) 115200 [] 0 0 [].

Lemma console_starts_witness : ∃ e', (_ ← on_con (devices_init (λ _, true) [0; 0; 0; 0] 11 12 13 14);
    console_init_r 12 15 (replicate 20 0)) demo_env = Some (e', 0) ∧
  world (console e') = [str "In:    "; str "serial" ++ [10]; str "Out:   "; str "serial" ++ [10]; str "Err:   "; str "serial" ++ [10]] ∧
  getc 14 (console e') = Some (console e', 14).
Proof.
  destruct (console_starts (λ _, true) [0; 0; 0; 0] 11 12 13 14 15 demo_env [] (replicate 20 0)
    [str "In:    "; str "serial" ++ [10]; str "Out:   "; str "serial" ++ [10]; str "Err:   "; str "serial" ++ [10]])
    as (e' & E & _ & Hw & _ & _ & _ & _ & Hg & _).
  - repeat constructor; by_eval.
  - done.
  - by_eval.
  - by_eval.
  - by_eval.
  - by_eval.
  - by_eval.
  - split; [by_eval|done|]. exists (replicate (Z.to_nat ENV_SIZE - 2) 0). by_eval.
  - repeat constructor; by_eval.
  - by_eval.
  - exists e'. split; [exact E|]. split; [exact Hw|]. rewrite Hg. by destruct (console e').
Defined.
