(* ===== verification/Bootm.v ===== *)
(** [do_bootm] of [common/cmd_bootm.c] and [do_bootm_linux] of
    [lib_arm/armlinux.c]: starting an image of [include/image.h] that lies in
    memory.  [SIGNATURE_BYPASS] is defined; zlib is vendored and a parameter. *)
From stdpp Require Import base tactics option list gmap strings.
From Stdlib Require Import ZArith Lia.
From S2P Require Import Prelude.
From S2P Require Import CMem.
From S2P Require Import CString.
From S2P Require Import Crc32.
From S2P Require Import MmcDev.
From S2P Require Import Eff.
From S2P Require Import CBuf.
From S2P Require Import Vsprintf.
From S2P Require Import Env.
From S2P Require Import Atags.
Open Scope Z_scope.

(** ** Data *)

Definition IH_OS_NETBSD : Z := 2.
Definition IH_OS_LINUX : Z := 5.
Definition IH_OS_RTEMS : Z := 18.
Definition IH_CPU_ARM : Z := 2.
Definition IH_TYPE_STANDALONE : Z := 1.
Definition IH_TYPE_KERNEL : Z := 2.
Definition IH_TYPE_RAMDISK : Z := 3.
Definition IH_TYPE_MULTI : Z := 4.
Definition IH_COMP_NONE : Z := 0.
Definition IH_COMP_GZIP : Z := 1.
Definition IH_MAGIC : Z := 0x27051956.

(** Offsets in [image_header_t]. *)
Definition ih_magic : Z := 0.
Definition ih_hcrc : Z := 4.
Definition ih_size : Z := 12.
Definition ih_load : Z := 16.
Definition ih_ep : Z := 20.
Definition ih_dcrc : Z := 24.
Definition ih_os : Z := 28.
Definition ih_arch : Z := 29.
Definition ih_type : Z := 30.
Definition ih_comp : Z := 31.
Definition sizeof_image_header : Z := 64.

Definition ISW_CERTIFICATE_LENGTH_FULL : Z := 0x350.
Definition CFG_BOOTM_LEN : Z := 0x800000.

Definition swab32 (x : Z) : Z :=
  Z.lor (Z.lor (Z.lor (Z.shiftl (Z.land x 0xff) 24) (Z.shiftl (Z.land x 0xff00) 8)) (Z.shiftr (Z.land x 0xff0000) 8))
    (Z.shiftr (Z.land x 0xff000000) 24).
Definition ntohl (x : Z) : Z := swab32 x.

(** Where control goes.  Another loader or program gets its entry point and
    arguments. *)
Inductive bootm_result :=
  | Linux (e : kernel_entry)
  | Netbsd (loader img_addr : Z) (cmdline : list Z)
  | Rtems (entry_point : Z)
  | Application (appl argc : Z) (argv : list (list Z))
  | Reset
  | Return (r : Z).

(** The boot, the global [header] and the environment. *)
Record bootm (D C : Type) := mkBootm { m_boot : boot D; m_header : list Z; m_env : env_state C }.
Arguments mkBootm {D C}.
Arguments m_boot {D C}.
Arguments m_header {D C}.
Arguments m_env {D C}.

(** ** Decompression *)

Definition HEAD_CRC : Z := 2.
Definition EXTRA_FIELD : Z := 4.
Definition ORIG_NAME : Z := 8.
Definition COMMENT : Z := 16.
Definition RESERVED : Z := 0xe0.
Definition DEFLATED : Z := 8.
Definition Z_OK : Z := 0.
Definition Z_STREAM_END : Z := 1.

(** zlib: the result of [inflateInit2], and [inflate] from memory
    ([next_in], [avail_in]) to memory ([next_out], [avail_out]), with its
    result and the new [next_out]. *)
Record zlib := mkZlib { inflateInit2 : Z; inflate : mem → Z → Z → Z → Z → option (mem * Z * Z) }.

(** [while (src[i++] != 0)]. *)
Definition string_step (m : mem) (src i : Z) : option (Z + Z) :=
  c ← load m (src + i); Some (if c =? 0 then inr (i + 1) else inl (i + 1)).
Definition skip_string (m : mem) (src flags flag i : Z) : option Z :=
  if negb (Z.land flags flag =? 0) then loop (fuel_of m) (string_step m src) i else Some i.

(** The length of the header, [None] for one that is refused. *)
Definition skip_header (m : mem) (src : Z) : option (option Z) :=
  flags ← load m (src + 3);
  method ← load m (src + 2);
  if negb (method =? DEFLATED) || negb (Z.land flags RESERVED =? 0) then Some None else
  i ← (if negb (Z.land flags EXTRA_FIELD =? 0)
       then a ← load m (src + 10); b ← load m (src + 11); Some (12 + a + Z.shiftl b 8) else Some 10);
  i ← skip_string m src flags ORIG_NAME i;
  i ← skip_string m src flags COMMENT i;
  Some (Some (if negb (Z.land flags HEAD_CRC =? 0) then i + 2 else i)).

(** The memory, the length and the result. *)
Definition gunzip (z : zlib) (m : mem) (dst dstlen src len : Z) : option (mem * Z * Z) :=
  o ← skip_header m src;
  match o with
  | None => Some (m, len, -1)
  | Some i =>
      if len <=? i then Some (m, len, -1) else
      if negb (inflateInit2 z =? Z_OK) then Some (m, len, -1) else
      '(m, r, next_out) ← inflate z m (src + i) (u32 (len - i)) dst dstlen;
      if negb (r =? Z_OK) && negb (r =? Z_STREAM_END) then Some (m, len, -1)
      else Some (m, u32 (next_out - dst), 0)
  end.

Section ops.
Context {D C : Type} `{MmcDev D} `{Console C}.
#[local] Abbreviation B := (ST (bootm D C)).

(** The address of the environment's block, zlib, and [malloc] (its bytes or
    the null pointer). *)
Context (bd : bd_t) (env_addr : Z) (z : zlib) (malloc : Z → option (list Z)).

Definition on_boot {A} (f : ST (boot D) A) : B A := λ s,
  match f (m_boot s) with Some (b, a) => Some (mkBootm b (m_header s) (m_env s), a) | None => None end.
Definition on_env {A} (f : ST (env_state C) A) : B A := λ s,
  match f (m_env s) with Some (e, a) => Some (mkBootm (m_boot s) (m_header s) e, a) | None => None end.
Definition in_mem {A} (f : mem → option A) : B A := s ← get; lift (f (k_mem (m_boot s))).

(** ** The header *)

Definition set_header (h : list Z) : B unit := modify (λ s, mkBootm (m_boot s) h (m_env s)).
Definition hdr_u32 (off : Z) : B Z := s ← get; h ← lift (slice (m_header s) off 4); mret (ntohl (le_val h)).
Definition hdr_u8 (off : Z) : B Z := s ← get; lift (idx (m_header s) off).
Definition copy_header (addr : Z) : B unit :=
  h ← in_mem (λ m, load_bytes m addr (Z.to_nat sizeof_image_header)); set_header h.

(** The checksum of the header, with its own field blank. *)
Definition header_checks : B bool :=
  checksum ← hdr_u32 ih_hcrc;
  s ← get;
  h ← lift (blit (m_header s) ih_hcrc (le_bytes 4 0));
  _ ← set_header h;
  c ← lift (crc32 0 h sizeof_image_header);
  mret (c =? checksum).

(** ** Linux *)

(** [len_ptr[i]] of a multi-file image. *)
Definition image_length (len_ptr i : Z) : B Z := on_boot (k_load (len_ptr + 4 * i)).
(** [for (i = 1; len_ptr[i]; ++i) data += 4]. *)
Definition lengths_step (m : mem) (len_ptr : Z) (x : Z * Z) : option ((Z * Z) + Z) :=
  let '(i, data) := x in
  n ← load_u32 m (len_ptr + 4 * i);
  Some (if n =? 0 then inr data else inl (i + 1, data + 4)).
Definition skip_lengths (len_ptr data : Z) : B Z := in_mem (λ m, loop (fuel_of m) (lengths_step m len_ptr) (1, data)).

(** A variable: its index in the environment, [None] for the null pointer. *)
Definition env_get (name : list Z) : B (option Z) := s ← get; lift (getenv (env_bytes (m_env s)) name).

(** From the choice of the initial RAM disk to the kernel. *)
Definition start_linux (kernel : Z) (commandline : option Z) (data len : Z) : B bootm_result :=
  let initrd_start := if negb (data =? 0) then data else 0 in
  let initrd_end := if negb (data =? 0) then u32 (initrd_start + len) else 0 in
  _ ← on_boot (
    _ ← setup_start_tag bd;
    _ ← setup_revision_tag bd;
    _ ← setup_revision16_tag;
    _ ← setup_serial16_tag;
    _ ← setup_macaddr_tag;
    _ ← setup_bootmode_tag;
    _ ← setup_gyrocal_tag;
    _ ← setup_memory_tags bd;
    _ ← (match commandline with Some p => setup_commandline_tag p | None => mret tt end);
    _ ← (if negb (initrd_start =? 0) && negb (initrd_end =? 0) then setup_initrd_tag initrd_start initrd_end else mret tt);
    setup_end_tag);
  mret (Linux (mkKernelEntry kernel 0 (bi_arch_number bd) (bi_boot_params bd))).

(** A RAM disk image at an address, with a header of its own. *)
Definition load_ramdisk (kernel : Z) (commandline : option Z) (addr : Z) (verify : bool) : B bootm_result :=
  _ ← copy_header addr;
  magic ← hdr_u32 ih_magic;
  if negb (magic =? IH_MAGIC) then mret Reset else
  ok ← header_checks;
  if negb ok then mret Reset else
  let data := u32 (addr + sizeof_image_header) in
  len ← hdr_u32 ih_size;
  ok ← (if verify then
      l ← in_mem (λ m, load_bytes m data (Z.to_nat len));
      csum ← lift (crc32 0 l len);
      dcrc ← hdr_u32 ih_dcrc;
      mret (csum =? dcrc)
    else mret true);
  if negb ok then mret Reset else
  os ← hdr_u8 ih_os;
  arch ← hdr_u8 ih_arch;
  type ← hdr_u8 ih_type;
  if negb (os =? IH_OS_LINUX) || negb (arch =? IH_CPU_ARM) || negb (type =? IH_TYPE_RAMDISK) then mret Reset else
  start_linux kernel commandline data len.

Definition do_bootm_linux (argc : Z) (argv : list (list Z)) (len_ptr : Z) (verify : bool) : B bootm_result :=
  o ← env_get (lit "bootargs");
  let commandline := (λ k, env_addr + k) <$> o in
  kernel ← hdr_u32 ih_ep;
  if 3 <=? argc then
    a ← lift (idx argv 2);
    '(addr, _) ← lift (simple_strtoul a 16);
    load_ramdisk kernel commandline addr verify
  else
    type ← hdr_u8 ih_type;
    n1 ← (if type =? IH_TYPE_MULTI then image_length len_ptr 1 else mret 0);
    if (type =? IH_TYPE_MULTI) && negb (n1 =? 0) then
      n0 ← image_length len_ptr 0;
      let tail := ntohl n0 mod 4 in
      data ← skip_lengths len_ptr (len_ptr + 8);
      let data := data + ntohl n0 in
      let data := u32 (if negb (tail =? 0) then data + (4 - tail) else data) in
      start_linux kernel commandline data (ntohl n1)
    else start_linux kernel commandline 0 0.

(** ** Other systems *)

(** The arguments from the third on, separated by blanks, in a new block. *)
Definition join_step (i : nat) (a : list Z) (x : list Z * Z) : option (list Z * Z) :=
  let '(cmdline, len) := x in
  '(cmdline, len) ← (if (0 <? i)%nat then c ← upd cmdline len 32; Some (c, len + 1) else Some (cmdline, len));
  n ← c_strlen a;
  s ← slice a 0 (n + 1);
  c ← blit cmdline len s;
  Some (c, len + n).
Fixpoint join_args (i : nat) (args : list (list Z)) (x : list Z * Z) : option (list Z * Z) :=
  match args with [] => Some x | a :: args => x ← join_step i a x; join_args (S i) args x end.
Definition netbsd_args (args : list (list Z)) : option (list Z) :=
  lens ← mapM c_strlen args;
  cmdline ← malloc (foldr (λ n acc, n + 1 + acc) 0 lens);
  '(cmdline, _) ← join_args 0 args (cmdline, 0);
  Some cmdline.

(** The entry point is used as it is in the header. *)
Definition raw_entry : B Z := s ← get; h ← lift (slice (m_header s) ih_ep 4); mret (le_val h).

Definition do_bootm_netbsd (argc : Z) (argv : list (list Z)) (addr len_ptr : Z) : B bootm_result :=
  type ← hdr_u8 ih_type;
  n1 ← (if type =? IH_TYPE_MULTI then image_length len_ptr 1 else mret 0);
  let img_addr := if (type =? IH_TYPE_MULTI) && negb (n1 =? 0) then addr else 0 in
  cmdline ← (if 2 <? argc then lift (netbsd_args (take (Z.to_nat (argc - 2)) (drop 2 argv)))
    else o ← env_get (lit "bootargs");
      match o with
      | Some k => s ← get; mret (drop (Z.to_nat k) (env_bytes (m_env s)))
      | None => mret [0]
      end);
  loader ← raw_entry;
  mret (Netbsd loader img_addr cmdline).

Definition do_bootm_rtems : B bootm_result := entry_point ← raw_entry; mret (Rtems entry_point).

(** ** The command *)

(** What the type of the image says: the data and its length; [None] is
    refused.  A standalone program may be given another load address. *)
Definition select_data (argc : Z) (argv : list (list Z)) (type data len : Z) : B (option (Z * Z)) :=
  if type =? IH_TYPE_STANDALONE then
    if 2 <? argc then
      a ← lift (idx argv 2);
      '(v, _) ← lift (simple_strtoul a 16);
      s ← get;
      h ← lift (blit (m_header s) ih_load (le_bytes 4 v));
      _ ← set_header h;
      mret (Some (data, len))
    else mret (Some (data, len))
  else if type =? IH_TYPE_KERNEL then mret (Some (data, len))
  else if type =? IH_TYPE_MULTI then
    n ← image_length data 0;
    p ← skip_lengths data (data + 8);
    mret (Some (p, ntohl n))
  else mret None.

(** Copying or expanding the data to the load address: its length, or why
    not. *)
Definition load_data (addr data len : Z) : B (Z + bootm_result) :=
  comp ← hdr_u8 ih_comp;
  load ← hdr_u32 ih_load;
  if comp =? IH_COMP_NONE then
    if load =? addr then mret (inl len) else
    '(m, _) ← in_mem (λ m, memmove m load data len);
    _ ← on_boot (set_mem m);
    mret (inl len)
  else if comp =? IH_COMP_GZIP then
    '(m, len, r) ← in_mem (λ m, gunzip z m load CFG_BOOTM_LEN data len);
    _ ← on_boot (set_mem m);
    if negb (r =? 0) then mret (inr Reset) else mret (inl len)
  else mret (inr (Return 1)).

(** Whether "autostart" is "no". *)
Definition no_autostart : B bool :=
  o ← env_get (lit "autostart");
  match o with
  | Some k => s ← get; r ← lift (c_strcmp (drop (Z.to_nat k) (env_bytes (m_env s))) (lit "no")); mret (r =? 0)
  | None => mret false
  end.

(** [buf] are the bytes of the local array. *)
Definition run_standalone (buf : list Z) (argc : Z) (argv : list (list Z)) (len : Z) : B bootm_result :=
  no ← no_autostart;
  if no : bool then
    '(buf, _) ← lift (sprintf buf (lit "%lX") [AInt len]);
    _ ← on_env (setenv (Some (lit "filesize")) (Some buf));
    mret (Return 0)
  else
    appl ← hdr_u32 ih_ep;
    mret (Application appl (argc - 1) (drop 1 argv)).

(** From the type of the image on: [len_ptr] and [data] are where its data
    begins. *)
Definition start_image (buf : list Z) (argc : Z) (argv : list (list Z)) (verify : bool) (addr type len_ptr len : Z) : B bootm_result :=
  o ← select_data argc argv type len_ptr len;
  match o with
  | None => mret (Return 1)
  | Some (data, len) =>
      r ← load_data addr data len;
      match r with
      | inr r => mret r
      | inl len =>
          if type =? IH_TYPE_STANDALONE then run_standalone buf argc argv len else
          os ← hdr_u8 ih_os;
          if os =? IH_OS_NETBSD then do_bootm_netbsd argc argv addr len_ptr
          else if os =? IH_OS_RTEMS then do_bootm_rtems
          else do_bootm_linux argc argv len_ptr verify
      end
  end.

Definition do_bootm (buf : list Z) (argc : Z) (argv : list (list Z)) : B bootm_result :=
  o ← env_get (lit "verify");
  verify ← (match o with
    | Some k => s ← get; c ← lift (idx (env_bytes (m_env s)) k); mret (negb (c =? 110))
    | None => mret true
    end);
  addr ← (if argc <? 2 then s ← get; mret (load_addr (m_env s))
    else a ← lift (idx argv 1); '(v, _) ← lift (simple_strtoul a 16); mret v);
  let addr := u32 (addr + ISW_CERTIFICATE_LENGTH_FULL) in
  _ ← copy_header addr;
  magic ← hdr_u32 ih_magic;
  if negb (magic =? IH_MAGIC) then mret (Return 1) else
  ok ← header_checks;
  if negb ok then mret (Return 1) else
  let data := u32 (addr + sizeof_image_header) in
  len ← hdr_u32 ih_size;
  arch ← hdr_u8 ih_arch;
  if negb (arch =? IH_CPU_ARM) then mret (Return 1) else
  type ← hdr_u8 ih_type;
  start_image buf argc argv verify addr type data len.
End ops.
