(* ===== verification/BootmSpec.v ===== *)
(** Starting images: what [do_bootm] does with an image of [mkimage] in
    memory. *)
From stdpp Require Import base tactics option list gmap strings.
From Stdlib Require Import ZArith Lia.
From S2P Require Import Prelude.
From S2P Require Import CString.
From S2P Require Import Crc32.
From S2P Require Import MmcDev.
From S2P Require Import Sparse.
From S2P Require Import Eff.
From S2P Require Import CBuf.
From S2P Require Import Vsprintf.
From S2P Require Import Ptable.
From S2P Require Import Env.
From S2P Require Import EnvSpec.
From S2P Require Import Idme.
From S2P Require Import IdmeSpec.
From S2P Require Import Gpt.
From S2P Require Import GptSpec.
From S2P Require Import Fastboot.
From S2P Require Import FastbootSpec.
From S2P Require Import FastbootCases.
From S2P Require Import Atags.
From S2P Require Import AtagsSpec.
From S2P Require Import Booti.
From S2P Require Import BootiSpec.
From S2P Require Import Bootm.
From S2P Require Import CMem.
Open Scope Z_scope.

(** ** Byte order *)

Lemma land_byte x k : 0 <= k → Z.land x (Z.shiftl 255 k) = (x / 2 ^ k) mod 256 * 2 ^ k.
Proof.
  intros Hk. rewrite <-Z.shiftl_mul_pow2, <-Z.shiftr_div_pow2 by done. change 256 with (2 ^ 8). rewrite <-Z.land_ones by done.
  apply Z.bits_inj'. intros n Hn. rewrite Z.land_spec, !Z.shiftl_spec by done.
  destruct (decide (k <= n)); [|rewrite (Z.testbit_neg_r 255), (Z.testbit_neg_r (Z.land _ _)) by lia; by rewrite andb_false_r].
  rewrite Z.land_spec, Z.shiftr_spec by lia. by replace (n - k + k) with n by lia.
Qed.

Definition be4 (v : Z) : list Z := rev (le_bytes 4 v).

Lemma ntohl_bytes a b c d : is_byte a → is_byte b → is_byte c → is_byte d → ntohl (le_val [a; b; c; d]) = le_val [d; c; b; a].
Proof.
  unfold is_byte. intros. cbn [le_val]. set (x := a + 256 * (b + 256 * (c + 256 * (d + 256 * 0)))). unfold ntohl, swab32.
  change 0xff with (Z.shiftl 255 0). change 0xff00 with (Z.shiftl 255 8). change 0xff0000 with (Z.shiftl 255 16).
  change 0xff000000 with (Z.shiftl 255 24). rewrite !land_byte by done.
  assert (x / 2 ^ 0 mod 256 * 2 ^ 0 = a) as -> by (unfold x; dm_lia).
  assert (x / 2 ^ 8 mod 256 * 2 ^ 8 = Z.shiftl b 8) as -> by (rewrite Z.shiftl_mul_pow2 by done; unfold x; dm_lia).
  assert (x / 2 ^ 16 mod 256 * 2 ^ 16 = Z.shiftl c 16) as -> by (rewrite Z.shiftl_mul_pow2 by done; unfold x; dm_lia).
  assert (x / 2 ^ 24 mod 256 * 2 ^ 24 = Z.shiftl d 24) as -> by (rewrite Z.shiftl_mul_pow2 by done; unfold x; dm_lia).
  rewrite Z.shiftl_shiftl, Z.shiftr_shiftl_l, Z.shiftr_shiftl_l by done.
  change (8 + 8) with 16. change (16 - 8) with 8. change (24 - 24) with 0. rewrite Z.shiftl_0_r.
  fold (be32 a b c d). rewrite be32_val by done. lia.
Qed.

Lemma be4_length v : length (be4 v) = 4%nat.
Proof. unfold be4. by rewrite length_rev. Qed.
Lemma be4_bytes v : bytes (be4 v).
Proof. unfold be4, bytes. rewrite rev_alt. apply Forall_reverse. apply le_bytes_bytes. Qed.
Lemma ntohl_be4 v : is_u32 v → ntohl (le_val (be4 v)) = v.
Proof.
  intros Hv. pose proof (le_bytes_bytes 4 v) as Hb. pose proof (le_val_bytes 4 v) as Hl. unfold be4.
  destruct (le_bytes 4 v) as [|a [|b [|c [|d [|]]]]] eqn:E; try (apply (f_equal length) in E; by rewrite le_bytes_length in E).
  unfold bytes in Hb. rewrite !Forall_cons in Hb. destruct Hb as (? & ? & ? & ? & _). cbn [rev app].
  rewrite ntohl_bytes by done. rewrite Hl. apply Z.mod_small. unfold is_u32 in Hv. lia.
Qed.

(** ** Images *)

Record image := mkImage {
  im_time : Z; im_load : Z; im_ep : Z; im_dcrc : Z; im_os : Z; im_arch : Z; im_type : Z; im_comp : Z;
  im_name : list Z; im_data : list Z }.

Definition header_of (i : image) (crc : Z) : list Z :=
  be4 IH_MAGIC ++ be4 crc ++ be4 (im_time i) ++ be4 (Z.of_nat (length (im_data i))) ++ be4 (im_load i) ++ be4 (im_ep i) ++
  be4 (im_dcrc i) ++ [im_os i; im_arch i; im_type i; im_comp i] ++ im_name i.
(** The checksum of the header is that of the header with the field blank. *)
Definition header_crc (i : image) : Z := default 0 (crc32 0 (header_of i 0) 64).
Definition mkimage (i : image) : list Z := header_of i (header_crc i) ++ im_data i.

Record image_ok (i : image) : Prop := mkImageOk {
  io_size : is_u32 (Z.of_nat (length (im_data i)));
  io_load : is_u32 (im_load i);
  io_ep : is_u32 (im_ep i);
  io_codes : bytes [im_os i; im_arch i; im_type i; im_comp i];
  io_name : length (im_name i) = 32%nat ∧ bytes (im_name i);
  io_data : bytes (im_data i);
}.

Lemma header_length i crc : length (im_name i) = 32%nat → length (header_of i crc) = 64%nat.
Proof. intros Hn. unfold header_of. rewrite !length_app, !be4_length, Hn. done. Qed.
Lemma header_bytes i crc : image_ok i → bytes (header_of i crc).
Proof. intros []. unfold header_of. rewrite !bytes_app. split_and!; try apply be4_bytes; [done|by destruct io_name0]. Qed.

Lemma header_field i crc o n l : length (im_name i) = 32%nat → 0 <= o → 0 <= n → o + n <= 64 →
  take (Z.to_nat n) (drop (Z.to_nat o) (header_of i crc)) = l → slice (header_of i crc) o n = Some l.
Proof. intros Hn H0 H1 H2 <-. apply slice_Some; [done|done|]. rewrite header_length by done. lia. Qed.

Lemma header_blank i crc : length (im_name i) = 32%nat → blit (header_of i crc) ih_hcrc (le_bytes 4 0) = Some (header_of i 0).
Proof. intros Hn. unfold header_of. apply blit_behind; by rewrite be4_length. Qed.

Lemma header_crc_spec i : image_ok i → crc32 0 (header_of i 0) sizeof_image_header = Some (header_crc i) ∧ is_u32 (header_crc i).
Proof.
  intros Hi. pose proof (header_bytes i 0 Hi) as Hb. pose proof (header_length i 0 (proj1 (io_name _ Hi))) as Hl.
  destruct (crc32_total 0 (header_of i 0) 64) as (c & E & Hc); [by_eval|done|lia|].
  unfold header_crc, sizeof_image_header. by rewrite E.
Qed.

(** A word and a byte of a header. *)
Definition field (h : list Z) (o : nat) : Z := ntohl (le_val (take 4 (drop o h))).
Definition code (h : list Z) (o : nat) : Z := nth o h 0.
(** The headers [do_bootm] goes on with. *)
Definition header_accepted (h : list Z) : bool :=
  (field h 0 =? IH_MAGIC) && bool_decide (crc32 0 (take 4 h ++ replicate 4 0 ++ drop 8 h) 64 = Some (field h 4)) &&
  (code h 29 =? IH_CPU_ARM) &&
  ((code h 30 =? IH_TYPE_STANDALONE) || (code h 30 =? IH_TYPE_KERNEL) && ((code h 31 =? IH_COMP_NONE) || (code h 31 =? IH_COMP_GZIP)) ||
   (code h 30 =? IH_TYPE_MULTI)).

(** ** Multi-file images *)

Definition pad4 (x : list Z) : list Z := x ++ replicate ((4 - length x mod 4) mod 4) 0.
Fixpoint files (ims : list (list Z)) : list Z :=
  match ims with [] => [] | [x] => x | x :: ims => pad4 x ++ files ims end.
(** The lengths, a zero, and the files, each but the last one padded. *)
Definition lengths_text (ims : list (list Z)) : list Z := concat ((λ x, be4 (Z.of_nat (length x))) <$> ims).
Definition multi_file (ims : list (list Z)) : list Z := lengths_text ims ++ be4 0 ++ files ims.
Definition file_ok (x : list Z) : Prop := x ≠ [] ∧ is_u32 (Z.of_nat (length x)).

Lemma lengths_text_cons x ims : lengths_text (x :: ims) = be4 (Z.of_nat (length x)) ++ lengths_text ims.
Proof. done. Qed.
Lemma lengths_text_length ims : length (lengths_text ims) = (4 * length ims)%nat.
Proof. induction ims as [|x ims IH]; [done|]. rewrite lengths_text_cons, length_app, be4_length. cbn [length]. lia. Qed.

Lemma be4_zero v : is_u32 v → (le_val (be4 v) =? 0) = (v =? 0).
Proof.
  intros Hv. pose proof (ntohl_be4 v Hv) as E. destruct (Z.eqb_spec (le_val (be4 v)) 0) as [E0|E0].
  - rewrite E0 in E. by rewrite <-E.
  - destruct (Z.eqb_spec v 0) as [->|]; [|done]. by destruct E0.
Qed.

Lemma load_be4 m a v : at_ m a (be4 v) → load_u32 m a = Some (le_val (be4 v)).
Proof. intros Ha. unfold load_u32. apply load_bytes_at in Ha. rewrite be4_length in Ha. by rewrite Ha. Qed.

Lemma lengths_loop m a ims : ∀ (i : nat) data fuel, Forall file_ok ims → at_ m (a + 4 * Z.of_nat i) (lengths_text ims ++ be4 0) →
  (length ims < fuel)%nat → loop fuel (lengths_step m a) (Z.of_nat i, data) = Some (data + 4 * Z.of_nat (length ims)).
Proof.
  induction ims as [|x ims IH]; intros i data fuel Hok Ha Hf; (destruct fuel as [|fuel]; [lia|]); rewrite loop_S; unfold lengths_step at 1.
  - cbn [lengths_text fmap list_fmap concat app] in Ha. rewrite (load_be4 _ _ 0) by done. cbn [mbind option_bind length].
    change (le_val (be4 0) =? 0) with true. cbn iota. f_equal. lia.
  - apply Forall_cons in Hok as [[Hne Hx] Hok]. rewrite lengths_text_cons, <-app_assoc in Ha.
    apply at_app in Ha as [Ha1 Ha2]. rewrite be4_length in Ha2. rewrite (load_be4 _ _ _ Ha1). cbn [mbind option_bind].
    rewrite be4_zero by done. destruct (Z.eqb_spec (Z.of_nat (length x)) 0); [destruct x; [done|cbn [length] in *; lia]|].
    replace (Z.of_nat i + 1) with (Z.of_nat (S i)) by lia. rewrite (IH (S i)).
    + cbn [length]. f_equal. lia.
    + done.
    + replace (a + 4 * Z.of_nat (S i)) with (a + 4 * Z.of_nat i + Z.of_nat 4) by lia. exact Ha2.
    + cbn [length] in Hf. lia.
Qed.

(** The kernel of an image whose data lies at [a], and its RAM disk, if there
    is one. *)
Inductive contents_of (i : image) (a : Z) : Z → list Z → Z → list Z → Prop :=
  | single_file : im_type i = IH_TYPE_KERNEL → contents_of i a a (im_data i) 0 []
  | several_files k ims : im_type i = IH_TYPE_MULTI → Forall file_ok (k :: ims) → im_data i = multi_file (k :: ims) →
      contents_of i a (a + 4 * (Z.of_nat (length ims) + 2)) k
        (match ims with [] => 0 | _ => a + 4 * (Z.of_nat (length ims) + 2) + Z.of_nat (length (pad4 k)) end) (default [] (head ims)).

Lemma files_cons x ims : ∃ rest, files (x :: ims) = x ++ rest.
Proof. destruct ims as [|y ims]; [exists []; cbn; by rewrite app_nil_r|]. cbn [files]. unfold pad4. rewrite <-app_assoc. by eexists. Qed.

Lemma pad4_length x : Z.of_nat (length (pad4 x)) =
  (let n := Z.of_nat (length x) in if n mod 4 =? 0 then n else n + (4 - n mod 4)).
Proof.
  cbv zeta. unfold pad4. rewrite length_app, length_replicate, Nat2Z.inj_add, Nat2Z.inj_mod, Nat2Z.inj_sub by (pose proof (Nat.mod_upper_bound (length x) 4); lia).
  rewrite Nat2Z.inj_mod. change (Z.of_nat 4) with 4. destruct (Z.eqb_spec (Z.of_nat (length x) mod 4) 0) as [E|E]; [rewrite E|]; dm_lia.
Qed.

(** What of an image is in memory. *)
Lemma contents_at i a src xs raddr rd m : contents_of i a src xs raddr rd → at_ m a (im_data i) → at_ m src xs ∧ at_ m raddr rd.
Proof.
  intros [Ht|k ims Ht Hok Hd] Ha; [by split|]. rewrite Hd in Ha. unfold multi_file in Ha.
  apply at_app in Ha as [_ Ha]. apply at_app in Ha as [_ Ha]. rewrite lengths_text_length, be4_length in Ha. cbn [length] in Ha.
  replace (a + Z.of_nat (4 * S (length ims)) + Z.of_nat 4) with (a + 4 * (Z.of_nat (length ims) + 2)) in Ha by lia.
  destruct ims as [|r ims].
  - cbn [files] in Ha. by split.
  - change (files (k :: r :: ims)) with (pad4 k ++ files (r :: ims)) in Ha. apply at_app in Ha as [Hk Hr]. split.
    + unfold pad4 in Hk. by apply at_app in Hk as [Hk _].
    + destruct (files_cons r ims) as [rest E]. rewrite E in Hr. by apply at_app in Hr as [Hr _].
Qed.

(** ** Gzip members *)

(** The header of a member: what is optional in it. *)
Record gz := mkGz { gz_text : bool; gz_time : list Z; gz_extra : option (list Z); gz_name : option (list Z); gz_comment : option (list Z); gz_crc : option (list Z) }.

Definition present (o : option (list Z)) : bool := match o with Some _ => true | None => false end.
Definition gz_flags (g : gz) : Z :=
  (if gz_text g then 1 else 0) + (if present (gz_crc g) then HEAD_CRC else 0) + (if present (gz_extra g) then EXTRA_FIELD else 0) +
  (if present (gz_name g) then ORIG_NAME else 0) + (if present (gz_comment g) then COMMENT else 0).
Definition gz_header (g : gz) : list Z :=
  [0x1f; 0x8b; DEFLATED; gz_flags g] ++ gz_time g ++
  match gz_extra g with Some x => le_bytes 2 (Z.of_nat (length x)) ++ x | None => [] end ++
  match gz_name g with Some x => x ++ [0] | None => [] end ++
  match gz_comment g with Some x => x ++ [0] | None => [] end ++
  default [] (gz_crc g).

Record gz_ok (g : gz) : Prop := mkGzOk {
  gk_time : length (gz_time g) = 6%nat;
  gk_extra : ∀ x, gz_extra g = Some x → Z.of_nat (length x) < 65536;
  gk_name : ∀ x, gz_name g = Some x → 0 ∉ x;
  gk_comment : ∀ x, gz_comment g = Some x → 0 ∉ x;
  gk_crc : ∀ x, gz_crc g = Some x → length x = 2%nat;
}.

Lemma gz_flag_set g : (Z.land (gz_flags g) RESERVED = 0) ∧
  (negb (Z.land (gz_flags g) EXTRA_FIELD =? 0) = present (gz_extra g)) ∧
  (negb (Z.land (gz_flags g) ORIG_NAME =? 0) = present (gz_name g)) ∧
  (negb (Z.land (gz_flags g) COMMENT =? 0) = present (gz_comment g)) ∧
  (negb (Z.land (gz_flags g) HEAD_CRC =? 0) = present (gz_crc g)).
Proof. destruct g as [[] ? [] [] [] []]; done. Qed.

Lemma string_loop m src t : ∀ i fuel, at_ m (src + i) (t ++ [0]) → (0 ∉ t) → (length t < fuel)%nat →
  loop fuel (string_step m src) i = Some (i + Z.of_nat (length t) + 1).
Proof.
  induction t as [|c t IH]; intros i fuel Ha Hc Hf; (destruct fuel as [|fuel]; [cbn [length] in Hf; lia|]); rewrite loop_S; unfold string_step at 1;
    cbn [app at_] in Ha; destruct Ha as [Hx Ha]; unfold load; rewrite Hx; cbn [mbind option_bind].
  - cbn [Z.eqb length]. f_equal. lia.
  - apply not_elem_of_cons in Hc as [Hne Hc]. rewrite (proj2 (Z.eqb_neq _ _)) by done. rewrite (IH (i + 1)).
    + cbn [length]. f_equal. lia.
    + by rewrite Z.add_assoc.
    + done.
    + cbn [length] in Hf. lia.
Qed.

Lemma skip_string_spec m src flags flag (o : option (list Z)) i : negb (Z.land flags flag =? 0) = present o →
  at_ m (src + i) (match o with Some x => x ++ [0] | None => [] end) → (∀ x, o = Some x → 0 ∉ x) →
  skip_string m src flags flag i = Some (i + Z.of_nat (length (match o with Some x => x ++ [0] | None => [] end))).
Proof.
  intros Hf Ha Ho. unfold skip_string. rewrite Hf. destruct o as [x|]; cbn [present]; [|cbn; f_equal; lia].
  rewrite (string_loop m src x); [rewrite length_app; cbn [length]; f_equal; lia|done|by apply Ho|].
  apply at_size in Ha. rewrite length_app in Ha. unfold fuel_of. lia.
Qed.

Lemma skip_header_spec m src g : gz_ok g → at_ m src (gz_header g) → skip_header m src = Some (Some (Z.of_nat (length (gz_header g)))).
Proof.
  intros [Ht Hx Hn Hc Hk] Ha. destruct (gz_flag_set g) as (Fr & Fx & Fn & Fc & Fk). unfold gz_header in *.
  pose proof (proj1 (at_lookup _ _ _) Ha) as Hl. apply at_app in Ha as [_ Ha]. apply at_app in Ha as [_ Ha]. rewrite Ht in Ha. cbn [length] in Ha.
  pose proof (Hl 3%nat (gz_flags g) eq_refl) as H3. pose proof (Hl 2%nat DEFLATED eq_refl) as H2. change (Z.of_nat 3) with 3 in H3. change (Z.of_nat 2) with 2 in H2.
  unfold skip_header, load. rewrite H3, H2. cbn [mbind option_bind].
  rewrite Fr, Fx. cbn [negb orb Z.eqb DEFLATED Pos.eqb].
  assert (src + Z.of_nat 4 + Z.of_nat 6 = src + 10) as E10 by lia. rewrite E10 in Ha.
  set (ex := match gz_extra g with Some x => le_bytes 2 (Z.of_nat (length x)) ++ x | None => [] end) in *.
  assert ((if present (gz_extra g) then a ← m !! (src + 10); b ← m !! (src + 11); Some (12 + a + Z.shiftl b 8) else Some 10) =
    Some (10 + Z.of_nat (length ex))) as ->.
  { destruct (gz_extra g) as [x|]; [|done]. specialize (Hx x eq_refl). apply at_app in Ha as [Ha _]. unfold ex in *. apply at_app in Ha as [Ha _].
    cbn [le_bytes at_] in Ha. destruct Ha as (Ha & Hb & _). replace (src + 10 + 1) with (src + 11) in Hb by lia. rewrite Ha, Hb. cbn [mbind option_bind].
    rewrite length_app, le_bytes_length, Z.shiftl_mul_pow2 by done. change (2 ^ 8) with 256. f_equal. int_lia. }
  apply at_app in Ha as [_ Ha]. cbn [mbind option_bind]. rewrite <-Z.add_assoc in Ha.
  apply at_app in Ha as [Han Ha]. rewrite (skip_string_spec m src _ _ (gz_name g)) by done. cbn [mbind option_bind]. rewrite <-Z.add_assoc in Ha.
  apply at_app in Ha as [Hac _]. rewrite (skip_string_spec m src _ _ (gz_comment g)) by done. cbn [mbind option_bind].
  rewrite Fk, !length_app, Ht. do 2 f_equal. cbn [length].
  destruct (gz_crc g) as [x|]; cbn [present]; [change (default [] (Some x)) with x; rewrite (Hk x eq_refl)|change (default [] None) with (@nil Z); cbn [length]]; lia.
Qed.

Lemma gunzip_spec z m m1 g body dst dstlen src (out : list Z) : gz_ok g → at_ m src (gz_header g) → 0 < Z.of_nat (length body) →
  Z.of_nat (length (gz_header g ++ body)) < 2 ^ 32 → inflateInit2 z = Z_OK → is_u32 (Z.of_nat (length out)) →
  inflate z m (src + Z.of_nat (length (gz_header g))) (Z.of_nat (length body)) dst dstlen = Some (m1, Z_STREAM_END, dst + Z.of_nat (length out)) →
  gunzip z m dst dstlen src (Z.of_nat (length (gz_header g ++ body))) = Some (m1, Z.of_nat (length out), 0).
Proof.
  intros Hg Ha Hb Hl Hz Ho E. unfold gunzip. rewrite (skip_header_spec m src g Hg Ha). cbn [mbind option_bind].
  rewrite length_app in *. rewrite (proj2 (Z.leb_gt _ _)) by lia. rewrite Hz. cbn [Z.eqb negb Z_OK].
  rewrite u32_id by (unfold is_u32; lia).
  replace (Z.of_nat (length (gz_header g) + length body) - Z.of_nat (length (gz_header g))) with (Z.of_nat (length body)) by lia. rewrite E. cbn [mbind option_bind].
  cbn [Z.eqb negb andb Z_OK Z_STREAM_END]. replace (dst + Z.of_nat (length out) - dst) with (Z.of_nat (length out)) by lia. by rewrite u32_id.
Qed.

(** ** The state *)

Section boot.
Context {D C : Type} `{MmcLaws D} `{Console C} (Hrel : reliable D).
Context (bd : bd_t) (env_addr : Z) (z : zlib) (malloc : Z → option (list Z)).
#[local] Abbreviation B := (ST (bootm D C)).
#[local] Abbreviation ram s := (k_mem (m_boot s)).

Definition with_boot (b : boot D) (s : bootm D C) : bootm D C := mkBootm b (m_header s) (m_env s).
Definition with_header (h : list Z) (s : bootm D C) : bootm D C := mkBootm (m_boot s) h (m_env s).
Definition with_ram (m : mem) (s : bootm D C) : bootm D C := with_boot (set_kmem m (m_boot s)) s.

Lemma wp_on_boot {A} (f : ST (boot D) A) s (Q : bootm D C → A → Prop) :
  wp f (m_boot s) (λ b a, Q (with_boot b s) a) → wp (on_boot f) s Q.
Proof using. unfold wp, on_boot. by destruct (f (m_boot s)) as [[b a]|]. Qed.

Lemma wp_in_mem {A} (f : mem → option A) a s (Q : bootm D C → A → Prop) : f (ram s) = Some a → Q s a → wp (in_mem f) s Q.
Proof using. intros E HQ. unfold in_mem. apply wp_bind, wp_get. by rewrite E. Qed.

Lemma wp_header_word off v s (Q : bootm D C → Z → Prop) : slice (m_header s) off 4 = Some (be4 v) → is_u32 v → Q s v → wp (hdr_u32 off) s Q.
Proof using. intros E Hv HQ. unfold hdr_u32. apply wp_bind, wp_get, wp_bind. rewrite E. apply wp_ret. by rewrite ntohl_be4. Qed.

Lemma wp_header_byte off v s (Q : bootm D C → Z → Prop) : idx (m_header s) off = Some v → Q s v → wp (hdr_u8 off) s Q.
Proof using. intros E HQ. unfold hdr_u8. apply wp_bind, wp_get. by rewrite E. Qed.

Lemma wp_copy_header addr h s (Q : bootm D C → unit → Prop) : at_ (ram s) addr h → length h = 64%nat → Q (with_header h s) tt → wp (copy_header addr) s Q.
Proof using.
  intros Ha Hl HQ. unfold copy_header. apply wp_bind. apply (wp_in_mem _ h); [|done].
  change (Z.to_nat sizeof_image_header) with 64%nat. rewrite <-Hl. by apply load_bytes_at.
Qed.

Lemma wp_header_checks i crc s (Q : bootm D C → bool → Prop) : image_ok i → is_u32 crc → m_header s = header_of i crc →
  Q (with_header (header_of i 0) s) (header_crc i =? crc) → wp header_checks s Q.
Proof using.
  intros Hi Hc Hh HQ. destruct (io_name _ Hi) as [Hn _]. unfold header_checks. apply wp_bind. apply (wp_header_word _ crc); [|done|].
  { rewrite Hh. by apply header_field. }
  apply wp_bind, wp_get, wp_bind. rewrite Hh, header_blank by done. apply wp_bind, wp_modify, wp_bind.
  rewrite (proj1 (header_crc_spec i Hi)). by apply wp_ret.
Qed.


(** ** Linux *)

Section linux.
Context (v0 : idme D) (Hbytes : ∀ p n, bytes (part v0 p n)).
Context (bank : Z * Z) (banks : list (Z * Z)) (Hbank : bi_dram bd = bank :: banks).
#[local] Abbreviation base := (bi_boot_params bd).

(** The kernel's command line, if there is one. *)
Definition cmdline_at (m : mem) (p : option Z) (cmdline : list Z) : Prop :=
  match p with
  | Some p => cstr m p cmdline ∧ Z.of_nat (length cmdline) < 512 ∧ (p + 512 <= base ∨ base + TAGS_ROOM <= p)
  | None => cmdline = []
  end.

Lemma wp_start_linux kernel p cmdline data len s (Q : bootm D C → bootm_result → Prop) :
  vars_ok v0 (vars (m_boot s)) → mapped (ram s) base TAGS_ROOM → cmdline_at (ram s) p cmdline →
  data = 0 ∧ len = 0 ∨ 0 < data ∧ 0 < len ∧ data + len < 2 ^ 32 →
  (∀ b pad, for_each_tag 11 (k_mem b) base = Some (tag_list v0 bd bank cmdline pad data len) →
     (∀ a n, (a + n <= base ∨ base + TAGS_ROOM <= a) → agree (ram s) (k_mem b) a n) → vars_ok v0 (vars b) →
     Q (with_boot b s) (Linux (mkKernelEntry kernel 0 (bi_arch_number bd) base))) →
  wp (start_linux bd kernel p data len) s Q.
Proof using Hrel Hbytes Hbank.
  intros Hv Hroom Hp Hd HQ. unfold start_linux. apply wp_bind, wp_on_boot.
  eapply (wp_fixed Hrel v0 Hbytes (ram s) bd); [done|done|done|done|]. intros s1 G1.
  assert ((if negb (data =? 0) then data else 0) = data) as -> by (destruct (Z.eqb_spec data 0); cbn [negb]; lia).
  assert ((if negb (data =? 0) then u32 (data + len) else 0) = u32 (data + len)) as ->.
  { destruct (Z.eqb_spec data 0); cbn [negb]; [|done]. destruct Hd as [[-> ->]|]; [done|lia]. }
  assert (negb (data =? 0) && negb (u32 (data + len) =? 0) = negb (len =? 0)) as ->.
  { destruct Hd as [[-> ->]|(Hd1 & Hd2 & Hd3)]; [done|]. rewrite (u32_id (data + len)) by (unfold is_u32; lia). to_prop; lia. }
  assert (∀ pad s2, going v0 (ram s) bd (fixed_tags v0 bd bank ++ (if decide (strip cmdline = []) then [] else [(ATAG_CMDLINE, strip cmdline ++ 0 :: pad)])) s2 →
    Z.of_nat (length (tags_text (fixed_tags v0 bd bank ++ (if decide (strip cmdline = []) then [] else [(ATAG_CMDLINE, strip cmdline ++ 0 :: pad)])))) <= 800 →
    wp (_ ← (if negb (len =? 0) then setup_initrd_tag data (u32 (data + len)) else mret tt); setup_end_tag) s2
      (λ b _, wp (mret (Linux (mkKernelEntry kernel 0 (bi_arch_number bd) base))) (with_boot b s) Q)) as Hrest.
  { intros pad s2 G2 L2. apply (wp_going_initrd v0 (ram s) bd _ _ _ _ _ _ G2); [done|unfold is_u32; lia|unfold is_u32; lia|].
    intros s3 G3 L3. eapply wp_end; [exact G3|done|]. intros s4 Hread Hag Hv4. apply wp_ret, (HQ s4 pad); [|done|done].
    rewrite Hread; [done|]. rewrite !length_app. unfold fixed_tags. rewrite length_take.
    destruct (decide _), (len =? 0); cbn [length]; lia. }
  destruct p as [p|].
  - destruct Hp as (Hc & Hl & Ha). apply (wp_going_cmdline v0 (ram s) bd _ cmdline (fixed_tags v0 bd bank)); [done| |done|by eapply fixed_length|done|done].
    apply (cstr_agree (ram s)); [|done]. apply (built_agree _ _ _ _ _ _ (proj1 G1)). lia.
  - cbn in Hp. subst cmdline. apply wp_bind, wp_ret. apply (Hrest []); cbn [strip]; rewrite decide_True, app_nil_r by done; [done|].
    rewrite fixed_length by done. lia.
Qed.

(** The lengths read from memory. *)
Lemma wp_lengths a k ims s : Forall file_ok (k :: ims) → at_ (ram s) a (lengths_text (k :: ims) ++ be4 0) →
  (∀ Q : bootm D C → Z → Prop, Q s (le_val (be4 (Z.of_nat (length k)))) → wp (image_length a 0) s Q) ∧
  (∀ Q : bootm D C → Z → Prop, Q s (le_val (be4 (match ims with [] => 0 | r :: _ => Z.of_nat (length r) end))) → wp (image_length a 1) s Q) ∧
  (∀ (Q : bootm D C → Z → Prop), Q s (a + 4 * (Z.of_nat (length ims) + 2)) → wp (skip_lengths a (a + 8)) s Q).
Proof using.
  intros Hok Ha. rewrite lengths_text_cons, <-app_assoc in Ha. pose proof Ha as Hall. apply at_app in Ha as [Hk Ha]. rewrite be4_length in Ha.
  assert (∀ i v (Q : bootm D C → Z → Prop), at_ (ram s) (a + 4 * i) (be4 v) → Q s (le_val (be4 v)) → wp (image_length a i) s Q) as Hw.
  { intros i v Q Hv HQ. apply wp_on_boot. eapply (wp_load _ (le_val (be4 v))); [by apply load_be4|]. by destruct s as [[] ? ?]. }
  split_and!.
  - intros Q HQ. apply (Hw 0 (Z.of_nat (length k))); [by replace (a + 4 * 0) with a by lia|done].
  - intros Q HQ. apply (Hw 1 (match ims with [] => 0 | r :: _ => Z.of_nat (length r) end)); [|done]. destruct ims as [|r ims]; [exact Ha|].
    rewrite lengths_text_cons, <-app_assoc in Ha. by apply at_app in Ha as [Ha _].
  - intros Q HQ. apply (wp_in_mem _ (a + 4 * (Z.of_nat (length ims) + 2))); [|done].
    pose proof (at_size _ _ _ Ha) as Hsz. rewrite length_app, lengths_text_length in Hsz.
    pose proof (lengths_loop (ram s) a ims 1 (a + 8) (fuel_of (ram s))) as E. change (Z.of_nat 1) with 1 in E.
    rewrite E; [f_equal; lia|by inversion Hok|exact Ha|unfold fuel_of; lia].
Qed.

Lemma wp_select_data i a src xs raddr rd argc argv s (Q : bootm D C → option (Z * Z) → Prop) :
  contents_of i a src xs raddr rd → at_ (ram s) a (im_data i) →
  Q s (Some (src, Z.of_nat (length xs))) → wp (select_data argc argv (im_type i) a (Z.of_nat (length (im_data i)))) s Q.
Proof using.
  intros [Ht|k ims Ht Hok Hd] Ha HQ; unfold select_data; rewrite Ht; cbn [Z.eqb IH_TYPE_STANDALONE IH_TYPE_KERNEL IH_TYPE_MULTI]; [by apply wp_ret|].
  rewrite Hd in Ha. unfold multi_file in Ha. rewrite app_assoc in Ha. apply at_app in Ha as [Ha _].
  destruct (wp_lengths _ _ _ s Hok Ha) as (H0' & _ & Hs). apply wp_bind, H0', wp_bind, Hs. inversion Hok as [|? ? [_ Hk]]; subst.
  rewrite ntohl_be4 by done. by apply wp_ret.
Qed.

(** ** Loading *)

(** Where the data goes, and what is there afterwards. *)
Inductive unpacks (i : image) (m : mem) (addr src : Z) (xs : list Z) : Z → list Z → mem → Prop :=
  | in_place : im_comp i = IH_COMP_NONE → im_load i = addr → unpacks i m addr src xs src xs m
  | copied : im_comp i = IH_COMP_NONE → im_load i ≠ addr → mapped m (im_load i) (Z.of_nat (length xs)) →
      unpacks i m addr src xs (im_load i) xs (put m (im_load i) xs)
  | expanded payload m1 : im_comp i = IH_COMP_GZIP →
      gunzip z m (im_load i) CFG_BOOTM_LEN src (Z.of_nat (length xs)) = Some (m1, Z.of_nat (length payload), 0) →
      at_ m1 (im_load i) payload → unpacks i m addr src xs (im_load i) payload m1.

Lemma unpacks_at i m addr src xs dest payload m1 : unpacks i m addr src xs dest payload m1 → at_ m src xs → at_ m1 dest payload.
Proof using. intros [] Ha; [done|by apply at_put|done]. Qed.

Lemma wp_load_data i addr src xs dest payload m1 s (Q : bootm D C → Z + bootm_result → Prop) :
  image_ok i → m_header s = header_of i 0 → at_ (ram s) src xs → bytes xs → unpacks i (ram s) addr src xs dest payload m1 →
  Q (with_ram m1 s) (inl (Z.of_nat (length payload))) → wp (load_data z addr src (Z.of_nat (length xs))) s Q.
Proof using.
  intros Hi Hh Ha Hb Hu HQ. destruct (io_name _ Hi) as [Hn _]. unfold load_data.
  apply wp_bind, (wp_header_byte _ (im_comp i)).
  { by rewrite Hh. }
  apply wp_bind, (wp_header_word _ (im_load i)); [rewrite Hh; by apply header_field|apply Hi|].
  destruct Hu as [Hc E|Hc E Hm|payload m1 Hc E Hat]; rewrite Hc; cbn [Z.eqb IH_COMP_NONE IH_COMP_GZIP].
  - rewrite E, Z.eqb_refl. apply wp_ret. by destruct s as [[] ? ?].
  - rewrite (proj2 (Z.eqb_neq _ _)) by done. apply wp_bind. eapply wp_in_mem; [by apply memmove_spec|].
    apply wp_bind, wp_on_boot, wp_modify, wp_ret. done.
  - apply wp_bind. eapply wp_in_mem; [exact E|]. cbn iota beta. apply wp_bind, wp_on_boot, wp_modify. by apply wp_ret.
Qed.

(** ** The command *)

(** The address of the image: behind the certificate. *)
Definition image_addr (s : bootm D C) (argc : Z) (argv : list (list Z)) (addr : Z) : Prop :=
  if argc <? 2 then addr = u32 (load_addr (m_env s) + ISW_CERTIFICATE_LENGTH_FULL)
  else ∃ a v t, idx argv 1 = Some a ∧ simple_strtoul a 16 = Some (v, t) ∧ addr = u32 (v + ISW_CERTIFICATE_LENGTH_FULL).

Lemma wp_env_get es name s (Q : bootm D C → option Z → Prop) : env_ok (env_bytes (m_env s)) es → name_ok name →
  (∀ o, getenv (env_bytes (m_env s)) (name ++ [0]) = Some o →
     match o with Some k => ∃ p v q, k = Z.of_nat (length p) ∧ assoc name es = Some v ∧ (0 ∉ v) ∧ env_bytes (m_env s) = p ++ v ++ 0 :: q
     | None => assoc name es = None end → Q s o) →
  wp (env_get (name ++ [0])) s Q.
Proof using.
  intros He Hn HQ. pose proof (getenv_spec _ es name [] He Hn) as E. unfold env_get. apply wp_bind, wp_get.
  destruct (assoc name es) as [v|] eqn:Ea.
  - destruct E as (Hv & p & q & E & Eq). rewrite E. apply (wp_lift _ _ _ _ eq_refl), HQ; [done|]. by exists p, v, q.
  - rewrite E. by apply (wp_lift _ _ _ _ eq_refl), HQ.
Qed.

(** Up to the header: whatever it holds. *)
Lemma wp_find_image buf argc argv addr es s (Q : bootm D C → bootm_result → Prop) :
  env_ok (env_bytes (m_env s)) es → image_addr s argc argv addr →
  (∀ verify, wp (
    _ ← copy_header addr;
    magic ← hdr_u32 ih_magic;
    if negb (magic =? IH_MAGIC) then mret (Return 1) else
    ok ← header_checks;
    if negb ok then mret (Return 1) else
    let data := u32 (addr + sizeof_image_header) in
    len ← hdr_u32 ih_size;
    arch ← hdr_u8 ih_arch;
    if negb (arch =? IH_CPU_ARM) then mret (Return 1) else
    type ← hdr_u8 ih_type;
    start_image bd env_addr z malloc buf argc argv verify addr type data len) s Q) →
  wp (do_bootm bd env_addr z malloc buf argc argv) s Q.
Proof using.
  intros He Ha HQ. unfold do_bootm. apply wp_bind. apply (wp_env_get es (str "verify")); [done|by_eval|]. intros o _ Ho.
  apply wp_bind. assert (∃ verify, ∀ Q' : bootm D C → bool → Prop, Q' s verify → wp (match o with
      | Some k => s ← get; c ← lift (idx (env_bytes (m_env s)) k); mret (negb (c =? 110)) | None => mret true end) s Q') as [verify Hw].
  { destruct o as [k|]; [|exists true; intros; by apply wp_ret]. destruct Ho as (p & v & q & -> & _ & _ & E).
    assert (∃ c, idx (env_bytes (m_env s)) (Z.of_nat (length p)) = Some c) as [c Ec].
    { rewrite E, idx_nat, lookup_app_r by lia. rewrite Nat.sub_diag. destruct v; by eexists. }
    exists (negb (c =? 110)). intros Q' HQ'. apply wp_bind, wp_get, wp_bind. rewrite Ec. by apply (wp_lift _ _ _ _ eq_refl), wp_ret. }
  apply Hw, wp_bind. unfold image_addr in Ha. destruct (argc <? 2).
  - apply wp_bind, wp_get, wp_ret. rewrite <-Ha. apply HQ.
  - destruct Ha as (a & v & t & Ea & Ev & ->). rewrite Ea. apply wp_bind, (wp_lift _ _ _ _ eq_refl), wp_bind. rewrite Ev.
    apply (wp_lift _ _ _ _ eq_refl), wp_ret, HQ.
Qed.

Lemma wp_field h (o : nat) s (Q : bootm D C → Z → Prop) : m_header s = h → length h = 64%nat → (o + 4 <= 64)%nat →
  Q s (field h o) → wp (hdr_u32 (Z.of_nat o)) s Q.
Proof using.
  intros Hh Hl Ho HQ. unfold hdr_u32. apply wp_bind, wp_get, wp_bind. rewrite Hh, slice_Some by lia. apply wp_ret. by rewrite Nat2Z.id.
Qed.
Lemma wp_code h (o : nat) s (Q : bootm D C → Z → Prop) : m_header s = h → length h = 64%nat → (o < 64)%nat →
  Q s (code h o) → wp (hdr_u8 (Z.of_nat o)) s Q.
Proof using.
  intros Hh Hl Ho HQ. unfold hdr_u8. apply wp_bind, wp_get. rewrite Hh, idx_nat. destruct (lookup_lt_is_Some_2 h o) as [x Hx]; [lia|].
  rewrite Hx. apply (wp_lift _ _ _ _ eq_refl). unfold code in HQ. by rewrite (nth_lookup_Some _ _ _ _ Hx) in HQ.
Qed.

Lemma wp_refused buf argc argv addr es h s (Q : bootm D C → bootm_result → Prop) :
  env_ok (env_bytes (m_env s)) es → image_addr s argc argv addr → at_ (ram s) addr h → length h = 64%nat → bytes h →
  header_accepted h = false → (∀ h', Q (with_header h' s) (Return 1)) → wp (do_bootm bd env_addr z malloc buf argc argv) s Q.
Proof using.
  intros He Ha Hat Hl Hb Hacc HQ. eapply wp_find_image; [done|done|]. intros verify.
  apply wp_bind. eapply (wp_copy_header addr h); [done|done|]. unfold header_accepted in Hacc.
  apply wp_bind. apply (wp_field h 0); [done|done|lia|]. destruct (field h 0 =? IH_MAGIC); cbn [negb andb] in *; [|apply wp_ret, HQ].
  apply wp_bind. unfold header_checks. apply wp_bind. apply (wp_field h 4); [done|done|lia|]. apply wp_bind, wp_get, wp_bind.
  set (h0 := take 4 h ++ replicate 4 0 ++ drop 8 h) in *.
  assert (length h0 = 64%nat) as Hl0 by (unfold h0; rewrite !length_app, length_take, length_replicate, length_drop; lia).
  assert (blit (m_header (with_header h s)) ih_hcrc (le_bytes 4 0) = Some h0) as ->.
  { cbn [m_header with_header]. rewrite <-(take_drop 4 h) at 1. rewrite <-(take_drop 4 (drop 4 h)), drop_drop.
    apply blit_behind; [by rewrite length_take, Hl|by rewrite length_take, length_drop, Hl]. }
  apply wp_bind, wp_modify, wp_bind. assert (bytes h0) as Hb0.
  { unfold h0. rewrite !bytes_app. split_and!; [by apply bytes_take|by_eval|by apply bytes_drop]. }
  destruct (crc32_total 0 h0 64) as (c & Ec & _); [by_eval|done|lia|]. unfold sizeof_image_header. rewrite Ec in Hacc |- *. apply wp_ret.
  destruct (Z.eqb_spec c (field h 4)) as [->|Hne]; cbn [negb]; [|apply wp_ret, HQ]. rewrite bool_decide_eq_true_2 in Hacc by done. cbn [andb] in Hacc.
  assert (code h0 29 = code h 29 ∧ code h0 30 = code h 30 ∧ code h0 31 = code h 31) as (E29 & E30 & E31).
  { unfold code, h0. do 64 (destruct h as [|? h]; [done|]). done. }
  apply wp_bind. apply (wp_field h0 12); [done|done|lia|]. apply wp_bind. apply (wp_code h0 29); [done|done|lia|]. rewrite E29.
  destruct (code h 29 =? IH_CPU_ARM); cbn [negb andb] in *; [|apply wp_ret, HQ].
  apply wp_bind. apply (wp_code h0 30); [done|done|lia|]. rewrite E30. unfold start_image, select_data.
  destruct (code h 30 =? IH_TYPE_STANDALONE); [done|]. cbn [orb] in Hacc.
  destruct (code h 30 =? IH_TYPE_KERNEL); cbn [andb orb] in Hacc.
  - apply wp_bind, wp_ret, wp_bind. unfold load_data. apply wp_bind. apply (wp_code h0 31); [done|done|lia|]. rewrite E31.
    apply wp_bind. apply (wp_field h0 16); [done|done|lia|].
    destruct (code h 31 =? IH_COMP_NONE); [done|]. destruct (code h 31 =? IH_COMP_GZIP); [done|]. apply wp_ret, wp_ret, HQ.
  - destruct (code h 30 =? IH_TYPE_MULTI); [done|]. apply wp_bind, wp_ret, wp_ret, HQ.
Qed.

Lemma wp_bootm_linux i a src xs raddr rd es cmdline argc argv verify s (Q : bootm D C → bootm_result → Prop) :
  m_header s = header_of i 0 → image_ok i → argc < 3 → contents_of i a src xs raddr rd →
  (im_type i = IH_TYPE_MULTI → at_ (ram s) a (im_data i)) → 0 < a → a + Z.of_nat (length (im_data i)) < 2 ^ 32 →
  env_ok (env_bytes (m_env s)) es → vars_ok v0 (vars (m_boot s)) → mapped (ram s) base TAGS_ROOM →
  (∀ o, getenv (env_bytes (m_env s)) (lit "bootargs") = Some o → cmdline_at (ram s) ((λ k, env_addr + k) <$> o) cmdline) →
  (∀ b pad, for_each_tag 11 (k_mem b) base = Some (tag_list v0 bd bank cmdline pad raddr (Z.of_nat (length rd))) →
     (∀ a n, (a + n <= base ∨ base + TAGS_ROOM <= a) → agree (ram s) (k_mem b) a n) → vars_ok v0 (vars b) →
     Q (with_boot b s) (Linux (mkKernelEntry (im_ep i) 0 (bi_arch_number bd) base))) →
  wp (do_bootm_linux bd env_addr argc argv a verify) s Q.
Proof using Hrel Hbytes Hbank.
  intros Hh Hi Hargc Hc Hm Ha Hlen He Hv Hroom Hcmd HQ. destruct (io_name _ Hi) as [Hn _]. unfold do_bootm_linux.
  apply wp_bind. apply (wp_env_get es (str "bootargs")); [done|by_eval|]. intros o Eo _. pose proof (Hcmd o Eo) as Ho.
  apply wp_bind, (wp_header_word _ (im_ep i)); [rewrite Hh; by apply header_field|apply Hi|]. rewrite (proj2 (Z.leb_gt _ _)) by lia.
  apply wp_bind, (wp_header_byte _ (im_type i)); [by rewrite Hh|].
  destruct Hc as [Ht|k ims Ht Hok Hd]; rewrite Ht; cbn [Z.eqb IH_TYPE_MULTI IH_TYPE_KERNEL].
  - apply wp_bind, wp_ret. cbn [andb]. by apply (wp_start_linux _ _ cmdline); [..|by left|].
  - specialize (Hm Ht). rewrite Hd in Hm. unfold multi_file in Hm. rewrite app_assoc in Hm. apply at_app in Hm as [Hm _].
    destruct (wp_lengths _ _ _ s Hok Hm) as (W0 & W1 & Ws). apply wp_bind, W1. cbn [andb].
    inversion Hok as [|? ? [_ Hk] Hok']; subst. destruct ims as [|r ims].
    { apply (wp_start_linux _ _ cmdline); [done|done|done|by left|done]. }
    inversion Hok' as [|? ? [Hrne Hr] _]; subst. rewrite be4_zero by done.
    destruct (Z.eqb_spec (Z.of_nat (length r)) 0); [destruct r; [done|cbn [length] in *; lia]|]. cbn [negb].
    apply wp_bind, W0. rewrite !ntohl_be4 by done. apply wp_bind, Ws.
    assert (Z.of_nat (length (im_data i)) >= 4 * (Z.of_nat (length (r :: ims)) + 2) + Z.of_nat (length (pad4 k)) + Z.of_nat (length r)) as Hsz.
    { rewrite Hd. unfold multi_file. change (files (k :: r :: ims)) with (pad4 k ++ files (r :: ims)). destruct (files_cons r ims) as [rest ->].
      rewrite !length_app, lengths_text_length, be4_length. cbn [length]. lia. }
    pose proof (pad4_length k) as Hp. cbv zeta in Hp.
    match goal with |- wp (start_linux _ _ _ ?d _) _ _ => assert (d = a + 4 * (Z.of_nat (length (r :: ims)) + 2) + Z.of_nat (length (pad4 k))) as -> end.
    { rewrite Hp. destruct (Z.of_nat (length k) mod 4 =? 0); cbn [negb]; rewrite ?Z.add_assoc; apply u32_id; unfold is_u32; lia. }
    apply (wp_start_linux _ _ cmdline); [done|done|done| |done]. right. lia.
Qed.

Lemma wp_boots buf argc argv i addr src xs raddr rd dest payload m1 es cmdline s (Q : bootm D C → bootm_result → Prop) :
  env_ok (env_bytes (m_env s)) es → image_addr s argc argv addr → argc < 3 → at_ (ram s) addr (mkimage i) → image_ok i →
  im_arch i = IH_CPU_ARM → im_os i ≠ IH_OS_NETBSD → im_os i ≠ IH_OS_RTEMS → 0 <= addr → addr + Z.of_nat (length (mkimage i)) < 2 ^ 32 →
  contents_of i (addr + sizeof_image_header) src xs raddr rd → unpacks i (ram s) addr src xs dest payload m1 →
  (im_type i = IH_TYPE_MULTI → at_ m1 (addr + sizeof_image_header) (im_data i)) →
  vars_ok v0 (vars (m_boot s)) → mapped m1 base TAGS_ROOM →
  (∀ o, getenv (env_bytes (m_env s)) (lit "bootargs") = Some o → cmdline_at m1 ((λ k, env_addr + k) <$> o) cmdline) →
  (∀ b pad, for_each_tag 11 (k_mem b) base = Some (tag_list v0 bd bank cmdline pad raddr (Z.of_nat (length rd))) →
     (∀ a n, (a + n <= base ∨ base + TAGS_ROOM <= a) → agree m1 (k_mem b) a n) → vars_ok v0 (vars b) →
     Q (with_boot b (with_header (header_of i 0) s)) (Linux (mkKernelEntry (im_ep i) 0 (bi_arch_number bd) base))) →
  wp (do_bootm bd env_addr z malloc buf argc argv) s Q.
Proof using Hrel Hbytes Hbank.
  intros He Haddr Hargc Hat Hi Harch Hos1 Hos2 Ha0 Hlen Hc Hu Hm Hv Hroom Hcmd HQ. destruct (io_name _ Hi) as [Hn _].
  assert (length (mkimage i) = (64 + length (im_data i))%nat) as Lm by (unfold mkimage; rewrite length_app, header_length by done; done).
  unfold mkimage in Hat. apply at_app in Hat as [Hh Hdata]. rewrite header_length in Hdata by done.
  destruct (contents_at _ _ _ _ _ _ _ Hc Hdata) as [Hsrc _]. destruct (header_crc_spec i Hi) as [_ Hcrc].
  eapply wp_find_image; [done|done|]. intros verify. apply wp_bind. eapply wp_copy_header; [exact Hh|by apply header_length|].
  apply wp_bind, (wp_header_word _ IH_MAGIC); [by apply header_field|by_eval|]. rewrite Z.eqb_refl. cbn [negb].
  apply wp_bind. eapply (wp_header_checks i (header_crc i)); [done|done|done|]. rewrite Z.eqb_refl. cbn [negb]. cbv zeta.
  change (with_header (header_of i 0) (with_header (header_of i (header_crc i)) s)) with (with_header (header_of i 0) s).
  rewrite u32_id by (unfold is_u32, sizeof_image_header; lia).
  apply wp_bind, (wp_header_word _ (Z.of_nat (length (im_data i)))); [by apply header_field|apply Hi|].
  apply wp_bind, (wp_header_byte _ (im_arch i)); [done|]. rewrite Harch. cbn [Z.eqb IH_CPU_ARM negb].
  apply wp_bind, (wp_header_byte _ (im_type i)); [done|]. unfold start_image.
  apply wp_bind. apply (wp_select_data i _ src xs raddr rd); [done|exact Hdata|].
  apply wp_bind. apply (wp_load_data i addr src xs dest payload m1); [done|done|done| |done|].
  { destruct Hc as [|k ims _ _ Hd]; [apply Hi|]. pose proof (io_data _ Hi) as Hb. rewrite Hd in Hb. unfold multi_file in Hb.
    destruct (files_cons k ims) as [rest E]. rewrite E in Hb. rewrite !bytes_app in Hb. tauto. }
  replace (im_type i =? IH_TYPE_STANDALONE) with false by (destruct Hc as [E|? ? E]; by rewrite E).
  apply wp_bind, (wp_header_byte _ (im_os i)); [done|]. rewrite !(proj2 (Z.eqb_neq _ _)) by done.
  apply (wp_bootm_linux i _ src xs raddr rd es cmdline); try done; [unfold sizeof_image_header; lia|unfold sizeof_image_header; lia].
Qed.

(** C9: [bootm] starts a Linux image that lies in memory behind a
    certificate: an image whose header is intact and which is for ARM, a
    kernel or several files, plain or compressed, and not for NetBSD or RTEMS,
    is brought to its load address; the kernel is entered at its entry point
    with the machine's number and a list of tags that carries the command
    line of the variable "bootargs" and the place of the second file as RAM
    disk, and that file is where the tag says.  The checksum of the data plays
    no part. *)
Theorem bootm_boots buf argc argv i addr src xs raddr rd dest payload m1 es cmdline s
    (Henv : env_ok (env_bytes (m_env s)) es)
    (Haddr : image_addr s argc argv addr)
    (Hargc : argc < 3)
    (Himage : at_ (ram s) addr (mkimage i))
    (Hok : image_ok i)
    (Harch : im_arch i = IH_CPU_ARM)
    (Hos : im_os i ≠ IH_OS_NETBSD ∧ im_os i ≠ IH_OS_RTEMS)
    (Hrange : 0 <= addr ∧ addr + Z.of_nat (length (mkimage i)) < 2 ^ 32)
    (Hcontents : contents_of i (addr + sizeof_image_header) src xs raddr rd)
    (Hunpacks : unpacks i (ram s) addr src xs dest payload m1)
    (Hkept : im_type i = IH_TYPE_MULTI → at_ m1 (addr + sizeof_image_header) (im_data i))
    (Hvars : vars_ok v0 (vars (m_boot s)))
    (Hroom : mapped m1 base TAGS_ROOM)
    (Hcmdline : ∀ o, getenv (env_bytes (m_env s)) (lit "bootargs") = Some o → cmdline_at m1 ((λ k, env_addr + k) <$> o) cmdline)
    (Hapart : Forall (ranges_apart (base, TAGS_ROOM)) [(dest, Z.of_nat (length payload)); (raddr, Z.of_nat (length rd))]) :
  ∃ s' pad, do_bootm bd env_addr z malloc buf argc argv s = Some (s', Linux (mkKernelEntry (im_ep i) 0 (bi_arch_number bd) base)) ∧
    at_ (ram s') dest payload ∧ at_ (ram s') raddr rd ∧
    for_each_tag 11 (ram s') base = Some (tag_list v0 bd bank cmdline pad raddr (Z.of_nat (length rd))).
Proof using Hrel Hbytes Hbank.
  destruct Hos as [Hos1 Hos2], Hrange as [Ha0 Hlen]. rewrite !Forall_cons in Hapart. destruct Hapart as (Hd & Hr & _). unfold ranges_apart in *. cbn [fst snd] in *.
  set (Q := λ (s' : bootm D C) r, r = Linux (mkKernelEntry (im_ep i) 0 (bi_arch_number bd) base) ∧ ∃ pad,
    at_ (ram s') dest payload ∧ at_ (ram s') raddr rd ∧ for_each_tag 11 (ram s') base = Some (tag_list v0 bd bank cmdline pad raddr (Z.of_nat (length rd)))).
  assert (wp (do_bootm bd env_addr z malloc buf argc argv) s Q) as W; [|by destruct (wp_elim _ _ _ W) as (s' & r & E & -> & pad & HH); exists s', pad].
  apply (wp_boots buf argc argv i addr src xs raddr rd dest payload m1 es cmdline); try done.
  intros b pad Htags Hag _. split; [done|]. exists pad. cbn [m_boot with_boot]. pose proof Himage as Hat. unfold mkimage in Hat. apply at_app in Hat as [_ Hdata].
  rewrite header_length in Hdata by apply Hok. pose proof (contents_at _ _ _ _ _ _ _ Hcontents Hdata) as [Hsrc _].
  split_and!; [| |done].
  - apply (at_agree m1); [apply Hag; lia|]. by eapply unpacks_at.
  - destruct (decide (im_type i = IH_TYPE_MULTI)) as [Ht|Ht].
    + apply (at_agree m1); [apply Hag; lia|]. by apply (contents_at _ _ _ _ _ _ _ Hcontents), Hkept.
    + by destruct Hcontents.
Qed.

(** C21: An image that [bootm] refuses: its header lacks the magic number, has
    another checksum than it says, is for another processor, of a type that
    is not started, or a kernel compressed in a way not known.  The command
    fails and nothing but the copy of the header has changed. *)
Theorem bootm_rejects buf argc argv addr es h s
    (Henv : env_ok (env_bytes (m_env s)) es)
    (Haddr : image_addr s argc argv addr)
    (Hat : at_ (ram s) addr h)
    (Hlen : length h = 64%nat)
    (Hb : bytes h)
    (Hrefused : header_accepted h = false) :
  ∃ h', do_bootm bd env_addr z malloc buf argc argv s = Some (with_header h' s, Return 1).
Proof using.
  set (Q := λ (s' : bootm D C) r, r = Return 1 ∧ ∃ h', s' = with_header h' s).
  assert (wp (do_bootm bd env_addr z malloc buf argc argv) s Q) as W; [|by destruct (wp_elim _ _ _ W) as (s' & r & E & -> & h' & ->); exists h'].
  apply (wp_refused buf argc argv addr es h); try done. intros h'. split; [done|]. by exists h'.
Qed.
End linux.
End boot.

(** C22: [gunzip] finds the compressed data behind the header of a gzip
    member, whichever of the optional fields it has, hands it to zlib, and
    reports the length of what zlib delivers. *)
Theorem gunzip_exact z m m1 g body dst dstlen src (out : list Z)
    (Hg : gz_ok g)
    (Hat : at_ m src (gz_header g))
    (Hbody : 0 < Z.of_nat (length body))
    (Hlen : Z.of_nat (length (gz_header g ++ body)) < 2 ^ 32)
    (Hinit : inflateInit2 z = Z_OK)
    (Hout : is_u32 (Z.of_nat (length out)))
    (Hinflate : inflate z m (src + Z.of_nat (length (gz_header g))) (Z.of_nat (length body)) dst dstlen =
      Some (m1, Z_STREAM_END, dst + Z.of_nat (length out))) :
  gunzip z m dst dstlen src (Z.of_nat (length (gz_header g ++ body))) = Some (m1, Z.of_nat (length out), 0).
Proof. by apply gunzip_spec. Qed.

(** ** An image *)

#[local] Existing Instance demo_console.

(** A kernel of five bytes and a RAM disk of three. *)
Definition two_files : image :=
  mkImage 0 0x80008000 0x80008004 0 IH_OS_LINUX IH_CPU_ARM IH_TYPE_MULTI IH_COMP_NONE (str "kernel" ++ replicate 26 0)
    (multi_file [[1; 2; 3; 4; 5]; [7; 8; 9]]).
Definition bootm_vars : list var := [(str "bootargs", str " console=ttyO2")].
Definition bootm_block : list Z := encode bootm_vars ++ replicate (Z.to_nat ENV_SIZE - length (encode bootm_vars)) 0.
Definition bootm_memory : mem :=
  CMem.image [(0x82000350, mkimage two_files); (0x80008000, replicate 16 0); (0x80000100, replicate 1024 0);
         (0x83000000, firstn 32 bootm_block)].
Definition bootm_demo : bootm MmcDev.ram unit :=
  mkBootm (mkBoot (mkFb (mkBoard demo_selected (demo_table 0)) [0; 0] (mkDownload 0 0 0 0) idle_fl demo_sparse [] demo_iface [] []) bootm_memory 0)
    [] (mkEnv bootm_block tt 115200 [] 0 0x80000000 []).

Lemma bootm_block_ok : env_ok bootm_block bootm_vars.
Proof. apply padded_env_ok; [repeat constructor; by_eval|by vm_compute]. Qed.

Definition no_zlib : zlib := mkZlib 0 (λ _ _ _ _ _, None).
#[local] Abbreviation bootm_at a := (do_bootm demo_bd 0x83000000 no_zlib (λ _, None) [] 2 [lit "bootm"; lit a]).

Lemma bootm_boots_witness :
  ∃ s' pad, bootm_at "82000000" bootm_demo = Some (s', Linux (mkKernelEntry 0x80008004 0 2839 0x80000100)) ∧
    at_ (k_mem (m_boot s')) 0x80008000 [1; 2; 3; 4; 5] ∧ at_ (k_mem (m_boot s')) 0x820003a4 [7; 8; 9] ∧
    for_each_tag 11 (k_mem (m_boot s')) 0x80000100 =
      Some (tag_list demo_selected demo_bd (0x80000000, 0x40000000) (str " console=ttyO2") pad 0x820003a4 3).
Proof.
  apply (bootm_boots ram_reliable demo_bd 0x83000000 no_zlib (λ _, None) demo_selected (λ p n, demo_bytes _ p n) (0x80000000, 0x40000000) [] eq_refl
    [] 2 [lit "bootm"; lit "82000000"] two_files 0x82000350 0x8200039c [1; 2; 3; 4; 5] 0x820003a4 [7; 8; 9]
    0x80008000 [1; 2; 3; 4; 5] (put bootm_memory 0x80008000 [1; 2; 3; 4; 5]) bootm_vars (str " console=ttyO2") bootm_demo).
  - exact bootm_block_ok.
  - exists (lit "82000000"), 0x82000000, [0]. by vm_compute.
  - done.
  - by vm_compute.
  - split; by_eval.
  - done.
  - by split.
  - by split; vm_compute.
  - apply (several_files two_files 0x82000390 [1; 2; 3; 4; 5] [[7; 8; 9]]); [done| |done]. repeat constructor; by_eval.
  - apply (copied _ two_files bootm_memory 0x82000350 0x8200039c [1; 2; 3; 4; 5]); [done|by_eval|by apply mapped_eval; vm_compute].
  - intros _. by vm_compute.
  - by split; vm_compute.
  - by apply mapped_eval; vm_compute.
  - assert (getenv bootm_block (lit "bootargs") = Some (Some 9)) as E by (vm_compute; reflexivity).
    intros o Eo. change (env_bytes (m_env bootm_demo)) with bootm_block in Eo. rewrite E in Eo. injection Eo as <-.
    split_and!; [split; [by vm_compute|split; by_eval]|by_eval|by_eval].
  - by_eval.
Defined.

(** 64 zeros are no image. *)
Lemma bootm_rejects_witness : ∃ h', bootm_at "7ffffdb0" bootm_demo = Some (with_header h' bootm_demo, Return 1).
Proof.
  apply (bootm_rejects demo_bd 0x83000000 no_zlib (λ _, None) [] 2 [lit "bootm"; lit "7ffffdb0"] 0x80000100 bootm_vars (replicate 64 0) bootm_demo).
  - exact bootm_block_ok.
  - exists (lit "7ffffdb0"), 0x7ffffdb0, [0]. by vm_compute.
  - by vm_compute.
  - done.
  - by_eval.
  - by vm_compute.
Defined.

(** A member with a name and a comment, in memory at 4096; a zlib that
    delivers two bytes. *)
Definition demo_gz : gz := mkGz false (replicate 6 0) (Some [1; 2; 3]) (Some (str "vmlinux")) (Some (str "a comment")) None.
Definition demo_zlib : zlib := mkZlib Z_OK (λ m next_in avail_in dst _,
  if (next_in =? 4096 + 33) && (avail_in =? 12) then Some (put m dst [7; 8], Z_STREAM_END, dst + 2) else None).
Definition gz_memory : mem := CMem.image [(4096, gz_header demo_gz ++ replicate 12 5); (8192, replicate 16 0)].

Lemma gunzip_exact_witness :
  gunzip demo_zlib gz_memory 8192 16 4096 45 = Some (put gz_memory 8192 [7; 8], 2, 0).
Proof.
  apply (gunzip_exact demo_zlib gz_memory (put gz_memory 8192 [7; 8]) demo_gz (replicate 12 5) 8192 16 4096 [7; 8]).
  - split; [done|by intros ? [= <-]|by intros ? [= <-]; by_eval|by intros ? [= <-]; by_eval|done].
  - by vm_compute.
  - done.
  - done.
  - done.
  - by_eval.
  - done.
Defined.

(** The load address given on the command line of a standalone program is
    stored as it is, and read back with its bytes swapped. *)
Lemma standalone_address_swapped {D C} (s : bootm D C) : m_header s = replicate 64 0 →
  ∃ h, select_data 3 [lit "bootm"; lit "82000000"; lit "80008001"] IH_TYPE_STANDALONE 0 4 s = Some (with_header h s, Some (0, 4)) ∧
    (ntohl ∘ le_val) <$> slice h ih_load 4 = Some 0x01800080.
Proof.
  destruct s as [b h e]. intros E. cbn in E. subst h. exists (replicate 16 0 ++ le_bytes 4 0x80008001 ++ replicate 44 0).
  split; vm_compute; reflexivity.
Qed.
