(* ===== verification/Flash.v ===== *)
(** [common/flash.c]: the banks of NOR flash, and writing to them across the
    bounds of banks, unless a sector in the way is protected. *)
From stdpp Require Import base tactics option list strings.
From Stdlib Require Import ZArith Lia.
From S2P Require Import Prelude.
From S2P Require Import Eff.
From S2P Require Import CMem.
From S2P Require Import CBuf.
From S2P Require Import Vsprintf.
From S2P Require Import Atags.
From S2P Require Import Help.
Open Scope Z_scope.

Definition FLASH_UNKNOWN : Z := 0xFFFF.
Definition ERR_OK : Z := 0.
Definition ERR_TIMOUT : Z := 1.
Definition ERR_NOT_ERASED : Z := 2.
Definition ERR_PROTECTED : Z := 4.
Definition ERR_INVAL : Z := 8.
Definition ERR_ALIGN : Z := 16.
Definition ERR_UNKNOWN_FLASH_VENDOR : Z := 32.
Definition ERR_UNKNOWN_FLASH_TYPE : Z := 64.
Definition ERR_PROG_ERROR : Z := 128.

(** A bank; the addresses and the protection of its sectors. *)
Record flash_info_t := mkFlash {
  fl_size : Z; sector_count : Z; flash_id : Z; fl_start : list Z; protect : list Z }.

(** The driver of the chips writes bytes to a bank. *)
Class FlashDriver (S : Type) := { write_buff : Z → list Z → Z → ST S Z }.

(** [info->start[0]]. *)
Definition first_addr (f : flash_info_t) : option Z := idx (fl_start f) 0.

(** The position of the bank of an address. *)
Fixpoint bank_from (banks : list flash_info_t) (i addr : Z) : option (option Z) :=
  match banks with
  | [] => Some None
  | f :: banks' =>
      if negb (flash_id f =? FLASH_UNKNOWN) then
        a ← first_addr f;
        if (a <=? addr) && (addr <=? u32 (a + fl_size f - 1)) then Some (Some i) else bank_from banks' (i + 1) addr
      else bank_from banks' (i + 1) addr
  end.
Definition addr2info (flash_info : list flash_info_t) (addr : Z) : option (option Z) := bank_from flash_info 0 addr.

(** A sector of the bank [f] that is protected and that [addr] ... [fin] meets. *)
Definition protected_step (f : flash_info_t) (addr fin : Z) (i : Z) : option (Z + bool) :=
  if i <? sector_count f then
    a ← first_addr f;
    start ← idx (fl_start f) i;
    e_addr ← (if i =? s16 (sector_count f - 1) then Some (u32 (a + fl_size f)) else idx (fl_start f) (i + 1));
    if (start <=? fin) && (addr <? e_addr) then
      p ← idx (protect f) i;
      Some (if negb (p =? 0) then inr true else inl (i + 1))
    else Some (inl (i + 1))
  else Some (inr false).
Definition bank_protected (f : flash_info_t) (addr fin : Z) : option bool :=
  loop (S (Z.to_nat (sector_count f))) (protected_step f addr fin) 0.

Section write.
Context {S : Type} `{Terminal S, FlashDriver S} (flash_info : list flash_info_t) (m : mem).

Definition banks_step (addr fin last : Z) (i : Z) : option (Z + bool) :=
  if i <=? last then
    f ← idx flash_info i;
    p ← bank_protected f addr fin;
    Some (if p : bool then inr true else inl (i + 1))
  else Some (inr false).

(** The part in one bank: [info], [src], [addr], [cnt]. *)
Definition bank_write_step (last : Z) (x : Z * Z * Z * Z) : ST S ((Z * Z * Z * Z) + Z) :=
  let '(i, src, addr, cnt) := x in
  if (i <=? last) && (0 <? cnt) then
    f ← lift (idx flash_info i);
    a ← lift (first_addr f);
    let len := u32 (a + fl_size f - addr) in
    let len := if cnt <? len then cnt else len in
    l ← lift (load_bytes m src (Z.to_nat len));
    r ← write_buff i l addr;
    mret (if negb (r =? 0) then inr r else inl (i + 1, u32 (src + len), u32 (addr + len), u32 (cnt - len)))
  else mret (inr ERR_OK).

Definition flash_write (src addr cnt : Z) : ST S Z :=
  let fin := u32 (addr + cnt - 1) in
  info_first ← lift (addr2info flash_info addr);
  info_last ← lift (addr2info flash_info fin);
  if cnt =? 0 then mret ERR_OK else
  match info_first, info_last with
  | Some first, Some last =>
      p ← lift (loop (Datatypes.S (length flash_info)) (banks_step addr fin last) first);
      if p : bool then mret ERR_PROTECTED else
      mloop (Datatypes.S (length flash_info)) (bank_write_step last) (first, src, addr, cnt)
  | _, _ => mret ERR_INVAL
  end.

(** The default text names the file and the line. *)
Definition flash_perror (buf : list Z) (err : Z) : ST S unit :=
  let say t := term_puts (str t ++ [10; 0]) in
  if err =? ERR_OK then mret tt
  else if err =? ERR_TIMOUT then say "Timeout writing to Flash"
  else if err =? ERR_NOT_ERASED then say "Flash not Erased"
  else if err =? ERR_PROTECTED then say "Can't write to protected Flash sectors"
  else if err =? ERR_INVAL then say "Outside available Flash"
  else if err =? ERR_ALIGN then say "Start and/or end address not on sector boundary"
  else if err =? ERR_UNKNOWN_FLASH_VENDOR then say "Unknown Vendor of Flash"
  else if err =? ERR_UNKNOWN_FLASH_TYPE then say "Unknown Type of Flash"
  else if err =? ERR_PROG_ERROR then say "General Flash Programming Error"
  else
    '(buf, _) ← lift (sprintf buf (str "%s[%d] FIXME: rc=%d" ++ [10; 0]) [AStr (Some (lit "flash.c")); AInt 219; AInt err]);
    term_puts buf.
End write.
