(* ===== verification/Memory.v ===== *)
(** The memory commands of [common/cmd_mem.c]: display, modify, write,
    compare, copy, checksum and test, with the addresses and sizes they
    remember.  The configuration has NOR flash but no DataFlash, and the
    simple memory test. *)
From stdpp Require Import base tactics option list strings gmap.
From Stdlib Require Import ZArith Lia.
From S2P Require Import Prelude.
From S2P Require Import Eff.
From S2P Require Import CMem.
From S2P Require Import CBuf.
From S2P Require Import Crc32.
From S2P Require Import Vsprintf.
From S2P Require Import MainLoop.
From S2P Require Import Atags.
From S2P Require Import Help.
From S2P Require Import Flash.
Open Scope Z_scope.

(** ** Data *)

(** [readline] of [common/main.c]: the length, or a negative number, and
    [console_buffer]. *)
Class LineReader (S : Type) := { term_readline : list Z → ST S (Z * list Z) }.

(** The memory, the variables of the file, the banks of flash and the rest of
    the program. *)
Record mem_state (S : Type) := mkMs {
  ms_mem : mem; dp_last_addr : Z; dp_last_size : Z; dp_last_length : Z; mm_last_addr : Z; mm_last_size : Z;
  base_address : Z; flash_info : list flash_info_t; ms_rest : S }.
Arguments mkMs {S}.
Arguments ms_mem {S}.
Arguments dp_last_addr {S}.
Arguments dp_last_size {S}.
Arguments dp_last_length {S}.
Arguments mm_last_addr {S}.
Arguments mm_last_size {S}.
Arguments base_address {S}.
Arguments flash_info {S}.
Arguments ms_rest {S}.

Definition DISP_LINE_LEN : Z := 16.
Definition CFG_MEMTEST_START : Z := 0x80000000.
Definition CFG_MEMTEST_END : Z := CFG_MEMTEST_START + 0x01f00000.

(** Objects of 4, 2 or else 1 byte.  The processor is set up to fault on one
    that is not at its alignment ([cpu/omap4/start.S], line 232). *)
Definition unit_bytes (size : Z) : Z := if size =? 4 then 4 else if size =? 2 then 2 else 1.
Definition load_unit (size : Z) (m : mem) (a : Z) : option Z :=
  if a mod unit_bytes size =? 0 then le_val <$> load_bytes m a (Z.to_nat (unit_bytes size)) else None.
Definition store_unit (size : Z) (m : mem) (a v : Z) : option mem :=
  if a mod unit_bytes size =? 0 then store_bytes m a (le_bytes (Z.to_nat (unit_bytes size)) v) else None.

(** The size behind the dot of a command's name. *)
Definition cmd_get_data_size (arg : list Z) (default_size : Z) : option Z :=
  len ← c_strlen arg;
  if 2 <? len then
    c ← idx arg (len - 2);
    if c =? 46 then
      d ← idx arg (len - 1);
      Some (if d =? 98 then 1 else if d =? 119 then 2 else if d =? 108 then 4 else if d =? 115 then -2 else -1)
    else Some default_size
  else Some default_size.

Section commands.
Context {S : Type} `{Terminal S, LineReader S, FlashDriver S}.
#[local] Abbreviation M := (ST (mem_state S)).

Definition set_ram (m : mem) (s : mem_state S) : mem_state S :=
  mkMs m (dp_last_addr s) (dp_last_size s) (dp_last_length s) (mm_last_addr s) (mm_last_size s) (base_address s) (flash_info s) (ms_rest s).
Definition set_dp (a z l : Z) (s : mem_state S) : mem_state S :=
  mkMs (ms_mem s) a z l (mm_last_addr s) (mm_last_size s) (base_address s) (flash_info s) (ms_rest s).
Definition set_mm (a z : Z) (s : mem_state S) : mem_state S :=
  mkMs (ms_mem s) (dp_last_addr s) (dp_last_size s) (dp_last_length s) a z (base_address s) (flash_info s) (ms_rest s).
Definition set_base (a : Z) (s : mem_state S) : mem_state S :=
  mkMs (ms_mem s) (dp_last_addr s) (dp_last_size s) (dp_last_length s) (mm_last_addr s) (mm_last_size s) a (flash_info s) (ms_rest s).
Definition set_rest (t : S) (s : mem_state S) : mem_state S :=
  mkMs (ms_mem s) (dp_last_addr s) (dp_last_size s) (dp_last_length s) (mm_last_addr s) (mm_last_size s) (base_address s) (flash_info s) t.

Definition on_rest {A} (f : ST S A) : M A := λ s,
  match f (ms_rest s) with Some (t, a) => Some (set_rest t s, a) | None => None end.
Definition peek (size a : Z) : M Z := s ← get; lift (load_unit size (ms_mem s) a).
Definition poke (size a v : Z) : M unit := s ← get; m ← lift (store_unit size (ms_mem s) a v); modify (set_ram m).

(** [buf] are the bytes of the buffer of [printf]. *)
Context (buf : list Z).
Definition print (fmt : list Z) (args : list arg) : M unit :=
  '(b, _) ← lift (sprintf buf fmt args); on_rest (term_puts b).
Definition say (t : list Z) : M unit := on_rest (term_puts t).

(** A number in an argument; the text of the usage. *)
Definition hex_arg (argv : list (list Z)) (i : Z) : M Z := a ← lift (idx argv i); '(v, _) ← lift (simple_strtoul a 16); mret v.
Definition size_arg (argv : list (list Z)) : M Z := a ← lift (idx argv 0); lift (cmd_get_data_size a 4).
Definition usage_error (usage : list Z) : M Z := _ ← print (str "Usage:" ++ [10] ++ str "%s" ++ [10; 0]) [AStr (Some usage)]; mret 1.
Definition based (a : Z) : M Z := s ← get; mret (u32 (a + base_address s)).

(** ** [md] *)

(** The objects of a line: index, address, [linebuf]. *)
Definition cell_step (size linebytes : Z) (x : Z * Z * list Z) : M ((Z * Z * list Z) + (Z * list Z)) :=
  let '(i, addr, linebuf) := x in
  if i <? linebytes then
    v ← peek size addr;
    linebuf ← lift (blit linebuf i (le_bytes (Z.to_nat (unit_bytes size)) v));
    _ ← print (if size =? 4 then lit " %08x" else if size =? 2 then lit " %04x" else lit " %02x") [AInt v];
    mret (inl (i + size, u32 (addr + size), linebuf))
  else mret (inr (addr, linebuf)).

Definition show_char (c : Z) (_ : unit) : M unit :=
  if (c <? 0x20) || (0x7e <? c) then on_rest (term_putc 46) else print (lit "%c") [AInt c].

(** A line: address and number of bytes left.  [linebuf0] are the bytes of the
    array. *)
Definition line_step (linebuf0 : list Z) (size : Z) (x : Z * Z) : M ((Z * Z) + (Z * Z)) :=
  let '(addr, nbytes) := x in
  _ ← print (lit "%08lx:") [AInt addr];
  let linebytes := if DISP_LINE_LEN <? nbytes then DISP_LINE_LEN else nbytes in
  '(addr, linebuf) ← mloop (Datatypes.S (Z.to_nat linebytes)) (cell_step size linebytes) (0, addr, linebuf0);
  _ ← say (lit "    ");
  text ← lift (slice linebuf 0 linebytes);
  _ ← mfor text show_char tt;
  _ ← on_rest (term_putc 10);
  let nbytes := nbytes - linebytes in
  t ← on_rest term_ctrlc;
  mret (if negb (t =? 0) then inr (addr, 1) else if 0 <? nbytes then inl (addr, nbytes) else inr (addr, 0)).

Definition do_mem_md (linebuf0 usage : list Z) (flag argc : Z) (argv : list (list Z)) : M Z :=
  s ← get;
  if argc <? 2 then usage_error usage else
  o ← (if Z.land flag CMD_FLAG_REPEAT =? 0 then
         size ← size_arg argv;
         if size <? 0 then mret None else
         addr ← hex_arg argv 1;
         addr ← based addr;
         length ← (if 2 <? argc then hex_arg argv 2 else mret (dp_last_length s));
         mret (Some (addr, size, length))
       else mret (Some (dp_last_addr s, dp_last_size s, dp_last_length s)));
  match o with
  | None => mret 1
  | Some (addr, size, length) =>
      let nbytes := u32 (length * size) in
      '(addr, rc) ← mloop (Datatypes.S (Z.to_nat nbytes)) (line_step linebuf0 size) (addr, nbytes);
      _ ← modify (set_dp addr size length);
      mret rc
  end.

(** ** [mw] *)

Definition write_unit_step (size writeval : Z) (x : Z * Z) : M ((Z * Z) + unit) :=
  let '(addr, count) := x in
  if 0 <? count then
    _ ← poke size addr writeval;
    mret (inl (u32 (addr + size), count - 1))
  else mret (inr tt).

Definition do_mem_mw (usage : list Z) (argc : Z) (argv : list (list Z)) : M Z :=
  if (argc <? 3) || (4 <? argc) then usage_error usage else
  size ← size_arg argv;
  if size <? 1 then mret 1 else
  addr ← hex_arg argv 1;
  addr ← based addr;
  writeval ← hex_arg argv 2;
  count ← (if argc =? 4 then hex_arg argv 3 else mret 1);
  _ ← mloop (Datatypes.S (Z.to_nat count)) (write_unit_step size writeval) (addr, count);
  mret 0.

(** ** [cmp] *)

Definition differ_text (size : Z) : list Z :=
  if size =? 4 then str "word at 0x%08lx (0x%08lx) != word at 0x%08lx (0x%08lx)" ++ [10; 0]
  else if size =? 2 then str "halfword at 0x%08lx (0x%04x) != halfword at 0x%08lx (0x%04x)" ++ [10; 0]
  else str "byte at 0x%08lx (0x%02x) != byte at 0x%08lx (0x%02x)" ++ [10; 0].

(** [addr1], [addr2], [count], [ngood]: the result, and [ngood] at the end. *)
Definition cmp_step (size : Z) (x : Z * Z * Z * Z) : M ((Z * Z * Z * Z) + (Z * Z)) :=
  let '(addr1, addr2, count, ngood) := x in
  if 0 <? count then
    v1 ← peek size addr1;
    v2 ← peek size addr2;
    if negb (v1 =? v2) then
      _ ← print (differ_text size) [AInt addr1; AInt v1; AInt addr2; AInt v2];
      mret (inr (1, ngood))
    else mret (inl (u32 (addr1 + size), u32 (addr2 + size), count - 1, ngood + 1))
  else mret (inr (0, ngood)).

Definition do_mem_cmp (usage : list Z) (argc : Z) (argv : list (list Z)) : M Z :=
  if negb (argc =? 4) then usage_error usage else
  size ← size_arg argv;
  if size <? 0 then mret 1 else
  addr1 ← hex_arg argv 1;
  addr1 ← based addr1;
  addr2 ← hex_arg argv 2;
  addr2 ← based addr2;
  count ← hex_arg argv 3;
  '(rcode, ngood) ← mloop (Datatypes.S (Z.to_nat count)) (cmp_step size) (addr1, addr2, count, 0);
  _ ← print (str "Total of %ld %s%s were the same" ++ [10; 0])
    [AInt ngood; AStr (Some (if size =? 4 then lit "word" else if size =? 2 then lit "halfword" else lit "byte"));
     AStr (Some (if ngood =? 1 then lit "" else lit "s"))];
  mret rcode.

(** ** [cp] *)

Definition cp_step (size : Z) (x : Z * Z * Z) : M ((Z * Z * Z) + unit) :=
  let '(addr, dest, count) := x in
  if 0 <? count then
    v ← peek size addr;
    _ ← poke size dest v;
    mret (inl (u32 (addr + size), u32 (dest + size), count - 1))
  else mret (inr tt).

Definition do_mem_cp (usage : list Z) (argc : Z) (argv : list (list Z)) : M Z :=
  if negb (argc =? 4) then usage_error usage else
  size ← size_arg argv;
  if size <? 0 then mret 1 else
  addr ← hex_arg argv 1;
  addr ← based addr;
  dest ← hex_arg argv 2;
  dest ← based dest;
  count ← hex_arg argv 3;
  if count =? 0 then _ ← say (str "Zero length ???" ++ [10; 0]); mret 1 else
  s ← get;
  bank ← lift (addr2info (flash_info s) dest);
  match bank with
  | Some _ =>
      _ ← say (lit "Copy to Flash... ");
      rc ← on_rest (flash_write (flash_info s) (ms_mem s) addr dest (u32 (count * size)));
      if negb (rc =? 0) then _ ← on_rest (flash_perror buf rc); mret 1 else
      _ ← say (str "done" ++ [10; 0]);
      mret 0
  | None =>
      _ ← mloop (Datatypes.S (Z.to_nat count)) (cp_step size) (addr, dest, count);
      mret 0
  end.

(** ** [base] and [loop] *)

Definition do_mem_base (argc : Z) (argv : list (list Z)) : M Z :=
  _ ← (if 1 <? argc then a ← hex_arg argv 1; modify (set_base a) else mret tt);
  s ← get;
  _ ← print (str "Base Address: 0x%08lx" ++ [10; 0]) [AInt (base_address s)];
  mret 0.

(** One object read, and all of them: for ever, which the fuel cuts. *)
Definition read_step (size : Z) (x : Z * Z) : M ((Z * Z) + unit) :=
  let '(p, i) := x in
  if 0 <? i then _ ← peek size p; mret (inl (u32 (p + unit_bytes size), i - 1)) else mret (inr tt).
Definition loop_round (size addr length : Z) (_ : unit) : M (unit + Z) :=
  _ ← mloop (Datatypes.S (Z.to_nat length)) (read_step size) (addr, length); mret (inl tt).
Definition do_mem_loop (fuel : nat) (usage : list Z) (argc : Z) (argv : list (list Z)) : M Z :=
  if argc <? 3 then usage_error usage else
  size ← size_arg argv;
  if size <? 0 then mret 1 else
  addr ← hex_arg argv 1;
  length ← hex_arg argv 2;
  mloop fuel (loop_round size addr length) tt.

(** ** [mtest] *)

(** [*addr = val]; the check of it.  [fin] is [end]. *)
Definition fill_step (fin incr : Z) (x : Z * Z) : M ((Z * Z) + unit) :=
  let '(addr, val) := x in
  if addr <? fin then _ ← poke 4 addr val; mret (inl (u32 (addr + 4), u32 (val + incr))) else mret (inr tt).
Definition verify_step (fin incr : Z) (x : Z * Z) : M ((Z * Z) + unit) :=
  let '(addr, val) := x in
  if addr <? fin then
    readback ← peek 4 addr;
    _ ← (if negb (readback =? val) then
           print ([10] ++ str "Mem error @ 0x%08X: found %08lX, expected %08lX" ++ [10; 0]) [AInt addr; AInt readback; AInt val]
         else mret tt);
    mret (inl (u32 (addr + 4), u32 (val + incr)))
  else mret (inr tt).

Definition mtest_round (start fin : Z) (x : Z * Z) : M ((Z * Z) + Z) :=
  let '(pattern, incr) := x in
  t ← on_rest term_ctrlc;
  if negb (t =? 0) then _ ← on_rest (term_putc 10); mret (inr 1) else
  _ ← print ([13] ++ str "Pattern %08lX  Writing...%12s" ++ replicate 10 8 ++ [0]) [AInt pattern; AStr (Some (lit ""))];
  let fuel := Datatypes.S (Z.to_nat (fin - start)) in
  _ ← mloop fuel (fill_step fin incr) (start, pattern);
  _ ← say (lit "Reading...");
  _ ← mloop fuel (verify_step fin incr) (start, pattern);
  mret (inl (if negb (Z.land pattern 0x80000000 =? 0) then u32 (- pattern) else u32 (Z.lnot pattern), u32 (- incr))).

(** The test runs until control-C: [fuel] is the number of rounds looked at. *)
Definition do_mem_mtest (fuel : nat) (argc : Z) (argv : list (list Z)) : M Z :=
  start ← (if 1 <? argc then hex_arg argv 1 else mret CFG_MEMTEST_START);
  fin ← (if 2 <? argc then hex_arg argv 2 else mret CFG_MEMTEST_END);
  pattern ← (if 3 <? argc then hex_arg argv 3 else mret 0);
  mloop fuel (mtest_round start fin) (pattern, 1).

(** ** [mm] and [nm] *)

(** One line of input: the address, or the end. *)
Definition modify_step (incrflag : bool) (size : Z) (addr : Z) : M (Z + Z) :=
  _ ← print (lit "%08lx:") [AInt addr];
  v ← peek size addr;
  _ ← print (if size =? 4 then lit " %08x" else if size =? 2 then lit " %04x" else lit " %02x") [AInt v];
  '(nbytes, console_buffer) ← on_rest (term_readline (lit " ? "));
  c ← (if nbytes =? 1 then lift (idx console_buffer 0) else mret 0);
  if (nbytes =? 0) || ((nbytes =? 1) && (c =? 45)) then
    mret (inl (if incrflag then u32 (addr + (if negb (nbytes =? 0) then - size else size)) else addr))
  else
    '(i, endp) ← lift (simple_strtoul console_buffer 16);
    if (length endp <? length console_buffer)%nat then
      _ ← poke size addr i;
      mret (inl (if incrflag then u32 (addr + size) else addr))
    else mret (inr addr).

(** [fuel] is the number of lines looked at. *)
Definition mod_mem (fuel : nat) (usage : list Z) (incrflag : bool) (flag argc : Z) (argv : list (list Z)) : M Z :=
  if negb (argc =? 2) then usage_error usage else
  s ← get;
  o ← (if Z.land flag CMD_FLAG_REPEAT =? 0 then
         size ← size_arg argv;
         if size <? 0 then mret None else
         addr ← hex_arg argv 1;
         addr ← based addr;
         mret (Some (addr, size))
       else mret (Some (mm_last_addr s, mm_last_size s)));
  match o with
  | None => mret 1
  | Some (addr, size) =>
      addr ← mloop fuel (modify_step incrflag size) addr;
      _ ← modify (set_mm addr size);
      mret 0
  end.
Definition do_mem_mm (fuel : nat) (usage : list Z) (flag argc : Z) (argv : list (list Z)) : M Z := mod_mem fuel usage true flag argc argv.
Definition do_mem_nm (fuel : nat) (usage : list Z) (flag argc : Z) (argv : list (list Z)) : M Z := mod_mem fuel usage false flag argc argv.

(** ** [crc32] *)

Definition do_mem_crc (usage : list Z) (argc : Z) (argv : list (list Z)) : M Z :=
  if argc <? 3 then usage_error usage else
  addr ← hex_arg argv 1;
  addr ← based addr;
  length ← hex_arg argv 2;
  s ← get;
  l ← lift (load_bytes (ms_mem s) addr (Z.to_nat length));
  crc ← lift (crc32 0 l length);
  _ ← print (str "CRC32 for %08lx ... %08lx ==> %08lx" ++ [10; 0]) [AInt addr; AInt (u32 (addr + length - 1)); AInt crc];
  if 3 <? argc then ptr ← hex_arg argv 3; _ ← poke 4 ptr crc; mret 0 else mret 0.
End commands.
