(* ===== verification/MemorySpec.v ===== *)
(** What the memory commands do to the memory and print: copying,
    comparing, filling, the checksum and the rounds of the test. *)
From stdpp Require Import base tactics option list strings gmap.
From Stdlib Require Import ZArith Lia.
From S2P Require Import Prelude.
From S2P Require Import Eff.
From S2P Require Import CMem.
From S2P Require Import CBuf.
From S2P Require Import Crc32.
From S2P Require Import Vsprintf.
From S2P Require Import MainLoop.
From S2P Require Import Atags.
From S2P Require Import AtagsSpec.
From S2P Require Import Help.
From S2P Require Import Flash.
From S2P Require Import Memory.
Open Scope Z_scope.

(** ** Objects in memory *)

(** [us] are the bytes of objects of [size] bytes. *)
Definition units_ok (size : Z) (us : list (list Z)) : Prop := Forall (λ u, Z.of_nat (length u) = size ∧ bytes u) us.

Lemma units_bytes size us : units_ok size us → bytes (concat us).
Proof. intros Hu. apply Forall_concat. eapply Forall_impl; [exact Hu|]. by intros u [_ ?]. Qed.

Lemma units_length size us : units_ok size us → Z.of_nat (length (concat us)) = size * Z.of_nat (length us).
Proof. induction 1 as [|u us [Hu _] _ IH]; [cbn; lia|]. cbn [concat length]. rewrite length_app. lia. Qed.

Lemma load_unit_at size m a u : unit_bytes size = size → a mod size = 0 → Z.of_nat (length u) = size → at_ m a u →
  load_unit size m a = Some (le_val u).
Proof.
  intros Hs Ha Hu Hat. unfold load_unit. rewrite Hs, Ha. cbn [Z.eqb]. rewrite <-Hu, Nat2Z.id, load_bytes_at by done. done.
Qed.

Lemma store_unit_put size m a u : unit_bytes size = size → a mod size = 0 → Z.of_nat (length u) = size → bytes u → mapped m a size →
  store_unit size m a (le_val u) = Some (put m a u).
Proof.
  intros Hs Ha Hu Hb Hm. unfold store_unit. rewrite Hs, Ha. cbn [Z.eqb]. rewrite <-Hu, Nat2Z.id, le_bytes_val by done.
  apply store_bytes_put; [by rewrite Hu|done].
Qed.

Lemma mod_step a size k : 0 < size → a mod size = 0 → (a + size * k) mod size = 0.
Proof. intros Hs Ha. rewrite Z.mul_comm, Z.mod_add by lia. done. Qed.

Section spec.
Context {S : Type} `{Terminal S, LineReader S, FlashDriver S}.
Implicit Types (s : mem_state S) (us : list (list Z)).
Context (size : Z) (Hsize : unit_bytes size = size).

Lemma size_pos : 0 < size.
Proof using Hsize. rewrite <-Hsize. unfold unit_bytes. repeat case_match; lia. Qed.

(** ** Copying *)

(** The objects are copied upwards: the target may overlap the source from
    below. *)
Lemma copy_units_loop m addr dest s : addr mod size = 0 → dest mod size = 0 → 0 <= addr → 0 <= dest →
  ∀ us pre fuel, units_ok size (pre ++ us) → at_ m addr (concat (pre ++ us)) →
  let n := size * Z.of_nat (length (pre ++ us)) in
  mapped m dest n → addr + n < 2 ^ 32 → dest + n < 2 ^ 32 → dest <= addr ∨ addr + n <= dest → (length us < fuel)%nat →
  mloop fuel (cp_step size) (addr + Z.of_nat (length (concat pre)), dest + Z.of_nat (length (concat pre)), Z.of_nat (length us))
      (set_ram (put m dest (concat pre)) s) =
    Some (set_ram (put m dest (concat (pre ++ us))) s, tt).
Proof using Hsize.
  intros Ha Hd Ha0 Hd0. pose proof size_pos as Hp.
  induction us as [|u us IH]; intros pre fuel Hu Hat n Hm Han Hdn Hov Hf; (destruct fuel as [|fuel]; [cbn in Hf; lia|]);
    rewrite mloop_S; unfold mbind at 1, st_bind at 1.
  - unfold cp_step. cbn [length Z.of_nat Z.ltb Z.compare]. by rewrite app_nil_r.
  - unfold cp_step at 1. destruct (Z.ltb_spec 0 (Z.of_nat (length (u :: us)))); [|cbn [length] in *; lia].
    pose proof Hu as Hu'. apply Forall_app in Hu' as [Hpre Hus]. apply Forall_cons in Hus as [[Hlu Hbu] Hus].
    pose proof (units_length _ _ Hpre) as Hlp. unfold n in *. rewrite length_app in *. cbn [length] in *.
    rewrite concat_app in Hat. cbn [concat] in Hat. apply at_app in Hat as [Hat1 Hat2]. apply at_app in Hat2 as [Hat2 Hat3].
    set (k := Z.of_nat (length (concat pre))) in *.
    assert (0 <= k ∧ k + size <= size * Z.of_nat (length pre + Datatypes.S (length us))) as [Hk0 Hk] by nia.
    rewrite (bind_eq _ _ _ (set_ram (put m dest (concat pre)) s) (le_val u)).
    2:{ unfold peek, mbind, st_bind, get, lift. cbn [ms_mem set_ram]. rewrite (load_unit_at size _ _ u); [done|done|rewrite Hlp; by apply mod_step|done|].
        apply at_put_other; [fold k; lia|done]. }
    assert (mapped (put m dest (concat pre)) (dest + k) size) as Hmk
      by (apply put_mapped; eapply mapped_le; [by apply mapped_shift|lia]).
    unfold mbind at 1, st_bind at 1. unfold poke, mbind at 1 2, st_bind at 1 2, get, lift, modify. cbn [ms_mem set_ram].
    rewrite (store_unit_put size _ _ u) by (done || (rewrite Hlp; by apply mod_step)). cbv [mret st_ret].
    assert (put (put m dest (concat pre)) (dest + k) u = put m dest (concat (pre ++ [u]))) as Eput.
    { rewrite concat_app. cbn [concat]. rewrite app_nil_r. symmetry. apply put_app. }
    rewrite Eput. change (set_ram (put m dest (concat (pre ++ [u]))) (set_ram (put m dest (concat pre)) s)) with (set_ram (put m dest (concat (pre ++ [u]))) s).
    assert (k + size = Z.of_nat (length (concat (pre ++ [u])))) as Ek.
    { rewrite concat_app, length_app. cbn [concat]. rewrite app_nil_r. unfold k. lia. }
    rewrite !u32_id by (unfold is_u32; lia). replace (addr + k + size) with (addr + Z.of_nat (length (concat (pre ++ [u])))) by lia.
    replace (dest + k + size) with (dest + Z.of_nat (length (concat (pre ++ [u])))) by lia.
    replace (Z.of_nat (Datatypes.S (length us)) - 1) with (Z.of_nat (length us)) by lia.
    replace (pre ++ u :: us) with ((pre ++ [u]) ++ us) in * by by rewrite <-app_assoc.
    assert (Z.of_nat (length ((pre ++ [u]) ++ us)) = Z.of_nat (length pre + Datatypes.S (length us))) as El
      by (rewrite !length_app; cbn [length]; lia).
    apply IH; rewrite ?El; try done; [|lia].
    rewrite <-app_assoc, concat_app. cbn [app concat]. rewrite !at_app. done.
Qed.

(** ** Comparing *)

(** The first objects that differ, and how many are the same before them. *)
Fixpoint first_diff us1 us2 : option (Z * list Z * list Z) :=
  match us1, us2 with
  | u1 :: us1', u2 :: us2' =>
      if decide (u1 = u2) then '(k, v1, v2) ← first_diff us1' us2'; Some (k + 1, v1, v2) else Some (0, u1, u2)
  | _, _ => None
  end.

Lemma first_diff_none us1 : ∀ us2, length us1 = length us2 → first_diff us1 us2 = None ↔ us1 = us2.
Proof.
  induction us1 as [|u1 us1 IH]; intros [|u2 us2] Hl; try done. cbn [first_diff]. injection Hl as Hl. destruct (decide (u1 = u2)) as [->|Hn].
  - specialize (IH us2 Hl). destruct (first_diff us1 us2) as [[[k v1] v2]|]; cbn [mbind option_bind].
    + split; [done|]. intros [= E]. by apply IH in E.
    + split; [|done]. intros _. f_equal. by apply IH.
  - split; [done|]. by intros [= ?].
Qed.

Lemma le_val_inj u1 u2 : length u1 = length u2 → bytes u1 → bytes u2 → le_val u1 = le_val u2 → u1 = u2.
Proof. intros Hl B1 B2 E. by rewrite <-(le_bytes_val u1 B1), <-(le_bytes_val u2 B2), Hl, E. Qed.

Lemma cmp_units_loop buf s us1 : ∀ us2 a1 a2 g fuel, units_ok size us1 → units_ok size us2 → length us1 = length us2 →
  at_ (ms_mem s) a1 (concat us1) → at_ (ms_mem s) a2 (concat us2) → a1 mod size = 0 → a2 mod size = 0 → 0 <= a1 → 0 <= a2 →
  a1 + size * Z.of_nat (length us1) < 2 ^ 32 → a2 + size * Z.of_nat (length us1) < 2 ^ 32 → (length us1 < fuel)%nat →
  mloop fuel (cmp_step buf size) (a1, a2, Z.of_nat (length us1), g) s =
    match first_diff us1 us2 with
    | None => Some (s, (0, g + Z.of_nat (length us1)))
    | Some (k, v1, v2) =>
        (_ ← print buf (differ_text size) [AInt (a1 + size * k); AInt (le_val v1); AInt (a2 + size * k); AInt (le_val v2)];
         mret (1, g + k)) s
    end.
Proof using Hsize.
  pose proof size_pos as Hp. induction us1 as [|u1 us1 IH]; intros [|u2 us2] a1 a2 g fuel Hu1 Hu2 Hl Hat1 Hat2 Hm1 Hm2 Hn1 Hn2 Hb1 Hb2 Hf; try done;
    (destruct fuel as [|fuel]; [cbn in Hf; lia|]); rewrite mloop_S; unfold mbind at 1, st_bind at 1; unfold cmp_step at 1.
  - cbn [length Z.of_nat Z.ltb Z.compare first_diff]. by rewrite Z.add_0_r.
  - cbn [length] in *. destruct (Z.ltb_spec 0 (Z.of_nat (Datatypes.S (length us1)))); [|lia].
    apply Forall_cons in Hu1 as [[Hlu1 Hbu1] Hu1], Hu2 as [[Hlu2 Hbu2] Hu2].
    cbn [concat] in Hat1, Hat2. apply at_app in Hat1 as [Hat1 Ht1], Hat2 as [Hat2 Ht2].
    assert (∀ a u, load_unit size (ms_mem s) a = Some (le_val u) → peek size a s = Some (s, le_val u)) as Hpeek
      by (intros a u E; unfold peek, mbind, st_bind, get, lift; by rewrite E).
    rewrite (bind_eq _ _ _ _ _ (Hpeek _ _ (load_unit_at size _ _ _ Hsize Hm1 Hlu1 Hat1))).
    rewrite (bind_eq _ _ _ _ _ (Hpeek _ _ (load_unit_at size _ _ _ Hsize Hm2 Hlu2 Hat2))). cbn [first_diff].
    destruct (Z.eqb_spec (le_val u1) (le_val u2)) as [E|E]; cbn [negb].
    + apply le_val_inj in E as ->; [|lia|done..]. rewrite decide_True by done. cbv [mret st_ret].
      rewrite !u32_id by (unfold is_u32; nia). replace (Z.of_nat (Datatypes.S (length us1)) - 1) with (Z.of_nat (length us1)) by lia.
      rewrite Hlu1 in Ht1. rewrite Hlu2 in Ht2. injection Hl as Hl.
      rewrite (IH us2); [|done..|rewrite <-(Z.mul_1_r size) at 1; by apply mod_step|rewrite <-(Z.mul_1_r size) at 1; by apply mod_step|lia|lia|nia|nia|lia].
      destruct (first_diff us1 us2) as [[[k v1] v2]|]; cbn [mbind option_bind].
      * replace (a1 + size + size * k) with (a1 + size * (k + 1)) by lia. replace (a2 + size + size * k) with (a2 + size * (k + 1)) by lia.
        by replace (g + 1 + k) with (g + (k + 1)) by lia.
      * do 3 f_equal. lia.
    + rewrite decide_False by congruence. rewrite !Z.mul_0_r, !Z.add_0_r.
      unfold mbind at 1 2, st_bind at 1 2. by destruct (print _ _ _ s) as [[s' []]|].
Qed.

(** ** Filling *)

Lemma fill_units a v s : a mod size = 0 → 0 <= a → ∀ (n k : nat) fuel m,
  let u := le_bytes (Z.to_nat size) v in
  mapped m a (size * Z.of_nat (k + n)) → a + size * Z.of_nat (k + n) < 2 ^ 32 → (n < fuel)%nat →
  mloop fuel (write_unit_step size v) (a + size * Z.of_nat k, Z.of_nat n) (set_ram (put m a (concat (replicate k u))) s) =
    Some (set_ram (put m a (concat (replicate (k + n) u))) s, tt).
Proof using Hsize.
  intros Ha Ha0. pose proof size_pos as Hp. induction n as [|n IH]; intros k fuel m u Hm Hb Hf; (destruct fuel as [|fuel]; [lia|]);
    rewrite mloop_S; unfold mbind at 1, st_bind at 1; unfold write_unit_step at 1.
  - cbn [Z.of_nat Z.ltb Z.compare]. by rewrite Nat.add_0_r.
  - destruct (Z.ltb_spec 0 (Z.of_nat (Datatypes.S n))); [|lia].
    assert (∀ j, Z.of_nat (length (concat (replicate j u))) = size * Z.of_nat j) as Hlen.
    { intros j. rewrite (units_length size); [by rewrite length_replicate|]. apply Forall_replicate. unfold u. rewrite le_bytes_length.
      split; [lia|apply le_bytes_bytes]. }
    unfold poke, mbind at 1 2, st_bind at 1 2, get, lift, modify. cbn [ms_mem set_ram].
    assert (store_unit size (put m a (concat (replicate k u))) (a + size * Z.of_nat k) v = Some (put m a (concat (replicate (Datatypes.S k) u)))) as ->.
    { unfold store_unit. rewrite Hsize, mod_step by done. cbn [Z.eqb]. fold u.
      rewrite store_bytes_put; [|apply put_mapped; unfold u; rewrite le_bytes_length; eapply mapped_le; [apply mapped_shift; [exact Hm|lia]|nia]|apply le_bytes_bytes].
      replace (Datatypes.S k) with (k + 1)%nat by lia. rewrite replicate_add, concat_app. cbn [replicate concat]. rewrite app_nil_r, put_app, Hlen. done. }
    change (set_ram (put m a (concat (replicate (Datatypes.S k) u))) (set_ram (put m a (concat (replicate k u))) s)) with (set_ram (put m a (concat (replicate (Datatypes.S k) u))) s).
    cbv [mret st_ret]. rewrite u32_id by (unfold is_u32; nia). replace (Z.of_nat (Datatypes.S n) - 1) with (Z.of_nat n) by lia.
    replace (a + size * Z.of_nat k + size) with (a + size * Z.of_nat (Datatypes.S k)) by lia.
    replace (k + Datatypes.S n)%nat with (Datatypes.S k + n)%nat in * by lia. by apply IH; [..|lia].
Qed.
End spec.

(** ** The commands *)

(** A number in hexadecimal; the size behind the dot of a name. *)
Definition hex (a : list Z) (v : Z) : Prop := ∃ r, simple_strtoul a 16 = Some (v, r).
Definition sized (name : list Z) (size : Z) : Prop := cmd_get_data_size name 4 = Some size ∧ 0 < size.

Lemma sized_unit name size : sized name size → unit_bytes size = size.
Proof.
  intros [E Hs]. unfold cmd_get_data_size in E. destruct (c_strlen name) as [len|]; [|done]. cbn [mbind option_bind] in E.
  destruct (2 <? len); [|by injection E as <-]. destruct (idx name (len - 2)) as [c|]; [|done]. cbn [mbind option_bind] in E.
  destruct (c =? 46); [|by injection E as <-]. destruct (idx name (len - 1)) as [d|]; [|done]. cbn [mbind option_bind] in E.
  repeat case_match; injection E as <-; done || lia.
Qed.

Section commands.
Context {S : Type} `{Terminal S, LineReader S, FlashDriver S}.
Implicit Types (s : mem_state S) (us : list (list Z)).
Context (buf usage : list Z).

Lemma hex_arg_at (argv : list (list Z)) (i : nat) a v s : argv !! i = Some a → hex a v → hex_arg argv (Z.of_nat i) s = Some (s, v).
Proof. intros Ha [r E]. unfold hex_arg, mbind, st_bind, lift. by rewrite idx_nat, Ha, E. Qed.

Lemma size_arg_at name size (argv : list (list Z)) s : argv !! 0%nat = Some name → sized name size → size_arg argv s = Some (s, size).
Proof. intros Ha [E _]. unfold size_arg, mbind, st_bind, lift. change 0 with (Z.of_nat 0). by rewrite idx_nat, Ha, E. Qed.

Lemma cp_spec s name a1 a2 a3 size v1 v2 us (addr := u32 (v1 + base_address s)) (dest := u32 (v2 + base_address s)) :
  sized name size → hex a1 v1 → hex a2 v2 → hex a3 (Z.of_nat (length us)) → us ≠ [] →
  addr2info (flash_info s) dest = Some None →
  units_ok size us → at_ (ms_mem s) addr (concat us) → mapped (ms_mem s) dest (size * Z.of_nat (length us)) →
  addr mod size = 0 → dest mod size = 0 →
  addr + size * Z.of_nat (length us) < 2 ^ 32 → dest + size * Z.of_nat (length us) < 2 ^ 32 →
  dest <= addr ∨ addr + size * Z.of_nat (length us) <= dest →
  do_mem_cp buf usage 4 [name; a1; a2; a3] s = Some (set_ram (put (ms_mem s) dest (concat us)) s, 0).
Proof.
  intros Hname Hx1 Hx2 Hx3 Hne Hbank Hu Hat Hm Ham Hdm Hab Hdb Hov. pose proof (sized_unit _ _ Hname) as Hsize.
  pose proof (size_pos size Hsize) as Hp. unfold do_mem_cp. change (negb (4 =? 4)) with false. cbv iota.
  rewrite (bind_eq _ _ _ _ _ (size_arg_at name size [name; a1; a2; a3] s eq_refl Hname)). destruct (Z.ltb_spec size 0); [lia|].
  rewrite (bind_eq _ _ _ _ _ (hex_arg_at [name; a1; a2; a3] 1 a1 v1 s eq_refl Hx1)).
  rewrite (bind_eq _ _ s s addr) by done. rewrite (bind_eq _ _ _ _ _ (hex_arg_at [name; a1; a2; a3] 2 a2 v2 s eq_refl Hx2)).
  rewrite (bind_eq _ _ s s dest) by done. rewrite (bind_eq _ _ _ _ _ (hex_arg_at [name; a1; a2; a3] 3 a3 _ s eq_refl Hx3)).
  destruct (Z.eqb_spec (Z.of_nat (length us)) 0) as [E|_]; [destruct us; [done|cbn [length] in E; lia]|].
  unfold mbind at 1 2, st_bind at 1 2, get, lift. rewrite Hbank.
  assert (is_u32 addr ∧ is_u32 dest) as [Hau Hdu] by (unfold addr, dest; split; apply u32_range). unfold is_u32 in *.
  pose proof (copy_units_loop size Hsize (ms_mem s) addr dest s Ham Hdm ltac:(lia) ltac:(lia) us [] (Datatypes.S (Z.to_nat (Z.of_nat (length us)))) Hu Hat Hm Hab Hdb Hov) as E.
  cbn [concat app length Z.of_nat put] in E. rewrite !Z.add_0_r in E.
  assert (set_ram (ms_mem s) s = s) as Es by by destruct s. rewrite Es in E.
  rewrite (bind_eq _ _ _ _ _ (E ltac:(lia))). done.
Qed.

Lemma mw_spec s name a1 a2 a3 size v v1 n (addr := u32 (v1 + base_address s)) :
  sized name size → hex a1 v1 → hex a2 v → hex a3 (Z.of_nat n) →
  mapped (ms_mem s) addr (size * Z.of_nat n) → addr mod size = 0 → addr + size * Z.of_nat n < 2 ^ 32 →
  do_mem_mw buf usage 4 [name; a1; a2; a3] s =
    Some (set_ram (put (ms_mem s) addr (concat (replicate n (le_bytes (Z.to_nat size) v)))) s, 0).
Proof.
  intros Hname Hx1 Hx2 Hx3 Hm Ham Hab. pose proof (sized_unit _ _ Hname) as Hsize. pose proof (size_pos size Hsize) as Hp.
  unfold do_mem_mw. change ((4 <? 3) || (4 <? 4)) with false. cbv iota.
  rewrite (bind_eq _ _ _ _ _ (size_arg_at name size [name; a1; a2; a3] s eq_refl Hname)). destruct (Z.ltb_spec size 1); [lia|].
  rewrite (bind_eq _ _ _ _ _ (hex_arg_at [name; a1; a2; a3] 1 a1 v1 s eq_refl Hx1)). rewrite (bind_eq _ _ s s addr) by done.
  rewrite (bind_eq _ _ _ _ _ (hex_arg_at [name; a1; a2; a3] 2 a2 v s eq_refl Hx2)). change (4 =? 4) with true. cbv iota.
  rewrite (bind_eq _ _ _ _ _ (hex_arg_at [name; a1; a2; a3] 3 a3 _ s eq_refl Hx3)).
  assert (is_u32 addr) as Hau by apply u32_range. unfold is_u32 in *.
  pose proof (fill_units size Hsize addr v s Ham ltac:(lia) n 0 (Datatypes.S (Z.to_nat (Z.of_nat n))) (ms_mem s) Hm Hab ltac:(lia)) as E.
  cbn [concat app length Z.of_nat put replicate] in E. rewrite Z.mul_0_r, Z.add_0_r in E.
  assert (set_ram (ms_mem s) s = s) as Es by by destruct s. rewrite Es in E. by rewrite (bind_eq _ _ _ _ _ E).
Qed.

(** What [cmp] prints, and its result. *)
Definition total_line (size ngood : Z) : ST (mem_state S) unit :=
  print buf (str "Total of %ld %s%s were the same" ++ [10; 0])
    [AInt ngood; AStr (Some (if size =? 4 then lit "word" else if size =? 2 then lit "halfword" else lit "byte"));
     AStr (Some (if ngood =? 1 then lit "" else lit "s"))].
Definition cmp_report (size addr1 addr2 : Z) us1 us2 : ST (mem_state S) Z :=
  match first_diff us1 us2 with
  | None => _ ← total_line size (Z.of_nat (length us1)); mret 0
  | Some (k, v1, v2) =>
      _ ← print buf (differ_text size) [AInt (addr1 + size * k); AInt (le_val v1); AInt (addr2 + size * k); AInt (le_val v2)];
      _ ← total_line size k;
      mret 1
  end.

Lemma cmp_spec s name a1 a2 a3 size v1 v2 us1 us2 (addr1 := u32 (v1 + base_address s)) (addr2 := u32 (v2 + base_address s)) :
  sized name size → hex a1 v1 → hex a2 v2 → hex a3 (Z.of_nat (length us1)) → length us1 = length us2 →
  units_ok size us1 → units_ok size us2 → at_ (ms_mem s) addr1 (concat us1) → at_ (ms_mem s) addr2 (concat us2) →
  addr1 mod size = 0 → addr2 mod size = 0 →
  addr1 + size * Z.of_nat (length us1) < 2 ^ 32 → addr2 + size * Z.of_nat (length us1) < 2 ^ 32 →
  do_mem_cmp buf usage 4 [name; a1; a2; a3] s = cmp_report size addr1 addr2 us1 us2 s.
Proof.
  intros Hname Hx1 Hx2 Hx3 Hl Hu1 Hu2 Hat1 Hat2 Hm1 Hm2 Hb1 Hb2. pose proof (sized_unit _ _ Hname) as Hsize.
  pose proof (size_pos size Hsize) as Hp. unfold do_mem_cmp. change (negb (4 =? 4)) with false. cbv iota.
  rewrite (bind_eq _ _ _ _ _ (size_arg_at name size [name; a1; a2; a3] s eq_refl Hname)). destruct (Z.ltb_spec size 0); [lia|].
  rewrite (bind_eq _ _ _ _ _ (hex_arg_at [name; a1; a2; a3] 1 a1 v1 s eq_refl Hx1)). rewrite (bind_eq _ _ s s addr1) by done.
  rewrite (bind_eq _ _ _ _ _ (hex_arg_at [name; a1; a2; a3] 2 a2 v2 s eq_refl Hx2)). rewrite (bind_eq _ _ s s addr2) by done.
  rewrite (bind_eq _ _ _ _ _ (hex_arg_at [name; a1; a2; a3] 3 a3 _ s eq_refl Hx3)).
  assert (is_u32 addr1 ∧ is_u32 addr2) as [Hau Hdu] by (split; apply u32_range). unfold is_u32 in *.
  unfold mbind at 1, st_bind at 1.
  rewrite (cmp_units_loop size Hsize buf s us1 us2 addr1 addr2 0) by (done || lia). rewrite !Z.add_0_l. unfold cmp_report.
  destruct (first_diff us1 us2) as [[[k w1] w2]|]; [|done].
  unfold mbind at 1, st_bind at 1. destruct (print _ _ _ s) as [[s' []]|] eqn:Ep; unfold mbind at 1 2, st_bind at 1 2; rewrite Ep; done.
Qed.

Lemma print_keeps fmt args s s' x : print buf fmt args s = Some (s', x) → ms_mem s' = ms_mem s.
Proof.
  unfold print, mbind, st_bind, lift, on_rest. destruct (sprintf _ _ _) as [[b n]|]; [|done].
  destruct (term_puts b (ms_rest s)) as [[t []]|]; [|done]. by intros [= <- _].
Qed.

Lemma report_result size addr1 addr2 us1 us2 s s' r : length us1 = length us2 → cmp_report size addr1 addr2 us1 us2 s = Some (s', r) →
  ms_mem s' = ms_mem s ∧ (r = 0 ↔ us1 = us2).
Proof.
  intros Hl. pose proof (first_diff_none us1 us2 Hl) as Hd. unfold cmp_report, total_line. destruct (first_diff us1 us2) as [[[k w1] w2]|].
  - unfold mbind, st_bind. destruct (print _ _ _ s) as [[s1 x1]|] eqn:E1; [|done].
    destruct (print _ _ _ s1) as [[s2 x2]|] eqn:E2; [|done]. intros [= <- <-]. apply print_keeps in E1, E2. split; [congruence|].
    split; [done|]. intros E. by apply Hd in E.
  - unfold mbind, st_bind. destruct (print _ _ _ s) as [[s1 x1]|] eqn:E1; [|done]. intros [= <- <-]. apply print_keeps in E1.
    split; [done|]. split; [|done]. intros _. by apply Hd.
Qed.
End commands.

(** C39: [cp] of objects of one, two or four bytes outside the flash: the
    bytes at the source end up at the target and nothing else changes, also
    where the target overlaps the source from below. *)
Theorem cp_exact {S} `{Terminal S, LineReader S, FlashDriver S} buf usage (s : mem_state S) name a1 a2 a3 size v1 v2 us
    (addr := u32 (v1 + base_address s)) (dest := u32 (v2 + base_address s))
    (Hname : sized name size) (Hsrc : hex a1 v1) (Hdst : hex a2 v2) (Hcount : hex a3 (Z.of_nat (length us))) (Hne : us ≠ [])
    (Hbank : addr2info (flash_info s) dest = Some None)
    (Hus : units_ok size us) (Hat : at_ (ms_mem s) addr (concat us)) (Hmap : mapped (ms_mem s) dest (size * Z.of_nat (length us)))
    (Hal : addr mod size = 0 ∧ dest mod size = 0)
    (Hend : addr + size * Z.of_nat (length us) < 2 ^ 32 ∧ dest + size * Z.of_nat (length us) < 2 ^ 32)
    (Hover : dest <= addr ∨ addr + size * Z.of_nat (length us) <= dest) :
  do_mem_cp buf usage 4 [name; a1; a2; a3] s = Some (set_ram (put (ms_mem s) dest (concat us)) s, 0).
Proof. destruct Hal, Hend. by apply (cp_spec _ _ _ _ _ _ _ size v1 v2). Qed.

(** [cmp]: it reports the first objects that differ, with their
    addresses, and the number of those before them that are the same; the
    result is 0 exactly when all are, and the memory stays. *)
Theorem cmp_exact {S} `{Terminal S, LineReader S, FlashDriver S} buf usage (s : mem_state S) name a1 a2 a3 size v1 v2 us1 us2
    (addr1 := u32 (v1 + base_address s)) (addr2 := u32 (v2 + base_address s))
    (Hname : sized name size) (Hfst : hex a1 v1) (Hsnd : hex a2 v2) (Hcount : hex a3 (Z.of_nat (length us1)))
    (Hlen : length us1 = length us2) (Hus1 : units_ok size us1) (Hus2 : units_ok size us2)
    (Hat1 : at_ (ms_mem s) addr1 (concat us1)) (Hat2 : at_ (ms_mem s) addr2 (concat us2))
    (Hal : addr1 mod size = 0 ∧ addr2 mod size = 0)
    (Hend : addr1 + size * Z.of_nat (length us1) < 2 ^ 32 ∧ addr2 + size * Z.of_nat (length us1) < 2 ^ 32) :
  do_mem_cmp buf usage 4 [name; a1; a2; a3] s = cmp_report buf size addr1 addr2 us1 us2 s ∧
  ∀ s' r, do_mem_cmp buf usage 4 [name; a1; a2; a3] s = Some (s', r) → ms_mem s' = ms_mem s ∧ (r = 0 ↔ us1 = us2).
Proof.
  destruct Hal as [Hal1 Hal2], Hend as [Hend1 Hend2].
  pose proof (cmp_spec buf usage s name a1 a2 a3 size v1 v2 us1 us2 Hname Hfst Hsnd Hcount Hlen Hus1 Hus2 Hat1 Hat2 Hal1 Hal2 Hend1 Hend2) as E.
  split; [exact E|]. intros s' r. fold addr1 addr2. rewrite E. by apply report_result.
Qed.

(** ** An example *)

#[local] Instance demo_terminal : Terminal (list (list Z)) := {|
  term_puts t s := Some (s ++ [cut t], tt); term_putc c s := Some (s ++ [[c]], tt); term_ctrlc s := Some (s, 0) |}.
#[local] Instance demo_reader : LineReader (list (list Z)) := {| term_readline _ s := Some (s, (0, [0])) |}.
#[local] Instance demo_flash : FlashDriver (list (list Z)) := {| write_buff _ _ _ s := Some (s, 0) |}.
#[local] Definition demo_ms : mem_state (list (list Z)) :=
  mkMs (image [(0x100, [1; 2; 3; 4; 5; 6; 7; 8]); (0x200, [1; 2; 3; 4; 5; 9; 7; 8])]) 0 0 64 0 0 0
    [mkFlash 0 0 FLASH_UNKNOWN [] []; mkFlash 0x1000 1 7 [0x8000000] [0]] [].

(** Three half-words are moved down by one. *)
Lemma cp_exact_witness :
  do_mem_cp [] [] 4 [lit "cp.w"; lit "102"; lit "100"; lit "3"] demo_ms =
    Some (set_ram (put (ms_mem demo_ms) 0x100 [3; 4; 5; 6; 7; 8]) demo_ms, 0).
Proof.
  apply (cp_exact [] [] demo_ms (lit "cp.w") (lit "102") (lit "100") (lit "3") 2 0x102 0x100 [[3; 4]; [5; 6]; [7; 8]]).
  - by split.
  - by eexists.
  - by eexists.
  - by eexists.
  - done.
  - done.
  - repeat constructor; by_eval.
  - vm_compute. repeat split.
  - apply (mapped_le _ _ 8); [|by_eval]. apply (at_mapped _ _ [1; 2; 3; 4; 5; 6; 7; 8]). vm_compute. repeat split.
  - by split.
  - by split.
  - left. by_eval.
Defined.

Lemma cmp_exact_witness :
  do_mem_cmp (replicate 288 0) [] 4 [lit "cmp"; lit "100"; lit "200"; lit "2"] demo_ms =
    Some (set_rest [str "word at 0x00000104 (0x08070605) != word at 0x00000204 (0x08070905)" ++ [10]; str "Total of 1 word were the same" ++ [10]] demo_ms, 1).
Proof.
  destruct (cmp_exact (replicate 288 0) [] demo_ms (lit "cmp") (lit "100") (lit "200") (lit "2") 4 0x100 0x200 [[1; 2; 3; 4]; [5; 6; 7; 8]] [[1; 2; 3; 4]; [5; 9; 7; 8]])
    as (E & _).
  - by split.
  - by eexists.
  - by eexists.
  - by eexists.
  - done.
  - repeat constructor; by_eval.
  - repeat constructor; by_eval.
  - vm_compute. repeat split.
  - vm_compute. repeat split.
  - by split.
  - by split.
  - rewrite E. by vm_compute.
Defined.
