(* ===== verification/Battery.v ===== *)
(** The battery: the gas gauge ([drivers/bq27541.c]), the power chip
    ([drivers/twl6030.c]) and the loop that waits until the battery is good
    enough to boot ([drivers/battery_loop.c]).  What is printed is left
    out. *)
From stdpp Require Import base tactics option list.
From Stdlib Require Import ZArith Lia.
From S2P Require Import Prelude.
From S2P Require Import Eff.
Open Scope Z_scope.

(** ** The board *)

(** The display, the clocks and the time. *)
Inductive action :=
  | Init_LCD
  | Power_on_LCD
  | Power_off_LCD
  | display_disable
  | display_reinit
  | show_devicetoohot
  | show_charging
  | show_lowbattery
  | Show_Logo
  | Set_Brightness (level : Z)
  | prcm_reinit_battery_chrg (on : Z)
  | scale_reinit_vcores (on : Z)
  | udelay (usec : Z).

(** The buses: [select_bus] of a bus at a speed; [i2c_read] of a chip, an
    address of some bytes and a buffer, which gives the status and what is
    in the buffer then; [i2c_write].  Whether the processor has power. *)
Class Board (W : Type) := {
  select_bus : Z → Z → W → W * Z;
  i2c_read : Z → Z → Z → list Z → W → W * (Z * list Z);
  i2c_write : Z → Z → Z → list Z → W → W * Z;
  perform : action → W → W;
  running : W → bool;
}.

Definition run_total {W A} (f : W → W * A) : ST W A := λ w, Some (f w).

(** ** The gas gauge *)

Definition BQ27541_I2C_BUS : Z := 2.
Definition BQ27541_ADDR : Z := 0x55.
Definition BQ27541_REG_CONTROL : Z := 0x00.
Definition BQ27541_REG_TEMP : Z := 0x06.
Definition BQ27541_REG_VOLTAGE : Z := 0x08.
Definition BQ27541_REG_FLAGS : Z := 0x0a.
Definition BQ27541_REG_CURRENT : Z := 0x14.
Definition BQ27541_REG_SOC : Z := 0x2c.

Section gauge.
Context {W : Type} `{Board W}.
#[local] Abbreviation M := (ST W).

Definition bq27541_i2c_read (reg : Z) (buffer : list Z) : M (Z * list Z) :=
  r ← run_total (select_bus BQ27541_I2C_BUS 100);
  x ← (if negb (r =? 0) then mret (-1, buffer) else run_total (i2c_read BQ27541_ADDR reg 1 buffer));
  _ ← run_total (select_bus 0 100);
  mret x.
Definition bq27541_i2c_write (reg : Z) (buffer : list Z) : M Z :=
  r ← run_total (select_bus BQ27541_I2C_BUS 100);
  x ← (if negb (r =? 0) then mret (-1) else run_total (i2c_write BQ27541_ADDR reg 1 buffer));
  _ ← run_total (select_bus 0 100);
  mret x.

(** The low byte is sent first. *)
Definition bq27541_device_type : M Z :=
  let cmd := [0x01; 0x00] in
  r ← bq27541_i2c_write BQ27541_REG_CONTROL cmd;
  if negb (r =? 0) then mret (-1) else
  '(_, cmd) ← bq27541_i2c_read BQ27541_REG_CONTROL cmd;
  c1 ← lift (idx cmd 1);
  c0 ← lift (idx cmd 0);
  mret (if (c1 =? 0x05) && (c0 =? 0x41) then 0 else 1).

(** The functions get a pointer that is not null; [old] is what it points to.
    The result, and what it points to then. *)
Definition bq27541_u16 (reg : Z) (old : Z) : M (Z * Z) :=
  '(r, l) ← bq27541_i2c_read reg (le_bytes 2 old);
  mret (if negb (r =? 0) then -1 else 0, le_val l).
Definition bq27541_capacity (capacity : Z) : M (Z * Z) := bq27541_u16 BQ27541_REG_SOC capacity.
Definition bq27541_voltage (voltage : Z) : M (Z * Z) := bq27541_u16 BQ27541_REG_VOLTAGE voltage.
Definition bq27541_flags (flags : Z) : M (Z * Z) := bq27541_u16 BQ27541_REG_FLAGS flags.
Definition bq27541_current (current : Z) : M (Z * Z) :=
  '(r, v) ← bq27541_u16 BQ27541_REG_CURRENT (u16 current); mret (r, s16 v).

(** Tenths of a Kelvin. *)
Definition bq27541_temperature (temp : Z) : M (Z * Z) :=
  '(r, value) ← bq27541_u16 BQ27541_REG_TEMP 0;
  mret (if negb (r =? 0) then (-1, temp) else (0, Z.quot (s16 (value - 2731)) 10)).

(** ** The power chip *)

Definition TWL6030_CHIP_PM : Z := 0x48.
Definition TWL6030_CHIP_CHARGER : Z := 0x49.
Definition CONTROLLER_INT_MASK : Z := 0xE0.
Definition CONTROLLER_CTRL1 : Z := 0xE1.
Definition CONTROLLER_STAT1 : Z := 0xE3.
Definition CHARGERUSB_INT_MASK : Z := 0xE5.
Definition CHARGERUSB_CTRL2 : Z := 0xE9.
Definition CHARGERUSB_VOREG : Z := 0xEC.
Definition CHARGERUSB_VICHRG : Z := 0xED.
Definition CHARGERUSB_CINLIMIT : Z := 0xEE.
Definition CHARGERUSB_VICHRG_1500 : Z := 0xE.
Definition CHARGERUSB_CIN_LIMIT_NONE : Z := 0xF.
Definition MBAT_TEMP : Z := 4.
Definition MASK_MCHARGERUSB_THMREG : Z := 2.
Definition CHARGERUSB_VOREG_4P0 : Z := 0x19.
Definition CHARGERUSB_CTRL2_VITERM_100 : Z := 32.
Definition CONTROLLER_CTRL1_EN_CHARGER : Z := 16.
Definition VUSB_CFG_GRP : Z := 0xa0.
Definition VUSB_CFG_TRANS : Z := 0xa1.
Definition VUSB_CFG_STATE : Z := 0xA2.
Definition VUSB_CFG_VOLTAGE : Z := 0xa3.
Definition MISC2 : Z := 0xE5.
Definition PHOENIX_MSK_TRANSITION : Z := 0x20.
Definition PHOENIX_STS_HW_CONDITION : Z := 0x21.
Definition TWL6030_PHONIX_DEV_ON : Z := 0x25.
Definition PHONIX_APP_DEVOFF : Z := 1.

Definition twl6030_i2c_write_u8 (chip_no val reg : Z) : M Z := run_total (i2c_write chip_no reg 1 [u8 val]).
Definition twl6030_i2c_read_u8 (chip_no val reg : Z) : M (Z * Z) :=
  '(r, l) ← run_total (i2c_read chip_no reg 1 [val]); v ← lift (idx l 0); mret (r, v).

(** A sequence of writes of values to registers. *)
Definition writes (chip_no : Z) (l : list (Z * Z)) : M unit :=
  mfor l (λ x _, _ ← twl6030_i2c_write_u8 chip_no x.1 x.2; mret tt) tt.

Definition twl6030_enable_vusb : M unit :=
  '(_, data) ← twl6030_i2c_read_u8 TWL6030_CHIP_PM 0 MISC2;
  _ ← twl6030_i2c_write_u8 TWL6030_CHIP_PM (Z.lor data 0x10) MISC2;
  writes TWL6030_CHIP_PM [(0x18, VUSB_CFG_VOLTAGE); (0x0, VUSB_CFG_GRP); (0x0, VUSB_CFG_TRANS); (0x01, VUSB_CFG_STATE)].
Definition twl6030_disable_vusb : M unit :=
  _ ← writes TWL6030_CHIP_PM [(0x18, VUSB_CFG_VOLTAGE); (0x0, VUSB_CFG_GRP); (0x0, VUSB_CFG_TRANS); (0x0, VUSB_CFG_STATE)];
  '(_, data) ← twl6030_i2c_read_u8 TWL6030_CHIP_PM 0 MISC2;
  _ ← twl6030_i2c_write_u8 TWL6030_CHIP_PM (Z.land data (Z.lnot 0x18)) MISC2;
  mret tt.

(** [true] when the processor still has power. *)
Definition twl6030_shutdown : M bool :=
  _ ← twl6030_i2c_write_u8 TWL6030_CHIP_PM PHONIX_APP_DEVOFF TWL6030_PHONIX_DEV_ON; w ← get; mret (running w).
Definition twl6030_get_vbus_status : M Z :=
  '(_, data) ← twl6030_i2c_read_u8 TWL6030_CHIP_CHARGER 0 CONTROLLER_STAT1; mret (Z.shiftr (Z.land data 0x4) 2).
Definition twl6030_start_usb_charging : M unit :=
  writes TWL6030_CHIP_CHARGER [(CHARGERUSB_VICHRG_1500, CHARGERUSB_VICHRG); (CHARGERUSB_CIN_LIMIT_NONE, CHARGERUSB_CINLIMIT);
    (MBAT_TEMP, CONTROLLER_INT_MASK); (MASK_MCHARGERUSB_THMREG, CHARGERUSB_INT_MASK); (CHARGERUSB_VOREG_4P0, CHARGERUSB_VOREG);
    (CHARGERUSB_CTRL2_VITERM_100, CHARGERUSB_CTRL2); (CONTROLLER_CTRL1_EN_CHARGER, CONTROLLER_CTRL1)].
Definition twl6030_init_battery_charging : M unit := twl6030_start_usb_charging.
Definition twl6032_init : M unit := writes TWL6030_CHIP_PM [(0xC0, PHOENIX_MSK_TRANSITION)].
Definition twl6030_usb_device_settings : M unit :=
  _ ← twl6030_i2c_write_u8 TWL6030_CHIP_PM 0x21 VUSB_CFG_STATE;
  '(_, data) ← twl6030_i2c_read_u8 TWL6030_CHIP_PM 0 MISC2;
  _ ← twl6030_i2c_write_u8 TWL6030_CHIP_PM (Z.lor data 0x10) MISC2;
  mret tt.
End gauge.

(** ** The loop *)

Definition TEMPERATURE_COLD_LIMIT : Z := -19.
Definition TEMPERATURE_HOT_LIMIT : Z := 59.
Definition LOW_BATTERY_CAPACITY_LIMIT : Z := 2.
Definition LOW_BATTERY_VOLTAGE_LIMIT : Z := 3430.
Definition LOW_BATTERY_SPLASH_VOLTAGE_LIMIT : Z := 3100.
Definition BATTERY_CHRG_ON : Z := 1.
Definition BATTERY_CHRG_OFF : Z := 0.
Definition TMP103_I2C_BUS : Z := 2.
Definition TMP103_ADDR : Z := 0x70.
Definition DEVICE_TEMP_BOOT_LIMIT : Z := 64.
Definition LP8552_BRT_LEVEL2 : Z := 0x0A.

(** The board and the variables of the file. *)
Record bat (W : Type) := mkBat { board : W; charge_screen_displayed : Z; wall_charger_used : Z }.
Arguments mkBat {W}.
Arguments board {W}.
Arguments charge_screen_displayed {W}.
Arguments wall_charger_used {W}.

(** The locals of the loop. *)
Record loc := mkLoc { voltage : Z; capacity : Z; current : Z; temperature : Z; sec : Z; discharge_count : Z }.

(** Where a round goes: to its end, to [shutdown] or out of the loop. *)
Inductive goto := Go_on | Shutdown | Leave.

(** [Off]: the processor has lost its power. *)
Inductive ended (A : Type) := Returned (a : A) | Off.
Arguments Returned {A}.
Arguments Off {A}.

Section loop.
Context {W : Type} `{Board W}.
#[local] Abbreviation M := (ST (bat W)).

Definition on_board {A} (f : ST W A) : M A := λ s,
  match f (board s) with
  | Some (w, a) => Some (mkBat w (charge_screen_displayed s) (wall_charger_used s), a)
  | None => None
  end.
Definition acts (l : list action) : M unit := modify (λ s, mkBat (fold_left (λ w a, perform a w) l (board s)) (charge_screen_displayed s) (wall_charger_used s)).
Definition mdelay (n : nat) : list action := replicate n (udelay 1000).
Definition set_displayed (s : bat W) : bat W := mkBat (board s) 1 (wall_charger_used s).
Definition set_wall (x : Z) (s : bat W) : bat W := mkBat (board s) (charge_screen_displayed s) x.

(** The readings, up to the first that fails. *)
Definition read_gauge (x : loc) : M (loc * bool) :=
  '(r, v) ← on_board (bq27541_voltage (voltage x));
  let x := mkLoc v (capacity x) (current x) (temperature x) (sec x) (discharge_count x) in
  if negb (r =? 0) then mret (x, false) else
  '(r, v) ← on_board (bq27541_capacity (capacity x));
  let x := mkLoc (voltage x) v (current x) (temperature x) (sec x) (discharge_count x) in
  if negb (r =? 0) then mret (x, false) else
  '(r, v) ← on_board (bq27541_current (current x));
  let x := mkLoc (voltage x) (capacity x) v (temperature x) (sec x) (discharge_count x) in
  if negb (r =? 0) then mret (x, false) else
  '(r, v) ← on_board (bq27541_temperature (temperature x));
  mret (mkLoc (voltage x) (capacity x) (current x) v (sec x) (discharge_count x), r =? 0).

Definition check_round (x : loc) : M (loc * goto) :=
  if (TEMPERATURE_HOT_LIMIT <? temperature x) || (temperature x <? TEMPERATURE_COLD_LIMIT) then mret (x, Shutdown) else
  vbus ← on_board twl6030_get_vbus_status;
  if vbus =? 0 then mret (x, Shutdown) else
  let x := mkLoc (voltage x) (capacity x) (current x) (temperature x) (sec x)
             (if current x <=? 0 then discharge_count x + 1 else 0) in
  if (current x <=? 0) && (10 <? discharge_count x) then mret (x, Shutdown) else
  if 30 * 60 * 5 * 2 <? sec x then mret (x, Shutdown) else
  if (LOW_BATTERY_VOLTAGE_LIMIT <=? voltage x) && (LOW_BATTERY_CAPACITY_LIMIT <=? capacity x) then mret (x, Leave) else
  mret (x, Go_on).

(** The wait for the button: [ms], [button_state].  A local that is jumped
    over has no value, [None]. *)
Definition button_step (x : Z * option Z) : M ((Z * option Z) + (Z * bool)) :=
  let '(ms, button_state) := x in
  if ms <? 20 then
    '(_, data) ← on_board (twl6030_i2c_read_u8 TWL6030_CHIP_PM 0 PHOENIX_STS_HW_CONDITION);
    let data := Z.land data 0x01 in
    b ← lift button_state;
    if negb (Z.lxor b data =? 0) then mret (inr (ms, true)) else
    _ ← acts [udelay 50000];
    mret (inl (ms + 1, Some data))
  else mret (inr (ms, false)).

(** The screen for five seconds, less the wait. *)
Definition show_screen (x : loc) (ms : Z) : M unit :=
  _ ← acts ([Init_LCD; Power_on_LCD] ++ mdelay 200 ++ [display_reinit] ++ mdelay 100 ++
            [if 0 <? current x then show_charging else show_lowbattery]);
  _ ← modify set_displayed;
  acts ([Set_Brightness LP8552_BRT_LEVEL2] ++ mdelay (Z.to_nat (5000 - ms * 50)) ++
        [Set_Brightness 0] ++ mdelay 100 ++ [Power_off_LCD] ++ mdelay 100 ++ [display_disable]).

(** Behind the label [skip]. *)
Definition wait_round (button_state pressed : option Z) (x : loc) : M loc :=
  '(ms, hit) ← mloop 21 button_step (0, button_state);
  pressed ← lift (if hit : bool then Some 1 else pressed);
  s ← get;
  _ ← (if (negb (pressed =? 0) || (charge_screen_displayed s =? 0)) && (LOW_BATTERY_SPLASH_VOLTAGE_LIMIT <? voltage x)
       then show_screen x ms else mret tt);
  mret (mkLoc (voltage x) (capacity x) (current x) (temperature x) (sec x + 5) (discharge_count x)).

Definition charge_round (x : loc) : M (loc + ended loc) :=
  '(x, ok) ← read_gauge x;
  if ok : bool then
    '(x, where_) ← check_round x;
    match where_ with
    | Go_on => x ← wait_round (Some 1) (Some 0) x; mret (inl x)
    | Leave => mret (inr (Returned x))
    | Shutdown => p ← on_board twl6030_shutdown; mret (if p : bool then inl x else inr Off)
    end
  else x ← wait_round None None x; mret (inl x).

(** [fuel] is the number of rounds looked at. *)
Definition battery_charge_loop (fuel : nat) : M (ended loc) := mloop fuel charge_round (mkLoc 0 0 0 0 0 0).

(** ** The check at start-up *)

Definition tmp103_temperature_read (buffer : list Z) : ST W (Z * list Z) :=
  r ← run_total (select_bus TMP103_I2C_BUS 100);
  x ← (if negb (r =? 0) then mret (-1, buffer) else run_total (i2c_read TMP103_ADDR 0 1 buffer));
  _ ← run_total (select_bus 0 100);
  mret x.

Definition too_hot : M bool :=
  _ ← acts ([Init_LCD; show_devicetoohot; Set_Brightness LP8552_BRT_LEVEL2] ++ mdelay 4000);
  on_board twl6030_shutdown.

(** The screen before the loop. *)
Definition low_screen (x : loc) : M unit :=
  s ← get;
  if (LOW_BATTERY_SPLASH_VOLTAGE_LIMIT <? voltage x) || negb (wall_charger_used s =? 0) || (current x <=? 0) then
    _ ← acts [Init_LCD; if 0 <? current x then show_charging else show_lowbattery; Set_Brightness LP8552_BRT_LEVEL2];
    _ ← modify set_displayed;
    acts (mdelay 5000 ++ [Set_Brightness 0] ++ mdelay 100 ++ [Power_off_LCD] ++ mdelay 100 ++ [display_disable] ++ mdelay 100)
  else mret tt.

Definition check_battery_condition (fuel : nat) (wall_charger : Z) : M (ended Z) :=
  _ ← modify (set_wall wall_charger);
  '(x, ok) ← read_gauge (mkLoc 0 0 0 0 0 0);
  if negb (ok : bool) then mret (Returned (-1)) else
  '(_, l) ← on_board (tmp103_temperature_read [0]);
  tmp103_temp ← lift (idx l 0);
  p ← (if DEVICE_TEMP_BOOT_LIMIT <=? tmp103_temp then too_hot else mret true);
  if negb (p : bool) then mret Off else
  if (voltage x <? LOW_BATTERY_VOLTAGE_LIMIT) || (capacity x <? LOW_BATTERY_CAPACITY_LIMIT) then
    _ ← low_screen x;
    _ ← acts [prcm_reinit_battery_chrg BATTERY_CHRG_ON; scale_reinit_vcores BATTERY_CHRG_ON];
    e ← battery_charge_loop fuel;
    match e with
    | Off => mret Off
    | Returned _ =>
        _ ← acts ([scale_reinit_vcores BATTERY_CHRG_OFF; prcm_reinit_battery_chrg BATTERY_CHRG_OFF; Init_LCD; Power_on_LCD] ++
                  mdelay 200 ++ [display_reinit] ++ mdelay 100 ++ [Show_Logo]);
        mret (Returned 0)
    end
  else mret (Returned 0).
End loop.
