(* ===== verification/BatterySpec.v ===== *)
(** The battery loop leaves only with a battery that is good enough, and
    otherwise switches the tablet off, after 3602 rounds at most; a gauge that
    cannot be read makes it use a local without a value. *)
From stdpp Require Import base tactics option list.
From Stdlib Require Import ZArith Lia.
From S2P Require Import Prelude.
From S2P Require Import Eff.
From S2P Require Import Battery.
Open Scope Z_scope.

Section spec.
Context {W : Type} `{Board W}.
Implicit Types (s : bat W) (x : loc).

(** The buses work and the power chip obeys. *)
Record works : Prop := mkWorks {
  wk_select : ∀ bus speed (w : W), (select_bus bus speed w).2 = 0;
  wk_read : ∀ chip addr alen l (w : W), ∃ w' l', i2c_read chip addr alen l w = (w', (0, l')) ∧ length l' = length l ∧ bytes l';
  wk_off : ∀ (w : W), running (i2c_write TWL6030_CHIP_PM TWL6030_PHONIX_DEV_ON 1 [PHONIX_APP_DEVOFF] w).1 = false;
}.
Context (Hw : works).

Lemma wp_total {A} (f : W → W * A) w (Q : W → A → Prop) : Q (f w).1 (f w).2 → wp (run_total f) w Q.
Proof. unfold wp, run_total. by destruct (f w). Qed.

Lemma wp_board {A} (f : ST W A) s (Q : bat W → A → Prop) :
  wp f (board s) (λ w a, Q (mkBat w (charge_screen_displayed s) (wall_charger_used s)) a) → wp (on_board f) s Q.
Proof. unfold wp, on_board. by destruct (f (board s)) as [[w a]|]. Qed.

Lemma wp_gauge reg l w (Q : W → Z * list Z → Prop) : (∀ w' l', length l' = length l → bytes l' → Q w' (0, l')) → wp (bq27541_i2c_read reg l) w Q.
Proof using Hw.
  intros HQ. unfold bq27541_i2c_read. apply wp_bind, wp_total. rewrite (wk_select Hw). apply wp_bind. change (negb (0 =? 0)) with false. cbv iota.
  apply wp_total. destruct (wk_read Hw BQ27541_ADDR reg 1 l (select_bus BQ27541_I2C_BUS 100 w).1) as (w' & l' & -> & Hl & Hb). cbn [fst snd].
  apply wp_bind, wp_total, wp_ret. by apply HQ.
Qed.

Lemma wp_u16 reg old w (Q : W → Z * Z → Prop) : (∀ w' v, 0 <= v < 65536 → Q w' (0, v)) → wp (bq27541_u16 reg old) w Q.
Proof using Hw.
  intros HQ. unfold bq27541_u16. apply wp_bind, wp_gauge. intros w' l' Hl Hb. apply wp_ret. cbn. apply HQ.
  pose proof (le_val_range l' Hb) as Hr. rewrite Hl, le_bytes_length in Hr. exact Hr.
Qed.

(** All four readings succeed. *)
Lemma wp_read_gauge x s (Q : bat W → loc * bool → Prop) :
  (∀ w v c i t, Q (mkBat w (charge_screen_displayed s) (wall_charger_used s)) (mkLoc v c i t (sec x) (discharge_count x), true)) →
  wp (read_gauge x) s Q.
Proof using Hw.
  intros HQ. unfold read_gauge, bq27541_voltage, bq27541_capacity, bq27541_current, bq27541_temperature.
  apply wp_bind, wp_board, wp_u16. intros w1 v1 _. cbn [negb Z.eqb]. cbv iota beta zeta.
  apply wp_bind, wp_board, wp_u16. intros w2 v2 _. cbn [negb Z.eqb]. cbv iota beta zeta.
  apply wp_bind, wp_board, wp_bind, wp_u16. intros w3 v3 _. apply wp_ret. cbn [negb Z.eqb]. cbv iota beta zeta.
  apply wp_bind, wp_board, wp_bind, wp_u16. intros w4 v4 _. apply wp_ret. cbn [negb Z.eqb]. cbv iota beta. apply wp_ret. apply HQ.
Qed.

Lemma wp_reg chip old reg w (Q : W → Z * Z → Prop) : (∀ w' v, is_byte v → Q w' (0, v)) → wp (twl6030_i2c_read_u8 chip old reg) w Q.
Proof using Hw.
  intros HQ. unfold twl6030_i2c_read_u8. apply wp_bind, wp_total. destruct (wk_read Hw chip reg 1 [old] w) as (w' & l' & -> & Hl & Hb). cbn [fst snd].
  destruct l' as [|v [|]]; [done| |done]. apply Forall_cons in Hb as [Hv _]. apply wp_bind. eapply wp_lift; [reflexivity|]. apply wp_ret. by apply HQ.
Qed.

(** ** One round *)

(** The battery is good enough, and nothing forbids to go on. *)
Definition good x : Prop :=
  LOW_BATTERY_VOLTAGE_LIMIT <= voltage x ∧ LOW_BATTERY_CAPACITY_LIMIT <= capacity x ∧
  TEMPERATURE_COLD_LIMIT <= temperature x <= TEMPERATURE_HOT_LIMIT ∧ sec x <= 18000 ∧ 0 <= discharge_count x <= 10.

Lemma wp_check x s (Q : bat W → loc * goto → Prop) : 0 <= discharge_count x <= 10 →
  (∀ w dc g, 0 <= dc →
     let x' := mkLoc (voltage x) (capacity x) (current x) (temperature x) (sec x) dc in
     match g with Go_on => sec x <= 18000 ∧ dc <= 10 | Leave => good x' | Shutdown => True end →
     Q (mkBat w (charge_screen_displayed s) (wall_charger_used s)) (x', g)) →
  wp (check_round x) s Q.
Proof using Hw.
  intros Hdc HQ. assert (∀ w g, match g with Go_on => sec x <= 18000 ∧ discharge_count x <= 10 | Leave => good x | Shutdown => True end →
    Q (mkBat w (charge_screen_displayed s) (wall_charger_used s)) (x, g)) as HQx.
  { intros w g Hg. specialize (HQ w (discharge_count x) g ltac:(lia)). destruct x. by apply HQ. }
  assert (mkBat (board s) (charge_screen_displayed s) (wall_charger_used s) = s) as Es by by destruct s.
  unfold check_round. destruct ((TEMPERATURE_HOT_LIMIT <? temperature x) || (temperature x <? TEMPERATURE_COLD_LIMIT)) eqn:Et; [apply wp_ret; specialize (HQx (board s) Shutdown I); by rewrite Es in HQx|].
  apply orb_false_iff in Et as [Eh Ec]. apply Z.ltb_ge in Eh, Ec. apply wp_bind, wp_board. unfold twl6030_get_vbus_status.
  apply wp_bind, wp_reg. intros w v _. apply wp_ret. destruct (_ =? 0); [apply wp_ret; by apply (HQx w Shutdown)|].
  cbn [current discharge_count voltage capacity temperature sec].
  remember (if current x <=? 0 then discharge_count x + 1 else 0) as dc eqn:Edc. assert (0 <= dc) as Hdc0 by (rewrite Edc; case_match; lia).
  destruct ((current x <=? 0) && (10 <? dc)) eqn:Ed; [apply wp_ret; by apply (HQ w dc Shutdown)|].
  destruct (Z.ltb_spec (30 * 60 * 5 * 2) (sec x)); [apply wp_ret; by apply (HQ w dc Shutdown)|].
  assert (dc <= 10) as Hdc10. { destruct (current x <=? 0); [|lia]. cbn [andb] in Ed. apply Z.ltb_ge in Ed. lia. }
  destruct ((LOW_BATTERY_VOLTAGE_LIMIT <=? voltage x) && (LOW_BATTERY_CAPACITY_LIMIT <=? capacity x)) eqn:Eg; apply wp_ret; [|by apply (HQ w dc Go_on)].
  apply (HQ w dc Leave); [done|]. apply andb_true_iff in Eg as [Ev Ek]. apply Z.leb_le in Ev, Ek. unfold good. cbn. lia.
Qed.

Lemma wp_acts l s (Q : bat W → unit → Prop) : (∀ w, Q (mkBat w (charge_screen_displayed s) (wall_charger_used s)) tt) → wp (acts l) s Q.
Proof. intros HQ. apply wp_modify, HQ. Qed.

Lemma wp_wait x s (Q : bat W → loc → Prop) :
  (∀ s', Q s' (mkLoc (voltage x) (capacity x) (current x) (temperature x) (sec x + 5) (discharge_count x))) →
  wp (wait_round (Some 1) (Some 0) x) s Q.
Proof using Hw.
  intros HQ. unfold wait_round. apply wp_bind.
  apply (wp_loop _ (λ _ y, (∃ b, y.2 = Some b) ∧ 0 <= y.1) (λ y, Z.to_nat (20 - y.1))); [|by split; [eexists|]|by_eval].
  - intros s1 [ms b] [[b0 Hb] Hms]. cbn in Hb, Hms. subst b. unfold button_step. destruct (Z.ltb_spec ms 20).
    + apply wp_bind, wp_board, wp_reg. intros w v _. apply wp_bind. eapply wp_lift; [reflexivity|].
      destruct (negb _); [apply wp_ret|].
      * cbn beta iota. apply wp_bind. eapply wp_lift; [reflexivity|]. apply wp_bind, wp_get, wp_bind.
        case_match; [|by apply wp_ret, wp_ret, HQ]. unfold show_screen. apply wp_bind, wp_acts. intros w1. apply wp_bind, wp_modify, wp_acts.
        intros w2. by apply wp_ret, HQ.
      * apply wp_bind, wp_acts. intros w1. apply wp_ret. split; [|cbn; lia]. split; [by eexists|cbn; lia].
    + apply wp_ret. cbn beta iota. apply wp_bind. eapply wp_lift; [reflexivity|]. apply wp_bind, wp_get, wp_bind.
      case_match; [|by apply wp_ret, wp_ret, HQ]. unfold show_screen. apply wp_bind, wp_acts. intros w1. apply wp_bind, wp_modify, wp_acts.
      intros w2. by apply wp_ret, HQ.
Qed.

(** ** The loop *)

Definition fine (s : bat W) (e : ended loc) : Prop :=
  match e with Returned x => good x | Off => running (board s) = false end.

Lemma wp_round x s (Q : bat W → loc + ended loc → Prop) : 0 <= discharge_count x <= 10 →
  (∀ s' x', sec x <= 18000 → sec x' = sec x + 5 → 0 <= discharge_count x' <= 10 → Q s' (inl x')) →
  (∀ s' e, fine s' e → Q s' (inr e)) →
  wp (charge_round x) s Q.
Proof using Hw.
  intros Hdc HQl HQr. unfold charge_round. apply wp_bind, (wp_read_gauge x). intros w v c i t. cbn beta iota.
  set (x1 := mkLoc v c i t (sec x) (discharge_count x)). apply wp_bind, (wp_check x1); [done|]. intros w1 dc g Hdc1 x2 Hg. destruct g.
  - destruct Hg as [Hsec Hdc2]. apply wp_bind, wp_wait. intros s'. apply wp_ret, HQl; [done|done|]. cbn. lia.
  - apply wp_bind, wp_board. unfold twl6030_shutdown, twl6030_i2c_write_u8. apply wp_bind, wp_total, wp_bind, wp_get, wp_ret.
    change (u8 PHONIX_APP_DEVOFF) with PHONIX_APP_DEVOFF. rewrite (wk_off Hw). apply wp_ret, HQr. cbn. apply (wk_off Hw).
  - apply wp_ret, HQr. exact Hg.
Qed.

(** The rounds the limit of 18000 seconds allows: one at each of 0, 5, …,
    18000 seconds, and the one that finds the limit exceeded. *)
Definition rounds : nat := 3602.

Lemma loop_spec s : wp (battery_charge_loop rounds) s fine.
Proof using Hw.
  unfold battery_charge_loop.
  apply (wp_loop _ (λ _ x, 0 <= discharge_count x <= 10 ∧ 0 <= sec x <= 18005 ∧ sec x mod 5 = 0)
    (λ x, Z.to_nat ((18005 - sec x) / 5))); [|by_eval|by_eval].
  intros s1 x (Hdc & Hsec & Hm). apply wp_round; [done| |by intros s' e].
  intros s' x' Hs Es Hdc'. rewrite Es. split; [split; [done|]; split; [lia|]|].
  - replace (sec x + 5) with (sec x + 1 * 5) by lia. by rewrite Z.mod_add.
  - assert (1 <= (18005 - sec x) / 5) by (apply Z.div_le_lower_bound; lia).
    replace ((18005 - (sec x + 5)) / 5) with ((18005 - sec x) / 5 - 1); [lia|].
    replace (18005 - sec x) with (18005 - (sec x + 5) + 1 * 5) by lia. rewrite Z.div_add by lia. lia.
Qed.

(** ** The gauge cannot be read *)

Lemma unread_undefined x x1 s s1 : read_gauge x s = Some (s1, (x1, false)) → charge_round x s = None.
Proof.
  intros E. unfold charge_round. rewrite (bind_eq _ _ _ _ _ E). apply undef_bind_l. unfold wait_round. apply undef_bind_l.
  rewrite mloop_S. apply undef_bind_l. unfold button_step. change (0 <? 20) with true. cbv iota.
  unfold mbind, st_bind. by destruct (on_board _ s1) as [[s2 [r d]]|].
Qed.
End spec.

(** C40: with a gauge that can be read and a power chip that obeys, the loop
    that waits for the battery ends after at most 3602 rounds, of which it
    counts five seconds each: the battery has the voltage and the charge to boot, within the
    limits of temperature and time, or the power is switched off. *)
Theorem battery_loop_ends {W} `{Board W} (Hw : works (W := W)) (s : bat W) :
  ∃ s' e, battery_charge_loop rounds s = Some (s', e) ∧
    match e with
    | Returned x =>
        3430 <= voltage x ∧ 2 <= capacity x ∧ -19 <= temperature x <= 59 ∧ sec x <= 18000 ∧ 0 <= discharge_count x <= 10
    | Off => running (board s') = false
    end.
Proof. destruct (wp_elim _ _ _ (loop_spec Hw s)) as (s' & e & E & Hf). exists s', e. split; [exact E|]. by destruct e. Qed.

(** ** An example: a battery that is charged by 100 mV in a round *)

#[local] Definition answer (chip addr : Z) (w : Z * bool) : list Z :=
  if chip =? BQ27541_ADDR then
    le_bytes 2 (if addr =? BQ27541_REG_VOLTAGE then w.1 else if addr =? BQ27541_REG_TEMP then 2981 else 100)
  else if chip =? TWL6030_CHIP_CHARGER then [4] else [1].
#[local] Instance demo_board : Board (Z * bool) := {|
  select_bus _ _ w := (w, 0);
  i2c_read chip addr _ l w :=
    ((if (chip =? BQ27541_ADDR) && (addr =? BQ27541_REG_VOLTAGE) then (w.1 + 100, w.2) else w, (0, resize (length l) 0 (answer chip addr w))));
  i2c_write _ _ _ _ w := ((w.1, false), 0);
  perform _ w := w;
  running w := w.2 |}.

Lemma demo_works : works.
Proof.
  split; [done| |done]. intros chip addr alen l w. eexists _, _. split; [done|]. split; [by rewrite length_resize|].
  apply Forall_resize; [by_eval|]. unfold answer. repeat case_match; try apply le_bytes_bytes; by_eval.
Qed.

Lemma battery_loop_ends_witness : ∃ s' x, battery_charge_loop rounds (mkBat (3200, true) 0 0) = Some (s', Returned x) ∧ 3430 <= voltage x.
Proof.
  destruct (battery_loop_ends demo_works (mkBat (3200, true) 0 0)) as (s' & e & E & He).
  assert (∃ x, e = Returned x) as [x ->].
  { assert (match battery_charge_loop rounds (mkBat (3200, true) 0 0) with Some (_, Returned _) => true | _ => false end = true) as Hr by by vm_compute.
    rewrite E in Hr. destruct e; [by eexists|done]. }
  exists s', x. split; [exact E|]. apply He.
Defined.
