(* ===== verification/Hsmmc.v ===== *)
(** The driver of the memory cards ([cpu/omap4/mmc.c], with the registers of
    [mmc_host_def.h] and the commands of [mmc_protocol.h]).  What is printed
    is left out. *)
From stdpp Require Import base tactics option list.
From Stdlib Require Import ZArith Lia.
From S2P Require Import Prelude.
From S2P Require Import Eff.
From S2P Require Import PartDos.
Open Scope Z_scope.

(** ** Registers *)

Definition OMAP_HSMMC1_BASE : Z := 0x4809C100.
Definition OMAP_HSMMC2_BASE : Z := 0x480B4100.
Definition OMAP_HSMMC_SYSCONFIG (base : Z) : Z := base + 0x010.
Definition OMAP_HSMMC_SYSSTATUS (base : Z) : Z := base + 0x014.
Definition OMAP_HSMMC_CON (base : Z) : Z := base + 0x02C.
Definition OMAP_HSMMC_BLK (base : Z) : Z := base + 0x104.
Definition OMAP_HSMMC_ARG (base : Z) : Z := base + 0x108.
Definition OMAP_HSMMC_CMD (base : Z) : Z := base + 0x10C.
Definition OMAP_HSMMC_RSP10 (base : Z) : Z := base + 0x110.
Definition OMAP_HSMMC_RSP32 (base : Z) : Z := base + 0x114.
Definition OMAP_HSMMC_RSP54 (base : Z) : Z := base + 0x118.
Definition OMAP_HSMMC_RSP76 (base : Z) : Z := base + 0x11C.
Definition OMAP_HSMMC_DATA (base : Z) : Z := base + 0x120.
Definition OMAP_HSMMC_PSTATE (base : Z) : Z := base + 0x124.
Definition OMAP_HSMMC_HCTL (base : Z) : Z := base + 0x128.
Definition OMAP_HSMMC_SYSCTL (base : Z) : Z := base + 0x12C.
Definition OMAP_HSMMC_STAT (base : Z) : Z := base + 0x130.
Definition OMAP_HSMMC_IE (base : Z) : Z := base + 0x134.
Definition OMAP_HSMMC_CAPA (base : Z) : Z := base + 0x140.
Definition CONTROL_PBIAS_LITE : Z := 0x4A100600.
Definition CONTROL_CONF_MMC1 : Z := 0x4A100628.

Definition MMC_SOFTRESET : Z := 0x2.
Definition RESETDONE : Z := 0x1.
Definition OPENDRAIN : Z := 0x1.
Definition OD : Z := 0x1.
Definition INIT_INITSTREAM : Z := 0x2.
Definition RESERVED_MASK : Z := 0x600.
Definition BLEN_512BYTESLEN : Z := 0x200.
Definition MSBS : Z := 0x20.
Definition BCE : Z := 0x2.
Definition RSP_TYPE_MASK : Z := 0x30000.
Definition RSP_TYPE_LGHT136 : Z := 0x10000.
Definition DATI_MASK : Z := 0x2.
Definition DATI_CMDDIS : Z := 0x2.
Definition SDBP_PWRON : Z := 0x100.
Definition SDVS_3V0 : Z := 0xC00.
Definition ICE_MASK : Z := 0x1.
Definition ICS_MASK : Z := 0x2.
Definition ICE_OSCILLATE : Z := 0x1.
Definition CEN_MASK : Z := 0x4.
Definition CEN_ENABLE : Z := 0x4.
Definition CLKD_OFFSET : Z := 6.
Definition CLKD_MASK : Z := 0xFFC0.
Definition DTO_MASK : Z := 0xF0000.
Definition DTO_15THDTO : Z := 0xE0000.
Definition SOFTRESETALL : Z := 0x1000000.
Definition CC_MASK : Z := 0x1.
Definition TC_MASK : Z := 0x2.
Definition BWR_MASK : Z := 0x10.
Definition BRR_MASK : Z := 0x20.
Definition ERRI_MASK : Z := 0x8000.
Definition VS30_3V0SUP : Z := 0x2000000.
Definition VS18_1V8SUP : Z := 0x4000000.
Definition MMCSD_SECTOR_SIZE : Z := 512.
Definition MMC_CARD : Z := 0.
Definition SD_CARD : Z := 1.
Definition BYTE_MODE : Z := 0.
Definition SECTOR_MODE : Z := 1.
Definition CLK_INITSEQ : Z := 0.
Definition CLK_400KHZ : Z := 1.
Definition CLK_MISC : Z := 2.

(** ** Commands *)

Definition RSP_TYPE_R1 : Z := 0x1A0000.
Definition RSP_TYPE_R1B : Z := 0x1B0000.
Definition RSP_TYPE_R2 : Z := 0x90000.
Definition RSP_TYPE_R3 : Z := 0x20000.
Definition DP_DATA : Z := 0x200000.
Definition DDIR_READ : Z := 0x10.
Definition INDEX (i : Z) : Z := Z.shiftl i 24.
Definition MMC_CMD0 : Z := INDEX 0.
Definition MMC_CMD1 : Z := Z.lor (INDEX 1) RSP_TYPE_R3.
Definition MMC_CMD2 : Z := Z.lor (INDEX 2) RSP_TYPE_R2.
Definition MMC_CMD3 : Z := Z.lor (INDEX 3) RSP_TYPE_R1.
Definition MMC_SDCMD3 : Z := Z.lor (INDEX 3) RSP_TYPE_R1.
Definition MMC_CMD4 : Z := INDEX 4.
Definition MMC_CMD6 : Z := Z.lor (INDEX 6) RSP_TYPE_R1B.
Definition MMC_CMD7_SELECT : Z := Z.lor (INDEX 7) RSP_TYPE_R1B.
Definition MMC_CMD8 : Z := Z.lor (Z.lor (Z.lor (INDEX 8) RSP_TYPE_R1) DP_DATA) DDIR_READ.
Definition MMC_SDCMD8 : Z := Z.lor (INDEX 8) RSP_TYPE_R1.
Definition MMC_CMD9 : Z := Z.lor (INDEX 9) RSP_TYPE_R2.
Definition MMC_CMD12 : Z := Z.lor (INDEX 12) RSP_TYPE_R1B.
Definition MMC_CMD13 : Z := Z.lor (INDEX 13) RSP_TYPE_R1.
Definition MMC_CMD16 : Z := Z.lor (INDEX 16) RSP_TYPE_R1.
Definition MMC_CMD17 : Z := Z.lor (Z.lor (Z.lor (INDEX 17) RSP_TYPE_R1) DP_DATA) DDIR_READ.
Definition MMC_CMD23 : Z := Z.lor (INDEX 23) RSP_TYPE_R1.
Definition MMC_CMD24 : Z := Z.lor (Z.lor (INDEX 24) RSP_TYPE_R1) DP_DATA.
Definition MMC_CMD25 : Z := Z.lor (Z.lor (INDEX 25) RSP_TYPE_R1) DP_DATA.
Definition MMC_ACMD41 : Z := Z.lor (INDEX 41) RSP_TYPE_R3.
Definition MMC_CMD55 : Z := Z.lor (INDEX 55) RSP_TYPE_R1.
Definition MMC_DSR_DEFAULT : Z := 0x0404.
Definition SD_CMD8_CHECK_PATTERN : Z := 0xAA.
Definition SD_CMD8_2_7_3_6_V_RANGE : Z := 0x100.
Definition EXT_CSD_CMD_SET_NORMAL : Z := 1.
Definition EXT_CSD_HS_TIMING : Z := 185.
Definition MMC_SWITCH_MODE_WRITE_BYTE : Z := 3.
Definition EXT_CSD_BUS_WIDTH : Z := 183.
Definition EXT_CSD_BUS_WIDTH_8 : Z := 2.
Definition MMC_RELATIVE_CARD_ADDRESS : Z := 0x1234.
Definition MMC_INIT_SEQ_CLK : Z := 1200.
Definition MMC_400kHz_CLK : Z := 240.
Definition MMC_OCR_REG_ACCESS_MODE_MASK : Z := 0x60000000.
Definition MMC_OCR_REG_ACCESS_MODE_SECTOR : Z := 0x40000000.
Definition MMC_OCR_REG_HOST_CAPACITY_SUPPORT_MASK : Z := 0x40000000.
Definition MMC_OCR_REG_HOST_CAPACITY_SUPPORT_BYTE : Z := 0.
Definition MMC_OCR_REG_HOST_CAPACITY_SUPPORT_SECTOR : Z := 0x40000000.
Definition MMC_CSD_TRAN_SPEED_UNIT_MASK : Z := 0x07.
Definition MMC_CSD_TRAN_SPEED_FACTOR_MASK : Z := 0x78.
Definition MMC_CSD_TRAN_SPEED_UNIT_100MHZ : Z := 0x3.
Definition MMC_CSD_TRAN_SPEED_FACTOR_1_0 : Z := 0x08.
Definition MMC_CSD_TRAN_SPEED_FACTOR_8_0 : Z := 0x78.
Definition MMC_R1_CURRENT_STATE (x : Z) : Z := Z.shiftr (Z.land x 0x1E00) 9.
Definition MMC_R1_STATE_PRG : Z := 7.
Definition RETRY_WAIT_CARD_PRG_COUNT : Z := 100.
Definition OMAP_MMC_MASTER_CLOCK : Z := 96000000.
Definition tran_exp : list Z := [10000; 100000; 1000000; 10000000; 0; 0; 0; 0].
Definition tran_mant : list Z := [0; 10; 12; 13; 15; 20; 25; 30; 35; 40; 45; 50; 55; 60; 70; 80].

(** The fields of [mmc_csd_reg_t] and [mmc_sd2_csd_reg_t] that are read, of
    the four words of the register. *)
Definition bits (w lo n : Z) : Z := Z.land (Z.shiftr w lo) (Z.ones n).
Definition csd_c_size_mult (csd : list Z) : option Z := w ← idx csd 1; Some (bits w 15 3).
Definition csd_c_size_lsb (csd : list Z) : option Z := w ← idx csd 1; Some (bits w 30 2).
Definition csd_c_size_msb (csd : list Z) : option Z := w ← idx csd 2; Some (bits w 0 10).
Definition csd_read_bl_len (csd : list Z) : option Z := w ← idx csd 2; Some (bits w 16 4).
Definition csd_tran_speed (csd : list Z) : option Z := w ← idx csd 3; Some (bits w 0 8).
Definition csd_spec_vers (csd : list Z) : option Z := w ← idx csd 3; Some (bits w 26 4).
Definition sd2_c_size_lsb (csd : list Z) : option Z := w ← idx csd 1; Some (bits w 16 16).
Definition sd2_c_size_msb (csd : list Z) : option Z := w ← idx csd 2; Some (bits w 0 6).

(** ** The board *)

(** The registers, at their addresses: reading one may change something.
    [i2c_write] and [udelay], whose results are not looked at. *)
Class Controller (W : Type) := {
  reg_read : Z → W → W * Z;
  reg_write : Z → Z → W → W;
  i2c_write : Z → Z → list Z → W → W;
  udelay : Z → W → W;
}.

(** ** The state *)

Record mmc_card_data := mkCard { card_type : Z; version : Z; mode : Z; card_size : Z; RCA : Z }.
Record mmc_controller_data := mkCont { cont_slot : Z; cont_base : Z }.
Record block_dev_desc := mkBlk {
  if_type : Z; blk_dev : Z; part_type : Z; lun : Z; blk_type : Z; blksz : Z; lba : Z; removable : Z; block_read : bool }.

Record drv (W : Type) := mkDrv {
  hw : W; mmc_stat_last : Z;
  cur_card_data : list mmc_card_data; cur_controller_data : list mmc_controller_data; mmc_blk_dev : list block_dev_desc }.
Arguments mkDrv {W}.
Arguments hw {W}.
Arguments mmc_stat_last {W}.
Arguments cur_card_data {W}.
Arguments cur_controller_data {W}.
Arguments mmc_blk_dev {W}.

Section driver.
Context {W : Type} `{Controller W}.
#[local] Abbreviation M := (ST (drv W)).

(** How often a register is read in a loop without an end of its own, and the
    uninitialised arrays for responses and the extended CSD. *)
Context (polls : nat) (resp0 ext_csd0 : list Z).

Definition set_hw (w : W) (s : drv W) : drv W := mkDrv w (mmc_stat_last s) (cur_card_data s) (cur_controller_data s) (mmc_blk_dev s).
Definition set_stat_last (v : Z) (s : drv W) : drv W := mkDrv (hw s) v (cur_card_data s) (cur_controller_data s) (mmc_blk_dev s).
Definition set_cards (l : list mmc_card_data) (s : drv W) : drv W := mkDrv (hw s) (mmc_stat_last s) l (cur_controller_data s) (mmc_blk_dev s).
Definition set_conts (l : list mmc_controller_data) (s : drv W) : drv W := mkDrv (hw s) (mmc_stat_last s) (cur_card_data s) l (mmc_blk_dev s).
Definition set_blks (l : list block_dev_desc) (s : drv W) : drv W := mkDrv (hw s) (mmc_stat_last s) (cur_card_data s) (cur_controller_data s) l.

Definition rd (a : Z) : M Z := λ s, let '(w, v) := reg_read a (hw s) in Some (set_hw w s, v).
Definition wr (a v : Z) : M unit := modify (λ s, set_hw (reg_write a v (hw s)) s).
Definition set_bits (a m : Z) : M unit := v ← rd a; wr a (Z.lor v m).
Definition clear_bits (a m : Z) : M unit := v ← rd a; wr a (Z.ldiff v m).
Definition mmc_reg_out (addr mask val : Z) : M unit := v ← rd addr; wr addr (Z.lor (Z.ldiff v mask) (Z.land val mask)).
(** Reading a register until its value passes a test. *)
Definition reg_poll_step (a : Z) (p : Z → bool) (_ : unit) : M (unit + Z) := v ← rd a; mret (if p v then inr v else inl tt).
Definition poll (a : Z) (p : Z → bool) : M Z := mloop polls (reg_poll_step a p) tt.
Definition flagged (v m : Z) : bool := negb (Z.land v m =? 0).

Definition send_i2c (reg v : Z) : M unit := modify (λ s, set_hw (i2c_write 0x48 reg [v] (hw s)) s).
Definition delay (us : Z) : M unit := modify (λ s, set_hw (udelay us (hw s)) s).

(** The two pointers the functions get are to the elements of the same
    slot. *)
Definition card (i : Z) : M mmc_card_data := s ← get; lift (idx (cur_card_data s) i).
Definition cont (i : Z) : M mmc_controller_data := s ← get; lift (idx (cur_controller_data s) i).
Definition put_card (i : Z) (c : mmc_card_data) : M unit := s ← get; l ← lift (upd (cur_card_data s) i c); modify (set_cards l).
Definition set_type (i v : Z) : M unit := c ← card i; put_card i (mkCard v (version c) (mode c) (card_size c) (RCA c)).
Definition set_version (i v : Z) : M unit := c ← card i; put_card i (mkCard (card_type c) v (mode c) (card_size c) (RCA c)).
Definition set_mode (i v : Z) : M unit := c ← card i; put_card i (mkCard (card_type c) (version c) v (card_size c) (RCA c)).
Definition set_size (i v : Z) : M unit := c ← card i; put_card i (mkCard (card_type c) (version c) (mode c) v (RCA c)).
Definition set_RCA (i v : Z) : M unit := c ← card i; put_card i (mkCard (card_type c) (version c) (mode c) (card_size c) v).

(** ** The controller *)

Definition mmc_board_init (slot : Z) : M Z :=
  if slot =? 0 then
    _ ← send_i2c 0x98 0x01;
    _ ← send_i2c 0x99 0x03;
    _ ← send_i2c 0x9A 0x21;
    _ ← send_i2c 0x9B 0x15;
    _ ← set_bits CONTROL_PBIAS_LITE 0x4400000;
    _ ← set_bits CONTROL_CONF_MMC1 0xCE000000;
    mret 1
  else mret 1.

Definition mmc_init_stream (base : Z) : M unit :=
  _ ← set_bits (OMAP_HSMMC_CON base) INIT_INITSTREAM;
  _ ← wr (OMAP_HSMMC_CMD base) MMC_CMD0;
  _ ← poll (OMAP_HSMMC_STAT base) (λ v, flagged v CC_MASK);
  _ ← wr (OMAP_HSMMC_STAT base) CC_MASK;
  _ ← wr (OMAP_HSMMC_CMD base) MMC_CMD0;
  _ ← poll (OMAP_HSMMC_STAT base) (λ v, flagged v CC_MASK);
  v ← rd (OMAP_HSMMC_STAT base);
  _ ← wr (OMAP_HSMMC_STAT base) v;
  clear_bits (OMAP_HSMMC_CON base) INIT_INITSTREAM.

Definition mmc_clock_config (base iclk clk_div : Z) : M Z :=
  _ ← mmc_reg_out (OMAP_HSMMC_SYSCTL base) (Z.lor (Z.lor ICE_MASK DTO_MASK) CEN_MASK) DTO_15THDTO;
  match (if iclk =? CLK_INITSEQ then Some (MMC_INIT_SEQ_CLK / 2) else if iclk =? CLK_400KHZ then Some MMC_400kHz_CLK
         else if iclk =? CLK_MISC then Some clk_div else None) with
  | None => mret 0
  | Some val =>
      _ ← mmc_reg_out (OMAP_HSMMC_SYSCTL base) (Z.lor ICE_MASK CLKD_MASK) (Z.lor (Z.shiftl val CLKD_OFFSET) ICE_OSCILLATE);
      _ ← poll (OMAP_HSMMC_SYSCTL base) (λ v, flagged v ICS_MASK);
      _ ← set_bits (OMAP_HSMMC_SYSCTL base) CEN_ENABLE;
      mret 1
  end.

Definition mmc_init_setup (slot base : Z) : M Z :=
  _ ← mmc_board_init slot;
  _ ← set_bits (OMAP_HSMMC_SYSCONFIG base) MMC_SOFTRESET;
  _ ← poll (OMAP_HSMMC_SYSSTATUS base) (λ v, flagged v RESETDONE);
  _ ← set_bits (OMAP_HSMMC_SYSCTL base) SOFTRESETALL;
  _ ← poll (OMAP_HSMMC_SYSCTL base) (λ v, negb (flagged v SOFTRESETALL));
  _ ← wr (OMAP_HSMMC_HCTL base) SDVS_3V0;
  _ ← set_bits (OMAP_HSMMC_CAPA base) (Z.lor VS30_3V0SUP VS18_1V8SUP);
  v ← rd (OMAP_HSMMC_CON base);
  _ ← wr (OMAP_HSMMC_CON base) (Z.land v RESERVED_MASK);
  _ ← mmc_clock_config base CLK_INITSEQ 0;
  _ ← set_bits (OMAP_HSMMC_HCTL base) SDBP_PWRON;
  _ ← wr (OMAP_HSMMC_IE base) 0x307f0033;
  _ ← mmc_init_stream base;
  mret 1.

(** A value of the status register that is not zero. *)
Definition next_stat (base : Z) : M Z := poll (OMAP_HSMMC_STAT base) (λ v, negb (v =? 0)).

(** What is written for a command. *)
Definition issue (base cmd arg : Z) : M unit :=
  let cmd_index := Z.shiftr cmd 24 in
  _ ← poll (OMAP_HSMMC_PSTATE base) (λ v, negb (Z.land v DATI_MASK =? DATI_CMDDIS));
  _ ← wr (OMAP_HSMMC_STAT base) 0xFFFFFFFF;
  _ ← wr (OMAP_HSMMC_ARG base) arg;
  if cmd_index =? 0x19 then wr (OMAP_HSMMC_CMD base) (Z.lor (Z.lor cmd MSBS) BCE)
  else if cmd_index =? 0xC then wr (OMAP_HSMMC_CMD base) (Z.lor cmd (Z.shiftl 3 22))
  else _ ← wr (OMAP_HSMMC_BLK base) BLEN_512BYTESLEN; wr (OMAP_HSMMC_CMD base) cmd.

(** The response is an array of four words: the result, and the array. *)
Definition response_step (base cmd : Z) (response : list Z) (_ : unit) : M (unit + Z * list Z) :=
  mmc_stat ← next_stat base;
  if flagged mmc_stat ERRI_MASK then mret (inr (u8 mmc_stat, response)) else
  if flagged mmc_stat CC_MASK then
    _ ← wr (OMAP_HSMMC_STAT base) CC_MASK;
    a ← rd (OMAP_HSMMC_RSP10 base);
    response ← lift (upd response 0 a);
    if Z.land cmd RSP_TYPE_MASK =? RSP_TYPE_LGHT136 then
      b ← rd (OMAP_HSMMC_RSP32 base); response ← lift (upd response 1 b);
      c ← rd (OMAP_HSMMC_RSP54 base); response ← lift (upd response 2 c);
      d ← rd (OMAP_HSMMC_RSP76 base); response ← lift (upd response 3 d);
      mret (inr (1, response))
    else mret (inr (1, response))
  else mret (inl tt).
Definition mmc_send_cmd (base cmd arg : Z) (response : list Z) : M (Z * list Z) :=
  _ ← issue base cmd arg;
  mloop polls (response_step base cmd response) tt.

(** The words of a block. *)
Definition read_words (base : Z) : M (list Z) :=
  mfor (replicate 128 tt) (λ _ l, w ← rd (OMAP_HSMMC_DATA base); mret (l ++ le_bytes 4 w)) [].
Definition write_words (base : Z) (block : list Z) : M unit :=
  mfor (seqZ 0 128) (λ k _, l ← lift (slice block (4 * k) 4); wr (OMAP_HSMMC_DATA base) (le_val l)) tt.

(** [off] is where [output_buf] points to in the buffer [buf]. *)
Definition read_data_step (base : Z) (x : list Z * Z) : M ((list Z * Z) + (Z * list Z)) :=
  let '(buf, off) := x in
  mmc_stat ← next_stat base;
  _ ← modify (set_stat_last mmc_stat);
  if flagged mmc_stat ERRI_MASK then mret (inr (u8 mmc_stat, buf)) else
  '(buf, off) ← (if flagged mmc_stat BRR_MASK then
      _ ← set_bits (OMAP_HSMMC_STAT base) BRR_MASK;
      l ← read_words base;
      buf ← lift (blit buf off l);
      mret (buf, off + 512)
    else mret (buf, off));
  _ ← (if flagged mmc_stat BWR_MASK then set_bits (OMAP_HSMMC_STAT base) BWR_MASK else mret tt);
  if flagged mmc_stat TC_MASK then _ ← set_bits (OMAP_HSMMC_STAT base) TC_MASK; mret (inr (1, buf))
  else mret (inl (buf, off)).
Definition mmc_read_data (base : Z) (buf : list Z) (off : Z) : M (Z * list Z) := mloop polls (read_data_step base) (buf, off).

(** [input_buf] to the end of its object; the number of blocks. *)
Definition write_data_step (base : Z) (input_buf : list Z) (count : Z) : M (Z + Z) :=
  mmc_stat ← next_stat base;
  if flagged mmc_stat ERRI_MASK then mret (inr (-1)) else
  count ← (if flagged mmc_stat BWR_MASK then
      _ ← set_bits (OMAP_HSMMC_STAT base) BWR_MASK;
      block ← lift (slice input_buf (512 * count) 512);
      _ ← write_words base block;
      mret (count + 1)
    else mret count);
  _ ← (if flagged mmc_stat BRR_MASK then set_bits (OMAP_HSMMC_STAT base) BRR_MASK else mret tt);
  if flagged mmc_stat TC_MASK then _ ← set_bits (OMAP_HSMMC_STAT base) TC_MASK; mret (inr count)
  else mret (inl count).
Definition mmc_write_data (base : Z) (input_buf : list Z) : M Z := mloop polls (write_data_step base input_buf) 0.

(** ** The card *)

Definition BUSY : Z := 0x80000000.

(** A command after which the function returns unless it succeeded; the
    response is in the same array. *)
Definition then_ {A} (x : M (Z * list Z)) (fail : Z → A) (k : list Z → M A) : M A :=
  '(err, resp) ← x; if negb (err =? 1) then mret (fail err) else k resp.

(** The wait for the card to be powered up: the OCR, or the error. *)
Definition ocr_step (i base cmd41 ocr_value : Z) (x : Z * Z * list Z) : M ((Z * Z * list Z) + (Z * list Z + Z)) :=
  let '(ocr_recvd, retry_cnt, resp) := x in
  if negb (flagged ocr_recvd BUSY) && (0 <? retry_cnt) then
    c ← card i;
    '(_, resp) ← (if card_type c =? SD_CARD then mmc_send_cmd base MMC_CMD55 0 resp else mret (1, resp));
    then_ (mmc_send_cmd base cmd41 ocr_value resp) (λ err, inr (inr err))
      (λ resp, v ← lift (idx resp 0); mret (inl (v, retry_cnt - 1, resp)))
  else mret (inr (inl (ocr_recvd, resp))).

(** From the OCR on. *)
Definition detect_rest (i base ocr_value ocr_recvd : Z) (resp : list Z) : M Z :=
  if negb (flagged ocr_recvd BUSY) then mret 0 else
  c ← card i;
  let mask := if card_type c =? MMC_CARD then MMC_OCR_REG_ACCESS_MODE_MASK else MMC_OCR_REG_HOST_CAPACITY_SUPPORT_MASK in
  let sector := if card_type c =? MMC_CARD then MMC_OCR_REG_ACCESS_MODE_SECTOR else MMC_OCR_REG_HOST_CAPACITY_SUPPORT_SECTOR in
  _ ← set_mode i (if Z.land ocr_recvd mask =? sector then SECTOR_MODE else BYTE_MODE);
  let ocr_recvd := Z.ldiff (Z.ldiff ocr_recvd mask) BUSY in
  if Z.land ocr_recvd ocr_value =? 0 then mret 0 else
  then_ (mmc_send_cmd base MMC_CMD2 ocr_value resp) id (λ resp,
  c ← card i;
  err ← (if card_type c =? MMC_CARD then
      then_ (mmc_send_cmd base MMC_CMD3 (u32 (Z.shiftl (RCA c) 16)) resp) id (λ _, mret 1)
    else
      then_ (mmc_send_cmd base MMC_SDCMD3 0 resp) id (λ resp,
        v ← lift (idx resp 0); _ ← set_RCA i (Z.shiftr v 16); mret 1));
  if negb (err =? 1) then mret err else
  _ ← clear_bits (OMAP_HSMMC_CON base) OD;
  _ ← set_bits (OMAP_HSMMC_CON base) 0;
  mret 1).

Definition mmc_detect_card (i : Z) : M Z :=
  t ← cont i;
  let base := cont_base t in
  err ← mmc_clock_config base CLK_400KHZ 0;
  if negb (err =? 1) then mret err else
  _ ← set_RCA i MMC_RELATIVE_CARD_ADDRESS;
  let ocr_value := if cont_slot t =? 0 then Z.shiftl 0x1FF 15 else if cont_slot t =? 1 then 0x80 else 0 in
  then_ (mmc_send_cmd base MMC_CMD0 0 resp0) id (λ resp,
  '(err, resp) ← mmc_send_cmd base MMC_SDCMD8 (Z.lor SD_CMD8_CHECK_PATTERN SD_CMD8_2_7_3_6_V_RANGE) resp;
  let hcs_val := if err =? 1 then MMC_OCR_REG_HOST_CAPACITY_SUPPORT_SECTOR else MMC_OCR_REG_HOST_CAPACITY_SUPPORT_BYTE in
  '(err, resp) ← mmc_send_cmd base MMC_CMD55 0 resp;
  '(ocr_value, cmd41) ← (if err =? 1 then
      _ ← set_type i SD_CARD; mret (Z.lor ocr_value hcs_val, MMC_ACMD41)
    else
      _ ← set_type i MMC_CARD;
      _ ← clear_bits (OMAP_HSMMC_CON base) OD;
      _ ← set_bits (OMAP_HSMMC_CON base) OPENDRAIN;
      mret (Z.lor ocr_value MMC_OCR_REG_ACCESS_MODE_SECTOR, MMC_CMD1));
  then_ (mmc_send_cmd base cmd41 ocr_value resp) id (λ resp,
  ocr_recvd ← lift (idx resp 0);
  o ← mloop 2001 (ocr_step i base cmd41 ocr_value) (ocr_recvd, 2000, resp);
  match o with
  | inr err => mret err
  | inl (ocr_recvd, resp) => detect_rest i base ocr_value ocr_recvd resp
  end)).

(** The size in sectors. *)
Definition mmc_read_cardsize (base i : Z) (csd : list Z) : M Z :=
  c ← card i;
  if mode c =? SECTOR_MODE then
    if card_type c =? SD_CARD then
      lsb ← lift (sd2_c_size_lsb csd); msb ← lift (sd2_c_size_msb csd);
      let size := u32 ((Z.lor lsb (Z.shiftl msb 16) + 1) * 1024) in
      _ ← set_size i size;
      mret (if size =? 0 then 0 else 1)
    else
      then_ (mmc_send_cmd base MMC_CMD8 0 resp0) id (λ _,
      then_ (mmc_read_data base ext_csd0 0) id (λ ext_csd,
      l ← lift (slice ext_csd 212 4);
      _ ← set_size i (if le_val l =? 0 then 8388608 else le_val l);
      mret 1))
  else
    mult ← lift (csd_c_size_mult csd);
    if 8 <=? mult then mret 0 else
    len ← lift (csd_read_bl_len csd);
    if 12 <=? len then mret 0 else
    lsb ← lift (csd_c_size_lsb csd); msb ← lift (csd_c_size_msb csd);
    let blk_no := u32 ((Z.lor lsb (Z.shiftl msb 2) + 1) * 2 ^ (mult + 2)) in
    let size := u32 (blk_no * 2 ^ len) / MMCSD_SECTOR_SIZE in
    _ ← set_size i size;
    mret (if size =? 0 then 0 else 1).

(** ** Sectors *)

Definition sectors_of (num_bytes : Z) : Z := u32 (num_bytes + (MMCSD_SECTOR_SIZE - 1)) / MMCSD_SECTOR_SIZE.
(** The argument for a sector, and the step to the next. *)
Definition first_arg (c : mmc_card_data) (start_sec : Z) : Z * Z :=
  if mode c =? SECTOR_MODE then (start_sec, 1) else (u32 (start_sec * MMCSD_SECTOR_SIZE), MMCSD_SECTOR_SIZE).

Definition read_sect_step (base sec_inc_val : Z) (x : Z * Z * Z * list Z * list Z) : M ((Z * Z * Z * list Z * list Z) + (Z * list Z)) :=
  let '(num_sec_val, argument, off, buf, resp) := x in
  if num_sec_val =? 0 then mret (inr (1, buf)) else
  then_ (mmc_send_cmd base MMC_CMD17 argument resp) (λ err, inr (err, buf)) (λ resp,
  '(err, buf) ← mmc_read_data base buf off;
  mret (if negb (err =? 1) then inr (err, buf)
        else inl (num_sec_val - 1, u32 (argument + sec_inc_val), off + MMCSD_SECTOR_SIZE, buf, resp))).
(** The result and the buffer. *)
Definition omap_mmc_read_sect (start_sec num_bytes i : Z) (buf : list Z) : M (Z * list Z) :=
  t ← cont i;
  let num_sec_val := sectors_of num_bytes in
  if num_sec_val =? 0 then mret (1, buf) else
  c ← card i;
  let '(argument, sec_inc_val) := first_arg c start_sec in
  mloop (S (Z.to_nat num_sec_val)) (read_sect_step (cont_base t) sec_inc_val) (num_sec_val, argument, 0, buf, resp0).

(** The command that begins to write some blocks: [None] for success. *)
Definition start_write (base blk_cnt argument : Z) (resp : list Z) (counted : bool) : M (option Z * list Z) :=
  if 1 <? blk_cnt then
    '(err, resp) ← (if counted then mmc_send_cmd base MMC_CMD23 blk_cnt resp else mret (1, resp));
    if negb (err =? 1) then mret (Some err, resp) else
    _ ← wr (OMAP_HSMMC_BLK base) (Z.lor BLEN_512BYTESLEN (Z.shiftl blk_cnt 16));
    '(err, resp) ← mmc_send_cmd base MMC_CMD25 argument resp;
    mret (if negb (err =? 1) then Some err else None, resp)
  else
    '(err, resp) ← mmc_send_cmd base MMC_CMD24 argument resp;
    mret (if negb (err =? 1) then Some err else None, resp).

Definition write_sect_step (base sec_inc_val : Z) (x : Z * Z * list Z * list Z) : M ((Z * Z * list Z * list Z) + Z) :=
  let '(num_sec_val, argument, input_buf, resp) := x in
  if num_sec_val =? 0 then mret (inr 1) else
  let blk_cnt := if 0xFFFF <? num_sec_val then 0xFFFF else num_sec_val in
  '(o, resp) ← start_write base blk_cnt argument resp true;
  match o with
  | Some err => mret (inr err)
  | None =>
      r ← mmc_write_data base input_buf;
      if r <? 0 then mret (inr 1) else
      mret (inl (u32 (num_sec_val - r), u32 (argument + sec_inc_val * r), drop (Z.to_nat (512 * r)) input_buf, resp))
  end.
(** [rounds] bounds the number of commands. *)
Definition omap_mmc_write_sect (rounds : nat) (input_buf : list Z) (num_bytes i start_sec : Z) : M Z :=
  t ← cont i;
  let num_sec_val := sectors_of num_bytes in
  if num_sec_val =? 0 then mret 1 else
  c ← card i;
  let '(argument, sec_inc_val) := first_arg c start_sec in
  mloop rounds (write_sect_step (cont_base t) sec_inc_val) (num_sec_val, argument, input_buf, resp0).

(** A block of ones for every block the controller asks for; the result is an
    error. *)
Definition erase_data_step (base : Z) (_ : unit) : M (unit + option Z) :=
  mmc_stat ← next_stat base;
  if flagged mmc_stat ERRI_MASK then mret (inr (Some (u8 mmc_stat))) else
  _ ← (if flagged mmc_stat BWR_MASK then
      _ ← set_bits (OMAP_HSMMC_STAT base) BWR_MASK;
      mfor (replicate 128 tt) (λ _ _, wr (OMAP_HSMMC_DATA base) 0xFFFFFFFF) tt
    else mret tt);
  _ ← (if flagged mmc_stat BRR_MASK then set_bits (OMAP_HSMMC_STAT base) BRR_MASK else mret tt);
  if flagged mmc_stat TC_MASK then _ ← set_bits (OMAP_HSMMC_STAT base) TC_MASK; mret (inr None)
  else mret (inl tt).
Definition erase_sect_step (base sec_inc_val : Z) (x : Z * Z * list Z) : M ((Z * Z * list Z) + Z) :=
  let '(num_sec_val, argument, resp) := x in
  if num_sec_val =? 0 then mret (inr 1) else
  let blk_cnt := if 0xFFFF <? num_sec_val then 0xFFFF else num_sec_val in
  '(o, resp) ← start_write base blk_cnt argument resp false;
  match o with
  | Some err => mret (inr err)
  | None =>
      e ← mloop polls (erase_data_step base) tt;
      match e with
      | Some err => mret (inr err)
      | None =>
          '(err, resp) ← (if 1 <? blk_cnt then mmc_send_cmd base MMC_CMD12 0 resp else mret (1, resp));
          mret (if negb (err =? 1) then inr err else inl (num_sec_val - blk_cnt, u32 (argument + sec_inc_val * blk_cnt), resp))
      end
  end.
(** [size] is an [int]: the sum must not overflow. *)
Definition erase_count (size : Z) : option Z := if size + 511 <? 2 ^ 31 then Some (u32 (Z.quot (size + 511) 512)) else None.
Definition omap_mmc_erase_sect (start i size : Z) : M Z :=
  t ← cont i;
  c ← card i;
  if (card_size c <? start / MMCSD_SECTOR_SIZE) || (card_size c <? u32 (start + size) / MMCSD_SECTOR_SIZE) then mret 1 else
  num_sec_val ← lift (erase_count size);
  let '(argument, sec_inc_val) := first_arg c start in
  mloop (S (Z.to_nat num_sec_val)) (erase_sect_step (cont_base t) sec_inc_val) (num_sec_val, argument, resp0).

(** ** Setting a slot up *)

Definition configure_controller (i slot : Z) : M Z :=
  t ← cont i;
  let base := if slot =? 0 then OMAP_HSMMC1_BASE else if slot =? 1 then OMAP_HSMMC2_BASE else cont_base t in
  s ← get;
  l ← lift (upd (cur_controller_data s) i (mkCont slot base));
  _ ← modify (set_conts l);
  mret (if (slot =? 0) || (slot =? 1) then 0 else 1).

(** The status is stored where [mstatus] points to. *)
Definition mmc_send_status (i : Z) : M (Z * Z) :=
  t ← cont i; c ← card i;
  '(ret_val, resp) ← mmc_send_cmd (cont_base t) MMC_CMD13 (u32 (Z.shiftl (RCA c) 16)) resp0;
  if negb (ret_val =? 1) then s ← get; mret (ret_val, mmc_stat_last s)
  else v ← lift (idx resp 0); mret (1, v).

(** For a slot that is not set up the result has no value. *)
Definition mmc_get_status (mmc_cont : Z) : M (Z * Z) :=
  s ← get;
  b ← lift (idx (mmc_blk_dev s) mmc_cont);
  if blk_dev b =? -1 then lift None else
  '(ret_val, status) ← mmc_send_status mmc_cont;
  mret (if negb (ret_val =? 1) then (0, status) else (ret_val, status)).

Definition prg_step (i : Z) (count : Z) : M (Z + Z) :=
  if count <? RETRY_WAIT_CARD_PRG_COUNT then
    '(err, status) ← mmc_send_status i;
    if negb (err =? 1) then mret (inr err) else
    if negb (MMC_R1_CURRENT_STATE status =? MMC_R1_STATE_PRG) then mret (inr 1) else
    _ ← delay 1000;
    mret (inl (count + 1))
  else mret (inr 0).
Definition wait_card_state_prg (i : Z) : M Z := mloop 101 (prg_step i) 0.

(** The divisor of the clock for the speed of a card; a division by zero is
    undefined. *)
Definition divide (a b : Z) : option Z := if b =? 0 then None else Some (a / b).
Definition clock_divisor (trans_speed : Z) : option (option Z) :=
  let trans_unit := Z.land trans_speed MMC_CSD_TRAN_SPEED_UNIT_MASK in
  let trans_fact := Z.land trans_speed MMC_CSD_TRAN_SPEED_FACTOR_MASK in
  if MMC_CSD_TRAN_SPEED_UNIT_100MHZ <? trans_unit then Some None else
  if (trans_fact <? MMC_CSD_TRAN_SPEED_FACTOR_1_0) || (MMC_CSD_TRAN_SPEED_FACTOR_8_0 <? trans_fact) then Some None else
  e ← idx tran_exp trans_unit;
  m ← idx tran_mant (Z.shiftr trans_fact 3);
  let max_dtr := u32 (e * m) in
  dsor ← divide OMAP_MMC_MASTER_CLOCK max_dtr;
  q ← divide OMAP_MMC_MASTER_CLOCK dsor;
  Some (Some (if max_dtr <? q then dsor + 1 else dsor)).

Definition switch_arg (index value : Z) : Z :=
  Z.lor (Z.lor (Z.lor (Z.shiftl MMC_SWITCH_MODE_WRITE_BYTE 24) (Z.shiftl index 16)) (Z.shiftl value 8)) EXT_CSD_CMD_SET_NORMAL.

(** From the selection of the card on. *)
Definition configure_selected (i slot base : Z) (csd resp : list Z) : M Z :=
  c ← card i;
  then_ (mmc_send_cmd base MMC_CMD7_SELECT (u32 (Z.shiftl (RCA c) 16)) resp) id (λ resp,
  '(ret_val, resp) ← (if slot =? 1 then
      then_ (mmc_send_cmd base MMC_CMD6 (switch_arg EXT_CSD_HS_TIMING 1) resp) (λ err, (err, resp)) (λ resp,
        _ ← wait_card_state_prg i;
        r ← mmc_clock_config base CLK_MISC 2;
        mret (r, resp))
    else mret (1, resp));
  if negb (ret_val =? 1) then mret ret_val else
  then_ (mmc_send_cmd base MMC_CMD16 MMCSD_SECTOR_SIZE resp) id (λ resp,
  ret_val ← mmc_read_cardsize base i csd;
  if negb (ret_val =? 1) then mret ret_val else
  if slot =? 1 then
    then_ (mmc_send_cmd base MMC_CMD6 (switch_arg EXT_CSD_BUS_WIDTH EXT_CSD_BUS_WIDTH_8) resp) id (λ _,
      _ ← set_bits (OMAP_HSMMC_CON base) 0x20;
      _ ← wait_card_state_prg i;
      mret 1)
  else mret 1)).

Definition configure_mmc (i : Z) : M Z :=
  t ← cont i;
  let base := cont_base t in
  ret_val ← mmc_init_setup (cont_slot t) base;
  if negb (ret_val =? 1) then mret ret_val else
  ret_val ← mmc_detect_card i;
  _ ← (if negb (ret_val =? 1) then mmc_detect_card i else mret ret_val);
  c ← card i;
  then_ (mmc_send_cmd base MMC_CMD9 (u32 (Z.shiftl (RCA c) 16)) resp0) id (λ resp,
  csd ← lift (slice resp 0 4);
  c ← card i;
  _ ← (if card_type c =? MMC_CARD then v ← lift (csd_spec_vers csd); set_version i v else mret tt);
  trans_speed ← lift (csd_tran_speed csd);
  then_ (mmc_send_cmd base MMC_CMD4 (Z.shiftl MMC_DSR_DEFAULT 16) resp) id (λ resp,
  o ← lift (clock_divisor trans_speed);
  match o with
  | None => mret 0
  | Some dsor =>
      ret_val ← mmc_clock_config base CLK_MISC (u16 dsor);
      if negb (ret_val =? 1) then mret ret_val else configure_selected i (cont_slot t) base csd resp
  end)).

Definition IF_TYPE_MMC : Z := 6.

(** The device of the slot at the end is registered with the file system. *)
Definition mmc_init (slot : Z) : M Z :=
  ret ← (if (slot =? 0) || (slot =? 1) then _ ← configure_controller slot slot; configure_mmc slot else mret 1);
  s ← get;
  b ← lift (idx (mmc_blk_dev s) slot);
  b' ← (if negb (ret =? 1) then
      mret (mkBlk (if_type b) (-1) (part_type b) (lun b) (blk_type b) (blksz b) (lba b) (removable b) (block_read b))
    else
      t ← cont slot; mret (mkBlk IF_TYPE_MMC (cont_slot t) PART_TYPE_DOS 0 0 MMCSD_SECTOR_SIZE 0x10000 0 true));
  l ← lift (upd (mmc_blk_dev s) slot b');
  _ ← modify (set_blks l);
  mret 0.

(** ** The calls *)

Definition mmc_bread (dev_num blknr blkcnt : Z) (dst : list Z) : M (Z * list Z) :=
  omap_mmc_read_sect blknr (u32 (blkcnt * MMCSD_SECTOR_SIZE)) dev_num dst.

(** Whether the slot is set up. *)
Definition initialized (mmc_cont : Z) : M bool :=
  s ← get; b ← lift (idx (mmc_blk_dev s) mmc_cont); mret (negb (blk_dev b =? -1)).

Definition mmc_read (mmc_cont src : Z) (dst : list Z) (size : Z) : M (Z * list Z) :=
  ok ← initialized mmc_cont;
  if ok : bool then omap_mmc_read_sect src size mmc_cont dst else mret (1, dst).
Definition mmc_write (rounds : nat) (mmc_cont : Z) (src : list Z) (dst size : Z) : M Z :=
  ok ← initialized mmc_cont;
  if ok : bool then omap_mmc_write_sect rounds src size mmc_cont dst else mret 1.
Definition mmc_erase (mmc_cont start size : Z) : M Z :=
  ok ← initialized mmc_cont;
  if ok : bool then omap_mmc_erase_sect start mmc_cont size else mret 1.
(** The block size and the number of sectors. *)
Definition mmc_info (mmc_cont : Z) : M (Z * Z) :=
  s ← get; b ← lift (idx (mmc_blk_dev s) mmc_cont); c ← card mmc_cont; mret (blksz b, card_size c).
Definition mmc_sw_part (mmc_cont part : Z) : M Z :=
  ok ← initialized mmc_cont;
  if ok : bool then
    t ← cont mmc_cont;
    '(r, _) ← mmc_send_cmd (cont_base t) MMC_CMD6 (Z.lor (Z.lor (Z.shiftl 3 24) (Z.shiftl 0xb3 16)) (Z.shiftl (Z.land part 7) 8)) resp0;
    mret r
  else mret 1.
End driver.
