(* ===== verification/HsmmcSpec.v ===== *)
(** The driver of the memory cards, over a controller and a card that behave
    as their documentation says: reading and writing move sectors, whatever
    the delays. *)
From stdpp Require Import base tactics option list.
From Stdlib Require Import ZArith Lia.
From S2P Require Import Prelude.
From S2P Require Import MmcDev.
From S2P Require Import Eff.
From S2P Require Import CBuf.
From S2P Require Import PartDos.
From S2P Require Import Hsmmc.
Open Scope Z_scope.

(** ** A controller with a card *)

(** What it is doing: nothing; a command is sent; a block is there to be
    read, or some of it is left; blocks are wanted, or one is half written;
    the transfer ends. *)
Inductive phase :=
  | Idle
  | Pending (cmd : Z)
  | Block_out (l : list Z)
  | Fifo_out (l : list Z)
  | Blocks_in (k : Z)
  | Fifo_in (k : Z) (l : list Z)
  | Finishing.

(** With the number of times the status is still to be read as zero, the
    argument and block registers, the sector the transfer is at, the contents
    of the partitions of the card, and the partition selected. *)
Record ctl := mkCtl { ph : phase; c_wait : nat; r_arg : Z; r_blk : Z; at_sector : Z; parts : Z → disk; part : Z }.

Definition set_ph (p : phase) (n : nat) (v : ctl) : ctl := mkCtl p n (r_arg v) (r_blk v) (at_sector v) (parts v) (part v).
Definition set_arg (a : Z) (v : ctl) : ctl := mkCtl (ph v) (c_wait v) a (r_blk v) (at_sector v) (parts v) (part v).
Definition set_blk (b : Z) (v : ctl) : ctl := mkCtl (ph v) (c_wait v) (r_arg v) b (at_sector v) (parts v) (part v).
Definition set_sector (a : Z) (v : ctl) : ctl := mkCtl (ph v) (c_wait v) (r_arg v) (r_blk v) a (parts v) (part v).
Definition set_part (p : Z) (v : ctl) : ctl := mkCtl (ph v) (c_wait v) (r_arg v) (r_blk v) (at_sector v) (parts v) p.
(** A block is stored, and the next sector is the one behind. *)
Definition store_block (l : list Z) (v : ctl) : ctl :=
  mkCtl (ph v) (c_wait v) (r_arg v) (r_blk v) (at_sector v + 1)
    (λ p n, if (p =? part v) && (n =? at_sector v) then l else parts v p n) (part v).

Section controller.
(** The unit of the card: sectors, or bytes. *)
Context (by_sector : bool).

Definition sector_of_arg (a : Z) : Z := if by_sector then a else a / 512.

(** What a command does once it is acknowledged. *)
Definition begin (cmd : Z) (n : nat) (v : ctl) : ctl :=
  let i := Z.shiftr cmd 24 in
  let a := sector_of_arg (r_arg v) in
  if i =? 17 then set_ph (Block_out (parts v (part v) a)) n v
  else if i =? 24 then set_sector a (set_ph (Blocks_in 1) n v)
  else if i =? 25 then set_sector a (set_ph (Blocks_in (Z.shiftr (r_blk v) 16)) n v)
  else if (i =? 6) && (bits (r_arg v) 16 8 =? 0xb3) then set_part (bits (r_arg v) 8 3) (set_ph Idle 0 v)
  else set_ph Idle 0 v.

Section laws.
Context {W : Type} `{Controller W} (b : Z) (N : nat).

(** The status while it shows one thing only. *)
Definition shows (st m : Z) : Prop :=
  st ≠ 0 ∧ flagged st ERRI_MASK = false ∧ flagged st CC_MASK = (m =? CC_MASK) ∧ flagged st TC_MASK = (m =? TC_MASK) ∧
  flagged st BRR_MASK = (m =? BRR_MASK) ∧ flagged st BWR_MASK = (m =? BWR_MASK).
Definition status (p : phase) : option Z :=
  match p with
  | Pending _ => Some CC_MASK | Block_out _ => Some BRR_MASK | Blocks_in _ => Some BWR_MASK | Finishing => Some TC_MASK
  | _ => None
  end.

Record obeys (view : W → ctl) : Prop := mkObeys {
  (** A command can be sent. *)
  ob_pstate w : ph (view w) = Idle → ∃ w' v, reg_read (OMAP_HSMMC_PSTATE b) w = (w', v) ∧ view w' = view w ∧ Z.land v DATI_MASK = 0;
  ob_clear w : ph (view w) = Idle → view (reg_write (OMAP_HSMMC_STAT b) 0xFFFFFFFF w) = view w;
  ob_arg w a : ph (view w) = Idle → view (reg_write (OMAP_HSMMC_ARG b) a w) = set_arg a (view w);
  ob_blk w v : ph (view w) = Idle → view (reg_write (OMAP_HSMMC_BLK b) v w) = set_blk v (view w);
  ob_cmd w c : ph (view w) = Idle → ∃ n, (n <= N)%nat ∧ view (reg_write (OMAP_HSMMC_CMD b) c w) = set_ph (Pending c) n (view w);
  (** The status. *)
  ob_wait w n : c_wait (view w) = S n → ∃ w', reg_read (OMAP_HSMMC_STAT b) w = (w', 0) ∧ view w' = set_ph (ph (view w)) n (view w);
  ob_stat w m : c_wait (view w) = 0%nat → status (ph (view w)) = Some m →
    ∃ w' st, reg_read (OMAP_HSMMC_STAT b) w = (w', st) ∧ view w' = view w ∧ shows st m;
  (** What writing it does. *)
  ob_ack_cmd w c : ph (view w) = Pending c → c_wait (view w) = 0%nat →
    ∃ n, (n <= N)%nat ∧ view (reg_write (OMAP_HSMMC_STAT b) CC_MASK w) = begin c n (view w);
  ob_ack_out w l st : ph (view w) = Block_out l → c_wait (view w) = 0%nat → flagged st BRR_MASK = true →
    view (reg_write (OMAP_HSMMC_STAT b) st w) = set_ph (Fifo_out l) 0 (view w);
  ob_ack_in w k st : ph (view w) = Blocks_in k → c_wait (view w) = 0%nat → flagged st BWR_MASK = true →
    view (reg_write (OMAP_HSMMC_STAT b) st w) = set_ph (Fifo_in k []) 0 (view w);
  ob_ack_end w st : ph (view w) = Finishing → c_wait (view w) = 0%nat → flagged st TC_MASK = true →
    view (reg_write (OMAP_HSMMC_STAT b) st w) = set_ph Idle 0 (view w);
  (** Responses and data. *)
  ob_resp w r : r ∈ [OMAP_HSMMC_RSP10 b; OMAP_HSMMC_RSP32 b; OMAP_HSMMC_RSP54 b; OMAP_HSMMC_RSP76 b] →
    view (reg_read r w).1 = view w;
  ob_read w l : ph (view w) = Fifo_out l → (4 <= length l)%nat →
    ∃ w' n, (n <= N)%nat ∧ reg_read (OMAP_HSMMC_DATA b) w = (w', le_val (take 4 l)) ∧
      view w' = if (length l =? 4)%nat then set_ph Finishing n (view w) else set_ph (Fifo_out (drop 4 l)) 0 (view w);
  ob_write w k l v : ph (view w) = Fifo_in k l →
    let l' := l ++ le_bytes 4 v in
    ∃ n, (n <= N)%nat ∧ view (reg_write (OMAP_HSMMC_DATA b) v w) =
      if (length l' =? 512)%nat then set_ph (if k =? 1 then Finishing else Blocks_in (k - 1)) n (store_block l' (view w))
      else set_ph (Fifo_in k l') 0 (view w);
}.
End laws.
End controller.

Lemma upd_resp (l : list Z) i v : length l = 4%nat → 0 <= i < 4 → ∃ l', upd l i v = Some l' ∧ length l' = 4%nat.
Proof. intros Hl Hi. exists (<[Z.to_nat i := v]> l). split; [apply upd_Some; lia|]. by rewrite length_insert. Qed.

Section spec.
Context {W : Type} `{Controller W} (by_sector : bool) (b : Z) (N polls : nat) (view : W → ctl).
Context (Hob : obeys by_sector b N view) (Hpolls : Z.of_nat N + 65540 < Z.of_nat polls).
Implicit Types (s : drv W).
#[local] Abbreviation vw s := (view (hw s)).

Lemma wp_rd a s (Q : drv W → Z → Prop) : Q (set_hw (reg_read a (hw s)).1 s) (reg_read a (hw s)).2 → wp (rd a) s Q.
Proof. unfold wp, rd. by destruct (reg_read a (hw s)). Qed.
Lemma wp_rd_eq a s w v (Q : drv W → Z → Prop) : reg_read a (hw s) = (w, v) → Q (set_hw w s) v → wp (rd a) s Q.
Proof. intros E HQ. apply wp_rd. by rewrite E. Qed.
Lemma wp_wr a v s (Q : drv W → unit → Prop) : Q (set_hw (reg_write a v (hw s)) s) tt → wp (wr a v) s Q.
Proof. done. Qed.

(** ** The status register *)

Lemma wp_next_stat s m (Q : drv W → Z → Prop) : status (ph (vw s)) = Some m → (c_wait (vw s) <= N)%nat →
  (∀ w st, view w = set_ph (ph (vw s)) 0 (vw s) → shows st m → Q (set_hw w s) st) → wp (next_stat polls b) s Q.
Proof using Hob Hpolls.
  intros Hst Hn HQ. assert (c_wait (vw s) < polls)%nat as Hlt by lia. clear Hn Hpolls.
  unfold next_stat, poll. revert s Hst Hlt HQ. induction polls as [|k IH]; intros s Hst Hlt HQ; [lia|]. apply wp_mloop_S.
  unfold reg_poll_step at 1. apply wp_bind. destruct (c_wait (vw s)) as [|n] eqn:Ew.
  - destruct (ob_stat _ _ _ _ Hob (hw s) m Ew Hst) as (w' & st & E & Ev & Hs). eapply wp_rd_eq; [exact E|]. apply wp_ret.
    destruct (Z.eqb_spec st 0); [by destruct Hs|]. cbn [negb]. apply HQ; [|done]. rewrite Ev. destruct (vw s). cbn in *. by subst.
  - destruct (ob_wait _ _ _ _ Hob (hw s) n Ew) as (w' & E & Ev). eapply wp_rd_eq; [exact E|]. apply wp_ret. cbn [negb Z.eqb].
    apply IH; cbn [hw set_hw]; rewrite Ev; cbn; [done|lia|]. intros w st Hw Hs. specialize (HQ w st). cbn in HQ. apply HQ; done.
Qed.

(** Reading the status again to acknowledge what it shows. *)
Lemma wp_ack s m (Q : drv W → unit → Prop) : status (ph (vw s)) = Some m → c_wait (vw s) = 0%nat →
  (∀ w st, view w = vw s → flagged st m = true → Q (set_hw (reg_write (OMAP_HSMMC_STAT b) st w) s) tt) →
  flagged m m = true → wp (set_bits (OMAP_HSMMC_STAT b) m) s Q.
Proof using Hob.
  intros Hst Hw HQ Hm. unfold set_bits. destruct (ob_stat _ _ _ _ Hob (hw s) m Hw Hst) as (w' & st & E & Ev & _).
  apply wp_bind. eapply wp_rd_eq; [exact E|]. apply wp_wr. cbn [hw set_hw]. apply HQ; [done|].
  unfold flagged in *. rewrite Z.land_lor_distr_l, Z.land_diag in *. destruct (Z.eqb_spec (Z.lor (Z.land st m) m) 0) as [E0|]; [|done].
  apply Z.lor_eq_0_iff in E0 as [_ E0]. subst. done.
Qed.

(** ** Commands *)

Definition index_of (cmd : Z) : Z := Z.shiftr cmd 24.
(** What is written to the command register. *)
Definition wire (cmd : Z) : Z :=
  if index_of cmd =? 0x19 then Z.lor (Z.lor cmd MSBS) BCE
  else if index_of cmd =? 0xC then Z.lor cmd (Z.shiftl 3 22) else cmd.
Definition sent (cmd arg : Z) (v : ctl) : ctl :=
  let v := set_arg arg v in if (index_of cmd =? 0x19) || (index_of cmd =? 0xC) then v else set_blk BLEN_512BYTESLEN v.

Lemma wp_issue cmd arg s (Q : drv W → unit → Prop) : ph (vw s) = Idle →
  (∀ w n, (n <= N)%nat → view w = set_ph (Pending (wire cmd)) n (sent cmd arg (vw s)) → Q (set_hw w s) tt) →
  wp (issue polls b cmd arg) s Q.
Proof using Hob Hpolls.
  intros Hidle HQ. unfold issue. destruct (ob_pstate _ _ _ _ Hob (hw s) Hidle) as (w1 & v & E & Ev & Hd).
  apply wp_bind. unfold poll. assert (∃ k, polls = S k) as [k Ek] by (exists (pred polls); lia). rewrite Ek. apply wp_mloop_S. unfold reg_poll_step at 1. apply wp_bind. eapply wp_rd_eq; [exact E|].
  apply wp_ret. rewrite Hd. change (negb (0 =? DATI_CMDDIS)) with true. cbv iota.
  assert (ph (view w1) = Idle) as H1 by by rewrite Ev.
  apply wp_bind, wp_wr, wp_bind, wp_wr. cbn [hw set_hw]. set (w2 := reg_write _ 0xFFFFFFFF w1).
  assert (view w2 = vw s) as E2 by (unfold w2; rewrite (ob_clear _ _ _ _ Hob) by done; exact Ev).
  set (w3 := reg_write _ arg w2). assert (view w3 = set_arg arg (vw s)) as E3 by (unfold w3; rewrite (ob_arg _ _ _ _ Hob), E2 by (by rewrite E2); done).
  fold (index_of cmd). unfold wire, sent in HQ.
  assert (∀ w c, view w = sent cmd arg (vw s) → (∀ w n, (n <= N)%nat → view w = set_ph (Pending c) n (sent cmd arg (vw s)) → Q (set_hw w s) tt) →
    wp (wr (OMAP_HSMMC_CMD b) c) (set_hw w s) Q) as Hcmd.
  { intros w c Hw HQ'. apply wp_wr. cbn [hw set_hw]. destruct (ob_cmd _ _ _ _ Hob w c) as (n & Hn & En).
    - rewrite Hw. unfold sent. cbv zeta. by destruct (_ || _).
    - eapply HQ'; [exact Hn|]. by rewrite En, Hw. }
  unfold sent in Hcmd. destruct (index_of cmd =? 0x19) eqn:I1; cbn [orb] in *.
  - by apply Hcmd.
  - destruct (index_of cmd =? 0xC) eqn:I2; cbn [orb] in *; [by apply Hcmd|].
    apply wp_bind, wp_wr. cbn [hw set_hw]. apply Hcmd; [|done]. rewrite (ob_blk _ _ _ _ Hob), E3; [done|]. by rewrite E3.
Qed.

Lemma wp_send_cmd cmd arg resp s (Q : drv W → Z * list Z → Prop) : ph (vw s) = Idle → length resp = 4%nat →
  (∀ w n resp', (n <= N)%nat → length resp' = 4%nat → view w = begin by_sector (wire cmd) n (sent cmd arg (vw s)) → Q (set_hw w s) (1, resp')) →
  wp (mmc_send_cmd polls b cmd arg resp) s Q.
Proof using Hob Hpolls.
  intros Hidle Hl HQ. unfold mmc_send_cmd. apply wp_bind, wp_issue; [done|]. intros w n Hn Ew.
  assert (∃ k, polls = S k) as [k Ek] by (exists (pred polls); lia). rewrite Ek at 1. apply wp_mloop_S. unfold response_step at 1. apply wp_bind.
  eapply (wp_next_stat _ CC_MASK); cbn [hw set_hw]; rewrite Ew; [done|exact Hn|]. intros w1 st Ew1 (_ & He & Hc & _).
  rewrite He, Hc. change (CC_MASK =? CC_MASK) with true. cbv iota. apply wp_bind, wp_wr. cbn [hw set_hw].
  destruct (ob_ack_cmd _ _ _ _ Hob w1 (wire cmd)) as (n2 & Hn2 & E2); [by rewrite Ew1|by rewrite Ew1|].
  assert (view (reg_write (OMAP_HSMMC_STAT b) CC_MASK w1) = begin by_sector (wire cmd) n2 (sent cmd arg (vw s))) as E3 by (rewrite E2, Ew1; reflexivity).
  clear E2. generalize dependent (reg_write (OMAP_HSMMC_STAT b) CC_MASK w1). intros w2 E3.
  assert (∀ r l i s' (k : list Z → ST (drv W) (unit + Z * list Z)) Q', r ∈ [OMAP_HSMMC_RSP10 b; OMAP_HSMMC_RSP32 b; OMAP_HSMMC_RSP54 b; OMAP_HSMMC_RSP76 b] →
    length l = 4%nat → 0 <= i < 4 → (∀ w l', view w = vw s' → length l' = 4%nat → wp (k l') (set_hw w s') Q') →
    wp (a ← rd r; l' ← lift (upd l i a); k l') s' Q') as Hr.
  { intros r l i s' k' Q' Hr Hl' Hi Hk. apply wp_bind, wp_rd, wp_bind. destruct (upd_resp l i (reg_read r (hw s')).2 Hl' Hi) as (l' & E & Hl2).
    eapply wp_lift; [exact E|]. apply Hk; [|done]. by apply (ob_resp _ _ _ _ Hob). }
  apply Hr; [rewrite !elem_of_cons; tauto|done|done|]. intros w3 l3 Ew3 Hl3. cbn [hw set_hw] in *.
  case_match; [|apply wp_ret; eapply HQ; [exact Hn2|done|by rewrite Ew3]].
  apply Hr; [rewrite !elem_of_cons; tauto|done|done|]. intros w4 l4 Ew4 Hl4. cbn [hw set_hw] in *.
  apply Hr; [rewrite !elem_of_cons; tauto|done|done|]. intros w5 l5 Ew5 Hl5. cbn [hw set_hw] in *.
  apply Hr; [rewrite !elem_of_cons; tauto|done|done|]. intros w6 l6 Ew6 Hl6. cbn [hw set_hw] in *.
  apply wp_ret. eapply HQ; [exact Hn2|done|by rewrite Ew6, Ew5, Ew4, Ew3].
Qed.

(** ** Reading *)

Lemma wp_read_words l v s (Q : drv W → list Z → Prop) : vw s = set_ph (Fifo_out l) 0 v → length l = 512%nat →
  bytes l → (∀ w n, (n <= N)%nat → view w = set_ph Finishing n v → Q (set_hw w s) l) → wp (read_words b) s Q.
Proof using Hob polls.
  intros Hv Hl Hb HQ. unfold read_words.
  eapply wp_mono.
  - apply (wp_for _ _ (λ d s' acc, let k := length d in acc = take (4 * k) l ∧ ∃ w n, (n <= N)%nat ∧ s' = set_hw w s ∧
      view w = if (k =? 128)%nat then set_ph Finishing n v else set_ph (Fifo_out (drop (4 * k) l)) 0 v)).
    + split; [done|]. exists (hw s), 0%nat. split; [lia|]. split; [by destruct s|]. by rewrite Hv.
    + intros d u todo s' acc E [-> (w & n & Hn & -> & Ew)]. assert (length d < 128)%nat as Hd.
      { apply (f_equal length) in E. rewrite length_replicate, length_app in E. cbn in E. lia. }
      destruct (Nat.eqb_spec (length d) 128); [lia|]. apply wp_bind. set (r := drop (4 * length d) l) in *.
      destruct (ob_read _ _ _ _ Hob w r) as (w' & n' & Hn' & Er & Ev'); [by rewrite Ew|unfold r; rewrite length_drop; lia|].
      eapply wp_rd_eq; [exact Er|]. apply wp_ret. rewrite length_app. cbn [length]. rewrite Nat.add_1_r.
      assert (length (take 4 r) = 4%nat) as L4 by (rewrite length_take; unfold r; rewrite length_drop; lia). split.
      * assert (le_bytes 4 (le_val (take 4 r)) = take 4 r) as ->
          by (rewrite <-L4 at 1; apply le_bytes_val; unfold r; by apply Forall_take, Forall_drop).
        replace (4 * S (length d))%nat with (4 * length d + 4)%nat by lia. unfold r. by rewrite take_take_drop.
      * exists w', n'. split; [done|]. split; [done|]. rewrite Ev', Ew. unfold r at 1. rewrite length_drop, Hl.
        destruct (Nat.eqb_spec (512 - 4 * length d) 4), (Nat.eqb_spec (S (length d)) 128); try lia; [done|].
        unfold r. rewrite drop_drop. replace (4 * S (length d))%nat with (4 * length d + 4)%nat by lia. done.
  - cbn beta. rewrite length_replicate. intros s' acc [-> (w & n & Hn & -> & Ew)]. rewrite take_ge by lia. by eapply HQ.
Qed.

(** One block and the end of the transfer. *)
Lemma wp_read_data l buf off v n s (Q : drv W → Z * list Z → Prop) : vw s = set_ph (Block_out l) n v → (n <= N)%nat →
  length l = 512%nat → bytes l → 0 <= off → off + 512 <= Z.of_nat (length buf) →
  (∀ w st, view w = set_ph Idle 0 v →
     Q (set_stat_last st (set_hw w s)) (1, take (Z.to_nat off) buf ++ l ++ drop (Z.to_nat off + 512) buf)) →
  wp (mmc_read_data polls b buf off) s Q.
Proof using Hob Hpolls.
  intros Hv Hn Hl Hb Ho Hbuf HQ. unfold mmc_read_data. assert (∃ k, polls = S (S k)) as [k Ek] by (exists (pred (pred polls)); lia).
  rewrite Ek at 1. apply wp_mloop_S. unfold read_data_step at 1. apply wp_bind.
  eapply (wp_next_stat _ BRR_MASK); rewrite Hv; [done|exact Hn|]. intros w1 st1 E1 (_ & He & _ & Ht & Hr & Hw). cbn in E1.
  apply wp_bind, wp_modify. rewrite He, Ht, Hr, Hw. change (BRR_MASK =? BRR_MASK) with true.
  change (BRR_MASK =? BWR_MASK) with false. change (BRR_MASK =? TC_MASK) with false. cbv iota. apply wp_bind, wp_bind.
  eapply (wp_ack _ BRR_MASK); cbn [hw set_hw set_stat_last]; [by rewrite E1|by rewrite E1| |done]. intros w2 st2 E2 Hf2. cbn [hw set_hw set_stat_last] in E2.
  apply wp_bind. eapply (wp_read_words l v); [|done|done|].
  { cbn [hw set_hw set_stat_last]. rewrite (ob_ack_out _ _ _ _ Hob w2 l) by (by rewrite ?E2, ?E1). by rewrite E2, E1. }
  intros w3 n3 Hn3 E3. apply wp_bind. eapply wp_lift; [apply blit_Some; rewrite ?Hl; lia|]. apply wp_ret. cbn beta iota.
  apply wp_bind, wp_ret, wp_ret. rewrite Hl.
  apply wp_mloop_S. unfold read_data_step at 1. apply wp_bind.
  eapply (wp_next_stat _ TC_MASK); cbn [hw set_hw set_stat_last]; rewrite E3; [done|exact Hn3|].
  intros w4 st4 E4 (_ & He4 & _ & Ht4 & Hr4 & Hw4). cbn in E4. apply wp_bind, wp_modify. rewrite He4, Ht4, Hr4, Hw4.
  change (TC_MASK =? TC_MASK) with true. change (TC_MASK =? BRR_MASK) with false. change (TC_MASK =? BWR_MASK) with false. cbv iota.
  apply wp_bind, wp_ret. cbn beta iota. apply wp_bind, wp_ret, wp_bind.
  eapply (wp_ack _ TC_MASK); cbn [hw set_hw set_stat_last]; [by rewrite E4|by rewrite E4| |done]. intros w5 st5 E5 Hf5. apply wp_ret.
  cbn [hw set_hw set_stat_last] in E5. specialize (HQ (reg_write (OMAP_HSMMC_STAT b) st5 w5) st4). apply HQ.
  rewrite (ob_ack_end _ _ _ _ Hob) by (by rewrite ?E5, ?E4). by rewrite E5, E4.
Qed.

(** The controller rests, with these contents of the card. *)
Definition ready (P : Z → disk) (p : Z) s : Prop := ph (vw s) = Idle ∧ parts (vw s) = P ∧ part (vw s) = p.
Definition whole (P : Z → disk) : Prop := ∀ q m, length (P q m) = 512%nat ∧ bytes (P q m).
(** Nothing but the controller has moved. *)
Definition moved s s' : Prop :=
  cur_card_data s' = cur_card_data s ∧ cur_controller_data s' = cur_controller_data s ∧ mmc_blk_dev s' = mmc_blk_dev s.
Lemma moved_trans s1 s2 s3 : moved s1 s2 → moved s2 s3 → moved s1 s3.
Proof. unfold moved. intros (-> & -> & ->) (-> & -> & ->). done. Qed.

Definition unit_ : Z := if by_sector then 1 else 512.
Lemma sector_of_unit a : sector_of_arg by_sector (unit_ * a) = a.
Proof. unfold sector_of_arg, unit_. destruct by_sector; [lia|]. rewrite Z.mul_comm. by apply Z.div_mul. Qed.
Lemma next_argument a n : 0 <= a → 1 <= n → unit_ * (a + n) < 2 ^ 32 → u32 (unit_ * a + unit_ * n) = unit_ * (a + n).
Proof. intros Ha Hn Hr. assert (0 < unit_) by (unfold unit_; by destruct by_sector). rewrite u32_id by (unfold is_u32; nia). nia. Qed.

Lemma then_ok {A} (x : ST (drv W) (Z * list Z)) fail (k : list Z → ST (drv W) A) s Q :
  wp x s (λ s' r, r.1 = 1 ∧ wp (k r.2) s' Q) → wp (then_ x fail k) s Q.
Proof. intros Hx. unfold then_. apply wp_bind. eapply wp_mono; [exact Hx|]. by intros s' [err resp] [E ?]; cbn in E; subst. Qed.

Lemma wp_read_loop P p (HW : whole P) n : ∀ a argument off buf resp s fuel (Q : drv W → Z * list Z → Prop),
  ready P p s → (n ≠ 0%nat → argument = unit_ * a) → 0 <= a → unit_ * (a + Z.of_nat n) <= 2 ^ 32 → length resp = 4%nat →
  0 <= off → off + 512 * Z.of_nat n <= Z.of_nat (length buf) → (n < fuel)%nat →
  (∀ s', moved s s' → ready P p s' → Q s' (1, take (Z.to_nat off) buf ++ sectors (P p) a n ++ drop (Z.to_nat off + 512 * n) buf)) →
  wp (mloop fuel (read_sect_step polls b unit_) (Z.of_nat n, argument, off, buf, resp)) s Q.
Proof using Hob Hpolls.
  induction n as [|n IH]; intros a argument off buf resp s fuel Q (Hi & HP & Hp) Harg Ha Hr Hl Ho Hb Hf HQ;
    (destruct fuel as [|fuel]; [lia|]); apply wp_mloop_S; unfold read_sect_step at 1.
  - apply wp_ret. specialize (HQ s (conj eq_refl (conj eq_refl eq_refl))). cbn [sectors app] in HQ. rewrite Nat.mul_0_r, Nat.add_0_r, take_drop in HQ.
    by apply HQ.
  - destruct (Z.eqb_spec (Z.of_nat (S n)) 0); [lia|]. apply then_ok, wp_send_cmd; [done|done|]. intros w k resp' Hk Hl' Ew.
    split; [done|]. cbn [snd]. rewrite (Harg ltac:(done)) in *. apply wp_bind.
    assert (view w = set_ph (Block_out (P p a)) k (sent MMC_CMD17 (unit_ * a) (vw s))) as Ew2.
    { rewrite Ew. change (begin by_sector (wire MMC_CMD17) k (sent MMC_CMD17 (unit_ * a) (vw s))) with
        (set_ph (Block_out (parts (vw s) (part (vw s)) (sector_of_arg by_sector (unit_ * a)))) k (sent MMC_CMD17 (unit_ * a) (vw s))).
      by rewrite sector_of_unit, HP, Hp. }
    eapply wp_read_data; [exact Ew2|exact Hk|apply HW|apply HW|done|lia|]. intros w' st Ew'. apply wp_ret. cbn beta iota.
    change (negb (1 =? 1)) with false. cbv iota. rewrite Nat2Z.inj_succ. replace (Z.succ (Z.of_nat n) - 1) with (Z.of_nat n) by lia.
    set (buf' := take _ buf ++ _). pose proof (proj1 (HW p a)) as Hl5.
    assert (length (take (Z.to_nat off) buf ++ P p a) = Z.to_nat (off + 512)) as Lp by (rewrite length_app, length_take, Hl5; lia).
    apply (IH (a + 1)); [unfold ready; cbn [hw set_hw set_stat_last]; rewrite Ew'; by split_and!| |lia|nia|done|unfold MMCSD_SECTOR_SIZE; lia| |lia|].
    + intros Hn. rewrite <-(Z.mul_1_r unit_) at 2. apply next_argument; [done|lia|]. assert (0 < unit_) by (unfold unit_; by destruct by_sector). nia.
    + unfold buf', MMCSD_SECTOR_SIZE. rewrite !length_app, length_take, length_drop, Hl5. lia.
    + intros s' Hm Hr'. specialize (HQ s'). replace (take (Z.to_nat off) buf ++ sectors (P p) a (S n) ++ drop (Z.to_nat off + 512 * S n) buf)
        with (take (Z.to_nat (off + MMCSD_SECTOR_SIZE)) buf' ++ sectors (P p) (a + 1) n ++ drop (Z.to_nat (off + MMCSD_SECTOR_SIZE) + 512 * n) buf') in HQ.
      { apply HQ; [|done]. eapply moved_trans; [|exact Hm]. done. }
      assert (buf' = (take (Z.to_nat off) buf ++ P p a) ++ drop (Z.to_nat off + 512) buf) as -> by (unfold buf'; by rewrite app_assoc).
      unfold MMCSD_SECTOR_SIZE. rewrite <-Lp, take_app_length, drop_app_add, drop_drop. cbn [sectors]. rewrite <-!app_assoc. do 4 f_equal. lia.
Qed.

(** ** Writing *)

Lemma wp_write_words block k v s (Q : drv W → unit → Prop) : vw s = set_ph (Fifo_in k []) 0 v → length block = 512%nat → bytes block →
  (∀ w n, (n <= N)%nat → view w = set_ph (if k =? 1 then Finishing else Blocks_in (k - 1)) n (store_block block v) → Q (set_hw w s) tt) →
  wp (write_words b block) s Q.
Proof using Hob polls.
  intros Hv Hl Hb HQ. unfold write_words. eapply wp_mono.
  - apply (wp_for _ _ (λ d s' _, let j := length d in ∃ w n, (n <= N)%nat ∧ s' = set_hw w s ∧
      view w = if (j =? 128)%nat then set_ph (if k =? 1 then Finishing else Blocks_in (k - 1)) n (store_block block v)
               else set_ph (Fifo_in k (take (4 * j) block)) 0 v)).
    + exists (hw s), 0%nat. split; [lia|]. split; [by destruct s|]. by rewrite Hv.
    + intros d x todo s' u E (w & n & Hn & -> & Ew).
      assert (x = Z.of_nat (length d) ∧ (length d < 128)%nat) as [-> Hd].
      { assert (seqZ 0 128 !! length d = Some x) as Hx by (rewrite E; apply list_lookup_middle; done). apply lookup_seqZ in Hx. lia. }
      destruct (Nat.eqb_spec (length d) 128); [lia|]. apply wp_bind. eapply wp_lift.
      { apply slice_Some; lia. }
      apply wp_wr. cbn [hw set_hw]. set (l := take (Z.to_nat 4) _).
      assert (l = take 4 (drop (4 * length d) block)) as El by (unfold l; do 2 f_equal; lia). clearbody l.
      assert (length l = 4%nat) as L4 by (rewrite El, length_take, length_drop; lia).
      assert (le_bytes 4 (le_val l) = l) as Ele by (rewrite <-L4 at 1; apply le_bytes_val; rewrite El; by apply Forall_take, Forall_drop).
      destruct (ob_write _ _ _ _ Hob w k (take (4 * length d) block) (le_val l)) as (n' & Hn' & Ev'); [by rewrite Ew|].
      exists (reg_write (OMAP_HSMMC_DATA b) (le_val l) w), n'. split; [done|]. split; [done|]. rewrite Ev', Ele, Ew, El, take_take_drop.
      rewrite length_app, length_take. cbn [length].
      destruct (Nat.eqb_spec (Nat.min (4 * length d + 4) (length block)) 512), (Nat.eqb_spec (length d + 1) 128); try lia.
      * rewrite take_ge by lia. done.
      * by replace (4 * (length d + 1))%nat with (4 * length d + 4)%nat by lia.
  - cbn beta. rewrite length_seqZ. intros s' [] (w & n & Hn & -> & Ew). by eapply HQ.
Qed.

(** Blocks stored one after the other. *)
Fixpoint store_blocks (n : nat) (l : list Z) (v : ctl) : ctl :=
  match n with O => v | S n' => store_block (take 512 (drop (512 * n') l)) (store_blocks n' l v) end.

Lemma store_blocks_spec n l v : (512 * n <= length l)%nat →
  part (store_blocks n l v) = part v ∧ at_sector (store_blocks n l v) = at_sector v + Z.of_nat n ∧
  ∀ q, disk_eq (parts (store_blocks n l v) q) (if q =? part v then write_sectors (parts v q) (at_sector v) (take (512 * n) l) else parts v q).
Proof.
  induction n as [|n IH]; intros Hl.
  - split; [done|]. split; [cbn; lia|]. intros q. cbn [store_blocks]. rewrite Nat.mul_0_r, take_0. case_match; [|done]. by rewrite write_sectors_nil.
  - destruct IH as (Hp & Ha & Hd); [lia|]. cbn [store_blocks store_block part at_sector parts]. split; [done|]. split; [lia|].
    intros q m. cbn [parts store_block]. rewrite Hp, Ha. destruct (q =? part v) eqn:Eq; cbn [andb]; [|specialize (Hd q m); rewrite Eq in Hd; exact Hd].
    replace (512 * S n)%nat with (512 * n + 512)%nat by lia. rewrite <-take_take_drop.
    set (blk := take 512 (drop (512 * n) l)). assert (length blk = 512%nat) as Lb by (unfold blk; rewrite length_take, length_drop; lia).
    rewrite (write_sectors_app _ _ (take (512 * n) l) blk).
    2:{ rewrite length_take, Nat.min_l, Nat.mul_comm by lia. apply Nat.Div0.mod_mul. }
    rewrite length_take, Nat.min_l by lia. replace (Z.of_nat (512 * n) / 512) with (Z.of_nat n) by dm_lia.
    destruct (Z.eqb_spec m (at_sector v + Z.of_nat n)) as [->|Hne]; [by rewrite write_sectors_one|].
    rewrite (write_sectors_outside _ _ blk) by (rewrite Lb; change (Z.of_nat 512 / 512) with 1; lia).
    specialize (Hd q m). by rewrite Eq in Hd.
Qed.

Lemma wp_write_data (k : nat) input v n s (Q : drv W → Z → Prop) : vw s = set_ph (Blocks_in (Z.of_nat k)) n v → (n <= N)%nat →
  (0 < k)%nat → Z.of_nat k <= 65535 → (512 * k <= length input)%nat → bytes input →
  (∀ w, view w = set_ph Idle 0 (store_blocks k input v) → Q (set_hw w s) (Z.of_nat k)) → wp (mmc_write_data polls b input) s Q.
Proof using Hob Hpolls.
  intros Hv Hn Hk Hk2 Hl Hb HQ. unfold mmc_write_data.
  apply (wp_loop _ (λ s' count, ∃ w n (j : nat), s' = set_hw w s ∧ count = Z.of_nat j ∧ (n <= N)%nat ∧ (j <= k)%nat ∧
      view w = set_ph (if (j =? k)%nat then Finishing else Blocks_in (Z.of_nat (k - j))) n (store_blocks j input v))
    (λ count, Z.to_nat (Z.of_nat k - count))).
  - intros s' count (w & n' & j & -> & -> & Hn' & Hj & Ew). unfold write_data_step. apply wp_bind. destruct (Nat.eqb_spec j k) as [->|Hne].
    + eapply (wp_next_stat _ TC_MASK); cbn [hw set_hw]; rewrite Ew; [done|exact Hn'|]. intros w1 st1 E1 (_ & He & _ & Ht & Hr & Hw). cbn in E1.
      rewrite He, Ht, Hr, Hw. change (TC_MASK =? TC_MASK) with true. change (TC_MASK =? BRR_MASK) with false. change (TC_MASK =? BWR_MASK) with false.
      cbv iota. apply wp_bind, wp_ret, wp_bind, wp_ret, wp_bind.
      eapply (wp_ack _ TC_MASK); cbn [hw set_hw]; [by rewrite E1|by rewrite E1| |done]. intros w2 st2 E2 Hf2. apply wp_ret. cbn [hw set_hw] in E2.
      apply HQ. rewrite (ob_ack_end _ _ _ _ Hob) by (by rewrite ?E2, ?E1). by rewrite E2, E1.
    + eapply (wp_next_stat _ BWR_MASK); cbn [hw set_hw]; rewrite Ew; [done|exact Hn'|]. intros w1 st1 E1 (_ & He & _ & Ht & Hr & Hw). cbn in E1.
      rewrite He, Ht, Hr, Hw. change (BWR_MASK =? BWR_MASK) with true. change (BWR_MASK =? BRR_MASK) with false. change (BWR_MASK =? TC_MASK) with false.
      cbv iota. apply wp_bind, wp_bind. eapply (wp_ack _ BWR_MASK); cbn [hw set_hw]; [by rewrite E1|by rewrite E1| |done]. intros w2 st2 E2 Hf2.
      cbn [hw set_hw] in E2. apply wp_bind. eapply wp_lift; [apply slice_Some; lia|]. set (blk := take (Z.to_nat 512) _).
      assert (blk = take 512 (drop (512 * j) input)) as Eb by (unfold blk; do 2 f_equal; lia). clearbody blk.
      assert (length blk = 512%nat) as Lb by (rewrite Eb, length_take, length_drop; lia).
      apply wp_bind. eapply (wp_write_words blk (Z.of_nat (k - j)) (store_blocks j input v)); [|done|rewrite Eb; by apply Forall_take, Forall_drop|].
      { cbn [hw set_hw]. rewrite (ob_ack_in _ _ _ _ Hob w2 (Z.of_nat (k - j))) by (by rewrite ?E2, ?E1). by rewrite E2, E1. }
      intros w3 n3 Hn3 E3. apply wp_ret, wp_bind, wp_ret, wp_ret. split; [|lia]. exists w3, n3, (S j). split; [done|]. split; [lia|].
      split; [done|]. split; [lia|]. rewrite E3, Eb. cbn [store_blocks].
      destruct (Z.eqb_spec (Z.of_nat (k - j)) 1), (Nat.eqb_spec (S j) k); try lia; [done|].
      by replace (Z.of_nat (k - j) - 1) with (Z.of_nat (k - S j)) by lia.
  - exists (hw s), n, 0%nat. split; [by destruct s|]. split; [done|]. split; [done|]. split; [lia|].
    destruct (Nat.eqb_spec 0 k); [lia|]. rewrite Nat.sub_0_r. cbn [store_blocks]. rewrite Hv. done.
  - lia.
Qed.

Lemma block_count k : 0 <= k → Z.shiftr (Z.lor BLEN_512BYTESLEN (Z.shiftl k 16)) 16 = k.
Proof. intros Hk. rewrite Z.shiftr_lor, Z.shiftr_shiftl_l by lia. change (Z.shiftr BLEN_512BYTESLEN 16) with 0. by rewrite Z.sub_diag, Z.shiftl_0_r. Qed.

(** The card waits for the blocks. *)
Lemma wp_start_write k a resp s P p (Q : drv W → option Z * list Z → Prop) : ready P p s → 1 <= k <= 65535 → length resp = 4%nat →
  (∀ w n resp' v, (n <= N)%nat → length resp' = 4%nat → view w = set_ph (Blocks_in k) n v → parts v = P → part v = p → at_sector v = a →
     Q (set_hw w s) (None, resp')) →
  wp (start_write polls b k (unit_ * a) resp true) s Q.
Proof using Hob Hpolls.
  intros (Hi & HP & Hp) Hk Hl HQ. unfold start_write. destruct (Z.ltb_spec 1 k).
  - apply wp_bind, wp_send_cmd; [done|done|]. intros w1 n1 resp1 Hn1 Hl1 E1. change (negb (1 =? 1)) with false. cbv iota.
    apply wp_bind, wp_wr. cbn [hw set_hw]. set (x := Z.lor _ _). set (w2 := reg_write _ x w1).
    assert (view w2 = set_blk x (set_ph Idle 0 (sent MMC_CMD23 k (vw s)))) as E2.
    { unfold w2. rewrite (ob_blk _ _ _ _ Hob); rewrite E1; done. }
    apply wp_bind, wp_send_cmd; cbn [hw set_hw]; [by rewrite E2|done|]. intros w3 n3 resp3 Hn3 Hl3 E3. cbn [hw set_hw] in E3.
    change (negb (1 =? 1)) with false. cbv iota. apply wp_ret. rewrite E2 in E3.
    change (set_hw w3 (set_hw w2 (set_hw w1 s))) with (set_hw w3 s).
    set (v := sent MMC_CMD25 (unit_ * a) (set_blk x (set_ph Idle 0 (sent MMC_CMD23 k (vw s))))) in E3.
    eapply (HQ w3 n3 resp3 (set_sector (sector_of_arg by_sector (unit_ * a)) v)); [done|done| |exact HP|exact Hp|apply sector_of_unit].
    rewrite E3. change (begin by_sector (wire MMC_CMD25) n3 v) with
      (set_sector (sector_of_arg by_sector (unit_ * a)) (set_ph (Blocks_in (Z.shiftr x 16)) n3 v)).
    unfold x. by rewrite block_count by lia.
  - assert (k = 1) as -> by lia. apply wp_bind, wp_send_cmd; [done|done|]. intros w1 n1 resp1 Hn1 Hl1 E1.
    change (negb (1 =? 1)) with false. cbv iota. apply wp_ret.
    by eapply (HQ w1 n1 resp1 (set_sector (sector_of_arg by_sector (unit_ * a)) (sent MMC_CMD24 (unit_ * a) (vw s))));
      [done|done| |exact HP|exact Hp|apply sector_of_unit].
Qed.

(** The contents with some sectors written. *)
Definition written (P P' : Z → disk) (p a : Z) (l : list Z) : Prop :=
  ∀ q, disk_eq (P' q) (if q =? p then write_sectors (P q) a l else P q).

Lemma written_nil P p a : written P P p a [].
Proof. intros q. case_match; [|done]. by rewrite write_sectors_nil. Qed.

Lemma written_app P P1 P2 p a n l : (512 * n <= length l)%nat → written P P1 p a (take (512 * n) l) →
  written P1 P2 p (a + Z.of_nat n) (drop (512 * n) l) → written P P2 p a l.
Proof.
  intros Hl H1 H2 q m. specialize (H1 q). specialize (H2 q m). rewrite H2. destruct (q =? p); [|by rewrite (H1 m)].
  rewrite <-(take_drop (512 * n) l) at 2. rewrite (write_sectors_app _ _ (take (512 * n) l)).
  2:{ rewrite length_take, Nat.min_l, Nat.mul_comm by lia. apply Nat.Div0.mod_mul. }
  rewrite length_take, Nat.min_l by lia. replace (Z.of_nat (512 * n) / 512) with (Z.of_nat n) by dm_lia.
  by apply write_sectors_proper.
Qed.

Lemma wp_write_loop rounds : ∀ (n : nat) a argument input resp s P p (Q : drv W → Z → Prop),
  ready P p s → (n ≠ 0%nat → argument = unit_ * a) → 0 <= a → unit_ * (a + Z.of_nat n) <= 2 ^ 32 → length resp = 4%nat →
  (512 * n <= length input)%nat → bytes input → Z.of_nat n <= 65535 * Z.of_nat rounds →
  (∀ s' P', moved s s' → ready P' p s' → written P P' p a (take (512 * n) input) → Q s' 1) →
  wp (mloop (S rounds) (write_sect_step polls b unit_) (Z.of_nat n, argument, input, resp)) s Q.
Proof using Hob Hpolls.
  induction rounds as [|rounds IH]; intros n a argument input resp s P p Q Hr Harg Ha Hrange Hl Hin Hb Hn HQ;
    apply wp_mloop_S; unfold write_sect_step at 1; (destruct (Z.eqb_spec (Z.of_nat n) 0) as [E0|E0];
      [apply wp_ret; apply (HQ s P); [done|done|]; replace n with 0%nat by lia; apply written_nil|]); [lia|].
  rewrite (Harg ltac:(lia)). set (k := if 0xFFFF <? Z.of_nat n then 0xFFFF else Z.of_nat n).
  assert (1 <= k <= 65535 ∧ k <= Z.of_nat n ∧ Z.of_nat n - k <= 65535 * Z.of_nat rounds) as (Hk & Hkn & Hkr).
  { unfold k. destruct (Z.ltb_spec 0xFFFF (Z.of_nat n)); lia. }
  clearbody k. assert (∃ j : nat, k = Z.of_nat j) as [j ->] by (exists (Z.to_nat k); lia).
  apply wp_bind. eapply wp_start_write; [exact Hr|done|done|]. intros w1 n1 resp1 v Hn1 Hl1 E1 HvP Hvp Hva. cbn beta iota.
  apply wp_bind. eapply (wp_write_data j input v); [exact E1|exact Hn1|lia|lia|lia|done|]. intros w2 E2.
  destruct (Z.ltb_spec (Z.of_nat j) 0); [lia|]. apply wp_ret. cbn beta iota.
  assert (0 < unit_ <= 512) as Hu by (unfold unit_; by destruct by_sector).
  replace (u32 (Z.of_nat n - Z.of_nat j)) with (Z.of_nat (n - j)) by (rewrite u32_id; [lia|unfold is_u32; nia]).
  replace (Z.to_nat (512 * Z.of_nat j)) with (512 * j)%nat by lia.
  destruct (store_blocks_spec j input v ltac:(lia)) as (Sp & Sa & Sd). rewrite Hvp, HvP in *. rewrite Hva in *.
  eapply (IH (n - j)%nat (a + Z.of_nat j) _ _ _ _ (parts (store_blocks j input v)) p).
  - unfold ready. cbn [hw set_hw]. rewrite E2. split; [done|]. split; [done|]. exact Sp.
  - intros Hnj. apply next_argument; [done|lia|nia].
  - lia.
  - replace (a + Z.of_nat j + Z.of_nat (n - j)) with (a + Z.of_nat n) by lia. done.
  - done.
  - rewrite length_drop. lia.
  - by apply Forall_drop.
  - lia.
  - intros s' P' Hm Hr' Hw. eapply HQ; [|exact Hr'|]; [by eapply moved_trans; [|exact Hm]|].
    eapply (written_app _ (parts (store_blocks j input v)) _ _ _ j); [rewrite length_take; lia| |].
    + rewrite take_take, Nat.min_l by lia. exact Sd.
    + rewrite take_drop_commute in Hw. by replace (512 * j + 512 * (n - j))%nat with (512 * n)%nat in Hw by lia.
Qed.

(** ** The calls *)

(** A slot that is set up, and whose card is addressed in its unit. *)
Record set_up (i : Z) s : Prop := mkSetUp {
  su_cont : ∃ t, idx (cur_controller_data s) i = Some t ∧ cont_base t = b;
  su_card : ∃ c, idx (cur_card_data s) i = Some c ∧ mode c = if by_sector then SECTOR_MODE else BYTE_MODE;
  su_blk : ∃ d, idx (mmc_blk_dev s) i = Some d ∧ blk_dev d ≠ -1;
}.

Lemma wp_initialized i s (Q : drv W → bool → Prop) : set_up i s → Q s true → wp (initialized i) s Q.
Proof.
  intros [_ _ (d & E & Hd)] HQ. unfold initialized. apply wp_bind, wp_get, wp_bind. eapply wp_lift; [exact E|]. apply wp_ret.
  by destruct (Z.eqb_spec (blk_dev d) (-1)).
Qed.

Lemma sectors_of_count size : sectors_of size = Z.of_nat (sector_count size).
Proof. unfold sectors_of, sector_count, MMCSD_SECTOR_SIZE. pose proof (u32_range (size + 511)) as Hr. unfold is_u32 in Hr. change (512 - 1) with 511. dm_lia. Qed.

Lemma first_arg_unit c a : mode c = (if by_sector then SECTOR_MODE else BYTE_MODE) → 0 <= a → unit_ * a < 2 ^ 32 → first_arg c a = (unit_ * a, unit_).
Proof.
  intros Hm Ha Hr. unfold first_arg, unit_ in *. rewrite Hm. destruct by_sector; cbn; [by rewrite Z.mul_1_l|].
  unfold MMCSD_SECTOR_SIZE. rewrite u32_id by (unfold is_u32; lia). by rewrite Z.mul_comm.
Qed.

Context (resp0 : list Z) (Hresp0 : length resp0 = 4%nat).

Lemma unit_bounds : 1 <= unit_ <= 512.
Proof. clear. unfold unit_. destruct by_sector; lia. Qed.

Lemma wp_mmc_read P p i a size dst s (Q : drv W → Z * list Z → Prop) : whole P → set_up i s → ready P p s → 0 <= a →
  unit_ * (a + Z.of_nat (sector_count size)) <= 2 ^ 32 → 512 * Z.of_nat (sector_count size) <= Z.of_nat (length dst) →
  (∀ s', moved s s' → ready P p s' → Q s' (1, sectors (P p) a (sector_count size) ++ drop (512 * sector_count size) dst)) →
  wp (mmc_read polls resp0 i a dst size) s Q.
Proof using Hob Hpolls Hresp0.
  intros HW Hsu Hr Ha Hrange Hd HQ. unfold mmc_read. apply wp_bind, wp_initialized; [done|]. cbv iota.
  destruct Hsu as [(t & Et & Hb) (c & Ec & Hc) _]. unfold omap_mmc_read_sect, cont, card. apply wp_bind, wp_bind, wp_get. eapply wp_lift; [exact Et|].
  rewrite sectors_of_count. destruct (Z.eqb_spec (Z.of_nat (sector_count size)) 0) as [E0|E0].
  { apply wp_ret. specialize (HQ s). replace (sector_count size) with 0%nat in HQ by lia. cbn [sectors app] in HQ. by apply HQ. }
  apply wp_bind, wp_bind, wp_get. eapply wp_lift; [exact Ec|]. pose proof unit_bounds as Hu. rewrite (first_arg_unit c a Hc Ha) by nia. rewrite Hb, Nat2Z.id.
  eapply (wp_read_loop P p HW (sector_count size) a); [done|done|done|done|done|done|lia|lia|].
  intros s' Hm Hr'. by apply HQ.
Qed.

Lemma wp_mmc_write rounds P p i a size src s (Q : drv W → Z → Prop) : set_up i s → ready P p s → 0 <= a →
  unit_ * (a + Z.of_nat (sector_count size)) <= 2 ^ 32 → (512 * sector_count size <= length src)%nat → bytes src →
  Z.of_nat (sector_count size) <= 65535 * Z.of_nat rounds →
  (∀ s' P', moved s s' → ready P' p s' → written P P' p a (take (512 * sector_count size) src) → Q s' 1) →
  wp (mmc_write polls resp0 (S rounds) i src a size) s Q.
Proof using Hob Hpolls Hresp0.
  intros Hsu Hr Ha Hrange Hd Hb Hn HQ. unfold mmc_write. apply wp_bind, wp_initialized; [done|]. cbv iota.
  destruct Hsu as [(t & Et & Hbase) (c & Ec & Hc) _]. unfold omap_mmc_write_sect, cont, card. apply wp_bind, wp_bind, wp_get. eapply wp_lift; [exact Et|].
  rewrite sectors_of_count. destruct (Z.eqb_spec (Z.of_nat (sector_count size)) 0) as [E0|E0].
  { apply wp_ret. apply (HQ s P); [done|done|]. replace (sector_count size) with 0%nat by lia. apply written_nil. }
  apply wp_bind, wp_bind, wp_get. eapply wp_lift; [exact Ec|]. pose proof unit_bounds as Hu. rewrite (first_arg_unit c a Hc Ha) by nia. rewrite Hbase.
  by eapply wp_write_loop.
Qed.

(** Selecting a partition. *)
Lemma wp_mmc_sw_part P p i q s (Q : drv W → Z → Prop) : set_up i s → ready P p s → 0 <= q < 8 →
  (∀ s', moved s s' → ready P q s' → Q s' 1) → wp (mmc_sw_part polls resp0 i q) s Q.
Proof using Hob Hpolls Hresp0.
  intros Hsu (Hi & HP & Hp) Hq HQ. unfold mmc_sw_part. apply wp_bind, wp_initialized; [done|]. cbv iota.
  destruct Hsu as [(t & Et & Hbase) _ _]. unfold cont. apply wp_bind, wp_bind, wp_get. eapply wp_lift; [exact Et|]. rewrite Hbase.
  set (x := Z.lor _ _). assert (bits x 16 8 = 0xb3 ∧ bits x 8 3 = q) as [X1 X2].
  { unfold x. assert (q = 0 ∨ q = 1 ∨ q = 2 ∨ q = 3 ∨ q = 4 ∨ q = 5 ∨ q = 6 ∨ q = 7) as Hq' by lia.
    destruct Hq' as [-> | [-> | [-> | [-> | [-> | [-> | [-> | ->]]]]]]]; done. }
  apply wp_bind, wp_send_cmd; [done|done|]. intros w n resp' Hn Hl Ew. apply wp_ret, HQ; [done|].
  change (begin by_sector (wire MMC_CMD6) n (sent MMC_CMD6 x (vw s))) with
    (if bits x 16 8 =? 0xb3 then set_part (bits x 8 3) (set_ph Idle 0 (sent MMC_CMD6 x (vw s))) else set_ph Idle 0 (sent MMC_CMD6 x (vw s))) in Ew.
  rewrite X1, X2 in Ew. unfold ready. cbn [hw set_hw]. rewrite Ew. done.
Qed.
End spec.

(** ** Errors that are reported as success *)

Section errors.
Context {W : Type} `{Controller W}.
Implicit Types (s : drv W).

(** The transfer of the blocks fails. *)
Lemma write_error_hidden polls b inc num argument input resp s s1 resp1 s2 r : num ≠ 0 →
  start_write polls b (if 0xFFFF <? num then 0xFFFF else num) argument resp true s = Some (s1, (None, resp1)) →
  mmc_write_data polls b input s1 = Some (s2, r) → r < 0 →
  write_sect_step polls b inc (num, argument, input, resp) s = Some (s2, inr 1).
Proof.
  intros Hn E1 E2 Hr. unfold write_sect_step. destruct (Z.eqb_spec num 0); [done|]. rewrite (bind_eq _ _ _ _ _ E1). cbn beta iota.
  rewrite (bind_eq _ _ _ _ _ E2). by destruct (Z.ltb_spec r 0); [|lia].
Qed.

(** A response with a wrong checksum: command complete, error, and bit 17. *)
Lemma response_error_hidden k b cmd resp s w : reg_read (OMAP_HSMMC_STAT b) (hw s) = (w, 0x28001) →
  response_step (S k) b cmd resp tt s = Some (set_hw w s, inr (1, resp)).
Proof.
  intros E. unfold response_step. assert (next_stat (S k) b s = Some (set_hw w s, 0x28001)) as E1.
  { unfold next_stat, poll. rewrite mloop_S. unfold reg_poll_step, rd, mbind, st_bind. by rewrite E. }
  by rewrite (bind_eq _ _ _ _ _ E1).
Qed.

(** A slot whose card could not be configured. *)
Lemma failed_slot_reads polls resp0 i a dst size s d : idx (mmc_blk_dev s) i = Some d → blk_dev d = -1 →
  mmc_read polls resp0 i a dst size s = Some (s, (1, dst)).
Proof.
  intros E Hd. unfold mmc_read, initialized, mbind, st_bind, get, lift. rewrite E. by rewrite Hd.
Qed.

(** A slot there is not. *)
Lemma init_behind polls resp0 ext0 slot s : length (mmc_blk_dev s) = 2%nat → 2 <= slot → mmc_init polls resp0 ext0 slot s = None.
Proof.
  intros Hl Hs. unfold mmc_init. destruct (Z.eqb_spec slot 0), (Z.eqb_spec slot 1); try lia. cbn [orb].
  unfold mbind, st_bind, mret, st_ret, get, lift.
  destruct (idx (mmc_blk_dev s) slot) eqn:E; [|done]. apply idx_range in E. lia.
Qed.
End errors.

(** The divisor keeps the clock within the speed the card announces; for a
    speed of 100 MHz or more it is zero, and divided by. *)
Definition speed (t : Z) : Z := default 0 (idx tran_exp (Z.land t 7)) * default 0 (idx tran_mant (bits t 3 4)).
Lemma clock_divisor_exact t : is_byte t →
  match clock_divisor t with
  | Some (Some d) => 0 < d < 65536 ∧ OMAP_MMC_MASTER_CLOCK / d <= speed t < 100000000
  | Some None => speed t = 0
  | None => 100000000 <= speed t
  end.
Proof.
  intros Ht. assert (Forall (λ t, match clock_divisor t with
    | Some (Some d) => 0 < d < 65536 ∧ OMAP_MMC_MASTER_CLOCK / d <= speed t < 100000000
    | Some None => speed t = 0
    | None => 100000000 <= speed t end) (seqZ 0 256)) as HF.
  { assert (forallb (λ t, match clock_divisor t with
      | Some (Some d) => (0 <? d) && (d <? 65536) && (OMAP_MMC_MASTER_CLOCK / d <=? speed t) && (speed t <? 100000000)
      | Some None => speed t =? 0 | None => 100000000 <=? speed t end) (seqZ 0 256) = true) as Hb by by vm_compute.
    rewrite forallb_forall in Hb. apply Forall_forall. intros x Hx%list_elem_of_In. specialize (Hb x Hx).
    destruct (clock_divisor x) as [[d|]|]; to_prop; lia. }
  rewrite Forall_forall in HF. apply HF, elem_of_seqZ. unfold is_byte in Ht. lia.
Qed.

(** C8: [mmc_read], over a controller and a card that behave as documented:
    every sector asked for is read with a command of its own, in the unit in
    which the card is addressed, and arrives at its place in the buffer,
    whatever the delays; the rest of the buffer, the card and the driver's
    data stay as they are.  With at most [N] empty readings of the status
    between two events the loops that wait for it end. *)
Theorem mmc_read_exact {W} `{Controller W} by_sector b N polls view resp0 P p i a size dst (s : drv W)
    (Hob : obeys by_sector b N view)
    (Hpolls : Z.of_nat N + 65540 < Z.of_nat polls)
    (Hresp : length resp0 = 4%nat)
    (Hcard : whole P)
    (Hup : set_up by_sector b i s)
    (Hready : ready view P p s)
    (Ha : 0 <= a) (Hrange : unit_ by_sector * (a + Z.of_nat (sector_count size)) <= 2 ^ 32)
    (Hdst : 512 * Z.of_nat (sector_count size) <= Z.of_nat (length dst)) :
  ∃ s', mmc_read polls resp0 i a dst size s =
      Some (s', (1, sectors (P p) a (sector_count size) ++ drop (512 * sector_count size) dst)) ∧
    ready view P p s' ∧ moved s s'.
Proof.
  destruct (λ HQ, wp_elim _ _ _ (wp_mmc_read by_sector b N polls view Hob Hpolls resp0 Hresp P p i a size dst s
    (λ s' r, r = (1, sectors (P p) a (sector_count size) ++ drop (512 * sector_count size) dst) ∧ ready view P p s' ∧ moved s s')
    Hcard Hup Hready Ha Hrange Hdst HQ)) as (s' & r & E & -> & Hs'); [done|by exists s'].
Qed.

(** C7: [mmc_write], over the same controller: the sectors are written in
    commands of up to 65535 blocks, each announced with its number of blocks,
    whatever the delays; exactly the sectors of the partition selected that
    the data cover have changed, and hold the data. *)
Theorem mmc_write_exact {W} `{Controller W} by_sector b N polls view resp0 rounds P p i a size src (s : drv W)
    (Hob : obeys by_sector b N view)
    (Hpolls : Z.of_nat N + 65540 < Z.of_nat polls)
    (Hresp : length resp0 = 4%nat)
    (Hup : set_up by_sector b i s)
    (Hready : ready view P p s)
    (Ha : 0 <= a) (Hrange : unit_ by_sector * (a + Z.of_nat (sector_count size)) <= 2 ^ 32)
    (Hsrc : (512 * sector_count size <= length src)%nat) (Hbytes : bytes src)
    (Hrounds : Z.of_nat (sector_count size) <= 65535 * Z.of_nat rounds) :
  ∃ s' P', mmc_write polls resp0 (S rounds) i src a size s = Some (s', 1) ∧
    ready view P' p s' ∧ moved s s' ∧
    ∀ q, disk_eq (P' q) (if q =? p then write_sectors (P q) a (take (512 * sector_count size) src) else P q).
Proof.
  destruct (λ HQ, wp_elim _ _ _ (wp_mmc_write by_sector b N polls view Hob Hpolls resp0 Hresp rounds P p i a size src s
    (λ s' r, r = 1 ∧ ∃ P', ready view P' p s' ∧ moved s s' ∧ written P P' p a (take (512 * sector_count size) src))
    Hup Hready Ha Hrange Hsrc Hbytes Hrounds HQ)) as (s' & r & E & -> & P' & Hs'); [by intros s' P' ???; split; [|exists P']|by exists s', P'].
Qed.

(** ** A controller that makes the driver wait for everything once *)

#[local] Definition demo_base : Z := OMAP_HSMMC2_BASE.
#[local] Definition sim_read (a : Z) (v : ctl) : ctl * Z :=
  if a =? OMAP_HSMMC_STAT demo_base then
    match c_wait v with
    | S n => (set_ph (ph v) n v, 0)
    | O => (v, default 0 (status (ph v)))
    end
  else if a =? OMAP_HSMMC_DATA demo_base then
    match ph v with
    | Fifo_out l => (if (length l =? 4)%nat then set_ph Finishing 1 v else set_ph (Fifo_out (drop 4 l)) 0 v, le_val (take 4 l))
    | _ => (v, 0)
    end
  else (v, 0).
#[local] Definition sim_write (by_sector : bool) (a x : Z) (v : ctl) : ctl :=
  if a =? OMAP_HSMMC_STAT demo_base then
    match ph v with
    | Pending c => begin by_sector c 1 v
    | Block_out l => set_ph (Fifo_out l) 0 v
    | Blocks_in k => set_ph (Fifo_in k []) 0 v
    | Finishing => set_ph Idle 0 v
    | _ => v
    end
  else if a =? OMAP_HSMMC_ARG demo_base then set_arg x v
  else if a =? OMAP_HSMMC_BLK demo_base then set_blk x v
  else if a =? OMAP_HSMMC_CMD demo_base then set_ph (Pending x) 1 v
  else if a =? OMAP_HSMMC_DATA demo_base then
    match ph v with
    | Fifo_in k l =>
        let l' := l ++ le_bytes 4 x in
        if (length l' =? 512)%nat then set_ph (if k =? 1 then Finishing else Blocks_in (k - 1)) 1 (store_block l' v) else set_ph (Fifo_in k l') 0 v
    | _ => v
    end
  else v.
#[local] Instance sim (by_sector : bool) : Controller ctl := {|
  reg_read := sim_read; reg_write := sim_write by_sector; i2c_write _ _ _ v := v; udelay _ v := v |}.

Lemma sim_obeys by_sector : @obeys by_sector ctl (sim by_sector) demo_base 1 (λ v, v).
Proof.
  split; cbn [reg_read reg_write sim].
  - intros v _. exists v, 0. done.
  - intros v E. unfold sim_write. cbn. by rewrite E.
  - done.
  - done.
  - intros v c _. exists 1%nat. split; [lia|done].
  - intros v n E. unfold sim_read. cbn. rewrite E. by eexists.
  - intros v m E Es. unfold sim_read. cbn. rewrite E, Es. exists v, m. split; [done|]. split; [done|].
    destruct (ph v); try done; injection Es as <-; by split_and!.
  - intros v c E _. exists 1%nat. split; [lia|]. unfold sim_write. cbn. by rewrite E.
  - intros v l st E _ _. unfold sim_write. cbn. by rewrite E.
  - intros v k st E _ _. unfold sim_write. cbn. by rewrite E.
  - intros v st E _ _. unfold sim_write. cbn. by rewrite E.
  - intros v r Hr. unfold sim_read. repeat (apply elem_of_cons in Hr as [-> | Hr]; [done|]). by apply not_elem_of_nil in Hr.
  - intros v l E Hl. unfold sim_read. cbn. rewrite E. eexists _, 1%nat. split; [lia|]. split; [done|]. by case_match.
  - intros v k l x E. exists 1%nat. split; [lia|]. unfold sim_write. cbn. by rewrite E.
Qed.

#[local] Definition demo_contents : Z → disk := λ p n, replicate 512 (n mod 256).
#[local] Definition demo_drv : drv ctl :=
  mkDrv (mkCtl Idle 0 0 0 0 demo_contents 0) 0
    [mkCard 0 0 0 0 0; mkCard MMC_CARD 4 SECTOR_MODE 8388608 MMC_RELATIVE_CARD_ADDRESS]
    [mkCont 0 0; mkCont 1 OMAP_HSMMC2_BASE] [mkBlk 0 (-1) 0 0 0 0 0 0 false; mkBlk IF_TYPE_MMC 1 PART_TYPE_DOS 0 0 512 0x10000 0 true].

Lemma demo_set_up : set_up true demo_base 1 demo_drv.
Proof. split; by eexists. Qed.

Lemma mmc_read_exact_witness :
  ∃ s', mmc_read (H := sim true) (Z.to_nat 70000) [0; 0; 0; 0] 1 7 (replicate 1025 9) 1000 demo_drv =
    Some (s', (1, replicate 512 7 ++ replicate 512 8 ++ [9])).
Proof.
  destruct (mmc_read_exact (H := sim true) true demo_base 1 (Z.to_nat 70000) (λ v, v) [0; 0; 0; 0] demo_contents 0 1 7 1000 (replicate 1025 9) demo_drv)
    as (s' & E & _).
  - apply sim_obeys.
  - lia.
  - done.
  - intros q m. split; [done|]. apply Forall_replicate. unfold is_byte. apply Z.mod_pos_bound. lia.
  - apply demo_set_up.
  - done.
  - done.
  - done.
  - done.
  - by exists s'.
Defined.

Lemma mmc_write_exact_witness :
  ∃ s' P', mmc_write (H := sim true) (Z.to_nat 70000) [0; 0; 0; 0] 2 1 (replicate 1024 5) 7 1024 demo_drv = Some (s', 1) ∧
    parts (hw s') = P' ∧ P' 0 8 = replicate 512 5 ∧ P' 0 9 = replicate 512 9 ∧ P' 1 8 = replicate 512 8.
Proof.
  destruct (mmc_write_exact (H := sim true) true demo_base 1 (Z.to_nat 70000) (λ v, v) [0; 0; 0; 0] 1 demo_contents 0 1 7 1024 (replicate 1024 5) demo_drv)
    as (s' & P' & E & (_ & HP & _) & _ & HD).
  - apply sim_obeys.
  - lia.
  - done.
  - apply demo_set_up.
  - done.
  - done.
  - done.
  - by_eval.
  - by_eval.
  - done.
  - exists s', P'. split; [exact E|]. split; [exact HP|].
    rewrite (HD 0 8), (HD 0 9), (HD 1 8). clear. vm_compute. done.
Defined.
